(* ===== verification/_CoqProject ===== *)
-Q . S2P
Prelude.v
Numeric.v
DecimalModel.v
Domain.v
InterbankTables.v
Tables.v
Store.v
StoreFacts.v
Calculations.v
OrderRepo.v
OrderRepoFacts.v
Lifecycle.v
Market.v
Interfaces.v
FundsManager.v
FundsFacts.v
Scenario.v
FundsSafety.v
FundsRounding.v
PublicShares.v
FundsTransfers.v
Actuaries.v
TradingService.v
ServiceFacts.v
RequestSpecs.v
PlacementSpec.v
Engine.v
EngineFacts.v
EngineRefinement.v
EngineSpecs.v
Examples.v
InterbankRepo.v
InterbankExecutor.v
InterbankCoordinator.v
InterbankFacts.v
InterbankSafety.v
InterbankAgreement.v
InterbankDelivery.v
InterbankPayment.v
InterbankExamples.v
GoMath.v
Loans.v
LoanRepo.v
LoanFacts.v
LoanCollection.v
LoanDecisions.v
LoanLifecycle.v
LoanJob.v
LoanExamples.v
AccountRepo.v
PaymentRepo.v
PaymentFacts.v
PaymentRuns.v
PaymentLifecycle.v
PaymentSpecs.v
PaymentOrders.v
AccountTypes.v
PaymentExamples.v
OtcRepo.v
OtcSaga.v
OtcFacts.v
OtcSagaFacts.v
OtcOffers.v
OtcOutcome.v
OtcExamples.v
CardNumbers.v
Cards.v
CardHandlers.v
CardLimits.v
CardRuns.v
CardSpecs.v
CardExamples.v
Tax.v
TaxFacts.v
TaxRuns.v
TaxExamples.v
InvestmentFunds.v
FundFacts.v
FundBooks.v
Dividends.v
