(* ===== verification/Prelude.v ===== *)
(** * EXBanka bank-service, modelled and verified

    The repository is a bank backend in Go: services/bank-service behind gRPC and
    HTTP, services/user-service and services/notification-service, generated protobuf
    code and vendored libraries.  The development models the business logic of
    bank-service on the tables of the schema core_banking.  Paths below are relative
    to src/services/bank-service/internal/.

    ** How the program works

    - Trading.  A request reaches the trading service, which validates it, decides
      whether a supervisor must approve it, stores the order and reserves money for a
      purchase.  The execution engine polls approved orders, starts a goroutine for
      each, waits for prices and for the exchange, and executes the order in fills,
      one database transaction each.
    - Interbank payments.  The coordinator of the initiating bank prepares its own
      postings, asks the other bank for its vote and commits or rolls back; messages
      are logged with idempotency keys and retried.
    - Loans.  Applications are decided by employees; a daily job collects the
      instalments that are due and punishes late ones.
    - Payments.  An order of payment is executed when its one-time code is entered;
      accounts have limits, which change after a confirmation on the mobile
      application.
    - Over-the-counter options.  Offers are negotiated under the cap of the seller's
      published shares; exercising a contract is a saga with compensations.
    - Cards.  A request waits in Redis for a code; cards are issued under limits.
    - Tax.  A monthly worker or a supervisor collects the tax on the gains of sales.
    - Investment funds.  Clients invest in and withdraw from funds, whose securities are
      sold when cash is short; a worker pays dividends once a quarter.

    All of them move money on the rows of racun; rates come from one list.

    ** The modelling

    [Store]: the database [DB] (one field per table, a NUMERIC column as the integer
    number of its last unit), the environment [Env] and the monad [M]: explicit state,
    Go's (value, error) as [result].  [Env] is an oracle indexed by the number of the
    external call: which statement fails, what the market, the clock, the random
    generator, the other bank and the context answer, what other actors do to the
    database during a wait.  A theorem over all [Env] holds for every failure schedule
    and every market.  [Transaction] rolls back on an error and, as in PostgreSQL, a
    failed statement aborts its transaction; [try] is an error that the code ignores
    or inspects.  [StoreFacts] has the inversion lemmas, [preserves] (what every run of
    a computation does to the tables, compositional) and its hint databases.
    [Domain], [Tables] and [InterbankTables] hold the types and rows, [Numeric] the
    rounding of DECIMAL columns, int32 arithmetic and float64 as the binary64 of
    [SpecFloat], [GoMath] what is used of Go's math and time.

    Code outside the repository is a parameter: shopspring/decimal and the driver's
    encodings are [decimal.Lib] with the documented [decimal.Laws], of which
    [DecimalModel] is an instance that computes; [pg.Text] is PostgreSQL's UUID and
    ILIKE, [TaxServer] its float8 cast and advisory locks, [UserClient] and
    [TaxUserClient] the user service, [verify] the JWT library, [DividendListings] the
    listings the refresher has written.  The Go interfaces FundsManager and
    MarginChecker are the classes of [Interfaces], with laws: the trading service and
    the engine are verified against the laws, [FundsFacts] and [Actuaries] discharge
    them.

    ** Trading

    [Calculations] (trading/calculations.go), [OrderRepo], [OrderRepoFacts]
    (repository/order_repository.go), [Market] (service/exchange_service.go,
    service/listing_service.go, trading/worker/listing_market_adapter.go),
    [FundsManager] (repository/funds_manager.go), [Actuaries]
    (repository/margin_checker.go, repository/actuary_repository.go,
    service/actuary_service.go), [TradingService] (trading/service.go), [Engine]
    (trading/worker/engine.go and the fund hooks of
    repository/investment_fund_repository.go).

    - [Lifecycle]: the specification of the order tables, a step relation
      [market_step], and its invariant by rule induction (well-formed orders, fills
      that add up, no negative holdings).
    - [ServiceFacts], [EngineFacts], [EngineRefinement]: requests, goroutines and ticks
      refine the lifecycle, whatever fails and however they interleave at the sleeps;
      composed, the trading system is safe in every reachable state.
    - [PlacementSpec], [RequestSpecs], [EngineSpecs]: what each request answers and
      does, atomic fills, termination of the loop, limits of agents kept.
    - [FundsSafety], [FundsRounding], [FundsTransfers], [PublicShares]: the account
      invariant, reservations and releases, conservation to the cent, published shares
      capped by holdings.
    - [Scenario], [Examples]: a small bank in which the theorems are applied.

    ** Interbank

    [InterbankRepo] (repository/interbank_repository.go), [InterbankExecutor]
    (service/local_transaction_executor.go), [InterbankCoordinator]
    (service/transaction_coordinator.go, service/interbank_message_service.go).
    [InterbankFacts] and [InterbankSafety] say what one bank's operations do;
    [InterbankAgreement] runs two banks over a network that loses, repeats and
    reorders: a transaction committed by the participant is committed by the
    initiator.  [InterbankDelivery]: an incoming message takes effect at most once, is
    answered again from the log, and a retry batch delivers what is due.
    [InterbankPayment]: the outcome of a payment, answer by answer.
    [InterbankExamples] applies them.

    ** Loans

    [Loans] (service/kredit_service.go), [LoanRepo] (repository/kredit_repository.go,
    worker/installment_worker.go).  [LoanFacts] inverts the operations;
    [LoanDecisions]: a request is decided once and completely; [LoanCollection]: the
    job moves exactly what the instalments say; [LoanLifecycle]: the invariant of the
    loan tables in every interleaving; [LoanJob]: with a working database everything
    due is attempted and collected.  [LoanExamples].

    ** Payments and accounts

    [AccountRepo] (repository/account_repository.go, service/account_service.go),
    [PaymentRepo] (repository/payment_repository.go, service/payment_service.go,
    handler/exchange_handler.go).  [PaymentFacts], [PaymentRuns]: every run of a
    verification; [PaymentSpecs]: it refines its specification, conserves money, and
    executes what can be executed; [PaymentLifecycle]: orders and actions in every
    interleaving; [PaymentOrders]: three wrong codes, account numbers; [AccountTypes]:
    the tables, those of firms and recipients with them, stay typed and their keys
    unique.  [PaymentExamples].

    ** Over-the-counter options

    [OtcRepo] (repository/otc_repository.go, repository/otc_payment.go,
    service/otc_service.go), [OtcSaga] (service/otc_contract_service.go,
    repository/otc_saga_repository.go, worker/otc_contract_expiry_worker.go).
    [OtcFacts], [OtcSagaFacts]: frames; [OtcOffers]: nobody promises more shares than
    he published for days to come (what settles today is not counted), accepted deals
    are kept; [OtcOutcome]: an execution that ends COMPLETED moved the right amounts on
    the accounts that are active, one that was compensated moved nothing.
    [OtcExamples].

    ** Cards

    [CardNumbers] (Luhn check, codes, SHA-256, HMAC), [Cards]
    (repository/kartica_repository.go, transport/redis_client.go,
    service/kartica_service.go), [CardHandlers] (handler/kartica_handler.go,
    handler/klient_kartice_handler.go, part of handler/grpc_handler.go).
    [CardLimits]: the rules of cards as an invariant, by a weakest precondition;
    [CardRuns]: over any calls of the endpoints the rules hold and a card's life is
    bounded; [CardSpecs]: the two steps of a request.  [CardExamples].

    ** Tax

    [Tax] (service/tax_service.go, handler/tax_handler.go,
    worker/monthly_tax_worker.go).  [TaxFacts], [TaxRuns]: one collection and the charge
    its status stands for, the run of a period, the invariant of the records, a tax paid once.  [TaxExamples].

    ** Investment funds and dividends

    [InvestmentFunds] (repository/investment_fund_repository.go,
    service/investment_fund_service.go, handler/fund_handler.go,
    handler/investment_fund_handler.go, handler/internal_actuary_handler.go).
    [FundFacts]: every statement as a function of the tables, the rate each side pays;
    [FundBooks]: what an investment and a withdrawal do and when they are not refused,
    and that over any requests that name no fund's account the account of a fund agrees
    with the recorded cash; positions stay unique and not negative over any requests.
    [Dividends] (worker/dividend_worker.go, repository/dividend_payout_repository.go):
    one day a quarter, nothing paid twice that is recorded, what a holder is paid, on
    which account, and when nothing is.

    ** Fuel

    Loops that wait for the outside world take fuel and answer that they are still
    waiting ([StillWaiting], [false]) or just stop when it runs out: the loops of the
    engine and the tickers of the workers ([worker_loop], [MonthlyTaxWorker_Start],
    [DividendWorker_Start]); the safety theorems hold for every fuel.  The loop over
    fills finishes with any fuel above the open portions when the exchange is in
    session ([execute_loop_terminates]).  [generateAccountNumber] and [CreateAccount]
    draw until a check digit fits and answer [None] when [fuel] draws were not enough;
    nothing bounds the draws of the code.  The retries of the saga are the three
    attempts of the code.  All other recursion is on a list, or has a bound that its
    lemma shows to be enough ([skip_weekend], the calendar).

    ** Bounds of the model

    - Actors interleave at the waits of a goroutine or a worker; a request, a tick,
      and a stretch between two waits run without interruption.  Races between a guard
      and the write it protects are therefore findings by reading, not theorems.
    - The interbank tables are written on a connection of their own and survive a
      rollback; Redis is outside every transaction.
    - Texts are ASCII; a JSON text is the value it denotes, a body that is no JSON is
      [None]; e-mails, log lines, audit rows that nothing reads and the descriptions
      of ledger rows are left out.
    - Dates are UTC day numbers, instants seconds; times that no query reads are left
      out (the times of fills and orders are kept).
    - Rows without an ORDER BY, rows with equal keys and Go maps are read in an
      arbitrary fixed order; LIMIT 1 without an order is a choice of the environment.
    - [IsExchangeOpen], the listing table, the rate provider and the price ticks are
      answers of the environment.  NUMERIC columns hold no NaN, and crypto/rand does
      not fail.

    ** Not modelled

    - Transport: gRPC and HTTP decoding in front of trading, listings, payments,
      loans, OTC and interbank; the HTTP client of the other bank; the services that
      compose interbank OTC options out of the coordinator.
    - Providers and tables that only feed the environment: the listing refresher and
      its clients, price ticks, the exchange calendar, rate snapshots.
    - Tables nothing else reads: recurring orders, price alerts, watchlists, devices,
      audit logs; statistics for display (portfolio, profit, fund performance).
    - user-service and notification-service, server wiring, generated and vendored
      code. *)

From stdpp Require Export base tactics numbers list gmap strings option.
From Stdlib Require Export ZArith Lia.

#[global] Open Scope Z_scope.

(** ** Results: Go's [(value, error)] pairs

    A Go function returning [(x, err)] returns [Ok x] or [Err e] here.  The
    error values are the sentinels of the source; [fmt.Errorf] with [%w] keeps
    the identity that [errors.Is] tests, so a wrapped sentinel is the sentinel
    itself.  [ErrMsg] is an error built from text only and [ErrDB] any failure
    reported by the database driver.  [Panic] is a Go run-time panic. *)

Inductive error : Type :=
  (* trading/domain.go, sentinel errors *)
  | ErrOrderNotFound
  | ErrLimitPriceRequired
  | ErrInvalidOrderType
  | ErrInvalidDirection
  | ErrStopPriceRequired
  | ErrInsufficientMargin
  | ErrInvalidOrderState
  | ErrPermissionDenied
  | ErrSettlementDatePassed
  | ErrListingTypeNotAllowed
  | ErrInsufficientHoldings
  | ErrInsufficientFunds
  | ErrForexAccountNotFound
  | ErrForexCurrencyMismatch
  | ErrForexSameCurrency
  | ErrForexSameAccount
  (* domain/actuary.go *)
  | ErrActuaryNotFound
  | ErrActuaryLimitExceeded
  | ErrActuaryLimitBelowUsed
  | ErrActuaryLimitNegative
  | ErrActuaryLimitZero
  (* domain/listing.go *)
  | ErrListingNotFound
  (* domain/kredit.go *)
  | ErrKreditNotFound
  | ErrKreditniZahtevNotFound
  | ErrZahtevVecObradjen
  | ErrRataNotFound
  | ErrRataVecPlacena
  | ErrKreditForbidden
  (* domain/account.go *)
  | ErrInvalidCurrency
  | ErrInvalidPodvrsta
  | ErrAccountNotFound
  | ErrNazivVecPostoji
  | ErrNazivIsti
  | ErrPendingNotFound
  | ErrAlreadyApproved
  | ErrWrongCode
  | ErrCodeExpired
  | ErrTooManyAttempts
  | ErrPendingAlreadyExists
  (* domain/payment.go *)
  | ErrPaymentIntentNotFound
  | ErrPaymentRecipientNotFound
  | ErrPaymentAlreadyFailed
  | ErrInvalidPaymentCode
  | ErrSameAccount
  | ErrAccountNotOwned
  | ErrRecipientAccountInvalid
  | ErrDailyLimitExceeded
  | ErrMonthlyLimitExceeded
  (* domain/otc.go *)
  | ErrOTCOfferNotFound
  | ErrOTCContractNotFound
  | ErrOTCNotInPublicRegime
  | ErrOTCInsufficientCapacity
  | ErrOTCNotCounterparty
  | ErrOTCInvalidStatus
  | ErrOTCSelfTrade
  | ErrOTCSelfAccept
  | ErrOTCNotParticipant
  | ErrOTCAccountNotOwned
  | ErrOTCInsufficientFunds
  | ErrOTCSellerAccountMissing
  | ErrOTCInvalidInput
  | ErrOTCListingNotFound
  | ErrOTCContractNotBuyer
  | ErrOTCContractExpired
  | ErrOTCContractAlreadyExecuted
  | ErrOTCSagaAlreadyRunning
  (* domain/kartica.go *)
  | ErrKarticaNotFound
  | ErrKarticaLimitPremasen
  | ErrKarticaVecPostoji
  | ErrRacunNijeAktivan
  | ErrRacunNijeTvoj
  | ErrInvalidEmailFormat
  | ErrOvlascenoLiceMissingData
  | ErrOvlascenoLiceNijeDozvoljeno
  | ErrNotificationFailed
  | ErrDinaCardSamoRSD
  | ErrNepoznatTipKartice
  | ErrKarticaNijeTvoja
  | ErrKarticaVecBlokirana
  | ErrKarticaDeaktivirana
  | ErrNedozvoljenaPromenaSatusa
  | ErrKarticaVecAktivna
  | ErrCardRequestNotFound
  | ErrOTPInvalid
  | ErrOTPMaxAttempts
  | ErrPeriodAlreadyRunning
  | ErrStateAccountMissing
  | ErrUSDRateUnavailable
  | ErrDB
  | ErrMsg (s : string)
  | Panic.

#[export] Instance error_eq_dec : EqDecision error.
Proof. solve_decision. Defined.

Inductive result (A : Type) : Type :=
  | Ok (a : A)
  | Err (e : error).
Arguments Ok {A} a.
Arguments Err {A} e.

Definition is_ok {A} (r : result A) : bool :=
  match r with Ok _ => true | Err _ => false end.

(** ** Sums over lists *)

Definition zsum {A} (f : A -> Z) (l : list A) : Z :=
  foldr (fun x acc => f x + acc) 0 l.

Section zsum.
Context {A : Type}.
Implicit Types (f g : A -> Z) (l : list A).

Lemma zsum_nil f : zsum f [] = 0.
Proof. done. Qed.

Lemma zsum_cons f x l : zsum f (x :: l) = f x + zsum f l.
Proof. done. Qed.

Lemma zsum_app f l1 l2 : zsum f (l1 ++ l2) = zsum f l1 + zsum f l2.
Proof. induction l1 as [|x l1 IH]; [done|]. rewrite <- app_comm_cons, !zsum_cons, IH. lia. Qed.

Lemma zsum_perm f l1 l2 : l1 ≡ₚ l2 -> zsum f l1 = zsum f l2.
Proof. induction 1; rewrite ?zsum_cons in *; lia. Qed.

Lemma zsum_ext f g l : (forall x, x ∈ l -> f x = g x) -> zsum f l = zsum g l.
Proof.
  induction l as [|x l IH]; intros Hfg; [done|].
  rewrite !zsum_cons, IH, (Hfg x); set_solver.
Qed.

Lemma zsum_nonneg f l : (forall x, x ∈ l -> 0 <= f x) -> 0 <= zsum f l.
Proof.
  induction l as [|x l IH]; intros Hf; [done|]. rewrite zsum_cons.
  pose proof (Hf x ltac:(set_solver)). pose proof (IH ltac:(set_solver)). lia.
Qed.
End zsum.

#[global] Arguments zsum : simpl never.

(** ** Sums over finite maps (the tables keyed by their primary key) *)

Definition msum {A} (f : A -> Z) (m : gmap Z A) : Z :=
  zsum (fun kv => f kv.2) (map_to_list m).

Section msum.
Context {A : Type}.
Implicit Types (f g : A -> Z) (m : gmap Z A).

Lemma msum_empty f : msum f ∅ = 0.
Proof. unfold msum. by rewrite map_to_list_empty. Qed.

Lemma msum_insert f m i x :
  m !! i = None -> msum f (<[i:=x]> m) = f x + msum f m.
Proof.
  intros Hi. unfold msum.
  by rewrite (zsum_perm _ _ _ (map_to_list_insert m i x Hi)).
Qed.

Lemma msum_delete f m i x :
  m !! i = Some x -> msum f m = f x + msum f (delete i m).
Proof.
  intros Hi. rewrite <- (msum_insert f (delete i m) i x); [|apply lookup_delete_eq].
  by rewrite insert_delete_id.
Qed.

Lemma msum_update f m i x y :
  m !! i = Some x -> msum f (<[i:=y]> m) = msum f m - f x + f y.
Proof.
  intros Hi. rewrite <- insert_delete_eq, msum_insert by apply lookup_delete_eq.
  rewrite (msum_delete f m i x Hi). lia.
Qed.
End msum.

#[global] Arguments msum : simpl never.

Lemma msum_le {A} (f g : A -> Z) (m : gmap Z A) :
  (forall i x, m !! i = Some x -> f x <= g x) -> msum f m <= msum g m.
Proof.
  induction m as [|i x m Hi IH] using map_ind; intros H; [by rewrite !msum_empty|].
  rewrite !msum_insert by done. pose proof (H i x (lookup_insert_eq _ _ _)).
  assert (msum f m <= msum g m); [|lia]. apply IH. intros j y Hy. apply (H j).
  rewrite lookup_insert_ne; [done|congruence].
Qed.

Lemma msum_fmap {A B} (h : A -> B) (f : B -> Z) (m : gmap Z A) : msum f (h <$> m) = msum (fun x => f (h x)) m.
Proof.
  induction m as [|i x m Hi IH] using map_ind; [by rewrite fmap_empty, !msum_empty|].
  rewrite fmap_insert, !msum_insert; [by rewrite IH|done|by rewrite lookup_fmap, Hi].
Qed.

(** ** Sums over a table that changed in one row *)

Lemma msum_ext {A} (f g : A -> Z) (m : gmap Z A) :
  (forall i x, m !! i = Some x -> f x = g x) -> msum f m = msum g m.
Proof.
  intros H. unfold msum. apply zsum_ext. intros [i x] Hin%elem_of_map_to_list. cbn. by eapply H.
Qed.

Lemma msum_alter {A} (f : A -> Z) (h : A -> A) i x (m : gmap Z A) :
  m !! i = Some x -> msum f (alter h i m) = msum f m - f x + f (h x).
Proof.
  intros Hx. replace (alter h i m) with (<[i := h x]> m); [by apply msum_update|].
  apply map_eq. intros j. destruct (decide (j = i)) as [->|].
  - by rewrite lookup_insert_eq, lookup_alter_eq, Hx.
  - by rewrite lookup_insert_ne, lookup_alter_ne.
Qed.

Lemma fmap_alter_same {A B} (f : A -> B) (h : A -> A) i j (m : gmap Z A) :
  (forall a, f (h a) = f a) -> f <$> alter h i m !! j = f <$> m !! j.
Proof.
  intros Hf. destruct (decide (i = j)) as [->|].
  - rewrite lookup_alter_eq. destruct (m !! j); cbn; [by rewrite Hf|done].
  - by rewrite lookup_alter_ne.
Qed.

Lemma fmap_insert_same {A B} (f : A -> B) i j a b (m : gmap Z A) :
  m !! i = Some a -> f b = f a -> f <$> <[i := b]> m !! j = f <$> m !! j.
Proof.
  intros Ha Hf. destruct (decide (i = j)) as [->|].
  - rewrite lookup_insert_eq, Ha. cbn. by rewrite Hf.
  - by rewrite lookup_insert_ne.
Qed.

Lemma fmap_same_Some {A B} (f : A -> B) (x y : option A) a :
  f <$> y = f <$> x -> x = Some a -> exists b, y = Some b /\ f b = f a.
Proof. intros H ->. destruct y as [b|]; [|discriminate]. injection H as H. eauto. Qed.


(** ** Tactics and hints shared by the components *)

Create HintDb bank discriminated.
#[export] Hint Constants Opaque : bank.

(** Split every conjunction and existential of the context. *)
Ltac decompose_hyps :=
  repeat match goal with
  | H : _ /\ _ |- _ => destruct H
  | H : exists _, _ |- _ => destruct H
  | H : (_, _) = (_, _) |- _ => injection H as ??; subst
  | H : Ok _ = Ok _ |- _ => injection H as ?; subst
  | H : Err _ = Err _ |- _ => injection H as ?; subst
  | H : Some _ = Some _ |- _ => injection H as ?; subst
  | H : Ok _ = Err _ |- _ => discriminate H
  | H : Err _ = Ok _ |- _ => discriminate H
  | H : Some _ = None |- _ => discriminate H
  | H : None = Some _ |- _ => discriminate H
  end.
