(* ===== verification/Numeric.v ===== *)
(** * Numbers: Go's int32, PostgreSQL's NUMERIC and Go's float64

    - [int32] arithmetic with its wrap-around;
    - [NUMERIC(p, s)] columns: the exact rational of a SQL expression is
      rounded half away from zero to [s] digits when it is stored, and a value
      of more than [p] digits is refused;
    - [float64] as binary64 of the standard library's [SpecFloat]. *)

From S2P Require Import Prelude.
From Stdlib Require Import Lqa SpecFloat Qround.
From Stdlib Require Import Qabs.


From Stdlib Require Export QArith.
From Stdlib Require Import Qround Lqa SpecFloat.

#[global] Open Scope Z_scope.

(** ** 32-bit integers *)

Definition wrap32 (z : Z) : Z := (z + 2 ^ 31) mod 2 ^ 32 - 2 ^ 31.
Definition is_int32 (z : Z) : Prop := - 2 ^ 31 <= z < 2 ^ 31.
Definition int32_sub (a b : Z) : Z := wrap32 (a - b).

Lemma wrap32_id z : is_int32 z -> wrap32 z = z.
Proof. unfold is_int32, wrap32. intros H. rewrite Z.mod_small; lia. Qed.

Lemma int32_sub_exact a b : is_int32 a -> 0 <= b <= a -> int32_sub a b = a - b.
Proof. intros Ha Hb. apply wrap32_id. unfold is_int32 in *. lia. Qed.

(** ** Rounding half away from zero *)

Definition round_half_away (q : Q) : Z :=
  if Qle_bool 0 q then Qfloor (q + (1 # 2)) else - Qfloor (- q + (1 # 2)).

#[export] Instance Qfloor_proper : Proper (Qeq ==> eq) Qfloor.
Proof. intros p q H. by apply Qfloor_comp. Qed.

#[export] Instance round_half_away_proper : Proper (Qeq ==> eq) round_half_away.
Proof.
  intros p q H. unfold round_half_away.
  destruct (Qle_bool 0 p) eqn:Ep, (Qle_bool 0 q) eqn:Eq.
  - by rewrite H.
  - apply Qle_bool_iff in Ep. rewrite H in Ep. apply Qle_bool_iff in Ep. congruence.
  - apply Qle_bool_iff in Eq. rewrite <- H in Eq. apply Qle_bool_iff in Eq. congruence.
  - by rewrite H.
Qed.

Lemma Qfloor_bounds q : (inject_Z (Qfloor q) <= q < inject_Z (Qfloor q) + 1)%Q.
Proof.
  split; [apply Qfloor_le|]. pose proof (Qlt_floor q) as H.
  rewrite inject_Z_plus in H. exact H.
Qed.

Lemma Qfloor_unique q n : (inject_Z n <= q)%Q -> (q < inject_Z n + 1)%Q -> Qfloor q = n.
Proof.
  intros H1 H2. destruct (Qfloor_bounds q) as [H3 H4].
  assert (n < Qfloor q + 1)%Z by (rewrite Zlt_Qlt, inject_Z_plus; change (inject_Z 1) with 1%Q; lra).
  assert (Qfloor q < n + 1)%Z by (rewrite Zlt_Qlt, inject_Z_plus; change (inject_Z 1) with 1%Q; lra).
  lia.
Qed.

Lemma round_nonneg_eq q : (0 <= q)%Q -> round_half_away q = Qfloor (q + (1 # 2)).
Proof. intros H. unfold round_half_away. by rewrite (proj2 (Qle_bool_iff 0 q) H). Qed.

Lemma round_neg_eq q : (q < 0)%Q -> round_half_away q = - Qfloor (- q + (1 # 2)).
Proof.
  intros H. unfold round_half_away. destruct (Qle_bool 0 q) eqn:E; [|done].
  apply Qle_bool_iff in E. lra.
Qed.

Lemma round_nonneg q : (0 <= q)%Q -> 0 <= round_half_away q.
Proof.
  intros H. rewrite round_nonneg_eq by done.
  destruct (Qfloor_bounds (q + (1 # 2))) as [_ H2].
  assert (0 < Qfloor (q + (1 # 2)) + 1)%Z
    by (rewrite Zlt_Qlt, inject_Z_plus; change (inject_Z 1) with 1%Q; change (inject_Z 0) with 0%Q; lra).
  lia.
Qed.

Lemma round_inject n : round_half_away (inject_Z n) = n.
Proof.
  destruct (Z_le_gt_dec 0 n) as [Hn|Hn].
  - rewrite round_nonneg_eq by (change 0%Q with (inject_Z 0); rewrite <- Zle_Qle; lia).
    apply Qfloor_unique; lra.
  - rewrite round_neg_eq by (change 0%Q with (inject_Z 0); rewrite <- Zlt_Qlt; lia).
    rewrite (Qfloor_unique _ (- n)); [lia|rewrite inject_Z_opp; lra..].
Qed.

(** The rounding error is at most one half. *)
Lemma round_error q :
  (inject_Z (round_half_away q) - (1 # 2) <= q <= inject_Z (round_half_away q) + (1 # 2))%Q.
Proof.
  destruct (Qlt_le_dec q 0) as [H|H].
  - rewrite round_neg_eq by done. rewrite inject_Z_opp.
    pose proof (Qfloor_bounds (- q + (1 # 2))). lra.
  - rewrite round_nonneg_eq by done. pose proof (Qfloor_bounds (q + (1 # 2))). lra.
Qed.

Lemma round_mono p q : (p <= q)%Q -> round_half_away p <= round_half_away q.
Proof.
  intros H. destruct (Qlt_le_dec p 0) as [Hp|Hp], (Qlt_le_dec q 0) as [Hq|Hq].
  - rewrite !round_neg_eq by done.
    pose proof (Qfloor_resp_le (- q + (1 # 2)) (- p + (1 # 2)) ltac:(lra)). lia.
  - pose proof (round_nonneg q Hq). rewrite (round_neg_eq p Hp).
    pose proof (Qfloor_resp_le (inject_Z 0) (- p + (1 # 2))) as HF.
    rewrite Qfloor_Z in HF. change (inject_Z 0) with 0%Q in HF. pose proof (HF ltac:(lra)). lia.
  - lra.
  - rewrite !round_nonneg_eq by done. apply Qfloor_resp_le. lra.
Qed.

Lemma round_le_Z q n : (q <= inject_Z n)%Q -> round_half_away q <= n.
Proof. intros H. rewrite <- (round_inject n). by apply round_mono. Qed.

Lemma round_ge_Z q n : (inject_Z n <= q)%Q -> n <= round_half_away q.
Proof. intros H. rewrite <- (round_inject n). by apply round_mono. Qed.

(** Shifting a non-negative number by an integer shifts its rounding. *)
Lemma round_shift q n :
  (0 <= q)%Q -> (0 <= q + inject_Z n)%Q ->
  round_half_away (q + inject_Z n) = round_half_away q + n.
Proof.
  intros H1 H2. rewrite !round_nonneg_eq by done.
  pose proof (Qfloor_bounds (q + (1 # 2))).
  apply Qfloor_unique; rewrite inject_Z_plus; lra.
Qed.

(** ** NUMERIC(p, s) columns

    A column holds the integer number of its last unit: cents for
    [DECIMAL(15, 2)], millionths for [NUMERIC(18, 6)]. *)

Definition numeric_val (scale : positive) (c : Z) : Q := c # scale.

Definition numeric_store (digits : Z) (scale : positive) (q : Q) : option Z :=
  let c := round_half_away (q * inject_Z (Zpos scale)) in
  if decide (Z.abs c < 10 ^ digits) then Some c else None.

(** [DECIMAL(15, 2)]: the columns of [racun], [transakcija], [actuary_info]. *)
Definition cents (c : Z) : Q := numeric_val 100 c.
Definition store_cents (q : Q) : option Z := numeric_store 15 100 q.

(** [NUMERIC(18, 6)]: the prices of [orders] and [order_transactions]. *)
Definition micros (c : Z) : Q := numeric_val 1000000 c.
Definition store_micros (q : Q) : option Z := numeric_store 18 1000000 q.

(** The unlimited part of a store: the number of cents a value rounds to. *)
Definition to_cents (q : Q) : Z := round_half_away (q * inject_Z 100).

#[export] Instance to_cents_proper : Proper (Qeq ==> eq) to_cents.
Proof. intros p q H. unfold to_cents. by rewrite H. Qed.

Lemma cents_inject c : (cents c * inject_Z 100 == inject_Z c)%Q.
Proof. unfold cents, numeric_val, Qeq. cbn. lia. Qed.

Lemma cents_le a b : (cents a <= cents b)%Q <-> a <= b.
Proof. unfold cents, numeric_val, Qle. cbn. lia. Qed.

Lemma cents_lt a b : (cents a < cents b)%Q <-> a < b.
Proof. unfold cents, numeric_val, Qlt. cbn. lia. Qed.

Lemma cents_plus a b : (cents (a + b) == cents a + cents b)%Q.
Proof. unfold cents, numeric_val, Qeq. cbn. lia. Qed.

Lemma cents_minus a b : (cents (a - b) == cents a - cents b)%Q.
Proof. unfold cents, numeric_val, Qeq. cbn. lia. Qed.

Lemma cents_0 : (cents 0 == 0)%Q.
Proof. reflexivity. Qed.

Lemma store_cents_Some q c : store_cents q = Some c -> c = to_cents q.
Proof. unfold store_cents, numeric_store, to_cents. case_decide; congruence. Qed.

Lemma store_cents_fits q : Z.abs (to_cents q) < 10 ^ 15 -> store_cents q = Some (to_cents q).
Proof. unfold store_cents, numeric_store, to_cents. intros. by case_decide. Qed.

Lemma to_cents_cents c : to_cents (cents c) = c.
Proof. unfold to_cents. by rewrite cents_inject, round_inject. Qed.

Lemma to_cents_mono p q : (p <= q)%Q -> to_cents p <= to_cents q.
Proof.
  intros H. apply round_mono. rewrite !(Qmult_comm _ (inject_Z 100)).
  apply Qmult_le_l; [reflexivity|done].
Qed.

Lemma to_cents_nonneg q : (0 <= q)%Q -> 0 <= to_cents q.
Proof. intros H. rewrite <- (to_cents_cents 0). apply to_cents_mono. rewrite cents_0. lra. Qed.

Lemma to_cents_le q c : (q <= cents c)%Q -> to_cents q <= c.
Proof. intros H. rewrite <- (to_cents_cents c). by apply to_cents_mono. Qed.

Lemma to_cents_ge q c : (cents c <= q)%Q -> c <= to_cents q.
Proof. intros H. rewrite <- (to_cents_cents c). by apply to_cents_mono. Qed.

Lemma to_cents_shift q c :
  (0 <= q)%Q -> (0 <= cents c + q)%Q -> to_cents (cents c + q) = c + to_cents q.
Proof.
  intros H1 H2. unfold to_cents.
  assert (E : ((cents c + q) * inject_Z 100 == q * inject_Z 100 + inject_Z c)%Q)
    by (rewrite <- (cents_inject c); ring).
  rewrite E, round_shift; [lia| |rewrite <- E]; change (inject_Z 100) with (100 # 1)%Q; lra.
Qed.

(** A stored amount is within half a cent of the exact one. *)
Lemma to_cents_error q :
  (cents (to_cents q) - (1 # 200) <= q <= cents (to_cents q) + (1 # 200))%Q.
Proof.
  pose proof (round_error (q * inject_Z 100)) as [H1 H2]. fold (to_cents q) in *.
  rewrite <- (cents_inject (to_cents q)) in H1, H2. change (inject_Z 100) with (100 # 1)%Q in *. lra.
Qed.

#[export] Hint Resolve to_cents_mono to_cents_nonneg to_cents_le to_cents_ge : bank.

(** ** DECIMAL(15, 4) amounts booked on DECIMAL(15, 2) columns *)

Definition units (z : Z) : Q := numeric_val 10000 z.

Lemma units_cents s z : (cents s + units z == units (100 * s + z))%Q.
Proof. unfold cents, units, numeric_val, Qeq, Qplus. cbn. lia. Qed.

Lemma units_opp z : (- units z == units (- z))%Q.
Proof. unfold units, numeric_val, Qeq. cbn. lia. Qed.

Lemma half_up z : z mod 100 <> 50 -> (- z + 50) / 100 = - ((z + 50) / 100).
Proof.
  intros H. pose proof (Z.div_mod z 100 ltac:(lia)) as E. pose proof (Z.mod_pos_bound z 100 ltac:(lia)) as B.
  set (a := z / 100) in *. set (b := z mod 100) in *. clearbody a b. subst z.
  replace (- (100 * a + b) + 50) with ((50 - b) + (- a) * 100) by lia.
  replace (100 * a + b + 50) with ((b + 50) + a * 100) by lia. rewrite !Z.div_add by lia.
  destruct (Z_lt_le_dec b 50).
  - rewrite !Z.div_small by lia. lia.
  - replace (50 - b) with ((150 - b) + (-1) * 100) by lia. replace (b + 50) with ((b - 50) + 1 * 100) by lia.
    rewrite !Z.div_add, !Z.div_small by lia. lia.
Qed.

(** Rounding to cents, away from the halves. *)
Lemma to_cents_units z : z mod 100 <> 50 -> to_cents (units z) = (z + 50) / 100.
Proof.
  intros H. unfold to_cents.
  assert (E : forall x, (units x * inject_Z 100 + (1 # 2) == (x + 50) # 100)%Q).
  { intros x. unfold units, numeric_val, inject_Z, Qeq, Qplus, Qmult. cbn. lia. }
  destruct (Qlt_le_dec (units z * inject_Z 100) 0) as [Hn|Hp].
  - rewrite round_neg_eq by done.
    assert (N : (- (units z * inject_Z 100) == units (- z) * inject_Z 100)%Q) by (rewrite <- units_opp; ring).
    rewrite N, E. cbn [Qfloor]. rewrite half_up by done. lia.
  - rewrite round_nonneg_eq by done. by rewrite E.
Qed.

(** Such an amount moves every balance by the same number of cents. *)
Lemma to_cents_move z s : z mod 100 <> 50 -> to_cents (cents s + units z) = s + to_cents (units z).
Proof.
  intros H. rewrite units_cents, !to_cents_units; [|done|].
  - replace (100 * s + z + 50) with (z + 50 + s * 100) by lia. rewrite Z.div_add by lia. lia.
  - by rewrite Z.add_comm, Z.mul_comm, Z.mod_add by lia.
Qed.

Lemma half_opp z : z mod 100 <> 50 -> (- z) mod 100 <> 50.
Proof.
  intros H E. apply H. pose proof (Z.div_mod (- z) 100 ltac:(lia)) as D. rewrite E in D.
  replace z with (50 + (- (- z / 100) - 1) * 100) by lia. by rewrite Z.mod_add by lia.
Qed.

Lemma to_cents_move_opp z s : z mod 100 <> 50 -> to_cents (cents s - units z) = s - to_cents (units z).
Proof.
  intros H. unfold Qminus. rewrite units_opp, to_cents_move by (by apply half_opp).
  rewrite !to_cents_units by (try done; by apply half_opp). rewrite half_up by done. lia.
Qed.

(** ** float64 *)

Definition float64 : Type := spec_float.
Definition f64_prec : Z := 53.
Definition f64_emax : Z := 1024.
Definition f64_add : float64 -> float64 -> float64 := SFadd f64_prec f64_emax.
Definition f64_sub : float64 -> float64 -> float64 := SFsub f64_prec f64_emax.
Definition f64_mul : float64 -> float64 -> float64 := SFmul f64_prec f64_emax.
Definition f64_div : float64 -> float64 -> float64 := SFdiv f64_prec f64_emax.
Definition f64_ltb : float64 -> float64 -> bool := SFltb.
Definition f64_leb : float64 -> float64 -> bool := SFleb.
Definition f64_eqb : float64 -> float64 -> bool := SFeqb.
Definition f64_zero : float64 := S754_zero false.

(** Conversion of an integer: [float64(z)]. *)
Definition f64_of_Z (z : Z) : float64 := binary_normalize f64_prec f64_emax z 0 false.

(** The float64 nearest to the literal [m / 10^k], for [|m| < 2^53] and
    [k <= 22]: both operands are exact and the division rounds once. *)
Definition f64_lit (m : Z) (k : Z) : float64 := f64_div (f64_of_Z m) (f64_of_Z (10 ^ k)).

(** ** The decimal library and the database driver, as interfaces

    [github.com/shopspring/decimal] and the PostgreSQL driver are not part of
    the repository: the model takes them as parameters.  [decimal.Lib] lists the
    functions the source calls, [decimal.Laws] what their documentation promises
    about the number [val d] a decimal denotes.  Theorems that need the promises
    have a [decimal.Laws] binder; [DecimalModel] shows that they can be met. *)
#[local] Open Scope Z_scope.

Module decimal.

Class Lib : Type := {
  t : Type;
  Zero : t;
  NewFromInt : Z -> t;
  NewFromFloat : float64 -> t;
  Add : t -> t -> t;
  Sub : t -> t -> t;
  Mul : t -> t -> t;
  Div : t -> t -> t;
  Abs : t -> t;
  Neg : t -> t;
  IntPart : t -> Z;
  LessThan : t -> t -> bool;
  LessThanOrEqual : t -> t -> bool;
  GreaterThan : t -> t -> bool;
  GreaterThanOrEqual : t -> t -> bool;
  IsZero : t -> bool;
  IsPositive : t -> bool;
  IsNegative : t -> bool;
  InexactFloat64 : t -> float64;
  (** [d.String()] as the server reads it into a NUMERIC. *)
  String : t -> Q;
  (** [d.StringFixed(2)] as the server reads it into a NUMERIC. *)
  StringFixed2 : t -> Q;
  (** [d.StringFixed(n)] for another [n]. *)
  StringFixed : Z -> t -> Q;
  (** [NewFromString] on the text the server sends for a NUMERIC column. *)
  NewFromString : Q -> option t;
  (** The driver's encoding of a float64 argument of a NUMERIC expression. *)
  numeric_of_float64 : float64 -> Q;
  (** The driver's scan of a NUMERIC column into a float64 field. *)
  float64_of_numeric : Q -> float64
}.

(** A decimal passed as the argument [d.InexactFloat64()] of a SQL statement. *)
Definition sql_arg `{Lib} (d : t) : Q := numeric_of_float64 (InexactFloat64 d).

Class Laws (L : Lib) : Type := {
  val : t -> Q;
  val_Zero : (val Zero == 0)%Q;
  val_NewFromInt : forall n, (val (NewFromInt n) == inject_Z n)%Q;
  val_Add : forall a b, (val (Add a b) == val a + val b)%Q;
  val_Sub : forall a b, (val (Sub a b) == val a - val b)%Q;
  val_Mul : forall a b, (val (Mul a b) == val a * val b)%Q;
  (** Division keeps 16 digits after the decimal point. *)
  val_Div : forall a b, ~ (val b == 0)%Q ->
    (val a / val b - (1 # 10 ^ 16) <= val (Div a b) <= val a / val b + (1 # 10 ^ 16))%Q;
  val_Div_nonneg : forall a b, (0 <= val a)%Q -> (0 < val b)%Q -> (0 <= val (Div a b))%Q;
  val_Abs : forall a, (val (Abs a) == Qabs (val a))%Q;
  val_Neg : forall a, (val (Neg a) == - val a)%Q;
  (** The integer part, for numbers of 63 bits. *)
  IntPart_spec : forall a, (0 <= val a)%Q -> (val a < inject_Z (2 ^ 63))%Q ->
    IntPart a = Qfloor (val a);
  LessThan_spec : forall a b, LessThan a b = true <-> (val a < val b)%Q;
  LessThanOrEqual_spec : forall a b, LessThanOrEqual a b = true <-> (val a <= val b)%Q;
  GreaterThan_spec : forall a b, GreaterThan a b = true <-> (val b < val a)%Q;
  GreaterThanOrEqual_spec : forall a b, GreaterThanOrEqual a b = true <-> (val b <= val a)%Q;
  IsZero_spec : forall a, IsZero a = true <-> (val a == 0)%Q;
  IsPositive_spec : forall a, IsPositive a = true <-> (0 < val a)%Q;
  IsNegative_spec : forall a, IsNegative a = true <-> (val a < 0)%Q;
  (** The conversion of a float64 prints and reparses its shortest decimal:
      short literals are exact and the sign is kept. *)
  val_NewFromFloat_lit : forall m k, 0 <= m < 32 -> 0 <= k <= 2 ->
    (val (NewFromFloat (f64_lit m k)) == inject_Z m / inject_Z (10 ^ k))%Q;
  val_NewFromFloat_pos : forall m e, (0 < val (NewFromFloat (S754_finite false m e)))%Q;
  String_val : forall a, (String a == val a)%Q;
  StringFixed2_val : forall a, (StringFixed2 a == cents (to_cents (val a)))%Q;
  StringFixed_val : forall n a, 0 <= n ->
    (StringFixed n a == numeric_val (Z.to_pos (10 ^ n)) (round_half_away (val a * inject_Z (10 ^ n))))%Q;
  NewFromString_val : forall q, exists d, NewFromString q = Some d /\ (val d == q)%Q;
  sql_arg_nonneg : forall a, (0 <= val a)%Q -> (0 <= sql_arg a)%Q;
  (** The driver writes the shortest decimal of a float64 too. *)
  numeric_of_float64_lit : forall m k, 0 <= m < 32 -> 0 <= k <= 2 ->
    (numeric_of_float64 (f64_lit m k) == inject_Z m / inject_Z (10 ^ k))%Q;
  numeric_of_float64_nonneg : forall f, f64_ltb f f64_zero = false -> (0 <= numeric_of_float64 f)%Q
}.

Section facts.
Context `{DL : Laws}.

Lemma LessThan_false a b : LessThan a b = false <-> (val b <= val a)%Q.
Proof.
split.
- intros H. destruct (Qlt_le_dec (val a) (val b)) as [Hlt|]; [|done].
  apply LessThan_spec in Hlt. congruence.
- intros H. destruct (LessThan a b) eqn:E; [|done]. apply LessThan_spec in E. lra.
Qed.

Lemma GreaterThan_false a b : GreaterThan a b = false <-> (val a <= val b)%Q.
Proof.
split.
- intros H. destruct (Qlt_le_dec (val b) (val a)) as [Hlt|]; [|done].
  apply GreaterThan_spec in Hlt. congruence.
- intros H. destruct (GreaterThan a b) eqn:E; [|done]. apply GreaterThan_spec in E. lra.
Qed.

Lemma GreaterThanOrEqual_false a b : GreaterThanOrEqual a b = false <-> (val a < val b)%Q.
Proof.
split.
- intros H. destruct (Qlt_le_dec (val a) (val b)) as [|Hle]; [done|].
  apply GreaterThanOrEqual_spec in Hle. congruence.
- intros H. destruct (GreaterThanOrEqual a b) eqn:E; [|done].
  apply GreaterThanOrEqual_spec in E. lra.
Qed.

(** The number of an integer factor: prices times quantities. *)
Lemma val_Mul_int a n : (val (Mul a (NewFromInt n)) == val a * inject_Z n)%Q.
Proof. by rewrite val_Mul, val_NewFromInt. Qed.

Lemma val_Mul_nonneg a b : (0 <= val a)%Q -> (0 <= val b)%Q -> (0 <= val (Mul a b))%Q.
Proof. intros Ha Hb. rewrite val_Mul. by apply Qmult_le_0_compat. Qed.
End facts.

End decimal.

Create Rewrite HintDb decimal_val.
#[export] Hint Rewrite @decimal.val_Zero @decimal.val_NewFromInt @decimal.val_Add
  @decimal.val_Sub @decimal.val_Mul @decimal.val_Abs @decimal.val_Neg : decimal_val.
