(* ===== verification/DecimalModel.v ===== *)
(** * An instance of the decimal interface

    Rational arithmetic, with the rounding of [Div] and the shortest-decimal
    conversions of a float64 computed by search.  It discharges every law of
    [decimal.Laws], so the theorems stated against the interface are not vacuous,
    and it evaluates, so it serves the concrete examples. *)

From S2P Require Import Prelude Numeric.
From Stdlib Require Import Lqa SpecFloat Qabs Qround.
#[local] Open Scope Z_scope.

Module decimal_model.

(** The exact magnitude of a float64. *)
Definition f64_mag (m : positive) (e : Z) : Q :=
match e with
| Z0 => inject_Z (Zpos m)
| Zpos _ => inject_Z (Zpos m * 2 ^ e)
| Zneg p => Zpos m # (2 ^ p)
end.

(** The shortest decimal [n / 10^k] with [k < fuel] that reads back as the
  float64 of exact magnitude [x]. *)
Fixpoint shortest (fuel : nat) (k : Z) (m : positive) (e : Z) : Q :=
match fuel with
| O => f64_mag m e
| S fuel' =>
    let n := round_half_away (f64_mag m e * inject_Z (10 ^ k)) in
    if (0 <? n) && SFeqb (f64_lit n k) (S754_finite false m e)
    then n # (Z.to_pos (10 ^ k))
    else shortest fuel' (k + 1) m e
end.

Definition from_float (f : float64) : Q :=
match f with
| S754_finite s m e => let q := shortest 19 0 m e in if s then (- q)%Q else q
| _ => 0%Q
end.

Definition to_float (q : Q) : float64 := f64_div (f64_of_Z (Qnum q)) (f64_of_Z (QDen q)).

Definition div16 (a b : Q) : Q := round_half_away (a / b * inject_Z (10 ^ 16)) # (10 ^ 16).

#[export] Instance lib : decimal.Lib := {|
  decimal.t := Q;
  decimal.Zero := 0%Q;
  decimal.NewFromInt := inject_Z;
  decimal.NewFromFloat := from_float;
  decimal.Add a b := Qred (a + b);
  decimal.Sub a b := Qred (a - b);
  decimal.Mul a b := Qred (a * b);
  decimal.Div a b := Qred (div16 a b);
  decimal.Abs a := Qred (Qabs a);
  decimal.Neg a := Qred (- a);
  decimal.IntPart a := Z.quot (Qnum a) (QDen a);
  decimal.LessThan a b := negb (Qle_bool b a);
  decimal.LessThanOrEqual a b := Qle_bool a b;
  decimal.GreaterThan a b := negb (Qle_bool a b);
  decimal.GreaterThanOrEqual a b := Qle_bool b a;
  decimal.IsZero a := Qeq_bool a 0;
  decimal.IsPositive a := negb (Qle_bool a 0);
  decimal.IsNegative a := negb (Qle_bool 0 a);
  decimal.InexactFloat64 := to_float;
  decimal.String a := a;
  decimal.StringFixed2 a := cents (to_cents a);
  decimal.StringFixed n a := numeric_val (Z.to_pos (10 ^ n)) (round_half_away (a * inject_Z (10 ^ n)));
  decimal.NewFromString q := Some q;
  decimal.numeric_of_float64 := from_float;
  decimal.float64_of_numeric := to_float
|}.

Lemma negb_Qle_bool a b : negb (Qle_bool a b) = true <-> (b < a)%Q.
Proof.
rewrite negb_true_iff. split.
- intros H. apply Qnot_le_lt. intros Hle. apply Qle_bool_iff in Hle. congruence.
- intros H. destruct (Qle_bool a b) eqn:E; [|done]. apply Qle_bool_iff in E. lra.
Qed.

Lemma f64_mag_pos m e : (0 < f64_mag m e)%Q.
Proof.
destruct e; cbn [f64_mag]; try done. unfold Qlt. cbn. lia.
Qed.

Lemma shortest_pos fuel k m e : (0 < shortest fuel k m e)%Q.
Proof.
revert k. induction fuel as [|fuel IH]; intros k; [apply f64_mag_pos|]. cbn [shortest].
destruct (0 <? _) eqn:En; cbn [andb]; [|apply IH].
destruct (SFeqb _ _); [|apply IH]. apply Z.ltb_lt in En. unfold Qlt. cbn. lia.
Qed.

Lemma from_float_pos m e : (0 < from_float (S754_finite false m e))%Q.
Proof. apply shortest_pos. Qed.

(** A correctly rounded result has the sign it was computed with. *)
Definition f64_nonneg (f : float64) : Prop :=
match f with
| S754_finite s _ _ => s = false
| _ => True
end.

Lemma binary_round_aux_sign m e l :
f64_nonneg (binary_round_aux f64_prec f64_emax false m e l).
Proof.
unfold binary_round_aux. destruct (shr_fexp _ _ _ _ _) as [mrs e1].
destruct (shr_fexp _ _ _ _ _) as [mrs2 e2].
destruct (shr_m mrs2); cbn; try done. by destruct (Z.leb _ _).
Qed.

Lemma f64_of_Z_nonneg z : 0 <= z -> f64_nonneg (f64_of_Z z).
Proof.
intros H. unfold f64_of_Z, binary_normalize, binary_round. destruct z as [|p|p]; [done| |lia].
destruct (shl_align _ _ _) as [m e]. apply binary_round_aux_sign.
Qed.

Lemma f64_div_nonneg x y : f64_nonneg x -> f64_nonneg y -> f64_nonneg (f64_div x y).
Proof.
unfold f64_div, SFdiv. destruct x as [| | |sx mx ex], y as [| | |sy my ey]; cbn [f64_nonneg]; try done.
intros -> ->. destruct (SFdiv_core_binary _ _ _ _ _ _) as [[mz ez] lz].
apply binary_round_aux_sign.
Qed.

Lemma from_float_nonneg f : f64_nonneg f -> (0 <= from_float f)%Q.
Proof.
destruct f; cbn [f64_nonneg from_float]; try (intros; apply Qle_refl).
intros ->. apply Qlt_le_weak, shortest_pos.
Qed.

(** Every literal of the interface's law, checked by evaluation. *)
Definition lit_ok (m k : Z) : bool :=
Qeq_bool (from_float (f64_lit m k)) (inject_Z m / inject_Z (10 ^ k)).
Definition lits_ok (nm nk : nat) : bool :=
forallb (fun k => forallb (fun m => lit_ok (Z.of_nat m) (Z.of_nat k)) (seq 0 nm)) (seq 0 nk).

Lemma lits_ok_spec nm nk m k :
lits_ok nm nk = true -> 0 <= m < Z.of_nat nm -> 0 <= k < Z.of_nat nk -> lit_ok m k = true.
Proof.
intros H Hm Hk. unfold lits_ok in H.
rewrite forallb_forall in H. specialize (H (Z.to_nat k) ltac:(apply in_seq; lia)).
rewrite forallb_forall in H. specialize (H (Z.to_nat m) ltac:(apply in_seq; lia)).
by rewrite !Z2Nat.id in H by lia.
Qed.

Lemma lits_ok_true : lits_ok 32 3 = true.
Proof. vm_compute. reflexivity. Qed.

Lemma from_float_lit m k : 0 <= m < 32 -> 0 <= k <= 2 ->
(from_float (f64_lit m k) == inject_Z m / inject_Z (10 ^ k))%Q.
Proof.
intros Hm Hk. apply Qeq_bool_eq. fold (lit_ok m k).
apply (lits_ok_spec 32 3); [apply lits_ok_true|lia..].
Qed.

Lemma Qscale16 (r : Q) (n : Z) :
(inject_Z n - (1 # 2) <= r * inject_Z (10 ^ 16) <= inject_Z n + (1 # 2))%Q ->
(r - (1 # 10 ^ 16) <= n # 10 ^ 16 <= r + (1 # 10 ^ 16))%Q.
Proof.
change (10 ^ 16)%positive with 10000000000000000%positive.
change (inject_Z (10 ^ 16)) with (10000000000000000 # 1)%Q.
assert (E : (n # 10000000000000000 == inject_Z n * (1 # 10000000000000000))%Q)
  by (unfold Qeq; cbn [Qnum Qden Qmult inject_Z]; lia).
rewrite E. intros [H1 H2]. split; lra.
Qed.

#[export, refine] Instance laws : decimal.Laws lib := {| decimal.val := (fun q => q) : @decimal.t lib -> Q |}.
Proof.
all: cbn [lib decimal.t decimal.Zero decimal.NewFromInt decimal.NewFromFloat decimal.Add
  decimal.Sub decimal.Mul decimal.Div decimal.Abs decimal.Neg decimal.IntPart decimal.LessThan decimal.LessThanOrEqual
  decimal.GreaterThan decimal.GreaterThanOrEqual decimal.IsZero decimal.IsPositive
  decimal.IsNegative decimal.InexactFloat64 decimal.String decimal.StringFixed2 decimal.StringFixed
  decimal.NewFromString decimal.numeric_of_float64].
- reflexivity.
- reflexivity.
- intros a b. apply Qred_correct.
- intros a b. apply Qred_correct.
- intros a b. apply Qred_correct.
- intros a b _. rewrite Qred_correct. apply Qscale16, round_error.
- intros a b Ha Hb. rewrite Qred_correct. unfold div16.
  assert (0 <= a / b * inject_Z (10 ^ 16))%Q as Hq.
  { apply Qmult_le_0_compat; [|done]. apply Qle_shift_div_l; lra. }
  apply round_nonneg in Hq. unfold Qle. cbn. lia.
- intros a. apply Qred_correct.
- intros a. apply Qred_correct.
- intros a Ha _. unfold Qle in Ha. cbn in Ha. destruct a as [n d]. cbn in *.
  rewrite Z.quot_div_nonneg by lia. reflexivity.
- intros a b. apply negb_Qle_bool.
- intros a b. apply Qle_bool_iff.
- intros a b. apply negb_Qle_bool.
- intros a b. apply Qle_bool_iff.
- intros a. apply Qeq_bool_iff.
- intros a. apply negb_Qle_bool.
- intros a. apply negb_Qle_bool.
- apply from_float_lit.
- apply from_float_pos.
- reflexivity.
- reflexivity.
- reflexivity.
- intros q. exists q. split; reflexivity.
- intros a Ha. apply from_float_nonneg, f64_div_nonneg; apply f64_of_Z_nonneg; [|lia].
  unfold Qle in Ha. cbn in Ha. lia.
- apply from_float_lit.
- intros [| | |[] m e] Hf; by apply from_float_nonneg.
Defined.

(** Decimal literals of examples: [dec 125 1] is 12.5. *)
Definition dec (m : Z) (k : Z) : @decimal.t lib := Qred (m # (Z.to_pos (10 ^ k))).

Example from_float_014 : from_float (f64_lit 14 2) = (14 # 100)%Q.
Proof. vm_compute. reflexivity. Qed.

Example sql_arg_1255 : decimal.sql_arg (dec 1255 2) = (1255 # 100)%Q.
Proof. vm_compute. reflexivity. Qed.

End decimal_model.
