(* ===== verification/Domain.v ===== *)
(** * Domain types of the trading subsystem

    The types of [trading/domain.go], [domain/listing.go], [domain/exchange.go],
    [domain/actuary.go], [domain/berza.go] and the market snapshot of
    [trading/worker/engine.go].  Go's string-typed enums are inductive types; a
    value that is none of the declared constants, which a request can carry, is
    the [Other...] constructor. *)

From S2P Require Import Prelude Numeric.

(** ** Enums *)

Inductive OrderType : Type :=
  | OrderTypeMarket | OrderTypeLimit | OrderTypeStop | OrderTypeStopLimit
  | OtherOrderType (s : string).

Inductive OrderDirection : Type :=
  | OrderDirectionBuy | OrderDirectionSell
  | OtherDirection (s : string).

Inductive OrderStatus : Type :=
  | OrderStatusPending | OrderStatusApproved | OrderStatusDeclined
  | OrderStatusDone | OrderStatusCanceled.

Inductive ListingType : Type :=
  | ListingTypeStock | ListingTypeForex | ListingTypeFuture | ListingTypeOption
  | OtherListingType (s : string).

Inductive MarketStatus : Type :=
  | MarketStatusOpen | MarketStatusPreMarket | MarketStatusAfterHours | MarketStatusClosed.

Inductive ActuaryType : Type :=
  | ActuaryTypeSupervisor | ActuaryTypeAgent.

#[export] Instance OrderType_eq_dec : EqDecision OrderType.
Proof. solve_decision. Defined.
#[export] Instance OrderDirection_eq_dec : EqDecision OrderDirection.
Proof. solve_decision. Defined.
#[export] Instance OrderStatus_eq_dec : EqDecision OrderStatus.
Proof. solve_decision. Defined.
#[export] Instance ListingType_eq_dec : EqDecision ListingType.
Proof. solve_decision. Defined.
#[export] Instance MarketStatus_eq_dec : EqDecision MarketStatus.
Proof. solve_decision. Defined.
#[export] Instance ActuaryType_eq_dec : EqDecision ActuaryType.
Proof. solve_decision. Defined.

(** [ApprovedBy] texts. *)
Inductive ApprovedBy : Type :=
  | ApprovedByNoApproval
  | DeclinedBySettlementExpiry
  | ApprovedByUser (id : Z).

(** ** Listings and rates: prices are float64 in the source *)

Record Listing : Type := mkListing {
  l_ID : Z;
  l_ExchangeID : Z;
  l_ListingType : ListingType;
  l_Price : float64;
  l_Ask : float64;
  l_Bid : float64;
  l_Volume : Z;
  l_DetailsJSON : string
}.

Record ListingCalculated : Type := mkListingCalculated {
  lc_Listing : Listing;
  lc_ChangePercent : float64;
  lc_DollarVolume : float64;
  lc_NominalValue : float64;
  lc_ContractSize : float64;
  lc_MaintenanceMargin : float64;
  lc_InitialMarginCost : float64
}.

Record ExchangeRate : Type := mkExchangeRate {
  er_Oznaka : string;
  er_Kupovni : float64;
  er_Srednji : float64;
  er_Prodajni : float64
}.

Record MarketSnapshot : Type := mkMarketSnapshot {
  ms_Ask : float64;
  ms_Bid : float64;
  ms_Volume : Z;
  ms_ExchangeID : Z;
  ms_SettlementDate : option Z;
  ms_ListingType : ListingType;
  ms_ForexBaseCurrency : string;
  ms_ForexQuoteCurrency : string
}.

(** ** Orders *)

Section orders.
Context `{DL : decimal.Lib}.

Record Order : Type := mkOrder {
  o_ID : Z;
  o_UserID : Z;
  o_AccountID : Z;
  o_ListingID : Z;
  o_OrderType : OrderType;
  o_Direction : OrderDirection;
  o_Quantity : Z;
  o_ContractSize : Z;
  o_PricePerUnit : option decimal.t;
  o_StopPrice : option decimal.t;
  o_Status : OrderStatus;
  o_ApprovedBy : option ApprovedBy;
  o_IsDone : bool;
  o_RemainingPortions : Z;
  o_AfterHours : bool;
  o_AllOrNone : bool;
  o_Margin : bool;
  o_IsClient : bool;
  o_FundID : option Z
}.

Record OrderTransaction : Type := mkOrderTransaction {
  otx_OrderID : Z;
  otx_ExecutedQuantity : Z;
  otx_ExecutedPrice : decimal.t;
  otx_ExecutionTime : Z
}.

Record OrderCalculationRequest : Type := mkOrderCalculationRequest {
  ocr_OrderType : OrderType;
  ocr_Direction : OrderDirection;
  ocr_ListingID : Z;
  ocr_Quantity : Z;
  ocr_ContractSize : Z;
  ocr_PricePerUnit : option decimal.t;
  ocr_StopPrice : option decimal.t;
  ocr_Margin : bool;
  ocr_AllOrNone : bool
}.

Record OrderCalculationResponse : Type := mkOrderCalculationResponse {
  ocp_PricePerUnit : decimal.t;
  ocp_ApproximatePrice : decimal.t;
  ocp_Commission : decimal.t;
  ocp_InitialMarginCost : option decimal.t
}.

Record CreateOrderRequest : Type := mkCreateOrderRequest {
  req_UserID : Z;
  req_AccountID : Z;
  req_ListingID : Z;
  req_OrderType : OrderType;
  req_Direction : OrderDirection;
  req_Quantity : Z;
  req_ContractSize : Z;
  req_PricePerUnit : option decimal.t;
  req_StopPrice : option decimal.t;
  req_AfterHours : bool;
  req_AllOrNone : bool;
  req_Margin : bool;
  req_IsSupervisor : bool;
  req_IsClient : bool;
  req_IsForex : bool;
  req_SettlementExpired : bool;
  req_ApprovedByOverride : option ApprovedBy;
  req_FundID : option Z
}.

Record Actuary : Type := mkActuary {
  act_ID : Z;
  act_EmployeeID : Z;
  act_ActuaryType : ActuaryType;
  act_Limit : decimal.t;
  act_UsedLimit : decimal.t;
  act_NeedApproval : bool
}.
End orders.
