(* ===== verification/InterbankTables.v ===== *)
(** * Messages and tables of the interbank protocol ([domain/interbank.go])

    The payloads of the protocol are JSON texts.  A text is held as the value it
    denotes: a transaction whose amounts are the exact numbers written in it, the
    identifier of a COMMIT_TX or ROLLBACK_TX, a vote, nothing, or a text that is
    none of these.  The types of a transaction are polymorphic in the amounts:
    [Q] on the wire, the decimal type of the library in memory.

    The tables interbank_message_log, interbank_transaction,
    interbank_reservation and interbank_option_contract are only written through
    the repository, on its own connection: never inside a transaction of the
    executor. *)

From S2P Require Import Prelude.
From Stdlib Require Import QArith.
#[local] Open Scope Z_scope.

(** ** Identifiers and assets *)

Record IdempotenceKey : Type := mkKey { k_RoutingNumber : Z; k_LocallyGeneratedKey : string }.

Record ForeignBankId : Type := mkFid { fb_RoutingNumber : Z; fb_ID : string }.

#[export] Instance IdempotenceKey_eq_dec : EqDecision IdempotenceKey.
Proof. solve_decision. Defined.
#[export] Instance ForeignBankId_eq_dec : EqDecision ForeignBankId.
Proof. solve_decision. Defined.

Record OptionDescription (A : Type) : Type := mkOption {
  od_NegotiationID : ForeignBankId;
  od_Ticker : string;
  od_PriceCurrency : string;
  od_PriceAmount : A;
  od_SettlementDate : string;
  od_Amount : A
}.
Arguments mkOption {A}.
Arguments od_NegotiationID {A}.
Arguments od_Ticker {A}.
Arguments od_PriceCurrency {A}.
Arguments od_PriceAmount {A}.
Arguments od_SettlementDate {A}.
Arguments od_Amount {A}.

(** The pointer of the active variant may be nil. *)
Inductive Asset (A : Type) : Type :=
  | AssetMonas (currency : option string)
  | AssetStock (ticker : option string)
  | AssetOption (description : option (OptionDescription A))
  | OtherAsset (type : string).
Arguments AssetMonas {A}.
Arguments AssetStock {A}.
Arguments AssetOption {A}.
Arguments OtherAsset {A}.

(** The kind of an account with the field the code reads for it. *)
Inductive TxAccount : Type :=
  | AccountPerson (id : option ForeignBankId)
  | AccountNumber (num : option string)
  | AccountOption (id : option ForeignBankId)
  | OtherAccount (type : string).

Record Posting (A : Type) : Type := mkPosting {
  p_Account : TxAccount;
  p_Amount : A;
  p_Asset : Asset A
}.
Arguments mkPosting {A}.
Arguments p_Account {A}.
Arguments p_Amount {A}.
Arguments p_Asset {A}.

(** The texts of a payment (message, call number, code, purpose) are left out. *)
Record Transaction_ (A : Type) : Type := mkTx {
  tx_Postings : list (Posting A);
  tx_TransactionID : ForeignBankId
}.
Arguments mkTx {A}.
Arguments tx_Postings {A}.
Arguments tx_TransactionID {A}.

Inductive VoteAnswer : Type := VoteYes | VoteNo | OtherVote.
#[export] Instance VoteAnswer_eq_dec : EqDecision VoteAnswer.
Proof. solve_decision. Defined.

Inductive NoVoteReasonCode : Type :=
  | NoReasonUnbalancedTx
  | NoReasonNoSuchAccount
  | NoReasonNoSuchAsset
  | NoReasonUnacceptableAsset
  | NoReasonInsufficientAsset
  | NoReasonOptionAmountIncorrect
  | NoReasonOptionUsedOrExpired
  | NoReasonOptionNegotiationNotFound.

(** The posting a reason points at is left out. *)
Record TransactionVote : Type := mkVote { v_Vote : VoteAnswer; v_Reasons : list NoVoteReasonCode }.

(** ** Texts *)

Inductive Body : Type :=
  | BodyEmpty
  | BodyTx (tx : Transaction_ Q)
  | BodyId (id : ForeignBankId)
  | BodyVote (v : TransactionVote)
  | BodyObject
  | BodyInvalid.

Inductive MessageType : Type :=
  | MessageNewTx | MessageCommitTx | MessageRollbackTx | OtherMessage (s : string).
#[export] Instance MessageType_eq_dec : EqDecision MessageType.
Proof. solve_decision. Defined.

Record InterbankMessage : Type := mkMessage {
  im_IdempotenceKey : IdempotenceKey;
  im_MessageType : MessageType;
  im_Message : Body
}.

(** [json.Unmarshal] into [CommitTransaction] or [RollbackTransaction]: a text
    without the field leaves the zero identifier. *)
Definition unmarshal_id (b : Body) : option ForeignBankId :=
  match b with
  | BodyTx tx => Some (tx_TransactionID tx)
  | BodyId id => Some id
  | BodyVote _ | BodyObject => Some (mkFid 0 EmptyString)
  | BodyEmpty | BodyInvalid => None
  end.

(** [json.Unmarshal] into [TransactionVote]: a text without the field leaves a
    vote that is neither YES nor NO. *)
Definition unmarshal_vote (b : Body) : option TransactionVote :=
  match b with
  | BodyVote v => Some v
  | BodyTx _ | BodyId _ | BodyObject => Some (mkVote OtherVote [])
  | BodyEmpty | BodyInvalid => None
  end.

(** ** Tables *)

Inductive InterbankMessageDirection : Type := DirectionIncoming | DirectionOutgoing.
#[export] Instance InterbankMessageDirection_eq_dec : EqDecision InterbankMessageDirection.
Proof. solve_decision. Defined.

Inductive InterbankMessageStatus : Type :=
  | MsgStatusPending | MsgStatusProcessed | MsgStatusSent | MsgStatusFailed | MsgStatusAccepted
  | MsgStatusNoVote.
#[export] Instance InterbankMessageStatus_eq_dec : EqDecision InterbankMessageStatus.
Proof. solve_decision. Defined.

Inductive InterbankTxRole : Type := TxRoleCoordinator | TxRoleParticipant.

Inductive InterbankTxStatus : Type :=
  | TxStatusNew | TxStatusPrepared | TxStatusCommitted | TxStatusRolledBack | TxStatusFailed.
#[export] Instance InterbankTxStatus_eq_dec : EqDecision InterbankTxStatus.
Proof. solve_decision. Defined.

(** [interbankMessageModel]; the error texts and times of writing are left out. *)
Record interbankMessageModel : Type := mkMessageModel {
  ml_Direction : InterbankMessageDirection;
  ml_MessageType : MessageType;
  ml_Key : IdempotenceKey;
  ml_TargetRoutingNumber : option Z;
  ml_Payload : Body;
  ml_ResponsePayload : option Body;
  ml_ResponseStatusCode : option Z;
  ml_Status : InterbankMessageStatus;
  ml_RetryCount : Z;
  ml_NextRetryAt : option Z
}.

Record interbankTxModel : Type := mkTxModel {
  it_TransactionID : ForeignBankId;
  it_Role : InterbankTxRole;
  it_Status : InterbankTxStatus;
  it_CurrentStep : string;
  it_Payload : Body;
  it_InitiatorUserID : option Z;
  it_InitiatorAccountID : option Z
}.

(** The discriminators of [interbank_reservation]. *)
Inductive AccountKind : Type := AccountKindPerson | AccountKindAccount | AccountKindOption.
Inductive AssetType : Type := AssetTypeMonas | AssetTypeStock | AssetTypeOption.
#[export] Instance AccountKind_eq_dec : EqDecision AccountKind.
Proof. solve_decision. Defined.
#[export] Instance AssetType_eq_dec : EqDecision AssetType.
Proof. solve_decision. Defined.

(** [amount] is NUMERIC(20, 6). *)
Record interbankReservationModel : Type := mkReservation {
  ir_TransactionID : Z;
  ir_PostingIndex : Z;
  ir_AccountKind : AccountKind;
  ir_AccountNum : option string;
  ir_ForeignID : option ForeignBankId;
  ir_AssetType : AssetType;
  ir_AssetCurrency : option string;
  ir_AssetTicker : option string;
  ir_AssetNegotiation : option ForeignBankId;
  ir_Amount : Z;
  ir_Reserved : bool
}.

Inductive ContractStatus : Type := ContractActive | ContractExercised | ContractExpired.
#[export] Instance ContractStatus_eq_dec : EqDecision ContractStatus.
Proof. solve_decision. Defined.

(** The columns of [interbank_option_contract] the executor reads or writes. *)
Record interbankOptionContractModel : Type := mkContract {
  oc_NegotiationID : ForeignBankId;
  oc_SettlementDate : Z;
  oc_Seller : ForeignBankId;
  oc_Status : ContractStatus;
  oc_UsedAt : option Z
}.

Record IbDB : Type := mkIbDB {
  ib_messages : gmap Z interbankMessageModel;
  ib_txs : gmap Z interbankTxModel;
  ib_reservations : gmap Z interbankReservationModel;
  ib_contracts : gmap Z interbankOptionContractModel
}.

Definition set_messages (m : gmap Z interbankMessageModel) (d : IbDB) : IbDB :=
  mkIbDB m (ib_txs d) (ib_reservations d) (ib_contracts d).
Definition set_txs (m : gmap Z interbankTxModel) (d : IbDB) : IbDB :=
  mkIbDB (ib_messages d) m (ib_reservations d) (ib_contracts d).
Definition set_reservations (m : gmap Z interbankReservationModel) (d : IbDB) : IbDB :=
  mkIbDB (ib_messages d) (ib_txs d) m (ib_contracts d).
Definition set_contracts (m : gmap Z interbankOptionContractModel) (d : IbDB) : IbDB :=
  mkIbDB (ib_messages d) (ib_txs d) (ib_reservations d) m.

Definition ib_empty : IbDB := mkIbDB ∅ ∅ ∅ ∅.
