(* ===== verification/Tables.v ===== *)
(** * Tables of accounts, payments, cards, taxes, funds and the trade over the counter

    The rows of [payment_intent], [payment_recipient] and [pending_action], of the
    code tables [valuta] and [delatnost], of [firma], the descriptive columns of
    [racun], and the rows of the components named in the sections below.  A
    DECIMAL(15, 4) column is the integer number of its last unit, a UUID its 128 bits,
    a JSONB column the value it denotes. *)

From S2P Require Import Prelude Numeric.
From Stdlib Require Import SpecFloat.
#[local] Open Scope Z_scope.

(** ** Accounts *)

(** The columns of [racun] the trading code never reads; amounts in cents. *)
Record racunInfo : Type := mkRacunInfo {
  ri_id_zaposlenog : Z;
  ri_id_firme : option Z;
  ri_kategorija_racuna : string;
  ri_podvrsta : option string;
  ri_naziv_racuna : string;
  ri_datum_kreiranja : Z;
  ri_datum_isteka : Z;
  ri_dnevni_limit : option Z;
  ri_mesecni_limit : option Z;
  ri_dnevna_potrosnja : Z;
  ri_mesecna_potrosnja : Z
}.

Record valuta : Type := mkValuta {
  va_naziv : string;
  va_oznaka : string;
  va_status : bool
}.

Record delatnost : Type := mkDelatnost {
  de_sifra : string;
  de_naziv : string;
  de_grana : string;
  de_sektor : string
}.

Record firmaModel : Type := mkFirma {
  fi_naziv_firme : string;
  fi_maticni_broj : string;
  fi_poreski_broj : string;
  fi_id_delatnosti : Z;
  fi_adresa : string;
  fi_vlasnik_id : Z
}.

(** ** Mobile verification *)

Inductive ActionType : Type := ACTION_PROMENA_LIMITA | ACTION_PLACANJE | ACTION_PRENOS.
#[export] Instance ActionType_eq_dec : EqDecision ActionType.
Proof. solve_decision. Defined.

Inductive ActionStatus : Type := ACTION_PENDING | ACTION_APPROVED | ACTION_EXPIRED | ACTION_CANCELLED.
#[export] Instance ActionStatus_eq_dec : EqDecision ActionStatus.
Proof. solve_decision. Defined.

(** The JSON objects that are stored in [params_json]. *)
Inductive ActionParams : Type :=
  | ParamsLimit (dnevni_limit mesecni_limit : float64)
  | ParamsSifra (sifra_placanja : string)
  | ParamsPrenos (racun_primaoca_id : Z).

Record pendingActionModel : Type := mkPendingAction {
  pa_VlasnikID : Z;
  pa_RacunID : Z;
  pa_ActionType : ActionType;
  pa_ParamsJSON : ActionParams;
  pa_Opis : string;
  pa_Status : ActionStatus;
  pa_VerificationCode : option string;
  pa_CodeExpiresAt : option Z;
  pa_Attempts : Z;
  pa_CreatedAt : Z
}.

(** ** Payments *)

Inductive TipNaloga : Type := PLACANJE | PRENOS.
#[export] Instance TipNaloga_eq_dec : EqDecision TipNaloga.
Proof. solve_decision. Defined.

Inductive StatusNaloga : Type := U_OBRADI | REALIZOVANO | ODBIJENO.
#[export] Instance StatusNaloga_eq_dec : EqDecision StatusNaloga.
Proof. solve_decision. Defined.

(** Amounts are DECIMAL(15, 4), the rate DECIMAL(18, 6). *)
Record paymentIntentModel : Type := mkPaymentIntent {
  pi_IdempotencyKey : N;
  pi_BrojNaloga : string;
  pi_TipTransakcije : TipNaloga;
  pi_RacunPlatioceID : Z;
  pi_BrojRacunaPlatioca : string;
  pi_RacunPrimaocaID : option Z;
  pi_BrojRacunaPrimaoca : string;
  pi_NazivPrimaoca : string;
  pi_Iznos : Z;
  pi_KrajnjiIznos : option Z;
  pi_Provizija : Z;
  pi_Kurs : Z;
  pi_ValutaPrimaoca : string;
  pi_Valuta : string;
  pi_SifraPlacanja : string;
  pi_PozivNaBroj : string;
  pi_SvrhaPlacanja : string;
  pi_Status : StatusNaloga;
  pi_PendingActionID : option Z;
  pi_InitiatedByUserID : Z;
  pi_CreatedAt : Z;
  pi_VerifiedAt : option Z;
  pi_ExecutedAt : option Z;
  pi_FailedReason : string
}.

Record paymentRecipientModel : Type := mkPaymentRecipient {
  pc_VlasnikID : Z;
  pc_Naziv : string;
  pc_BrojRacuna : string;
  pc_CreatedAt : Z;
  pc_UpdatedAt : Z
}.

(** ** Cards

    The rows of [kartica] and [ovlasceno_lice] (migrations 000009, 000011, 000012):
    the limit in cents, the two fees NUMERIC(5, 4), the expiry the number of its
    day; and the request for a card that waits in Redis for its code. *)

Record OvlascenoLiceInput : Type := mkOvlascenoLiceInput {
  oi_Ime : string;
  oi_Prezime : string;
  oi_Pol : string;
  oi_EmailAdresa : string;
  oi_BrojTelefona : string;
  oi_Adresa : string;
  oi_DatumRodjenja : Z
}.

Record karticaModel : Type := mkKartica {
  kc_BrojKartice : string;
  kc_TipKartice : string;
  kc_VrstaKartice : string;
  kc_DatumKreiranja : Z;
  kc_DatumIsteka : Z;
  kc_RacunID : Z;
  kc_CvvKod : string;
  kc_LimitKartice : Z;
  kc_Status : string;
  kc_ProvizijaProcenat : option Z;
  kc_KonverzijaNaknadaProcenat : option Z
}.

Record ovlascenoLiceModel : Type := mkOvlascenoLice {
  ol_KarticaID : Z;
  ol_Input : OvlascenoLiceInput
}.

Record CardRequestState : Type := mkCardRequestState {
  cr_AccountID : Z;
  cr_TipKartice : string;
  cr_OvlascenoLice : option OvlascenoLiceInput;
  cr_OTPCode : string;
  cr_Attempts : Z
}.

(** The keys [card_req_{ownerID}], each with the time it expires at. *)
Notation Redis := (gmap Z (CardRequestState * Z)).

(** ** Tax

    The rows of [tax_records] (migrations 000029, 000042, 000043): amounts are
    NUMERIC(18, 4), the rate NUMERIC(18, 6), the limits of the period are
    microseconds.  The times of writing are left out. *)

Inductive TaxStatus : Type := TaxStatusOpen | TaxStatusCollected | TaxStatusPartial | TaxStatusUnpaid.
#[export] Instance TaxStatus_eq_dec : EqDecision TaxStatus.
Proof. solve_decision. Defined.

Record taxRecord : Type := mkTaxRecord {
  tr_UserID : Z;
  tr_AccountID : Z;
  tr_Year : Z;
  tr_Month : Z;
  tr_PeriodStart : Z;
  tr_PeriodEnd : Z;
  tr_AmountRSD : Z;
  tr_PaidAmountRSD : Z;
  tr_RemainingDebtRSD : Z;
  tr_ProfitBase : Z;
  tr_SourceCurrency : string;
  tr_ExchangeRate : Z;
  tr_TxnCount : Z;
  tr_Status : TaxStatus;
  tr_Attempts : Z;
  tr_TriggeredBy : string;
  tr_Paid : bool
}.

(** ** Investment funds and dividends

    [investment_funds] without [liquid_assets], which the engine's orders of funds
    write too (the table of [Store] with that name); contributions in cents. *)

Record investmentFundModel : Type := mkFundModel {
  if_Name : string;
  if_Description : string;
  if_MinimumContribution : Z;
  if_AccountID : option Z;
  if_ManagerID : Z;
  if_CreatedAt : Z
}.

(** [invested_rsd] is NUMERIC(18, 4). *)
Record fundPositionModel : Type := mkFundPosition {
  fp_FundID : Z;
  fp_UserID : Z;
  fp_AccountID : Z;
  fp_InvestedRSD : Z
}.

(** [client_fund_transactions], in cents. *)
Record clientFundTransactionModel : Type := mkFundTransaction {
  ft_FundID : Z;
  ft_UserID : Z;
  ft_AmountRSD : Z;
  ft_Status : string;
  ft_CreatedAt : Z;
  ft_IsInflow : bool
}.

(** [dividend_payouts]: amounts NUMERIC(20, 6), the day of the payment. *)
Record dividendPayoutModel : Type := mkPayoutModel {
  dp_UserID : Z;
  dp_ListingID : Z;
  dp_Ticker : string;
  dp_Quantity : Z;
  dp_PriceOnDate : Z;
  dp_GrossAmount : Z;
  dp_TaxAmountRSD : Z;
  dp_NetAmount : Z;
  dp_Currency : string;
  dp_AccountID : option Z;
  dp_IsActuary : bool;
  dp_PaymentDate : Z
}.

Record FundDB : Type := mkFundDB {
  fd_funds : gmap Z investmentFundModel;
  fd_positions : gmap Z fundPositionModel;
  fd_transactions : list clientFundTransactionModel;
  fd_payouts : list dividendPayoutModel
}.

Definition funds_empty : FundDB := mkFundDB ∅ ∅ [] [].

(** ** The tables *)

Record BankDB : Type := mkBankDB {
  bd_valuta : gmap Z valuta;
  bd_delatnost : gmap Z delatnost;
  bd_firma : gmap Z firmaModel;
  bd_pending_action : gmap Z pendingActionModel;
  bd_payment_intent : gmap Z paymentIntentModel;
  bd_payment_recipient : gmap Z paymentRecipientModel;
  bd_kartica : gmap Z karticaModel;
  bd_ovlasceno_lice : gmap Z ovlascenoLiceModel;
  bd_tax_records : gmap Z taxRecord;
  bd_funds : FundDB
}.

Definition bank_empty : BankDB := mkBankDB ∅ ∅ ∅ ∅ ∅ ∅ ∅ ∅ ∅ funds_empty.

(** ** Tables of the over-the-counter trade

    The rows of [otc_offers], [otc_contracts], [otc_offer_history],
    [otc_saga_executions] and [otc_saga_step_log] (migrations 000046 to 000050 and
    000059).  A NUMERIC(18, 6) column is the integer number of its last unit, a DATE
    the number of its day, an error text the error it was made from. *)

(** ** Offers and contracts *)

Inductive OTCOfferStatus : Type := OTCOfferPending | OTCOfferAccepted | OTCOfferRejected | OTCOfferDeactivated.
#[export] Instance OTCOfferStatus_eq_dec : EqDecision OTCOfferStatus.
Proof. solve_decision. Defined.

Inductive OTCContractStatus : Type := OTCContractValid | OTCContractExpired | OTCContractExercised.
#[export] Instance OTCContractStatus_eq_dec : EqDecision OTCContractStatus.
Proof. solve_decision. Defined.

Record otcOfferModel : Type := mkOfferModel {
  of_ListingID : Z;
  of_SellerID : Z;
  of_BuyerID : Z;
  of_BuyerAccountID : Z;
  of_SellerAccountID : option Z;
  of_Amount : Z;
  of_PricePerStock : Z;
  of_Premium : Z;
  of_SettlementDate : Z;
  of_Status : OTCOfferStatus;
  of_LastModified : Z;
  of_ModifiedBy : Z;
  of_CreatedAt : Z;
  of_SellerBankID : option Z;
  of_BuyerBankID : option Z
}.

Record otcContractModel : Type := mkContractModel {
  oc_OfferID : Z;
  oc_ListingID : Z;
  oc_SellerID : Z;
  oc_BuyerID : Z;
  oc_BuyerAccountID : Z;
  oc_SellerAccountID : Z;
  oc_Amount : Z;
  oc_StrikePrice : Z;
  oc_Premium : Z;
  oc_SettlementDate : Z;
  oc_Status : OTCContractStatus;
  oc_CreatedAt : Z;
  oc_ExercisedAt : option Z;
  oc_SellerBankID : option Z;
  oc_BuyerBankID : option Z
}.

Inductive HistoryAction : Type := HISTORY_CREATED | HISTORY_COUNTER | HISTORY_ACCEPTED | HISTORY_DECLINED.

(** The terms of an offer: amount, price, premium, settlement date. *)
Record offerTerms : Type := mkTerms {
  tm_Amount : Z;
  tm_PricePerStock : Z;
  tm_Premium : Z;
  tm_SettlementDate : Z
}.

(** The new terms are NULL for a decision, the old ones for all but a counter-offer;
    the four columns of each are filled together. *)
Record otcOfferHistoryModel : Type := mkHistoryModel {
  oh_ID : Z;
  oh_OfferID : Z;
  oh_Action : HistoryAction;
  oh_ChangedBy : Z;
  oh_New : option offerTerms;
  oh_Old : option offerTerms;
  oh_NewStatus : option OTCOfferStatus;
  oh_CreatedAt : Z
}.

(** ** The saga *)

Inductive OTCSagaStep : Type :=
  OTCSagaStepPending | OTCSagaStepReserveFunds | OTCSagaStepReserveSecurities | OTCSagaStepTransferFunds |
  OTCSagaStepTransferOwnership | OTCSagaStepCompleted.
#[export] Instance OTCSagaStep_eq_dec : EqDecision OTCSagaStep.
Proof. solve_decision. Defined.

Inductive OTCSagaStatus : Type :=
  OTCSagaStatusInProgress | OTCSagaStatusCompleted | OTCSagaStatusFailed | OTCSagaStatusCompensating |
  OTCSagaStatusCompensationFailed.
#[export] Instance OTCSagaStatus_eq_dec : EqDecision OTCSagaStatus.
Proof. solve_decision. Defined.

Inductive OTCSagaStepStatus : Type :=
  OTCSagaStepStatusCompleted | OTCSagaStepStatusFailed | OTCSagaStepStatusCompensated |
  OTCSagaStepStatusCompensationFailed.

Record otcSagaExecutionModel : Type := mkExecutionModel {
  sx_ContractID : Z;
  sx_CurrentStep : OTCSagaStep;
  sx_Status : OTCSagaStatus;
  sx_BuyerReservedAmount : Z;
  sx_ErrorMessage : option error;
  sx_RetryCount : Z;
  sx_InitiatedBy : Z;
  sx_CreatedAt : Z;
  sx_UpdatedAt : Z
}.

Record otcSagaStepLogModel : Type := mkStepLogModel {
  sl_ExecutionID : Z;
  sl_Step : OTCSagaStep;
  sl_StepStatus : OTCSagaStepStatus;
  sl_ErrorMsg : option error;
  sl_Attempt : Z;
  sl_CreatedAt : Z
}.

(** ** Listings *)

(** [listing] joined with its exchange and the exchange's currency; a NULL of the
    outer joins is the empty string. *)
Record listingRow : Type := mkListingRow {
  lr_ticker : string;
  lr_name : string;
  lr_acronym : string;
  lr_price : float64;
  lr_oznaka : string
}.

(** ** The tables *)

(** [otc_order_saga] is the column [otc_saga_execution_id] of [orders], where it is
    not NULL. *)
Record OtcDB : Type := mkOtcDB {
  otc_offers : gmap Z otcOfferModel;
  otc_contracts : gmap Z otcContractModel;
  otc_history : list otcOfferHistoryModel;
  otc_executions : gmap Z otcSagaExecutionModel;
  otc_step_log : list otcSagaStepLogModel;
  otc_order_saga : gmap Z Z
}.

Definition otc_empty : OtcDB := mkOtcDB ∅ ∅ [] ∅ [] ∅.
