(* ===== verification/Store.v ===== *)
(** * The database, the environment and the effect monad

    [DB] holds the tables of the schema [core_banking] the trading code reads and
    writes, with a NUMERIC column as the integer number of its last unit.  A Go
    function that talks to the database, the market or the clock is a computation
    [M A]: it reads an environment [Env], threads a [World] and returns Go's
    [(value, error)] pair as a [result].

    The environment is an oracle indexed by the number of the external call: which
    SQL statement fails, what the market, the rate provider, the clock, the random
    generator and the context answer.  A theorem that quantifies over [Env] holds
    for every failure schedule and every market.

    [Transaction] is gorm's [db.Transaction]: [BEGIN]/[SAVEPOINT], the body, then
    [COMMIT], or [ROLLBACK] to the entry state when the body returns an error.  As
    in PostgreSQL, a failed statement inside a transaction aborts it: every later
    statement fails and the commit rolls back. *)

From S2P Require Import Prelude Numeric Domain InterbankTables Tables.

(** ** Tables *)

Inductive RacunStatus : Type := AKTIVAN | NEAKTIVAN.
#[export] Instance RacunStatus_eq_dec : EqDecision RacunStatus.
Proof. solve_decision. Defined.

Inductive VrstaRacuna : Type := LICNI | POSLOVNI.
#[export] Instance VrstaRacuna_eq_dec : EqDecision VrstaRacuna.
Proof. solve_decision. Defined.

(** [core_banking.racun] joined with [core_banking.valuta]. *)
Record racun : Type := mkRacun {
  r_broj_racuna : string;
  r_id_vlasnika : Z;
  r_oznaka : string;
  r_vrsta_racuna : VrstaRacuna;
  r_status : RacunStatus;
  r_stanje_racuna : Z;
  r_rezervisana_sredstva : Z;
  r_info : racunInfo
}.

Inductive TipTransakcije : Type := UPLATA | ISPLATA | INTERBANK | MENJACNICA.

Record transakcija : Type := mkTransakcija {
  t_RacunID : Z;
  t_TipTransakcije : TipTransakcije;
  t_Iznos : Z
}.

(** [core_banking.orders]; the two prices are NUMERIC(18, 6). *)
Record orderModel : Type := mkOrderModel {
  om_UserID : Z;
  om_AccountID : Z;
  om_ListingID : Z;
  om_OrderType : OrderType;
  om_Direction : OrderDirection;
  om_Quantity : Z;
  om_ContractSize : Z;
  om_PricePerUnit : option Z;
  om_StopPrice : option Z;
  om_Status : OrderStatus;
  om_ApprovedBy : option ApprovedBy;
  om_IsDone : bool;
  om_RemainingPortions : Z;
  om_AfterHours : bool;
  om_AllOrNone : bool;
  om_Margin : bool;
  om_IsClient : bool;
  om_FundID : option Z;
  om_CreatedAt : Z
}.

Record orderTransactionModel : Type := mkOrderTransactionModel {
  ot_OrderID : Z;
  ot_ExecutedQuantity : Z;
  ot_ExecutedPrice : Z;
  ot_ExecutionTime : Z
}.

(** [core_banking.order_audit_log]; the note "izvršeno x/y" is the pair. *)
Record orderAuditLogModel : Type := mkOrderAuditLogModel {
  al_OrderID : Z;
  al_OldStatus : option OrderStatus;
  al_NewStatus : OrderStatus;
  al_ChangedBy : option Z;
  al_Note : option (Z * Z)
}.

(** [core_banking.public_shares]; the list is in [created_at, id] order. *)
Record publicShare : Type := mkPublicShare {
  ps_ID : Z;
  ps_ListingID : Z;
  ps_UserID : Z;
  ps_Quantity : Z
}.

Record actuaryInfo : Type := mkActuaryInfo {
  ai_EmployeeID : Z;
  ai_ActuaryType : ActuaryType;
  ai_Limit : Z;
  ai_UsedLimit : Z;
  ai_NeedApproval : bool
}.

(** [core_banking.actuary_limit_audit]. *)
Record actuaryLimitAudit : Type := mkActuaryLimitAudit {
  ala_Actor : Z;
  ala_Target : Z;
  ala_OldLimit : Z;
  ala_NewLimit : Z
}.

(** [core_banking.kreditni_zahtev]. *)
Inductive StatusZahteva : Type := NA_CEKANJU | ZAHTEV_ODOBREN | ZAHTEV_ODBIJEN.
#[export] Instance StatusZahteva_eq_dec : EqDecision StatusZahteva.
Proof. solve_decision. Defined.

Record kreditniZahtevModel : Type := mkZahtev {
  kz_VlasnikID : Z;
  kz_VrstaKredita : string;
  kz_TipKamate : string;
  kz_IznosKredita : Z;
  kz_Valuta : string;
  kz_SvrhaKredita : string;
  kz_IznosMesecnePlate : Z;
  kz_StatusZaposlenja : string;
  kz_PeriodZaposlenja : Z;
  kz_KontaktTelefon : string;
  kz_BrojRacuna : string;
  kz_RokOtplate : Z;
  kz_Status : StatusZahteva;
  kz_DatumPodnosenja : Z
}.

(** [core_banking.kredit]: amounts in cents, rates NUMERIC(7, 4), dates in days. *)
Inductive StatusKredita : Type := ODOBREN | OTPLACEN | U_KASNJENJU | ODBIJEN.
#[export] Instance StatusKredita_eq_dec : EqDecision StatusKredita.
Proof. solve_decision. Defined.

Record kreditModel : Type := mkKredit {
  k_BrojKredita : string;
  k_KreditniZahtevID : option Z;
  k_BrojRacuna : string;
  k_VlasnikID : Z;
  k_VrstaKredita : string;
  k_TipKamate : string;
  k_IznosKredita : Z;
  k_PeriodOtplate : Z;
  k_NominalnaKamatnaStopa : Z;
  k_EfektivnaKamatnaStopa : Z;
  k_DatumUgovaranja : Z;
  k_DatumIsplate : option Z;
  k_IznosMesecneRate : Z;
  k_DatumSledeceRate : option Z;
  k_PreostaloDugovanje : Z;
  k_Valuta : string;
  k_Status : StatusKredita
}.

(** [core_banking.rata]. *)
Inductive StatusPlacanja : Type := PLACENO | NEPLACENO | KASNI.
#[export] Instance StatusPlacanja_eq_dec : EqDecision StatusPlacanja.
Proof. solve_decision. Defined.

Record rataModel : Type := mkRata {
  ra_KreditID : Z;
  ra_IznosRate : Z;
  ra_IznosKamate : Z;
  ra_Valuta : string;
  ra_OcekivaniDatumDospeca : Z;
  ra_PraviDatumDospeca : option Z;
  ra_StatusPlacanja : StatusPlacanja;
  ra_BrojPokusaja : Z;
  ra_SledecaPokusaj : option Z
}.

(** [core_banking.fund_securities]: quantity DECIMAL(20, 6), cost in cents. *)
Record fundSecurity : Type := mkFundSecurity {
  fs_quantity : Z;
  fs_initial_cost_rsd : Z
}.

Record DB : Type := mkDB {
  d_racun : gmap Z racun;
  d_transakcija : list transakcija;
  d_orders : gmap Z orderModel;
  d_order_transactions : list orderTransactionModel;
  d_order_audit_log : list orderAuditLogModel;
  d_public_shares : list publicShare;
  d_actuary_info : gmap Z actuaryInfo;
  d_actuary_limit_audit : list actuaryLimitAudit;
  d_liquid_assets : gmap Z Z;
  d_fund_securities : gmap (Z * Z) fundSecurity;
  d_kreditni_zahtev : gmap Z kreditniZahtevModel;
  d_kredit : gmap Z kreditModel;
  d_rata : gmap Z rataModel;
  d_bank : BankDB;
  d_otc : OtcDB
}.

Definition set_racun (m : gmap Z racun) (d : DB) : DB :=
  mkDB m (d_transakcija d) (d_orders d) (d_order_transactions d) (d_order_audit_log d)
    (d_public_shares d) (d_actuary_info d) (d_actuary_limit_audit d) (d_liquid_assets d)
    (d_fund_securities d) (d_kreditni_zahtev d) (d_kredit d) (d_rata d) (d_bank d) (d_otc d).
Definition set_transakcija (l : list transakcija) (d : DB) : DB :=
  mkDB (d_racun d) l (d_orders d) (d_order_transactions d) (d_order_audit_log d)
    (d_public_shares d) (d_actuary_info d) (d_actuary_limit_audit d) (d_liquid_assets d)
    (d_fund_securities d) (d_kreditni_zahtev d) (d_kredit d) (d_rata d) (d_bank d) (d_otc d).
Definition set_orders (m : gmap Z orderModel) (d : DB) : DB :=
  mkDB (d_racun d) (d_transakcija d) m (d_order_transactions d) (d_order_audit_log d)
    (d_public_shares d) (d_actuary_info d) (d_actuary_limit_audit d) (d_liquid_assets d)
    (d_fund_securities d) (d_kreditni_zahtev d) (d_kredit d) (d_rata d) (d_bank d) (d_otc d).
Definition set_order_transactions (l : list orderTransactionModel) (d : DB) : DB :=
  mkDB (d_racun d) (d_transakcija d) (d_orders d) l (d_order_audit_log d)
    (d_public_shares d) (d_actuary_info d) (d_actuary_limit_audit d) (d_liquid_assets d)
    (d_fund_securities d) (d_kreditni_zahtev d) (d_kredit d) (d_rata d) (d_bank d) (d_otc d).
Definition set_order_audit_log (l : list orderAuditLogModel) (d : DB) : DB :=
  mkDB (d_racun d) (d_transakcija d) (d_orders d) (d_order_transactions d) l
    (d_public_shares d) (d_actuary_info d) (d_actuary_limit_audit d) (d_liquid_assets d)
    (d_fund_securities d) (d_kreditni_zahtev d) (d_kredit d) (d_rata d) (d_bank d) (d_otc d).
Definition set_public_shares (l : list publicShare) (d : DB) : DB :=
  mkDB (d_racun d) (d_transakcija d) (d_orders d) (d_order_transactions d)
    (d_order_audit_log d) l (d_actuary_info d) (d_actuary_limit_audit d)
    (d_liquid_assets d) (d_fund_securities d) (d_kreditni_zahtev d) (d_kredit d)
    (d_rata d) (d_bank d) (d_otc d).
Definition set_actuary_info (m : gmap Z actuaryInfo) (d : DB) : DB :=
  mkDB (d_racun d) (d_transakcija d) (d_orders d) (d_order_transactions d)
    (d_order_audit_log d) (d_public_shares d) m (d_actuary_limit_audit d)
    (d_liquid_assets d) (d_fund_securities d) (d_kreditni_zahtev d) (d_kredit d)
    (d_rata d) (d_bank d) (d_otc d).
Definition set_actuary_limit_audit (l : list actuaryLimitAudit) (d : DB) : DB :=
  mkDB (d_racun d) (d_transakcija d) (d_orders d) (d_order_transactions d)
    (d_order_audit_log d) (d_public_shares d) (d_actuary_info d) l (d_liquid_assets d)
    (d_fund_securities d) (d_kreditni_zahtev d) (d_kredit d) (d_rata d) (d_bank d) (d_otc d).
Definition set_liquid_assets (m : gmap Z Z) (d : DB) : DB :=
  mkDB (d_racun d) (d_transakcija d) (d_orders d) (d_order_transactions d)
    (d_order_audit_log d) (d_public_shares d) (d_actuary_info d)
    (d_actuary_limit_audit d) m (d_fund_securities d) (d_kreditni_zahtev d) (d_kredit d)
    (d_rata d) (d_bank d) (d_otc d).
Definition set_fund_securities (m : gmap (Z * Z) fundSecurity) (d : DB) : DB :=
  mkDB (d_racun d) (d_transakcija d) (d_orders d) (d_order_transactions d)
    (d_order_audit_log d) (d_public_shares d) (d_actuary_info d)
    (d_actuary_limit_audit d) (d_liquid_assets d) m (d_kreditni_zahtev d) (d_kredit d)
    (d_rata d) (d_bank d) (d_otc d).
Definition set_kreditni_zahtev (m : gmap Z kreditniZahtevModel) (d : DB) : DB :=
  mkDB (d_racun d) (d_transakcija d) (d_orders d) (d_order_transactions d)
    (d_order_audit_log d) (d_public_shares d) (d_actuary_info d)
    (d_actuary_limit_audit d) (d_liquid_assets d) (d_fund_securities d) m (d_kredit d)
    (d_rata d) (d_bank d) (d_otc d).
Definition set_kredit (m : gmap Z kreditModel) (d : DB) : DB :=
  mkDB (d_racun d) (d_transakcija d) (d_orders d) (d_order_transactions d)
    (d_order_audit_log d) (d_public_shares d) (d_actuary_info d)
    (d_actuary_limit_audit d) (d_liquid_assets d) (d_fund_securities d)
    (d_kreditni_zahtev d) m (d_rata d) (d_bank d) (d_otc d).
Definition set_rata (m : gmap Z rataModel) (d : DB) : DB :=
  mkDB (d_racun d) (d_transakcija d) (d_orders d) (d_order_transactions d)
    (d_order_audit_log d) (d_public_shares d) (d_actuary_info d)
    (d_actuary_limit_audit d) (d_liquid_assets d) (d_fund_securities d)
    (d_kreditni_zahtev d) (d_kredit d) m (d_bank d) (d_otc d).

Definition set_bank (b : BankDB) (d : DB) : DB :=
  mkDB (d_racun d) (d_transakcija d) (d_orders d) (d_order_transactions d)
    (d_order_audit_log d) (d_public_shares d) (d_actuary_info d)
    (d_actuary_limit_audit d) (d_liquid_assets d) (d_fund_securities d)
    (d_kreditni_zahtev d) (d_kredit d) (d_rata d) b (d_otc d).

Definition set_firma (m : gmap Z firmaModel) (d : DB) : DB :=
  set_bank (mkBankDB (bd_valuta (d_bank d)) (bd_delatnost (d_bank d)) m
              (bd_pending_action (d_bank d)) (bd_payment_intent (d_bank d)) (bd_payment_recipient (d_bank d))
              (bd_kartica (d_bank d)) (bd_ovlasceno_lice (d_bank d)) (bd_tax_records (d_bank d)) (bd_funds (d_bank d))) d.
Definition set_pending_action (m : gmap Z pendingActionModel) (d : DB) : DB :=
  set_bank (mkBankDB (bd_valuta (d_bank d)) (bd_delatnost (d_bank d)) (bd_firma (d_bank d))
              m (bd_payment_intent (d_bank d)) (bd_payment_recipient (d_bank d))
              (bd_kartica (d_bank d)) (bd_ovlasceno_lice (d_bank d)) (bd_tax_records (d_bank d)) (bd_funds (d_bank d))) d.
Definition set_payment_intent (m : gmap Z paymentIntentModel) (d : DB) : DB :=
  set_bank (mkBankDB (bd_valuta (d_bank d)) (bd_delatnost (d_bank d)) (bd_firma (d_bank d))
              (bd_pending_action (d_bank d)) m (bd_payment_recipient (d_bank d))
              (bd_kartica (d_bank d)) (bd_ovlasceno_lice (d_bank d)) (bd_tax_records (d_bank d)) (bd_funds (d_bank d))) d.
Definition set_payment_recipient (m : gmap Z paymentRecipientModel) (d : DB) : DB :=
  set_bank (mkBankDB (bd_valuta (d_bank d)) (bd_delatnost (d_bank d)) (bd_firma (d_bank d))
              (bd_pending_action (d_bank d)) (bd_payment_intent (d_bank d)) m
              (bd_kartica (d_bank d)) (bd_ovlasceno_lice (d_bank d)) (bd_tax_records (d_bank d)) (bd_funds (d_bank d))) d.
Definition set_kartica (m : gmap Z karticaModel) (d : DB) : DB :=
  set_bank (mkBankDB (bd_valuta (d_bank d)) (bd_delatnost (d_bank d)) (bd_firma (d_bank d))
              (bd_pending_action (d_bank d)) (bd_payment_intent (d_bank d)) (bd_payment_recipient (d_bank d))
              m (bd_ovlasceno_lice (d_bank d)) (bd_tax_records (d_bank d)) (bd_funds (d_bank d))) d.
Definition set_ovlasceno_lice (m : gmap Z ovlascenoLiceModel) (d : DB) : DB :=
  set_bank (mkBankDB (bd_valuta (d_bank d)) (bd_delatnost (d_bank d)) (bd_firma (d_bank d))
              (bd_pending_action (d_bank d)) (bd_payment_intent (d_bank d)) (bd_payment_recipient (d_bank d))
              (bd_kartica (d_bank d)) m (bd_tax_records (d_bank d)) (bd_funds (d_bank d))) d.
Definition set_tax_records (m : gmap Z taxRecord) (d : DB) : DB :=
  set_bank (mkBankDB (bd_valuta (d_bank d)) (bd_delatnost (d_bank d)) (bd_firma (d_bank d))
              (bd_pending_action (d_bank d)) (bd_payment_intent (d_bank d)) (bd_payment_recipient (d_bank d))
              (bd_kartica (d_bank d)) (bd_ovlasceno_lice (d_bank d)) m (bd_funds (d_bank d))) d.

Definition set_fund_db (f : FundDB) (d : DB) : DB :=
  set_bank (mkBankDB (bd_valuta (d_bank d)) (bd_delatnost (d_bank d)) (bd_firma (d_bank d))
              (bd_pending_action (d_bank d)) (bd_payment_intent (d_bank d)) (bd_payment_recipient (d_bank d))
              (bd_kartica (d_bank d)) (bd_ovlasceno_lice (d_bank d)) (bd_tax_records (d_bank d)) f) d.

Definition set_otc (o : OtcDB) (d : DB) : DB :=
  mkDB (d_racun d) (d_transakcija d) (d_orders d) (d_order_transactions d)
    (d_order_audit_log d) (d_public_shares d) (d_actuary_info d)
    (d_actuary_limit_audit d) (d_liquid_assets d) (d_fund_securities d)
    (d_kreditni_zahtev d) (d_kredit d) (d_rata d) (d_bank d) o.

Definition set_otc_offers (m : gmap Z otcOfferModel) (d : DB) : DB :=
  set_otc (mkOtcDB m (otc_contracts (d_otc d)) (otc_history (d_otc d)) (otc_executions (d_otc d))
             (otc_step_log (d_otc d)) (otc_order_saga (d_otc d))) d.
Definition set_otc_contracts (m : gmap Z otcContractModel) (d : DB) : DB :=
  set_otc (mkOtcDB (otc_offers (d_otc d)) m (otc_history (d_otc d)) (otc_executions (d_otc d))
             (otc_step_log (d_otc d)) (otc_order_saga (d_otc d))) d.
Definition set_otc_history (l : list otcOfferHistoryModel) (d : DB) : DB :=
  set_otc (mkOtcDB (otc_offers (d_otc d)) (otc_contracts (d_otc d)) l (otc_executions (d_otc d))
             (otc_step_log (d_otc d)) (otc_order_saga (d_otc d))) d.
Definition set_otc_executions (m : gmap Z otcSagaExecutionModel) (d : DB) : DB :=
  set_otc (mkOtcDB (otc_offers (d_otc d)) (otc_contracts (d_otc d)) (otc_history (d_otc d)) m
             (otc_step_log (d_otc d)) (otc_order_saga (d_otc d))) d.
Definition set_otc_step_log (l : list otcSagaStepLogModel) (d : DB) : DB :=
  set_otc (mkOtcDB (otc_offers (d_otc d)) (otc_contracts (d_otc d)) (otc_history (d_otc d)) (otc_executions (d_otc d))
             l (otc_order_saga (d_otc d))) d.
Definition set_otc_order_saga (m : gmap Z Z) (d : DB) : DB :=
  set_otc (mkOtcDB (otc_offers (d_otc d)) (otc_contracts (d_otc d)) (otc_history (d_otc d)) (otc_executions (d_otc d))
             (otc_step_log (d_otc d)) m) d.

(** A VARCHAR(n) column holds a text of at most [n] characters. *)
Definition varchar (n : nat) (s : string) : bool := bool_decide ((String.length s <= n)%nat).

(** An INSERT with its primary key. *)
Definition insert_row {A} (id : Z) (a : A) (m : gmap Z A) : result (gmap Z A) :=
  match m !! id with None => Ok (<[id := a]> m) | Some _ => Err ErrDB end.

(** ** Environment and world *)

(** [encoding/json] and [time.Parse] on the text of [details_json]. *)
Record Json : Type := mkJson {
  (** [json.Unmarshal] into [ForexDetails]: base and quote currency. *)
  json_forex : string -> option (string * string);
  (** the [settlement_date] field, the empty string when the field is absent. *)
  json_settlement_date : string -> option string;
  json_contract_size : string -> option float64;
  json_underlying_price : string -> option float64;
  (** [time.Parse] with the layouts ["2006-01-02"] and [RFC3339]. *)
  time_parse_date : string -> option Z;
  time_parse_rfc3339 : string -> option Z
}.

Record Env : Type := mkEnv {
  env_fault : nat -> bool;
  env_listing : nat -> Z -> result Listing;
  env_daily_change : nat -> Z -> float64;
  env_mid_rates : nat -> option (list (string * float64));
  env_market_status : nat -> Z -> option MarketStatus;
  env_rand : nat -> Z;
  (** [rand.Float64()]. *)
  env_rand_float : nat -> float64;
  env_now : nat -> Z;
  env_ctx_done : nat -> bool;
  env_row_choice : nat -> nat;
  (** A price tick (ask, bid) that arrives before the fallback timer. *)
  env_price_tick : nat -> option (float64 * float64);
  (** What other requests and goroutines did while this one slept. *)
  env_interference : nat -> DB -> DB;
  env_json : Json;
  (** The id of the listing with a ticker. *)
  env_ticker : string -> option Z;
  (** [uuid.NewString()] and the digits of [crypto/rand]. *)
  env_uuid : nat -> string;
  (** What the other bank, or the network, answers to POST /interbank. *)
  env_peer : nat -> InterbankMessage -> result (Z * Body);
  (** The tables [listing], [exchange] and [valuta], at a listing. *)
  env_listing_row : nat -> Z -> listingRow
}.

Record World : Type := mkWorld {
  w_db : DB;
  w_step : nat;
  w_depth : nat;
  w_aborted : bool;
  w_seq : Z;
  (** The interbank tables: written on a connection of their own, so that a
      ROLLBACK does not undo them. *)
  w_ib : IbDB;
  (** The messages sent to the other bank so far. *)
  w_sent : list InterbankMessage;
  (** Redis, outside every transaction. *)
  w_redis : Redis
}.

Definition set_db (d : DB) (w : World) : World :=
  mkWorld d (w_step w) (w_depth w) (w_aborted w) (w_seq w) (w_ib w) (w_sent w) (w_redis w).
Definition set_ib (d : IbDB) (w : World) : World :=
  mkWorld (w_db w) (w_step w) (w_depth w) (w_aborted w) (w_seq w) d (w_sent w) (w_redis w).
Definition add_sent (m : InterbankMessage) (w : World) : World :=
  mkWorld (w_db w) (w_step w) (w_depth w) (w_aborted w) (w_seq w) (w_ib w) (w_sent w ++ [m]) (w_redis w).
Definition set_redis (r : Redis) (w : World) : World :=
  mkWorld (w_db w) (w_step w) (w_depth w) (w_aborted w) (w_seq w) (w_ib w) (w_sent w) r.
Definition next_step (w : World) : World :=
  mkWorld (w_db w) (S (w_step w)) (w_depth w) (w_aborted w) (w_seq w) (w_ib w) (w_sent w) (w_redis w).
Definition next_seq (w : World) : World :=
  mkWorld (w_db w) (w_step w) (w_depth w) (w_aborted w) (w_seq w + 1) (w_ib w) (w_sent w) (w_redis w).
(** A failed statement aborts the transaction it runs in. *)
Definition fail_stmt (w : World) : World :=
  mkWorld (w_db w) (w_step w) (w_depth w)
    (match w_depth w with O => w_aborted w | S _ => true end) (w_seq w) (w_ib w) (w_sent w) (w_redis w).

(** ** The monad *)

Definition M (A : Type) : Type := Env -> World -> result A * World.

#[export] Instance M_ret : MRet M := fun A a e w => (Ok a, w).
#[export] Instance M_bind : MBind M := fun A B k m e w =>
  match m e w with
  | (Ok a, w') => k a e w'
  | (Err er, w') => (Err er, w')
  end.

Definition throw {A} (er : error) : M A := fun e w => (Err er, w).

(** [x, err := m] with the error examined by the caller. *)
Definition try {A} (m : M A) : M (result A) := fun e w =>
  let '(r, w') := m e w in (Ok r, w').

Definition of_result {A} (r : result A) : M A :=
  match r with Ok a => mret a | Err er => throw er end.

(** A call to the market, the clock, the context or the random generator. *)
Definition io {A} (f : Env -> nat -> result A) : M A := fun e w =>
  (f e (w_step w), next_step w).

(** One SQL statement. *)
Definition sql {A} (f : DB -> result (A * DB)) : M A := fun e w =>
  if w_aborted w then (Err ErrDB, next_step w)
  else if env_fault e (w_step w) then (Err ErrDB, next_step (fail_stmt w))
  else match f (w_db w) with
       | Ok (a, d) => (Ok a, next_step (set_db d w))
       | Err er => (Err er, next_step (fail_stmt w))
       end.

Definition sql_read {A} (f : DB -> A) : M A := sql (fun d => Ok (f d, d)).

(** An INSERT into a table with an identity column: the sequence moves on even
    when the statement fails. *)
Definition sql_insert {A} (f : Z -> DB -> result (A * DB)) : M A := fun e w =>
  sql (f (w_seq w)) e (next_seq w).

Definition begin_tx (w : World) : World :=
  mkWorld (w_db w) (S (w_step w)) (S (w_depth w)) (w_aborted w) (w_seq w) (w_ib w) (w_sent w) (w_redis w).
Definition rollback_tx (w0 w : World) : World :=
  mkWorld (w_db w0) (S (w_step w)) (w_depth w0) (w_aborted w0) (w_seq w) (w_ib w) (w_sent w) (w_redis w).
Definition commit_tx (w0 w : World) : World :=
  mkWorld (w_db w) (S (w_step w)) (w_depth w0) (w_aborted w) (w_seq w) (w_ib w) (w_sent w) (w_redis w).

Definition Transaction {A} (m : M A) : M A := fun e w =>
  if w_aborted w || env_fault e (w_step w) then (Err ErrDB, next_step (fail_stmt w))
  else match m e (begin_tx w) with
       | (Err er, w') => (Err er, rollback_tx w w')
       | (Ok a, w') =>
           match w_depth w with
           | O => if w_aborted w' || env_fault e (w_step w')
                  then (Err ErrDB, rollback_tx w w')
                  else (Ok a, commit_tx w w')
           | S _ => (Ok a, commit_tx w w')
           end
       end.

(** A statement of the interbank repository, on a connection outside the
    transaction of the caller: it neither sees its state nor aborts it. *)
Definition sql_ib {A} (f : IbDB -> result (A * IbDB)) : M A := fun e w =>
  if env_fault e (w_step w) then (Err ErrDB, next_step w)
  else match f (w_ib w) with
       | Ok (a, d) => (Ok a, next_step (set_ib d w))
       | Err er => (Err er, next_step w)
       end.

Definition sql_ib_insert {A} (f : Z -> IbDB -> result (A * IbDB)) : M A := fun e w =>
  sql_ib (f (w_seq w)) e (next_seq w).

(** [client.SendMessage]: POST /interbank to the other bank. *)
Definition send_to_peer (m : InterbankMessage) : M (Z * Body) := fun e w =>
  (env_peer e (w_step w) m, next_step (add_sent m w)).

(** [for _, x := range l { body }], stopping at the first error. *)
Fixpoint for_each {A} (l : list A) (body : A -> M unit) : M unit :=
  match l with
  | [] => mret tt
  | x :: l' => body x ;; for_each l' body
  end.

Definition ctx_done : M bool := io (fun e n => Ok (env_ctx_done e n)).
Definition time_now : M Z := io (fun e n => Ok (env_now e n)).

(** [rand.Intn(n)]: a number in [0, n), a panic when [n <= 0]. *)
Definition rand_Intn (n : Z) : M Z :=
  io (fun e k => if n <=? 0 then Err Panic else Ok (env_rand e k mod n)).

(** A sleep on a timer: the database is what the others made of it meanwhile. *)
Definition sleep : M unit := fun e w =>
  (Ok tt, next_step (set_db (env_interference e (w_step w) (w_db w)) w)).
