(* ===== verification/StoreFacts.v ===== *)
(** * Reasoning about database computations

    - inversion of a run of [mbind], [try], [sql], [Transaction];
    - [preserves R m]: every run of [m], failed or not, relates the databases by
      the preorder [R]; closed under the operations of the monad, with a tactic
      [solve_preserves] that decomposes a computation;
    - [same f]: the preorder "table [f] is unchanged", the frame of an operation;
    - atomicity: a transaction that returns an error leaves the database alone. *)

From S2P Require Import Prelude Numeric Domain Store.
From stdpp Require Import list sorting.


(** ** Running computations *)

Lemma bind_ok {A B} (m : M A) (k : A -> M B) e w b w' :
  (x ← m; k x) e w = (Ok b, w') ->
  exists a w1, m e w = (Ok a, w1) /\ k a e w1 = (Ok b, w').
Proof.
  unfold mbind, M_bind. destruct (m e w) as [[a|er] w1]; [eauto|discriminate].
Qed.

Lemma bind_err {A B} (m : M A) (k : A -> M B) e w er w' :
  (x ← m; k x) e w = (Err er, w') ->
  m e w = (Err er, w') \/
  exists a w1, m e w = (Ok a, w1) /\ k a e w1 = (Err er, w').
Proof.
  unfold mbind, M_bind. destruct (m e w) as [[a|er'] w1]; intros H; [eauto|].
  left. congruence.
Qed.

Lemma bind_cases {A B} (m : M A) (k : A -> M B) e w r w' :
  (x ← m; k x) e w = (r, w') ->
  (exists a w1, m e w = (Ok a, w1) /\ k a e w1 = (r, w')) \/
  (exists er, r = Err er /\ m e w = (Err er, w')).
Proof.
  unfold mbind, M_bind. destruct (m e w) as [[a|er] w1]; [eauto|]. intros [= <- <-]. eauto.
Qed.

Lemma bind_assoc {A B C} (m : M A) (k : A -> M B) (h : B -> M C) e w :
  ((m ≫= k) ≫= h) e w = (m ≫= fun a => k a ≫= h) e w.
Proof. unfold mbind, M_bind. by destruct (m e w) as [[a|er] w1]. Qed.

Lemma bind_run {A B} (m : M A) (k : A -> M B) e w a w1 :
  m e w = (Ok a, w1) -> (x ← m; k x) e w = k a e w1.
Proof. unfold mbind, M_bind. by intros ->. Qed.

Lemma bind_run_err {A B} (m : M A) (k : A -> M B) e w er w1 :
  m e w = (Err er, w1) -> (x ← m; k x) e w = (Err er, w1).
Proof. unfold mbind, M_bind. by intros ->. Qed.

Lemma try_run {A} (m : M A) e w r w' :
  try m e w = (r, w') -> exists r0, r = Ok r0 /\ m e w = (r0, w').
Proof. unfold try. destruct (m e w) as [r0 w0]. intros [= <- <-]. eauto. Qed.

(** [try] never fails: what follows it always runs. *)
Lemma try_bind {A B} (m : M A) (k : result A -> M B) e w r w' :
  (x ← try m; k x) e w = (r, w') -> exists r0 w1, m e w = (r0, w1) /\ k r0 e w1 = (r, w').
Proof. unfold mbind, M_bind, try. destruct (m e w) as [r0 w1]. eauto. Qed.

Lemma try_eq {A} (m : M A) e w r w' : m e w = (r, w') -> try m e w = (Ok r, w').
Proof. unfold try. by intros ->. Qed.

Lemma sql_ok {A} (f : DB -> result (A * DB)) e w a w' :
  sql f e w = (Ok a, w') ->
  exists d, f (w_db w) = Ok (a, d) /\ w' = next_step (set_db d w) /\ w_aborted w = false.
Proof.
  unfold sql. destruct (w_aborted w); [discriminate|].
  destruct (env_fault _ _); [discriminate|].
  destruct (f (w_db w)) as [[a' d]|er]; [|discriminate]. intros [= -> <-]. eauto.
Qed.

Lemma sql_err_db {A} (f : DB -> result (A * DB)) e w er w' :
  sql f e w = (Err er, w') -> w_db w' = w_db w.
Proof.
  unfold sql. destruct (w_aborted w); [by intros [= _ <-]|].
  destruct (env_fault _ _); [by intros [= _ <-]|].
  destruct (f (w_db w)) as [[a' d]|er']; [discriminate|by intros [= _ <-]].
Qed.

(** When the environment never fails and the transaction is healthy, a statement
    runs. *)
Definition no_faults (e : Env) : Prop := forall n, env_fault e n = false.

Lemma sql_run {A} (f : DB -> result (A * DB)) e w :
  no_faults e -> w_aborted w = false ->
  sql f e w = match f (w_db w) with
              | Ok (a, d) => (Ok a, next_step (set_db d w))
              | Err er => (Err er, next_step (fail_stmt w))
              end.
Proof. intros He Hw. unfold sql. rewrite Hw, (He (w_step w)). done. Qed.

(** ** Relations preserved by every run *)

Definition preserves {A} (R : DB -> DB -> Prop) (m : M A) : Prop :=
  forall e w r w', m e w = (r, w') -> R (w_db w) (w_db w').

(** "The part [f] of the database is the same." *)
Definition same {T} (f : DB -> T) (d d' : DB) : Prop := f d' = f d.

#[export] Instance same_preorder {T} (f : DB -> T) : PreOrder (same f).
Proof. split; unfold same; [done|]. intros x y z Hxy Hyz. congruence. Qed.

Section preserves.
Context (R : DB -> DB -> Prop) `{HR : !PreOrder R}.

Lemma preserves_ret {A} (a : A) : preserves R (mret a).
Proof. intros e w r w' [= <- <-]. reflexivity. Qed.

Lemma preserves_throw {A} er : preserves R (@throw A er).
Proof. intros e w r w' [= <- <-]. reflexivity. Qed.

Lemma preserves_of_result {A} (r : result A) : preserves R (of_result r).
Proof. destruct r; [apply preserves_ret|apply preserves_throw]. Qed.

Lemma preserves_bind {A B} (m : M A) (k : A -> M B) :
  preserves R m -> (forall a, preserves R (k a)) -> preserves R (x ← m; k x).
Proof.
  intros Hm Hk e w r w'. unfold mbind, M_bind.
  destruct (m e w) as [[a|er] w1] eqn:E.
  - intros H. etransitivity; [eapply Hm, E|eapply Hk, H].
  - intros [= <- <-]. eapply Hm, E.
Qed.

Lemma preserves_try {A} (m : M A) : preserves R m -> preserves R (try m).
Proof.
  intros Hm e w r w' H. apply try_run in H as (r0 & _ & H). eapply Hm, H.
Qed.

Lemma preserves_io {A} (f : Env -> nat -> result A) : preserves R (io f).
Proof. intros e w r w' [= <- <-]. reflexivity. Qed.

Lemma preserves_sql {A} (f : DB -> result (A * DB)) :
  (forall d a d', f d = Ok (a, d') -> R d d') -> preserves R (sql f).
Proof.
  intros Hf e w [a|er] w' H.
  - apply sql_ok in H as (d & Hd & -> & _). eapply Hf, Hd.
  - apply sql_err_db in H. rewrite H. reflexivity.
Qed.

Lemma preserves_sql_read {A} (f : DB -> A) : preserves R (sql_read f).
Proof. apply preserves_sql. intros d a d' [= _ <-]. reflexivity. Qed.

Lemma preserves_sql_insert {A} (f : Z -> DB -> result (A * DB)) :
  (forall i d a d', f i d = Ok (a, d') -> R d d') -> preserves R (sql_insert f).
Proof. intros Hf e w r w' H. exact (preserves_sql _ (Hf _) _ _ _ _ H). Qed.

Lemma preserves_Transaction {A} (m : M A) : preserves R m -> preserves R (Transaction m).
Proof.
  intros Hm e w r w'. unfold Transaction.
  destruct (w_aborted w || env_fault e (w_step w)); [by intros [= _ <-]|].
  destruct (m e (begin_tx w)) as [[a|er] w1] eqn:E; apply Hm in E.
  - destruct (w_depth w); [destruct (w_aborted w1 || env_fault e (w_step w1))|];
      intros [= _ <-]; (reflexivity || exact E).
  - by intros [= _ <-].
Qed.

Lemma preserves_for_each {A} (l : list A) (body : A -> M unit) :
  (forall x, x ∈ l -> preserves R (body x)) -> preserves R (for_each l body).
Proof.
  induction l as [|x l IH]; intros H; cbn [for_each]; [apply preserves_ret|].
  apply preserves_bind; [apply H; set_solver|intros _; apply IH; set_solver].
Qed.
End preserves.

(** A computation that leaves the database alone. *)
Definition reads {A} (m : M A) : Prop := preserves eq m.

Lemma reads_preserves {A} R `{!PreOrder R} (m : M A) : reads m -> preserves R m.
Proof. intros H e w r w' Hm. rewrite (H e w r w' Hm). reflexivity. Qed.

(** Decompose a computation; leaves the statements that need an argument. *)
Create HintDb preserves.
Create HintDb reads.
#[export] Hint Extern 5 (preserves _ _) =>
  apply reads_preserves; [apply _|solve [eauto with reads nocore]] : preserves.

Ltac solve_preserves_step :=
  match goal with
  | |- preserves _ (mret _) => apply preserves_ret; apply _
  | |- preserves _ (throw _) => apply preserves_throw; apply _
  | |- preserves _ (of_result _) => apply preserves_of_result; apply _
  | |- preserves _ (mbind _ _) => apply preserves_bind; [apply _| |intros ?]
  | |- preserves _ (try _) => apply preserves_try
  | |- preserves _ (io _) => apply preserves_io; apply _
  | |- preserves _ ctx_done => apply preserves_io; apply _
  | |- preserves _ time_now => apply preserves_io; apply _
  | |- preserves _ (rand_Intn _) => apply preserves_io; apply _
  | |- preserves _ (sql_read _) => apply preserves_sql_read; apply _
  | |- preserves _ (Transaction _) => apply preserves_Transaction; [apply _|]
  | |- preserves _ (for_each _ _) => apply preserves_for_each; [apply _|intros ? ?]
  | |- preserves _ _ => solve [eauto with preserves]
  | |- preserves _ (match ?x with _ => _ end) => destruct x
  | |- preserves _ (let _ := _ in _) => cbv zeta
  end.
Ltac solve_preserves := repeat solve_preserves_step.
Ltac solve_reads := unfold reads; solve_preserves.

(** ** Runs in one environment

    A computation that sleeps lets the others run: what it preserves depends on
    what they do, that is on the environment. *)

Definition preserves_at {A} (e : Env) (R : DB -> DB -> Prop) (m : M A) : Prop :=
  forall w r w', m e w = (r, w') -> R (w_db w) (w_db w').

(** The others move the database along [R] only. *)
Definition interferes (e : Env) (R : DB -> DB -> Prop) : Prop :=
  forall n d, R d (env_interference e n d).

Section preserves_at.
Context (e : Env) (R : DB -> DB -> Prop) `{HR : !PreOrder R}.

Lemma preserves_at_of {A} (m : M A) : preserves R m -> preserves_at e R m.
Proof. intros H w r w'. apply H. Qed.

Lemma preserves_at_bind {A B} (m : M A) (k : A -> M B) :
  preserves_at e R m -> (forall a, preserves_at e R (k a)) -> preserves_at e R (x ← m; k x).
Proof.
  intros Hm Hk w r w'. unfold mbind, M_bind.
  destruct (m e w) as [[a|er] w1] eqn:E.
  - intros H. etransitivity; [eapply Hm, E|eapply Hk, H].
  - intros [= <- <-]. eapply Hm, E.
Qed.

Lemma preserves_at_sleep : interferes e R -> preserves_at e R sleep.
Proof. intros H w r w' [= _ <-]. apply H. Qed.
End preserves_at.

(** ** Atomicity of transactions *)

Lemma Transaction_err {A} (m : M A) e w er w' :
  Transaction m e w = (Err er, w') -> w_db w' = w_db w.
Proof.
  unfold Transaction. destruct (w_aborted w || env_fault e (w_step w)); [by intros [= _ <-]|].
  destruct (m e (begin_tx w)) as [[a|er'] w1]; [|by intros [= _ <-]].
  destruct (w_depth w); [destruct (w_aborted w1 || _)|]; try discriminate. by intros [= _ <-].
Qed.

Lemma Transaction_ok {A} (m : M A) e w a w' :
  Transaction m e w = (Ok a, w') ->
  exists w1, m e (begin_tx w) = (Ok a, w1) /\ w_db w' = w_db w1 /\ w_depth w' = w_depth w /\
    w_aborted w = false.
Proof.
  unfold Transaction. destruct (w_aborted w) eqn:Ea; cbn [orb]; [discriminate|].
  destruct (env_fault e (w_step w)); [discriminate|].
  destruct (m e (begin_tx w)) as [[a'|er'] w1]; [|discriminate].
  destruct (w_depth w) eqn:Ed; [destruct (w_aborted w1 || _)|]; try discriminate;
    intros [= <- <-]; exists w1; cbn; auto.
Qed.

Lemma Transaction_run {A} (m : M A) e w r w1 :
  no_faults e -> w_aborted w = false -> m e (begin_tx w) = (r, w1) ->
  Transaction m e w =
    match r with
    | Err er => (Err er, rollback_tx w w1)
    | Ok a => match w_depth w with
              | O => if w_aborted w1 then (Err ErrDB, rollback_tx w w1) else (Ok a, commit_tx w w1)
              | S _ => (Ok a, commit_tx w w1)
              end
    end.
Proof.
  intros He Hw Hm. unfold Transaction. rewrite Hw, He. cbn [orb]. rewrite Hm.
  destruct r; [|done]. rewrite He, orb_false_r. done.
Qed.

(** ** Runs that succeed *)

Section runs.
Context (e : Env) (He : no_faults e).

(** [runs m w a P]: [m] answers [a] in a world that satisfies [P]. *)
Definition runs {A} (m : M A) (w : World) (a : A) (P : World -> Prop) : Prop :=
  exists w', m e w = (Ok a, w') /\ P w'.

Lemma runs_ret {A} (a : A) w (P : World -> Prop) : P w -> runs (mret a) w a P.
Proof. intros HP. by exists w. Qed.

Lemma runs_bind {A B} (m : M A) (k : A -> M B) w a b P Q :
  runs m w a P -> (forall w', P w' -> runs (k a) w' b Q) -> runs (x ← m; k x) w b Q.
Proof.
  intros (w1 & H1 & HP) Hk. destruct (Hk w1 HP) as (w2 & H2 & HQ).
  exists w2. by rewrite (bind_run _ _ _ _ _ _ H1).
Qed.

Lemma runs_try {A} (m : M A) w a P : runs m w a P -> runs (try m) w (Ok a) P.
Proof. intros (w1 & H1 & HP). exists w1. by rewrite (try_eq _ _ _ _ _ H1). Qed.

Lemma runs_sql {A} (f : DB -> result (A * DB)) w a d' (P : World -> Prop) :
  w_aborted w = false -> f (w_db w) = Ok (a, d') -> P (next_step (set_db d' w)) -> runs (sql f) w a P.
Proof. intros Hw Hf HP. eexists. rewrite sql_run by done. by rewrite Hf. Qed.

Lemma runs_now w (P : World -> Prop) : P (next_step w) -> runs time_now w (env_now e (w_step w)) P.
Proof. intros HP. by eexists. Qed.

Lemma runs_Transaction {A} (m : M A) w a (P : World -> Prop) :
  w_aborted w = false -> w_depth w = O ->
  runs m (begin_tx w) a (fun w' => w_aborted w' = false /\ P (commit_tx w w')) -> runs (Transaction m) w a P.
Proof.
  intros Ha Hd (w1 & H1 & Ha1 & HP). exists (commit_tx w w1).
  rewrite (Transaction_run _ _ _ _ _ He Ha H1), Hd, Ha1. done.
Qed.

Lemma runs_mono {A} (m : M A) w a (P Q : World -> Prop) :
  runs m w a P -> (forall w', P w' -> Q w') -> runs m w a Q.
Proof. intros (w' & H & HP) HQ. exists w'. auto. Qed.

Lemma runs_skip w (P : World -> Prop) : P w -> runs (mret tt ;; mret tt) w tt P.
Proof. intros HP. by exists w. Qed.

(** [succeeds m w]: [m] answers, and no statement of it failed. *)
Definition succeeds {A} (m : M A) (w : World) : Prop :=
  exists a w', m e w = (Ok a, w') /\ w_aborted w' = false /\ w_depth w' = w_depth w.

Lemma succeeds_ret {A} (a : A) w : w_aborted w = false -> succeeds (mret a) w.
Proof. intros H. by exists a, w. Qed.

Lemma succeeds_bind {A B} (m : M A) (k : A -> M B) w :
  succeeds m w ->
  (forall a w', m e w = (Ok a, w') -> w_aborted w' = false -> succeeds (k a) w') -> succeeds (x ← m; k x) w.
Proof.
  intros (a & w1 & H1 & A1 & D1) Hk. destruct (Hk a w1 H1 A1) as (b & w2 & H2 & A2 & D2).
  exists b, w2. rewrite (bind_run _ _ _ _ _ _ H1). split; [done|]. split; [done|congruence].
Qed.

Lemma succeeds_sql {A} (f : DB -> result (A * DB)) w :
  w_aborted w = false -> (exists a d, f (w_db w) = Ok (a, d)) -> succeeds (sql f) w.
Proof. intros Hw (a & d & Hf). exists a, (next_step (set_db d w)). by rewrite sql_run, Hf. Qed.

Lemma succeeds_read {A} (f : DB -> A) w : w_aborted w = false -> succeeds (sql_read f) w.
Proof. intros Hw. apply succeeds_sql; eauto. Qed.

Lemma succeeds_insert {A} (f : Z -> DB -> result (A * DB)) w :
  w_aborted w = false -> (exists a d, f (w_seq w) (w_db w) = Ok (a, d)) -> succeeds (sql_insert f) w.
Proof. intros Hw H. unfold sql_insert. destruct (succeeds_sql (f (w_seq w)) (next_seq w) Hw H) as (a & w' & H'). by exists a, w'. Qed.

Lemma succeeds_now w : w_aborted w = false -> succeeds time_now w.
Proof. intros Hw. by exists (env_now e (w_step w)), (next_step w). Qed.

Lemma succeeds_Transaction {A} (m : M A) w :
  w_aborted w = false -> w_depth w = O -> succeeds m (begin_tx w) -> succeeds (Transaction m) w.
Proof.
  intros Ha Hd (a & w1 & H1 & A1 & D1). exists a, (commit_tx w w1).
  by rewrite (Transaction_run _ _ _ _ _ He Ha H1), Hd, A1.
Qed.
End runs.

(** ** Queries that fail

    A query is refused only by a transaction that is lost or by the server.  [calm m]:
    [m] itself loses no transaction. *)
Definition failing (e : Env) (w : World) : Prop := w_aborted w = true \/ exists n, env_fault e n = true.

Lemma works_not_failing e w : no_faults e -> w_aborted w = false -> ~ failing e w.
Proof. intros He Hw [H|[n H]]; [congruence|]. by rewrite He in H. Qed.

Lemma sql_read_failing {A} (f : DB -> A) e w er w' : sql_read f e w = (Err er, w') -> failing e w.
Proof.
  unfold sql_read, sql. destruct (w_aborted w) eqn:Ea; [by left|].
  destruct (env_fault e (w_step w)) eqn:Ef; [|done]. intros _. right. by exists (w_step w).
Qed.

Definition calm {A} (m : M A) : Prop := forall e w r w', m e w = (r, w') -> failing e w' -> failing e w.

Lemma calm_ret {A} (a : A) : calm (mret a).
Proof. by intros e w r w' [= _ <-]. Qed.

Lemma calm_throw {A} er : calm (@throw A er).
Proof. by intros e w r w' [= _ <-]. Qed.

Lemma calm_io {A} (f : Env -> nat -> result A) : calm (io f).
Proof. by intros e w r w' [= _ <-]. Qed.

Lemma calm_bind {A B} (m : M A) (k : A -> M B) : calm m -> (forall a, calm (k a)) -> calm (x ← m; k x).
Proof.
  intros Hm Hk e w r w' H Hf. apply bind_cases in H as [(a & w1 & H1 & H)|(er & _ & H)]; [|by eapply Hm].
  eapply Hm; [done|]. by eapply Hk.
Qed.

Lemma calm_try {A} (m : M A) : calm m -> calm (try m).
Proof.
  unfold try. intros Hm e w r w'. destruct (m e w) as [r0 w0] eqn:E. intros [= _ <-]. by eapply Hm.
Qed.

Lemma calm_sql_read {A} (f : DB -> A) : calm (sql_read f).
Proof.
  intros e w r w'. unfold sql_read, sql. destruct (w_aborted w) eqn:Ea; [by intros [= _ <-]|].
  destruct (env_fault e (w_step w)) eqn:Ef; [|by intros [= _ <-]].
  intros _ _. right. by exists (w_step w).
Qed.

#[export] Hint Resolve calm_ret calm_throw calm_io calm_sql_read : reads.

(** A program of queries. *)
Ltac solve_calm :=
  repeat first
    [ progress cbv beta zeta
    | apply calm_try
    | solve [eauto 2 with reads]
    | apply calm_bind; [|intros]
    | match goal with |- calm (match ?x with _ => _ end) => destruct x end ].

(** ** Statements that several repositories use

    UPDATE and INSERT on a table keyed by its id, ORDER BY, the driver's conversions
    between float64 and NUMERIC, and the inversion of their runs. *)
#[local] Open Scope string_scope.
#[local] Open Scope Z_scope.

(** ** Statements *)

(** [UPDATE ... SET ... WHERE id = ? AND guard]: rows affected.  [f] is [None] when
    a column or a CHECK refuses the new row. *)
Definition update_row {A} (id : Z) (guard : A -> bool) (f : A -> option A) (m : gmap Z A)
    : result (Z * gmap Z A) :=
  match m !! id with
  | None => Ok (0, m)
  | Some a =>
      if guard a then match f a with Some a' => Ok (1, <[id := a']> m) | None => Err ErrDB end
      else Ok (0, m)
  end.

(** One INSERT of [n] rows takes [n] numbers from the sequence. *)
Definition sql_insert_many {A} (n : nat) (f : Z -> DB -> result (A * DB)) : M A := fun e w =>
  sql (f (w_seq w)) e (Nat.iter n next_seq w).

(** [ORDER BY key]. *)
Definition by_key {A} (key : A -> Z) (x y : A) : Prop := key x <= key y.
#[export] Instance by_key_dec {A} (key : A -> Z) x y : Decision (by_key key x y).
Proof. unfold by_key. apply _. Defined.
Definition sort_by {A} (key : A -> Z) (l : list A) : list A := merge_sort (by_key key) l.

(** [ORDER BY broj_racuna]: account numbers are texts of digits. *)
Definition by_text {A} (key : A -> string) (x y : A) : Prop := String.leb (key x) (key y) = true.
#[export] Instance by_text_dec {A} (key : A -> string) x y : Decision (by_text key x y).
Proof. unfold by_text. apply _. Defined.

(** [INTEGER] columns. *)
Definition store_int (z : Z) : option Z := if decide (is_int32 z) then Some z else None.

Section numeric.
Context `{DL : decimal.Lib}.

(** A NUMERIC(15, 2) column scanned into a float64, and a float64 argument. *)
Definition scan_cents (c : Z) : float64 := decimal.float64_of_numeric (cents c).
Definition arg (f : float64) : Q := decimal.numeric_of_float64 f.

End numeric.

(** ** What they did *)

Lemma sort_by_in {A} (key : A -> Z) l x : x ∈ sort_by key l <-> x ∈ l.
Proof. unfold sort_by. by rewrite (merge_sort_Permutation (by_key key)). Qed.

Lemma update_row_inv {A} id g (f : A -> option A) m n m' :
  update_row id g f m = Ok (n, m') ->
  (n = 0 /\ m' = m /\ (forall a, m !! id = Some a -> g a = false)) \/
  (n = 1 /\ exists a a', m !! id = Some a /\ g a = true /\ f a = Some a' /\ m' = <[id := a']> m).
Proof.
  unfold update_row. destruct (m !! id) as [a|] eqn:Ha; [|by intros [= <- <-]; left].
  destruct (g a) eqn:Eg; [|intros [= <- <-]; left; split_and!; [done..|intros ? [= <-]; done]].
  destruct (f a) as [a'|] eqn:Ef; [|discriminate]. intros [= <- <-]. right. eauto 10.
Qed.

(** An update of every column value: the row, if there is one. *)
Lemma update_row_alter {A} id (f : A -> option A) (h : A -> A) m n m' :
  (forall a a', f a = Some a' -> a' = h a) ->
  update_row id (fun _ => true) f m = Ok (n, m') -> m' = alter h id m.
Proof.
  intros Hf H. apply map_eq. intros i.
  apply update_row_inv in H as [(_ & -> & H)|(_ & a & a' & Ha & _ & E & ->)].
  - destruct (m !! id) as [a|] eqn:Ea; [by specialize (H a eq_refl)|].
    destruct (decide (i = id)) as [->|]; [by rewrite lookup_alter_eq, Ea|by rewrite lookup_alter_ne].
  - apply Hf in E as ->. destruct (decide (i = id)) as [->|].
    + by rewrite lookup_insert_eq, lookup_alter_eq, Ha.
    + by rewrite lookup_insert_ne, lookup_alter_ne.
Qed.

Lemma sql_read_ok {A} (f : DB -> A) e w a w' :
  sql_read f e w = (Ok a, w') -> a = f (w_db w) /\ w_db w' = w_db w.
Proof. intros H. apply sql_ok in H as (d & [= -> ->] & -> & _). done. Qed.

Lemma sql_read_err {A} (f : DB -> A) e w er w' : sql_read f e w = (Err er, w') -> er = ErrDB.
Proof.
  unfold sql_read, sql. destruct (w_aborted w); [by intros [= <- _]|].
  by destruct (env_fault _ _); intros [= <- _].
Qed.

Lemma Transaction_err_cases {A} (m : M A) e w er w' :
  Transaction m e w = (Err er, w') -> er = ErrDB \/ exists w1, m e (begin_tx w) = (Err er, w1).
Proof.
  unfold Transaction. destruct (w_aborted w || env_fault e (w_step w)); [intros [= <- _]; by left|].
  destruct (m e (begin_tx w)) as [[a|er'] w1]; [|intros [= <- _]; right; by exists w1].
  destruct (w_depth w); [|discriminate]. destruct (w_aborted w1 || _); [|discriminate]. intros [= <- _]. by left.
Qed.

Lemma time_now_ok e w t w' : time_now e w = (Ok t, w') -> w_db w' = w_db w.
Proof. by intros [= _ <-]. Qed.

Lemma insert_row_ok {A} id (a : A) m m' : insert_row id a m = Ok m' -> m !! id = None /\ m' = <[id := a]> m.
Proof. unfold insert_row. destruct (m !! id); [discriminate|]. by intros [= <-]. Qed.

Lemma sql_insert_ok {A} (f : Z -> DB -> result (A * DB)) e w a w' :
  sql_insert f e w = (Ok a, w') -> exists d, f (w_seq w) (w_db w) = Ok (a, d) /\ w_db w' = d.
Proof. unfold sql_insert. intros (d & H & -> & _)%sql_ok. by exists d. Qed.

Lemma iter_next_seq n w : w_db (Nat.iter n next_seq w) = w_db w.
Proof. induction n as [|n IH]; [done|exact IH]. Qed.

Lemma sql_insert_many_ok {A} n (f : Z -> DB -> result (A * DB)) e w a w' :
  sql_insert_many n f e w = (Ok a, w') -> exists d, f (w_seq w) (w_db w) = Ok (a, d) /\ w_db w' = d.
Proof.
  unfold sql_insert_many. intros (d & H & -> & _)%sql_ok. rewrite iter_next_seq in H. by exists d.
Qed.
