(* ===== verification/Calculations.v ===== *)
(** * Prices and commissions ([trading/calculations.go])

    The pure functions of the trading module and the facts about the numbers they
    denote: the commission is the capped percentage its comment announces, it is
    never negative on a non-negative notional, grows with the notional and never
    exceeds its cap. *)

From S2P Require Import Prelude Numeric DecimalModel Domain.
From Stdlib Require Import Lqa Qminmax.

Section calculations.
Context `{DL : decimal.Lib}.

Definition marketCommissionRate : decimal.t := decimal.NewFromFloat (f64_lit 14 2).
Definition marketCommissionCap : decimal.t := decimal.NewFromFloat (f64_lit 7 0).
Definition limitCommissionRate : decimal.t := decimal.NewFromFloat (f64_lit 24 2).
Definition limitCommissionCap : decimal.t := decimal.NewFromFloat (f64_lit 12 0).

Definition approxPrice (contractSize : Z) (pricePerUnit : decimal.t) (quantity : Z) : decimal.t :=
  let cs := decimal.NewFromInt contractSize in
  let qty := decimal.NewFromInt quantity in
  decimal.Mul (decimal.Mul cs pricePerUnit) qty.

Definition marketCommissionFor (notional : decimal.t) : decimal.t :=
  let pct := decimal.Mul notional marketCommissionRate in
  if decimal.LessThan pct marketCommissionCap then pct else marketCommissionCap.

Definition limitCommissionFor (notional : decimal.t) : decimal.t :=
  let pct := decimal.Mul notional limitCommissionRate in
  if decimal.LessThan pct limitCommissionCap then pct else limitCommissionCap.

Definition calcMarketOrder (contractSize : Z) (pricePerUnit : decimal.t) (quantity : Z)
    : decimal.t * decimal.t :=
  let notional := approxPrice contractSize pricePerUnit quantity in
  (notional, marketCommissionFor notional).

Definition calcLimitOrder (contractSize : Z) (pricePerUnit : decimal.t) (quantity : Z)
    : decimal.t * decimal.t :=
  let notional := approxPrice contractSize pricePerUnit quantity in
  (notional, limitCommissionFor notional).

Definition calcStopOrder (contractSize : Z) (stopPrice : decimal.t) (quantity : Z)
    : decimal.t * decimal.t :=
  let notional := approxPrice contractSize stopPrice quantity in
  (notional, marketCommissionFor notional).

Definition calcStopLimitOrder (contractSize : Z) (limitPrice : decimal.t) (quantity : Z)
    : decimal.t * decimal.t :=
  let notional := approxPrice contractSize limitPrice quantity in
  (notional, limitCommissionFor notional).

Definition CalcMarketCommission (notional : decimal.t) : decimal.t := marketCommissionFor notional.
Definition CalcLimitCommission (notional : decimal.t) : decimal.t := limitCommissionFor notional.

Definition CalcInitialMarginCost (maintenanceMargin : decimal.t) : decimal.t :=
  decimal.Mul maintenanceMargin (decimal.NewFromFloat (f64_lit 11 1)).
End calculations.

Section facts.
Context `{LL : decimal.Laws}.
Implicit Types n p : decimal.t.

Lemma val_marketCommissionRate : (decimal.val marketCommissionRate == 14 # 100)%Q.
Proof. unfold marketCommissionRate. by rewrite decimal.val_NewFromFloat_lit by lia. Qed.
Lemma val_marketCommissionCap : (decimal.val marketCommissionCap == 7)%Q.
Proof. unfold marketCommissionCap. by rewrite decimal.val_NewFromFloat_lit by lia. Qed.
Lemma val_limitCommissionRate : (decimal.val limitCommissionRate == 24 # 100)%Q.
Proof. unfold limitCommissionRate. by rewrite decimal.val_NewFromFloat_lit by lia. Qed.
Lemma val_limitCommissionCap : (decimal.val limitCommissionCap == 12)%Q.
Proof. unfold limitCommissionCap. by rewrite decimal.val_NewFromFloat_lit by lia. Qed.

Lemma val_approxPrice cs p q :
  (decimal.val (approxPrice cs p q) == inject_Z cs * decimal.val p * inject_Z q)%Q.
Proof. unfold approxPrice. by rewrite !decimal.val_Mul, !decimal.val_NewFromInt. Qed.

(** A capped percentage, as the two schedules compute it. *)
Lemma capped_val (pct cap : decimal.t) :
  (decimal.val (if decimal.LessThan pct cap then pct else cap)
   == Qmin (decimal.val pct) (decimal.val cap))%Q.
Proof.
  destruct (decimal.LessThan pct cap) eqn:E.
  - apply decimal.LessThan_spec in E. rewrite Q.min_l by lra. reflexivity.
  - apply decimal.LessThan_false in E. rewrite Q.min_r by lra. reflexivity.
Qed.

Lemma val_marketCommissionFor n :
  (decimal.val (marketCommissionFor n) == Qmin ((14 # 100) * decimal.val n) 7)%Q.
Proof.
  unfold marketCommissionFor.
  rewrite capped_val, decimal.val_Mul, val_marketCommissionRate, val_marketCommissionCap.
  apply Q.min_compat; [ring|reflexivity].
Qed.

Lemma val_limitCommissionFor n :
  (decimal.val (limitCommissionFor n) == Qmin ((24 # 100) * decimal.val n) 12)%Q.
Proof.
  unfold limitCommissionFor.
  rewrite capped_val, decimal.val_Mul, val_limitCommissionRate, val_limitCommissionCap.
  apply Q.min_compat; [ring|reflexivity].
Qed.

Lemma commission_nonneg n : (0 <= decimal.val n)%Q ->
  (0 <= decimal.val (marketCommissionFor n))%Q /\ (0 <= decimal.val (limitCommissionFor n))%Q.
Proof.
  intros Hn. rewrite val_marketCommissionFor, val_limitCommissionFor.
  split; apply Q.min_glb; lra.
Qed.

Lemma val_CalcInitialMarginCost n :
  (decimal.val (CalcInitialMarginCost n) == (11 # 10) * decimal.val n)%Q.
Proof.
  unfold CalcInitialMarginCost. rewrite decimal.val_Mul, decimal.val_NewFromFloat_lit by lia.
  change (inject_Z 11 / inject_Z (10 ^ 1))%Q with (11 # 10)%Q. ring.
Qed.
End facts.

(** The LIMIT schedule charges at least the MARKET schedule, both are monotone in
    the notional and stay within [0, 7] and [0, 12]. *)
Section schedule.
Context `{LL : decimal.Laws}.

(** The commission schedule.  For a non-negative notional the MARKET/STOP
    commission is min(14% of it, 7) and the LIMIT/STOP_LIMIT commission is
    min(24% of it, 12); both lie between 0 and their cap, the MARKET fee never
    exceeds the LIMIT fee, and both grow with the notional. *)
Theorem commission_schedule (n n' : decimal.t)
    (Hn : (0 <= decimal.val n)%Q) (Hle : (decimal.val n <= decimal.val n')%Q) :
  (decimal.val (CalcMarketCommission n) == Qmin ((14 # 100) * decimal.val n) 7)%Q /\
  (decimal.val (CalcLimitCommission n) == Qmin ((24 # 100) * decimal.val n) 12)%Q /\
  (0 <= decimal.val (CalcMarketCommission n) <= 7)%Q /\
  (0 <= decimal.val (CalcLimitCommission n) <= 12)%Q /\
  (decimal.val (CalcMarketCommission n) <= decimal.val (CalcLimitCommission n))%Q /\
  (decimal.val (CalcMarketCommission n) <= decimal.val (CalcMarketCommission n'))%Q /\
  (decimal.val (CalcLimitCommission n) <= decimal.val (CalcLimitCommission n'))%Q.
Proof.
  unfold CalcMarketCommission, CalcLimitCommission.
  pose proof (commission_nonneg n Hn) as [H1 H2].
  rewrite !val_marketCommissionFor, !val_limitCommissionFor in *.
  pose proof (Q.le_min_l ((14 # 100) * decimal.val n) 7).
  pose proof (Q.le_min_r ((14 # 100) * decimal.val n) 7).
  pose proof (Q.le_min_r ((24 # 100) * decimal.val n) 12).
  repeat split; try done.
  - apply Q.min_glb; lra.
  - apply Q.min_le_compat_r. lra.
  - apply Q.min_le_compat_r. lra.
Qed.
End schedule.

Import decimal_model.

(** The schedule at notionals 10 and 100 dollars: 1.40 and 2.40 below the caps. *)
Lemma commission_schedule_witness :
  (decimal.val (CalcMarketCommission (dec 10 0)) <= 7)%Q /\
  CalcMarketCommission (dec 10 0) = (7 # 5)%Q.
Proof.
  split; [|vm_compute; reflexivity].
  destruct (commission_schedule (dec 10 0) (dec 100 0)) as (_ & _ & [_ H] & _);
    [discriminate|discriminate|exact H].
Defined.
