(* ===== verification/OrderRepo.v ===== *)
(** * The order repository ([repository/order_repository.go])

    One definition per method, each statement a [sql] step on the tables [orders],
    [order_transactions] and [order_audit_log], with the CHECK constraints of
    migrations 000027 and 000028.  A price goes to the database as the text of a
    decimal and is rounded to NUMERIC(18, 6) there; [Create] returns the row it
    sent, the other methods the row they read back. *)

From S2P Require Import Prelude Numeric Domain Store StoreFacts.
From stdpp Require Import sorting.
#[local] Open Scope Z_scope.

(** ** Rows *)

Definition order_type_ok (t : OrderType) : bool :=
  match t with OtherOrderType _ => false | _ => true end.
Definition direction_ok (t : OrderDirection) : bool :=
  match t with OtherDirection _ => false | _ => true end.

(** The CHECK constraints, the foreign key on [racun] and the INTEGER type of
    [quantity]. *)
Definition orders_check (m : orderModel) (d : DB) : bool :=
  order_type_ok (om_OrderType m) && direction_ok (om_Direction m) &&
  (0 <? om_Quantity m) && (om_Quantity m <? 2 ^ 31) && (0 <? om_ContractSize m) && (0 <=? om_RemainingPortions m) &&
  bool_decide (is_Some (d_racun d !! om_AccountID m)).

Definition with_status (s : OrderStatus) (by_ : option ApprovedBy) (m : orderModel) : orderModel :=
  mkOrderModel (om_UserID m) (om_AccountID m) (om_ListingID m) (om_OrderType m) (om_Direction m)
    (om_Quantity m) (om_ContractSize m) (om_PricePerUnit m) (om_StopPrice m) s
    (match by_ with Some b => Some b | None => om_ApprovedBy m end) (om_IsDone m)
    (om_RemainingPortions m) (om_AfterHours m) (om_AllOrNone m) (om_Margin m) (om_IsClient m)
    (om_FundID m) (om_CreatedAt m).

Definition with_remaining (n : Z) (done_ : bool) (m : orderModel) : orderModel :=
  mkOrderModel (om_UserID m) (om_AccountID m) (om_ListingID m) (om_OrderType m) (om_Direction m)
    (om_Quantity m) (om_ContractSize m) (om_PricePerUnit m) (om_StopPrice m) (om_Status m)
    (om_ApprovedBy m) done_ n (om_AfterHours m) (om_AllOrNone m) (om_Margin m) (om_IsClient m)
    (om_FundID m) (om_CreatedAt m).

Definition with_done (m : orderModel) : orderModel :=
  with_remaining 0 true (with_status OrderStatusDone None m).

Definition with_canceled (m : orderModel) : orderModel :=
  with_remaining (om_RemainingPortions m) true (with_status OrderStatusCanceled None m).

(** [UPDATE core_banking.orders SET ... WHERE id = ?]: the rows affected. *)
Definition update_order (id : Z) (f : orderModel -> orderModel) (d : DB) : result (Z * DB) :=
  match d_orders d !! id with
  | None => Ok (0, d)
  | Some m =>
      if 0 <=? om_RemainingPortions (f m)
      then Ok (1, set_orders (<[id := f m]> (d_orders d)) d)
      else Err ErrDB
  end.

(** One row's contribution to [GetNetHoldings]. *)
Definition net_contrib (m : orderModel) : Z :=
  match om_Direction m, om_Status m with
  | OrderDirectionBuy, OrderStatusDone => om_Quantity m
  | OrderDirectionBuy, OrderStatusCanceled =>
      if 0 <? om_Quantity m - om_RemainingPortions m
      then om_Quantity m - om_RemainingPortions m else 0
  | OrderDirectionSell, OrderStatusDone => - om_Quantity m
  | OrderDirectionSell, OrderStatusCanceled =>
      if 0 <? om_Quantity m - om_RemainingPortions m
      then - (om_Quantity m - om_RemainingPortions m) else 0
  | OrderDirectionSell, (OrderStatusPending | OrderStatusApproved) =>
      if om_IsDone m then 0 else - om_Quantity m
  | _, _ => 0
  end.

Definition owned_by (userID listingID : Z) (m : orderModel) : bool :=
  (om_UserID m =? userID) && (om_ListingID m =? listingID).

Definition net_of (userID listingID : Z) (os : gmap Z orderModel) : Z :=
  msum (fun m => if owned_by userID listingID m then net_contrib m else 0) os.

(** The query of [GetNetHoldings]. *)
Definition net_holdings (userID listingID : Z) (d : DB) : Z := net_of userID listingID (d_orders d).

(** The rows of a SELECT ordered by [created_at DESC]. *)
Definition newer_first (a b : Z * orderModel) : Prop := om_CreatedAt b.2 <= om_CreatedAt a.2.
#[export] Instance newer_first_dec a b : Decision (newer_first a b).
Proof. unfold newer_first. apply _. Defined.

Definition select_orders (P : orderModel -> bool) (d : DB) : list (Z * orderModel) :=
  merge_sort newer_first (filter (fun r => P r.2 = true) (map_to_list (d_orders d))).

(** ** Methods *)

Section repo.
Context `{DL : decimal.Lib}.

Definition parse_price (q : option Q) : option decimal.t :=
  match q with Some q => decimal.NewFromString q | None => None end.

(** [orderModel.toDomain], on a row whose price texts denote [ppu] and [sp]. *)
Definition toDomain_prices (id : Z) (m : orderModel) (ppu sp : option Q) : Order :=
  {| o_ID := id;
     o_UserID := om_UserID m;
     o_AccountID := om_AccountID m;
     o_ListingID := om_ListingID m;
     o_OrderType := om_OrderType m;
     o_Direction := om_Direction m;
     o_Quantity := om_Quantity m;
     o_ContractSize := om_ContractSize m;
     o_PricePerUnit := parse_price ppu;
     o_StopPrice := parse_price sp;
     o_Status := om_Status m;
     o_ApprovedBy := om_ApprovedBy m;
     o_IsDone := om_IsDone m;
     o_RemainingPortions := om_RemainingPortions m;
     o_AfterHours := om_AfterHours m;
     o_AllOrNone := om_AllOrNone m;
     o_Margin := om_Margin m;
     o_IsClient := om_IsClient m;
     o_FundID := om_FundID m |}.

Definition toDomain (id : Z) (m : orderModel) : Order :=
  toDomain_prices id m (micros <$> om_PricePerUnit m) (micros <$> om_StopPrice m).

(** [decimalToStr]: the text sent for a NUMERIC column. *)
Definition decimalToStr (d : option decimal.t) : option Q := decimal.String <$> d.

(** The text of a price stored into NUMERIC(18, 6). *)
Definition store_price (q : option Q) : result (option Z) :=
  match q with
  | None => Ok None
  | Some q => match store_micros q with Some c => Ok (Some c) | None => Err ErrDB end
  end.

Definition insertAuditLog (orderID : Z) (oldStatus : option OrderStatus) (newStatus : OrderStatus)
    (changedBy : option Z) (note : option (Z * Z)) : M unit :=
  try (sql (fun d =>
    if bool_decide (is_Some (d_orders d !! orderID))
    then Ok (tt, set_order_audit_log
                   (d_order_audit_log d ++
                    [mkOrderAuditLogModel orderID oldStatus newStatus changedBy note]) d)
    else Err ErrDB)) ;;
  mret tt.

(** The row [Create] builds from the request. *)
Definition create_model (req : CreateOrderRequest) (status : OrderStatus)
    (ppu sp : option Z) (now : Z) : orderModel :=
  {| om_UserID := req_UserID req;
     om_AccountID := req_AccountID req;
     om_ListingID := req_ListingID req;
     om_OrderType := req_OrderType req;
     om_Direction := req_Direction req;
     om_Quantity := req_Quantity req;
     om_ContractSize := req_ContractSize req;
     om_PricePerUnit := ppu;
     om_StopPrice := sp;
     om_Status := status;
     om_ApprovedBy :=
       match req_ApprovedByOverride req with
       | Some b => Some b
       | None => if decide (status = OrderStatusApproved) then Some ApprovedByNoApproval else None
       end;
     om_IsDone := false;
     om_RemainingPortions := req_Quantity req;
     om_AfterHours := req_AfterHours req;
     om_AllOrNone := req_AllOrNone req;
     om_Margin := req_Margin req;
     om_IsClient := req_IsClient req;
     om_FundID := req_FundID req;
     om_CreatedAt := now |}.

Definition insert_order (req : CreateOrderRequest) (status : OrderStatus) (now : Z)
    (id : Z) (d : DB) : result (Z * orderModel * DB) :=
  match store_price (decimalToStr (req_PricePerUnit req)),
        store_price (decimalToStr (req_StopPrice req)) with
  | Ok ppu, Ok sp =>
      let m := create_model req status ppu sp now in
      if orders_check m d && bool_decide (d_orders d !! id = None)
      then Ok (id, m, set_orders (<[id := m]> (d_orders d)) d)
      else Err ErrDB
  | _, _ => Err ErrDB
  end.

Definition Create (req : CreateOrderRequest) (status : OrderStatus) : M Order :=
  now ← time_now;
  '(id, m) ← sql_insert (insert_order req status now);
  mret (toDomain_prices id m (decimalToStr (req_PricePerUnit req))
                             (decimalToStr (req_StopPrice req))).

Definition GetByID (id : Z) : M Order :=
  row ← sql_read (fun d => d_orders d !! id);
  match row with
  | None => throw ErrOrderNotFound
  | Some m => mret (toDomain id m)
  end.

(** The best-effort pre-fetch of the row for the audit trail. *)
Definition prefetch (id : Z) : M (option orderModel) :=
  r ← try (sql_read (fun d => d_orders d !! id));
  mret (match r with Ok row => row | Err _ => None end).

Definition UpdateStatus (id : Z) (status : OrderStatus) (approvedBy : option ApprovedBy) : M Order :=
  existing ← prefetch id;
  rows ← sql (update_order id (with_status status approvedBy));
  if (rows =? 0) then throw ErrOrderNotFound
  else
    insertAuditLog id (om_Status <$> existing) status
      (match approvedBy with Some (ApprovedByUser uid) => Some uid | _ => None end) None ;;
    GetByID id.

Definition UpdateRemainingPortions (id remaining : Z) (isDone : bool) : M Order :=
  rows ← sql (update_order id (with_remaining remaining isDone));
  if (rows =? 0) then throw ErrOrderNotFound else GetByID id.

Definition ListByUserID (userID : Z) (statusFilter : option OrderStatus) : M (list Order) :=
  rows ← sql_read (select_orders (fun m =>
    (om_UserID m =? userID) &&
    match statusFilter with None => true | Some s => bool_decide (om_Status m = s) end));
  mret ((fun r => toDomain r.1 r.2) <$> rows).

Definition ListByStatus (status : option OrderStatus) : M (list Order) :=
  rows ← sql_read (select_orders (fun m =>
    match status with None => true | Some s => bool_decide (om_Status m = s) end));
  mret ((fun r => toDomain r.1 r.2) <$> rows).

Definition ListActiveByListing (listingID : Z) : M (list Order) :=
  rows ← sql_read (fun d => filter (fun r : Z * orderModel =>
    om_ListingID r.2 = listingID /\ om_Status r.2 = OrderStatusApproved /\ om_IsDone r.2 = false)
    (map_to_list (d_orders d)));
  mret ((fun r => toDomain r.1 r.2) <$> rows).

(** [orderTransactionModel.toDomain]: an unreadable price is the zero decimal. *)
Definition toDomain_transaction (orderID qty : Z) (price : Q) (time : Z) : OrderTransaction :=
  mkOrderTransaction orderID qty
    (match decimal.NewFromString price with Some d => d | None => decimal.Zero end) time.

(** [order_transactions] has CHECK (executed_quantity > 0) and
    CHECK (executed_price > 0). *)
Definition insert_transaction (orderID qty : Z) (price : Q) (time : Z) (d : DB) : result (unit * DB) :=
  match store_micros price with
  | Some c =>
      if (0 <? qty) && (0 <? c) && bool_decide (is_Some (d_orders d !! orderID))
      then Ok (tt, set_order_transactions
                     (d_order_transactions d ++ [mkOrderTransactionModel orderID qty c time]) d)
      else Err ErrDB
  | None => Err ErrDB
  end.

Definition CreateTransaction (orderID qty : Z) (price : decimal.t) : M OrderTransaction :=
  now ← time_now;
  sql (insert_transaction orderID qty (decimal.String price) now) ;;
  mret (toDomain_transaction orderID qty (decimal.String price) now).

Definition GetTransactionsByOrderID (orderID : Z) : M (list OrderTransaction) :=
  rows ← sql_read (fun d => filter (fun t => ot_OrderID t = orderID) (d_order_transactions d));
  mret ((fun t => toDomain_transaction (ot_OrderID t) (ot_ExecutedQuantity t)
                    (micros (ot_ExecutedPrice t)) (ot_ExecutionTime t)) <$> sort_by ot_ExecutionTime rows).

Definition MarkDone (id : Z) : M Order :=
  rows ← sql (update_order id with_done);
  if (rows =? 0) then throw ErrOrderNotFound
  else
    insertAuditLog id (Some OrderStatusApproved) OrderStatusDone None None ;;
    GetByID id.

Definition Cancel (id : Z) : M Order :=
  existing ← prefetch id;
  rows ← sql (update_order id with_canceled);
  if (rows =? 0) then throw ErrOrderNotFound
  else
    let note :=
      match existing with
      | Some m =>
          let executedQty := int32_sub (om_Quantity m) (om_RemainingPortions m) in
          if 0 <? executedQty then Some (executedQty, om_Quantity m) else None
      | None => None
      end in
    insertAuditLog id (om_Status <$> existing) OrderStatusCanceled None note ;;
    GetByID id.

Definition GetNetHoldings (userID listingID : Z) : M Z :=
  sql_read (net_holdings userID listingID).
End repo.
