(* ===== verification/OrderRepoFacts.v ===== *)
(** * Facts about the order repository

    What each method does to the tables on every run, failed or not, and the
    frames: a method of the repository changes the order tables only. *)

From S2P Require Import Prelude Numeric Domain Store StoreFacts OrderRepo.
#[local] Open Scope Z_scope.

(** The tables the repository owns, and the others. *)
Definition order_tables (d : DB) :=
  (d_orders d, d_order_transactions d, d_order_audit_log d).
Definition money_tables (d : DB) :=
  (d_racun d, d_transakcija d, d_public_shares d, d_actuary_info d, d_actuary_limit_audit d,
   d_kredit d, d_liquid_assets d, d_fund_securities d).

Lemma same_money_racun d d' : same money_tables d d' -> d_racun d' = d_racun d.
Proof. unfold same, money_tables. congruence. Qed.
Lemma same_order_orders d d' : same order_tables d d' -> d_orders d' = d_orders d.
Proof. unfold same, order_tables. congruence. Qed.
Lemma same_order_txs d d' :
  same order_tables d d' -> d_order_transactions d' = d_order_transactions d.
Proof. unfold same, order_tables. congruence. Qed.

(** The quantity the fills of an order add up to. *)
Definition executed (id : Z) (d : DB) : Z :=
  zsum (fun t => if ot_OrderID t =? id then ot_ExecutedQuantity t else 0) (d_order_transactions d).

Lemma same_order_executed d d' id : same order_tables d d' -> executed id d' = executed id d.
Proof. intros H. unfold executed. by rewrite (same_order_txs d d' H). Qed.

Lemma update_order_inv id f d rows d' :
  update_order id f d = Ok (rows, d') ->
  (rows = 0 /\ d' = d /\ d_orders d !! id = None) \/
  (rows = 1 /\ exists m, d_orders d !! id = Some m /\ 0 <= om_RemainingPortions (f m) /\
     d' = set_orders (<[id := f m]> (d_orders d)) d).
Proof.
  unfold update_order. destruct (d_orders d !! id) as [m|]; [|intros [= <- <-]; auto].
  destruct (0 <=? _) eqn:E; [|discriminate]. intros [= <- <-].
  right. split; [done|]. exists m. split_and!; [done|lia|done].
Qed.

Section facts.
Context `{DL : decimal.Lib}.

(** ** Frames *)

Lemma update_order_frame {T} (g : DB -> T) id f :
  (forall m d, g (set_orders m d) = g d) -> preserves (same g) (sql (update_order id f)).
Proof.
  intros Hg. apply preserves_sql; [apply _|]. intros d rows d' H.
  apply update_order_inv in H as [(_ & -> & _)|(_ & m & _ & _ & ->)]; [done|]. apply Hg.
Qed.

Lemma update_order_money id f : preserves (same money_tables) (sql (update_order id f)).
Proof. by apply update_order_frame. Qed.
Lemma update_order_txs id f : preserves (same d_order_transactions) (sql (update_order id f)).
Proof. by apply update_order_frame. Qed.
Hint Resolve update_order_money update_order_txs : preserves.

Lemma insertAuditLog_frame {T} (g : DB -> T) id os ns cb nt :
  (forall l d, g (set_order_audit_log l d) = g d) ->
  preserves (same g) (insertAuditLog id os ns cb nt).
Proof.
  intros Hg. unfold insertAuditLog. solve_preserves.
  apply preserves_sql; [apply _|]. intros d a d'. case_bool_decide; [|discriminate].
  intros [= <- <-]. apply Hg.
Qed.

Lemma insertAuditLog_money id os ns cb nt :
  preserves (same money_tables) (insertAuditLog id os ns cb nt).
Proof. by apply insertAuditLog_frame. Qed.
Lemma insertAuditLog_txs id os ns cb nt :
  preserves (same d_order_transactions) (insertAuditLog id os ns cb nt).
Proof. by apply insertAuditLog_frame. Qed.
Lemma insertAuditLog_orders id os ns cb nt :
  preserves (same d_orders) (insertAuditLog id os ns cb nt).
Proof. by apply insertAuditLog_frame. Qed.
Hint Resolve insertAuditLog_money insertAuditLog_txs insertAuditLog_orders : preserves.

Lemma GetByID_reads id : reads (GetByID id).
Proof. unfold GetByID. solve_reads. Qed.
Lemma prefetch_reads id : reads (prefetch id).
Proof. unfold prefetch. solve_reads. Qed.
Lemma ListByStatus_reads s : reads (ListByStatus s).
Proof. unfold ListByStatus. solve_reads. Qed.
Lemma ListByUserID_reads u s : reads (ListByUserID u s).
Proof. unfold ListByUserID. solve_reads. Qed.
Lemma GetNetHoldings_reads u l : reads (GetNetHoldings u l).
Proof. unfold GetNetHoldings. solve_reads. Qed.
Hint Resolve GetByID_reads prefetch_reads : reads.

Lemma UpdateStatus_money id s b : preserves (same money_tables) (UpdateStatus id s b).
Proof. unfold UpdateStatus. solve_preserves. Qed.
Lemma UpdateStatus_txs id s b : preserves (same d_order_transactions) (UpdateStatus id s b).
Proof. unfold UpdateStatus. solve_preserves. Qed.
Lemma UpdateRemainingPortions_money id n b :
  preserves (same money_tables) (UpdateRemainingPortions id n b).
Proof. unfold UpdateRemainingPortions. solve_preserves. Qed.
Lemma UpdateRemainingPortions_txs id n b :
  preserves (same d_order_transactions) (UpdateRemainingPortions id n b).
Proof. unfold UpdateRemainingPortions. solve_preserves. Qed.
Lemma MarkDone_money id : preserves (same money_tables) (MarkDone id).
Proof. unfold MarkDone. solve_preserves. Qed.
Lemma MarkDone_txs id : preserves (same d_order_transactions) (MarkDone id).
Proof. unfold MarkDone. solve_preserves. Qed.
Lemma Cancel_money id : preserves (same money_tables) (Cancel id).
Proof. unfold Cancel. solve_preserves. Qed.
Lemma Cancel_txs id : preserves (same d_order_transactions) (Cancel id).
Proof. unfold Cancel. solve_preserves. Qed.

(** ** Reads *)

Lemma GetByID_ok id e w o w' :
  GetByID id e w = (Ok o, w') ->
  w_db w' = w_db w /\ exists m, d_orders (w_db w) !! id = Some m /\ o = toDomain id m.
Proof.
  intros H. split; [symmetry; exact (GetByID_reads id e w (Ok o) w' H)|].
  apply bind_ok in H as (row & w1 & H1 & H2).
  apply sql_ok in H1 as (d & [= <- <-] & -> & _).
  destruct (d_orders (w_db w) !! id) as [m|]; [|discriminate].
  injection H2 as <- _. eauto.
Qed.

(** ** Writes: "UPDATE, then log and read back" *)

Definition update_then (id : Z) (f : orderModel -> orderModel) (k : M Order) : M Order :=
  rows ← sql (update_order id f);
  if (rows =? 0) then throw ErrOrderNotFound else k.

Lemma update_then_any id f k e w r w' :
  preserves (same d_orders) k ->
  update_then id f k e w = (r, w') ->
  d_orders (w_db w') = d_orders (w_db w) \/
  exists m, d_orders (w_db w) !! id = Some m /\
    d_orders (w_db w') = <[id := f m]> (d_orders (w_db w)).
Proof.
  intros Hk. unfold update_then, mbind, M_bind.
  destruct (sql (update_order id f) e w) as [[rows|er] w1] eqn:E.
  - apply sql_ok in E as (d & E & -> & _).
    apply update_order_inv in E as [(-> & -> & _)|(-> & m & Hm & _ & ->)];
      cbn [Z.eqb throw].
    + intros [= _ <-]. by left.
    + intros H. apply Hk in H. right. eauto.
  - intros [= _ <-]. left. by rewrite (sql_err_db _ _ _ _ _ E).
Qed.

Lemma update_then_ok id f k e w o w' :
  preserves (same d_orders) k ->
  update_then id f k e w = (Ok o, w') ->
  exists m w1, d_orders (w_db w) !! id = Some m /\
    d_orders (w_db w1) = <[id := f m]> (d_orders (w_db w)) /\
    d_orders (w_db w') = <[id := f m]> (d_orders (w_db w)) /\
    0 <= om_RemainingPortions (f m) /\
    k e w1 = (Ok o, w').
Proof.
  intros Hk H. apply bind_ok in H as (rows & w1 & H1 & H2).
  apply sql_ok in H1 as (d & H1 & -> & _).
  apply update_order_inv in H1 as [(-> & -> & _)|(-> & m & Hm & H0 & ->)]; [discriminate|].
  cbn [Z.eqb] in H2.
  refine (ex_intro _ m (ex_intro _ _ (conj Hm (conj _ (conj _ (conj H0 H2)))))); [done|].
  exact (Hk _ _ _ _ H2).
Qed.

Lemma log_then_read_orders id os ns cb nt :
  preserves (same d_orders) (insertAuditLog id os ns cb nt ;; GetByID id).
Proof. solve_preserves. Qed.

Lemma log_then_read_ok id os ns cb nt e w o w' :
  (insertAuditLog id os ns cb nt ;; GetByID id) e w = (Ok o, w') ->
  exists m, d_orders (w_db w) !! id = Some m /\ o = toDomain id m.
Proof.
  intros H. apply bind_ok in H as ([] & w1 & H1 & H2).
  apply insertAuditLog_orders in H1. apply GetByID_ok in H2 as (_ & m & Hm & ->).
  unfold same in H1. rewrite H1 in Hm. eauto.
Qed.

(** Outcome of a write of the row [id] by [f]: nothing, or exactly that. *)
Definition row_written (id : Z) (f : orderModel -> orderModel) (d d' : DB) : Prop :=
  d_orders d' = d_orders d \/
  exists m, d_orders d !! id = Some m /\ d_orders d' = <[id := f m]> (d_orders d).

Lemma UpdateStatus_any id s b : forall e w r w',
  UpdateStatus id s b e w = (r, w') -> row_written id (with_status s b) (w_db w) (w_db w').
Proof.
  intros e w r w'. unfold UpdateStatus, mbind at 1, M_bind at 1.
  destruct (prefetch id e w) as [[ex|er] w1] eqn:E; pose proof (prefetch_reads id _ _ _ _ E) as Hw.
  - intros H. unfold row_written. rewrite Hw.
    exact (update_then_any _ _ _ _ _ _ _ (log_then_read_orders _ _ _ _ _) H).
  - intros [= _ <-]. left. by rewrite Hw.
Qed.

Lemma UpdateStatus_ok id s b e w o w' :
  UpdateStatus id s b e w = (Ok o, w') ->
  exists m, d_orders (w_db w) !! id = Some m /\
    d_orders (w_db w') = <[id := with_status s b m]> (d_orders (w_db w)) /\
    o = toDomain id (with_status s b m).
Proof.
  intros H. apply bind_ok in H as (ex & w1 & H1 & H2).
  pose proof (prefetch_reads id _ _ _ _ H1) as Hw.
  apply update_then_ok in H2 as (m & w2 & Hm & Hw2 & Hw' & _ & H2);
    [|apply log_then_read_orders].
  apply log_then_read_ok in H2 as (m2 & Hm2 & ->).
  rewrite Hw2, lookup_insert_eq in Hm2. injection Hm2 as <-.
  rewrite <- Hw in Hm, Hw'. eauto.
Qed.

Lemma MarkDone_any id : forall e w r w',
  MarkDone id e w = (r, w') -> row_written id with_done (w_db w) (w_db w').
Proof.
  intros e w r w' H. exact (update_then_any _ _ _ _ _ _ _ (log_then_read_orders _ _ _ _ _) H).
Qed.

Lemma MarkDone_ok id e w o w' :
  MarkDone id e w = (Ok o, w') ->
  exists m, d_orders (w_db w) !! id = Some m /\
    d_orders (w_db w') = <[id := with_done m]> (d_orders (w_db w)).
Proof.
  intros H. apply update_then_ok in H as (m & w2 & Hm & _ & Hw' & _ & _); [eauto|].
  apply log_then_read_orders.
Qed.

Lemma UpdateRemainingPortions_ok id n b e w o w' :
  UpdateRemainingPortions id n b e w = (Ok o, w') ->
  exists m, d_orders (w_db w) !! id = Some m /\
    d_orders (w_db w') = <[id := with_remaining n b m]> (d_orders (w_db w)).
Proof.
  intros H. apply update_then_ok in H as (m & w2 & Hm & _ & Hw' & _ & _); [eauto|].
  apply reads_preserves; [apply _|apply GetByID_reads].
Qed.

Lemma Cancel_any id : forall e w r w',
  Cancel id e w = (r, w') -> row_written id with_canceled (w_db w) (w_db w').
Proof.
  intros e w r w'. unfold Cancel, mbind at 1, M_bind at 1.
  destruct (prefetch id e w) as [[ex|er] w1] eqn:E; pose proof (prefetch_reads id _ _ _ _ E) as Hw.
  - intros H. unfold row_written. rewrite Hw.
    exact (update_then_any _ _ _ _ _ _ _ (log_then_read_orders _ _ _ _ _) H).
  - intros [= _ <-]. left. by rewrite Hw.
Qed.

Lemma Cancel_ok id e w o w' :
  Cancel id e w = (Ok o, w') ->
  exists m, d_orders (w_db w) !! id = Some m /\
    d_orders (w_db w') = <[id := with_canceled m]> (d_orders (w_db w)) /\
    o = toDomain id (with_canceled m).
Proof.
  intros H. apply bind_ok in H as (ex & w1 & H1 & H2).
  pose proof (prefetch_reads id _ _ _ _ H1) as Hw.
  apply update_then_ok in H2 as (m & w2 & Hm & Hw2 & Hw' & _ & H2);
    [|apply log_then_read_orders].
  apply log_then_read_ok in H2 as (m2 & Hm2 & ->).
  rewrite Hw2, lookup_insert_eq in Hm2. injection Hm2 as <-.
  rewrite <- Hw in Hm, Hw'. eauto.
Qed.

(** The errors a cancellation can end with. *)
Lemma update_order_err id f e w er w' : sql (update_order id f) e w = (Err er, w') -> er = ErrDB.
Proof.
  unfold sql. destruct (w_aborted w); [congruence|]. destruct (env_fault _ _); [congruence|].
  unfold update_order. destruct (d_orders (w_db w) !! id) as [m|]; [|discriminate].
  destruct (0 <=? _); [discriminate|congruence].
Qed.

Lemma GetByID_err id e w er w' : GetByID id e w = (Err er, w') -> er = ErrDB \/ er = ErrOrderNotFound.
Proof.
  intros H. apply bind_err in H as [H|(row & w1 & _ & H)].
  - unfold sql_read, sql in H. destruct (w_aborted w); [injection H; auto|].
    destruct (env_fault _ _); [injection H; auto|discriminate].
  - destruct row; [discriminate|]. injection H; auto.
Qed.

Lemma update_then_err id f k e w er w' :
  (forall e w er w', k e w = (Err er, w') -> er = ErrDB \/ er = ErrOrderNotFound) ->
  update_then id f k e w = (Err er, w') -> er = ErrDB \/ er = ErrOrderNotFound.
Proof.
  intros Hk H. apply bind_err in H as [H|(rows & w1 & _ & H)].
  - left. exact (update_order_err _ _ _ _ _ _ H).
  - destruct (rows =? 0); [injection H; auto|eauto].
Qed.

Lemma log_then_read_err id os ns cb nt e w er w' :
  (insertAuditLog id os ns cb nt ;; GetByID id) e w = (Err er, w') ->
  er = ErrDB \/ er = ErrOrderNotFound.
Proof.
  intros H. apply bind_err in H as [H|([] & w1 & _ & H)]; [|exact (GetByID_err _ _ _ _ _ H)].
  apply try_bind in H as (r0 & w1 & _ & [=]).
Qed.

Lemma prefetch_total id e w : exists m w1, prefetch id e w = (Ok m, w1).
Proof. unfold prefetch, mbind, M_bind, try. destruct (sql_read _ e w). eauto. Qed.

Lemma Cancel_err id e w er w' : Cancel id e w = (Err er, w') -> er = ErrDB \/ er = ErrOrderNotFound.
Proof.
  intros H. apply bind_err in H as [H|(ex & w1 & _ & H)].
  - destruct (prefetch_total id e w) as (m & w1 & E). congruence.
  - eapply update_then_err; [|exact H]. intros. by eapply log_then_read_err.
Qed.

Lemma UpdateStatus_err id s b e w er w' :
  UpdateStatus id s b e w = (Err er, w') -> er = ErrDB \/ er = ErrOrderNotFound.
Proof.
  intros H. apply bind_err in H as [H|(ex & w1 & _ & H)].
  - destruct (prefetch_total id e w) as (m & w1 & E). congruence.
  - eapply update_then_err; [|exact H]. intros. by eapply log_then_read_err.
Qed.

(** ** Inserts *)

Lemma insert_order_ok req st now id d id' m d' :
  insert_order req st now id d = Ok (id', m, d') ->
  id' = id /\ d_orders d !! id = None /\ orders_check m d = true /\
  (exists ppu sp, m = create_model req st ppu sp now) /\
  d' = set_orders (<[id := m]> (d_orders d)) d.
Proof.
  unfold insert_order. destruct (store_price _) as [ppu|]; [|discriminate].
  destruct (store_price _) as [sp|]; [|discriminate].
  destruct (orders_check _ _) eqn:Ec; cbn [andb]; [|discriminate].
  case_bool_decide; [|discriminate]. intros [= <- <- <-]. eauto 10.
Qed.

Lemma Create_ok req st e w o w' :
  Create req st e w = (Ok o, w') ->
  exists id m ppu sp now, d_orders (w_db w) !! id = None /\ orders_check m (w_db w) = true /\
    m = create_model req st ppu sp now /\
    d_orders (w_db w') = <[id := m]> (d_orders (w_db w)) /\
    o = toDomain_prices id m (decimalToStr (req_PricePerUnit req))
          (decimalToStr (req_StopPrice req)).
Proof.
  intros H. apply bind_ok in H as (now & w1 & H1 & H2). injection H1 as _ <-.
  apply bind_ok in H2 as ([id m] & w2 & H2 & H3). unfold sql_insert in H2.
  apply sql_ok in H2 as (d & H2 & -> & _).
  apply insert_order_ok in H2 as (-> & Hn & Hc & (ppu & sp & Hm) & ->).
  injection H3 as <- <-. do 5 eexists. cbn in *. split_and!; eauto.
Qed.

Lemma Create_any req st e w r w' :
  Create req st e w = (r, w') ->
  d_orders (w_db w') = d_orders (w_db w) \/
  exists id m ppu sp now, d_orders (w_db w) !! id = None /\ orders_check m (w_db w) = true /\
    m = create_model req st ppu sp now /\
    d_orders (w_db w') = <[id := m]> (d_orders (w_db w)).
Proof.
  destruct r as [o|er]; intros H.
  - apply Create_ok in H as (id & m & ppu & sp & now & H). right.
    exists id, m, ppu, sp, now. tauto.
  - left. apply bind_err in H as [H|(now & w1 & H1 & H2)]; [discriminate|].
    injection H1 as _ <-. apply bind_err in H2 as [H2|([id m] & w2 & _ & H3)]; [|discriminate].
    apply sql_err_db in H2. by rewrite H2.
Qed.

Lemma Create_money req st : preserves (same money_tables) (Create req st).
Proof.
  unfold Create. solve_preserves. apply preserves_sql_insert; [apply _|].
  intros id d [id' m] d' H. apply insert_order_ok in H as (_ & _ & _ & _ & ->). done.
Qed.

Lemma Create_txs req st : preserves (same d_order_transactions) (Create req st).
Proof.
  unfold Create. solve_preserves. apply preserves_sql_insert; [apply _|].
  intros id d [id' m] d' H. apply insert_order_ok in H as (_ & _ & _ & _ & ->). done.
Qed.

Lemma insert_transaction_ok id qty q t d d' :
  insert_transaction id qty q t d = Ok (tt, d') ->
  exists c, 0 < qty /\ 0 < c /\ is_Some (d_orders d !! id) /\
    d' = set_order_transactions
           (d_order_transactions d ++ [mkOrderTransactionModel id qty c t]) d.
Proof.
  unfold insert_transaction. destruct (store_micros q) as [c|]; [|discriminate].
  destruct (0 <? qty) eqn:E1, (0 <? c) eqn:E2; cbn [andb]; try discriminate.
  case_bool_decide; [|discriminate]. intros [= <-]. exists c. split_and!; [lia|lia|done..].
Qed.

Lemma CreateTransaction_ok id qty p e w o w' :
  CreateTransaction id qty p e w = (Ok o, w') ->
  d_orders (w_db w') = d_orders (w_db w) /\ 0 < qty /\
  (forall i, executed i (w_db w') = executed i (w_db w) + (if id =? i then qty else 0)).
Proof.
  intros H. apply bind_ok in H as (now & w0 & H0 & H). injection H0 as _ <-.
  apply bind_ok in H as ([] & w1 & H1 & H2). injection H2 as _ <-.
  apply sql_ok in H1 as (d & H1 & -> & _).
  apply insert_transaction_ok in H1 as (c & Hq & _ & _ & ->). split_and!; [done..|].
  intros i. unfold executed. cbn. rewrite zsum_app, zsum_cons, zsum_nil. cbn. lia.
Qed.

Lemma CreateTransaction_rows id qty p e w o w' :
  CreateTransaction id qty p e w = (Ok o, w') ->
  exists c t, 0 < qty /\
    w_db w' = set_order_transactions
      (d_order_transactions (w_db w) ++ [mkOrderTransactionModel id qty c t]) (w_db w).
Proof.
  intros H. apply bind_ok in H as (now & w0 & H0 & H). injection H0 as _ <-.
  apply bind_ok in H as ([] & w1 & H1 & H2). injection H2 as _ <-.
  apply sql_ok in H1 as (d & H1 & -> & _).
  apply insert_transaction_ok in H1 as (c & Hq & _ & _ & ->). eauto.
Qed.

Lemma CreateTransaction_money id qty p : preserves (same money_tables) (CreateTransaction id qty p).
Proof.
  unfold CreateTransaction. solve_preserves. apply preserves_sql; [apply _|].
  intros d [] d' H. apply insert_transaction_ok in H as (c & _ & _ & _ & ->). done.
Qed.
End facts.

#[export] Hint Resolve @UpdateStatus_money @UpdateStatus_txs @UpdateRemainingPortions_money
  @UpdateRemainingPortions_txs @MarkDone_money @MarkDone_txs @Cancel_money @Cancel_txs
  @Create_money @Create_txs @CreateTransaction_money : preserves.
#[export] Hint Resolve @GetByID_reads @prefetch_reads @ListByStatus_reads @ListByUserID_reads
  @GetNetHoldings_reads : reads.
