(* ===== verification/Lifecycle.v ===== *)
(** * The order lifecycle: the abstract specification of the trading module

    [market_step] is the contract that [trading/domain.go] states in words: which
    transitions of an order exist, that a fill records exactly the portions it
    takes, and that an order to sell is admitted only against holdings that are
    not committed yet.  The state is the pair of tables [orders] and
    [order_transactions].  The service and the engine are shown elsewhere to move
    the database only along [market_step]; here the invariants of the abstract
    machine are proved by rule induction. *)

From S2P Require Import Prelude Numeric Domain Store StoreFacts OrderRepo OrderRepoFacts.
From stdpp Require Import relations.
#[local] Open Scope Z_scope.

Definition mstate : Type := gmap Z orderModel * list orderTransactionModel.
Definition view (d : DB) : mstate := (d_orders d, d_order_transactions d).

(** ** Transitions of one order *)

Definition active (m : orderModel) : Prop :=
  (om_Status m = OrderStatusPending \/ om_Status m = OrderStatusApproved) /\ om_IsDone m = false.

Inductive order_step : orderModel -> orderModel -> Prop :=
  | step_approve m b :
      om_Status m = OrderStatusPending ->
      order_step m (with_status OrderStatusApproved b m)
  | step_decline m b :
      om_Status m = OrderStatusPending \/ om_Status m = OrderStatusApproved ->
      order_step m (with_status OrderStatusDeclined b m)
  | step_cancel m :
      active m -> order_step m (with_canceled m).

(** A fill of [n] portions; the last one finishes the order. *)
Definition filled (n : Z) (m : orderModel) : orderModel :=
  if om_RemainingPortions m - n =? 0 then with_done m
  else with_remaining (om_RemainingPortions m - n) false m.

(** ** Placement *)

Definition initial (m : orderModel) : Prop :=
  om_IsDone m = false /\ om_RemainingPortions m = om_Quantity m /\
  0 < om_Quantity m < 2 ^ 31 /\
  (om_Status m = OrderStatusPending \/ om_Status m = OrderStatusApproved \/
   om_Status m = OrderStatusDeclined).

(** An order to sell commits shares that the user holds free. *)
Definition covered (is_forex : Z -> bool) (os : gmap Z orderModel) (m : orderModel) : Prop :=
  om_Direction m = OrderDirectionSell -> om_Status m <> OrderStatusDeclined ->
  is_forex (om_ListingID m) = false ->
  om_Quantity m <= net_of (om_UserID m) (om_ListingID m) os.

Section machine.
(** Which listings are currency pairs: their holdings are bank accounts. *)
Context (is_forex : Z -> bool).

Inductive market_step : mstate -> mstate -> Prop :=
  | market_row os ts id m m' :
      os !! id = Some m -> order_step m m' -> market_step (os, ts) (<[id := m']> os, ts)
  | market_fill os ts id m n c t :
      os !! id = Some m -> om_Status m = OrderStatusApproved -> om_IsDone m = false ->
      0 < n <= om_RemainingPortions m ->
      (is_forex (om_ListingID m) = true -> n = om_Quantity m) ->
      market_step (os, ts)
        (<[id := filled n m]> os, ts ++ [mkOrderTransactionModel id n c t])
  | market_create os ts id m :
      os !! id = None -> initial m -> covered is_forex os m ->
      market_step (os, ts) (<[id := m]> os, ts).

Definition evolves (d d' : DB) : Prop := rtc market_step (view d) (view d').

#[export] Instance evolves_preorder : PreOrder evolves.
Proof. split; unfold evolves; [intros d; apply rtc_refl|]. intros x y z Hxy Hyz. by etrans. Qed.

Lemma evolves_same d d' : view d' = view d -> evolves d d'.
Proof. unfold evolves. intros ->. apply rtc_refl. Qed.

(** ** Invariants *)

Definition order_inv (m : orderModel) : Prop :=
  0 < om_Quantity m < 2 ^ 31 /\ 0 <= om_RemainingPortions m <= om_Quantity m /\
  match om_Status m with
  | OrderStatusPending => om_RemainingPortions m = om_Quantity m /\ om_IsDone m = false
  | OrderStatusApproved => 0 < om_RemainingPortions m /\ om_IsDone m = false
  | OrderStatusDeclined => 0 < om_RemainingPortions m /\ om_IsDone m = false
  | OrderStatusDone => om_RemainingPortions m = 0 /\ om_IsDone m = true
  | OrderStatusCanceled => 0 < om_RemainingPortions m /\ om_IsDone m = true
  end.

Definition executed_in (ts : list orderTransactionModel) (id : Z) : Z :=
  zsum (fun t => if ot_OrderID t =? id then ot_ExecutedQuantity t else 0) ts.

Record market_inv (s : mstate) : Prop := {
  inv_order : forall id m, s.1 !! id = Some m -> order_inv m;
  (** an order on a currency pair is executed whole *)
  inv_whole : forall id m, s.1 !! id = Some m -> is_forex (om_ListingID m) = true ->
    om_Status m = OrderStatusApproved -> om_RemainingPortions m = om_Quantity m;
  inv_fills : forall id m, s.1 !! id = Some m ->
    executed_in s.2 id = om_Quantity m - om_RemainingPortions m;
  inv_fresh : forall id, s.1 !! id = None -> executed_in s.2 id = 0;
  inv_holdings : forall u l, is_forex l = false -> 0 <= net_of u l s.1
}.

Lemma initial_inv m : initial m -> order_inv m.
Proof.
  intros (Hd & Hr & Hq & Hs). unfold order_inv. rewrite Hd, Hr.
  destruct Hs as [->|[->| ->]]; lia.
Qed.

Lemma order_step_inv m m' : order_inv m -> order_step m m' -> order_inv m'.
Proof.
  intros (Hq & Hr & Hs) Hstep. unfold order_inv.
  destruct Hstep as [m b Hp|m b Ha|m [Ha Hd]]; cbn.
  - rewrite Hp in Hs. destruct Hs as [-> ->]. lia.
  - destruct Ha as [Ha|Ha]; rewrite Ha in Hs; destruct Hs as [? ->]; lia.
  - destruct Ha as [Ha|Ha]; rewrite Ha in Hs; destruct Hs as [? _]; lia.
Qed.

Lemma filled_inv m n :
  order_inv m -> om_Status m = OrderStatusApproved -> 0 < n <= om_RemainingPortions m ->
  order_inv (filled n m) /\ om_RemainingPortions (filled n m) = om_RemainingPortions m - n.
Proof.
  intros (Hq & Hr & Hs) Ha Hn. unfold filled, order_inv.
  destruct (Z.eqb_spec (om_RemainingPortions m - n) 0) as [E|E]; cbn; [lia|].
  rewrite Ha. lia.
Qed.

(** No transition takes shares away: a sale is counted when it is placed. *)
Lemma order_step_net m m' : order_inv m -> order_step m m' -> net_contrib m <= net_contrib m'.
Proof.
  intros (Hq & Hr & Hs) Hstep. unfold net_contrib.
  destruct Hstep as [m b Hp|m b Ha|m [Ha Hd]]; cbn.
  - rewrite Hp in *. destruct (om_Direction m); destruct (om_IsDone m); lia.
  - destruct Ha as [Ha|Ha]; rewrite Ha in *; destruct Hs as [_ ->]; destruct (om_Direction m); lia.
  - destruct Ha as [Ha|Ha]; rewrite Ha, Hd;
      destruct (om_Direction m); try destruct (0 <? _) eqn:E; lia.
Qed.

Lemma filled_net m n :
  order_inv m -> om_Status m = OrderStatusApproved -> 0 < n <= om_RemainingPortions m ->
  net_contrib m <= net_contrib (filled n m).
Proof.
  intros (Hq & Hr & Hs) Ha Hn. unfold net_contrib, filled. rewrite Ha in *.
  destruct Hs as [_ ->].
  destruct (_ =? 0); cbn; rewrite ?Ha; destruct (om_Direction m); lia.
Qed.

Lemma owned_by_step m m' u l : order_step m m' -> owned_by u l m' = owned_by u l m.
Proof. by destruct 1. Qed.

Lemma owned_by_filled n m u l : owned_by u l (filled n m) = owned_by u l m.
Proof. unfold filled. by destruct (_ =? 0). Qed.

(** Replacing one row by a row of the same owner that contributes no less. *)
Lemma net_of_update u l os id m m' :
  os !! id = Some m -> owned_by u l m' = owned_by u l m -> net_contrib m <= net_contrib m' ->
  net_of u l os <= net_of u l (<[id := m']> os).
Proof.
  intros Hm Ho Hc. unfold net_of. rewrite (msum_update _ _ _ _ _ Hm). cbv beta. rewrite Ho.
  destruct (owned_by u l m); lia.
Qed.

Lemma net_of_create u l os id m :
  os !! id = None -> initial m -> covered is_forex os m -> is_forex l = false ->
  0 <= net_of u l os -> 0 <= net_of u l (<[id := m]> os).
Proof.
  intros Hid Hi Hc Hl H0. unfold net_of. rewrite msum_insert by done. fold (net_of u l os).
  destruct (owned_by u l m) eqn:Ho; [|lia].
  unfold owned_by in Ho. apply andb_prop in Ho as [Hu Hl'].
  apply Z.eqb_eq in Hu as <-, Hl' as <-.
  destruct Hi as (Hd & Hr & Hq & Hs). unfold covered in Hc. unfold net_contrib. rewrite Hd.
  destruct (om_Direction m), Hs as [Hs|[Hs|Hs]]; rewrite Hs in *; try lia;
    specialize (Hc eq_refl ltac:(done) Hl); lia.
Qed.

Lemma executed_in_snoc ts id n c t i :
  executed_in (ts ++ [mkOrderTransactionModel id n c t]) i
  = executed_in ts i + (if id =? i then n else 0).
Proof. unfold executed_in. rewrite zsum_app, zsum_cons, zsum_nil. cbn. lia. Qed.

Lemma market_inv_step s s' : market_inv s -> market_step s s' -> market_inv s'.
Proof.
  intros [Ho Hw Hf Hx Hn] Hstep.
  destruct Hstep as [os ts id m m' Hm Hs|os ts id m n c t Hm Ha Hd Hn' Hwhole|os ts id m Hm Hi Hc];
    cbn [fst snd] in *.
  - split; cbn [fst snd].
    + intros i mi [[-> <-]|[_ H]]%lookup_insert_Some; [|eauto].
      eapply order_step_inv; eauto.
    + intros i mi [[-> <-]|[_ H]]%lookup_insert_Some Hfx Hap; [|eauto].
      destruct (Ho _ _ Hm) as (_ & _ & Hst). destruct Hs as [m b Hp| |]; cbn in *; [|discriminate..].
      rewrite Hp in Hst. by destruct Hst.
    + intros i mi [[-> <-]|[_ H]]%lookup_insert_Some; [|eauto].
      rewrite (Hf _ _ Hm). by destruct Hs.
    + intros i [H _]%lookup_insert_None. eauto.
    + intros u l Hl. etransitivity; [exact (Hn u l Hl)|].
      eapply net_of_update; [done|by apply owned_by_step|eauto using order_step_net].
  - destruct (filled_inv m n (Ho _ _ Hm) Ha Hn') as [Hinv Hrem].
    assert (Hq : om_Quantity (filled n m) = om_Quantity m) by (unfold filled; by destruct (_ =? 0)).
    split; cbn [fst snd].
    + intros i mi [[-> <-]|[_ H]]%lookup_insert_Some; eauto.
    + intros i mi [[-> <-]|[_ H]]%lookup_insert_Some Hfx Hap; [|eauto].
      assert (Hl : om_ListingID (filled n m) = om_ListingID m) by (unfold filled; by destruct (_ =? 0)).
      rewrite Hl in Hfx. rewrite (Hwhole Hfx) in Hap, Hrem.
      rewrite (Hw _ _ Hm Hfx Ha), Z.sub_diag in Hrem.
      unfold filled in Hap. rewrite (Hw _ _ Hm Hfx Ha), Z.sub_diag in Hap. discriminate.
    + intros i mi [[-> <-]|[Hne H]]%lookup_insert_Some; rewrite executed_in_snoc.
      * rewrite Z.eqb_refl, (Hf _ _ Hm), Hrem, Hq. lia.
      * rewrite (Hf _ _ H). apply Z.eqb_neq in Hne. rewrite Hne. lia.
    + intros i [H Hne]%lookup_insert_None. rewrite executed_in_snoc, (Hx _ H).
      apply Z.eqb_neq in Hne. by rewrite Hne.
    + intros u l Hl. etransitivity; [exact (Hn u l Hl)|].
      eapply net_of_update; [done|apply owned_by_filled|eauto using filled_net].
  - split; cbn [fst snd].
    + intros i mi [[-> <-]|[_ H]]%lookup_insert_Some; eauto using initial_inv.
    + intros i mi [[-> <-]|[_ H]]%lookup_insert_Some Hfx Hap; [|eauto].
      by destruct Hi as (_ & -> & _).
    + intros i mi [[-> <-]|[_ H]]%lookup_insert_Some; [|eauto].
      rewrite (Hx _ Hm). destruct Hi as (_ & -> & _). lia.
    + intros i [H _]%lookup_insert_None. eauto.
    + intros u l Hl. apply net_of_create; auto.
Qed.

Lemma market_inv_rtc s s' : rtc market_step s s' -> market_inv s -> market_inv s'.
Proof. induction 1; eauto using market_inv_step. Qed.

Lemma market_inv_empty : market_inv (∅, []).
Proof.
  split; cbn [fst snd]; intros.
  - by rewrite lookup_empty in *.
  - by rewrite lookup_empty in *.
  - by rewrite lookup_empty in *.
  - done.
  - unfold net_of. by rewrite msum_empty.
Qed.

(** ** What happens to one row *)

(** The identity of an order and its ceiling; its open portions only shrink. *)
Definition row_le (m m' : orderModel) : Prop :=
  om_UserID m' = om_UserID m /\ om_AccountID m' = om_AccountID m /\
  om_ListingID m' = om_ListingID m /\ om_Direction m' = om_Direction m /\
  om_Quantity m' = om_Quantity m /\ om_RemainingPortions m' <= om_RemainingPortions m.

#[export] Instance row_le_preorder : PreOrder row_le.
Proof.
  split; unfold row_le; [intros m; split_and!; reflexivity|].
  intros x y z (? & ? & ? & ? & ? & ?) (? & ? & ? & ? & ? & ?). split_and!; (congruence || lia).
Qed.

Definition decided (m : orderModel) : Prop :=
  om_Status m = OrderStatusDeclined \/ om_Status m = OrderStatusDone \/
  om_Status m = OrderStatusCanceled.

Lemma market_step_row s s' id m :
  market_step s s' -> s.1 !! id = Some m ->
  exists m', s'.1 !! id = Some m' /\ row_le m m' /\ (decided m -> m' = m).
Proof.
  intros Hstep Hm.
  destruct Hstep as [os ts i mi mi' Hi Hs|os ts i mi n c t Hi Ha Hd Hn Hw|os ts i mi Hi Hin Hc];
    cbn [fst snd] in *; (destruct (decide (i = id)) as [->|Hne];
      [rewrite lookup_insert_eq|
       rewrite lookup_insert_ne by done; exists m; split_and!; [done|reflexivity|done]]).
  - rewrite Hm in Hi. injection Hi as <-. eexists. split; [done|]. unfold decided.
    destruct Hs as [m b Hp|m b Ha|m [Ha Hd]]; (split; [by unfold row_le|]);
      intuition congruence.
  - rewrite Hm in Hi. injection Hi as <-. eexists. split; [done|]. unfold decided. rewrite Ha.
    split; [|intuition congruence]. unfold row_le, filled.
    destruct (Z.eqb_spec (om_RemainingPortions m - n) 0); cbn; split_and!; (done || lia).
  - congruence.
Qed.

Lemma market_rtc_row s s' id m :
  rtc market_step s s' -> s.1 !! id = Some m ->
  exists m', s'.1 !! id = Some m' /\ row_le m m' /\ (decided m -> m' = m).
Proof.
  intros H. revert m. induction H as [s|s1 s2 s3 H1 _ IH]; intros m Hm;
    [exists m; split_and!; [done|reflexivity|done]|].
  destruct (market_step_row _ _ _ _ H1 Hm) as (m2 & Hm2 & E2 & D2).
  destruct (IH m2 Hm2) as (m3 & Hm3 & E3 & D3). exists m3. split_and!; [done|by etransitivity|].
  intros Hd. specialize (D2 Hd). subst m2. auto.
Qed.

Lemma evolves_row_le d d' id m :
  evolves d d' -> d_orders d !! id = Some m ->
  exists m', d_orders d' !! id = Some m' /\ row_le m m' /\ (decided m -> m' = m).
Proof. intros H Hm. exact (market_rtc_row _ _ _ _ H Hm). Qed.

(** A row never changes its listing. *)
Lemma evolves_listing d d' id m :
  evolves d d' -> d_orders d !! id = Some m ->
  exists m', d_orders d' !! id = Some m' /\ om_ListingID m' = om_ListingID m.
Proof.
  intros H Hm. destruct (evolves_row_le _ _ _ _ H Hm) as (m' & Hm' & (_ & _ & E & _) & _). eauto.
Qed.

(** Between two states of the recorded fills nothing is lost. *)
Lemma market_step_fills s s' : market_step s s' -> exists l, s'.2 = s.2 ++ l.
Proof.
  destruct 1; cbn; [by exists []; rewrite app_nil_r|eauto|by exists []; rewrite app_nil_r].
Qed.

Lemma market_rtc_fills s s' : rtc market_step s s' -> exists l, s'.2 = s.2 ++ l.
Proof.
  induction 1 as [s|s1 s2 s3 H1 _ [l IH]]; [by exists []; rewrite app_nil_r|].
  destruct (market_step_fills _ _ H1) as [l' E]. exists (l' ++ l). by rewrite IH, E, app_assoc.
Qed.
End machine.

(** The invariant of the market.  From an empty market, whatever sequence of
    placements, approvals, declines, cancellations and fills follows, every order
    is well formed (0 <= remaining <= quantity < 2^31; DONE exactly when nothing
    is open; a PENDING order is untouched), the fills recorded for an order add up
    to exactly the portions it has lost, and the holdings that the repository
    computes (with open orders to sell counted as sold) are never negative, except
    on currency pairs, whose holdings are bank accounts. *)
Theorem market_invariant (is_forex : Z -> bool) (s : mstate)
    (Hreach : rtc (market_step is_forex) (∅, []) s) :
  (forall id m, s.1 !! id = Some m -> order_inv m /\
     executed_in s.2 id = om_Quantity m - om_RemainingPortions m) /\
  (forall user listing, is_forex listing = false -> 0 <= net_of user listing s.1).
Proof.
  assert (H : market_inv is_forex s) by (eapply market_inv_rtc; [exact Hreach|apply market_inv_empty]).
  split; [|apply (inv_holdings _ _ H)].
  intros id m Hm. split; [by eapply inv_order|by eapply inv_fills].
Qed.

(** A decision is final.  In every execution, an order that is DECLINED, DONE
    or CANCELED stays exactly as it is, an order never changes its user, account,
    listing, direction or quantity, its open portions never grow, and no recorded
    fill is altered or removed. *)
Theorem decided_orders_are_final (is_forex : Z -> bool) (s s' : mstate)
    (Hexec : rtc (market_step is_forex) s s') (id : Z) (m : orderModel) (Hm : s.1 !! id = Some m) :
  (exists m', s'.1 !! id = Some m' /\ row_le m m' /\ (decided m -> m' = m)) /\
  exists fills, s'.2 = s.2 ++ fills.
Proof.
  split; [by eapply market_rtc_row|by eapply market_rtc_fills].
Qed.

(** ** Witnesses *)

Module lifecycle_example.
Definition buy : orderModel :=
  mkOrderModel 7 10 1 OrderTypeMarket OrderDirectionBuy 4 1 None None OrderStatusApproved None
    false 4 false false false true None 0.
Definition s0 : mstate := (∅, []).
Definition s1 : mstate := ({[1 := buy]}, []).
Definition s2 : mstate := ({[1 := filled 4 buy]}, [mkOrderTransactionModel 1 4 20 0]).

Lemma create : market_step (fun _ => false) s0 s1.
Proof. apply market_create; [done|split_and!; cbn; (done || lia || auto)|done]. Qed.
Lemma fill : market_step (fun _ => false) s1 s2.
Proof.
  replace s2 with (<[1 := filled 4 buy]> ({[1 := buy]} : gmap Z orderModel),
                   [] ++ [mkOrderTransactionModel 1 4 20 0]) by (by vm_compute).
  apply market_fill; [done|done|done|done|done].
Qed.
End lifecycle_example.

Lemma market_invariant_witness :
  executed_in lifecycle_example.s2.2 1 = 4 /\ 0 <= net_of 7 1 lifecycle_example.s2.1.
Proof.
  destruct (market_invariant (fun _ => false) lifecycle_example.s2
    (rtc_l _ _ _ _ lifecycle_example.create (rtc_once _ _ lifecycle_example.fill))) as [Ho Hn].
  split; [exact (proj2 (Ho 1 (filled 4 lifecycle_example.buy) eq_refl))|by apply Hn].
Defined.

Lemma decided_orders_are_final_witness :
  exists m', lifecycle_example.s2.1 !! 1 = Some m' /\ om_Quantity m' = 4.
Proof.
  destruct (decided_orders_are_final (fun _ => false) lifecycle_example.s1 lifecycle_example.s2
    (rtc_once _ _ lifecycle_example.fill) 1 lifecycle_example.buy eq_refl)
    as [(m' & Hm' & (_ & _ & _ & _ & Hq & _) & _) _].
  exists m'. split; [exact Hm'|exact Hq].
Defined.
