(* ===== verification/Market.v ===== *)
(** * Market data: rates, listings and snapshots

    [service/exchange_service.go] (the exchange-rate list), [service/listing_service.go]
    (the derived values of a listing) and [trading/worker/listing_market_adapter.go]
    (the snapshot the engine works with).  The rate provider, the listing table,
    the price history and [encoding/json] are answers of the environment. *)

From S2P Require Import Prelude Numeric Domain Store StoreFacts.
#[local] Open Scope Z_scope.

(** ** Exchange rates *)

Definition SupportedExchangeCodes : list string :=
  ["EUR"; "CHF"; "USD"; "GBP"; "JPY"; "CAD"; "AUD"]%string.

Definition fallbackMidRates : list (string * float64) :=
  [("EUR", f64_lit 117 0); ("CHF", f64_lit 12675 2); ("USD", f64_lit 10775 2);
   ("GBP", f64_lit 13675 2); ("JPY", f64_lit 69 2); ("CAD", f64_lit 755 1);
   ("AUD", f64_lit 685 1)]%string.

(** A Go map as an association list with distinct keys. *)
Fixpoint map_get (k : string) (m : list (string * float64)) : option float64 :=
  match m with
  | [] => None
  | (k', v) :: m' => if String.eqb k k' then Some v else map_get k m'
  end.

(** A provider that fails, or answers nothing, is replaced by the local table. *)
Definition getMidRates : M (list (string * float64)) :=
  io (fun e n =>
    Ok (match env_mid_rates e n with
        | None | Some [] => fallbackMidRates
        | Some rates => rates
        end)).

Definition buildRate (spreadRate : float64) (code : string) (mid : float64) : ExchangeRate :=
  {| er_Oznaka := code;
     er_Kupovni := f64_mul mid (f64_sub (f64_of_Z 1) spreadRate);
     er_Srednji := mid;
     er_Prodajni := f64_mul mid (f64_add (f64_of_Z 1) spreadRate) |}.

Fixpoint rates_of (spreadRate : float64) (codes : list string) (mids : list (string * float64))
    : list ExchangeRate :=
  match codes with
  | [] => []
  | code :: codes' =>
      match map_get code mids with
      | None => rates_of spreadRate codes' mids
      | Some mid => buildRate spreadRate code mid :: rates_of spreadRate codes' mids
      end
  end.

Definition GetRates (spreadRate : float64) : M (list ExchangeRate) :=
  midRates ← getMidRates;
  mret (rates_of spreadRate SupportedExchangeCodes midRates).

(** The first entry of a currency, as the loops over the list find it. *)
Definition find_rate (oznaka : string) (rates : list ExchangeRate) : option ExchangeRate :=
  List.find (fun r => String.eqb (er_Oznaka r) oznaka) rates.

(** ** Listings *)

Definition parseFutureContractSize (js : Json) (details : string) : float64 :=
  match json_contract_size js details with Some v => v | None => f64_zero end.

Definition parseOptionUnderlyingPrice (js : Json) (details : string) : float64 :=
  match json_underlying_price js details with Some v => v | None => f64_zero end.

Definition contractSizeAndMargin (js : Json) (l : Listing) : float64 * float64 :=
  match l_ListingType l with
  | ListingTypeStock => (f64_of_Z 1, f64_mul (f64_lit 5 1) (l_Price l))
  | ListingTypeForex =>
      let contractSize := f64_of_Z 1000 in
      (contractSize, f64_mul (f64_mul contractSize (l_Price l)) (f64_lit 1 1))
  | ListingTypeFuture =>
      let parsed := parseFutureContractSize js (l_DetailsJSON l) in
      let contractSize := if f64_eqb parsed f64_zero then f64_of_Z 1 else parsed in
      (contractSize, f64_mul (f64_mul contractSize (l_Price l)) (f64_lit 1 1))
  | ListingTypeOption =>
      let contractSize := f64_of_Z 100 in
      (contractSize, f64_mul (f64_mul contractSize (f64_lit 5 1))
                       (parseOptionUnderlyingPrice js (l_DetailsJSON l)))
  | OtherListingType _ => (f64_zero, f64_zero)
  end.

Definition calculate (js : Json) (l : Listing) (change : float64) : ListingCalculated :=
  let '(cs, mm) := contractSizeAndMargin js l in
  let previousClose := f64_sub (l_Price l) change in
  let changePercent :=
    if f64_eqb previousClose f64_zero then f64_zero
    else f64_mul (f64_div (f64_sub (l_Price l) previousClose) previousClose) (f64_of_Z 100) in
  {| lc_Listing := l;
     lc_ChangePercent := changePercent;
     lc_DollarVolume := f64_mul (f64_of_Z (l_Volume l)) (l_Price l);
     lc_NominalValue := f64_mul cs (l_Price l);
     lc_ContractSize := cs;
     lc_MaintenanceMargin := mm;
     lc_InitialMarginCost := f64_mul mm (f64_lit 11 1) |}.

(** [ListingRepository.GetByID] and [GetLatestDailyChange] (0 on an error). *)
Definition listing_GetByID (id : Z) : M Listing := io (fun e n => env_listing e n id).
Definition GetLatestDailyChange (id : Z) : M float64 := io (fun e n => Ok (env_daily_change e n id)).
Definition the_json : M Json := fun e w => (Ok (env_json e), w).

Definition GetListingByID (id : Z) : M ListingCalculated :=
  l ← listing_GetByID id;
  change ← GetLatestDailyChange (l_ID l);
  js ← the_json;
  mret (calculate js l change).

(** ** The engine's snapshot *)

Definition parse_settlement (js : Json) (s : string) : option Z :=
  match time_parse_date js s with
  | Some t => Some t
  | None => time_parse_rfc3339 js s
  end.

Definition snapshot_of (js : Json) (l : Listing) : MarketSnapshot :=
  let snap := mkMarketSnapshot (l_Ask l) (l_Bid l) (l_Volume l) (l_ExchangeID l) None
                (l_ListingType l) EmptyString EmptyString in
  if String.eqb (l_DetailsJSON l) EmptyString then snap
  else match l_ListingType l with
  | ListingTypeForex =>
      match json_forex js (l_DetailsJSON l) with
      | Some (base, quote) =>
          mkMarketSnapshot (l_Ask l) (l_Bid l) (l_Volume l) (l_ExchangeID l) None
            (l_ListingType l) base quote
      | None => snap
      end
  | ListingTypeFuture | ListingTypeOption =>
      match json_settlement_date js (l_DetailsJSON l) with
      | Some s =>
          if String.eqb s EmptyString then snap
          else mkMarketSnapshot (l_Ask l) (l_Bid l) (l_Volume l) (l_ExchangeID l)
                 (parse_settlement js s) (l_ListingType l) EmptyString EmptyString
      | None => snap
      end
  | _ => snap
  end.

Definition GetMarketSnapshot (listingID : Z) : M MarketSnapshot :=
  l ← listing_GetByID listingID;
  js ← the_json;
  mret (snapshot_of js l).

(** ** None of these touches the database *)

Lemma the_json_reads : reads the_json.
Proof. intros e w r w' [= _ <-]. done. Qed.
#[export] Hint Resolve the_json_reads : reads.

Lemma GetRates_reads s : reads (GetRates s).
Proof. unfold GetRates, getMidRates. solve_reads. Qed.

Lemma GetListingByID_reads id : reads (GetListingByID id).
Proof. unfold GetListingByID, listing_GetByID, GetLatestDailyChange. solve_reads. Qed.

Lemma GetMarketSnapshot_reads id : reads (GetMarketSnapshot id).
Proof. unfold GetMarketSnapshot, listing_GetByID. solve_reads. Qed.

#[export] Hint Resolve GetRates_reads GetListingByID_reads GetMarketSnapshot_reads : reads.

(** The list of rates is total: the provider's failure is not the caller's. *)
Lemma GetRates_total s e w : exists rates, GetRates s e w = (Ok rates, next_step w).
Proof. eexists. reflexivity. Qed.
