(* ===== verification/Interfaces.v ===== *)
(** * Interfaces between the trading components ([trading/domain.go])

    The trading service and the execution engine call the funds manager and the
    margin checker through Go interfaces.  [FundsManager] and [MarginChecker] are
    those interfaces; the [...Laws] classes state what a client may rely on: the
    money side never touches the order tables, queries change nothing, and a
    refused reservation leaves the database as it was.  The client theorems are
    proved against the laws; [FundsFacts] and [Actuaries] discharge them. *)

From S2P Require Import Prelude Numeric Domain Store StoreFacts OrderRepo OrderRepoFacts.
#[local] Open Scope Z_scope.

(** [trading.FundsManager]; the first boolean is the context's is_client flag. *)
Class FundsManager `{DL : decimal.Lib} : Type := {
  fm_ReserveFunds : bool -> Z -> decimal.t -> M unit;
  fm_ReleaseFunds : bool -> Z -> decimal.t -> M unit;
  fm_SettleBuyFill : bool -> Z -> decimal.t -> M unit;
  fm_CreditSellFill : bool -> Z -> decimal.t -> M unit;
  fm_ClampPublicSharesToHoldings : bool -> Z -> Z -> M unit;
  fm_HasSufficientFunds : bool -> Z -> decimal.t -> M bool;
  fm_HasSufficientFreeBalance : Z -> decimal.t -> M bool;
  fm_ConvertUSDToRSD : decimal.t -> M decimal.t;
  fm_ChargeCommission : bool -> Z -> decimal.t -> M unit;
  fm_ReserveForexFunds : bool -> Z -> Z -> string -> decimal.t -> M unit;
  fm_ReleaseForexFunds : bool -> Z -> Z -> string -> decimal.t -> M unit;
  fm_ForexSwap : bool -> Z -> Z -> string -> string -> decimal.t -> decimal.t ->
                 OrderDirection -> M unit
}.

(** [trading.MarginChecker]. *)
Class MarginChecker `{DL : decimal.Lib} : Type := {
  mc_HasApprovedCreditForMargin : Z -> decimal.t -> M bool;
  mc_HasSufficientMargin : Z -> decimal.t -> M bool;
  mc_HasSufficientMarginTrezor : string -> decimal.t -> M bool
}.

(** A computation that returns an error leaves the database alone. *)
Definition refuses {A} (m : M A) : Prop :=
  forall e w er w', m e w = (Err er, w') -> w_db w' = w_db w.

Class FundsManagerLaws `{DL : decimal.Lib} (F : FundsManager) : Prop := {
  fm_ReserveFunds_frame : forall c a x, preserves (same order_tables) (fm_ReserveFunds c a x);
  fm_ReserveFunds_refuses : forall c a x, refuses (fm_ReserveFunds c a x);
  fm_ReleaseFunds_frame : forall c a x, preserves (same order_tables) (fm_ReleaseFunds c a x);
  fm_SettleBuyFill_frame : forall c a x, preserves (same order_tables) (fm_SettleBuyFill c a x);
  fm_CreditSellFill_frame : forall c a x, preserves (same order_tables) (fm_CreditSellFill c a x);
  fm_Clamp_frame : forall c u l,
    preserves (same order_tables) (fm_ClampPublicSharesToHoldings c u l);
  fm_HasSufficientFunds_reads : forall c a x, reads (fm_HasSufficientFunds c a x);
  fm_HasSufficientFreeBalance_reads : forall a x, reads (fm_HasSufficientFreeBalance a x);
  fm_ConvertUSDToRSD_reads : forall x, reads (fm_ConvertUSDToRSD x);
  fm_ChargeCommission_frame : forall c a x, preserves (same order_tables) (fm_ChargeCommission c a x);
  fm_ReserveForexFunds_frame : forall c u a q x,
    preserves (same order_tables) (fm_ReserveForexFunds c u a q x);
  fm_ReserveForexFunds_refuses : forall c u a q x, refuses (fm_ReserveForexFunds c u a q x);
  fm_ReleaseForexFunds_frame : forall c u a q x,
    preserves (same order_tables) (fm_ReleaseForexFunds c u a q x);
  fm_ForexSwap_frame : forall c u a b q n r d,
    preserves (same order_tables) (fm_ForexSwap c u a b q n r d)
}.

Class MarginCheckerLaws `{DL : decimal.Lib} (C : MarginChecker) : Prop := {
  mc_HasApprovedCreditForMargin_reads : forall u x, reads (mc_HasApprovedCreditForMargin u x);
  mc_HasSufficientMargin_reads : forall a x, reads (mc_HasSufficientMargin a x);
  mc_HasSufficientMarginTrezor_reads : forall c x, reads (mc_HasSufficientMarginTrezor c x)
}.

#[export] Hint Resolve fm_ReserveFunds_frame fm_ReleaseFunds_frame fm_SettleBuyFill_frame
  fm_CreditSellFill_frame fm_Clamp_frame fm_ChargeCommission_frame fm_ReserveForexFunds_frame
  fm_ReleaseForexFunds_frame fm_ForexSwap_frame : preserves.
#[export] Hint Resolve fm_HasSufficientFunds_reads fm_HasSufficientFreeBalance_reads
  fm_ConvertUSDToRSD_reads mc_HasApprovedCreditForMargin_reads mc_HasSufficientMargin_reads
  mc_HasSufficientMarginTrezor_reads : reads.
