(* ===== verification/FundsManager.v ===== *)
(** * The funds manager ([repository/funds_manager.go])

    Reservations, settlements and currency swaps on the accounts of
    [core_banking.racun].  The [is_client] flag that the source carries in the
    context is the first argument of each method; [WithDB] is implicit, because a
    statement runs in the transaction that is open around it.  Amounts go to the
    server as [InexactFloat64()] and are rounded to cents when they are stored.
    The texts and times of the audit rows of [transakcija] are left out. *)

From S2P Require Import Prelude Numeric Domain Store StoreFacts OrderRepo Market.
From stdpp Require Import sorting.
#[local] Open Scope Z_scope.

(** ** Statements on accounts *)

Definition with_stanje (v : Z) (r : racun) : racun :=
  mkRacun (r_broj_racuna r) (r_id_vlasnika r) (r_oznaka r) (r_vrsta_racuna r) (r_status r) v
    (r_rezervisana_sredstva r) (r_info r).
Definition with_rezervisano (v : Z) (r : racun) : racun :=
  mkRacun (r_broj_racuna r) (r_id_vlasnika r) (r_oznaka r) (r_vrsta_racuna r) (r_status r)
    (r_stanje_racuna r) v (r_info r).

(** [GREATEST(0, q)]. *)
Definition greatest0 (q : Q) : Q := if Qle_bool 0 q then q else 0%Q.

(** [stanje_racuna - rezervisana_sredstva]. *)
Definition free_cents (r : racun) : Z := r_stanje_racuna r - r_rezervisana_sredstva r.

Definition add_rezervisano (q : Q) (r : racun) : option racun :=
  v ← store_cents (cents (r_rezervisana_sredstva r) + q); Some (with_rezervisano v r).
Definition sub_rezervisano (q : Q) (r : racun) : option racun :=
  v ← store_cents (greatest0 (cents (r_rezervisana_sredstva r) - q)); Some (with_rezervisano v r).
Definition add_stanje (q : Q) (r : racun) : option racun :=
  v ← store_cents (cents (r_stanje_racuna r) + q); Some (with_stanje v r).
Definition sub_stanje (q : Q) (r : racun) : option racun :=
  v ← store_cents (cents (r_stanje_racuna r) - q); Some (with_stanje v r).
(** [SET stanje_racuna = stanje_racuna - q,
         rezervisana_sredstva = GREATEST(0, rezervisana_sredstva - q)]. *)
Definition sub_both (q : Q) (r : racun) : option racun := r' ← sub_stanje q r; sub_rezervisano q r'.

(** [UPDATE core_banking.racun SET ... WHERE id = ? AND guard]: rows affected. *)
Definition update_racun (id : Z) (guard : racun -> bool) (f : racun -> option racun) (d : DB)
    : result (Z * DB) :=
  match d_racun d !! id with
  | None => Ok (0, d)
  | Some r =>
      if guard r then
        match f r with
        | Some r' => Ok (1, set_racun (<[id := r']> (d_racun d)) d)
        | None => Err ErrDB
        end
      else Ok (0, d)
  end.

Definition always (r : racun) : bool := true.
(** [AND (stanje_racuna - rezervisana_sredstva) >= ?] and [AND stanje_racuna >= ?]. *)
Definition free_at_least (q : Q) (r : racun) : bool := Qle_bool q (cents (free_cents r)).
Definition stanje_at_least (q : Q) (r : racun) : bool := Qle_bool q (cents (r_stanje_racuna r)).

(** One multi-row INSERT into [transakcija]. *)
Fixpoint transakcija_rows (es : list (Z * TipTransakcije * Q)) (d : DB) : option (list transakcija) :=
  match es with
  | [] => Some []
  | (id, tip, q) :: es' =>
      match d_racun d !! id, store_cents q, transakcija_rows es' d with
      | Some _, Some c, Some rows => Some (mkTransakcija id tip c :: rows)
      | _, _, _ => None
      end
  end.

Definition insert_transakcija (es : list (Z * TipTransakcije * Q)) (d : DB) : result (unit * DB) :=
  match transakcija_rows es d with
  | Some rows => Ok (tt, set_transakcija (d_transakcija d ++ rows) d)
  | None => Err ErrDB
  end.

(** Active accounts of an owner in a currency, in [id] order. *)
Definition racun_ids (owner : Z) (oznaka : string) (d : DB) : list Z :=
  merge_sort Z.le
    (fst <$> filter (fun kv : Z * racun =>
       r_id_vlasnika kv.2 = owner /\ r_oznaka kv.2 = oznaka /\ r_status kv.2 = AKTIVAN)
       (map_to_list (d_racun d))).

(** [broj_racuna] is unique. *)
Definition racun_by_number (num : string) (d : DB) : option (Z * racun) :=
  head (filter (fun kv => r_broj_racuna kv.2 = num) (map_to_list (d_racun d))).

(** [id_vlasnika] of the treasury, trezor@exbanka.rs. *)
Definition trezor_owner : Z := 2.

(** ** Published shares *)

(** The settled net position: the expression [netExpr]. *)
Definition settled_contrib (m : orderModel) : Z :=
  match om_Direction m, om_Status m with
  | OrderDirectionBuy, OrderStatusDone => if om_IsDone m then om_Quantity m else 0
  | OrderDirectionBuy, OrderStatusCanceled => om_Quantity m - om_RemainingPortions m
  | OrderDirectionSell, OrderStatusDone => if om_IsDone m then - om_Quantity m else 0
  | OrderDirectionSell, OrderStatusCanceled => - (om_Quantity m - om_RemainingPortions m)
  | _, _ => 0
  end.

Definition is_actuary (d : DB) (userID : Z) : bool :=
  existsb (fun kv : Z * actuaryInfo => ai_EmployeeID kv.2 =? userID) (map_to_list (d_actuary_info d)).

(** Whose rows the clamp works on: the client's own, or the pool of actuaries. *)
Definition clamp_scope (isClient : bool) (userID : Z) (d : DB) (u : Z) : bool :=
  if isClient then u =? userID else is_actuary d u.

Definition settled_net (isClient : bool) (userID listingID : Z) (d : DB) : Z :=
  msum (fun m => if clamp_scope isClient userID d (om_UserID m) && (om_ListingID m =? listingID)
                 then settled_contrib m else 0) (d_orders d).

Definition clamp_rows (isClient : bool) (userID listingID : Z) (d : DB) : list publicShare :=
  filter (fun s => clamp_scope isClient userID d (ps_UserID s) && (ps_ListingID s =? listingID) = true)
    (d_public_shares d).

Definition delete_share (id : Z) (d : DB) : result (unit * DB) :=
  Ok (tt, set_public_shares (filter (fun s => ps_ID s <> id) (d_public_shares d)) d).

(** CHECK (quantity > 0). *)
Definition update_share (id qty : Z) (d : DB) : result (unit * DB) :=
  if 0 <? qty then
    Ok (tt, set_public_shares
              ((fun s => if ps_ID s =? id
                         then mkPublicShare (ps_ID s) (ps_ListingID s) (ps_UserID s) qty else s)
                 <$> d_public_shares d) d)
  else Err ErrDB.

(** The removal loop, oldest row first. *)
Fixpoint clamp_loop (rows : list publicShare) (remaining : Z) : M unit :=
  match rows with
  | [] => mret tt
  | row :: rows' =>
      if remaining <=? 0 then mret tt
      else
        let take := if remaining <? ps_Quantity row then remaining else ps_Quantity row in
        let newQty := ps_Quantity row - take in
        (if newQty <=? 0 then sql (delete_share (ps_ID row))
         else sql (update_share (ps_ID row) newQty)) ;;
        clamp_loop rows' (remaining - take)
  end.

(** ** Methods *)

Section funds_manager.
Context `{DL : decimal.Lib}.
(** EXCHANGE_SPREAD_RATE and EXCHANGE_PROVIZIJA_RATE. *)
Context (spreadRate provizijaRate : float64).

Definition accountCurrency (accountID : Z) : M string :=
  r ← try (sql_read (fun d => r_oznaka <$> d_racun d !! accountID));
  mret (match r with
        | Ok (Some c) => if String.eqb c EmptyString then "USD"%string else c
        | _ => "USD"%string
        end).

Definition applyProvizija (isClient isDebit : bool) (d : decimal.t) : decimal.t :=
  if isClient && f64_ltb f64_zero provizijaRate then
    if isDebit then decimal.Mul d (decimal.NewFromFloat (f64_add (f64_of_Z 1) provizijaRate))
    else decimal.Mul d (decimal.NewFromFloat (f64_sub (f64_of_Z 1) provizijaRate))
  else d.

(** USD to RSD: the selling rate for clients, the middle rate for the bank. *)
Definition usd_to_rsd (isClient : bool) (rates : list ExchangeRate) : float64 :=
  match find_rate "USD" rates with
  | Some r => if isClient && f64_ltb f64_zero (er_Prodajni r) then er_Prodajni r else er_Srednji r
  | None => f64_zero
  end.

(** RSD to the target: the buying rate for clients, the middle rate for the bank. *)
Definition rsd_to_target (isClient : bool) (target : string) (rates : list ExchangeRate) : float64 :=
  match find_rate target rates with
  | Some r =>
      if isClient && f64_ltb f64_zero (er_Kupovni r) then er_Kupovni r
      else if f64_ltb f64_zero (er_Srednji r) then er_Srednji r else f64_zero
  | None => f64_zero
  end.

(** The arithmetic of [convertUSDToAccountCurrency] on a list of rates. *)
Definition convert_at (isClient isDebit : bool) (rates : list ExchangeRate)
    (usdAmount : decimal.t) (target : string) : decimal.t :=
  let usdToRSD := usd_to_rsd isClient rates in
  if f64_leb usdToRSD f64_zero then usdAmount
  else
    let rsdAmount := decimal.Mul usdAmount (decimal.NewFromFloat usdToRSD) in
    if String.eqb target "RSD" then applyProvizija isClient isDebit rsdAmount
    else
      let rsdToTarget := rsd_to_target isClient target rates in
      if f64_leb rsdToTarget f64_zero then applyProvizija isClient isDebit rsdAmount
      else applyProvizija isClient isDebit (decimal.Div rsdAmount (decimal.NewFromFloat rsdToTarget)).

Definition convertUSDToAccountCurrency (isClient : bool) (usdAmount : decimal.t)
    (targetCurrency : string) (isDebit : bool) : M decimal.t :=
  if String.eqb targetCurrency "USD" then mret usdAmount
  else
    rates ← try (GetRates spreadRate);
    mret (match rates with
          | Err _ => usdAmount
          | Ok rates => convert_at isClient isDebit rates usdAmount targetCurrency
          end).

Definition ReserveFunds (isClient : bool) (accountID : Z) (usdAmount : decimal.t) : M unit :=
  currency ← accountCurrency accountID;
  debit ← convertUSDToAccountCurrency isClient usdAmount currency true;
  let q := decimal.sql_arg debit in
  rows ← sql (update_racun accountID (free_at_least q) (add_rezervisano q));
  if rows =? 0 then throw ErrInsufficientFunds else mret tt.

Definition ReleaseFunds (isClient : bool) (accountID : Z) (usdAmount : decimal.t) : M unit :=
  currency ← accountCurrency accountID;
  debit ← convertUSDToAccountCurrency isClient usdAmount currency true;
  let q := decimal.sql_arg debit in
  sql (update_racun accountID always (sub_rezervisano q)) ;;
  mret tt.

(** [SELECT ... LIMIT 1] with no ORDER BY: the server picks a row; 0 if none. *)
Definition fetchCurrencyTrezorID (oznaka : string) : M Z :=
  r ← try (sql_read (racun_ids trezor_owner oznaka));
  k ← io (fun e n => Ok (env_row_choice e n));
  mret (match r with
        | Ok (id :: ids) => nth (k mod S (length ids))%nat (id :: ids) 0
        | _ => 0
        end).

Definition bankTrezorAccountID : M Z :=
  r ← try (sql_read (fun d => fst <$> filter (fun kv : Z * racun =>
             r_broj_racuna kv.2 = "666000122200000008"%string) (map_to_list (d_racun d))));
  mret (match r with Ok (id :: _) => id | _ => 0 end).

(** The debit of a client's account that every BUY settlement starts with. *)
Definition debit_account (accountID : Z) (q : Q) : M unit :=
  rows ← sql (update_racun accountID (stanje_at_least q) (sub_both q));
  if rows =? 0 then throw ErrInsufficientFunds else mret tt.

(** An account update that does not look at the rows affected. *)
Definition exec_racun (id : Z) (f : racun -> option racun) : M unit :=
  sql (update_racun id always f) ;; mret tt.

Definition SettleBuyFill (isClient : bool) (accountID : Z) (amount : decimal.t) : M unit :=
  currency ← accountCurrency accountID;
  debit ← convertUSDToAccountCurrency isClient amount currency true;
  let q := decimal.sql_arg debit in
  if negb isClient || String.eqb currency "USD" then
    Transaction (
      debit_account accountID q ;;
      sql (insert_transakcija [(accountID, ISPLATA, q)]))
  else
    trezorFromID ← fetchCurrencyTrezorID currency;
    trezorUSDID ← fetchCurrencyTrezorID "USD";
    if (trezorFromID =? 0) || (trezorUSDID =? 0) then
      debit_account accountID q ;;
      try (sql (insert_transakcija [(accountID, ISPLATA, q)])) ;;
      mret tt
    else
      Transaction (
        debit_account accountID q ;;
        exec_racun trezorFromID (add_stanje q) ;;
        exec_racun trezorUSDID (sub_stanje (decimal.sql_arg amount)) ;;
        sql (insert_transakcija
               [(accountID, ISPLATA, q); (trezorFromID, UPLATA, q);
                (trezorUSDID, ISPLATA, decimal.sql_arg amount)])).

Definition CreditSellFill (isClient : bool) (accountID : Z) (amount : decimal.t) : M unit :=
  currency ← accountCurrency accountID;
  credit ← convertUSDToAccountCurrency isClient amount currency false;
  let q := decimal.sql_arg credit in
  if negb isClient || String.eqb currency "USD" then
    Transaction (
      exec_racun accountID (add_stanje q) ;;
      sql (insert_transakcija [(accountID, UPLATA, q)]))
  else
    trezorLocalID ← fetchCurrencyTrezorID currency;
    trezorUSDID ← fetchCurrencyTrezorID "USD";
    if (trezorLocalID =? 0) || (trezorUSDID =? 0) then
      Transaction (
        exec_racun accountID (add_stanje q) ;;
        sql (insert_transakcija [(accountID, UPLATA, q)]))
    else
      Transaction (
        exec_racun accountID (add_stanje q) ;;
        exec_racun trezorLocalID (sub_stanje q) ;;
        exec_racun trezorUSDID (add_stanje (decimal.sql_arg amount)) ;;
        sql (insert_transakcija
               [(accountID, UPLATA, q); (trezorLocalID, ISPLATA, q);
                (trezorUSDID, UPLATA, decimal.sql_arg amount)])).

Definition ClampPublicSharesToHoldings (isClient : bool) (userID listingID : Z) : M unit :=
  owned0 ← try (sql_read (settled_net isClient userID listingID));
  rows ← sql_read (clamp_rows isClient userID listingID);
  let owned := match owned0 with Ok n => if n <? 0 then 0 else n | Err _ => 0 end in
  let total := zsum ps_Quantity rows in
  let excess := total - owned in
  if excess <=? 0 then mret tt else clamp_loop rows excess.

(** A NUMERIC column read as text and parsed. *)
Definition parse_cents (c : Z) : M decimal.t :=
  match decimal.NewFromString (cents c) with
  | Some d => mret d
  | None => throw (ErrMsg "parse")
  end.

(** [SELECT stanje_racuna, rezervisana_sredstva ... First]. *)
Definition first_racun (accountID : Z) : M racun :=
  row ← sql_read (fun d => d_racun d !! accountID);
  match row with
  | Some r => mret r
  | None => throw (ErrMsg "record not found")
  end.

Definition HasSufficientFunds (isClient : bool) (accountID : Z) (usdAmount : decimal.t) : M bool :=
  row ← first_racun accountID;
  stanje ← parse_cents (r_stanje_racuna row);
  rezervisano ← parse_cents (r_rezervisana_sredstva row);
  currency ← accountCurrency accountID;
  required ← convertUSDToAccountCurrency isClient usdAmount currency true;
  let slobodna := decimal.Sub stanje rezervisano in
  mret (decimal.GreaterThanOrEqual slobodna required).

Definition HasSufficientFreeBalance (accountID : Z) (required : decimal.t) : M bool :=
  row ← first_racun accountID;
  stanje ← parse_cents (r_stanje_racuna row);
  rezervisano ← parse_cents (r_rezervisana_sredstva row);
  mret (decimal.GreaterThanOrEqual (decimal.Sub stanje rezervisano) required).

(** The first USD entry with a positive middle rate. *)
Definition usd_mid (rates : list ExchangeRate) : option float64 :=
  er_Srednji <$> List.find (fun r => String.eqb (er_Oznaka r) "USD" &&
                                     f64_ltb f64_zero (er_Srednji r)) rates.

Definition ConvertUSDToRSD (usdAmount : decimal.t) : M decimal.t :=
  rates ← GetRates spreadRate;
  mret (match usd_mid rates with
        | Some mid => decimal.Mul usdAmount (decimal.NewFromFloat mid)
        | None => usdAmount
        end).

Definition ChargeCommission (isClient : bool) (accountID : Z) (amount : decimal.t) : M unit :=
  if negb isClient then mret tt
  else
    currency ← accountCurrency accountID;
    debit ← convertUSDToAccountCurrency isClient amount currency true;
    trezorID ← fetchCurrencyTrezorID currency;
    let q := decimal.sql_arg debit in
    Transaction (
      exec_racun accountID (sub_both q) ;;
      sql (insert_transakcija [(accountID, ISPLATA, q)]) ;;
      if trezorID =? 0 then mret tt
      else
        exec_racun trezorID (add_stanje q) ;;
        sql (insert_transakcija [(trezorID, UPLATA, q)])).

(** ** Currency pairs *)

(** [SELECT r.id ... ORDER BY r.id LIMIT 1]: the account of an owner. *)
Definition first_racun_of (owner : Z) (oznaka : string) : M (option (Z * racun)) :=
  sql_read (fun d =>
    id ← head (racun_ids owner oznaka d); r ← d_racun d !! id; Some (id, r)).

Definition resolveForexDebitAccountID (isClient : bool) (userID fromAccountID : Z)
    (quoteCurrency : string) : M Z :=
  if negb isClient then
    r ← try (first_racun_of trezor_owner quoteCurrency);
    match r with
    | Ok (Some (id, _)) => if id =? 0 then throw ErrForexAccountNotFound else mret id
    | _ => throw ErrForexAccountNotFound
    end
  else
    currency ← accountCurrency fromAccountID;
    if String.eqb currency quoteCurrency then mret fromAccountID
    else throw ErrForexCurrencyMismatch.

Definition ReserveForexFunds (isClient : bool) (userID fromAccountID : Z)
    (quoteCurrency : string) (amount : decimal.t) : M unit :=
  accountID ← resolveForexDebitAccountID isClient userID fromAccountID quoteCurrency;
  let q := decimal.sql_arg amount in
  rows ← sql (update_racun accountID (free_at_least q) (add_rezervisano q));
  if rows =? 0 then throw ErrInsufficientFunds else mret tt.

Definition ReleaseForexFunds (isClient : bool) (userID fromAccountID : Z)
    (quoteCurrency : string) (amount : decimal.t) : M unit :=
  accountID ← resolveForexDebitAccountID isClient userID fromAccountID quoteCurrency;
  exec_racun accountID (sub_rezervisano (decimal.sql_arg amount)).

(** A lookup whose failure, or empty answer, is [ErrForexAccountNotFound]. *)
Definition scan_account (m : M (option (Z * racun))) : M (Z * racun) :=
  r ← try m;
  match r with
  | Ok (Some (id, row)) => if id =? 0 then throw ErrForexAccountNotFound else mret (id, row)
  | _ => throw ErrForexAccountNotFound
  end.

(** Which accounts a swap debits and credits. *)
Definition forex_accounts (isClient : bool) (userID fromAccountID : Z)
    (debitCurrency creditCurrency : string) : M (Z * Z) :=
  if negb isClient then
    '(fromID, _) ← scan_account (first_racun_of trezor_owner debitCurrency);
    '(toID, _) ← scan_account (first_racun_of trezor_owner creditCurrency);
    mret (fromID, toID)
  else
    '(fromID, fromAcc) ← scan_account (sql_read (fun d =>
                            r ← d_racun d !! fromAccountID; Some (fromAccountID, r)));
    if negb (r_id_vlasnika fromAcc =? userID) then throw ErrForexAccountNotFound
    else if negb (String.eqb (r_oznaka fromAcc) debitCurrency) then throw ErrForexCurrencyMismatch
    else
      '(toID, _) ← scan_account (first_racun_of userID creditCurrency);
      mret (fromID, toID).

(** [decimal.NewFromString] with the error dropped. *)
Definition parse_or_zero (c : Z) : decimal.t :=
  match decimal.NewFromString (cents c) with Some d => d | None => decimal.Zero end.

Definition ForexSwap (isClient : bool) (userID fromAccountID : Z)
    (baseCurrency quoteCurrency : string) (nominalBase rate : decimal.t)
    (direction : OrderDirection) : M unit :=
  if String.eqb baseCurrency quoteCurrency then throw ErrForexSameCurrency
  else
    let quoteAmount := decimal.Mul nominalBase rate in
    let '(debitCurrency, creditCurrency, debitAmount, creditAmount) :=
      match direction with
      | OrderDirectionBuy => (quoteCurrency, baseCurrency, quoteAmount, nominalBase)
      | _ => (baseCurrency, quoteCurrency, nominalBase, quoteAmount)
      end in
    '(fromID, toID) ← forex_accounts isClient userID fromAccountID debitCurrency creditCurrency;
    if fromID =? toID then throw ErrForexSameAccount
    else
      (* SELECT ... WHERE id IN (from, to) ORDER BY id FOR UPDATE *)
      lockedFrom ← sql_read (fun d => d_racun d !! fromID);
      match lockedFrom with
      | None => throw ErrForexAccountNotFound
      | Some row =>
          let stanje := parse_or_zero (r_stanje_racuna row) in
          let rezervisano := parse_or_zero (r_rezervisana_sredstva row) in
          if decimal.LessThan (decimal.Sub stanje rezervisano) debitAmount
          then throw ErrInsufficientFunds
          else
            exec_racun fromID (sub_both (decimal.sql_arg debitAmount)) ;;
            exec_racun toID (add_stanje (decimal.sql_arg creditAmount)) ;;
            sql (insert_transakcija
                   [(fromID, ISPLATA, decimal.sql_arg debitAmount);
                    (toID, UPLATA, decimal.sql_arg creditAmount)])
      end.
End funds_manager.
