(* ===== verification/Scenario.v ===== *)
(** * A small concrete bank for the examples

    One client (7) with a dollar account (10) and a euro account (11), the
    treasury's dollar (20) and euro (21) accounts, an agent (5) and a supervisor
    (6), a stock (1), a currency pair (2) and an expired future (3), an exchange
    that is open, a rate provider that is down (the local table answers) and a
    database that never fails. *)

From S2P Require Import Prelude Numeric DecimalModel Domain Store StoreFacts OrderRepo.
From S2P Require Import InterbankTables Tables Market.
From stdpp Require Import pretty.
#[local] Open Scope string_scope.
#[local] Open Scope Z_scope.

Module scenario.

(** No limits, nothing spent. *)
Definition no_info : racunInfo :=
mkRacunInfo 1 None "TEKUCI" None "racun" 0 0 None None 0 0.

Definition racuni : gmap Z racun :=
list_to_map
  [(10, mkRacun "100" 7 "USD" LICNI AKTIVAN 100000 0 no_info);
   (11, mkRacun "110" 7 "EUR" LICNI AKTIVAN 50000 1000 no_info);
   (20, mkRacun "666000122200000008" 2 "USD" POSLOVNI AKTIVAN 10000000 0 no_info);
   (21, mkRacun "666000122200000009" 2 "EUR" POSLOVNI AKTIVAN 10000000 0 no_info)].

Definition aktuari : gmap Z actuaryInfo :=
list_to_map
  [(1, mkActuaryInfo 5 ActuaryTypeAgent 10000000 0 false);
   (2, mkActuaryInfo 6 ActuaryTypeSupervisor 0 0 false)].

Definition db0 : DB := mkDB racuni [] ∅ [] [] [] aktuari [] ∅ ∅ ∅ ∅ ∅ bank_empty otc_empty.

(** Ask 20, bid 19. *)
Definition stock : Listing :=
mkListing 1 1 ListingTypeStock (f64_of_Z 20) (f64_of_Z 20) (f64_of_Z 19) 1000 EmptyString.
Definition pair_ : Listing :=
mkListing 2 1 ListingTypeForex (f64_of_Z 1) (f64_of_Z 1) (f64_of_Z 1) 1000 "EUR/USD".
Definition future : Listing :=
mkListing 3 1 ListingTypeFuture (f64_of_Z 20) (f64_of_Z 20) (f64_of_Z 19) 1000 "past".

Definition json : Json :=
mkJson (fun _ => Some ("EUR", "USD")%string) (fun s => Some s) (fun _ => None) (fun _ => None)
  (fun _ => Some 0) (fun _ => None).

Definition quiet : Env :=
{| env_fault _ := false;
   env_listing _ id := if id =? 1 then Ok stock else if id =? 2 then Ok pair_
                       else if id =? 3 then Ok future else Err ErrListingNotFound;
   env_daily_change _ _ := f64_zero;
   env_mid_rates _ := None;
   env_market_status _ _ := Some MarketStatusOpen;
   env_rand _ := 3;
   env_rand_float _ := f64_zero;
   env_now _ := 100;
   env_ctx_done _ := false;
   env_row_choice _ := O;
   env_price_tick _ := None;
   env_interference _ d := d;
   env_json := json;
   env_ticker t := if String.eqb t "AAPL" then Some 1 else None;
   env_uuid n := pretty n;
   env_peer _ _ := Err (ErrMsg "connection refused");
   env_listing_row _ _ := mkListingRow "AAPL" "Apple" "NASDAQ" (f64_of_Z 20) "USD" |}.

Definition at_db (d : DB) : World := mkWorld d 0 0 false 100 ib_empty [] ∅.
Definition w0 : World := at_db db0.

(** Half a percent. *)
Definition rate : float64 := f64_lit 5 3.

Lemma quiet_no_faults : no_faults quiet.
Proof. done. Defined.

End scenario.
