(* ===== verification/FundsRounding.v ===== *)
(** * What the funds manager does to the cents

    Exact descriptions of a reservation, its release and the three-legged BUY
    settlement, with the rounding of DECIMAL(15, 2) made explicit. *)

From S2P Require Import Prelude Numeric DecimalModel Domain Store StoreFacts OrderRepo.
From S2P Require Import OrderRepoFacts Market Interfaces FundsManager FundsFacts Scenario.
From S2P Require Import FundsSafety.
From Stdlib Require Import Lqa SpecFloat.
#[local] Open Scope Z_scope.

(** ** Rounding a difference *)

(** The stored value of a non-negative number is above it, or less than half a
    cent below. *)
Lemma to_cents_strict q : (0 <= q)%Q -> (q < cents (to_cents q) + (1 # 200))%Q.
Proof.
  intros Hq. unfold to_cents. rewrite round_nonneg_eq
    by (change (inject_Z 100) with (100 # 1)%Q; lra).
  destruct (Qfloor_bounds (q * inject_Z 100 + (1 # 2))) as [_ H].
  set (n := Qround.Qfloor _) in *. rewrite <- (cents_inject n) in H.
  change (inject_Z 100) with (100 # 1)%Q in *. lra.
Qed.

Lemma cents_lt_succ a b : (cents a < cents b + (1 # 100))%Q -> a <= b.
Proof.
  intros H. assert (E : (cents b + (1 # 100) == cents (b + 1))%Q)
    by (rewrite cents_plus; reflexivity).
  rewrite E in H. apply (proj1 (cents_lt _ _)) in H. lia.
Qed.

(** Rounding both parts of a sum of cents can make one cent, never lose one. *)
Lemma to_cents_split q c :
  (0 <= q)%Q -> (q <= cents c)%Q -> c <= to_cents (cents c - q) + to_cents q <= c + 1.
Proof.
  intros H0 H1. pose proof (to_cents_strict q H0) as Hq.
  pose proof (to_cents_strict (cents c - q) ltac:(lra)) as Hd.
  destruct (to_cents_error q) as [Hq' _]. destruct (to_cents_error (cents c - q)) as [Hd' _].
  set (y := to_cents (cents c - q)) in *. set (z := to_cents q) in *. split.
  - apply cents_lt_succ. rewrite cents_plus. lra.
  - enough (cents (y + z) <= cents (c + 1))%Q by (by apply cents_le).
    rewrite !cents_plus. change (cents 1) with (1 # 100)%Q. lra.
Qed.

Lemma to_cents_split_exact k c : to_cents (cents c - cents k) = c - k.
Proof. rewrite <- cents_minus. apply to_cents_cents. Qed.

Lemma to_cents_add q c : 0 <= c -> (0 <= q)%Q -> to_cents (cents c + q) = c + to_cents q.
Proof. intros Hc Hq. apply to_cents_shift; [done|]. apply cents_ge0 in Hc. lra. Qed.

(** Releasing what was reserved gives back the old reservation, or one cent more. *)
Lemma release_of_reserve q c :
  0 <= c -> (0 <= q)%Q ->
  c <= to_cents (greatest0 (cents (to_cents (cents c + q)) - q)) <= c + 1.
Proof.
  intros Hc Hq. rewrite to_cents_add by done.
  pose proof (to_cents_strict q Hq) as Hs. unfold greatest0.
  destruct (Qle_bool 0 _) eqn:E.
  - apply qle_true in E. pose proof (to_cents_split q (c + to_cents q) Hq ltac:(lra)). lia.
  - assert (H : ~ (0 <= cents (c + to_cents q) - q)%Q)
      by (intros H; apply Qle_bool_iff in H; congruence).
    rewrite cents_plus in H.
    assert (c <= 0) by (apply cents_lt_succ; rewrite cents_0; lra).
    assert (c = 0) as -> by lia. rewrite <- cents_0, to_cents_cents. lia.
Qed.

Lemma release_of_reserve_exact q k c :
  0 <= c -> (0 <= q)%Q -> (q == cents k)%Q ->
  to_cents (greatest0 (cents (to_cents (cents c + q)) - q)) = c.
Proof.
  intros Hc Hq Hk. rewrite to_cents_add by done.
  assert (E : to_cents q = k) by (rewrite Hk; apply to_cents_cents).
  assert (Ek : (cents (c + to_cents q) - q == cents c)%Q) by (rewrite E, Hk, cents_plus; ring).
  rewrite Ek. unfold greatest0. apply cents_ge0, Qle_bool_iff in Hc. rewrite Hc.
  apply to_cents_cents.
Qed.

(** ** A reservation *)

Section reserve.
Context `{DL : decimal.Lib}.
Context (spreadRate provizijaRate : float64).

(** The argument a method sends for [x] dollars from world [w]. *)
Definition debit_arg (c : bool) (a : Z) (x : decimal.t) (e : Env) (w : World) : Q :=
  match (cur ← accountCurrency a;
         convertUSDToAccountCurrency spreadRate provizijaRate c x cur true) e w with
  | (Ok d, _) => decimal.sql_arg d
  | (Err _, _) => 0%Q
  end.

(** The account currency and the conversion never fail. *)
Lemma debit_prefix {A} (c : bool) (a : Z) (x : decimal.t) (k : string -> decimal.t -> M A) e w r w' :
  (cur ← accountCurrency a;
   d ← convertUSDToAccountCurrency spreadRate provizijaRate c x cur true; k cur d) e w = (r, w') ->
  exists cur d w1, w_db w1 = w_db w /\ w_depth w1 = w_depth w /\
    debit_arg c a x e w = decimal.sql_arg d /\ k cur d e w1 = (r, w').
Proof.
  intros H. unfold debit_arg, mbind, M_bind in *.
  destruct (accountCurrency a e w) as [[cur|er] w1] eqn:E1.
  2: { unfold accountCurrency, mbind, M_bind, try in E1.
       destruct (sql_read _ e w) as [? ?]. discriminate. }
  pose proof (accountCurrency_reads a _ _ _ _ E1) as Hw1.
  assert (Hd1 : w_depth w1 = w_depth w).
  { unfold accountCurrency, mbind, M_bind, try, sql_read, sql in E1.
    destruct (w_aborted w); [by injection E1 as _ <-|].
    destruct (env_fault e (w_step w)); by injection E1 as _ <-. }
  destruct (convertUSDToAccountCurrency _ _ c x cur true e w1) as [[d|er] w2] eqn:E2.
  - pose proof (convert_reads spreadRate provizijaRate c x cur true _ _ _ _ E2) as Hw2.
    exists cur, d, w2. split_and!; [congruence| |done|done].
    unfold convertUSDToAccountCurrency in E2.
    destruct (String.eqb cur "USD"); injection E2 as _ <-; done.
  - unfold convertUSDToAccountCurrency in E2.
    destruct (String.eqb cur "USD"); discriminate.
Qed.

Lemma ReserveFunds_ok (c : bool) (a : Z) (x : decimal.t) e w w' :
  ReserveFunds spreadRate provizijaRate c a x e w = (Ok tt, w') ->
  exists row, let q := debit_arg c a x e w in
    d_racun (w_db w) !! a = Some row /\
    (q <= cents (free_cents row))%Q /\
    w_db w' = set_racun
      (<[a := with_rezervisano (to_cents (cents (r_rezervisana_sredstva row) + q)) row]>
         (d_racun (w_db w))) (w_db w) /\
    to_cents (cents (r_rezervisana_sredstva row) + q) <= r_stanje_racuna row.
Proof.
  intros Hrun. apply debit_prefix in Hrun as (cur & d & w1 & Hw1 & _ & Hq & H).
  cbv zeta in *. rewrite Hq.
  apply bind_ok in H as (rows & w2 & H & H2). apply sql_ok in H as (d' & H & -> & _).
  rewrite Hw1 in H.
  apply update_racun_inv in H as [(-> & _)|(-> & row & row' & Hr & Hg & Hf & ->)]; [discriminate|].
  injection H2 as <-. exists row. cbn.
  pose proof (add_rezervisano_le _ row row' Hg Hf) as [Hle _].
  apply add_rezervisano_eq in Hf as ->.
  split_and!; [done|by apply qle_true in Hg|done|done].
Qed.

(** A reservation is all or nothing and never exceeds the free balance.  On
    every run, under any failures, [ReserveFunds] either returns an error and
    changes nothing, or it finds the account with free balance at least the
    converted amount q, adds q (rounded to cents) to its reservations and
    changes nothing else; the reservations then are at most the balance. *)
Theorem reserve_never_over_reserves (c : bool) (a : Z) (x : decimal.t) (e : Env) (w : World)
    (r : result unit) (w' : World)
    (Hrun : ReserveFunds spreadRate provizijaRate c a x e w = (r, w')) :
  match r with
  | Err _ => w_db w' = w_db w
  | Ok _ =>
      exists row, let q := debit_arg c a x e w in
        d_racun (w_db w) !! a = Some row /\
        (q <= cents (free_cents row))%Q /\
        w_db w' = set_racun
          (<[a := with_rezervisano (to_cents (cents (r_rezervisana_sredstva row) + q)) row]>
             (d_racun (w_db w))) (w_db w) /\
        to_cents (cents (r_rezervisana_sredstva row) + q) <= r_stanje_racuna row
  end.
Proof.
  destruct r as [[]|er].
  - by apply ReserveFunds_ok.
  - eapply (fm_ReserveFunds_refuses (F := fundsManager spreadRate provizijaRate)). exact Hrun.
Qed.
End reserve.

(** ** Runs without failures *)

(** The ISO code the conversions use for an account. *)
Definition currency_of (a : Z) (d : DB) : string :=
  match d_racun d !! a with
  | Some r => if String.eqb (r_oznaka r) EmptyString then "USD"%string else r_oznaka r
  | None => "USD"%string
  end.

Definition stable_rates (e : Env) : Prop := forall n m, env_mid_rates e n = env_mid_rates e m.

Section runs.
Context `{LL : decimal.Laws}.
Context (spreadRate provizijaRate : float64) (e : Env) (He : no_faults e).

(** The amount in account currency for [x] dollars at the rates of step [n]. *)
Definition converted (c b : bool) (a : Z) (x : decimal.t) (d : DB) (n : nat) : decimal.t :=
  if String.eqb (currency_of a d) "USD" then x
  else convert_at provizijaRate c b (rates_at spreadRate e n) x (currency_of a d).

Lemma converted_nonneg c b a x d n :
  sane_rates spreadRate provizijaRate e -> (0 <= decimal.val x)%Q ->
  (0 <= decimal.val (converted c b a x d n))%Q.
Proof.
  intros Hs Hx. unfold converted. destruct (String.eqb _ _); [done|].
  apply (convert_at_nonneg spreadRate _ e); [done|apply (sane_finite _ _ _ Hs)|done].
Qed.

Lemma convert_prefix_run {A} c a x b (k : string -> decimal.t -> M A) w :
  w_aborted w = false ->
  exists n w1, w_db w1 = w_db w /\ w_aborted w1 = false /\ w_depth w1 = w_depth w /\
    (cur ← accountCurrency a;
     d ← convertUSDToAccountCurrency spreadRate provizijaRate c x cur b; k cur d) e w
    = k (currency_of a (w_db w)) (converted c b a x (w_db w) n) e w1.
Proof using He.
  intros Hw. exists (S (w_step w)).
  assert (E : accountCurrency a e w = (Ok (currency_of a (w_db w)), next_step (set_db (w_db w) w))).
  { unfold accountCurrency, mbind, M_bind, try, sql_read. rewrite sql_run by done.
    unfold currency_of. destruct (d_racun (w_db w) !! a); done. }
  erewrite bind_run by exact E. unfold converted.
  destruct (String.eqb (currency_of a (w_db w)) "USD") eqn:Ec.
  - exists (next_step (set_db (w_db w) w)). split_and!; [done..|].
    apply bind_run. unfold convertUSDToAccountCurrency. by rewrite Ec.
  - exists (next_step (next_step (set_db (w_db w) w))). split_and!; [done..|].
    apply bind_run. unfold convertUSDToAccountCurrency. by rewrite Ec.
Qed.

Lemma stable_converted c b a x d n m : stable_rates e -> converted c b a x d n = converted c b a x d m.
Proof. intros H. unfold converted, rates_at. by rewrite (H n m). Qed.

(** A guarded reservation that went through. *)
Lemma reserve_ok_row q a w w' :
  (rows ← sql (update_racun a (free_at_least q) (add_rezervisano q));
   if rows =? 0 then throw ErrInsufficientFunds else mret tt) e w = (Ok tt, w') ->
  exists row row', d_racun (w_db w) !! a = Some row /\ add_rezervisano q row = Some row' /\
    w_db w' = set_racun (<[a := row']> (d_racun (w_db w))) (w_db w) /\
    w_aborted w' = w_aborted w.
Proof.
  intros H. apply bind_ok in H as (rows & w1 & H & H2). apply sql_ok in H as (d & H & -> & _).
  apply update_racun_inv in H as [(-> & _)|(-> & row & row' & Hr & _ & Hf & ->)]; [discriminate|].
  injection H2 as <-. exists row, row'. auto.
Qed.

(** A stored reservation can be lowered: the column does not overflow. *)
Lemma sub_rezervisano_fits q r :
  (0 <= q)%Q -> 0 <= r_rezervisana_sredstva r < 10 ^ 15 ->
  sub_rezervisano q r =
    Some (with_rezervisano (to_cents (greatest0 (cents (r_rezervisana_sredstva r) - q))) r).
Proof.
  intros Hq [H0 H1]. unfold sub_rezervisano.
  assert (0 <= to_cents (greatest0 (cents (r_rezervisana_sredstva r) - q)) <= r_rezervisana_sredstva r).
  { split; [apply to_cents_nonneg, greatest0_bounds|].
    apply to_cents_le, greatest0_le; [by apply cents_ge0|lra]. }
  by rewrite store_cents_fits by lia.
Qed.

Lemma add_rezervisano_fits q r r' :
  add_rezervisano q r = Some r' -> r_rezervisana_sredstva r' < 10 ^ 15.
Proof.
  unfold add_rezervisano, store_cents, numeric_store. case_decide; [|discriminate].
  intros [= <-]. cbn. lia.
Qed.

(** Reserve and release cancel.  With no database failure and unchanged
    rates, after a successful reservation of x dollars the release of the same
    x succeeds and the account is as before, except that the reservation may be
    one cent higher; it is exactly restored when the converted amount is a
    whole number of cents. *)
Theorem reserve_release_roundtrip (c : bool) (a : Z) (x : decimal.t) (w w1 : World) (row : racun)
    (Hrates : stable_rates e) (Hs : sane_rates spreadRate provizijaRate e)
    (Hx : (0 <= decimal.val x)%Q) (Hw : w_aborted w = false)
    (Hrow : d_racun (w_db w) !! a = Some row) (Hrez : 0 <= r_rezervisana_sredstva row)
    (Hres : ReserveFunds spreadRate provizijaRate c a x e w = (Ok tt, w1)) :
  exists w2 n,
    ReleaseFunds spreadRate provizijaRate c a x e w1 = (Ok tt, w2) /\
    w_db w2 = set_racun (<[a := with_rezervisano n row]> (d_racun (w_db w))) (w_db w) /\
    r_rezervisana_sredstva row <= n <= r_rezervisana_sredstva row + 1 /\
    (forall k, (decimal.sql_arg (converted c true a x (w_db w) 0) == cents k)%Q ->
       n = r_rezervisana_sredstva row).
Proof using He LL.
  unfold ReserveFunds in Hres.
  destruct (convert_prefix_run c a x true (fun cur debit =>
      let q := decimal.sql_arg debit in
      rows ← sql (update_racun a (free_at_least q) (add_rezervisano q));
      if rows =? 0 then throw ErrInsufficientFunds else mret tt) w Hw)
    as (n1 & wa & Ha & Hab & _ & E).
  cbv zeta in E. rewrite E in Hres. clear E.
  rewrite (stable_converted c true a x (w_db w) n1 0 Hrates) in Hres.
  pose proof (decimal.sql_arg_nonneg _ (converted_nonneg c true a x (w_db w) 0 Hs Hx)) as Hq.
  set (q := decimal.sql_arg (converted c true a x (w_db w) 0)) in *.
  apply reserve_ok_row in Hres as (row0 & row1 & Hr0 & Hadd & Hdb & Hab1).
  rewrite Ha in *. rewrite Hrow in Hr0. injection Hr0 as <-.
  pose proof (add_rezervisano_fits _ _ _ Hadd) as Hfit. apply add_rezervisano_eq in Hadd as ->.
  destruct (convert_prefix_run c a x true (fun cur debit =>
      let q := decimal.sql_arg debit in
      sql (update_racun a always (sub_rezervisano q)) ;; mret tt) w1 ltac:(congruence))
    as (n2 & wb & Hb & Hbb & _ & E).
  cbv zeta in E. unfold ReleaseFunds. rewrite E. clear E.
  assert (Hcv : decimal.sql_arg (converted c true a x (w_db w1) n2) = q).
  { unfold q. f_equal. rewrite (stable_converted _ _ _ _ _ _ 0 Hrates). unfold converted, currency_of.
    rewrite Hdb. cbn. rewrite lookup_insert_eq, Hrow. done. }
  rewrite Hcv. pose proof (release_of_reserve q _ Hrez Hq) as Hn.
  eexists _, _. split; [|split; [|split]].
  - unfold mbind, M_bind. rewrite sql_run by done. unfold update_racun.
    rewrite Hb, Hdb. cbn [d_racun set_racun always]. rewrite lookup_insert_eq.
    rewrite sub_rezervisano_fits; [reflexivity|done|].
    split; [|done]. cbn. apply to_cents_nonneg. apply cents_ge0 in Hrez. lra.
  - cbn. unfold set_racun. cbn. by rewrite insert_insert_eq.
  - exact Hn.
  - intros k Hk. cbn. by apply (release_of_reserve_exact _ k).
Qed.
End runs.

Import decimal_model scenario.

(** Reserving 20.50 dollars on the euro account. *)
Lemma reserve_never_over_reserves_witness :
  exists w', ReserveFunds rate rate true 11 (dec 2050 2) quiet w0 = (Ok tt, w') /\
    exists row, d_racun (w_db w0) !! 11 = Some row /\
      (debit_arg rate rate true 11 (dec 2050 2) quiet w0 <= cents (free_cents row))%Q.
Proof.
  refine (ex_intro _ _ (conj _ _)); [vm_compute; reflexivity|].
  destruct (reserve_never_over_reserves rate rate true 11 (dec 2050 2) quiet w0 (Ok tt)
              (ReserveFunds rate rate true 11 (dec 2050 2) quiet w0).2) as (row & H1 & H2 & _);
    [vm_compute; reflexivity|].
  exists row. split; [exact H1|exact H2].
Defined.

Lemma reserve_release_roundtrip_witness :
  exists w2 n,
    ReleaseFunds rate rate true 11 (dec 2050 2) quiet
      (ReserveFunds rate rate true 11 (dec 2050 2) quiet w0).2 = (Ok tt, w2) /\
    d_racun (w_db w2) !! 11 = Some (with_rezervisano n (mkRacun "110" 7 "EUR" LICNI AKTIVAN 50000 1000 no_info)) /\
    1000 <= n <= 1001.
Proof.
  destruct (reserve_release_roundtrip rate rate quiet quiet_no_faults true 11 (dec 2050 2) w0
              (ReserveFunds rate rate true 11 (dec 2050 2) quiet w0).2
              (mkRacun "110" 7 "EUR" LICNI AKTIVAN 50000 1000 no_info)) as (w2 & n & H1 & H2 & H3 & _).
  - intros i j. reflexivity.
  - exact quiet_rates.
  - discriminate.
  - reflexivity.
  - vm_compute. reflexivity.
  - discriminate.
  - vm_compute. reflexivity.
  - exists w2, n. split; [exact H1|]. split; [|exact H3].
    rewrite H2. cbn [set_racun d_racun]. by rewrite lookup_insert_eq.
Defined.
