(* ===== verification/PublicShares.v ===== *)
(** * Published shares follow the holdings ([ClampPublicSharesToHoldings])

    [drop_oldest] is the contract: take the excess away from the oldest rows
    first, removing a row that is used up and shrinking the last one.  The loop
    of SQL statements implements it and leaves every other row alone. *)

From S2P Require Import Prelude Numeric DecimalModel Domain Store StoreFacts OrderRepo.
From S2P Require Import OrderRepoFacts Market FundsManager FundsFacts Scenario.
From stdpp Require Import list.
#[local] Open Scope Z_scope.

Definition with_qty (n : Z) (s : publicShare) : publicShare :=
  mkPublicShare (ps_ID s) (ps_ListingID s) (ps_UserID s) n.

Fixpoint drop_oldest (n : Z) (rows : list publicShare) : list publicShare :=
  match rows with
  | [] => []
  | row :: rows' =>
      if n <=? 0 then rows
      else if ps_Quantity row <=? n then drop_oldest (n - ps_Quantity row) rows'
      else with_qty (ps_Quantity row - n) row :: rows'
  end.

Definition positive (rows : list publicShare) : Prop := Forall (fun s => 0 < ps_Quantity s) rows.

Lemma drop_oldest_none n rows : n <= 0 -> drop_oldest n rows = rows.
Proof. destruct rows; [done|]. cbn. intros H. by destruct (Z.leb_spec n 0); [|lia]. Qed.

Lemma drop_oldest_total n rows :
  positive rows -> 0 <= n <= zsum ps_Quantity rows ->
  zsum ps_Quantity (drop_oldest n rows) = zsum ps_Quantity rows - n.
Proof.
  intros Hp. revert n. induction Hp as [|row rows Hr Hp IH]; intros n Hn; cbn [drop_oldest].
  - rewrite zsum_nil in *. lia.
  - rewrite zsum_cons in *. destruct (Z.leb_spec n 0); [rewrite zsum_cons; lia|].
    destruct (Z.leb_spec (ps_Quantity row) n); [rewrite IH; lia|]. rewrite zsum_cons. cbn. lia.
Qed.

Lemma drop_oldest_positive n rows : positive rows -> positive (drop_oldest n rows).
Proof.
  intros Hp. revert n. induction Hp as [|row rows Hr Hp IH]; intros n; cbn [drop_oldest]; [constructor|].
  destruct (Z.leb_spec n 0); [by constructor|].
  destruct (Z.leb_spec (ps_Quantity row) n); [apply IH|]. constructor; [cbn; lia|done].
Qed.

(** ** The effect of one statement on the rows in scope and on the others *)

Section scope.
Context (P : publicShare -> bool) (P_with_qty : forall n s, P (with_qty n s) = P s).
#[local] Abbreviation inside := (filter (fun s => P s = true)).
#[local] Abbreviation outside := (filter (fun s => P s = false)).

Lemma filter_swap {A} (Q R : A -> Prop) `{!forall x, Decision (Q x), !forall x, Decision (R x)} (l : list A) :
  filter Q (filter R l) = filter R (filter Q l).
Proof.
  induction l as [|x l IH]; [done|]. rewrite !filter_cons.
  destruct (decide (R x)), (decide (Q x));
    rewrite ?filter_cons; repeat (case_decide; try done); by rewrite IH.
Qed.

Lemma filter_all {A} (Q : A -> Prop) `{!forall x, Decision (Q x)} (l : list A) :
  (forall x, x ∈ l -> Q x) -> filter Q l = l.
Proof.
  induction l as [|x l IH]; intros Hl; [done|]. rewrite filter_cons_True by (apply Hl; set_solver).
  f_equal. apply IH. set_solver.
Qed.

Lemma same_id (l : list publicShare) s s' :
  NoDup (ps_ID <$> l) -> s ∈ l -> s' ∈ l -> ps_ID s = ps_ID s' -> s = s'.
Proof.
  induction l as [|x l IH]; [set_solver|]. csimpl.
  intros [Hx Hl]%NoDup_cons. rewrite !elem_of_cons. intros [->|Hs] [->|Hs'] Heq; auto.
  - destruct Hx. rewrite Heq. by apply list_elem_of_fmap_2.
  - destruct Hx. rewrite <- Heq. by apply list_elem_of_fmap_2.
Qed.

Lemma NoDup_ids_filter (Q : publicShare -> Prop) `{!forall x, Decision (Q x)} (l : list publicShare) :
  NoDup (ps_ID <$> l) -> NoDup (ps_ID <$> filter Q l).
Proof.
  induction l as [|x l IH]; [done|]. csimpl. intros [Hx Hl]%NoDup_cons. rewrite filter_cons.
  case_decide; [csimpl; apply NoDup_cons; split; [|auto]|auto].
  intros (y & Hy & Hin)%list_elem_of_fmap. apply Hx. rewrite Hy.
  apply list_elem_of_filter in Hin as [_ Hin]. by apply list_elem_of_fmap_2.
Qed.

Section first_row.
Context (l : list publicShare) (row : publicShare) (rows : list publicShare).
Context (Hid : NoDup (ps_ID <$> l)) (Hl : inside l = row :: rows).

Lemma first_row_in : P row = true /\ row ∈ l.
Proof.
  assert (H : row ∈ inside l) by (rewrite Hl; set_solver).
  by apply list_elem_of_filter in H.
Qed.

Lemma other_rows_id s : s ∈ rows -> ps_ID s <> ps_ID row.
Proof.
  intros Hs Heq.
  assert (Hnd : NoDup (row :: rows)).
  { rewrite <- Hl. apply NoDup_filter. by eapply NoDup_fmap_1. }
  apply NoDup_cons in Hnd as [Hn _]. apply Hn.
  assert (Hin : s ∈ inside l) by (rewrite Hl; set_solver).
  apply list_elem_of_filter in Hin as [_ Hin].
  by rewrite <- (same_id l s row Hid Hin (proj2 first_row_in) Heq).
Qed.

Lemma outside_id s : s ∈ outside l -> ps_ID s <> ps_ID row.
Proof.
  intros [Hf Hs]%list_elem_of_filter Heq. destruct first_row_in as [Ht Hin].
  rewrite (same_id l s row Hid Hs Hin Heq) in Hf. congruence.
Qed.

Lemma delete_inside : inside (filter (fun s => ps_ID s <> ps_ID row) l) = rows.
Proof.
  rewrite filter_swap, Hl, filter_cons_False by (intros H; by apply H).
  apply filter_all. intros s. apply other_rows_id.
Qed.

Lemma delete_outside : outside (filter (fun s => ps_ID s <> ps_ID row) l) = outside l.
Proof. rewrite filter_swap. apply filter_all. intros s. apply outside_id. Qed.

Definition set_qty (n : Z) (s : publicShare) : publicShare :=
  if ps_ID s =? ps_ID row then mkPublicShare (ps_ID s) (ps_ListingID s) (ps_UserID s) n else s.

Lemma set_qty_P n s : P (set_qty n s) = P s.
Proof. unfold set_qty. destruct (_ =? _); [apply P_with_qty|done]. Qed.

Lemma set_qty_id n s : ps_ID (set_qty n s) = ps_ID s.
Proof. unfold set_qty. by destruct (_ =? _). Qed.

Lemma filter_set_qty b n (k : list publicShare) :
  filter (fun s => P s = b) (set_qty n <$> k) = set_qty n <$> filter (fun s => P s = b) k.
Proof.
  induction k as [|s k IH]; [done|]. csimpl. rewrite !filter_cons, set_qty_P.
  case_decide; [csimpl; by rewrite IH|done].
Qed.

Lemma set_qty_others n (k : list publicShare) : (forall s, s ∈ k -> ps_ID s <> ps_ID row) -> set_qty n <$> k = k.
Proof.
  induction k as [|s k IH]; intros H; [done|]. csimpl. rewrite IH by set_solver. f_equal.
  unfold set_qty. destruct (Z.eqb_spec (ps_ID s) (ps_ID row)) as [E|]; [|done].
  by apply H in E; [|set_solver].
Qed.

Lemma update_inside n : inside (set_qty n <$> l) = with_qty n row :: rows.
Proof.
  rewrite filter_set_qty, Hl. csimpl. rewrite set_qty_others by apply other_rows_id.
  f_equal. unfold set_qty. by rewrite Z.eqb_refl.
Qed.

Lemma update_outside n : outside (set_qty n <$> l) = outside l.
Proof. rewrite filter_set_qty. apply set_qty_others, outside_id. Qed.
End first_row.

(** ** The loop *)

Lemma clamp_loop_run e rows : no_faults e -> forall n w,
  w_aborted w = false -> positive rows ->
  NoDup (ps_ID <$> d_public_shares (w_db w)) -> inside (d_public_shares (w_db w)) = rows ->
  exists w' l, clamp_loop rows n e w = (Ok tt, w') /\
    w_db w' = set_public_shares l (w_db w) /\ w_aborted w' = false /\
    inside l = drop_oldest n rows /\ outside l = outside (d_public_shares (w_db w)).
Proof.
  intros He. induction rows as [|row rows IH]; intros n w Ha Hp Hid Hl; cbn [clamp_loop drop_oldest].
  { exists w, (d_public_shares (w_db w)). split_and!; try done. by destruct (w_db w). }
  destruct (Z.leb_spec n 0).
  { exists w, (d_public_shares (w_db w)). split_and!; try done. by destruct (w_db w). }
  apply Forall_cons in Hp as [Hr Hp].
  destruct (Z.leb_spec (ps_Quantity row) n) as [Hle|Hgt].
  - destruct (Z.ltb_spec n (ps_Quantity row)); [lia|].
    rewrite (proj2 (Z.leb_le (ps_Quantity row - ps_Quantity row) 0)) by lia.
    erewrite bind_run by (rewrite sql_run by done; reflexivity).
    edestruct (IH (n - ps_Quantity row)) as (w' & l & Hrun & Hdb & Hab & Hin & Hout); cycle 4.
    { exists w', l. rewrite Hrun. split_and!; [done| |done|done|].
      - rewrite Hdb. done.
      - rewrite Hout. cbn. by eapply delete_outside. }
    + done.
    + done.
    + cbn. by apply NoDup_ids_filter.
    + cbn. by apply delete_inside.
  - destruct (Z.ltb_spec n (ps_Quantity row)); [|lia].
    rewrite (proj2 (Z.leb_gt (ps_Quantity row - n) 0)) by lia.
    erewrite bind_run.
    2: { rewrite sql_run by done. unfold update_share.
         rewrite (proj2 (Z.ltb_lt 0 (ps_Quantity row - n))) by lia. reflexivity. }
    rewrite Z.sub_diag. eexists _, _. split_and!.
    + destruct rows; reflexivity.
    + reflexivity.
    + done.
    + by apply update_inside.
    + by eapply update_outside.
Qed.
End scope.

(** ** The method *)

(** The rows the clamp must leave alone. *)
Definition other_rows (isClient : bool) (userID listingID : Z) (d : DB) : list publicShare :=
  filter (fun s => clamp_scope isClient userID d (ps_UserID s) && (ps_ListingID s =? listingID) = false)
    (d_public_shares d).

Lemma public_shares_scope c u l ss d :
  clamp_rows c u l (set_public_shares ss d)
  = filter (fun s => clamp_scope c u d (ps_UserID s) && (ps_ListingID s =? l) = true) ss.
Proof. destruct c; reflexivity. Qed.

Lemma public_shares_others c u l ss d :
  other_rows c u l (set_public_shares ss d)
  = filter (fun s => clamp_scope c u d (ps_UserID s) && (ps_ListingID s =? l) = false) ss.
Proof. destruct c; reflexivity. Qed.

Lemma set_public_shares_id d : set_public_shares (d_public_shares d) d = d.
Proof. by destruct d. Qed.

(** Published shares are capped by the settled holdings.  When the database
    does not fail, [ClampPublicSharesToHoldings] succeeds; afterwards the seller's
    published total for the listing is the smaller of the old total and the
    settled net position (never below zero), the excess having been taken from
    the oldest rows first; every remaining row is positive, the rows of other
    sellers and listings are untouched, and no other table changes. *)
Theorem clamp_public_shares (isClient : bool) (userID listingID : Z) (e : Env) (w : World)
    (He : no_faults e) (Ha : w_aborted w = false)
    (Hid : NoDup (ps_ID <$> d_public_shares (w_db w)))
    (Hpos : positive (d_public_shares (w_db w))) :
  let rows := clamp_rows isClient userID listingID (w_db w) in
  let owned := Z.max 0 (settled_net isClient userID listingID (w_db w)) in
  exists w' ss,
    ClampPublicSharesToHoldings isClient userID listingID e w = (Ok tt, w') /\
    w_db w' = set_public_shares ss (w_db w) /\
    clamp_rows isClient userID listingID (w_db w')
      = drop_oldest (zsum ps_Quantity rows - owned) rows /\
    zsum ps_Quantity (clamp_rows isClient userID listingID (w_db w'))
      = Z.min (zsum ps_Quantity rows) owned /\
    positive (clamp_rows isClient userID listingID (w_db w')) /\
    other_rows isClient userID listingID (w_db w') = other_rows isClient userID listingID (w_db w).
Proof.
  intros rows owned.
  assert (Hrows : positive rows).
  { unfold positive, rows, clamp_rows in *. rewrite Forall_forall in *.
    intros s [_ Hs]%list_elem_of_filter. by apply Hpos. }
  assert (Htot : 0 <= zsum ps_Quantity rows).
  { apply zsum_nonneg. unfold positive in Hrows. rewrite Forall_forall in Hrows.
    intros s Hs. specialize (Hrows s Hs). cbn in Hrows. lia. }
  pose proof (drop_oldest_positive (zsum ps_Quantity rows - owned) rows Hrows) as Hdp.
  assert (Howned : (if settled_net isClient userID listingID (w_db w) <? 0 then 0
                    else settled_net isClient userID listingID (w_db w)) = owned).
  { unfold owned. destruct (Z.ltb_spec (settled_net isClient userID listingID (w_db w)) 0); lia. }
  assert (Hsum : zsum ps_Quantity (drop_oldest (zsum ps_Quantity rows - owned) rows)
                 = Z.min (zsum ps_Quantity rows) owned).
  { destruct (Z.le_gt_cases (zsum ps_Quantity rows) owned).
    - rewrite drop_oldest_none by lia. lia.
    - rewrite drop_oldest_total; [lia|done|lia]. }
  unfold ClampPublicSharesToHoldings.
  erewrite bind_run by (apply try_eq; unfold sql_read; rewrite sql_run by done; reflexivity).
  erewrite bind_run by (unfold sql_read; rewrite sql_run by done; reflexivity).
  cbn [w_db set_db next_step]. fold rows. rewrite Howned. clear Howned.
  destruct (Z.leb_spec (zsum ps_Quantity rows - owned) 0) as [Hle|Hgt].
  - rewrite drop_oldest_none in * by lia. eexists _, (d_public_shares (w_db w)).
    cbn [w_db set_db next_step]. rewrite set_public_shares_id. split_and!; done.
  - set (w2 := next_step _).
    destruct (clamp_loop_run (fun s => clamp_scope isClient userID (w_db w) (ps_UserID s) &&
                (ps_ListingID s =? listingID)) (fun n s => eq_refl) e rows He
                (zsum ps_Quantity rows - owned) w2 Ha Hrows Hid eq_refl)
      as (w' & ss & Hrun & Hdb & _ & Hin & Hout).
    exists w', ss. rewrite Hdb. cbn [w_db set_db next_step w2]. rewrite public_shares_scope, Hin.
    split_and!; done.
Qed.

Import scenario.

(** Holdings of 3 with rows of 2 and 4 published: the older row goes, the newer
    one shrinks to 3. *)
Definition sold_down : DB :=
  set_orders
    {[ 1 := mkOrderModel 7 11 1 OrderTypeMarket OrderDirectionBuy 3 1 None None OrderStatusDone None
              true 0 false false false true None 0 ]}
    (set_public_shares [mkPublicShare 1 1 7 2; mkPublicShare 2 1 8 5; mkPublicShare 3 1 7 4] db0).

Lemma clamp_public_shares_witness :
  exists w', ClampPublicSharesToHoldings true 7 1 quiet (at_db sold_down) = (Ok tt, w') /\
    clamp_rows true 7 1 (w_db w') = [mkPublicShare 3 1 7 3] /\
    other_rows true 7 1 (w_db w') = [mkPublicShare 2 1 8 5].
Proof.
  destruct (clamp_public_shares true 7 1 quiet (at_db sold_down)) as (w' & ss & H1 & _ & H2 & _ & _ & H3).
  - exact quiet_no_faults.
  - reflexivity.
  - cbn. repeat constructor; set_solver.
  - cbn. repeat constructor.
  - exists w'. split; [exact H1|]. rewrite H2, H3. split; vm_compute; reflexivity.
Defined.
