(* ===== verification/FundsTransfers.v ===== *)
(** * Settlements through the treasury and currency swaps

    The three-legged BUY settlement of a client whose account is not in dollars,
    and [ForexSwap]: what a successful run did to the accounts and the ledger. *)

From S2P Require Import Prelude Numeric DecimalModel Domain Store StoreFacts OrderRepo.
From S2P Require Import OrderRepoFacts Market Interfaces FundsManager FundsFacts Scenario.
From S2P Require Import FundsSafety FundsRounding.
From Stdlib Require Import Lqa SpecFloat.
From stdpp Require Import sorting list.
#[local] Open Scope Z_scope.

(** The money of all accounts in a currency. *)
Definition total (oznaka : string) (m : gmap Z racun) : Z :=
  msum (fun r => if String.eqb (r_oznaka r) oznaka then r_stanje_racuna r else 0) m.

Lemma total_update o m id r r' :
  m !! id = Some r -> r_oznaka r' = r_oznaka r ->
  total o (<[id := r']> m) =
    total o m + (if String.eqb (r_oznaka r) o then r_stanje_racuna r' - r_stanje_racuna r else 0).
Proof.
  intros Hr Ho. unfold total. rewrite (msum_update _ _ _ _ _ Hr). cbv beta. rewrite Ho.
  destruct (String.eqb _ _); lia.
Qed.

(** An account whose balance moved by [q]. *)
Definition moved (q : Q) (r : racun) : racun := with_stanje (to_cents (cents (r_stanje_racuna r) + q)) r.

Lemma sub_moved q r : with_stanje (to_cents (cents (r_stanje_racuna r) - q)) r = moved (- q) r.
Proof. reflexivity. Qed.

(** A statement on an existing account, without a guard. *)
Lemma exec_racun_ok id f e w w' r :
  exec_racun id f e w = (Ok tt, w') -> d_racun (w_db w) !! id = Some r ->
  exists r', f r = Some r' /\ w_db w' = set_racun (<[id := r']> (d_racun (w_db w))) (w_db w).
Proof.
  unfold exec_racun. intros H Hr. apply bind_ok in H as (n & w1 & H & H1). injection H1 as <-.
  apply sql_ok in H as (d & H & -> & _). unfold update_racun in H. rewrite Hr in H. cbn in H.
  destruct (f r) as [r'|]; [|discriminate]. injection H as _ <-. eauto.
Qed.

Lemma debit_account_ok id q e w w' :
  debit_account id q e w = (Ok tt, w') ->
  exists r r', d_racun (w_db w) !! id = Some r /\ (q <= cents (r_stanje_racuna r))%Q /\
    sub_both q r = Some r' /\ w_db w' = set_racun (<[id := r']> (d_racun (w_db w))) (w_db w).
Proof.
  unfold debit_account. intros H. apply bind_ok in H as (n & w1 & H & H1).
  apply sql_ok in H as (d & H & -> & _).
  apply update_racun_inv in H as [(-> & _)|(-> & r & r' & Hr & Hg & Hf & ->)]; [discriminate|].
  injection H1 as <-. exists r, r'. split_and!; [done|by apply qle_true|done|done].
Qed.

(** The rows one INSERT appends. *)
Definition ledger (es : list (Z * TipTransakcije * Q)) : list transakcija :=
  (fun '(id, tip, q) => mkTransakcija id tip (to_cents q)) <$> es.

Lemma insert_transakcija_eq es d d' :
  insert_transakcija es d = Ok (tt, d') -> d' = set_transakcija (d_transakcija d ++ ledger es) d.
Proof.
  unfold insert_transakcija. destruct (transakcija_rows es d) as [rows|] eqn:E; [|discriminate]. intros [= <-].
  do 2 f_equal. revert rows E.
  induction es as [|[[id tip] q] es IH]; intros rows; cbn; [by intros [= <-]|].
  destruct (d_racun d !! id); [|discriminate].
  destruct (store_cents q) eqn:Es; [|discriminate].
  destruct (transakcija_rows es d) as [rows'|]; [|discriminate].
  intros [= <-]. apply store_cents_Some in Es as ->. f_equal. by apply IH.
Qed.

Lemma insert_transakcija_ok es e w w' :
  sql (insert_transakcija es) e w = (Ok tt, w') ->
  w_db w' = set_transakcija (d_transakcija (w_db w) ++ ledger es) (w_db w).
Proof. intros H. apply sql_ok in H as (d & H & -> & _). by apply insert_transakcija_eq in H. Qed.

(** The body of the three-legged posting. *)
Definition three_legs (a f u : Z) (q qx : Q) : M unit :=
  debit_account a q ;;
  exec_racun f (add_stanje q) ;;
  exec_racun u (sub_stanje qx) ;;
  sql (insert_transakcija [(a, ISPLATA, q); (f, UPLATA, q); (u, ISPLATA, qx)]).

Lemma three_legs_ok a f u q qx cur e w w' ra rf ru :
  d_racun (w_db w) !! a = Some ra -> d_racun (w_db w) !! f = Some rf ->
  d_racun (w_db w) !! u = Some ru ->
  a <> f -> a <> u -> f <> u -> (0 <= q)%Q -> 0 <= r_stanje_racuna rf ->
  r_oznaka ra = cur -> r_oznaka rf = cur -> r_oznaka ru <> cur ->
  three_legs a f u q qx e w = (Ok tt, w') ->
  total cur (d_racun (w_db w)) <= total cur (d_racun (w_db w')) <= total cur (d_racun (w_db w)) + 1 /\
  (forall k, (q == cents k)%Q -> total cur (d_racun (w_db w')) = total cur (d_racun (w_db w))) /\
  (exists ra' ru', d_racun (w_db w') !! a = Some ra' /\ d_racun (w_db w') !! u = Some ru' /\
     r_stanje_racuna ra' = to_cents (cents (r_stanje_racuna ra) - q) /\
     r_stanje_racuna ru' = to_cents (cents (r_stanje_racuna ru) - qx)) /\
  d_transakcija (w_db w') = d_transakcija (w_db w) ++
    [mkTransakcija a ISPLATA (to_cents q); mkTransakcija f UPLATA (to_cents q);
     mkTransakcija u ISPLATA (to_cents qx)].
Proof.
  intros Ha Hf Hu Haf Hau Hfu Hq Hst Oa Of Ou H. unfold three_legs in H.
  apply bind_ok in H as ([] & w1 & H1 & H). apply debit_account_ok in H1 as (r & ra' & Hr & Hle & Hs & E1).
  rewrite Ha in Hr. injection Hr as <-. apply sub_both_eq in Hs.
  apply bind_ok in H as ([] & w2 & H2 & H).
  apply (exec_racun_ok f _ _ _ _ rf) in H2 as (rf' & Hf' & E2);
    [|rewrite E1; cbn; by rewrite lookup_insert_ne].
  apply add_stanje_eq in Hf'.
  apply bind_ok in H as ([] & w3 & H3 & H).
  apply (exec_racun_ok u _ _ _ _ ru) in H3 as (ru' & Hu' & E3);
    [|rewrite E2, E1; cbn; by rewrite !lookup_insert_ne].
  apply sub_stanje_eq in Hu'. apply insert_transakcija_ok in H.
  assert (Hm : d_racun (w_db w') = <[u := ru']> (<[f := rf']> (<[a := ra']> (d_racun (w_db w)))))
    by (rewrite H, E3, E2, E1; reflexivity).
  assert (Hl : d_transakcija (w_db w3) = d_transakcija (w_db w)) by (rewrite E3, E2, E1; reflexivity).
  assert (Ht : total cur (d_racun (w_db w')) = total cur (d_racun (w_db w))
             - r_stanje_racuna ra + (to_cents (cents (r_stanje_racuna ra) - q) + to_cents q)).
  { rewrite Hm. rewrite (total_update _ _ u ru) by (subst; try done; by rewrite !lookup_insert_ne).
    rewrite (total_update _ _ f rf) by (subst; try done; by rewrite lookup_insert_ne).
    rewrite (total_update _ _ a ra) by (subst; done).
    rewrite Oa, Of, String.eqb_refl. destruct (String.eqb_spec (r_oznaka ru) cur); [done|].
    subst ra' rf'. cbn. rewrite to_cents_add by done. lia. }
  split_and!.
  - rewrite Ht. pose proof (to_cents_split q (r_stanje_racuna ra) Hq Hle). lia.
  - rewrite Ht. pose proof (to_cents_split q (r_stanje_racuna ra) Hq Hle). lia.
  - intros k Hk. rewrite Ht, Hk, to_cents_split_exact, to_cents_cents. lia.
  - exists ra', ru'. rewrite Hm. split_and!.
    + by rewrite !lookup_insert_ne, lookup_insert_eq by done.
    + by rewrite lookup_insert_eq.
    + by subst ra'.
    + by subst ru'.
  - rewrite H. cbn. by rewrite Hl.
Qed.

Lemma fetchCurrencyTrezorID_run c e w :
  no_faults e -> w_aborted w = false -> racun_ids trezor_owner c (w_db w) <> [] ->
  exists id w', fetchCurrencyTrezorID c e w = (Ok id, w') /\ w_db w' = w_db w /\ w_aborted w' = false /\
    exists r, d_racun (w_db w) !! id = Some r /\ r_id_vlasnika r = trezor_owner /\ r_oznaka r = c.
Proof.
  intros He Ha Hne. unfold fetchCurrencyTrezorID.
  erewrite bind_run by (apply try_eq; unfold sql_read; rewrite sql_run by done; reflexivity).
  destruct (racun_ids trezor_owner c (w_db w)) as [|id ids] eqn:E; [done|].
  eexists _, _. split; [reflexivity|]. split_and!; [done..|].
  destruct (racun_ids_spec trezor_owner c (w_db w)
    (nth (env_row_choice e (w_step (next_step (set_db (w_db w) w))) mod S (length ids))%nat (id :: ids) 0))
    as (r & Hr & Ho & Hc & _); [|by exists r].
  rewrite E. apply list_elem_of_In, nth_In, Nat.mod_upper_bound. done.
Qed.

Section settle.
Context `{LL : decimal.Laws}.
Context (spreadRate provizijaRate : float64) (e : Env) (He : no_faults e).
Context (Hs : sane_rates spreadRate provizijaRate e).

(** The three-legged BUY settlement conserves money to the cent.  A client
    whose account is in a currency other than the dollar, with treasury
    accounts in both: when [SettleBuyFill] succeeds, the client's account is
    debited the converted amount q, the treasury's account in that currency is
    credited q and its dollar account is debited the dollar amount; the total
    in the client's currency never falls, rises by at most one cent (by none
    when q is a whole number of cents), and the ledger gets exactly the three
    matching rows. *)
Theorem settle_buy_conserves (a : Z) (x : decimal.t) (w w' : World) (ra : racun) (cur : string)
    (Hx : (0 <= decimal.val x)%Q) (Hw : w_aborted w = false)
    (Hra : d_racun (w_db w) !! a = Some ra) (Hcur : r_oznaka ra = cur)
    (Hclient : r_id_vlasnika ra <> trezor_owner) (Hne : cur <> EmptyString)
    (Husd : cur <> "USD"%string)
    (Hpos : forall id r, d_racun (w_db w) !! id = Some r ->
              0 < id /\ (r_id_vlasnika r = trezor_owner -> 0 <= r_stanje_racuna r))
    (Hf : racun_ids trezor_owner cur (w_db w) <> [])
    (Hu : racun_ids trezor_owner "USD" (w_db w) <> [])
    (Hrun : SettleBuyFill spreadRate provizijaRate true a x e w = (Ok tt, w')) :
  exists n f u ru, let q := decimal.sql_arg (converted spreadRate provizijaRate e true true a x (w_db w) n) in
    d_racun (w_db w) !! u = Some ru /\ r_oznaka ru = "USD"%string /\
    total cur (d_racun (w_db w)) <= total cur (d_racun (w_db w'))
      <= total cur (d_racun (w_db w)) + 1 /\
    (forall k, (q == cents k)%Q ->
       total cur (d_racun (w_db w')) = total cur (d_racun (w_db w))) /\
    (exists ra' ru', d_racun (w_db w') !! a = Some ra' /\ d_racun (w_db w') !! u = Some ru' /\
       r_stanje_racuna ra' = to_cents (cents (r_stanje_racuna ra) - q) /\
       r_stanje_racuna ru' = to_cents (cents (r_stanje_racuna ru) - decimal.sql_arg x)) /\
    d_transakcija (w_db w') = d_transakcija (w_db w) ++
      [mkTransakcija a ISPLATA (to_cents q); mkTransakcija f UPLATA (to_cents q);
       mkTransakcija u ISPLATA (to_cents (decimal.sql_arg x))].
Proof using He Hs LL.
  unfold SettleBuyFill in Hrun.
  match type of Hrun with mbind (fun cur => mbind (@?k cur) _) _ _ _ = _ =>
    destruct (convert_prefix_run spreadRate provizijaRate e He true a x true k w Hw)
      as (n & w1 & Hw1 & Ha1 & _ & E) end.
  rewrite E in Hrun. clear E.
  assert (Hcu : currency_of a (w_db w) = cur).
  { unfold currency_of. rewrite Hra, Hcur. by destruct (String.eqb_spec cur EmptyString). }
  cbv beta zeta in Hrun. rewrite Hcu in Hrun. cbn [negb orb] in Hrun.
  destruct (String.eqb_spec cur "USD") as [?|_]; [done|].
  pose proof (decimal.sql_arg_nonneg _ (converted_nonneg spreadRate provizijaRate e true true a x
                (w_db w) n Hs Hx)) as Hq.
  exists n. cbv zeta. set (q := decimal.sql_arg (converted _ _ _ _ _ _ _ _ _)) in *.
  rewrite <- Hw1 in Hf.
  destruct (fetchCurrencyTrezorID_run cur e w1 He Ha1 Hf)
    as (f & w2 & Ef & Hw2 & Ha2 & rf & Hrf & Of & Cf).
  erewrite bind_run in Hrun by exact Ef. rewrite <- Hw1, <- Hw2 in Hu.
  destruct (fetchCurrencyTrezorID_run "USD" e w2 He Ha2 Hu)
    as (u & w3 & Eu & Hw3 & _ & ru & Hru & Ou & Cu).
  erewrite bind_run in Hrun by exact Eu. rewrite Hw2 in *. rewrite Hw1 in *.
  destruct (Hpos f rf Hrf) as [Hf0 Hfst], (Hpos u ru Hru) as [Hu0 _].
  rewrite (proj2 (Z.eqb_neq f 0)), (proj2 (Z.eqb_neq u 0)) in Hrun by lia. cbn [orb] in Hrun.
  apply Transaction_ok in Hrun as (w4 & Hb & Hdb & _ & _).
  change (three_legs a f u q (decimal.sql_arg x) e (begin_tx w3) = (Ok tt, w4)) in Hb.
  assert (Hb0 : w_db (begin_tx w3) = w_db w) by done.
  exists f, u, ru. rewrite Hdb.
  pose proof (three_legs_ok a f u q (decimal.sql_arg x) cur e (begin_tx w3) w4 ra rf ru) as Hl.
  rewrite Hb0 in Hl.
  assert (a <> f /\ a <> u /\ f <> u) as (Haf & Hau & Hfu)
    by (split_and!; intros ->; congruence).
  destruct Hl as (H1 & H2 & H3 & H4); try done; try congruence. by apply Hfst.
Qed.
End settle.

(** ** The account of a number *)

Record the_account (d : DB) (num : string) (id : Z) (r : racun) : Prop := {
  ta_row : d_racun d !! id = Some r;
  ta_number : r_broj_racuna r = num;
  ta_unique : forall j r', d_racun d !! j = Some r' -> r_broj_racuna r' = num -> j = id
}.

Lemma racun_by_number_eq d num id r : the_account d num id r -> racun_by_number num d = Some (id, r).
Proof.
  intros [Hr Hn Hu]. unfold racun_by_number.
  assert (Hin : (id, r) ∈ filter (fun kv : Z * racun => r_broj_racuna kv.2 = num) (map_to_list (d_racun d))).
  { apply list_elem_of_filter. split; [done|]. by apply elem_of_map_to_list. }
  destruct (filter _ _) as [|[j r'] l] eqn:E; [by apply elem_of_nil in Hin|]. cbn.
  assert (Hj : (j, r') ∈ filter (fun kv : Z * racun => r_broj_racuna kv.2 = num) (map_to_list (d_racun d)))
    by (rewrite E; left).
  apply list_elem_of_filter in Hj as [Hj1 Hj2%elem_of_map_to_list]. cbn in *.
  pose proof (Hu j r' Hj2 Hj1) as ->. congruence.
Qed.

(** ** Currency swaps *)

Lemma scan_account_ok m e w id r w' :
  scan_account m e w = (Ok (id, r), w') -> exists w1, m e w = (Ok (Some (id, r)), w1).
Proof.
  unfold scan_account. intros H. apply bind_ok in H as (r0 & w1 & H1 & H2).
  apply try_run in H1 as (r1 & [= ->] & H1).
  destruct r1 as [[[id' row]|]|er]; try discriminate.
  destruct (id' =? 0); [discriminate|]. injection H2 as -> -> <-. eauto.
Qed.

Lemma first_racun_of_ok o c e w id r w' :
  first_racun_of o c e w = (Ok (Some (id, r)), w') ->
  d_racun (w_db w) !! id = Some r /\ r_id_vlasnika r = o /\ r_oznaka r = c /\
  head (racun_ids o c (w_db w)) = Some id.
Proof.
  intros H. apply sql_ok in H as (d & [= H _] & _ & _).
  destruct (head (racun_ids o c (w_db w))) as [i|] eqn:E; [|discriminate]. cbn in H.
  destruct (d_racun (w_db w) !! i) as [r'|] eqn:Er; [|discriminate]. injection H as -> ->.
  destruct (racun_ids_spec o c (w_db w) id) as (r' & Hr' & Ho & Hc & _).
  - destruct (racun_ids o c (w_db w)); [done|]. injection E as ->. by left.
  - rewrite Er in Hr'. injection Hr' as <-. auto.
Qed.

(** Changing amounts does not change which accounts an owner has. *)
Lemma racun_ids_in o c d id :
  id ∈ racun_ids o c d <->
  exists r, d_racun d !! id = Some r /\ r_id_vlasnika r = o /\ r_oznaka r = c /\ r_status r = AKTIVAN.
Proof.
  split; [apply racun_ids_spec|]. intros (r & Hr & H). unfold racun_ids.
  rewrite (merge_sort_Permutation Z.le). apply list_elem_of_fmap. exists (id, r). split; [done|].
  apply list_elem_of_filter. split; [done|]. by apply elem_of_map_to_list.
Qed.

Lemma racun_ids_NoDup o c d : NoDup (racun_ids o c d).
Proof.
  unfold racun_ids. rewrite (merge_sort_Permutation Z.le).
  assert (H : NoDup (fst <$> map_to_list (d_racun d))) by apply NoDup_fst_map_to_list.
  revert H. generalize (map_to_list (d_racun d)). intros l.
  induction l as [|[i r] l IH]; [done|]. csimpl. intros [Hi Hl]%NoDup_cons. rewrite filter_cons.
  case_decide; [|auto]. csimpl. apply NoDup_cons. split; [|auto].
  intros ([i' r'] & -> & Hin)%list_elem_of_fmap. apply Hi.
  apply list_elem_of_filter in Hin as [_ Hin]. by apply (list_elem_of_fmap_2 fst) in Hin.
Qed.

Lemma racun_ids_update o c d a r r' :
  d_racun d !! a = Some r -> static r' = static r ->
  racun_ids o c (set_racun (<[a := r']> (d_racun d)) d) = racun_ids o c d.
Proof.
  intros Ha Hs. apply (Sorted_unique Z.le).
  - apply (Sorted_merge_sort Z.le).
  - apply (Sorted_merge_sort Z.le).
  - apply NoDup_Permutation; [apply racun_ids_NoDup..|]. intros id. rewrite !racun_ids_in. cbn.
    unfold static in Hs. injection Hs as _ Ho Hc Ht.
    destruct (decide (a = id)) as [<-|Hne];
      [rewrite lookup_insert_eq, Ha|by rewrite lookup_insert_ne].
    split; intros (x & [= <-] & H1 & H2 & H3); eexists; (split; [reflexivity|]); split_and!; congruence.
Qed.

(** Both accounts of a swap belong to the caller (or the treasury), each in its
    currency; a client's debit account is the one named by the order. *)
Lemma forex_accounts_ok c u a dc cc e w f t w' :
  forex_accounts c u a dc cc e w = (Ok (f, t), w') ->
  w_db w' = w_db w /\
  exists rf rt, d_racun (w_db w) !! f = Some rf /\ d_racun (w_db w) !! t = Some rt /\
    r_oznaka rf = dc /\ r_oznaka rt = cc /\
    r_id_vlasnika rf = (if c then u else trezor_owner) /\
    r_id_vlasnika rt = (if c then u else trezor_owner) /\
    (if c then f = a else head (racun_ids trezor_owner dc (w_db w)) = Some f).
Proof.
  intros H. split; [symmetry; exact (forex_accounts_reads _ _ _ _ _ _ _ _ _ H)|].
  unfold forex_accounts in H. destruct c; cbn [negb] in H.
  - apply bind_ok in H as ([f' rf] & w1 & H1 & H).
    pose proof (scan_account_reads _ (preserves_sql_read _ _) _ _ _ _ H1) as Hw1.
    apply scan_account_ok in H1 as (w1' & H1). apply sql_ok in H1 as (d & [= H1 _] & _ & _).
    destruct (d_racun (w_db w) !! a) as [ra|] eqn:Ea; [|discriminate]. cbn in H1.
    injection H1 as <- ->.
    destruct (Z.eqb_spec (r_id_vlasnika rf) u); cbn [negb] in H; [|discriminate].
    destruct (String.eqb_spec (r_oznaka rf) dc); cbn [negb] in H; [|discriminate].
    apply bind_ok in H as ([t' rt] & w2 & H2 & H). injection H as <- <- <-.
    apply scan_account_ok in H2 as (w2' & H2). apply first_racun_of_ok in H2 as (Ht & Ot & Ct & _).
    rewrite <- Hw1 in Ht. exists rf, rt. auto 10.
  - apply bind_ok in H as ([f' rf] & w1 & H1 & H).
    pose proof (scan_account_reads _ (first_racun_of_reads _ _) _ _ _ _ H1) as Hw1.
    apply scan_account_ok in H1 as (w1' & H1). apply first_racun_of_ok in H1 as (Hf & Of & Cf & Hh).
    apply bind_ok in H as ([t' rt] & w2 & H2 & H). injection H as <- <- <-.
    apply scan_account_ok in H2 as (w2' & H2). apply first_racun_of_ok in H2 as (Ht & Ot & Ct & _).
    rewrite <- Hw1 in Ht. exists rf, rt. split_and!; done.
Qed.

Section forex.
Context `{LL : decimal.Laws}.

Lemma val_parse_or_zero n : (decimal.val (parse_or_zero n) == cents n)%Q.
Proof.
  unfold parse_or_zero. destruct (decimal.NewFromString_val (cents n)) as (d & -> & H). exact H.
Qed.

(** What the two sides of a swap are. *)
Definition swap_debit (b q : string) (nb rate : decimal.t) (dir : OrderDirection) : string * decimal.t :=
  match dir with OrderDirectionBuy => (q, decimal.Mul nb rate) | _ => (b, nb) end.
Definition swap_credit (b q : string) (nb rate : decimal.t) (dir : OrderDirection) : string * decimal.t :=
  match dir with OrderDirectionBuy => (b, nb) | _ => (q, decimal.Mul nb rate) end.

(** What a swap that went through did. *)
Lemma ForexSwap_ok (c : bool) (u a : Z) (b q : string) (nb rate : decimal.t)
    (dir : OrderDirection) (e : Env) (w w' : World)
    (Hrun : ForexSwap c u a b q nb rate dir e w = (Ok tt, w')) :
  b <> q /\
  exists f t rf rt, let '(dc, dq) := swap_debit b q nb rate dir in
                    let '(cc, cq) := swap_credit b q nb rate dir in
    f <> t /\ d_racun (w_db w) !! f = Some rf /\ d_racun (w_db w) !! t = Some rt /\
    r_oznaka rf = dc /\ r_oznaka rt = cc /\
    r_id_vlasnika rf = (if c then u else trezor_owner) /\
    r_id_vlasnika rt = (if c then u else trezor_owner) /\
    (if c then f = a else head (racun_ids trezor_owner dc (w_db w)) = Some f) /\
    (decimal.val dq <= cents (free_cents rf))%Q /\
    d_racun (w_db w') =
      <[t := with_stanje (to_cents (cents (r_stanje_racuna rt) + decimal.sql_arg cq)) rt]>
      (<[f := with_rezervisano
                (to_cents (greatest0 (cents (r_rezervisana_sredstva rf) - decimal.sql_arg dq)))
                (with_stanje (to_cents (cents (r_stanje_racuna rf) - decimal.sql_arg dq)) rf)]>
         (d_racun (w_db w))) /\
    d_transakcija (w_db w') = d_transakcija (w_db w) ++
      [mkTransakcija f ISPLATA (to_cents (decimal.sql_arg dq));
       mkTransakcija t UPLATA (to_cents (decimal.sql_arg cq))].
Proof using LL.
  unfold ForexSwap in Hrun. destruct (String.eqb_spec b q) as [|Hbq]; [discriminate|]. split; [done|].
  replace (match dir with OrderDirectionBuy => (q, b, decimal.Mul nb rate, nb)
                        | _ => (b, q, nb, decimal.Mul nb rate) end)
    with ((swap_debit b q nb rate dir).1, (swap_credit b q nb rate dir).1,
          (swap_debit b q nb rate dir).2, (swap_credit b q nb rate dir).2) in Hrun by (by destruct dir).
  destruct (swap_debit b q nb rate dir) as [dc dq], (swap_credit b q nb rate dir) as [cc cq].
  cbn [fst snd] in Hrun.
  apply bind_ok in Hrun as ([f t] & w1 & H1 & H).
  apply forex_accounts_ok in H1 as (Hw1 & rf & rt & Hf & Ht & Cf & Ct & Of & Ot & Hfa).
  destruct (Z.eqb_spec f t) as [|Hft]; [discriminate|].
  apply bind_ok in H as (row & w2 & H2 & H). pose proof (preserves_sql_read eq _ _ _ _ _ H2) as Hw2.
  apply sql_ok in H2 as (d & [= H2 _] & _ & _).
  rewrite Hw1, Hf in H2. subst row.
  destruct (decimal.LessThan _ dq) eqn:El; [discriminate|].
  apply decimal.LessThan_false in El. rewrite decimal.val_Sub, !val_parse_or_zero in El.
  rewrite <- cents_minus in El.
  apply bind_ok in H as ([] & w3 & H3 & H). apply (exec_racun_ok f _ _ _ _ rf) in H3 as (rf' & Ef & E3);
    [|by rewrite <- Hw2, Hw1].
  apply bind_ok in H as ([] & w4 & H4 & H). apply (exec_racun_ok t _ _ _ _ rt) in H4 as (rt' & Et & E4);
    [|rewrite E3; cbn; rewrite <- Hw2, Hw1; by rewrite lookup_insert_ne].
  apply sub_both_eq in Ef as ->. apply add_stanje_eq in Et as ->.
  apply insert_transakcija_ok in H.
  assert (Hm : d_racun (w_db w2) = d_racun (w_db w)) by congruence.
  assert (Hl : d_transakcija (w_db w2) = d_transakcija (w_db w)) by congruence.
  exists f, t, rf, rt. split_and!; try done.
  - rewrite H, E4, E3. cbn. by rewrite Hm.
  - rewrite H, E4, E3. cbn. by rewrite Hl.
Qed.

(** A currency swap moves both amounts or is not a success.  When
    [ForexSwap] succeeds the two currencies differ, the debit and the credit
    account are two different accounts of the caller (of the treasury for an
    employee), each in its own currency; the free balance covered the debit;
    exactly those two accounts changed, by the debit (which also lowers the
    reservation, not below zero) and the credit rounded to cents; and the
    ledger gets the two matching rows. *)
Theorem forex_swap_moves_both (c : bool) (u a : Z) (b q : string) (nb rate : decimal.t)
    (dir : OrderDirection) (e : Env) (w w' : World)
    (Hrun : ForexSwap c u a b q nb rate dir e w = (Ok tt, w')) :
  b <> q /\
  exists f t rf rt, let '(dc, dq) := swap_debit b q nb rate dir in
                    let '(cc, cq) := swap_credit b q nb rate dir in
    f <> t /\ d_racun (w_db w) !! f = Some rf /\ d_racun (w_db w) !! t = Some rt /\
    r_oznaka rf = dc /\ r_oznaka rt = cc /\
    r_id_vlasnika rf = (if c then u else trezor_owner) /\
    r_id_vlasnika rt = (if c then u else trezor_owner) /\
    (if c then f = a else head (racun_ids trezor_owner dc (w_db w)) = Some f) /\
    (decimal.val dq <= cents (free_cents rf))%Q /\
    d_racun (w_db w') =
      <[t := with_stanje (to_cents (cents (r_stanje_racuna rt) + decimal.sql_arg cq)) rt]>
      (<[f := with_rezervisano
                (to_cents (greatest0 (cents (r_rezervisana_sredstva rf) - decimal.sql_arg dq)))
                (with_stanje (to_cents (cents (r_stanje_racuna rf) - decimal.sql_arg dq)) rf)]>
         (d_racun (w_db w))) /\
    d_transakcija (w_db w') = d_transakcija (w_db w) ++
      [mkTransakcija f ISPLATA (to_cents (decimal.sql_arg dq));
       mkTransakcija t UPLATA (to_cents (decimal.sql_arg cq))].
Proof using LL. by apply ForexSwap_ok in Hrun. Qed.

(** The account [resolveForexDebitAccountID] picks. *)
Definition forex_debit_account (c : bool) (a : Z) (q : string) (d : DB) (id : Z) : Prop :=
  if c then id = a else head (racun_ids trezor_owner q d) = Some id.

Lemma resolveForex_ok c u a q e w id w' :
  resolveForexDebitAccountID c u a q e w = (Ok id, w') ->
  w_db w' = w_db w /\ forex_debit_account c a q (w_db w) id.
Proof.
  intros H. split; [symmetry; exact (resolveForex_reads _ _ _ _ _ _ _ _ H)|].
  unfold resolveForexDebitAccountID in H. destruct c; cbn [negb] in H.
  - apply bind_ok in H as (cur & wc & _ & H).
    destruct (String.eqb cur q); [by injection H as <- _|discriminate].
  - apply try_bind in H as (r & w1 & H1 & H). destruct r as [[[i row]|]|er]; try discriminate.
    destruct (i =? 0); [discriminate|]. injection H as -> _.
    by apply first_racun_of_ok in H1 as (_ & _ & _ & H1).
Qed.

(** A reserved currency order is asked for its money twice.  An order to buy
    a currency reserves debit = nominal x rate when it is placed (on the
    treasury's account for an employee, on the client's own otherwise);
    [ForexSwap] then requires a free balance (balance minus reservations) of
    another full debit.  So with a whole number k of cents to pay and less than
    2k free before the reservation, the swap of the reserved order cannot
    succeed, although the account holds the money reserved for it. *)
Theorem forex_buy_needs_twice_the_funds (c : bool) (u a id : Z) (b q : string) (nb rate : decimal.t)
    (k : Z) (e e' : Env) (w w1 w1' : World) (row : racun)
    (Hk : (decimal.val (decimal.Mul nb rate) == cents k)%Q)
    (Harg : (decimal.sql_arg (decimal.Mul nb rate) == cents k)%Q)
    (Hk0 : 0 <= k) (Hid : forex_debit_account c a q (w_db w) id)
    (Hrow : d_racun (w_db w) !! id = Some row) (Hrez : 0 <= r_rezervisana_sredstva row)
    (Hfree : free_cents row < 2 * k)
    (Hres : ReserveForexFunds c u a q (decimal.Mul nb rate) e w = (Ok tt, w1))
    (Hdb : w_db w1' = w_db w1) :
  is_ok (ForexSwap c u a b q nb rate OrderDirectionBuy e' w1').1 = false.
Proof using LL.
  unfold ReserveForexFunds in Hres. apply bind_ok in Hres as (id0 & w0 & H0 & H).
  apply resolveForex_ok in H0 as [Hw0 Hid0].
  assert (id0 = id) as ->.
  { unfold forex_debit_account in *. destruct c; congruence. }
  apply reserve_ok_row in H as (r & r' & Hr & Hadd & Hdb1 & _).
  rewrite Hw0 in *. rewrite Hrow in Hr. injection Hr as <-.
  assert (Hst : static r' = static row) by (eapply static_inv; left; exact Hadd).
  apply add_rezervisano_eq in Hadd.
  destruct (ForexSwap c u a b q nb rate OrderDirectionBuy e' w1') as [[[]|er] w2] eqn:E; [|done].
  exfalso. apply ForexSwap_ok in E as (_ & f & t & rf & rt & H).
  cbn in H. destruct H as (_ & Hf & _ & _ & _ & _ & _ & Hfa & Hle & _).
  assert (f = id) as ->.
  { unfold forex_debit_account in Hid. rewrite Hdb, Hdb1, (racun_ids_update _ _ _ _ row) in Hfa by done.
    destruct c; congruence. }
  rewrite Hdb, Hdb1 in Hf. cbn in Hf. rewrite lookup_insert_eq in Hf.
  injection Hf as <-. subst r'. rewrite Hk in Hle. apply (proj1 (cents_le _ _)) in Hle.
  unfold free_cents in *. cbn in Hle.
  rewrite Harg, to_cents_add, to_cents_cents in Hle by (try done; by apply cents_ge0). lia.
Qed.
End forex.

Import decimal_model scenario.

(** Settling a fill of 20.50 dollars against the euro account. *)
Definition settled : World := (SettleBuyFill rate rate true 11 (dec 2050 2) quiet w0).2.

Lemma settle_buy_conserves_witness :
  SettleBuyFill rate rate true 11 (dec 2050 2) quiet w0 = (Ok tt, settled) /\
  total "EUR" (d_racun (w_db w0)) <= total "EUR" (d_racun (w_db settled))
    <= total "EUR" (d_racun (w_db w0)) + 1.
Proof.
  split; [vm_compute; reflexivity|].
  destruct (settle_buy_conserves rate rate quiet quiet_no_faults quiet_rates 11 (dec 2050 2) w0 settled
              (mkRacun "110" 7 "EUR" LICNI AKTIVAN 50000 1000 no_info) "EUR") as (n & f & u & ru & _ & _ & H & _);
    [discriminate|reflexivity|vm_compute; reflexivity|reflexivity|discriminate|discriminate
    |discriminate| |vm_compute; discriminate|vm_compute; discriminate|vm_compute; reflexivity|exact H].
  intros id r Hr. apply elem_of_list_to_map_2 in Hr.
  repeat (apply elem_of_cons in Hr as [[= -> ->]|Hr]; [split; [lia|cbn; lia]|]). by apply elem_of_nil in Hr.
Defined.

(** The treasury's dollar account holds 100000.00; an agent's order buys 60000
    euros at rate 1. *)
Definition forex_reserved : World :=
  (ReserveForexFunds false 5 0 "USD" (decimal.Mul (dec 60000 0) (dec 1 0)) quiet w0).2.

Lemma forex_buy_needs_twice_the_funds_witness :
  ReserveForexFunds false 5 0 "USD" (decimal.Mul (dec 60000 0) (dec 1 0)) quiet w0
    = (Ok tt, forex_reserved) /\
  is_ok (ForexSwap false 5 0 "EUR" "USD" (dec 60000 0) (dec 1 0) OrderDirectionBuy quiet forex_reserved).1
    = false /\
  (ForexSwap false 5 0 "EUR" "USD" (dec 60000 0) (dec 1 0) OrderDirectionBuy quiet w0).1 = Ok tt.
Proof.
  split; [vm_compute; reflexivity|]. split; [|vm_compute; reflexivity].
  apply (forex_buy_needs_twice_the_funds false 5 0 20 "EUR" "USD" (dec 60000 0) (dec 1 0) 6000000
           quiet quiet w0 forex_reserved forex_reserved (mkRacun "666000122200000008" 2 "USD" POSLOVNI AKTIVAN 10000000 0 no_info));
    try (vm_compute; reflexivity); discriminate.
Defined.

Lemma forex_swap_moves_both_witness :
  exists w', ForexSwap true 7 10 "EUR" "USD" (dec 600 0) (dec 1 0) OrderDirectionBuy quiet w0 = (Ok tt, w') /\
    exists f rf, d_racun (w_db w0) !! f = Some rf /\ (600 <= cents (free_cents rf))%Q.
Proof.
  refine (ex_intro _ _ (conj _ _)); [vm_compute; reflexivity|].
  destruct (forex_swap_moves_both true 7 10 "EUR" "USD" (dec 600 0) (dec 1 0) OrderDirectionBuy quiet w0
     (ForexSwap true 7 10 "EUR" "USD" (dec 600 0) (dec 1 0) OrderDirectionBuy quiet w0).2)
    as (_ & f & t & rf & rt & _ & Hf & _ & _ & _ & _ & _ & _ & H & _); [vm_compute; reflexivity|].
  exists f, rf. split; [exact Hf|exact H].
Defined.

(** ** Statements on accounts that succeed

    Forward reasoning with a working database: what a statement answers and leaves
    when the row is there and the new balance fits its column. *)

Section forward.
Context (e : Env) (He : no_faults e).

Definition healthy (d : DB) (w : World) : Prop := w_db w = d /\ w_aborted w = false.

Lemma sql_healthy {A} (f : DB -> result (A * DB)) d a d' w :
  healthy d w -> f d = Ok (a, d') -> runs e (sql f) w a (healthy d').
Proof. intros [Hd Ha] Hf. eapply (runs_sql e He); [done|by rewrite Hd|]. by split. Qed.

Lemma now_healthy d w : healthy d w -> runs e time_now w (env_now e (w_step w)) (healthy d).
Proof. intros H. by apply runs_now. Qed.

Lemma exec_healthy id f d r r' w :
  healthy d w -> d_racun d !! id = Some r -> f r = Some r' ->
  runs e (exec_racun id f) w tt (healthy (set_racun (<[id := r']> (d_racun d)) d)).
Proof.
  intros Hw Hr Hf. unfold exec_racun. eapply runs_bind; [|intros w1 H1; by apply runs_ret].
  apply (sql_healthy _ d 1); [done|]. unfold update_racun. by rewrite Hr, Hf.
Qed.

Lemma ledger_healthy id tip q r d w :
  healthy d w -> d_racun d !! id = Some r -> Z.abs (to_cents q) < 10 ^ 15 ->
  runs e (sql (insert_transakcija [(id, tip, q)])) w tt
    (healthy (set_transakcija (d_transakcija d ++ [mkTransakcija id tip (to_cents q)]) d)).
Proof.
  intros Hw Hr Hq. apply (sql_healthy _ d); [done|]. unfold insert_transakcija, transakcija_rows.
  by rewrite Hr, store_cents_fits.
Qed.

Lemma read_healthy {A} (f : DB -> A) d w : healthy d w -> runs e (sql_read f) w (f d) (healthy d).
Proof. intros Hw. by apply (sql_healthy _ d). Qed.

Lemma add_stanje_fits q c r :
  (q == cents c)%Q -> Z.abs (r_stanje_racuna r + c) < 10 ^ 15 -> add_stanje q r = Some (moved q r).
Proof.
  intros Hq Hf. unfold add_stanje, moved.
  assert (E : to_cents (cents (r_stanje_racuna r) + q) = r_stanje_racuna r + c)
    by (by rewrite Hq, <- cents_plus, to_cents_cents).
  by rewrite store_cents_fits by (by rewrite E).
Qed.

Lemma sub_stanje_fits q c r :
  (q == cents c)%Q -> Z.abs (r_stanje_racuna r - c) < 10 ^ 15 -> sub_stanje q r = Some (moved (- q) r).
Proof.
  intros Hq Hf. unfold sub_stanje. rewrite <- sub_moved.
  assert (E : to_cents (cents (r_stanje_racuna r) - q) = r_stanje_racuna r - c)
    by (by rewrite Hq, <- cents_minus, to_cents_cents).
  by rewrite store_cents_fits by (by rewrite E).
Qed.
End forward.
