(* ===== verification/Actuaries.v ===== *)
(** * The margin check and the actuaries ([repository/margin_checker.go],
    [repository/actuary_repository.go], [service/actuary_service.go])

    Free funds of an account or of the treasury, and approved credits, against
    the initial margin cost; the comparison is strict.  Then the rows of actuaries,
    their limits and what was used of them. *)

From S2P Require Import Prelude Numeric DecimalModel Domain Store StoreFacts OrderRepo.
From S2P Require Import OrderRepoFacts Market Interfaces FundsManager FundsFacts Scenario.
From Stdlib Require Import Lqa.
From stdpp Require Import sorting.
#[local] Open Scope Z_scope.

Section margin_checker.
Context `{DL : decimal.Lib}.
Context (spreadRate : float64).

(** The loop that keeps the last middle rate of a currency. *)
Definition last_mid (oznaka : string) (rates : list ExchangeRate) : float64 :=
  foldl (fun acc r => if String.eqb (er_Oznaka r) oznaka then er_Srednji r else acc) f64_zero rates.

Definition toUSD (amount : decimal.t) (currency : string) : M decimal.t :=
  if String.eqb currency "USD" then mret amount
  else
    rates ← try (GetRates spreadRate);
    mret (match rates with
          | Err _ => amount
          | Ok rates =>
              let midCurrency := last_mid currency rates in
              let midUSD := last_mid "USD" rates in
              if f64_leb midCurrency f64_zero || f64_leb midUSD f64_zero then amount
              else decimal.Div (decimal.Mul amount (decimal.NewFromFloat midCurrency))
                     (decimal.NewFromFloat midUSD)
          end).

Fixpoint any_credit (krediti : list kreditModel) (required : decimal.t) : M bool :=
  match krediti with
  | [] => mret false
  | k :: rest =>
      usdAmount ← toUSD (decimal.NewFromFloat (decimal.float64_of_numeric (cents (k_IznosKredita k))))
                        (k_Valuta k);
      if decimal.GreaterThan usdAmount required then mret true else any_credit rest required
  end.

Definition HasApprovedCreditForMargin (userID : Z) (required : decimal.t) : M bool :=
  krediti ← sql_read (fun d =>
    filter (fun k => k_VlasnikID k = userID /\ k_Status k = ODOBREN)
      (snd <$> map_to_list (d_kredit d)));
  any_credit krediti required.

(** The free funds of a row, above the requirement. *)
Definition margin_covered (row : racun) (required : decimal.t) : M bool :=
  stanje ← parse_cents (r_stanje_racuna row);
  rezervisano ← parse_cents (r_rezervisana_sredstva row);
  let slobodna := decimal.Sub stanje rezervisano in
  mret (decimal.GreaterThan slobodna required).

Definition HasSufficientMargin (accountID : Z) (required : decimal.t) : M bool :=
  row ← first_racun accountID;
  margin_covered row required.

Definition HasSufficientMarginTrezor (currency : string) (required : decimal.t) : M bool :=
  row ← first_racun_of trezor_owner currency;
  match row with
  | None => throw (ErrMsg "trezor")
  | Some (id, r) => if id =? 0 then throw (ErrMsg "trezor") else margin_covered r required
  end.

Lemma any_credit_reads ks x : reads (any_credit ks x).
Proof. induction ks as [|k ks IH]; cbn [any_credit]; [solve_reads|]. unfold toUSD. solve_reads. Qed.
End margin_checker.

#[export] Hint Resolve any_credit_reads : reads.

#[export] Instance marginChecker `{DL : decimal.Lib} (spreadRate : float64) : MarginChecker := {|
  mc_HasApprovedCreditForMargin := HasApprovedCreditForMargin spreadRate;
  mc_HasSufficientMargin := HasSufficientMargin;
  mc_HasSufficientMarginTrezor := HasSufficientMarginTrezor
|}.

#[export] Instance marginChecker_laws `{DL : decimal.Lib} (spreadRate : float64) :
  MarginCheckerLaws (marginChecker spreadRate).
Proof.
  split; intros; cbn [marginChecker mc_HasApprovedCreditForMargin mc_HasSufficientMargin
    mc_HasSufficientMarginTrezor].
  - unfold HasApprovedCreditForMargin. solve_reads.
  - unfold HasSufficientMargin, margin_covered. solve_reads.
  - unfold HasSufficientMarginTrezor, margin_covered. solve_reads.
Qed.

Section strict.
Context `{LL : decimal.Laws}.

Lemma parse_cents_run c e w : exists d, parse_cents c e w = (Ok d, w) /\ (decimal.val d == cents c)%Q.
Proof.
  unfold parse_cents. destruct (decimal.NewFromString_val (cents c)) as (d & -> & H). eauto.
Qed.

Lemma margin_covered_run row required e w :
  exists b, margin_covered row required e w = (Ok b, w) /\
    (b = true <-> (decimal.val required < cents (free_cents row))%Q).
Proof.
  unfold margin_covered.
  destruct (parse_cents_run (r_stanje_racuna row) e w) as (s & Es & Hs).
  destruct (parse_cents_run (r_rezervisana_sredstva row) e w) as (z & Ez & Hz).
  erewrite bind_run by exact Es. erewrite bind_run by exact Ez. eexists. split; [reflexivity|].
  rewrite decimal.GreaterThan_spec, decimal.val_Sub, Hs, Hz, <- cents_minus. reflexivity.
Qed.

(** The margin check asks for strictly more than the initial margin cost.
    With no database failure, on an existing account [HasSufficientMargin]
    answers true exactly when stanje - rezervisano > required; free funds equal
    to the requirement are refused.  A missing account is an error.  The check
    changes nothing. *)
Theorem margin_is_strict (accountID : Z) (required : decimal.t) (e : Env) (w : World)
    (He : no_faults e) (Hw : w_aborted w = false) :
  match d_racun (w_db w) !! accountID with
  | Some row => exists b w', HasSufficientMargin accountID required e w = (Ok b, w') /\
      w_db w' = w_db w /\ (b = true <-> (decimal.val required < cents (free_cents row))%Q)
  | None => exists er w', HasSufficientMargin accountID required e w = (Err er, w')
  end.
Proof using LL.
  unfold HasSufficientMargin, first_racun.
  destruct (d_racun (w_db w) !! accountID) as [row|] eqn:E.
  - set (w1 := next_step (set_db (w_db w) w)).
    destruct (margin_covered_run row required e w1) as (b & Hb & Hs).
    exists b, w1. split_and!; [|done|done]. erewrite bind_run; [exact Hb|].
    erewrite bind_run by (unfold sql_read; rewrite sql_run, E by done; reflexivity). done.
  - eexists _, _. apply bind_run_err.
    erewrite bind_run by (unfold sql_read; rewrite sql_run, E by done; reflexivity). reflexivity.
Qed.
End strict.

Import decimal_model scenario.

(** The dollar account holds exactly 1000.00: a margin cost of 1000 is refused. *)
Lemma margin_is_strict_witness :
  exists w', HasSufficientMargin 10 (dec 1000 0) quiet w0 = (Ok false, w').
Proof.
  destruct (margin_is_strict 10 (dec 1000 0) quiet w0 quiet_no_faults eq_refl)
    as (b & w' & H & _ & Hb).
  exists w'. rewrite H. destruct b; [|reflexivity].
  exfalso. destruct Hb as [Hb _]. specialize (Hb eq_refl). vm_compute in Hb. discriminate.
Defined.

(** ** Actuaries and their spending limits

    [repository/actuary_repository.go] over the queries of
    [database/sqlc/actuary.sql.go], and [service/actuary_service.go].  Amounts go
    to the server as [StringFixed(2)]; the columns are NUMERIC(15, 2) with CHECK
    constraints (>= 0), and [employee_id] is UNIQUE. *)

(** ** Statements *)

Definition by_employee (employeeID : Z) (d : DB) : option (Z * actuaryInfo) :=
  List.find (fun kv : Z * actuaryInfo => ai_EmployeeID kv.2 =? employeeID)
    (map_to_list (d_actuary_info d)).

Definition actuary_check (a : actuaryInfo) : bool := (0 <=? ai_Limit a) && (0 <=? ai_UsedLimit a).

Definition write_actuary (id : Z) (a : actuaryInfo) (d : DB) : result (actuaryInfo * DB) :=
  if actuary_check a then Ok (a, set_actuary_info (<[id := a]> (d_actuary_info d)) d) else Err ErrDB.

Definition with_used (n : Z) (a : actuaryInfo) : actuaryInfo :=
  mkActuaryInfo (ai_EmployeeID a) (ai_ActuaryType a) (ai_Limit a) n (ai_NeedApproval a).

(** [UPDATE ... SET actuary_type, limit, used_limit, need_approval WHERE id = $1
    RETURNING ...]; no row is [None]. *)
Definition update_actuary (id : Z) (ty : ActuaryType) (limit used : Q) (need : bool) (d : DB)
    : result (option actuaryInfo * DB) :=
  match d_actuary_info d !! id with
  | None => Ok (None, d)
  | Some a =>
      match store_cents limit, store_cents used with
      | Some l, Some u =>
          match write_actuary id (mkActuaryInfo (ai_EmployeeID a) ty l u need) d with
          | Ok (a', d') => Ok (Some a', d')
          | Err er => Err er
          end
      | _, _ => Err ErrDB
      end
  end.

(** [UPDATE ... SET used_limit = used_limit + $1 WHERE employee_id = $2 AND
    actuary_type = 'AGENT' AND guard RETURNING ...]. *)
Definition increment_used (employeeID : Z) (amount : Q) (guard : actuaryInfo -> bool) (d : DB)
    : result (option (Z * actuaryInfo) * DB) :=
  match by_employee employeeID d with
  | Some (id, a) =>
      if bool_decide (ai_ActuaryType a = ActuaryTypeAgent) && guard a then
        match store_cents (cents (ai_UsedLimit a) + amount) with
        | Some u =>
            match write_actuary id (with_used u a) d with
            | Ok (a', d') => Ok (Some (id, a'), d')
            | Err er => Err er
            end
        | None => Err ErrDB
        end
      else Ok (None, d)
  | None => Ok (None, d)
  end.

Definition insert_actuary (emp : Z) (ty : ActuaryType) (limit used : Q) (need : bool) (id : Z) (d : DB)
    : result (Z * actuaryInfo * DB) :=
  match store_cents limit, store_cents used with
  | Some l, Some u =>
      let a := mkActuaryInfo emp ty l u need in
      match by_employee emp d, d_actuary_info d !! id with
      | None, None =>
          match write_actuary id a d with Ok (a', d') => Ok (id, a', d') | Err er => Err er end
      | _, _ => Err ErrDB
      end
  | _, _ => Err ErrDB
  end.

(** [ORDER BY id]. *)
Definition by_id (a b : Z * actuaryInfo) : Prop := a.1 <= b.1.
#[export] Instance by_id_dec a b : Decision (by_id a b).
Proof. unfold by_id. apply _. Defined.

(** ** The repository *)

Section repo.
Context `{DL : decimal.Lib}.

Definition numeric_text (c : Z) : decimal.t :=
  match decimal.NewFromString (cents c) with Some d => d | None => decimal.Zero end.

Definition sqlcToDomain (id : Z) (a : actuaryInfo) : Actuary :=
  mkActuary id (ai_EmployeeID a) (ai_ActuaryType a) (numeric_text (ai_Limit a))
    (numeric_text (ai_UsedLimit a)) (ai_NeedApproval a).

Definition CreateActuary (emp : Z) (ty : ActuaryType) (limit used : decimal.t) (need : bool)
    : M Actuary :=
  '(id, a) ← sql_insert (insert_actuary emp ty (decimal.StringFixed2 limit)
                           (decimal.StringFixed2 used) need);
  mret (sqlcToDomain id a).

Definition GetActuaryByID (id : Z) : M Actuary :=
  row ← sql_read (fun d => d_actuary_info d !! id);
  match row with Some a => mret (sqlcToDomain id a) | None => throw ErrActuaryNotFound end.

Definition GetByEmployeeID (employeeID : Z) : M Actuary :=
  row ← sql_read (by_employee employeeID);
  match row with
  | Some (id, a) => mret (sqlcToDomain id a)
  | None => throw ErrActuaryNotFound
  end.

Definition ListActuaries (actuaryType : option ActuaryType) : M (list Actuary) :=
  rows ← sql_read (fun d => merge_sort by_id (filter (fun kv : Z * actuaryInfo =>
    match actuaryType with None => true | Some ty => bool_decide (ai_ActuaryType kv.2 = ty) end = true)
    (map_to_list (d_actuary_info d))));
  mret ((fun kv => sqlcToDomain kv.1 kv.2) <$> rows).

Definition UpdateActuary (id : Z) (ty : ActuaryType) (limit used : decimal.t) (need : bool)
    : M Actuary :=
  row ← sql (update_actuary id ty (decimal.StringFixed2 limit) (decimal.StringFixed2 used) need);
  match row with Some a => mret (sqlcToDomain id a) | None => throw ErrActuaryNotFound end.

Definition DeleteActuary (id : Z) : M unit :=
  sql (fun d => Ok (tt, set_actuary_info (delete id (d_actuary_info d)) d)).

Definition DeleteByEmployeeID (employeeID : Z) : M unit :=
  sql (fun d => Ok (tt, set_actuary_info
    (filter (fun kv : Z * actuaryInfo => ai_EmployeeID kv.2 <> employeeID) (d_actuary_info d)) d)).

Definition ResetAllUsedLimits : M unit :=
  sql (fun d => Ok (tt, set_actuary_info
    ((fun a => if bool_decide (ai_ActuaryType a = ActuaryTypeAgent) then with_used 0 a else a)
       <$> d_actuary_info d) d)).

Definition IncrementUsedLimitIfWithin (employeeID : Z) (amount : decimal.t) : M Actuary :=
  let q := decimal.StringFixed2 amount in
  row ← sql (increment_used employeeID q (fun a =>
           Qle_bool (cents (ai_UsedLimit a) + q) (cents (ai_Limit a))));
  match row with
  | Some (id, a) => mret (sqlcToDomain id a)
  | None =>
      r ← try (sql_read (fun d =>
        match by_employee employeeID d with
        | Some (_, a) => bool_decide (ai_ActuaryType a = ActuaryTypeAgent)
        | None => false
        end));
      match r with
      | Ok true => throw ErrActuaryLimitExceeded
      | _ => throw ErrActuaryNotFound
      end
  end.

Definition IncrementUsedLimitAlways (employeeID : Z) (amount : decimal.t) : M (Actuary * bool) :=
  row ← sql (increment_used employeeID (decimal.StringFixed2 amount) (fun _ => true));
  match row with
  | Some (id, a) =>
      let d := sqlcToDomain id a in
      mret (d, decimal.GreaterThan (act_UsedLimit d) (act_Limit d))
  | None => throw ErrActuaryNotFound
  end.

Definition InsertActuaryLimitAudit (actor target : Z) (oldLimit newLimit : decimal.t) : M unit :=
  sql (fun d =>
    match store_cents (decimal.StringFixed2 oldLimit), store_cents (decimal.StringFixed2 newLimit) with
    | Some o, Some n =>
        Ok (tt, set_actuary_limit_audit
                  (d_actuary_limit_audit d ++ [mkActuaryLimitAudit actor target o n]) d)
    | _, _ => Err ErrDB
    end).

(** ** The service *)

Definition ListAgents : M (list Actuary) := ListActuaries (Some ActuaryTypeAgent).

Definition SetAgentLimit (actorEmployeeID targetEmployeeID : Z) (limit : decimal.t) : M Actuary :=
  if decimal.IsNegative limit then throw ErrActuaryLimitNegative
  else if decimal.IsZero limit then throw ErrActuaryLimitZero
  else
    a ← GetByEmployeeID targetEmployeeID;
    let oldLimit := act_Limit a in
    if decimal.LessThan limit (act_UsedLimit a) then throw ErrActuaryLimitBelowUsed
    else
      updated ← UpdateActuary (act_ID a) (act_ActuaryType a) limit (act_UsedLimit a)
                  (act_NeedApproval a);
      InsertActuaryLimitAudit actorEmployeeID targetEmployeeID oldLimit limit ;;
      mret updated.

Definition ResetAgentUsedLimit (employeeID : Z) : M Actuary :=
  a ← GetByEmployeeID employeeID;
  UpdateActuary (act_ID a) (act_ActuaryType a) (act_Limit a) decimal.Zero (act_NeedApproval a).

Definition SetAgentNeedApproval (employeeID : Z) (needApproval : bool) : M Actuary :=
  a ← GetByEmployeeID employeeID;
  UpdateActuary (act_ID a) (act_ActuaryType a) (act_Limit a) (act_UsedLimit a) needApproval.

Definition CreateActuaryForEmployee (employeeID : Z) (ty : ActuaryType) : M Actuary :=
  CreateActuary employeeID ty decimal.Zero decimal.Zero false.

Definition DeleteActuaryForEmployee (employeeID : Z) : M unit := DeleteByEmployeeID employeeID.

Definition ResetAllAgentsUsedLimit : M unit := ResetAllUsedLimits.
End repo.

(** ** Frames *)

Lemma update_actuary_inv id ty l u n d r d' :
  update_actuary id ty l u n d = Ok (r, d') ->
  (r = None /\ d' = d /\ d_actuary_info d !! id = None) \/
  exists a l' u', d_actuary_info d !! id = Some a /\ store_cents l = Some l' /\ store_cents u = Some u' /\
    let a' := mkActuaryInfo (ai_EmployeeID a) ty l' u' n in
    actuary_check a' = true /\ r = Some a' /\ d' = set_actuary_info (<[id := a']> (d_actuary_info d)) d.
Proof.
  unfold update_actuary. destruct (d_actuary_info d !! id) as [a|]; [|intros [= <- <-]; auto].
  destruct (store_cents l) as [l'|]; [|discriminate].
  destruct (store_cents u) as [u'|]; [|discriminate].
  unfold write_actuary. destruct (actuary_check _) eqn:E; [|discriminate]. intros [= <- <-].
  right. exists a, l', u'. auto 10.
Qed.

Lemma increment_used_inv emp q g d r d' :
  increment_used emp q g d = Ok (r, d') ->
  (r = None /\ d' = d /\
     match by_employee emp d with
     | Some (_, a) => ai_ActuaryType a <> ActuaryTypeAgent \/ g a = false
     | None => True
     end) \/
  exists id a, by_employee emp d = Some (id, a) /\ ai_ActuaryType a = ActuaryTypeAgent /\ g a = true /\
    let a' := with_used (to_cents (cents (ai_UsedLimit a) + q)) a in
    actuary_check a' = true /\ r = Some (id, a') /\
    d' = set_actuary_info (<[id := a']> (d_actuary_info d)) d.
Proof.
  unfold increment_used. destruct (by_employee emp d) as [[id a]|]; [|intros [= <- <-]; auto].
  case_bool_decide as Ha; cbn [andb]; [|intros [= <- <-]; auto].
  destruct (g a) eqn:Eg; [|intros [= <- <-]; auto].
  destruct (store_cents _) as [u|] eqn:Eu; [|discriminate].
  apply store_cents_Some in Eu as ->. unfold write_actuary.
  destruct (actuary_check _) eqn:E; [|discriminate]. intros [= <- <-].
  right. exists id, a. auto 10.
Qed.

Section frames.
Context `{DL : decimal.Lib}.

Lemma increment_used_orders emp q g : preserves (same order_tables) (sql (increment_used emp q g)).
Proof.
  apply preserves_sql; [apply _|]. intros d r d' H.
  apply increment_used_inv in H as [(_ & -> & _)|(id & a & _ & _ & _ & _ & _ & ->)]; done.
Qed.

Lemma IncrementUsedLimitAlways_orders emp x :
  preserves (same order_tables) (IncrementUsedLimitAlways emp x).
Proof.
  unfold IncrementUsedLimitAlways. solve_preserves. apply increment_used_orders.
Qed.

Lemma GetByEmployeeID_reads emp : reads (GetByEmployeeID emp).
Proof. unfold GetByEmployeeID. solve_reads. Qed.
End frames.

#[export] Hint Resolve @IncrementUsedLimitAlways_orders : preserves.
#[export] Hint Resolve @GetByEmployeeID_reads : reads.

(** ** The spending limit of an agent

    What the two increments and [SetAgentLimit] guarantee on every run. *)

Definition with_limit (n : Z) (a : actuaryInfo) : actuaryInfo :=
  mkActuaryInfo (ai_EmployeeID a) (ai_ActuaryType a) n (ai_UsedLimit a) (ai_NeedApproval a).

Lemma by_employee_spec emp d id a :
  by_employee emp d = Some (id, a) -> d_actuary_info d !! id = Some a /\ ai_EmployeeID a = emp.
Proof.
  unfold by_employee. intros H%find_some. destruct H as [Hin He].
  apply list_elem_of_In, elem_of_map_to_list in Hin. apply Z.eqb_eq in He. auto.
Qed.

Section limits.
Context `{LL : decimal.Laws}.

Lemma val_numeric_text c : (decimal.val (numeric_text c) == cents c)%Q.
Proof.
  unfold numeric_text. destruct (decimal.NewFromString_val (cents c)) as (d & -> & H). exact H.
Qed.

Lemma stored_text (d : decimal.t) v :
  store_cents (decimal.StringFixed2 d) = Some v -> v = to_cents (decimal.val d).
Proof. intros H%store_cents_Some. by rewrite H, decimal.StringFixed2_val, to_cents_cents. Qed.

Lemma GetByEmployeeID_ok emp e w act w' :
  GetByEmployeeID emp e w = (Ok act, w') ->
  w_db w' = w_db w /\ exists id a, by_employee emp (w_db w) = Some (id, a) /\ act = sqlcToDomain id a.
Proof.
  intros H. split; [symmetry; exact (GetByEmployeeID_reads emp e w _ _ H)|].
  apply bind_ok in H as (row & w1 & H1 & H2). apply sql_ok in H1 as (d & [= H1 _] & _ & _).
  destruct row as [[id a]|]; [|discriminate]. injection H2 as <- _. eauto.
Qed.

Lemma update_actuary_audit id ty l u n :
  preserves (same d_actuary_limit_audit) (sql (update_actuary id ty l u n)).
Proof.
  apply preserves_sql; [apply _|]. intros d r d' H.
  apply update_actuary_inv in H as [(_ & -> & _)|(a & l' & u' & _ & _ & _ & _ & _ & ->)]; done.
Qed.

Lemma UpdateActuary_ok id ty l u n e w act w' :
  UpdateActuary id ty l u n e w = (Ok act, w') ->
  exists a, d_actuary_info (w_db w) !! id = Some a /\
    let a' := mkActuaryInfo (ai_EmployeeID a) ty (to_cents (decimal.val l)) (to_cents (decimal.val u)) n in
    act = sqlcToDomain id a' /\
    w_db w' = set_actuary_info (<[id := a']> (d_actuary_info (w_db w))) (w_db w).
Proof.
  intros H. apply bind_ok in H as (row & w1 & H1 & H2). apply sql_ok in H1 as (d & H1 & -> & _).
  apply update_actuary_inv in H1 as [(-> & _)|(a & l' & u' & Ha & Hl & Hu & _ & -> & ->)]; [discriminate|].
  injection H2 as <- <-. apply stored_text in Hl as ->, Hu as ->. eauto.
Qed.

Lemma IsNegative_false (x : decimal.t) : decimal.IsNegative x = false -> (0 <= decimal.val x)%Q.
Proof.
  intros H. destruct (Qlt_le_dec (decimal.val x) 0) as [Hl|]; [|done].
  apply decimal.IsNegative_spec in Hl. congruence.
Qed.

Lemma IsZero_false (x : decimal.t) : decimal.IsZero x = false -> ~ (decimal.val x == 0)%Q.
Proof. intros H Hz. apply decimal.IsZero_spec in Hz. congruence. Qed.

(** Setting an agent's daily limit.  On every run: when [SetAgentLimit]
    succeeds, the requested limit was positive and not below what the agent has
    spent, exactly the limit of that row changed (to the request rounded to
    cents), the stored limit is not below the stored spending, and one audit row
    with the old and the new limit was appended.  When it answers that the limit
    is negative, zero or below the spending, or that there is no such actuary,
    nothing changed. *)
Theorem set_agent_limit_spec (actor target : Z) (limit : decimal.t) (e : Env) (w : World)
    (r : result Actuary) (w' : World)
    (Hrun : SetAgentLimit actor target limit e w = (r, w')) :
  match r with
  | Ok act => exists id a, by_employee target (w_db w) = Some (id, a) /\
      (0 < decimal.val limit)%Q /\ (cents (ai_UsedLimit a) <= decimal.val limit)%Q /\
      let a' := with_limit (to_cents (decimal.val limit)) a in
      d_actuary_info (w_db w') = <[id := a']> (d_actuary_info (w_db w)) /\
      ai_UsedLimit a' <= ai_Limit a' /\
      d_actuary_limit_audit (w_db w') = d_actuary_limit_audit (w_db w) ++
        [mkActuaryLimitAudit actor target (ai_Limit a) (ai_Limit a')]
  | Err er =>
      er <> ErrDB -> w_db w' = w_db w
  end.
Proof using LL.
  unfold SetAgentLimit in Hrun.
  destruct (decimal.IsNegative limit) eqn:En; [by injection Hrun as <- <-|].
  destruct (decimal.IsZero limit) eqn:Ez; [by injection Hrun as <- <-|].
  apply IsNegative_false in En. apply IsZero_false in Ez. destruct r as [act|er].
  - apply bind_ok in Hrun as (a0 & w1 & H1 & H).
    apply GetByEmployeeID_ok in H1 as (Hw1 & id & a & Ha & ->). cbn in H.
    destruct (decimal.LessThan limit _) eqn:El; [discriminate|].
    apply decimal.LessThan_false in El. rewrite val_numeric_text in El.
    apply bind_ok in H as (up & w2 & H2 & H).
    apply UpdateActuary_ok in H2 as (a2 & Ha2 & _ & Hw2).
    destruct (by_employee_spec _ _ _ _ Ha) as [Hid _].
    rewrite Hw1 in Ha2, Hw2. rewrite Hid in Ha2. injection Ha2 as <-.
    apply bind_ok in H as ([] & w3 & H3 & H). injection H as _ <-.
    apply sql_ok in H3 as (d & H3 & -> & _).
    destruct (store_cents (decimal.StringFixed2 (numeric_text _))) as [o|] eqn:Eo; [|discriminate].
    destruct (store_cents (decimal.StringFixed2 limit)) as [n|] eqn:Enw; [|discriminate].
    injection H3 as <-. apply stored_text in Eo, Enw. rewrite val_numeric_text, to_cents_cents in Eo.
    subst o n. exists id, a. cbv zeta. split_and!; [done|lra|done| | |].
    + cbn. rewrite Hw2. cbn. by rewrite val_numeric_text, to_cents_cents.
    + cbn. by apply to_cents_ge.
    + cbn. by rewrite Hw2.
  - intros Hne. apply bind_err in Hrun as [H1|(a0 & w1 & H1 & H)].
    + symmetry. exact (GetByEmployeeID_reads _ _ _ _ _ H1).
    + apply GetByEmployeeID_ok in H1 as (Hw1 & id & a & Ha & ->). cbn in H.
      destruct (decimal.LessThan limit _); [by injection H as _ <-|].
      apply bind_err in H as [H2|(up & w2 & _ & H)].
      * apply bind_err in H2 as [H2|(row & w2 & H2 & H3)].
        -- apply sql_err_db in H2. congruence.
        -- apply sql_ok in H2 as (d & H2 & -> & _).
           apply update_actuary_inv in H2 as [(-> & -> & _)|(? & ? & ? & _ & _ & _ & _ & -> & _)];
             [|discriminate]. injection H3 as _ <-. done.
      * exfalso. apply bind_err in H as [H|(? & ? & _ & H)]; [|discriminate].
        apply Hne. clear Hne. unfold InsertActuaryLimitAudit, sql in H.
        destruct (w_aborted w2); [congruence|]. destruct (env_fault e (w_step w2)); [congruence|].
        repeat destruct (store_cents _); congruence.
Qed.

Lemma IncrementUsedLimitAlways_ok emp (amount : decimal.t) e w act exceeded w' :
  IncrementUsedLimitAlways emp amount e w = (Ok (act, exceeded), w') ->
  exists id a, by_employee emp (w_db w) = Some (id, a) /\
    ai_ActuaryType a = ActuaryTypeAgent /\
    let n := to_cents (cents (ai_UsedLimit a) + decimal.StringFixed2 amount) in
    w_db w' = set_actuary_info (<[id := with_used n a]> (d_actuary_info (w_db w))) (w_db w) /\
    (exceeded = true <-> ai_Limit a < n).
Proof using LL.
  intros H. apply bind_ok in H as (row & w1 & H1 & H). apply sql_ok in H1 as (d & H1 & -> & _).
  apply increment_used_inv in H1 as [(-> & -> & _)|(id & a & Ha & Hag & Hg & _ & -> & ->)];
    [discriminate|].
  injection H as <- <- <-. exists id, a. cbv zeta. split_and!; [done..|].
  rewrite decimal.GreaterThan_spec. cbn. rewrite !val_numeric_text. apply cents_lt.
Qed.

(** The two ways to record spending.  [IncrementUsedLimitIfWithin] succeeds
    only for an agent whose new spending stays within the limit, and records it
    rounded to cents; [IncrementUsedLimitAlways] records it for any agent and
    its flag says whether the recorded spending now exceeds the limit.  Both
    change at most the spending of that one row; an error changes nothing. *)
Theorem increment_used_limit_spec (emp : Z) (amount : decimal.t) (e : Env) (w : World) :
  (forall r w', IncrementUsedLimitIfWithin emp amount e w = (r, w') ->
     match r with
     | Ok act => exists id a, by_employee emp (w_db w) = Some (id, a) /\
         ai_ActuaryType a = ActuaryTypeAgent /\
         let n := to_cents (cents (ai_UsedLimit a) + decimal.StringFixed2 amount) in
         w_db w' = set_actuary_info (<[id := with_used n a]> (d_actuary_info (w_db w))) (w_db w) /\
         n <= ai_Limit a
     | Err _ => w_db w' = w_db w
     end) /\
  (forall r w', IncrementUsedLimitAlways emp amount e w = (r, w') ->
     match r with
     | Ok (act, exceeded) => exists id a, by_employee emp (w_db w) = Some (id, a) /\
         ai_ActuaryType a = ActuaryTypeAgent /\
         let n := to_cents (cents (ai_UsedLimit a) + decimal.StringFixed2 amount) in
         w_db w' = set_actuary_info (<[id := with_used n a]> (d_actuary_info (w_db w))) (w_db w) /\
         (exceeded = true <-> ai_Limit a < n)
     | Err _ => w_db w' = w_db w
     end).
Proof using LL.
  split; intros r w' H.
  - destruct r as [act|er].
    + apply bind_ok in H as (row & w1 & H1 & H). apply sql_ok in H1 as (d & H1 & -> & _).
      apply increment_used_inv in H1 as [(-> & -> & _)|(id & a & Ha & Hag & Hg & _ & -> & ->)].
      * exfalso. apply bind_ok in H as (b & w2 & _ & H). by destruct b as [[]|].
      * injection H as _ <-. exists id, a. cbv zeta. split_and!; [done..|].
        apply to_cents_le. by apply Qle_bool_iff in Hg.
    + apply bind_err in H as [H|(row & w1 & H1 & H)]; [by apply sql_err_db in H|].
      apply sql_ok in H1 as (d & H1 & -> & _).
      apply increment_used_inv in H1 as [(-> & -> & _)|(id & a & _ & _ & _ & _ & -> & _)]; [|discriminate].
      apply bind_err in H as [H|(b & w2 & H2 & H)];
        [apply try_run in H as (r0 & [=] & _)|].
      apply try_run in H2 as (r0 & [= ->] & H2).
      assert (w_db w2 = w_db w) by (symmetry; exact (preserves_sql_read eq _ _ _ _ _ H2)).
      destruct r0 as [[]|]; injection H as _ <-; done.
  - destruct r as [[act b]|er].
    + by apply IncrementUsedLimitAlways_ok in H.
    + apply bind_err in H as [H|(row & w1 & H1 & H)]; [by apply sql_err_db in H|].
      apply sql_ok in H1 as (d & H1 & -> & _).
      apply increment_used_inv in H1 as [(-> & -> & _)|(id & a & _ & _ & _ & _ & -> & _)];
        [by injection H as _ <-|discriminate].
Qed.
End limits.

(** ** Examples *)

Import decimal_model scenario.

(** The agent's limit of 100000.00 is raised to 150000.00 by the supervisor. *)
Lemma set_agent_limit_spec_witness :
  is_ok (SetAgentLimit 6 5 (dec 150000 0) quiet w0).1 = true /\
  exists id a, by_employee 5 (w_db w0) = Some (id, a) /\
    (cents (ai_UsedLimit a) <= decimal.val (dec 150000 0))%Q.
Proof.
  assert (Hok : is_ok (SetAgentLimit 6 5 (dec 150000 0) quiet w0).1 = true) by (vm_compute; reflexivity).
  split; [exact Hok|].
  pose proof (set_agent_limit_spec 6 5 (dec 150000 0) quiet w0
              (SetAgentLimit 6 5 (dec 150000 0) quiet w0).1 (SetAgentLimit 6 5 (dec 150000 0) quiet w0).2
              (surjective_pairing _)) as H.
  destruct (SetAgentLimit 6 5 (dec 150000 0) quiet w0).1 as [act|er]; [|discriminate].
  destruct H as (id & a & H1 & _ & H2 & _). exists id, a. split; [exact H1|exact H2].
Defined.

(** A database whose third statement fails. *)
Definition third_fails : Env :=
  mkEnv (fun n => Nat.eqb n 2) (env_listing quiet) (env_daily_change quiet) (env_mid_rates quiet)
    (env_market_status quiet) (env_rand quiet) (env_rand_float quiet) (env_now quiet)
    (env_ctx_done quiet) (env_row_choice quiet) (env_price_tick quiet) (env_interference quiet)
    (env_json quiet) (env_ticker quiet) (env_uuid quiet) (env_peer quiet) (env_listing_row quiet).

(** The limit and its audit row are not one transaction.  When the INSERT of
    the audit row fails, [SetAgentLimit] reports an error but the new limit stays
    in force without any trace in the audit table. *)
Theorem set_agent_limit_not_atomic :
  exists e w', is_ok (SetAgentLimit 6 5 (dec 150000 0) e w0).1 = false /\
    (SetAgentLimit 6 5 (dec 150000 0) e w0).2 = w' /\
    (ai_Limit <$> d_actuary_info (w_db w0) !! 1) = Some 10000000 /\
    (ai_Limit <$> d_actuary_info (w_db w') !! 1) = Some 15000000 /\
    d_actuary_limit_audit (w_db w') = [].
Proof.
  exists third_fails. eexists. split; [|split; [reflexivity|]]; vm_compute; auto.
Qed.
