(* ===== verification/TradingService.v ===== *)
(** * The trading service ([trading/service.go])

    [tradingService] over the interfaces of its dependencies: the order
    repository, the listing service, the actuary repository, the margin checker
    and the funds manager.  The argument [ctx] is the context's is_client flag,
    which the service passes on to the funds manager.  A log line is nothing. *)

From S2P Require Import Prelude Numeric Domain Store StoreFacts Calculations OrderRepo.
From S2P Require Import Market Interfaces Actuaries.
#[local] Open Scope Z_scope.

Section service.
Context `{DL : decimal.Lib} {FM : FundsManager} {MC : MarginChecker}.

(** ** Prices *)

(** Ask to buy, Bid to sell. *)
Definition live_price (direction : OrderDirection) (l : ListingCalculated) : decimal.t :=
  match direction with
  | OrderDirectionBuy => decimal.NewFromFloat (l_Ask (lc_Listing l))
  | _ => decimal.NewFromFloat (l_Bid (lc_Listing l))
  end.

Definition calculateMarket (req : OrderCalculationRequest) : M OrderCalculationResponse :=
  listing ← GetListingByID (ocr_ListingID req);
  let pricePerUnit := live_price (ocr_Direction req) listing in
  let '(notional, commission) := calcMarketOrder (ocr_ContractSize req) pricePerUnit (ocr_Quantity req) in
  mret (mkOrderCalculationResponse pricePerUnit notional commission None).

Definition calculateLimit (req : OrderCalculationRequest) : M OrderCalculationResponse :=
  match ocr_PricePerUnit req with
  | None => throw ErrLimitPriceRequired
  | Some p =>
      let '(notional, commission) := calcLimitOrder (ocr_ContractSize req) p (ocr_Quantity req) in
      mret (mkOrderCalculationResponse p notional commission None)
  end.

Definition calculateStop (req : OrderCalculationRequest) : M OrderCalculationResponse :=
  match ocr_StopPrice req with
  | None => throw ErrStopPriceRequired
  | Some p =>
      let '(notional, commission) := calcStopOrder (ocr_ContractSize req) p (ocr_Quantity req) in
      mret (mkOrderCalculationResponse p notional commission None)
  end.

Definition calculateStopLimit (req : OrderCalculationRequest) : M OrderCalculationResponse :=
  match ocr_StopPrice req, ocr_PricePerUnit req with
  | None, _ => throw ErrStopPriceRequired
  | Some _, None => throw ErrLimitPriceRequired
  | Some _, Some p =>
      let '(notional, commission) := calcStopLimitOrder (ocr_ContractSize req) p (ocr_Quantity req) in
      mret (mkOrderCalculationResponse p notional commission None)
  end.

Definition initialMarginCostForListing (listingID : Z) : M decimal.t :=
  listing ← GetListingByID listingID;
  mret (CalcInitialMarginCost (decimal.NewFromFloat (lc_MaintenanceMargin listing))).

Definition valid_direction (d : OrderDirection) : bool :=
  match d with OrderDirectionBuy | OrderDirectionSell => true | OtherDirection _ => false end.

Definition CalculateOrderDetails (req : OrderCalculationRequest) : M OrderCalculationResponse :=
  if negb (valid_direction (ocr_Direction req)) then throw ErrInvalidDirection
  else
    resp ← match ocr_OrderType req with
           | OrderTypeMarket => calculateMarket req
           | OrderTypeLimit => calculateLimit req
           | OrderTypeStop => calculateStop req
           | OrderTypeStopLimit => calculateStopLimit req
           | OtherOrderType _ => throw ErrInvalidOrderType
           end;
    if ocr_Margin req then
      imc ← initialMarginCostForListing (ocr_ListingID req);
      mret (mkOrderCalculationResponse (ocp_PricePerUnit resp) (ocp_ApproximatePrice resp)
              (ocp_Commission resp) (Some imc))
    else mret resp.

(** ** Validation *)

Definition validateOrderTypeFields (req : CreateOrderRequest) : M unit :=
  match req_OrderType req with
  | OrderTypeMarket => mret tt
  | OrderTypeLimit =>
      match req_PricePerUnit req with None => throw ErrLimitPriceRequired | Some _ => mret tt end
  | OrderTypeStop =>
      match req_StopPrice req with None => throw ErrStopPriceRequired | Some _ => mret tt end
  | OrderTypeStopLimit =>
      match req_StopPrice req, req_PricePerUnit req with
      | None, _ => throw ErrStopPriceRequired
      | _, None => throw ErrLimitPriceRequired
      | _, _ => mret tt
      end
  | OtherOrderType _ => throw ErrInvalidOrderType
  end.

Definition validateSellOwnership (req : CreateOrderRequest) : M unit :=
  net ← GetNetHoldings (req_UserID req) (req_ListingID req);
  let needed := req_Quantity req in
  if net <? needed then throw ErrInsufficientHoldings else mret tt.

Definition validateForexSellBalance (req : CreateOrderRequest) : M unit :=
  if negb (req_IsClient req) then mret tt
  else
    let needed := decimal.NewFromInt (req_Quantity req * req_ContractSize req) in
    ok ← fm_HasSufficientFreeBalance (req_AccountID req) needed;
    if (ok : bool) then mret tt else throw ErrInsufficientFunds.

(** A nil [PricePerUnit] or [StopPrice] would be dereferenced here. *)
Definition resolveNotional (req : CreateOrderRequest) : M decimal.t :=
  match req_OrderType req with
  | OrderTypeMarket =>
      listing ← GetListingByID (req_ListingID req);
      mret (approxPrice (req_ContractSize req) (live_price (req_Direction req) listing) (req_Quantity req))
  | OrderTypeLimit | OrderTypeStopLimit =>
      match req_PricePerUnit req with
      | Some p => mret (approxPrice (req_ContractSize req) p (req_Quantity req))
      | None => throw Panic
      end
  | OrderTypeStop =>
      match req_StopPrice req with
      | Some p => mret (approxPrice (req_ContractSize req) p (req_Quantity req))
      | None => throw Panic
      end
  | OtherOrderType _ => throw ErrInvalidOrderType
  end.

(** The schedule an order type is charged by. *)
Definition commission_of (ot : OrderType) (notional : decimal.t) : decimal.t :=
  match ot with
  | OrderTypeMarket | OrderTypeStop => CalcMarketCommission notional
  | OrderTypeLimit | OrderTypeStopLimit => CalcLimitCommission notional
  | OtherOrderType _ => decimal.Zero
  end.

Definition resolveTotalBuyDebitUSD (req : CreateOrderRequest) : M decimal.t :=
  notional ← resolveNotional req;
  mret (decimal.Add notional (commission_of (req_OrderType req) notional)).

Definition validateSufficientFunds (ctx : bool) (req : CreateOrderRequest) : M unit :=
  totalUSD ← resolveTotalBuyDebitUSD req;
  ok ← fm_HasSufficientFunds ctx (req_AccountID req) totalUSD;
  if (ok : bool) then mret tt else throw ErrInsufficientFunds.

Definition validateMargin (req : CreateOrderRequest) : M unit :=
  imc ← initialMarginCostForListing (req_ListingID req);
  if negb (req_IsClient req) then
    trezorOK ← mc_HasSufficientMarginTrezor "USD" imc;
    if (trezorOK : bool) then mret tt else throw ErrInsufficientMargin
  else
    credit ← try (mc_HasApprovedCreditForMargin (req_UserID req) imc);
    if match credit with Ok b => b | Err _ => false end then mret tt
    else
      balanceOK ← mc_HasSufficientMargin (req_AccountID req) imc;
      if (balanceOK : bool) then mret tt else throw ErrInsufficientMargin.

(** ** The approval workflow *)

Definition resolveStatus (req : CreateOrderRequest) : M OrderStatus :=
  if req_IsSupervisor req then mret OrderStatusApproved
  else
    r ← try (GetByEmployeeID (req_UserID req));
    match r with
    | Err ErrActuaryNotFound => mret OrderStatusApproved
    | Err er => throw er
    | Ok actuary =>
        match act_ActuaryType actuary with
        | ActuaryTypeSupervisor => mret OrderStatusApproved
        | ActuaryTypeAgent =>
            notional ← resolveNotional req;
            conv ← try (fm_ConvertUSDToRSD notional);
            let notionalRSD := match conv with Ok x => x | Err _ => notional end in
            if act_NeedApproval actuary then
              try (IncrementUsedLimitAlways (req_UserID req) notionalRSD) ;;
              mret OrderStatusPending
            else
              inc ← try (IncrementUsedLimitAlways (req_UserID req) notionalRSD);
              match inc with
              | Err ErrActuaryNotFound => mret OrderStatusApproved
              | Err er => throw er
              | Ok (_, exceeded) =>
                  mret (if (exceeded : bool) then OrderStatusPending else OrderStatusApproved)
              end
        end
    end.

(** ** Reservations *)

Definition computeNotional (order : Order) (qty : Z) : M decimal.t :=
  match o_OrderType order with
  | OrderTypeMarket =>
      listing ← GetListingByID (o_ListingID order);
      mret (approxPrice (o_ContractSize order) (live_price (o_Direction order) listing) qty)
  | OrderTypeLimit | OrderTypeStopLimit =>
      match o_PricePerUnit order with
      | None => throw ErrLimitPriceRequired
      | Some p => mret (approxPrice (o_ContractSize order) p qty)
      end
  | OrderTypeStop =>
      match o_StopPrice order with
      | None => throw ErrStopPriceRequired
      | Some p => mret (approxPrice (o_ContractSize order) p qty)
      end
  | OtherOrderType _ => throw ErrInvalidOrderType
  end.

Definition computeNotionalPlusCommission (order : Order) (qty : Z) : M decimal.t :=
  n ← computeNotional order qty;
  mret (decimal.Add n (commission_of (o_OrderType order) n)).

(** The dollars an order of [qty] contracts holds on the account. *)
Definition reserved_usd (order : Order) (qty : Z) : M decimal.t :=
  if o_IsClient order then computeNotionalPlusCommission order qty else computeNotional order qty.

Definition is_buy (d : OrderDirection) : bool :=
  match d with OrderDirectionBuy => true | _ => false end.

Definition reserveFundsForOrder (ctx : bool) (order : Order) : M unit :=
  if negb (is_buy (o_Direction order)) then mret tt
  else
    total ← reserved_usd order (o_Quantity order);
    fm_ReserveFunds ctx (o_AccountID order) total.

Definition getForexQuoteCurrency (listingID : Z) : M string :=
  listing ← GetListingByID listingID;
  js ← the_json;
  match json_forex js (l_DetailsJSON (lc_Listing listing)) with
  | None => throw (ErrMsg "forex details")
  | Some (_, quote) =>
      if String.eqb quote EmptyString then throw (ErrMsg "no quote_currency") else mret quote
  end.

Definition forex_rate (order : Order) : M decimal.t :=
  match o_OrderType order with
  | OrderTypeMarket | OrderTypeStop =>
      listing ← GetListingByID (o_ListingID order);
      mret (decimal.NewFromFloat (l_Ask (lc_Listing listing)))
  | OrderTypeLimit | OrderTypeStopLimit =>
      match o_PricePerUnit order with
      | None => throw ErrLimitPriceRequired
      | Some p => mret p
      end
  | OtherOrderType _ => throw ErrInvalidOrderType
  end.

Definition forex_debit (order : Order) (qty : Z) (rate : decimal.t) : decimal.t :=
  let nominalBase := decimal.Mul (decimal.NewFromInt (o_ContractSize order)) (decimal.NewFromInt qty) in
  decimal.Mul nominalBase rate.

Definition reserveForexFundsForOrder (ctx : bool) (order : Order) : M unit :=
  quoteCurrency ← getForexQuoteCurrency (o_ListingID order);
  rate ← forex_rate order;
  if decimal.IsZero rate then throw (ErrMsg "rate is zero")
  else fm_ReserveForexFunds ctx (o_UserID order) (o_AccountID order) quoteCurrency
         (forex_debit order (o_Quantity order) rate).

Definition releaseForexFundsForOrder (ctx : bool) (order : Order) : M unit :=
  quoteCurrency ← getForexQuoteCurrency (o_ListingID order);
  rate ← forex_rate order;
  if decimal.IsZero rate then mret tt
  else fm_ReleaseForexFunds ctx (o_UserID order) (o_AccountID order) quoteCurrency
         (forex_debit order (o_RemainingPortions order) rate).

Definition releaseFundsForOrder (ctx : bool) (order : Order) : M unit :=
  if negb (is_buy (o_Direction order)) then mret tt
  else
    listing ← try (GetListingByID (o_ListingID order));
    if match listing with
       | Ok l => bool_decide (l_ListingType (lc_Listing l) = ListingTypeForex)
       | Err _ => false
       end
    then releaseForexFundsForOrder ctx order
    else
      total ← reserved_usd order (o_RemainingPortions order);
      fm_ReleaseFunds ctx (o_AccountID order) total.

(** ** Requests *)

(** The checks of [CreateOrder] between the expiry fast-path and the approval
    workflow. *)
Definition validate_order (ctx : bool) (req : CreateOrderRequest) : M unit :=
  (if valid_direction (req_Direction req) then mret tt else throw ErrInvalidDirection) ;;
  validateOrderTypeFields req ;;
  (match req_Direction req with
   | OrderDirectionSell =>
       if req_IsForex req then validateForexSellBalance req else validateSellOwnership req
   | _ => mret tt
   end) ;;
  (if is_buy (req_Direction req) && negb (req_Margin req) && negb (req_IsForex req)
   then validateSufficientFunds ctx req else mret tt) ;;
  if req_Margin req then
    match req_Direction req with
    | OrderDirectionSell => throw (ErrMsg "margin se koristi samo pri kupovini")
    | _ => validateMargin req
    end
  else mret tt.

Definition CreateOrder (ctx : bool) (req : CreateOrderRequest) : M Order :=
  if req_SettlementExpired req then Create req OrderStatusDeclined
  else
    validate_order ctx req ;;
    status ← resolveStatus req;
    order ← Create req status;
    if is_buy (req_Direction req) then
      r ← try (if req_IsForex req then reserveForexFundsForOrder ctx order
               else reserveFundsForOrder ctx order);
      match r with
      | Err er => try (Cancel (o_ID order)) ;; throw er
      | Ok _ => mret order
      end
    else mret order.

Definition ListOrders (statusFilter : option OrderStatus) : M (list Order) := ListByStatus statusFilter.

Definition ListOrdersByUser (userID : Z) (statusFilter : option OrderStatus) : M (list Order) :=
  ListByUserID userID statusFilter.

Definition ApproveOrder (orderID supervisorID : Z) : M Order :=
  order ← GetByID orderID;
  if negb (bool_decide (o_Status order = OrderStatusPending)) then throw ErrInvalidOrderState
  else UpdateStatus orderID OrderStatusApproved (Some (ApprovedByUser supervisorID)).

Definition DeclineOrder (ctx : bool) (orderID supervisorID : Z) : M Order :=
  order ← GetByID orderID;
  if negb (bool_decide (o_Status order = OrderStatusPending)) then throw ErrInvalidOrderState
  else
    updated ← UpdateStatus orderID OrderStatusDeclined (Some (ApprovedByUser supervisorID));
    (if is_buy (o_Direction order) then try (releaseFundsForOrder ctx order) ;; mret tt
     else mret tt) ;;
    mret updated.

Definition isSupervisor (userID : Z) : M bool :=
  r ← try (GetByEmployeeID userID);
  match r with
  | Err ErrActuaryNotFound => mret false
  | Err er => throw er
  | Ok actuary => mret (bool_decide (act_ActuaryType actuary = ActuaryTypeSupervisor))
  end.

Definition cancelable (order : Order) : bool :=
  (bool_decide (o_Status order = OrderStatusPending) ||
   bool_decide (o_Status order = OrderStatusApproved)) && negb (o_IsDone order).

Definition CancelOrder (ctx : bool) (orderID requestedBy : Z) (callerIsSupervisor : bool) : M Order :=
  order ← GetByID orderID;
  (if negb (o_UserID order =? requestedBy) && negb callerIsSupervisor then
     isSuper ← isSupervisor requestedBy;
     if (isSuper : bool) then mret tt else throw ErrPermissionDenied
   else mret tt) ;;
  if negb (cancelable order) then throw ErrInvalidOrderState
  else
    canceled ← Cancel orderID;
    (if is_buy (o_Direction order) then try (releaseFundsForOrder ctx order) ;; mret tt
     else mret tt) ;;
    mret canceled.
End service.
