(* ===== verification/ServiceFacts.v ===== *)
(** * The trading service refines the order lifecycle

    Every request moves the order tables along [market_step] only, whatever
    statement fails and whatever the funds manager does: orders are placed
    covered, and only the transitions of [Lifecycle] happen.  Then the outcome of
    each request in terms of the row it works on. *)

From stdpp Require Import relations.
From S2P Require Import Prelude Numeric DecimalModel Domain Store StoreFacts Calculations.
From S2P Require Import OrderRepo OrderRepoFacts Lifecycle Market Interfaces Actuaries.
From S2P Require Import TradingService.
#[local] Open Scope Z_scope.

(** ** Steps of the abstract machine *)

Section machine.
Context (is_forex : Z -> bool).

Lemma evolves_tables d d' : same order_tables d d' -> evolves is_forex d d'.
Proof.
  intros H. apply evolves_same. unfold view.
  by rewrite (same_order_orders _ _ H), (same_order_txs _ _ H).
Qed.

Lemma evolves_eq d d' : d = d' -> evolves is_forex d d'.
Proof. intros ->. reflexivity. Qed.

Lemma evolves_row id f d d' :
  row_written id f d d' -> same d_order_transactions d d' ->
  (forall m, d_orders d !! id = Some m -> order_step m (f m)) -> evolves is_forex d d'.
Proof.
  unfold same. intros [Ho|(m & Hm & Ho)] Ht Hs.
  - apply evolves_same. unfold view. congruence.
  - apply rtc_once. unfold view. rewrite Ho, Ht. apply (market_row _ _ _ _ m); auto.
Qed.

Lemma evolves_create id m d d' :
  d_orders d !! id = None -> initial m -> covered is_forex (d_orders d) m ->
  d_orders d' = <[id := m]> (d_orders d) -> same d_order_transactions d d' -> evolves is_forex d d'.
Proof.
  unfold same. intros Hid Hi Hc Ho Ht. apply rtc_once. unfold view. rewrite Ho, Ht.
  by apply market_create.
Qed.
End machine.

Section frames.
Context `{DL : decimal.Lib} {FM : FundsManager} {MC : MarginChecker}.
Context `{FML : !FundsManagerLaws FM} `{MCL : !MarginCheckerLaws MC}.

Lemma resolveNotional_reads req : reads (resolveNotional req).
Proof. unfold resolveNotional. solve_reads. Qed.
Lemma computeNotional_reads o n : reads (computeNotional o n).
Proof. unfold computeNotional. solve_reads. Qed.
Lemma forex_rate_reads o : reads (forex_rate o).
Proof. unfold forex_rate. solve_reads. Qed.
Lemma getForexQuoteCurrency_reads l : reads (getForexQuoteCurrency l).
Proof. unfold getForexQuoteCurrency. solve_reads. Qed.
Lemma isSupervisor_reads u : reads (isSupervisor u).
Proof. unfold isSupervisor. solve_reads. Qed.
Hint Resolve resolveNotional_reads computeNotional_reads forex_rate_reads
  getForexQuoteCurrency_reads isSupervisor_reads : reads.

Lemma reserved_usd_reads o n : reads (reserved_usd o n).
Proof. unfold reserved_usd, computeNotionalPlusCommission. solve_reads. Qed.
Lemma validateMargin_reads req : reads (validateMargin req).
Proof. unfold validateMargin, initialMarginCostForListing. solve_reads. Qed.
Lemma validateSufficientFunds_reads c req : reads (validateSufficientFunds c req).
Proof. unfold validateSufficientFunds, resolveTotalBuyDebitUSD. solve_reads. Qed.
Lemma validateSellOwnership_reads req : reads (validateSellOwnership req).
Proof. unfold validateSellOwnership. solve_reads. Qed.
Lemma validateForexSellBalance_reads req : reads (validateForexSellBalance req).
Proof. unfold validateForexSellBalance. solve_reads. Qed.
Lemma validateOrderTypeFields_reads req : reads (validateOrderTypeFields req).
Proof. unfold validateOrderTypeFields. solve_reads. Qed.
Hint Resolve reserved_usd_reads validateMargin_reads validateSufficientFunds_reads
  validateSellOwnership_reads validateForexSellBalance_reads validateOrderTypeFields_reads : reads.

Lemma validate_order_reads c req : reads (validate_order c req).
Proof. unfold validate_order. solve_reads. Qed.

Lemma resolveStatus_orders req : preserves (same order_tables) (resolveStatus req).
Proof. unfold resolveStatus. solve_preserves. Qed.

Lemma reserveFundsForOrder_orders c o : preserves (same order_tables) (reserveFundsForOrder c o).
Proof. unfold reserveFundsForOrder. solve_preserves. Qed.
Lemma reserveForexFundsForOrder_orders c o :
  preserves (same order_tables) (reserveForexFundsForOrder c o).
Proof. unfold reserveForexFundsForOrder. solve_preserves. Qed.
Lemma releaseForexFundsForOrder_orders c o :
  preserves (same order_tables) (releaseForexFundsForOrder c o).
Proof. unfold releaseForexFundsForOrder. solve_preserves. Qed.
Hint Resolve releaseForexFundsForOrder_orders : preserves.
Lemma releaseFundsForOrder_orders c o : preserves (same order_tables) (releaseFundsForOrder c o).
Proof. unfold releaseFundsForOrder. solve_preserves. Qed.

(** A refused reservation leaves the database alone. *)
Lemma reserveFundsForOrder_refuses c o : refuses (reserveFundsForOrder c o).
Proof.
  unfold reserveFundsForOrder. destruct (negb _); [by intros e w er w' [=]|].
  intros e w er w' H. apply bind_err in H as [H|(x & w1 & H1 & H)].
  - symmetry. exact (reserved_usd_reads _ _ _ _ _ _ H).
  - rewrite (fm_ReserveFunds_refuses _ _ _ _ _ _ _ H). symmetry.
    exact (reserved_usd_reads _ _ _ _ _ _ H1).
Qed.
End frames.

#[export] Hint Resolve resolveNotional_reads computeNotional_reads isSupervisor_reads
  validate_order_reads : reads.
#[export] Hint Resolve resolveStatus_orders reserveFundsForOrder_orders
  reserveForexFundsForOrder_orders releaseFundsForOrder_orders : preserves.

(** ** Placing an order *)

Section create.
Context `{DL : decimal.Lib} {FM : FundsManager} {MC : MarginChecker}.
Context `{FML : !FundsManagerLaws FM} `{MCL : !MarginCheckerLaws MC}.

(** A sale outside the currency pairs passed the ownership check. *)
Lemma validate_order_sell c req e w w' :
  validate_order c req e w = (Ok tt, w') -> req_Direction req = OrderDirectionSell ->
  req_IsForex req = false ->
  req_Quantity req <= net_of (req_UserID req) (req_ListingID req) (d_orders (w_db w)).
Proof.
  intros H Hd Hf. unfold validate_order in H. rewrite Hd, Hf in H. cbn in H.
  apply bind_ok in H as ([] & w1 & [= <-] & H).
  apply bind_ok in H as ([] & w2 & H2 & H).
  assert (Hw2 : w_db w2 = w_db w)
    by (symmetry; exact (validateOrderTypeFields_reads _ _ _ _ _ H2)).
  apply bind_ok in H as ([] & w3 & H3 & _). unfold validateSellOwnership in H3.
  apply bind_ok in H3 as (net & w4 & H4 & H3). apply sql_ok in H4 as (d & [= H4 _] & _ & _).
  destruct (Z.ltb_spec net (req_Quantity req)) as [|Hn]; [discriminate|].
  unfold net_holdings in H4. rewrite Hw2 in H4. lia.
Qed.

Lemma resolveStatus_ok req e w st w' :
  resolveStatus req e w = (Ok st, w') -> st = OrderStatusPending \/ st = OrderStatusApproved.
Proof.
  unfold resolveStatus. destruct (req_IsSupervisor req); [intros [= <- _]; auto|].
  intros H. apply bind_ok in H as (r & w1 & _ & H).
  destruct r as [act|er]; [|destruct er; try discriminate; injection H as <- _; auto].
  destruct (act_ActuaryType act); [injection H as <- _; auto|].
  apply bind_ok in H as (n & w2 & _ & H). apply bind_ok in H as (cv & w3 & _ & H).
  cbv zeta in H. destruct (act_NeedApproval act).
  - apply bind_ok in H as (x & w4 & _ & H). injection H as <- _. auto.
  - apply bind_ok in H as (x & w4 & _ & H).
    destruct x as [[a b]|er]; [|destruct er; try discriminate; injection H as <- _; auto].
    injection H as <- _. destruct b; auto.
Qed.

Lemma create_model_initial req st ppu sp now d :
  orders_check (create_model req st ppu sp now) d = true ->
  st = OrderStatusPending \/ st = OrderStatusApproved \/ st = OrderStatusDeclined ->
  initial (create_model req st ppu sp now).
Proof.
  unfold orders_check. rewrite !andb_true_iff. intros H Hst. cbn in H.
  unfold initial. cbn. split_and!; try done; lia.
Qed.

(** [Create] with a status the workflow allows, on covered sales. *)
Lemma Create_evolves is_forex req st e w r w' :
  st = OrderStatusPending \/ st = OrderStatusApproved \/ st = OrderStatusDeclined ->
  (req_Direction req = OrderDirectionSell -> st <> OrderStatusDeclined ->
   is_forex (req_ListingID req) = false ->
   req_Quantity req <= net_of (req_UserID req) (req_ListingID req) (d_orders (w_db w))) ->
  Create req st e w = (r, w') -> evolves is_forex (w_db w) (w_db w').
Proof.
  intros Hst Hc H. pose proof (Create_txs req st _ _ _ _ H) as Ht.
  apply Create_any in H as [Ho|(id & m & ppu & sp & now & Hid & Hck & -> & Ho)].
  - apply evolves_same. unfold view. unfold same in Ht. congruence.
  - eapply evolves_create; eauto using create_model_initial.
Qed.

Definition finish_order (c : bool) (req : CreateOrderRequest) (order : Order) : M Order :=
  if is_buy (req_Direction req) then
    r ← try (if req_IsForex req then reserveForexFundsForOrder c order
             else reserveFundsForOrder c order);
    match r with
    | Err er => try (Cancel (o_ID order)) ;; throw er
    | Ok _ => mret order
    end
  else mret order.

(** The reservation step: the new order stays, or is cancelled. *)
Lemma finish_order_evolves is_forex c req order m e w r w' :
  d_orders (w_db w) !! o_ID order = Some m -> active m ->
  finish_order c req order e w = (r, w') -> evolves is_forex (w_db w) (w_db w').
Proof.
  intros Hm Ha. unfold finish_order. destruct (is_buy _); [|intros [= _ <-]; reflexivity].
  intros H. apply try_bind in H as (r0 & w1 & E & H).
  assert (Ht : same order_tables (w_db w) (w_db w1)).
  { destruct (req_IsForex req);
      [exact (reserveForexFundsForOrder_orders _ _ _ _ _ _ E)
      |exact (reserveFundsForOrder_orders _ _ _ _ _ _ E)]. }
  transitivity (w_db w1); [by apply evolves_tables|].
  destruct r0 as [[]|er]; [injection H as _ <-; reflexivity|].
  apply try_bind in H as (r2 & w2 & Ec & H). injection H as _ <-.
  eapply evolves_row; [exact (Cancel_any _ _ _ _ _ Ec)|exact (Cancel_txs _ _ _ _ _ Ec)|].
  intros m' Hm'. rewrite (same_order_orders _ _ Ht), Hm in Hm'. injection Hm' as <-.
  by apply step_cancel.
Qed.

Lemma CreateOrder_evolves is_forex c req :
  is_forex (req_ListingID req) = req_IsForex req ->
  preserves (evolves is_forex) (CreateOrder c req).
Proof.
  intros Hfx e w r w' H. unfold CreateOrder in H.
  destruct (req_SettlementExpired req).
  { eapply Create_evolves; [|intros _ []|exact H]; auto. }
  apply bind_cases in H as [([] & w1 & E1 & H)|(er & _ & E1)];
    pose proof (validate_order_reads _ _ _ _ _ _ E1) as Hw1; [|by apply evolves_eq].
  apply bind_cases in H as [(st & w2 & E2 & H)|(er & _ & E2)];
    pose proof (resolveStatus_orders _ _ _ _ _ E2) as Hw2; rewrite <- Hw1 in Hw2;
    [|by apply evolves_tables].
  apply resolveStatus_ok in E2. transitivity (w_db w2); [by apply evolves_tables|].
  assert (Hev : forall ro w3, Create req st e w2 = (ro, w3) -> evolves is_forex (w_db w2) (w_db w3)).
  { intros ro w3 E3. apply (Create_evolves is_forex req st e w2 ro); [tauto| |exact E3]. intros Hd _ Hf.
    rewrite (same_order_orders _ _ Hw2). eapply validate_order_sell; eauto. }
  apply bind_cases in H as [(order & w3 & E3 & H)|(er & _ & E3)]; [|by eapply Hev].
  transitivity (w_db w3); [by eapply Hev|].
  apply Create_ok in E3 as (id & m & ppu & sp & now & _ & _ & -> & Ho & ->).
  eapply finish_order_evolves; [| |exact H].
  - cbn. rewrite Ho. apply lookup_insert_eq.
  - split; [cbn; tauto|done].
Qed.
End create.

(** ** Approving, declining, cancelling *)

Section requests.
Context `{DL : decimal.Lib} {FM : FundsManager} {MC : MarginChecker}.
Context `{FML : !FundsManagerLaws FM} `{MCL : !MarginCheckerLaws MC}.

(** The release that ends a request swallows its error. *)
Definition release_then (ctx : bool) (order updated : Order) : M Order :=
  (if is_buy (o_Direction order) then try (releaseFundsForOrder ctx order) ;; mret tt else mret tt) ;;
  mret updated.

Lemma release_then_run ctx order updated e w r w' :
  release_then ctx order updated e w = (r, w') ->
  r = Ok updated /\ same order_tables (w_db w) (w_db w').
Proof.
  unfold release_then. destruct (is_buy _).
  - intros H. apply bind_cases in H as [([] & w1 & H1 & H)|(er & -> & H1)].
    + apply try_bind in H1 as (r0 & w2 & H1 & H2). injection H2 as <-. injection H as <- <-.
      split; [done|]. exact (releaseFundsForOrder_orders _ _ _ _ _ _ H1).
    + apply try_bind in H1 as (r0 & w2 & _ & [=]).
  - intros [= <- <-]. split; [done|reflexivity].
Qed.

(** "Read the row, check it, write it, release": what is left in the tables. *)
Lemma guarded_write_evolves is_forex ctx id f (ok : Order -> bool) (write : M Order) e w r w' :
  (forall m, ok (toDomain id m) = true -> order_step m (f m)) ->
  (forall e w r w', write e w = (r, w') -> row_written id f (w_db w) (w_db w')) ->
  preserves (same d_order_transactions) write ->
  (order ← GetByID id;
   if negb (ok order) then throw ErrInvalidOrderState
   else updated ← write; release_then ctx order updated) e w = (r, w') ->
  evolves is_forex (w_db w) (w_db w').
Proof.
  intros Hok Hw Ht H.
  apply bind_cases in H as [(order & w1 & H1 & H)|(er & _ & H1)].
  2: { apply evolves_eq. exact (GetByID_reads _ _ _ _ _ H1). }
  apply GetByID_ok in H1 as (Hw1 & m & Hm & ->).
  destruct (ok (toDomain id m)) eqn:E; cbn [negb] in H;
    [|injection H as _ <-; by apply evolves_eq].
  assert (Hev : forall ro w2, write e w1 = (ro, w2) -> evolves is_forex (w_db w) (w_db w2)).
  { intros ro w2 H2. pose proof (Hw _ _ _ _ H2) as Hr. pose proof (Ht _ _ _ _ H2) as Htx.
    rewrite Hw1 in Hr, Htx. eapply evolves_row; [exact Hr|exact Htx|].
    intros m' Hm'. rewrite Hm in Hm'. injection Hm' as <-. auto. }
  apply bind_cases in H as [(up & w2 & H2 & H)|(er & _ & H2)]; [|by eapply Hev].
  transitivity (w_db w2); [by eapply Hev|].
  apply release_then_run in H as [_ H]. by apply evolves_tables.
Qed.

Definition is_pending (o : Order) : bool := bool_decide (o_Status o = OrderStatusPending).

Lemma ApproveOrder_evolves is_forex id sup : preserves (evolves is_forex) (ApproveOrder id sup).
Proof.
  intros e w r w' H. unfold ApproveOrder in H.
  apply bind_cases in H as [(order & w1 & H1 & H)|(er & _ & H1)].
  2: { apply evolves_eq. exact (GetByID_reads _ _ _ _ _ H1). }
  apply GetByID_ok in H1 as (Hw1 & m & Hm & ->).
  case_bool_decide as Hp; cbn [negb] in H; [|injection H as _ <-; by apply evolves_eq].
  pose proof (UpdateStatus_any _ _ _ _ _ _ _ H) as Hr.
  pose proof (UpdateStatus_txs _ _ _ _ _ _ _ H) as Ht. rewrite Hw1 in Hr, Ht.
  eapply evolves_row; [exact Hr|exact Ht|]. intros m' Hm'. rewrite Hm in Hm'. injection Hm' as <-.
  by apply step_approve.
Qed.

Lemma DeclineOrder_evolves is_forex ctx id sup : preserves (evolves is_forex) (DeclineOrder ctx id sup).
Proof.
  intros e w r w' H.
  apply (guarded_write_evolves is_forex ctx id
           (with_status OrderStatusDeclined (Some (ApprovedByUser sup))) is_pending
           (UpdateStatus id OrderStatusDeclined (Some (ApprovedByUser sup))) e w r w');
    [|apply UpdateStatus_any|apply UpdateStatus_txs|exact H].
  intros m Hp. apply bool_decide_eq_true in Hp. apply step_decline. by left.
Qed.

Lemma cancelable_active id m : cancelable (toDomain id m) = true -> active m.
Proof.
  unfold cancelable, active. rewrite andb_true_iff, orb_true_iff, !bool_decide_eq_true, negb_true_iff.
  done.
Qed.

Lemma CancelOrder_evolves is_forex ctx id by_ super :
  preserves (evolves is_forex) (CancelOrder ctx id by_ super).
Proof.
  intros e w r w' H. unfold CancelOrder in H.
  apply bind_cases in H as [(order & w1 & H1 & H)|(er & _ & H1)].
  2: { apply evolves_eq. exact (GetByID_reads _ _ _ _ _ H1). }
  apply GetByID_ok in H1 as (Hw1 & m & Hm & ->).
  set (perm := (if negb (o_UserID _ =? by_) && _ then _ else _) : M unit) in H.
  assert (Hperm : reads perm) by (unfold perm; solve_reads).
  apply bind_cases in H as [([] & w2 & H2 & H)|(er & _ & H2)]; apply Hperm in H2;
    [|apply evolves_eq; congruence].
  destruct (cancelable (toDomain id m)) eqn:E; cbn [negb] in H;
    [|injection H as _ <-; apply evolves_eq; congruence].
  assert (Hev : forall ro w3, Cancel id e w2 = (ro, w3) -> evolves is_forex (w_db w) (w_db w3)).
  { intros ro w3 H3. pose proof (Cancel_any _ _ _ _ _ H3) as Hr. pose proof (Cancel_txs _ _ _ _ _ H3) as Ht.
    rewrite <- H2, Hw1 in Hr, Ht. eapply evolves_row; [exact Hr|exact Ht|].
    intros m' Hm'. rewrite Hm in Hm'. injection Hm' as <-. by eapply step_cancel, cancelable_active. }
  apply bind_cases in H as [(up & w3 & H3 & H)|(er & _ & H3)]; [|by eapply Hev].
  transitivity (w_db w3); [by eapply Hev|].
  change (release_then ctx (toDomain id m) up e w3 = (r, w')) in H.
  apply release_then_run in H as [_ H]. by apply evolves_tables.
Qed.

(** C2: the service refines the order lifecycle.  On every run, failed or not,
    in every environment and for every funds manager and margin checker that
    keep to their interfaces, [CreateOrder], [ApproveOrder], [DeclineOrder] and
    [CancelOrder] move the tables of orders and fills only along [market_step]:
    an order is placed unfilled and, if it sells, covered by free holdings; a
    PENDING order is approved; a PENDING or APPROVED order is declined or
    cancelled; nothing else happens to any row. *)
Theorem service_refines_market (is_forex : Z -> bool) (ctx : bool) (req : CreateOrderRequest)
    (id user : Z) (super : bool) (Hfx : is_forex (req_ListingID req) = req_IsForex req) :
  preserves (evolves is_forex) (CreateOrder ctx req) /\
  preserves (evolves is_forex) (ApproveOrder id user) /\
  preserves (evolves is_forex) (DeclineOrder ctx id user) /\
  preserves (evolves is_forex) (CancelOrder ctx id user super).
Proof.
  split_and!;
    [by apply CreateOrder_evolves|apply ApproveOrder_evolves|apply DeclineOrder_evolves
    |apply CancelOrder_evolves].
Qed.
End requests.
