(* ===== verification/RequestSpecs.v ===== *)
(** * What each request of the trading service answers

    The outcome of cancelling, approving and declining in terms of the row, the
    guard that the agent's limit puts on automatic approval, and the agreement of
    the price preview with the funds check and the reservation. *)

From S2P Require Import Prelude Numeric DecimalModel Domain Store StoreFacts Calculations.
From S2P Require Import OrderRepo OrderRepoFacts Lifecycle Market Interfaces FundsManager.
From S2P Require Import FundsFacts Actuaries TradingService.
From S2P Require Import ServiceFacts Scenario.
From Stdlib Require Import Lqa.
#[local] Open Scope Z_scope.

(** [user] is registered as a supervisor. *)
Definition registered_supervisor (user : Z) (d : DB) : Prop :=
  exists id a, by_employee user d = Some (id, a) /\ ai_ActuaryType a = ActuaryTypeSupervisor.

Section specs.
Context `{DL : decimal.Lib} {FM : FundsManager} {MC : MarginChecker}.
Context `{FML : !FundsManagerLaws FM} `{MCL : !MarginCheckerLaws MC}.

Lemma isSupervisor_ok user e w b w' :
  isSupervisor user e w = (Ok b, w') ->
  w_db w' = w_db w /\ (b = true <-> registered_supervisor user (w_db w)).
Proof.
  intros H. split; [symmetry; exact (isSupervisor_reads _ _ _ _ _ H)|].
  apply try_bind in H as (r & w1 & H1 & H). unfold registered_supervisor.
  destruct r as [act|er].
  - apply GetByEmployeeID_ok in H1 as (_ & id & a & Ha & ->). injection H as <- _. cbn.
    rewrite bool_decide_eq_true. split; [eauto|]. intros (id' & a' & Ha' & Hs).
    rewrite Ha in Ha'. by injection Ha' as <- <-.
  - destruct er; try discriminate. injection H as <- _. split; [done|].
    intros (id & a & Ha & _). apply bind_err in H1 as [H1|(row & w2 & H1 & H2)].
    + unfold sql_read, sql in H1. destruct (w_aborted w); [discriminate|].
      by destruct (env_fault e (w_step w)).
    + apply sql_ok in H1 as (d & [= H1 _] & _ & _). by rewrite Ha in H1; subst row.
Qed.

Lemma isSupervisor_err user e w er w' : isSupervisor user e w = (Err er, w') -> er = ErrDB.
Proof.
  intros H. apply try_bind in H as (r & w1 & H1 & H). destruct r as [act|er']; [discriminate|].
  apply bind_err in H1 as [H1|(row & w2 & _ & H2)].
  - unfold sql_read, sql in H1. destruct (w_aborted w); [|destruct (env_fault e (w_step w))];
      try discriminate; (assert (er' = ErrDB) as -> by congruence); unfold throw in H; congruence.
  - destruct row as [[]|]; [discriminate|]. unfold throw in H2. assert (er' = ErrActuaryNotFound) as -> by congruence.
    discriminate.
Qed.

(** Who may cancel what.  When [CancelOrder] succeeds, the order was PENDING
    or APPROVED and not done, and the caller owned it, carried the supervisor
    flag or is registered as a supervisor; the row becomes CANCELED with its
    remaining portions kept, and it is the answer.  "Permission denied" is
    answered only to callers who are none of these, "invalid state" only for an
    order that is not active, and both leave the database unchanged. *)
Theorem cancel_order_spec (ctx : bool) (id user : Z) (super : bool) (e : Env) (w : World)
    (r : result Order) (w' : World) (Hrun : CancelOrder ctx id user super e w = (r, w')) :
  match r with
  | Ok o => exists m, d_orders (w_db w) !! id = Some m /\ active m /\
      (om_UserID m = user \/ super = true \/ registered_supervisor user (w_db w)) /\
      d_orders (w_db w') = <[id := with_canceled m]> (d_orders (w_db w)) /\
      o = toDomain id (with_canceled m) /\
      om_RemainingPortions (with_canceled m) = om_RemainingPortions m
  | Err ErrPermissionDenied => w_db w' = w_db w /\
      exists m, d_orders (w_db w) !! id = Some m /\ om_UserID m <> user /\ super = false /\
        ~ registered_supervisor user (w_db w)
  | Err ErrInvalidOrderState => w_db w' = w_db w /\
      exists m, d_orders (w_db w) !! id = Some m /\ ~ active m
  | Err _ => True
  end.
Proof using FML MCL.
  unfold CancelOrder in Hrun.
  apply bind_cases in Hrun as [(order & w1 & H1 & H)|(er & -> & H1)].
  2: { by destruct (GetByID_err _ _ _ _ _ H1) as [->| ->]. }
  apply GetByID_ok in H1 as (Hw1 & m & Hm & ->).
  apply bind_cases in H as [([] & w2 & H2 & H)|(er & -> & H2)].
  - assert (Hp : w_db w2 = w_db w /\
      (om_UserID m = user \/ super = true \/ registered_supervisor user (w_db w))).
    { cbn in H2. destruct (Z.eqb_spec (om_UserID m) user); cbn in H2;
        [injection H2 as <-; auto|].
      destruct super; cbn in H2; [injection H2 as <-; auto|].
      apply bind_ok in H2 as (b & w3 & H2 & H3). apply isSupervisor_ok in H2 as [Hw3 Hb].
      rewrite Hw1 in *. destruct b; [injection H3 as <-|discriminate]. tauto. }
    destruct Hp as [Hw2 Hp].
    destruct (cancelable (toDomain id m)) eqn:Ec; cbn [negb] in H.
    + apply bind_cases in H as [(up & w3 & H3 & H)|(er & -> & H3)].
      * apply Cancel_ok in H3 as (m' & Hm' & Ho & ->). rewrite Hw2 in Hm', Ho.
        rewrite Hm in Hm'. injection Hm' as <-.
        apply (release_then_run ctx (toDomain id m)) in H as [-> Ht].
        exists m. split_and!; [done|by eapply cancelable_active|done| |done|done].
        by rewrite (same_order_orders _ _ Ht).
      * pose proof (Cancel_err _ _ _ _ _ H3) as [->| ->]; done.
    + injection H as <- <-. split; [done|]. exists m. split; [done|].
      intros [Ha Hd]. unfold cancelable in Ec. cbn in Ec. rewrite Hd in Ec.
      destruct Ha as [Ha|Ha]; rewrite Ha in Ec; discriminate.
  - cbn in H2. destruct (Z.eqb_spec (om_UserID m) user); cbn in H2; [discriminate|].
    destruct super; cbn in H2; [discriminate|].
    apply bind_err in H2 as [H2|(b & w3 & H2 & H3)].
    + by rewrite (isSupervisor_err _ _ _ _ _ H2).
    + apply isSupervisor_ok in H2 as [Hw3 Hb]. destruct b; [discriminate|]. injection H3 as <- <-.
      rewrite Hw1 in *. split; [done|]. exists m. split_and!; [done..|]. intros Hr. by apply Hb in Hr.
Qed.

(** The supervisor's decisions.  Approving and declining succeed only on a
    PENDING order; the row then is APPROVED (DECLINED) by that supervisor and
    otherwise as it was, the other orders are untouched, and approving moves no
    money.  "Invalid state" is answered exactly for an order that is not PENDING
    and changes nothing. *)
Theorem approve_decline_spec (ctx : bool) (id sup : Z) (e : Env) (w : World) :
  (forall r w', ApproveOrder id sup e w = (r, w') ->
     match r with
     | Ok o => exists m, d_orders (w_db w) !! id = Some m /\ om_Status m = OrderStatusPending /\
         d_orders (w_db w') =
           <[id := with_status OrderStatusApproved (Some (ApprovedByUser sup)) m]> (d_orders (w_db w)) /\
         money_tables (w_db w') = money_tables (w_db w)
     | Err ErrInvalidOrderState => w_db w' = w_db w /\
         exists m, d_orders (w_db w) !! id = Some m /\ om_Status m <> OrderStatusPending
     | Err _ => True
     end) /\
  (forall r w', DeclineOrder ctx id sup e w = (r, w') ->
     match r with
     | Ok o => exists m, d_orders (w_db w) !! id = Some m /\ om_Status m = OrderStatusPending /\
         d_orders (w_db w') =
           <[id := with_status OrderStatusDeclined (Some (ApprovedByUser sup)) m]> (d_orders (w_db w))
     | Err ErrInvalidOrderState => w_db w' = w_db w /\
         exists m, d_orders (w_db w) !! id = Some m /\ om_Status m <> OrderStatusPending
     | Err _ => True
     end).
Proof using FML MCL.
  split; intros r w' H; (apply bind_cases in H as [(order & w1 & H1 & H)|(er & -> & H1)];
    [|by destruct (GetByID_err _ _ _ _ _ H1) as [->| ->]]);
    apply GetByID_ok in H1 as (Hw1 & m & Hm & ->);
    (case_bool_decide as Hp; cbn [negb] in H; [|injection H as <- <-; eauto]).
  - destruct r as [o|er]; [|by destruct (UpdateStatus_err _ _ _ _ _ _ _ H) as [->| ->]].
    pose proof (UpdateStatus_money _ _ _ _ _ _ _ H) as Hmo.
    apply UpdateStatus_ok in H as (m' & Hm' & Ho & _). unfold same in Hmo. rewrite Hw1 in *.
    rewrite Hm in Hm'. injection Hm' as <-. eauto 10.
  - apply bind_cases in H as [(up & w2 & H2 & H)|(er & -> & H2)];
      [|by destruct (UpdateStatus_err _ _ _ _ _ _ _ H2) as [->| ->]].
    apply UpdateStatus_ok in H2 as (m' & Hm' & Ho & _). rewrite Hw1 in *.
    rewrite Hm in Hm'. injection Hm' as <-.
    apply (release_then_run ctx (toDomain id m)) in H as [-> Ht].
    exists m. split_and!; [done|done|]. by rewrite (same_order_orders _ _ Ht).
Qed.
End specs.

(** ** The agent's limit guards automatic approval *)

Section agent.
Context `{LL : decimal.Laws} {FM : FundsManager} {MC : MarginChecker}.
Context `{FML : !FundsManagerLaws FM}.

(** An agent trades without a supervisor only within the limit.  For a
    caller that is registered as an agent and does not carry the supervisor
    flag, [resolveStatus] answers APPROVED only if the agent needs no approval,
    the order's notional (converted to RSD if the rates are available) has been
    added to the recorded spending, and the recorded spending is within the
    daily limit.  No other row and no other table changes. *)
Theorem agent_limit_guards_approval (req : CreateOrderRequest) (e : Env) (w w' : World)
    (id : Z) (a : actuaryInfo) (Hsup : req_IsSupervisor req = false)
    (Ha : by_employee (req_UserID req) (w_db w) = Some (id, a))
    (Hagent : ai_ActuaryType a = ActuaryTypeAgent)
    (Hrun : resolveStatus req e w = (Ok OrderStatusApproved, w')) :
  ai_NeedApproval a = false /\
  exists notional x w1 w2 w3 w4,
    resolveNotional req e w1 = (Ok notional, w2) /\
    (fm_ConvertUSDToRSD notional e w3 = (Ok x, w4) \/ x = notional) /\
    let n := to_cents (cents (ai_UsedLimit a) + decimal.StringFixed2 x) in
    w_db w' = set_actuary_info (<[id := with_used n a]> (d_actuary_info (w_db w))) (w_db w) /\
    n <= ai_Limit a.
Proof using LL FML.
  unfold resolveStatus in Hrun. rewrite Hsup in Hrun.
  apply try_bind in Hrun as (r & w1 & H1 & H). destruct r as [act|er].
  2: { exfalso. apply bind_err in H1 as [H1|(row & w2 & H1 & H2)].
       - unfold sql_read, sql in H1. destruct (w_aborted w); [|destruct (env_fault e (w_step w))];
           try discriminate; (assert (er = ErrDB) as -> by congruence); discriminate.
       - apply sql_ok in H1 as (d & [= H1 _] & _ & _). rewrite Ha in H1. by subst row. }
  apply GetByEmployeeID_ok in H1 as (Hw1 & id' & a' & Ha' & ->).
  rewrite Ha in Ha'. injection Ha' as <- <-. cbn in H. rewrite Hagent in H.
  apply bind_ok in H as (notional & w2 & H2 & H).
  assert (Hw2 : w_db w2 = w_db w1) by (symmetry; exact (resolveNotional_reads _ _ _ _ _ H2)).
  apply try_bind in H as (cv & w3 & H3 & H).
  assert (Hw3 : w_db w3 = w_db w2) by (symmetry; exact (fm_ConvertUSDToRSD_reads _ _ _ _ _ H3)).
  cbv zeta in H. destruct (ai_NeedApproval a) eqn:En.
  { apply bind_ok in H as (x & w4 & _ & H). discriminate. }
  split; [done|]. apply try_bind in H as (inc & w4 & H4 & H).
  set (x := match cv with Ok x => x | Err _ => notional end) in *.
  exists notional, x, w1, w2, w2, w3.
  assert (Hdb : w_db w3 = w_db w) by congruence.
  destruct inc as [[act exc]|er].
  - destruct exc; [discriminate|]. injection H as <-.
    apply IncrementUsedLimitAlways_ok in H4 as (id2 & a2 & Ha2 & _ & Hw4 & Hex). rewrite Hdb, Ha in Ha2.
    injection Ha2 as <- <-. rewrite Hdb in Hw4. cbv zeta. split_and!; [done| |done|].
    + destruct cv; [left; exact H3|by right].
    + destruct (Z.le_gt_cases (to_cents (cents (ai_UsedLimit a) + decimal.StringFixed2 x)) (ai_Limit a));
        [done|]. exfalso. enough (false = true) by done. apply Hex. lia.
  - exfalso. apply bind_err in H4 as [H4|(row & w5 & H5 & H4)].
    + unfold sql in H4. destruct (w_aborted w3); [|destruct (env_fault e (w_step w3))];
        try ((assert (er = ErrDB) as -> by congruence); discriminate).
      destruct (increment_used _ _ _ _) as [[? ?]|er'] eqn:Ei; [discriminate|].
      assert (er' = ErrDB) as ->.
      { unfold increment_used in Ei. rewrite Hdb, Ha, bool_decide_true in Ei by done. cbn in Ei.
        destruct (store_cents _); [|congruence]. unfold write_actuary in Ei.
        destruct (actuary_check _); [discriminate|by injection Ei]. }
      (assert (er = ErrDB) as -> by congruence). discriminate.
    + apply sql_ok in H5 as (d & H5 & -> & _). rewrite Hdb in H5.
      apply increment_used_inv in H5 as [(-> & -> & Hno)|(? & ? & _ & _ & _ & _ & -> & _)]; [|discriminate].
      rewrite Ha in Hno. destruct Hno as [|[=]]. done.
Qed.
End agent.

(** ** The preview agrees with the check and with the reservation *)

(** The listing and its history answer the same at every step. *)
Definition stable_market (e : Env) : Prop :=
  (forall n m id, env_listing e n id = env_listing e m id) /\
  (forall n m id, env_daily_change e n id = env_daily_change e m id).

(** The preview request with the fields of an order request. *)
Definition preview_of `{DL : decimal.Lib} (req : CreateOrderRequest) : OrderCalculationRequest :=
  mkOrderCalculationRequest (req_OrderType req) (req_Direction req) (req_ListingID req)
    (req_Quantity req) (req_ContractSize req) (req_PricePerUnit req) (req_StopPrice req)
    (req_Margin req) (req_AllOrNone req).

(** An order that carries the fields of the request. *)
Definition order_of `{DL : decimal.Lib} (req : CreateOrderRequest) (o : Order) : Prop :=
  o_OrderType o = req_OrderType req /\ o_Direction o = req_Direction req /\
  o_ListingID o = req_ListingID req /\ o_Quantity o = req_Quantity req /\
  o_ContractSize o = req_ContractSize req /\ o_PricePerUnit o = req_PricePerUnit req /\
  o_StopPrice o = req_StopPrice req /\ o_IsClient o = req_IsClient req.

Section preview.
Context `{DL : decimal.Lib} {FM : FundsManager} {MC : MarginChecker}.
Context (e : Env) (Hst : stable_market e).

Lemma GetListingByID_stable id w1 w2 :
  exists r w1' w2', GetListingByID id e w1 = (r, w1') /\ GetListingByID id e w2 = (r, w2').
Proof.
  destruct Hst as [Hl Hc]. unfold GetListingByID, listing_GetByID, GetLatestDailyChange, the_json, io,
    mbind, M_bind. rewrite (Hl (w_step w1) (w_step w2) id).
  destruct (env_listing e (w_step w2) id) as [l|er]; [|eauto].
  cbn. rewrite (Hc (S (w_step w1)) (S (w_step w2)) (l_ID l)). eauto.
Qed.

(** The price a user is shown is the price that is checked and reserved.
    With an unchanged market, when [CalculateOrderDetails] quotes a request, the
    funds check of [CreateOrder] asks for exactly the quoted price plus the
    quoted commission, the approval workflow compares exactly the quoted price
    with the agent's limit, and the reservation for the order takes price plus
    commission for a client and the price alone for an employee. *)
Theorem preview_matches_reservation (req : CreateOrderRequest) (o : Order)
    (resp : OrderCalculationResponse) (w1 w1' w2 w3 w4 : World) (Ho : order_of req o)
    (Hrun : CalculateOrderDetails (preview_of req) e w1 = (Ok resp, w1')) :
  let price := ocp_ApproximatePrice resp in
  let total := decimal.Add price (ocp_Commission resp) in
  (resolveTotalBuyDebitUSD req e w2).1 = Ok total /\
  (resolveNotional req e w3).1 = Ok price /\
  (reserved_usd o (o_Quantity o) e w4).1 = Ok (if o_IsClient o then total else price).
Proof using Hst.
  intros price total. destruct Ho as (Ht & Hd & Hl & Hq & Hc & Hp & Hs & Hi).
  unfold CalculateOrderDetails in Hrun. cbn in Hrun.
  destruct (negb (valid_direction (req_Direction req))); [discriminate|].
  apply bind_ok in Hrun as (resp0 & wa & Hr & H).
  assert (price = ocp_ApproximatePrice resp0 /\ total = decimal.Add (ocp_ApproximatePrice resp0)
            (ocp_Commission resp0)) as [Ep Et].
  { destruct (req_Margin req); [|by injection H as <- _].
    apply bind_ok in H as (imc & wb & _ & H). by injection H as <- _. }
  rewrite Ep, Et. clear H Ep Et price total.
  assert (Hn : forall w, exists w', resolveNotional req e w = (Ok (ocp_ApproximatePrice resp0), w') /\
             ocp_Commission resp0 = commission_of (req_OrderType req) (ocp_ApproximatePrice resp0)).
  { intros w. unfold resolveNotional. destruct (req_OrderType req); try discriminate; cbn in Hr.
    - apply bind_ok in Hr as (l & wb & Hg & Hr). injection Hr as <- _. cbn.
      destruct (GetListingByID_stable (req_ListingID req) w1 w) as (r & wc & wd & E1 & E2).
      cbn in Hg. rewrite Hg in E1. injection E1 as <- _. exists wd. split; [|done].
      by rewrite (bind_run _ _ _ _ _ _ E2).
    - unfold calculateLimit in Hr. cbn in Hr. destruct (req_PricePerUnit req); [|discriminate].
      injection Hr as <- _. cbn. eauto.
    - unfold calculateStop in Hr. cbn in Hr. destruct (req_StopPrice req); [|discriminate].
      injection Hr as <- _. cbn. eauto.
    - unfold calculateStopLimit in Hr. cbn in Hr. destruct (req_StopPrice req); [|discriminate].
      destruct (req_PricePerUnit req); [|discriminate]. injection Hr as <- _. cbn. eauto. }
  assert (Hco : forall w w', resolveNotional req e w = (Ok (ocp_ApproximatePrice resp0), w') ->
            computeNotional o (o_Quantity o) e w = (Ok (ocp_ApproximatePrice resp0), w')).
  { intros w w'. unfold resolveNotional, computeNotional. rewrite Ht, Hd, Hl, Hq, Hc, Hp, Hs.
    destruct (req_OrderType req), (req_PricePerUnit req), (req_StopPrice req);
      try done; discriminate. }
  split_and!.
  - destruct (Hn w2) as (w' & Hn2 & Hcm). unfold resolveTotalBuyDebitUSD.
    by rewrite (bind_run _ _ _ _ _ _ Hn2), Hcm.
  - destruct (Hn w3) as (w' & Hn3 & _). by rewrite Hn3.
  - destruct (Hn w4) as (w' & Hn4 & Hcm). apply Hco in Hn4. unfold reserved_usd.
    destruct (o_IsClient o).
    + unfold computeNotionalPlusCommission. by rewrite (bind_run _ _ _ _ _ _ Hn4), Ht, Hcm.
    + by rewrite Hn4.
Qed.
End preview.
