(* ===== verification/PlacementSpec.v ===== *)
(** * What placing an order does to the row and to the money

    [CreateOrder] over the funds manager of the repository: an order that is
    accepted is stored as requested and, if it buys, its funds are reserved; a
    request that fails leaves every account and every older order alone. *)

From S2P Require Import Prelude Numeric DecimalModel Domain Store StoreFacts Calculations.
From S2P Require Import OrderRepo OrderRepoFacts Lifecycle Market Interfaces FundsManager.
From S2P Require Import FundsFacts FundsSafety FundsRounding Actuaries.
From S2P Require Import TradingService ServiceFacts Scenario.
#[local] Open Scope Z_scope.

(** The accounts and their ledger. *)
Definition accounts (d : DB) := (d_racun d, d_transakcija d).

Lemma accounts_of_money d d' : same money_tables d d' -> same accounts d d'.
Proof. unfold same, money_tables, accounts. congruence. Qed.

Section placement.
Context `{DL : decimal.Lib} {MC : MarginChecker} `{MCL : !MarginCheckerLaws MC}.
Context (spreadRate provizijaRate : float64).
#[local] Instance the_funds : FundsManager := fundsManager spreadRate provizijaRate.
#[local] Instance the_laws : FundsManagerLaws the_funds := fundsManager_laws spreadRate provizijaRate.

Hint Resolve the_laws : reads preserves.

Lemma IncrementUsedLimitAlways_accounts emp x :
  preserves (same accounts) (IncrementUsedLimitAlways emp x).
Proof.
  unfold IncrementUsedLimitAlways. solve_preserves. apply preserves_sql; [apply _|].
  intros d a d' H.
  apply increment_used_inv in H as [(_ & -> & _)|(id & ai & _ & _ & _ & _ & _ & ->)]; done.
Qed.
Hint Resolve IncrementUsedLimitAlways_accounts : preserves.

Lemma resolveStatus_accounts req : preserves (same accounts) (resolveStatus req).
Proof. unfold resolveStatus. solve_preserves. Qed.

Lemma Create_accounts req st : preserves (same accounts) (Create req st).
Proof. intros e w r w' H. by eapply accounts_of_money, Create_money. Qed.

Lemma Cancel_accounts id : preserves (same accounts) (Cancel id).
Proof. intros e w r w' H. by eapply accounts_of_money, Cancel_money. Qed.

Lemma reserveForexFundsForOrder_refuses c o : refuses (reserveForexFundsForOrder c o).
Proof.
  unfold reserveForexFundsForOrder.
  apply reads_then_refuses; [exact (getForexQuoteCurrency_reads _)|intros q].
  apply reads_then_refuses; [apply forex_rate_reads|intros rate].
  destruct (decimal.IsZero rate); [by intros e w er w' [= _ <-]|].
  apply fm_ReserveForexFunds_refuses.
Qed.

(** A price as its column NUMERIC(18, 6) keeps it. *)
Definition stored_price (p : option decimal.t) : option Z :=
  (fun x => round_half_away (decimal.String x * inject_Z 1000000)) <$> p.

(** The row that a request becomes, column by column. *)
Record placed (e : Env) (req : CreateOrderRequest) (m : orderModel) : Prop := {
  pl_user : om_UserID m = req_UserID req;
  pl_account : om_AccountID m = req_AccountID req;
  pl_listing : om_ListingID m = req_ListingID req;
  pl_type : om_OrderType m = req_OrderType req;
  pl_direction : om_Direction m = req_Direction req;
  pl_quantity : om_Quantity m = req_Quantity req;
  pl_size : om_ContractSize m = req_ContractSize req;
  pl_price : om_PricePerUnit m = stored_price (req_PricePerUnit req);
  pl_stop : om_StopPrice m = stored_price (req_StopPrice req);
  pl_approver : om_ApprovedBy m =
    match req_ApprovedByOverride req, om_Status m with
    | Some b, _ => Some b
    | None, OrderStatusApproved => Some ApprovedByNoApproval
    | None, _ => None
    end;
  pl_done : om_IsDone m = false;
  pl_open : om_RemainingPortions m = req_Quantity req;
  pl_after : om_AfterHours m = req_AfterHours req;
  pl_all : om_AllOrNone m = req_AllOrNone req;
  pl_margin : om_Margin m = req_Margin req;
  pl_client : om_IsClient m = req_IsClient req;
  pl_fund : om_FundID m = req_FundID req;
  pl_created : exists n, om_CreatedAt m = env_now e n
}.

(** A price written out and read back. *)
Definition reread (p : option decimal.t) : option decimal.t :=
  match p with Some x => decimal.NewFromString (decimal.String x) | None => None end.

(** The order a caller gets for a row: the row, with the prices of the request
    before the column rounded them. *)
Record answered (req : CreateOrderRequest) (m : orderModel) (o : Order) : Prop := {
  an_user : o_UserID o = om_UserID m;
  an_account : o_AccountID o = om_AccountID m;
  an_listing : o_ListingID o = om_ListingID m;
  an_type : o_OrderType o = om_OrderType m;
  an_direction : o_Direction o = om_Direction m;
  an_quantity : o_Quantity o = om_Quantity m;
  an_size : o_ContractSize o = om_ContractSize m;
  an_price : o_PricePerUnit o = reread (req_PricePerUnit req);
  an_stop : o_StopPrice o = reread (req_StopPrice req);
  an_status : o_Status o = om_Status m;
  an_approver : o_ApprovedBy o = om_ApprovedBy m;
  an_done : o_IsDone o = om_IsDone m;
  an_open : o_RemainingPortions o = om_RemainingPortions m;
  an_after : o_AfterHours o = om_AfterHours m;
  an_all : o_AllOrNone o = om_AllOrNone m;
  an_margin : o_Margin o = om_Margin m;
  an_client : o_IsClient o = om_IsClient m;
  an_fund : o_FundID o = om_FundID m
}.

Lemma store_price_ok p c : store_price (decimalToStr p) = Ok c -> c = stored_price p.
Proof.
  destruct p as [x|]; cbn; [|by intros [= <-]]. unfold store_micros, numeric_store.
  case_decide; [|done]. by intros [= <-].
Qed.

(** The row and the answer of an insert. *)
Lemma Create_row req st e w o w' :
  Create req st e w = (Ok o, w') ->
  exists id n, let m := create_model req st (stored_price (req_PricePerUnit req))
                          (stored_price (req_StopPrice req)) (env_now e n) in
    d_orders (w_db w) !! id = None /\ d_orders (w_db w') = <[id := m]> (d_orders (w_db w)) /\
    o = toDomain_prices id m (decimalToStr (req_PricePerUnit req)) (decimalToStr (req_StopPrice req)).
Proof.
  intros H. apply bind_ok in H as (now & w1 & H1 & H2).
  assert (Hn : exists n, now = env_now e n) by (injection H1 as <- _; eauto). injection H1 as _ <-.
  apply bind_ok in H2 as ([id m] & w2 & H2 & H3). unfold sql_insert in H2.
  apply sql_ok in H2 as (d & H2 & -> & _). injection H3 as <- <-. revert H2. unfold insert_order.
  destruct (store_price (decimalToStr (req_PricePerUnit req))) as [ppu|] eqn:E1; [|discriminate].
  destruct (store_price (decimalToStr (req_StopPrice req))) as [sp|] eqn:E2; [|discriminate].
  apply store_price_ok in E1 as ->, E2 as ->. destruct (orders_check _ _); cbn [andb]; [|discriminate].
  case_bool_decide; [|discriminate]. intros [= <- <- <-]. destruct Hn as [n ->]. by exists (w_seq w), n.
Qed.

Lemma create_model_placed e req st n :
  placed e req (create_model req st (stored_price (req_PricePerUnit req)) (stored_price (req_StopPrice req)) (env_now e n)).
Proof.
  constructor; try done; [|by exists n].
  cbn. destruct (req_ApprovedByOverride req); [done|]. by destruct st.
Qed.

Lemma toDomain_answered req id m :
  answered req m (toDomain_prices id m (decimalToStr (req_PricePerUnit req)) (decimalToStr (req_StopPrice req))).
Proof. constructor; try done; cbn; [by destruct (req_PricePerUnit req)|by destruct (req_StopPrice req)]. Qed.

(** Older orders are as they were. *)
Definition extends (d d' : DB) : Prop :=
  forall i m, d_orders d !! i = Some m -> d_orders d' !! i = Some m.

Lemma extends_insert d d' id m :
  d_orders d !! id = None -> d_orders d' = <[id := m]> (d_orders d) -> extends d d'.
Proof.
  intros Hid Ho i mi Hi. rewrite Ho. destruct (decide (i = id)) as [->|Hne]; [congruence|].
  by rewrite lookup_insert_ne.
Qed.

(** What the reservation step leaves behind. *)
Lemma finish_order_money c req o m e w r w' :
  o_AccountID o = req_AccountID req -> o_Quantity o = req_Quantity req ->
  o_Direction o = req_Direction req -> d_orders (w_db w) !! o_ID o = Some m ->
  finish_order c req o e w = (r, w') ->
  match r with
  | Ok o' => o' = o /\ same order_tables (w_db w) (w_db w') /\
      (is_buy (req_Direction req) = false -> same accounts (w_db w) (w_db w')) /\
      (is_buy (req_Direction req) = true -> req_IsForex req = false ->
       exists usd w1 w2 row, reserved_usd o (req_Quantity req) e w1 = (Ok usd, w2) /\
         let q := debit_arg spreadRate provizijaRate c (req_AccountID req) usd e w2 in
         d_racun (w_db w) !! req_AccountID req = Some row /\
         (q <= cents (free_cents row))%Q /\
         d_racun (w_db w') =
           <[req_AccountID req := with_rezervisano
               (to_cents (cents (r_rezervisana_sredstva row) + q)) row]> (d_racun (w_db w)))
  | Err _ => same accounts (w_db w) (w_db w') /\
      (d_orders (w_db w') = d_orders (w_db w) \/
       d_orders (w_db w') = <[o_ID o := with_canceled m]> (d_orders (w_db w)))
  end.
Proof using MCL.
  intros Ha Hq Hd Hm H. unfold finish_order in H.
  destruct (is_buy (req_Direction req)) eqn:Eb; [|by injection H as <- <-].
  apply try_bind in H as (r0 & w1 & E & H).
  assert (Ht : same order_tables (w_db w) (w_db w1)).
  { destruct (req_IsForex req);
      [exact (reserveForexFundsForOrder_orders _ _ _ _ _ _ E)
      |exact (reserveFundsForOrder_orders _ _ _ _ _ _ E)]. }
  destruct r0 as [[]|er].
  - injection H as <- <-. split_and!; [done..|]. intros _ Hf. rewrite Hf in E.
    unfold reserveFundsForOrder in E. rewrite Hd, Eb in E. cbn [negb] in E.
    apply bind_ok in E as (usd & w2 & E1 & E2). rewrite Hq in E1.
    pose proof (reserved_usd_reads _ _ _ _ _ _ E1) as Hw2. rewrite Ha in E2.
    apply ReserveFunds_ok in E2 as (row & Hrow & Hle & Hdb & _). rewrite <- Hw2 in Hrow, Hdb.
    exists usd, w, w2, row. split_and!; [done..|]. by rewrite Hdb.
  - assert (Hw1 : w_db w1 = w_db w).
    { destruct (req_IsForex req);
        [exact (reserveForexFundsForOrder_refuses _ _ _ _ _ _ E)
        |exact (reserveFundsForOrder_refuses _ _ _ _ _ _ E)]. }
    apply try_bind in H as (r1 & w2 & E2 & H). injection H as <- <-.
    pose proof (Cancel_accounts _ _ _ _ _ E2) as Hc. rewrite Hw1 in Hc. split; [done|].
    apply Cancel_any in E2. rewrite Hw1 in E2.
    destruct E2 as [?|(m' & Hm' & Ho)]; [by left|right]. rewrite Hm in Hm'. by injection Hm' as <-.
Qed.

(** The workflow up to the reservation. *)
Lemma CreateOrder_stages c req e w r w' :
  req_SettlementExpired req = false -> CreateOrder c req e w = (r, w') ->
  (exists er, r = Err er /\ same accounts (w_db w) (w_db w') /\
     d_orders (w_db w') = d_orders (w_db w)) \/
  (exists id m st w1,
     (st = OrderStatusPending \/ st = OrderStatusApproved) /\
     d_orders (w_db w) !! id = None /\ om_Status m = st /\ placed e req m /\
     same accounts (w_db w) (w_db w1) /\ d_orders (w_db w1) = <[id := m]> (d_orders (w_db w)) /\
     finish_order c req (toDomain_prices id m (decimalToStr (req_PricePerUnit req))
                           (decimalToStr (req_StopPrice req))) e w1 = (r, w')).
Proof using MCL.
  intros Hx H. unfold CreateOrder in H. rewrite Hx in H.
  apply bind_cases in H as [([] & w1 & E1 & H)|(er & -> & E1)];
    pose proof (validate_order_reads _ _ _ _ _ _ E1) as Hw1.
  2: { left. exists er. by rewrite Hw1. }
  rewrite Hw1.
  apply bind_cases in H as [(st & w2 & E2 & H)|(er & -> & E2)];
    pose proof (resolveStatus_orders _ _ _ _ _ E2) as Ho2;
    pose proof (resolveStatus_accounts _ _ _ _ _ E2) as Ha2;
    pose proof (same_order_orders _ _ Ho2) as Hoo.
  2: { left. by exists er. }
  apply resolveStatus_ok in E2.
  apply bind_cases in H as [(o & w3 & E3 & H)|(er & -> & E3)];
    pose proof (Create_accounts _ _ _ _ _ _ E3) as Ha3.
  - right. apply Create_row in E3 as (id & n & Hid & Ho & ->).
    exists id, (create_model req st (stored_price (req_PricePerUnit req)) (stored_price (req_StopPrice req)) (env_now e n)), st, w3.
    rewrite <- Hoo.
    split_and!; [tauto|done|done|apply create_model_placed|by etransitivity|exact Ho|exact H].
  - left. exists er. split_and!; [done|by etransitivity|]. rewrite <- Hoo.
    unfold Create in E3. apply bind_err in E3 as [E3|(now & w4 & E4 & E3)]; [discriminate|].
    injection E4 as _ <-. apply bind_err in E3 as [E3|([id m] & w5 & _ & E3)]; [|discriminate].
    apply sql_err_db in E3. by rewrite E3.
Qed.

(** C7: placing an order is all or nothing.  When [CreateOrder] accepts a
    request, one new row holds the request in every column ([placed]): user,
    account, listing, type, direction, quantity, contract size, the two prices
    rounded to six places, the flags and the fund, nothing of it filled, stamped
    with the clock; it is DECLINED if the instrument has expired, otherwise
    PENDING or APPROVED, and approved by the override of the request, or by
    NO_APPROVAL when it is APPROVED without one.  The caller is answered that row
    ([answered]).  For an order to buy outside the currency pairs the account's
    free balance covered the converted price (with the commission, for a client),
    and exactly that amount was added to its reservations; a sale, and an expired
    order, touch no account.  When it refuses, every account, the ledger and every older order
    are as they were, whatever statement failed. *)
Theorem create_order_spec (ctx : bool) (req : CreateOrderRequest) (e : Env) (w : World)
    (r : result Order) (w' : World) (Hrun : CreateOrder ctx req e w = (r, w')) :
  extends (w_db w) (w_db w') /\
  match r with
  | Ok o => exists m,
      d_orders (w_db w) !! o_ID o = None /\
      d_orders (w_db w') = <[o_ID o := m]> (d_orders (w_db w)) /\ placed e req m /\ answered req m o /\
      (if req_SettlementExpired req then om_Status m = OrderStatusDeclined
       else om_Status m = OrderStatusPending \/ om_Status m = OrderStatusApproved) /\
      (req_SettlementExpired req = true \/ is_buy (req_Direction req) = false ->
       same accounts (w_db w) (w_db w')) /\
      (req_SettlementExpired req = false -> is_buy (req_Direction req) = true ->
       req_IsForex req = false ->
       exists usd w1 w2 row, reserved_usd o (req_Quantity req) e w1 = (Ok usd, w2) /\
         let q := debit_arg spreadRate provizijaRate ctx (req_AccountID req) usd e w2 in
         d_racun (w_db w) !! req_AccountID req = Some row /\
         (q <= cents (free_cents row))%Q /\
         d_racun (w_db w') =
           <[req_AccountID req := with_rezervisano
               (to_cents (cents (r_rezervisana_sredstva row) + q)) row]> (d_racun (w_db w)))
  | Err _ => same accounts (w_db w) (w_db w')
  end.
Proof using MCL.
  destruct (req_SettlementExpired req) eqn:Hx.
  - unfold CreateOrder in Hrun. rewrite Hx in Hrun.
    pose proof (Create_accounts _ _ _ _ _ _ Hrun) as Ha. destruct r as [o|er].
    + apply Create_row in Hrun as (id & n & Hid & Ho & ->).
      split; [by eapply extends_insert|]. eexists.
      split_and!; [done|exact Ho|apply create_model_placed|apply toDomain_answered|done|done|discriminate].
    + split; [|done]. unfold Create in Hrun.
      apply bind_err in Hrun as [E|(now & w4 & E4 & E)]; [discriminate|]. injection E4 as _ <-.
      apply bind_err in E as [E|([id m] & w5 & _ & E)]; [|discriminate].
      apply sql_err_db in E. intros i mi Hi. by rewrite E.
  - apply CreateOrder_stages in Hrun; [|done].
    destruct Hrun as [(er & -> & Ha & Ho)|(id & m & st & w1 & Hst & Hid & <- & Hpl & Ha & Ho & H)].
    { split; [by intros i mi Hi; rewrite Ho|done]. }
    eapply finish_order_money in H; [|cbn; by rewrite ?(pl_account _ _ _ Hpl), ?(pl_quantity _ _ _ Hpl), ?(pl_direction _ _ _ Hpl)..|cbn; rewrite Ho; apply lookup_insert_eq].
    assert (Hra : d_racun (w_db w1) = d_racun (w_db w)) by (unfold same, accounts in Ha; congruence).
    destruct r as [o|er].
    + destruct H as (-> & Ht & Hsell & Hbuy). pose proof (same_order_orders _ _ Ht) as Ho'.
      rewrite Ho in Ho'. split; [by eapply extends_insert|]. eexists.
      split_and!; [done|exact Ho'|exact Hpl|apply toDomain_answered|done| |].
      * intros [|Hb]; [done|]. etransitivity; [exact Ha|by apply Hsell].
      * intros _ Hb Hf. rewrite <- Hra. by apply Hbuy.
    + destruct H as [Ha' Ho']. split; [|by etransitivity].
      destruct Ho' as [Ho'|Ho']; rewrite Ho in Ho'; [by eapply extends_insert|].
      cbn in Ho'. rewrite insert_insert_eq in Ho'. by eapply extends_insert.
Qed.
End placement.
