(* ===== verification/Engine.v ===== *)
(** * The execution engine ([trading/worker/engine.go])

    The polling tick, the goroutine of an order (stop and limit activation, the
    wait for the exchange, partial fills) and the currency orders.  The context
    of a goroutine carries the order's is_client flag.  A wait on a timer is
    [sleep]; the loops take fuel and answer whether they finished.  The
    notifications ([fillNotifier]) and log lines are left out. *)

From S2P Require Import Prelude Numeric Domain Store StoreFacts Calculations OrderRepo.
From S2P Require Import Market Interfaces.
#[local] Open Scope Z_scope.

(** ** Pure helpers *)

Definition defaultWaitSeconds : float64 := f64_of_Z 30.
Definition minWaitSeconds : float64 := f64_of_Z 1.
Definition maxWaitSeconds : float64 := f64_of_Z 86400.

(** [maxWait]: the formula of the specification with its two clamps. *)
Definition max_wait (volume remaining : Z) : float64 :=
  let turnsPerPortion := f64_div (f64_of_Z volume) (f64_of_Z remaining) in
  let maxWait := f64_div (f64_of_Z (24 * 60)) turnsPerPortion in
  if f64_ltb maxWait minWaitSeconds then minWaitSeconds
  else if f64_ltb maxWaitSeconds maxWait then maxWaitSeconds
  else maxWait.

(** The simulated delay; [rand.Float64()] is in [0, 1). *)
Definition calcWaitSeconds (volume remaining : Z) : M float64 :=
  if (volume <=? 0) || (remaining <=? 0) then mret defaultWaitSeconds
  else
    u ← io (fun e n => Ok (env_rand_float e n));
    mret (f64_mul u (max_wait volume remaining)).

(** A wait of [secs] seconds: whatever its length, the others may do anything. *)
Definition sleep_for (secs : float64) : M unit := sleep.

(** A chunk in [1, min(remaining, 10)]. *)
Definition calcChunkSize (remaining : Z) : M Z :=
  let maxChunk := if 10 <? remaining then 10 else remaining in
  n ← rand_Intn maxChunk;
  mret (n + 1).

Definition isSettlementExpired (s : MarketSnapshot) : M bool :=
  match ms_SettlementDate s with
  | None => mret false
  | Some d => now ← time_now; mret (d <? now)
  end.

Definition isForexDeclineError (er : error) : bool :=
  match er with
  | ErrForexAccountNotFound | ErrForexCurrencyMismatch | ErrForexSameAccount
  | ErrForexSameCurrency | ErrInsufficientFunds => true
  | _ => false
  end.

Section engine.
Context `{DL : decimal.Lib} {FM : FundsManager}.
(** Which of the optional collaborators are set. *)
Context (exchange_set fundRepo_set tickBus_set : bool).

Definition commissionForOrderType (ot : OrderType) (fullNotional : decimal.t) : decimal.t :=
  match ot with
  | OrderTypeMarket | OrderTypeStop => CalcMarketCommission fullNotional
  | OrderTypeLimit | OrderTypeStopLimit => CalcLimitCommission fullNotional
  | OtherOrderType _ => decimal.Zero
  end.

Definition resolveExecutionPrice (order : Order) (effectiveType : OrderType)
    (snapshot : MarketSnapshot) : result decimal.t :=
  let cs := decimal.NewFromInt (o_ContractSize order) in
  match effectiveType with
  | OrderTypeMarket =>
      let unitPrice := match o_Direction order with
                       | OrderDirectionBuy => ms_Ask snapshot
                       | _ => ms_Bid snapshot
                       end in
      Ok (decimal.Mul cs (decimal.NewFromFloat unitPrice))
  | OrderTypeLimit =>
      match o_PricePerUnit order with
      | None => Err ErrLimitPriceRequired
      | Some limit =>
          let askDec := decimal.NewFromFloat (ms_Ask snapshot) in
          let bidDec := decimal.NewFromFloat (ms_Bid snapshot) in
          let unit_ := match o_Direction order with
                       | OrderDirectionBuy => if decimal.LessThan limit askDec then limit else askDec
                       | _ => if decimal.GreaterThan limit bidDec then limit else bidDec
                       end in
          Ok (decimal.Mul cs unit_)
      end
  | _ => Err ErrInvalidOrderType
  end.

(** ** Waiting *)

Inductive wait : Type := Activated | Aborted | StillWaiting.

(** The order is still to be executed. *)
Definition executable (o : Order) : bool :=
  bool_decide (o_Status o = OrderStatusApproved) && negb (o_IsDone o).

Definition stop_triggered (direction : OrderDirection) (snapshot : MarketSnapshot)
    (stopPrice : decimal.t) : bool :=
  match direction with
  | OrderDirectionBuy =>
      decimal.GreaterThanOrEqual (decimal.NewFromFloat (ms_Ask snapshot)) stopPrice
  | OrderDirectionSell =>
      decimal.LessThanOrEqual (decimal.NewFromFloat (ms_Bid snapshot)) stopPrice
  | OtherDirection _ => false
  end.

Definition limitMet (direction : OrderDirection) (limit : decimal.t) (ask bid : float64) : bool :=
  match direction with
  | OrderDirectionBuy => decimal.LessThanOrEqual (decimal.NewFromFloat ask) limit
  | OrderDirectionSell => decimal.GreaterThanOrEqual (decimal.NewFromFloat bid) limit
  | OtherDirection _ => false
  end.

Fixpoint stop_loop (fuel : nat) (order : Order) (stopPrice : decimal.t) : M wait :=
  match fuel with
  | O => mret StillWaiting
  | S fuel' =>
      sleep ;;
      finished ← ctx_done;
      if (finished : bool) then mret Aborted
      else
        current ← GetByID (o_ID order);
        if negb (executable current) then mret Aborted
        else
          snapshot ← try (GetMarketSnapshot (o_ListingID order));
          match snapshot with
          | Err _ => stop_loop fuel' order stopPrice
          | Ok snapshot =>
              if stop_triggered (o_Direction order) snapshot stopPrice then mret Activated
              else stop_loop fuel' order stopPrice
          end
  end.

Definition waitForStopActivation (fuel : nat) (order : Order) : M wait :=
  match o_StopPrice order with
  | None => mret Activated
  | Some stopPrice => stop_loop fuel order stopPrice
  end.

(** A price tick, when the bus delivers one before the fallback timer. *)
Definition next_tick : M (option (float64 * float64)) :=
  io (fun e n => Ok (if tickBus_set then env_price_tick e n else None)).

Fixpoint limit_loop (fuel : nat) (order : Order) (limit : decimal.t) : M wait :=
  match fuel with
  | O => mret StillWaiting
  | S fuel' =>
      sleep ;;
      finished ← ctx_done;
      if (finished : bool) then mret Aborted
      else
        tick ← next_tick;
        current ← GetByID (o_ID order);
        if negb (executable current) then mret Aborted
        else
          match tick with
          | Some (ask, bid) =>
              if limitMet (o_Direction order) limit ask bid then mret Activated
              else limit_loop fuel' order limit
          | None =>
              snapshot ← try (GetMarketSnapshot (o_ListingID order));
              match snapshot with
              | Err _ => limit_loop fuel' order limit
              | Ok s =>
                  if limitMet (o_Direction order) limit (ms_Ask s) (ms_Bid s) then mret Activated
                  else limit_loop fuel' order limit
              end
          end
  end.

Definition waitForLimitActivation (fuel : nat) (order : Order) : M wait :=
  match o_PricePerUnit order with
  | None => mret Aborted
  | Some limit => limit_loop fuel order limit
  end.

Definition market_status (exchangeID : Z) : M (option MarketStatus) :=
  io (fun e n => Ok (env_market_status e n exchangeID)).

Fixpoint exchange_loop (fuel : nat) (exchangeID : Z) : M wait :=
  match fuel with
  | O => mret StillWaiting
  | S fuel' =>
      status ← market_status exchangeID;
      match status with
      | Some MarketStatusOpen | Some MarketStatusPreMarket | Some MarketStatusAfterHours =>
          mret Activated
      | _ =>
          sleep ;;
          finished ← ctx_done;
          if (finished : bool) then mret Aborted else exchange_loop fuel' exchangeID
      end
  end.

Definition waitForExchangeOpen (fuel : nat) (exchangeID : Z) : M wait :=
  if negb exchange_set || (exchangeID <=? 0) then mret Activated
  else exchange_loop fuel exchangeID.

Definition isExchangeClosed (exchangeID : Z) : M bool :=
  if negb exchange_set || (exchangeID <=? 0) then mret false
  else
    s ← market_status exchangeID;
    mret (match s with Some MarketStatusClosed => true | _ => false end).

(** ** The hooks of an investment fund's order *)

(** [AddSecurityQuantity]: an upsert into [fund_securities]. *)
Definition AddSecurityQuantity (fundID listingID : Z) (deltaQty deltaCostRSD : float64) : M unit :=
  sql (fun d =>
    let dq := decimal.numeric_of_float64 deltaQty in
    let dc := decimal.numeric_of_float64 deltaCostRSD in
    match numeric_store 20 1000000 dq, store_cents dc with
    | Some q, Some c =>
        let old := match d_fund_securities d !! (fundID, listingID) with
                   | Some s => s | None => mkFundSecurity 0 0 end in
        match numeric_store 20 1000000 (numeric_val 1000000 (fs_quantity old + q)),
              store_cents (cents (fs_initial_cost_rsd old + c)) with
        | Some q', Some c' =>
            Ok (tt, set_fund_securities
                      (<[(fundID, listingID) := mkFundSecurity q' c']> (d_fund_securities d)) d)
        | _, _ => Err ErrDB
        end
    | _, _ => Err ErrDB
    end).

(** [SET liquid_assets = GREATEST(0, liquid_assets - ?)]. *)
Definition DeductLiquidAssets (fundID : Z) (amountRSD : float64) : M unit :=
  sql (fun d =>
    match d_liquid_assets d !! fundID with
    | None => Ok (tt, d)
    | Some v =>
        let q := (cents v - decimal.numeric_of_float64 amountRSD)%Q in
        match store_cents (if Qle_bool 0 q then q else 0%Q) with
        | Some v' => Ok (tt, set_liquid_assets (<[fundID := v']> (d_liquid_assets d)) d)
        | None => Err ErrDB
        end
    end).

(** ** One fill *)

(** What a fill was computed to be before its transaction starts. *)
Record fill : Type := mkFill {
  fl_chunkSize : Z;
  fl_executedPrice : decimal.t;
  fl_isFirstFill : bool;
  fl_newRemaining : Z;
  fl_fillAmount : decimal.t;
  fl_commission : decimal.t;
  fl_fillRSD : decimal.t
}.

Definition is_fund_buy (current : Order) : bool :=
  match o_FundID current, o_Direction current with
  | Some _, OrderDirectionBuy => fundRepo_set
  | _, _ => false
  end.

Definition fund_hooks (current : Order) (f : fill) : M unit :=
  match o_FundID current with
  | Some fundID =>
      if fundRepo_set && negb (decimal.IsZero (fl_fillRSD f)) then
        let deltaQty := f64_mul (f64_of_Z (fl_chunkSize f)) (f64_of_Z (o_ContractSize current)) in
        let costRSD := decimal.InexactFloat64 (fl_fillRSD f) in
        AddSecurityQuantity fundID (o_ListingID current) deltaQty costRSD ;;
        DeductLiquidAssets fundID costRSD
      else mret tt
  | None => mret tt
  end.

(** The database transaction of a fill. *)
Definition fill_body (ctx : bool) (current : Order) (f : fill) : M unit :=
  CreateTransaction (o_ID current) (fl_chunkSize f) (fl_executedPrice f) ;;
  (if fl_isFirstFill f && decimal.IsPositive (fl_commission f)
   then fm_ChargeCommission ctx (o_AccountID current) (fl_commission f) else mret tt) ;;
  (match o_Direction current with
   | OrderDirectionBuy =>
       fm_SettleBuyFill ctx (o_AccountID current) (fl_fillAmount f) ;;
       fund_hooks current f
   | _ => fm_CreditSellFill ctx (o_AccountID current) (fl_fillAmount f)
   end) ;;
  if fl_newRemaining f =? 0 then
    MarkDone (o_ID current) ;;
    match o_Direction current with
    | OrderDirectionSell =>
        fm_ClampPublicSharesToHoldings ctx (o_UserID current) (o_ListingID current)
    | _ => mret tt
    end
  else UpdateRemainingPortions (o_ID current) (fl_newRemaining f) false ;; mret tt.

Definition fill_tx (ctx : bool) (current : Order) (f : fill) : M unit :=
  Transaction (fill_body ctx current f).

(** The chunk, the amounts and the commission of the next fill. *)
Definition prepare_fill (current : Order) (executedPrice : decimal.t) : M fill :=
  chunkSize ← (if o_AllOrNone current then mret (o_RemainingPortions current)
               else calcChunkSize (o_RemainingPortions current));
  let isFirstFill := o_RemainingPortions current =? o_Quantity current in
  let newRemaining := int32_sub (o_RemainingPortions current) chunkSize in
  let fillAmount := decimal.Mul executedPrice (decimal.NewFromInt chunkSize) in
  let commission :=
    if isFirstFill then
      commissionForOrderType (o_OrderType current)
        (decimal.Mul executedPrice (decimal.NewFromInt (o_Quantity current)))
    else decimal.Zero in
  fillRSD ← (if is_fund_buy current then
               conv ← try (fm_ConvertUSDToRSD fillAmount);
               mret (match conv with Ok x => x | Err _ => fillAmount end)
             else mret decimal.Zero);
  mret (mkFill chunkSize executedPrice isFirstFill newRemaining fillAmount commission fillRSD).

(** The account could not pay: the order is declined and the rest released. *)
Definition decline_unpaid (ctx : bool) (current : Order) (f : fill) : M unit :=
  try (UpdateStatus (o_ID current) OrderStatusDeclined None) ;;
  let releaseAmt := decimal.Mul (fl_executedPrice f) (decimal.NewFromInt (o_RemainingPortions current)) in
  try (fm_ReleaseFunds ctx (o_AccountID current) releaseAmt) ;;
  mret tt.

(** ** The execution loop *)

(** Wait until a fill may happen; [Aborted] ends the goroutine. *)
Definition await_exchange (fuel : nat) (current : Order) (snapshot : MarketSnapshot) : M wait :=
  closed ← (if o_AfterHours current then isExchangeClosed (ms_ExchangeID snapshot) else mret false);
  if o_AfterHours current && (closed : bool) then
    sleep ;;
    finished ← ctx_done;
    if (finished : bool) then mret Aborted
    else
      again ← GetByID (o_ID current);
      mret (if executable again then Activated else Aborted)
  else waitForExchangeOpen fuel (ms_ExchangeID snapshot).

(** One pass of the loop after the waits: [Some n] leaves [n] portions. *)
Definition execute_fill (ctx : bool) (current : Order) (effectiveType : OrderType)
    (snapshot : MarketSnapshot) : M (option Z) :=
  executedPrice ← of_result (resolveExecutionPrice current effectiveType snapshot);
  f ← prepare_fill current executedPrice;
  r ← try (fill_tx ctx current f);
  match r with
  | Ok _ => mret (if fl_newRemaining f =? 0 then None else Some (fl_newRemaining f))
  | Err er =>
      match o_Direction current, er with
      | OrderDirectionBuy, ErrInsufficientFunds => decline_unpaid ctx current f ;; mret None
      | _, _ => throw er
      end
  end.

(** [true]: the goroutine is through with the order. *)
Fixpoint execute_loop (fuel : nat) (ctx : bool) (id : Z) (effectiveType : OrderType) : M bool :=
  match fuel with
  | O => mret false
  | S fuel' =>
      current ← GetByID id;
      if negb (executable current) then mret true
      else
        snapshot ← GetMarketSnapshot (o_ListingID current);
        open ← await_exchange fuel' current snapshot;
        match open with
        | StillWaiting => mret false
        | Aborted => mret true
        | Activated =>
            current ← GetByID id;
            if negb (executable current) then mret true
            else
              left_ ← execute_fill ctx current effectiveType snapshot;
              match left_ with
              | None => mret true
              | Some newRemaining =>
                  waitSecs ← calcWaitSeconds (ms_Volume snapshot) newRemaining;
                  sleep_for waitSecs ;;
                  finished ← ctx_done;
                  if (finished : bool) then mret true
                  else execute_loop fuel' ctx id effectiveType
              end
        end
  end.

(** ** Currency orders *)

Definition forex_execution_rate (current : Order) (snap : MarketSnapshot) : decimal.t :=
  match o_Direction current with
  | OrderDirectionBuy =>
      let rate := decimal.NewFromFloat (ms_Ask snap) in
      match o_PricePerUnit current with
      | Some p => if decimal.GreaterThan rate p then p else rate
      | None => rate
      end
  | _ =>
      let rate := decimal.NewFromFloat (ms_Bid snap) in
      match o_PricePerUnit current with
      | Some p => if decimal.LessThan rate p then p else rate
      | None => rate
      end
  end.

Definition forex_body (ctx : bool) (current : Order) (snap : MarketSnapshot) (rate : decimal.t) : M unit :=
  let nominalBase := decimal.Mul (decimal.NewFromInt (o_ContractSize current))
                       (decimal.NewFromInt (o_Quantity current)) in
  swap ← try (fm_ForexSwap ctx (o_UserID current) (o_AccountID current)
                (ms_ForexBaseCurrency snap) (ms_ForexQuoteCurrency snap) nominalBase rate
                (o_Direction current));
  match swap with
  | Err er =>
      if isForexDeclineError er then
        UpdateStatus (o_ID current) OrderStatusDeclined None ;; mret tt
      else throw er
  | Ok _ =>
      CreateTransaction (o_ID current) (o_Quantity current) rate ;;
      MarkDone (o_ID current) ;; mret tt
  end.

Definition executeForexOrder (fuel : nat) (ctx : bool) (id : Z) (snap : MarketSnapshot) : M bool :=
  current ← GetByID id;
  if negb (executable current) then mret true
  else
    open ← waitForExchangeOpen fuel (ms_ExchangeID snap);
    match open with
    | StillWaiting => mret false
    | Aborted => mret true
    | Activated =>
        current ← GetByID id;
        if negb (executable current) then mret true
        else
          s ← try (GetMarketSnapshot (o_ListingID current));
          match s with
          | Err _ => mret true
          | Ok snap =>
              let rate := forex_execution_rate current snap in
              if decimal.IsZero rate then mret true
              else Transaction (forex_body ctx current snap rate) ;; mret true
          end
    end.

Definition executeOrder (fuel : nat) (ctx : bool) (order : Order) (effectiveType : OrderType) : M bool :=
  initialSnap ← GetMarketSnapshot (o_ListingID order);
  match ms_ListingType initialSnap with
  | ListingTypeForex => executeForexOrder fuel ctx (o_ID order) initialSnap
  | _ => execute_loop fuel ctx (o_ID order) effectiveType
  end.

(** ** The goroutine and the tick *)

(** The type an order executes as once its stop has triggered. *)
Definition effective_type (ot : OrderType) : OrderType :=
  match ot with
  | OrderTypeStop => OrderTypeMarket
  | OrderTypeStopLimit => OrderTypeLimit
  | _ => ot
  end.

Definition after_stop (fuel : nat) (order : Order) : M bool :=
  let ctx := o_IsClient order in
  let effectiveType := effective_type (o_OrderType order) in
  activated ← (match effectiveType with
               | OrderTypeLimit => waitForLimitActivation fuel order
               | _ => mret Activated
               end);
  match activated with
  | Activated => executeOrder fuel ctx order effectiveType
  | Aborted => mret true
  | StillWaiting => mret false
  end.

(** Errors end the goroutine (they are logged), so the answer is never one. *)
Definition runOrder (fuel : nat) (order : Order) : M bool :=
  r ← try (match o_OrderType order with
           | OrderTypeStop | OrderTypeStopLimit =>
               activated ← waitForStopActivation fuel order;
               match activated with
               | Activated => after_stop fuel order
               | Aborted => mret true
               | StillWaiting => mret false
               end
           | OrderTypeMarket | OrderTypeLimit => after_stop fuel order
           | OtherOrderType _ => mret true
           end);
  mret (match r with Ok b => b | Err _ => true end).

(** Decline an order whose instrument has expired; [true] if it was. *)
Definition decline_if_expired (o : Order) (snapshot : MarketSnapshot) : M bool :=
  expired ← isSettlementExpired snapshot;
  if (expired : bool) then
    try (UpdateStatus (o_ID o) OrderStatusDeclined None) ;; mret true
  else mret false.

Definition expire_pending : M unit :=
  pendingOrders ← try (ListByStatus (Some OrderStatusPending));
  match pendingOrders with
  | Err _ => mret tt
  | Ok l => for_each l (fun po =>
      snap ← try (GetMarketSnapshot (o_ListingID po));
      match snap with
      | Err _ => mret tt
      | Ok s => decline_if_expired po s ;; mret tt
      end)
  end.

(** The loop over APPROVED orders: the orders a goroutine is started for, and
    the live-set [active] with them. *)
Fixpoint spawn (orders : list Order) (active : gset Z) : M (list Order * gset Z) :=
  match orders with
  | [] => mret ([], active)
  | o :: rest =>
      snapshot ← try (GetMarketSnapshot (o_ListingID o));
      match snapshot with
      | Err _ => spawn rest active
      | Ok s =>
          expired ← decline_if_expired o s;
          if (expired : bool) then spawn rest active
          else if bool_decide (o_ID o ∈ active) then spawn rest active
          else
            '(started, active') ← spawn rest ({[o_ID o]} ∪ active);
            mret (o :: started, active')
      end
  end.

Definition tick (active : gset Z) : M (list Order * gset Z) :=
  expire_pending ;;
  orders ← try (ListByStatus (Some OrderStatusApproved));
  match orders with
  | Err _ => mret ([], active)
  | Ok l => spawn l active
  end.
End engine.
