(* ===== verification/EngineFacts.v ===== *)
(** * The execution engine refines the order lifecycle

    A fill transaction is one [market_fill] step or nothing; the whole life of a
    goroutine, whatever fails and whatever the others do along [market_step]
    while it sleeps, moves the order tables along [market_step].  The loop takes
    at most one pass per portion. *)

From stdpp Require Import relations.
From S2P Require Import Prelude Numeric DecimalModel Domain Store StoreFacts Calculations.
From S2P Require Import OrderRepo OrderRepoFacts Lifecycle Market Interfaces TradingService.
From S2P Require Import ServiceFacts Engine.
#[local] Open Scope Z_scope.

(** ** Runs that start in a well-formed market *)

Section inv_evolves.
Context (is_forex : Z -> bool).

(** The row [id] exists and is, or is not, on a currency pair. *)
Definition row_kind (id : Z) (b : bool) (d : DB) : Prop :=
  exists m, d_orders d !! id = Some m /\ is_forex (om_ListingID m) = b.

Lemma row_kind_evolves id b d d' : evolves is_forex d d' -> row_kind id b d -> row_kind id b d'.
Proof.
  intros H (m & Hm & Hb). destruct (evolves_listing _ _ _ _ _ H Hm) as (m' & Hm' & E).
  exists m'. split; [done|congruence].
Qed.

Definition inv_evolves (id : Z) (b : bool) (d d' : DB) : Prop :=
  market_inv is_forex (view d) -> row_kind id b d -> evolves is_forex d d'.

#[export] Instance inv_evolves_preorder id b : PreOrder (inv_evolves id b).
Proof.
  split; [intros d _ _; reflexivity|]. intros x y z Hxy Hyz Hx Hb.
  transitivity y; [auto|]. apply Hyz; [|eapply row_kind_evolves; eauto].
  eapply market_inv_rtc; [|exact Hx]. by apply Hxy.
Qed.

Lemma inv_evolves_of id b d d' : evolves is_forex d d' -> inv_evolves id b d d'.
Proof. by intros H _ _. Qed.
End inv_evolves.

(** ** Frames of the waiting parts *)

Section frames.
Context `{DL : decimal.Lib} {FM : FundsManager} `{FML : !FundsManagerLaws FM}.
Context (exchange_set fundRepo_set tickBus_set : bool).

Lemma calcChunkSize_reads n : reads (calcChunkSize n).
Proof. unfold calcChunkSize. solve_reads. Qed.
Lemma calcWaitSeconds_reads v n : reads (calcWaitSeconds v n).
Proof. unfold calcWaitSeconds. solve_reads. Qed.
Lemma isExchangeClosed_reads x : reads (isExchangeClosed exchange_set x).
Proof. unfold isExchangeClosed, market_status. solve_reads. Qed.
Lemma isSettlementExpired_reads s : reads (isSettlementExpired s).
Proof. unfold isSettlementExpired. solve_reads. Qed.
Hint Resolve calcChunkSize_reads : reads.
Lemma prepare_fill_reads o p : reads (prepare_fill fundRepo_set o p).
Proof. unfold prepare_fill. solve_reads. Qed.

(** In an environment whose other actors keep to [R], waiting keeps to [R]. *)
Section waits.
Context (e : Env) (R : DB -> DB -> Prop) `{HR : !PreOrder R} (Hi : interferes e R).

Lemma reads_at {A} (m : M A) : reads m -> preserves_at e R m.
Proof. intros H. by apply preserves_at_of, reads_preserves. Qed.

Lemma preserves_at_ret {A} (a : A) : preserves_at e R (mret a).
Proof. by apply preserves_at_of, preserves_ret. Qed.

Lemma ctx_done_at : preserves_at e R ctx_done.
Proof. apply reads_at. unfold ctx_done. solve_reads. Qed.

Local Ltac waiting IH :=
  repeat first
    [ apply preserves_at_ret
    | exact IH
    | apply preserves_at_sleep; done
    | apply ctx_done_at
    | apply reads_at; solve [unfold market_status, next_tick; solve_reads]
    | apply preserves_at_bind; [done| |intros ?]
    | match goal with |- preserves_at _ _ (match ?x with _ => _ end) => destruct x end ].

Lemma exchange_loop_at fuel x : preserves_at e R (exchange_loop fuel x).
Proof. induction fuel as [|fuel IH]; cbn [exchange_loop]; waiting IH. Qed.

Lemma stop_loop_at fuel o p : preserves_at e R (stop_loop fuel o p).
Proof. induction fuel as [|fuel IH]; cbn [stop_loop]; waiting IH. Qed.

Lemma limit_loop_at fuel o p : preserves_at e R (limit_loop tickBus_set fuel o p).
Proof. induction fuel as [|fuel IH]; cbn [limit_loop]; waiting IH. Qed.

Lemma waitForExchangeOpen_at fuel x : preserves_at e R (waitForExchangeOpen exchange_set fuel x).
Proof.
  unfold waitForExchangeOpen. destruct (_ || _); [apply preserves_at_ret|apply exchange_loop_at].
Qed.

Lemma waitForStopActivation_at fuel o : preserves_at e R (waitForStopActivation fuel o).
Proof.
  unfold waitForStopActivation. destruct (o_StopPrice o); [apply stop_loop_at|apply preserves_at_ret].
Qed.

Lemma waitForLimitActivation_at fuel o :
  preserves_at e R (waitForLimitActivation tickBus_set fuel o).
Proof.
  unfold waitForLimitActivation. destruct (o_PricePerUnit o); [apply limit_loop_at|apply preserves_at_ret].
Qed.

Lemma await_exchange_at fuel o s : preserves_at e R (await_exchange exchange_set fuel o s).
Proof.
  unfold await_exchange. apply preserves_at_bind; [done| |intros closed].
  { destruct (o_AfterHours o); [apply reads_at, isExchangeClosed_reads|apply preserves_at_ret]. }
  destruct (_ && closed); [|apply waitForExchangeOpen_at]. waiting I.
Qed.
End waits.
End frames.

#[export] Hint Resolve prepare_fill_reads calcChunkSize_reads isSettlementExpired_reads
  isExchangeClosed_reads : reads.

(** ** One fill *)

Section fill.
Context `{DL : decimal.Lib} {FM : FundsManager} `{FML : !FundsManagerLaws FM}.
Context (exchange_set fundRepo_set tickBus_set : bool) (is_forex : Z -> bool).

Lemma fund_hooks_orders o f : preserves (same order_tables) (fund_hooks fundRepo_set o f).
Proof.
  unfold fund_hooks, AddSecurityQuantity, DeductLiquidAssets. solve_preserves.
  - apply preserves_sql; [apply _|]. intros d [] d' H.
    destruct (numeric_store _ _ _); [|discriminate]. destruct (store_cents _); [|discriminate].
    destruct (numeric_store _ _ _); [|discriminate]. destruct (store_cents _); [|discriminate].
    by injection H as <-.
  - apply preserves_sql; [apply _|]. intros d [] d' H.
    destruct (d_liquid_assets d !! _); [|by injection H as <-].
    destruct (store_cents _); [by injection H as <-|discriminate].
Qed.
Hint Resolve fund_hooks_orders : preserves.

(** The money part of a fill, between the record of the fill and the row. *)
Definition fill_money (ctx : bool) (current : Order) (f : fill) : M unit :=
  (if fl_isFirstFill f && decimal.IsPositive (fl_commission f)
   then fm_ChargeCommission ctx (o_AccountID current) (fl_commission f) else mret tt) ;;
  match o_Direction current with
  | OrderDirectionBuy =>
      fm_SettleBuyFill ctx (o_AccountID current) (fl_fillAmount f) ;;
      fund_hooks fundRepo_set current f
  | _ => fm_CreditSellFill ctx (o_AccountID current) (fl_fillAmount f)
  end.

Lemma fill_money_orders ctx o f : preserves (same order_tables) (fill_money ctx o f).
Proof. unfold fill_money. solve_preserves. Qed.

(** A fill that went through took its portions and recorded exactly them. *)
Lemma fill_body_ok ctx current f e w w' :
  fill_body fundRepo_set ctx current f e w = (Ok tt, w') ->
  exists m c t, d_orders (w_db w) !! o_ID current = Some m /\ 0 < fl_chunkSize f /\
    d_orders (w_db w') =
      <[o_ID current := if fl_newRemaining f =? 0 then with_done m
                        else with_remaining (fl_newRemaining f) false m]> (d_orders (w_db w)) /\
    d_order_transactions (w_db w') = d_order_transactions (w_db w) ++
      [mkOrderTransactionModel (o_ID current) (fl_chunkSize f) c t].
Proof using FML.
  unfold fill_body. intros H. apply bind_ok in H as (ot & w1 & H1 & H).
  apply CreateTransaction_rows in H1 as (c & t & Hc & Hw1).
  set (k := if fl_newRemaining f =? 0 then _ else _) in H.
  assert (exists w3, same order_tables (w_db w1) (w_db w3) /\ k e w3 = (Ok tt, w')) as (w3 & Ht & Hk).
  { apply bind_ok in H as ([] & w2 & H2 & H). apply bind_ok in H as ([] & w3 & H3 & H).
    exists w3. split; [|exact H]. apply (fill_money_orders ctx current f e w1 (Ok tt)).
    unfold fill_money. by rewrite (bind_run _ _ _ _ _ _ H2). }
  pose proof (same_order_orders _ _ Ht) as Ho. pose proof (same_order_txs _ _ Ht) as Htx.
  rewrite Hw1 in Ho, Htx. cbn in Ho, Htx. subst k. destruct (fl_newRemaining f =? 0).
  - apply bind_ok in Hk as (o & w4 & H4 & H5).
    assert (Ht' : same order_tables (w_db w4) (w_db w')).
    { destruct (o_Direction current); try (injection H5 as <-; reflexivity).
      exact (fm_Clamp_frame _ _ _ _ _ _ _ H5). }
    pose proof (MarkDone_txs _ _ _ _ _ H4) as Htx4. unfold same in Htx4.
    apply MarkDone_ok in H4 as (m & Hm & Ho4). rewrite Ho in Hm, Ho4.
    exists m, c, t. rewrite (same_order_orders _ _ Ht'), (same_order_txs _ _ Ht'), Ho4, Htx4, Htx. auto.
  - apply bind_ok in Hk as (o & w4 & H4 & H5). injection H5 as <-.
    pose proof (UpdateRemainingPortions_txs _ _ _ _ _ _ _ H4) as Htx4. unfold same in Htx4.
    apply UpdateRemainingPortions_ok in H4 as (m & Hm & Ho4). rewrite Ho in Hm, Ho4.
    exists m, c, t. rewrite Ho4, Htx4, Htx. auto.
Qed.

(** What [prepare_fill] prepares: between one and all of the open portions. *)
Lemma prepare_fill_ok current p e w f w' :
  prepare_fill fundRepo_set current p e w = (Ok f, w') ->
  fl_newRemaining f = int32_sub (o_RemainingPortions current) (fl_chunkSize f) /\
  (if o_AllOrNone current then fl_chunkSize f = o_RemainingPortions current
   else 1 <= fl_chunkSize f <= Z.min 10 (o_RemainingPortions current)) /\
  fl_executedPrice f = p /\ fl_isFirstFill f = (o_RemainingPortions current =? o_Quantity current).
Proof.
  unfold prepare_fill. intros H. apply bind_ok in H as (n & w1 & H1 & H).
  apply bind_ok in H as (x & w2 & _ & H). injection H as <- _. cbn. split_and!; [done| |done|done].
  destruct (o_AllOrNone current); [by injection H1 as -> _|].
  unfold calcChunkSize in H1. apply bind_ok in H1 as (k & w3 & H1 & H). injection H as <- _.
  unfold rand_Intn, io in H1. destruct (Z.leb_spec (if 10 <? o_RemainingPortions current then 10
    else o_RemainingPortions current) 0) as [|Hpos]; [discriminate|]. injection H1 as <- _.
  pose proof (Z.mod_pos_bound (env_rand e (w_step w)) _ Hpos).
  destruct (Z.ltb_spec 10 (o_RemainingPortions current)); lia.
Qed.

(** The transaction of a fill is one [market_fill] step, or nothing at all. *)
Lemma fill_tx_spec ctx id m f e w r w' :
  market_inv is_forex (view (w_db w)) ->
  d_orders (w_db w) !! id = Some m -> executable (toDomain id m) = true ->
  fl_newRemaining f = int32_sub (om_RemainingPortions m) (fl_chunkSize f) ->
  fl_chunkSize f <= om_RemainingPortions m -> is_forex (om_ListingID m) = false ->
  fill_tx fundRepo_set ctx (toDomain id m) f e w = (r, w') ->
  match r with
  | Ok _ => 0 < fl_chunkSize f /\ fl_newRemaining f = om_RemainingPortions m - fl_chunkSize f /\
      d_orders (w_db w') = <[id := filled (fl_chunkSize f) m]> (d_orders (w_db w)) /\
      market_step is_forex (view (w_db w)) (view (w_db w'))
  | Err _ => w_db w' = w_db w
  end.
Proof using FML.
  intros Hinv Hm Hex Hnew Hle Hfx H. destruct r as [[]|er]; [|by apply Transaction_err in H].
  apply Transaction_ok in H as (w1 & H & Hdb & _).
  apply fill_body_ok in H as (m' & c & t & Hm' & Hpos & Ho & Ht). cbn in Hm', Ho, Ht.
  rewrite Hm in Hm'. injection Hm' as <-.
  destruct (inv_order _ _ Hinv id m Hm) as (Hq & Hr & _).
  rewrite int32_sub_exact in Hnew by (unfold is_int32; lia).
  assert (Hf : (if fl_newRemaining f =? 0 then with_done m
                else with_remaining (fl_newRemaining f) false m) = filled (fl_chunkSize f) m)
    by (unfold filled; by rewrite Hnew).
  rewrite Hf in Ho. split_and!; [done|done|by rewrite Hdb|].
  unfold executable in Hex. apply andb_prop in Hex as [Hs Hd]. cbn in Hs, Hd.
  apply bool_decide_eq_true in Hs. apply negb_true_iff in Hd.
  unfold view. rewrite Hdb, Ho, Ht. apply market_fill; [done..|lia|congruence].
Qed.
End fill.

#[export] Hint Resolve fund_hooks_orders : preserves.

(** ** The execution loop *)

Section loop.
Context `{DL : decimal.Lib} {FM : FundsManager} `{FML : !FundsManagerLaws FM}.
Context (exchange_set fundRepo_set tickBus_set : bool) (is_forex : Z -> bool).

Lemma executable_approved id m :
  executable (toDomain id m) = true -> om_Status m = OrderStatusApproved /\ om_IsDone m = false.
Proof.
  unfold executable. intros [Hs Hd]%andb_prop. cbn in *.
  split; [by apply bool_decide_eq_true in Hs|by apply negb_true_iff in Hd].
Qed.

(** Declining a row that is APPROVED, by a call whose error is swallowed. *)
Lemma decline_evolves id m b e w r w' :
  d_orders (w_db w) !! id = Some m ->
  om_Status m = OrderStatusPending \/ om_Status m = OrderStatusApproved ->
  UpdateStatus id OrderStatusDeclined b e w = (r, w') -> evolves is_forex (w_db w) (w_db w').
Proof.
  intros Hm Hs H.
  eapply evolves_row; [exact (UpdateStatus_any _ _ _ _ _ _ _ H)|exact (UpdateStatus_txs _ _ _ _ _ _ _ H)|].
  intros m' Hm'. rewrite Hm in Hm'. injection Hm' as <-. by apply step_decline.
Qed.

(** One pass: a declined order, a finished order, or fewer portions. *)
Lemma execute_fill_spec ctx id m ty s e w r w' :
  market_inv is_forex (view (w_db w)) ->
  d_orders (w_db w) !! id = Some m -> executable (toDomain id m) = true ->
  is_forex (om_ListingID m) = false ->
  execute_fill fundRepo_set ctx (toDomain id m) ty s e w = (r, w') ->
  evolves is_forex (w_db w) (w_db w') /\
  (forall n, r = Ok (Some n) -> exists k, 0 < k /\ n = om_RemainingPortions m - k /\ n <> 0 /\
     d_orders (w_db w') = <[id := filled k m]> (d_orders (w_db w))).
Proof using FML.
  intros Hinv Hm Hex Hfx H. unfold execute_fill in H.
  apply bind_cases in H as [(p & w1 & H1 & H)|(er & -> & H1)].
  2: { destruct (resolveExecutionPrice _ _ _); [discriminate|]. injection H1 as _ <-.
       split; [reflexivity|discriminate]. }
  assert (w1 = w) as -> by (destruct (resolveExecutionPrice _ _ _); [by injection H1|discriminate]).
  apply bind_cases in H as [(f & w2 & H2 & H)|(er & -> & H2)];
    pose proof (prepare_fill_reads _ _ _ _ _ _ _ H2) as Hw2;
    [|split; [by apply evolves_eq|discriminate]].
  apply prepare_fill_ok in H2 as (Hnew & Hsz & _ & _). cbn in Hnew, Hsz.
  apply try_bind in H as (r3 & w3 & H3 & H). rewrite Hw2 in Hinv, Hm |- *.
  apply (fill_tx_spec fundRepo_set is_forex ctx id m) in H3; [|done..|destruct (om_AllOrNone m); lia|done].
  destruct r3 as [[]|er].
  - destruct H3 as (Hpos & Hn & Ho & Hstep). injection H as <- <-.
    split; [by apply rtc_once|]. intros n. destruct (Z.eqb_spec (fl_newRemaining f) 0); [discriminate|].
    intros [= <-]. exists (fl_chunkSize f). auto.
  - destruct (executable_approved id m Hex) as [Hs _].
    assert (Hdec : forall r w4, decline_unpaid ctx (toDomain id m) f e w3 = (r, w4) ->
              evolves is_forex (w_db w2) (w_db w4)).
    { intros r4 w4 H4. apply try_bind in H4 as (r5 & w5 & H5 & H4). rewrite <- H3.
      transitivity (w_db w5).
      - eapply decline_evolves; [|by right|exact H5]. by rewrite H3.
      - apply try_bind in H4 as (r6 & w6 & H6 & H4). injection H4 as _ <-.
        apply evolves_tables. exact (fm_ReleaseFunds_frame _ _ _ _ _ _ _ H6). }
    assert (Hthrow : (throw er : M (option Z)) e w3 = (r, w') -> evolves is_forex (w_db w2) (w_db w') /\
              (forall n, r = Ok (Some n) -> exists k, 0 < k /\ n = om_RemainingPortions m - k /\ n <> 0 /\
                 d_orders (w_db w') = <[id := filled k m]> (d_orders (w_db w2)))).
    { intros [= <- <-]. split; [by apply evolves_eq|discriminate]. }
    cbn in H. destruct (om_Direction m); try (by apply Hthrow).
    destruct er; try (by apply Hthrow).
    apply bind_cases in H as [([] & w4 & H4 & H)|(er & -> & H4)]; apply Hdec in H4;
      [injection H as <- <-|]; (split; [exact H4|discriminate]).
Qed.

Section interference.
Context (e : Env) (Hi : interferes e (evolves is_forex)).

Lemma interferes_inv id b : interferes e (inv_evolves is_forex id b).
Proof. intros n d. apply inv_evolves_of, Hi. Qed.

Lemma at_reads_inv {A} id b (m : M A) : reads m -> preserves_at e (inv_evolves is_forex id b) m.
Proof. intros H. apply reads_at; [apply _|done]. Qed.

(** The goroutine's fetch of its row, then a computation that depends on it. *)
Lemma fetch_then {A} id b (k : Order -> M A) :
  (forall m w r w', market_inv is_forex (view (w_db w)) -> d_orders (w_db w) !! id = Some m ->
     is_forex (om_ListingID m) = b -> k (toDomain id m) e w = (r, w') -> evolves is_forex (w_db w) (w_db w')) ->
  preserves_at e (inv_evolves is_forex id b) (o ← GetByID id; k o).
Proof.
  intros Hk w r w' H Hinv (m0 & Hm0 & Hb). apply bind_cases in H as [(o & w1 & H1 & H)|(er & _ & H1)].
  - apply GetByID_ok in H1 as (Hw1 & m & Hm & ->). rewrite <- Hw1 in *.
    rewrite Hm in Hm0. injection Hm0 as <-. by eapply Hk.
  - apply evolves_eq. exact (GetByID_reads _ _ _ _ _ H1).
Qed.

Lemma execute_loop_inv fuel ctx id ty :
  preserves_at e (inv_evolves is_forex id false)
    (execute_loop exchange_set fundRepo_set fuel ctx id ty).
Proof using FML Hi.
  induction fuel as [|fuel IH]; cbn [execute_loop]; [apply preserves_at_ret; apply _|].
  apply preserves_at_bind; [apply _|apply at_reads_inv, GetByID_reads|intros current].
  destruct (negb _); [apply preserves_at_ret; apply _|].
  apply preserves_at_bind; [apply _|apply at_reads_inv, GetMarketSnapshot_reads|intros s].
  apply preserves_at_bind; [apply _|apply await_exchange_at; [apply _|apply interferes_inv]|].
  intros [| |]; [|apply preserves_at_ret; apply _..].
  apply fetch_then. intros m w r w' Hinv Hm Hb H.
  destruct (executable (toDomain id m)) eqn:Hex; cbn [negb] in H; [|injection H as _ <-; reflexivity].
  apply bind_cases in H as [(l & w1 & H1 & H)|(er & _ & H1)];
    apply execute_fill_spec with (m := m) in H1 as [H1 _]; try done.
  transitivity (w_db w1); [done|].
  assert (Hinv1 : market_inv is_forex (view (w_db w1))) by by eapply market_inv_rtc.
  assert (Hrow : row_kind is_forex id false (w_db w1))
    by (eapply row_kind_evolves; [exact H1|]; by exists m).
  destruct l as [n|]; [|injection H as _ <-; reflexivity]. revert H Hinv1 Hrow.
  apply (fun P => P w1 r w'). clear - IH Hi.
  change (preserves_at e (inv_evolves is_forex id false)
    (secs ← calcWaitSeconds (ms_Volume s) n; sleep_for secs ;; finished ← ctx_done;
     if (finished : bool) then mret true
     else execute_loop exchange_set fundRepo_set fuel ctx id ty)).
  apply preserves_at_bind; [apply _|apply at_reads_inv, calcWaitSeconds_reads|intros secs].
  apply preserves_at_bind; [apply _|apply preserves_at_sleep, interferes_inv|intros _].
  apply preserves_at_bind; [apply _|apply ctx_done_at; apply _|intros []].
  - apply preserves_at_ret; apply _.
  - exact IH.
Qed.

(** ** Currency orders *)

Lemma forex_body_evolves ctx id m s rate w r w' :
  market_inv is_forex (view (w_db w)) ->
  d_orders (w_db w) !! id = Some m -> executable (toDomain id m) = true ->
  is_forex (om_ListingID m) = true ->
  forex_body ctx (toDomain id m) s rate e w = (r, w') ->
  match r with Ok _ => evolves is_forex (w_db w) (w_db w') | Err _ => True end.
Proof using FML.
  intros Hinv Hm Hex Hfx H. destruct r as [[]|]; [|done].
  destruct (executable_approved id m Hex) as [Hs Hd].
  pose proof (inv_whole _ _ Hinv id m Hm Hfx Hs) as Hrem. unfold forex_body in H. cbn in H.
  apply try_bind in H as (r1 & w1 & H1 & H). apply fm_ForexSwap_frame in H1 as Ht.
  transitivity (w_db w1); [by apply evolves_tables|].
  assert (Hm1 : d_orders (w_db w1) !! id = Some m) by by rewrite (same_order_orders _ _ Ht).
  destruct r1 as [[]|er].
  - apply bind_ok in H as (ot & w2 & H2 & H). apply CreateTransaction_rows in H2 as (c & t & Hpos & Hw2).
    apply bind_ok in H as (o & w3 & H3 & H). injection H as <-.
    pose proof (MarkDone_txs _ _ _ _ _ H3) as Htx. unfold same in Htx.
    apply MarkDone_ok in H3 as (m' & Hm' & Ho). rewrite Hw2 in Hm', Ho, Htx. cbn in Hm', Ho, Htx.
    rewrite Hm1 in Hm'. injection Hm' as <-. apply rtc_once. unfold view. rewrite Ho, Htx.
    assert (with_done m = filled (om_Quantity m) m) as ->
      by (unfold filled; by rewrite Hrem, Z.sub_diag).
    apply market_fill; [done..|lia|done].
  - destruct (isForexDeclineError er); [|discriminate].
    apply bind_ok in H as (o & w2 & H2 & H). injection H as <-.
    eapply decline_evolves; [exact Hm1|by right|exact H2].
Qed.
End interference.
End loop.
