(* ===== verification/EngineRefinement.v ===== *)
(** * Whole goroutines and whole ticks refine the order lifecycle

    [runOrder], whatever its order type, market, faults and interleaving, and
    [tick], the pass of the polling loop, move the order tables only along
    [market_step].  The rest are the facts about [tick] that the polling loop
    relies on: no goroutine is started twice. *)

From stdpp Require Import relations.
From S2P Require Import Prelude Numeric DecimalModel Domain Store StoreFacts Calculations.
From S2P Require Import OrderRepo OrderRepoFacts Lifecycle Market Interfaces FundsManager.
From S2P Require Import FundsFacts TradingService ServiceFacts Engine EngineFacts Scenario.
From stdpp Require Import list sorting.
From S2P Require Import Actuaries.
#[local] Open Scope Z_scope.

(** The market data and [is_forex] agree on which listings are currency pairs. *)
Definition listings_agree (is_forex : Z -> bool) (e : Env) : Prop :=
  forall n id l, env_listing e n id = Ok l -> l_ListingType l = ListingTypeForex <-> is_forex id = true.

Lemma snapshot_of_type js l : ms_ListingType (snapshot_of js l) = l_ListingType l.
Proof.
  unfold snapshot_of. destruct (String.eqb _ EmptyString); [done|].
  destruct (l_ListingType l) eqn:E; try done.
  - by destruct (json_forex js _) as [[? ?]|].
  - destruct (json_settlement_date js _); [|done]. by destruct (String.eqb _ _).
  - destruct (json_settlement_date js _); [|done]. by destruct (String.eqb _ _).
Qed.

Lemma GetMarketSnapshot_type is_forex id e w s w' :
  listings_agree is_forex e -> GetMarketSnapshot id e w = (Ok s, w') ->
  ms_ListingType s = ListingTypeForex <-> is_forex id = true.
Proof.
  intros Ha H. apply bind_ok in H as (l & w1 & H1 & H).
  apply bind_ok in H as (js & w2 & _ & H). injection H as <- _.
  injection H1 as H1 _. rewrite snapshot_of_type. eauto.
Qed.

(** ** Goroutines *)

Section goroutine.
Context `{DL : decimal.Lib} {FM : FundsManager} `{FML : !FundsManagerLaws FM}.
Context (exchange_set fundRepo_set tickBus_set : bool) (is_forex : Z -> bool).
Context (e : Env) (Hi : interferes e (evolves is_forex)).

Lemma try_at {A} R `{!PreOrder R} (m : M A) : preserves_at e R m -> preserves_at e R (try m).
Proof. intros Hm w r w' H. apply try_run in H as (r0 & _ & H). by eapply Hm. Qed.

Lemma executeForexOrder_inv fuel ctx id s :
  preserves_at e (inv_evolves is_forex id true)
    (executeForexOrder exchange_set fuel ctx id s).
Proof using FML Hi.
  unfold executeForexOrder.
  apply preserves_at_bind; [apply _|apply at_reads_inv, GetByID_reads|intros current].
  destruct (negb _); [apply preserves_at_ret; apply _|].
  apply preserves_at_bind;
    [apply _|apply waitForExchangeOpen_at; [apply _|by apply interferes_inv]|].
  intros [| |]; [|apply preserves_at_ret; apply _..].
  apply fetch_then. intros m w r w' Hinv Hm Hb H.
  destruct (executable (toDomain id m)) eqn:Hex; cbn [negb] in H; [|injection H as _ <-; reflexivity].
  apply try_bind in H as (s1 & w1 & H1 & H). apply GetMarketSnapshot_reads in H1.
  destruct s1 as [snap|er]; [|injection H as _ <-; by apply evolves_eq].
  cbv zeta in H. destruct (decimal.IsZero _); [injection H as _ <-; by apply evolves_eq|].
  rewrite H1 in Hinv, Hm |- *.
  apply bind_cases in H as [([] & w2 & H2 & H)|(er & -> & H2)].
  - injection H as _ <-. apply Transaction_ok in H2 as (w3 & H2 & Hdb & _). rewrite Hdb.
    by eapply (forex_body_evolves is_forex e ctx id m snap _ (begin_tx w1) (Ok tt)).
  - apply Transaction_err in H2. by apply evolves_eq.
Qed.

Lemma executeOrder_inv fuel ctx (o : Order) ty :
  listings_agree is_forex e ->
  preserves_at e (inv_evolves is_forex (o_ID o) (is_forex (o_ListingID o)))
    (executeOrder exchange_set fundRepo_set fuel ctx o ty).
Proof using FML Hi.
  intros Ha w r w' H. unfold executeOrder in H.
  apply bind_cases in H as [(s & w1 & H1 & H)|(er & _ & H1)];
    pose proof (GetMarketSnapshot_reads _ _ _ _ _ H1) as Hw1.
  2: { intros _ _. by apply evolves_eq. }
  apply (GetMarketSnapshot_type is_forex) in H1; [|done]. rewrite Hw1.
  assert (Hcase : (ms_ListingType s = ListingTypeForex /\ is_forex (o_ListingID o) = true) \/
                  (ms_ListingType s <> ListingTypeForex /\ is_forex (o_ListingID o) = false)).
  { destruct (decide (ms_ListingType s = ListingTypeForex)) as [E|E]; [left; tauto|right].
    split; [done|]. destruct (is_forex _); [|done]. tauto. }
  destruct Hcase as [[E ->]|[E ->]].
  - rewrite E in H. by eapply executeForexOrder_inv.
  - eapply execute_loop_inv; [exact Hi|].
    destruct (ms_ListingType s); try exact H. done.
Qed.

Lemma after_stop_inv fuel (o : Order) :
  listings_agree is_forex e ->
  preserves_at e (inv_evolves is_forex (o_ID o) (is_forex (o_ListingID o)))
    (after_stop exchange_set fundRepo_set tickBus_set fuel o).
Proof using FML Hi.
  intros Ha. unfold after_stop. apply preserves_at_bind; [apply _| |].
  - destruct (effective_type _); try (apply preserves_at_ret; apply _).
    apply waitForLimitActivation_at; [apply _|by apply interferes_inv].
  - intros [| |]; [|apply preserves_at_ret; apply _..]. by apply executeOrder_inv.
Qed.

Lemma runOrder_inv fuel (o : Order) :
  listings_agree is_forex e ->
  preserves_at e (inv_evolves is_forex (o_ID o) (is_forex (o_ListingID o)))
    (runOrder exchange_set fundRepo_set tickBus_set fuel o).
Proof using FML Hi.
  intros Ha. unfold runOrder. apply preserves_at_bind;
    [apply _| |intros ?; apply preserves_at_ret; apply _].
  apply try_at; [apply _|].
  assert (Hstop : preserves_at e (inv_evolves is_forex (o_ID o) (is_forex (o_ListingID o)))
    (activated ← waitForStopActivation fuel o;
     match activated with
     | Activated => after_stop exchange_set fundRepo_set tickBus_set fuel o
     | Aborted => mret true
     | StillWaiting => mret false
     end)).
  { apply preserves_at_bind;
      [apply _|apply waitForStopActivation_at; [apply _|by apply interferes_inv]|].
    intros [| |]; [by apply after_stop_inv|apply preserves_at_ret; apply _..]. }
  destruct (o_OrderType o); try exact Hstop; try by apply after_stop_inv.
  apply preserves_at_ret; apply _.
Qed.
End goroutine.

(** ** The polling loop *)

Section polling.
Context `{DL : decimal.Lib}.
Context (is_forex : Z -> bool).

(** The row of the order may still be declined. *)
Definition open_row (d : DB) (o : Order) : Prop :=
  exists m, d_orders d !! o_ID o = Some m /\
    (om_Status m = OrderStatusPending \/ om_Status m = OrderStatusApproved).

Lemma ListByStatus_ok st e w l w' :
  ListByStatus (Some st) e w = (Ok l, w') ->
  w_db w' = w_db w /\ NoDup (o_ID <$> l) /\
  forall o, o ∈ l -> exists m, d_orders (w_db w) !! o_ID o = Some m /\ om_Status m = st /\
    o = toDomain (o_ID o) m.
Proof.
  intros H. split; [symmetry; by eapply ListByStatus_reads|].
  apply bind_ok in H as (rows & w1 & H1 & H). injection H as <- _.
  apply sql_ok in H1 as (d & [= H1 _] & _ & _). subst rows. unfold select_orders. split.
  - rewrite <- list_fmap_compose. rewrite (merge_sort_Permutation newer_first).
    eapply sublist_NoDup; [|apply fmap_sublist, sublist_filter].
    change (fun x : Z * orderModel => o_ID (toDomain x.1 x.2)) with (@fst Z orderModel).
    apply NoDup_fst_map_to_list.
  - intros o Ho. apply list_elem_of_fmap in Ho as ([i m] & -> & Ho).
    rewrite (merge_sort_Permutation newer_first) in Ho.
    apply list_elem_of_filter in Ho as [Hs Ho]. apply elem_of_map_to_list in Ho.
    apply bool_decide_eq_true in Hs. by exists m.
Qed.

(** A decline writes its own row only. *)
Definition only_row (id : Z) (d d' : DB) : Prop :=
  forall i, i <> id -> d_orders d' !! i = d_orders d !! i.

Lemma decline_if_expired_spec o s e w r w' :
  open_row (w_db w) o -> decline_if_expired o s e w = (r, w') ->
  evolves is_forex (w_db w) (w_db w') /\ only_row (o_ID o) (w_db w) (w_db w').
Proof.
  intros (m & Hm & Hs) H. unfold decline_if_expired in H.
  apply bind_cases in H as [(x & w1 & H1 & H)|(er & _ & H1)]; apply isSettlementExpired_reads in H1.
  2: { split; [by apply evolves_eq|intros i _; by rewrite H1]. }
  rewrite H1 in Hm |- *.
  destruct x; [|injection H as _ <-; by split; [reflexivity|intros i _]].
  apply try_bind in H as (r2 & w2 & H2 & H). injection H as _ <-.
  split; [by eapply decline_evolves|].
  intros i Hi. destruct (UpdateStatus_any _ _ _ _ _ _ _ H2) as [->|(m' & _ & ->)]; [done|].
  by apply lookup_insert_ne.
Qed.

Lemma open_row_other d d' id o : only_row id d d' -> o_ID o <> id -> open_row d o -> open_row d' o.
Proof. intros H Hne (m & Hm & Hs). exists m. by rewrite H. Qed.

Lemma open_rows_tail d d' o l :
  only_row (o_ID o) d d' -> NoDup (o_ID <$> o :: l) -> Forall (open_row d) (o :: l) ->
  NoDup (o_ID <$> l) /\ Forall (open_row d') l.
Proof.
  intros H Hn Ho. csimpl in Hn. apply NoDup_cons in Hn as [Hnot Hn].
  apply Forall_cons in Ho as [_ Ho]. split; [done|].
  rewrite Forall_forall in Ho |- *. intros x Hx. eapply open_row_other; [exact H| |by apply Ho].
  intros E. apply Hnot. rewrite <- E. by apply list_elem_of_fmap_2.
Qed.

Lemma expire_each_evolves l e : NoDup (o_ID <$> l) -> forall w r w',
  Forall (open_row (w_db w)) l ->
  for_each l (fun po =>
    snap ← try (GetMarketSnapshot (o_ListingID po));
    match snap with
    | Err _ => mret tt
    | Ok s => decline_if_expired po s ;; mret tt
    end) e w = (r, w') -> evolves is_forex (w_db w) (w_db w').
Proof.
  induction l as [|po l IH]; intros Hn w r w' Ho H; cbn [for_each] in H;
    [injection H as _ <-; reflexivity|].
  assert (Hpo : open_row (w_db w) po) by (by apply Forall_cons in Ho as [? _]).
  assert (Hstep : forall (q : result unit) w1,
    (snap ← try (GetMarketSnapshot (o_ListingID po));
     match snap with Err _ => mret tt | Ok s => decline_if_expired po s ;; mret tt end) e w = (q, w1) ->
    evolves is_forex (w_db w) (w_db w1) /\ only_row (o_ID po) (w_db w) (w_db w1)).
  { intros q w1 H1. apply try_bind in H1 as (s & w2 & H2 & H1). apply GetMarketSnapshot_reads in H2.
    rewrite H2 in Hpo |- *.
    destruct s as [s|er]; [|injection H1 as _ <-; by split; [reflexivity|intros i _]].
    apply bind_cases in H1 as [(b & w3 & H3 & H1)|(er & _ & H3)];
      apply decline_if_expired_spec in H3; try done. by injection H1 as _ <-. }
  apply bind_cases in H as [(u & w1 & H1 & H)|(er & _ & H1)]; apply Hstep in H1 as [He Hr]; [|done].
  destruct (open_rows_tail _ _ _ _ Hr Hn Ho) as [Hn' Ho']. etransitivity; [exact He|by eapply IH].
Qed.

(** The orders [spawn] starts: not in the live-set before, in it afterwards,
    each once. *)
Lemma spawn_spec l e : NoDup (o_ID <$> l) -> forall active w r w',
  Forall (open_row (w_db w)) l ->
  spawn l active e w = (r, w') ->
  evolves is_forex (w_db w) (w_db w') /\
  forall started active', r = Ok (started, active') ->
    NoDup (o_ID <$> started) /\ (forall o, o ∈ started -> o ∈ l /\ o_ID o ∉ active) /\
    active' = list_to_set (o_ID <$> started) ∪ active.
Proof.
  induction l as [|o l IH]; intros Hn active w r w' Ho H; cbn [spawn] in H.
  { injection H as <- <-. split; [reflexivity|]. intros ? ? [= <- <-].
    split_and!; [constructor|by intros o ?%elem_of_nil|set_solver]. }
  assert (Hpo : open_row (w_db w) o) by (by apply Forall_cons in Ho as [? _]).
  apply try_bind in H as (s & w1 & H1 & H). apply GetMarketSnapshot_reads in H1.
  rewrite H1 in Hpo, Ho |- *.
  assert (Hskip : forall w2 r w', evolves is_forex (w_db w1) (w_db w2) ->
      only_row (o_ID o) (w_db w1) (w_db w2) -> spawn l active e w2 = (r, w') ->
      evolves is_forex (w_db w1) (w_db w') /\
      forall started active', r = Ok (started, active') ->
        NoDup (o_ID <$> started) /\ (forall x, x ∈ started -> x ∈ o :: l /\ o_ID x ∉ active) /\
        active' = list_to_set (o_ID <$> started) ∪ active).
  { intros w2 r2 w2' He Hr H2. destruct (open_rows_tail _ _ _ _ Hr Hn Ho) as [Hn' Ho'].
    apply IH in H2 as [He2 Hs]; [|done..]. split; [by etransitivity|].
    intros st ac Hst. destruct (Hs _ _ Hst) as (? & Hel & ->). split_and!; [done| |done].
    intros x Hx. destruct (Hel x Hx). split; [by right|done]. }
  destruct s as [s|er]; [|by eapply (Hskip w1); [reflexivity|intros i _|exact H]].
  apply bind_cases in H as [(b & w2 & H2 & H)|(er & -> & H2)];
    (apply decline_if_expired_spec in H2 as [He Hr]; [|done]); [|by split; [|discriminate]].
  destruct b; [by eapply Hskip|]. case_bool_decide as Hin; [by eapply Hskip|].
  destruct (open_rows_tail _ _ _ _ Hr Hn Ho) as [Hn' Ho'].
  apply bind_cases in H as [([st ac] & w3 & H3 & H)|(er & -> & H3)];
    apply IH in H3 as [He3 Hs]; try done;
    (split; [etransitivity; [exact He|]; (injection H as _ <- || idtac); done|]); [|discriminate].
  injection H as <- _. intros ? ? [= <- <-]. destruct (Hs _ _ eq_refl) as (Hnd & Hel & ->).
  csimpl. clear Hskip IH Hs. split_and!.
  - apply NoDup_cons. split; [|done]. intros (x & E & Hx)%list_elem_of_fmap.
    destruct (Hel x Hx) as [_ Hx']. rewrite E in Hx'. clear - Hx'. set_solver.
  - intros x [->|Hx]%elem_of_cons; [by split; [left|]|].
    destruct (Hel x Hx) as [? Hx']. split; [by right|]. clear - Hx'. set_solver.
  - clear. set_solver.
Qed.

Lemma expire_each_money l : preserves (same money_tables)
  (for_each l (fun po =>
    snap ← try (GetMarketSnapshot (o_ListingID po));
    match snap with
    | Err _ => mret tt
    | Ok s => decline_if_expired po s ;; mret tt
    end)).
Proof. unfold decline_if_expired. solve_preserves. Qed.

Lemma spawn_money l active : preserves (same money_tables) (spawn l active).
Proof.
  revert active. induction l as [|o l IH]; intros active; cbn [spawn]; [solve_preserves|].
  unfold decline_if_expired. solve_preserves; auto.
Qed.

Lemma listed_open st (l : list Order) d :
  st = OrderStatusPending \/ st = OrderStatusApproved ->
  (forall o, o ∈ l -> exists m, d_orders d !! o_ID o = Some m /\ om_Status m = st /\
     o = toDomain (o_ID o) m) -> Forall (open_row d) l.
Proof.
  intros Hst Hl. rewrite Forall_forall. intros o Ho. destruct (Hl o Ho) as (m & Hm & <- & _).
  by exists m.
Qed.

Lemma expire_pending_spec e w r w' :
  expire_pending e w = (r, w') ->
  evolves is_forex (w_db w) (w_db w') /\ same money_tables (w_db w) (w_db w').
Proof.
  intros H. apply try_bind in H as ([l|er] & w1 & H1 & H).
  - apply ListByStatus_ok in H1 as (Hw1 & Hn & Hl). rewrite <- Hw1 in *. split.
    + eapply expire_each_evolves; [exact Hn| |exact H]. by eapply listed_open; [left|].
    + exact (expire_each_money _ _ _ _ _ H).
  - injection H as _ <-. apply ListByStatus_reads in H1. rewrite H1. by split.
Qed.

(** The second half of a tick. *)
Lemma spawn_approved_spec active e w r w' :
  (orders ← try (ListByStatus (Some OrderStatusApproved));
   match orders with Err _ => mret ([], active) | Ok l => spawn l active end) e w = (r, w') ->
  evolves is_forex (w_db w) (w_db w') /\ same money_tables (w_db w) (w_db w') /\
  forall started active', r = Ok (started, active') ->
    NoDup (o_ID <$> started) /\
    (forall o, o ∈ started -> o_Status o = OrderStatusApproved /\ o_ID o ∉ active) /\
    active' = list_to_set (o_ID <$> started) ∪ active.
Proof.
  intros H. apply try_bind in H as ([l|er] & w1 & H1 & H).
  - apply ListByStatus_ok in H1 as (Hw1 & Hn & Hl). rewrite <- Hw1 in *.
    pose proof (spawn_money _ _ _ _ _ _ H) as Hm.
    apply spawn_spec in H as [He Hs]; [|done|by eapply listed_open; [right|]].
    split_and!; [done..|]. intros st ac Hst. destruct (Hs _ _ Hst) as (Hnd & Hel & ->).
    split_and!; [done| |done]. intros o Ho. destruct (Hel o Ho) as [Hin Hna]. split; [|done].
    destruct (Hl o Hin) as (m & _ & <- & ->). done.
  - injection H as <- <-. apply ListByStatus_reads in H1. rewrite <- H1.
    split_and!; [done..|]. intros ? ? [= <- <-].
    split_and!; [constructor|by intros o ?%elem_of_nil|]. clear. set_solver.
Qed.

Lemma tick_evolves active : preserves (evolves is_forex) (tick active).
Proof.
  intros e w r w' H. apply bind_cases in H as [([] & w1 & H1 & H)|(er & _ & H1)];
    apply expire_pending_spec in H1 as [He _]; [|done].
  apply spawn_approved_spec in H as [He2 _]. by transitivity (w_db w1).
Qed.
End polling.

(** ** The trading system as a whole

    Requests of users, goroutines of the engine and ticks of the polling loop, in
    any order, on one database.  The invariant of the market holds after every
    one of them. *)

Section system.
Context `{DL : decimal.Lib} {FM : FundsManager} {MC : MarginChecker}.
Context `{FML : !FundsManagerLaws FM} `{MCL : !MarginCheckerLaws MC}.
Context (is_forex : Z -> bool).

(** One completed activity of the system, successful or not. *)
Inductive activity : DB -> DB -> Prop :=
  | act_create ctx req e w r w' :
      is_forex (req_ListingID req) = req_IsForex req ->
      CreateOrder ctx req e w = (r, w') -> activity (w_db w) (w_db w')
  | act_approve id sup e w r w' :
      ApproveOrder id sup e w = (r, w') -> activity (w_db w) (w_db w')
  | act_decline ctx id sup e w r w' :
      DeclineOrder ctx id sup e w = (r, w') -> activity (w_db w) (w_db w')
  | act_cancel ctx id user super e w r w' :
      CancelOrder ctx id user super e w = (r, w') -> activity (w_db w) (w_db w')
  | act_goroutine x fr tb fuel id m e w r w' :
      interferes e (evolves is_forex) -> listings_agree is_forex e ->
      d_orders (w_db w) !! id = Some m ->
      runOrder x fr tb fuel (toDomain id m) e w = (r, w') -> activity (w_db w) (w_db w')
  | act_tick active e w r w' :
      tick active e w = (r, w') -> activity (w_db w) (w_db w').

Lemma activity_inv_evolves d d' :
  activity d d' -> market_inv is_forex (view d) -> evolves is_forex d d'.
Proof using FML MCL.
  intros [ctx req e w r w' Hfx H|id sup e w r w' H|ctx id sup e w r w' H|ctx id user sp e w r w' H
         |x fr tb fuel id m e w r w' Hi Ha Hm H|active e w r w' H] Hinv.
  - by eapply CreateOrder_evolves.
  - by eapply ApproveOrder_evolves.
  - by eapply DeclineOrder_evolves.
  - by eapply CancelOrder_evolves.
  - eapply (runOrder_inv x fr tb is_forex e Hi fuel (toDomain id m));
      [done|exact H|done|by exists m].
  - by eapply tick_evolves.
Qed.

Lemma activities_evolve d d' :
  rtc activity d d' -> market_inv is_forex (view d) -> evolves is_forex d d'.
Proof using FML MCL.
  induction 1 as [d|d1 d2 d3 H1 _ IH]; intros Hinv; [reflexivity|].
  pose proof (activity_inv_evolves _ _ H1 Hinv) as He. transitivity d2; [done|].
  apply IH. by eapply market_inv_rtc.
Qed.

(** C1: the trading system is safe.  Starting with no orders, after any sequence
    of requests, goroutines and ticks, with any database faults, market data,
    amounts and interleavings at the sleeps, and for every funds manager and
    margin checker that keep to their interfaces: every order in the database
    is well formed, the recorded fills of an order add up to exactly the
    portions it has lost, so an order is never filled beyond its quantity, and
    no user's computed holdings of a listing are negative: nobody commits to
    sell shares that are not free. *)
Theorem trading_is_safe (d0 d : DB) (Horders : d_orders d0 = ∅)
    (Hfills : d_order_transactions d0 = []) (Hreach : rtc activity d0 d) :
  (forall id m, d_orders d !! id = Some m -> order_inv m /\
     executed_in (d_order_transactions d) id = om_Quantity m - om_RemainingPortions m /\
     0 <= executed_in (d_order_transactions d) id <= om_Quantity m) /\
  (forall user listing, is_forex listing = false -> 0 <= net_holdings user listing d).
Proof using FML MCL.
  assert (H0 : market_inv is_forex (view d0))
    by (unfold view; rewrite Horders, Hfills; apply market_inv_empty).
  assert (H : market_inv is_forex (view d)).
  { eapply market_inv_rtc; [|exact H0]. by apply activities_evolve. }
  split; [|apply (inv_holdings _ _ H)]. intros id m Hm.
  pose proof (inv_order _ _ H id m Hm) as Ho. pose proof (inv_fills _ _ H id m Hm) as Hf.
  cbn [snd view] in Hf. split_and!; [done|done|..]; destruct Ho as (_ & Hr & _); lia.
Qed.
End system.
