(* ===== verification/EngineSpecs.v ===== *)
(** * What the execution engine promises

    Goroutines and ticks keep to the order lifecycle, a fill is all or nothing,
    the loop stops after at most one pass per portion, a limit is never crossed,
    and a tick starts no order twice and moves no money. *)

From stdpp Require Import relations.
From S2P Require Import Prelude Numeric DecimalModel Domain Store StoreFacts Calculations.
From S2P Require Import OrderRepo OrderRepoFacts Lifecycle Market Interfaces FundsManager.
From S2P Require Import FundsFacts TradingService ServiceFacts Engine EngineFacts.
From S2P Require Import EngineRefinement Scenario.
From stdpp Require Import list.
From Stdlib Require Import Lqa Qminmax.
Import scenario.
#[local] Open Scope Z_scope.

Section specs.
Context `{DL : decimal.Lib} {FM : FundsManager} `{FML : !FundsManagerLaws FM}.
Context (exchange_set fundRepo_set tickBus_set : bool) (is_forex : Z -> bool).

(** C3: a goroutine of the engine refines the order lifecycle.  Whatever the
    order's type, the market's answers, the failing statements, the moment of
    shutdown and the optional collaborators, and whatever other requests and
    goroutines do along [market_step] while it sleeps, [runOrder] moves the
    tables of orders and fills only along [market_step]: it fills an APPROVED
    order with portions that are still open and records exactly them, or
    declines it. *)
Theorem engine_refines_market (fuel : nat) (id : Z) (m : orderModel) (e : Env) (w w' : World)
    (r : result bool) (Hothers : interferes e (evolves is_forex))
    (Hlistings : listings_agree is_forex e) (Hinv : market_inv is_forex (view (w_db w)))
    (Hm : d_orders (w_db w) !! id = Some m)
    (Hrun : runOrder exchange_set fundRepo_set tickBus_set fuel (toDomain id m) e w = (r, w')) :
  evolves is_forex (w_db w) (w_db w') /\ market_inv is_forex (view (w_db w')).
Proof using FML.
  assert (He : evolves is_forex (w_db w) (w_db w')).
  { eapply (runOrder_inv exchange_set fundRepo_set tickBus_set is_forex e Hothers fuel
              (toDomain id m)); [done|exact Hrun|done|by exists m]. }
  split; [done|]. by eapply market_inv_rtc.
Qed.

(** A tick of the polling loop refines the lifecycle (it only declines
    PENDING and APPROVED orders), starts a goroutine only for an order that was
    APPROVED and had none, each at most once, and records exactly the started
    ones in the live-set.  It moves no money: in particular the reservation of
    an expired order that it declines stays in force. *)
Theorem tick_spec (active : gset Z) (e : Env) (w w' : World)
    (r : result (list Order * gset Z)) (Hrun : tick active e w = (r, w')) :
  evolves is_forex (w_db w) (w_db w') /\ same money_tables (w_db w) (w_db w') /\
  forall started active', r = Ok (started, active') ->
    NoDup (o_ID <$> started) /\
    (forall o, o ∈ started -> o_Status o = OrderStatusApproved /\ o_ID o ∉ active) /\
    active' = list_to_set (o_ID <$> started) ∪ active.
Proof.
  apply bind_cases in Hrun as [([] & w1 & H1 & H)|(er & -> & H1)];
    apply (expire_pending_spec is_forex) in H1 as [He1 Hm1]; [|by split_and!].
  apply (spawn_approved_spec is_forex) in H as (He2 & Hm2 & Hs).
  split_and!; [by transitivity (w_db w1)|by transitivity (w_db w1)|exact Hs].
Qed.

(** One pass of the loop.  A chunk is between one portion and ten, or
    everything that is open for an all-or-none order, and never more than is
    open.  If the transaction of the fill succeeds, the row has lost exactly
    the chunk (DONE when nothing is left), and one fill of exactly the chunk is
    recorded; if it fails, at whatever statement, the database is what it was. *)
Theorem fill_is_atomic (ctx : bool) (id : Z) (m : orderModel) (p : decimal.t) (f : fill) (e : Env)
    (w w1 w' : World) (r : result unit) (Hinv : market_inv is_forex (view (w_db w)))
    (Hm : d_orders (w_db w) !! id = Some m) (Hex : executable (toDomain id m) = true)
    (Hfx : is_forex (om_ListingID m) = false)
    (Hprep : prepare_fill fundRepo_set (toDomain id m) p e w = (Ok f, w1))
    (Hrun : fill_tx fundRepo_set ctx (toDomain id m) f e w1 = (r, w')) :
  (if om_AllOrNone m then fl_chunkSize f = om_RemainingPortions m
   else 1 <= fl_chunkSize f <= Z.min 10 (om_RemainingPortions m)) /\
  match r with
  | Ok _ => exists price time,
      view (w_db w') = (<[id := filled (fl_chunkSize f) m]> (d_orders (w_db w)),
                        d_order_transactions (w_db w) ++
                          [mkOrderTransactionModel id (fl_chunkSize f) price time]) /\
      market_inv is_forex (view (w_db w'))
  | Err _ => w_db w' = w_db w
  end.
Proof using FML.
  pose proof (prepare_fill_reads _ _ _ _ _ _ _ Hprep) as Hw1.
  apply prepare_fill_ok in Hprep as (Hnew & Hsz & _ & _). cbn in Hnew, Hsz. split; [done|].
  rewrite Hw1 in *.
  pose proof (fill_tx_spec fundRepo_set is_forex ctx id m f e w1 r w') as Hs.
  specialize (Hs Hinv Hm Hex Hnew ltac:(destruct (om_AllOrNone m); lia) Hfx Hrun).
  destruct r as [[]|er]; [|done]. destruct Hs as (_ & _ & Ho & Hstep).
  apply Transaction_ok in Hrun as (w2 & Hb & Hdb & _).
  apply fill_body_ok in Hb as (_ & c & t & _ & _ & _ & Ht). exists c, t. split.
  - unfold view. by rewrite Ho, Hdb, Ht.
  - by eapply market_inv_step.
Qed.
End specs.

(** ** Termination of the execution loop *)

Section termination.
Context `{DL : decimal.Lib} {FM : FundsManager} `{FML : !FundsManagerLaws FM}.
Context (exchange_set fundRepo_set : bool) (is_forex : Z -> bool).

(** No exchange is consulted, or whenever one is asked it is in a session. *)
Definition in_session (e : Env) : Prop :=
  exchange_set = false \/
  forall n x, exists s, env_market_status e n x = Some s /\ s <> MarketStatusClosed.

Lemma waitForExchangeOpen_now fuel x e w :
  in_session e -> exists w', waitForExchangeOpen exchange_set (S fuel) x e w = (Ok Activated, w').
Proof.
  intros Ho. unfold waitForExchangeOpen. destruct (negb exchange_set || _) eqn:E; [by eexists|].
  destruct Ho as [->|Ho]; [done|]. cbn [exchange_loop]. unfold market_status, io, mbind, M_bind.
  destruct (Ho (w_step w) x) as (s & -> & Hs). destruct s; try done; by eexists.
Qed.

Lemma await_exchange_not_waiting fuel o s e w w' :
  in_session e -> await_exchange exchange_set (S fuel) o s e w <> (Ok StillWaiting, w').
Proof.
  intros Ho H. unfold await_exchange in H. apply bind_ok in H as (b & w1 & _ & H).
  destruct (o_AfterHours o && b).
  - apply bind_ok in H as ([] & w2 & _ & H). apply bind_ok in H as (fin & w3 & _ & H).
    destruct fin; [discriminate|]. apply bind_ok in H as (again & w4 & _ & H).
    injection H as H _. by destruct (executable again).
  - destruct (waitForExchangeOpen_now fuel (ms_ExchangeID s) e w1 Ho) as [w2 E].
    rewrite E in H. discriminate.
Qed.

(** A fill that leaves portions open, and the sleep after it. *)
Lemma fill_then_sleep ctx id m ty s e w n w5 w8 w6 :
  interferes e (evolves is_forex) -> market_inv is_forex (view (w_db w)) ->
  d_orders (w_db w) !! id = Some m -> is_forex (om_ListingID m) = false ->
  executable (toDomain id m) = true ->
  execute_fill fundRepo_set ctx (toDomain id m) ty s e w = (Ok (Some n), w5) ->
  w_db w5 = w_db w8 -> sleep e w8 = (Ok tt, w6) ->
  exists m', d_orders (w_db w6) !! id = Some m' /\ is_forex (om_ListingID m') = false /\
    om_RemainingPortions m' < om_RemainingPortions m /\ market_inv is_forex (view (w_db w6)).
Proof using FML.
  intros Hi Hinv Hm Hfx Hex H5 H8 H6.
  apply (execute_fill_spec fundRepo_set is_forex ctx id m) in H5 as [He5 Hn]; [|done..].
  destruct (Hn n eq_refl) as (k & Hk & -> & Hnz & Ho5).
  assert (He6 : evolves is_forex (w_db w5) (w_db w6)) by (injection H6 as <-; rewrite H8; apply Hi).
  assert (Hm5 : d_orders (w_db w5) !! id = Some (filled k m)) by (rewrite Ho5; apply lookup_insert_eq).
  destruct (evolves_row_le _ _ _ _ _ He6 Hm5) as (m6 & Hm6 & (_ & _ & Hl & _ & _ & Hle) & _).
  assert (Hrem : om_RemainingPortions (filled k m) = om_RemainingPortions m - k)
    by (unfold filled; by destruct (Z.eqb_spec (om_RemainingPortions m - k) 0)).
  assert (Hlist : om_ListingID (filled k m) = om_ListingID m)
    by (unfold filled; by destruct (_ =? 0)).
  exists m6. split_and!; [done|congruence|lia|].
  eapply market_inv_rtc; [exact He6|]. by eapply market_inv_rtc.
Qed.

(** C19: the loop makes progress.  With the exchange in session, whatever fails
    and whatever the others do meanwhile, the loop is through with the order
    within one pass per open portion: fuel above the open portions is never
    exhausted, since every completed fill takes at least one portion and nobody
    gives portions back. *)
Theorem execute_loop_terminates (fuel : nat) (ctx : bool) (id : Z) (ty : OrderType)
    (m : orderModel) (e : Env) (w w' : World) (r : result bool)
    (Hothers : interferes e (evolves is_forex)) (Hopen : in_session e)
    (Hinv : market_inv is_forex (view (w_db w))) (Hm : d_orders (w_db w) !! id = Some m)
    (Hfx : is_forex (om_ListingID m) = false)
    (Hfuel : om_RemainingPortions m < Z.of_nat fuel)
    (Hrun : execute_loop exchange_set fundRepo_set fuel ctx id ty e w = (r, w')) :
  r <> Ok false.
Proof using FML.
  revert m w Hinv Hm Hfx Hfuel Hrun.
  induction fuel as [|fuel IH]; intros m w Hinv Hm Hfx Hfuel H; cbn [execute_loop] in H.
  { pose proof (inv_order _ _ Hinv id m Hm) as (_ & Hr & _). lia. }
  apply bind_cases in H as [(o & w1 & H1 & H)|(er & -> & _)]; [|done].
  apply GetByID_ok in H1 as (Hw1 & m' & Hm' & ->). rewrite <- Hw1 in *.
  rewrite Hm in Hm'. injection Hm' as <-.
  destruct (executable (toDomain id m)) eqn:Hex; cbn [negb] in H; [|by injection H as <- _].
  assert (Hpos : 0 < om_RemainingPortions m).
  { destruct (executable_approved id m Hex) as [Hs _].
    destruct (inv_order _ _ Hinv id m Hm) as (_ & _ & Ho). rewrite Hs in Ho. lia. }
  destruct fuel as [|fuel]; [lia|].
  apply bind_cases in H as [(s & w2 & H2 & H)|(er & -> & _)]; [|done].
  apply GetMarketSnapshot_reads in H2. rewrite H2 in Hinv, Hm.
  apply bind_cases in H as [(a & w3 & H3 & H)|(er & -> & _)]; [|done].
  destruct a; [|by injection H as <- _|by apply await_exchange_not_waiting in H3].
  assert (He : evolves is_forex (w_db w2) (w_db w3)).
  { eapply (await_exchange_at exchange_set e (inv_evolves is_forex id false));
      [by apply interferes_inv|exact H3|done|by exists m]. }
  destruct (evolves_row_le _ _ _ _ _ He Hm) as (m3 & Hm3 & Hle & _).
  assert (Hinv3 : market_inv is_forex (view (w_db w3))) by by eapply market_inv_rtc.
  apply bind_cases in H as [(o & w4 & H4 & H)|(er & -> & _)]; [|done].
  apply GetByID_ok in H4 as (Hw4 & m4 & Hm4 & ->). rewrite <- Hw4 in *.
  rewrite Hm3 in Hm4. injection Hm4 as <-.
  destruct (executable (toDomain id m3)) eqn:Hex3; cbn [negb] in H; [|by injection H as <- _].
  assert (Hfx3 : is_forex (om_ListingID m3) = false) by (destruct Hle as (_ & _ & -> & _); done).
  apply bind_cases in H as [(l & w5 & H5 & H)|(er & -> & _)]; [|done].
  destruct l as [n|]; [|by injection H as <- _].
  apply bind_cases in H as [(secs & w8 & H8 & H)|(er & -> & _)]; [|done].
  apply calcWaitSeconds_reads in H8.
  apply bind_cases in H as [([] & w6 & H6 & H)|(er & -> & _)]; [|done].
  destruct (fill_then_sleep _ _ _ _ _ _ _ _ _ _ _ Hothers Hinv3 Hm3 Hfx3 Hex3 H5 H8 H6)
    as (m6 & Hm6 & Hfx6 & Hrem & Hinv6).
  apply bind_cases in H as [(fin & w7 & H7 & H)|(er & -> & _)]; [|done].
  injection H7 as _ <-. destruct fin; [by injection H as <- _|].
  destruct Hle as (_ & _ & _ & _ & _ & Hle).
  apply (IH m6 (next_step w6)); [exact Hinv6|exact Hm6|exact Hfx6|lia|exact H].
Qed.
End termination.

(** ** Prices and commissions *)

Section prices.
Context `{LL : decimal.Laws} {FM : FundsManager} `{FML : !FundsManagerLaws FM}.
Context (fundRepo_set : bool).

Abbreviation dec := decimal.NewFromFloat.

(** The number of the better of two prices for a buyer, and for a seller. *)
Lemma min_price a b :
  let u := if decimal.LessThan a b then a else b in
  (decimal.val u <= decimal.val a)%Q /\ (decimal.val u <= decimal.val b)%Q /\ (u = a \/ u = b).
Proof.
  cbv zeta. destruct (decimal.LessThan a b) eqn:E.
  - apply decimal.LessThan_spec in E. split_and!; [lra|lra|auto].
  - apply decimal.LessThan_false in E. split_and!; [lra|lra|auto].
Qed.

Lemma max_price a b :
  let u := if decimal.GreaterThan a b then a else b in
  (decimal.val a <= decimal.val u)%Q /\ (decimal.val b <= decimal.val u)%Q /\ (u = a \/ u = b).
Proof.
  cbv zeta. destruct (decimal.GreaterThan a b) eqn:E.
  - apply decimal.GreaterThan_spec in E. split_and!; [lra|lra|auto].
  - apply decimal.GreaterThan_false in E. split_and!; [lra|lra|auto].
Qed.

(** Limits are kept.  The execution price of a MARKET order is the contract
    size times the ask (bid, for a sale).  A LIMIT order to buy never pays more
    per unit than its limit, nor than the ask, and pays exactly the ask whenever
    the activation condition holds; an order to sell never receives less than
    its limit, nor than the bid, and receives the bid whenever the condition
    holds.  The same bounds hold for the rate of a currency order with a limit.
    An order type that must have been activated first is an error. *)
Theorem limit_is_kept (o : Order) (s : MarketSnapshot) (limit : decimal.t)
    (Hlimit : o_PricePerUnit o = Some limit) :
  (o_Direction o = OrderDirectionBuy -> exists u,
     resolveExecutionPrice o OrderTypeLimit s
       = Ok (decimal.Mul (decimal.NewFromInt (o_ContractSize o)) u) /\
     (decimal.val u <= decimal.val limit)%Q /\ (decimal.val u <= decimal.val (dec (ms_Ask s)))%Q /\
     (limitMet OrderDirectionBuy limit (ms_Ask s) (ms_Bid s) = true -> u = dec (ms_Ask s)) /\
     (decimal.val (forex_execution_rate o s) <= decimal.val limit)%Q) /\
  (o_Direction o = OrderDirectionSell -> exists u,
     resolveExecutionPrice o OrderTypeLimit s
       = Ok (decimal.Mul (decimal.NewFromInt (o_ContractSize o)) u) /\
     (decimal.val limit <= decimal.val u)%Q /\ (decimal.val (dec (ms_Bid s)) <= decimal.val u)%Q /\
     (limitMet OrderDirectionSell limit (ms_Ask s) (ms_Bid s) = true -> u = dec (ms_Bid s)) /\
     (decimal.val limit <= decimal.val (forex_execution_rate o s))%Q) /\
  resolveExecutionPrice o OrderTypeMarket s
    = Ok (decimal.Mul (decimal.NewFromInt (o_ContractSize o))
            (dec (match o_Direction o with OrderDirectionBuy => ms_Ask s | _ => ms_Bid s end))) /\
  resolveExecutionPrice o OrderTypeStop s = Err ErrInvalidOrderType /\
  resolveExecutionPrice o OrderTypeStopLimit s = Err ErrInvalidOrderType.
Proof using LL.
  unfold resolveExecutionPrice, forex_execution_rate, limitMet. rewrite Hlimit.
  split_and!; [intros Hd; rewrite Hd..|by destruct (o_Direction o)|done|done].
  - eexists. split; [done|]. destruct (min_price limit (dec (ms_Ask s))) as (H1 & H2 & _).
    split_and!; [done|done| |].
    + intros Hm. apply decimal.LessThanOrEqual_spec in Hm.
      destruct (decimal.LessThan limit _) eqn:E; [|done]. apply decimal.LessThan_spec in E. lra.
    + destruct (decimal.GreaterThan (dec (ms_Ask s)) limit) eqn:E; [lra|].
      by apply decimal.GreaterThan_false in E.
  - eexists. split; [done|]. destruct (max_price limit (dec (ms_Bid s))) as (H1 & H2 & _).
    split_and!; [done|done| |].
    + intros Hm. apply decimal.GreaterThanOrEqual_spec in Hm.
      destruct (decimal.GreaterThan limit _) eqn:E; [|done]. apply decimal.GreaterThan_spec in E. lra.
    + destruct (decimal.LessThan (dec (ms_Bid s)) limit) eqn:E; [lra|].
      by apply decimal.LessThan_false in E.
Qed.

(** The commission is charged once.  A fill carries the commission of the
    schedule on the notional of the whole order, at the price of this fill,
    exactly when no fill was recorded before it; every other fill carries none,
    so the transaction of a later fill charges nothing. *)
Theorem commission_on_first_fill (is_forex : Z -> bool) (id : Z) (m : orderModel) (p : decimal.t)
    (f : fill) (e : Env) (w w' : World) (Hinv : market_inv is_forex (view (w_db w)))
    (Hm : d_orders (w_db w) !! id = Some m)
    (Hprep : prepare_fill fundRepo_set (toDomain id m) p e w = (Ok f, w')) :
  (fl_isFirstFill f = true <-> executed_in (d_order_transactions (w_db w)) id = 0) /\
  fl_commission f =
    (if fl_isFirstFill f
     then commissionForOrderType (om_OrderType m)
            (decimal.Mul p (decimal.NewFromInt (om_Quantity m)))
     else decimal.Zero) /\
  fl_fillAmount f = decimal.Mul p (decimal.NewFromInt (fl_chunkSize f)) /\
  (fl_isFirstFill f = false -> fl_isFirstFill f && decimal.IsPositive (fl_commission f) = false).
Proof.
  pose proof (inv_fills _ _ Hinv id m Hm) as Hf. cbn [snd view] in Hf. rewrite Hf.
  unfold prepare_fill in Hprep. apply bind_ok in Hprep as (n & w1 & _ & H).
  apply bind_ok in H as (x & w2 & _ & H). injection H as <- _. cbn.
  split_and!; [|done|done|by intros ->]. rewrite Z.eqb_eq. lia.
Qed.

(** Cancelling a partly filled order releases more than it still holds.  A
    client's LIMIT order reserves price plus commission; its first fill takes the
    whole commission out of the reservation, and the fills (at the limit) take
    their price.  When it is cancelled with portions open, the amount released is
    what is left of its reservation plus a second commission, on the open
    portions: that part comes out of what other orders have reserved on the
    account. *)
Theorem cancel_releases_too_much (o : Order) (p : decimal.t) (e : Env) (w : World)
    (Hclient : o_IsClient o = true) (Htype : o_OrderType o = OrderTypeLimit)
    (Hprice : o_PricePerUnit o = Some p) (Hp : (0 < decimal.val p)%Q)
    (Hcs : 0 < o_ContractSize o) (Hopen : 0 < o_RemainingPortions o < o_Quantity o) :
  let unit_price := decimal.Mul (decimal.NewFromInt (o_ContractSize o)) p in
  let fee := commissionForOrderType (o_OrderType o)
               (decimal.Mul unit_price (decimal.NewFromInt (o_Quantity o))) in
  let fills := decimal.Mul unit_price (decimal.NewFromInt (o_Quantity o - o_RemainingPortions o)) in
  exists total release,
    reserved_usd o (o_Quantity o) e w = (Ok total, w) /\
    reserved_usd o (o_RemainingPortions o) e w = (Ok release, w) /\
    let left_ := (decimal.val total - decimal.val fee - decimal.val fills)%Q in
    (left_ < decimal.val release)%Q /\
    (decimal.val release - left_ ==
       Qmin ((24 # 100) * decimal.val (approxPrice (o_ContractSize o) p (o_RemainingPortions o))) 12)%Q.
Proof using LL.
  intros unit_price fee fills.
  unfold reserved_usd, computeNotionalPlusCommission, computeNotional.
  rewrite Hclient, Htype, Hprice. do 2 eexists. do 2 (split; [reflexivity|]). cbv zeta.
  set (n := o_Quantity o) in *. set (r := o_RemainingPortions o) in *.
  assert (Hfee : (decimal.val fee == decimal.val (CalcLimitCommission
                   (approxPrice (o_ContractSize o) p n)))%Q) by (unfold fee; by rewrite Htype).
  assert (Hr : (0 < decimal.val (approxPrice (o_ContractSize o) p r))%Q).
  { rewrite val_approxPrice. apply Qmult_lt_0_compat; [apply Qmult_lt_0_compat|];
      rewrite ?(Zlt_Qlt 0); done || (change 0%Q with (inject_Z 0); rewrite <- Zlt_Qlt; lia). }
  assert (E : (decimal.val (decimal.Add (approxPrice (o_ContractSize o) p r)
                 (commission_of OrderTypeLimit (approxPrice (o_ContractSize o) p r)))
               - (decimal.val (decimal.Add (approxPrice (o_ContractSize o) p n)
                 (commission_of OrderTypeLimit (approxPrice (o_ContractSize o) p n)))
                  - decimal.val fee - decimal.val fills)
               == Qmin ((24 # 100) * decimal.val (approxPrice (o_ContractSize o) p r)) 12)%Q).
  { rewrite Hfee, !decimal.val_Add. cbn [commission_of]. unfold CalcLimitCommission, fills, unit_price.
    rewrite !val_limitCommissionFor, !val_approxPrice, !decimal.val_Mul, !decimal.val_NewFromInt.
    replace n with ((n - r) + r) at 1 by lia. rewrite inject_Z_plus. ring. }
  split; [|exact E].
  revert E. generalize (decimal.val (approxPrice (o_ContractSize o) p r)) Hr. intros x Hx E.
  assert (Hm : (0 < Qmin ((24 # 100) * x) 12)%Q) by (apply Q.min_glb_lt; lra). lra.
Qed.
End prices.

(** ** An order that could not be paid *)

Section unpaid.
Context `{DL : decimal.Lib} {FM : FundsManager} `{FML : !FundsManagerLaws FM}.

(** What a decline for lack of funds forgets.  When a later fill of an order
    to buy cannot be paid, the engine declines the order: its row is DECLINED
    and the fills that were paid stay recorded, but the repository counts none
    of their portions among the user's holdings, although it counts them all if
    the same order is cancelled instead. *)
Theorem unpaid_decline_drops_fills (is_forex : Z -> bool) (ctx : bool) (id : Z) (m : orderModel)
    (f : fill) (e : Env) (w w' : World) (r : result unit) (Hfaults : no_faults e)
    (Hlive : w_aborted w = false) (Hinv : market_inv is_forex (view (w_db w)))
    (Hm : d_orders (w_db w) !! id = Some m) (Hex : executable (toDomain id m) = true)
    (Hbuy : om_Direction m = OrderDirectionBuy)
    (Hpart : om_RemainingPortions m < om_Quantity m)
    (Hrun : decline_unpaid ctx (toDomain id m) f e w = (r, w')) :
  exists m', d_orders (w_db w') !! id = Some m' /\ om_Status m' = OrderStatusDeclined /\
    0 < executed_in (d_order_transactions (w_db w')) id /\
    net_contrib m' = 0 /\
    net_contrib (with_canceled m) = executed_in (d_order_transactions (w_db w')) id.
Proof using FML.
  destruct (executable_approved id m Hex) as [Hs Hd].
  unfold decline_unpaid in Hrun. apply try_bind in Hrun as (r1 & w1 & H1 & H).
  apply try_bind in H as (r2 & w2 & H2 & H). injection H as _ <-.
  apply fm_ReleaseFunds_frame in H2. pose proof (UpdateStatus_txs _ _ _ _ _ _ _ H1) as Htx.
  rewrite (same_order_orders _ _ H2), (same_order_txs _ _ H2), Htx.
  pose proof (inv_fills _ _ Hinv id m Hm) as Hf. cbn [snd view] in Hf. cbn in H1.
  assert (Ho : d_orders (w_db w1) = <[id := with_status OrderStatusDeclined None m]> (d_orders (w_db w))).
  { revert H1. unfold UpdateStatus, prefetch, try, sql_read, mbind, M_bind.
    rewrite sql_run by done. cbn. rewrite sql_run by done. cbn.
    destruct (inv_order _ _ Hinv id m Hm) as ((Hq1 & Hq2) & Hr & _). unfold update_order.
    rewrite Hm. cbn. destruct (0 <=? om_RemainingPortions m) eqn:E; [|lia]. cbn.
    intros H. by apply log_then_read_orders in H. }
  exists (with_status OrderStatusDeclined None m). rewrite Ho, lookup_insert_eq, Hf.
  split_and!; [done|done|lia| |].
  - unfold net_contrib. cbn. by rewrite Hbuy, ?Hd.
  - unfold net_contrib. cbn. rewrite Hbuy.
    destruct (Z.ltb_spec 0 (om_Quantity m - om_RemainingPortions m)); lia.
Qed.
End unpaid.

(** The simulated wait is not bounded below by [minWaitSeconds].  The formula
    clamps the longest wait between one second and a day, but the wait is a random
    fraction of it: for one portion in a volume of a million the longest wait is
    one second, and a draw of 0.1 waits less.  The upper clamp works: a volume of
    one against a hundred million portions waits at most [maxWaitSeconds]. *)
Theorem wait_below_minimum :
  max_wait 1000000 1 = minWaitSeconds /\
  (forall e w, env_rand_float e (w_step w) = f64_lit 1 1 -> exists secs,
     calcWaitSeconds 1000000 1 e w = (Ok secs, next_step w) /\ f64_ltb secs minWaitSeconds = true) /\
  max_wait 1 100000000 = maxWaitSeconds.
Proof.
  split_and!; [by vm_compute| |by vm_compute]. intros e w Hu. eexists.
  unfold calcWaitSeconds, io, mbind, M_bind. cbn [Z.leb orb Z.compare]. rewrite Hu.
  split; [reflexivity|by vm_compute].
Qed.

Lemma wait_below_minimum_witness :
  exists secs, calcWaitSeconds 1000000 1 (mkEnv (env_fault quiet) (env_listing quiet)
      (env_daily_change quiet) (env_mid_rates quiet) (env_market_status quiet) (env_rand quiet)
      (fun _ => f64_lit 1 1) (env_now quiet) (env_ctx_done quiet) (env_row_choice quiet)
      (env_price_tick quiet) (env_interference quiet) (env_json quiet)
      (env_ticker quiet) (env_uuid quiet) (env_peer quiet) (env_listing_row quiet)) w0
    = (Ok secs, next_step w0) /\ f64_ltb secs minWaitSeconds = true.
Proof. destruct wait_below_minimum as (_ & H & _). apply H. reflexivity. Defined.
