(* ===== verification/Examples.v ===== *)
(** * The bank at work

    Concrete runs of the service and the engine in the bank of [Scenario], over
    the funds manager and the margin checker of the repository: each applies one
    of the theorems about them where its hypotheses hold. *)

From stdpp Require Import relations.
From S2P Require Import Prelude Numeric DecimalModel Domain Store StoreFacts Calculations.
From S2P Require Import OrderRepo OrderRepoFacts Lifecycle Market Interfaces FundsManager.
From S2P Require Import FundsFacts Actuaries TradingService.
From S2P Require Import ServiceFacts RequestSpecs FundsRounding PlacementSpec Engine EngineFacts.
From S2P Require Import EngineRefinement EngineSpecs Scenario.
#[local] Open Scope Z_scope.

Import decimal_model scenario.

#[local] Instance funds : FundsManager := fundsManager rate rate.
#[local] Instance margin : MarginChecker := marginChecker rate.
#[local] Instance funds_laws : FundsManagerLaws funds := fundsManager_laws rate rate.
#[local] Instance margin_laws : MarginCheckerLaws margin := marginChecker_laws rate.

(** ** Requests and orders *)

Definition buy_request (user : Z) (client : bool) : CreateOrderRequest :=
  mkCreateOrderRequest user 10 1 OrderTypeMarket OrderDirectionBuy 4 1 None None
    false false false false client false false None None.

Definition order_row (d : OrderDirection) (st : OrderStatus) (remaining : Z) : orderModel :=
  mkOrderModel 7 10 1 OrderTypeMarket d 4 1 None None st None false remaining
    false false false true None 0.

Definition pending : orderModel := order_row OrderDirectionBuy OrderStatusPending 4.
Definition approved : orderModel := order_row OrderDirectionBuy OrderStatusApproved 4.
Definition half_filled : orderModel := order_row OrderDirectionBuy OrderStatusApproved 2.

Definition no_forex (id : Z) : bool := id =? 2.

Definition with_order (m : orderModel) (fills : list orderTransactionModel) : World :=
  at_db (set_order_transactions fills (set_orders {[1 := m]} db0)).

Definition status_of (w : World) : option OrderStatus := om_Status <$> d_orders (w_db w) !! 1.

Lemma one_row_inv m fills :
  order_inv m -> executed_in fills 1 = om_Quantity m - om_RemainingPortions m ->
  (forall i, i <> 1 -> executed_in fills i = 0) ->
  0 <= net_contrib m -> om_ListingID m = 1 ->
  market_inv no_forex (view (w_db (with_order m fills))).
Proof.
  intros Ho Hf Hx Hn Hl. split; cbn [fst snd view with_order at_db w_db set_order_transactions set_orders
    d_orders d_order_transactions].
  - intros id m' [<- <-]%lookup_singleton_Some. done.
  - intros id m' [<- <-]%lookup_singleton_Some. by rewrite Hl.
  - intros id m' [<- <-]%lookup_singleton_Some. done.
  - intros id Hid. apply Hx. intros ->. by rewrite lookup_singleton_eq in Hid.
  - intros u l _. unfold net_of. rewrite <- insert_empty, msum_insert by apply lookup_empty.
    rewrite msum_empty. destruct (owned_by u l m); lia.
Qed.

Ltac one_row := apply one_row_inv; unfold order_inv; cbn; first [done | lia | idtac].

Lemma approved_inv : market_inv no_forex (view (w_db (with_order approved []))).
Proof. one_row. Qed.

Lemma pending_inv : market_inv no_forex (view (w_db (with_order pending []))).
Proof. one_row. Qed.

Lemma half_inv :
  market_inv no_forex (view (w_db (with_order half_filled [mkOrderTransactionModel 1 2 20000000 0]))).
Proof.
  one_row. intros i Hi. unfold executed_in. rewrite zsum_cons, zsum_nil.
  cbn [ot_OrderID]. destruct (Z.eqb_spec 1 i); [congruence|done].
Qed.

Lemma quiet_others R `{!PreOrder R} : interferes quiet R.
Proof. intros n d. reflexivity. Qed.

Lemma quiet_listings : listings_agree no_forex quiet.
Proof.
  intros n id l. unfold no_forex. cbn. destruct (Z.eqb_spec id 1) as [->|H1];
    [by intros [= <-]|]. destruct (Z.eqb_spec id 2) as [->|H2]; [by intros [= <-]|].
  destruct (Z.eqb_spec id 3) as [->|H3]; [by intros [= <-]|done].
Qed.

(** ** Requests *)

(** The client's order to buy 4 shares at 20 dollars is placed and approved; 80
    dollars and the commission of 7 are reserved. *)
Lemma service_refines_market_witness :
  let w' := (CreateOrder true (buy_request 7 true) quiet w0).2 in
  (om_Status <$> d_orders (w_db w') !! 100) = Some OrderStatusApproved /\
  (r_rezervisana_sredstva <$> d_racun (w_db w') !! 10) = Some 8700 /\
  evolves no_forex (w_db w0) (w_db w').
Proof.
  refine (conj _ (conj _ _)); [vm_compute; reflexivity..|].
  destruct (service_refines_market no_forex true (buy_request 7 true) 1 7 false eq_refl) as [H _].
  exact (H quiet w0 _ _ (surjective_pairing _)).
Defined.

Lemma create_order_spec_witness :
  is_ok (CreateOrder true (buy_request 7 true) quiet w0).1 = true /\
  extends (w_db w0) (w_db (CreateOrder true (buy_request 7 true) quiet w0).2) /\
  exists row q, d_racun (w_db w0) !! 10 = Some row /\ (q <= cents (free_cents row))%Q /\
    d_racun (w_db (CreateOrder true (buy_request 7 true) quiet w0).2)
      = <[10 := with_rezervisano (to_cents (cents (r_rezervisana_sredstva row) + q)) row]>
          (d_racun (w_db w0)).
Proof.
  assert (Hok : is_ok (CreateOrder true (buy_request 7 true) quiet w0).1 = true)
    by (vm_compute; reflexivity).
  pose proof (create_order_spec rate rate true (buy_request 7 true) quiet w0
                (CreateOrder true (buy_request 7 true) quiet w0).1
                (CreateOrder true (buy_request 7 true) quiet w0).2 (surjective_pairing _)) as [Hx H].
  change (the_funds rate rate) with funds in H.
  split; [exact Hok|]. split; [exact Hx|].
  destruct (CreateOrder true (buy_request 7 true) quiet w0).1 as [o|er]; [|discriminate Hok].
  destruct H as (m & _ & _ & _ & _ & _ & _ & H).
  destruct (H eq_refl eq_refl eq_refl) as (usd & w1 & w2 & row & _ & H1 & H2 & H3).
  exists row, (debit_arg rate rate true 10 usd quiet w2).
  split; [exact H1|]. split; [exact H2|exact H3].
Defined.

Lemma cancel_order_spec_witness :
  is_ok (CancelOrder true 1 7 false quiet (with_order half_filled [])).1 = true /\
  exists m, d_orders (w_db (with_order half_filled [])) !! 1 = Some m /\ active m /\
    d_orders (w_db (CancelOrder true 1 7 false quiet (with_order half_filled [])).2)
      = <[1 := with_canceled m]> (d_orders (w_db (with_order half_filled []))).
Proof.
  assert (Hok : is_ok (CancelOrder true 1 7 false quiet (with_order half_filled [])).1 = true)
    by (vm_compute; reflexivity).
  split; [exact Hok|].
  pose proof (cancel_order_spec true 1 7 false quiet (with_order half_filled []) _ _
                (surjective_pairing _)) as H.
  destruct (CancelOrder true 1 7 false quiet (with_order half_filled [])).1 as [o|er]; [|discriminate].
  destruct H as (m & Hm & Ha & _ & Ho & _). exists m. split; [exact Hm|]. split; [exact Ha|exact Ho].
Defined.

Lemma approve_decline_spec_witness :
  is_ok (ApproveOrder 1 6 quiet (with_order pending [])).1 = true /\
  d_orders (w_db (ApproveOrder 1 6 quiet (with_order pending [])).2)
    = <[1 := with_status OrderStatusApproved (Some (ApprovedByUser 6)) pending]>
        (d_orders (w_db (with_order pending []))).
Proof.
  assert (Hok : is_ok (ApproveOrder 1 6 quiet (with_order pending [])).1 = true)
    by (vm_compute; reflexivity).
  split; [exact Hok|].
  destruct (approve_decline_spec true 1 6 quiet (with_order pending [])) as [H _].
  specialize (H _ _ (surjective_pairing _)).
  destruct (ApproveOrder 1 6 quiet (with_order pending [])).1 as [o|er]; [|discriminate].
  destruct H as (m & Hm & _ & Ho & _). injection Hm as <-. exact Ho.
Defined.

(** Agent 5 buys within the limit: 80 dollars, in dinars, are recorded. *)
Lemma agent_limit_guards_approval_witness :
  let w' := (resolveStatus (buy_request 5 false) quiet w0).2 in
  exists n a, by_employee 5 (w_db w0) = Some (1, a) /\ ai_NeedApproval a = false /\
    w_db w' = set_actuary_info (<[1 := with_used n a]> (d_actuary_info (w_db w0))) (w_db w0) /\
    n <= ai_Limit a.
Proof.
  cbv zeta.
  assert (Hr : (resolveStatus (buy_request 5 false) quiet w0).1 = Ok OrderStatusApproved)
    by (vm_compute; reflexivity).
  destruct (agent_limit_guards_approval (buy_request 5 false) quiet w0
              (resolveStatus (buy_request 5 false) quiet w0).2 1
              (mkActuaryInfo 5 ActuaryTypeAgent 10000000 0 false) eq_refl eq_refl eq_refl
              (eq_trans (surjective_pairing _) (f_equal (fun r => (r, _)) Hr)))
    as (Hn & notional & x & w1 & w2 & w3 & w4 & _ & _ & Hdb & Hle).
  eexists _, _. split; [reflexivity|]. split; [exact Hn|]. split; [exact Hdb|exact Hle].
Defined.

Lemma preview_matches_reservation_witness :
  is_ok (CalculateOrderDetails (preview_of (buy_request 7 true)) quiet w0).1 = true /\
  is_ok (resolveTotalBuyDebitUSD (buy_request 7 true) quiet w0).1 = true.
Proof.
  assert (Hok : is_ok (CalculateOrderDetails (preview_of (buy_request 7 true)) quiet w0).1 = true)
    by (vm_compute; reflexivity).
  split; [exact Hok|].
  destruct (CalculateOrderDetails (preview_of (buy_request 7 true)) quiet w0) as [[resp|er] w1] eqn:E;
    [|discriminate].
  assert (Hst : stable_market quiet) by (split; reflexivity).
  destruct (preview_matches_reservation quiet Hst (buy_request 7 true) (toDomain 1 pending) resp
              w0 w1 w0 w0 w0) as (H & _ & _);
    [unfold order_of; cbn; split_and!; reflexivity|exact E|].
  rewrite H. reflexivity.
Defined.

Lemma increment_used_limit_spec_witness :
  is_ok (IncrementUsedLimitIfWithin 5 (dec 5000 0) quiet w0).1 = true /\
  exists n a, by_employee 5 (w_db w0) = Some (1, a) /\ n <= ai_Limit a /\
    w_db (IncrementUsedLimitIfWithin 5 (dec 5000 0) quiet w0).2
      = set_actuary_info (<[1 := with_used n a]> (d_actuary_info (w_db w0))) (w_db w0).
Proof.
  assert (Hok : is_ok (IncrementUsedLimitIfWithin 5 (dec 5000 0) quiet w0).1 = true)
    by (vm_compute; reflexivity).
  split; [exact Hok|].
  destruct (increment_used_limit_spec 5 (dec 5000 0) quiet w0) as [H _].
  specialize (H _ _ (surjective_pairing _)).
  destruct (IncrementUsedLimitIfWithin 5 (dec 5000 0) quiet w0).1 as [act|er]; [|discriminate].
  destruct H as (id & a & Ha & _ & Hdb & Hle). injection Ha as <- <-.
  eexists _, _. split; [reflexivity|]. split; [exact Hle|exact Hdb].
Defined.

(** ** The engine *)

(** The goroutine of an approved order fills it and ends with the order DONE. *)
Lemma engine_refines_market_witness :
  let w' := (runOrder true true true 10 (toDomain 1 approved) quiet (with_order approved [])).2 in
  status_of w' = Some OrderStatusDone /\
  executed_in (d_order_transactions (w_db w')) 1 = 4 /\
  evolves no_forex (w_db (with_order approved [])) (w_db w').
Proof.
  refine (conj _ (conj _ _)); [vm_compute; reflexivity..|].
  destruct (engine_refines_market true true true no_forex 10 1 approved quiet (with_order approved [])
              (runOrder true true true 10 (toDomain 1 approved) quiet (with_order approved [])).2
              _ (quiet_others _) quiet_listings approved_inv eq_refl (surjective_pairing _)) as [H _].
  exact H.
Defined.

(** The tick starts the one approved order, once. *)
Lemma tick_spec_witness :
  exists started active',
    (tick ∅ quiet (with_order approved [])).1 = Ok (started, active') /\
    length started = 1%nat /\ NoDup (o_ID <$> started) /\
    active' = list_to_set (o_ID <$> started) ∪ ∅.
Proof.
  destruct (tick_spec no_forex ∅ quiet (with_order approved []) _ _ (surjective_pairing _))
    as (_ & _ & H).
  eexists _, _. refine (conj eq_refl (conj _ _)); [vm_compute; reflexivity|].
  destruct (H _ _ eq_refl) as (H1 & _ & H2). split; [exact H1|exact H2].
Defined.

(** A limit of 25 dollars a share. *)
Definition limit25 : @decimal.t lib := micros 25000000.
Definition limit_order : Order := toDomain_prices 1 approved (Some (micros 25000000)) None.

Lemma limit_is_kept_witness :
  exists u, resolveExecutionPrice limit_order OrderTypeLimit (snapshot_of json stock)
    = Ok (decimal.Mul (decimal.NewFromInt 1) u) /\ (decimal.val u <= decimal.val limit25)%Q.
Proof.
  destruct (limit_is_kept limit_order (snapshot_of json stock) limit25 eq_refl) as [H _].
  destruct (H eq_refl) as (u & H1 & H2 & _). exists u. split; [exact H1|exact H2].
Defined.

Definition example_fill : fill :=
  match (prepare_fill true (toDomain 1 approved) (dec 20 0) quiet (with_order approved [])).1 with
  | Ok f => f
  | Err _ => mkFill 0 (dec 0 0) false 0 (dec 0 0) (dec 0 0) (dec 0 0)
  end.

Lemma example_fill_prepared :
  prepare_fill true (toDomain 1 approved) (dec 20 0) quiet (with_order approved [])
  = (Ok example_fill, next_step (with_order approved [])).
Proof. reflexivity. Qed.

Lemma fill_is_atomic_witness :
  1 <= fl_chunkSize example_fill <= 4 /\
  is_ok (fill_tx true true (toDomain 1 approved) example_fill quiet
           (next_step (with_order approved []))).1 = true.
Proof.
  destruct (fill_is_atomic true no_forex true 1 approved (dec 20 0) example_fill quiet
              (with_order approved []) (next_step (with_order approved []))
              (fill_tx true true (toDomain 1 approved) example_fill quiet
                 (next_step (with_order approved []))).2 _ approved_inv eq_refl eq_refl eq_refl
              example_fill_prepared (surjective_pairing _)) as [H _].
  split; [exact H|vm_compute; reflexivity].
Defined.

Lemma execute_loop_terminates_witness :
  om_RemainingPortions approved < Z.of_nat 5 /\
  (execute_loop true true 5 true 1 OrderTypeMarket quiet (with_order approved [])).1 <> Ok false.
Proof.
  split; [reflexivity|].
  eapply (execute_loop_terminates true true no_forex 5 true 1 OrderTypeMarket approved quiet
            (with_order approved []));
    [exact (quiet_others _)| |exact approved_inv|reflexivity|reflexivity|reflexivity
    |exact (surjective_pairing _)].
  right. intros n x. exists MarketStatusOpen. split; [reflexivity|discriminate].
Defined.

Lemma commission_on_first_fill_witness :
  fl_isFirstFill example_fill = true /\
  executed_in (d_order_transactions (w_db (with_order approved []))) 1 = 0.
Proof.
  destruct (commission_on_first_fill true no_forex 1 approved (dec 20 0) example_fill quiet
              (with_order approved []) _ approved_inv eq_refl example_fill_prepared) as [H _].
  split; [apply H; reflexivity|reflexivity].
Defined.

Lemma unpaid_decline_drops_fills_witness :
  let w := with_order half_filled [mkOrderTransactionModel 1 2 20000000 0] in
  let w' := (decline_unpaid true (toDomain 1 half_filled) example_fill quiet w).2 in
  status_of w' = Some OrderStatusDeclined /\
  net_holdings 7 1 (w_db w') = 0 /\ net_contrib (with_canceled half_filled) = 2.
Proof.
  cbv zeta. refine (conj _ (conj _ _)); [vm_compute; reflexivity..|].
  destruct (unpaid_decline_drops_fills no_forex true 1 half_filled example_fill quiet
              (with_order half_filled [mkOrderTransactionModel 1 2 20000000 0]) _ _ quiet_no_faults
              eq_refl half_inv eq_refl eq_refl eq_refl eq_refl (surjective_pairing _))
    as (m & _ & _ & Hpos & _ & Hc).
  reflexivity.
Defined.

(** Two of four contracts are open at a limit of 25 dollars. *)
Definition open_limit : Order :=
  toDomain_prices 1 (mkOrderModel 7 10 1 OrderTypeLimit OrderDirectionBuy 4 1 (Some 25000000) None
    OrderStatusApproved None false 2 false false false true None 0) (Some (micros 25000000)) None.

Lemma cancel_releases_too_much_witness :
  let unit_price := decimal.Mul (decimal.NewFromInt 1) limit25 in
  let fee := CalcLimitCommission (decimal.Mul unit_price (decimal.NewFromInt 4)) in
  exists total release,
    reserved_usd open_limit 4 quiet w0 = (Ok total, w0) /\
    reserved_usd open_limit 2 quiet w0 = (Ok release, w0) /\
    (decimal.val total - decimal.val fee - decimal.val (decimal.Mul unit_price (decimal.NewFromInt 2))
       < decimal.val release)%Q.
Proof.
  cbv zeta. assert (Hp : (0 < decimal.val limit25)%Q) by (vm_compute; reflexivity).
  destruct (cancel_releases_too_much open_limit limit25 quiet w0 eq_refl eq_refl eq_refl Hp
              eq_refl (conj eq_refl eq_refl)) as (total & release & H1 & H2 & H3 & _).
  exists total, release. split; [exact H1|]. split; [exact H2|exact H3].
Defined.

(** ** The system *)

Lemma trading_is_safe_witness :
  let w1 := (CreateOrder true (buy_request 7 true) quiet w0).2 in
  let w2 := (CancelOrder true 100 7 false quiet w1).2 in
  (om_Status <$> d_orders (w_db w2) !! 100) = Some OrderStatusCanceled /\
  0 <= net_holdings 7 1 (w_db w2).
Proof.
  cbv zeta. split; [vm_compute; reflexivity|].
  refine (proj2 (trading_is_safe no_forex (w_db w0) _ eq_refl eq_refl _) 7 1 eq_refl).
  eapply rtc_l; [|apply rtc_once].
  - refine (act_create no_forex true (buy_request 7 true) quiet w0 _ _ eq_refl (surjective_pairing _)).
  - refine (act_cancel no_forex true 100 7 false quiet _ _ _ (surjective_pairing _)).
Defined.
