(* ===== verification/InterbankRepo.v ===== *)
(** * The interbank repository ([repository/interbank_repository.go])

    The message log, the transaction table, the reservations and the option
    contracts of the interbank protocol, with the CHECK constraints, unique
    indexes, foreign key and column widths of migration 000052.  An entity of the
    domain is its row together with its id.  The repository has a connection of
    its own: its statements neither see nor abort the transaction of the caller
    ([sql_ib]). *)

From S2P Require Import Prelude Numeric Domain InterbankTables Store StoreFacts.
From stdpp Require Import list sorting.
#[local] Open Scope Z_scope.

Definition varchar_opt (n : nat) (s : option string) : bool :=
  match s with Some s => varchar n s | None => true end.
Definition varchar_fid (n : nat) (s : option ForeignBankId) : bool :=
  match s with Some f => varchar n (fb_ID f) | None => true end.

(** ** Message log *)

(** [domain.InterbankMessageLog]. *)
Record InterbankMessageLog : Type := mkLog { im_ID : Z; im_Row : interbankMessageModel }.

Definition has_key (dir : InterbankMessageDirection) (key : IdempotenceKey)
    (kv : Z * interbankMessageModel) : Prop :=
  ml_Direction kv.2 = dir /\ ml_Key kv.2 = key.
#[export] Instance has_key_dec dir key kv : Decision (has_key dir key kv).
Proof. unfold has_key. apply _. Defined.

(** The row of an idempotence key: there is one at most, by the unique index. *)
Definition find_message (dir : InterbankMessageDirection) (key : IdempotenceKey) (d : IbDB)
    : option (Z * interbankMessageModel) :=
  head (filter (has_key dir key) (map_to_list (ib_messages d))).

Definition to_log (kv : Z * interbankMessageModel) : InterbankMessageLog := mkLog kv.1 kv.2.

Definition GetIncomingByIdempotence (key : IdempotenceKey) : M (option InterbankMessageLog) :=
  sql_ib (fun d => Ok (to_log <$> find_message DirectionIncoming key d, d)).

Definition GetOutgoingByIdempotence (key : IdempotenceKey) : M (option InterbankMessageLog) :=
  sql_ib (fun d => Ok (to_log <$> find_message DirectionOutgoing key d, d)).

(** [interbank_msg_type_chk] and the width of the key. *)
Definition message_check (m : interbankMessageModel) : bool :=
  match ml_MessageType m with OtherMessage _ => false | _ => true end &&
  varchar 64 (k_LocallyGeneratedKey (ml_Key m)).

Definition insert_message (m : interbankMessageModel) (id : Z) (d : IbDB)
    : result (InterbankMessageLog * IbDB) :=
  if message_check m && bool_decide (find_message (ml_Direction m) (ml_Key m) d = None) then
    match insert_row id m (ib_messages d) with
    | Ok t => Ok (mkLog id m, set_messages t d)
    | Err er => Err er
    end
  else Err ErrDB.

Definition CreateMessage (m : interbankMessageModel) : M InterbankMessageLog :=
  time_now ;; sql_ib_insert (insert_message m).

(** [Save]: every column of the row is written. *)
Definition UpdateMessage (m : InterbankMessageLog) : M unit :=
  time_now ;;
  sql_ib (fun d => Ok (tt, set_messages (<[im_ID m := im_Row m]> (ib_messages d)) d)).

(** Waiting to be sent (again) at time [now]. *)
Definition pending_outgoing (now : Z) (m : interbankMessageModel) : bool :=
  bool_decide (ml_Direction m = DirectionOutgoing) &&
  match ml_Status m with
  | MsgStatusPending | MsgStatusAccepted | MsgStatusFailed => true
  | _ => false
  end &&
  match ml_NextRetryAt m with None => true | Some t => t <=? now end.

(** The order of ids is the order of creation. *)
Definition id_le {A} (a b : Z * A) : Prop := a.1 <= b.1.
#[export] Instance id_le_dec {A} (a b : Z * A) : Decision (id_le a b).
Proof. unfold id_le. apply _. Defined.

Definition rows_by_id {A} (P : A -> bool) (m : gmap Z A) : list (Z * A) :=
  merge_sort id_le (filter (fun kv => P kv.2 = true) (map_to_list m)).

Definition ListPendingOutgoing (limit : nat) : M (list InterbankMessageLog) :=
  now ← time_now;
  sql_ib (fun d => Ok (take limit (to_log <$> rows_by_id (pending_outgoing now) (ib_messages d)), d)).

(** ** Interbank transactions *)

(** [domain.InterbankTransaction]. *)
Record InterbankTransaction : Type := mkIbTx { ibtx_ID : Z; ibtx_Row : interbankTxModel }.

Definition find_tx (fid : ForeignBankId) (d : IbDB) : option (Z * interbankTxModel) :=
  head (filter (fun kv => it_TransactionID kv.2 = fid) (map_to_list (ib_txs d))).

Definition insert_tx (t : interbankTxModel) (id : Z) (d : IbDB)
    : result (InterbankTransaction * IbDB) :=
  if varchar 64 (fb_ID (it_TransactionID t)) && varchar 40 (it_CurrentStep t) &&
     bool_decide (find_tx (it_TransactionID t) d = None) then
    match insert_row id t (ib_txs d) with
    | Ok tb => Ok (mkIbTx id t, set_txs tb d)
    | Err er => Err er
    end
  else Err ErrDB.

Definition CreateTransaction (t : interbankTxModel) : M InterbankTransaction :=
  time_now ;; sql_ib_insert (insert_tx t).

Definition GetTransactionByForeignID (fid : ForeignBankId) : M (option InterbankTransaction) :=
  sql_ib (fun d => Ok ((fun kv => mkIbTx kv.1 kv.2) <$> find_tx fid d, d)).

Definition with_tx_status (s : InterbankTxStatus) (step : string) (t : interbankTxModel)
    : interbankTxModel :=
  mkTxModel (it_TransactionID t) (it_Role t) s step (it_Payload t) (it_InitiatorUserID t)
    (it_InitiatorAccountID t).

Definition update_tx (id : Z) (s : InterbankTxStatus) (step : string) (d : IbDB)
    : result (unit * IbDB) :=
  if varchar 40 step then Ok (tt, set_txs (alter (with_tx_status s step) id (ib_txs d)) d)
  else Err ErrDB.

Definition UpdateTransactionStatus (id : Z) (s : InterbankTxStatus) (step : string) : M unit :=
  time_now ;; sql_ib (update_tx id s step).

(** ** Reservations *)

Section reservations.
Context `{DL : decimal.Lib}.

(** [domain.InterbankReservation]: [None] is an asset type that the CHECK of the
    table refuses. *)
Record InterbankReservation : Type := mkResv {
  rv_TransactionID : Z;
  rv_PostingIndex : Z;
  rv_AccountKind : AccountKind;
  rv_AccountNum : option string;
  rv_ForeignID : option ForeignBankId;
  rv_AssetType : option AssetType;
  rv_AssetCurrency : option string;
  rv_AssetTicker : option string;
  rv_AssetNegotiation : option ForeignBankId;
  rv_Amount : decimal.t;
  rv_Reserved : bool
}.

(** Column widths, and the amount as NUMERIC(20, 6). *)
Definition resvFromDomain (x : InterbankReservation) : option interbankReservationModel :=
  match rv_AssetType x, numeric_store 20 1000000 (decimal.String (rv_Amount x)) with
  | Some ty, Some amount =>
      if varchar_opt 32 (rv_AccountNum x) && varchar_fid 64 (rv_ForeignID x) &&
         varchar_opt 10 (rv_AssetCurrency x) && varchar_opt 20 (rv_AssetTicker x) &&
         varchar_fid 64 (rv_AssetNegotiation x)
      then Some (mkReservation (rv_TransactionID x) (rv_PostingIndex x) (rv_AccountKind x)
                   (rv_AccountNum x) (rv_ForeignID x) ty (rv_AssetCurrency x) (rv_AssetTicker x)
                   (rv_AssetNegotiation x) amount (rv_Reserved x))
      else None
  | _, _ => None
  end.

Definition resvToDomain (m : interbankReservationModel) : option InterbankReservation :=
  amount ← decimal.NewFromString (micros (ir_Amount m));
  Some (mkResv (ir_TransactionID m) (ir_PostingIndex m) (ir_AccountKind m) (ir_AccountNum m)
          (ir_ForeignID m) (Some (ir_AssetType m)) (ir_AssetCurrency m) (ir_AssetTicker m)
          (ir_AssetNegotiation m) amount (ir_Reserved m)).

(** With the foreign key on [interbank_transaction]. *)
Definition insert_reservation (x : InterbankReservation) (id : Z) (d : IbDB) : result (unit * IbDB) :=
  match resvFromDomain x, ib_txs d !! rv_TransactionID x with
  | Some m, Some _ =>
      match insert_row id m (ib_reservations d) with
      | Ok t => Ok (tt, set_reservations t d)
      | Err er => Err er
      end
  | _, _ => Err ErrDB
  end.

Definition CreateReservation (x : InterbankReservation) : M unit :=
  time_now ;; sql_ib_insert (insert_reservation x).

Definition index_le (a b : Z * interbankReservationModel) : Prop :=
  ir_PostingIndex a.2 <= ir_PostingIndex b.2.
#[export] Instance index_le_dec a b : Decision (index_le a b).
Proof. unfold index_le. apply _. Defined.

(** [ORDER BY posting_index]; rows of the same index in the order of their ids. *)
Definition reservations_of (txID : Z) (d : IbDB) : list interbankReservationModel :=
  snd <$> merge_sort index_le
            (rows_by_id (fun m => ir_TransactionID m =? txID) (ib_reservations d)).

Definition ListReservationsByTx (txID : Z) : M (list InterbankReservation) :=
  sql_ib (fun d => match mapM resvToDomain (reservations_of txID d) with
                   | Some rs => Ok (rs, d)
                   | None => Err ErrDB
                   end).
End reservations.

(** ** Option contracts *)

Definition find_contract (fid : ForeignBankId) (d : IbDB) : option (Z * interbankOptionContractModel) :=
  head (filter (fun kv => oc_NegotiationID kv.2 = fid) (map_to_list (ib_contracts d))).

Definition GetOptionContract (fid : ForeignBankId) : M (option interbankOptionContractModel) :=
  sql_ib (fun d => Ok (snd <$> find_contract fid d, d)).

Definition with_contract_status (s : ContractStatus) (usedAt : option Z)
    (c : interbankOptionContractModel) : interbankOptionContractModel :=
  mkContract (oc_NegotiationID c) (oc_SettlementDate c) (oc_Seller c) s usedAt.

Definition UpdateOptionContractStatus (fid : ForeignBankId) (s : ContractStatus) (usedAt : option Z)
    : M unit :=
  time_now ;;
  sql_ib (fun d =>
    Ok (tt, set_contracts
              ((fun c => if decide (oc_NegotiationID c = fid) then with_contract_status s usedAt c
                         else c) <$> ib_contracts d) d)).

Definition ListExpiredActiveContracts (before : Z) : M (list interbankOptionContractModel) :=
  sql_ib (fun d =>
    Ok (snd <$> rows_by_id (fun c => bool_decide (oc_Status c = ContractActive) &&
                                     (oc_SettlementDate c <? before)) (ib_contracts d), d)).

(** ** The message log with retries ([service/interbank_message_service.go])

    Outgoing messages are logged before they are sent, with an idempotence key
    that a retry keeps; incoming ones are logged before they are processed, with
    the answer that a duplicate gets. *)

(** [NewLocalKey]: [uuid.NewString()]. *)
Definition NewLocalKey : M string := io (fun e n => Ok (env_uuid e n)).

Section message_service.
(** [maxRetry] and [backoffDuration], defaults applied by the constructor. *)
Context (maxRetry backoffDuration : Z).

Definition with_msg_status (s : InterbankMessageStatus) (m : interbankMessageModel) : interbankMessageModel :=
  mkMessageModel (ml_Direction m) (ml_MessageType m) (ml_Key m) (ml_TargetRoutingNumber m) (ml_Payload m)
    (ml_ResponsePayload m) (ml_ResponseStatusCode m) s (ml_RetryCount m) (ml_NextRetryAt m).

Definition with_retry (count : Z) (next : option Z) (m : interbankMessageModel) : interbankMessageModel :=
  mkMessageModel (ml_Direction m) (ml_MessageType m) (ml_Key m) (ml_TargetRoutingNumber m) (ml_Payload m)
    (ml_ResponsePayload m) (ml_ResponseStatusCode m) (ml_Status m) count next.

Definition with_response (code : option Z) (body : option Body) (m : interbankMessageModel)
    : interbankMessageModel :=
  mkMessageModel (ml_Direction m) (ml_MessageType m) (ml_Key m) (ml_TargetRoutingNumber m) (ml_Payload m)
    body code (ml_Status m) (ml_RetryCount m) (ml_NextRetryAt m).

Definition outgoing_row (ty : MessageType) (target : Z) (key : IdempotenceKey) (payload : Body)
    : interbankMessageModel :=
  mkMessageModel DirectionOutgoing ty key (Some target) payload None None MsgStatusPending 0 None.

(** The body is already marshalled. *)
Definition EnqueueOutgoing (ty : MessageType) (target : Z) (key : IdempotenceKey) (payload : Body)
    : M InterbankMessageLog :=
  existing ← GetOutgoingByIdempotence key;
  match existing with
  | Some row => mret row
  | None => CreateMessage (outgoing_row ty target key payload)
  end.

(** [SendNow] always refuses: it is told to use [SendMessage]. *)
Definition SendNow (msgID : Z) : M InterbankMessageLog :=
  throw (ErrMsg "SendNow(msgID) zahteva direktno prosledjivanje poruke").

Definition minInt (a b : Z) : Z := if a <? b then a else b.

(** [now.Add(backoff * 1 << min(retryCount-1, 6))]. *)
Definition next_retry (now retryCount : Z) : Z :=
  now + backoffDuration * Z.shiftl 1 (minInt (retryCount - 1) 6).

(** The row in memory after a failed attempt. *)
Definition failed_row (now : Z) (m : interbankMessageModel) : interbankMessageModel :=
  let n := ml_RetryCount m + 1 in
  with_retry n (Some (next_retry now n)) (with_msg_status MsgStatusFailed m).

(** The row after an answer of the other bank. *)
Definition answered_row (now code : Z) (body : Body) (m : interbankMessageModel) : interbankMessageModel :=
  let m := with_response (Some code) (Some body) m in
  if (code =? 200) || (code =? 204) then with_retry (ml_RetryCount m) None (with_msg_status MsgStatusSent m)
  else if code =? 202 then
    with_retry (ml_RetryCount m + 1) (Some (now + backoffDuration)) (with_msg_status MsgStatusAccepted m)
  else failed_row now m.

Definition envelope (m : interbankMessageModel) : InterbankMessage :=
  mkMessage (ml_Key m) (ml_MessageType m) (ml_Payload m).

Definition finished (m : interbankMessageModel) : bool :=
  match ml_Status m with MsgStatusSent | MsgStatusProcessed => true | _ => false end.

(** The code updates the row in memory through a pointer: the outcome is the
    error, if any, with the row as the caller sees it afterwards. *)
Definition SendMessage (m : InterbankMessageLog) : M (option error * InterbankMessageLog) :=
  if finished (im_Row m) then mret (None, m)
  else
    answer ← try (send_to_peer (envelope (im_Row m)));
    now ← time_now;
    match answer with
    | Err er =>
        let m' := mkLog (im_ID m) (failed_row now (im_Row m)) in
        try (UpdateMessage m') ;; mret (Some er, m')
    | Ok (code, body) =>
        let m' := mkLog (im_ID m) (answered_row now code body (im_Row m)) in
        r ← try (UpdateMessage m');
        mret (match r with Ok _ => (None, m') | Err er => (Some er, m') end)
    end.

Definition LookupIncomingResponse (key : IdempotenceKey) : M (option InterbankMessageLog) :=
  GetIncomingByIdempotence key.

Definition RecordIncoming (msg : InterbankMessage) : M InterbankMessageLog :=
  CreateMessage (mkMessageModel DirectionIncoming (im_MessageType msg) (im_IdempotenceKey msg) None
                   (im_Message msg) None None MsgStatusPending 0 None).

Definition FinishIncoming (row : InterbankMessageLog) (code : Z) (response : option Body) : M unit :=
  let m := im_Row row in
  let m' := with_response (Some code)
              (match response with Some b => Some b | None => ml_ResponsePayload m end)
              (with_msg_status MsgStatusProcessed m) in
  UpdateMessage (mkLog (im_ID row) m').

(** Given up: failed [maxRetry] times. *)
Definition exhausted (m : interbankMessageModel) : bool :=
  (maxRetry <=? ml_RetryCount m) && bool_decide (ml_Status m = MsgStatusFailed).

Definition retry (m : InterbankMessageLog) : M unit :=
  if exhausted (im_Row m) then mret tt else try (SendMessage m) ;; mret tt.

(** The errors are logged only. *)
Definition processRetryBatch : M unit :=
  rows ← try (ListPendingOutgoing 50);
  match rows with
  | Err _ => mret tt
  | Ok rows => for_each rows retry
  end.
End message_service.
