(* ===== verification/InterbankExecutor.v ===== *)
(** * The local executor of interbank transactions ([service/local_transaction_executor.go])

    [Prepare] validates the postings of this bank and reserves what they need,
    [Commit] turns the reservations into movements, [Rollback] releases them.
    Updates of accounts and published shares run in one database transaction; the
    rows of [interbank_reservation] and the status of the transaction are written
    through the repository, outside it. *)

From S2P Require Import Prelude Numeric Domain InterbankTables Store StoreFacts OrderRepo Market.
From S2P Require Import FundsManager InterbankRepo.
From stdpp Require Import list sorting pretty.
From Stdlib Require Import Ascii.
#[local] Open Scope Z_scope.

(** ** [strconv.ParseInt(s, 10, 64)] *)

Inductive parsed : Type := ParseSyntax | ParseRange | ParseOk (n : Z).

Definition digit (c : ascii) : option Z :=
  let n := Z.of_nat (nat_of_ascii c) in
  if (48 <=? n) && (n <=? 57) then Some (n - 48) else None.

(** [ParseUint]: a text that is too long is refused at the digit that overflows. *)
Fixpoint parse_uint_from (s : string) (n : Z) : parsed :=
  match s with
  | EmptyString => ParseOk n
  | String c s' =>
      match digit c with
      | None => ParseSyntax
      | Some d => if 2 ^ 64 <=? 10 * n + d then ParseRange else parse_uint_from s' (10 * n + d)
      end
  end.

Definition parse_uint (s : string) : parsed :=
  match s with EmptyString => ParseSyntax | _ => parse_uint_from s 0 end.

(** The value, and whether there was no error: a syntax error leaves 0, a value
    out of range the nearest int64. *)
Definition ParseInt (s : string) : Z * bool :=
  let '(neg, digits) := match s with
                        | String "+"%char s' => (false, s')
                        | String "-"%char s' => (true, s')
                        | _ => (false, s)
                        end in
  match parse_uint digits with
  | ParseSyntax => (0, false)
  | ParseRange => (if neg : bool then - 2 ^ 63 else 2 ^ 63 - 1, false)
  | ParseOk n =>
      if neg : bool then if 2 ^ 63 <? n then (- 2 ^ 63, false) else (- n, true)
      else if 2 ^ 63 <=? n then (2 ^ 63 - 1, false) else (n, true)
  end.

(** ** Queries on accounts and shares *)

(** [UPDATE core_banking.racun SET ... WHERE broj_racuna = ?]; no row is no error. *)
Definition update_racun_number (num : string) (f : racun -> option racun) (d : DB) : result (Z * DB) :=
  match racun_by_number num d with
  | Some (id, _) => update_racun id always f d
  | None => Ok (0, d)
  end.

(** [SET rezervisana_sredstva = rezervisana_sredstva - ?]: no lower bound. *)
Definition drop_rezervisano (q : Q) (r : racun) : option racun :=
  v ← store_cents (cents (r_rezervisana_sredstva r) - q); Some (with_rezervisano v r).
(** [SET rezervisana_sredstva = rezervisana_sredstva - ?, stanje_racuna = stanje_racuna - ?]. *)
Definition drop_both (q : Q) (r : racun) : option racun := r' ← sub_stanje q r; drop_rezervisano q r'.

(** [ORDER BY (oznaka = c1) DESC, (oznaka = c2) DESC, ..., id ASC]. *)
Fixpoint currency_rank (curs : list string) (oznaka : string) : Z :=
  match curs with
  | [] => 0
  | c :: curs' => if String.eqb oznaka c then 0 else 1 + currency_rank curs' oznaka
  end.
Definition rank_le (curs : list string) (a b : Z * racun) : Prop :=
  currency_rank curs (r_oznaka a.2) < currency_rank curs (r_oznaka b.2) \/
  currency_rank curs (r_oznaka a.2) = currency_rank curs (r_oznaka b.2) /\ a.1 <= b.1.
#[export] Instance rank_le_dec curs a b : Decision (rank_le curs a b).
Proof. unfold rank_le. apply _. Defined.

(** The first active account that satisfies [P], in this order. *)
Definition first_account (curs : list string) (P : racun -> bool) (d : DB) : option (Z * racun) :=
  head (merge_sort (rank_le curs)
          (filter (fun kv => bool_decide (r_status kv.2 = AKTIVAN) && P kv.2 = true)
             (map_to_list (d_racun d)))).

Definition owned (uid : Z) (r : racun) : bool := r_id_vlasnika r =? uid.
Definition poslovni (r : racun) : bool := bool_decide (r_vrsta_racuna r = POSLOVNI).

(** The rows of a user's shares of a listing, oldest first. *)
Definition share_rows (listing : option Z) (userID : Z) (d : DB) : list publicShare :=
  match listing with
  | Some l => filter (fun s => (ps_UserID s =? userID) && (ps_ListingID s =? l) = true) (d_public_shares d)
  | None => []
  end.

(** [INSERT INTO core_banking.public_shares]: CHECK (quantity > 0), INTEGER. *)
Definition insert_share (listing userID qty : Z) (id : Z) (d : DB) : result (unit * DB) :=
  if (0 <? qty) && (qty <? 2 ^ 31) then
    Ok (tt, set_public_shares (d_public_shares d ++ [mkPublicShare id listing userID qty]) d)
  else Err ErrDB.

(** The listing of a ticker, in the statement that joins or looks it up. *)
Definition sql_ticker {A} (ticker : string) (f : option Z -> DB -> result (A * DB)) : M A :=
  fun e w => sql (f (env_ticker e ticker)) e w.

Definition decrement_loop : list publicShare -> Z -> M Z :=
  fix loop (rows : list publicShare) (remaining : Z) : M Z :=
    match rows with
    | [] => mret remaining
    | row :: rows' =>
        if remaining <=? 0 then mret remaining
        else
          let take := if remaining <? ps_Quantity row then remaining else ps_Quantity row in
          let newQty := ps_Quantity row - take in
          (if newQty =? 0 then sql (delete_share (ps_ID row))
           else sql (update_share (ps_ID row) newQty)) ;;
          loop rows' (remaining - take)
    end.

Definition decrementPublicShares (userID : Z) (ticker : string) (amount : Z) : M unit :=
  rows ← sql_ticker ticker (fun l d => Ok (share_rows l userID d, d));
  remaining ← decrement_loop rows amount;
  if 0 <? remaining then throw (ErrMsg "nedovoljno akcija u javnom rezimu") else mret tt.

Definition BlockShares (userID : Z) (ticker : string) (amount : Z) : M unit :=
  Transaction (decrementPublicShares userID ticker amount).

Definition ReleaseShares (userID : Z) (ticker : string) (amount : Z) : M unit :=
  listing ← sql_ticker ticker (fun l d => Ok (l, d));
  match listing with
  | None => throw (ErrMsg "listing ne postoji za ticker")
  | Some l => sql_insert (insert_share l userID amount)
  end.

(** [isActuary]: an error of the query is a no. *)
Definition isActuary (uid : Z) : M bool :=
  r ← try (sql_read (fun d => is_actuary d uid));
  mret (match r with Ok b => b | Err _ => false end).

(** The id of a listing, 0 (none) when the query fails. *)
Definition scan_ticker (ticker : string) : M (option Z) :=
  r ← try (sql_ticker ticker (fun l d => Ok (l, d)));
  mret (match r with Ok o => o | Err _ => None end).

(** An INSERT with a column [now()]. *)
Definition sql_insert_now {A} (f : Z -> Z -> DB -> result (A * DB)) : M A :=
  fun e w => sql_insert (f (env_now e (w_step w))) e w.

(** A row that a [Scan] whose error is ignored leaves empty. *)
Definition scan {A} (f : DB -> option A) : M (option A) :=
  r ← try (sql_read f);
  mret (match r with Ok o => o | Err _ => None end).

Section executor.
Context `{DL : decimal.Lib}.

(** ** Transactions and their texts *)

Abbreviation Posting_ := (Posting decimal.t).
Abbreviation Tx := (Transaction_ decimal.t).

(** [MarshalJSON] of an asset: an unknown type is an error, a nil variant is null. *)
Definition marshal_asset (a : Asset decimal.t) : option (Asset Q) :=
  match a with
  | AssetMonas c => Some (AssetMonas c)
  | AssetStock t => Some (AssetStock t)
  | AssetOption o =>
      Some (AssetOption ((fun o => mkOption (od_NegotiationID o) (od_Ticker o) (od_PriceCurrency o)
                            (decimal.String (od_PriceAmount o)) (od_SettlementDate o)
                            (decimal.String (od_Amount o))) <$> o))
  | OtherAsset _ => None
  end.

(** [UnmarshalJSON]: null leaves the zero value of the variant. *)
Definition unmarshal_option (o : OptionDescription Q) : option (OptionDescription decimal.t) :=
  price ← decimal.NewFromString (od_PriceAmount o);
  amount ← decimal.NewFromString (od_Amount o);
  Some (mkOption (od_NegotiationID o) (od_Ticker o) (od_PriceCurrency o) price
          (od_SettlementDate o) amount).

Definition zero_option : OptionDescription decimal.t :=
  mkOption (mkFid 0 EmptyString) EmptyString EmptyString decimal.Zero EmptyString decimal.Zero.

Definition unmarshal_asset (a : Asset Q) : option (Asset decimal.t) :=
  match a with
  | AssetMonas c => Some (AssetMonas (Some (default EmptyString c)))
  | AssetStock t => Some (AssetStock (Some (default EmptyString t)))
  | AssetOption None => Some (AssetOption (Some zero_option))
  | AssetOption (Some o) => (fun o => AssetOption (Some o)) <$> unmarshal_option o
  | OtherAsset _ => None
  end.

Definition marshal_posting (p : Posting_) : option (Posting Q) :=
  a ← marshal_asset (p_Asset p);
  Some (mkPosting (p_Account p) (decimal.String (p_Amount p)) a).

Definition unmarshal_posting (p : Posting Q) : option Posting_ :=
  a ← unmarshal_asset (p_Asset p);
  n ← decimal.NewFromString (p_Amount p);
  Some (mkPosting (p_Account p) n a).

Definition MarshalTransaction (tx : Tx) : result Body :=
  match mapM marshal_posting (tx_Postings tx) with
  | Some ps => Ok (BodyTx (mkTx ps (tx_TransactionID tx)))
  | None => Err (ErrMsg "interbank: nepoznat asset type")
  end.

(** Also the [json.Unmarshal] of the handler: a text without postings leaves none. *)
Definition UnmarshalTransaction (b : Body) : option Tx :=
  match b with
  | BodyTx tx => ps ← mapM unmarshal_posting (tx_Postings tx); Some (mkTx ps (tx_TransactionID tx))
  | BodyId id => Some (mkTx [] id)
  | BodyVote _ | BodyObject => Some (mkTx [] (mkFid 0 EmptyString))
  | BodyEmpty | BodyInvalid => None
  end.

(** ** Balance *)

Definition assetKey (a : Asset decimal.t) : string :=
  match a with
  | AssetMonas (Some c) => "MONAS:" +:+ c
  | AssetStock (Some t) => "STOCK:" +:+ t
  | AssetOption (Some o) =>
      "OPTION:" +:+ pretty (fb_RoutingNumber (od_NegotiationID o)) +:+ ":" +:+ fb_ID (od_NegotiationID o)
  | AssetMonas None => "MONAS:?"
  | AssetStock None => "STOCK:?"
  | AssetOption None => "OPTION:?"
  | OtherAsset ty => ty +:+ ":?"
  end.

(** [sums[key] = sums[key].Add(p.Amount)]: a missing entry is the zero decimal. *)
Fixpoint add_postings (postings : list Posting_) (sums : gmap string decimal.t) : gmap string decimal.t :=
  match postings with
  | [] => sums
  | p :: ps =>
      let key := assetKey (p_Asset p) in
      add_postings ps (<[key := decimal.Add (default decimal.Zero (sums !! key)) (p_Amount p)]> sums)
  end.

Definition isBalanced (postings : list Posting_) : bool :=
  forallb (fun kv => decimal.IsZero kv.2) (map_to_list (add_postings postings ∅)).

(** ** The executor *)

(** [ourRouting], [accountPrefix] and [rates] of [LocalTransactionExecutor]. *)
Context (ourRouting : Z) (accountPrefix : string) (rates : option (M (list ExchangeRate))).

Definition isLocalPosting (p : Posting_) : result bool :=
  match p_Account p with
  | AccountNumber None => Err (ErrMsg "ACCOUNT posting bez num polja")
  | AccountNumber (Some num) => Ok (String.prefix accountPrefix num)
  | AccountPerson None | AccountOption None => Err (ErrMsg "posting bez id polja")
  | AccountPerson (Some id) | AccountOption (Some id) => Ok (fb_RoutingNumber id =? ourRouting)
  | OtherAccount _ => Err (ErrMsg "nepoznat AccountKind")
  end.

Record personAccount : Type := mkPersonAccount {
  pa_BrojRacuna : string;
  pa_Stanje : decimal.t;
  pa_Rezervisana : decimal.t;
  pa_Valuta : string
}.

(** The scan of an account row: its two amounts as decimals. *)
Definition person_account (r : racun) : option personAccount :=
  s ← decimal.NewFromString (cents (r_stanje_racuna r));
  z ← decimal.NewFromString (cents (r_rezervisana_sredstva r));
  if String.eqb (r_broj_racuna r) EmptyString then None
  else Some (mkPersonAccount (r_broj_racuna r) s z (r_oznaka r)).

Definition resolvePersonAccount (personID currency : string) : M (option personAccount) :=
  let '(uid, ok) := ParseInt personID in
  if negb ok then mret None
  else
    acc ← scan (fun d => kv ← first_account [currency; "RSD"%string] (owned uid) d; person_account kv.2);
    match acc with
    | Some a => mret (Some a)
    | None =>
        act ← isActuary uid;
        if act : bool then scan (fun d => kv ← first_account [currency; "RSD"%string] poslovni d; person_account kv.2)
        else mret None
    end.

(** The last entry of a currency: [byCode[r.Oznaka] = r]. *)
Definition byCode (oznaka : string) (l : list ExchangeRate) : option ExchangeRate :=
  match find_rate oznaka (rev l) with
  | Some r => if f64_leb (er_Kupovni r) f64_zero || f64_leb (er_Prodajni r) f64_zero then None else Some r
  | None => None
  end.

(** The buying rate for a credit, the selling rate for a debit; the last step the
    other way round. *)
Definition settle_at (l : list ExchangeRate) (amount : decimal.t) (fromCur toCur : string)
    : option decimal.t :=
  let isCredit := decimal.IsPositive amount in
  let mag := decimal.Abs amount in
  rsd ← (if String.eqb fromCur "RSD" then Some mag
         else r ← byCode fromCur l;
              Some (decimal.Mul mag (decimal.NewFromFloat
                     (if isCredit then er_Kupovni r else er_Prodajni r))));
  out ← (if String.eqb toCur "RSD" then Some rsd
         else r ← byCode toCur l;
              Some (decimal.Div rsd (decimal.NewFromFloat
                     (if isCredit then er_Prodajni r else er_Kupovni r))));
  Some (if isCredit then out else decimal.Neg out).

Definition convertForSettlement (amount : decimal.t) (fromCur toCur : string) : M decimal.t :=
  if String.eqb fromCur toCur then mret amount
  else match rates with
  | None => throw (ErrMsg "konverzija nedostupna")
  | Some src =>
      l ← src;
      match settle_at l amount fromCur toCur with
      | Some out => mret out
      | None => throw (ErrMsg "nema kursa")
      end
  end.

(** ** Validation of a posting *)

(** [writeTxRow]. *)
Definition writeTxRow (num : string) (tip : TipTransakcije) (amount : decimal.t) : M unit :=
  id ← sql_read (fun d => fst <$> racun_by_number num d);
  match id with
  | None => throw (ErrMsg "racun ne postoji")
  | Some id => sql (insert_transakcija [(id, tip, decimal.String amount)])
  end.

Definition insufficient (r : option personAccount) (want : decimal.t) : bool :=
  match r with
  | Some acc => decimal.LessThan (decimal.Sub (pa_Stanje acc) (pa_Rezervisana acc)) want
  | None => false
  end.

Definition validate_account (num : string) (p : Posting_) : M (option NoVoteReasonCode) :=
  r ← scan (fun d => kv ← racun_by_number num d; acc ← person_account kv.2; Some (acc, r_status kv.2));
  mret (match r with
        | Some (acc, AKTIVAN) =>
            match p_Asset p with
            | AssetMonas (Some c) =>
                if negb (String.eqb c (pa_Valuta acc)) then Some NoReasonUnacceptableAsset
                else if decimal.IsNegative (p_Amount p) &&
                        insufficient (Some acc) (decimal.Abs (p_Amount p))
                then Some NoReasonInsufficientAsset
                else None
            | _ => Some NoReasonUnacceptableAsset
            end
        | _ => Some NoReasonNoSuchAccount
        end).

Definition validate_person_money (id : ForeignBankId) (currency : string) (amount : decimal.t)
    : M (option NoVoteReasonCode) :=
  acc ← resolvePersonAccount (fb_ID id) currency;
  match acc with
  | None => mret (Some NoReasonNoSuchAccount)
  | Some acc =>
      if decimal.IsNegative amount then
        converted ← try (convertForSettlement amount currency (pa_Valuta acc));
        mret (match converted with
              | Err _ => Some NoReasonUnacceptableAsset
              | Ok c => if insufficient (Some acc) (decimal.Abs c) then Some NoReasonInsufficientAsset
                        else None
              end)
      else mret None
  end.

(** The published shares of a ticker, 0 when the query fails. *)
Definition published (userID : Z) (ticker : string) : M Z :=
  r ← try (sql_ticker ticker (fun l d => Ok (zsum ps_Quantity (share_rows l userID d), d)));
  mret (match r with Ok n => n | Err _ => 0 end).

Definition validate_person_stock (id : ForeignBankId) (ticker : string) (amount : decimal.t)
    : M (option NoVoteReasonCode) :=
  if decimal.IsNegative amount then
    let '(userID, ok) := ParseInt (fb_ID id) in
    if negb ok then mret (Some NoReasonNoSuchAccount)
    else
      qty ← published userID ticker;
      mret (if qty <? decimal.IntPart (decimal.Abs amount) then Some NoReasonInsufficientAsset else None)
  else mret None.

Definition validate_option (id : ForeignBankId) (p : Posting_) : M (option NoVoteReasonCode) :=
  let amount_ok := if decimal.IsZero (p_Amount p) then Some NoReasonOptionAmountIncorrect else None in
  match p_Asset p with
  | AssetOption _ => mret amount_ok
  | _ =>
      c ← try (GetOptionContract id);
      match c with
      | Ok (Some c) =>
          if decide (oc_Status c = ContractActive) then
            now ← time_now;
            mret (if oc_SettlementDate c <=? now then Some NoReasonOptionUsedOrExpired else amount_ok)
          else mret (Some NoReasonOptionUsedOrExpired)
      | _ => mret (Some NoReasonOptionNegotiationNotFound)
      end
  end.

Definition validatePosting (p : Posting_) : M (option NoVoteReasonCode) :=
  match p_Account p with
  | AccountNumber (Some num) => validate_account num p
  | AccountPerson (Some id) =>
      match p_Asset p with
      | AssetMonas None => mret (Some NoReasonNoSuchAsset)
      | AssetMonas (Some c) => validate_person_money id c (p_Amount p)
      | AssetStock None => mret (Some NoReasonNoSuchAsset)
      | AssetStock (Some t) =>
          if String.eqb t EmptyString then mret (Some NoReasonNoSuchAsset)
          else validate_person_stock id t (p_Amount p)
      | AssetOption _ | OtherAsset _ => mret None
      end
  | AccountOption (Some id) => validate_option id p
  | AccountNumber None | AccountPerson None => throw Panic
  | AccountOption None => mret (Some NoReasonOptionNegotiationNotFound)
  | OtherAccount _ => mret None
  end.

(** ** Reservation of a posting *)

(** The row before the account is debited; [None] is an account kind that the
    caller has already refused. *)
Definition reservation_of (ibTxID idx : Z) (p : Posting_) : option InterbankReservation :=
  let mk kind num fid :=
    mkResv ibTxID idx kind num fid
      (match p_Asset p with
       | AssetMonas _ => Some AssetTypeMonas
       | AssetStock _ => Some AssetTypeStock
       | AssetOption _ => Some AssetTypeOption
       | OtherAsset _ => None
       end)
      (match p_Asset p with AssetMonas c => c | _ => None end)
      (match p_Asset p with
       | AssetStock t => t
       | AssetOption o => od_Ticker <$> o
       | _ => None
       end)
      (match p_Asset p with AssetOption o => od_NegotiationID <$> o | _ => None end)
      (p_Amount p) false in
  match p_Account p with
  | AccountNumber num => Some (mk AccountKindAccount num None)
  | AccountPerson id => Some (mk AccountKindPerson None id)
  | AccountOption id => Some (mk AccountKindOption None id)
  | OtherAccount _ => None
  end.

Definition with_reserved (x : InterbankReservation) : InterbankReservation :=
  mkResv (rv_TransactionID x) (rv_PostingIndex x) (rv_AccountKind x) (rv_AccountNum x) (rv_ForeignID x)
    (rv_AssetType x) (rv_AssetCurrency x) (rv_AssetTicker x) (rv_AssetNegotiation x) (rv_Amount x) true.

(** The account a person's posting is booked on, and the amount in its currency. *)
Definition with_account (num : string) (amount : decimal.t) (x : InterbankReservation)
    : InterbankReservation :=
  mkResv (rv_TransactionID x) (rv_PostingIndex x) (rv_AccountKind x) (Some num) (rv_ForeignID x)
    (rv_AssetType x) (rv_AssetCurrency x) (rv_AssetTicker x) (rv_AssetNegotiation x) amount
    (rv_Reserved x).

Definition reserve_money (num : string) (amount : decimal.t) : M unit :=
  sql (update_racun_number num (add_rezervisano (decimal.String amount))) ;; mret tt.

(** The debit of a posting, with the row that records it. *)
Definition reserve_debit (p : Posting_) (res : InterbankReservation) : M InterbankReservation :=
  match p_Account p, p_Asset p with
  | AccountNumber (Some num), AssetMonas _ =>
      if decimal.IsNegative (p_Amount p) then
        reserve_money num (decimal.Abs (p_Amount p)) ;; mret (with_reserved res)
      else mret res
  | AccountPerson (Some id), AssetStock t =>
      if decimal.IsNegative (p_Amount p) then
        match t with
        | None => throw Panic
        | Some t =>
            decrementPublicShares (ParseInt (fb_ID id)).1 t
              (decimal.IntPart (decimal.Abs (p_Amount p))) ;;
            mret (with_reserved res)
        end
      else mret res
  | AccountPerson (Some id), AssetMonas None => throw Panic
  | AccountPerson (Some id), AssetMonas (Some c) =>
      acc ← resolvePersonAccount (fb_ID id) c;
      match acc with
      | None => throw (ErrMsg "rezervacija: aktivan racun korisnika nije pronadjen")
      | Some acc =>
          converted ← convertForSettlement (p_Amount p) c (pa_Valuta acc);
          let res' := with_account (pa_BrojRacuna acc) converted res in
          if decimal.IsNegative converted then
            reserve_money (pa_BrojRacuna acc) (decimal.Abs converted) ;; mret (with_reserved res')
          else mret res'
      end
  | _, _ => mret res
  end.

Definition reservePosting (ibTxID idx : Z) (p : Posting_) : M unit :=
  match reservation_of ibTxID idx p with
  | None => throw ErrDB
  | Some res => res' ← reserve_debit p res; CreateReservation res'
  end.

(** ** Prepare *)

Definition local (p : Posting_) : bool :=
  match isLocalPosting p with Ok b => b | Err _ => false end.

(** The reasons against the postings of this bank. *)
Fixpoint collect_reasons (postings : list Posting_) : M (list NoVoteReasonCode) :=
  match postings with
  | [] => mret []
  | p :: ps =>
      here ← of_result (isLocalPosting p);
      if here : bool then
        reason ← validatePosting p;
        rest ← collect_reasons ps;
        mret (match reason with Some r => r :: rest | None => rest end)
      else collect_reasons ps
  end.

Fixpoint reserve_all (ibTxID idx : Z) (postings : list Posting_) : M unit :=
  match postings with
  | [] => mret tt
  | p :: ps =>
      (if local p then reservePosting ibTxID idx p else mret tt) ;;
      reserve_all ibTxID (idx + 1) ps
  end.

Definition vote_no (rs : list NoVoteReasonCode) : TransactionVote := mkVote VoteNo rs.
Definition vote_yes : TransactionVote := mkVote VoteYes [].

Definition Prepare (ibTxID : Z) (tx : Tx) : M TransactionVote :=
  if negb (isBalanced (tx_Postings tx)) then mret (vote_no [NoReasonUnbalancedTx])
  else
    noReasons ← collect_reasons (tx_Postings tx);
    match noReasons with
    | _ :: _ => mret (vote_no noReasons)
    | [] =>
        r ← try (Store.Transaction (reserve_all ibTxID 0 (tx_Postings tx)));
        mret (match r with
              | Ok _ => vote_yes
              | Err _ => vote_no [NoReasonInsufficientAsset]
              end)
    end.

(** ** Commit *)

(** ACCOUNT and PERSON with money: the debit or the credit, with its ledger row. *)
Definition commit_money (r : InterbankReservation) : M unit :=
  match rv_AccountKind r, rv_AssetType r, rv_AccountNum r with
  | (AccountKindAccount | AccountKindPerson), Some AssetTypeMonas, Some num =>
      if decimal.IsNegative (rv_Amount r) then
        let abs := decimal.Abs (rv_Amount r) in
        sql (update_racun_number num (drop_both (decimal.String abs))) ;;
        writeTxRow num INTERBANK (decimal.Neg abs)
      else if decimal.IsPositive (rv_Amount r) then
        sql (update_racun_number num (add_stanje (decimal.String (rv_Amount r)))) ;;
        writeTxRow num INTERBANK (rv_Amount r)
      else mret tt
  | _, _, _ => mret tt
  end.

(** The order a buyer of shares appears to have made. *)
Definition done_buy (userID accountID listingID qty now : Z) : orderModel :=
  {| om_UserID := userID;
     om_AccountID := accountID;
     om_ListingID := listingID;
     om_OrderType := OrderTypeMarket;
     om_Direction := OrderDirectionBuy;
     om_Quantity := qty;
     om_ContractSize := 1;
     om_PricePerUnit := None;
     om_StopPrice := None;
     om_Status := OrderStatusDone;
     om_ApprovedBy := None;
     om_IsDone := true;
     om_RemainingPortions := 0;
     om_AfterHours := false;
     om_AllOrNone := false;
     om_Margin := false;
     om_IsClient := false;
     om_FundID := None;
     om_CreatedAt := now |}.

Definition insert_done_buy (userID accountID listingID qty now id : Z) (d : DB) : result (unit * DB) :=
  let m := done_buy userID accountID listingID qty now in
  if orders_check m d && bool_decide (d_orders d !! id = None)
  then Ok (tt, set_orders (<[id := m]> (d_orders d)) d)
  else Err ErrDB.

(** The account the bought shares are booked on. *)
Definition buyer_account (userID : Z) : M (option Z) :=
  own ← scan (fun d => fst <$> head (rows_by_id (fun r => bool_decide (r_status r = AKTIVAN) && owned userID r)
                                   (d_racun d)));
  match own with
  | Some id => mret (Some id)
  | None =>
      act ← isActuary userID;
      if act : bool then scan (fun d => fst <$> first_account ["USD"%string] poslovni d)
      else mret None
  end.

(** PERSON with bought shares: a DONE order to buy. *)
Definition commit_shares (r : InterbankReservation) : M unit :=
  match rv_AccountKind r, rv_AssetType r with
  | AccountKindPerson, Some AssetTypeStock =>
      if decimal.IsPositive (rv_Amount r) then
        match rv_ForeignID r, rv_AssetTicker r with
        | Some fid, Some ticker =>
            let userID := (ParseInt (fb_ID fid)).1 in
            listing ← scan_ticker ticker;
            account ← buyer_account userID;
            match listing, account with
            | Some l, Some a =>
                sql_insert_now (insert_done_buy userID a l (decimal.IntPart (rv_Amount r)))
            | _, _ => mret tt
            end
        | _, _ => throw Panic
        end
      else mret tt
  | _, _ => mret tt
  end.

(** OPTION with money received: the strike of an exercised option, for the seller
    of this bank. *)
Definition commit_strike (r : InterbankReservation) : M unit :=
  match rv_AccountKind r, rv_AssetType r, rv_ForeignID r with
  | AccountKindOption, Some AssetTypeMonas, Some fid =>
      if decimal.IsPositive (rv_Amount r) then
        c ← GetOptionContract fid;
        match c with
        | Some c =>
            if fb_RoutingNumber (oc_Seller c) =? ourRouting then
              let cur := default EmptyString (rv_AssetCurrency r) in
              acc ← resolvePersonAccount (fb_ID (oc_Seller c)) cur;
              match acc with
              | Some acc =>
                  conv ← try (convertForSettlement (rv_Amount r) cur (pa_Valuta acc));
                  let credited := match conv with Ok v => v | Err _ => rv_Amount r end in
                  sql (update_racun_number (pa_BrojRacuna acc) (add_stanje (decimal.String credited))) ;;
                  writeTxRow (pa_BrojRacuna acc) INTERBANK credited
              | None => mret tt
              end
            else mret tt
        | None => mret tt
        end
      else mret tt
  | _, _, _ => mret tt
  end.

(** OPTION with money or shares: the option is used up. *)
Definition commit_option (r : InterbankReservation) : M unit :=
  match rv_AccountKind r, rv_AssetType r with
  | AccountKindOption, (Some AssetTypeMonas | Some AssetTypeStock | None) =>
      match rv_ForeignID r with
      | Some fid =>
          now ← time_now;
          UpdateOptionContractStatus fid ContractExercised (Some now)
      | None => throw Panic
      end
  | _, _ => mret tt
  end.

Definition commit_reservation (r : InterbankReservation) : M unit :=
  commit_money r ;; commit_shares r ;; commit_strike r ;; commit_option r.

Definition Commit (ibTxID : Z) : M unit :=
  resvs ← ListReservationsByTx ibTxID;
  Store.Transaction (
    for_each resvs commit_reservation ;;
    UpdateTransactionStatus ibTxID TxStatusCommitted "COMMITTED").

(** ** Rollback *)

Definition release_money (r : InterbankReservation) : M unit :=
  match rv_AccountKind r, rv_AssetType r, rv_AccountNum r with
  | (AccountKindAccount | AccountKindPerson), Some AssetTypeMonas, Some num =>
      if decimal.IsNegative (rv_Amount r) then
        sql (update_racun_number num (drop_rezervisano (decimal.String (decimal.Abs (rv_Amount r))))) ;;
        mret tt
      else mret tt
  | _, _, _ => mret tt
  end.

Definition release_shares (r : InterbankReservation) : M unit :=
  match rv_AccountKind r, rv_AssetType r with
  | AccountKindPerson, Some AssetTypeStock =>
      if decimal.IsNegative (rv_Amount r) then
        match rv_ForeignID r, rv_AssetTicker r with
        | Some fid, Some ticker =>
            listing ← scan_ticker ticker;
            match listing with
            | Some l => sql_insert (insert_share l (ParseInt (fb_ID fid)).1
                                      (decimal.IntPart (decimal.Abs (rv_Amount r))))
            | None => mret tt
            end
        | _, _ => throw Panic
        end
      else mret tt
  | _, _ => mret tt
  end.

Definition release_reservation (r : InterbankReservation) : M unit :=
  if rv_Reserved r then release_money r ;; release_shares r else mret tt.

Definition Rollback (ibTxID : Z) : M unit :=
  resvs ← ListReservationsByTx ibTxID;
  Store.Transaction (
    for_each resvs release_reservation ;;
    UpdateTransactionStatus ibTxID TxStatusRolledBack "ROLLED_BACK").

End executor.
