(* ===== verification/InterbankCoordinator.v ===== *)
(** * The coordinator of interbank transactions ([service/transaction_coordinator.go])

    The initiating bank prepares its own postings, asks the other bank for its
    vote with NEW_TX, and on a YES commits and sends COMMIT_TX.  The other bank
    answers the messages in [HandleIncomingMessage].  An operation that returns a
    record together with an error returns both here. *)

From S2P Require Import Prelude Numeric Domain InterbankTables Store StoreFacts Market.
From S2P Require Import InterbankRepo InterbankExecutor.
#[local] Open Scope string_scope.
#[local] Open Scope Z_scope.

Section coordinator.
Context `{DL : decimal.Lib}.
Context (ourRoutingNumber peerRoutingNumber : Z) (accountPrefix : string).
Context (rates : option (M (list ExchangeRate))) (backoffDuration : Z).

#[local] Abbreviation prepare := (Prepare ourRoutingNumber accountPrefix rates).
#[local] Abbreviation commit := (Commit ourRoutingNumber rates).
#[local] Abbreviation send := (SendMessage backoffDuration).

Definition IsLocalAccount (brojRacuna : string) : bool :=
  negb (String.eqb brojRacuna EmptyString) && String.prefix accountPrefix brojRacuna.

(** The outcome of an operation that has created its record. *)
Definition outcome : Type := option error * InterbankTransaction.

Definition with_memory_status (s : InterbankTxStatus) (t : InterbankTransaction) : InterbankTransaction :=
  mkIbTx (ibtx_ID t) (InterbankRepo.with_tx_status s (it_CurrentStep (ibtx_Row t)) (ibtx_Row t)).

(** [setStatus]: the database, errors ignored, and the record in memory. *)
Definition setStatus (t : InterbankTransaction) (s : InterbankTxStatus) (step : string)
    : M InterbankTransaction :=
  try (UpdateTransactionStatus (ibtx_ID t) s step) ;; mret (with_memory_status s t).

(** [setStatus] followed by [return ibTx, err]. *)
Definition fail_with (t : InterbankTransaction) (s : InterbankTxStatus) (step : string) (er : error)
    : M outcome :=
  t' ← setStatus t s step; mret (Some er, t').

Definition new_key : M IdempotenceKey := k ← NewLocalKey; mret (mkKey ourRoutingNumber k).

(** The vote in an answer that was received. *)
Definition remote_vote (m : interbankMessageModel) : option Body :=
  match ml_Status m, ml_ResponsePayload m with
  | MsgStatusSent, Some b => Some b
  | _, _ => None
  end.

(** [EnqueueOutgoing] and [SendMessage] of a message whose fate is ignored. *)
Definition post_message (ty : MessageType) (body : Body) : M unit :=
  key ← new_key;
  row ← try (EnqueueOutgoing ty peerRoutingNumber key body);
  match row with
  | Ok row => try (send row) ;; mret tt
  | Err _ => mret tt
  end.

Record InterbankPaymentInput : Type := mkPaymentInput {
  ip_SenderUserID : Z;
  ip_SenderAccountID : Z;
  ip_RecipientAccountNo : string;
  ip_Amount : decimal.t;
  ip_Currency : string
}.

(** Step 0: the checks of the input. *)
Definition check_input (inp : InterbankPaymentInput) : result unit :=
  if ip_SenderAccountID inp <=? 0 then Err (ErrMsg "interbank payment: SenderAccountID je obavezan")
  else if String.eqb (ip_RecipientAccountNo inp) EmptyString
  then Err (ErrMsg "interbank payment: broj racuna primaoca je obavezan")
  else if decimal.LessThanOrEqual (ip_Amount inp) decimal.Zero
  then Err (ErrMsg "interbank payment: iznos mora biti veci od 0")
  else if String.eqb (ip_Currency inp) EmptyString
  then Err (ErrMsg "interbank payment: valuta je obavezna")
  else Ok tt.

Definition sender_account (inp : InterbankPaymentInput) (d : DB) : option (string * string) :=
  match d_racun d !! ip_SenderAccountID inp with
  | Some r =>
      if (r_id_vlasnika r =? ip_SenderUserID inp) && negb (String.eqb (r_broj_racuna r) EmptyString)
      then Some (r_broj_racuna r, r_oznaka r) else None
  | None => None
  end.

Definition money_posting (num : string) (amount : decimal.t) (currency : string) : Posting decimal.t :=
  mkPosting (AccountNumber (Some num)) amount (AssetMonas (Some currency)).

Definition payment_postings (senderNum : string) (inp : InterbankPaymentInput) : list (Posting decimal.t) :=
  [money_posting senderNum (decimal.Neg (ip_Amount inp)) (ip_Currency inp);
   money_posting (ip_RecipientAccountNo inp) (ip_Amount inp) (ip_Currency inp)].

Definition ptrInt64 (v : Z) : option Z := if v =? 0 then None else Some v.

(** Steps 3 to 5: the record exists and is prepared. *)
Definition payment_phase2 (t : InterbankTransaction) (txID : ForeignBankId) (payload : Body) : M outcome :=
  key ← new_key;
  logRow ← try (EnqueueOutgoing MessageNewTx peerRoutingNumber key payload);
  match logRow with
  | Err er =>
      try (Rollback (ibtx_ID t)) ;; fail_with t TxStatusFailed "ENQUEUE_NEW_TX" er
  | Ok logRow =>
      '(sendErr, logRow) ← send logRow;
      match sendErr with
      | Some er => try (Rollback (ibtx_ID t)) ;; fail_with t TxStatusFailed "SEND_NEW_TX" er
      | None =>
          match remote_vote (im_Row logRow) with
          | None => fail_with t TxStatusFailed "AWAITING_REMOTE_VOTE"
                      (ErrMsg "interbank payment: druga banka jos nije izglasala")
          | Some body =>
              match unmarshal_vote body with
              | None =>
                  try (Rollback (ibtx_ID t)) ;;
                  fail_with t TxStatusFailed "PARSE_REMOTE_VOTE" (ErrMsg "nevalidan glas")
              | Some vote =>
                  if decide (v_Vote vote = VoteNo) then
                    try (Rollback (ibtx_ID t)) ;;
                    fail_with t TxStatusRolledBack "REMOTE_VOTE_NO"
                      (ErrMsg "interbank payment: druga banka odbila")
                  else
                    committed ← try (commit (ibtx_ID t));
                    match committed with
                    | Err er => fail_with t TxStatusFailed "LOCAL_COMMIT" er
                    | Ok _ =>
                        post_message MessageCommitTx (BodyId txID) ;;
                        t' ← setStatus t TxStatusCommitted "COMMITTED"; mret (None, t')
                    end
              end
          end
      end
  end.

(** An error before the record exists is an error of the whole operation. *)
Definition InitiateInterbankPayment (inp : InterbankPaymentInput) : M outcome :=
  of_result (check_input inp) ;;
  senderAccount ← scan (sender_account inp);
  match senderAccount with
  | None => throw (ErrMsg "interbank payment: posiljaocev racun nije pronadjen")
  | Some (senderNum, valuta) =>
      if negb (String.eqb valuta (ip_Currency inp))
      then throw (ErrMsg "interbank payment: valuta racuna posiljaoca ne odgovara")
      else
        localKey ← NewLocalKey;
        let txID := mkFid ourRoutingNumber localKey in
        let transaction := mkTx (payment_postings senderNum inp) txID in
        payload ← of_result (MarshalTransaction transaction);
        t ← CreateTransaction (mkTxModel txID TxRoleCoordinator TxStatusNew "PREPARING_LOCAL" payload
              (ptrInt64 (ip_SenderUserID inp)) (ptrInt64 (ip_SenderAccountID inp)));
        vote ← try (prepare (ibtx_ID t) transaction);
        match vote with
        | Err er => fail_with t TxStatusFailed "LOCAL_PREPARE_ERROR" er
        | Ok vote =>
            if decide (v_Vote vote = VoteNo) then
              fail_with t TxStatusFailed "LOCAL_PREPARE_NO"
                (ErrMsg "interbank payment: lokalna priprema vraca NO")
            else
              t' ← setStatus t TxStatusPrepared "LOCAL_PREPARED";
              payment_phase2 t' txID payload
        end
  end.

(** ** Any transaction *)

Definition posting_remote (p : Posting decimal.t) : bool :=
  match p_Account p with
  | AccountNumber (Some num) => negb (String.prefix accountPrefix num)
  | AccountPerson (Some id) | AccountOption (Some id) => negb (fb_RoutingNumber id =? ourRoutingNumber)
  | _ => false
  end.

Definition transactionHasRemote (tx : Transaction_ decimal.t) : bool :=
  existsb posting_remote (tx_Postings tx).

(** [repo.UpdateTransactionStatus], errors ignored, and [return ibTx, err]. *)
Definition stop_with (t : InterbankTransaction) (s : InterbankTxStatus) (step : string) (er : error)
    : M outcome :=
  try (UpdateTransactionStatus (ibtx_ID t) s step) ;; mret (Some er, t).

Definition transaction_phase2 (t : InterbankTransaction) (txID : ForeignBankId) (payload : Body)
    : M outcome :=
  key ← new_key;
  logRow ← try (EnqueueOutgoing MessageNewTx peerRoutingNumber key payload);
  match logRow with
  | Err er => try (Rollback (ibtx_ID t)) ;; stop_with t TxStatusFailed "ENQUEUE_NEW_TX" er
  | Ok logRow =>
      '(sendErr, logRow) ← send logRow;
      match sendErr with
      | Some er => try (Rollback (ibtx_ID t)) ;; stop_with t TxStatusFailed "SEND_NEW_TX" er
      | None =>
          match remote_vote (im_Row logRow) with
          | None => stop_with t TxStatusFailed "AWAITING_REMOTE_VOTE"
                      (ErrMsg "interbank tx: druga banka jos nije izglasala")
          | Some body =>
              match unmarshal_vote body with
              | None =>
                  try (Rollback (ibtx_ID t)) ;;
                  stop_with t TxStatusFailed "PARSE_REMOTE_VOTE" (ErrMsg "nevalidan glas")
              | Some vote =>
                  if decide (v_Vote vote = VoteNo) then
                    try (Rollback (ibtx_ID t)) ;;
                    post_message MessageRollbackTx (BodyId txID) ;;
                    stop_with t TxStatusRolledBack "REMOTE_VOTE_NO"
                      (ErrMsg "interbank tx: druga banka odbila")
                  else
                    committed ← try (commit (ibtx_ID t));
                    match committed with
                    | Err er => stop_with t TxStatusFailed "LOCAL_COMMIT" er
                    | Ok _ =>
                        post_message MessageCommitTx (BodyId txID) ;;
                        try (UpdateTransactionStatus (ibtx_ID t) TxStatusCommitted "COMMITTED") ;;
                        mret (None, with_memory_status TxStatusCommitted t)
                    end
              end
          end
      end
  end.

Definition InitiateInterbankTransaction (transaction : Transaction_ decimal.t) (initiatorUserID : option Z)
    : M outcome :=
  payload ← of_result (MarshalTransaction transaction);
  t ← CreateTransaction (mkTxModel (tx_TransactionID transaction) TxRoleCoordinator TxStatusNew
        "PREPARING_LOCAL" payload initiatorUserID None);
  vote ← try (prepare (ibtx_ID t) transaction);
  match vote with
  | Err er => stop_with t TxStatusFailed "LOCAL_PREPARE_ERROR" er
  | Ok vote =>
      if decide (v_Vote vote = VoteNo) then
        stop_with t TxStatusFailed "LOCAL_PREPARE_NO" (ErrMsg "interbank tx: lokalna priprema vraca NO")
      else
        try (UpdateTransactionStatus (ibtx_ID t) TxStatusPrepared "LOCAL_PREPARED") ;;
        if negb (transactionHasRemote transaction) then
          committed ← try (commit (ibtx_ID t));
          match committed with
          | Err er => stop_with t TxStatusFailed "LOCAL_COMMIT" er
          | Ok _ => mret (None, with_memory_status TxStatusCommitted t)
          end
        else transaction_phase2 t (tx_TransactionID transaction) payload
  end.

(** ** Incoming messages *)

(** The HTTP status, the body and the error, if any. *)
Record reply : Type := mkReply { rp_Code : Z; rp_Body : option Body; rp_Err : option error }.

Definition ok_reply (code : Z) (body : option Body) : reply := mkReply code body None.
Definition err_reply (code : Z) (er : error) : reply := mkReply code None (Some er).

(** The record of a NEW_TX: the one that exists, an error of the query counting
    as none, or a new one. *)
Definition participant_tx (tx : Transaction_ decimal.t) (payload : Body) : M InterbankTransaction :=
  existing ← try (GetTransactionByForeignID (tx_TransactionID tx));
  match existing with
  | Ok (Some t) => mret t
  | _ => CreateTransaction (mkTxModel (tx_TransactionID tx) TxRoleParticipant TxStatusNew
           "PARTICIPANT_PREPARING" payload None None)
  end.

(** The branches of the dispatch; [inr] leaves the handler at once, [inl] is an
    answer that is remembered. *)
Definition handle_new_tx (msg : InterbankMessage) : M (Z * option Body + reply) :=
  match UnmarshalTransaction (im_Message msg) with
  | None => mret (inr (err_reply 400 (ErrMsg "nevalidan NEW_TX payload")))
  | Some tx =>
      t ← try (participant_tx tx (im_Message msg));
      match t with
      | Err er => mret (inr (err_reply 500 er))
      | Ok t =>
          vote ← try (prepare (ibtx_ID t) tx);
          match vote with
          | Err er =>
              try (UpdateTransactionStatus (ibtx_ID t) TxStatusFailed "PREPARE_ERROR") ;;
              mret (inr (err_reply 500 er))
          | Ok vote =>
              (if decide (v_Vote vote = VoteYes)
               then try (UpdateTransactionStatus (ibtx_ID t) TxStatusPrepared "PREPARED")
               else try (UpdateTransactionStatus (ibtx_ID t) TxStatusFailed "VOTE_NO")) ;;
              mret (inl (200, Some (BodyVote vote)))
          end
      end
  end.

Definition handle_commit_tx (msg : InterbankMessage) : M (Z * option Body + reply) :=
  match unmarshal_id (im_Message msg) with
  | None => mret (inr (err_reply 400 (ErrMsg "nevalidan COMMIT_TX payload")))
  | Some id =>
      t ← try (GetTransactionByForeignID id);
      match t with
      | Err er => mret (inr (err_reply 500 er))
      | Ok None => mret (inr (err_reply 404 (ErrMsg "transakcija nije pronadjena")))
      | Ok (Some t) =>
          if decide (it_Status (ibtx_Row t) = TxStatusCommitted) then mret (inl (204, None))
          else
            r ← try (commit (ibtx_ID t));
            match r with
            | Err er =>
                try (UpdateTransactionStatus (ibtx_ID t) TxStatusFailed "COMMIT_ERROR") ;;
                mret (inr (err_reply 500 er))
            | Ok _ => mret (inl (204, None))
            end
      end
  end.

Definition handle_rollback_tx (msg : InterbankMessage) : M (Z * option Body + reply) :=
  match unmarshal_id (im_Message msg) with
  | None => mret (inr (err_reply 400 (ErrMsg "nevalidan ROLLBACK_TX payload")))
  | Some id =>
      t ← try (GetTransactionByForeignID id);
      match t with
      | Err er => mret (inr (err_reply 500 er))
      | Ok None => mret (inl (204, None))
      | Ok (Some t) =>
          if decide (it_Status (ibtx_Row t) = TxStatusRolledBack) then mret (inl (204, None))
          else
            r ← try (Rollback (ibtx_ID t));
            match r with
            | Err er =>
                try (UpdateTransactionStatus (ibtx_ID t) TxStatusFailed "ROLLBACK_ERROR") ;;
                mret (inr (err_reply 500 er))
            | Ok _ => mret (inl (204, None))
            end
      end
  end.

Definition dispatch (msg : InterbankMessage) : M (Z * option Body + reply) :=
  match im_MessageType msg with
  | MessageNewTx => handle_new_tx msg
  | MessageCommitTx => handle_commit_tx msg
  | MessageRollbackTx => handle_rollback_tx msg
  | OtherMessage _ => mret (inr (err_reply 400 (ErrMsg "nepoznat messageType")))
  end.

Definition remembered (m : interbankMessageModel) : reply :=
  ok_reply (default 200 (ml_ResponseStatusCode m)) (ml_ResponsePayload m).

Definition HandleIncomingMessage (msg : InterbankMessage) : M reply :=
  let key := k_LocallyGeneratedKey (im_IdempotenceKey msg) in
  if String.eqb key EmptyString || negb (varchar 64 key)
  then mret (err_reply 400 (ErrMsg "idempotenceKey nedostaje ili je predugacak"))
  else
    prev ← try (LookupIncomingResponse (im_IdempotenceKey msg));
    match prev with
    | Err er => mret (err_reply 500 er)
    | Ok (Some prev) => mret (remembered (im_Row prev))
    | Ok None =>
        row ← try (RecordIncoming msg);
        match row with
        | Err er => mret (err_reply 500 er)
        | Ok row =>
            answer ← dispatch msg;
            match answer with
            | inr r => mret r
            | inl (code, body) =>
                try (FinishIncoming row code body) ;; mret (ok_reply code body)
            end
        end
    end.

End coordinator.
