(* ===== verification/InterbankFacts.v ===== *)
(** * Reasoning about the interbank tables

    [triple P m Q]: a run of [m] from an interbank state that satisfies [P] ends,
    whatever fails and whatever the database and the other bank answer, in a
    result and an interbank state that satisfy [Q].  The interbank state of a bank
    ([view]) is its interbank tables with the messages it has sent; statements on
    the other tables, and the rollback of a transaction, leave it alone. *)

From S2P Require Import Prelude Numeric Domain InterbankTables Store StoreFacts OrderRepo Market.
From S2P Require Import FundsManager InterbankRepo InterbankExecutor.
From stdpp Require Import list sorting.
From S2P Require Import DecimalModel.
From stdpp Require Import list pretty.
From Stdlib Require Import Lqa Ascii.
#[local] Open Scope Z_scope.

Definition view : Type := IbDB * list InterbankMessage.
Definition ib_view (w : World) : view := (w_ib w, w_sent w).

Definition triple {A} (P : view -> Prop) (m : M A) (Q : result A -> view -> Prop) : Prop :=
  forall e w r w', P (ib_view w) -> m e w = (r, w') -> Q r (ib_view w').

(** ** Rules *)

Section rules.
Context {A B : Type}.
Implicit Types (P : view -> Prop).

Lemma triple_weaken P (m : M A) (Q Q' : result A -> view -> Prop) :
  triple P m Q -> (forall r v, Q r v -> Q' r v) -> triple P m Q'.
Proof. intros Hm HQ e w r w' HP H. apply HQ. by eapply Hm. Qed.

Lemma triple_pre P P' (m : M A) Q : (forall v, P' v -> P v) -> triple P m Q -> triple P' m Q.
Proof. intros HP Hm e w r w' H. apply Hm. by apply HP. Qed.

Lemma triple_pure (p : Prop) P (m : M A) Q : (p -> triple P m Q) -> triple (fun v => p /\ P v) m Q.
Proof. intros Hm e w r w' [Hp HP]. by apply Hm. Qed.

Lemma triple_ret (a : A) P : triple P (mret a) (fun r v => r = Ok a /\ P v).
Proof. intros e w r w' HP [= <- <-]. done. Qed.

Lemma triple_bind P (m : M A) (k : A -> M B) Q Q' :
  triple P m Q ->
  (forall a, triple (Q (Ok a)) (k a) Q') ->
  (forall er v, Q (Err er) v -> Q' (Err er) v) ->
  triple P (x ← m; k x) Q'.
Proof.
  intros Hm Hk He e w r w' HP H.
  apply bind_cases in H as [(a & w1 & H1 & H2)|(er & -> & H)].
  - eapply Hk; [by eapply Hm|exact H2].
  - apply He. by eapply Hm.
Qed.

Lemma triple_try P (m : M A) Q :
  triple P m Q -> triple P (try m) (fun r v => exists r0, r = Ok r0 /\ Q r0 v).
Proof. intros Hm e w r w' HP (r0 & -> & H)%try_run. exists r0. split; [done|]. by eapply Hm. Qed.

(** What follows a [try] sees its result. *)
Lemma triple_try_bind P (m : M A) (k : result A -> M B) Q Q' :
  triple P m Q -> (forall r, triple (Q r) (k r) Q') -> triple P (x ← try m; k x) Q'.
Proof. intros Hm Hk e w r w' HP (r0 & w1 & H1 & H2)%try_bind. eapply Hk; [by eapply Hm|done]. Qed.

Lemma triple_sql_ib P (f : IbDB -> result (A * IbDB)) Q :
  (forall d s a d', P (d, s) -> f d = Ok (a, d') -> Q (Ok a) (d', s)) ->
  (forall v, P v -> forall er, Q (Err er) v) ->
  triple P (sql_ib f) Q.
Proof.
  intros Hf He e w r w' HP. unfold sql_ib.
  destruct (env_fault e (w_step w)); [intros [= <- <-]; by apply He|].
  destruct (f (w_ib w)) as [[a d]|er] eqn:E; intros [= <- <-]; [by eapply Hf|by apply He].
Qed.

Lemma triple_sql_ib_insert P (f : Z -> IbDB -> result (A * IbDB)) Q :
  (forall i d s a d', P (d, s) -> f i d = Ok (a, d') -> Q (Ok a) (d', s)) ->
  (forall v, P v -> forall er, Q (Err er) v) ->
  triple P (sql_ib_insert f) Q.
Proof. intros Hf He e w r w' HP H. exact (triple_sql_ib P _ Q (Hf _) He e (next_seq w) r w' HP H). Qed.
End rules.

(** [inv I m]: [I] holds after [m] when it holds before. *)
Abbreviation inv I m := (triple I m (fun _ => I)) (only parsing).

Section invariants.
Context (I : view -> Prop).

Lemma inv_ret {A} (a : A) : inv I (mret a).
Proof. by intros e w r w' HI [= _ <-]. Qed.
Lemma inv_throw {A} er : inv I (@throw A er).
Proof. by intros e w r w' HI [= _ <-]. Qed.
Lemma inv_of_result {A} (r : result A) : inv I (of_result r).
Proof. destruct r; [apply inv_ret|apply inv_throw]. Qed.
Lemma inv_bind {A B} (m : M A) (k : A -> M B) :
  inv I m -> (forall a, inv I (k a)) -> inv I (x ← m; k x).
Proof. intros Hm Hk. by eapply triple_bind. Qed.
Lemma inv_try {A} (m : M A) : inv I m -> inv I (try m).
Proof. intros Hm e w r w' HI (r0 & _ & H)%try_run. by eapply Hm. Qed.
Lemma inv_io {A} (f : Env -> nat -> result A) : inv I (io f).
Proof. by intros e w r w' HI [= _ <-]. Qed.
Lemma inv_sql {A} (f : DB -> result (A * DB)) : inv I (sql f).
Proof.
  intros e w r w' HI. unfold sql.
  destruct (w_aborted w); [by intros [= _ <-]|]. destruct (env_fault _ _); [by intros [= _ <-]|].
  by destruct (f (w_db w)) as [[a d]|er]; intros [= _ <-].
Qed.
Lemma inv_sql_read {A} (f : DB -> A) : inv I (sql_read f).
Proof. apply inv_sql. Qed.
Lemma inv_sql_insert {A} (f : Z -> DB -> result (A * DB)) : inv I (sql_insert f).
Proof. intros e w r w' HI. exact (inv_sql _ e (next_seq w) r w' HI). Qed.
Lemma inv_sql_insert_now {A} (f : Z -> Z -> DB -> result (A * DB)) : inv I (sql_insert_now f).
Proof. intros e w r w' HI. exact (inv_sql_insert _ e w r w' HI). Qed.
Lemma inv_sql_ticker {A} t (f : option Z -> DB -> result (A * DB)) : inv I (sql_ticker t f).
Proof. intros e w r w' HI. exact (inv_sql _ e w r w' HI). Qed.
Lemma inv_for_each {A} (l : list A) (body : A -> M unit) :
  (forall x, x ∈ l -> inv I (body x)) -> inv I (for_each l body).
Proof.
  induction l as [|x l IH]; intros H; cbn [for_each]; [apply inv_ret|].
  apply inv_bind; [apply H; set_solver|intros _; apply IH; set_solver].
Qed.
(** A query that leaves the tables as they are. *)
Lemma inv_sql_ib_read {A} (f : IbDB -> result (A * IbDB)) :
  (forall d a d', f d = Ok (a, d') -> d' = d) -> inv I (sql_ib f).
Proof. intros Hf. apply triple_sql_ib; [|done]. intros d s a d' HI H. by rewrite (Hf _ _ _ H). Qed.
End invariants.

(** The interbank tables survive the rollback of the transaction around. *)
Lemma triple_Transaction {A} P (m : M A) Q :
  triple P m Q -> (forall r er v, Q r v -> Q (Err er) v) -> (forall er v, P v -> Q (Err er) v) ->
  triple P (Transaction m) Q.
Proof.
  intros Hm HQ HP e w r w' Hv. unfold Transaction.
  destruct (w_aborted w || env_fault e (w_step w)); [intros [= <- <-]; by apply HP|].
  destruct (m e (begin_tx w)) as [[a|er] w1] eqn:E; pose proof (Hm _ (begin_tx w) _ _ Hv E) as H1.
  - destruct (w_depth w); [destruct (w_aborted w1 || env_fault e (w_step w1))|];
      intros [= <- <-]; [by eapply (HQ (Ok a))|done..].
  - intros [= <- <-]. done.
Qed.

Lemma inv_Transaction {A} I (m : M A) : inv I m -> inv I (Transaction m).
Proof. intros Hm. by apply triple_Transaction. Qed.

Create HintDb inv.

Ltac solve_inv_step :=
  match goal with
  | |- triple _ (mret _) _ => apply inv_ret
  | |- triple _ (throw _) _ => apply inv_throw
  | |- triple _ (of_result _) _ => apply inv_of_result
  | |- triple _ (mbind _ _) _ => apply inv_bind; [|intros ?]
  | |- triple _ (try _) _ => apply inv_try
  | |- triple _ (io _) _ => apply inv_io
  | |- triple _ time_now _ => apply inv_io
  | |- triple _ NewLocalKey _ => apply inv_io
  | |- triple _ (sql_read _) _ => apply inv_sql_read
  | |- triple _ (sql _) _ => apply inv_sql
  | |- triple _ (sql_insert _) _ => apply inv_sql_insert
  | |- triple _ (sql_insert_now _) _ => apply inv_sql_insert_now
  | |- triple _ (sql_ticker _ _) _ => apply inv_sql_ticker
  | |- triple _ (Transaction _) _ => apply inv_Transaction
  | |- triple _ (for_each _ _) _ => apply inv_for_each; intros ? ?
  | |- triple _ _ _ => solve [eauto with inv]
  | |- triple _ (match ?x with _ => _ end) _ => destruct x
  | |- triple _ (let _ := _ in _) _ => cbv zeta
  end.
Ltac solve_inv := repeat solve_inv_step.

(** ** Queries *)

Section queries.
Context (I : view -> Prop).

Lemma inv_GetIncoming key : inv I (GetIncomingByIdempotence key).
Proof. apply inv_sql_ib_read. by intros d a d' [= _ <-]. Qed.
Lemma inv_GetTransaction fid : inv I (GetTransactionByForeignID fid).
Proof. apply inv_sql_ib_read. by intros d a d' [= _ <-]. Qed.
Lemma inv_GetOptionContract fid : inv I (GetOptionContract fid).
Proof. apply inv_sql_ib_read. by intros d a d' [= _ <-]. Qed.
Lemma inv_ListReservations `{DL : decimal.Lib} id : inv I (ListReservationsByTx id).
Proof.
  apply inv_sql_ib_read. intros d a d'. destruct (mapM _ _); [|discriminate]. by intros [= _ <-].
Qed.
Lemma inv_scan {A} (f : DB -> option A) : inv I (scan f).
Proof. unfold scan. solve_inv. Qed.
Lemma inv_scan_ticker t : inv I (scan_ticker t).
Proof. unfold scan_ticker. solve_inv. Qed.
Lemma inv_isActuary uid : inv I (isActuary uid).
Proof. unfold isActuary. solve_inv. Qed.
End queries.

#[export] Hint Resolve inv_GetIncoming inv_GetTransaction inv_GetOptionContract inv_ListReservations
  inv_scan inv_scan_ticker inv_isActuary : inv.

(** ** The executor

    It writes reservations, option contracts and the status of its transaction:
    an invariant that ignores the first two is kept, up to the status. *)

(** [I] does not depend on the reservations and the contracts. *)
Class Frame (I : view -> Prop) : Prop := frame : forall d s d',
  I (d, s) -> ib_messages d' = ib_messages d -> ib_txs d' = ib_txs d -> I (d', s).

Section executor.
Context `{DL : decimal.Lib}.
Context (ourRouting : Z) (accountPrefix : string) (rates : option (M (list ExchangeRate))).
Context (I : view -> Prop) `{HI : !Frame I}.
Context (Hrates : forall src, rates = Some src -> inv I src).

Lemma inv_CreateReservation x : inv I (CreateReservation x).
Proof.
  unfold CreateReservation. apply inv_bind; [solve_inv|intros _]. apply triple_sql_ib_insert; [|done].
  intros i d s a d' H. unfold insert_reservation.
  destruct (resvFromDomain x), (ib_txs d !! rv_TransactionID x); try discriminate.
  destruct (insert_row _ _ _); [|discriminate]. intros [= _ <-]. by eapply frame.
Qed.

Lemma inv_UpdateContract fid st at_ : inv I (UpdateOptionContractStatus fid st at_).
Proof.
  unfold UpdateOptionContractStatus. apply inv_bind; [solve_inv|intros _].
  apply triple_sql_ib; [|done]. intros d s a d' H [= _ <-]. by eapply frame.
Qed.

Lemma inv_resolvePersonAccount id c : inv I (resolvePersonAccount id c).
Proof. unfold resolvePersonAccount. destruct (ParseInt id) as [uid ok]. solve_inv. Qed.

Lemma inv_convert amount c1 c2 : inv I (convertForSettlement rates amount c1 c2).
Proof.
  unfold convertForSettlement. destruct (String.eqb c1 c2); [solve_inv|].
  destruct rates as [src|] eqn:E; [|solve_inv]. apply inv_bind; [by apply Hrates|intros l]. solve_inv.
Qed.

Lemma inv_decrement uid t n : inv I (decrementPublicShares uid t n).
Proof.
  unfold decrementPublicShares. apply inv_bind; [solve_inv|]. intros rows.
  apply inv_bind; [|intros r; solve_inv].
  revert n. induction rows as [|row rows IH]; intros n; cbn [decrement_loop]; [solve_inv|].
  destruct (n <=? 0); [solve_inv|]. cbv zeta. apply inv_bind; [solve_inv|intros _; apply IH].
Qed.

Lemma inv_writeTxRow num tip amount : inv I (writeTxRow num tip amount).
Proof. unfold writeTxRow. solve_inv. Qed.

#[local] Hint Resolve inv_CreateReservation inv_UpdateContract inv_resolvePersonAccount inv_convert
  inv_decrement inv_writeTxRow : inv.

Lemma inv_validatePosting p : inv I (validatePosting rates p).
Proof.
  unfold validatePosting, validate_account, validate_person_money, validate_person_stock, published,
    validate_option. solve_inv.
Qed.

Lemma inv_reservePosting id i p : inv I (reservePosting rates id i p).
Proof.
  unfold reservePosting, reserve_debit, reserve_money.
  destruct (reservation_of id i p); [|solve_inv]. solve_inv.
Qed.

#[local] Hint Resolve inv_validatePosting inv_reservePosting : inv.

Lemma inv_collect ps : inv I (collect_reasons ourRouting accountPrefix rates ps).
Proof.
  induction ps as [|p ps IH]; cbn [collect_reasons]; [solve_inv|].
  apply inv_bind; [solve_inv|]. intros []; [|exact IH].
  apply inv_bind; [solve_inv|]. intros r. apply inv_bind; [exact IH|]. intros. solve_inv.
Qed.

Lemma inv_reserve_all id i ps : inv I (reserve_all ourRouting accountPrefix rates id i ps).
Proof.
  revert i. induction ps as [|p ps IH]; intros i; cbn [reserve_all]; [solve_inv|].
  apply inv_bind; [solve_inv|]. intros _. apply IH.
Qed.

Lemma inv_Prepare id tx : inv I (Prepare ourRouting accountPrefix rates id tx).
Proof.
  unfold Prepare. destruct (negb _); [solve_inv|]. apply inv_bind; [apply inv_collect|].
  intros []; [|solve_inv]. apply inv_bind; [|intros; solve_inv].
  apply inv_try, inv_Transaction, inv_reserve_all.
Qed.

Lemma inv_commit_reservation r : inv I (commit_reservation ourRouting rates r).
Proof.
  unfold commit_reservation, commit_money, commit_shares, buyer_account, commit_strike, commit_option.
  solve_inv.
Qed.

Lemma inv_release_reservation r : inv I (release_reservation r).
Proof. unfold release_reservation, release_money, release_shares. solve_inv. Qed.

(** The status update is the only write to the transaction. *)
Lemma inv_Rollback id :
  inv I (UpdateTransactionStatus id TxStatusRolledBack "ROLLED_BACK") -> inv I (Rollback id).
Proof.
  intros Hs. unfold Rollback. apply inv_bind; [solve_inv|]. intros rs. apply inv_Transaction.
  apply inv_bind; [|done]. apply inv_for_each. intros. apply inv_release_reservation.
Qed.

Lemma triple_Commit id (J : view -> Prop) :
  triple I (UpdateTransactionStatus id TxStatusCommitted "COMMITTED")
    (fun r v => I v /\ (is_ok r = true -> J v)) ->
  triple I (Commit ourRouting rates id) (fun r v => I v /\ (is_ok r = true -> J v)).
Proof.
  intros Hs. unfold Commit. eapply triple_bind; [apply inv_ListReservations| |by split].
  intros rs. apply triple_Transaction; [|by intros ?? v [? _]|by split].
  eapply triple_bind; [apply inv_for_each; intros; apply inv_commit_reservation|done|by split].
Qed.
End executor.

(** ** The balance check of an interbank transaction ([isBalanced], [assetKey])

    The code sums the amounts in a map keyed by a text built from the asset.  For
    a transaction read from a message the check holds exactly when every asset,
    identified by its currency, ticker or negotiation, sums to zero: the texts of
    different assets never coincide. *)
#[local] Open Scope string_scope.
#[local] Open Scope Z_scope.

(** ** The text of an integer holds no colon *)

Fixpoint colon_free (s : string) : bool :=
  match s with
  | EmptyString => true
  | String c s' => negb (Ascii.eqb c ":"%char) && colon_free s'
  end.

Lemma pretty_N_go_colon x s : colon_free s = true -> colon_free (pretty_N_go x s) = true.
Proof.
  revert s. induction (N.lt_wf_0 x) as [x _ IH]; intros s Hs.
  destruct (decide (x = 0%N)) as [->|Hx]; [by rewrite pretty_N_go_0|].
  rewrite pretty_N_go_step by lia. apply IH; [apply N.div_lt; lia|]. cbn [colon_free].
  rewrite Hs, andb_true_r. unfold pretty_N_char. by repeat case_match.
Qed.

Lemma pretty_N_colon x : colon_free (pretty (x : N)) = true.
Proof. unfold pretty, pretty_N. case_decide; [done|]. by apply pretty_N_go_colon. Qed.

Lemma pretty_Z_colon x : colon_free (pretty (x : Z)) = true.
Proof.
  destruct x; [done|exact (pretty_N_colon (Npos _))|]. exact (pretty_N_colon (Npos _)).
Qed.

Lemma split_colon s1 s2 t1 t2 :
  colon_free s1 = true -> colon_free s2 = true -> s1 +:+ (":" +:+ t1) = s2 +:+ (":" +:+ t2) ->
  s1 = s2 /\ t1 = t2.
Proof.
  revert s2. induction s1 as [|c s1 IH]; intros [|c2 s2]; cbn; intros H1 H2 Heq.
  - by injection Heq.
  - injection Heq as <- _. discriminate H2.
  - injection Heq as -> _. discriminate H1.
  - apply andb_prop in H1 as [_ H1], H2 as [_ H2]. injection Heq as -> Heq.
    destruct (IH s2 H1 H2 Heq) as [-> ->]. done.
Qed.

(** ** Assets and their keys *)

Inductive assetId : Type :=
  | IdMoney (currency : string)
  | IdStock (ticker : string)
  | IdOption (negotiation : ForeignBankId).
#[export] Instance assetId_eq_dec : EqDecision assetId.
Proof. solve_decision. Defined.

(** The asset itself; none for a nil variant or an unknown type. *)
Definition asset_id {A} (a : Asset A) : option assetId :=
  match a with
  | AssetMonas c => IdMoney <$> c
  | AssetStock t => IdStock <$> t
  | AssetOption o => (fun o => IdOption (od_NegotiationID o)) <$> o
  | OtherAsset _ => None
  end.

Definition id_key (i : assetId) : string :=
  match i with
  | IdMoney c => "MONAS:" +:+ c
  | IdStock t => "STOCK:" +:+ t
  | IdOption n => "OPTION:" +:+ pretty (fb_RoutingNumber n) +:+ ":" +:+ fb_ID n
  end.

#[export] Instance id_key_inj : Inj (=) (=) id_key.
Proof.
  intros [c|t|[r i]] [c2|t2|[r2 i2]]; cbn; try discriminate; intros [= H]; [change (c = c2) in H; congruence|change (t = t2) in H; congruence|].
  change (pretty r +:+ (":" +:+ i) = pretty r2 +:+ (":" +:+ i2)) in H.
  apply (split_colon _ _ i i2) in H as [Hr ->]; [|apply pretty_Z_colon..].
  apply (inj pretty) in Hr as ->. done.
Qed.

Section balance.
Context `{DL : decimal.Lib} {L : decimal.Laws DL}.

Lemma assetKey_id (a : Asset decimal.t) i : asset_id a = Some i -> assetKey a = id_key i.
Proof. destruct a as [[c|]|[t|]|[o|]|ty]; cbn; try discriminate; by intros [= <-]. Qed.

(** The sum of the amounts of the postings that satisfy [P]. *)
Fixpoint amount_of (P : Asset decimal.t -> bool) (ps : list (Posting decimal.t)) : Q :=
  match ps with
  | [] => 0
  | p :: ps' => (if P (p_Asset p) then decimal.val (p_Amount p) else 0) + amount_of P ps'
  end.

Lemma amount_of_ext P1 P2 ps :
  (forall p, p ∈ ps -> P1 (p_Asset p) = P2 (p_Asset p)) -> amount_of P1 ps = amount_of P2 ps.
Proof.
  induction ps as [|p ps IH]; intros H; [done|]. cbn. rewrite (H p), IH; set_solver.
Qed.

Definition sum_at (sums : gmap string decimal.t) (key : string) : Q :=
  decimal.val (default decimal.Zero (sums !! key)).

Lemma add_postings_sum ps : forall sums key,
  (sum_at (add_postings ps sums) key ==
   sum_at sums key + amount_of (fun a => String.eqb (assetKey a) key) ps)%Q.
Proof.
  induction ps as [|p ps IH]; intros sums key; cbn; [ring|].
  rewrite IH. unfold sum_at at 1. destruct (String.eqb_spec (assetKey (p_Asset p)) key) as [->|Hne].
  - rewrite lookup_insert_eq. cbn. rewrite decimal.val_Add. unfold sum_at. ring.
  - rewrite lookup_insert_ne by done. unfold sum_at. ring.
Qed.

Lemma isBalanced_keys ps :
  isBalanced ps = true <-> forall key, (amount_of (fun a => String.eqb (assetKey a) key) ps == 0)%Q.
Proof.
  assert (Hsum : forall key, (sum_at (add_postings ps ∅) key ==
                              amount_of (fun a => String.eqb (assetKey a) key) ps)%Q).
  { intros key. rewrite add_postings_sum. unfold sum_at. rewrite lookup_empty. cbn.
    rewrite decimal.val_Zero. ring. }
  unfold isBalanced. rewrite forallb_forall. split.
  - intros H key. rewrite <- Hsum. unfold sum_at.
    destruct (add_postings ps ∅ !! key) as [v|] eqn:Hv; [|apply decimal.val_Zero].
    apply decimal.IsZero_spec, (H (key, v)). by apply list_elem_of_In, elem_of_map_to_list.
  - intros H [key v] Hin%list_elem_of_In%elem_of_map_to_list. apply decimal.IsZero_spec.
    rewrite <- (H key), <- Hsum. unfold sum_at. cbn in *. by rewrite Hin.
Qed.

(** A transaction read from a text names every asset. *)
Lemma unmarshalled_assets b tx :
  UnmarshalTransaction b = Some tx -> forall p, p ∈ tx_Postings tx -> is_Some (asset_id (p_Asset p)).
Proof.
  destruct b as [|[ps id]|id|v| |]; cbn; try discriminate; intros H.
  2-4: injection H as <-; intros p Hp; by apply elem_of_nil in Hp.
  destruct (mapM unmarshal_posting ps) as [ps'|] eqn:Hm; [|discriminate]. injection H as <-. cbn.
  apply mapM_Some in Hm. intros p Hp. apply list_elem_of_lookup in Hp as [k Hk].
  destruct (Forall2_lookup_r _ _ _ _ _ Hm Hk) as (q & _ & Hq).
  revert Hq. unfold unmarshal_posting. destruct (unmarshal_asset (p_Asset q)) as [a|] eqn:Ha; [|discriminate].
  cbn. destruct (decimal.NewFromString _); [|discriminate]. intros [= <-]. cbn. revert Ha.
  destruct (p_Asset q) as [c|tk|[o|]|ty]; cbn; try discriminate; [by intros [= <-]..| |by intros [= <-]].
  destruct (unmarshal_option o); [|discriminate]. by intros [= <-].
Qed.

Definition is_asset (i : assetId) (a : Asset decimal.t) : bool := bool_decide (asset_id a = Some i).

(** C20: equivalence of the balance check with its specification: on a transaction
    read from a message, [isBalanced] accepts exactly the transactions in which
    the amounts of every asset (a currency, a ticker, an option by its
    negotiation) sum to zero. *)
Theorem isBalanced_spec b tx :
  UnmarshalTransaction b = Some tx ->
  isBalanced (tx_Postings tx) = true <-> forall i, (amount_of (is_asset i) (tx_Postings tx) == 0)%Q.
Proof.
  intros Hb. pose proof (unmarshalled_assets b tx Hb) as Hid. rewrite isBalanced_keys.
  assert (Hkey : forall i p, p ∈ tx_Postings tx ->
            String.eqb (assetKey (p_Asset p)) (id_key i) = is_asset i (p_Asset p)).
  { intros i p Hp. destruct (Hid p Hp) as [j Hj]. rewrite (assetKey_id _ j Hj). unfold is_asset. rewrite Hj.
    destruct (String.eqb_spec (id_key j) (id_key i)) as [He|He].
    - apply (inj id_key) in He as ->. by rewrite bool_decide_true.
    - rewrite bool_decide_false; [done|]. congruence. }
  split.
  - intros H i. rewrite <- (amount_of_ext (fun a => String.eqb (assetKey a) (id_key i))); [apply H|by apply Hkey].
  - intros H key. destruct (decide (Exists (fun p => assetKey (p_Asset p) = key) (tx_Postings tx))) as [E|E];
      rewrite Exists_exists in E.
    + destruct E as (p & Hp & <-). destruct (Hid p Hp) as [i Hi]. rewrite (assetKey_id _ i Hi).
      rewrite (amount_of_ext _ (is_asset i)); [apply H|by apply Hkey].
    + rewrite (amount_of_ext _ (fun _ => false)).
      * clear. induction (tx_Postings tx) as [|p ps IH]; cbn; [done|]. rewrite IH. ring.
      * intros p Hp. apply String.eqb_neq. intros Hk. apply E. by exists p.
Qed.
End balance.
