(* ===== verification/InterbankSafety.v ===== *)
(** * What one bank's operations do to the state of the protocol

    [outbox]: the messages logged for sending or sent.  [committed fid]: the
    transaction of that name is COMMITTED.  [evolves cur gain ok]: only the
    transaction [cur] changes status, it becomes COMMITTED only if [gain], and the
    new messages satisfy [ok].  An initiated transaction and a handled message
    evolve the state of their bank in this way ([initiates], [handles]). *)

From S2P Require Import Prelude Numeric Domain InterbankTables Store StoreFacts OrderRepo Market.
From S2P Require Import FundsManager InterbankRepo InterbankExecutor InterbankCoordinator.
From S2P Require Import InterbankFacts.
From stdpp Require Import list sorting.
#[local] Open Scope Z_scope.

(** ** Observations *)

Definition outbox (v : view) (m : InterbankMessage) : Prop :=
  m ∈ v.2 \/ exists i row, ib_messages v.1 !! i = Some row /\ ml_Direction row = DirectionOutgoing /\
                           envelope row = m.

Definition committed (v : view) (fid : ForeignBankId) : Prop :=
  exists i row, ib_txs v.1 !! i = Some row /\ it_TransactionID row = fid /\ it_Status row = TxStatusCommitted.

(** Row [i] belongs to the transaction [fid]. *)
Definition row_of (i : Z) (fid : ForeignBankId) (v : view) : Prop :=
  exists row, ib_txs v.1 !! i = Some row /\ it_TransactionID row = fid.

Record evolves (cur : ForeignBankId) (gain : Prop) (ok : InterbankMessage -> Prop) (v v' : view) : Prop := {
  ev_others : forall fid, fid <> cur -> committed v' fid <-> committed v fid;
  ev_cur : committed v' cur -> gain \/ committed v cur;
  ev_outbox : forall m, outbox v' m -> outbox v m \/ ok m;
  ev_rows : forall i fid, row_of i fid v -> row_of i fid v'
}.

#[export] Instance evolves_preorder cur gain ok : PreOrder (evolves cur gain ok).
Proof.
  split.
  - intros v. by split; auto.
  - intros v1 v2 v3 [A1 A2 A3 A4] [B1 B2 B3 B4]. split.
    + intros fid H. by rewrite B1, A1.
    + intros [?|?]%B2; auto.
    + intros m [?|?]%B3; auto.
    + auto.
Qed.

(** The observations do not see reservations and contracts. *)
Lemma outbox_frame d s d' m : ib_messages d' = ib_messages d -> outbox (d', s) m <-> outbox (d, s) m.
Proof. unfold outbox. cbn. by intros ->. Qed.
Lemma committed_frame d s d' s' fid : ib_txs d' = ib_txs d -> committed (d', s') fid <-> committed (d, s) fid.
Proof. unfold committed. cbn. by intros ->. Qed.
Lemma row_of_frame d s d' s' i fid : ib_txs d' = ib_txs d -> row_of i fid (d', s') <-> row_of i fid (d, s).
Proof. unfold row_of. cbn. by intros ->. Qed.

Lemma evolves_step cur gain ok d s d' s' :
  ib_txs d' = ib_txs d -> (forall m, outbox (d', s') m -> outbox (d, s) m \/ ok m) ->
  evolves cur gain ok (d, s) (d', s').
Proof.
  intros Ht Ho. split.
  - intros fid _. by apply committed_frame.
  - intros H. right. by apply (committed_frame d s d' s').
  - exact Ho.
  - intros i fid. by apply row_of_frame.
Qed.

(** ** The invariant of an operation on the transaction [cur], in row [i] *)

Section operation.
Context (cur : ForeignBankId) (i : Z) (gain : Prop) (ok : InterbankMessage -> Prop) (v0 : view).

Definition working (v : view) : Prop := evolves cur gain ok v0 v /\ row_of i cur v.
(** After the commit. *)
Definition settled (v : view) : Prop := working v /\ committed v cur.

#[export] Instance working_frame : Frame working.
Proof.
  intros d s d' [H1 H2] Hm Ht. split; [|by apply (row_of_frame d s d' s)].
  transitivity (d, s); [done|]. apply evolves_step; [done|]. intros m. rewrite (outbox_frame d); auto.
Qed.

#[export] Instance settled_frame : Frame settled.
Proof.
  intros d s d' [H1 H2] Hm Ht. split; [by eapply frame|]. by apply (committed_frame d s d' s).
Qed.

Definition allowed (m : InterbankMessage) : Prop := outbox v0 m \/ ok m.

Lemma working_outbox v m : working v -> outbox v m -> allowed m.
Proof. intros [H _] Hm. by destruct (ev_outbox _ _ _ _ _ H m Hm); [left|right]. Qed.

Lemma working_step d s d' s' :
  ib_txs d' = ib_txs d -> (forall m, outbox (d', s') m -> outbox (d, s) m \/ allowed m) ->
  working (d, s) -> working (d', s').
Proof.
  intros Ht Ho Hw. pose proof Hw as [H1 H2]. split; [|by apply (row_of_frame d s d' s')].
  destruct H1 as [A1 A2 A3 A4]. split.
  - intros fid Hf. rewrite <- A1 by done. by apply committed_frame.
  - intros Hc. apply A2. by apply (committed_frame d s d' s').
  - intros m [Hm|Hm]%Ho; auto.
  - intros j fid Hj. apply (row_of_frame d s d' s'); auto.
Qed.

(** An invariant kept by a step that adds allowed messages only. *)
Class Steps (I : view -> Prop) : Prop := {
  steps_outbox : forall v m, I v -> outbox v m -> allowed m;
  steps_step : forall d s d' s', ib_txs d' = ib_txs d ->
    (forall m, outbox (d', s') m -> outbox (d, s) m \/ allowed m) -> I (d, s) -> I (d', s')
}.

#[export] Instance steps_of_working : Steps working.
Proof. split; [apply working_outbox|]. intros. by eapply working_step. Qed.
#[export] Instance steps_of_settled : Steps settled.
Proof.
  split; [intros v m [? _]; by apply working_outbox|]. intros d s d' s' Ht Ho [H1 H2]. split; [by eapply working_step|].
  by apply (committed_frame d s d' s').
Qed.

Section steps.
Context (I : view -> Prop) `{HI : !Steps I}.

(** A row written at [j] puts nothing but its own envelope into the outbox. *)
Lemma outbox_insert d s j row m :
  outbox (set_messages (<[j := row]> (ib_messages d)) d, s) m ->
  outbox (d, s) m \/ (ml_Direction row = DirectionOutgoing /\ m = envelope row).
Proof.
  intros [Hs|(j' & row' & Hj & Hd & <-)]; [by left; left|].
  cbn in Hj. destruct (decide (j = j')) as [->|Hne].
  - rewrite lookup_insert_eq in Hj. injection Hj as <-. by right.
  - rewrite lookup_insert_ne in Hj by done. left. right. eauto 10.
Qed.

Lemma inv_UpdateMessage m :
  (ml_Direction (im_Row m) = DirectionOutgoing -> allowed (envelope (im_Row m))) -> inv I (UpdateMessage m).
Proof.
  intros Ha. unfold UpdateMessage. apply inv_bind; [solve_inv|intros _]. apply triple_sql_ib; [|done].
  intros d s a d' H [= _ <-]. eapply (steps_step d s); [done| |exact H].
  intros m' [?|[Hd ->]]%outbox_insert; auto.
Qed.

(** The row that is created is allowed to be sent. *)
Lemma triple_CreateMessage row :
  (ml_Direction row = DirectionOutgoing -> ok (envelope row)) ->
  triple I (CreateMessage row)
    (fun r v => I v /\ forall l, r = Ok l -> im_Row l = row).
Proof.
  intros Ha. unfold CreateMessage. eapply triple_bind; [apply inv_io| |by split].
  intros a0. apply triple_sql_ib_insert; [|by split].
  intros j d s l d' H. unfold insert_message.
  destruct (message_check row && _); [|discriminate].
  unfold insert_row. destruct (ib_messages d !! j); [discriminate|]. intros [= <- <-].
  split; [|by intros ? [= <-]]. eapply (steps_step d s); [done| |exact H].
  intros m' [?|[Hd ->]]%outbox_insert; [by left|]. right. right. auto.
Qed.

Definition enqueued (r : result InterbankMessageLog) : Prop :=
  forall l, r = Ok l -> allowed (envelope (im_Row l)).

Lemma triple_Enqueue ty target key body :
  ok (mkMessage key ty body) ->
  triple I (EnqueueOutgoing ty target key body) (fun r v => I v /\ enqueued r).
Proof.
  intros Hok. unfold EnqueueOutgoing.
  eapply (triple_bind _ _ _ (fun r v => I v /\ forall l, r = Ok (Some l) -> allowed (envelope (im_Row l)))).
  - apply triple_sql_ib; [|by intros v H er; split].
    intros d s a d' H [= <- <-]. split; [exact H|]. intros l [= Hl].
    apply fmap_Some in Hl as ([j row] & Hf & ->). unfold find_message in Hf.
    apply head_Some_elem_of in Hf. apply list_elem_of_filter in Hf as [[Hd _] Hin].
    apply elem_of_map_to_list in Hin. apply (steps_outbox (d, s)); [done|].
    right. exists j, row. auto.
  - intros [l|].
    + intros e w r w' [H Ha] [= <- <-]. split; [done|]. intros ? [= <-]. by apply Ha.
    + eapply triple_pre; [|eapply triple_weaken; [apply triple_CreateMessage|]].
      * by intros v [? _].
      * by intros _.
      * intros r v [H Hr]. split; [done|]. intros l ->. rewrite (Hr l eq_refl). by right.
  - intros er v [H _]. split; [done|]. intros ? [=].
Qed.

Lemma inv_send_to_peer m : allowed m -> inv I (send_to_peer m).
Proof.
  intros Ha e w r w' H [= _ <-]. unfold ib_view. cbn. eapply (steps_step (w_ib w) (w_sent w)); [done| |exact H].
  intros m' [Hs|Hm]; [|by left; right]. cbn in Hs. apply elem_of_app in Hs as [Hs|Hs].
  - left. by left.
  - right. by apply list_elem_of_singleton in Hs as ->.
Qed.

Lemma failed_row_same backoff now m :
  ml_Direction (failed_row backoff now m) = ml_Direction m /\ envelope (failed_row backoff now m) = envelope m.
Proof. done. Qed.

Lemma answered_row_same backoff now code body m :
  ml_Direction (answered_row backoff now code body m) = ml_Direction m /\
  envelope (answered_row backoff now code body m) = envelope m.
Proof. unfold answered_row. destruct (_ || _); [done|]. by destruct (code =? 202). Qed.

Lemma inv_SendMessage backoff l : allowed (envelope (im_Row l)) -> inv I (SendMessage backoff l).
Proof.
  intros Ha. unfold SendMessage. destruct (finished _); [apply inv_ret|].
  apply inv_bind; [by apply inv_try, inv_send_to_peer|]. intros answer.
  apply inv_bind; [solve_inv|]. intros now. destruct answer as [[code body]|er].
  - cbv zeta. apply inv_bind; [|intros; solve_inv]. apply inv_try, inv_UpdateMessage. intros _. cbn [im_Row].
    by rewrite (proj2 (answered_row_same backoff now code body (im_Row l))).
  - cbv zeta. apply inv_bind; [|intros; solve_inv]. by apply inv_try, inv_UpdateMessage.
Qed.

Lemma inv_post_message ourRouting peerRouting backoff ty body :
  (forall key, ok (mkMessage key ty body)) -> inv I (post_message ourRouting peerRouting backoff ty body).
Proof.
  intros Hok. unfold post_message, new_key. apply inv_bind; [solve_inv|]. intros key.
  eapply triple_try_bind; [apply triple_Enqueue, Hok|]. intros r. destruct r as [l|er].
  - apply (triple_pre (fun v => enqueued (Ok l) /\ I v)); [tauto|]. apply triple_pure. intros Ha.
    apply inv_bind; [|intros; solve_inv]. apply inv_try, inv_SendMessage. by apply Ha.
  - by intros e w r w' [H _] [= _ <-].
Qed.
End steps.

(** ** The status of the transaction *)

Lemma lookup_status d id s step j row :
  alter (with_tx_status s step) id (ib_txs d) !! j = Some row ->
  exists row0, ib_txs d !! j = Some row0 /\ it_TransactionID row = it_TransactionID row0 /\
    (id = j /\ it_Status row = s \/ id <> j /\ row = row0).
Proof.
  destruct (decide (id = j)) as [->|Hne].
  - rewrite lookup_alter_eq. intros (row0 & -> & ->)%fmap_Some. eauto 10.
  - rewrite lookup_alter_ne by done. eauto 10.
Qed.

Lemma working_status d s st step :
  (st = TxStatusCommitted -> gain) -> working (d, s) ->
  working (set_txs (alter (with_tx_status st step) i (ib_txs d)) d, s).
Proof.
  intros Hg [[A1 A2 A3 A4] (row & Hi & Hf)].
  set (v' := (set_txs (alter (with_tx_status st step) i (ib_txs d)) d, s) : view).
  assert (Hrow : forall j fid, row_of j fid (d, s) -> row_of j fid v').
  { intros j fid (r & Hj & <-). unfold row_of, v'. cbn in *. destruct (decide (i = j)) as [->|Hne].
    - rewrite lookup_alter_eq, Hj. cbn. eauto.
    - rewrite lookup_alter_ne by done. eauto. }
  split; [|by apply Hrow; exists row].
  split; [| |exact A3|intros j fid Hj; apply Hrow; auto].
  - intros fid Hne. rewrite <- (A1 fid Hne). split; intros (j & r & Hj & Hr & Hs); cbn in Hj.
    + apply lookup_status in Hj as (r0 & Hj & Hid & [[-> _]|[_ ->]]).
      * cbn in Hi. rewrite Hi in Hj. injection Hj as <-. congruence.
      * exists j, r0. auto.
    + exists j, r. cbn. rewrite lookup_alter_ne; [auto|]. intros ->. cbn in Hi. congruence.
  - intros (j & r & Hj & Hr & Hs). cbn in Hj.
    apply lookup_status in Hj as (r0 & Hj & Hid & [[-> Hst]|[_ ->]]).
    + left. apply Hg. congruence.
    + apply A2. exists j, r0. auto.
Qed.

Lemma inv_status st step :
  (st = TxStatusCommitted -> gain) -> inv working (UpdateTransactionStatus i st step).
Proof.
  intros Hg. unfold UpdateTransactionStatus. apply inv_bind; [solve_inv|intros _].
  apply triple_sql_ib; [|done]. intros d s a d' H. unfold update_tx.
  destruct (varchar 40 step); [|discriminate]. intros [= _ <-]. by apply working_status.
Qed.

Lemma committed_after d s :
  row_of i cur (d, s) ->
  committed (set_txs (alter (with_tx_status TxStatusCommitted "COMMITTED") i (ib_txs d)) d, s) cur.
Proof.
  intros (row & Hi & Hf). cbn in Hi.
  exists i, (with_tx_status TxStatusCommitted "COMMITTED" row). cbn. rewrite lookup_alter_eq, Hi. auto.
Qed.

Lemma triple_committed :
  gain -> triple working (UpdateTransactionStatus i TxStatusCommitted "COMMITTED")
    (fun r v => working v /\ (is_ok r = true -> committed v cur)).
Proof.
  intros Hg. unfold UpdateTransactionStatus. eapply triple_bind; [apply inv_io| |by split].
  intros a0. apply triple_sql_ib; [|by split].
  intros d s a d' H [= _ <-]. split; [by apply working_status|]. intros _. by apply committed_after, H.
Qed.

Lemma inv_settled_status : gain -> inv settled (UpdateTransactionStatus i TxStatusCommitted "COMMITTED").
Proof.
  intros Hg. unfold UpdateTransactionStatus. apply inv_bind; [solve_inv|]. intros a0.
  apply triple_sql_ib; [|done]. intros d s a d' [H _] [= _ <-].
  split; [by apply working_status|]. by apply committed_after, H.
Qed.
End operation.

(** ** Operations that initiate a transaction *)

(** A message about a transaction of this bank; COMMIT_TX once it is COMMITTED here. *)
Definition sound (own : Z) (v : view) (m : InterbankMessage) : Prop :=
  exists id, unmarshal_id (im_Message m) = Some id /\ fb_RoutingNumber id = own /\
    (im_MessageType m = MessageCommitTx -> committed v id).

Record initiates (own : Z) (v v' : view) : Prop := {
  in_own : forall fid, fb_RoutingNumber fid = own -> committed v fid -> committed v' fid;
  in_foreign : forall fid, fb_RoutingNumber fid <> own -> committed v' fid <-> committed v fid;
  in_outbox : forall m, outbox v' m -> outbox v m \/ sound own v' m
}.

Lemma initiates_refl own v : initiates own v v.
Proof. by split; auto. Qed.

Definition about (cur : ForeignBankId) (m : InterbankMessage) : Prop := unmarshal_id (im_Message m) = Some cur.
Definition plain (cur : ForeignBankId) (m : InterbankMessage) : Prop :=
  about cur m /\ im_MessageType m <> MessageCommitTx.

Section initiate.
Context (own : Z) (cur : ForeignBankId) (Hown : fb_RoutingNumber cur = own) (i : Z) (v0 : view).
Abbreviation before := (working cur i True (plain cur) v0).
Abbreviation after := (settled cur i True (about cur) v0).

Lemma working_relax v : before v -> working cur i True (about cur) v0 v.
Proof.
  intros [[A1 A2 A3 A4] H]. split; [|done]. split; auto. intros m [?|[? _]]%A3; auto.
Qed.

Lemma initiates_before v : ~ committed v0 cur -> before v -> initiates own v0 v.
Proof.
  intros Hnew [[A1 A2 A3 A4] _]. split.
  - intros fid _ Hc. apply A1; [|done]. by intros ->.
  - intros fid Hf. apply A1. by intros ->.
  - intros m [?|[Ha Hp]]%A3; [by left|]. right. exists cur. split; [done|]. split; [done|].
    intros Hc. by destruct (Hp Hc).
Qed.

Lemma initiates_after v : after v -> initiates own v0 v.
Proof.
  intros [[[A1 A2 A3 A4] _] Hc]. split.
  - intros fid _ Hf. destruct (decide (fid = cur)) as [->|]; [done|]. by apply A1.
  - intros fid Hf. apply A1. by intros ->.
  - intros m [?|Ha]%A3; [by left|]. right. exists cur. auto.
Qed.

Lemma initiates_either v :
  ~ committed v0 cur -> before v \/ after v -> initiates own v0 v.
Proof. intros Hn [H|H]; [by apply initiates_before|by apply initiates_after]. Qed.

Context `{DL : decimal.Lib}.
Context (rates : option (M (list ExchangeRate))).
Context (Hrates : forall I src, rates = Some src -> inv I src).

Lemma triple_try_Commit (t : InterbankTransaction) :
  ibtx_ID t = i ->
  triple before (Commit own rates (ibtx_ID t))
    (fun r v => before v /\ (is_ok r = true -> after v)).
Proof.
  intros ->. eapply triple_weaken; [apply (triple_Commit own rates before (Hrates before) i
    (fun v => committed v cur))|].
  - by apply triple_committed.
  - intros r v [Hb Hc]. split; [done|]. intros Hr. split; [by apply working_relax|]. by apply Hc.
Qed.

Lemma inv_before_status st step : inv before (UpdateTransactionStatus i st step).
Proof. by apply inv_status. Qed.

Lemma inv_before_Rollback (t : InterbankTransaction) : ibtx_ID t = i -> inv before (Rollback (ibtx_ID t)).
Proof. intros ->. apply (inv_Rollback before). apply inv_before_status. Qed.
End initiate.
