(* ===== verification/InterbankAgreement.v ===== *)
(** * Agreement of two banks

    Two banks run the protocol over a network that loses, duplicates, delays and
    reorders messages; statements fail, answers are lost, unrelated requests change
    the other tables.  In every reachable state a transaction that the participant
    has COMMITTED is COMMITTED at the bank that initiated it: COMMIT_TX leaves a
    bank only after its own commit, and a bank commits a foreign transaction only
    on COMMIT_TX. *)

From S2P Require Import Prelude Numeric DecimalModel Domain InterbankTables Store StoreFacts OrderRepo.
From S2P Require Import Market FundsManager InterbankRepo InterbankExecutor.
From S2P Require Import InterbankCoordinator InterbankFacts InterbankSafety.
From stdpp Require Import list sorting relations.
#[local] Open Scope string_scope.
#[local] Open Scope Z_scope.

(** ** Creating the record *)

Lemma find_tx_None fid d i row :
  find_tx fid d = None -> ib_txs d !! i = Some row -> it_TransactionID row <> fid.
Proof.
  unfold find_tx. intros Hf Hi Heq.
  assert (Hin : (i, row) ∈ filter (fun kv : Z * interbankTxModel => it_TransactionID kv.2 = fid)
                              (map_to_list (ib_txs d))).
  { apply list_elem_of_filter. split; [done|]. by apply elem_of_map_to_list. }
  destruct (filter _ _); [by apply elem_of_nil in Hin|discriminate].
Qed.

Lemma find_tx_Some fid d i row :
  find_tx fid d = Some (i, row) -> ib_txs d !! i = Some row /\ it_TransactionID row = fid.
Proof.
  unfold find_tx. intros H%head_Some_elem_of. apply list_elem_of_filter in H as [H1 H2].
  apply elem_of_map_to_list in H2. done.
Qed.

(** A new record, not COMMITTED, starts the work on its transaction. *)
Lemma triple_CreateTransaction t gain ok v0 :
  it_Status t <> TxStatusCommitted ->
  triple (fun v => v = v0) (CreateTransaction t)
    (fun r v => match r with
                | Ok x => ~ committed v0 (it_TransactionID t) /\ ibtx_Row x = t /\
                          working (it_TransactionID t) (ibtx_ID x) gain ok v0 v
                | Err _ => v = v0
                end).
Proof.
  intros Hst. unfold CreateTransaction. eapply triple_bind; [apply inv_io| |done].
  intros a0. apply triple_sql_ib_insert; [|done]. intros i d s x d' <-. unfold insert_tx.
  destruct (_ && _) eqn:Hc; [|discriminate].
  apply andb_prop in Hc as [_ Hnew%bool_decide_eq_true].
  unfold insert_row. destruct (ib_txs d !! i) eqn:Hi; [discriminate|]. intros [= <- <-].
  assert (Hlk : forall j r, <[i := t]> (ib_txs d) !! j = Some r -> ib_txs d !! j = Some r \/ r = t).
  { intros j r. destruct (decide (i = j)) as [->|Hne].
    - rewrite lookup_insert_eq. intros [= <-]. by right.
    - rewrite lookup_insert_ne by done. by left. }
  assert (Hkeep : forall j r, ib_txs d !! j = Some r -> <[i := t]> (ib_txs d) !! j = Some r).
  { intros j r Hj. rewrite lookup_insert_ne; [done|]. congruence. }
  split; [|split; [done|]].
  - intros (j & r & Hj & Hr & _). by eapply (find_tx_None _ d).
  - split.
    + split.
      * intros fid Hne. split; intros (j & r & Hj & Hr & Hs); cbn in Hj.
        -- apply Hlk in Hj as [Hj| ->]; [by exists j, r|]. congruence.
        -- exists j, r. cbn. auto.
      * intros (j & r & Hj & Hr & Hs). cbn in Hj. right.
        apply Hlk in Hj as [Hj| ->]; [by exists j, r|]. done.
      * by left.
      * intros j fid (r & Hj & Hr). exists r. cbn. auto.
    + exists t. cbn. by rewrite lookup_insert_eq.
Qed.

(** ** Initiated transactions *)

Section initiated.
Context `{DL : decimal.Lib}.
Context (own peer : Z) (prefix : string) (rates : option (M (list ExchangeRate))) (backoff : Z).
Context (Hrates : forall I src, rates = Some src -> inv I src).

Section phase2.
Context (cur : ForeignBankId) (i : Z) (v0 : view).
Abbreviation before := (working cur i True (plain cur) v0).
Abbreviation after := (settled cur i True (about cur) v0).

Lemma inv_fail_with t s step er : ibtx_ID t = i -> inv before (fail_with t s step er).
Proof.
  intros Ht. unfold fail_with, setStatus. rewrite Ht. apply inv_bind; [|intros; solve_inv].
  apply inv_bind; [apply inv_try, inv_before_status|intros; solve_inv].
Qed.

Lemma inv_stop_with t s step er : ibtx_ID t = i -> inv before (stop_with t s step er).
Proof.
  intros Ht. unfold stop_with. rewrite Ht. apply inv_bind; [apply inv_try, inv_before_status|intros; solve_inv].
Qed.

Lemma inv_rollback_then {A} t (k : result unit -> M A) :
  ibtx_ID t = i -> (forall r, inv before (k r)) -> inv before (x ← try (Rollback (ibtx_ID t)); k x).
Proof. intros Ht Hk. apply inv_bind; [by apply inv_try, inv_before_Rollback|done]. Qed.

Lemma triple_left {A} (m : M A) : inv before m -> triple before m (fun _ v => before v \/ after v).
Proof. intros Hm. eapply triple_weaken; [exact Hm|auto]. Qed.

(** Sending NEW_TX, then whatever the answer allows. *)
Lemma triple_ask {A} (t : InterbankTransaction) payload
    (k1 : error -> M A) (k2 : option error * InterbankMessageLog -> M A) Q :
  unmarshal_id payload = Some cur ->
  (forall er, triple before (k1 er) Q) -> (forall l, triple before (k2 l) Q) ->
  (forall er v, before v -> Q (Err er) v) ->
  triple before (key ← new_key own;
                 logRow ← try (EnqueueOutgoing MessageNewTx peer key payload);
                 match logRow with
                 | Err er => k1 er
                 | Ok logRow => l ← SendMessage backoff logRow; k2 l
                 end) Q.
Proof.
  intros Hp H1 H2 He. eapply triple_bind; [unfold new_key; apply inv_bind; [apply inv_io|intros; apply inv_ret]| |done].
  intros key. eapply triple_try_bind; [eapply (triple_Enqueue (plain cur) v0 before); by split|].
  intros [l|er].
  - apply (triple_pre (fun v => enqueued (plain cur) v0 (Ok l) /\ before v)); [tauto|].
    apply triple_pure. intros Ha. eapply triple_bind; [apply (inv_SendMessage (plain cur) v0 before); by apply Ha|apply H2|done].
  - eapply triple_pre; [|apply H1]. by intros v [? _].
Qed.

Lemma triple_payment_phase2 t payload :
  ibtx_ID t = i -> unmarshal_id payload = Some cur ->
  triple before (payment_phase2 own peer rates backoff t cur payload) (fun _ v => before v \/ after v).
Proof.
  intros Ht Hp. unfold payment_phase2.
  apply (triple_ask t); [done| |intros [e l]|by left].
  { intros er. apply triple_left, inv_rollback_then; [done|]. intros. by apply inv_fail_with. }
  destruct e as [er|].
  { apply triple_left, inv_rollback_then; [done|]. intros. by apply inv_fail_with. }
  destruct (remote_vote (im_Row l)) as [body|]; [|by apply triple_left, inv_fail_with].
  destruct (unmarshal_vote body) as [vote|].
  2: { apply triple_left, inv_rollback_then; [done|]. intros. by apply inv_fail_with. }
  case_decide.
  { apply triple_left, inv_rollback_then; [done|]. intros. by apply inv_fail_with. }
  eapply triple_try_bind; [by apply triple_try_Commit|]. intros [u|er].
  - eapply triple_pre; [by intros v [_ Hv]; apply Hv|].
    apply (triple_weaken _ _ (fun _ => after)); [|by right]. unfold setStatus. rewrite Ht.
    apply inv_bind; [by apply (inv_post_message (about cur) v0 after)|]. intros _.
    apply inv_bind; [|intros; apply inv_ret].
    apply inv_bind; [by apply inv_try, inv_settled_status|intros; apply inv_ret].
  - eapply triple_pre; [|by apply triple_left, inv_fail_with]. by intros v [? _].
Qed.

Lemma triple_transaction_phase2 t payload :
  ibtx_ID t = i -> unmarshal_id payload = Some cur ->
  triple before (transaction_phase2 own peer rates backoff t cur payload) (fun _ v => before v \/ after v).
Proof.
  intros Ht Hp. unfold transaction_phase2.
  apply (triple_ask t); [done| |intros [e l]|by left].
  { intros er. apply triple_left, inv_rollback_then; [done|]. intros. by apply inv_stop_with. }
  destruct e as [er|].
  { apply triple_left, inv_rollback_then; [done|]. intros. by apply inv_stop_with. }
  destruct (remote_vote (im_Row l)) as [body|]; [|by apply triple_left, inv_stop_with].
  destruct (unmarshal_vote body) as [vote|].
  2: { apply triple_left, inv_rollback_then; [done|]. intros. by apply inv_stop_with. }
  case_decide.
  { apply triple_left, inv_rollback_then; [done|]. intros _.
    apply inv_bind; [by apply (inv_post_message (plain cur) v0 before)|]. intros. by apply inv_stop_with. }
  eapply triple_try_bind; [by apply triple_try_Commit|]. intros [u|er].
  - eapply triple_pre; [by intros v [_ Hv]; apply Hv|].
    apply (triple_weaken _ _ (fun _ => after)); [|by right]. rewrite Ht.
    apply inv_bind; [by apply (inv_post_message (about cur) v0 after)|]. intros _.
    apply inv_bind; [|intros; apply inv_ret]. by apply inv_try, inv_settled_status.
  - eapply triple_pre; [|by apply triple_left, inv_stop_with]. by intros v [? _].
Qed.

Lemma inv_bind_left {A B} (m : M A) (k : A -> M B) :
  inv before m -> (forall a, triple before (k a) (fun _ v => before v \/ after v)) ->
  triple before (x ← m; k x) (fun _ v => before v \/ after v).
Proof. intros Hm Hk. eapply triple_bind; [exact Hm|exact Hk|auto]. Qed.

Lemma inv_before_Prepare id tx : inv before (Prepare own prefix rates id tx).
Proof. apply inv_Prepare; [apply _|exact (Hrates _)]. Qed.

Lemma triple_setStatus t s step :
  ibtx_ID t = i ->
  triple before (setStatus t s step)
    (fun r v => (forall t', r = Ok t' -> ibtx_ID t' = i) /\ before v).
Proof.
  intros Ht. unfold setStatus. rewrite Ht.
  eapply triple_bind; [apply inv_try, inv_before_status| |by split].
  intros r e w r' w' Hw [= <- <-]. split; [|done]. by intros t' [= <-].
Qed.
End phase2.

Lemma MarshalTransaction_id tx payload :
  MarshalTransaction tx = Ok payload -> unmarshal_id payload = Some (tx_TransactionID tx).
Proof. unfold MarshalTransaction. destruct (mapM _ _); [|discriminate]. by intros [= <-]. Qed.

(** The rest of an operation whose record was just created. *)
Lemma triple_created {A} t (k : InterbankTransaction -> M A) v0 :
  it_Status t = TxStatusNew -> fb_RoutingNumber (it_TransactionID t) = own ->
  (forall x, ibtx_Row x = t ->
     triple (working (it_TransactionID t) (ibtx_ID x) True (plain (it_TransactionID t)) v0) (k x)
       (fun _ v => working (it_TransactionID t) (ibtx_ID x) True (plain (it_TransactionID t)) v0 v \/
                   settled (it_TransactionID t) (ibtx_ID x) True (about (it_TransactionID t)) v0 v)) ->
  triple (fun v => v = v0) (x ← CreateTransaction t; k x) (fun _ => initiates own v0).
Proof.
  intros Hst Hown Hk. eapply triple_bind.
  - apply (triple_CreateTransaction t True (plain (it_TransactionID t))). by rewrite Hst.
  - intros x. apply triple_pure. intros Hn. apply triple_pure. intros Hx.
    eapply triple_weaken; [by apply Hk|]. intros r v Hv. by apply (initiates_either own (it_TransactionID t) Hown (ibtx_ID x)).
  - intros er v ->. apply initiates_refl.
Qed.

Lemma triple_start {A B} (m : M A) (k : A -> M B) v0 :
  inv (fun v => v = v0) m -> (forall a, triple (fun v => v = v0) (k a) (fun _ => initiates own v0)) ->
  triple (fun v => v = v0) (x ← m; k x) (fun _ => initiates own v0).
Proof. intros Hm Hk. eapply triple_bind; [exact Hm|exact Hk|]. intros er v ->. apply initiates_refl. Qed.

Lemma triple_stop {A} (m : M A) v0 :
  inv (fun v => v = v0) m -> triple (fun v => v = v0) m (fun _ => initiates own v0).
Proof. intros Hm. eapply triple_weaken; [exact Hm|]. intros r v ->. apply initiates_refl. Qed.

(** The payload of a transaction names it. *)
Lemma triple_payload {B} tx (k : Body -> M B) v0 :
  (forall payload, unmarshal_id payload = Some (tx_TransactionID tx) ->
     triple (fun v => v = v0) (k payload) (fun _ => initiates own v0)) ->
  triple (fun v => v = v0) (x ← of_result (MarshalTransaction tx); k x) (fun _ => initiates own v0).
Proof.
  intros Hk. destruct (MarshalTransaction tx) as [payload|er] eqn:E.
  - intros e w r w' Hw H. eapply Hk; [by eapply MarshalTransaction_id|exact Hw|exact H].
  - intros e w r w' Hw [= <- <-]. rewrite Hw. apply initiates_refl.
Qed.

Lemma payment_initiates inp v0 :
  triple (fun v => v = v0) (InitiateInterbankPayment own peer prefix rates backoff inp)
    (fun _ => initiates own v0).
Proof.
  unfold InitiateInterbankPayment. apply triple_start; [solve_inv|]. intros _.
  apply triple_start; [solve_inv|]. intros [[num valuta]|]; [|apply triple_stop; solve_inv].
  destruct (negb _); [apply triple_stop; solve_inv|].
  apply triple_start; [solve_inv|]. intros key. cbv zeta.
  apply triple_payload. intros payload Hp. apply triple_created; [done..|]. intros x Hx.
  apply inv_bind_left; [apply inv_try, inv_before_Prepare|]. intros [vote|er].
  - case_decide; [by apply triple_left, inv_fail_with|].
    eapply triple_bind; [by apply triple_setStatus| |by intros er v [_ Hv]; left].
    intros x'. apply triple_pure. intros Hx'. by apply triple_payment_phase2; [apply Hx'|].
  - by apply triple_left, inv_fail_with.
Qed.

Lemma transaction_initiates tx user v0 :
  fb_RoutingNumber (tx_TransactionID tx) = own ->
  triple (fun v => v = v0) (InitiateInterbankTransaction own peer prefix rates backoff tx user)
    (fun _ => initiates own v0).
Proof.
  intros Hown. unfold InitiateInterbankTransaction.
  apply triple_payload. intros payload Hp. apply triple_created; [done..|]. intros x Hx.
  apply inv_bind_left; [apply inv_try, inv_before_Prepare|]. intros [vote|er].
  - case_decide; [by apply triple_left, inv_stop_with|].
    apply inv_bind_left; [by apply inv_try, inv_before_status|]. intros _.
    destruct (negb _); [|by apply triple_transaction_phase2].
    eapply triple_try_bind; [by apply triple_try_Commit|]. intros [u|er].
    + intros e w r w' [_ Hv] [= _ <-]. right. by apply Hv.
    + eapply triple_pre; [|by apply triple_left, inv_stop_with]. by intros v [? _].
  - by apply triple_left, inv_stop_with.
Qed.

(** ** The retry worker *)

Lemma outgoing_outbox now d s l :
  l ∈ to_log <$> rows_by_id (pending_outgoing now) (ib_messages d) -> outbox (d, s) (envelope (im_Row l)).
Proof.
  intros ([i row] & -> & H)%list_elem_of_fmap. unfold rows_by_id in H.
  rewrite merge_sort_Permutation in H. apply list_elem_of_filter in H as [Hp Hin].
  apply elem_of_map_to_list in Hin. cbn in *. right. exists i, row. split; [done|]. split; [|done].
  unfold pending_outgoing in Hp. apply andb_prop in Hp as [Hp _]. apply andb_prop in Hp as [Hp _].
  by apply bool_decide_eq_true in Hp.
Qed.

(** Nothing but what was in the outbox is sent, and no status changes. *)
Definition resends (v0 v : view) : Prop := ib_txs v.1 = ib_txs v0.1 /\ forall m, outbox v m -> outbox v0 m.

#[export] Instance resends_steps v0 : Steps (fun _ => False) v0 (resends v0).
Proof.
  split.
  - intros v m [_ H] Hm. left. by apply H.
  - intros d s d' s' Ht Ho [H1 H2]. split; [by cbn in *; rewrite Ht|].
    intros m [Hm|[Hm|[]]]%Ho; auto.
Qed.

Lemma resends_initiates v0 v : resends v0 v -> initiates own v0 v.
Proof.
  intros [H1 H2]. split.
  - intros fid _. unfold committed. by rewrite H1.
  - intros fid _. unfold committed. by rewrite H1.
  - intros m Hm. left. by apply H2.
Qed.

Lemma batch_initiates maxRetry v0 :
  triple (fun v => v = v0) (processRetryBatch maxRetry backoff) (fun _ => initiates own v0).
Proof.
  apply (triple_weaken _ _ (fun _ => resends v0)); [|intros r v; apply resends_initiates].
  unfold processRetryBatch.
  apply (triple_try_bind _ _ _ (fun r v => (forall l, r = Ok l -> forall m, m ∈ l -> outbox v0 (envelope (im_Row m)))
                                  /\ resends v0 v)).
  - unfold ListPendingOutgoing. eapply triple_bind; [apply inv_io| |by intros er v ->].
    intros now. apply triple_sql_ib; [|by intros v ->].
    intros d s l d' <- [= <- <-]. split; [|done]. intros l [= <-] m Hm.
    apply elem_of_take in Hm as (k & Hk & _). apply list_elem_of_lookup_2 in Hk. by eapply outgoing_outbox.
  - intros r. apply triple_pure. intros Hr. destruct r as [rows|]; [|solve_inv].
    apply inv_for_each. intros m Hm. unfold retry. destruct (exhausted _ _); [solve_inv|].
    apply inv_bind; [|intros; solve_inv]. apply inv_try, (inv_SendMessage (fun _ => False) v0 (resends v0)).
    left. by eapply Hr.
Qed.
End initiated.

(** ** Handled messages *)

Lemma triple_at {A} P (m : M A) Q : (forall v1, P v1 -> triple (fun v => v = v1) m Q) -> triple P m Q.
Proof. intros Hm e w r w' HP H. by eapply Hm. Qed.

(** A message about another bank's transaction: this bank's own transactions keep
    their status, another one is committed only by COMMIT_TX, nothing is sent. *)
Record handles (own : Z) (msg : InterbankMessage) (v v' : view) : Prop := {
  hd_own : forall fid, fb_RoutingNumber fid = own -> committed v' fid <-> committed v fid;
  hd_foreign : forall fid, committed v' fid ->
    committed v fid \/ (im_MessageType msg = MessageCommitTx /\ unmarshal_id (im_Message msg) = Some fid);
  hd_outbox : forall m, outbox v' m -> outbox v m
}.

Section handled.
Context `{DL : decimal.Lib}.
Context (own : Z) (prefix : string) (rates : option (M (list ExchangeRate))).
Context (Hrates : forall I src, rates = Some src -> inv I src).
Context (msg : InterbankMessage) (v0 : view).
Context (Hmsg : forall id, unmarshal_id (im_Message msg) = Some id -> fb_RoutingNumber id <> own).

Abbreviation base := (resends v0).
Abbreviation handled := (handles own msg v0).
Abbreviation nothing := (fun _ : InterbankMessage => False).

Lemma base_handled v : base v -> handled v.
Proof.
  intros [H1 H2]. split; [intros fid _|intros fid|exact H2]; unfold committed; rewrite H1; auto.
Qed.

#[local] Instance handled_steps : Steps nothing v0 handled.
Proof.
  split.
  - intros v m [_ _ H] Hm. left. by apply H.
  - intros d s d' s' Ht Ho [H1 H2 H3]. split.
    + intros fid Hf. rewrite <- (H1 fid Hf). by apply committed_frame.
    + intros fid Hc. apply H2. by apply (committed_frame d s d' s').
    + intros m [Hm|[Hm|[]]]%Ho; auto.
Qed.

Lemma evolves_handled id gain v :
  unmarshal_id (im_Message msg) = Some id -> (gain -> im_MessageType msg = MessageCommitTx) ->
  evolves id gain nothing v0 v -> handled v.
Proof.
  intros Hid Hg [A1 A2 A3 A4]. split.
  - intros fid Hf. apply A1. intros ->. by destruct (Hmsg id Hid).
  - intros fid Hc. destruct (decide (fid = id)) as [->|Hne]; [|left; by apply A1].
    apply A2 in Hc as [Hgain|Hc]; auto.
  - by intros m [?|[]]%A3.
Qed.

Lemma resends_evolves id gain v : base v -> evolves id gain nothing v0 v.
Proof.
  intros [H1 H2]. split.
  - intros fid _. unfold committed. by rewrite H1.
  - unfold committed. rewrite H1. auto.
  - intros m Hm. left. by apply H2.
  - intros i fid. unfold row_of. by rewrite H1.
Qed.

Lemma triple_find id gain :
  triple base (GetTransactionByForeignID id)
    (fun r v => base v /\ forall t, r = Ok (Some t) -> working id (ibtx_ID t) gain nothing v0 v).
Proof.
  apply triple_sql_ib; [|by intros v H er; split].
  intros d s a d' H [= <- <-]. split; [done|]. intros t [= Ht].
  apply fmap_Some in Ht as ([i row] & Hf & ->). apply find_tx_Some in Hf as [Hi Hrow].
  split; [by apply resends_evolves|]. exists row. done.
Qed.

Lemma triple_participant tx payload gain :
  triple base (participant_tx tx payload)
    (fun r v => match r with
                | Ok t => working (tx_TransactionID tx) (ibtx_ID t) gain nothing v0 v
                | Err _ => base v
                end).
Proof.
  unfold participant_tx. eapply triple_try_bind; [apply (triple_find _ gain)|].
  intros r. destruct r as [[t|]|er].
  1: { intros e w r w' [_ Hw] [= <- <-]. by apply Hw. }
  all: apply triple_at; intros v1 [Hv1 _]; eapply triple_weaken;
    [apply (triple_CreateTransaction _ gain nothing v1); discriminate|].
  all: intros [t|er'] v; [intros (_ & _ & [Hev Hrow])|by intros ->].
  all: split; [|exact Hrow]; transitivity v1; [by apply resends_evolves|exact Hev].
Qed.

Section branch.
Context (id : ForeignBankId) (i : Z) (gain : Prop).
Context (Hid : unmarshal_id (im_Message msg) = Some id) (Hg : gain -> im_MessageType msg = MessageCommitTx).
Abbreviation busy := (working id i gain nothing v0).

Lemma triple_busy {A} (m : M A) : inv busy m -> triple busy m (fun _ => handled).
Proof. intros Hm. eapply triple_weaken; [exact Hm|]. intros r v [Hv _]. by eapply evolves_handled. Qed.

Lemma inv_busy_status st step : (st = TxStatusCommitted -> gain) -> inv busy (UpdateTransactionStatus i st step).
Proof. apply inv_status. Qed.

Lemma inv_busy_Prepare j tx : inv busy (Prepare own prefix rates j tx).
Proof. apply inv_Prepare; [apply _|exact (Hrates _)]. Qed.

Lemma inv_busy_Commit : gain -> inv busy (Commit own rates i).
Proof.
  intros H. eapply triple_weaken; [apply (triple_Commit own rates busy (Hrates busy) i (fun _ => True))|].
  - eapply triple_weaken; [by apply inv_busy_status|]. auto.
  - by intros r v [? _].
Qed.

Lemma inv_busy_Rollback : inv busy (Rollback i).
Proof. apply (inv_Rollback busy). by apply inv_busy_status. Qed.
End branch.

Lemma dispatch_handles : triple base (dispatch own prefix rates msg) (fun _ => handled).
Proof.
  assert (Hbase : forall A (m : M A), inv base m -> triple base m (fun _ => handled)).
  { intros A m Hm. eapply triple_weaken; [exact Hm|]. intros r v. apply base_handled. }
  unfold dispatch. destruct (im_MessageType msg) eqn:Hty in |- *; [| | |apply Hbase; solve_inv].
  - unfold handle_new_tx. destruct (UnmarshalTransaction _) as [tx|] eqn:Htx; [|apply Hbase; solve_inv].
    assert (Hid : unmarshal_id (im_Message msg) = Some (tx_TransactionID tx)).
    { revert Htx. unfold UnmarshalTransaction. destruct (im_Message msg); try discriminate; cbn;
        [destruct (mapM _ _); [|discriminate]| |..]; by intros [= <-]. }
    eapply triple_try_bind; [apply (triple_participant tx _ False)|]. intros [t|er]; [|apply Hbase; solve_inv].
    apply (triple_busy _ _ False Hid); [done|].
    apply inv_bind; [by apply inv_try, inv_busy_Prepare|]. intros [vote|er].
    + apply inv_bind; [|intros; solve_inv]. case_decide; by apply inv_try, inv_busy_status.
    + apply inv_bind; [|intros; solve_inv]. by apply inv_try, inv_busy_status.
  - unfold handle_commit_tx. destruct (unmarshal_id (im_Message msg)) as [id|] eqn:Hid in |- *; [|apply Hbase; solve_inv].
    eapply triple_try_bind; [apply (triple_find id True)|]. intros [[t|]|er].
    + case_decide; [eapply triple_pre; [|apply Hbase; solve_inv]; by intros v [? _]|].
      eapply triple_pre; [intros v [_ Hv]; by apply Hv|]. apply (triple_busy _ _ True Hid); [done|].
      apply inv_bind; [by apply inv_try, inv_busy_Commit|]. intros [u|er]; [solve_inv|].
      apply inv_bind; [|intros; solve_inv]. by apply inv_try, inv_busy_status.
    + eapply triple_pre; [|apply Hbase; solve_inv]. by intros v [? _].
    + eapply triple_pre; [|apply Hbase; solve_inv]. by intros v [? _].
  - unfold handle_rollback_tx. destruct (unmarshal_id (im_Message msg)) as [id|] eqn:Hid in |- *; [|apply Hbase; solve_inv].
    eapply triple_try_bind; [apply (triple_find id False)|]. intros [[t|]|er].
    + case_decide; [eapply triple_pre; [|apply Hbase; solve_inv]; by intros v [? _]|].
      eapply triple_pre; [intros v [_ Hv]; by apply Hv|]. apply (triple_busy _ _ False Hid); [done|].
      apply inv_bind; [by apply inv_try, inv_busy_Rollback|]. intros [u|er]; [solve_inv|].
      apply inv_bind; [|intros; solve_inv]. by apply inv_try, inv_busy_status.
    + eapply triple_pre; [|apply Hbase; solve_inv]. by intros v [? _].
    + eapply triple_pre; [|apply Hbase; solve_inv]. by intros v [? _].
Qed.

Lemma message_handles :
  triple (fun v => v = v0) (HandleIncomingMessage own prefix rates msg) (fun _ => handled).
Proof.
  assert (Hsame : forall v, v = v0 -> base v) by (by intros v ->).
  apply (triple_pre _ _ _ _ Hsame).
  assert (Hbase : forall A (m : M A), inv base m -> triple base m (fun _ => handled)).
  { intros A m Hm. eapply triple_weaken; [exact Hm|]. intros r v. apply base_handled. }
  unfold HandleIncomingMessage, LookupIncomingResponse, RecordIncoming.
  destruct (_ || _); [apply Hbase; solve_inv|].
  eapply triple_try_bind; [apply inv_GetIncoming|]. intros [[prev|]|er]; [apply Hbase; solve_inv| |apply Hbase; solve_inv].
  eapply triple_try_bind; [apply (triple_CreateMessage nothing v0 base); intros [=]|]. intros [row|er].
  - apply (triple_pre (fun v => (forall l, Ok row = Ok l -> ml_Direction (im_Row l) = DirectionIncoming) /\ base v)).
    { intros v [Hv Hrow]. split; [|done]. intros l Hl. by rewrite (Hrow l Hl). }
    apply triple_pure. intros Hrow. eapply triple_bind; [apply dispatch_handles| |done].
    intros [[code body]|r]; [|solve_inv]. apply inv_bind; [|intros; solve_inv].
    unfold FinishIncoming. apply inv_try, (inv_UpdateMessage nothing v0 handled). cbn.
    rewrite (Hrow row eq_refl). discriminate.
  - eapply triple_pre; [|apply Hbase; solve_inv]. by intros v [? _].
Qed.
End handled.

(** ** Two banks *)

Record config : Type := mkConfig {
  cfg_routing : Z;
  cfg_prefix : string;
  cfg_backoff : Z;
  cfg_maxRetry : Z;
  (** The spread of the exchange office, when it is connected. *)
  cfg_spread : option float64
}.

Definition cfg_rates (c : config) : option (M (list ExchangeRate)) := GetRates <$> cfg_spread c.

Lemma cfg_rates_inv c I src : cfg_rates c = Some src -> inv I src.
Proof.
  unfold cfg_rates. destruct (cfg_spread c); [|discriminate]. intros [= <-].
  unfold GetRates, getMidRates. solve_inv.
Qed.

Section system.
Context `{DL : decimal.Lib}.

(** What a bank does on its own; any environment: failures, crashes (every later
    statement fails), any answers. *)
Inductive acts (c : config) (peer : Z) (w w' : World) : Prop :=
  | acts_payment e inp r :
      InitiateInterbankPayment (cfg_routing c) peer (cfg_prefix c) (cfg_rates c) (cfg_backoff c) inp e w
        = (r, w') -> acts c peer w w'
  | acts_transaction e tx user r :
      fb_RoutingNumber (tx_TransactionID tx) = cfg_routing c ->
      InitiateInterbankTransaction (cfg_routing c) peer (cfg_prefix c) (cfg_rates c) (cfg_backoff c)
        tx user e w = (r, w') -> acts c peer w w'
  | acts_retry e r :
      processRetryBatch (cfg_maxRetry c) (cfg_backoff c) e w = (r, w') -> acts c peer w w'
  | acts_unrelated : ib_view w' = ib_view w -> acts c peer w w'.

Definition receive (c : config) (msg : InterbankMessage) : M reply :=
  HandleIncomingMessage (cfg_routing c) (cfg_prefix c) (cfg_rates c) msg.

Record banks : Type := mkBanks { bank_a : World; bank_b : World }.

(** The network delivers, at any time and any number of times, what was sent. *)
Inductive step (ca cb : config) : banks -> banks -> Prop :=
  | step_a wa wa' wb :
      acts ca (cfg_routing cb) wa wa' -> step ca cb (mkBanks wa wb) (mkBanks wa' wb)
  | step_b wa wb wb' :
      acts cb (cfg_routing ca) wb wb' -> step ca cb (mkBanks wa wb) (mkBanks wa wb')
  | deliver_to_b wa wb wb' msg e r :
      msg ∈ w_sent wa -> receive cb msg e wb = (r, wb') -> step ca cb (mkBanks wa wb) (mkBanks wa wb')
  | deliver_to_a wa wb wa' msg e r :
      msg ∈ w_sent wb -> receive ca msg e wa = (r, wa') -> step ca cb (mkBanks wa wb) (mkBanks wa' wb).

(** No interbank history. *)
Definition fresh (w : World) : Prop := ib_view w = (ib_empty, []).

Record agree (a b : Z) (va vb : view) : Prop := {
  ag_out : forall m, outbox va m -> sound a va m;
  ag_in : forall m, outbox vb m -> sound b vb m;
  ag_ab : forall fid, fb_RoutingNumber fid = a -> committed vb fid -> committed va fid;
  ag_ba : forall fid, fb_RoutingNumber fid = b -> committed va fid -> committed vb fid
}.

Lemma agree_sym a b va vb : agree a b va vb -> agree b a vb va.
Proof. by intros []. Qed.

Lemma sound_mono own v v' m :
  (forall fid, fb_RoutingNumber fid = own -> committed v fid -> committed v' fid) ->
  sound own v m -> sound own v' m.
Proof. intros H (id & Hid & Hrn & Hc). exists id. auto. Qed.

Lemma agree_initiates a b va va' vb :
  a <> b -> agree a b va vb -> initiates a va va' -> agree a b va' vb.
Proof.
  intros Hab [H1 H2 H3 H4] [I1 I2 I3]. split; [| done | |].
  - intros m [Hm|Hm]%I3; [|done]. eapply sound_mono; [exact I1|auto].
  - auto.
  - intros fid Hf Hc. apply H4; [done|]. apply I2; [congruence|done].
Qed.

Lemma agree_handles a b va vb vb' msg :
  a <> b -> agree a b va vb -> outbox va msg -> handles b msg vb vb' -> agree a b va vb'.
Proof.
  intros Hab [H1 H2 H3 H4] Hm [D1 D2 D3]. split; [done| | |].
  - intros m Hm'. eapply sound_mono; [|apply H2, D3, Hm'].
    intros fid Hf Hc. by apply D1.
  - intros fid Hf [Hc|[Hty Hid]]%D2; [by apply H3|].
    destruct (H1 msg Hm) as (id & Hid' & _ & Hcommit). assert (id = fid) as -> by congruence. auto.
  - intros fid Hf Hc. apply D1; [done|]. auto.
Qed.

Lemma acts_initiates c peer w w' : acts c peer w w' -> initiates (cfg_routing c) (ib_view w) (ib_view w').
Proof.
  intros [e inp r H|e tx user r Hown H|e r H|H].
  - eapply payment_initiates; [apply cfg_rates_inv|reflexivity|exact H].
  - eapply transaction_initiates; [apply cfg_rates_inv|exact Hown|reflexivity|exact H].
  - eapply batch_initiates; [reflexivity|exact H].
  - rewrite H. apply initiates_refl.
Qed.

Lemma receive_handles c other v msg e w r w' :
  cfg_routing c <> other -> sound other v msg -> receive c msg e w = (r, w') ->
  handles (cfg_routing c) msg (ib_view w) (ib_view w').
Proof.
  intros Hne (id & Hid & Hrn & _) H. eapply message_handles; [apply cfg_rates_inv| |reflexivity|exact H].
  intros id' Hid'. congruence.
Qed.

Lemma agree_step ca cb s s' :
  cfg_routing ca <> cfg_routing cb -> step ca cb s s' ->
  agree (cfg_routing ca) (cfg_routing cb) (ib_view (bank_a s)) (ib_view (bank_b s)) ->
  agree (cfg_routing ca) (cfg_routing cb) (ib_view (bank_a s')) (ib_view (bank_b s')).
Proof.
  intros Hne [wa wa' wb H|wa wb wb' H|wa wb wb' msg e r Hm H|wa wb wa' msg e r Hm H] Hag;
    cbn [bank_a bank_b] in *.
  - eapply agree_initiates; [done|done|by eapply acts_initiates].
  - apply agree_sym. apply agree_sym in Hag.
    eapply agree_initiates; [|exact Hag|by eapply acts_initiates]. done.
  - assert (Ho : outbox (ib_view wa) msg) by by left.
    eapply agree_handles; [done|exact Hag|exact Ho|].
    eapply receive_handles; [|exact (ag_out _ _ _ _ Hag _ Ho)|exact H]. done.
  - apply agree_sym. apply agree_sym in Hag. assert (Ho : outbox (ib_view wb) msg) by by left.
    eapply agree_handles; [|exact Hag|exact Ho|]; [done|].
    eapply receive_handles; [|exact (ag_out _ _ _ _ Hag _ Ho)|exact H]. done.
Qed.

Lemma agree_fresh a b wa wb : fresh wa -> fresh wb -> agree a b (ib_view wa) (ib_view wb).
Proof.
  intros -> ->.
  assert (Hout : forall m, outbox (ib_empty, []) m -> False).
  { intros m [Hm|(i & row & Hi & _)]; [by apply elem_of_nil in Hm|]. done. }
  split; [by intros m ?%Hout|by intros m ?%Hout|intros fid _ (i & row & Hi & _); done..].
Qed.

(** C4: agreement of the two-phase commit.  Two banks with different routing
    numbers start without interbank history and run the protocol: payments and
    transactions initiated on both sides, retries, any statement failing, answers
    lost, messages delivered any number of times in any order.  In every reachable
    state, a transaction that is COMMITTED at the bank that takes part in it is
    COMMITTED at the bank that initiated it. *)
Theorem two_phase_agreement ca cb s0 s fid :
  cfg_routing ca <> cfg_routing cb -> fresh (bank_a s0) -> fresh (bank_b s0) ->
  rtc (step ca cb) s0 s ->
  (fb_RoutingNumber fid = cfg_routing ca ->
     committed (ib_view (bank_b s)) fid -> committed (ib_view (bank_a s)) fid) /\
  (fb_RoutingNumber fid = cfg_routing cb ->
     committed (ib_view (bank_a s)) fid -> committed (ib_view (bank_b s)) fid).
Proof.
  intros Hne Ha Hb Hrun.
  assert (agree (cfg_routing ca) (cfg_routing cb) (ib_view (bank_a s)) (ib_view (bank_b s))) as [_ _ H1 H2];
    [|split; auto].
  pose proof (agree_fresh (cfg_routing ca) (cfg_routing cb) _ _ Ha Hb) as Hag.
  clear Ha Hb. induction Hrun as [s|s s' s'' Hst _ IH]; [done|]. apply IH. by eapply agree_step.
Qed.
End system.
