(* ===== verification/InterbankDelivery.v ===== *)
(** * Incoming messages are handled at most once ([HandleIncomingMessage])

    The row of an incoming message is written before the message is processed, and
    a message whose key has a row is answered from it.  At the end of the file: the
    retry worker delivers what is due ([processRetryBatch]). *)

From S2P Require Import Prelude Numeric Domain InterbankTables Store StoreFacts OrderRepo Market.
From S2P Require Import FundsManager InterbankRepo InterbankExecutor InterbankCoordinator.
From S2P Require Import InterbankFacts InterbankSafety InterbankAgreement.
From stdpp Require Import list sorting.
From S2P Require Import DecimalModel Scenario.
#[local] Open Scope Z_scope.

(** ** Rows of the message log *)

Lemma find_message_Some dir key d i row :
  find_message dir key d = Some (i, row) -> ib_messages d !! i = Some row /\ has_key dir key (i, row).
Proof.
  unfold find_message. intros H%head_Some_elem_of. apply list_elem_of_filter in H as [Hk Hin].
  by apply elem_of_map_to_list in Hin.
Qed.

Lemma find_message_None dir key d i row :
  find_message dir key d = None -> ib_messages d !! i = Some row -> ~ has_key dir key (i, row).
Proof.
  unfold find_message. intros Hf Hi Hk.
  assert (Hin : (i, row) ∈ filter (has_key dir key) (map_to_list (ib_messages d))).
  { apply list_elem_of_filter. split; [done|]. by apply elem_of_map_to_list. }
  destruct (filter _ _); [by apply elem_of_nil in Hin|discriminate].
Qed.

(** The only row of a key is the one that is found. *)
Lemma find_message_unique dir key d i row :
  ib_messages d !! i = Some row -> has_key dir key (i, row) ->
  (forall j r, ib_messages d !! j = Some r -> has_key dir key (j, r) -> j = i) ->
  find_message dir key d = Some (i, row).
Proof.
  intros Hi Hk Hu. destruct (find_message dir key d) as [[j r]|] eqn:Hf.
  - apply find_message_Some in Hf as [Hj Hkj]. pose proof (Hu j r Hj Hkj) as ->. congruence.
  - by destruct (find_message_None _ _ _ _ _ Hf Hi).
Qed.

Lemma find_message_insert dir key d d' i row :
  find_message dir key d = None -> ib_messages d' = <[i := row]> (ib_messages d) ->
  has_key dir key (i, row) -> find_message dir key d' = Some (i, row).
Proof.
  intros Hn Hd Hk. apply find_message_unique; [by rewrite Hd, lookup_insert_eq|done|].
  intros j r Hj Hkj. destruct (decide (j = i)) as [->|Hne]; [done|].
  rewrite Hd, lookup_insert_ne in Hj by done. by destruct (find_message_None _ _ _ _ _ Hn Hj).
Qed.

Section idempotence.
Context `{DL : decimal.Lib}.
Context (c : config) (msg : InterbankMessage).
Abbreviation own := (cfg_routing c).
Abbreviation prefix := (cfg_prefix c).
Abbreviation rates := (cfg_rates c).
Abbreviation Hrates := (cfg_rates_inv c).

Abbreviation key := (im_IdempotenceKey msg).
Abbreviation handle := (receive c msg).

(** The key has a row. *)
Definition logged (w : World) : Prop := find_message DirectionIncoming key (w_ib w) <> None.

(** A message with an unusable key is refused before anything is looked up. *)
Definition usable_key : bool :=
  negb (String.eqb (k_LocallyGeneratedKey key) EmptyString || negb (varchar 64 (k_LocallyGeneratedKey key))).

(** The processing does not touch the log. *)
Definition log_is (m : gmap Z interbankMessageModel) (v : view) : Prop := ib_messages v.1 = m.

#[local] Instance log_is_frame m : Frame (log_is m).
Proof. intros d s d' H Hm _. unfold log_is in *. cbn in *. congruence. Qed.

Lemma inv_log_status m i st step : inv (log_is m) (UpdateTransactionStatus i st step).
Proof.
  unfold UpdateTransactionStatus. apply inv_bind; [solve_inv|]. intros a0.
  apply triple_sql_ib; [|done]. intros d s a d' H. unfold update_tx.
  destruct (varchar 40 step); [|discriminate]. by intros [= _ <-].
Qed.

Lemma inv_log_Create m t : inv (log_is m) (CreateTransaction t).
Proof.
  unfold CreateTransaction. apply inv_bind; [solve_inv|]. intros a0.
  apply triple_sql_ib_insert; [|done]. intros i d s a d' H. unfold insert_tx.
  destruct (_ && _); [|discriminate]. destruct (insert_row _ _ _); [|discriminate]. by intros [= _ <-].
Qed.

Lemma inv_log_Prepare m i tx : inv (log_is m) (Prepare own prefix rates i tx).
Proof. apply inv_Prepare; [apply _|exact (fun src => Hrates _ src)]. Qed.

Lemma inv_log_Commit m i : inv (log_is m) (Commit own rates i).
Proof.
  eapply triple_weaken; [apply (triple_Commit own rates (log_is m) (fun src => Hrates _ src) i (fun _ => True))|].
  - eapply triple_weaken; [apply inv_log_status|]. auto.
  - by intros r v [? _].
Qed.

Lemma inv_log_Rollback m i : inv (log_is m) (Rollback i).
Proof. apply inv_Rollback, inv_log_status. Qed.

#[local] Hint Resolve inv_log_status inv_log_Create inv_log_Prepare inv_log_Commit inv_log_Rollback : inv.

Lemma inv_log_dispatch m : inv (log_is m) (dispatch own prefix rates msg).
Proof.
  unfold dispatch, handle_new_tx, participant_tx, handle_commit_tx, handle_rollback_tx. solve_inv.
Qed.

Lemma logged_row w i row :
  ib_messages (w_ib w) !! i = Some row -> has_key DirectionIncoming key (i, row) -> logged w.
Proof. intros Hi Hk Hn. by eapply (find_message_None _ _ _ i row Hn). Qed.

(** A step of the handler: what it did to the tables. *)
Definition unchanged (w w' : World) : Prop :=
  w_db w' = w_db w /\ w_ib w' = w_ib w /\ w_sent w' = w_sent w.

Lemma unchanged_refl w : unchanged w w.
Proof. done. Qed.

Lemma lookup_run e w r w' :
  LookupIncomingResponse key e w = (r, w') ->
  unchanged w w' /\ (r = Err ErrDB \/ r = Ok (to_log <$> find_message DirectionIncoming key (w_ib w))).
Proof.
  unfold LookupIncomingResponse, GetIncomingByIdempotence, sql_ib.
  destruct (env_fault e (w_step w)); intros [= <- <-]; (split; [done|auto]).
Qed.

Lemma record_run e w r w' :
  RecordIncoming msg e w = (r, w') ->
  w_db w' = w_db w /\ w_sent w' = w_sent w /\
  match r with
  | Err _ => w_ib w' = w_ib w
  | Ok row => exists m, w_ib w' = set_messages (<[im_ID row := im_Row row]> (ib_messages (w_ib w))) (w_ib w) /\
      im_Row row = m /\ ml_Direction m = DirectionIncoming /\ ml_Key m = key /\ ml_ResponsePayload m = None /\
      find_message DirectionIncoming key (w_ib w) = None
  end.
Proof.
  unfold RecordIncoming, CreateMessage. intros H.
  apply bind_cases in H as [(t & w1 & H1 & H2)|(er & _ & H)]; [|by injection H as [=]].
  injection H1 as _ <-. revert H2. unfold sql_ib_insert, sql_ib. cbn [w_step next_step next_seq w_ib w_seq].
  destruct (env_fault e _); [by intros [= <- <-]|].
  unfold insert_message. destruct (message_check _ && _) eqn:Hc; [|by intros [= <- <-]].
  apply andb_prop in Hc as [_ Hc%bool_decide_eq_true].
  unfold insert_row. destruct (ib_messages (w_ib w) !! _); [by intros [= <- <-]|].
  intros [= <- <-]. cbn. split; [done|]. split; [done|]. eexists. done.
Qed.

Lemma finish_run e w row code body r w' :
  FinishIncoming row code body e w = (r, w') ->
  w_db w' = w_db w /\ w_sent w' = w_sent w /\
  ((w_ib w' = w_ib w /\ ~ no_faults e) \/
   exists m, w_ib w' = set_messages (<[im_ID row := m]> (ib_messages (w_ib w))) (w_ib w) /\
     ml_Direction m = ml_Direction (im_Row row) /\ ml_Key m = ml_Key (im_Row row) /\
     ml_ResponseStatusCode m = Some code /\
     ml_ResponsePayload m = match body with Some b => Some b | None => ml_ResponsePayload (im_Row row) end).
Proof.
  unfold FinishIncoming, UpdateMessage. intros H.
  apply bind_cases in H as [(t & w1 & H1 & H2)|(er & _ & H)]; [|by injection H as [=]].
  injection H1 as _ <-. revert H2. unfold sql_ib. cbn [w_step next_step w_ib].
  destruct (env_fault e _) eqn:Hf; intros [= _ <-]; cbn; split_and!; auto.
  - left. split; [done|]. intros Hn. by rewrite Hn in Hf.
  - right. by eexists.
Qed.

(** Once the key is in the log, the message does nothing. *)
Lemma logged_unchanged e w r w' : logged w -> handle e w = (r, w') -> unchanged w w'.
Proof.
  intros Hl. unfold receive, HandleIncomingMessage. destruct (_ || _); [by intros [= _ <-]|].
  intros (r0 & w1 & H1 & H2)%try_bind. apply lookup_run in H1 as [Hu Hr].
  destruct Hr as [-> | ->]; [by injection H2 as _ <-|]. unfold logged in Hl.
  destruct (find_message _ _ _); [|done]. cbn in H2. by injection H2 as _ <-.
Qed.

(** C6: an incoming message is handled at most once, whatever fails: a delivery
    that changes an account, an order or a transaction record leaves the message's
    idempotence key in the log, and a delivery of a message whose key is in the
    log, at any later time, changes nothing. *)
Theorem incoming_at_most_once e w r w1 :
  handle e w = (r, w1) ->
  ((w_db w1 = w_db w /\ w_ib w1 = w_ib w) \/ logged w1) /\
  (forall e' w' r' w2, logged w' -> handle e' w' = (r', w2) -> unchanged w' w2).
Proof.
  intros H. split; [|intros *; apply logged_unchanged].
  revert H. unfold receive, HandleIncomingMessage. destruct (_ || _); [by intros [= _ <-]; left|].
  intros (r0 & wa & H1 & H)%try_bind. apply lookup_run in H1 as [(Hd & Hi & Hs) Hr].
  destruct Hr as [-> | ->]; [injection H as _ <-; by left|].
  destruct (find_message _ _ _) as [prev|]; [cbn in H; injection H as _ <-; by left|]. cbn [fmap option_fmap option_map] in H.
  apply try_bind in H as (r1 & wb & H1 & H). apply record_run in H1 as (Hd1 & Hs1 & Hrow).
  destruct r1 as [row|er]; [|injection H as _ <-; left; split; congruence].
  right. destruct Hrow as (m & Hib & Hm & Hdir & Hkey & _).
  assert (Hlog : forall wx, ib_messages (w_ib wx) = ib_messages (w_ib wb) -> logged wx).
  { intros wx Hx. apply (logged_row wx (im_ID row) m); [|done].
    by rewrite Hx, Hib; cbn; rewrite lookup_insert_eq, Hm. }
  apply bind_cases in H as [(ans & wc & H1 & H)|(er & _ & H)].
  2: { apply Hlog. exact (inv_log_dispatch _ _ _ _ _ eq_refl H). }
  pose proof (inv_log_dispatch _ _ _ _ _ eq_refl H1) as Hc. unfold log_is in Hc. cbn in Hc.
  destruct ans as [[code body]|rp]; [|injection H as _ <-; by apply Hlog].
  apply try_bind in H as (r2 & wd & H2 & H). injection H as _ <-.
  apply finish_run in H2 as (_ & _ & [[Hsame _]|(m' & Hib' & Hd' & Hk' & _)]).
  - apply Hlog. congruence.
  - apply (logged_row wd (im_ID row) m'); [by rewrite Hib'; cbn; rewrite lookup_insert_eq|].
    split; cbn; congruence.
Qed.

(** The branches that leave the handler at once report an error. *)
Definition fails_only (m : M (Z * option Body + reply)) : Prop :=
  forall e w rp w', m e w = (Ok (inr rp), w') -> rp_Err rp <> None.

Lemma fails_bind {A} (m : M A) k : (forall a, fails_only (k a)) -> fails_only (x ← m; k x).
Proof. intros Hk e w rp w' (a & w1 & _ & H)%bind_ok. by eapply Hk. Qed.
Lemma fails_inl a : fails_only (mret (inl a)).
Proof. by intros e w rp w' [=]. Qed.
Lemma fails_inr code er : fails_only (mret (inr (err_reply code er))).
Proof. by intros e w rp w' [= <- _]. Qed.

Lemma dispatch_error e w rp w' : dispatch own prefix rates msg e w = (Ok (inr rp), w') -> rp_Err rp <> None.
Proof.
  revert e w rp w'. change (fails_only (dispatch own prefix rates msg)).
  unfold dispatch, handle_new_tx, handle_commit_tx, handle_rollback_tx.
  repeat first [apply fails_inl | apply fails_inr | apply fails_bind; intros ? | case_match].
Qed.

(** A row answers every later delivery. *)
Lemma answer_from_log e w i row :
  no_faults e -> usable_key = true -> find_message DirectionIncoming key (w_ib w) = Some (i, row) ->
  handle e w = (Ok (remembered row), next_step (set_ib (w_ib w) w)).
Proof.
  intros He Hk Hf. unfold receive, HandleIncomingMessage. unfold usable_key in Hk. apply negb_true_iff in Hk.
  rewrite Hk. erewrite bind_run; [|apply try_eq; unfold LookupIncomingResponse, GetIncomingByIdempotence, sql_ib;
    rewrite He; reflexivity]. by rewrite Hf.
Qed.

(** C21: a message that was answered is answered the same way again, and nothing
    is done: when the database works, a second delivery of a message whose first
    delivery was answered without an error gets the same code and body and leaves
    every table and the outgoing messages as they are. *)
Theorem redelivery_same_answer e e' w rp w1 :
  no_faults e -> no_faults e' -> handle e w = (Ok rp, w1) -> rp_Err rp = None ->
  exists w2, handle e' w1 = (Ok rp, w2) /\ unchanged w1 w2.
Proof.
  intros He He' H Hrp.
  assert (Hfin : forall i row, usable_key = true -> find_message DirectionIncoming key (w_ib w1) = Some (i, row) ->
            remembered row = rp -> exists w2, handle e' w1 = (Ok rp, w2) /\ unchanged w1 w2).
  { intros i row Hk Hf <-. eexists. split; [by eapply answer_from_log|done]. }
  revert H. unfold receive, HandleIncomingMessage at 1. destruct (_ || _) eqn:Hk; [by intros [= <- _]|].
  apply negb_true_iff in Hk. fold usable_key in Hk.
  intros (r0 & wa & H1 & H)%try_bind. apply lookup_run in H1 as [(Hd & Hi & Hs) Hr].
  destruct Hr as [-> | ->]; [by injection H as <- _|].
  destruct (find_message DirectionIncoming key (w_ib w)) as [[i row]|] eqn:Hf in H;
    cbn [fmap option_fmap option_map] in H.
  { cbn in H. injection H as <- <-. apply (Hfin i row Hk); [by rewrite Hi|done]. }
  apply try_bind in H as (r1 & wb & H1 & H). apply record_run in H1 as (Hd1 & Hs1 & Hrow).
  destruct r1 as [row|er]; [|by injection H as <- _].
  destruct Hrow as (m & Hib & Hm & Hdir & Hkey & Hresp & Hnone).
  apply bind_ok in H as (ans & wc & H1 & H).
  pose proof (inv_log_dispatch _ _ _ _ _ eq_refl H1) as Hc. unfold log_is in Hc. cbn in Hc.
  destruct ans as [[code body]|rp'].
  - apply try_bind in H as (r2 & wd & H2 & H). injection H as <- <-.
    apply finish_run in H2 as (_ & _ & [[_ Hno]|(m' & Hib' & Hd' & Hk' & Hcode & Hbody)]); [done|].
    apply (Hfin (im_ID row) m' Hk).
    + apply (find_message_insert _ _ (w_ib wa)); [done| |split; cbn; congruence].
      rewrite Hib'. cbn. rewrite Hc, Hib. cbn. by rewrite insert_insert_eq.
    + unfold remembered, ok_reply. rewrite Hcode, Hbody, Hm, Hresp. by destruct body.
  - cbn in H. injection H as <- <-. by destruct (dispatch_error _ _ _ _ H1).
Qed.
End idempotence.

(** ** The retry worker delivers ([processRetryBatch])

    With a working database and a peer that accepts, one batch sends exactly the
    messages that are due, among the 50 oldest, and not given up, in the order of
    their creation, and marks each of them SENT. *)

Section batch.
Context (maxRetry backoff : Z) (e : Env) (He : no_faults e).
(** The peer accepts every message with 200 or 204. *)
Context (Hpeer : forall n m, exists code body, env_peer e n m = Ok (code, body) /\ (code = 200 \/ code = 204)).

Definition given_up (m : InterbankMessageLog) : bool := exhausted maxRetry (im_Row m).

(** The messages of a batch that are sent. *)
Definition to_send (l : list InterbankMessageLog) : list InterbankMessageLog :=
  filter (fun m => given_up m = false) l.

Definition delivered (w : World) (m : InterbankMessageLog) : Prop :=
  exists row, ib_messages (w_ib w) !! im_ID m = Some row /\ ml_Status row = MsgStatusSent /\
    envelope row = envelope (im_Row m).

Lemma answered_accepted now code body m :
  code = 200 \/ code = 204 ->
  ml_Status (answered_row backoff now code body m) = MsgStatusSent /\
  envelope (answered_row backoff now code body m) = envelope m.
Proof. by intros [-> | ->]. Qed.

Lemma retry_run m w :
  finished (im_Row m) = false -> given_up m = false ->
  exists row w', retry maxRetry backoff m e w = (Ok tt, w') /\
    w_sent w' = w_sent w ++ [envelope (im_Row m)] /\ ml_Status row = MsgStatusSent /\
    envelope row = envelope (im_Row m) /\
    ib_messages (w_ib w') = <[im_ID m := row]> (ib_messages (w_ib w)).
Proof.
  intros Hf Hg. unfold retry. unfold given_up in Hg. rewrite Hg. unfold SendMessage. rewrite Hf.
  destruct (Hpeer (w_step w) (envelope (im_Row m))) as (code & body & Hp & Hc).
  eexists (answered_row backoff _ code body (im_Row m)), _. split.
  - unfold try, send_to_peer, time_now, io, UpdateMessage, sql_ib, mbind, M_bind, mret, M_ret.
    rewrite Hp. cbn. rewrite He. reflexivity.
  - destruct (answered_accepted (env_now e (S (w_step w))) code body (im_Row m) Hc) as [Hs Hv].
    cbn. split; [done|]. split; [exact Hs|]. split; [exact Hv|done].
Qed.

Lemma batch_loop l : forall w,
  NoDup (im_ID <$> l) -> Forall (fun m => finished (im_Row m) = false) l ->
  exists w', for_each l (retry maxRetry backoff) e w = (Ok tt, w') /\
    w_sent w' = w_sent w ++ ((fun m => envelope (im_Row m)) <$> to_send l) /\
    (forall j, j ∉ im_ID <$> l -> ib_messages (w_ib w') !! j = ib_messages (w_ib w) !! j) /\
    (forall m, m ∈ to_send l -> delivered w' m).
Proof.
  induction l as [|m l IH]; intros w Hnd Hfin; cbn [for_each].
  { exists w. split; [done|]. split; [by rewrite app_nil_r|]. split; [done|]. intros m Hm. by apply elem_of_nil in Hm. }
  csimpl in Hnd. apply NoDup_cons in Hnd as [Hm Hnd]. apply Forall_cons in Hfin as [Hf Hfin].
  unfold to_send. rewrite filter_cons. case_decide as Hg.
  - destruct (retry_run m w Hf Hg) as (row & w1 & Hr & Hs & Hst & Hv & Hi).
    destruct (IH w1 Hnd Hfin) as (w2 & Hl & Hs2 & Ho & Hd). exists w2.
    rewrite (bind_run _ _ _ _ _ _ Hr). split; [done|]. split; [|split].
    + rewrite Hs2, Hs, <- app_assoc. done.
    + intros j Hj. csimpl in Hj. apply not_elem_of_cons in Hj as [Hj1 Hj2].
      by rewrite Ho, Hi, lookup_insert_ne.
    + intros m' [->|Hm']%elem_of_cons; [|by apply Hd].
      exists row. by rewrite Ho, Hi, lookup_insert_eq.
  - destruct (IH w Hnd Hfin) as (w2 & Hl & Hs2 & Ho & Hd). exists w2.
    assert (Hr : retry maxRetry backoff m e w = (Ok tt, w)).
    { unfold retry. unfold given_up in Hg. by destruct (exhausted _ _). }
    rewrite (bind_run _ _ _ _ _ _ Hr). split; [done|]. split; [done|]. split; [|done].
    intros j Hj. csimpl in Hj. apply not_elem_of_cons in Hj as [_ Hj]. by apply Ho.
Qed.

(** The messages a batch works on. *)
Definition batch_rows (now : Z) (d : IbDB) : list InterbankMessageLog :=
  take 50 (to_log <$> rows_by_id (pending_outgoing now) (ib_messages d)).

Lemma batch_rows_facts now d :
  NoDup (im_ID <$> batch_rows now d) /\ Forall (fun m => finished (im_Row m) = false) (batch_rows now d).
Proof.
  unfold batch_rows. split.
  - rewrite fmap_take. apply (sublist_NoDup _ (im_ID <$> (to_log <$> rows_by_id (pending_outgoing now) (ib_messages d))));
      [|apply sublist_take].
    rewrite <- list_fmap_compose. change (im_ID ∘ to_log) with (@fst Z interbankMessageModel).
    unfold rows_by_id. rewrite merge_sort_Permutation.
    apply (sublist_NoDup _ (map_to_list (ib_messages d)).*1);
      [apply NoDup_fst_map_to_list|apply fmap_sublist, sublist_filter].
  - apply Forall_take, Forall_fmap, Forall_forall. intros [i row] Hin. unfold rows_by_id in Hin.
    rewrite merge_sort_Permutation in Hin. apply list_elem_of_filter in Hin as [Hp _]. cbn in *.
    unfold pending_outgoing in Hp. unfold finished. destruct (ml_Status row); try done;
      by rewrite andb_false_r in Hp.
Qed.

(** C22: the retry worker makes progress: with a working database and a peer that
    accepts, one batch sends exactly the messages among the 50 oldest due ones
    that are not given up, once each and in the order of creation, and every one
    of them ends up SENT in the log. *)
Theorem retry_batch_delivers w :
  exists w', processRetryBatch maxRetry backoff e w = (Ok tt, w') /\
    let batch := to_send (batch_rows (env_now e (w_step w)) (w_ib w)) in
    w_sent w' = w_sent w ++ ((fun m => envelope (im_Row m)) <$> batch) /\
    forall m, m ∈ batch -> delivered w' m.
Proof.
  unfold processRetryBatch.
  set (now := env_now e (w_step w)). set (w1 := next_step (set_ib (w_ib w) (next_step w))).
  assert (Hlist : ListPendingOutgoing 50 e w = (Ok (batch_rows now (w_ib w)), w1)).
  { unfold ListPendingOutgoing. erewrite bind_run; [|reflexivity]. unfold sql_ib. by rewrite He. }
  rewrite (bind_run _ _ _ _ _ _ (try_eq _ _ _ _ _ Hlist)).
  destruct (batch_rows_facts now (w_ib w)) as [Hnd Hfin].
  destruct (batch_loop _ w1 Hnd Hfin) as (w' & Hrun & Hs & _ & Hd).
  exists w'. cbv zeta. auto.
Qed.
End batch.
