(* ===== verification/InterbankPayment.v ===== *)
(** * What an interbank payment does ([InitiateInterbankPayment])

    With a working database, the money of the sender follows the answer of the
    other bank: taken on a YES, released on a NO, on an unreadable vote and when
    the other bank cannot be reached, and left reserved when it answers that it
    has not finished. *)

From S2P Require Import Prelude Numeric DecimalModel Domain InterbankTables Store StoreFacts OrderRepo.
From S2P Require Import Market FundsManager FundsTransfers InterbankRepo InterbankExecutor InterbankCoordinator.
From S2P Require Import InterbankFacts InterbankSafety InterbankAgreement InterbankDelivery.
From stdpp Require Import list sorting.
From Stdlib Require Import Lqa Qabs.
#[local] Open Scope string_scope.
#[local] Open Scope Z_scope.

Lemma filter_none {A} (Q : A -> Prop) `{!forall x, Decision (Q x)} (l : list A) :
  (forall x, x ∈ l -> ~ Q x) -> filter Q l = [].
Proof.
  induction l as [|x l IH]; intros Hl; [done|]. rewrite filter_cons_False by (apply Hl; set_solver).
  apply IH. set_solver.
Qed.

(** ** Amounts *)

Lemma store_cents_eq q k : (q == cents k)%Q -> Z.abs k < 10 ^ 15 -> store_cents q = Some k.
Proof.
  intros Hq Hk. assert (He : to_cents q = k) by (rewrite Hq; apply to_cents_cents).
  rewrite <- He. apply store_cents_fits. by rewrite He.
Qed.

(** A number of cents in a NUMERIC(20, 6) column. *)
Lemma store_amount_eq q k :
  (q == cents k)%Q -> Z.abs k < 10 ^ 15 -> numeric_store 20 1000000 q = Some (10000 * k).
Proof.
  intros Hq Hk. unfold numeric_store.
  assert (He : round_half_away (q * inject_Z 1000000) = 10000 * k).
  { assert (E : (q * inject_Z 1000000 == inject_Z (10000 * k))%Q).
    { rewrite Hq. unfold cents, numeric_val, Qeq. cbn. lia. }
    rewrite E. apply round_inject. }
  rewrite He, decide_True; [done|]. lia.
Qed.

Lemma micros_cents k : (micros (10000 * k) == cents k)%Q.
Proof. unfold micros, cents, numeric_val, Qeq. cbn. lia. Qed.

Lemma cents_opp k : (- cents k == cents (- k))%Q.
Proof. unfold cents, numeric_val, Qeq. cbn. lia. Qed.

(** ** The account of a number *)

Definition put_racun (id : Z) (r : racun) (d : DB) : DB := set_racun (<[id := r]> (d_racun d)) d.

Lemma the_account_put d num id r r' :
  the_account d num id r -> r_broj_racuna r' = num -> the_account (put_racun id r' d) num id r'.
Proof.
  intros [Hr Hn Hu] Hn'. split; cbn; [by rewrite lookup_insert_eq|done|].
  intros j r0. destruct (decide (j = id)) as [->|Hne]; [done|].
  rewrite lookup_insert_ne by done. apply Hu.
Qed.

Lemma update_number_eq d num id r f r' :
  the_account d num id r -> f r = Some r' -> update_racun_number num f d = Ok (1, put_racun id r' d).
Proof.
  intros Ha Hf. unfold update_racun_number. rewrite (racun_by_number_eq _ _ _ _ Ha).
  unfold update_racun. rewrite (ta_row _ _ _ _ Ha). cbn. by rewrite Hf.
Qed.

(** Back to the original row. *)
Lemma put_racun_back d id r r' : d_racun d !! id = Some r -> put_racun id r (put_racun id r' d) = d.
Proof.
  intros Hr. unfold put_racun. destruct d; cbn in *. unfold set_racun. cbn.
  by rewrite insert_insert_eq, insert_id.
Qed.

Lemma row_eq1 r0 s v :
  with_rezervisano (r_rezervisana_sredstva r0) (with_stanje s (with_rezervisano v r0)) = with_stanje s r0.
Proof. by destruct r0. Qed.
Lemma row_eq2 r0 v : with_rezervisano (r_rezervisana_sredstva r0) (with_rezervisano v r0) = r0.
Proof. by destruct r0. Qed.

(** ** Worlds between two transactions *)

(** Nothing open, nothing aborted; the tables the executor works on. *)
Record at_rest (i : Z) (d : DB) (rv : gmap Z interbankReservationModel) (w : World) : Prop := {
  ar_db : w_db w = d;
  ar_depth : w_depth w = O;
  ar_aborted : w_aborted w = false;
  ar_rv : ib_reservations (w_ib w) = rv;
  ar_tx : is_Some (ib_txs (w_ib w) !! i)
}.

(** Nothing but messages and statuses changes between the phases. *)
Definition steady (d : DB) (i : Z) (l : list interbankReservationModel) (w : World) : Prop :=
  w_db w = d /\ w_depth w = O /\ w_aborted w = false /\ reservations_of i (w_ib w) = l /\
  is_Some (ib_txs (w_ib w) !! i).

Section keeps.
Context (e : Env) (d : DB) (i : Z) (l : list interbankReservationModel).

Definition keeps {A} (m : M A) : Prop :=
  forall w r w', steady d i l w -> m e w = (r, w') -> steady d i l w'.

Lemma keeps_ret {A} (a : A) : keeps (mret a).
Proof. by intros w r w' Hw [= _ <-]. Qed.
Lemma keeps_bind {A B} (m : M A) (k : A -> M B) : keeps m -> (forall a, keeps (k a)) -> keeps (x ← m; k x).
Proof.
  intros Hm Hk w r w' Hw H. apply bind_cases in H as [(a & w1 & H1 & H2)|(er & _ & H)]; [|by eapply Hm].
  eapply Hk; [by eapply Hm|done].
Qed.
Lemma keeps_try {A} (m : M A) : keeps m -> keeps (try m).
Proof. intros Hm w r w' Hw (r0 & _ & H)%try_run. by eapply Hm. Qed.
Lemma keeps_io {A} (f : Env -> nat -> result A) : keeps (io f).
Proof. by intros w r w' Hw [= _ <-]. Qed.
Lemma keeps_sql_ib {A} (f : IbDB -> result (A * IbDB)) :
  (forall ib a ib', f ib = Ok (a, ib') -> ib_reservations ib' = ib_reservations ib /\
     (is_Some (ib_txs ib !! i) -> is_Some (ib_txs ib' !! i))) ->
  keeps (sql_ib f).
Proof.
  intros Hf w r w' (H1 & H2 & H3 & H4 & H5). unfold sql_ib.
  destruct (env_fault e (w_step w)); [by intros [= _ <-]|].
  destruct (f (w_ib w)) as [[a ib']|er] eqn:E; [|by intros [= _ <-]].
  destruct (Hf _ _ _ E) as [Hr Ht]. intros [= _ <-]. unfold steady. cbn. split_and!; auto.
  rewrite <- H4. unfold reservations_of. by rewrite Hr.
Qed.
Lemma keeps_send m : keeps (send_to_peer m).
Proof. by intros w r w' Hw [= _ <-]. Qed.

Lemma keeps_status j st step : keeps (UpdateTransactionStatus j st step).
Proof.
  unfold UpdateTransactionStatus. apply keeps_bind; [apply keeps_io|]. intros _. apply keeps_sql_ib.
  intros ib a ib'. unfold update_tx. destruct (varchar 40 step); [|discriminate]. intros [= _ <-].
  split; [done|]. intros [t Ht]. cbn. destruct (decide (j = i)) as [->|Hne].
  - rewrite lookup_alter_eq, Ht. by eexists.
  - by rewrite lookup_alter_ne, Ht.
Qed.

Lemma keeps_UpdateMessage m : keeps (UpdateMessage m).
Proof.
  unfold UpdateMessage. apply keeps_bind; [apply keeps_io|]. intros _. apply keeps_sql_ib.
  by intros ib a ib' [= _ <-].
Qed.

Lemma keeps_Enqueue ty peer key body : keeps (EnqueueOutgoing ty peer key body).
Proof.
  unfold EnqueueOutgoing. apply keeps_bind; [by apply keeps_sql_ib; intros ib a ib' [= _ <-]|].
  intros [row|]; [apply keeps_ret|]. unfold CreateMessage. apply keeps_bind; [apply keeps_io|]. intros _ w r w' Hw H.
  refine (keeps_sql_ib (insert_message (outgoing_row ty peer key body) (w_seq w)) _ (next_seq w) r w' Hw H).
  intros ib a ib'. unfold insert_message. destruct (_ && _); [|discriminate].
  destruct (insert_row _ _ _); [|discriminate]. by intros [= _ <-].
Qed.

Lemma keeps_SendMessage backoff row : keeps (SendMessage backoff row).
Proof.
  unfold SendMessage. destruct (finished _); [apply keeps_ret|].
  apply keeps_bind; [apply keeps_try, keeps_send|]. intros answer.
  apply keeps_bind; [apply keeps_io|]. intros now. destruct answer as [[code body]|er]; cbv zeta.
  all: apply keeps_bind; [apply keeps_try, keeps_UpdateMessage|intros; apply keeps_ret].
Qed.

Lemma keeps_post own peer backoff ty body : keeps (post_message own peer backoff ty body).
Proof.
  unfold post_message, new_key. apply keeps_bind; [apply keeps_bind; [apply keeps_io|intros; apply keeps_ret]|].
  intros key. apply keeps_bind; [apply keeps_try, keeps_Enqueue|]. intros [row|er]; [|apply keeps_ret].
  apply keeps_bind; [apply keeps_try, keeps_SendMessage|intros; apply keeps_ret].
Qed.
End keeps.

Section runs.
Context (e : Env) (He : no_faults e).

#[local] Abbreviation runs := (StoreFacts.runs e).

Lemma runs_sql_ib {A} (f : IbDB -> result (A * IbDB)) w a d' (P : World -> Prop) :
  f (w_ib w) = Ok (a, d') -> P (next_step (set_ib d' w)) -> runs (sql_ib f) w a P.
Proof. intros Hf HP. eexists. unfold sql_ib. by rewrite He, Hf. Qed.

Lemma runs_scan {A} (f : DB -> option A) w (P : World -> Prop) :
  w_aborted w = false -> P (next_step (set_db (w_db w) w)) -> runs (scan f) w (f (w_db w)) P.
Proof.
  intros Hw HP. unfold scan. eapply runs_bind; [by apply runs_try; eapply (runs_sql e He); [|reflexivity|exact HP]|].
  intros w' HP'. by apply runs_ret.
Qed.

Lemma CreateReservation_runs `{DL : decimal.Lib} x m t w :
  resvFromDomain x = Some m -> ib_txs (w_ib w) !! rv_TransactionID x = Some t ->
  ib_reservations (w_ib w) !! w_seq w = None ->
  runs (CreateReservation x) w tt (fun w' =>
    w' = next_step (set_ib (set_reservations (<[w_seq w := m]> (ib_reservations (w_ib w))) (w_ib w))
                      (next_seq (next_step w)))).
Proof.
  intros Hm Ht Hf. unfold CreateReservation. eapply runs_bind; [by apply (runs_now e w (fun w' => w' = next_step w))|].
  intros w1 ->. unfold sql_ib_insert.
  assert (Hi : insert_reservation x (w_seq w) (w_ib w) =
               Ok (tt, set_reservations (<[w_seq w := m]> (ib_reservations (w_ib w))) (w_ib w))).
  { unfold insert_reservation. rewrite Hm, Ht. unfold insert_row. by rewrite Hf. }
  eexists. unfold sql_ib. rewrite He. cbn [w_ib next_seq next_step w_seq]. by rewrite Hi.
Qed.

Lemma UpdateStatus_runs i st step w :
  varchar 40 step = true ->
  runs (UpdateTransactionStatus i st step) w tt (fun w' =>
    w' = next_step (set_ib (set_txs (alter (with_tx_status st step) i (ib_txs (w_ib w))) (w_ib w)) (next_step w))).
Proof.
  intros Hs. unfold UpdateTransactionStatus.
  eapply runs_bind; [by apply (runs_now e w (fun w' => w' = next_step w))|]. intros w1 ->.
  eapply runs_sql_ib; [unfold update_tx; by rewrite Hs|done].
Qed.
End runs.

(** ** The executor on the two postings of a payment *)

Section executor.
Context `{DL : decimal.Lib} {L : decimal.Laws DL}.
Context (e : Env) (He : no_faults e).
Context (own : Z) (prefix : string) (rates : option (M (list ExchangeRate))).
Context (inp : InterbankPaymentInput) (num : string) (id : Z) (r : racun) (c : Z).
Abbreviation amt := (ip_Amount inp).
Abbreviation cur := (ip_Currency inp).

(** The sender's account: of this bank, in the currency of the payment, with
    enough free money; the recipient's is of another bank. *)
Record payable (d : DB) : Prop := {
  pb_account : the_account d num id r;
  pb_named : num <> EmptyString;
  pb_length : (String.length num <= 32)%nat;
  pb_active : r_status r = AKTIVAN;
  pb_currency : r_oznaka r = cur;
  pb_cur_length : (String.length cur <= 10)%nat;
  pb_local : String.prefix prefix num = true;
  pb_remote : String.prefix prefix (ip_RecipientAccountNo inp) = false;
  pb_amount : (decimal.val amt == cents c)%Q;
  pb_positive : 0 < c < 10 ^ 14;
  pb_free : c <= free_cents r;
  pb_stanje : Z.abs (r_stanje_racuna r) < 10 ^ 14;
  pb_rez : 0 <= r_rezervisana_sredstva r < 10 ^ 14
}.

Context (d : DB) (Hp : payable d).

Definition reserved_row : racun := with_rezervisano (r_rezervisana_sredstva r + c) r.
(** The debit: the balance goes down, the reservation is used up. *)
Definition debited_row : racun := with_stanje (r_stanje_racuna r - c) r.

Definition payment_reservation (i : Z) : interbankReservationModel :=
  mkReservation i 0 AccountKindAccount (Some num) None AssetTypeMonas (Some cur) None None (10000 * - c) true.

Lemma neg_val : (decimal.val (decimal.Neg amt) == - cents c)%Q.
Proof. by rewrite decimal.val_Neg, (pb_amount _ Hp). Qed.

Lemma cents_pos k : 0 < k -> (0 < cents k)%Q.
Proof. intros H. rewrite <- cents_0. by apply cents_lt. Qed.

Lemma abs_of_debit x k : 0 < k -> (decimal.val x == - cents k)%Q ->
  decimal.IsNegative x = true /\ (decimal.String (decimal.Abs x) == cents k)%Q.
Proof.
  intros Hk Hx. pose proof (cents_pos k Hk). split.
  - apply decimal.IsNegative_spec. rewrite Hx. lra.
  - rewrite decimal.String_val, decimal.val_Abs, Hx, Qabs_opp, Qabs_pos; [reflexivity|lra].
Qed.

Lemma payment_balanced : isBalanced (payment_postings num inp) = true.
Proof.
  apply isBalanced_keys. intros key. cbn [payment_postings amount_of money_posting p_Asset p_Amount].
  destruct (String.eqb _ key); [|ring]. rewrite decimal.val_Neg. ring.
Qed.

Lemma person_account_some d0 id0 r0 :
  the_account d0 num id0 r0 -> exists acc, person_account r0 = Some acc /\ pa_Valuta acc = r_oznaka r0 /\
    (decimal.val (decimal.Sub (pa_Stanje acc) (pa_Rezervisana acc)) == cents (free_cents r0))%Q.
Proof.
  intros Ha. unfold person_account.
  destruct (decimal.NewFromString_val (cents (r_stanje_racuna r0))) as (s & Hs & Hsv).
  destruct (decimal.NewFromString_val (cents (r_rezervisana_sredstva r0))) as (z & Hz & Hzv).
  rewrite Hs, Hz. cbn. rewrite (ta_number _ _ _ _ Ha).
  destruct (String.eqb_spec num EmptyString) as [E|_]; [by destruct (pb_named _ Hp)|].
  eexists. split; [reflexivity|]. split; [done|]. cbn.
  rewrite decimal.val_Sub, Hsv, Hzv. unfold free_cents. by rewrite cents_minus.
Qed.

Lemma validate_runs w (P : World -> Prop) :
  w_aborted w = false -> w_db w = d -> P (next_step (set_db (w_db w) w)) ->
  runs e (validatePosting rates (money_posting num (decimal.Neg amt) cur)) w None P.
Proof.
  intros Ha Hd HP. unfold validatePosting, validate_account, money_posting. cbn [p_Account p_Asset p_Amount].
  eapply runs_bind; [by apply (runs_scan e He)|]. intros w' HP'. rewrite Hd.
  rewrite (racun_by_number_eq _ _ _ _ (pb_account _ Hp)).
  destruct (person_account_some _ _ _ (pb_account _ Hp)) as (acc & Hacc & Hval & Hfree).
  cbn. rewrite Hacc. cbn. rewrite (pb_active _ Hp), Hval, (pb_currency _ Hp), String.eqb_refl. cbn.
  destruct (abs_of_debit (decimal.Neg amt) c) as [Hneg Habs]; [apply (pb_positive _ Hp)|apply neg_val|].
  rewrite Hneg. cbn.
  replace (decimal.LessThan _ _) with false; [by apply runs_ret|]. symmetry. apply decimal.LessThan_false.
  rewrite <- (decimal.String_val (decimal.Abs _)), Habs, Hfree. apply cents_le, (pb_free _ Hp).
Qed.

Lemma sender_local : isLocalPosting own prefix (money_posting num (decimal.Neg amt) cur) = Ok true.
Proof. unfold isLocalPosting, money_posting. cbn. by rewrite (pb_local _ Hp). Qed.

Lemma recipient_remote : isLocalPosting own prefix (money_posting (ip_RecipientAccountNo inp) amt cur) = Ok false.
Proof. unfold isLocalPosting, money_posting. cbn. by rewrite (pb_remote _ Hp). Qed.

Lemma collect_runs w (P : World -> Prop) :
  w_aborted w = false -> w_db w = d -> P (next_step (set_db (w_db w) w)) ->
  runs e (collect_reasons own prefix rates (payment_postings num inp)) w [] P.
Proof.
  intros Ha Hd HP. unfold payment_postings. cbn [collect_reasons].
  rewrite sender_local, recipient_remote. cbn [of_result].
  eapply runs_bind; [by apply (runs_ret e true w (fun w' => w' = w))|]. intros w' ->.
  eapply runs_bind; [by apply (validate_runs w P)|]. intros w1 HP1.
  eapply runs_bind; [|intros w2 HP2; by apply runs_ret].
  eapply runs_bind; [by apply (runs_ret e false w1 P)|]. intros w2 HP2. by apply runs_ret.
Qed.

(** The row of the sender's posting. *)
Lemma reservation_stored i x :
  reservation_of i 0 (money_posting num (decimal.Neg amt) cur) = Some x ->
  resvFromDomain (with_reserved x) = Some (payment_reservation i).
Proof.
  intros [= <-]. unfold resvFromDomain. cbn.
  rewrite (store_amount_eq _ (- c)).
  - cbn. unfold varchar. rewrite !bool_decide_true; [done|apply (pb_cur_length _ Hp)|apply (pb_length _ Hp)].
  - by rewrite decimal.String_val, neg_val, cents_opp.
  - destruct (pb_positive _ Hp). lia.
Qed.

Lemma reserve_row (q : Q) : (q == cents c)%Q -> add_rezervisano q r = Some reserved_row.
Proof.
  intros Hq. unfold add_rezervisano. rewrite (store_cents_eq _ (r_rezervisana_sredstva r + c)); [done| |].
  - by rewrite Hq, cents_plus.
  - destruct (pb_rez _ Hp), (pb_positive _ Hp). lia.
Qed.

(** What [Prepare] leaves. *)
Definition prepared (i : Z) (w w' : World) : Prop :=
  at_rest i (put_racun id reserved_row d) (<[w_seq w := payment_reservation i]> (ib_reservations (w_ib w))) w' /\
  ib_messages (w_ib w') = ib_messages (w_ib w) /\ ib_txs (w_ib w') = ib_txs (w_ib w) /\ w_seq w <= w_seq w'.

Lemma reserve_runs i w :
  w_db w = d -> w_aborted w = false -> ib_reservations (w_ib w) !! w_seq w = None ->
  is_Some (ib_txs (w_ib w) !! i) ->
  runs e (reserve_all own prefix rates i 0 (payment_postings num inp)) w tt (fun w' =>
    w_db w' = put_racun id reserved_row d /\ w_aborted w' = false /\
    ib_reservations (w_ib w') = <[w_seq w := payment_reservation i]> (ib_reservations (w_ib w)) /\
    ib_messages (w_ib w') = ib_messages (w_ib w) /\ ib_txs (w_ib w') = ib_txs (w_ib w) /\ w_seq w <= w_seq w').
Proof.
  intros Hd Ha Hfree [t Ht]. unfold payment_postings. cbn [reserve_all]. unfold local.
  rewrite sender_local, recipient_remote.
  destruct (abs_of_debit (decimal.Neg amt) c) as [Hneg Habs]; [apply (pb_positive _ Hp)|apply neg_val|].
  unfold reservePosting. destruct (reservation_of i 0 (money_posting num (decimal.Neg amt) cur)) as [x|] eqn:Hx;
    [|discriminate]. pose proof (reservation_stored i x Hx) as Hm.
  assert (Hid : rv_TransactionID x = i) by (by injection Hx as <-).
  unfold reserve_debit. cbn [money_posting p_Account p_Asset p_Amount]. rewrite Hneg.
  match goal with |- runs _ _ _ _ ?Q => apply (runs_bind e _ _ w tt tt Q) end;
    [|intros w' Hw'; apply runs_skip; exact Hw'].
  apply (runs_bind e _ _ w (with_reserved x) tt (fun w' => w' = next_step (set_db (put_racun id reserved_row d) w))).
  - apply (runs_bind e _ _ w tt (with_reserved x) (fun w' => w' = next_step (set_db (put_racun id reserved_row d) w))).
    + apply (runs_bind e _ _ w 1 tt (fun w' => w' = next_step (set_db (put_racun id reserved_row d) w))).
      * eapply (runs_sql e He); [done| |reflexivity].
        rewrite Hd. apply (update_number_eq _ _ _ r); [apply (pb_account _ Hp)|by apply reserve_row].
      * intros w' ->. by apply runs_ret.
    + intros w' ->. by apply runs_ret.
  - intros w1 ->. eapply runs_mono; [apply (CreateReservation_runs e He (with_reserved x) _ t _ Hm); [by cbn; rewrite Hid|done]|].
    intros w' ->. cbn. split_and!; auto. lia.
Qed.

Lemma prepare_runs i txID w :
  at_rest i d (ib_reservations (w_ib w)) w -> ib_reservations (w_ib w) !! w_seq w = None ->
  runs e (Prepare own prefix rates i (mkTx (payment_postings num inp) txID)) w vote_yes (prepared i w).
Proof.
  intros [Hd Hdep Ha _ Ht] Hf. unfold Prepare. cbn [tx_Postings]. rewrite payment_balanced. cbn [negb].
  eapply runs_bind; [by apply (collect_runs w (fun w' => w' = next_step (set_db (w_db w) w)))|].
  intros w1 ->. apply (runs_bind e _ _ _ (Ok tt) _ (prepared i w)); [|intros w2 H2; by apply runs_ret].
  apply runs_try, (runs_Transaction e He); [done..|].
  eapply runs_mono; [by apply reserve_runs|]. cbn.
  intros w2 (H1 & H2 & H3 & H4 & H5 & H6). split; [done|]. unfold prepared. split; [|done].
  split; cbn; auto. by rewrite H5.
Qed.

(** ** The second phase *)

Definition ledger (d0 : DB) : DB :=
  set_transakcija (d_transakcija d0 ++ [mkTransakcija id INTERBANK (- c)]) d0.

(** The only reservation of transaction [i] is the sender's. *)
Lemma only_reservation i k rv ib :
  ib_reservations ib = <[k := payment_reservation i]> rv -> rv !! k = None ->
  (forall j m, rv !! j = Some m -> ir_TransactionID m <> i) ->
  reservations_of i ib = [payment_reservation i].
Proof.
  intros Hrv Hk Hno. unfold reservations_of, rows_by_id. rewrite Hrv.
  assert (Hf : filter (fun kv : Z * interbankReservationModel => (ir_TransactionID kv.2 =? i) = true)
                 (map_to_list (<[k := payment_reservation i]> rv)) = [(k, payment_reservation i)]).
  { apply Permutation_singleton_r. rewrite (map_to_list_insert rv k _ Hk), filter_cons_True by apply Z.eqb_refl.
    apply Permutation_skip. replace (filter _ _) with (@nil (Z * interbankReservationModel)); [done|].
    symmetry. apply filter_none. intros [j m] Hin Heq. apply elem_of_map_to_list in Hin.
    apply Z.eqb_eq in Heq. by destruct (Hno j m Hin). }
  by rewrite Hf.
Qed.

Lemma read_reservation i :
  exists x, resvToDomain (payment_reservation i) = Some x /\ (decimal.val (rv_Amount x) == - cents c)%Q /\
    rv_AccountKind x = AccountKindAccount /\ rv_AccountNum x = Some num /\
    rv_AssetType x = Some AssetTypeMonas /\ rv_Reserved x = true.
Proof.
  destruct (decimal.NewFromString_val (micros (10000 * - c))) as (v & Hv & Hval).
  eexists. unfold resvToDomain. cbn [payment_reservation ir_Amount]. rewrite Hv. cbn. split; [reflexivity|].
  cbn. split; [|done]. by rewrite Hval, micros_cents, cents_opp.
Qed.

Definition second_phase (i : Z) : World -> Prop :=
  steady (put_racun id reserved_row d) i [payment_reservation i].

Lemma list_runs i w :
  second_phase i w ->
  exists x, resvToDomain (payment_reservation i) = Some x /\
    runs e (ListReservationsByTx i) w [x] (fun w' => w' = next_step (set_ib (w_ib w) w)).
Proof.
  intros (_ & _ & _ & Hr & _). destruct (read_reservation i) as (x & Hx & _). exists x. split; [done|].
  unfold ListReservationsByTx. eapply (runs_sql_ib e He); [|reflexivity]. rewrite Hr. cbn. by rewrite Hx.
Qed.

Lemma reserved_account : the_account (put_racun id reserved_row d) num id reserved_row.
Proof. eapply the_account_put; [apply (pb_account _ Hp)|]. apply (ta_number _ _ _ _ (pb_account _ Hp)). Qed.

Lemma drop_both_row q : (q == cents c)%Q -> drop_both q reserved_row = Some debited_row.
Proof.
  intros Hq. destruct (pb_positive _ Hp), (pb_rez _ Hp). pose proof (pb_stanje _ Hp).
  unfold drop_both, sub_stanje, drop_rezervisano. cbn.
  rewrite (store_cents_eq _ (r_stanje_racuna r - c)); [|by rewrite Hq, cents_minus|lia]. cbn.
  rewrite (store_cents_eq _ (r_rezervisana_sredstva r)); [cbn; f_equal; apply row_eq1| |lia].
  rewrite Hq, <- cents_minus. by replace (r_rezervisana_sredstva r + c - c) with (r_rezervisana_sredstva r) by lia.
Qed.

Lemma drop_rezervisano_row q : (q == cents c)%Q -> drop_rezervisano q reserved_row = Some r.
Proof.
  intros Hq. destruct (pb_positive _ Hp), (pb_rez _ Hp). unfold drop_rezervisano. cbn.
  rewrite (store_cents_eq _ (r_rezervisana_sredstva r)); [cbn; f_equal; apply row_eq2| |lia].
  rewrite Hq, <- cents_minus. by replace (r_rezervisana_sredstva r + c - c) with (r_rezervisana_sredstva r) by lia.
Qed.

(** Money of an account: the debit and its ledger row. *)
Lemma commit_money_runs x w :
  (decimal.val (rv_Amount x) == - cents c)%Q -> rv_AccountKind x = AccountKindAccount ->
  rv_AccountNum x = Some num -> rv_AssetType x = Some AssetTypeMonas ->
  w_aborted w = false -> w_db w = put_racun id reserved_row d ->
  runs e (commit_money x) w tt (fun w' =>
    w_db w' = ledger (put_racun id debited_row d) /\ w_aborted w' = false /\ w_ib w' = w_ib w /\
    w_depth w' = w_depth w).
Proof.
  intros Hv Hk Hn Ht Ha Hd. unfold commit_money. rewrite Hk, Hn, Ht.
  destruct (abs_of_debit (rv_Amount x) c) as [Hneg Habs]; [apply (pb_positive _ Hp)|done|].
  rewrite Hneg. cbv zeta.
  assert (Hput : put_racun id debited_row (put_racun id reserved_row d) = put_racun id debited_row d).
  { unfold put_racun, set_racun. cbn. by rewrite insert_insert_eq. }
  eapply runs_bind.
  { eapply (runs_sql e He _ w 1 (put_racun id debited_row d) (fun w' => w' = _)); [done| |reflexivity].
    rewrite Hd, <- Hput. eapply update_number_eq; [apply reserved_account|by apply drop_both_row]. }
  intros w1 ->. unfold writeTxRow.
  assert (Hacc : the_account (put_racun id debited_row d) num id debited_row).
  { eapply the_account_put; [apply (pb_account _ Hp)|]. apply (ta_number _ _ _ _ (pb_account _ Hp)). }
  eapply runs_bind.
  { eapply (runs_sql e He _ _ _ (put_racun id debited_row d) (fun w' => w' = _)); [done| |reflexivity].
    cbn. rewrite (racun_by_number_eq _ _ _ _ Hacc). reflexivity. }
  intros w2 ->. cbn [fmap option_fmap option_map fst].
  eapply (runs_sql e He _ _ _ (ledger (put_racun id debited_row d))); [done| |done].
  unfold insert_transakcija. cbn [transakcija_rows w_db next_step set_db].
  rewrite (ta_row _ _ _ _ Hacc), (store_cents_eq _ (- c)); [done| |destruct (pb_positive _ Hp); lia].
  by rewrite decimal.String_val, decimal.val_Neg, <- (decimal.String_val (decimal.Abs _)), Habs, cents_opp.
Qed.

Lemma commit_runs i w :
  second_phase i w ->
  runs e (Commit own rates i) w tt (fun w' =>
    steady (ledger (put_racun id debited_row d)) i [payment_reservation i] w').
Proof.
  intros H. destruct (list_runs i w H) as (x & Hx & Hlist).
  destruct H as (Hd & Hdep & Ha & Hr & Hi).
  destruct (read_reservation i) as (x' & Hx' & Hv & Hk & Hn & Ht & Hres). rewrite Hx in Hx'. injection Hx' as <-.
  unfold Commit. eapply runs_bind; [exact Hlist|]. intros w1 ->.
  apply (runs_Transaction e He); [done..|].
  eapply runs_bind.
  { unfold for_each, commit_reservation. eapply runs_bind; [|intros w2 H2; apply runs_ret; exact H2].
    eapply runs_bind; [by apply commit_money_runs|]. intros w2 H2.
    unfold commit_shares, commit_strike, commit_option. rewrite Hk, ?Ht.
    eapply runs_bind; [apply runs_ret; exact H2|]. intros w3 H3.
    eapply runs_bind; [apply runs_ret; exact H3|]. intros w4 H4. apply runs_ret. exact H4. }
  intros w2 (H1 & H2 & H3 & H4). eapply runs_mono; [by apply (UpdateStatus_runs e He)|].
  intros w3 ->. cbn in *. split; [done|]. unfold steady. cbn. rewrite H3. split_and!; auto.
  cbn. rewrite lookup_alter_eq. destruct Hi as [t Hi]. by rewrite Hi.
Qed.

Lemma rollback_runs i w :
  second_phase i w -> runs e (Rollback i) w tt (fun w' => steady d i [payment_reservation i] w').
Proof.
  intros H. destruct (list_runs i w H) as (x & Hx & Hlist).
  destruct H as (Hd & Hdep & Ha & Hr & Hi).
  destruct (read_reservation i) as (x' & Hx' & Hv & Hk & Hn & Ht & Hres). rewrite Hx in Hx'. injection Hx' as <-.
  destruct (abs_of_debit (rv_Amount x) c) as [Hneg Habs]; [apply (pb_positive _ Hp)|done|].
  unfold Rollback. eapply runs_bind; [exact Hlist|]. intros w1 ->.
  apply (runs_Transaction e He); [done..|].
  apply (runs_bind e _ _ _ tt _ (fun w' => w_db w' = d /\ w_aborted w' = false /\ w_ib w' = w_ib w)).
  - unfold for_each, release_reservation, release_money, release_shares. rewrite Hres, Hk, Hn, Ht, Hneg.
    eapply runs_bind; [|intros w2 H2; apply runs_ret; exact H2].
    eapply runs_bind; [|intros w2 H2; apply runs_ret; exact H2].
    eapply runs_bind; [|intros w2 H2; apply runs_ret; exact H2].
    eapply (runs_sql e He _ _ 1 d); [done| |done].
    cbn. rewrite Hd, (update_number_eq _ _ _ _ _ r reserved_account (drop_rezervisano_row _ Habs)).
    by rewrite put_racun_back by apply (pb_account _ Hp).
  - intros w2 (H1 & H2 & H3). eapply runs_mono; [by apply (UpdateStatus_runs e He)|].
    intros w3 ->. cbn in *. split; [done|]. unfold steady. cbn. rewrite H3. split_and!; auto.
    cbn. rewrite lookup_alter_eq. destruct Hi as [t Hi]. by rewrite Hi.
Qed.
End executor.

(** ** The answer of the other bank *)

Inductive fate : Type := Taken | Released | Held.

(** YES takes the money; NO, an unreadable vote or no connection release it; an
    answer that is not final holds it. *)
Definition fate_of (a : result (Z * Body)) : fate * InterbankTxStatus :=
  match a with
  | Err _ => (Released, TxStatusFailed)
  | Ok (code, body) =>
      if (code =? 200) || (code =? 204) then
        match unmarshal_vote body with
        | None => (Released, TxStatusFailed)
        | Some v => if decide (v_Vote v = VoteNo) then (Released, TxStatusRolledBack)
                    else (Taken, TxStatusCommitted)
        end
      else (Held, TxStatusFailed)
  end.

Section coordinator.
Context `{DL : decimal.Lib} {L : decimal.Laws DL}.
Context (e : Env) (He : no_faults e).
Context (own peer : Z) (prefix : string) (rates : option (M (list ExchangeRate))) (backoff : Z).
Context (inp : InterbankPaymentInput) (num : string) (id : Z) (r : racun) (c : Z).
Context (d : DB) (Hp : payable prefix inp num id r c d).

(** The database after the payment. *)
Definition money_after (f : fate) : DB :=
  match f with
  | Taken => ledger id c (put_racun id (debited_row r c) d)
  | Released => d
  | Held => put_racun id (reserved_row r c) d
  end.

(** The operation ends with the status of the answer, in memory and in the table. *)
Definition concluded (t0 : InterbankTransaction) (a : result (Z * Body)) (o : outcome) (w' : World) : Prop :=
  w_db w' = money_after (fate_of a).1 /\
  ibtx_ID o.2 = ibtx_ID t0 /\ it_Status (ibtx_Row o.2) = (fate_of a).2 /\
  (o.1 = None <-> (fate_of a).1 = Taken) /\
  exists row, ib_txs (w_ib w') !! ibtx_ID t0 = Some row /\ it_Status row = (fate_of a).2.

Lemma setStatus_runs t s step l d0 w :
  varchar 40 step = true -> steady d0 (ibtx_ID t) l w ->
  runs e (setStatus t s step) w (with_memory_status s t) (fun w' =>
    w_db w' = d0 /\ exists row, ib_txs (w_ib w') !! ibtx_ID t = Some row /\ it_Status row = s).
Proof.
  intros Hs (Hd & _ & _ & _ & [row Ht]). unfold setStatus.
  eapply runs_bind; [by eapply runs_try, (UpdateStatus_runs e He)|]. intros w1 ->. apply runs_ret.
  cbn. split; [done|]. rewrite lookup_alter_eq, Ht. by eexists.
Qed.

Lemma fail_runs t a f s step er l w :
  varchar 40 step = true -> fate_of a = (f, s) -> f <> Taken ->
  steady (money_after f) (ibtx_ID t) l w ->
  exists o w', fail_with t s step er e w = (Ok o, w') /\ concluded t a o w'.
Proof.
  intros Hs Hst Hf Hw. destruct (setStatus_runs t s step l _ w Hs Hw) as (w' & Hrun & Hd & Hrow).
  exists (Some er, with_memory_status s t), w'. split.
  - unfold fail_with. by rewrite (bind_run _ _ _ _ _ _ Hrun).
  - unfold concluded. rewrite Hst. cbn. split_and!; auto. split; [discriminate|]. by intros ->.
Qed.

Lemma rollback_fail_runs t a s step er w :
  varchar 40 step = true -> fate_of a = (Released, s) ->
  second_phase inp num id r c d (ibtx_ID t) w ->
  exists o w', (try (Rollback (ibtx_ID t)) ;; fail_with t s step er) e w = (Ok o, w') /\ concluded t a o w'.
Proof.
  intros Hs Hf Hw. destruct (rollback_runs e He prefix inp num id r c d Hp _ w Hw) as (w1 & Hr & H1).
  rewrite (bind_run _ _ _ _ _ _ (try_eq _ _ _ _ _ Hr)).
  by eapply (fail_runs t a Released).
Qed.

(** The row in memory after the answer. *)
Lemma SendMessage_answer row w sr w' :
  finished (im_Row row) = false ->
  SendMessage backoff row e w = (sr, w') ->
  match env_peer e (w_step w) (envelope (im_Row row)) with
  | Err er => exists l, sr = Ok (Some er, l)
  | Ok (code, body) =>
      exists now, sr = Ok (None, mkLog (im_ID row) (answered_row backoff now code body (im_Row row)))
  end.
Proof.
  intros Hf. unfold SendMessage. rewrite Hf. intros H.
  apply try_bind in H as (r0 & w1 & H1 & H). unfold send_to_peer in H1. injection H1 as <- <-.
  apply bind_cases in H as [(now & w2 & H2 & H)|(er & _ & H)]; [|by injection H as [=]].
  destruct (env_peer e _ _) as [[code body]|er]; cbv zeta in H.
  - apply try_bind in H as (r1 & w3 & H3 & H). injection H as <- _.
    assert (r1 = Ok tt) as ->; [|by exists now].
    revert H3. unfold UpdateMessage. unfold mbind, M_bind. cbn. unfold sql_ib. rewrite He. by intros [= <- _].
  - apply try_bind in H as (r1 & w3 & H3 & H). injection H as <- _. by eexists.
Qed.

Lemma answered_vote now code body m :
  remote_vote (answered_row backoff now code body m) =
    if (code =? 200) || (code =? 204) then Some body else None.
Proof.
  unfold answered_row. destruct (_ || _) eqn:E; [done|]. destruct (code =? 202); [done|]. done.
Qed.

(** Posting a message never fails. *)
Lemma post_ok e0 ty body w pr w' : post_message own peer backoff ty body e0 w = (pr, w') -> pr = Ok tt.
Proof.
  unfold post_message, new_key. intros H.
  apply bind_cases in H as [(key & w1 & _ & H)|(er & _ & H)].
  2: { apply bind_cases in H as [(k & w1 & _ & H)|(er' & _ & H)]; by injection H as [=]. }
  apply try_bind in H as (r0 & w2 & _ & H). destruct r0; [|by injection H as <- _].
  apply try_bind in H as (r1 & w3 & _ & H). by injection H as <- _.
Qed.

Lemma phase2_runs t txID payload a w :
  (forall n m, im_MessageType m = MessageNewTx -> env_peer e n m = a) ->
  second_phase inp num id r c d (ibtx_ID t) w ->
  (forall n, find_message DirectionOutgoing (mkKey own (env_uuid e n)) (w_ib w) = None) ->
  (forall n, (String.length (env_uuid e n) <= 64)%nat) ->
  (forall j, w_seq w <= j -> ib_messages (w_ib w) !! j = None) ->
  exists o w', payment_phase2 own peer rates backoff t txID payload e w = (Ok o, w') /\ concluded t a o w'.
Proof.
  intros Ha Hw Hkey Hlen Hpk. unfold payment_phase2, new_key.
  set (key := mkKey own (env_uuid e (w_step w))).
  rewrite (bind_run _ _ _ _ key (next_step w)) by done.
  set (row0 := outgoing_row MessageNewTx peer key payload).
  assert (Henq : exists w1, EnqueueOutgoing MessageNewTx peer key payload e (next_step w)
                            = (Ok (mkLog (w_seq w) row0), w1)).
  { unfold EnqueueOutgoing. unfold GetOutgoingByIdempotence at 1.
    erewrite bind_run; [|unfold sql_ib; rewrite He; reflexivity]. cbn [w_ib next_step set_ib].
    unfold key. rewrite Hkey. cbn [fmap option_fmap option_map]. unfold CreateMessage.
    erewrite bind_run; [|reflexivity]. unfold sql_ib_insert, sql_ib. rewrite He. cbn [w_ib next_step next_seq set_ib w_seq].
    unfold insert_message. fold key. fold row0.
    assert (Hc : message_check row0 = true) by (cbn; unfold varchar; by rewrite bool_decide_true by apply Hlen).
    rewrite Hc. cbn [andb]. replace (find_message _ _ _) with (@None (Z * interbankMessageModel))
      by (symmetry; apply Hkey). rewrite bool_decide_true by done.
    unfold insert_row. rewrite (Hpk (w_seq w)) by lia. by eexists. }
  destruct Henq as (w1 & Henq). rewrite (bind_run _ _ _ _ _ _ (try_eq _ _ _ _ _ Henq)).
  assert (Hw1 : second_phase inp num id r c d (ibtx_ID t) w1) by exact (keeps_Enqueue e _ _ _ _ _ _ _ (next_step w) _ _ Hw Henq).
  destruct (SendMessage backoff (mkLog (w_seq w) row0) e w1) as [sr w2] eqn:Hsend.
  assert (Hw2 : second_phase inp num id r c d (ibtx_ID t) w2) by exact (keeps_SendMessage e _ _ _ _ _ w1 _ _ Hw1 Hsend).
  pose proof (SendMessage_answer (mkLog (w_seq w) row0) w1 sr w2 eq_refl Hsend) as Hans. rewrite Ha in Hans by done.
  destruct a as [[code body]|er].
  2: { destruct Hans as [l ->]. rewrite (bind_run _ _ _ _ _ _ Hsend).
       by apply (rollback_fail_runs t (Err er)). }
  destruct Hans as [now ->]. rewrite (bind_run _ _ _ _ _ _ Hsend). cbn [im_Row].
  rewrite answered_vote. destruct ((code =? 200) || (code =? 204)) eqn:Hcode.
  2: { eapply (fail_runs t (Ok (code, body)) Held); cbn; rewrite ?Hcode; [done..|exact Hw2]. }
  destruct (unmarshal_vote body) as [vote|] eqn:Hvote.
  2: { apply (rollback_fail_runs t (Ok (code, body))); cbn; rewrite ?Hcode, ?Hvote; done. }
  case_decide as Hno.
  { apply (rollback_fail_runs t (Ok (code, body))); cbn; rewrite ?Hcode, ?Hvote, ?decide_True; done. }
  destruct (commit_runs e He own prefix rates inp num id r c d Hp _ w2 Hw2) as (w3 & Hc & Hw3).
  rewrite (bind_run _ _ _ _ _ _ (try_eq _ _ _ _ _ Hc)).
  destruct (post_message own peer backoff MessageCommitTx (BodyId txID) e w3) as [pr w4] eqn:Hpost.
  assert (Hpr : pr = Ok tt /\ steady (ledger id c (put_racun id (debited_row r c) d)) (ibtx_ID t)
                                [payment_reservation inp num c (ibtx_ID t)] w4).
  { split; [|by eapply keeps_post]. eapply post_ok, Hpost. }
  destruct Hpr as [-> Hw4]. rewrite (bind_run _ _ _ _ _ _ Hpost).
  destruct (setStatus_runs t TxStatusCommitted "COMMITTED" _ _ w4 eq_refl Hw4) as (w' & Hrun & Hd & Hrow).
  rewrite (bind_run _ _ _ _ _ _ Hrun). eexists _, _. split; [reflexivity|].
  unfold concluded. cbn. rewrite Hcode, Hvote, decide_False by done. cbn. done.
Qed.

(** The sequences have not been used ahead, the reservations belong to existing
    transactions, and the random keys are new. *)
Record fresh_keys (w : World) : Prop := {
  fk_txs : forall j, w_seq w <= j -> ib_txs (w_ib w) !! j = None;
  fk_messages : forall j, w_seq w <= j -> ib_messages (w_ib w) !! j = None;
  fk_reservations : forall j, w_seq w <= j -> ib_reservations (w_ib w) !! j = None;
  fk_owner : forall j m, ib_reservations (w_ib w) !! j = Some m -> ir_TransactionID m < w_seq w;
  fk_tx_key : forall n, find_tx (mkFid own (env_uuid e n)) (w_ib w) = None;
  fk_message_key : forall n, find_message DirectionOutgoing (mkKey own (env_uuid e n)) (w_ib w) = None;
  fk_length : forall n, (String.length (env_uuid e n) <= 64)%nat
}.

Lemma find_message_frame dir key d1 d2 :
  ib_messages d1 = ib_messages d2 -> find_message dir key d1 = find_message dir key d2.
Proof. unfold find_message. by intros ->. Qed.

Lemma create_runs w t :
  fresh_keys w -> find_tx (it_TransactionID t) (w_ib w) = None ->
  (String.length (fb_ID (it_TransactionID t)) <= 64)%nat -> varchar 40 (it_CurrentStep t) = true ->
  CreateTransaction t e w =
    (Ok (mkIbTx (w_seq w) t),
     next_step (set_ib (set_txs (<[w_seq w := t]> (ib_txs (w_ib w))) (w_ib w)) (next_seq (next_step w)))).
Proof.
  intros Hf Hn Hl Hs. unfold CreateTransaction. erewrite bind_run; [|reflexivity].
  unfold sql_ib_insert, sql_ib. rewrite He. cbn [w_ib next_step next_seq w_seq].
  unfold insert_tx, varchar. rewrite bool_decide_true by done. unfold varchar in Hs.
  rewrite Hs, Hn, bool_decide_true by done. cbn [andb]. unfold insert_row.
  by rewrite (fk_txs w Hf (w_seq w)) by lia.
Qed.

(** From the creation of the record on. *)
Lemma created_runs txID payload a w :
  (forall n m, im_MessageType m = MessageNewTx -> env_peer e n m = a) ->
  w_db w = d -> w_depth w = O -> w_aborted w = false -> fresh_keys w ->
  let t := mkIbTx (w_seq w) (mkTxModel txID TxRoleCoordinator TxStatusNew "PREPARING_LOCAL" payload
             (ptrInt64 (ip_SenderUserID inp)) (ptrInt64 (ip_SenderAccountID inp))) in
  forall w1, w1 = next_step (set_ib (set_txs (<[w_seq w := ibtx_Row t]> (ib_txs (w_ib w))) (w_ib w))
                               (next_seq (next_step w))) ->
  exists o w',
    (vote ← try (Prepare own prefix rates (ibtx_ID t) (mkTx (payment_postings num inp) txID));
     match vote with
     | Err er => fail_with t TxStatusFailed "LOCAL_PREPARE_ERROR" er
     | Ok vote =>
         if decide (v_Vote vote = VoteNo) then
           fail_with t TxStatusFailed "LOCAL_PREPARE_NO"
             (ErrMsg "interbank payment: lokalna priprema vraca NO")
         else
           t' ← setStatus t TxStatusPrepared "LOCAL_PREPARED";
           payment_phase2 own peer rates backoff t' txID payload
     end) e w1 = (Ok o, w') /\ concluded t a o w'.
Proof.
  intros Ha Hd Hdep Hab Hf t w1 Hw1. cbn [ibtx_ID t].
  assert (Hrest : at_rest (w_seq w) d (ib_reservations (w_ib w1)) w1).
  { subst w1. split; cbn; auto. rewrite lookup_insert_eq. by eexists. }
  destruct (prepare_runs e He own prefix rates inp num id r c d Hp (w_seq w) txID w1 Hrest) as (w2 & Hr & Hpre).
  { subst w1. cbn. apply (fk_reservations w Hf). lia. }
  rewrite (bind_run _ _ _ _ _ _ (try_eq _ _ _ _ _ Hr)). rewrite decide_False by done.
  destruct Hpre as ([P1 P2 P3 P4 P5] & Pm & Pt & Ps).
  assert (Hsec : second_phase inp num id r c d (w_seq w) w2).
  { unfold second_phase, steady. split_and!; auto.
    apply (only_reservation inp num c (w_seq w) (w_seq w1) (ib_reservations (w_ib w1))).
    - exact P4.
    - subst w1. cbn. apply (fk_reservations w Hf). lia.
    - intros j m Hj. subst w1. cbn in Hj. pose proof (fk_owner w Hf j m Hj). lia. }
  destruct (setStatus t TxStatusPrepared "LOCAL_PREPARED" e w2) as [sr w3] eqn:Hset.
  assert (Hsr : sr = Ok (with_memory_status TxStatusPrepared t) /\ second_phase inp num id r c d (w_seq w) w3 /\
                ib_messages (w_ib w3) = ib_messages (w_ib w2) /\ w_seq w3 = w_seq w2).
  { unfold setStatus in Hset. apply try_bind in Hset as (u & w4 & H4 & H5).
    assert (Hsec4 : second_phase inp num id r c d (w_seq w) w4) by (eapply keeps_status; [exact Hsec|exact H4]).
    destruct (UpdateStatus_runs e He (w_seq w) TxStatusPrepared "LOCAL_PREPARED" w2 eq_refl) as (w5 & H5' & H6).
    cbn [ibtx_ID t] in H4. rewrite H5' in H4. injection H4 as <- <-. injection H5 as <- <-. by subst w5. }
  destruct Hsr as (-> & Hsec3 & Hm3 & Hs3). rewrite (bind_run _ _ _ _ _ _ Hset).
  destruct (phase2_runs (with_memory_status TxStatusPrepared t) txID payload a w3 Ha) as (o & w' & Hrun & Hc).
  - exact Hsec3.
  - intros n. rewrite (find_message_frame _ _ _ (w_ib w)); [apply (fk_message_key w Hf)|].
    rewrite Hm3, Pm. by subst w1.
  - apply (fk_length w Hf).
  - intros j Hj. rewrite Hm3, Pm. subst w1. cbn in *. apply (fk_messages w Hf). lia.
  - exists o, w'. split; [exact Hrun|]. exact Hc.
Qed.

(** C5: the money of an interbank payment follows the answer of the other bank.
    With a working database and a sender who can pay, the payment ends in the
    status the answer calls for, in memory and in the table, reports success
    exactly when the money was taken, and leaves the accounts and the ledger as
    [money_after] says: the debit with its ledger row on a YES, nothing on a NO,
    an unreadable vote or a connection error, and the bare reservation when the
    other bank answers that it has not finished. *)
Theorem payment_outcome a w :
  (forall n m, im_MessageType m = MessageNewTx -> env_peer e n m = a) ->
  check_input inp = Ok tt -> id = ip_SenderAccountID inp -> r_id_vlasnika r = ip_SenderUserID inp ->
  w_db w = d -> w_depth w = O -> w_aborted w = false -> fresh_keys w ->
  exists o w', InitiateInterbankPayment own peer prefix rates backoff inp e w = (Ok o, w') /\
    w_db w' = money_after (fate_of a).1 /\
    it_Status (ibtx_Row o.2) = (fate_of a).2 /\
    (o.1 = None <-> (fate_of a).1 = Taken) /\
    exists row, ib_txs (w_ib w') !! ibtx_ID o.2 = Some row /\ it_Status row = (fate_of a).2.
Proof.
  intros Ha Hin Hid Hown Hd Hdep Hab Hf. unfold InitiateInterbankPayment. rewrite Hin.
  rewrite (bind_run _ _ e w tt w) by done.
  set (w1 := next_step (set_db (w_db w) w)).
  destruct (runs_scan e He (sender_account inp) w (fun w' => w' = w1) Hab eq_refl) as (w1' & Hs & ->).
  rewrite (bind_run _ _ _ _ _ _ Hs). pose proof (pb_account _ _ _ _ _ _ _ Hp) as Hacc.
  assert (Hlook : d_racun d !! ip_SenderAccountID inp = Some r) by (rewrite <- Hid; apply (ta_row _ _ _ _ Hacc)).
  unfold sender_account. rewrite Hd, Hlook, (ta_number _ _ _ _ Hacc), Hown, Z.eqb_refl.
  destruct (String.eqb_spec num EmptyString) as [E|_]; [by destruct (pb_named _ _ _ _ _ _ _ Hp)|]. cbn [negb andb].
  rewrite (pb_currency _ _ _ _ _ _ _ Hp), String.eqb_refl. cbn [negb].
  rewrite (bind_run _ _ _ _ (env_uuid e (w_step w1)) (next_step w1)) by done. cbv zeta.
  set (txID := mkFid own (env_uuid e (w_step w1))). cbn [tx_TransactionID].
  assert (Hf2 : fresh_keys (next_step w1)) by (destruct Hf; by split).
  destruct (MarshalTransaction (mkTx (payment_postings num inp) txID)) as [payload|er] eqn:Hmar; [|discriminate Hmar].
  rewrite (bind_run _ _ _ _ payload (next_step w1)) by done.
  rewrite (bind_run _ _ _ _ _ _ (create_runs (next_step w1) (mkTxModel txID TxRoleCoordinator TxStatusNew
     "PREPARING_LOCAL" payload (ptrInt64 (ip_SenderUserID inp)) (ptrInt64 (ip_SenderAccountID inp)))
     Hf2 (fk_tx_key w Hf _) (fk_length w Hf _) eq_refl)).
  destruct (created_runs txID payload a (next_step w1) Ha Hd Hdep Hab Hf2 _ eq_refl) as (o & w' & Hrun & H1 & H2 & H3 & H4 & H5).
  exists o, w'. split; [exact Hrun|]. rewrite H2. done.
Qed.
End coordinator.
