(* ===== verification/InterbankExamples.v ===== *)
(** * The interbank theorems applied to two concrete banks

    Bank A (265) has an account of client 7, bank B (111) one of client 8.  Client
    7 pays 12.50 dollars to client 8; the answers of the other bank are given by
    the environment. *)

From S2P Require Import Prelude Numeric DecimalModel Domain InterbankTables Tables Store StoreFacts OrderRepo.
From S2P Require Import Market FundsManager Scenario InterbankRepo InterbankExecutor.
From S2P Require Import InterbankCoordinator InterbankFacts InterbankSafety InterbankAgreement.
From S2P Require Import InterbankDelivery InterbankPayment.
From stdpp Require Import list sorting relations pretty.
#[local] Open Scope string_scope.
#[local] Open Scope Z_scope.

Module two_banks.
#[local] Existing Instance decimal_model.lib.

Definition bank_db (num : string) (owner : Z) : DB :=
  mkDB {[ 10 := mkRacun num owner "USD" LICNI AKTIVAN 100000 0 scenario.no_info ]} [] ∅ [] [] [] ∅ [] ∅ ∅ ∅ ∅ ∅ bank_empty otc_empty.

Definition wa0 : World := scenario.at_db (bank_db "265000000000000010" 7).
Definition wb0 : World := scenario.at_db (bank_db "111000000000000010" 8).

Definition ca : config := mkConfig 265 "265" 30 10 None.
Definition cb : config := mkConfig 111 "111" 30 10 None.

(** The environment in which the other bank answers as given. *)
Definition answering (now : Z) (uuid : nat -> string) (f : MessageType -> result (Z * Body)) : Env :=
  {| env_fault _ := false;
     env_listing := env_listing scenario.quiet;
     env_daily_change := env_daily_change scenario.quiet;
     env_mid_rates := env_mid_rates scenario.quiet;
     env_market_status := env_market_status scenario.quiet;
     env_rand := env_rand scenario.quiet;
     env_rand_float := env_rand_float scenario.quiet;
     env_now _ := now;
     env_ctx_done := env_ctx_done scenario.quiet;
     env_row_choice := env_row_choice scenario.quiet;
     env_price_tick := env_price_tick scenario.quiet;
     env_interference := env_interference scenario.quiet;
     env_json := env_json scenario.quiet;
     env_ticker := env_ticker scenario.quiet;
     env_uuid := uuid;
     env_peer _ m := f (im_MessageType m);
     env_listing_row := env_listing_row scenario.quiet |}.

Definition votes_yes : Env :=
  answering 100 pretty (fun ty => match ty with MessageNewTx => Ok (200, BodyVote vote_yes) | _ => Ok (204, BodyEmpty) end).

Definition payment : InterbankPaymentInput :=
  mkPaymentInput 7 10 "111000000000000010" (decimal.NewFromFloat (f64_lit 125 1)) "USD".

Definition pay (e : Env) :=
  InitiateInterbankPayment (cfg_routing ca) (cfg_routing cb) (cfg_prefix ca) (cfg_rates ca) (cfg_backoff ca)
    payment e wa0.


(** The run: A pays, B receives NEW_TX, then COMMIT_TX. *)
Definition wa1 : World := (pay votes_yes).2.
Definition no_message : InterbankMessage := mkMessage (mkKey 0 EmptyString) MessageNewTx BodyEmpty.
Definition sent (k : nat) : InterbankMessage := default no_message (w_sent wa1 !! k).
Definition wb1 : World := (receive cb (sent 0) scenario.quiet wb0).2.
Definition wb2 : World := (receive cb (sent 1) scenario.quiet wb1).2.
Definition the_tx : ForeignBankId := mkFid 265 "1".

Definition committedb (v : view) (fid : ForeignBankId) : bool :=
  existsb (fun kv => bool_decide (it_TransactionID kv.2 = fid) && bool_decide (it_Status kv.2 = TxStatusCommitted))
    (map_to_list (ib_txs v.1)).

Lemma committedb_sound v fid : committedb v fid = true -> committed v fid.
Proof.
  intros ([i row] & Hin & H)%existsb_exists. apply andb_prop in H as [H1%bool_decide_eq_true H2%bool_decide_eq_true].
  exists i, row. split; [|done]. by apply elem_of_map_to_list, list_elem_of_In.
Qed.

Lemma the_run : rtc (step ca cb) (mkBanks wa0 wb0) (mkBanks wa1 wb2).
Proof.
  assert (Hs : forall k, (k < 2)%nat -> sent k ∈ w_sent wa1).
  { intros k Hk. unfold sent.
    assert (Hl : length (w_sent wa1) = 2%nat) by (vm_compute; reflexivity).
    destruct (lookup_lt_is_Some_2 (w_sent wa1) k ltac:(lia)) as [m Hm]. rewrite Hm. by eapply list_elem_of_lookup_2. }
  eapply rtc_l; [|eapply rtc_l; [|eapply rtc_l; [|apply rtc_refl]]].
  - apply step_a. exact (acts_payment ca (cfg_routing cb) wa0 wa1 votes_yes payment _ (surjective_pairing (pay votes_yes))).
  - exact (deliver_to_b ca cb wa1 wb0 wb1 _ scenario.quiet _ (Hs 0%nat ltac:(lia)) (surjective_pairing _)).
  - exact (deliver_to_b ca cb wa1 wb1 wb2 _ scenario.quiet _ (Hs 1%nat ltac:(lia)) (surjective_pairing _)).
Qed.
End two_banks.

Import two_banks.

Lemma two_phase_agreement_witness :
  rtc (step (DL := decimal_model.lib) ca cb) (mkBanks wa0 wb0) (mkBanks wa1 wb2) /\
  committed (ib_view wb2) the_tx /\ committed (ib_view wa1) the_tx.
Proof.
  assert (Hb : committed (ib_view wb2) the_tx) by (apply committedb_sound; vm_compute; reflexivity).
  split; [exact the_run|]. split; [exact Hb|].
  refine (proj1 (two_phase_agreement ca cb (mkBanks wa0 wb0) (mkBanks wa1 wb2) the_tx _ _ _ the_run) _ Hb);
    [discriminate|reflexivity..].
Defined.

(** The body of NEW_TX, read back. *)
Definition the_body : Body := im_Message (sent 0).
Definition the_transaction : Transaction_ (@decimal.t decimal_model.lib) :=
  default (mkTx [] (mkFid 0 EmptyString)) (UnmarshalTransaction (DL := decimal_model.lib) the_body).

Lemma isBalanced_spec_witness :
  isBalanced (DL := decimal_model.lib) (tx_Postings the_transaction) = true /\
  (amount_of (L := decimal_model.laws) (is_asset (IdMoney "USD")) (tx_Postings the_transaction) == 0)%Q.
Proof.
  assert (Hb : UnmarshalTransaction (DL := decimal_model.lib) the_body = Some the_transaction).
  { unfold the_transaction. destruct (UnmarshalTransaction the_body) eqn:E; [reflexivity|].
    assert (is_Some (UnmarshalTransaction (DL := decimal_model.lib) the_body)) as [? Hs]
      by (apply (bool_decide_unpack _); vm_compute; exact I).
    rewrite Hs in E. discriminate E. }
  assert (Hbal : isBalanced (DL := decimal_model.lib) (tx_Postings the_transaction) = true)
    by (vm_compute; reflexivity).
  split; [exact Hbal|].
  exact (proj1 (isBalanced_spec (L := decimal_model.laws) the_body the_transaction Hb) Hbal (IdMoney "USD")).
Defined.

(** NEW_TX arrives twice at bank B. *)
Lemma incoming_at_most_once_witness :
  logged (sent 0) wb1 /\
  forall e r w2, receive (DL := decimal_model.lib) cb (sent 0) e wb1 = (r, w2) -> unchanged wb1 w2.
Proof.
  assert (H : receive (DL := decimal_model.lib) cb (sent 0) scenario.quiet wb0 =
              ((receive (DL := decimal_model.lib) cb (sent 0) scenario.quiet wb0).1, wb1)) by apply surjective_pairing.
  destruct (incoming_at_most_once cb (sent 0) scenario.quiet wb0 _ wb1 H) as [[[_ Hsame]|Hl] Hagain].
  - exfalso. assert (Hsz : size (ib_txs (w_ib wb1)) = 1%nat) by (vm_compute; reflexivity).
    rewrite Hsame in Hsz. vm_compute in Hsz. discriminate Hsz.
  - split; [exact Hl|]. intros e r w2. exact (Hagain e wb1 r w2 Hl).
Defined.

(** COMMIT_TX arrives twice at bank B. *)
Lemma redelivery_same_answer_witness :
  exists w3, receive (DL := decimal_model.lib) cb (sent 1) scenario.quiet wb2 = (Ok (ok_reply 204 None), w3) /\
             unchanged wb2 w3.
Proof.
  assert (Hr : (receive (DL := decimal_model.lib) cb (sent 1) scenario.quiet wb1).1 = Ok (ok_reply 204 None))
    by (vm_compute; reflexivity).
  assert (H : receive (DL := decimal_model.lib) cb (sent 1) scenario.quiet wb1 = (Ok (ok_reply 204 None), wb2)).
  { rewrite <- Hr. apply surjective_pairing. }
  exact (redelivery_same_answer cb (sent 1) scenario.quiet scenario.quiet wb1 (ok_reply 204 None) wb2
           scenario.quiet_no_faults scenario.quiet_no_faults H eq_refl).
Defined.

(** Client 7 pays; the other bank votes NO, then (in another world) answers that
    it has not finished. *)
Definition votes (a : result (Z * Body)) : Env := answering 100 (fun _ => "key") (fun _ => a).

Definition sender : racun := mkRacun "265000000000000010" 7 "USD" LICNI AKTIVAN 100000 0 scenario.no_info.

Lemma payment_payable : payable (L := decimal_model.laws) "265" payment "265000000000000010" 10 sender 1250 (w_db wa0).
Proof.
  split; try reflexivity; try discriminate; try (vm_compute; lia).
  - split; [reflexivity..|]. intros j r'. cbn [w_db wa0 scenario.at_db bank_db d_racun].
    intros [<- _]%lookup_singleton_Some _. reflexivity.
  - cbn. lia.
  - cbn. lia.
Defined.

Definition yes : result (Z * Body) := Ok (200, BodyVote vote_yes).
Definition not_finished : result (Z * Body) := Ok (202, BodyEmpty).

Lemma fresh_votes a : fresh_keys (votes a) 265 wa0.
Proof. split; intros; try reflexivity; try discriminate; cbn; lia. Defined.

Lemma payment_outcome_witness :
  (exists o w', InitiateInterbankPayment 265 111 "265" None 30 payment (votes yes) wa0 = (Ok o, w') /\
     w_db w' = money_after 10 sender 1250 (w_db wa0) Taken /\ o.1 = None) /\
  (exists o w', InitiateInterbankPayment 265 111 "265" None 30 payment (votes not_finished) wa0 = (Ok o, w') /\
     w_db w' = money_after 10 sender 1250 (w_db wa0) Held /\ o.1 <> None).
Proof.
  split.
  - destruct (payment_outcome (L := decimal_model.laws) (votes yes) (fun _ => eq_refl) 265 111 "265" None 30 payment
                "265000000000000010" 10 sender 1250 (w_db wa0) payment_payable yes wa0 (fun _ _ _ => eq_refl)
                eq_refl eq_refl eq_refl eq_refl eq_refl eq_refl (fresh_votes yes)) as (o & w' & Hrun & Hd & _ & Ho & _).
    exists o, w'. split; [exact Hrun|]. split; [exact Hd|]. exact (proj2 Ho eq_refl).
  - destruct (payment_outcome (L := decimal_model.laws) (votes not_finished) (fun _ => eq_refl) 265 111 "265" None 30
                payment "265000000000000010" 10 sender 1250 (w_db wa0) payment_payable not_finished wa0
                (fun _ _ _ => eq_refl) eq_refl eq_refl eq_refl eq_refl eq_refl eq_refl (fresh_votes not_finished))
      as (o & w' & Hrun & Hd & _ & Ho & _).
    exists o, w'. split; [exact Hrun|]. split; [exact Hd|]. intros H. discriminate (proj1 Ho H).
Defined.

(** The NEW_TX of a payment that could not be sent is delivered an hour later. *)
Definition later : Env := answering 3700 pretty (fun _ => Ok (204, BodyEmpty)).
Definition unsent : World := (pay scenario.quiet).2.

Lemma retry_batch_delivers_witness :
  exists w', processRetryBatch 10 30 later unsent = (Ok tt, w') /\
    length (to_send 10 (batch_rows 3700 (w_ib unsent))) = 1%nat /\
    forall m, m ∈ to_send 10 (batch_rows 3700 (w_ib unsent)) -> delivered w' m.
Proof.
  destruct (retry_batch_delivers 10 30 later (fun _ => eq_refl)
              (fun _ _ => ex_intro _ 204 (ex_intro _ BodyEmpty (conj eq_refl (or_intror eq_refl)))) unsent)
    as (w' & Hrun & _ & Hd).
  exists w'. split; [exact Hrun|]. split; [vm_compute; reflexivity|exact Hd].
Defined.
