(* ===== verification/GoMath.v ===== *)
(** * Go's standard library: map literals, [fmt], [math] and the calendar of [time] *)

From S2P Require Import Prelude Numeric.
From stdpp Require Import pretty.
From Stdlib Require Import SpecFloat.
#[local] Open Scope string_scope.
#[local] Open Scope Z_scope.

Fixpoint zeros (n : nat) : string :=
  match n with O => EmptyString | S n' => ("0" ++ zeros n')%string end.

(** [%0wd] of a number that is not negative. *)
Definition padded (w : nat) (z : Z) : string :=
  let s := pretty z in (zeros (w - String.length s) ++ s)%string.

(** A Go map literal read at a key. *)
Definition go_map_get (k : string) (m : list (string * float64)) : option float64 :=
  snd <$> List.find (fun kv => String.eqb kv.1 k) m.

(** ** The functions of Go's package [math] the loans use

    [math.Round], [math.Frexp], [math.Ldexp] and [math.Pow] with an integral
    exponent, on the binary64 of [SpecFloat].  [Pow] multiplies the mantissas of
    the repeated squares and adds their exponents, as the standard library does on
    every platform without an assembly version, so its rounding is the one of the
    program. *)
#[local] Open Scope Z_scope.

Module math.

(** Half away from zero, exact on every float64: the nearest integers of a float64
    with a fraction fit in its mantissa. *)
Definition Round (x : float64) : float64 :=
match x with
| S754_finite s m (Zneg k) =>
    let n := (Zpos m + 2 ^ (Zpos k - 1)) / 2 ^ Zpos k in
    match n with
    | Zpos p => binary_normalize f64_prec f64_emax (if s then Zneg p else Zpos p) 0 s
    | _ => S754_zero s
    end
| _ => x
end.

Definition Frexp (x : float64) : float64 * Z := SFfrexp f64_prec f64_emax x.
Definition Ldexp (x : float64) (e : Z) : float64 := SFldexp f64_prec f64_emax x e.

Definition half : float64 := f64_lit 5 1.

(** The loop of [Pow]: [i] is what is left of the exponent, the answer so far is
    [a1 * 2^ae], and the current power is [x1 * 2^xe]. *)
Fixpoint pow_loop (i : positive) (a1 : float64) (ae : Z) (x1 : float64) (xe : Z) : float64 * Z :=
if (xe <? - 2 ^ 12) || (2 ^ 12 <? xe) then (a1, ae + xe)
else
  let square := f64_mul x1 x1 in
  let '(x1', xe') := if f64_ltb square half then (f64_add square square, 2 * xe - 1)
                     else (square, 2 * xe) in
  match i with
  | xH => (f64_mul a1 x1, ae + xe)
  | xO i' => pow_loop i' a1 ae x1' xe'
  | xI i' => pow_loop i' (f64_mul a1 x1) (ae + xe) x1' xe'
  end.

(** [math.Pow(x, float64(n))] for [n > 0]. *)
Definition Pow (x : float64) (n : positive) : float64 :=
if f64_eqb x (f64_of_Z 1) then f64_of_Z 1
else if (n =? 1)%positive then x
else
  match x with
  | S754_nan => S754_nan
  | S754_zero s => S754_zero (s && negb (Z.even (Zpos n)))
  | S754_infinity s => S754_infinity (s && negb (Z.even (Zpos n)))
  | S754_finite _ _ _ =>
      let '(x1, xe) := Frexp x in
      let '(a1, ae) := pow_loop n (f64_of_Z 1) 0 x1 xe in
      Ldexp a1 ae
  end.

End math.

(** An int as a float64 and a power, tried on numbers with exact answers. *)
Example Pow_exact : math.Pow (f64_lit 15 1) 7 = f64_div (f64_of_Z (3 ^ 7)) (f64_of_Z (2 ^ 7)).
Proof. vm_compute. reflexivity. Qed.

Example Round_half : math.Round (f64_lit 25 1) = f64_of_Z 3 /\ math.Round (f64_lit (-25) 1) = f64_of_Z (-3).
Proof. split; vm_compute; reflexivity. Qed.

(** ** Dates: the calendar of Go's package [time]

    A DATE, and an instant at midnight UTC, is the number of its day, counted from
    1 January 1970; an instant is its number of seconds.  [AddDate] normalises as
    the standard library does: a day that the month does not have runs over into
    the next month. *)
#[local] Open Scope Z_scope.

Definition is_leap (y : Z) : bool :=
  (y mod 4 =? 0) && (negb (y mod 100 =? 0) || (y mod 400 =? 0)).

(** The days of the years 1 to [p]. *)
Definition days_of_years (p : Z) : Z := 365 * p + p / 4 - p / 100 + p / 400.

(** The days before month [m], from 0, of a year that is not a leap year. *)
Definition days_before : list Z := [0; 31; 59; 90; 120; 151; 181; 212; 243; 273; 304; 334].

Definition month_offset (leap : bool) (m : Z) : Z :=
  nth (Z.to_nat m) days_before 365 + (if leap && (2 <=? m) then 1 else 0).

(** The day of 1 January 1970, counted from 1 January of the year 1. *)
Definition unix_epoch : Z := days_of_years 1969.

(** The first day of month [m], from 0, of year [y]. *)
Definition month_start (y m : Z) : Z := days_of_years (y - 1) + month_offset (is_leap y) m - unix_epoch.

(** The year of a day and its number within the year, from 0. *)
Definition year_of (day : Z) : Z * Z :=
  let z := day + unix_epoch in
  let n400 := z / 146097 in
  let r400 := z mod 146097 in
  let n100 := Z.min 3 (r400 / 36524) in
  let r100 := r400 - 36524 * n100 in
  let n4 := r100 / 1461 in
  let r4 := r100 mod 1461 in
  let n1 := Z.min 3 (r4 / 365) in
  (400 * n400 + 100 * n100 + 4 * n4 + n1 + 1, r4 - 365 * n1).

(** The last month that starts on or before a day of the year. *)
Definition month_of (leap : bool) (yday : Z) : Z :=
  let past (m : Z) := if month_offset leap m <=? yday then 1 else 0 in
  zsum past [1; 2; 3; 4; 5; 6; 7; 8; 9; 10; 11].

(** [t.Date()]: the year, the month from 0, the day from 1. *)
Definition Date (day : Z) : Z * Z * Z :=
  let '(y, yday) := year_of day in
  let m := month_of (is_leap y) yday in
  (y, m, yday - month_offset (is_leap y) m + 1).

(** The first day of a month that may lie outside the year. *)
Definition nth_month (y k : Z) : Z := month_start (y + k / 12) (k mod 12).

(** [time.Date(y, m, d, ...)]. *)
Definition of_date (y m d : Z) : Z := nth_month y m + d - 1.

(** [t.AddDate(0, months, 0)]. *)
Definition AddDate (day months : Z) : Z :=
  let '(y, m, d) := Date day in of_date y (m + months) d.

(** [t.Truncate(24 * time.Hour)] of an instant: its day. *)
Definition truncate_day (now : Z) : Z := now / 86400.

(** ** Facts *)

Lemma div_succ p n : 0 < n -> (p + 1) / n = p / n + (if (p + 1) mod n =? 0 then 1 else 0).
Proof.
  intros Hn. destruct (Z.eqb_spec ((p + 1) mod n) 0) as [E|E].
  - replace p with (p + 1 - 1) at 2 by lia. symmetry.
    rewrite (Z.div_mod (p + 1) n) at 1 by lia. rewrite E.
    replace (n * ((p + 1) / n) + 0 - 1) with ((n - 1) + ((p + 1) / n - 1) * n) by lia.
    rewrite Z.div_add, Z.div_small by lia. lia.
  - pose proof (Z.mod_pos_bound (p + 1) n Hn).
    replace p with (p + 1 - 1) at 2 by lia.
    rewrite (Z.div_mod (p + 1) n) at 2 by lia.
    replace (n * ((p + 1) / n) + (p + 1) mod n - 1) with (((p + 1) mod n - 1) + (p + 1) / n * n) by lia.
    rewrite Z.div_add, (Z.div_small ((p + 1) mod n - 1)) by lia. lia.
Qed.

Lemma mod_factor a n k : 0 < n -> 0 < k -> a mod (n * k) = 0 -> a mod n = 0.
Proof.
  intros Hn Hk H. apply Z.mod_divide in H as [q ->]; [|lia].
  apply Z.mod_divide; [lia|]. exists (q * k). lia.
Qed.

Lemma leap_years p : days_of_years (p + 1) = days_of_years p + 365 + (if is_leap (p + 1) then 1 else 0).
Proof.
  unfold days_of_years, is_leap. rewrite !(div_succ p) by lia.
  pose proof (mod_factor (p + 1) 100 4 ltac:(lia) ltac:(lia)) as H400.
  pose proof (mod_factor (p + 1) 4 25 ltac:(lia) ltac:(lia)) as H100. cbn [Z.mul Pos.mul Pos.add] in *.
  destruct (Z.eqb_spec ((p + 1) mod 4) 0), (Z.eqb_spec ((p + 1) mod 100) 0), (Z.eqb_spec ((p + 1) mod 400) 0);
    cbn [andb orb negb]; try lia; exfalso; auto.
Qed.

Lemma month_offset_next leap m :
  0 <= m < 11 -> month_offset leap m + 28 <= month_offset leap (m + 1) <= month_offset leap m + 31.
Proof.
  intros H. assert (Hm : m = 0 \/ m = 1 \/ m = 2 \/ m = 3 \/ m = 4 \/ m = 5 \/ m = 6 \/ m = 7 \/ m = 8 \/ m = 9 \/ m = 10)
    by lia.
  destruct leap; repeat (destruct Hm as [->|Hm]; [vm_compute; split; discriminate|]); subst; vm_compute; split; discriminate.
Qed.

(** Consecutive months, over the end of a year too, are 28 to 31 days apart. *)
Lemma nth_month_next y k : nth_month y k + 28 <= nth_month y (k + 1) <= nth_month y k + 31.
Proof.
  unfold nth_month. destruct (Z.eq_dec (k mod 12) 11) as [E|E].
  - assert (H1 : (k + 1) mod 12 = 0) by (Z.to_euclidean_division_equations; lia).
    assert (H2 : (k + 1) / 12 = k / 12 + 1) by (Z.to_euclidean_division_equations; lia).
    rewrite E, H1, H2. set (q := y + k / 12). replace (y + (k / 12 + 1)) with (q + 1) by (unfold q; lia).
    clearbody q. clear E H1 H2. unfold month_start. pose proof (leap_years (q - 1)) as Hl.
    replace (q - 1 + 1) with q in Hl by lia. replace (q + 1 - 1) with q by lia. rewrite Hl.
    generalize (days_of_years (q - 1)), unix_epoch. intros p u.
    unfold month_offset. change (Z.to_nat 11) with 11%nat. change (Z.to_nat 0) with 0%nat.
    destruct (is_leap q), (is_leap (q + 1)); cbn; lia.
  - assert (H0 : 0 <= k mod 12 < 12) by (apply Z.mod_pos_bound; lia).
    assert (H1 : (k + 1) mod 12 = k mod 12 + 1) by (Z.to_euclidean_division_equations; lia).
    assert (H2 : (k + 1) / 12 = k / 12) by (Z.to_euclidean_division_equations; lia).
    rewrite H1, H2. unfold month_start.
    pose proof (month_offset_next (is_leap (y + k / 12)) (k mod 12) ltac:(lia)). lia.
Qed.

Lemma nth_month_mono y (n : nat) k :
  nth_month y k + 28 * Z.of_nat n <= nth_month y (k + Z.of_nat n) <= nth_month y k + 31 * Z.of_nat n.
Proof.
  induction n as [|n IH]; [replace (k + Z.of_nat 0) with k by lia; lia|].
  pose proof (nth_month_next y (k + Z.of_nat n)) as H.
  replace (k + Z.of_nat n + 1) with (k + Z.of_nat (S n)) in H by lia. lia.
Qed.

(** Later months give later dates. *)
Lemma AddDate_mono day i j : i < j -> AddDate day i < AddDate day j.
Proof.
  intros H. unfold AddDate. destruct (Date day) as [[y m] d]. unfold of_date.
  pose proof (nth_month_mono y (Z.to_nat (j - i)) (m + i)) as Hs.
  replace (m + i + Z.of_nat (Z.to_nat (j - i))) with (m + j) in Hs by lia. lia.
Qed.

(** The year of a day, and its number in it. *)
Lemma year_of_spec day y r : year_of day = (y, r) ->
  days_of_years (y - 1) + r = day + unix_epoch /\ 0 <= r /\ r < 365 + (if is_leap y then 1 else 0).
Proof.
  unfold year_of. generalize (day + unix_epoch). clear day. intros z. cbv zeta.
  set (a := z / 146097). set (r4 := z mod 146097). set (b := Z.min 3 (r4 / 36524)). set (r1 := r4 - 36524 * b).
  set (c := r1 / 1461). set (r2 := r1 mod 1461). set (d := Z.min 3 (r2 / 365)). intros [= <- <-].
  assert (Hz : z = 146097 * a + r4) by (apply Z.div_mod; lia).
  assert (H4 : 0 <= r4 < 146097) by (apply Z.mod_pos_bound; lia).
  assert (Hb : 0 <= b <= 3 /\ 0 <= r1 /\ (r1 < 36524 \/ b = 3 /\ r1 <= 36524))
    by (unfold r1, b; Z.to_euclidean_division_equations; lia).
  assert (H5 : r4 = 36524 * b + r1) by (unfold r1; lia).
  assert (H1 : r1 = 1461 * c + r2) by (apply Z.div_mod; lia).
  assert (H2 : 0 <= r2 < 1461) by (apply Z.mod_pos_bound; lia).
  assert (Hc : 0 <= c <= 24) by lia.
  assert (Hd : 0 <= d <= 3 /\ 0 <= r2 - 365 * d /\ (r2 - 365 * d < 365 \/ d = 3 /\ r2 - 365 * d = 365))
    by (unfold d; Z.to_euclidean_division_equations; lia).
  clearbody a r4 b r1 c r2 d.
  replace (400 * a + 100 * b + 4 * c + d + 1 - 1) with (400 * a + 100 * b + 4 * c + d) by lia.
  assert (E : days_of_years (400 * a + 100 * b + 4 * c + d) = 146097 * a + 36524 * b + 1461 * c + 365 * d).
  { unfold days_of_years.
    assert ((400 * a + 100 * b + 4 * c + d) / 4 = 100 * a + 25 * b + c) by (symmetry; apply (Z.div_unique _ _ _ d); lia).
    assert ((400 * a + 100 * b + 4 * c + d) / 100 = 4 * a + b) by (symmetry; apply (Z.div_unique _ _ _ (4 * c + d)); lia).
    assert ((400 * a + 100 * b + 4 * c + d) / 400 = a) by (symmetry; apply (Z.div_unique _ _ _ (100 * b + 4 * c + d)); lia).
    lia. }
  rewrite E. split; [lia|]. split; [lia|]. destruct Hd as (_ & _ & [Hd|[-> Hd]]); [destruct (is_leap _); lia|].
  assert (Hl : is_leap (400 * a + 100 * b + 4 * c + 3 + 1) = true); [|rewrite Hl; lia].
  unfold is_leap. apply andb_true_intro. split; [apply Z.eqb_eq; Z.to_euclidean_division_equations; lia|].
  destruct (decide (c = 24)) as [->|].
  - apply orb_true_intro. right. apply Z.eqb_eq. assert (b = 3) as -> by lia. Z.to_euclidean_division_equations; lia.
  - apply orb_true_intro. left. apply negb_true_iff, Z.eqb_neq. Z.to_euclidean_division_equations; lia.
Qed.

(** The month of a day of the year, for all of them. *)
Definition month_of_checks (leap : bool) (yday : nat) : bool :=
  let r := Z.of_nat yday in
  let m := month_of leap r in
  (0 <=? m) && (m <=? 11) && (month_offset leap m <=? r) &&
  (r <? (if m =? 11 then 365 + (if leap then 1 else 0) else month_offset leap (m + 1))).

Lemma month_of_spec (leap : bool) r : 0 <= r < 365 + (if leap then 1 else 0) ->
  0 <= month_of leap r <= 11 /\ month_offset leap (month_of leap r) <= r /\
  r < (if month_of leap r =? 11 then 365 + (if leap then 1 else 0) else month_offset leap (month_of leap r + 1)).
Proof.
  intros H.
  assert (F : forallb (month_of_checks leap) (seq 0 (if leap then 366 else 365)) = true) by (destruct leap; vm_compute; reflexivity).
  rewrite forallb_forall in F.
  assert (K : month_of_checks leap (Z.to_nat r) = true) by (apply F, in_seq; destruct leap; lia).
  unfold month_of_checks in K. rewrite Z2Nat.id in K by lia.
  repeat (apply andb_prop in K as [K ?]). lia.
Qed.

Lemma nth_month_in y m : 0 <= m <= 11 -> nth_month y m = month_start y m.
Proof. intros H. unfold nth_month. rewrite Z.div_small, Z.mod_small by lia. by rewrite Z.add_0_r. Qed.

(** Months counted from January of the year 0. *)
Lemma nth_month_index y k : nth_month y k = nth_month 0 (12 * y + k).
Proof.
  unfold nth_month. replace (12 * y + k) with (k + y * 12) by lia. rewrite Z.div_add, Z.mod_add by lia.
  f_equal. lia.
Qed.

Lemma nth_month_lt i j : i < j -> nth_month 0 i < nth_month 0 j.
Proof.
  intros H. pose proof (nth_month_mono 0 (Z.to_nat (j - i)) i) as K.
  replace (i + Z.of_nat (Z.to_nat (j - i))) with j in K by lia. lia.
Qed.

(** [t.Date()] and [time.Date] agree, and the day lies in its month. *)
Lemma Date_spec day y m d : Date day = (y, m, d) ->
  0 <= m <= 11 /\ of_date y m d = day /\ nth_month y m <= day < nth_month y (m + 1).
Proof.
  unfold Date. destruct (year_of day) as [y0 r] eqn:Ey. apply year_of_spec in Ey as (E & H0 & H1). intros [= <- <- <-].
  destruct (month_of_spec (is_leap y0) r) as (Hm & Hlo & Hhi); [lia|]. set (k := month_of (is_leap y0) r) in *. clearbody k.
  assert (Hs : nth_month y0 k = day - r + month_offset (is_leap y0) k) by (rewrite nth_month_in by lia; unfold month_start; lia).
  split; [lia|]. split; [unfold of_date; lia|]. split; [lia|].
  destruct (Z.eqb_spec k 11) as [->|Hk].
  - rewrite (nth_month_index y0 (11 + 1)). replace (12 * y0 + (11 + 1)) with (12 * (y0 + 1) + 0) by lia.
    rewrite <- nth_month_index, nth_month_in by lia. unfold month_start. replace (y0 + 1 - 1) with (y0 - 1 + 1) by lia.
    rewrite leap_years. replace (y0 - 1 + 1) with y0 by lia.
    assert (O : forall b, month_offset b 0 = 0) by (intros []; reflexivity). rewrite O. lia.
  - rewrite nth_month_in by lia. unfold month_start. lia.
Qed.

(** No other month holds the day. *)
Lemma Date_unique day y m : 0 <= m <= 11 -> nth_month y m <= day < nth_month y (m + 1) ->
  exists d, Date day = (y, m, d).
Proof.
  intros Hm H. destruct (Date day) as [[y0 m0] d0] eqn:E. apply Date_spec in E as (Hm0 & _ & H0).
  rewrite !(nth_month_index y), !(nth_month_index y0) in *.
  assert (12 * y + m = 12 * y0 + m0); [|assert (y = y0 /\ m = m0) as [-> ->] by lia; eauto].
  destruct (Z.lt_trichotomy (12 * y + m) (12 * y0 + m0)) as [L|[L|L]]; [exfalso| done|exfalso].
  - destruct (decide (12 * y + (m + 1) = 12 * y0 + m0)) as [Eq|]; [rewrite Eq in H; lia|].
    pose proof (nth_month_lt (12 * y + (m + 1)) (12 * y0 + m0)). lia.
  - destruct (decide (12 * y0 + (m0 + 1) = 12 * y + m)) as [Eq|]; [rewrite Eq in H0; lia|].
    pose proof (nth_month_lt (12 * y0 + (m0 + 1)) (12 * y + m)). lia.
Qed.

(** The first day of a month. *)
Lemma Date_first y m : 0 <= m <= 11 -> Date (nth_month y m) = (y, m, 1).
Proof.
  intros H. pose proof (nth_month_next y m) as Hn. destruct (Date_unique (nth_month y m) y m) as [d Hd]; [lia|lia|].
  pose proof Hd as (_ & E & _)%Date_spec. unfold of_date in E. rewrite Hd. repeat f_equal. lia.
Qed.

(** 31 January and a month is 2 or 3 March. *)
Example AddDate_overflow : AddDate (of_date 2023 0 31) 1 = of_date 2023 2 3 /\
  AddDate (of_date 2024 0 31) 1 = of_date 2024 2 2 /\ of_date 1970 0 1 = 0.
Proof. repeat split; vm_compute; reflexivity. Qed.
