(* ===== verification/Loans.v ===== *)
(** * Loans: the data and the arithmetic ([domain/kredit.go], [service/kredit_service.go])

    The Go structs of the loan module and the pure part of the service: the
    interest rate of a loan, its annuity and its amortization table, in float64.
    A status column is its enumeration; a date is a day number. *)

From S2P Require Import Prelude Numeric Domain Store GoMath.
From stdpp Require Import pretty.
From Stdlib Require Import SpecFloat.
#[local] Open Scope string_scope.
#[local] Open Scope Z_scope.

(** ** Structs *)

Record KreditniZahtev : Type := mkKreditniZahtev {
  z_ID : Z;
  z_VlasnikID : Z;
  z_VrstaKredita : string;
  z_TipKamate : string;
  z_IznosKredita : float64;
  z_Valuta : string;
  z_SvrhaKredita : string;
  z_IznosMesecnePlate : float64;
  z_StatusZaposlenja : string;
  z_PeriodZaposlenja : Z;
  z_KontaktTelefon : string;
  z_BrojRacuna : string;
  z_RokOtplate : Z;
  z_Status : StatusZahteva;
  z_DatumPodnosenja : Z
}.

Record Kredit : Type := mkKreditStruct {
  kr_ID : Z;
  kr_BrojKredita : string;
  kr_KreditniZahtevID : option Z;
  kr_BrojRacuna : string;
  kr_VlasnikID : Z;
  kr_VrstaKredita : string;
  kr_TipKamate : string;
  kr_IznosKredita : float64;
  kr_PeriodOtplate : Z;
  kr_NominalnaKamatnaStopa : float64;
  kr_EfektivnaKamatnaStopa : float64;
  kr_DatumUgovaranja : Z;
  kr_DatumIsplate : option Z;
  kr_IznosMesecneRate : float64;
  kr_DatumSledeceRate : option Z;
  kr_PreostaloDugovanje : float64;
  kr_Valuta : string;
  kr_Status : StatusKredita
}.

Record Rata : Type := mkRataStruct {
  rt_ID : Z;
  rt_KreditID : Z;
  rt_IznosRate : float64;
  rt_IznosKamate : float64;
  rt_Valuta : string;
  rt_OcekivaniDatumDospeca : Z;
  rt_PraviDatumDospeca : option Z;
  rt_StatusPlacanja : StatusPlacanja;
  rt_BrojPokusaja : Z;
  rt_SledecaPokusaj : option Z
}.

Record DueInstallment : Type := mkDueInstallment {
  du_RataID : Z;
  du_KreditID : Z;
  du_IznosRate : float64;
  du_Valuta : string;
  du_OcekivaniDatumDospeca : Z;
  du_BrojPokusaja : Z;
  du_SledecaPokusaj : option Z;
  du_BrojRacuna : string;
  du_VlasnikID : Z
}.

Record CreateKreditniZahtevInput : Type := mkCreateZahtev {
  cz_VlasnikID : Z;
  cz_VrstaKredita : string;
  cz_TipKamate : string;
  cz_IznosKredita : float64;
  cz_Valuta : string;
  cz_SvrhaKredita : string;
  cz_IznosMesecnePlate : float64;
  cz_StatusZaposlenja : string;
  cz_PeriodZaposlenja : Z;
  cz_KontaktTelefon : string;
  cz_BrojRacuna : string;
  cz_RokOtplate : Z
}.

Record RataInput : Type := mkRataInput {
  ri_IznosRate : float64;
  ri_IznosKamate : float64;
  ri_OcekivaniDatumDospeca : Z
}.

Record ApproveKreditInput : Type := mkApproveKredit {
  ak_ZahtevID : Z;
  ak_BrojKredita : string;
  ak_BrojRacuna : string;
  ak_VlasnikID : Z;
  ak_VrstaKredita : string;
  ak_TipKamate : string;
  ak_IznosKredita : float64;
  ak_PeriodOtplate : Z;
  ak_NominalnaKamatnaStopa : float64;
  ak_EfektivnaKamatnaStopa : float64;
  ak_DatumUgovaranja : Z;
  ak_IznosMesecneRate : float64;
  ak_DatumSledeceRate : Z;
  ak_PreostaloDugovanje : float64;
  ak_Valuta : string;
  ak_Rate : list RataInput
}.

Record ProcessInstallmentInput : Type := mkProcessInstallment {
  pr_RataID : Z;
  pr_KreditID : Z;
  pr_BrojRacuna : string;
  pr_IznosRate : float64;
  pr_Valuta : string
}.

(** An empty string means no filter. *)
Record GetPendingRequestsFilter : Type := mkPendingFilter {
  pf_VrstaKredita : string;
  pf_BrojRacuna : string
}.

Record GetAllCreditsFilter : Type := mkCreditsFilter {
  cf_VrstaKredita : string;
  cf_BrojRacuna : string;
  cf_Status : string
}.

(** ** Rates *)

(** Upper bounds in RSD, the last one being [math.MaxFloat64]. *)
Definition baseRateByAmount : list (float64 * float64) :=
  [(f64_of_Z 500000, f64_lit 625 4);
   (f64_of_Z 1000000, f64_lit 600 4);
   (f64_of_Z 5000000, f64_lit 575 4);
   (f64_of_Z 10000000, f64_lit 550 4);
   (f64_of_Z 20000000, f64_lit 525 4);
   (S754_finite false 9007199254740991 971, f64_lit 475 4)].

Definition marginByType : list (string * float64) :=
  [("GOTOVINSKI", f64_lit 175 4); ("STAMBENI", f64_lit 150 4); ("AUTO", f64_lit 125 4);
   ("REFINANSIRAJUCI", f64_lit 100 4); ("STUDENTSKI", f64_lit 75 4)].

Definition rsdEquivalentRates : list (string * float64) :=
  [("RSD", f64_of_Z 1); ("EUR", f64_of_Z 117); ("USD", f64_of_Z 108); ("CHF", f64_of_Z 122);
   ("GBP", f64_of_Z 137)].

Definition baseRateForAmount (rsdIznos : float64) : float64 :=
  match List.find (fun tier => f64_leb rsdIznos tier.1) baseRateByAmount with
  | Some tier => tier.2
  | None => f64_lit 475 4
  end.

Definition toRSD (iznos : float64) (valuta : string) : float64 :=
  match go_map_get valuta rsdEquivalentRates with
  | Some kurs => f64_mul iznos kurs
  | None => iznos
  end.

(** The yearly nominal rate of a loan; a type that is not in the map has margin 0. *)
Definition nominalna_stopa (iznos : float64) (valuta vrsta : string) : float64 :=
  f64_add (baseRateForAmount (toRSD iznos valuta)) (default f64_zero (go_map_get vrsta marginByType)).

(** ** Annuity and amortization *)

Definition roundCent (v : float64) : float64 := f64_div (math.Round (f64_mul v (f64_of_Z 100))) (f64_of_Z 100).

Definition izracunajAnuitet (P godisnjaNominalna : float64) (n : positive) : float64 :=
  let r := f64_div godisnjaNominalna (f64_of_Z 12) in
  if f64_eqb r f64_zero then roundCent (f64_div P (f64_of_Z (Zpos n)))
  else
    let faktor := math.Pow (f64_add (f64_of_Z 1) r) n in
    roundCent (f64_div (f64_mul P (f64_mul r faktor)) (f64_sub faktor (f64_of_Z 1))).

(** The effective rate, [(1 + r/12)^12 - 1]. *)
Definition efektivna_stopa (nominalnaGodisnja : float64) : float64 :=
  f64_sub (math.Pow (f64_add (f64_of_Z 1) (f64_div nominalnaGodisnja (f64_of_Z 12))) 12) (f64_of_Z 1).

(** What is left of the principal after an instalment of [otplata], never below 0. *)
Definition ostatak_glavnice (preostalo otplata : float64) : float64 :=
  let p := roundCent (f64_sub preostalo otplata) in if f64_ltb p f64_zero then f64_zero else p.

(** The rows from number [i] on, [n] of them, with [preostalo] left to pay: the
    last one pays what is left. *)
Fixpoint amortizacija (n : nat) (i : Z) (r preostalo mesecnaRata : float64) (prvaRata : Z) : list RataInput :=
  match n with
  | O => []
  | S n' =>
      let kamata := roundCent (f64_mul preostalo r) in
      let otplata := match n' with O => preostalo | _ => f64_sub mesecnaRata kamata end in
      let iznos := match n' with O => roundCent (f64_add kamata otplata) | _ => mesecnaRata end in
      mkRataInput iznos kamata (AddDate prvaRata i)
        :: amortizacija n' (i + 1) r (ostatak_glavnice preostalo otplata) mesecnaRata prvaRata
  end.

Definition generisuAmortizacionuTablicu (P godisnjaNominalna : float64) (n : positive)
    (mesecnaRata : float64) (prvaRata : Z) : list RataInput :=
  amortizacija (Pos.to_nat n) 0 (f64_div godisnjaNominalna (f64_of_Z 12)) P mesecnaRata prvaRata.

(** ** The number of a loan *)

(** The layout "20060102". *)
Definition format_date (day : Z) : string :=
  let '(y, m, d) := Date day in (padded 4 y ++ padded 2 (m + 1) ++ padded 2 d)%string.

(** Eight digits of [crypto/rand], whose reader does not fail. *)
Definition generateBrojKredita : M string :=
  n ← rand_Intn 100000000;
  now ← time_now;
  mret ("KRD-" ++ format_date (truncate_day now) ++ "-" ++ padded 8 n)%string.

(** ** Facts *)

Lemma amortizacija_length n i r p m d : length (amortizacija n i r p m d) = n.
Proof. revert i p. induction n as [|n IH]; intros i p; cbn; [done|]. by rewrite IH. Qed.

(** Row [k] falls due [i + k] months after the first. *)
Lemma amortizacija_dates n i r p m d k x :
  amortizacija n i r p m d !! k = Some x -> ri_OcekivaniDatumDospeca x = AddDate d (i + Z.of_nat k).
Proof.
  revert i p k. induction n as [|n IH]; intros i p k; [done|]. destruct k as [|k]; cbn [amortizacija].
  - intros [= <-]. cbn [ri_OcekivaniDatumDospeca]. f_equal. lia.
  - intros H. apply IH in H. rewrite H. f_equal. lia.
Qed.

(** 100000 RSD in cash for a year: 8 percent, twelve instalments, 8698.84 a month. *)
Example annuity_cash :
  let r := nominalna_stopa (f64_of_Z 100000) "RSD" "GOTOVINSKI" in
  r = f64_lit 8 2 /\ izracunajAnuitet (f64_of_Z 100000) r 12 = f64_lit 869884 2.
Proof. split; vm_compute; reflexivity. Qed.
