(* ===== verification/LoanRepo.v ===== *)
(** * The loan repository, the service over it and the daily job
    ([repository/kredit_repository.go], [service/kredit_service.go],
    [worker/installment_worker.go])

    The tables kreditni_zahtev, kredit and rata with the CHECK constraints, unique
    and foreign keys and column widths of migrations 000005 and 000006.  A float64
    goes to the server and comes back through the driver's conversions.  Texts of
    ledger rows and timestamps that no query reads are left out; rows that a query
    orders by a key they share come in an arbitrary, fixed order. *)

From S2P Require Import Prelude Numeric Domain Store StoreFacts OrderRepo Market FundsManager.
From S2P Require Import GoMath Loans.
From stdpp Require Import list sorting pretty.
#[local] Open Scope string_scope.
#[local] Open Scope Z_scope.

(** ** Statements *)

Definition update_zahtev id guard f (d : DB) : result (Z * DB) :=
  match update_row id guard f (d_kreditni_zahtev d) with
  | Ok (n, m) => Ok (n, set_kreditni_zahtev m d)
  | Err er => Err er
  end.
Definition update_kredit id guard f (d : DB) : result (Z * DB) :=
  match update_row id guard f (d_kredit d) with
  | Ok (n, m) => Ok (n, set_kredit m d)
  | Err er => Err er
  end.
Definition update_rata id guard f (d : DB) : result (Z * DB) :=
  match update_row id guard f (d_rata d) with
  | Ok (n, m) => Ok (n, set_rata m d)
  | Err er => Err er
  end.

Definition vrste_kredita : list string := ["GOTOVINSKI"; "STAMBENI"; "AUTO"; "REFINANSIRAJUCI"; "STUDENTSKI"].
Definition tipovi_kamate : list string := ["FIKSNI"; "VARIJABILNI"].
Definition statusi_zaposlenja : list string := ["STALNO"; "PRIVREMENO"; "NEZAPOSLEN"].

Definition racun_exists (num : string) (d : DB) : bool :=
  match racun_by_number num d with Some _ => true | None => false end.

(** [NUMERIC(7, 4)]. *)
Definition store_rate (q : Q) : option Z := numeric_store 7 10000 q.

Definition with_zahtev_status (s : StatusZahteva) (z : kreditniZahtevModel) : kreditniZahtevModel :=
  mkZahtev (kz_VlasnikID z) (kz_VrstaKredita z) (kz_TipKamate z) (kz_IznosKredita z) (kz_Valuta z)
    (kz_SvrhaKredita z) (kz_IznosMesecnePlate z) (kz_StatusZaposlenja z) (kz_PeriodZaposlenja z)
    (kz_KontaktTelefon z) (kz_BrojRacuna z) (kz_RokOtplate z) s (kz_DatumPodnosenja z).

(** The columns of [kredit] that change. *)
Definition with_kredit (nominalna : Z) (sledeca : option Z) (preostalo : Z) (s : StatusKredita)
    (k : kreditModel) : kreditModel :=
  mkKredit (k_BrojKredita k) (k_KreditniZahtevID k) (k_BrojRacuna k) (k_VlasnikID k) (k_VrstaKredita k)
    (k_TipKamate k) (k_IznosKredita k) (k_PeriodOtplate k) nominalna (k_EfektivnaKamatnaStopa k)
    (k_DatumUgovaranja k) (k_DatumIsplate k) (k_IznosMesecneRate k) sledeca preostalo (k_Valuta k) s.

(** The columns of [rata] that change. *)
Definition with_rata (pravi : option Z) (s : StatusPlacanja) (pokusaja : Z) (sledeci : option Z)
    (r : rataModel) : rataModel :=
  mkRata (ra_KreditID r) (ra_IznosRate r) (ra_IznosKamate r) (ra_Valuta r) (ra_OcekivaniDatumDospeca r)
    pravi s pokusaja sledeci.

Section repository.
Context `{DL : decimal.Lib}.

(** A NUMERIC(7, 4) column scanned into a float64. *)
Definition scan_rate (c : Z) : float64 := decimal.float64_of_numeric (numeric_val 10000 c).

(** [toDomain] of the three models. *)
Definition zahtev_toDomain (id : Z) (z : kreditniZahtevModel) : KreditniZahtev :=
  mkKreditniZahtev id (kz_VlasnikID z) (kz_VrstaKredita z) (kz_TipKamate z) (scan_cents (kz_IznosKredita z))
    (kz_Valuta z) (kz_SvrhaKredita z) (scan_cents (kz_IznosMesecnePlate z)) (kz_StatusZaposlenja z)
    (kz_PeriodZaposlenja z) (kz_KontaktTelefon z) (kz_BrojRacuna z) (kz_RokOtplate z) (kz_Status z)
    (kz_DatumPodnosenja z).

Definition kredit_toDomain (id : Z) (k : kreditModel) : Kredit :=
  mkKreditStruct id (k_BrojKredita k) (k_KreditniZahtevID k) (k_BrojRacuna k) (k_VlasnikID k)
    (k_VrstaKredita k) (k_TipKamate k) (scan_cents (k_IznosKredita k)) (k_PeriodOtplate k)
    (scan_rate (k_NominalnaKamatnaStopa k)) (scan_rate (k_EfektivnaKamatnaStopa k)) (k_DatumUgovaranja k)
    (k_DatumIsplate k) (scan_cents (k_IznosMesecneRate k)) (k_DatumSledeceRate k)
    (scan_cents (k_PreostaloDugovanje k)) (k_Valuta k) (k_Status k).

Definition rata_toDomain (id : Z) (r : rataModel) : Rata :=
  mkRataStruct id (ra_KreditID r) (scan_cents (ra_IznosRate r)) (scan_cents (ra_IznosKamate r)) (ra_Valuta r)
    (ra_OcekivaniDatumDospeca r) (ra_PraviDatumDospeca r) (ra_StatusPlacanja r) (ra_BrojPokusaja r)
    (ra_SledecaPokusaj r).

(** The row an INSERT stores for a struct, [None] when a column is too narrow. *)
Definition zahtev_row (inp : CreateKreditniZahtevInput) (now : Z) : option kreditniZahtevModel :=
  iznos ← store_cents (arg (cz_IznosKredita inp));
  plata ← store_cents (arg (cz_IznosMesecnePlate inp));
  Some (mkZahtev (cz_VlasnikID inp) (cz_VrstaKredita inp) (cz_TipKamate inp) iznos (cz_Valuta inp)
          (cz_SvrhaKredita inp) plata (cz_StatusZaposlenja inp) (cz_PeriodZaposlenja inp)
          (cz_KontaktTelefon inp) (cz_BrojRacuna inp) (cz_RokOtplate inp) NA_CEKANJU now).

Definition zahtev_check (z : kreditniZahtevModel) (d : DB) : bool :=
  bool_decide (kz_VrstaKredita z ∈ vrste_kredita) && bool_decide (kz_TipKamate z ∈ tipovi_kamate) &&
  bool_decide (kz_StatusZaposlenja z ∈ statusi_zaposlenja) && varchar 10 (kz_Valuta z) &&
  varchar 30 (kz_KontaktTelefon z) && (0 <? kz_IznosKredita z) && (0 <? kz_RokOtplate z) &&
  racun_exists (kz_BrojRacuna z) d.

Definition insert_zahtev (inp : CreateKreditniZahtevInput) (now i : Z) (d : DB)
    : result ((Z * kreditniZahtevModel) * DB) :=
  match zahtev_row inp now with
  | Some z =>
      if zahtev_check z d then
        match insert_row i z (d_kreditni_zahtev d) with
        | Ok m => Ok ((i, z), set_kreditni_zahtev m d)
        | Err er => Err er
        end
      else Err ErrDB
  | None => Err ErrDB
  end.

Definition kredit_row (k : Kredit) : option kreditModel :=
  iznos ← store_cents (arg (kr_IznosKredita k));
  nominalna ← store_rate (arg (kr_NominalnaKamatnaStopa k));
  efektivna ← store_rate (arg (kr_EfektivnaKamatnaStopa k));
  rata ← store_cents (arg (kr_IznosMesecneRate k));
  preostalo ← store_cents (arg (kr_PreostaloDugovanje k));
  Some (mkKredit (kr_BrojKredita k) (kr_KreditniZahtevID k) (kr_BrojRacuna k) (kr_VlasnikID k)
          (kr_VrstaKredita k) (kr_TipKamate k) iznos (kr_PeriodOtplate k) nominalna efektivna
          (kr_DatumUgovaranja k) (kr_DatumIsplate k) rata (kr_DatumSledeceRate k) preostalo
          (kr_Valuta k) (kr_Status k)).

Definition broj_used (broj : string) (m : gmap Z kreditModel) : bool :=
  existsb (fun kv : Z * kreditModel => String.eqb (k_BrojKredita kv.2) broj) (map_to_list m).

Definition kredit_check (k : kreditModel) (d : DB) : bool :=
  bool_decide (k_VrstaKredita k ∈ vrste_kredita) && bool_decide (k_TipKamate k ∈ tipovi_kamate) &&
  varchar 30 (k_BrojKredita k) && varchar 10 (k_Valuta k) && (0 <? k_IznosKredita k) &&
  (0 <? k_PeriodOtplate k) && negb (broj_used (k_BrojKredita k) (d_kredit d)) &&
  racun_exists (k_BrojRacuna k) d &&
  match k_KreditniZahtevID k with
  | Some id => match d_kreditni_zahtev d !! id with Some _ => true | None => false end
  | None => true
  end.

Definition insert_kredit (k : Kredit) (i : Z) (d : DB) : result (Z * DB) :=
  match kredit_row k with
  | Some row =>
      if kredit_check row d then
        match insert_row i row (d_kredit d) with
        | Ok m => Ok (i, set_kredit m d)
        | Err er => Err er
        end
      else Err ErrDB
  | None => Err ErrDB
  end.

Definition rata_row (kreditID : Z) (valuta : string) (ri : RataInput) : option rataModel :=
  iznos ← store_cents (arg (ri_IznosRate ri));
  kamata ← store_cents (arg (ri_IznosKamate ri));
  if (0 <? iznos) && (0 <=? kamata) && varchar 10 valuta
  then Some (mkRata kreditID iznos kamata valuta (ri_OcekivaniDatumDospeca ri) None NEPLACENO 0 None)
  else None.

(** The rows from id [i] on; gorm refuses an empty list. *)
Fixpoint rate_rows (i : Z) (rows : list rataModel) (m : gmap Z rataModel) : result (gmap Z rataModel) :=
  match rows with
  | [] => Ok m
  | r :: rows' => match insert_row i r m with Ok m' => rate_rows (i + 1) rows' m' | Err er => Err er end
  end.

Definition insert_rate (kreditID : Z) (valuta : string) (rate : list RataInput) (i : Z) (d : DB)
    : result (unit * DB) :=
  match rate, mapM (rata_row kreditID valuta) rate with
  | _ :: _, Some rows =>
      match rate_rows i rows (d_rata d) with
      | Ok m => Ok (tt, set_rata m d)
      | Err er => Err er
      end
  | _, _ => Err ErrDB
  end.

(** ** Requests *)

Definition CreateKreditniZahtev (inp : CreateKreditniZahtevInput) : M KreditniZahtev :=
  now ← time_now;
  '(id, z) ← sql_insert (insert_zahtev inp now);
  mret (zahtev_toDomain id z).

Definition GetKreditniZahtevByID (id : Z) : M KreditniZahtev :=
  row ← sql_read (fun d => d_kreditni_zahtev d !! id);
  match row with
  | Some z => mret (zahtev_toDomain id z)
  | None => throw ErrKreditniZahtevNotFound
  end.

Definition matches (filter value : string) : bool := String.eqb filter EmptyString || String.eqb value filter.

Definition GetPendingRequests (f : GetPendingRequestsFilter) : M (list KreditniZahtev) :=
  sql_read (fun d =>
    (fun kv : Z * kreditniZahtevModel => zahtev_toDomain kv.1 kv.2) <$>
      sort_by (fun kv => kz_DatumPodnosenja kv.2)
        (filter (fun kv => (bool_decide (kz_Status kv.2 = NA_CEKANJU) &&
             matches (pf_VrstaKredita f) (kz_VrstaKredita kv.2) &&
             matches (pf_BrojRacuna f) (kz_BrojRacuna kv.2)) = true) (map_to_list (d_kreditni_zahtev d)))).

(** The ledger row of a refusal. *)
Definition rejected_kredit (zahtevID : Z) (z : KreditniZahtev) (today : Z) : Kredit :=
  mkKreditStruct 0 ("REJ-" ++ pretty zahtevID)%string (Some (z_ID z)) (z_BrojRacuna z) (z_VlasnikID z)
    (z_VrstaKredita z) (z_TipKamate z) (z_IznosKredita z) (z_RokOtplate z) f64_zero f64_zero today None
    f64_zero None f64_zero (z_Valuta z) ODBIJEN.

Definition RejectKreditRequest (zahtevID : Z) : M unit :=
  Transaction (
    row ← sql_read (fun d => d_kreditni_zahtev d !! zahtevID);
    match row with
    | None => throw ErrKreditniZahtevNotFound
    | Some row =>
        if decide (kz_Status row = NA_CEKANJU) then
          sql (update_zahtev zahtevID (fun _ => true)
                 (fun z => Some (with_zahtev_status ZAHTEV_ODBIJEN z))) ;;
          now ← time_now;
          sql_insert (insert_kredit (rejected_kredit zahtevID (zahtev_toDomain zahtevID row)
                                       (truncate_day now))) ;;
          mret tt
        else throw ErrZahtevVecObradjen
    end).

(** ** Approval *)

Definition approved_kredit (inp : ApproveKreditInput) (id today : Z) : Kredit :=
  mkKreditStruct id (ak_BrojKredita inp) (Some (ak_ZahtevID inp)) (ak_BrojRacuna inp) (ak_VlasnikID inp)
    (ak_VrstaKredita inp) (ak_TipKamate inp) (ak_IznosKredita inp) (ak_PeriodOtplate inp)
    (ak_NominalnaKamatnaStopa inp) (ak_EfektivnaKamatnaStopa inp) (ak_DatumUgovaranja inp) (Some today)
    (ak_IznosMesecneRate inp) (Some (ak_DatumSledeceRate inp)) (ak_PreostaloDugovanje inp)
    (ak_Valuta inp) ODOBREN.

(** Step 1 and 2: the request becomes ODOBREN, or the error says why not; the
    error of the count is ignored and leaves 0. *)
Definition take_request (zahtevID : Z) : M unit :=
  rows ← sql (update_zahtev zahtevID (fun z => bool_decide (kz_Status z = NA_CEKANJU))
                (fun z => Some (with_zahtev_status ZAHTEV_ODOBREN z)));
  if rows =? 0 then
    count ← try (sql_read (fun d => match d_kreditni_zahtev d !! zahtevID with Some _ => 1 | None => 0 end));
    match count with
    | Ok 1 => throw ErrZahtevVecObradjen
    | _ => throw ErrKreditniZahtevNotFound
    end
  else mret tt.

(** The treasury's account in a currency. *)
Definition trezor_account (valuta : string) : M Z :=
  id ← fetchCurrencyTrezorID valuta;
  if id =? 0 then throw (ErrMsg "pronalazenje trezorskog racuna") else mret id.

Definition klijent_account (num : string) : M Z :=
  r ← sql_read (racun_by_number num);
  match r with
  | Some (id, _) => if id =? 0 then throw (ErrMsg "pronalazenje racuna klijenta") else mret id
  | None => throw (ErrMsg "pronalazenje racuna klijenta")
  end.

Definition ApproveKreditRequest (inp : ApproveKreditInput) : M Kredit :=
  Transaction (
    take_request (ak_ZahtevID inp) ;;
    now ← time_now;
    let today := truncate_day now in
    id ← sql_insert (insert_kredit (approved_kredit inp 0 today));
    sql_insert_many (length (ak_Rate inp)) (insert_rate id (ak_Valuta inp) (ak_Rate inp)) ;;
    trezorRacunID ← trezor_account (ak_Valuta inp);
    klijentRacunID ← klijent_account (ak_BrojRacuna inp);
    time_now ;;
    let q := arg (ak_IznosKredita inp) in
    exec_racun trezorRacunID (sub_stanje q) ;;
    sql (insert_transakcija [(trezorRacunID, ISPLATA, q)]) ;;
    exec_racun klijentRacunID (add_stanje q) ;;
    sql (insert_transakcija [(klijentRacunID, UPLATA, q)]) ;;
    mret (approved_kredit inp id today)).

(** ** Queries on loans *)

Definition GetKreditByID (id : Z) : M Kredit :=
  row ← sql_read (fun d => d_kredit d !! id);
  match row with Some k => mret (kredit_toDomain id k) | None => throw ErrKreditNotFound end.

Definition GetKreditsByVlasnik (vlasnikID : Z) : M (list Kredit) :=
  sql_read (fun d =>
    (fun kv : Z * kreditModel => kredit_toDomain kv.1 kv.2) <$>
      sort_by (fun kv => - k_IznosKredita kv.2)
        (filter (fun kv => k_VlasnikID kv.2 = vlasnikID) (map_to_list (d_kredit d)))).

Definition status_text (s : StatusKredita) : string :=
  match s with
  | ODOBREN => "ODOBREN" | OTPLACEN => "OTPLACEN" | U_KASNJENJU => "U_KASNJENJU" | ODBIJEN => "ODBIJEN"
  end.

Definition GetAllCredits (f : GetAllCreditsFilter) : M (list Kredit) :=
  sql_read (fun d =>
    (fun kv : Z * kreditModel => kredit_toDomain kv.1 kv.2) <$>
      merge_sort (by_text (fun kv => k_BrojRacuna kv.2))
        (filter (fun kv => (matches (cf_VrstaKredita f) (k_VrstaKredita kv.2) &&
             matches (cf_BrojRacuna f) (k_BrojRacuna kv.2) &&
             matches (cf_Status f) (status_text (k_Status kv.2))) = true) (map_to_list (d_kredit d)))).

Definition parse_status (s : string) : option StatusKredita :=
  List.find (fun st => String.eqb (status_text st) s) [ODOBREN; OTPLACEN; U_KASNJENJU; ODBIJEN].

Definition set_kredit_status (s : StatusKredita) (k : kreditModel) : kreditModel :=
  with_kredit (k_NominalnaKamatnaStopa k) (k_DatumSledeceRate k) (k_PreostaloDugovanje k) s k.

Definition UpdateKreditStatus (kreditID : Z) (status : string) : M unit :=
  rows ← sql (update_kredit kreditID (fun _ => true)
                (fun k => s ← parse_status status; Some (set_kredit_status s k)));
  if rows =? 0 then throw ErrKreditNotFound else mret tt.

(** ** Instalments *)

Definition rate_of (kreditID : Z) (d : DB) : list (Z * rataModel) :=
  filter (fun kv => ra_KreditID kv.2 = kreditID) (map_to_list (d_rata d)).

Definition GetInstallmentsByKredit (kreditID : Z) : M (list Rata) :=
  sql_read (fun d =>
    (fun kv : Z * rataModel => rata_toDomain kv.1 kv.2) <$>
      sort_by (fun kv => ra_OcekivaniDatumDospeca kv.2) (rate_of kreditID d)).

(** A row of the join with [kredit], for a loan with status ODOBREN. *)
Definition due_row (d : DB) (kv : Z * rataModel) : option DueInstallment :=
  k ← d_kredit d !! ra_KreditID kv.2;
  if decide (k_Status k = ODOBREN) then
    Some (mkDueInstallment kv.1 (ra_KreditID kv.2) (scan_cents (ra_IznosRate kv.2)) (ra_Valuta kv.2)
            (ra_OcekivaniDatumDospeca kv.2) (ra_BrojPokusaja kv.2) (ra_SledecaPokusaj kv.2)
            (k_BrojRacuna k) (k_VlasnikID k))
  else None.

Definition is_due (asOf : Z) (kv : Z * rataModel) : Prop :=
  ra_StatusPlacanja kv.2 = NEPLACENO /\ ra_OcekivaniDatumDospeca kv.2 <= truncate_day asOf.
#[export] Instance is_due_dec asOf kv : Decision (is_due asOf kv).
Proof. unfold is_due. apply _. Defined.

Definition is_retry (asOf : Z) (kv : Z * rataModel) : Prop :=
  ra_StatusPlacanja kv.2 = KASNI /\
  match ra_SledecaPokusaj kv.2 with Some t => t <= asOf | None => False end.
#[export] Instance is_retry_dec asOf kv : Decision (is_retry asOf kv).
Proof. unfold is_retry. destruct (ra_SledecaPokusaj kv.2); apply _. Defined.

Definition GetDueInstallments (asOf : Z) : M (list DueInstallment) :=
  sql_read (fun d => omap (due_row d)
    (sort_by (fun kv => ra_OcekivaniDatumDospeca kv.2) (filter (is_due asOf) (map_to_list (d_rata d))))).

Definition GetRetryInstallments (asOf : Z) : M (list DueInstallment) :=
  sql_read (fun d => omap (due_row d)
    (sort_by (fun kv => default 0 (ra_SledecaPokusaj kv.2))
       (filter (is_retry asOf) (map_to_list (d_rata d))))).

(** The instalment paid on a day. *)
Definition pay_rata (today : Z) (r : rataModel) : option rataModel :=
  n ← store_int (ra_BrojPokusaja r + 1);
  Some (with_rata (Some today) PLACENO n (ra_SledecaPokusaj r) r).

(** The earliest unpaid date of a loan. *)
Definition next_unpaid (kreditID : Z) (d : DB) : option Z :=
  head (sort_by id (ra_OcekivaniDatumDospeca <$>
    (snd <$> filter (fun kv => ra_StatusPlacanja kv.2 = NEPLACENO) (rate_of kreditID d)))).

Definition advance_kredit (day : Z) (q : Q) (k : kreditModel) : option kreditModel :=
  p ← store_cents (cents (k_PreostaloDugovanje k) - q);
  Some (with_kredit (k_NominalnaKamatnaStopa k) (Some day) p (k_Status k) k).

Definition close_kredit (k : kreditModel) : option kreditModel :=
  Some (with_kredit (k_NominalnaKamatnaStopa k) None 0 OTPLACEN k).

(** Steps 4 to 5: the money moves to the treasury and the instalment is paid. *)
Definition collect (inp : ProcessInstallmentInput) (racunID : Z) : M unit :=
  let q := arg (pr_IznosRate inp) in
  exec_racun racunID (sub_stanje q) ;;
  now ← time_now;
  sql (insert_transakcija [(racunID, ISPLATA, q)]) ;;
  trezorRacunID ← trezor_account (pr_Valuta inp);
  exec_racun trezorRacunID (add_stanje q) ;;
  sql (insert_transakcija [(trezorRacunID, UPLATA, q)]) ;;
  sql (update_rata (pr_RataID inp) (fun _ => true) (pay_rata (truncate_day now))) ;;
  mret tt.

(** Steps 6 to 8. *)
Definition advance (inp : ProcessInstallmentInput) : M unit :=
  nextDue ← sql_read (next_unpaid (pr_KreditID inp));
  match nextDue with
  | Some day => sql (update_kredit (pr_KreditID inp) (fun _ => true) (advance_kredit day (arg (pr_IznosRate inp))))
  | None => sql (update_kredit (pr_KreditID inp) (fun _ => true) close_kredit)
  end ;;
  mret tt.

Definition ProcessInstallmentPayment (inp : ProcessInstallmentInput) : M unit :=
  Transaction (
    row ← sql_read (fun d => d_rata d !! pr_RataID inp);
    match row with
    | None => throw ErrRataNotFound
    | Some rata =>
        if decide (ra_StatusPlacanja rata = PLACENO) then throw ErrRataVecPlacena
        else
          account ← sql_read (racun_by_number (pr_BrojRacuna inp));
          match account with
          | None => throw (ErrMsg "dohvat racuna za naplatu")
          | Some (racunID, r) =>
              if f64_ltb (scan_cents (r_stanje_racuna r)) (pr_IznosRate inp) then throw ErrInsufficientFunds
              else collect inp racunID ;; advance inp
          end
    end).

Definition fail_rata (nextRetry : Z) (r : rataModel) : option rataModel :=
  n ← store_int (ra_BrojPokusaja r + 1);
  Some (with_rata (ra_PraviDatumDospeca r) KASNI n (Some nextRetry) r).

Definition MarkInstallmentFailed (rataID nextRetry : Z) : M unit :=
  sql (update_rata rataID (fun _ => true) (fail_rata nextRetry)) ;; mret tt.

Definition penalize (q : Q) (k : kreditModel) : option kreditModel :=
  n ← store_rate (numeric_val 10000 (k_NominalnaKamatnaStopa k) + q);
  Some (with_kredit n (k_DatumSledeceRate k) (k_PreostaloDugovanje k) (k_Status k) k).

Definition ApplyLatePaymentPenalty (kreditID : Z) (penaltyPercent : float64) : M unit :=
  Transaction (
    sql (update_kredit kreditID (fun _ => true) (penalize (arg penaltyPercent))) ;;
    sql (update_kredit kreditID (fun k => bool_decide (k_Status k = ODOBREN))
           (fun k => Some (set_kredit_status U_KASNJENJU k))) ;;
    mret tt).

End repository.

(** ** The loan service and the instalment worker ([service/kredit_service.go],
    [worker/installment_worker.go])

    Requests of clients and employees, and the daily job that collects the
    instalments.  E-mail notifications and log lines are left out: their errors do
    not change what the job does. *)

Section service.
Context `{DL : decimal.Lib}.

(** ** Requests of clients *)

Definition check_application (inp : CreateKreditniZahtevInput) : result unit :=
  if f64_leb (cz_IznosKredita inp) f64_zero then Err (ErrMsg "iznos kredita mora biti veci od 0")
  else if cz_RokOtplate inp <=? 0 then Err (ErrMsg "rok otplate mora biti veci od 0")
  else if String.eqb (cz_BrojRacuna inp) EmptyString then Err (ErrMsg "broj racuna ne sme biti prazan")
  else match go_map_get (cz_VrstaKredita inp) marginByType with
       | None => Err (ErrMsg "nepoznata vrsta kredita")
       | Some _ =>
           if negb (String.eqb (cz_TipKamate inp) "FIKSNI") && negb (String.eqb (cz_TipKamate inp) "VARIJABILNI")
           then Err (ErrMsg "tip kamate mora biti FIKSNI ili VARIJABILNI")
           else Ok tt
       end.

Definition ApplyForCredit (inp : CreateKreditniZahtevInput) : M KreditniZahtev :=
  of_result (check_application inp) ;; CreateKreditniZahtev inp.

Definition GetClientCredits (vlasnikID : Z) : M (list Kredit) := GetKreditsByVlasnik vlasnikID.

Definition GetCreditDetails (kreditID vlasnikID : Z) : M (Kredit * list Rata) :=
  kredit ← GetKreditByID kreditID;
  if negb (kr_VlasnikID kredit =? vlasnikID) then throw ErrKreditForbidden
  else rate ← GetInstallmentsByKredit kreditID; mret (kredit, rate).

(** ** Requests of employees *)

Definition GetAllPendingRequests (f : GetPendingRequestsFilter) : M (list KreditniZahtev) := GetPendingRequests f.

(** The input of the approval of [zahtev] for [n] months, today. *)
Definition approve_input (zahtevID : Z) (zahtev : KreditniZahtev) (n : positive) (brojKredita : string) (today : Z)
    : ApproveKreditInput :=
  let nominalnaGodisnja := nominalna_stopa (z_IznosKredita zahtev) (z_Valuta zahtev) (z_VrstaKredita zahtev) in
  let mesecnaRata := izracunajAnuitet (z_IznosKredita zahtev) nominalnaGodisnja n in
  let prvaRata := AddDate today 1 in
  mkApproveKredit zahtevID brojKredita (z_BrojRacuna zahtev) (z_VlasnikID zahtev) (z_VrstaKredita zahtev)
    (z_TipKamate zahtev) (z_IznosKredita zahtev) (z_RokOtplate zahtev)
    (f64_mul nominalnaGodisnja (f64_of_Z 100)) (f64_mul (efektivna_stopa nominalnaGodisnja) (f64_of_Z 100))
    today mesecnaRata prvaRata (z_IznosKredita zahtev) (z_Valuta zahtev)
    (generisuAmortizacionuTablicu (z_IznosKredita zahtev) nominalnaGodisnja n mesecnaRata prvaRata).

(** A term that is not positive panics: [make] of a negative length, or the first
    row of an empty table in the log line. *)
Definition ApproveCredit (zahtevID : Z) : M Kredit :=
  zahtev ← GetKreditniZahtevByID zahtevID;
  if decide (z_Status zahtev = NA_CEKANJU) then
    now ← time_now;
    match z_RokOtplate zahtev with
    | Zpos n =>
        brojKredita ← generateBrojKredita;
        ApproveKreditRequest (approve_input zahtevID zahtev n brojKredita (truncate_day now))
    | _ => throw Panic
    end
  else throw ErrZahtevVecObradjen.

(** 72 hours. *)
Definition first_retry_after : Z := 72 * 3600.

Definition installment_input (rataID kreditID : Z) (num : string) (iznos : float64) (valuta : string)
    : ProcessInstallmentInput :=
  mkProcessInstallment rataID kreditID num iznos valuta.

(** Whether funds were missing, and the time of the next attempt. *)
Definition ProcessFirstInstallment (kreditID : Z) : M (bool * Z) :=
  rate ← GetInstallmentsByKredit kreditID;
  match rate with
  | [] => mret (false, 0)
  | prva :: _ =>
      kredit ← GetKreditByID kreditID;
      r ← try (ProcessInstallmentPayment
                 (installment_input (rt_ID prva) kreditID (kr_BrojRacuna kredit) (rt_IznosRate prva)
                    (rt_Valuta prva)));
      match r with
      | Ok _ | Err ErrRataVecPlacena => mret (false, 0)
      | Err ErrInsufficientFunds =>
          now ← time_now;
          let retry := now + first_retry_after in
          try (MarkInstallmentFailed (rt_ID prva) retry) ;;
          mret (true, retry)
      | Err er => throw er
      end
  end.

Definition RejectCredit (zahtevID : Z) : M unit := RejectKreditRequest zahtevID.

Definition GetAllApprovedCredits (f : GetAllCreditsFilter) : M (list Kredit) := GetAllCredits f.

(** The handler's approval: the first instalment is collected at once, and its
    error is logged only. *)
Definition approve_and_collect (zahtevID : Z) : M Kredit :=
  kredit ← ApproveCredit zahtevID;
  try (ProcessFirstInstallment (kr_ID kredit)) ;;
  mret kredit.

(** ** The worker *)

(** [retryAfter] in seconds, [penaltyPct] the percentage added to the rate. *)
Context (retryAfter : Z) (penaltyPct : float64).

Definition handleFirstFailure (due : DueInstallment) : M unit :=
  now ← time_now;
  try (MarkInstallmentFailed (du_RataID due) (now + retryAfter)) ;; mret tt.

Definition handleSecondFailure (due : DueInstallment) : M unit :=
  try (ApplyLatePaymentPenalty (du_KreditID due) penaltyPct) ;; mret tt.

Definition due_input (due : DueInstallment) : ProcessInstallmentInput :=
  installment_input (du_RataID due) (du_KreditID due) (du_BrojRacuna due) (du_IznosRate due) (du_Valuta due).

Definition attemptPayment (isRetry : bool) (due : DueInstallment) : M bool :=
  r ← try (ProcessInstallmentPayment (due_input due));
  match r with
  | Ok _ | Err ErrRataVecPlacena => mret true
  | Err ErrInsufficientFunds =>
      (if isRetry then handleSecondFailure due else handleFirstFailure due) ;; mret false
  | Err _ => mret false
  end.

(** The number of instalments and of those collected. *)
Fixpoint attempt_all (isRetry : bool) (l : list DueInstallment) (total ok : Z) : M (Z * Z) :=
  match l with
  | [] => mret (total, ok)
  | due :: l' =>
      paid ← attemptPayment isRetry due;
      attempt_all isRetry l' (total + 1) (if (paid : bool) then ok + 1 else ok)
  end.

Definition processFirstAttempts (asOf : Z) : M (Z * Z) :=
  dueList ← try (GetDueInstallments asOf);
  match dueList with
  | Ok l => attempt_all false l 0 0
  | Err _ => mret (0, 0)
  end.

Definition processRetryAttempts (asOf : Z) : M (Z * Z) :=
  retryList ← try (GetRetryInstallments asOf);
  match retryList with
  | Ok l => attempt_all true l 0 0
  | Err _ => mret (0, 0)
  end.

Definition runDailyJob : M unit :=
  now ← time_now;
  processFirstAttempts now ;;
  processRetryAttempts now ;;
  mret tt.

(** The ticker: [fuel] ticks at most, while the others work in between. *)
Fixpoint worker_loop (fuel : nat) : M unit :=
  match fuel with
  | O => mret tt
  | S fuel' =>
      sleep ;;
      stop ← ctx_done;
      if (stop : bool) then mret tt else runDailyJob ;; worker_loop fuel'
  end.

Definition Start (fuel : nat) : M unit := runDailyJob ;; worker_loop fuel.

End service.
