(* ===== verification/LoanFacts.v ===== *)
(** * What the statements and transactions on loans did

    Inversion of the runs that succeed: the rows an operation of [LoanRepo] read,
    and the tables it left. *)

From S2P Require Import Prelude Numeric Domain Store StoreFacts OrderRepo Market FundsManager.
From S2P Require Import FundsFacts FundsSafety FundsTransfers GoMath Loans LoanRepo.
From stdpp Require Import list sorting.
#[local] Open Scope Z_scope.

(** ** Queries *)

Lemma racun_by_number_Some num d id r :
  racun_by_number num d = Some (id, r) -> d_racun d !! id = Some r /\ r_broj_racuna r = num.
Proof.
  unfold racun_by_number. intros H.
  assert (Hin : (id, r) ∈ filter (fun kv : Z * racun => r_broj_racuna kv.2 = num) (map_to_list (d_racun d)))
    by (destruct (filter _ _); [discriminate|injection H as ->; left]).
  apply list_elem_of_filter in Hin as [Hn Hr]. by apply elem_of_map_to_list in Hr.
Qed.

Lemma rate_of_in kid d i r : (i, r) ∈ rate_of kid d <-> d_rata d !! i = Some r /\ ra_KreditID r = kid.
Proof.
  unfold rate_of. rewrite list_elem_of_filter, elem_of_map_to_list. cbn. tauto.
Qed.

(** No date: no instalment of the loan is unpaid. *)
Lemma next_unpaid_None kid d :
  next_unpaid kid d = None <->
  forall i r, d_rata d !! i = Some r -> ra_KreditID r = kid -> ra_StatusPlacanja r <> NEPLACENO.
Proof.
  unfold next_unpaid.
  set (l := filter (fun kv : Z * rataModel => ra_StatusPlacanja kv.2 = NEPLACENO) (rate_of kid d)).
  assert (Hl : forall i r, (i, r) ∈ l <->
            ra_StatusPlacanja r = NEPLACENO /\ d_rata d !! i = Some r /\ ra_KreditID r = kid).
  { intros i r. unfold l. rewrite list_elem_of_filter, rate_of_in. done. }
  split.
  - intros H i r Hr Hk Hs.
    assert (Hin : ra_OcekivaniDatumDospeca r ∈ sort_by id (ra_OcekivaniDatumDospeca <$> (snd <$> l))).
    { apply sort_by_in. apply list_elem_of_fmap. exists r. split; [done|].
      apply list_elem_of_fmap. exists (i, r). split; [done|]. by apply Hl. }
    destruct (sort_by _ _); [by apply elem_of_nil in Hin|discriminate].
  - intros H. destruct l as [|[i r] l'] eqn:E.
    + reflexivity.
    + exfalso. destruct (proj1 (Hl i r) ltac:(left)) as (Hs & Hr & Hk). by apply (H i r).
Qed.

(** Only the instalments matter. *)
Lemma next_unpaid_rata kid d d' : d_rata d = d_rata d' -> next_unpaid kid d = next_unpaid kid d'.
Proof. unfold next_unpaid, rate_of. by intros ->. Qed.

(** ** Statements *)

Lemma update_kredit_ok id g f e w n w' :
  sql (update_kredit id g f) e w = (Ok n, w') ->
  exists m, update_row id g f (d_kredit (w_db w)) = Ok (n, m) /\ w_db w' = set_kredit m (w_db w).
Proof.
  intros H. apply sql_ok in H as (d & H & -> & _). unfold update_kredit in H.
  destruct (update_row _ _ _ _) as [[k m]|] eqn:E; [|discriminate]. injection H as <- <-. by exists m.
Qed.

Lemma update_rata_ok id g f e w n w' :
  sql (update_rata id g f) e w = (Ok n, w') ->
  exists m, update_row id g f (d_rata (w_db w)) = Ok (n, m) /\ w_db w' = set_rata m (w_db w).
Proof.
  intros H. apply sql_ok in H as (d & H & -> & _). unfold update_rata in H.
  destruct (update_row _ _ _ _) as [[k m]|] eqn:E; [|discriminate]. injection H as <- <-. by exists m.
Qed.

Lemma update_zahtev_ok id g f e w n w' :
  sql (update_zahtev id g f) e w = (Ok n, w') ->
  exists m, update_row id g f (d_kreditni_zahtev (w_db w)) = Ok (n, m) /\
    w_db w' = set_kreditni_zahtev m (w_db w).
Proof.
  intros H. apply sql_ok in H as (d & H & -> & _). unfold update_zahtev in H.
  destruct (update_row _ _ _ _) as [[k m]|] eqn:E; [|discriminate]. injection H as <- <-. by exists m.
Qed.

Lemma fetch_trezor_ok c e w t w' :
  fetchCurrencyTrezorID c e w = (Ok t, w') ->
  w_db w' = w_db w /\
  (t <> 0 -> exists r, d_racun (w_db w) !! t = Some r /\ r_id_vlasnika r = trezor_owner /\ r_oznaka r = c).
Proof.
  unfold fetchCurrencyTrezorID. intros H.
  apply try_bind in H as (r0 & w1 & H1 & H). apply bind_ok in H as (k & w2 & [= <- <-] & [= <- <-]).
  destruct r0 as [ids|er].
  - apply sql_read_ok in H1 as [-> Hd]. cbn. split; [done|]. intros Hne.
    destruct (racun_ids trezor_owner c (w_db w)) as [|id ids] eqn:E; [done|].
    destruct (racun_ids_spec trezor_owner c (w_db w)
      (nth (env_row_choice e (w_step w1) mod S (length ids))%nat (id :: ids) 0))
      as (r & Hr & Ho & Hc & _); [|by exists r].
    rewrite E. apply list_elem_of_In, nth_In, Nat.mod_upper_bound. done.
  - apply sql_err_db in H1. cbn. split; [done|]. by intros [].
Qed.

Lemma trezor_account_ok c e w t w' :
  trezor_account c e w = (Ok t, w') ->
  w_db w' = w_db w /\
  exists r, d_racun (w_db w) !! t = Some r /\ r_id_vlasnika r = trezor_owner /\ r_oznaka r = c.
Proof.
  unfold trezor_account. intros H. apply bind_ok in H as (id & w1 & H1 & H).
  destruct (Z.eqb_spec id 0); [discriminate|]. injection H as -> ->.
  apply fetch_trezor_ok in H1 as [Hd Hr]. auto.
Qed.

Lemma klijent_account_ok num e w t w' :
  klijent_account num e w = (Ok t, w') ->
  w_db w' = w_db w /\ exists r, racun_by_number num (w_db w) = Some (t, r).
Proof.
  unfold klijent_account. intros H. apply bind_ok in H as (x & w1 & H1 & H).
  apply sql_read_ok in H1 as [-> Hd].
  destruct (racun_by_number num (w_db w)) as [[id r]|] eqn:E; [|discriminate].
  destruct (id =? 0); [discriminate|]. injection H as -> ->. eauto.
Qed.

(** One more row at a time: [exec_racun] on an account that exists. *)
Lemma sub_exec_ok id q e w w' r :
  exec_racun id (sub_stanje q) e w = (Ok tt, w') -> d_racun (w_db w) !! id = Some r ->
  w_db w' = set_racun (<[id := with_stanje (to_cents (cents (r_stanje_racuna r) - q)) r]> (d_racun (w_db w)))
              (w_db w).
Proof. intros H Hr. destruct (exec_racun_ok _ _ _ _ _ _ H Hr) as (r' & ->%sub_stanje_eq & E). done. Qed.

Lemma add_exec_ok id q e w w' r :
  exec_racun id (add_stanje q) e w = (Ok tt, w') -> d_racun (w_db w) !! id = Some r ->
  w_db w' = set_racun (<[id := with_stanje (to_cents (cents (r_stanje_racuna r) + q)) r]> (d_racun (w_db w)))
              (w_db w).
Proof. intros H Hr. destruct (exec_racun_ok _ _ _ _ _ _ H Hr) as (r' & ->%add_stanje_eq & E). done. Qed.

Lemma pay_rata_eq today r r' :
  pay_rata today r = Some r' ->
  r' = with_rata (Some today) PLACENO (ra_BrojPokusaja r + 1) (ra_SledecaPokusaj r) r.
Proof.
  unfold pay_rata, store_int. destruct (decide _); [|discriminate]. by intros [= <-].
Qed.

Lemma fail_rata_eq t r r' :
  fail_rata t r = Some r' -> r' = with_rata (ra_PraviDatumDospeca r) KASNI (ra_BrojPokusaja r + 1) (Some t) r.
Proof.
  unfold fail_rata, store_int. destruct (decide _); [|discriminate]. by intros [= <-].
Qed.

(** ** Collecting an instalment *)

Section payment.
Context `{DL : decimal.Lib}.

(** The loan after an instalment: its next date and what is left to pay, or its
    end when no instalment is NEPLACENO any more. *)
Definition next_kredit (inp : ProcessInstallmentInput) (d' : DB) (k : kreditModel) : kreditModel :=
  match next_unpaid (pr_KreditID inp) d' with
  | Some day => with_kredit (k_NominalnaKamatnaStopa k) (Some day)
                  (to_cents (cents (k_PreostaloDugovanje k) - arg (pr_IznosRate inp))) (k_Status k) k
  | None => with_kredit (k_NominalnaKamatnaStopa k) None 0 OTPLACEN k
  end.

(** The database after the collection of [rata] from account [id] to account [t]
    of the treasury. *)
Record collected_from (inp : ProcessInstallmentInput) (rata : rataModel) (id : Z) (r : racun) (t : Z) (rt : racun)
    (day : Z) (d d' : DB) : Prop := {
  cf_trezor : <[id := moved (- arg (pr_IznosRate inp)) r]> (d_racun d) !! t = Some rt;
  cf_owner : r_id_vlasnika rt = trezor_owner;
  cf_currency : r_oznaka rt = pr_Valuta inp;
  cf_racun : d_racun d' = <[t := moved (arg (pr_IznosRate inp)) rt]>
                            (<[id := moved (- arg (pr_IznosRate inp)) r]> (d_racun d));
  cf_ledger : d_transakcija d' = d_transakcija d ++
                [mkTransakcija id ISPLATA (to_cents (arg (pr_IznosRate inp)));
                 mkTransakcija t UPLATA (to_cents (arg (pr_IznosRate inp)))];
  cf_rata : d_rata d' = alter (fun r => with_rata (Some day) PLACENO (ra_BrojPokusaja r + 1) (ra_SledecaPokusaj r) r)
                          (pr_RataID inp) (d_rata d);
  cf_kredit : d_kredit d' = alter (next_kredit inp d') (pr_KreditID inp) (d_kredit d);
  cf_zahtev : d_kreditni_zahtev d' = d_kreditni_zahtev d
}.

Lemma advance_ok inp e w w' :
  advance inp e w = (Ok tt, w') ->
  w_db w' = set_kredit (alter (next_kredit inp (w_db w)) (pr_KreditID inp) (d_kredit (w_db w))) (w_db w).
Proof.
  unfold advance. intros H. apply bind_ok in H as (nx & w1 & H1 & H). apply sql_read_ok in H1 as [-> Hd].
  apply bind_ok in H as (n & w2 & H1 & [= <-]). unfold next_kredit.
  destruct (next_unpaid _ _) as [day|].
  - apply update_kredit_ok in H1 as (m & H1 & E). rewrite E, Hd. f_equal. rewrite Hd in H1.
    revert H1. apply update_row_alter. intros k k'. unfold advance_kredit.
    destruct (store_cents _) as [p|] eqn:Ep; [|discriminate]. apply store_cents_Some in Ep as ->.
    by intros [= <-].
  - apply update_kredit_ok in H1 as (m & H1 & E). rewrite E, Hd. f_equal. rewrite Hd in H1.
    revert H1. apply update_row_alter. intros k k'. by intros [= <-].
Qed.

Lemma collect_ok inp id r e w w' :
  collect inp id e w = (Ok tt, w') -> d_racun (w_db w) !! id = Some r ->
  exists t rt day, let q := arg (pr_IznosRate inp) in
    <[id := moved (- q) r]> (d_racun (w_db w)) !! t = Some rt /\
    r_id_vlasnika rt = trezor_owner /\ r_oznaka rt = pr_Valuta inp /\
    w_db w' = set_rata (alter (fun r => with_rata (Some day) PLACENO (ra_BrojPokusaja r + 1) (ra_SledecaPokusaj r) r)
                          (pr_RataID inp) (d_rata (w_db w)))
      (set_transakcija (d_transakcija (w_db w) ++ [mkTransakcija id ISPLATA (to_cents q);
                                                   mkTransakcija t UPLATA (to_cents q)])
        (set_racun (<[t := moved q rt]> (<[id := moved (- q) r]> (d_racun (w_db w)))) (w_db w))).
Proof.
  unfold collect. cbv zeta. set (q := arg (pr_IznosRate inp)). intros H Hr.
  apply bind_ok in H as ([] & w1 & H1 & H). apply (sub_exec_ok _ _ _ _ _ r) in H1; [|done].
  rewrite sub_moved in H1.
  apply bind_ok in H as (now & w2 & H2 & H). apply time_now_ok in H2.
  apply bind_ok in H as ([] & w3 & H3 & H). apply insert_transakcija_ok in H3.
  apply bind_ok in H as (t & w4 & H4 & H). apply trezor_account_ok in H4 as (H4 & rt & Ht & Ho & Hc).
  apply bind_ok in H as ([] & w5 & H5 & H).
  apply (add_exec_ok _ _ _ _ _ rt) in H5; [|by rewrite H4].
  apply bind_ok in H as ([] & w6 & H6 & H). apply insert_transakcija_ok in H6.
  apply bind_ok in H as (n & w7 & H7 & [= <-]). apply update_rata_ok in H7 as (m & H7 & E).
  apply (update_row_alter _ _ (fun r => with_rata (Some (truncate_day now)) PLACENO (ra_BrojPokusaja r + 1)
           (ra_SledecaPokusaj r) r)) in H7; [|apply pay_rata_eq].
  exists t, rt, (truncate_day now).
  rewrite H3, H2, H1 in Ht. split; [exact Ht|]. split; [done|]. split; [done|].
  rewrite E, H7, H6, H5, H4, H3, H2, H1. cbn. by rewrite <- app_assoc.
Qed.

Lemma payment_ok inp e w w' :
  ProcessInstallmentPayment inp e w = (Ok tt, w') ->
  exists rata id r t rt day,
    d_rata (w_db w) !! pr_RataID inp = Some rata /\ ra_StatusPlacanja rata <> PLACENO /\
    racun_by_number (pr_BrojRacuna inp) (w_db w) = Some (id, r) /\
    f64_ltb (scan_cents (r_stanje_racuna r)) (pr_IznosRate inp) = false /\
    collected_from inp rata id r t rt day (w_db w) (w_db w').
Proof.
  unfold ProcessInstallmentPayment. intros H. apply Transaction_ok in H as (w1 & H & Hw' & _ & _).
  apply bind_ok in H as (row & w2 & H1 & H). apply sql_read_ok in H1 as [-> Hd]. cbn [w_db begin_tx] in *.
  destruct (d_rata (w_db w) !! pr_RataID inp) as [rata|] eqn:Er; [|discriminate].
  destruct (decide _) as [|Hs]; [discriminate|].
  apply bind_ok in H as (acc & w3 & H1 & H). apply sql_read_ok in H1 as [-> Hd3]. rewrite Hd in *.
  destruct (racun_by_number _ _) as [[id r]|] eqn:Ea; [|discriminate].
  destruct (f64_ltb _ _) eqn:El; [discriminate|].
  apply bind_ok in H as ([] & w4 & H1 & H). destruct (racun_by_number_Some _ _ _ _ Ea) as [Hr _].
  apply (collect_ok _ _ r) in H1; [|by rewrite Hd3]. cbv zeta in H1.
  destruct H1 as (t & rt & day & Ht & Ho & Hc & E4). apply advance_ok in H. rewrite Hd3 in *.
  exists rata, id, r, t, rt, day. split_and!; try done. rewrite Hw', H, E4.
  split; done.
Qed.

(** What an answer of no funds says. *)
Lemma payment_no_funds inp e w w' :
  ProcessInstallmentPayment inp e w = (Err ErrInsufficientFunds, w') ->
  w_db w' = w_db w /\ exists rata, d_rata (w_db w) !! pr_RataID inp = Some rata /\ ra_StatusPlacanja rata <> PLACENO.
Proof.
  intros H. split; [unfold ProcessInstallmentPayment in H; exact (Transaction_err _ _ _ _ _ H)|].
  unfold ProcessInstallmentPayment in H. apply Transaction_err_cases in H as [?|(w1 & H)]; [discriminate|].
  apply bind_err in H as [H|(row & w2 & H1 & H)]; [by apply sql_read_err in H|].
  apply sql_read_ok in H1 as [-> _]. cbn [w_db begin_tx] in H.
  destruct (d_rata (w_db w) !! pr_RataID inp) as [rata|] eqn:Er; [|discriminate].
  destruct (decide _) as [|Hs]; [discriminate|]. by exists rata.
Qed.
End payment.
