(* ===== verification/LoanCollection.v ===== *)
(** * The daily job moves exactly what the instalments say

    [plan d d']: accounts, loans and instalments are the same apart from the
    columns that change.  [money d d']: what left a client's account is what became
    paid of the loans on it, and no money was made.  [frozen kid d d']: a loan that
    is not ODOBREN stays so and its instalments are left alone.  All three hold of
    every run of the job, whatever fails. *)

From S2P Require Import Prelude Numeric Domain Store StoreFacts OrderRepo Market FundsManager.
From S2P Require Import FundsFacts FundsSafety FundsTransfers GoMath Loans LoanRepo LoanFacts.
From stdpp Require Import list sorting.
#[local] Open Scope Z_scope.

(** ** What stays *)

Definition rata_terms (r : rataModel) : Z * Z * Z * string * Z :=
  (ra_KreditID r, ra_IznosRate r, ra_IznosKamate r, ra_Valuta r, ra_OcekivaniDatumDospeca r).

Definition kredit_terms (k : kreditModel) :=
  (k_BrojKredita k, k_KreditniZahtevID k, k_BrojRacuna k, k_VlasnikID k, k_IznosKredita k, k_Valuta k).

Record plan (d d' : DB) : Prop := {
  pl_racun : forall i, static <$> d_racun d' !! i = static <$> d_racun d !! i;
  pl_rata : forall i, rata_terms <$> d_rata d' !! i = rata_terms <$> d_rata d !! i;
  pl_kredit : forall i, kredit_terms <$> d_kredit d' !! i = kredit_terms <$> d_kredit d !! i;
  pl_zahtev : d_kreditni_zahtev d' = d_kreditni_zahtev d;
  (** An instalment that is paid keeps its row. *)
  pl_paid : forall i r, d_rata d !! i = Some r -> ra_StatusPlacanja r = PLACENO -> d_rata d' !! i = Some r
}.

#[export] Instance plan_preorder : PreOrder plan.
Proof.
  split.
  - intros d. by split.
  - intros d1 d2 d3 [A1 A2 A3 A4 A5] [B1 B2 B3 B4 B5]. split; intros; [by rewrite B1|by rewrite B2|by rewrite B3|congruence|].
    by apply B5; [apply A5|].
Qed.

(** ** Money *)

(** What was collected on an instalment from the account with a number. *)
Definition paid_from (num : string) (d : DB) (r : rataModel) : Z :=
  if decide (ra_StatusPlacanja r = PLACENO) then
    match d_kredit d !! ra_KreditID r with
    | Some k => if String.eqb (k_BrojRacuna k) num then ra_IznosRate r else 0
    | None => 0
    end
  else 0.

Definition collected (num : string) (d : DB) : Z := msum (paid_from num d) (d_rata d).

Definition all_money (d : DB) : Z := msum r_stanje_racuna (d_racun d).

Record money (d d' : DB) : Prop := {
  mo_client : forall i r r', d_racun d !! i = Some r -> d_racun d' !! i = Some r' ->
    r_id_vlasnika r <> trezor_owner ->
    r_stanje_racuna r' + collected (r_broj_racuna r) d' = r_stanje_racuna r + collected (r_broj_racuna r) d;
  mo_total : all_money d' = all_money d
}.

Lemma paid_from_plan num d d' x : plan d d' -> paid_from num d' x = paid_from num d x.
Proof.
  intros Hp. unfold paid_from. case_decide; [|done]. pose proof (pl_kredit _ _ Hp (ra_KreditID x)) as E.
  destruct (d_kredit d !! _) as [k|], (d_kredit d' !! _) as [k'|]; try discriminate; [|done].
  unfold kredit_terms in E. cbn in E. by assert (k_BrojRacuna k' = k_BrojRacuna k) as -> by congruence.
Qed.

Definition unique_numbers (d : DB) : Prop :=
  forall i j r r', d_racun d !! i = Some r -> d_racun d !! j = Some r' ->
    r_broj_racuna r = r_broj_racuna r' -> i = j.

Section collection.
Context `{DL : decimal.Lib}.

(** The driver brings the amount of every instalment back unchanged. *)
Definition exact_amount (c : Z) : Prop := (arg (scan_cents c) == cents c)%Q.
Definition exact_amounts (d : DB) : Prop :=
  forall i r, d_rata d !! i = Some r -> exact_amount (ra_IznosRate r).

Definition valid (d : DB) : Prop := unique_numbers d /\ exact_amounts d.

Lemma valid_plan d d' : plan d d' -> valid d -> valid d'.
Proof.
  intros [Hr Ht _ _ _] [Hu He]. split.
  - intros i j r r' Hi Hj Hn.
    destruct (fmap_same_Some _ _ _ _ (eq_sym (Hr i)) Hi) as (r0 & Hi0 & E0).
    destruct (fmap_same_Some _ _ _ _ (eq_sym (Hr j)) Hj) as (r1 & Hj0 & E1).
    unfold static in E0, E1. apply (Hu i j r0 r1); congruence.
  - intros i r Hi. destruct (fmap_same_Some _ _ _ _ (eq_sym (Ht i)) Hi) as (r0 & Hi0 & E0).
    unfold rata_terms in E0. pose proof (He i r0 Hi0). congruence.
Qed.

(** The input of a payment repeats what the tables say of its instalment. *)
Definition listed (d : DB) (inp : ProcessInstallmentInput) : Prop :=
  exists r k, d_rata d !! pr_RataID inp = Some r /\ ra_KreditID r = pr_KreditID inp /\
    d_kredit d !! pr_KreditID inp = Some k /\ k_BrojRacuna k = pr_BrojRacuna inp /\
    pr_IznosRate inp = scan_cents (ra_IznosRate r).

Lemma listed_plan d d' inp : plan d d' -> listed d inp -> listed d' inp.
Proof.
  intros [_ Ht Hk _ _] (r & k & Hr & H1 & Hki & H2 & H3).
  destruct (fmap_same_Some _ _ _ _ (Ht _) Hr) as (r' & Hr' & E).
  destruct (fmap_same_Some _ _ _ _ (Hk _) Hki) as (k' & Hk' & E').
  unfold rata_terms, kredit_terms in E, E'. exists r', k'. split_and!; congruence.
Qed.

(** ** One payment *)

Section effect.
Context (inp : ProcessInstallmentInput) (rata : rataModel) (id : Z) (r : racun) (t : Z) (rt : racun) (day : Z).
Context (d d' : DB) (Hc : collected_from inp rata id r t rt day d d').
Context (Hrata : d_rata d !! pr_RataID inp = Some rata) (Hs : ra_StatusPlacanja rata <> PLACENO).
Context (Hacc : racun_by_number (pr_BrojRacuna inp) d = Some (id, r)).

Lemma next_kredit_terms k : kredit_terms (next_kredit inp d' k) = kredit_terms k.
Proof using Type. unfold next_kredit. by destruct (next_unpaid _ _). Qed.

Lemma effect_plan : plan d d'.
Proof using All.
  destruct (racun_by_number_Some _ _ _ _ Hacc) as [Hid _].
  destruct Hc as [Ht _ _ Er _ Era Ek Ez]. split.
  - intros i. rewrite Er. rewrite (fmap_insert_same static t i rt) by done.
    by apply (fmap_insert_same static id i r).
  - intros i. rewrite Era. by apply fmap_alter_same.
  - intros i. rewrite Ek. apply fmap_alter_same. apply next_kredit_terms.
  - done.
  - intros i x Hx Hp. rewrite Era. rewrite lookup_alter_ne; [done|]. intros <-. congruence.
Qed.

Lemma collected_pay num k :
  d_kredit d !! ra_KreditID rata = Some k ->
  collected num d' = collected num d + (if String.eqb (k_BrojRacuna k) num then ra_IznosRate rata else 0).
Proof using All.
  intros Hk. unfold collected.
  rewrite (msum_ext (paid_from num d') (paid_from num d)) by (intros; apply paid_from_plan, effect_plan).
  rewrite (cf_rata _ _ _ _ _ _ _ _ _ Hc), (msum_alter _ _ _ rata) by done.
  unfold paid_from at 2 3. rewrite decide_False by done. rewrite decide_True by done. cbn. rewrite Hk.
  destruct (String.eqb _ _); lia.
Qed.

Lemma moved_exact q c x : (q == cents c)%Q -> r_stanje_racuna (moved q x) = r_stanje_racuna x + c.
Proof using Type. intros Hq. cbn. by rewrite Hq, <- cents_plus, to_cents_cents. Qed.

Lemma moved_exact_neg q c x : (q == cents c)%Q -> r_stanje_racuna (moved (- q) x) = r_stanje_racuna x - c.
Proof using Type.
  intros E. rewrite (moved_exact (- q) (- c)); [lia|]. rewrite E. unfold cents, numeric_val, Qeq. cbn. lia.
Qed.

(** The money of the effect, when the account is the loan's. *)
Lemma effect_money : valid d -> listed d inp -> money d d'.
Proof using All.
  intros [Hu He] (r0 & k & Hr0 & Hkid & Hk & Hnum & Hiz). rewrite Hrata in Hr0. injection Hr0 as <-.
  destruct (racun_by_number_Some _ _ _ _ Hacc) as [Hid Hbr].
  assert (Hq : (arg (pr_IznosRate inp) == cents (ra_IznosRate rata))%Q)
    by (rewrite Hiz; apply (He (pr_RataID inp)); done).
  pose proof (fun num => collected_pay num k ltac:(by rewrite Hkid)) as Hcol.
  destruct Hc as [Ht Hown _ Er _ _ _ _]. split.
  - intros i a a' Ha Ha' Hcl. rewrite Hcol, Hnum. rewrite Er in Ha'.
    assert (Hti : t <> i).
    { intros ->. destruct (decide (id = i)) as [->|Hne].
      - rewrite lookup_insert_eq in Ht. injection Ht as <-. cbn in Hown. congruence.
      - rewrite lookup_insert_ne in Ht by done. congruence. }
    rewrite lookup_insert_ne in Ha' by done.
    destruct (decide (id = i)) as [->|Hne].
    + rewrite lookup_insert_eq in Ha'. injection Ha' as <-. assert (a = r) as -> by congruence.
      rewrite (moved_exact_neg _ _ _ Hq), Hbr, String.eqb_refl. lia.
    + rewrite lookup_insert_ne in Ha' by done. assert (a' = a) as -> by congruence.
      destruct (String.eqb_spec (pr_BrojRacuna inp) (r_broj_racuna a)) as [E|]; [|lia].
      exfalso. apply Hne, (Hu id i r a); congruence.
  - unfold all_money. rewrite Er, (msum_update _ _ t rt) by done. rewrite (msum_update _ _ id r) by done.
    rewrite (moved_exact _ _ _ Hq), (moved_exact_neg _ _ _ Hq). lia.
Qed.
End effect.

#[export] Instance money_plan_refl : Reflexive money.
Proof. intros d. split; [|done]. intros i r r' H1 H2. congruence. Qed.

Lemma money_trans d1 d2 d3 : plan d1 d2 -> money d1 d2 -> money d2 d3 -> money d1 d3.
Proof.
  intros Hp [A1 A2] [B1 B2]. split; [|congruence]. intros i r r' H1 H3 Ho.
  destruct (fmap_same_Some _ _ _ _ (pl_racun _ _ Hp i) H1) as (r2 & H2 & E). unfold static in E.
  injection E as En Eo _ _. rewrite <- (A1 i r r2 H1 H2 Ho), <- En. apply (B1 i); [done..|congruence].
Qed.
End collection.

(** ** The operations of the job *)

Definition moves (d d' : DB) : Prop := plan d d' /\ money d d'.
#[export] Instance moves_preorder : PreOrder moves.
Proof.
  split; [intros d; split; reflexivity|].
  intros d1 d2 d3 [A1 A2] [B1 B2]. split; [by transitivity d2|by eapply money_trans].
Qed.

(** A loan that is not open for collection. *)
Definition not_open (kid : Z) (d : DB) : Prop :=
  forall k, d_kredit d !! kid = Some k -> k_Status k <> ODOBREN.

Record frozen (kid : Z) (d d' : DB) : Prop := {
  fz_plan : plan d d';
  fz_closed : not_open kid d -> not_open kid d';
  fz_rata : forall i r, d_rata d !! i = Some r -> ra_KreditID r = kid -> d_rata d' !! i = Some r
}.
#[export] Instance frozen_preorder kid : PreOrder (frozen kid).
Proof.
  split; [by intros d; split|]. intros d1 d2 d3 [A1 A2 A3] [B1 B2 B3].
  split; [by transitivity d2|auto|intros i r H1 H2; eauto].
Qed.

(** A statement that changes loans in their status columns only. *)
Lemma kredit_change_moves d m :
  (forall i, kredit_terms <$> m !! i = kredit_terms <$> d_kredit d !! i) -> moves d (set_kredit m d).
Proof.
  intros Hm. assert (Hp : plan d (set_kredit m d)) by (split; done). split; [done|]. split; [|done].
  intros i r r' H1 H2 _. cbn in H2. assert (r' = r) as -> by congruence. f_equal.
  unfold collected. cbn [d_rata set_kredit]. apply msum_ext. intros j x _. by apply paid_from_plan.
Qed.

Lemma update_kredit_moves id g f :
  (forall k k', f k = Some k' -> kredit_terms k' = kredit_terms k) ->
  preserves moves (sql (update_kredit id g f)).
Proof.
  intros Hf. apply preserves_sql; [apply _|]. intros d n d' H. unfold update_kredit in H.
  destruct (update_row _ _ _ _) as [[n' m]|] eqn:E; [|discriminate]. injection H as _ <-.
  apply kredit_change_moves. intros i.
  apply update_row_inv in E as [(_ & -> & _)|(_ & k & k' & Hk & _ & Hkk & ->)]; [done|].
  apply (fmap_insert_same kredit_terms id i k); auto.
Qed.

(** An instalment that is not paid is marked late. *)
Lemma mark_moves d i r t n :
  d_rata d !! i = Some r -> ra_StatusPlacanja r <> PLACENO ->
  moves d (set_rata (<[i := with_rata (ra_PraviDatumDospeca r) KASNI n (Some t) r]> (d_rata d)) d).
Proof.
  intros Hr Hs. set (d' := set_rata _ d). assert (Hp : plan d d').
  { split; try done; intros j.
    - by apply (fmap_insert_same rata_terms i j r).
    - intros x Hx Hp. cbn. rewrite lookup_insert_ne; [done|]. intros <-. congruence. }
  split; [done|]. split; [|done]. intros j a a' H1 H2 _. cbn in H2. assert (a' = a) as -> by congruence.
  f_equal. unfold collected.
  rewrite (msum_ext (paid_from _ d') (paid_from (r_broj_racuna a) d)) by (intros; by apply paid_from_plan).
  cbn [d_rata set_rata d']. rewrite (msum_update _ _ _ r) by done. unfold paid_from at 2 3. cbn.
  rewrite !decide_False by done. lia.
Qed.

Section operations.
Context `{DL : decimal.Lib}.
Context (retryAfter : Z) (penaltyPct : float64).

Lemma payment_plan inp e w r w' :
  ProcessInstallmentPayment inp e w = (r, w') -> plan (w_db w) (w_db w').
Proof.
  destruct r as [[]|er]; intros H.
  - apply payment_ok in H as (rata & id & r & t & rt & day & H1 & H2 & H3 & _ & H4). by eapply effect_plan.
  - unfold ProcessInstallmentPayment in H. by rewrite (Transaction_err _ _ _ _ _ H).
Qed.

Lemma payment_moves inp e w r w' :
  valid (w_db w) -> listed (w_db w) inp ->
  ProcessInstallmentPayment inp e w = (r, w') -> moves (w_db w) (w_db w').
Proof.
  intros Hv Hl H. split; [by eapply payment_plan|]. destruct r as [[]|er].
  - apply payment_ok in H as (rata & id & r & t & rt & day & H1 & H2 & H3 & _ & H4). by eapply effect_money.
  - unfold ProcessInstallmentPayment in H. by rewrite (Transaction_err _ _ _ _ _ H).
Qed.

Lemma mark_run rid t e w r w' :
  MarkInstallmentFailed rid t e w = (r, w') ->
  w_db w' = w_db w \/
  exists x, d_rata (w_db w) !! rid = Some x /\
    w_db w' = set_rata (<[rid := with_rata (ra_PraviDatumDospeca x) KASNI (ra_BrojPokusaja x + 1) (Some t) x]>
                          (d_rata (w_db w))) (w_db w).
Proof.
  unfold MarkInstallmentFailed. intros H. apply bind_cases in H as [(n & w1 & H & [= _ <-])|(er & _ & H)].
  - apply update_rata_ok in H as (m & H & E).
    apply update_row_inv in H as [(_ & -> & _)|(_ & x & x' & Hx & _ & Hf & ->)].
    + left. rewrite E. by destruct (w_db w).
    + right. apply fail_rata_eq in Hf as ->. by exists x.
  - left. exact (sql_err_db _ _ _ _ _ H).
Qed.

Lemma penalty_moves kid pct : preserves moves (ApplyLatePaymentPenalty kid pct).
Proof.
  unfold ApplyLatePaymentPenalty. apply preserves_Transaction; [apply _|].
  repeat (apply preserves_bind; [apply _| |intros ?]); try (apply preserves_ret; apply _).
  - apply update_kredit_moves. intros k k'. unfold penalize. destruct (store_rate _); [|discriminate].
    by intros [= <-].
  - apply update_kredit_moves. by intros k k' [= <-].
Qed.

(** What follows a payment that found no funds. *)
Lemma first_failure_rel (R : DB -> DB -> Prop) `{!PreOrder R} due e w r w' x :
  d_rata (w_db w) !! du_RataID due = Some x ->
  (forall t, R (w_db w) (set_rata (<[du_RataID due := with_rata (ra_PraviDatumDospeca x) KASNI
                                      (ra_BrojPokusaja x + 1) (Some t) x]> (d_rata (w_db w))) (w_db w))) ->
  (handleFirstFailure retryAfter due ;; mret false) e w = (r, w') -> R (w_db w) (w_db w').
Proof.
  intros Hx HR H. unfold handleFirstFailure in H.
  apply bind_cases in H as [([] & w1 & H & [= _ <-])|(er & _ & H)].
  2: { exfalso. apply bind_err in H as [H|(now & w2 & _ & H)]; [discriminate|].
       by apply bind_err in H as [(r1 & ? & _)%try_run|(? & ? & _ & ?)]. }
  apply bind_ok in H as (now & w2 & H2 & H). apply time_now_ok in H2.
  apply try_bind in H as (r1 & w3 & H3 & [= <-]).
  apply mark_run in H3 as [E|(y & Hy & E)]; rewrite E, H2; [reflexivity|].
  rewrite H2 in Hy. assert (y = x) as -> by congruence. apply HR.
Qed.

#[local] Hint Resolve penalty_moves : preserves.

(** The attempt of an instalment that the job has listed. *)
Lemma attempt_moves isRetry due e w r w' :
  valid (w_db w) -> listed (w_db w) (due_input due) ->
  attemptPayment retryAfter penaltyPct isRetry due e w = (r, w') -> moves (w_db w) (w_db w').
Proof.
  intros Hv Hl H. unfold attemptPayment in H. apply try_bind in H as (r0 & w1 & H1 & H).
  pose proof (payment_moves _ _ _ _ _ Hv Hl H1) as Hm.
  destruct r0 as [[]|[]]; try (injection H as _ <-; exact Hm).
  apply payment_no_funds in H1 as (Hd & x & Hx & Hs). rewrite <- Hd in *.
  destruct isRetry.
  - assert (Hp : preserves moves (handleSecondFailure penaltyPct due ;; mret false))
      by (unfold handleSecondFailure; solve_preserves).
    exact (Hp _ _ _ _ H).
  - revert H. apply (first_failure_rel moves _ _ _ _ _ x Hx). intros t. by apply mark_moves.
Qed.
End operations.

(** ** The job *)

(** A row of the two queries of the job. *)
Definition listing `{DL : decimal.Lib} (d : DB) (due : DueInstallment) : Prop :=
  exists i x, d_rata d !! i = Some x /\ due_row d (i, x) = Some due.

Section job.
Context `{DL : decimal.Lib}.
Context (retryAfter : Z) (penaltyPct : float64).

Lemma listing_listed d due : listing d due -> listed d (due_input due).
Proof.
  intros (i & x & Hx & H). unfold due_row in H. cbn in H.
  destruct (d_kredit d !! ra_KreditID x) as [k|] eqn:Hk; [|discriminate]. cbn in H.
  destruct (decide _); [|discriminate]. injection H as <-. exists x, k. done.
Qed.

Lemma listing_open d due :
  listing d due -> exists k, d_kredit d !! du_KreditID due = Some k /\ k_Status k = ODOBREN.
Proof.
  intros (i & x & Hx & H). unfold due_row in H. cbn in H.
  destruct (d_kredit d !! ra_KreditID x) as [k|] eqn:Hk; [|discriminate]. cbn in H.
  destruct (decide _); [|discriminate]. injection H as <-. by exists k.
Qed.

Lemma GetDue_ok asOf e w l w' :
  GetDueInstallments asOf e w = (Ok l, w') ->
  w_db w' = w_db w /\ forall due, due ∈ l -> listing (w_db w) due.
Proof.
  unfold GetDueInstallments. intros [-> Hd]%sql_read_ok. split; [done|].
  intros due ([i x] & Hin & H)%list_elem_of_omap. apply sort_by_in, list_elem_of_filter in Hin as [_ Hin].
  apply elem_of_map_to_list in Hin. by exists i, x.
Qed.

Lemma GetRetry_ok asOf e w l w' :
  GetRetryInstallments asOf e w = (Ok l, w') ->
  w_db w' = w_db w /\ forall due, due ∈ l -> listing (w_db w) due.
Proof.
  unfold GetRetryInstallments. intros [-> Hd]%sql_read_ok. split; [done|].
  intros due ([i x] & Hin & H)%list_elem_of_omap. apply sort_by_in, list_elem_of_filter in Hin as [_ Hin].
  apply elem_of_map_to_list in Hin. by exists i, x.
Qed.

(** A relation kept by the attempt of every instalment that satisfies [ok], where
    [P] makes the listed instalments satisfy it, is kept by the job. *)
Section relation.
Context (R : DB -> DB -> Prop) `{!PreOrder R} (P : DB -> Prop) (ok : DB -> DueInstallment -> Prop).
Context (HP : forall d d', R d d' -> P d -> P d').
Context (Hlist : forall d due, P d -> listing d due -> ok d due).
Context (Hok : forall d d' due, R d d' -> ok d due -> ok d' due).
Context (Hstep : forall isRetry due e w r w', ok (w_db w) due ->
           attemptPayment retryAfter penaltyPct isRetry due e w = (r, w') -> R (w_db w) (w_db w')).

Lemma attempt_all_rel isRetry l total k e w r w' :
  (forall due, due ∈ l -> ok (w_db w) due) ->
  attempt_all retryAfter penaltyPct isRetry l total k e w = (r, w') -> R (w_db w) (w_db w').
Proof using All.
  revert total k w. induction l as [|due l IH]; intros total k w Hl H; [injection H as _ <-; reflexivity|].
  cbn [attempt_all] in H. apply bind_cases in H as [(paid & w1 & H1 & H)|(er & _ & H)].
  - pose proof (Hstep _ _ _ _ _ _ (Hl due ltac:(left)) H1) as H01. transitivity (w_db w1); [done|].
    apply (IH _ _ _ ltac:(intros x Hx; apply (Hok _ _ _ H01), Hl; by right) H).
  - exact (Hstep _ _ _ _ _ _ (Hl due ltac:(left)) H).
Qed.

Lemma first_attempts_rel asOf e w r w' :
  P (w_db w) -> processFirstAttempts retryAfter penaltyPct asOf e w = (r, w') -> R (w_db w) (w_db w').
Proof using All.
  intros Hw H. unfold processFirstAttempts in H. apply try_bind in H as ([l|er] & w1 & H1 & H).
  - apply GetDue_ok in H1 as [Hd Hl]. rewrite <- Hd in *. revert H. apply attempt_all_rel.
    intros due Hdue. apply Hlist; [done|by apply Hl].
  - injection H as _ <-. unfold GetDueInstallments, sql_read in H1. apply sql_err_db in H1. rewrite H1. reflexivity.
Qed.

Lemma retry_attempts_rel asOf e w r w' :
  P (w_db w) -> processRetryAttempts retryAfter penaltyPct asOf e w = (r, w') -> R (w_db w) (w_db w').
Proof using All.
  intros Hw H. unfold processRetryAttempts in H. apply try_bind in H as ([l|er] & w1 & H1 & H).
  - apply GetRetry_ok in H1 as [Hd Hl]. rewrite <- Hd in *. revert H. apply attempt_all_rel.
    intros due Hdue. apply Hlist; [done|by apply Hl].
  - injection H as _ <-. unfold GetRetryInstallments, sql_read in H1. apply sql_err_db in H1. rewrite H1. reflexivity.
Qed.

Lemma job_rel e w r w' :
  P (w_db w) -> runDailyJob retryAfter penaltyPct e w = (r, w') -> R (w_db w) (w_db w').
Proof using All.
  intros Hw H. unfold runDailyJob in H. apply bind_cases in H as [(now & w1 & H1 & H)|(er & _ & H)]; [|discriminate].
  apply time_now_ok in H1. rewrite <- H1 in *.
  apply bind_cases in H as [(x & w2 & H2 & H)|(er & _ & H)]; [|by eapply first_attempts_rel].
  pose proof (first_attempts_rel _ _ _ _ _ Hw H2) as H12. transitivity (w_db w2); [done|].
  apply HP in H12; [|done].
  apply bind_cases in H as [(y & w3 & H3 & [= _ <-])|(er & _ & H)]; by eapply retry_attempts_rel.
Qed.
End relation.

(** The same for the first instalment of a loan, at its approval. *)
Lemma first_installment_rel (R : DB -> DB -> Prop) `{!PreOrder R} kid :
  (forall inp e w r w', listed (w_db w) inp -> pr_KreditID inp = kid ->
     ProcessInstallmentPayment inp e w = (r, w') -> R (w_db w) (w_db w')) ->
  (forall d i x t n, d_rata d !! i = Some x -> ra_KreditID x = kid -> ra_StatusPlacanja x <> PLACENO ->
     R d (set_rata (<[i := with_rata (ra_PraviDatumDospeca x) KASNI n (Some t) x]> (d_rata d)) d)) ->
  forall e w r w', ProcessFirstInstallment kid e w = (r, w') -> R (w_db w) (w_db w').
Proof.
  intros Hpay Hmark e w r w' H. unfold ProcessFirstInstallment in H.
  apply bind_cases in H as [(rate & w1 & H1 & H)|(er & _ & H)].
  2: { unfold GetInstallmentsByKredit, sql_read in H. by rewrite (sql_err_db _ _ _ _ _ H). }
  unfold GetInstallmentsByKredit in H1. apply sql_read_ok in H1 as [Hrate E1].
  destruct rate as [|prva rate]; [injection H as _ <-; by rewrite E1|].
  assert (Hin : prva ∈ (fun kv : Z * rataModel => rata_toDomain kv.1 kv.2) <$>
            sort_by (fun kv => ra_OcekivaniDatumDospeca kv.2) (rate_of kid (w_db w))) by (rewrite <- Hrate; left).
  apply list_elem_of_fmap in Hin as ([i x] & -> & Hin%sort_by_in%rate_of_in). destruct Hin as [Hx Hxk].
  cbn [rt_ID rt_IznosRate rt_Valuta rata_toDomain fst snd] in H.
  apply bind_cases in H as [(k & w2 & H2 & H)|(er & _ & H)].
  2: { unfold GetKreditByID in H. apply bind_cases in H as [(y & w2 & H2 & H)|(er' & _ & H)].
       - apply sql_read_ok in H2 as [_ E2]. destruct y; [discriminate|]. injection H as _ <-. by rewrite E2, E1.
       - unfold sql_read in H. by rewrite (sql_err_db _ _ _ _ _ H), E1. }
  unfold GetKreditByID in H2. apply bind_ok in H2 as (y & w3 & H2 & H3). apply sql_read_ok in H2 as [-> E2].
  destruct (d_kredit (w_db w1) !! kid) as [km|] eqn:Hk; [|discriminate]. injection H3 as <- <-.
  rewrite E1 in Hk, E2. apply try_bind in H as (r0 & w4 & H4 & H). set (inp := installment_input _ _ _ _ _) in *.
  assert (Hl : listed (w_db w3) inp) by (rewrite E2; by exists x, km).
  rewrite <- E2 in *. pose proof (Hpay _ _ _ _ _ Hl eq_refl H4) as Hr4.
  destruct r0 as [[]|[]]; try (injection H as _ <-; exact Hr4).
  apply payment_no_funds in H4 as (E4 & x' & Hx' & Hs). cbn in Hx'. assert (x' = x) as -> by congruence.
  apply bind_cases in H as [(now & w5 & H5 & H)|(er & _ & H)]; [|discriminate]. apply time_now_ok in H5.
  cbv zeta in H. apply try_bind in H as (r1 & w6 & H6 & [= _ <-]). rewrite <- E4, <- H5 in *.
  apply mark_run in H6 as [E6|(z & Hz & E6)]; rewrite E6; [reflexivity|]. assert (z = x) as -> by congruence.
  by apply Hmark.
Qed.

(** C18: the daily job moves exactly what the instalments say, whatever fails.  In
    every run of [runDailyJob], under every failure schedule: what a client's
    account lost is the sum of the instalments of the loans on it that became paid,
    each counted once; the money of all accounts together is the same, so the
    treasury got it; and an instalment that was paid keeps its row.  Account
    numbers are unique and the driver brings the amounts of the instalments back
    unchanged. *)
Theorem collection_conserves e w r w' :
  valid (w_db w) -> runDailyJob retryAfter penaltyPct e w = (r, w') ->
  (forall i a a', d_racun (w_db w) !! i = Some a -> d_racun (w_db w') !! i = Some a' ->
     r_id_vlasnika a <> trezor_owner ->
     r_stanje_racuna a - r_stanje_racuna a' =
       collected (r_broj_racuna a) (w_db w') - collected (r_broj_racuna a) (w_db w)) /\
  all_money (w_db w') = all_money (w_db w) /\
  (forall i x, d_rata (w_db w) !! i = Some x -> ra_StatusPlacanja x = PLACENO ->
     d_rata (w_db w') !! i = Some x).
Proof.
  intros Hv H.
  destruct (job_rel moves valid (fun d due => valid d /\ listed d (due_input due))) with (e := e) (w := w) (r := r) (w' := w')
    as [Hp Hm]; try done.
  - intros d d' [Hp _]. by apply valid_plan.
  - intros d due Hd Hl. split; [done|]. by apply listing_listed.
  - intros d d' due [Hp _] [H1 H2]. split; [by eapply valid_plan|by eapply listed_plan].
  - intros isRetry due e0 w0 r0 w0' [H1 H2] H0. by eapply attempt_moves.
  - split_and!; [|apply Hm|apply Hp]. intros i a a' Ha Ha' Ho. pose proof (mo_client _ _ Hm i a a' Ha Ha' Ho). lia.
Qed.

(** ** Loans that are not open *)

Lemma payment_frozen kid inp e w r w' :
  listed (w_db w) inp -> pr_KreditID inp <> kid ->
  ProcessInstallmentPayment inp e w = (r, w') -> frozen kid (w_db w) (w_db w').
Proof.
  intros (x & k & Hx & Hxk & _) Hne H. split; [by eapply payment_plan| |]; destruct r as [[]|er].
  - apply payment_ok in H as (rata & id & a & t & rt & day & _ & _ & _ & _ & Hc). intros Hn k0.
    rewrite (cf_kredit _ _ _ _ _ _ _ _ _ Hc), lookup_alter_ne by done. apply Hn.
  - unfold ProcessInstallmentPayment in H. by rewrite (Transaction_err _ _ _ _ _ H).
  - apply payment_ok in H as (rata & id & a & t & rt & day & _ & _ & _ & _ & Hc). intros i y Hy Hk.
    rewrite (cf_rata _ _ _ _ _ _ _ _ _ Hc), lookup_alter_ne; [done|]. intros <-. congruence.
  - unfold ProcessInstallmentPayment in H. by rewrite (Transaction_err _ _ _ _ _ H).
Qed.

Lemma update_kredit_frozen kid id g f :
  (forall k k', f k = Some k' -> kredit_terms k' = kredit_terms k) ->
  (forall k k', f k = Some k' -> k_Status k <> ODOBREN -> k_Status k' <> ODOBREN) ->
  preserves (frozen kid) (sql (update_kredit id g f)).
Proof.
  intros Hf Hs. apply preserves_sql; [apply _|]. intros d n d' H. unfold update_kredit in H.
  destruct (update_row _ _ _ _) as [[n' m]|] eqn:E; [|discriminate]. injection H as _ <-.
  apply update_row_inv in E as [(_ & -> & _)|(_ & k & k' & Hk & _ & Hkk & ->)].
  - replace (set_kredit (d_kredit d) d) with d by (by destruct d). reflexivity.
  - split; [|intros Hn k0; cbn|done].
    + apply kredit_change_moves. intros i. apply (fmap_insert_same kredit_terms id i k); auto.
    + intros [[-> <-]|[_ H]]%lookup_insert_Some; [by apply (Hs k); auto|by apply Hn].
Qed.

Lemma penalty_frozen kid id pct : preserves (frozen kid) (ApplyLatePaymentPenalty id pct).
Proof.
  unfold ApplyLatePaymentPenalty. apply preserves_Transaction; [apply _|].
  repeat (apply preserves_bind; [apply _| |intros ?]); try (apply preserves_ret; apply _).
  - apply update_kredit_frozen; intros k k'; unfold penalize; (destruct (store_rate _); [|discriminate]);
      by intros [= <-].
  - apply update_kredit_frozen; by intros k k' [= <-].
Qed.
#[local] Hint Resolve penalty_frozen : preserves.

Lemma attempt_frozen kid isRetry due e w r w' :
  listed (w_db w) (due_input due) -> du_KreditID due <> kid ->
  attemptPayment retryAfter penaltyPct isRetry due e w = (r, w') -> frozen kid (w_db w) (w_db w').
Proof.
  intros Hl Hne H. unfold attemptPayment in H. apply try_bind in H as (r0 & w1 & H1 & H).
  pose proof (payment_frozen kid _ _ _ _ _ Hl Hne H1) as Hm.
  destruct r0 as [[]|[]]; try (injection H as _ <-; exact Hm).
  apply payment_no_funds in H1 as (Hd & x & Hx & Hs). rewrite <- Hd in *.
  destruct isRetry.
  - assert (Hp : preserves (frozen kid) (handleSecondFailure penaltyPct due ;; mret false))
      by (unfold handleSecondFailure; solve_preserves).
    exact (Hp _ _ _ _ H).
  - revert H. apply (first_failure_rel retryAfter (frozen kid) _ _ _ _ _ x Hx). intros t.
    destruct Hl as (y & k & Hy & Hyk & _). cbn in Hx, Hy, Hyk. assert (y = x) as -> by congruence.
    split; [by apply mark_moves|done|]. intros i z Hz Hzk. cbn. rewrite lookup_insert_ne; [done|].
    intros <-. congruence.
Qed.

Lemma job_frozen kid e w r w' :
  not_open kid (w_db w) -> runDailyJob retryAfter penaltyPct e w = (r, w') -> frozen kid (w_db w) (w_db w').
Proof.
  intros Hn. apply (job_rel (frozen kid) (not_open kid)
    (fun d due => listed d (due_input due) /\ du_KreditID due <> kid)).
  - intros d d' [_ H _]. done.
  - intros d due Hd Hl. split; [by apply listing_listed|].
    apply listing_open in Hl as (k & Hk & Hs). intros <-. by apply (Hd k).
  - intros d d' due [Hp _ _] [H1 H2]. split; [by eapply listed_plan|done].
  - intros isRetry due e0 w0 r0 w0' [H1 H2] H0. by eapply attempt_frozen.
  - done.
Qed.
End job.
