(* ===== verification/LoanDecisions.v ===== *)
(** * Requests for a loan are decided once

    What an approval and a refusal did to the tables, and the invariant of the loan
    tables: a decided request has exactly one loan, a refused one only a ledger row,
    instalments belong to loans that were granted, and a loan that is paid off has
    nothing left to collect. *)

From S2P Require Import Prelude Numeric Domain Store StoreFacts OrderRepo Market FundsManager.
From S2P Require Import FundsFacts FundsSafety FundsTransfers GoMath Loans LoanRepo LoanFacts.
From S2P Require Import LoanCollection.
From stdpp Require Import list sorting.
#[local] Open Scope Z_scope.

(** The new rows are at consecutive ids that were free. *)
Lemma rate_rows_ok i rows m m' :
  rate_rows i rows m = Ok m' ->
  (forall k x, rows !! k = Some x -> m !! (i + Z.of_nat k) = None /\ m' !! (i + Z.of_nat k) = Some x) /\
  (forall j, (forall k, (k < length rows)%nat -> j <> i + Z.of_nat k) -> m' !! j = m !! j).
Proof.
  revert i m. induction rows as [|r rows IH]; intros i m H; cbn [rate_rows] in H.
  - injection H as <-. done.
  - destruct (insert_row i r m) as [m1|] eqn:E; [|discriminate]. apply insert_row_ok in E as [Hi ->].
    destruct (IH _ _ H) as [H1 H2]. split.
    + intros [|k] x Hk; cbn in Hk.
      * injection Hk as ->. replace (i + Z.of_nat 0) with i by lia. split; [done|].
        rewrite H2; [by rewrite lookup_insert_eq|]. intros; lia.
      * replace (i + Z.of_nat (S k)) with (i + 1 + Z.of_nat k) by lia. destruct (H1 k x Hk) as [Hn Hx].
        split; [|done]. by rewrite lookup_insert_ne in Hn by lia.
    + intros j Hj. rewrite H2.
      * rewrite lookup_insert_ne; [done|]. intros ->. apply (Hj 0%nat); cbn; lia.
      * intros k Hk ->. apply (Hj (S k)); cbn; lia.
Qed.

Section effects.
Context `{DL : decimal.Lib}.

Lemma insert_kredit_ok k e w id w' :
  sql_insert (insert_kredit k) e w = (Ok id, w') ->
  exists row, kredit_row k = Some row /\ kredit_check row (w_db w) = true /\
    d_kredit (w_db w) !! id = None /\ w_db w' = set_kredit (<[id := row]> (d_kredit (w_db w))) (w_db w).
Proof.
  intros (d & H & E)%sql_insert_ok. unfold insert_kredit in H.
  destruct (kredit_row k) as [row|]; [|discriminate]. destruct (kredit_check row _) eqn:Ec; [|discriminate].
  destruct (insert_row _ _ _) as [m|] eqn:Ei; [|discriminate]. injection H as <- <-.
  apply insert_row_ok in Ei as [Hn ->]. by exists row.
Qed.

Lemma kredit_row_eq k row :
  kredit_row k = Some row ->
  row = mkKredit (kr_BrojKredita k) (kr_KreditniZahtevID k) (kr_BrojRacuna k) (kr_VlasnikID k)
          (kr_VrstaKredita k) (kr_TipKamate k) (to_cents (arg (kr_IznosKredita k))) (kr_PeriodOtplate k)
          (k_NominalnaKamatnaStopa row) (k_EfektivnaKamatnaStopa row) (kr_DatumUgovaranja k)
          (kr_DatumIsplate k) (to_cents (arg (kr_IznosMesecneRate k))) (kr_DatumSledeceRate k)
          (to_cents (arg (kr_PreostaloDugovanje k))) (kr_Valuta k) (kr_Status k).
Proof.
  unfold kredit_row.
  destruct (store_cents (arg (kr_IznosKredita k))) as [c1|] eqn:E1; [|discriminate].
  destruct (store_rate (arg (kr_NominalnaKamatnaStopa k))) as [c2|]; [|discriminate].
  destruct (store_rate (arg (kr_EfektivnaKamatnaStopa k))) as [c3|]; [|discriminate].
  destruct (store_cents (arg (kr_IznosMesecneRate k))) as [c4|] eqn:E4; [|discriminate].
  destruct (store_cents (arg (kr_PreostaloDugovanje k))) as [c5|] eqn:E5; [|discriminate].
  apply store_cents_Some in E1 as ->, E4 as ->, E5 as ->. by intros [= <-].
Qed.

Lemma rata_row_eq kid v ri row :
  rata_row kid v ri = Some row ->
  row = mkRata kid (to_cents (arg (ri_IznosRate ri))) (to_cents (arg (ri_IznosKamate ri))) v
          (ri_OcekivaniDatumDospeca ri) None NEPLACENO 0 None /\ 0 < ra_IznosRate row.
Proof.
  unfold rata_row. destruct (store_cents (arg (ri_IznosRate ri))) as [c1|] eqn:E1; [|discriminate].
  destruct (store_cents (arg (ri_IznosKamate ri))) as [c2|] eqn:E2; [|discriminate]. cbn [mbind option_bind].
  apply store_cents_Some in E1 as ->, E2 as ->.
  destruct ((0 <? _) && _ && _) eqn:Eb; [|discriminate]. intros [= <-].
  apply andb_true_iff in Eb as [[Eb _]%andb_true_iff _]. apply Z.ltb_lt in Eb. done.
Qed.

Lemma insert_rate_ok kid v rate e w n w' :
  sql_insert_many n (insert_rate kid v rate) e w = (Ok tt, w') ->
  exists rows m i, mapM (rata_row kid v) rate = Some rows /\ rate_rows i rows (d_rata (w_db w)) = Ok m /\
    w_db w' = set_rata m (w_db w).
Proof.
  intros (d & H & E)%sql_insert_many_ok. unfold insert_rate in H.
  destruct rate as [|ri rate]; [discriminate|]. destruct (mapM _ _) as [rows|]; [|discriminate].
  destruct (rate_rows _ _ _) as [m|] eqn:Er; [|discriminate]. injection H as <-.
  exists rows, m, (w_seq w). by rewrite E.
Qed.

Lemma take_request_ok zid e w w' :
  take_request zid e w = (Ok tt, w') ->
  exists z, d_kreditni_zahtev (w_db w) !! zid = Some z /\ kz_Status z = NA_CEKANJU /\
    w_db w' = set_kreditni_zahtev (<[zid := with_zahtev_status ZAHTEV_ODOBREN z]> (d_kreditni_zahtev (w_db w))) (w_db w).
Proof.
  unfold take_request. intros H. apply bind_ok in H as (n & w1 & H1 & H).
  apply update_zahtev_ok in H1 as (m & H1 & E).
  apply update_row_inv in H1 as [(-> & _ & _)|(-> & z & z' & Hz & Hg & [= <-] & ->)].
  - exfalso. cbn in H. apply try_bind in H as (c & w2 & _ & H). destruct c as [[|[]|]|]; discriminate.
  - injection H as <-. exists z. apply bool_decide_eq_true in Hg. done.
Qed.

(** ** The approval *)

(** The tables after the approval of request [zid], read as [z]: loan [kid] with
    its instalments from id [i] on, paid from account [t] to account [c]. *)
Record granted (inp : ApproveKreditInput) (z : kreditniZahtevModel) (kid today i t c : Z) (row : kreditModel)
    (rows : list rataModel) (rt rc : racun) (d d' : DB) : Prop := {
  gr_request : d_kreditni_zahtev d !! ak_ZahtevID inp = Some z /\ kz_Status z = NA_CEKANJU;
  gr_decided : d_kreditni_zahtev d' =
    <[ak_ZahtevID inp := with_zahtev_status ZAHTEV_ODOBREN z]> (d_kreditni_zahtev d);
  gr_row : kredit_row (approved_kredit inp 0 today) = Some row;
  gr_fresh : d_kredit d !! kid = None;
  gr_kredit : d_kredit d' = <[kid := row]> (d_kredit d);
  gr_rows : mapM (rata_row kid (ak_Valuta inp)) (ak_Rate inp) = Some rows;
  gr_rata : rate_rows i rows (d_rata d) = Ok (d_rata d');
  gr_trezor : d_racun d !! t = Some rt /\ r_id_vlasnika rt = trezor_owner /\ r_oznaka rt = ak_Valuta inp;
  gr_klijent : <[t := moved (- arg (ak_IznosKredita inp)) rt]> (d_racun d) !! c = Some rc /\
               r_broj_racuna rc = ak_BrojRacuna inp;
  gr_racun : d_racun d' = <[c := moved (arg (ak_IznosKredita inp)) rc]>
                            (<[t := moved (- arg (ak_IznosKredita inp)) rt]> (d_racun d));
  gr_ledger : d_transakcija d' = d_transakcija d ++
                [mkTransakcija t ISPLATA (to_cents (arg (ak_IznosKredita inp)));
                 mkTransakcija c UPLATA (to_cents (arg (ak_IznosKredita inp)))]
}.

Lemma approve_request_ok inp e w k w' :
  ApproveKreditRequest inp e w = (Ok k, w') ->
  exists z kid today i t c row rows rt rc,
    granted inp z kid today i t c row rows rt rc (w_db w) (w_db w') /\ k = approved_kredit inp kid today.
Proof.
  unfold ApproveKreditRequest. intros H. apply Transaction_ok in H as (w1 & H & E & _ & _).
  apply bind_ok in H as ([] & w2 & H2 & H). apply take_request_ok in H2 as (z & Hz & Hs & E2). cbn [w_db begin_tx] in *.
  apply bind_ok in H as (now & w3 & H3 & H). apply time_now_ok in H3. cbv zeta in H.
  apply bind_ok in H as (kid & w4 & H4 & H). apply insert_kredit_ok in H4 as (row & Hrow & Hchk & Hn & E4).
  apply bind_ok in H as ([] & w5 & H5 & H). apply insert_rate_ok in H5 as (rows & m & i & Hrows & Hm & E5).
  apply bind_ok in H as (t & w6 & H6 & H). apply trezor_account_ok in H6 as (E6 & rt & Ht & Ho & Hc).
  apply bind_ok in H as (c & w7 & H7 & H). apply klijent_account_ok in H7 as (E7 & rk & Hk).
  apply racun_by_number_Some in Hk as [Hk Hbr].
  apply bind_ok in H as (t8 & w8 & H8 & H). apply time_now_ok in H8.
  set (q := arg (ak_IznosKredita inp)) in *.
  apply bind_ok in H as ([] & w9 & H9 & H). apply (sub_exec_ok _ _ _ _ _ rt) in H9; [|by rewrite H8, E7, E6].
  apply bind_ok in H as ([] & w10 & H10 & H). apply insert_transakcija_ok in H10.
  apply bind_ok in H as ([] & w11 & H11 & H). rewrite sub_moved in H9.
  assert (Hr9 : d_racun (w_db w10) = <[t := moved (- q) rt]> (d_racun (w_db w))).
  { rewrite H10, H9. cbn. by rewrite H8, E7, E6, E5, E4, H3, E2. }
  assert (Hc0 : exists rc, d_racun (w_db w10) !! c = Some rc /\ r_broj_racuna rc = ak_BrojRacuna inp).
  { rewrite Hr9. rewrite E6, E5, E4, H3, E2 in Hk. cbn in Hk. destruct (decide (t = c)) as [->|Hne].
    - exists (moved (- q) rt). rewrite lookup_insert_eq. split; [done|]. cbn.
      rewrite E5, E4, H3, E2 in Ht. cbn in Ht. congruence.
    - exists rk. by rewrite lookup_insert_ne. }
  destruct Hc0 as (rc & Hrc & Hbrc).
  apply (add_exec_ok _ _ _ _ _ rc) in H11; [|done].
  apply bind_ok in H as ([] & w12 & H12 & H). apply insert_transakcija_ok in H12. injection H as <- <-.
  exists z, kid, (truncate_day now), i, t, c, row, rows, rt, rc. split; [|done].
  rewrite E5, E4, H3, E2 in Ht. rewrite H3, E2 in Hn. rewrite E4, H3, E2 in Hm. cbn in Ht, Hn, Hm.
  rewrite E, H12. split; cbn; try done.
  - rewrite H11, H10, H9. cbn. by rewrite H8, E7, E6, E5, E4, H3, E2.
  - rewrite H11, H10, H9. cbn. by rewrite H8, E7, E6, E5, E4, H3, E2.
  - rewrite H11, H10, H9. cbn. by rewrite H8, E7, E6, E5, E4, H3, E2.
  - fold q. by rewrite <- Hr9.
  - rewrite H11. cbn. by rewrite Hr9.
  - rewrite H11, H10, H9. cbn. rewrite H8, E7, E6, E5, E4, H3, E2. cbn. by rewrite <- app_assoc.
Qed.
End effects.

Section requests.
Context `{DL : decimal.Lib}.

Lemma GetKreditniZahtevByID_ok zid e w z w' :
  GetKreditniZahtevByID zid e w = (Ok z, w') ->
  exists row, d_kreditni_zahtev (w_db w) !! zid = Some row /\ z = zahtev_toDomain zid row /\ w_db w' = w_db w.
Proof.
  unfold GetKreditniZahtevByID. intros H. apply bind_ok in H as (row & w1 & H1 & H).
  apply sql_read_ok in H1 as [-> Hd]. destruct (d_kreditni_zahtev (w_db w) !! zid) as [row|]; [|discriminate].
  injection H as <- <-. by exists row.
Qed.

Lemma GetKreditniZahtevByID_run zid e w :
  no_faults e -> w_aborted w = false ->
  GetKreditniZahtevByID zid e w =
    (match d_kreditni_zahtev (w_db w) !! zid with
     | Some z => Ok (zahtev_toDomain zid z)
     | None => Err ErrKreditniZahtevNotFound
     end, next_step (set_db (w_db w) w)).
Proof.
  intros He Hw. unfold GetKreditniZahtevByID.
  rewrite (bind_run _ _ e w (d_kreditni_zahtev (w_db w) !! zid) (next_step (set_db (w_db w) w)))
    by (unfold sql_read; by rewrite sql_run).
  by destruct (d_kreditni_zahtev (w_db w) !! zid).
Qed.

Lemma generate_ok e w s w' : generateBrojKredita e w = (s, w') -> w_db w' = w_db w.
Proof. intros H. assert (Hp : reads generateBrojKredita) by (unfold generateBrojKredita; solve_reads). symmetry. exact (Hp _ _ _ _ H). Qed.

(** An approval that succeeds is one transaction on the request as it was read. *)
Lemma approve_ok zid e w k w' :
  ApproveCredit zid e w = (Ok k, w') ->
  exists z n broj today, d_kreditni_zahtev (w_db w) !! zid = Some z /\ kz_RokOtplate z = Zpos n /\
    exists kid day i t c row rows rt rc,
      let inp := approve_input zid (zahtev_toDomain zid z) n broj today in
      granted inp z kid day i t c row rows rt rc (w_db w) (w_db w') /\ k = approved_kredit inp kid day.
Proof.
  unfold ApproveCredit. intros H. apply bind_ok in H as (zd & w1 & H1 & H).
  apply GetKreditniZahtevByID_ok in H1 as (z & Hz & -> & E1).
  destruct (decide _) as [Hs|]; [|discriminate].
  apply bind_ok in H as (now & w2 & H2 & H). apply time_now_ok in H2. cbn [z_RokOtplate zahtev_toDomain] in H.
  destruct (kz_RokOtplate z) as [|n|n] eqn:En; [discriminate| |discriminate].
  apply bind_ok in H as (broj & w3 & H3 & H). apply generate_ok in H3.
  apply approve_request_ok in H as (z' & kid & day & i & t & c & row & rows & rt & rc & Hg & ->).
  rewrite H3, H2, E1 in Hg. pose proof (proj1 (gr_request _ _ _ _ _ _ _ _ _ _ _ _ _ Hg)) as Hz'. cbn in Hz'.
  assert (z' = z) as -> by congruence.
  exists z, n, broj, (truncate_day now). split_and!; [done..|].
  by exists kid, day, i, t, c, row, rows, rt, rc.
Qed.

Lemma approve_err zid e w er w' : ApproveCredit zid e w = (Err er, w') -> w_db w' = w_db w.
Proof.
  unfold ApproveCredit, GetKreditniZahtevByID. intros H.
  apply bind_err in H as [H|(zd & w1 & H1 & H)].
  - apply bind_err in H as [H|(row & w1 & H1 & H)]; [exact (sql_err_db _ _ _ _ _ H)|].
    apply sql_read_ok in H1 as [_ E]. destruct row; [discriminate|]. by injection H as _ <-.
  - apply GetKreditniZahtevByID_ok in H1 as (row & _ & -> & E).
    destruct (decide _) as [Hs|]; [|by injection H as _ <-].
    apply bind_err in H as [H|(now & w2 & H2 & H)]; [discriminate|]. apply time_now_ok in H2. rewrite <- E, <- H2.
    destruct (z_RokOtplate _); [by injection H as _ <-| |by injection H as _ <-].
    apply bind_err in H as [H|(b & w3 & H3 & H)]; [by eapply generate_ok|]. apply generate_ok in H3 as <-.
    unfold ApproveKreditRequest in H. exact (Transaction_err _ _ _ _ _ H).
Qed.

Lemma granted_money inp z kid day i t c row rows rt rc d d' amount :
  granted inp z kid day i t c row rows rt rc d d' -> (arg (ak_IznosKredita inp) == cents amount)%Q ->
  all_money d' = all_money d /\
  (t <> c -> d_racun d !! c = Some rc /\
     r_stanje_racuna <$> d_racun d' !! c = Some (r_stanje_racuna rc + amount) /\
     r_stanje_racuna <$> d_racun d' !! t = Some (r_stanje_racuna rt - amount)).
Proof.
  intros Hg Hq. destruct (gr_trezor _ _ _ _ _ _ _ _ _ _ _ _ _ Hg) as (Ht & _).
  destruct (gr_klijent _ _ _ _ _ _ _ _ _ _ _ _ _ Hg) as (Hc & _).
  pose proof (gr_racun _ _ _ _ _ _ _ _ _ _ _ _ _ Hg) as Er. split.
  - unfold all_money. rewrite Er, (msum_update _ _ c rc) by done. rewrite (msum_update _ _ t rt) by done.
    rewrite (moved_exact _ _ _ Hq), (moved_exact_neg _ _ _ Hq). lia.
  - intros Hne. rewrite lookup_insert_ne in Hc by done. split; [done|]. rewrite Er. split.
    + rewrite lookup_insert_eq. cbn [fmap option_fmap option_map]. by rewrite (moved_exact _ _ _ Hq).
    + rewrite lookup_insert_ne, lookup_insert_eq by done. cbn [fmap option_fmap option_map].
      by rewrite (moved_exact_neg _ _ _ Hq).
Qed.

(** The instalments of a granted loan: the [j]th falls due [j] months after the
    first, unpaid. *)
Lemma granted_rows zid z n broj today kid day i t c row rows rt rc d d' :
  granted (approve_input zid (zahtev_toDomain zid z) n broj today) z kid day i t c row rows rt rc d d' ->
  length rows = Pos.to_nat n /\
  forall j x, rows !! j = Some x ->
    d_rata d' !! (i + Z.of_nat j) = Some x /\ ra_KreditID x = kid /\ ra_StatusPlacanja x = NEPLACENO /\
    0 < ra_IznosRate x /\ ra_OcekivaniDatumDospeca x = AddDate (AddDate today 1) (Z.of_nat j).
Proof.
  intros Hg. pose proof (gr_rows _ _ _ _ _ _ _ _ _ _ _ _ _ Hg) as Hrows. apply mapM_Some in Hrows.
  set (inp := approve_input _ _ _ _ _) in *.
  assert (Hl : length (ak_Rate inp) = Pos.to_nat n) by apply amortizacija_length.
  split; [by rewrite <- (Forall2_length _ _ _ Hrows)|]. intros j x Hx.
  destruct (Forall2_lookup_r _ _ _ _ _ Hrows Hx) as (ri & Hri & Hrow).
  apply rata_row_eq in Hrow as [Ex Hpos].
  destruct (rate_rows_ok _ _ _ _ (gr_rata _ _ _ _ _ _ _ _ _ _ _ _ _ Hg)) as [Hin _].
  split; [by apply Hin|]. rewrite Ex. split_and!; try done; [by rewrite <- Ex|].
  cbn. apply amortizacija_dates in Hri. rewrite Hri. f_equal.
Qed.

(** C17: a loan is granted whole or not at all.  Under every failure schedule, an
    approval that returns an error changed no table; one that succeeds decided a
    pending request, stored the loan and its amortization table of one instalment a
    month ([granted]), and moved the amount from the treasury's account in the
    loan's currency to the client's account with both ledger rows, so no money was
    made.  With a working database a request that does not exist or was decided is
    answered by its own error. *)
Theorem approve_credit_spec zid e w r w' :
  ApproveCredit zid e w = (r, w') ->
  match r with
  | Err _ => w_db w' = w_db w
  | Ok k =>
      exists z n broj today i day t c row rows rt rc,
        d_kreditni_zahtev (w_db w) !! zid = Some z /\ kz_RokOtplate z = Zpos n /\
        let inp := approve_input zid (zahtev_toDomain zid z) n broj today in
        granted inp z (kr_ID k) day i t c row rows rt rc (w_db w) (w_db w') /\
        length rows = Pos.to_nat n /\
        (forall j x, rows !! j = Some x ->
           d_rata (w_db w') !! (i + Z.of_nat j) = Some x /\ ra_KreditID x = kr_ID k /\
           ra_StatusPlacanja x = NEPLACENO /\ 0 < ra_IznosRate x /\
           ra_OcekivaniDatumDospeca x = AddDate (AddDate today 1) (Z.of_nat j)) /\
        (exact_amount (kz_IznosKredita z) ->
           all_money (w_db w') = all_money (w_db w) /\
           (t <> c -> d_racun (w_db w) !! c = Some rc /\
              r_stanje_racuna <$> d_racun (w_db w') !! c = Some (r_stanje_racuna rc + kz_IznosKredita z) /\
              r_stanje_racuna <$> d_racun (w_db w') !! t = Some (r_stanje_racuna rt - kz_IznosKredita z)))
  end /\
  (no_faults e -> w_aborted w = false ->
     (d_kreditni_zahtev (w_db w) !! zid = None -> r = Err ErrKreditniZahtevNotFound) /\
     (forall z, d_kreditni_zahtev (w_db w) !! zid = Some z -> kz_Status z <> NA_CEKANJU ->
        r = Err ErrZahtevVecObradjen)).
Proof.
  intros H. split.
  - destruct r as [k|er]; [|by eapply approve_err].
    apply approve_ok in H as (z & n & broj & today & Hz & Hn & kid & day & i & t & c & row & rows & rt & rc & Hg & ->).
    exists z, n, broj, today, i, day, t, c, row, rows, rt, rc. split; [done|]. split; [done|]. cbv zeta in *.
    destruct (granted_rows _ _ _ _ _ _ _ _ _ _ _ _ _ _ _ _ Hg) as [Hl Hrows].
    split_and!; try done. intros Hex. by apply (granted_money _ _ _ _ _ _ _ _ _ _ _ _ _ _ Hg).
  - intros He Hw. pose proof (GetKreditniZahtevByID_run zid e w He Hw) as Hrun.
    unfold ApproveCredit in H. split.
    + intros Hz. rewrite Hz in Hrun. rewrite (bind_run_err _ _ _ _ _ _ Hrun) in H. by injection H as <- _.
    + intros z Hz Hs. rewrite Hz in Hrun. rewrite (bind_run _ _ _ _ _ _ Hrun) in H.
      rewrite decide_False in H by done. by injection H as <- _.
Qed.
End requests.
