(* ===== verification/LoanLifecycle.v ===== *)
(** * The life of a loan, in every interleaving

    [loan_step]: the requests on loans, the daily job and whatever the rest of the
    bank does to the other tables, each in any world and under any failures.  The
    invariant [loan_inv] holds in every state they reach, and what was decided
    stays decided. *)

From S2P Require Import Prelude Numeric Domain Store StoreFacts OrderRepo Market FundsManager.
From S2P Require Import FundsFacts FundsSafety FundsTransfers GoMath Loans LoanRepo LoanFacts.
From S2P Require Import LoanCollection LoanDecisions.
From stdpp Require Import list sorting relations.
#[local] Open Scope Z_scope.

(** ** The invariant *)

Definition decided_as (s : StatusKredita) : StatusZahteva :=
  if decide (s = ODBIJEN) then ZAHTEV_ODBIJEN else ZAHTEV_ODOBREN.

Record loan_inv (d : DB) : Prop := {
  (** The request of a loan is decided as the loan says. *)
  li_request : forall kid k zid, d_kredit d !! kid = Some k -> k_KreditniZahtevID k = Some zid ->
    exists z, d_kreditni_zahtev d !! zid = Some z /\ kz_Status z = decided_as (k_Status k);
  (** A request has one loan at most. *)
  li_one : forall i j k k' zid, d_kredit d !! i = Some k -> d_kredit d !! j = Some k' ->
    k_KreditniZahtevID k = Some zid -> k_KreditniZahtevID k' = Some zid -> i = j;
  (** A decided request has one. *)
  li_has : forall zid z, d_kreditni_zahtev d !! zid = Some z -> kz_Status z <> NA_CEKANJU ->
    exists kid k, d_kredit d !! kid = Some k /\ k_KreditniZahtevID k = Some zid;
  (** Instalments belong to loans that were granted. *)
  li_rata : forall i x, d_rata d !! i = Some x ->
    exists k, d_kredit d !! ra_KreditID x = Some k /\ k_Status k <> ODBIJEN;
  (** A loan that is paid off owes nothing and has no unpaid instalment. *)
  li_closed : forall kid k, d_kredit d !! kid = Some k -> k_Status k = OTPLACEN ->
    k_PreostaloDugovanje k = 0 /\ k_DatumSledeceRate k = None /\
    forall i x, d_rata d !! i = Some x -> ra_KreditID x = kid -> ra_StatusPlacanja x <> NEPLACENO
}.

(** Decisions are final and loans keep their terms. *)
Record remembers (d d' : DB) : Prop := {
  re_decided : forall zid z, d_kreditni_zahtev d !! zid = Some z -> kz_Status z <> NA_CEKANJU ->
    d_kreditni_zahtev d' !! zid = Some z;
  re_kredit : forall kid k, d_kredit d !! kid = Some k ->
    exists k', d_kredit d' !! kid = Some k' /\ kredit_terms k' = kredit_terms k
}.

#[export] Instance remembers_preorder : PreOrder remembers.
Proof.
  split; [split; eauto|]. intros d1 d2 d3 [A1 A2] [B1 B2]. split; [auto|].
  intros kid k Hk. destruct (A2 _ _ Hk) as (k2 & H2 & E2). destruct (B2 _ _ H2) as (k3 & H3 & E3).
  exists k3. split; [done|congruence].
Qed.

Lemma plan_remembers d d' : plan d d' -> remembers d d'.
Proof.
  intros [_ _ Hk Hz _]. split; [intros; by rewrite Hz|]. intros kid k H.
  by apply (fmap_same_Some kredit_terms _ _ _ (Hk kid)).
Qed.

(** ** Changes of status *)

Definition class (k : kreditModel) : option Z * bool :=
  (k_KreditniZahtevID k, bool_decide (k_Status k = ODBIJEN)).

(** The parts of the invariant that only look at requests, classes and the loans
    of instalments, carried over. *)
Lemma inv_carried d d' :
  loan_inv d -> d_kreditni_zahtev d' = d_kreditni_zahtev d ->
  (forall i, class <$> d_kredit d' !! i = class <$> d_kredit d !! i) ->
  (forall i, ra_KreditID <$> d_rata d' !! i = ra_KreditID <$> d_rata d !! i) ->
  (forall kid k', d_kredit d' !! kid = Some k' -> k_Status k' = OTPLACEN ->
     k_PreostaloDugovanje k' = 0 /\ k_DatumSledeceRate k' = None /\
     forall i x, d_rata d' !! i = Some x -> ra_KreditID x = kid -> ra_StatusPlacanja x <> NEPLACENO) ->
  loan_inv d'.
Proof.
  intros [I1 I2 I3 I4 _] Hz Hk Hr Hcl.
  assert (Hback : forall i k', d_kredit d' !! i = Some k' ->
            exists k, d_kredit d !! i = Some k /\ k_KreditniZahtevID k' = k_KreditniZahtevID k /\
              (k_Status k' = ODBIJEN <-> k_Status k = ODBIJEN)).
  { intros i k' Hk'. destruct (fmap_same_Some class _ _ _ (eq_sym (Hk i)) Hk') as (k & H & E). exists k.
    unfold class in E. injection E as E1 E2. split_and!; [done|done|]. by apply bool_decide_eq_bool_decide in E2
      || (split; intros Hs; [apply (bool_decide_unpack _); rewrite E2|apply (bool_decide_unpack _); rewrite <- E2];
          by apply bool_decide_pack). }
  split; [| | | |exact Hcl].
  - intros kid k' zid H' Hzid. destruct (Hback _ _ H') as (k & H & E1 & E2). rewrite Hz.
    destruct (I1 kid k zid H ltac:(congruence)) as (z & Hzz & Hs). exists z. split; [done|]. rewrite Hs.
    unfold decided_as. by destruct (decide (k_Status k = ODBIJEN)), (decide (k_Status k' = ODBIJEN)); tauto.
  - intros i j k k' zid Hi Hj Ei Ej. destruct (Hback _ _ Hi) as (k1 & H1 & E1 & _).
    destruct (Hback _ _ Hj) as (k2 & H2 & E2 & _). apply (I2 i j k1 k2 zid); congruence.
  - intros zid z Hzz Hs. rewrite Hz in Hzz. destruct (I3 zid z Hzz Hs) as (kid & k & H & E).
    destruct (fmap_same_Some class _ _ _ (Hk kid) H) as (k' & H' & E'). exists kid, k'. split; [done|].
    unfold class in E'. congruence.
  - intros i x' Hx'. destruct (fmap_same_Some ra_KreditID _ _ _ (eq_sym (Hr i)) Hx') as (x & Hx & E).
    destruct (I4 i x Hx) as (k & H & Hs). rewrite E in H.
    destruct (fmap_same_Some class _ _ _ (Hk _) H) as (k' & H' & E'). exists k'. split; [done|].
    destruct (Hback _ _ H') as (k0 & H0 & _ & E0). assert (k0 = k) as -> by congruence. tauto.
Qed.

Section steps.
Context `{DL : decimal.Lib}.
Context (retryAfter : Z) (penaltyPct : float64).

(** *** Payments *)

Lemma paid_rata_status rid day (m : gmap Z rataModel) i x :
  alter (fun r => with_rata (Some day) PLACENO (ra_BrojPokusaja r + 1) (ra_SledecaPokusaj r) r) rid m !! i = Some x ->
  ra_StatusPlacanja x = NEPLACENO -> m !! i = Some x.
Proof.
  destruct (decide (rid = i)) as [->|]; [|by rewrite lookup_alter_ne].
  rewrite lookup_alter_eq. destruct (m !! i); [|done]. by intros [= <-].
Qed.

Lemma payment_inv inp e w r w' :
  loan_inv (w_db w) -> listed (w_db w) inp ->
  ProcessInstallmentPayment inp e w = (r, w') -> loan_inv (w_db w').
Proof.
  intros Hi Hl H. destruct r as [[]|er].
  2: { unfold ProcessInstallmentPayment in H. by rewrite (Transaction_err _ _ _ _ _ H). }
  apply payment_ok in H as (rata & id & a & t & rt & day & Hrata & _ & _ & _ & Hc).
  destruct Hl as (x0 & k0 & Hx0 & Hxk & Hk0 & _). assert (x0 = rata) as -> by congruence.
  destruct (li_rata _ Hi _ _ Hrata) as (k1 & Hk1 & Hodb). assert (k1 = k0) as -> by congruence.
  pose proof (cf_kredit _ _ _ _ _ _ _ _ _ Hc) as Ek. pose proof (cf_rata _ _ _ _ _ _ _ _ _ Hc) as Er.
  apply (inv_carried (w_db w)); [done|exact (cf_zahtev _ _ _ _ _ _ _ _ _ Hc)| | |].
  - intros i. rewrite Ek. destruct (decide (pr_KreditID inp = i)) as [<-|]; [|by rewrite lookup_alter_ne].
    rewrite lookup_alter_eq, Hk0. cbn. unfold class, next_kredit.
    rewrite (bool_decide_eq_false_2 (k_Status k0 = ODBIJEN)) by done.
    destruct (next_unpaid _ _); cbn; [by rewrite bool_decide_eq_false_2|done].
  - intros i. rewrite Er. by apply fmap_alter_same.
  - intros kid k' Hk' Hs. rewrite Ek in Hk'.
    destruct (decide (pr_KreditID inp = kid)) as [<-|Hne].
    + rewrite lookup_alter_eq, Hk0 in Hk'. injection Hk' as <-. unfold next_kredit in Hs |- *.
      destruct (next_unpaid _ _) as [day'|] eqn:En.
      * exfalso. cbn in Hs. destruct (li_closed _ Hi _ _ Hk0 Hs) as (_ & _ & Hno).
        enough (next_unpaid (pr_KreditID inp) (w_db w') = None) by congruence. apply next_unpaid_None.
        intros i x Hx Hxk' Hsx. rewrite Er in Hx. by apply (Hno i x (paid_rata_status _ _ _ _ _ Hx Hsx)).
      * split; [done|]. split; [done|]. exact (proj1 (next_unpaid_None _ _) En).
    + rewrite lookup_alter_ne in Hk' by done. destruct (li_closed _ Hi _ _ Hk' Hs) as (H1 & H2 & H3).
      split_and!; [done..|]. intros i x Hx Hxk' Hsx. rewrite Er in Hx.
      by apply (H3 i x (paid_rata_status _ _ _ _ _ Hx Hsx)).
Qed.

Lemma mark_inv d i x t n :
  loan_inv d -> d_rata d !! i = Some x ->
  loan_inv (set_rata (<[i := with_rata (ra_PraviDatumDospeca x) KASNI n (Some t) x]> (d_rata d)) d).
Proof.
  intros Hi Hx. apply (inv_carried d); try done; cbn.
  - intros j. by apply (fmap_insert_same ra_KreditID i j x).
  - intros kid k Hk Hs. destruct (li_closed _ Hi _ _ Hk Hs) as (H1 & H2 & H3). split_and!; [done..|].
    intros j y [[-> <-]|[_ Hy]]%lookup_insert_Some; [done|exact (H3 j y Hy)].
Qed.

(** A statement on a loan that keeps its class, and its closing balance. *)
Lemma update_kredit_inv id g f :
  (forall k k', g k = true -> f k = Some k' -> class k' = class k /\
     (k_Status k' = OTPLACEN -> k_Status k = OTPLACEN /\
        k_PreostaloDugovanje k' = k_PreostaloDugovanje k /\ k_DatumSledeceRate k' = k_DatumSledeceRate k)) ->
  preserves (fun d d' => loan_inv d -> loan_inv d') (sql (update_kredit id g f)).
Proof.
  intros Hf. apply preserves_sql; [split; [by intros ?|by intros ??? A B C; apply B, A]|].
  intros d n d' H Hi. unfold update_kredit in H.
  destruct (update_row _ _ _ _) as [[n' m]|] eqn:E; [|discriminate]. injection H as _ <-.
  apply update_row_inv in E as [(_ & -> & _)|(_ & k & k' & Hk & Hg & Hkk & ->)].
  - by replace (set_kredit (d_kredit d) d) with d by (by destruct d).
  - destruct (Hf _ _ Hg Hkk) as [Hcl Hot]. apply (inv_carried d); try done; cbn.
    + intros i. by apply (fmap_insert_same class id i k).
    + intros kid k0 [[-> <-]|[_ Hk0]]%lookup_insert_Some Hs; [|by apply (li_closed _ Hi _ _ Hk0)].
      destruct (Hot Hs) as (Hs' & -> & ->). by apply (li_closed _ Hi _ _ Hk).
Qed.

#[local] Instance implies_preorder : PreOrder (fun d d' => loan_inv d -> loan_inv d').
Proof. split; [by intros ?|by intros ??? A B C; apply B, A]. Qed.

Lemma penalty_inv kid pct : preserves (fun d d' => loan_inv d -> loan_inv d') (ApplyLatePaymentPenalty kid pct).
Proof.
  unfold ApplyLatePaymentPenalty. apply preserves_Transaction; [apply _|].
  repeat (apply preserves_bind; [apply _| |intros ?]); try (apply preserves_ret; apply _).
  - apply update_kredit_inv. intros k k' _. unfold penalize. destruct (store_rate _); [|discriminate].
    by intros [= <-].
  - apply update_kredit_inv. intros k k' Hg%bool_decide_eq_true [= <-]. unfold class. cbn.
    by rewrite Hg.
Qed.
#[local] Hint Resolve penalty_inv : preserves.

Lemma attempt_inv isRetry due e w r w' :
  loan_inv (w_db w) -> listed (w_db w) (due_input due) ->
  attemptPayment retryAfter penaltyPct isRetry due e w = (r, w') -> loan_inv (w_db w').
Proof.
  intros Hi Hl H. unfold attemptPayment in H. apply try_bind in H as (r0 & w1 & H1 & H).
  pose proof (payment_inv _ _ _ _ _ Hi Hl H1) as Hm.
  destruct r0 as [[]|[]]; try (injection H as _ <-; exact Hm).
  apply payment_no_funds in H1 as (Hd & x & Hx & Hs). rewrite <- Hd in *.
  destruct isRetry.
  - assert (Hp : preserves (fun d d' => loan_inv d -> loan_inv d') (handleSecondFailure penaltyPct due ;; mret false))
      by (unfold handleSecondFailure; solve_preserves).
    exact (Hp _ _ _ _ H Hi).
  - exact (first_failure_rel retryAfter (fun d d' => loan_inv d -> loan_inv d') _ _ _ _ _ x Hx
             (fun t Hi' => mark_inv _ _ x t _ Hi' Hx) H Hi).
Qed.

Lemma penalty_plan kid pct : preserves plan (ApplyLatePaymentPenalty kid pct).
Proof. intros e w r w' H. exact (proj1 (penalty_moves kid pct e w r w' H)). Qed.

Lemma attempt_plan isRetry due e w r w' :
  attemptPayment retryAfter penaltyPct isRetry due e w = (r, w') -> plan (w_db w) (w_db w').
Proof.
  intros H. unfold attemptPayment in H. apply try_bind in H as (r0 & w1 & H1 & H).
  pose proof (payment_plan _ _ _ _ _ H1) as Hm.
  destruct r0 as [[]|[]]; try (injection H as _ <-; exact Hm).
  apply payment_no_funds in H1 as (Hd & x & Hx & Hs). rewrite <- Hd in *.
  destruct isRetry.
  - unfold handleSecondFailure in H. apply bind_cases in H as [([] & w2 & H & [= _ <-])|(er & _ & H)].
    + apply try_bind in H as (r1 & w3 & H & [= <-]). exact (penalty_plan _ _ _ _ _ _ H).
    + by apply try_bind in H as (r1 & w3 & H & ?).
  - exact (first_failure_rel retryAfter plan _ _ _ _ _ x Hx (fun t => proj1 (mark_moves _ _ x t _ Hx Hs)) H).
Qed.

Definition sound (d d' : DB) : Prop := plan d d' /\ (loan_inv d -> loan_inv d').
#[local] Instance sound_preorder : PreOrder sound.
Proof.
  split; [by intros d; split|]. intros d1 d2 d3 [A1 A2] [B1 B2]. split; [by transitivity d2|auto].
Qed.

Lemma job_inv e w r w' :
  loan_inv (w_db w) -> runDailyJob retryAfter penaltyPct e w = (r, w') ->
  loan_inv (w_db w') /\ plan (w_db w) (w_db w').
Proof.
  intros Hi H.
  enough (HR : sound (w_db w) (w_db w')) by (destruct HR; auto).
  revert H. apply (job_rel retryAfter penaltyPct sound loan_inv
    (fun d due => loan_inv d /\ listed d (due_input due))); try done.
  - by intros d d' [_ HI] ?%HI.
  - intros d due Hd Hl. split; [done|]. by apply listing_listed.
  - intros d d' due [Hp HI] [H1 H2]. split; [auto|by eapply listed_plan].
  - intros isRetry due e0 w0 r0 w0' [H1 H2] H0. split; [by eapply attempt_plan|].
    intros _. by eapply attempt_inv.
Qed.

(** *** The first instalment *)

Lemma first_installment_inv kid e w r w' :
  loan_inv (w_db w) -> ProcessFirstInstallment kid e w = (r, w') ->
  loan_inv (w_db w') /\ plan (w_db w) (w_db w').
Proof.
  intros Hi H. enough (HR : sound (w_db w) (w_db w')) by (destruct HR; auto).
  revert H. apply (first_installment_rel sound kid).
  - intros inp e0 w0 r0 w0' Hl _ H. split; [by eapply payment_plan|]. intros Hi0. by eapply payment_inv.
  - intros d i x t n Hx _ Hs. split; [by apply mark_moves|]. intros Hi0. by apply mark_inv.
Qed.
End steps.

(** *** Requests *)

Section decisions.
Context `{DL : decimal.Lib}.

(** An application adds a pending request, or nothing. *)
Lemma apply_cases inp e w r w' :
  ApplyForCredit inp e w = (r, w') ->
  w_db w' = w_db w \/ exists id z, kz_Status z = NA_CEKANJU /\ d_kreditni_zahtev (w_db w) !! id = None /\
    w_db w' = set_kreditni_zahtev (<[id := z]> (d_kreditni_zahtev (w_db w))) (w_db w).
Proof.
  intros H. unfold ApplyForCredit in H. destruct (check_application inp) as [[]|er];
    [|change ((Err er, w) = (r, w')) in H; injection H as _ <-; by left].
  change (CreateKreditniZahtev inp e w = (r, w')) in H. unfold CreateKreditniZahtev in H.
  apply bind_cases in H as [(now & w1 & H1 & H)|(er & _ & H)]; [|discriminate]. apply time_now_ok in H1.
  apply bind_cases in H as [([id z] & w2 & H2 & [= _ <-])|(er & _ & H)].
  - apply sql_insert_ok in H2 as (d & H2 & E). right. unfold insert_zahtev in H2.
    destruct (zahtev_row inp now) as [z0|] eqn:Ez; [|discriminate]. destruct (zahtev_check _ _); [|discriminate].
    destruct (insert_row _ _ _) as [m|] eqn:Em; [|discriminate]. injection H2 as <- <- <-.
    apply insert_row_ok in Em as [Hn ->]. rewrite H1 in *. exists (w_seq w1), z0. split_and!; [|done|done].
    revert Ez. unfold zahtev_row. destruct (store_cents (arg (cz_IznosKredita inp))); [|discriminate].
    destruct (store_cents (arg (cz_IznosMesecnePlate inp))); [|discriminate]. by intros [= <-].
  - left. rewrite <- H1. exact (sql_err_db _ _ _ _ _ H).
Qed.

Lemma apply_step inp e w r w' :
  loan_inv (w_db w) -> ApplyForCredit inp e w = (r, w') ->
  loan_inv (w_db w') /\ remembers (w_db w) (w_db w').
Proof.
  intros Hi H. apply apply_cases in H as [->|(id & z & Hs & Hn & ->)]; [by split|].
  split; [|split; cbn; [|eauto]].
  - destruct Hi as [I1 I2 I3 I4 I5]. split; cbn; try done.
    + intros kid k zid Hk Hz. destruct (I1 kid k zid Hk Hz) as (z' & Hz' & E). exists z'.
      rewrite lookup_insert_ne; [done|]. intros ->. congruence.
    + intros zid z' [[-> <-]|[_ Hz]]%lookup_insert_Some Hs'; [done|by apply (I3 zid z')].
  - intros zid z' Hz _. rewrite lookup_insert_ne; [done|]. intros ->. congruence.
Qed.

(** A pending request has no loan. *)
Lemma pending_no_loan d zid z kid k :
  loan_inv d -> d_kreditni_zahtev d !! zid = Some z -> kz_Status z = NA_CEKANJU ->
  d_kredit d !! kid = Some k -> k_KreditniZahtevID k <> Some zid.
Proof.
  intros Hi Hz Hs Hk E. destruct (li_request _ Hi kid k zid Hk E) as (z' & Hz' & Hs').
  assert (z' = z) as -> by congruence. rewrite Hs in Hs'. unfold decided_as in Hs'. by case_decide.
Qed.

(** A new loan for a pending request, with instalments of its own. *)
Lemma decide_inv d d' zid z kid row :
  loan_inv d -> d_kreditni_zahtev d !! zid = Some z -> kz_Status z = NA_CEKANJU ->
  d_kredit d !! kid = None -> k_KreditniZahtevID row = Some zid -> k_Status row <> OTPLACEN ->
  d_kreditni_zahtev d' = <[zid := with_zahtev_status (decided_as (k_Status row)) z]> (d_kreditni_zahtev d) ->
  d_kredit d' = <[kid := row]> (d_kredit d) ->
  (forall i x, d_rata d' !! i = Some x ->
     (ra_KreditID x = kid /\ k_Status row <> ODBIJEN) \/ d_rata d !! i = Some x) ->
  loan_inv d' /\ remembers d d'.
Proof.
  intros Hi Hz Hs Hn Hrow Hot Ez Ek Er.
  pose proof (fun kid k => pending_no_loan d zid z kid k Hi Hz Hs) as Hno.
  destruct Hi as [I1 I2 I3 I4 I5]. split; split.
  - intros i k zid'. rewrite Ek, Ez. intros [[-> <-]|[_ Hk]]%lookup_insert_Some E.
    + assert (zid' = zid) as -> by congruence. rewrite lookup_insert_eq. eexists. split; [done|]. done.
    + rewrite lookup_insert_ne by (intros <-; by apply (Hno i k)). by apply (I1 i).
  - intros i j k k' zid'. rewrite Ek.
    intros [[-> <-]|[Hni Hki]]%lookup_insert_Some [[-> <-]|[Hnj Hkj]]%lookup_insert_Some E1 E2; try done.
    + exfalso. apply (Hno j k' Hkj). congruence.
    + exfalso. apply (Hno i k Hki). congruence.
    + by apply (I2 i j k k' zid').
  - intros zid' z'. rewrite Ez, Ek. intros [[-> <-]|[_ Hz']]%lookup_insert_Some Hs'.
    + exists kid, row. by rewrite lookup_insert_eq.
    + destruct (I3 zid' z' Hz' Hs') as (j & k & Hk & E). exists j, k.
      rewrite lookup_insert_ne; [done|]. intros ->. congruence.
  - intros i x Hx. rewrite Ek. destruct (Er i x Hx) as [[Hxk Ho]|Hx0].
    + exists row. by rewrite Hxk, lookup_insert_eq.
    + destruct (I4 i x Hx0) as (k & Hk & Ho). exists k. rewrite lookup_insert_ne; [done|]. intros ->. congruence.
  - intros j k. rewrite Ek. intros [[-> <-]|[Hj Hk]]%lookup_insert_Some Hc; [done|].
    destruct (I5 j k Hk Hc) as (H1 & H2 & H3). split_and!; [done..|]. intros i x Hx Hxk.
    destruct (Er i x Hx) as [[Hxk' _]|Hx0]; [congruence|exact (H3 i x Hx0 Hxk)].
  - intros zid' z' Hz' Hs'. rewrite Ez, lookup_insert_ne; [done|]. intros ->. congruence.
  - intros j k Hk. exists k. rewrite Ek, lookup_insert_ne; [done|]. intros ->. congruence.
Qed.

Lemma approve_step zid e w k w' :
  loan_inv (w_db w) -> ApproveCredit zid e w = (Ok k, w') ->
  loan_inv (w_db w') /\ remembers (w_db w) (w_db w').
Proof.
  intros Hi H.
  apply approve_ok in H as (z & n & broj & today & Hz & Hn & kid & day & i & t & c & row & rows & rt & rc & Hg & _).
  destruct (granted_rows _ _ _ _ _ _ _ _ _ _ _ _ _ _ _ _ Hg) as [_ Hrows].
  pose proof (kredit_row_eq _ _ (gr_row _ _ _ _ _ _ _ _ _ _ _ _ _ Hg)) as Erow.
  assert (Hst : k_Status row = ODOBREN) by (by rewrite Erow).
  destruct (gr_request _ _ _ _ _ _ _ _ _ _ _ _ _ Hg) as [Hz' Hs].
  apply (decide_inv (w_db w) _ zid z kid row); try done.
  - exact (gr_fresh _ _ _ _ _ _ _ _ _ _ _ _ _ Hg).
  - by rewrite Erow.
  - by rewrite Hst.
  - rewrite Hst. exact (gr_decided _ _ _ _ _ _ _ _ _ _ _ _ _ Hg).
  - exact (gr_kredit _ _ _ _ _ _ _ _ _ _ _ _ _ Hg).
  - intros j x Hx. destruct (rate_rows_ok _ _ _ _ (gr_rata _ _ _ _ _ _ _ _ _ _ _ _ _ Hg)) as [Hin Hout].
    destruct (decide (i <= j < i + Z.of_nat (length rows))) as [Hj|Hj].
    + left. rewrite Hst. split; [|done]. destruct (lookup_lt_is_Some_2 rows (Z.to_nat (j - i))) as [y Hy]; [lia|].
      destruct (Hrows _ _ Hy) as (Hy' & Hk & _).
      replace (i + Z.of_nat (Z.to_nat (j - i))) with j in Hy' by lia. congruence.
    + right. rewrite <- Hout; [done|]. intros m Hm ->. lia.
Qed.

Lemma approve_and_collect_step zid e w r w' :
  loan_inv (w_db w) -> approve_and_collect zid e w = (r, w') ->
  loan_inv (w_db w') /\ remembers (w_db w) (w_db w').
Proof.
  intros Hi H. unfold approve_and_collect in H.
  apply bind_cases in H as [(k & w1 & H1 & H)|(er & _ & H)]; [|by rewrite (approve_err _ _ _ _ _ H)].
  destruct (approve_step _ _ _ _ _ Hi H1) as [Hi1 Hr1].
  apply try_bind in H as (r0 & w2 & H2 & [= _ <-]).
  destruct (first_installment_inv _ _ _ _ _ Hi1 H2) as [Hi2 Hp2]. split; [done|].
  transitivity (w_db w1); [done|]. by apply plan_remembers.
Qed.

(** A refusal decides a pending request and adds its ledger row, or does nothing. *)
Lemma reject_cases zid e w r w' :
  RejectCredit zid e w = (r, w') ->
  w_db w' = w_db w \/ exists z kid row, d_kreditni_zahtev (w_db w) !! zid = Some z /\ kz_Status z = NA_CEKANJU /\
    d_kredit (w_db w) !! kid = None /\ k_KreditniZahtevID row = Some zid /\ k_Status row = ODBIJEN /\
    w_db w' = set_kredit (<[kid := row]> (d_kredit (w_db w)))
      (set_kreditni_zahtev (<[zid := with_zahtev_status ZAHTEV_ODBIJEN z]> (d_kreditni_zahtev (w_db w))) (w_db w)).
Proof.
  intros H. unfold RejectCredit, RejectKreditRequest in H.
  destruct r as [[]|er]; [|left; exact (Transaction_err _ _ _ _ _ H)]. right.
  apply Transaction_ok in H as (w1 & H & E & _). rewrite E.
  apply bind_ok in H as (row & w2 & H2 & H). apply sql_read_ok in H2 as [-> E2]. cbn [w_db begin_tx] in *.
  destruct (d_kreditni_zahtev (w_db w) !! zid) as [z|] eqn:Hz; [|discriminate].
  destruct (decide _) as [Hs|]; [|discriminate].
  apply bind_ok in H as (n & w3 & H3 & H). apply update_zahtev_ok in H3 as (m & H3 & E3). rewrite E2 in *.
  apply update_row_inv in H3 as [(_ & _ & Hg)|(_ & z' & z'' & Hz' & _ & [= <-] & ->)]; [by specialize (Hg z Hz)|].
  assert (z' = z) as -> by congruence.
  apply bind_ok in H as (now & w4 & H4 & H). apply time_now_ok in H4.
  apply bind_ok in H as (kid & w5 & H5 & [= <-]). apply insert_kredit_ok in H5 as (row & Hrow & _ & Hn & E5).
  rewrite H4, E3 in *. pose proof (kredit_row_eq _ _ Hrow) as Erow.
  exists z, kid, row. split_and!; try done; by rewrite Erow.
Qed.

Lemma reject_step zid e w r w' :
  loan_inv (w_db w) -> RejectCredit zid e w = (r, w') ->
  loan_inv (w_db w') /\ remembers (w_db w) (w_db w').
Proof.
  intros Hi H. apply reject_cases in H as [->|(z & kid & row & Hz & Hs & Hn & Hzid & Hst & ->)]; [by split|].
  apply (decide_inv (w_db w) _ zid z kid row); try done; rewrite Hst; try done. intros i x Hx. by right.
Qed.
End decisions.

(** ** Every interleaving *)

Section lifecycle.
Context `{DL : decimal.Lib}.
Context (retryAfter : Z) (penaltyPct : float64).

Inductive loan_step (d d' : DB) : Prop :=
  | step_apply inp e w r w' : w_db w = d -> ApplyForCredit inp e w = (r, w') -> w_db w' = d' -> loan_step d d'
  | step_approve zid e w r w' :
      w_db w = d -> approve_and_collect zid e w = (r, w') -> w_db w' = d' -> loan_step d d'
  | step_reject zid e w r w' : w_db w = d -> RejectCredit zid e w = (r, w') -> w_db w' = d' -> loan_step d d'
  | step_job e w r w' :
      w_db w = d -> runDailyJob retryAfter penaltyPct e w = (r, w') -> w_db w' = d' -> loan_step d d'
  | step_others : d_kreditni_zahtev d' = d_kreditni_zahtev d -> d_kredit d' = d_kredit d ->
      d_rata d' = d_rata d -> loan_step d d'.

Lemma loan_step_inv d d' : loan_step d d' -> loan_inv d -> loan_inv d' /\ remembers d d'.
Proof.
  intros [inp e w r w' <- H <-|zid e w r w' <- H <-|zid e w r w' <- H <-|e w r w' <- H <-|Ez Ek Er] Hi.
  - by eapply apply_step.
  - by eapply approve_and_collect_step.
  - by eapply reject_step.
  - apply job_inv in H as [H1 H2]; [|done]. split; [done|]. by apply plan_remembers.
  - split.
    + apply (inv_carried d); rewrite ?Ez, ?Ek, ?Er; try done. intros kid k' Hk Hs. by apply (li_closed _ Hi).
    + split; rewrite ?Ez, ?Ek; eauto.
Qed.

(** C24: a request for a loan is decided once, in every interleaving.  In every
    state that applications, approvals (with the collection of the first
    instalment), refusals, daily jobs and the rest of the bank reach, under any
    failures: a granted request has exactly one loan and a refused one exactly one
    ledger row ODBIJEN; instalments belong to granted loans; a loan that is OTPLACEN
    owes nothing and has no instalment NEPLACENO.  What was decided stays decided,
    and loans keep number, account, owner, amount and currency. *)
Theorem loan_lifecycle d d' :
  loan_inv d -> rtc loan_step d d' -> loan_inv d' /\ remembers d d'.
Proof.
  intros Hi H. induction H as [d|d1 d2 d3 H12 H IH]; [done|].
  destruct (loan_step_inv _ _ H12 Hi) as [Hi2 Hr2]. destruct (IH Hi2) as [Hi3 Hr3].
  split; [done|]. by transitivity d2.
Qed.
End lifecycle.

(** ** Loans in delay

    The queries of the worker only list loans with status ODOBREN, so a loan that a
    penalty moved to U_KASNJENJU, or that was closed over a late instalment, is out
    of reach of every later job. *)

(** Loan [kid] is there, it is not open, and its instalments are the same. *)
Definition out_of_reach (kid : Z) (d d' : DB) : Prop :=
  (exists k, d_kredit d' !! kid = Some k /\ k_Status k <> ODOBREN) /\
  forall i x, d_rata d !! i = Some x -> ra_KreditID x = kid -> d_rata d' !! i = Some x.

Section delay.
Context `{DL : decimal.Lib}.
Context (retryAfter : Z) (penaltyPct : float64).
Context (kid : Z) (k : kreditModel).

Lemma frozen_out_of_reach d d' :
  d_kredit d !! kid = Some k -> k_Status k <> ODOBREN -> frozen kid d d' -> out_of_reach kid d d'.
Proof.
  intros Hk Hs [Hp Hc Hr]. split; [|done].
  destruct (fmap_same_Some kredit_terms _ _ _ (pl_kredit _ _ Hp kid) Hk) as (k' & Hk' & _).
  exists k'. split; [done|]. refine (Hc _ k' Hk'). intros k0 Hk0. congruence.
Qed.

Lemma same_out_of_reach d d' :
  d_kredit d !! kid = Some k -> k_Status k <> ODOBREN ->
  d_kredit d' !! kid = d_kredit d !! kid -> d_rata d' = d_rata d -> out_of_reach kid d d'.
Proof. intros Hk Hs Ek Er. split; [exists k; by rewrite Ek|]. intros i x Hx _. by rewrite Er. Qed.

(** The first instalment of another loan. *)
Lemma first_installment_frozen other e w r w' :
  other <> kid -> ProcessFirstInstallment other e w = (r, w') -> frozen kid (w_db w) (w_db w').
Proof.
  intros Hne. apply (first_installment_rel (frozen kid) other).
  - intros inp e0 w0 r0 w0' Hl Hk H. eapply payment_frozen; [done| |done]. congruence.
  - intros d i x t n Hx Hk Hs. split; [by apply mark_moves|done|]. intros j y Hy Hyk. cbn.
    rewrite lookup_insert_ne; [done|]. intros <-. congruence.
Qed.

Lemma approve_out_of_reach zid e w r w' :
  d_kredit (w_db w) !! kid = Some k -> k_Status k <> ODOBREN ->
  approve_and_collect zid e w = (r, w') -> out_of_reach kid (w_db w) (w_db w').
Proof.
  intros Hk Hs H. unfold approve_and_collect in H.
  apply bind_cases in H as [(kr & w1 & H1 & H)|(er & _ & H)];
    [|apply approve_err in H; apply same_out_of_reach; by rewrite ?H].
  apply approve_ok in H1 as (z & n & broj & today & _ & _ & id & day & i & t & c & row & rows & rt & rc & Hg & ->).
  pose proof (gr_fresh _ _ _ _ _ _ _ _ _ _ _ _ _ Hg) as Hn.
  pose proof (gr_kredit _ _ _ _ _ _ _ _ _ _ _ _ _ Hg) as Ek.
  assert (Hne : id <> kid) by (intros ->; congruence).
  apply try_bind in H as (r0 & w2 & H2 & [= _ <-]).
  apply first_installment_frozen in H2; [|done].
  assert (Hk1 : d_kredit (w_db w1) !! kid = Some k) by (by rewrite Ek, lookup_insert_ne).
  destruct (frozen_out_of_reach _ _ Hk1 Hs H2) as [Hopen Hr]. split; [done|].
  intros j x Hx Hxk. apply Hr; [|done].
  destruct (rate_rows_ok _ _ _ _ (gr_rata _ _ _ _ _ _ _ _ _ _ _ _ _ Hg)) as [Hin Hout].
  rewrite Hout; [done|]. intros m Hm ->. destruct (lookup_lt_is_Some_2 rows m Hm) as [y Hy].
  destruct (Hin m y Hy) as [Hnone _]. congruence.
Qed.

Lemma step_out_of_reach d d' :
  d_kredit d !! kid = Some k -> k_Status k <> ODOBREN ->
  loan_step retryAfter penaltyPct d d' -> out_of_reach kid d d'.
Proof.
  intros Hk Hs [inp e w r w' <- H <-|zid e w r w' <- H <-|zid e w r w' <- H <-|e w r w' <- H <-|_ Ek Er].
  - apply apply_cases in H as [E|(id & z & _ & _ & E)]; apply same_out_of_reach; by rewrite ?E.
  - by eapply approve_out_of_reach.
  - apply reject_cases in H as [E|(z & id & row & _ & _ & Hn & _ & _ & E)]; apply same_out_of_reach; rewrite ?E; try done.
    cbn. rewrite lookup_insert_ne; [done|]. intros ->. congruence.
  - apply job_frozen with (kid := kid) in H; [by apply frozen_out_of_reach|]. intros k0 Hk0. congruence.
  - apply same_out_of_reach; by rewrite ?Ek.
Qed.
End delay.

(** A loan that is not ODOBREN is never collected again.  The worker's queries
    leave it out, so whatever requests and daily jobs follow, in every interleaving
    and under any failures, its instalments keep their rows: a loan moved to
    U_KASNJENJU by a penalty keeps its late instalments KASNI for ever, and so does
    a loan closed as OTPLACEN over an instalment that is still KASNI. *)
Theorem late_loan_is_abandoned `{DL : decimal.Lib} retryAfter penaltyPct kid k d d' :
  d_kredit d !! kid = Some k -> k_Status k <> ODOBREN ->
  rtc (loan_step retryAfter penaltyPct) d d' -> out_of_reach kid d d'.
Proof.
  intros Hk Hs H. revert k Hk Hs.
  induction H as [d|d1 d2 d3 H12 H IH]; intros k Hk Hs; [by apply (same_out_of_reach kid k)|].
  destruct (step_out_of_reach retryAfter penaltyPct kid k _ _ Hk Hs H12) as [(k2 & Hk2 & Hs2) Hr2].
  destruct (IH k2 Hk2 Hs2) as [Ho Hr3]. split; [done|]. intros i x Hx Hxk. auto.
Qed.
