(* ===== verification/LoanJob.v ===== *)
(** * The daily job attends to every instalment that is due

    Forward reasoning with a working database: an attempt answers and does what its
    case calls for, and after the job no instalment that was due is NEPLACENO. *)

From S2P Require Import Prelude Numeric Domain Store StoreFacts OrderRepo Market FundsManager.
From S2P Require Import FundsFacts FundsSafety FundsRounding FundsTransfers GoMath Loans LoanRepo.
From S2P Require Import LoanFacts LoanCollection.
From stdpp Require Import list sorting.
#[local] Open Scope Z_scope.

(** ** Room in the columns *)

(** The instalments that are still to be paid. *)
Definition owed (x : rataModel) : Z := if decide (ra_StatusPlacanja x = PLACENO) then 0 else ra_IznosRate x.
Definition unpaid (d : DB) : Z := msum owed (d_rata d).

(** Every balance can take all of them without leaving its DECIMAL(15, 2). *)
Record roomy (d : DB) : Prop := {
  ro_racun : forall i r, d_racun d !! i = Some r -> Z.abs (r_stanje_racuna r) + unpaid d < 10 ^ 15;
  ro_kredit : forall i k, d_kredit d !! i = Some k -> Z.abs (k_PreostaloDugovanje k) + unpaid d < 10 ^ 15;
  ro_rata : forall i x, d_rata d !! i = Some x -> 0 < ra_IznosRate x;
  ro_tries : forall i x, d_rata d !! i = Some x -> ra_StatusPlacanja x = NEPLACENO -> is_int32 (ra_BrojPokusaja x + 1)
}.

(** Accounts of the treasury: one in the currency of every instalment, its id not
    the 0 that stands for none. *)
Record served (d : DB) : Prop := {
  se_trezor : forall i x, d_rata d !! i = Some x -> racun_ids trezor_owner (ra_Valuta x) d <> [];
  se_positive : forall i r, d_racun d !! i = Some r -> 0 < i;
  (** The foreign key of loans, and accounts of clients. *)
  se_account : forall i k, d_kredit d !! i = Some k ->
    exists id r, racun_by_number (k_BrojRacuna k) d = Some (id, r) /\ r_id_vlasnika r <> trezor_owner
}.

Lemma owed_nonneg d i x : roomy d -> d_rata d !! i = Some x -> 0 <= owed x.
Proof. intros Hr Hx. unfold owed. pose proof (ro_rata _ Hr i x Hx). case_decide; lia. Qed.

Lemma owed_le_unpaid d i x :
  roomy d -> d_rata d !! i = Some x -> ra_StatusPlacanja x <> PLACENO -> ra_IznosRate x <= unpaid d.
Proof.
  intros Hr Hx Hs. unfold unpaid. rewrite (msum_delete _ _ i x Hx). unfold owed at 1. rewrite decide_False by done.
  enough (0 <= msum owed (delete i (d_rata d))) by lia. unfold msum. apply zsum_nonneg.
  intros [j y] [_ Hy]%elem_of_map_to_list%lookup_delete_Some. by apply (owed_nonneg d j y).
Qed.

(** ** Statements that succeed *)

Section forward.
Context `{DL : decimal.Lib}.
Context (e : Env) (He : no_faults e).

#[local] Abbreviation sql_healthy := (FundsTransfers.sql_healthy e He).
#[local] Abbreviation now_healthy := (FundsTransfers.now_healthy e).
#[local] Abbreviation exec_healthy := (FundsTransfers.exec_healthy e He).
#[local] Abbreviation ledger_healthy := (FundsTransfers.ledger_healthy e He).
#[local] Abbreviation read_healthy := (FundsTransfers.read_healthy e He).

Lemma trezor_healthy c d w :
  healthy d w -> racun_ids trezor_owner c d <> [] -> (forall i r, d_racun d !! i = Some r -> 0 < i) ->
  exists t r, d_racun d !! t = Some r /\ r_id_vlasnika r = trezor_owner /\
    runs e (trezor_account c) w t (healthy d).
Proof.
  intros [Hd Ha] Hne Hpos. rewrite <- Hd in *.
  destruct (fetchCurrencyTrezorID_run c e w He Ha Hne) as (t & w1 & Hrun & Hd1 & Ha1 & r & Hr & Ho & Hc).
  exists t, r. split_and!; [done..|]. unfold trezor_account.
  exists w1. rewrite (bind_run _ _ _ _ _ _ Hrun).
  rewrite (proj2 (Z.eqb_neq t 0)) by (pose proof (Hpos t r Hr); lia). by split; [|split].
Qed.

(** ** A payment that is covered succeeds *)

Section payment.
Context (inp : ProcessInstallmentInput) (d : DB) (x : rataModel) (k : kreditModel) (id : Z) (a : racun).
Context (Hroom : roomy d) (Hserved : served d).
Context (Hx : d_rata d !! pr_RataID inp = Some x) (Hxs : ra_StatusPlacanja x <> PLACENO).
Context (Htries : is_int32 (ra_BrojPokusaja x + 1)).
Context (Hval : pr_Valuta inp = ra_Valuta x) (Hiz : pr_IznosRate inp = scan_cents (ra_IznosRate x)).
Context (Hex : exact_amount (ra_IznosRate x)).
Context (Hk : d_kredit d !! pr_KreditID inp = Some k).
Context (Ha : racun_by_number (pr_BrojRacuna inp) d = Some (id, a)) (Hcl : r_id_vlasnika a <> trezor_owner).

Let q : Q := arg (pr_IznosRate inp).
Let c : Z := ra_IznosRate x.

Lemma payment_q : (q == cents c)%Q.
Proof using Hiz Hex. unfold q, c. rewrite Hiz. exact Hex. Qed.

Lemma payment_c : 0 < c <= unpaid d.
Proof using Hroom Hx Hxs.
  unfold c. split; [by apply (ro_rata _ Hroom (pr_RataID inp))|by apply (owed_le_unpaid d (pr_RataID inp))].
Qed.

Definition debited : DB := set_racun (<[id := moved (- q) a]> (d_racun d)) d.

Lemma trezor_debited v : racun_ids trezor_owner v debited = racun_ids trezor_owner v d.
Proof using Ha. destruct (racun_by_number_Some _ _ _ _ Ha) as [Hid _]. by apply (racun_ids_update _ _ _ id a). Qed.

Lemma debited_positive i r : d_racun debited !! i = Some r -> 0 < i.
Proof using Ha Hserved.
  destruct (racun_by_number_Some _ _ _ _ Ha) as [Hid _]. cbn.
  intros [[-> _]|[_ Hi]]%lookup_insert_Some; by eapply (se_positive _ Hserved).
Qed.

Lemma fits_q : Z.abs (to_cents q) < 10 ^ 15.
Proof using Hroom Hx Hxs Hiz Hex Ha.
  destruct (racun_by_number_Some _ _ _ _ Ha) as [Hid _]. rewrite payment_q, to_cents_cents.
  pose proof (ro_racun _ Hroom id a Hid). pose proof payment_c. lia.
Qed.

Lemma collect_instalment_runs w :
  healthy d w -> runs e (collect inp id) w tt (fun w' => w_aborted w' = false /\ d_kredit (w_db w') = d_kredit d).
Proof using All.
  intros Hw. destruct (racun_by_number_Some _ _ _ _ Ha) as [Hid _]. pose proof payment_c as Hc.
  pose proof payment_q as Hq. pose proof (ro_racun _ Hroom id a Hid) as Hra. unfold collect. fold q. cbv zeta.
  eapply runs_bind.
  { apply (exec_healthy id _ d a (moved (- q) a)); [done..|]. apply (sub_stanje_fits q c); [done|lia]. }
  fold debited. intros w1 H1. eapply runs_bind; [by apply now_healthy|]. intros w2 H2. cbv beta.
  eapply runs_bind.
  { eapply (ledger_healthy id ISPLATA q); [done|apply lookup_insert_eq|apply fits_q]. }
  intros w3 H3. set (d3 := set_transakcija _ debited) in H3.
  destruct (trezor_healthy (pr_Valuta inp) d3 w3 H3) as (t & rt & Ht & Hown & Htr).
  { change (racun_ids trezor_owner (pr_Valuta inp) debited <> []). rewrite trezor_debited, Hval.
    by apply (se_trezor _ Hserved (pr_RataID inp)). }
  { exact debited_positive. }
  eapply runs_bind; [exact Htr|]. intros w4 H4.
  assert (Hrt : d_racun d !! t = Some rt).
  { clear Htr. cbn in Ht. apply lookup_insert_Some in Ht as [[<- <-]|[_ Ht]]; [|done]. cbn in Hown. congruence. }
  eapply runs_bind.
  { apply (exec_healthy t _ d3 rt (moved q rt)); [done..|]. apply (add_stanje_fits q c); [done|].
    pose proof (ro_racun _ Hroom t rt Hrt). lia. }
  intros w5 H5. eapply runs_bind.
  { eapply (ledger_healthy t UPLATA q); [done|apply lookup_insert_eq|apply fits_q]. }
  intros w6 H6. eapply runs_bind; [|intros w7 H7; apply runs_ret; exact H7].
  eapply runs_mono.
  - eapply (sql_healthy _ _ 1); [done|]. unfold update_rata, update_row. cbn [d_rata set_transakcija set_racun d3 debited].
    rewrite Hx. unfold pay_rata, store_int. rewrite decide_True by done. reflexivity.
  - intros w7 [E7 A7]. split; [done|]. by rewrite E7.
Qed.

Lemma payment_runs w :
  healthy d w -> w_depth w = O ->
  f64_ltb (scan_cents (r_stanje_racuna a)) (pr_IznosRate inp) = false ->
  runs e (ProcessInstallmentPayment inp) w tt (fun w' => w_aborted w' = false /\ w_depth w' = O).
Proof using All.
  intros Hw Hdep Hlt. unfold ProcessInstallmentPayment. destruct Hw as [Hd Hab].
  apply (runs_Transaction e He); [done..|].
  eapply runs_bind; [apply (read_healthy _ d); by split|]. intros w1 H1. rewrite Hx, decide_False by done.
  eapply runs_bind; [by apply (read_healthy _ d)|]. intros w2 H2. rewrite Ha, Hlt.
  eapply runs_bind; [by apply collect_instalment_runs|]. intros w3 [A3 E3].
  unfold advance. eapply runs_bind; [by apply (read_healthy _ (w_db w3))|]. intros w4 [E4 A4].
  pose proof payment_c as Hc. pose proof (ro_kredit _ Hroom _ _ Hk) as Hrk.
  assert (Hfit : Z.abs (to_cents (cents (k_PreostaloDugovanje k) - arg (pr_IznosRate inp))) < 10 ^ 15).
  { fold q. rewrite payment_q, <- cents_minus, to_cents_cents. unfold c in *. lia. }
  eapply runs_bind; [|intros w5 H5; apply runs_ret; exact H5].
  destruct (next_unpaid _ _) as [day|]; (eapply runs_sql; [done|done| |by split]);
    unfold update_kredit, update_row; rewrite E4, E3, Hk; [|reflexivity].
  unfold advance_kredit. by rewrite store_cents_fits.
Qed.

(** An account that does not cover the instalment is left alone. *)
Lemma payment_refused w :
  healthy d w -> w_depth w = O ->
  f64_ltb (scan_cents (r_stanje_racuna a)) (pr_IznosRate inp) = true ->
  exists w', ProcessInstallmentPayment inp e w = (Err ErrInsufficientFunds, w') /\ healthy d w' /\ w_depth w' = O.
Proof using He Hx Hxs Ha.
  intros [Hd Hab] Hdep Hlt.
  destruct (read_healthy (fun d => d_rata d !! pr_RataID inp) d (begin_tx w)) as (w1 & R1 & H1); [by split|].
  destruct (read_healthy (racun_by_number (pr_BrojRacuna inp)) d w1 H1) as (w2 & R2 & H2).
  exists (rollback_tx w w2). split; [|by split; [split|]]. unfold ProcessInstallmentPayment.
  rewrite (Transaction_run _ e w (Err ErrInsufficientFunds) w2 He Hab); [done|].
  rewrite (bind_run _ _ _ _ _ _ R1), Hx, decide_False by done.
  by rewrite (bind_run _ _ _ _ _ _ R2), Ha, Hlt.
Qed.
End payment.

(** ** One attempt *)

Context (retryAfter : Z) (penaltyPct : float64).
#[local] Abbreviation attempt := (attemptPayment retryAfter penaltyPct).

(** At rest between two operations. *)
Definition resting (d : DB) (w : World) : Prop := healthy d w /\ w_depth w = O.

(** What the tables say of an instalment the job has listed. *)
Record facing (d : DB) (due : DueInstallment) (x : rataModel) (k : kreditModel) (id : Z) (a : racun) : Prop := {
  fc_rata : d_rata d !! du_RataID due = Some x;
  fc_loan : ra_KreditID x = du_KreditID due;
  fc_valuta : du_Valuta due = ra_Valuta x;
  fc_iznos : du_IznosRate due = scan_cents (ra_IznosRate x);
  fc_kredit : d_kredit d !! du_KreditID due = Some k;
  fc_account : racun_by_number (du_BrojRacuna due) d = Some (id, a);
  fc_client : r_id_vlasnika a <> trezor_owner;
  fc_number : k_BrojRacuna k = du_BrojRacuna due
}.

(** Whether the balance covers the instalment, as float64. *)
Definition covers (a : racun) (due : DueInstallment) : bool :=
  negb (f64_ltb (scan_cents (r_stanje_racuna a)) (du_IznosRate due)).

Definition late (t : Z) (x : rataModel) : rataModel :=
  with_rata (ra_PraviDatumDospeca x) KASNI (ra_BrojPokusaja x + 1) (Some t) x.

(** The loan after a penalty. *)
Definition penalized (k : kreditModel) : kreditModel :=
  with_kredit (round_half_away ((numeric_val 10000 (k_NominalnaKamatnaStopa k) + arg penaltyPct) * inject_Z 10000))
    (k_DatumSledeceRate k) (k_PreostaloDugovanje k)
    (if decide (k_Status k = ODOBREN) then U_KASNJENJU else k_Status k) k.

Lemma mark_resting rid x t d w :
  resting d w -> d_rata d !! rid = Some x -> is_int32 (ra_BrojPokusaja x + 1) ->
  runs e (MarkInstallmentFailed rid t) w tt (resting (set_rata (<[rid := late t x]> (d_rata d)) d)).
Proof.
  intros [[Hd Hab] Hdep] Hx Hi. unfold MarkInstallmentFailed.
  eapply runs_bind; [|intros w1 H1; apply runs_ret; exact H1].
  eapply (runs_sql e He _ w 1); [done| |by split; [split|]].
  rewrite Hd. unfold update_rata, update_row. rewrite Hx. unfold fail_rata, store_int.
  rewrite decide_True by done. reflexivity.
Qed.

Lemma penalty_resting kid k d w :
  resting d w -> d_kredit d !! kid = Some k ->
  Z.abs (k_NominalnaKamatnaStopa (penalized k)) < 10 ^ 7 ->
  runs e (ApplyLatePaymentPenalty kid penaltyPct) w tt
    (resting (set_kredit (<[kid := penalized k]> (d_kredit d)) d)).
Proof.
  intros [[Hd Hab] Hdep] Hk Hf. unfold ApplyLatePaymentPenalty. apply (runs_Transaction e He); [done..|].
  set (k1 := with_kredit (k_NominalnaKamatnaStopa (penalized k)) (k_DatumSledeceRate k) (k_PreostaloDugovanje k)
               (k_Status k) k).
  eapply runs_bind.
  { eapply (sql_healthy _ d 1 (set_kredit (<[kid := k1]> (d_kredit d)) d)); [by split|].
    unfold update_kredit, update_row. rewrite Hk. unfold penalize, store_rate, numeric_store.
    rewrite decide_True by exact Hf. reflexivity. }
  intros w1 H1. set (d1 := set_kredit _ d) in H1.
  assert (E : exists n, update_kredit kid (fun k => bool_decide (k_Status k = ODOBREN))
                (fun k => Some (set_kredit_status U_KASNJENJU k)) d1 =
              Ok (n, set_kredit (<[kid := penalized k]> (d_kredit d)) d)).
  { unfold update_kredit, update_row. cbn [d_kredit set_kredit d1]. rewrite lookup_insert_eq.
    unfold penalized. cbn [k_Status with_kredit k1]. destruct (decide (k_Status k = ODOBREN)) as [Hs|Hs].
    - rewrite bool_decide_eq_true_2 by done. exists 1. by rewrite insert_insert_eq.
    - rewrite bool_decide_eq_false_2 by done. exists 0. done. }
  destruct E as (n & E).
  apply (runs_bind e _ _ w1 n tt (healthy (set_kredit (<[kid := penalized k]> (d_kredit d)) d))).
  - by apply (sql_healthy _ d1).
  - intros w2 [E2 A2]. apply runs_ret. by split; [|split; [split|]].
Qed.

(** What one attempt does, with a working database, in each of its cases.  The
    job has listed an instalment of a client; the balances have room.  Covered by
    the balance: the attempt succeeds and the instalment is collected whole
    ([collected_from]: account, treasury, both ledger rows, instalment and loan).
    Not covered on the first attempt: only the instalment changes, to KASNI, with
    one more try and the time of the next one.  Not covered on a retry: only the
    loan changes, its rate grows by the penalty and ODOBREN becomes U_KASNJENJU.
    Already paid: nothing changes and the attempt counts as a success. *)
Theorem attempt_payment_spec d due x k id a isRetry w :
  resting d w -> facing d due x k id a -> roomy d -> served d ->
  is_int32 (ra_BrojPokusaja x + 1) -> exact_amount (ra_IznosRate x) ->
  (isRetry = true -> Z.abs (k_NominalnaKamatnaStopa (penalized k)) < 10 ^ 7) ->
  exists ok w', attempt isRetry due e w = (Ok ok, w') /\ w_aborted w' = false /\ w_depth w' = O /\
    if decide (ra_StatusPlacanja x = PLACENO) then ok = true /\ w_db w' = d
    else if covers a due then
      ok = true /\ exists t rt day, collected_from (due_input due) x id a t rt day d (w_db w')
    else
      ok = false /\
      if (isRetry : bool) then w_db w' = set_kredit (<[du_KreditID due := penalized k]> (d_kredit d)) d
      else exists n, w_db w' = set_rata (<[du_RataID due := late (env_now e n + retryAfter) x]> (d_rata d)) d.
Proof using He.
  intros [Hh Hdep] Hf Hroom Hserved Htries Hex Hpen. destruct Hf as [F1 F2 F3 F4 F5 F6 F7 F8].
  unfold attemptPayment. destruct (decide (ra_StatusPlacanja x = PLACENO)) as [Hs|Hs].
  - destruct (read_healthy (fun d => d_rata d !! du_RataID due) d (begin_tx w)) as (w1 & R1 & H1); [by split; apply Hh|].
    assert (Hrun : ProcessInstallmentPayment (due_input due) e w = (Err ErrRataVecPlacena, rollback_tx w w1)).
    { unfold ProcessInstallmentPayment. rewrite (Transaction_run _ e w (Err ErrRataVecPlacena) w1 He (proj2 Hh)); [done|].
      change (pr_RataID (due_input due)) with (du_RataID due).
      by rewrite (bind_run _ _ _ _ _ _ R1), F1, decide_True by done. }
    exists true, (rollback_tx w w1). rewrite (bind_run _ _ _ _ _ _ (try_eq _ _ _ _ _ Hrun)).
    destruct Hh as [Hd Hab]. by split_and!.
  - unfold covers. destruct (f64_ltb _ _) eqn:Hlt; cbn [negb].
    + destruct (payment_refused (due_input due) d x id a F1 Hs F6 w Hh Hdep Hlt) as (w1 & R1 & H1 & D1).
      rewrite (bind_run _ _ _ _ _ _ (try_eq _ _ _ _ _ R1)). destruct isRetry.
      * destruct (penalty_resting (du_KreditID due) k d w1 (conj H1 D1) F5 (Hpen eq_refl)) as (w2 & R2 & [[E2 A2] D2]).
        exists false, w2. unfold handleSecondFailure. split_and!; try done.
        by rewrite (bind_run _ _ e w1 tt w2) by (by rewrite (bind_run _ _ _ _ _ _ (try_eq _ _ _ _ _ R2))).
      * destruct (now_healthy d w1 H1) as (w2 & R2 & H2). injection R2 as E2.
        assert (D2 : w_depth w2 = O) by (by rewrite <- E2).
        destruct (mark_resting (du_RataID due) x (env_now e (w_step w1) + retryAfter) d w2 (conj H2 D2) F1 Htries)
          as (w3 & R3 & [[E3 A3] D3]).
        exists false, w3. split_and!; try done; [|by exists (w_step w1)]. unfold handleFirstFailure.
        rewrite (bind_run _ _ e w1 tt w3); [done|].
        rewrite (bind_run _ _ e w1 (env_now e (w_step w1)) w2) by (by rewrite <- E2).
        by rewrite (bind_run _ _ _ _ _ _ (try_eq _ _ _ _ _ R3)).
    + destruct (payment_runs (due_input due) d x k id a Hroom Hserved F1 Hs Htries F3 F4 Hex F5 F6 F7 w Hh Hdep Hlt)
        as (w1 & R1 & A1 & D1).
      exists true, w1. rewrite (bind_run _ _ _ _ _ _ (try_eq _ _ _ _ _ R1)).
      split_and!; try done. apply payment_ok in R1 as (rata & id' & a' & t & rt & day & G1 & _ & G3 & _ & G5).
      destruct Hh as [Hd _]. rewrite Hd in *. cbn in G1, G3. rewrite F1 in G1. rewrite F6 in G3.
      injection G1 as <-. injection G3 as <- <-. by exists t, rt, day.
Qed.
End forward.

(** ** The whole job *)

(** No instalment becomes NEPLACENO. *)
Definition settles (d d' : DB) : Prop :=
  forall i x, d_rata d' !! i = Some x -> ra_StatusPlacanja x = NEPLACENO -> d_rata d !! i = Some x.
#[export] Instance settles_preorder : PreOrder settles.
Proof. split; [by intros d i x|]. intros d1 d2 d3 A B i x Hx Hs. apply A; [by apply B|done]. Qed.

(** The accounts of an owner depend on the columns that stay. *)
Lemma racun_ids_plan o c d d' : plan d d' -> racun_ids o c d' = racun_ids o c d.
Proof.
  intros Hp. apply (Sorted_unique Z.le); [apply (Sorted_merge_sort Z.le)..|].
  apply NoDup_Permutation; [apply racun_ids_NoDup..|]. intros id. rewrite !racun_ids_in.
  pose proof (pl_racun _ _ Hp id) as E.
  split; intros (r & Hr & H1 & H2 & H3); rewrite Hr in E; cbn in E.
  - destruct (d_racun d !! id) as [r0|]; [|discriminate]. injection E as E1 E2 E3 E4. exists r0. split_and!; congruence.
  - destruct (d_racun d' !! id) as [r0|]; [|discriminate]. injection E as E1 E2 E3 E4. exists r0. split_and!; congruence.
Qed.

Lemma racun_by_number_plan num d d' id r :
  plan d d' -> unique_numbers d -> racun_by_number num d = Some (id, r) ->
  exists r', racun_by_number num d' = Some (id, r') /\ static r' = static r.
Proof.
  intros Hp Hu H. apply racun_by_number_Some in H as [Hr Hn].
  destruct (fmap_same_Some static _ _ _ (pl_racun _ _ Hp id) Hr) as (r' & Hr' & E). exists r'. split; [|done].
  unfold static in E. apply racun_by_number_eq. split; [done|congruence|]. intros j y Hy Hyn.
  destruct (fmap_same_Some static _ _ _ (eq_sym (pl_racun _ _ Hp j)) Hy) as (y0 & Hy0 & E0).
  unfold static in E0. apply (Hu j id y0 r); congruence.
Qed.

Lemma served_plan d d' : plan d d' -> unique_numbers d -> served d -> served d'.
Proof.
  intros Hp Hu [S1 S2 S3]. split.
  - intros i x Hx. destruct (fmap_same_Some rata_terms _ _ _ (eq_sym (pl_rata _ _ Hp i)) Hx) as (x0 & Hx0 & E).
    rewrite (racun_ids_plan _ _ _ _ Hp). unfold rata_terms in E. replace (ra_Valuta x) with (ra_Valuta x0) by congruence.
    by apply (S1 i).
  - intros i r Hr. destruct (fmap_same_Some static _ _ _ (eq_sym (pl_racun _ _ Hp i)) Hr) as (r0 & Hr0 & _). by apply (S2 i r0).
  - intros i k Hk. destruct (fmap_same_Some kredit_terms _ _ _ (eq_sym (pl_kredit _ _ Hp i)) Hk) as (k0 & Hk0 & E).
    destruct (S3 i k0 Hk0) as (id & r & Hr & Ho). unfold kredit_terms in E.
    destruct (racun_by_number_plan _ _ _ _ _ Hp Hu Hr) as (r' & Hr' & E'). exists id, r'. unfold static in E'.
    split; [|congruence]. by replace (k_BrojRacuna k) with (k_BrojRacuna k0) by congruence.
Qed.

Section job.
Context `{DL : decimal.Lib}.
Context (retryAfter : Z) (penaltyPct : float64).

(** *** What an attempt keeps, whatever it answers *)

Lemma payment_settles inp e w r w' :
  ProcessInstallmentPayment inp e w = (r, w') -> settles (w_db w) (w_db w').
Proof.
  destruct r as [[]|er]; intros H.
  - apply payment_ok in H as (rata & id & a & t & rt & day & _ & _ & _ & _ & Hc). intros i x Hx Hs.
    rewrite (cf_rata _ _ _ _ _ _ _ _ _ Hc) in Hx.
    destruct (decide (pr_RataID inp = i)) as [<-|Hne]; [|by rewrite lookup_alter_ne in Hx].
    rewrite lookup_alter_eq in Hx. destruct (d_rata (w_db w) !! pr_RataID inp); [|done]. by injection Hx as <-.
  - unfold ProcessInstallmentPayment in H. by rewrite (Transaction_err _ _ _ _ _ H).
Qed.

Lemma mark_settles d i x t n :
  settles d (set_rata (<[i := with_rata (ra_PraviDatumDospeca x) KASNI n (Some t) x]> (d_rata d)) d).
Proof. intros j y Hy Hs. cbn in Hy. by apply lookup_insert_Some in Hy as [[-> <-]|[_ Hy]]. Qed.

Lemma penalty_rata kid pct : preserves (same d_rata) (ApplyLatePaymentPenalty kid pct).
Proof.
  unfold ApplyLatePaymentPenalty. apply preserves_Transaction; [apply _|].
  repeat (apply preserves_bind; [apply _| |intros ?]); try (apply preserves_ret; apply _).
  all: apply preserves_sql; [apply _|]; intros d n d'; unfold update_kredit;
    destruct (update_row _ _ _ _) as [[]|]; [|discriminate]; by intros [= _ <-].
Qed.

(** Room: what leaves the debt arrives on the balances. *)
Lemma roomy_payment inp e w r w' :
  roomy (w_db w) -> valid (w_db w) -> listed (w_db w) inp ->
  ProcessInstallmentPayment inp e w = (r, w') -> roomy (w_db w').
Proof.
  intros Hr [_ Hv] Hl H. destruct r as [[]|er].
  2: { unfold ProcessInstallmentPayment in H. by rewrite (Transaction_err _ _ _ _ _ H). }
  pose proof (payment_plan _ _ _ _ _ H) as Hp. pose proof (payment_settles _ _ _ _ _ H) as Hset.
  apply payment_ok in H as (x & id & a & t & rt & day & Hx & Hs & Ha & _ & Hc).
  destruct Hl as (x0 & k & Hx0 & _ & _ & _ & Hiz). assert (x0 = x) as -> by congruence.
  assert (Hq : (arg (pr_IznosRate inp) == cents (ra_IznosRate x))%Q) by (rewrite Hiz; by apply (Hv (pr_RataID inp))).
  apply racun_by_number_Some in Ha as [Ha _]. pose proof (ro_rata _ Hr _ _ Hx) as Hpos.
  assert (Hun : unpaid (w_db w') = unpaid (w_db w) - ra_IznosRate x).
  { unfold unpaid. rewrite (cf_rata _ _ _ _ _ _ _ _ _ Hc), (msum_alter _ _ _ x) by done.
    unfold owed at 2 3. rewrite decide_False, decide_True by done. lia. }
  assert (Hle : ra_IznosRate x <= unpaid (w_db w)) by (by eapply owed_le_unpaid).
  destruct Hc as [Ht _ _ Er _ Era Ek _]. split.
  - assert (H1 : forall i y, <[id := moved (- arg (pr_IznosRate inp)) a]> (d_racun (w_db w)) !! i = Some y ->
              Z.abs (r_stanje_racuna y) + unpaid (w_db w) < 10 ^ 15 + ra_IznosRate x /\
              (i = t -> Z.abs (r_stanje_racuna (moved (arg (pr_IznosRate inp)) y)) + unpaid (w_db w) < 10 ^ 15 + ra_IznosRate x)).
    { intros i y Hy. rewrite (moved_exact _ _ y Hq). apply lookup_insert_Some in Hy as [[<- <-]|[_ Hy]].
      - rewrite (moved_exact_neg _ _ a Hq). pose proof (ro_racun _ Hr id a Ha). lia.
      - pose proof (ro_racun _ Hr i y Hy). lia. }
    intros i y. rewrite Er, Hun. intros [[<- <-]|[_ Hy]]%lookup_insert_Some.
    + destruct (H1 t rt Ht) as [_ H2]. specialize (H2 eq_refl). lia.
    + destruct (H1 i y Hy) as [H2 _]. lia.
  - intros i y. rewrite Ek, Hun. destruct (decide (pr_KreditID inp = i)) as [<-|Hne].
    + rewrite lookup_alter_eq. destruct (d_kredit (w_db w) !! pr_KreditID inp) as [k0|] eqn:Hk0; [|done].
      intros [= <-]. pose proof (ro_kredit _ Hr _ _ Hk0). unfold next_kredit. destruct (next_unpaid _ _); cbn; [|lia].
      rewrite Hq, <- cents_minus, to_cents_cents. lia.
    + rewrite lookup_alter_ne by done. intros Hy. pose proof (ro_kredit _ Hr i y Hy). lia.
  - intros i y Hy. destruct (fmap_same_Some rata_terms _ _ _ (eq_sym (pl_rata _ _ Hp i)) Hy) as (y0 & Hy0 & E).
    unfold rata_terms in E. pose proof (ro_rata _ Hr i y0 Hy0). assert (ra_IznosRate y = ra_IznosRate y0) by congruence. lia.
  - intros i y Hy Hsy. apply (ro_tries _ Hr i); [by apply Hset|done].
Qed.

Lemma roomy_mark d i x t n :
  roomy d -> d_rata d !! i = Some x -> ra_StatusPlacanja x <> PLACENO ->
  roomy (set_rata (<[i := with_rata (ra_PraviDatumDospeca x) KASNI n (Some t) x]> (d_rata d)) d).
Proof.
  intros [R1 R2 R3 R4] Hx Hs. set (d' := set_rata _ d).
  assert (Hun : unpaid d' = unpaid d).
  { unfold unpaid. cbn. rewrite (msum_update _ _ i x) by done. unfold owed at 2 3. cbn.
    rewrite !decide_False by done. lia. }
  split; rewrite ?Hun; [exact R1|exact R2| |].
  - intros j y Hy. cbn in Hy. apply lookup_insert_Some in Hy as [[-> <-]|[_ Hy]]; [exact (R3 j x Hx)|exact (R3 j y Hy)].
  - intros j y Hy Hsy. cbn in Hy. apply lookup_insert_Some in Hy as [[-> <-]|[_ Hy]]; [done|exact (R4 j y Hy Hsy)].
Qed.

#[local] Instance roomy_preorder : PreOrder (fun d d' => roomy d -> roomy d').
Proof. split; [by intros ?|by intros ??? A B C; apply B, A]. Qed.

Lemma roomy_update_kredit id g f :
  (forall k k', f k = Some k' -> k_PreostaloDugovanje k' = k_PreostaloDugovanje k) ->
  preserves (fun d d' => roomy d -> roomy d') (sql (update_kredit id g f)).
Proof.
  intros Hf. apply preserves_sql; [apply _|]. intros d n d' H [R1 R2 R3 R4]. unfold update_kredit in H.
  destruct (update_row _ _ _ _) as [[n' m]|] eqn:E; [|discriminate]. injection H as _ <-.
  split; [exact R1| |exact R3|exact R4]. cbn. intros i k Hk.
  apply update_row_inv in E as [(_ & -> & _)|(_ & k0 & k' & Hk0 & _ & Hkk & ->)]; [exact (R2 i k Hk)|].
  apply lookup_insert_Some in Hk as [[<- <-]|[_ Hk]]; [|exact (R2 i k Hk)].
  rewrite (Hf _ _ Hkk). exact (R2 id k0 Hk0).
Qed.

Lemma roomy_penalty kid pct : preserves (fun d d' => roomy d -> roomy d') (ApplyLatePaymentPenalty kid pct).
Proof.
  unfold ApplyLatePaymentPenalty. apply preserves_Transaction; [apply _|].
  repeat (apply preserves_bind; [apply _| |intros ?]); try (apply preserves_ret; apply _).
  - apply roomy_update_kredit. intros k k'. unfold penalize. destruct (store_rate _); [|discriminate]. by intros [= <-].
  - apply roomy_update_kredit. by intros k k' [= <-].
Qed.

(** The state of the tables that the job needs, and keeps. *)
Definition fit (d : DB) : Prop := roomy d /\ served d /\ valid d.

#[local] Instance kept_preorder : PreOrder (fun d d' => (roomy d -> roomy d') /\ settles d d').
Proof.
  split; [intros d; by split|]. intros d1 d2 d3 [A1 A2] [B1 B2]. split; [auto|by transitivity d2].
Qed.

Lemma attempt_keeps isRetry due e w r w' :
  fit (w_db w) -> listed (w_db w) (due_input due) ->
  attemptPayment retryAfter penaltyPct isRetry due e w = (r, w') ->
  fit (w_db w') /\ settles (w_db w) (w_db w') /\ plan (w_db w) (w_db w').
Proof.
  intros (Hr & Hsv & Hv) Hl H. pose proof (attempt_moves _ _ _ _ _ _ _ _ Hv Hl H) as [Hp _].
  enough (roomy (w_db w') /\ settles (w_db w) (w_db w')) as [H1 H2].
  { split; [|done]. split; [done|]. split; [|by eapply valid_plan]. eapply served_plan; [done|apply Hv|done]. }
  unfold attemptPayment in H. apply try_bind in H as (r0 & w1 & H1 & H).
  pose proof (roomy_payment _ _ _ _ _ Hr Hv Hl H1) as Hr1. pose proof (payment_settles _ _ _ _ _ H1) as Hs1.
  destruct r0 as [[]|[]]; try (injection H as _ <-; by split).
  apply payment_no_funds in H1 as (Hd & x & Hx & Hs). rewrite <- Hd in *. destruct isRetry.
  - unfold handleSecondFailure in H. apply bind_cases in H as [([] & w2 & H & [= _ <-])|(er & _ & H)].
    + apply try_bind in H as (r1 & w3 & H & [= <-]). split; [exact (roomy_penalty _ _ _ _ _ _ H Hr)|].
      apply penalty_rata in H. unfold same in H. intros i y. by rewrite H.
    + by apply try_bind in H as (r1 & w3 & H & ?).
  - pose proof (first_failure_rel retryAfter (fun d d' => (roomy d -> roomy d') /\ settles d d') _ _ _ _ _ x Hx
      (fun t => conj (fun Hr' => roomy_mark _ _ x t _ Hr' Hx Hs) (mark_settles _ _ x t _)) H) as [H1 H2]. auto.
Qed.

(** *** Outside a transaction, an operation leaves the connection at rest *)

Lemma Transaction_rest {A} (m : M A) e w r w' :
  w_aborted w = false -> w_depth w = O -> Transaction m e w = (r, w') -> w_aborted w' = false /\ w_depth w' = O.
Proof.
  intros Ha Hd. unfold Transaction. rewrite Ha, Hd. cbn [orb].
  destruct (env_fault e (w_step w)); [intros [= _ <-]; cbn; by rewrite Hd|].
  destruct (m e (begin_tx w)) as [[a|er] w1]; [|intros [= _ <-]; cbn; by rewrite Hd].
  destruct (w_aborted w1) eqn:E1; cbn [orb]; [intros [= _ <-]; cbn; by rewrite Hd|].
  destruct (env_fault e (w_step w1)); intros [= _ <-]; cbn; by rewrite Hd.
Qed.

Lemma sql_rest {A} (f : DB -> result (A * DB)) e w r w' :
  w_aborted w = false -> w_depth w = O -> sql f e w = (r, w') -> w_aborted w' = false /\ w_depth w' = O.
Proof.
  intros Ha Hd. unfold sql. rewrite Ha. destruct (env_fault e (w_step w)); [intros [= _ <-]; cbn; by rewrite Hd|].
  destruct (f (w_db w)) as [[a d]|er]; intros [= _ <-]; cbn; by rewrite ?Hd.
Qed.

(** An attempt always answers. *)
Lemma attempt_rest isRetry due e w r w' :
  w_aborted w = false -> w_depth w = O -> attemptPayment retryAfter penaltyPct isRetry due e w = (r, w') ->
  w_aborted w' = false /\ w_depth w' = O /\ exists ok, r = Ok ok.
Proof.
  intros Ha Hd H. unfold attemptPayment in H. apply try_bind in H as (r0 & w1 & H1 & H).
  unfold ProcessInstallmentPayment in H1. destruct (Transaction_rest _ _ _ _ _ Ha Hd H1) as [A1 D1].
  destruct r0 as [[]|[]]; try (injection H as <- <-; by eauto). destruct isRetry.
  - unfold handleSecondFailure in H. apply bind_cases in H as [([] & w2 & H & [= <- <-])|(er & _ & H)].
    + apply try_bind in H as (r1 & w3 & H & [= <-]). unfold ApplyLatePaymentPenalty in H.
      destruct (Transaction_rest _ _ _ _ _ A1 D1 H). eauto.
    + by apply try_bind in H as (r1 & w3 & H & ?).
  - unfold handleFirstFailure in H. apply bind_cases in H as [([] & w2 & H & [= <- <-])|(er & _ & H)].
    + apply bind_ok in H as (now & w3 & [= _ <-] & H). apply try_bind in H as (r1 & w4 & H & [= <-]).
      unfold MarkInstallmentFailed in H. apply bind_cases in H as [(n & w5 & H & [= _ <-])|(er & _ & H)];
        destruct (sql_rest _ _ (next_step w1) _ _ A1 D1 H); eauto.
    + apply bind_cases in H as [(now & w3 & [= _ <-] & H)|(er' & _ & H)]; [|discriminate].
      by apply try_bind in H as (r1 & w4 & _ & ?).
Qed.

(** *** The phases *)

Section phases.
Context (e : Env) (He : no_faults e).

(** What a phase leaves: the state it needs, nothing newly NEPLACENO. *)
Definition left_by (d : DB) (w' : World) : Prop :=
  resting (w_db w') w' /\ fit (w_db w') /\ settles d (w_db w') /\ plan d (w_db w').

(** The first attempt of an instalment decides it. *)
Lemma first_attempt_settles due w :
  resting (w_db w) w -> fit (w_db w) -> listed (w_db w) (due_input due) ->
  (forall x, d_rata (w_db w) !! du_RataID due = Some x -> du_Valuta due = ra_Valuta x) ->
  exists ok w', attemptPayment retryAfter penaltyPct false due e w = (Ok ok, w') /\ left_by (w_db w) w' /\
    forall x, d_rata (w_db w') !! du_RataID due = Some x -> ra_StatusPlacanja x <> NEPLACENO.
Proof using He.
  intros [[Hd Ha] Hdep] Hfit Hl Hval.
  destruct (attemptPayment retryAfter penaltyPct false due e w) as [r w'] eqn:H.
  destruct (attempt_rest _ _ _ _ _ _ Ha Hdep H) as (A' & D' & ok & ->).
  destruct (attempt_keeps _ _ _ _ _ _ Hfit Hl H) as (Hfit' & Hset & Hp).
  exists ok, w'. split; [done|]. split; [done|]. intros x' Hx' Hs'.
  pose proof (Hset _ _ Hx' Hs') as Hx. destruct Hfit as (Hr & Hsv & Hv).
  destruct Hl as (x & k & Hx0 & Hxk & Hk & Hbr & Hiz). cbn in Hx0, Hxk, Hk, Hbr, Hiz.
  assert (x = x') as -> by congruence.
  destruct (se_account _ Hsv _ _ Hk) as (id & a & Hacc & Hcl). rewrite Hbr in Hacc.
  destruct (attempt_payment_spec e He retryAfter penaltyPct (w_db w) due x' k id a false w) as (ok' & w2 & H2 & _ & _ & Hc);
    [by split; [split|]|by split; auto|done|done|by apply (ro_tries _ Hr _ _ Hx)|by apply (proj2 Hv _ _ Hx)|done|].
  rewrite H in H2. injection H2 as <- <-. rewrite decide_False in Hc by (by rewrite Hs').
  destruct (covers a due).
  - destruct Hc as (_ & t & rt & day & Hc). rewrite (cf_rata _ _ _ _ _ _ _ _ _ Hc) in Hx'.
    cbn [pr_RataID due_input installment_input] in Hx'. rewrite lookup_alter_eq, Hx in Hx'. injection Hx' as E.
    apply (f_equal ra_StatusPlacanja) in E. cbn in E. congruence.
  - destruct Hc as (_ & n & Hc). rewrite Hc in Hx'. cbn in Hx'. rewrite lookup_insert_eq in Hx'.
    injection Hx' as E. apply (f_equal ra_StatusPlacanja) in E. cbn in E. congruence.
Qed.

Lemma left_by_trans d w1 w2 : left_by d w1 -> left_by (w_db w1) w2 -> left_by d w2.
Proof.
  intros (_ & _ & S1 & P1) (R2 & F2 & S2 & P2). split; [done|]. split; [done|].
  split; [by transitivity (w_db w1)|by transitivity (w_db w1)].
Qed.

(** What the job knows of a listed instalment, whatever was attempted before. *)
Definition known (d : DB) (due : DueInstallment) : Prop :=
  listed d (due_input due) /\ forall x, d_rata d !! du_RataID due = Some x -> du_Valuta due = ra_Valuta x.

Lemma known_plan d d' due : plan d d' -> known d due -> known d' due.
Proof.
  intros Hp [Hl Hv]. split; [by eapply listed_plan|]. intros x Hx.
  destruct (fmap_same_Some rata_terms _ _ _ (eq_sym (pl_rata _ _ Hp _)) Hx) as (x0 & Hx0 & E).
  rewrite (Hv _ Hx0). unfold rata_terms in E. congruence.
Qed.

Lemma listing_known d due : listing d due -> known d due.
Proof.
  intros Hl. split; [by apply listing_listed|]. destruct Hl as (i & x & Hx & H). unfold due_row in H. cbn in H.
  destruct (d_kredit d !! ra_KreditID x); [|discriminate]. cbn in H. destruct (decide _); [|discriminate].
  injection H as <-. cbn. intros y Hy. congruence.
Qed.

Lemma attempts_left isRetry l total k w :
  resting (w_db w) w -> fit (w_db w) -> (forall due, due ∈ l -> known (w_db w) due) ->
  exists n w', attempt_all retryAfter penaltyPct isRetry l total k e w = (Ok n, w') /\ left_by (w_db w) w' /\
    (isRetry = false -> forall due x, due ∈ l -> d_rata (w_db w') !! du_RataID due = Some x ->
       ra_StatusPlacanja x <> NEPLACENO).
Proof using He.
  revert total k w. induction l as [|due l IH]; intros total k w Hrest Hfit Hl.
  { eexists _, w. split; [reflexivity|]. split; [|by intros _ due x ?%elem_of_nil].
    split; [done|]. split; [done|]. split; reflexivity. }
  destruct (Hl due ltac:(left)) as [Hld Hval].
  assert (Hone : exists ok w1, attemptPayment retryAfter penaltyPct isRetry due e w = (Ok ok, w1) /\ left_by (w_db w) w1 /\
            (isRetry = false -> forall x, d_rata (w_db w1) !! du_RataID due = Some x -> ra_StatusPlacanja x <> NEPLACENO)).
  { destruct isRetry.
    - destruct (attemptPayment retryAfter penaltyPct true due e w) as [r w1] eqn:H.
      destruct Hrest as [[_ Ha] Hdep]. destruct (attempt_rest _ _ _ _ _ _ Ha Hdep H) as (A1 & D1 & ok & ->).
      destruct (attempt_keeps _ _ _ _ _ _ Hfit Hld H) as (F1 & S1 & P1). exists ok, w1. done.
    - destruct (first_attempt_settles due w Hrest Hfit Hld Hval) as (ok & w1 & H1 & H2 & H3). exists ok, w1. auto. }
  destruct Hone as (ok & w1 & Hrun & Hleft & Hone).
  destruct (IH (total + 1) (if ok then k + 1 else k) w1) as (n & w2 & Hrun2 & Hleft2 & Hall);
    [apply Hleft|apply Hleft| |].
  { intros d Hd. apply (known_plan (w_db w)); [apply Hleft|]. apply Hl. by right. }
  exists n, w2. cbn [attempt_all]. split; [by rewrite (bind_run _ _ _ _ _ _ Hrun)|].
  split; [by eapply left_by_trans|]. intros Hf d x [->|Hd]%elem_of_cons Hx Hs; [|by eapply Hall].
  destruct Hleft2 as (_ & _ & Hset2 & _). by eapply (Hone Hf); [apply Hset2|].
Qed.

Lemma first_phase asOf w :
  resting (w_db w) w -> fit (w_db w) ->
  exists n w', processFirstAttempts retryAfter penaltyPct asOf e w = (Ok n, w') /\ left_by (w_db w) w' /\
    forall i x x', d_rata (w_db w) !! i = Some x -> is_due asOf (i, x) ->
      (exists k, d_kredit (w_db w) !! ra_KreditID x = Some k /\ k_Status k = ODOBREN) ->
      d_rata (w_db w') !! i = Some x' -> ra_StatusPlacanja x' <> NEPLACENO.
Proof using He.
  intros Hrest Hfit. pose proof Hrest as [[_ Ha] Hdep]. unfold processFirstAttempts, GetDueInstallments.
  set (l := omap (M := list) (due_row (w_db w)) (sort_by (fun kv => ra_OcekivaniDatumDospeca kv.2)
    (filter (is_due asOf) (map_to_list (d_rata (w_db w)))))) in *.
  assert (Hin : forall due, due ∈ l -> listing (w_db w) due).
  { intros due ([i x] & Hix & H)%list_elem_of_omap. apply sort_by_in, list_elem_of_filter in Hix as [_ Hix].
    apply elem_of_map_to_list in Hix. by exists i, x. }
  destruct (read_healthy e He (fun d => omap (due_row d) (sort_by (fun kv => ra_OcekivaniDatumDospeca kv.2)
    (filter (is_due asOf) (map_to_list (d_rata d))))) (w_db w) w) as (w1 & R1 & [E1 A1]); [by split|].
  assert (D1 : w_depth w1 = O).
  { unfold sql_read in R1. by destruct (sql_rest _ _ _ _ _ Ha Hdep R1). }
  rewrite (bind_run _ _ _ _ _ _ (try_eq _ _ _ _ _ R1)). fold l.
  destruct (attempts_left false l 0 0 w1) as (n & w2 & R2 & Hleft & Hall); rewrite ?E1; [by split|done| |].
  { intros due Hd. by apply listing_known, Hin. }
  rewrite E1 in Hleft. exists n, w2. split; [done|]. split; [done|].
  intros i x x' Hx Hdue (k & Hk & Hs) Hx'.
  set (due := mkDueInstallment i (ra_KreditID x) (scan_cents (ra_IznosRate x)) (ra_Valuta x)
            (ra_OcekivaniDatumDospeca x) (ra_BrojPokusaja x) (ra_SledecaPokusaj x) (k_BrojRacuna k) (k_VlasnikID k)).
  apply (Hall eq_refl due x'); [|done]. apply list_elem_of_omap. exists (i, x). split.
  - apply sort_by_in, list_elem_of_filter. split; [done|]. by apply elem_of_map_to_list.
  - unfold due_row. cbn. rewrite Hk. cbn. by rewrite decide_True.
Qed.

Lemma second_phase asOf w :
  resting (w_db w) w -> fit (w_db w) ->
  exists n w', processRetryAttempts retryAfter penaltyPct asOf e w = (Ok n, w') /\ left_by (w_db w) w'.
Proof using He.
  intros Hrest Hfit. pose proof Hrest as [[_ Ha] Hdep]. unfold processRetryAttempts, GetRetryInstallments.
  destruct (read_healthy e He (fun d => omap (due_row d) (sort_by (fun kv => default 0 (ra_SledecaPokusaj kv.2))
    (filter (is_retry asOf) (map_to_list (d_rata d))))) (w_db w) w) as (w1 & R1 & [E1 A1]); [by split|].
  assert (D1 : w_depth w1 = O).
  { unfold sql_read in R1. by destruct (sql_rest _ _ _ _ _ Ha Hdep R1). }
  rewrite (bind_run _ _ _ _ _ _ (try_eq _ _ _ _ _ R1)).
  destruct (attempts_left true (omap (due_row (w_db w)) (sort_by (fun kv => default 0 (ra_SledecaPokusaj kv.2))
    (filter (is_retry asOf) (map_to_list (d_rata (w_db w)))))) 0 0 w1) as (n & w2 & R2 & Hleft & _);
    rewrite ?E1; [by split|done| |].
  - intros due ([i x] & Hix & H)%list_elem_of_omap. apply sort_by_in, list_elem_of_filter in Hix as [_ Hix].
    apply elem_of_map_to_list in Hix. apply listing_known. by exists i, x.
  - rewrite E1 in Hleft. by exists n, w2.
Qed.
End phases.

(** C23: the daily job attends to every instalment that is due.  With a working
    database, balances with room, a treasury account in every currency and the
    accounts of the clients in place, the job finishes, and every instalment that
    was due and unpaid on a loan ODOBREN is PLACENO or KASNI afterwards: none is
    skipped because another one failed. *)
Theorem daily_job_attends e w :
  no_faults e -> w_aborted w = false -> w_depth w = O -> fit (w_db w) ->
  exists w', runDailyJob retryAfter penaltyPct e w = (Ok tt, w') /\
    forall i x, d_rata (w_db w) !! i = Some x -> is_due (env_now e (w_step w)) (i, x) ->
      (exists k, d_kredit (w_db w) !! ra_KreditID x = Some k /\ k_Status k = ODOBREN) ->
      exists x', d_rata (w_db w') !! i = Some x' /\
        (ra_StatusPlacanja x' = PLACENO \/ ra_StatusPlacanja x' = KASNI).
Proof.
  intros He Ha Hd Hfit. unfold runDailyJob. set (now := env_now e (w_step w)).
  rewrite (bind_run _ _ e w now (next_step w)) by done.
  destruct (first_phase e He now (next_step w)) as (n1 & w1 & R1 & (Rest1 & Fit1 & S1 & P1) & H1); [by split; [split|]|done|].
  rewrite (bind_run _ _ _ _ _ _ R1).
  destruct (second_phase e He now w1 Rest1 Fit1) as (n2 & w2 & R2 & (Rest2 & Fit2 & S2 & P2)).
  rewrite (bind_run _ _ _ _ _ _ R2). exists w2. split; [done|]. intros i x Hx Hdue Hk.
  destruct (fmap_same_Some rata_terms _ _ _ (pl_rata _ _ P1 i) Hx) as (x1 & Hx1 & _).
  destruct (fmap_same_Some rata_terms _ _ _ (pl_rata _ _ P2 i) Hx1) as (x2 & Hx2 & _).
  exists x2. split; [done|]. destruct (ra_StatusPlacanja x2) eqn:Es; [by left| |by right].
  exfalso. exact (H1 i x x2 Hx Hdue Hk (S2 _ _ Hx2 Es) Es).
Qed.
End job.
