(* ===== verification/LoanExamples.v ===== *)
(** * The loan theorems applied to a concrete bank

    Client 7 has an account of 10000 dinars, a pending request for a loan of 100000
    dinars over a year, an open loan with two instalments that are due, of which the
    account covers one, and a loan in delay. *)

From S2P Require Import Prelude Numeric DecimalModel Domain InterbankTables Tables Store StoreFacts OrderRepo.
From S2P Require Import Market FundsManager FundsSafety FundsTransfers Scenario GoMath Loans LoanRepo.
From S2P Require Import LoanFacts LoanCollection LoanDecisions LoanLifecycle LoanJob.
From stdpp Require Import list relations.
#[local] Open Scope string_scope.
#[local] Open Scope Z_scope.

Module loan_bank.
#[local] Existing Instance decimal_model.lib.

Definition racuni : gmap Z racun :=
list_to_map
  [(10, mkRacun "100" 7 "RSD" LICNI AKTIVAN 1000000 0 scenario.no_info);
   (20, mkRacun "666000122200000007" 2 "RSD" POSLOVNI AKTIVAN 1000000000 0 scenario.no_info)].

Definition zahtev (s : StatusZahteva) : kreditniZahtevModel :=
  mkZahtev 7 "GOTOVINSKI" "FIKSNI" 10000000 "RSD" "auto" 9000000 "STALNO" 24 "061" "100" 12 s 0.

Definition kredit (broj : string) (zid : Z) (s : StatusKredita) : kreditModel :=
  mkKredit broj (Some zid) "100" 7 "GOTOVINSKI" "FIKSNI" 10000000 12 80000 83000 0 (Some 0) 869884 (Some 0)
    10000000 "RSD" s.

Definition rata (kid iznos due : Z) (s : StatusPlacanja) : rataModel :=
  mkRata kid iznos 66667 "RSD" due None s (if decide (s = KASNI) then 1 else 0)
    (if decide (s = KASNI) then Some 50 else None).

Definition zahtevi : gmap Z kreditniZahtevModel :=
list_to_map [(1, zahtev NA_CEKANJU); (2, zahtev ZAHTEV_ODOBREN); (4, zahtev ZAHTEV_ODOBREN)].
Definition krediti : gmap Z kreditModel :=
list_to_map [(3, kredit "KRD-3" 2 ODOBREN); (5, kredit "KRD-5" 4 U_KASNJENJU)].
Definition rate : gmap Z rataModel :=
list_to_map [(6, rata 3 869884 (-31) NEPLACENO); (7, rata 3 500000 0 NEPLACENO); (8, rata 5 200000 0 KASNI)].

Definition db1 : DB := mkDB racuni [] ∅ [] [] [] ∅ [] ∅ ∅ zahtevi krediti rate bank_empty otc_empty.
Definition w1 : World := scenario.at_db db1.

(** 72 hours and 0.05 percent. *)
Definition after : Z := 259200.
Definition penalty : float64 := f64_lit 5 2.

Definition the_job := runDailyJob after penalty scenario.quiet w1.
Definition w2 : World := the_job.2.

(** Finite maps of a few rows, case by case. *)
Ltac rows :=
  repeat match goal with
  | H : _ !! _ = Some _ |- _ =>
      apply elem_of_list_to_map_2 in H;
      repeat (apply elem_of_cons in H as [[= -> ->]|H]); [..|by apply elem_of_nil in H]
  end.

Lemma db1_unique : unique_numbers db1.
Proof. intros i j r r' Hi Hj. rows; done. Qed.

Lemma db1_exact : exact_amounts db1.
Proof. intros i x Hx. rows; vm_compute; reflexivity. Qed.

Lemma db1_valid : valid db1.
Proof. split; [apply db1_unique|apply db1_exact]. Qed.

Lemma db1_roomy : roomy db1.
Proof.
  assert (E : unpaid db1 = 1569884) by (vm_compute; reflexivity).
  split; rewrite ?E; intros i r Hr; rows; first [by vm_compute|intros _; by vm_compute].
Qed.

Lemma db1_served : served db1.
Proof.
  split.
  - intros i x Hx. rows; vm_compute; discriminate.
  - intros i x Hx. rows; lia.
  - intros i k Hk. exists 10, (mkRacun "100" 7 "RSD" LICNI AKTIVAN 1000000 0 scenario.no_info).
    rows; (split; [vm_compute; reflexivity|discriminate]).
Qed.

Lemma db1_inv : loan_inv db1.
Proof.
  split.
  - intros kid k zid Hk E. rows; injection E as <-; eexists; (split; [vm_compute; reflexivity|reflexivity]).
  - intros i j k k' zid Hi Hj E E'. rows; cbn in *; congruence.
  - intros zid z Hz Hs. rows; [done|exists 3|exists 5]; eexists; (split; [vm_compute; reflexivity|reflexivity]).
  - intros i x Hx. rows; eexists; (split; [vm_compute; reflexivity|discriminate]).
  - intros kid k Hk Hs. rows; discriminate.
Qed.

(** The job collects instalment 6, cannot collect 7 and does not see 8. *)
Example the_job_ran :
  the_job.1 = Ok tt /\ ra_StatusPlacanja <$> d_rata (w_db w2) !! 6 = Some PLACENO /\
  ra_StatusPlacanja <$> d_rata (w_db w2) !! 7 = Some KASNI /\ d_rata (w_db w2) !! 8 = d_rata db1 !! 8 /\
  r_stanje_racuna <$> d_racun (w_db w2) !! 10 = Some 130116.
Proof. vm_compute. done. Qed.

Lemma a_step : loan_step after penalty db1 (w_db w2).
Proof. by apply (step_job after penalty db1 (w_db w2) scenario.quiet w1 the_job.1 w2 eq_refl (surjective_pairing _)). Qed.

(** A request that is approved, with the collection of its first instalment. *)
Definition the_approval := ApproveCredit 1 scenario.quiet w1.

Example the_approval_ran :
  match the_approval with
  | (Ok k, w) => r_stanje_racuna <$> d_racun (w_db w) !! 10 = Some 11000000 /\ size (d_rata (w_db w)) = 15%nat
  | _ => False
  end.
Proof. vm_compute. done. Qed.

Lemma collection_conserves_witness :
  r_stanje_racuna <$> d_racun (w_db w2) !! 10 = Some 130116 /\
  collected "100" (w_db w2) - collected "100" db1 = 869884 /\
  all_money (w_db w2) = all_money db1.
Proof.
  destruct (collection_conserves after penalty scenario.quiet w1 the_job.1 w2 db1_valid (surjective_pairing _))
    as (Hc & Hm & _).
  pose proof (Hc 10 (mkRacun "100" 7 "RSD" LICNI AKTIVAN 1000000 0 scenario.no_info) (mkRacun "100" 7 "RSD" LICNI AKTIVAN 130116 0 scenario.no_info)
    ltac:(vm_compute; reflexivity) ltac:(vm_compute; reflexivity) ltac:(discriminate)) as H.
  split; [vm_compute; reflexivity|]. split; [|exact Hm]. cbn in H. symmetry. exact H.
Defined.

Lemma approve_credit_spec_witness :
  exists k, the_approval.1 = Ok k /\ all_money (w_db the_approval.2) = all_money db1 /\
    (ApproveCredit 2 scenario.quiet w1).1 = Err ErrZahtevVecObradjen.
Proof.
  pose proof (approve_credit_spec 1 scenario.quiet w1 the_approval.1 the_approval.2 (surjective_pairing _)) as [H _].
  destruct (approve_credit_spec 2 scenario.quiet w1 _ _ (surjective_pairing _)) as [_ H2].
  assert (E : exists k, the_approval.1 = Ok k) by (eexists; vm_compute; reflexivity).
  destruct E as [k E]. rewrite E in H. exists k. split; [done|].
  destruct H as (z & n & broj & today & i & day & t & c & row & rs & rt & rc & Hz & _ & _ & _ & _ & Hex).
  assert (z = zahtev NA_CEKANJU) as -> by (vm_compute in Hz; by injection Hz).
  destruct Hex as [Hm _]; [vm_compute; reflexivity|]. split; [exact Hm|].
  apply (proj2 (H2 scenario.quiet_no_faults eq_refl) (zahtev ZAHTEV_ODOBREN)); [vm_compute; reflexivity|discriminate].
Defined.

Lemma loan_lifecycle_witness : loan_inv (w_db w2) /\ remembers db1 (w_db w2).
Proof. exact (loan_lifecycle after penalty db1 (w_db w2) db1_inv (rtc_once _ _ a_step)). Defined.

Lemma late_loan_is_abandoned_witness : d_rata (w_db w2) !! 8 = Some (rata 5 200000 0 KASNI).
Proof.
  assert (Hk : d_kredit db1 !! 5 = Some (kredit "KRD-5" 4 U_KASNJENJU)) by (vm_compute; reflexivity).
  destruct (late_loan_is_abandoned after penalty 5 _ db1 (w_db w2) Hk ltac:(discriminate) (rtc_once _ _ a_step))
    as [_ H].
  apply H; vm_compute; reflexivity.
Defined.



Definition due6 : DueInstallment := mkDueInstallment 6 3 (scan_cents 869884) "RSD" (-31) 0 None "100" 7.
Definition due7 : DueInstallment := mkDueInstallment 7 3 (scan_cents 500000) "RSD" 0 0 None "100" 7.
Definition account7 : racun := mkRacun "100" 7 "RSD" LICNI AKTIVAN 1000000 0 scenario.no_info.

Lemma attempt_payment_spec_witness :
  exists ok w', attemptPayment after penalty false due6 scenario.quiet w1 = (Ok ok, w') /\ ok = true /\
    r_stanje_racuna <$> d_racun (w_db w') !! 10 = Some 130116.
Proof.
  destruct (attempt_payment_spec scenario.quiet scenario.quiet_no_faults after penalty db1 due6
    (rata 3 869884 (-31) NEPLACENO) (kredit "KRD-3" 2 ODOBREN) 10 account7 false w1) as (ok & w' & H & _ & _ & Hc).
  - by split; [split|].
  - by split; vm_compute.
  - exact db1_roomy.
  - exact db1_served.
  - by vm_compute.
  - by vm_compute.
  - done.
  - exists ok, w'. split; [exact H|]. cbn [rata ra_StatusPlacanja decide] in Hc.
    destruct (decide _) as [E|_]; [discriminate E|].
    change (covers account7 due6) with true in Hc. destruct Hc as (-> & _). split; [done|].
    assert (E : attemptPayment after penalty false due6 scenario.quiet w1 = (Ok true, w')) by exact H.
    apply (f_equal snd) in E. cbn [snd] in E. rewrite <- E. vm_compute. reflexivity.
Defined.

Lemma daily_job_attends_witness :
  exists w', runDailyJob after penalty scenario.quiet w1 = (Ok tt, w') /\
    exists x', d_rata (w_db w') !! 7 = Some x' /\
      (ra_StatusPlacanja x' = PLACENO \/ ra_StatusPlacanja x' = KASNI).
Proof.
  destruct (daily_job_attends after penalty scenario.quiet w1 scenario.quiet_no_faults eq_refl eq_refl
    (conj db1_roomy (conj db1_served db1_valid))) as (w' & H & Hall).
  exists w'. split; [exact H|].
  assert (Hx : d_rata (w_db w1) !! 7 = Some (rata 3 500000 0 NEPLACENO)) by (vm_compute; reflexivity).
  assert (Hk : d_kredit (w_db w1) !! 3 = Some (kredit "KRD-3" 2 ODOBREN)) by (vm_compute; reflexivity).
  apply (Hall 7 _ Hx); [split; [reflexivity|vm_compute; discriminate]|].
  exists (kredit "KRD-3" 2 ODOBREN). split; [exact Hk|reflexivity].
Defined.

End loan_bank.
