(* ===== verification/AccountRepo.v ===== *)
(** * Accounts and the data of payments ([domain/account.go], [domain/payment.go],
    [repository/account_repository.go], [service/account_service.go])

    The structs of the payment and account modules, the float64 arithmetic that
    converts a payment between two currencies, the new accounts with their numbers,
    their limits, names and lists. *)

From S2P Require Import Prelude Numeric Domain Tables Store StoreFacts GoMath.
From Stdlib Require Import SpecFloat.
From S2P Require Import OrderRepo Market FundsManager.
From stdpp Require Import list sorting pretty.
#[local] Open Scope string_scope.
#[local] Open Scope Z_scope.

(** What PostgreSQL makes of a text: the input and output of the type UUID and the
    operator ILIKE with a pattern. *)
Module pg.
Class Text : Type := {
uuid_in : string -> option N;
uuid_out : N -> string;
ilike : string -> string -> bool
}.
End pg.

(** ** Structs *)

Record PaymentRecipient : Type := mkRecipient {
  pr_ID : Z;
  pr_VlasnikID : Z;
  pr_Naziv : string;
  pr_BrojRacuna : string;
  pr_CreatedAt : Z;
  pr_UpdatedAt : Z
}.

Record PaymentIntent : Type := mkIntent {
  p_ID : Z;
  p_IdempotencyKey : string;
  p_BrojNaloga : string;
  p_TipTransakcije : TipNaloga;
  p_RacunPlatioceID : Z;
  p_BrojRacunaPlatioca : string;
  p_ValutaOznaka : string;
  p_RacunPrimaocaID : option Z;
  p_BrojRacunaPrimaoca : string;
  p_NazivPrimaoca : string;
  p_Iznos : float64;
  p_KrajnjiIznos : option float64;
  p_Provizija : float64;
  p_Kurs : float64;
  p_ValutaPrimaoca : string;
  p_SifraPlacanja : string;
  p_PozivNaBroj : string;
  p_SvrhaPlacanja : string;
  p_Status : StatusNaloga;
  p_PendingActionID : option Z;
  p_InitiatedByUserID : Z;
  p_CreatedAt : Z;
  p_VerifiedAt : option Z;
  p_ExecutedAt : option Z;
  p_FailedReason : string
}.

(** An empty status means no filter. *)
Record PaymentHistoryFilter : Type := mkHistoryFilter {
  hf_DateFrom : option Z;
  hf_DateTo : option Z;
  hf_MinIznos : option float64;
  hf_MaxIznos : option float64;
  hf_Status : string
}.

Record CreatePaymentIntentInput : Type := mkCreatePayment {
  cp_IdempotencyKey : string;
  cp_RacunPlatioceID : Z;
  cp_BrojRacunaPrimaoca : string;
  cp_NazivPrimaoca : string;
  cp_Iznos : float64;
  cp_SifraPlacanja : string;
  cp_PozivNaBroj : string;
  cp_SvrhaPlacanja : string;
  cp_InitiatedByUserID : Z
}.

Record CreateTransferIntentInput : Type := mkCreateTransfer {
  ct_IdempotencyKey : string;
  ct_RacunPlatioceID : Z;
  ct_RacunPrimaocaID : Z;
  ct_Iznos : float64;
  ct_ConvertedIznos : float64;
  ct_SvrhaPlacanja : string;
  ct_InitiatedByUserID : Z
}.

Record VerifyPaymentInput : Type := mkVerifyPayment {
  vp_IntentID : Z;
  vp_Code : string;
  vp_UserID : Z
}.

(** The body of POST /exchange-rates/transfer. *)
Record exchangeTransferRequest : Type := mkExchangeTransfer {
  et_IdempotencyKey : string;
  et_SourceAccountId : Z;
  et_TargetAccountId : Z;
  et_Amount : float64;
  et_ConvertedAmount : float64;
  et_SvrhaPlacanja : string
}.

(** A row of [racun] as the payment queries scan it; a limit that is NULL is 0. *)
Record racunForPayment : Type := mkRacunForPayment {
  rp_ID : Z;
  rp_BrojRacuna : string;
  rp_IDVlasnika : Z;
  rp_ValutaOznaka : string;
  rp_StanjeRacuna : float64;
  rp_RezervovanaSredstva : float64;
  rp_DnevniLimit : float64;
  rp_MesecniLimit : float64;
  rp_DnevnaPotrosnja : float64;
  rp_MesecnaPotrosnja : float64;
  rp_Status : RacunStatus
}.

Definition racun_for_payment `{DL : decimal.Lib} (id : Z) (r : racun) : racunForPayment :=
  mkRacunForPayment id (r_broj_racuna r) (r_id_vlasnika r) (r_oznaka r) (scan_cents (r_stanje_racuna r))
    (scan_cents (r_rezervisana_sredstva r)) (scan_cents (default 0 (ri_dnevni_limit (r_info r))))
    (scan_cents (default 0 (ri_mesecni_limit (r_info r)))) (scan_cents (ri_dnevna_potrosnja (r_info r)))
    (scan_cents (ri_mesecna_potrosnja (r_info r))) (r_status r).

(** ** Conversion *)

(** Dinars for a unit of the currency. *)
Definition paymentFallbackRates : list (string * float64) :=
  [("EUR", f64_of_Z 117); ("CHF", f64_lit 12675 2); ("USD", f64_lit 10775 2); ("GBP", f64_lit 13675 2);
   ("JPY", f64_lit 69 2); ("CAD", f64_lit 755 1); ("AUD", f64_lit 685 1)].

Definition paymentProvizijaRate : float64 := f64_lit 5 3.

(** [1 - paymentSpreadRate] and [1 + paymentSpreadRate] are constant expressions of
    Go, exact before they become a float64. *)
Definition kupovni (code : string) : option float64 :=
  (fun mid => f64_mul mid (f64_lit 995 3)) <$> go_map_get code paymentFallbackRates.
Definition prodajni (code : string) : option float64 :=
  (fun mid => f64_mul mid (f64_lit 1005 3)) <$> go_map_get code paymentFallbackRates.

(** The amount before the fee and the effective rate, if both currencies have one. *)
Definition bruto_and_kurs (fromCurrency toCurrency : string) (amount : float64) : option (float64 * float64) :=
  if String.eqb fromCurrency "RSD" then
    toRate ← prodajni toCurrency;
    if f64_eqb toRate f64_zero then None
    else Some (f64_div amount toRate, f64_div (f64_of_Z 1) toRate)
  else if String.eqb toCurrency "RSD" then
    fromRate ← kupovni fromCurrency; Some (f64_mul amount fromRate, fromRate)
  else
    fromRate ← kupovni fromCurrency;
    toRate ← prodajni toCurrency;
    if f64_eqb toRate f64_zero then None
    else Some (f64_div (f64_mul amount fromRate) toRate, f64_div fromRate toRate).

(** [max(0, x)] as the source writes it. *)
Definition clamp0 (x : float64) : float64 := if f64_ltb x f64_zero then f64_zero else x.

(** The net amount, the rate and the fee, in the target currency. *)
Definition convertPaymentAmountWithFee (fromCurrency toCurrency : string) (amount : float64)
    : float64 * float64 * float64 :=
  if String.eqb fromCurrency toCurrency then (amount, f64_of_Z 1, f64_zero)
  else match bruto_and_kurs fromCurrency toCurrency amount with
       | None => (amount, f64_of_Z 1, f64_zero)
       | Some (bruto, effectiveKurs) =>
           let p := clamp0 (f64_mul bruto paymentProvizijaRate) in
           (clamp0 (f64_sub bruto p), effectiveKurs, p)
       end.

Definition convertPaymentAmount (fromCurrency toCurrency : string) (amount : float64) : float64 :=
  let '(net, _, _) := convertPaymentAmountWithFee fromCurrency toCurrency amount in net.

(** 1000 dinars are 8.46 euros, 10 euros 1158.33 dinars. *)
Example conversions :
  f64_ltb (f64_lit 846 2) (convertPaymentAmount "RSD" "EUR" (f64_of_Z 1000)) = true /\
  f64_ltb (convertPaymentAmount "RSD" "EUR" (f64_of_Z 1000)) (f64_lit 847 2) = true /\
  f64_ltb (f64_lit 115832 2) (convertPaymentAmount "EUR" "RSD" (f64_of_Z 10)) = true /\
  convertPaymentAmount "RSD" "XXX" (f64_of_Z 10) = f64_of_Z 10.
Proof. vm_compute. done. Qed.

(** ** Accounts and mobile verification ([repository/account_repository.go],
    [service/account_service.go])

    Opening accounts, their numbers and names, the limits of payments, and the
    actions that a client confirms on the mobile application.  Texts are ASCII; the
    nanoseconds a verification code is made of are a random number.  The list of
    transactions of an account is not modelled: the ledger keeps no times here. *)

(** ** Structs *)

Record Currency : Type := mkCurrency { cu_ID : Z; cu_Naziv : string; cu_Oznaka : string }.

Record Firma : Type := mkFirmaStruct {
  f_Naziv : string;
  f_MaticniBroj : string;
  f_PIB : string;
  f_DelatnostID : Z;
  f_Adresa : string
}.

Record CreateAccountInput : Type := mkCreateAccount {
  ca_ZaposleniID : Z;
  ca_VlasnikID : Z;
  ca_ValutaID : Z;
  ca_Firma : option Firma;
  ca_KategorijaRacuna : string;
  ca_VrstaRacuna : string;
  ca_Podvrsta : string;
  ca_NazivRacuna : string;
  ca_StanjeRacuna : float64
}.

Record AccountListItem : Type := mkAccountListItem {
  al_ID : Z;
  al_BrojRacuna : string;
  al_NazivRacuna : string;
  al_VrstaRacuna : VrstaRacuna;
  al_KategorijaRacuna : string;
  al_ValutaOznaka : string;
  al_StanjeRacuna : float64;
  al_RezervovanaSredstva : float64;
  al_RaspolozivoStanje : float64
}.

Record EmployeeAccountListItem : Type := mkEmployeeAccount {
  ea_ID : Z;
  ea_BrojRacuna : string;
  ea_VrstaRacuna : VrstaRacuna;
  ea_KategorijaRacuna : string;
  ea_VlasnikID : Z
}.

Record AccountDetail : Type := mkAccountDetail {
  ad_Item : AccountListItem;
  ad_DnevniLimit : float64;
  ad_MesecniLimit : float64;
  ad_NazivFirme : option string
}.

Record RenameAccountInput : Type := mkRenameAccount {
  rn_VlasnikID : Z;
  rn_AccountID : Z;
  rn_NoviNaziv : string
}.

Record UpdateLimitInput : Type := mkUpdateLimit {
  ul_VlasnikID : Z;
  ul_AccountID : Z;
  ul_DnevniLimit : float64;
  ul_MesecniLimit : float64
}.

Record VerifyLimitInput : Type := mkVerifyLimit {
  vl_VlasnikID : Z;
  vl_ActionID : Z;
  vl_Code : string
}.

Record PendingAction : Type := mkPendingActionStruct {
  pn_ID : Z;
  pn_ActionType : ActionType;
  pn_Opis : string;
  pn_Status : ActionStatus;
  pn_BrojRacuna : string;
  pn_ValutaOznaka : string;
  pn_DnevniLimit : float64;
  pn_MesecniLimit : float64;
  pn_CreatedAt : Z;
  pn_NazivPrimaoca : string;
  pn_BrojRacunaPrimaoca : string;
  pn_Iznos : float64
}.

(** [json.Unmarshal] of the parameters into [limitParams]: a field that is missing
    stays 0. *)
Definition limitParams (p : ActionParams) : float64 * float64 :=
  match p with ParamsLimit d m => (d, m) | _ => (f64_zero, f64_zero) end.

(** [json.Marshal] fails on what is not a finite number; its error is dropped and
    the empty text is no JSON. *)
Definition is_finite (f : float64) : bool :=
  match f with S754_zero _ | S754_finite _ _ _ => true | _ => false end.

(** ** The number of a new account *)

Definition validDevizneValute : list string := ["EUR"; "CHF"; "USD"; "GBP"; "JPY"; "CAD"; "AUD"].

Definition upper_char (c : Ascii.ascii) : Ascii.ascii :=
  let n := Ascii.nat_of_ascii c in
  if (97 <=? n)%nat && (n <=? 122)%nat then Ascii.ascii_of_nat (n - 32) else c.
Fixpoint to_upper (s : string) : string :=
  match s with EmptyString => EmptyString | String c s' => String (upper_char c) (to_upper s') end.

Definition podvrsta_code (podvrsta : string) : option string :=
  snd <$> List.find (fun kv => String.eqb kv.1 (to_upper podvrsta))
    [("STANDARDNI", "11"); ("STEDNI", "13"); ("PENZIONERSKI", "14"); ("MLADI", "15"); ("STUDENT", "16");
     ("NEZAPOSLENI", "17")].

Definition accountTypePrefix (kategorija vrsta podvrsta : string) : option string :=
  typeCode ←
    (if String.eqb kategorija "TEKUCI" && String.eqb vrsta "POSLOVNI" then Some "12"
     else if String.eqb kategorija "DEVIZNI" && String.eqb vrsta "LICNI" then Some "21"
     else if String.eqb kategorija "DEVIZNI" && String.eqb vrsta "POSLOVNI" then Some "22"
     else if String.eqb kategorija "TEKUCI" && String.eqb vrsta "LICNI" then podvrsta_code podvrsta
     else None);
  Some ("666" ++ "0001" ++ typeCode)%string.

(** The sum of [ch - '0'] over the characters. *)
Fixpoint digit_sum (s : string) : Z :=
  match s with
  | EmptyString => 0
  | String c s' => Z.of_nat (Ascii.nat_of_ascii c) - 48 + digit_sum s'
  end.

Definition check_digit (prefix random8 : string) : Z :=
  (11 - (digit_sum prefix + digit_sum random8) mod 11) mod 11.

(** Draws until the check digit is one digit; [None] when [fuel] draws were not
    enough. *)
Fixpoint generateAccountNumber (fuel : nat) (prefix : string) : M (option string) :=
  match fuel with
  | O => mret None
  | S fuel' =>
      n ← rand_Intn 100000000;
      let random8 := padded 8 n in
      let check := check_digit prefix random8 in
      if 9 <? check then generateAccountNumber fuel' prefix
      else mret (Some (prefix ++ random8 ++ pretty check)%string)
  end.

(** ** Statements *)

Definition active (r : racun) : bool := bool_decide (r_status r = AKTIVAN).

Definition update_action id guard f (d : DB) : result (Z * DB) :=
  match update_row id guard f (bd_pending_action (d_bank d)) with
  | Ok (n, m) => Ok (n, set_pending_action m d)
  | Err er => Err er
  end.

Definition with_info (i : racunInfo) (r : racun) : racun :=
  mkRacun (r_broj_racuna r) (r_id_vlasnika r) (r_oznaka r) (r_vrsta_racuna r) (r_status r)
    (r_stanje_racuna r) (r_rezervisana_sredstva r) i.

Definition with_naziv (naziv : string) (i : racunInfo) : racunInfo :=
  mkRacunInfo (ri_id_zaposlenog i) (ri_id_firme i) (ri_kategorija_racuna i) (ri_podvrsta i) naziv
    (ri_datum_kreiranja i) (ri_datum_isteka i) (ri_dnevni_limit i) (ri_mesecni_limit i)
    (ri_dnevna_potrosnja i) (ri_mesecna_potrosnja i).
Definition with_limits (dnevni mesecni : option Z) (i : racunInfo) : racunInfo :=
  mkRacunInfo (ri_id_zaposlenog i) (ri_id_firme i) (ri_kategorija_racuna i) (ri_podvrsta i)
    (ri_naziv_racuna i) (ri_datum_kreiranja i) (ri_datum_isteka i) dnevni mesecni
    (ri_dnevna_potrosnja i) (ri_mesecna_potrosnja i).

(** The columns of an action that change. *)
Definition with_action (s : ActionStatus) (code : option string) (expires : option Z) (attempts : Z)
    (a : pendingActionModel) : pendingActionModel :=
  mkPendingAction (pa_VlasnikID a) (pa_RacunID a) (pa_ActionType a) (pa_ParamsJSON a) (pa_Opis a) s code
    expires attempts (pa_CreatedAt a).

(** [UPDATE pending_action SET status = 'CANCELLED']. *)
Definition cancel_action (a : pendingActionModel) : option pendingActionModel :=
  Some (with_action ACTION_CANCELLED (pa_VerificationCode a) (pa_CodeExpiresAt a) (pa_Attempts a) a).

(** One more failed attempt; the third one cancels the action. *)
Definition count_attempt (seen : Z) (a : pendingActionModel) : option pendingActionModel :=
  n ← store_int (seen + 1);
  Some (with_action (if 3 <=? seen + 1 then ACTION_CANCELLED else pa_Status a) (pa_VerificationCode a)
          (pa_CodeExpiresAt a) n a).

(** An INSERT into [pending_action]; its foreign key. *)
Definition insert_action (a : pendingActionModel) (i : Z) (d : DB) : result (Z * DB) :=
  match d_racun d !! pa_RacunID a, insert_row i a (bd_pending_action (d_bank d)) with
  | Some _, Ok m => Ok (i, set_pending_action m d)
  | _, _ => Err ErrDB
  end.

(** [racun.id] when it is one of the owner's active accounts. *)
Definition own_racun (id owner : Z) (d : DB) : option racun :=
  r ← d_racun d !! id;
  if bool_decide (r_id_vlasnika r = owner) && active r then Some r else None.

Section repository.
Context `{DL : decimal.Lib} `{PT : pg.Text}.

(** ** Currencies *)

Definition currency_toDomain (id : Z) (v : valuta) : Currency := mkCurrency id (va_naziv v) (va_oznaka v).

Definition GetCurrencyByID (id : Z) : M Currency :=
  row ← sql_read (fun d => bd_valuta (d_bank d) !! id);
  match row with Some v => mret (currency_toDomain id v) | None => throw ErrDB end.

Definition GetCurrencies : M (list Currency) :=
  sql_read (fun d => (fun kv : Z * valuta => currency_toDomain kv.1 kv.2) <$>
                       filter (fun kv => va_status kv.2 = true) (map_to_list (bd_valuta (d_bank d)))).

(** ** Fields of business *)

Definition GetDelatnosti : M (list (Z * delatnost)) :=
  sql_read (fun d => map_to_list (bd_delatnost (d_bank d))).

(** ** Opening an account *)

Definition parse_vrsta (s : string) : option VrstaRacuna :=
  if String.eqb s "LICNI" then Some LICNI else if String.eqb s "POSLOVNI" then Some POSLOVNI else None.

Definition firma_unique (f : firmaModel) (m : gmap Z firmaModel) : bool :=
  negb (existsb (fun kv : Z * firmaModel => String.eqb (fi_maticni_broj kv.2) (fi_maticni_broj f) ||
                                            String.eqb (fi_poreski_broj kv.2) (fi_poreski_broj f)) (map_to_list m)).

Definition insert_firma (f : firmaModel) (i : Z) (d : DB) : result (Z * DB) :=
  if firma_unique f (bd_firma (d_bank d)) && varchar 255 (fi_naziv_firme f) && varchar 20 (fi_maticni_broj f) &&
     varchar 20 (fi_poreski_broj f) && varchar 255 (fi_adresa f) then
    match bd_delatnost (d_bank d) !! fi_id_delatnosti f, insert_row i f (bd_firma (d_bank d)) with
    | Some _, Ok m => Ok (i, set_firma m d)
    | _, _ => Err ErrDB
    end
  else Err ErrDB.

Definition firma_row (f : Firma) (vlasnikID : Z) : firmaModel :=
  mkFirma (f_Naziv f) (f_MaticniBroj f) (f_PIB f) (f_DelatnostID f) (f_Adresa f) vlasnikID.

(** [now.AddDate(5, 0, 0)], the time of the day kept. *)
Definition in_five_years (now : Z) : Z := AddDate (truncate_day now) 60 * 86400 + now mod 86400.

Definition racun_row (inp : CreateAccountInput) (brojRacuna : string) (idFirme : option Z) (now : Z) (d : DB)
    : option racun :=
  v ← bd_valuta (d_bank d) !! ca_ValutaID inp;
  vrsta ← parse_vrsta (ca_VrstaRacuna inp);
  stanje ← store_cents (arg (ca_StanjeRacuna inp));
  if bool_decide (ca_KategorijaRacuna inp ∈ ["TEKUCI"; "DEVIZNI"]) && varchar 18 brojRacuna &&
     varchar 100 (ca_Podvrsta inp) && varchar 255 (ca_NazivRacuna inp)
  then Some (mkRacun brojRacuna (ca_VlasnikID inp) (va_oznaka v) vrsta AKTIVAN stanje 0
               (mkRacunInfo (ca_ZaposleniID inp) idFirme (ca_KategorijaRacuna inp)
                  (if String.eqb (ca_Podvrsta inp) EmptyString then None else Some (ca_Podvrsta inp))
                  (ca_NazivRacuna inp) now (in_five_years now) (Some 0) (Some 0) 0 0))
  else None.

Definition insert_racun (inp : CreateAccountInput) (brojRacuna : string) (idFirme : option Z) (now i : Z) (d : DB)
    : result (Z * DB) :=
  match racun_row inp brojRacuna idFirme now d, racun_by_number brojRacuna d with
  | Some r, None =>
      match insert_row i r (d_racun d) with Ok m => Ok (i, set_racun m d) | Err er => Err er end
  | _, _ => Err ErrDB
  end.

(** The new firm, for a business account. *)
Definition create_firma (inp : CreateAccountInput) : M (option Z) :=
  match ca_Firma inp with
  | Some f =>
      if String.eqb (ca_VrstaRacuna inp) "POSLOVNI" then
        id ← sql_insert (insert_firma (firma_row f (ca_VlasnikID inp)));
        mret (if id =? 0 then None else Some id)
      else mret None
  | None => mret None
  end.

Definition CreateAccountRow (inp : CreateAccountInput) (brojRacuna : string) : M Z :=
  Transaction (
    idFirme ← create_firma inp;
    now ← time_now;
    sql_insert (insert_racun inp brojRacuna idFirme now)).

Definition validateCurrency (valutaID : Z) (kategorija : string) : M unit :=
  currency ← GetCurrencyByID valutaID;
  if String.eqb kategorija "TEKUCI" then
    if negb (String.eqb (cu_Oznaka currency) "RSD") then throw ErrInvalidCurrency else mret tt
  else if String.eqb kategorija "DEVIZNI" then
    if bool_decide (cu_Oznaka currency ∈ validDevizneValute) then mret tt else throw ErrInvalidCurrency
  else mret tt.

(** [None] when the draws of the number did not end within [fuel]. *)
Definition CreateAccount (fuel : nat) (inp : CreateAccountInput) : M (option Z) :=
  validateCurrency (ca_ValutaID inp) (ca_KategorijaRacuna inp) ;;
  match accountTypePrefix (ca_KategorijaRacuna inp) (ca_VrstaRacuna inp) (ca_Podvrsta inp) with
  | None => throw ErrInvalidPodvrsta
  | Some prefix =>
      broj ← generateAccountNumber fuel prefix;
      match broj with
      | None => mret None
      | Some brojRacuna => id ← CreateAccountRow inp brojRacuna; mret (Some id)
      end
  end.

(** ** Queries *)

Definition list_item (id : Z) (r : racun) : AccountListItem :=
  mkAccountListItem id (r_broj_racuna r) (ri_naziv_racuna (r_info r)) (r_vrsta_racuna r)
    (ri_kategorija_racuna (r_info r)) (r_oznaka r) (scan_cents (r_stanje_racuna r))
    (scan_cents (r_rezervisana_sredstva r))
    (f64_sub (scan_cents (r_stanje_racuna r)) (scan_cents (r_rezervisana_sredstva r))).

Definition GetClientAccounts (vlasnikID : Z) : M (list AccountListItem) :=
  sql_read (fun d =>
    (fun kv : Z * racun => list_item kv.1 kv.2) <$>
      sort_by (fun kv => - free_cents kv.2)
        (filter (fun kv => r_id_vlasnika kv.2 = vlasnikID /\ r_status kv.2 = AKTIVAN) (map_to_list (d_racun d)))).

(** ["%" ++ filter ++ "%"] is the pattern. *)
Definition GetAllAccounts (brojRacunaFilter : string) : M (list EmployeeAccountListItem) :=
  sql_read (fun d =>
    (fun kv : Z * racun => mkEmployeeAccount kv.1 (r_broj_racuna kv.2) (r_vrsta_racuna kv.2)
                             (ri_kategorija_racuna (r_info kv.2)) (r_id_vlasnika kv.2)) <$>
      filter (fun kv => (active kv.2 && (String.eqb brojRacunaFilter EmptyString ||
                          pg.ilike (r_broj_racuna kv.2) ("%" ++ brojRacunaFilter ++ "%")%string)) = true)
        (map_to_list (d_racun d))).

(** 0 when there is no such account. *)
Definition FindAccountIDByNumber (brojRacuna : string) : M Z :=
  sql_read (fun d => match racun_by_number brojRacuna d with
                     | Some (id, r) => if active r then id else 0
                     | None => 0
                     end).

Definition GetAccountDetail (accountID vlasnikID : Z) : M AccountDetail :=
  row ← sql_read (fun d =>
    r ← own_racun accountID vlasnikID d;
    Some (r, f ← ri_id_firme (r_info r); fi_naziv_firme <$> bd_firma (d_bank d) !! f));
  match row with
  | Some (r, firma) =>
      if accountID =? 0 then throw ErrAccountNotFound
      else mret (mkAccountDetail (list_item accountID r) (scan_cents (default 0 (ri_dnevni_limit (r_info r))))
                   (scan_cents (default 0 (ri_mesecni_limit (r_info r)))) firma)
  | None => throw ErrAccountNotFound
  end.

Definition RenameAccount (inp : RenameAccountInput) : M unit :=
  Transaction (
    row ← sql_read (own_racun (rn_AccountID inp) (rn_VlasnikID inp));
    match row with
    | None => throw ErrAccountNotFound
    | Some racun =>
        if String.eqb (ri_naziv_racuna (r_info racun)) (rn_NoviNaziv inp) then throw ErrNazivIsti
        else
          dup ← sql_read (fun d => existsb (fun kv : Z * Store.racun =>
                  (r_id_vlasnika kv.2 =? rn_VlasnikID inp) &&
                  String.eqb (ri_naziv_racuna (r_info kv.2)) (rn_NoviNaziv inp) &&
                  negb (kv.1 =? rn_AccountID inp)) (map_to_list (d_racun d)));
          if (dup : bool) then throw ErrNazivVecPostoji
          else exec_racun (rn_AccountID inp) (fun r =>
                 if varchar 255 (rn_NoviNaziv inp)
                 then Some (with_info (with_naziv (rn_NoviNaziv inp) (r_info r)) r) else None)
    end).

(** ** Limits *)

(** The description names what changes; its amounts are left out. *)
Definition limit_opis (inp : UpdateLimitInput) : string :=
  ("Promena limita - " ++ (if f64_leb f64_zero (ul_DnevniLimit inp) then "Dnevni" else EmptyString) ++
   (if f64_leb f64_zero (ul_MesecniLimit inp) then "Mesecni" else EmptyString))%string.

Definition UpdateAccountLimit (inp : UpdateLimitInput) : M Z :=
  row ← sql_read (own_racun (ul_AccountID inp) (ul_VlasnikID inp));
  match row with
  | None => throw ErrAccountNotFound
  | Some racun =>
      if String.eqb (r_broj_racuna racun) EmptyString then throw ErrAccountNotFound
      else
        existing ← sql_read (fun d => existsb (fun kv : Z * pendingActionModel =>
                     (pa_RacunID kv.2 =? ul_AccountID inp) &&
                     bool_decide (pa_ActionType kv.2 = ACTION_PROMENA_LIMITA) &&
                     bool_decide (pa_Status kv.2 = ACTION_PENDING)) (map_to_list (bd_pending_action (d_bank d))));
        if (existing : bool) then throw ErrPendingAlreadyExists
        else
          now ← time_now;
          sql_insert (fun i d =>
            if is_finite (ul_DnevniLimit inp) && is_finite (ul_MesecniLimit inp) then
              insert_action (mkPendingAction (ul_VlasnikID inp) (ul_AccountID inp) ACTION_PROMENA_LIMITA
                (ParamsLimit (ul_DnevniLimit inp) (ul_MesecniLimit inp)) (limit_opis inp) ACTION_PENDING None None 0 now) i d
            else Err ErrDB)
  end.

(** ** Actions *)

(** DECIMAL(15, 4). *)
Definition scan_iznos (c : Z) : float64 := decimal.float64_of_numeric (numeric_val 10000 c).
Definition store_iznos (q : Q) : option Z := numeric_store 15 10000 q.

(** The action with its account and with each order of payment that waits for it. *)
Definition action_row (id : Z) (a : pendingActionModel) (r : racun) (pi : option paymentIntentModel)
    : PendingAction :=
  let '(dnevni, mesecni) := limitParams (pa_ParamsJSON a) in
  mkPendingActionStruct id (pa_ActionType a) (pa_Opis a) (pa_Status a) (r_broj_racuna r) (r_oznaka r) dnevni
    mesecni (pa_CreatedAt a) (match pi with Some p => pi_NazivPrimaoca p | None => EmptyString end)
    (match pi with Some p => pi_BrojRacunaPrimaoca p | None => EmptyString end)
    (scan_iznos (match pi with Some p => pi_Iznos p | None => 0 end)).

Definition intents_of (actionID : Z) (d : DB) : list paymentIntentModel :=
  snd <$> filter (fun kv => pi_PendingActionID kv.2 = Some actionID) (map_to_list (bd_payment_intent (d_bank d))).

Definition action_rows (d : DB) (kv : Z * pendingActionModel) : list PendingAction :=
  match d_racun d !! pa_RacunID kv.2 with
  | None => []
  | Some r =>
      match intents_of kv.1 d with
      | [] => [action_row kv.1 kv.2 r None]
      | l => (fun p => action_row kv.1 kv.2 r (Some p)) <$> l
      end
  end.

Definition GetPendingActions (vlasnikID : Z) : M (list PendingAction) :=
  sql_read (fun d =>
    kv ← sort_by (fun kv => - pa_CreatedAt kv.2)
           (filter (fun kv => pa_VlasnikID kv.2 = vlasnikID /\ pa_Status kv.2 = ACTION_PENDING)
              (map_to_list (bd_pending_action (d_bank d))));
    action_rows d kv).

Definition own_action (actionID vlasnikID : Z) (d : DB) : option pendingActionModel :=
  a ← bd_pending_action (d_bank d) !! actionID; if pa_VlasnikID a =? vlasnikID then Some a else None.

Definition GetPendingAction (actionID vlasnikID : Z) : M PendingAction :=
  row ← sql_read (fun d => a ← own_action actionID vlasnikID d; head (action_rows d (actionID, a)));
  match row with
  | Some a => if actionID =? 0 then throw ErrPendingNotFound else mret a
  | None => throw ErrPendingNotFound
  end.

(** The code is valid for five minutes. *)
Definition approve_action (code : string) (expiresAt : Z) (a : pendingActionModel) : option pendingActionModel :=
  if varchar 6 code then Some (with_action ACTION_APPROVED (Some code) (Some expiresAt) (pa_Attempts a) a) else None.

Definition ApprovePendingAction (actionID vlasnikID : Z) : M (string * Z) :=
  row ← sql_read (own_action actionID vlasnikID);
  match row with
  | None => throw ErrPendingNotFound
  | Some a =>
      if decide (pa_Status a = ACTION_PENDING) then
        nanos ← rand_Intn 900000;
        let code := padded 6 (nanos + 100000) in
        now ← time_now;
        let expiresAt := now + 300 in
        sql (update_action actionID (fun _ => true) (approve_action code expiresAt)) ;;
        mret (code, expiresAt)
      else throw ErrAlreadyApproved
  end.

(** [CodeExpiresAt == nil || now.After( *CodeExpiresAt)]. *)
Definition code_expired (a : pendingActionModel) : M bool :=
  match pa_CodeExpiresAt a with None => mret true | Some t => now ← time_now; mret (t <? now) end.

Definition code_matches (code : string) (a : pendingActionModel) : bool :=
  match pa_VerificationCode a with Some c => String.eqb c code | None => false end.

(** A limit that is not negative is stored. *)
Definition set_limits (dnevni mesecni : float64) (r : racun) : option racun :=
  let one (l : float64) (old : option Z) :=
    if f64_leb f64_zero l then Some <$> store_cents (arg l) else Some old in
  d ← one dnevni (ri_dnevni_limit (r_info r));
  m ← one mesecni (ri_mesecni_limit (r_info r));
  Some (with_info (with_limits d m (r_info r)) r).

Definition VerifyAndApplyLimit (inp : VerifyLimitInput) : M unit :=
  Transaction (
    row ← sql_read (own_action (vl_ActionID inp) (vl_VlasnikID inp));
    match row with
    | None => throw ErrPendingNotFound
    | Some m =>
        if decide (pa_Status m = ACTION_APPROVED) then
          expired ← code_expired m;
          if (expired : bool) then
            try (sql (update_action (vl_ActionID inp) (fun _ => true) cancel_action)) ;;
            throw ErrCodeExpired
          else if negb (code_matches (vl_Code inp) m) then
            try (sql (update_action (vl_ActionID inp) (fun _ => true) (count_attempt (pa_Attempts m)))) ;;
            throw (if 3 <=? pa_Attempts m + 1 then ErrTooManyAttempts else ErrWrongCode)
          else
            let '(dnevni, mesecni) := limitParams (pa_ParamsJSON m) in
            (if f64_leb f64_zero dnevni || f64_leb f64_zero mesecni
             then sql (update_racun (pa_RacunID m) active (set_limits dnevni mesecni)) ;; mret tt
             else mret tt) ;;
            sql (update_action (vl_ActionID inp) (fun _ => true) cancel_action) ;;
            mret tt
        else if decide (pa_Status m = ACTION_CANCELLED) then throw ErrTooManyAttempts
        else throw ErrPendingNotFound
    end).

End repository.
