(* ===== verification/PaymentRepo.v ===== *)
(** * Payments ([repository/payment_repository.go], [service/payment_service.go],
    [handler/exchange_handler.go])

    Recipients, orders of payment and transfer, their verification with the code of
    the mobile application, and their execution.  Texts are ASCII. *)

From S2P Require Import Prelude Numeric Domain Tables Store StoreFacts OrderRepo Market FundsManager.
From S2P Require Import GoMath AccountRepo.
From stdpp Require Import list sorting pretty.
From Stdlib Require Import SpecFloat.
#[local] Open Scope string_scope.
#[local] Open Scope Z_scope.

(** ** Statements *)

Definition update_intent id guard f (d : DB) : result (Z * DB) :=
  match update_row id guard f (bd_payment_intent (d_bank d)) with
  | Ok (n, m) => Ok (n, set_payment_intent m d)
  | Err er => Err er
  end.

Definition update_recipient id guard f (d : DB) : result (Z * DB) :=
  match update_row id guard f (bd_payment_recipient (d_bank d)) with
  | Ok (n, m) => Ok (n, set_payment_recipient m d)
  | Err er => Err er
  end.

(** The columns of an order that change. *)
Definition with_intent (s : StatusNaloga) (krajnji : option Z) (verified executed : option Z) (reason : string)
    (m : paymentIntentModel) : paymentIntentModel :=
  mkPaymentIntent (pi_IdempotencyKey m) (pi_BrojNaloga m) (pi_TipTransakcije m) (pi_RacunPlatioceID m)
    (pi_BrojRacunaPlatioca m) (pi_RacunPrimaocaID m) (pi_BrojRacunaPrimaoca m) (pi_NazivPrimaoca m)
    (pi_Iznos m) krajnji (pi_Provizija m) (pi_Kurs m) (pi_ValutaPrimaoca m) (pi_Valuta m) (pi_SifraPlacanja m)
    (pi_PozivNaBroj m) (pi_SvrhaPlacanja m) s (pi_PendingActionID m) (pi_InitiatedByUserID m) (pi_CreatedAt m)
    verified executed reason.

Definition refuse_intent (reason : string) (m : paymentIntentModel) : option paymentIntentModel :=
  Some (with_intent ODBIJENO (pi_KrajnjiIznos m) (pi_VerifiedAt m) (pi_ExecutedAt m) reason m).

Definition realize_intent (krajnji : Q) (now : Z) (m : paymentIntentModel) : option paymentIntentModel :=
  k ← store_iznos krajnji; Some (with_intent REALIZOVANO (Some k) (Some now) (Some now) (pi_FailedReason m) m).

Definition with_potrosnja (dnevna mesecna : Z) (i : racunInfo) : racunInfo :=
  mkRacunInfo (ri_id_zaposlenog i) (ri_id_firme i) (ri_kategorija_racuna i) (ri_podvrsta i)
    (ri_naziv_racuna i) (ri_datum_kreiranja i) (ri_datum_isteka i) (ri_dnevni_limit i) (ri_mesecni_limit i)
    dnevna mesecna.

(** The debit of the payer, counted against both limits. *)
Definition debit_payer (q : Q) (r : racun) : option racun :=
  s ← store_cents (cents (r_stanje_racuna r) - q);
  d ← store_cents (cents (ri_dnevna_potrosnja (r_info r)) + q);
  m ← store_cents (cents (ri_mesecna_potrosnja (r_info r)) + q);
  Some (with_info (with_potrosnja d m (r_info r)) (with_stanje s r)).

Definition exec_active (id : Z) (f : racun -> option racun) : M unit :=
  sql (update_racun id active f) ;; mret tt.

(** A ledger row whose description is VARCHAR(500). *)
Definition insert_ledger (opis : string) (racunID : Z) (tip : TipTransakcije) (q : Q) : M unit :=
  sql (fun d => if varchar 500 opis then insert_transakcija [(racunID, tip, q)] d else Err ErrDB).

(** The rows of [racun] with an id among [ids], in the order of their ids. *)
Definition locked `{DL : decimal.Lib} (ids : list Z) (d : DB) : list racunForPayment :=
  omap (fun id => racun_for_payment id <$> d_racun d !! id) (merge_sort Z.le ids).

Definition find_account (id : Z) (l : list racunForPayment) : option racunForPayment :=
  List.find (fun a => rp_ID a =? id) l.

Section repository.
Context `{DL : decimal.Lib} `{PT : pg.Text}.

(** DECIMAL(18, 6). *)
Definition scan_kurs (c : Z) : float64 := decimal.float64_of_numeric (micros c).

Definition intentToDomain (id : Z) (m : paymentIntentModel) : PaymentIntent :=
  mkIntent id (pg.uuid_out (pi_IdempotencyKey m)) (pi_BrojNaloga m) (pi_TipTransakcije m) (pi_RacunPlatioceID m)
    (pi_BrojRacunaPlatioca m) (pi_Valuta m) (pi_RacunPrimaocaID m) (pi_BrojRacunaPrimaoca m)
    (pi_NazivPrimaoca m) (scan_iznos (pi_Iznos m)) (scan_iznos <$> pi_KrajnjiIznos m) (scan_iznos (pi_Provizija m))
    (scan_kurs (pi_Kurs m)) (pi_ValutaPrimaoca m) (pi_SifraPlacanja m) (pi_PozivNaBroj m) (pi_SvrhaPlacanja m)
    (pi_Status m) (pi_PendingActionID m) (pi_InitiatedByUserID m) (pi_CreatedAt m) (pi_VerifiedAt m)
    (pi_ExecutedAt m) (pi_FailedReason m).

(** ** Recipients *)

Definition recipientToDomain (id : Z) (m : paymentRecipientModel) : PaymentRecipient :=
  mkRecipient id (pc_VlasnikID m) (pc_Naziv m) (pc_BrojRacuna m) (pc_CreatedAt m) (pc_UpdatedAt m).

Definition recipient_check (id : Z) (m : paymentRecipientModel) (t : gmap Z paymentRecipientModel) : bool :=
  varchar 255 (pc_Naziv m) && varchar 18 (pc_BrojRacuna m) &&
  negb (existsb (fun kv : Z * paymentRecipientModel =>
          negb (kv.1 =? id) && (pc_VlasnikID kv.2 =? pc_VlasnikID m) &&
          String.eqb (pc_BrojRacuna kv.2) (pc_BrojRacuna m)) (map_to_list t)).

Definition insert_recipient (m : paymentRecipientModel) (i : Z) (d : DB) : result (Z * DB) :=
  if recipient_check i m (bd_payment_recipient (d_bank d)) then
    match insert_row i m (bd_payment_recipient (d_bank d)) with
    | Ok t => Ok (i, set_payment_recipient t d)
    | Err er => Err er
    end
  else Err ErrDB.

Definition RecipientCreate (vlasnikID : Z) (naziv brojRacuna : string) : M PaymentRecipient :=
  created ← time_now;
  updated ← time_now;
  let m := mkPaymentRecipient vlasnikID naziv brojRacuna created updated in
  id ← sql_insert (insert_recipient m);
  mret (recipientToDomain id m).

Definition own_recipient (id vlasnikID : Z) (d : DB) : option paymentRecipientModel :=
  m ← bd_payment_recipient (d_bank d) !! id; if pc_VlasnikID m =? vlasnikID then Some m else None.

Definition RecipientGetByID (id vlasnikID : Z) : M PaymentRecipient :=
  row ← sql_read (own_recipient id vlasnikID);
  match row with Some m => mret (recipientToDomain id m) | None => throw ErrPaymentRecipientNotFound end.

Definition RecipientGetByOwner (vlasnikID : Z) : M (list PaymentRecipient) :=
  sql_read (fun d =>
    (fun kv : Z * paymentRecipientModel => recipientToDomain kv.1 kv.2) <$>
      merge_sort (by_text (fun kv => pc_Naziv kv.2))
        (filter (fun kv => pc_VlasnikID kv.2 = vlasnikID) (map_to_list (bd_payment_recipient (d_bank d))))).

Definition RecipientUpdate (r : PaymentRecipient) : M unit :=
  now ← time_now;
  rows ← sql (fun d => update_recipient (pr_ID r) (fun m => pc_VlasnikID m =? pr_VlasnikID r)
                (fun m => let m' := mkPaymentRecipient (pc_VlasnikID m) (pr_Naziv r) (pr_BrojRacuna r)
                                      (pc_CreatedAt m) now in
                          if recipient_check (pr_ID r) m' (bd_payment_recipient (d_bank d)) then Some m' else None) d);
  if rows =? 0 then throw ErrPaymentRecipientNotFound else mret tt.

Definition RecipientDelete (id vlasnikID : Z) : M unit :=
  rows ← sql (fun d => match own_recipient id vlasnikID d with
                       | Some _ => Ok (1, set_payment_recipient (delete id (bd_payment_recipient (d_bank d))) d)
                       | None => Ok (0, d)
                       end);
  if rows =? 0 then throw ErrPaymentRecipientNotFound else mret tt.

Definition ExistsByOwnerAndAccount (vlasnikID : Z) (brojRacuna : string) : M bool :=
  sql_read (fun d => existsb (fun kv : Z * paymentRecipientModel =>
    (pc_VlasnikID kv.2 =? vlasnikID) && String.eqb (pc_BrojRacuna kv.2) brojRacuna)
    (map_to_list (bd_payment_recipient (d_bank d)))).

(** ** Orders *)

Definition find_intent (k : N) (d : DB) : option (Z * paymentIntentModel) :=
  head (filter (fun kv => pi_IdempotencyKey kv.2 = k) (map_to_list (bd_payment_intent (d_bank d)))).

(** [WHERE idempotency_key = ?]: the server refuses a text that is no UUID. *)
Definition intent_by_key (key : string) : M (option (Z * paymentIntentModel)) :=
  sql (fun d => match pg.uuid_in key with Some k => Ok (find_intent k d, d) | None => Err ErrDB end).

(** One of the user's active accounts. *)
Definition own_account (id userID : Z) (er : error) : M racunForPayment :=
  row ← sql_read (own_racun id userID);
  match row with
  | Some r => if id =? 0 then throw er else mret (racun_for_payment id r)
  | None => throw er
  end.

(** Whether the account can pay: balance and limits, in float64. *)
Definition check_funds (a : racunForPayment) (iznos : float64) : result unit :=
  if f64_ltb (f64_sub (rp_StanjeRacuna a) (rp_RezervovanaSredstva a)) iznos then Err ErrInsufficientFunds
  else if f64_ltb f64_zero (rp_DnevniLimit a) && f64_ltb (rp_DnevniLimit a) (f64_add (rp_DnevnaPotrosnja a) iznos)
  then Err ErrDailyLimitExceeded
  else if f64_ltb f64_zero (rp_MesecniLimit a) && f64_ltb (rp_MesecniLimit a) (f64_add (rp_MesecnaPotrosnja a) iznos)
  then Err ErrMonthlyLimitExceeded
  else Ok tt.

Definition generateBrojNaloga : M string :=
  n ← rand_Intn 999999999;
  mret ("NAL" ++ padded 11 (n + 1))%string.

(** What a conversion adds to an order: final amount, fee, rate, target currency. *)
Record conversion : Type := mkConversion {
  cv_krajnji : option float64;
  cv_provizija : float64;
  cv_kurs : float64;
  cv_valuta : string
}.
Definition no_conversion : conversion := mkConversion None f64_zero f64_zero EmptyString.

(** Between accounts in two currencies; an empty currency stands for no account. *)
Definition convert_between (from to : string) (iznos : float64) : conversion :=
  if negb (String.eqb to EmptyString) && negb (String.eqb from to) then
    let '(net, k, prov) := convertPaymentAmountWithFee from to iznos in mkConversion (Some net) prov k to
  else no_conversion.

(** A transfer with an amount that the caller has converted. *)
Definition transfer_conversion (from to : string) (iznos converted : float64) : conversion :=
  if f64_ltb f64_zero converted && negb (f64_eqb converted iznos) then
    let '(_, k, prov) := convertPaymentAmountWithFee from to iznos in mkConversion (Some converted) prov k to
  else convert_between from to iznos.

Definition intent_row (k : N) (p : PaymentIntent) : option paymentIntentModel :=
  iznos ← store_iznos (arg (p_Iznos p));
  krajnji ← (match p_KrajnjiIznos p with None => Some None | Some f => Some <$> store_iznos (arg f) end);
  provizija ← store_iznos (arg (p_Provizija p));
  kurs ← store_micros (arg (p_Kurs p));
  if varchar 30 (p_BrojNaloga p) && varchar 18 (p_BrojRacunaPlatioca p) && varchar 18 (p_BrojRacunaPrimaoca p) &&
     varchar 255 (p_NazivPrimaoca p) && varchar 10 (p_ValutaOznaka p) && varchar 10 (p_ValutaPrimaoca p) &&
     varchar 3 (p_SifraPlacanja p) && varchar 50 (p_PozivNaBroj p) && varchar 500 (p_SvrhaPlacanja p)
  then Some (mkPaymentIntent k (p_BrojNaloga p) (p_TipTransakcije p) (p_RacunPlatioceID p)
               (p_BrojRacunaPlatioca p) (p_RacunPrimaocaID p) (p_BrojRacunaPrimaoca p) (p_NazivPrimaoca p)
               iznos krajnji provizija kurs (p_ValutaPrimaoca p) (p_ValutaOznaka p) (p_SifraPlacanja p)
               (p_PozivNaBroj p) (p_SvrhaPlacanja p) (p_Status p) (p_PendingActionID p)
               (p_InitiatedByUserID p) (p_CreatedAt p) (p_VerifiedAt p) (p_ExecutedAt p) (p_FailedReason p))
  else None.

Definition has_row {A} (id : option Z) (m : gmap Z A) : bool :=
  match id with None => true | Some i => match m !! i with Some _ => true | None => false end end.

(** Unique key and foreign keys. *)
Definition insert_intent (p : PaymentIntent) (i : Z) (d : DB) : result (Z * DB) :=
  match pg.uuid_in (p_IdempotencyKey p) with
  | None => Err ErrDB
  | Some k =>
      match intent_row k p, find_intent k d with
      | Some m, None =>
          if has_row (Some (p_RacunPlatioceID p)) (d_racun d) && has_row (p_RacunPrimaocaID p) (d_racun d) &&
             has_row (p_PendingActionID p) (bd_pending_action (d_bank d))
          then match insert_row i m (bd_payment_intent (d_bank d)) with
               | Ok t => Ok (i, set_payment_intent t d)
               | Err er => Err er
               end
          else Err ErrDB
      | _, _ => Err ErrDB
      end
  end.

(** The pending action and the order that waits for it, in one transaction.  gorm
    fills [created_at] of the action. *)
Definition create_order (ty : ActionType) (params : ActionParams) (order : Z -> PaymentIntent) (payerID userID : Z)
    (opis : string) : M Z :=
  Transaction (
    now ← time_now;
    actionID ← sql_insert (insert_action
                 (mkPendingAction userID payerID ty params opis ACTION_PENDING None None 0 now));
    sql_insert (insert_intent (order actionID)) ;;
    mret actionID).

Definition purpose (from to svrha : string) : string :=
  ("Sa: " ++ from ++ " | Na: " ++ to ++ " | Svrha: " ++ svrha)%string.

(** What both kinds of order do once they are checked. *)
Definition finish_create (key : string) (actionID : Z) : M (PaymentIntent * Z) :=
  created ← intent_by_key key;
  match created with Some (id, m) => mret (intentToDomain id m, actionID) | None => throw ErrDB end.

(** [id] of the row, if the recipient's account is ours. *)
Definition recipient_id (row : option (Z * racun)) : option Z :=
  match row with Some (id, _) => if id =? 0 then None else Some id | None => None end.

Definition payment_order (inp : CreatePaymentIntentInput) (payer : racunForPayment) (row : option (Z * racun))
    (broj : string) (now actionID : Z) : PaymentIntent :=
  let cv := match recipient_id row, row with
            | Some _, Some (_, r) => convert_between (rp_ValutaOznaka payer) (r_oznaka r) (cp_Iznos inp)
            | _, _ => no_conversion
            end in
  mkIntent 0 (cp_IdempotencyKey inp) broj PLACANJE (cp_RacunPlatioceID inp) (rp_BrojRacuna payer)
    (rp_ValutaOznaka payer) (recipient_id row) (cp_BrojRacunaPrimaoca inp) (cp_NazivPrimaoca inp)
    (cp_Iznos inp) (cv_krajnji cv) (cv_provizija cv) (cv_kurs cv) (cv_valuta cv) (cp_SifraPlacanja inp)
    (cp_PozivNaBroj inp) (cp_SvrhaPlacanja inp) U_OBRADI (Some actionID) (cp_InitiatedByUserID inp) now
    None None EmptyString.

Definition CreateIntent (inp : CreatePaymentIntentInput) : M (PaymentIntent * Z) :=
  existing ← intent_by_key (cp_IdempotencyKey inp);
  match existing with
  | Some (id, m) => mret (intentToDomain id m, default 0 (pi_PendingActionID m))
  | None =>
      payer ← own_account (cp_RacunPlatioceID inp) (cp_InitiatedByUserID inp) ErrAccountNotOwned;
      if String.eqb (rp_BrojRacuna payer) (cp_BrojRacunaPrimaoca inp) then throw ErrSameAccount
      else
        of_result (check_funds payer (cp_Iznos inp)) ;;
        row ← sql_read (fun d => x ← racun_by_number (cp_BrojRacunaPrimaoca inp) d;
                                 if active x.2 then Some x else None);
        broj ← generateBrojNaloga;
        now ← time_now;
        actionID ← create_order ACTION_PLACANJE (ParamsSifra (cp_SifraPlacanja inp))
                     (payment_order inp payer row broj now) (cp_RacunPlatioceID inp)
                     (cp_InitiatedByUserID inp)
                     (purpose (rp_BrojRacuna payer) (cp_BrojRacunaPrimaoca inp) (cp_SvrhaPlacanja inp));
        finish_create (cp_IdempotencyKey inp) actionID
  end.

Definition transfer_order (inp : CreateTransferIntentInput) (payer recipient : racunForPayment) (broj : string)
    (now actionID : Z) : PaymentIntent :=
  let cv := transfer_conversion (rp_ValutaOznaka payer) (rp_ValutaOznaka recipient) (ct_Iznos inp)
              (ct_ConvertedIznos inp) in
  mkIntent 0 (ct_IdempotencyKey inp) broj PRENOS (ct_RacunPlatioceID inp) (rp_BrojRacuna payer)
    (rp_ValutaOznaka payer) (Some (ct_RacunPrimaocaID inp)) (rp_BrojRacuna recipient) "Interni prenos"
    (ct_Iznos inp) (cv_krajnji cv) (cv_provizija cv) (cv_kurs cv) (cv_valuta cv) EmptyString
    EmptyString (ct_SvrhaPlacanja inp) U_OBRADI (Some actionID) (ct_InitiatedByUserID inp) now
    None None EmptyString.

Definition CreateTransferIntent (inp : CreateTransferIntentInput) : M (PaymentIntent * Z) :=
  existing ← intent_by_key (ct_IdempotencyKey inp);
  match existing with
  | Some (id, m) => mret (intentToDomain id m, default 0 (pi_PendingActionID m))
  | None =>
      if ct_RacunPlatioceID inp =? ct_RacunPrimaocaID inp then throw ErrSameAccount
      else
        payer ← own_account (ct_RacunPlatioceID inp) (ct_InitiatedByUserID inp) ErrAccountNotOwned;
        recipient ← own_account (ct_RacunPrimaocaID inp) (ct_InitiatedByUserID inp) ErrRecipientAccountInvalid;
        of_result (check_funds payer (ct_Iznos inp)) ;;
        broj ← generateBrojNaloga;
        now ← time_now;
        actionID ← create_order ACTION_PRENOS (ParamsPrenos (ct_RacunPrimaocaID inp))
                     (transfer_order inp payer recipient broj now) (ct_RacunPlatioceID inp)
                     (ct_InitiatedByUserID inp)
                     (purpose (rp_BrojRacuna payer) (rp_BrojRacuna recipient) (ct_SvrhaPlacanja inp));
        finish_create (ct_IdempotencyKey inp) actionID
  end.

(** ** Verification *)

(** Steps 5 and 6.  The error is returned next to a transaction that commits: what
    is written about the attempt stays. *)
Definition check_code (inp : VerifyPaymentInput) (actionID : Z) (a : pendingActionModel) : M (option error) :=
  expired ← code_expired a;
  if (expired : bool) then
    try (sql (update_action actionID (fun _ => true) cancel_action)) ;;
    try (sql (update_intent (vp_IntentID inp) (fun _ => true) (refuse_intent "Verifikacioni kod je istekao"))) ;;
    mret (Some ErrCodeExpired)
  else if negb (code_matches (vp_Code inp) a) then
    (if 3 <=? pa_Attempts a + 1 then
       try (sql (update_intent (vp_IntentID inp) (fun _ => true) (refuse_intent "Previse neuspesnih pokusaja"))) ;;
       mret tt
     else mret tt) ;;
    try (sql (update_action actionID (fun _ => true) (count_attempt (pa_Attempts a)))) ;;
    mret (Some (if 3 <=? pa_Attempts a + 1 then ErrTooManyAttempts else ErrWrongCode))
  else mret None.

(** ** Execution *)

(** A positive final amount that differs from the amount. *)
Definition converted_amount (m : paymentIntentModel) : option float64 :=
  k ← scan_iznos <$> pi_KrajnjiIznos m;
  if f64_ltb f64_zero k && negb (f64_eqb k (scan_iznos (pi_Iznos m))) then Some k else None.

Definition isCrossCurrency (m : paymentIntentModel) : bool :=
  match pi_RacunPrimaocaID m, converted_amount m with Some _, Some _ => true | _, _ => false end.

Definition creditAmount (m : paymentIntentModel) : float64 := default (scan_iznos (pi_Iznos m)) (converted_amount m).

(** The last row of a result in the order the server chose. *)
Definition pick (k : nat) (l : list Z) : Z :=
  match l with [] => 0 | id :: ids => nth (k mod S (length ids))%nat (id :: ids) 0 end.

(** Step 7: the treasury's accounts in the currencies of the payer and of the
    recipient. *)
Definition trezor_pair (valuta : string) (primalacID : Z) : M (Z * Z) :=
  recCurrency ← sql_read (fun d => match d_racun d !! primalacID with Some r => r_oznaka r | None => EmptyString end);
  rows ← sql_read (fun d => (racun_ids trezor_owner valuta d, racun_ids trezor_owner recCurrency d));
  k1 ← io (fun e n => Ok (env_row_choice e n));
  k2 ← io (fun e n => Ok (env_row_choice e n));
  let t1 := pick k1 rows.1 in
  let t2 := if String.eqb valuta recCurrency then t1 else pick k2 rows.2 in
  if (t1 =? 0) || (t2 =? 0) then throw (ErrMsg "trezorski racuni banke nisu pronadjeni") else mret (t1, t2).

(** Step 12a and 12b. *)
Definition through_treasury (m : paymentIntentModel) (t1 t2 : Z) : M unit :=
  let q := arg (scan_iznos (pi_Iznos m)) in
  let c := arg (creditAmount m) in
  exec_active t1 (add_stanje q) ;;
  insert_ledger ("Konverzija " ++ pi_BrojNaloga m ++ " - uplata od klijenta") t1 UPLATA q ;;
  exec_active t2 (sub_stanje c) ;;
  insert_ledger ("Konverzija " ++ pi_BrojNaloga m ++ " - isplata klijentu") t2 ISPLATA c.

Definition credit_recipient (m : paymentIntentModel) (primalacID : Z) : M unit :=
  let c := arg (creditAmount m) in
  exec_active primalacID (add_stanje c) ;;
  insert_ledger ("Prenos " ++ pi_BrojNaloga m ++ " - " ++ pi_SvrhaPlacanja m) primalacID UPLATA c.

(** Steps 10 to 12: the money moves. *)
Definition move_money (m : paymentIntentModel) (t1 t2 : Z) (accounts : list racunForPayment) : M unit :=
  let q := arg (scan_iznos (pi_Iznos m)) in
  exec_active (pi_RacunPlatioceID m) (debit_payer q) ;;
  insert_ledger ("Placanje " ++ pi_BrojNaloga m ++ " - " ++ pi_SvrhaPlacanja m) (pi_RacunPlatioceID m) ISPLATA q ;;
  (if isCrossCurrency m then through_treasury m t1 t2 else mret tt) ;;
  match pi_RacunPrimaocaID m with
  | Some primalacID =>
      match find_account primalacID accounts with
      | Some _ => credit_recipient m primalacID
      | None => mret tt
      end
  | None => mret tt
  end.

Definition account_ids (m : paymentIntentModel) (t1 t2 : Z) : list Z :=
  [pi_RacunPlatioceID m] ++ (match pi_RacunPrimaocaID m with Some id => [id] | None => [] end) ++
  (if t1 =? 0 then [] else [t1]) ++ (if (t2 =? 0) || (t2 =? t1) then [] else [t2]).

(** Steps 7 to 13. *)
Definition execute_intent (id : Z) (m : paymentIntentModel) (actionID : Z) : M PaymentIntent :=
  trez ← (if isCrossCurrency m
          then trezor_pair (pi_Valuta m) (default 0 (pi_RacunPrimaocaID m)) else mret (0, 0));
  let '(t1, t2) := (trez : Z * Z) in
  accounts ← sql_read (locked (account_ids m t1 t2));
  match find_account (pi_RacunPlatioceID m) accounts with
  | None => throw ErrAccountNotOwned
  | Some payer =>
      if decide (rp_Status payer = AKTIVAN) then
        of_result (check_funds payer (scan_iznos (pi_Iznos m))) ;;
        now ← time_now;
        move_money m t1 t2 accounts ;;
        sql (update_intent id (fun _ => true) (realize_intent (arg (creditAmount m)) now)) ;;
        sql (update_action actionID (fun _ => true) cancel_action) ;;
        let p := intentToDomain id m in
        mret (mkIntent id (p_IdempotencyKey p) (p_BrojNaloga p) (p_TipTransakcije p) (p_RacunPlatioceID p)
                (p_BrojRacunaPlatioca p) (p_ValutaOznaka p) (p_RacunPrimaocaID p) (p_BrojRacunaPrimaoca p)
                (p_NazivPrimaoca p) (p_Iznos p) (Some (creditAmount m)) (p_Provizija p) (p_Kurs p)
                (p_ValutaPrimaoca p) (p_SifraPlacanja p) (p_PozivNaBroj p) (p_SvrhaPlacanja p) REALIZOVANO
                (p_PendingActionID p) (p_InitiatedByUserID p) (p_CreatedAt p) (Some now) (Some now)
                (p_FailedReason p))
      else throw ErrAccountNotOwned
  end.

(** Steps 3 to 13, for an order that is neither executed nor refused. *)
Definition verify_pending (inp : VerifyPaymentInput) (m : paymentIntentModel) : M (result PaymentIntent) :=
  match pi_PendingActionID m with
  | None => throw ErrPaymentIntentNotFound
  | Some actionID =>
      row ← sql_read (own_action actionID (vp_UserID inp));
      match row with
      | None => throw ErrPendingNotFound
      | Some a =>
          if decide (pa_Status a = ACTION_CANCELLED) then throw ErrTooManyAttempts
          else if decide (pa_Status a = ACTION_APPROVED) then
            failure ← check_code inp actionID a;
            match failure with
            | Some er => mret (Err er)
            | None => p ← execute_intent (vp_IntentID inp) m actionID; mret (Ok p)
            end
          else throw ErrPendingNotFound
      end
  end.

Definition VerifyAndExecuteRow (inp : VerifyPaymentInput) : M PaymentIntent :=
  r ← Transaction (
    row ← sql_read (fun d => bd_payment_intent (d_bank d) !! vp_IntentID inp);
    match row with
    | None => throw ErrPaymentIntentNotFound
    | Some m =>
        if negb (pi_InitiatedByUserID m =? vp_UserID inp) then throw ErrPaymentIntentNotFound
        else match pi_Status m with
             | REALIZOVANO => mret (Ok (intentToDomain (vp_IntentID inp) m))
             | ODBIJENO => throw ErrPaymentAlreadyFailed
             | U_OBRADI => verify_pending inp m
             end
    end);
  of_result r.

(** ** Queries *)

Definition GetIntentByID (id userID : Z) : M PaymentIntent :=
  row ← sql_read (fun d => m ← bd_payment_intent (d_bank d) !! id;
                           if pi_InitiatedByUserID m =? userID then Some m else None);
  match row with Some m => mret (intentToDomain id m) | None => throw ErrPaymentIntentNotFound end.

Definition status_naloga_text (s : StatusNaloga) : string :=
  match s with U_OBRADI => "U_OBRADI" | REALIZOVANO => "REALIZOVANO" | ODBIJENO => "ODBIJENO" end.

Definition in_history (userID : Z) (f : PaymentHistoryFilter) (m : paymentIntentModel) : bool :=
  (pi_InitiatedByUserID m =? userID) &&
  (match hf_DateFrom f with Some t => t <=? pi_CreatedAt m | None => true end) &&
  (match hf_DateTo f with Some t => pi_CreatedAt m <=? t | None => true end) &&
  (match hf_MinIznos f with Some x => Qle_bool (arg x) (numeric_val 10000 (pi_Iznos m)) | None => true end) &&
  (match hf_MaxIznos f with Some x => Qle_bool (numeric_val 10000 (pi_Iznos m)) (arg x) | None => true end) &&
  (String.eqb (hf_Status f) EmptyString || String.eqb (status_naloga_text (pi_Status m)) (hf_Status f)).

Definition GetHistory (userID : Z) (f : PaymentHistoryFilter) : M (list PaymentIntent) :=
  sql_read (fun d =>
    (fun kv : Z * paymentIntentModel => intentToDomain kv.1 kv.2) <$>
      sort_by (fun kv => - pi_CreatedAt kv.2)
        (filter (fun kv => in_history userID f kv.2 = true) (map_to_list (bd_payment_intent (d_bank d))))).

(** ** The service *)

Definition check_recipient (naziv brojRacuna : string) : result unit :=
  if String.eqb naziv EmptyString then Err (ErrMsg "naziv primaoca ne sme biti prazan")
  else if (String.length brojRacuna <? 10)%nat || (18 <? String.length brojRacuna)%nat
  then Err (ErrMsg "broj racuna mora imati izmedju 10 i 18 cifara")
  else Ok tt.

Definition CreateRecipient (vlasnikID : Z) (naziv brojRacuna : string) : M PaymentRecipient :=
  of_result (check_recipient naziv brojRacuna) ;; RecipientCreate vlasnikID naziv brojRacuna.

Definition GetRecipients (vlasnikID : Z) : M (list PaymentRecipient) := RecipientGetByOwner vlasnikID.

Definition UpdateRecipient (id vlasnikID : Z) (naziv brojRacuna : string) : M PaymentRecipient :=
  of_result (check_recipient naziv brojRacuna) ;;
  r ← RecipientGetByID id vlasnikID;
  let r' := mkRecipient (pr_ID r) (pr_VlasnikID r) naziv brojRacuna (pr_CreatedAt r) (pr_UpdatedAt r) in
  RecipientUpdate r' ;;
  mret r'.

Definition DeleteRecipient (id vlasnikID : Z) : M unit := RecipientDelete id vlasnikID.

Definition is_digit (c : Ascii.ascii) : bool :=
  let n := Ascii.nat_of_ascii c in (48 <=? n)%nat && (n <=? 57)%nat.

(** Three digits, the first one a 2. *)
Definition validateSifraPlacanja (sifra : string) : result unit :=
  match sifra with
  | String a (String b (String c EmptyString)) =>
      if negb (is_digit a && is_digit b && is_digit c) then Err ErrInvalidPaymentCode
      else if negb (Ascii.eqb a (Ascii.ascii_of_nat 50)) then Err ErrInvalidPaymentCode
      else Ok tt
  | _ => Err ErrInvalidPaymentCode
  end.

Definition check_payment (inp : CreatePaymentIntentInput) : result unit :=
  match validateSifraPlacanja (cp_SifraPlacanja inp) with
  | Err er => Err er
  | Ok _ =>
      if String.eqb (cp_NazivPrimaoca inp) EmptyString then Err (ErrMsg "naziv primaoca ne sme biti prazan")
      else if String.eqb (cp_BrojRacunaPrimaoca inp) EmptyString
      then Err (ErrMsg "broj racuna primaoca ne sme biti prazan")
      else if f64_leb (cp_Iznos inp) f64_zero then Err (ErrMsg "iznos mora biti veci od 0")
      else if String.eqb (cp_IdempotencyKey inp) EmptyString then Err (ErrMsg "idempotency key ne sme biti prazan")
      else Ok tt
  end.

Definition CreatePaymentIntent (inp : CreatePaymentIntentInput) : M (PaymentIntent * Z) :=
  of_result (check_payment inp) ;; CreateIntent inp.

Definition check_transfer (inp : CreateTransferIntentInput) : result unit :=
  if f64_leb (ct_Iznos inp) f64_zero then Err (ErrMsg "iznos mora biti veci od 0")
  else if ct_RacunPlatioceID inp =? ct_RacunPrimaocaID inp then Err ErrSameAccount
  else if String.eqb (ct_IdempotencyKey inp) EmptyString then Err (ErrMsg "idempotency key ne sme biti prazan")
  else Ok tt.

Definition CreateTransfer (inp : CreateTransferIntentInput) : M (PaymentIntent * Z) :=
  of_result (check_transfer inp) ;; CreateTransferIntent inp.

Definition VerifyAndExecute (inp : VerifyPaymentInput) : M PaymentIntent :=
  if String.eqb (vp_Code inp) EmptyString then throw (ErrMsg "verifikacioni kod ne sme biti prazan")
  else VerifyAndExecuteRow inp.

(** ** The exchange office *)

(** The transfer that POST /exchange-rates/transfer asks for. *)
Definition ExchangeTransfer (userID : Z) (req : exchangeTransferRequest) : M (PaymentIntent * Z) :=
  if String.eqb (et_IdempotencyKey req) EmptyString then throw (ErrMsg "idempotencyKey je obavezan")
  else if f64_leb (et_Amount req) f64_zero then throw (ErrMsg "amount mora biti veci od 0")
  else if f64_leb (et_ConvertedAmount req) f64_zero then throw (ErrMsg "convertedAmount mora biti veci od 0")
  else if et_SourceAccountId req =? et_TargetAccountId req
  then throw (ErrMsg "izvorni i ciljni racun moraju biti razliciti")
  else
    CreateTransfer (mkCreateTransfer (et_IdempotencyKey req) (et_SourceAccountId req) (et_TargetAccountId req)
      (et_Amount req) (et_ConvertedAmount req)
      (if String.eqb (et_SvrhaPlacanja req) EmptyString then "Konverzija valuta" else et_SvrhaPlacanja req) userID).

End repository.
