(* ===== verification/PaymentFacts.v ===== *)
(** * What the verification of a payment did

    Inversion of the runs of [VerifyAndExecute]: either the code was refused and
    only the order and its action changed, or the order was executed and the tables
    are [executed_db]. *)

From S2P Require Import Prelude Numeric Domain Tables Store StoreFacts OrderRepo Market FundsManager.
From S2P Require Import FundsFacts FundsSafety FundsTransfers GoMath AccountRepo PaymentRepo.
From stdpp Require Import list sorting.
#[local] Open Scope Z_scope.

(** ** Statements *)

Lemma update_action_ok id g f e w n w' :
  sql (update_action id g f) e w = (Ok n, w') ->
  exists m, update_row id g f (bd_pending_action (d_bank (w_db w))) = Ok (n, m) /\
    w_db w' = set_pending_action m (w_db w).
Proof.
  intros H. apply sql_ok in H as (d & H & -> & _). unfold update_action in H.
  destruct (update_row _ _ _ _) as [[k m]|] eqn:E; [|discriminate]. injection H as <- <-. by exists m.
Qed.

Lemma update_intent_ok id g f e w n w' :
  sql (update_intent id g f) e w = (Ok n, w') ->
  exists m, update_row id g f (bd_payment_intent (d_bank (w_db w))) = Ok (n, m) /\
    w_db w' = set_payment_intent m (w_db w).
Proof.
  intros H. apply sql_ok in H as (d & H & -> & _). unfold update_intent in H.
  destruct (update_row _ _ _ _) as [[k m]|] eqn:E; [|discriminate]. injection H as <- <-. by exists m.
Qed.

(** An update guarded by the status of the account. *)
Definition on_active (h : racun -> racun) (r : racun) : racun := if active r then h r else r.

Lemma exec_active_ok f h id e w w' :
  (forall r r', f r = Some r' -> r' = h r) -> exec_active id f e w = (Ok tt, w') ->
  w_db w' = set_racun (alter (on_active h) id (d_racun (w_db w))) (w_db w).
Proof.
  intros Hf H. unfold exec_active in H. apply bind_ok in H as (n & w1 & H & H1). injection H1 as <-.
  apply sql_ok in H as (d & H & -> & _). cbn [w_db next_step set_db]. unfold update_racun in H.
  assert (Hid : d_racun (w_db w) = d_racun (w_db w)) by done.
  destruct (d_racun (w_db w) !! id) as [r|] eqn:Er.
  - assert (E : alter (on_active h) id (d_racun (w_db w)) = <[id := on_active h r]> (d_racun (w_db w))).
    { apply map_eq. intros i. destruct (decide (i = id)) as [->|];
        by rewrite ?lookup_insert_eq, ?lookup_alter_eq, ?Er, ?lookup_insert_ne, ?lookup_alter_ne. }
    rewrite E. unfold on_active. destruct (active r).
    + destruct (f r) as [r'|] eqn:Ef; [|discriminate]. injection H as _ <-. by rewrite (Hf _ _ Ef).
    + injection H as _ <-. rewrite insert_id by done. by destruct (w_db w).
  - injection H as _ <-. rewrite alter_id by (intros ? E; congruence). by destruct (w_db w).
Qed.

Lemma insert_ledger_ok opis id tip q e w w' :
  insert_ledger opis id tip q e w = (Ok tt, w') ->
  w_db w' = set_transakcija (d_transakcija (w_db w) ++ ledger [(id, tip, q)]) (w_db w).
Proof.
  unfold insert_ledger. intros (d & H & -> & _)%sql_ok. destruct (varchar 500 opis); [|discriminate].
  by apply insert_transakcija_eq in H.
Qed.

(** The payer after a debit of [q]. *)
Definition paid_out (q : Q) (r : racun) : racun :=
  with_info (with_potrosnja (to_cents (cents (ri_dnevna_potrosnja (r_info r)) + q))
                            (to_cents (cents (ri_mesecna_potrosnja (r_info r)) + q)) (r_info r)) (moved (- q) r).

Lemma debit_payer_eq q r r' : debit_payer q r = Some r' -> r' = paid_out q r.
Proof.
  unfold debit_payer. destruct (store_cents (cents (r_stanje_racuna r) - q)) as [s|] eqn:E1; [|discriminate]. cbn.
  destruct (store_cents (cents (ri_dnevna_potrosnja (r_info r)) + q)) as [d|] eqn:E2; [|discriminate]. cbn.
  destruct (store_cents (cents (ri_mesecna_potrosnja (r_info r)) + q)) as [m|] eqn:E3; [|discriminate]. cbn.
  intros [= <-]. apply store_cents_Some in E1 as ->, E2 as ->, E3 as ->. done.
Qed.

(** ** An executed order *)

Section executed.
Context `{DL : decimal.Lib} `{PT : pg.Text}.

(** The amount that leaves the payer and the one that reaches the recipient. *)
Definition debit_q (m : paymentIntentModel) : Q := arg (scan_iznos (pi_Iznos m)).
Definition credit_q (m : paymentIntentModel) : Q := arg (creditAmount m).

Definition accounts_after (m : paymentIntentModel) (t1 t2 : Z) (t : gmap Z racun) : gmap Z racun :=
  let s1 := alter (on_active (paid_out (debit_q m))) (pi_RacunPlatioceID m) t in
  let s2 := if isCrossCurrency m
            then alter (on_active (moved (- credit_q m))) t2 (alter (on_active (moved (debit_q m))) t1 s1) else s1 in
  match pi_RacunPrimaocaID m with
  | Some r => alter (on_active (moved (credit_q m))) r s2
  | None => s2
  end.

Definition ledger_after (m : paymentIntentModel) (t1 t2 : Z) (known : bool) : list transakcija :=
  ledger ([(pi_RacunPlatioceID m, ISPLATA, debit_q m)] ++
          (if isCrossCurrency m then [(t1, UPLATA, debit_q m); (t2, ISPLATA, credit_q m)] else []) ++
          match pi_RacunPrimaocaID m with
          | Some r => if known then [(r, UPLATA, credit_q m)] else []
          | None => []
          end).

(** Whether the recipient's account is still there. *)
Definition recipient_known (m : paymentIntentModel) (d : DB) : bool :=
  match pi_RacunPrimaocaID m with Some r => bool_decide (is_Some (d_racun d !! r)) | None => false end.

Definition cancelled (a : pendingActionModel) : pendingActionModel :=
  with_action ACTION_CANCELLED (pa_VerificationCode a) (pa_CodeExpiresAt a) (pa_Attempts a) a.

Definition realized (k now : Z) (m : paymentIntentModel) : paymentIntentModel :=
  with_intent REALIZOVANO (Some k) (Some now) (Some now) (pi_FailedReason m) m.

(** The tables after the order [id] was executed. *)
Definition executed_db (id : Z) (m : paymentIntentModel) (actionID k now t1 t2 : Z) (d : DB) : DB :=
  set_pending_action (alter cancelled actionID (bd_pending_action (d_bank d)))
    (set_payment_intent (alter (realized k now) id (bd_payment_intent (d_bank d)))
       (set_transakcija (d_transakcija d ++ ledger_after m t1 t2 (recipient_known m d))
          (set_racun (accounts_after m t1 t2 (d_racun d)) d))).

(** The treasury's accounts of a conversion. *)
Definition recipient_currency (m : paymentIntentModel) (d : DB) : string :=
  match d_racun d !! default 0 (pi_RacunPrimaocaID m) with Some r => r_oznaka r | None => EmptyString end.

Definition is_treasury (id : Z) (c : string) (d : DB) : Prop :=
  exists r, d_racun d !! id = Some r /\ r_id_vlasnika r = trezor_owner /\ r_status r = AKTIVAN /\ r_oznaka r = c.

Definition treasuries (m : paymentIntentModel) (t1 t2 : Z) (d : DB) : Prop :=
  is_treasury t1 (pi_Valuta m) d /\ is_treasury t2 (recipient_currency m d) d.

Lemma find_rows id l d :
  find_account id (omap (fun j => racun_for_payment j <$> d_racun d !! j) l) =
    if bool_decide (id ∈ l) then racun_for_payment id <$> d_racun d !! id else None.
Proof.
  induction l as [|j l IH]; [done|]. unfold find_account in *. cbn [omap list_omap].
  destruct (decide (j = id)) as [->|Hne].
  - rewrite bool_decide_eq_true_2 by left. destruct (d_racun d !! id) as [r|]; cbn.
    + by rewrite Z.eqb_refl.
    + rewrite IH. by destruct (bool_decide _).
  - replace (bool_decide (id ∈ j :: l)) with (bool_decide (id ∈ l))
      by (apply bool_decide_ext; rewrite elem_of_cons; split; [by right|intros [?|?]; congruence]).
    destruct (d_racun d !! j); cbn; [|done]. by rewrite (proj2 (Z.eqb_neq j id)).
Qed.

Lemma find_locked id ids d :
  id ∈ ids -> find_account id (locked ids d) = racun_for_payment id <$> d_racun d !! id.
Proof.
  intros Hin. unfold locked. rewrite find_rows, bool_decide_eq_true_2; [done|]. by rewrite merge_sort_Permutation.
Qed.

Lemma pick_in k l : pick k l <> 0 -> pick k l ∈ l.
Proof.
  destruct l as [|x l]; [done|]. intros _. unfold pick. apply list_elem_of_In, nth_In, Nat.mod_upper_bound. done.
Qed.

Lemma racun_ids_active owner c d id :
  id ∈ racun_ids owner c d ->
  exists r, d_racun d !! id = Some r /\ r_id_vlasnika r = owner /\ r_status r = AKTIVAN /\ r_oznaka r = c.
Proof.
  unfold racun_ids. rewrite merge_sort_Permutation. intros ([i r] & -> & H)%list_elem_of_fmap.
  apply list_elem_of_filter in H as [(Ho & Hc & Hs) Hr]. apply elem_of_map_to_list in Hr. by exists r.
Qed.

Lemma trezor_pair_ok valuta primalac e w t1 t2 w' :
  trezor_pair valuta primalac e w = (Ok (t1, t2), w') ->
  w_db w' = w_db w /\ t1 <> 0 /\ t2 <> 0 /\
  let cur := match d_racun (w_db w) !! primalac with Some r => r_oznaka r | None => EmptyString end in
  t1 ∈ racun_ids trezor_owner valuta (w_db w) /\ t2 ∈ racun_ids trezor_owner cur (w_db w).
Proof.
  unfold trezor_pair. intros H. apply bind_ok in H as (cur & w1 & H1 & H). apply sql_read_ok in H1 as [-> E1].
  apply bind_ok in H as (rows & w2 & H2 & H). apply sql_read_ok in H2 as [-> E2].
  apply bind_ok in H as (k1 & w3 & [= <- <-] & H). apply bind_ok in H as (k2 & w4 & [= <- <-] & H).
  rewrite E1 in H. cbn [fst snd] in H. destruct (orb _ _) eqn:Eo; [discriminate|]. injection H as <- <- <-.
  apply orb_false_elim in Eo as [N1%Z.eqb_neq N2%Z.eqb_neq]. split; [cbn; congruence|]. split; [done|]. split; [done|].
  cbv zeta. split; [by apply pick_in|]. revert N2. case_match eqn:Ec; [|by apply pick_in].
  apply String.eqb_eq in Ec as <-. by apply pick_in.
Qed.

Lemma move_money_ok m t1 t2 accounts d0 e w w' :
  move_money m t1 t2 accounts e w = (Ok tt, w') -> w_db w = d0 ->
  (forall r, pi_RacunPrimaocaID m = Some r -> find_account r accounts = racun_for_payment r <$> d_racun d0 !! r) ->
  w_db w' = set_transakcija (d_transakcija d0 ++ ledger_after m t1 t2 (recipient_known m d0))
              (set_racun (accounts_after m t1 t2 (d_racun d0)) d0).
Proof.
  unfold move_money. intros H E0 Hfind. fold (debit_q m) in H.
  apply bind_ok in H as ([] & w1 & H1 & H). apply (exec_active_ok _ _ _ _ _ _ (debit_payer_eq _)) in H1.
  apply bind_ok in H as ([] & w2 & H2 & H). apply insert_ledger_ok in H2. rewrite H1, E0 in H2. cbn in H2.
  apply bind_ok in H as ([] & w3 & H3 & H).
  assert (E3 : w_db w3 = set_transakcija (d_transakcija d0 ++ ledger [(pi_RacunPlatioceID m, ISPLATA, debit_q m)] ++
                  ledger (if isCrossCurrency m then [(t1, UPLATA, debit_q m); (t2, ISPLATA, credit_q m)] else []))
                (set_racun (if isCrossCurrency m
                   then alter (on_active (moved (- credit_q m))) t2 (alter (on_active (moved (debit_q m))) t1
                          (alter (on_active (paid_out (debit_q m))) (pi_RacunPlatioceID m) (d_racun d0)))
                   else alter (on_active (paid_out (debit_q m))) (pi_RacunPlatioceID m) (d_racun d0)) d0)).
  { destruct (isCrossCurrency m); [|injection H3 as <-; rewrite H2; change (ledger []) with (@nil transakcija); by rewrite app_nil_r].
    unfold through_treasury in H3. fold (debit_q m) (credit_q m) in H3. cbv zeta in H3.
    apply bind_ok in H3 as ([] & v1 & G1 & H3). apply (exec_active_ok _ (moved (debit_q m))) in G1; [|intros ? ? Hr; by apply add_stanje_eq in Hr].
    apply bind_ok in H3 as ([] & v2 & G2 & H3). apply insert_ledger_ok in G2.
    apply bind_ok in H3 as ([] & v3 & G3 & H3). apply (exec_active_ok _ (moved (- credit_q m))) in G3;
      [|intros ? ? Hr; apply sub_stanje_eq in Hr; by rewrite Hr, sub_moved].
    apply insert_ledger_ok in H3. rewrite H3, G3, G2, G1, H2.
    cbn [d_racun d_transakcija set_racun set_transakcija]. rewrite <- !app_assoc. reflexivity. }
  unfold accounts_after, ledger_after, recipient_known.
  destruct (pi_RacunPrimaocaID m) as [r|] eqn:Ep; cycle 1.
  { injection H as <-. rewrite E3. f_equal. unfold ledger. by rewrite !fmap_app, app_nil_r. }
  rewrite (Hfind r eq_refl) in H. destruct (d_racun d0 !! r) as [x|] eqn:Ex; cbn [fmap option_fmap option_map] in H.
  - unfold credit_recipient in H. fold (credit_q m) in H. cbv zeta in H.
    apply bind_ok in H as ([] & v1 & G1 & H). apply (exec_active_ok _ (moved (credit_q m))) in G1; [|intros ? ? Hr; by apply add_stanje_eq in Hr].
    apply insert_ledger_ok in H. rewrite H, G1, E3, bool_decide_eq_true_2 by done.
    cbn [d_racun d_transakcija set_racun set_transakcija]. unfold ledger. rewrite !fmap_app, <- !app_assoc. reflexivity.
  - injection H as <-. rewrite E3, bool_decide_eq_false_2 by (by intros [? ?]).
    unfold ledger. rewrite !fmap_app, app_nil_r. f_equal. f_equal. symmetry. apply alter_id.
    intros y Hy. exfalso.
    assert (Hn : forall h i (t : gmap Z racun), t !! r = None -> alter h i t !! r = None)
      by (intros h i t Ht; apply lookup_alter_None; by destruct (decide (i = r)) as [->|]).
    destruct (isCrossCurrency m); rewrite ?Hn in Hy; try done; by repeat apply Hn.
Qed.
End executed.

(** ** A refused code *)

(** A statement whose error is dropped, in a transaction that is healthy after it. *)
Lemma dropped_sql {A B} (f : DB -> result (A * DB)) (k : result A -> M B) e w r w' :
  (x ← try (sql f); k x) e w = (r, w') -> w_depth w <> O ->
  exists r0 w1, k r0 e w1 = (r, w') /\ w_depth w1 = w_depth w /\
    (w_aborted w1 = false -> w_aborted w = false /\ exists a, f (w_db w) = Ok (a, w_db w1)).
Proof.
  intros H Hd. apply try_bind in H as (r0 & w1 & H1 & H). exists r0, w1. split; [done|].
  unfold sql in H1. destruct (w_aborted w) eqn:Ea.
  { injection H1 as <- <-. cbn. split; [done|]. intros E. congruence. }
  destruct (env_fault e (w_step w)).
  { injection H1 as <- <-. cbn. destruct (w_depth w); done. }
  destruct (f (w_db w)) as [[a d]|er] eqn:Ef; injection H1 as <- <-; cbn.
  - split; [done|]. intros _. split; [done|]. by exists a.
  - split; [done|]. by destruct (w_depth w).
Qed.

Definition money (d : DB) : gmap Z racun * list transakcija := (d_racun d, d_transakcija d).

Section refused.
Context `{DL : decimal.Lib} `{PT : pg.Text}.

Definition counted (a0 a : pendingActionModel) : pendingActionModel :=
  with_action (if 3 <=? pa_Attempts a0 + 1 then ACTION_CANCELLED else pa_Status a) (pa_VerificationCode a)
    (pa_CodeExpiresAt a) (pa_Attempts a0 + 1) a.

Definition refused (reason : string) (m : paymentIntentModel) : paymentIntentModel :=
  with_intent ODBIJENO (pi_KrajnjiIznos m) (pi_VerifiedAt m) (pi_ExecutedAt m) reason m.

(** What a refusal leaves: an expired code ends the order, a wrong one counts, and
    the third wrong one ends the order too. *)
Definition refused_db (id actionID : Z) (a : pendingActionModel) (expired : bool) (d : DB) : DB :=
  let actions := bd_pending_action (d_bank d) in
  let intents := bd_payment_intent (d_bank d) in
  if expired then
    set_payment_intent (alter (refused "Verifikacioni kod je istekao") id intents)
      (set_pending_action (alter cancelled actionID actions) d)
  else if 3 <=? pa_Attempts a + 1 then
    set_pending_action (alter (counted a) actionID actions)
      (set_payment_intent (alter (refused "Previse neuspesnih pokusaja") id intents) d)
  else set_pending_action (alter (counted a) actionID actions) d.

Definition refusal (a : pendingActionModel) (expired : bool) : error :=
  if expired then ErrCodeExpired else if 3 <=? pa_Attempts a + 1 then ErrTooManyAttempts else ErrWrongCode.

Lemma update_action_eq id (h : pendingActionModel -> pendingActionModel) f d n d' :
  (forall a a', f a = Some a' -> a' = h a) -> update_action id (fun _ => true) f d = Ok (n, d') ->
  d' = set_pending_action (alter h id (bd_pending_action (d_bank d))) d.
Proof.
  intros Hf. unfold update_action. destruct (update_row _ _ _ _) as [[k m]|] eqn:E; [|discriminate].
  intros [= _ <-]. by rewrite (update_row_alter _ _ h _ _ _ Hf E).
Qed.

Lemma update_intent_eq id (h : paymentIntentModel -> paymentIntentModel) f d n d' :
  (forall a a', f a = Some a' -> a' = h a) -> update_intent id (fun _ => true) f d = Ok (n, d') ->
  d' = set_payment_intent (alter h id (bd_payment_intent (d_bank d))) d.
Proof.
  intros Hf. unfold update_intent. destruct (update_row _ _ _ _) as [[k m]|] eqn:E; [|discriminate].
  intros [= _ <-]. by rewrite (update_row_alter _ _ h _ _ _ Hf E).
Qed.

Lemma cancel_action_eq a a' : cancel_action a = Some a' -> a' = cancelled a.
Proof. by intros [= <-]. Qed.

Lemma count_attempt_eq a0 a a' : count_attempt (pa_Attempts a0) a = Some a' -> a' = counted a0 a.
Proof. unfold count_attempt, store_int. case_decide; [|discriminate]. by intros [= <-]. Qed.

Lemma code_expired_ok a e w b w' :
  code_expired a e w = (Ok b, w') ->
  w_db w' = w_db w /\ w_depth w' = w_depth w /\ w_aborted w' = w_aborted w /\
  (b = false -> exists t n, pa_CodeExpiresAt a = Some t /\ env_now e n <= t).
Proof.
  unfold code_expired. destruct (pa_CodeExpiresAt a) as [t|]; [|by intros [= <- <-]].
  intros [= <- <-]. cbn. split_and!; [done..|]. intros Hb%Z.ltb_ge. by exists t, (w_step w).
Qed.

(** The code is right and in time, or the refusal is written. *)
Lemma check_code_cases inp actionID a e w r w' :
  check_code inp actionID a e w = (r, w') -> w_depth w <> O ->
  (r = Ok None /\ w_db w' = w_db w /\ pa_VerificationCode a = Some (vp_Code inp) /\
     exists t n, pa_CodeExpiresAt a = Some t /\ env_now e n <= t) \/
  (exists b, r = Ok (Some (refusal a b)) /\ (b = false -> pa_VerificationCode a <> Some (vp_Code inp)) /\
     (w_aborted w' = false -> w_db w' = refused_db (vp_IntentID inp) actionID a b (w_db w))).
Proof.
  unfold check_code. intros H Hd. apply bind_cases in H as [(b & w1 & H1 & H)|(er & _ & H)].
  2:{ unfold code_expired in H. by destruct (pa_CodeExpiresAt a). }
  apply code_expired_ok in H1 as (E1 & D1 & A1 & Hb). rewrite <- D1 in Hd. rewrite <- E1. destruct b.
  - right. exists true. apply dropped_sql in H as (r1 & w2 & H & D2 & K2); [|done].
    apply dropped_sql in H as (r2 & w3 & H & D3 & K3); [|congruence]. injection H as <- <-.
    split; [done|]. split; [done|]. intros Ha. destruct (K3 Ha) as (Ha2 & n2 & E3). destruct (K2 Ha2) as (_ & n1 & E2).
    apply (update_action_eq _ cancelled _ _ _ _ cancel_action_eq) in E2.
    apply (update_intent_eq _ (refused "Verifikacioni kod je istekao")) in E3; [|by intros ? ? [= <-]].
    rewrite E3, E2. reflexivity.
  - destruct (code_matches (vp_Code inp) a) eqn:Ec; cbn [negb] in H.
    + left. injection H as <- <-. split_and!; [done|done| |by apply Hb]. unfold code_matches in Ec.
      destruct (pa_VerificationCode a) as [c|]; [|done]. apply String.eqb_eq in Ec. by subst.
    + right. exists false. unfold refusal, refused_db.
      assert (Hne : pa_VerificationCode a <> Some (vp_Code inp)).
      { intros E. unfold code_matches in Ec. rewrite E, String.eqb_refl in Ec. done. }
      destruct (3 <=? pa_Attempts a + 1) eqn:E3a.
      * rewrite bind_assoc in H. apply dropped_sql in H as (r1 & w2 & H & D2 & K2); [|done].
        change (mret tt ≫= ?k) with (k tt) in H. cbv beta in H.
        apply dropped_sql in H as (r2 & w3 & H & D3 & K3); [|congruence]. injection H as <- <-.
        split; [done|]. split; [done|]. intros Ha. destruct (K3 Ha) as (Ha2 & n2 & E3). destruct (K2 Ha2) as (_ & n1 & E2).
        apply (update_intent_eq _ (refused "Previse neuspesnih pokusaja")) in E2; [|by intros ? ? [= <-]].
        apply (update_action_eq _ (counted a)) in E3; [|apply count_attempt_eq]. rewrite E3, E2. reflexivity.
      * change (mret tt ≫= ?k) with (k tt) in H. cbv beta in H.
        apply dropped_sql in H as (r2 & w3 & H & D3 & K3); [|congruence]. injection H as <- <-.
        split; [done|]. split; [done|]. intros Ha. destruct (K3 Ha) as (Ha2 & n2 & E3).
        apply (update_action_eq _ (counted a)) in E3; [|apply count_attempt_eq]. rewrite E3. reflexivity.
Qed.
End refused.
