(* ===== verification/PaymentRuns.v ===== *)
(** * Every run of the verification of a payment

    [verified]: what [VerifyAndExecute] can have done.  The order was answered
    again, refused, or executed; an error left the tables as they were. *)

From stdpp Require Import list sorting.
From stdpp Require Import list.
From S2P Require Import Prelude Numeric Domain Tables Store StoreFacts OrderRepo Market FundsManager.
From S2P Require Import FundsFacts FundsSafety FundsTransfers GoMath AccountRepo PaymentRepo PaymentFacts.
#[local] Open Scope Z_scope.

(** A transaction that commits was healthy. *)
Lemma Transaction_commit {A} (m : M A) e w a w' :
  Transaction m e w = (Ok a, w') -> w_depth w = O ->
  exists w1, m e (begin_tx w) = (Ok a, w1) /\ w_db w' = w_db w1 /\ w_aborted w1 = false /\ w_aborted w = false.
Proof.
  unfold Transaction. intros H Hd. destruct (w_aborted w) eqn:Ea; cbn [orb] in H; [discriminate|].
  destruct (env_fault e (w_step w)); [discriminate|].
  destruct (m e (begin_tx w)) as [[x|er] w1]; [|discriminate]. rewrite Hd in H.
  destruct (w_aborted w1) eqn:E1; cbn [orb] in H; [discriminate|].
  destruct (env_fault e (w_step w1)); [discriminate|]. injection H as <- <-. exists w1. done.
Qed.

Section runs.
Context `{DL : decimal.Lib} `{PT : pg.Text}.

(** What the client is answered when the order is executed. *)
Definition executed_answer (id : Z) (m : paymentIntentModel) (now : Z) : PaymentIntent :=
  let p := intentToDomain id m in
  mkIntent id (p_IdempotencyKey p) (p_BrojNaloga p) (p_TipTransakcije p) (p_RacunPlatioceID p)
    (p_BrojRacunaPlatioca p) (p_ValutaOznaka p) (p_RacunPrimaocaID p) (p_BrojRacunaPrimaoca p)
    (p_NazivPrimaoca p) (p_Iznos p) (Some (creditAmount m)) (p_Provizija p) (p_Kurs p)
    (p_ValutaPrimaoca p) (p_SifraPlacanja p) (p_PozivNaBroj p) (p_SvrhaPlacanja p) REALIZOVANO
    (p_PendingActionID p) (p_InitiatedByUserID p) (p_CreatedAt p) (Some now) (Some now) (p_FailedReason p).

(** An order [id] for which the money can move: an active payer with enough free
    money and within the limits, and the treasury's accounts for a conversion. *)
Record executable (m : paymentIntentModel) (t1 t2 : Z) (payer : racun) (d : DB) : Prop := {
  ex_payer : d_racun d !! pi_RacunPlatioceID m = Some payer;
  ex_active : r_status payer = AKTIVAN;
  ex_funds : check_funds (racun_for_payment (pi_RacunPlatioceID m) payer) (scan_iznos (pi_Iznos m)) = Ok tt;
  ex_treasuries : isCrossCurrency m = true -> treasuries m t1 t2 d
}.

Lemma account_ids_payer m t1 t2 : pi_RacunPlatioceID m ∈ account_ids m t1 t2.
Proof. unfold account_ids. by left. Qed.

Lemma account_ids_recipient m t1 t2 r : pi_RacunPrimaocaID m = Some r -> r ∈ account_ids m t1 t2.
Proof. unfold account_ids. intros ->. by right; left. Qed.

(** The treasury's accounts are found before anything is locked. *)
Lemma treasury_step m e w t1 t2 w' :
  (if isCrossCurrency m then trezor_pair (pi_Valuta m) (default 0 (pi_RacunPrimaocaID m)) else mret (0, 0)) e w
    = (Ok (t1, t2), w') ->
  w_db w' = w_db w /\ (isCrossCurrency m = true -> treasuries m t1 t2 (w_db w)).
Proof.
  destruct (isCrossCurrency m) eqn:Ec; [|by intros [= _ _ <-]].
  intros (E & N1 & N2 & I1 & I2)%trezor_pair_ok. split; [done|]. intros _.
  by apply racun_ids_active in I1, I2.
Qed.

Lemma execute_intent_ok id m actionID e w p w' :
  execute_intent id m actionID e w = (Ok p, w') -> bd_payment_intent (d_bank (w_db w)) !! id = Some m ->
  exists t1 t2 payer k now, executable m t1 t2 payer (w_db w) /\ store_iznos (credit_q m) = Some k /\
    p = executed_answer id m now /\ w_db w' = executed_db id m actionID k now t1 t2 (w_db w).
Proof.
  unfold execute_intent. intros H Hm. apply bind_ok in H as ([t1 t2] & w1 & H1 & H).
  apply treasury_step in H1 as [E1 Ht]. apply bind_ok in H as (accounts & w2 & H2 & H).
  apply sql_read_ok in H2 as [-> E2]. rewrite E1 in H, E2.
  rewrite find_locked in H by apply account_ids_payer.
  destruct (d_racun (w_db w) !! pi_RacunPlatioceID m) as [payer|] eqn:Ep; [|discriminate]. cbn [fmap option_fmap option_map] in H.
  case_decide as Hs; [|discriminate]. apply bind_ok in H as ([] & w3 & H3 & H).
  destruct (check_funds _ _) as [[]|] eqn:Ef; [|discriminate]. injection H3 as <-.
  apply bind_ok in H as (now & w4 & H4 & H). apply time_now_ok in H4. rewrite E2 in H4.
  apply bind_ok in H as ([] & w5 & H5 & H).
  eapply move_money_ok in H5; [|exact H4|intros r Hr; apply find_locked; by eapply account_ids_recipient].
  apply bind_ok in H as (n1 & w6 & H6 & H). apply sql_ok in H6 as (d6 & H6 & -> & _).
  apply bind_ok in H as (n2 & w7 & H7 & H). apply sql_ok in H7 as (d7 & H7 & -> & _). injection H as <- <-.
  rewrite H5 in H6. destruct (store_iznos (credit_q m)) as [k|] eqn:Ek.
  - exists t1, t2, payer, k, now. split; [by split|]. split; [done|]. split; [done|].
    apply (update_intent_eq _ (realized k now)) in H6; cycle 1.
    { intros a a'. unfold realize_intent. fold (credit_q m). rewrite Ek. by intros [= <-]. }
    apply (update_action_eq _ cancelled _ _ _ _ cancel_action_eq) in H7.
    cbn [w_db next_step set_db]. rewrite H7. cbn [w_db next_step set_db]. rewrite H6. reflexivity.
  - exfalso. unfold update_intent, update_row in H6. cbn in H6. rewrite Hm in H6.
    unfold realize_intent in H6. fold (credit_q m) in H6. by rewrite Ek in H6.
Qed.

(** ** The whole operation *)

(** The order is pending, belongs to the user, and its action is approved. *)
Record pending_order (inp : VerifyPaymentInput) (m : paymentIntentModel) (actionID : Z) (a : pendingActionModel)
    (d : DB) : Prop := {
  po_intent : bd_payment_intent (d_bank d) !! vp_IntentID inp = Some m;
  po_user : pi_InitiatedByUserID m = vp_UserID inp;
  po_status : pi_Status m = U_OBRADI;
  po_action : pi_PendingActionID m = Some actionID;
  po_row : own_action actionID (vp_UserID inp) d = Some a;
  po_approved : pa_Status a = ACTION_APPROVED
}.

(** The code of the action, not yet expired. *)
Definition right_code (inp : VerifyPaymentInput) (a : pendingActionModel) (e : Env) : Prop :=
  pa_VerificationCode a = Some (vp_Code inp) /\ exists t n, pa_CodeExpiresAt a = Some t /\ env_now e n <= t.

(** What a run can have done. *)
Inductive verified (inp : VerifyPaymentInput) (e : Env) (d : DB) : result PaymentIntent -> DB -> Prop :=
  | verified_error er : verified inp e d (Err er) d
  | verified_again m :
      bd_payment_intent (d_bank d) !! vp_IntentID inp = Some m -> pi_InitiatedByUserID m = vp_UserID inp ->
      pi_Status m = REALIZOVANO -> verified inp e d (Ok (intentToDomain (vp_IntentID inp) m)) d
  | verified_refused m actionID a expired :
      pending_order inp m actionID a d -> (expired = false -> pa_VerificationCode a <> Some (vp_Code inp)) ->
      verified inp e d (Err (refusal a expired)) (refused_db (vp_IntentID inp) actionID a expired d)
  | verified_executed m actionID a t1 t2 payer k now :
      pending_order inp m actionID a d -> right_code inp a e -> executable m t1 t2 payer d ->
      store_iznos (credit_q m) = Some k ->
      verified inp e d (Ok (executed_answer (vp_IntentID inp) m now))
        (executed_db (vp_IntentID inp) m actionID k now t1 t2 d).

Lemma verify_pending_ok inp m e w r w' :
  verify_pending inp m e w = (Ok r, w') -> w_depth w <> O -> w_aborted w' = false ->
  bd_payment_intent (d_bank (w_db w)) !! vp_IntentID inp = Some m -> pi_InitiatedByUserID m = vp_UserID inp ->
  pi_Status m = U_OBRADI -> verified inp e (w_db w) r (w_db w').
Proof.
  unfold verify_pending. intros H Hd Ha Hm Hu Hs. destruct (pi_PendingActionID m) as [actionID|] eqn:Eid; [|discriminate].
  apply bind_ok in H as (row & w1 & H1 & H). pose proof (sql_ok _ _ _ _ _ H1) as (d1 & _ & Ew & _).
  apply sql_read_ok in H1 as [-> E1]. assert (Hd1 : w_depth w1 <> O) by (rewrite Ew; done).
  destruct (own_action _ _ _) as [a|] eqn:Ea; [|discriminate].
  case_decide as Hc; [discriminate|]. case_decide as Hap; [|discriminate].
  assert (Hpo : pending_order inp m actionID a (w_db w)) by (by split).
  apply bind_ok in H as (failure & w2 & H2 & H).
  destruct (check_code_cases _ _ _ _ _ _ _ H2 Hd1) as [([= ->] & E2 & Hcode & Hexp)|(b & [= ->] & Hne & Hdb)].
  - apply bind_ok in H as (p & w3 & H3 & H). injection H as <- <-.
    apply execute_intent_ok in H3 as (t1 & t2 & payer & k & now & Hex & Hk & -> & E3);
      [|by rewrite E2, E1]. rewrite E2, E1 in Hex, E3. rewrite E3. by eapply verified_executed.
  - injection H as <- <-. rewrite Hdb, E1 by done. by eapply verified_refused.
Qed.

Lemma verify_cases inp e w r w' :
  VerifyAndExecuteRow inp e w = (r, w') -> w_depth w = O -> verified inp e (w_db w) r (w_db w').
Proof.
  unfold VerifyAndExecuteRow. intros H Hd.
  apply bind_cases in H as [(x & w1 & H1 & H)|(er & -> & H)].
  2:{ rewrite (Transaction_err _ _ _ _ _ H). apply verified_error. }
  apply (Transaction_commit _ _ _ _ _) in H1 as (w2 & H1 & E1 & Ha & _); [|done].
  assert (Hx : (r, w') = (x, w1)) by (by destruct x; injection H as <- <-). injection Hx as -> ->.
  rewrite E1. clear H E1. apply bind_ok in H1 as (row & w3 & H3 & H).
  pose proof (sql_ok _ _ _ _ _ H3) as (d3 & _ & Ew & _). apply sql_read_ok in H3 as [-> E3].
  assert (Hd3 : w_depth w3 <> O) by (rewrite Ew; done). cbn [w_db begin_tx] in H, E3.
  destruct (bd_payment_intent _ !! _) as [m|] eqn:Em; [|discriminate].
  destruct (Z.eqb_spec (pi_InitiatedByUserID m) (vp_UserID inp)) as [Hu|]; [|discriminate]. cbn [negb] in H.
  destruct (pi_Status m) eqn:Es; [| |discriminate].
  - rewrite <- E3. eapply verify_pending_ok; try done. by rewrite E3.
  - injection H as <- <-. rewrite E3. by apply verified_again.
Qed.

End runs.

(** ** An executed payment moves money and makes none

    Balances are cents, the amounts of an order ten-thousandths: an amount that is
    not half a cent moves every balance by the same number of cents. *)

(** [q] is [z] ten-thousandths, not a half cent away from a cent. *)
Definition whole (q : Q) (z : Z) : Prop := (q == units z)%Q /\ z mod 100 <> 50.

Lemma whole_moves q z s : whole q z -> to_cents (cents s + q) = s + to_cents q.
Proof. intros [E H]. rewrite E. by apply to_cents_move. Qed.

Lemma whole_opp q z : whole q z -> whole (- q) (- z).
Proof. intros [E H]. split; [rewrite E; apply units_opp|by apply half_opp]. Qed.

Lemma whole_opp_cents q z : whole q z -> to_cents (- q) = - to_cents q.
Proof.
  intros H. pose proof (whole_moves _ _ 0 (whole_opp _ _ H)) as E.
  pose proof (to_cents_move_opp z 0 ltac:(apply H)) as F. destruct H as [H _]. rewrite H in E |- *. unfold Qminus in F. lia.
Qed.

(** What an active account in a currency is moved by. *)
Definition counts (o : string) (r : option racun) : bool :=
  match r with Some r => active r && String.eqb (r_oznaka r) o | None => false end.

Definition owed (o : string) (c : Z) (r : option racun) : Z := if counts o r then c else 0.

(** An alteration of one account by [c] cents. *)
Lemma total_alter o h c id (t : gmap Z racun) :
  (forall r, active r = true -> r_oznaka (h r) = r_oznaka r /\ r_stanje_racuna (h r) = r_stanje_racuna r + c) ->
  total o (alter (on_active h) id t) = total o t + owed o c (t !! id).
Proof.
  intros Hh. unfold total, owed, counts. destruct (t !! id) as [r|] eqn:Er.
  - rewrite (msum_alter _ _ _ r) by done. unfold on_active. destruct (active r) eqn:Ea; cbn [andb]; [|lia].
    destruct (Hh r Ea) as [-> ->]. destruct (String.eqb _ _); lia.
  - rewrite alter_id by (intros ? E; congruence). lia.
Qed.

(** Who an account belongs to and whether it is active stays. *)
Lemma counts_alter o h id j (t : gmap Z racun) :
  (forall r, active (h r) = active r /\ r_oznaka (h r) = r_oznaka r) ->
  counts o (alter (on_active h) id t !! j) = counts o (t !! j).
Proof.
  intros Hh. destruct (decide (id = j)) as [->|]; [|by rewrite lookup_alter_ne].
  rewrite lookup_alter_eq. destruct (t !! j) as [r|]; [|done]. cbn. unfold on_active.
  destruct (active r) eqn:Ea; [|by rewrite Ea]. destruct (Hh r) as [E1 E2]. by rewrite E1, E2, Ea.
Qed.

Lemma moved_keeps q r : active (moved q r) = active r /\ r_oznaka (moved q r) = r_oznaka r.
Proof. done. Qed.

Lemma paid_out_keeps q r : active (paid_out q r) = active r /\ r_oznaka (paid_out q r) = r_oznaka r.
Proof. done. Qed.

Lemma total_moved o q z id t :
  whole q z -> total o (alter (on_active (moved q)) id t) = total o t + owed o (to_cents q) (t !! id).
Proof. intros Hq. apply total_alter. intros r _. split; [done|]. cbn. by apply (whole_moves q z). Qed.

Lemma total_paid o q z id t :
  whole q z -> total o (alter (on_active (paid_out q)) id t) = total o t - owed o (to_cents q) (t !! id).
Proof.
  intros Hq. rewrite (total_alter o _ (- to_cents q)).
  - unfold owed. destruct (counts o (t !! id)); lia.
  - intros r _. split; [done|]. cbn. rewrite (whole_moves _ _ _ (whole_opp _ _ Hq)).
    by rewrite (whole_opp_cents _ _ Hq).
Qed.

Section money.
Context `{DL : decimal.Lib} `{PT : pg.Text}.

(** The order's amounts survive the driver and are no half cents. *)
Definition exact_order (m : paymentIntentModel) : Prop :=
  whole (debit_q m) (pi_Iznos m) /\ exists z, whole (credit_q m) z.

(** What the bank pays out to accounts that are not its own, or to accounts that
    take no money: the only money that leaves the tables. *)
Definition paid_outside (o : string) (m : paymentIntentModel) (d : DB) : Z :=
  let to := match pi_RacunPrimaocaID m with Some r => d_racun d !! r | None => None end in
  let cur := if isCrossCurrency m then recipient_currency m d else pi_Valuta m in
  if String.eqb cur o && negb (counts o to) then to_cents (if isCrossCurrency m then credit_q m else debit_q m) else 0.

Lemma accounts_after_total o m t1 t2 payer d :
  executable m t1 t2 payer d -> exact_order m -> r_oznaka payer = pi_Valuta m ->
  (isCrossCurrency m = false -> forall r, pi_RacunPrimaocaID m = Some r -> recipient_currency m d = pi_Valuta m) ->
  total o (accounts_after m t1 t2 (d_racun d)) = total o (d_racun d) - paid_outside o m d.
Proof.
  intros [Hp Hs _ Ht] [Hq [z Hc]] Hv Hsame. unfold accounts_after, paid_outside.
  assert (Hcp : counts o (d_racun d !! pi_RacunPlatioceID m) = String.eqb (pi_Valuta m) o).
  { rewrite Hp. unfold counts, active. by rewrite Hs, bool_decide_eq_true_2, Hv. }
  assert (Htr : forall t c, is_treasury t c d -> counts o (d_racun d !! t) = String.eqb c o).
  { intros t c (r & Hr & _ & Ha & <-). rewrite Hr. unfold counts, active. by rewrite Ha, bool_decide_eq_true_2. }
  destruct (isCrossCurrency m) eqn:Ec.
  - destruct (Ht eq_refl) as [T1%Htr T2%Htr]. destruct (pi_RacunPrimaocaID m) as [r|] eqn:Er;
      [|by unfold isCrossCurrency in Ec; rewrite Er in Ec].
    rewrite (total_moved _ _ _ _ _ Hc), (total_moved _ _ _ _ _ (whole_opp _ _ Hc)), (total_moved _ _ _ _ _ Hq),
      (total_paid _ _ _ _ _ Hq). unfold owed.
    rewrite !counts_alter by (apply moved_keeps || apply paid_out_keeps).
    rewrite Hcp, T1, T2, (whole_opp_cents _ _ Hc). unfold recipient_currency in *. rewrite Er in *. cbn [default] in *. unfold id in *.
    destruct (d_racun d !! r) as [x|]; cbn [counts];
      repeat (destruct (String.eqb _ _)); cbn [andb negb]; try destruct (active x); cbn [andb negb]; lia.
  - assert (Ecr : pi_RacunPrimaocaID m <> None -> credit_q m = debit_q m).
    { unfold credit_q, debit_q, creditAmount. intros Hr. unfold isCrossCurrency in Ec.
      destruct (pi_RacunPrimaocaID m); [|done]. by destruct (converted_amount m). }
    destruct (pi_RacunPrimaocaID m) as [r|] eqn:Er.
    + rewrite Ecr by done. rewrite (total_moved _ _ _ _ _ Hq), (total_paid _ _ _ _ _ Hq). unfold owed.
      rewrite !counts_alter by (apply paid_out_keeps). rewrite Hcp.
      specialize (Hsame eq_refl r eq_refl). unfold recipient_currency in Hsame. rewrite Er in Hsame. cbn in Hsame.
      destruct (d_racun d !! r) as [x|]; cbn [counts]; rewrite ?Hsame;
        repeat (destruct (String.eqb _ _)); cbn [andb negb]; try destruct (active x); cbn [andb negb]; lia.
    + rewrite (total_paid _ _ _ _ _ Hq). unfold owed. rewrite Hcp. cbn [counts negb]. rewrite andb_true_r. lia.
Qed.

End money.
