(* ===== verification/PaymentLifecycle.v ===== *)
(** * The life of an order of payment, in every interleaving

    [payment_step]: the requests on orders and on the actions that a client confirms
    on the mobile application, each in any world and under any failures, and
    whatever the rest of the bank does to the other tables.  The invariant
    [payment_inv] holds in every state they reach, and a decided order stays as it
    is. *)

From stdpp Require Import list relations.
From S2P Require Import Prelude Numeric Domain Tables Store StoreFacts OrderRepo Market FundsManager.
From S2P Require Import FundsFacts FundsSafety FundsTransfers GoMath AccountRepo PaymentRepo.
From S2P Require Import PaymentFacts PaymentRuns.
#[local] Open Scope Z_scope.

Notation actions d := (bd_pending_action (d_bank d)).
Notation intents d := (bd_payment_intent (d_bank d)).

(** ** The invariant *)

(** An action: at most three attempts, the third one cancels; a code once it is
    approved. *)
Record action_ok (a : pendingActionModel) : Prop := {
  ao_attempts : 0 <= pa_Attempts a <= 3;
  ao_third : pa_Attempts a = 3 -> pa_Status a = ACTION_CANCELLED;
  ao_pending : pa_Status a = ACTION_PENDING -> pa_Attempts a = 0;
  ao_code : pa_Status a = ACTION_APPROVED -> is_Some (pa_VerificationCode a) /\ is_Some (pa_CodeExpiresAt a)
}.

Record payment_inv (d : DB) : Prop := {
  pv_action : forall aid a, actions d !! aid = Some a -> action_ok a;
  (** An order waits for an action of the user who placed it. *)
  pv_waits : forall i m, intents d !! i = Some m ->
    exists aid a, pi_PendingActionID m = Some aid /\ actions d !! aid = Some a /\
      pa_VlasnikID a = pi_InitiatedByUserID m /\ (pi_Status m <> U_OBRADI -> pa_Status a = ACTION_CANCELLED);
  (** No two orders wait for one action, none share a key. *)
  pv_one : forall i j m m', intents d !! i = Some m -> intents d !! j = Some m' ->
    pi_PendingActionID m = pi_PendingActionID m' -> i = j;
  pv_key : forall i j m m', intents d !! i = Some m -> intents d !! j = Some m' ->
    pi_IdempotencyKey m = pi_IdempotencyKey m' -> i = j
}.

(** What an order says besides its outcome. *)
Definition order_terms (m : paymentIntentModel) :=
  (pi_IdempotencyKey m, pi_BrojNaloga m, pi_TipTransakcije m, pi_RacunPlatioceID m, pi_RacunPrimaocaID m,
   pi_BrojRacunaPrimaoca m, (pi_Iznos m, pi_Provizija m, pi_Kurs m, pi_Valuta m), pi_PendingActionID m,
   pi_InitiatedByUserID m, pi_CreatedAt m).

(** What is decided or cancelled is final; orders keep their terms, actions their
    owner, and attempts are never taken back. *)
Record keeps_orders (d d' : DB) : Prop := {
  ko_decided : forall i m, intents d !! i = Some m -> pi_Status m <> U_OBRADI -> intents d' !! i = Some m;
  ko_terms : forall i m, intents d !! i = Some m ->
    exists m', intents d' !! i = Some m' /\ order_terms m' = order_terms m;
  ko_cancelled : forall i a, actions d !! i = Some a -> pa_Status a = ACTION_CANCELLED -> actions d' !! i = Some a;
  ko_action : forall i a, actions d !! i = Some a ->
    exists a', actions d' !! i = Some a' /\ pa_VlasnikID a' = pa_VlasnikID a /\ pa_Attempts a <= pa_Attempts a'
}.

#[export] Instance keeps_orders_preorder : PreOrder keeps_orders.
Proof.
  split; [split; eauto|].
  - intros i a Ha. exists a. by split_and!.
  - intros d1 d2 d3 [A1 A2 A3 A4] [B1 B2 B3 B4]. split; [auto| |auto|].
    + intros i m Hm. destruct (A2 _ _ Hm) as (m2 & H2 & E2). destruct (B2 _ _ H2) as (m3 & H3 & E3).
      exists m3. split; [done|congruence].
    + intros i a Ha. destruct (A4 _ _ Ha) as (a2 & H2 & E2 & L2). destruct (B4 _ _ H2) as (a3 & H3 & E3 & L3).
      exists a3. split_and!; [done|congruence|lia].
Qed.

(** One step keeps the invariant and what is decided. *)
Definition orderly (d d' : DB) : Prop := payment_inv d -> payment_inv d' /\ keeps_orders d d'.

Lemma orderly_trans d1 d2 d3 : orderly d1 d2 -> orderly d2 d3 -> orderly d1 d3.
Proof. intros H1 H2 Hi. destruct (H1 Hi) as [Hi2 K1]. destruct (H2 Hi2) as [Hi3 K2]. split; [done|by transitivity d2]. Qed.

#[export] Instance orderly_preorder : PreOrder orderly.
Proof. split; [by intros d Hi|exact orderly_trans]. Qed.

Lemma orderly_same d d' : actions d' = actions d -> intents d' = intents d -> orderly d d'.
Proof.
  intros Ea Ei [I1 I2 I3 I4]. split; [split; rewrite ?Ea, ?Ei; done|].
  split; rewrite ?Ea, ?Ei; eauto. intros i a Ha. by exists a.
Qed.

(** ** The changes of the two tables *)

(** One action changes: it was not cancelled and stays in order. *)
Lemma change_action d d' aid a a' :
  intents d' = intents d -> actions d' = <[aid := a']> (actions d) -> actions d !! aid = Some a ->
  pa_Status a <> ACTION_CANCELLED -> (action_ok a -> action_ok a') -> pa_VlasnikID a' = pa_VlasnikID a ->
  pa_Attempts a <= pa_Attempts a' -> orderly d d'.
Proof.
  intros Ei Ea Ha Hs Hok Ho Hn [I1 I2 I3 I4].
  assert (Hne : forall i x, actions d !! i = Some x -> pa_Status x = ACTION_CANCELLED -> i <> aid)
    by (intros i x Hx Hc ->; congruence).
  split; [split|split]; rewrite ?Ei, ?Ea; try done; eauto.
  - intros i x Hx. destruct (decide (i = aid)) as [->|].
    + rewrite lookup_insert_eq in Hx. injection Hx as <-. eauto.
    + rewrite lookup_insert_ne in Hx by done. eauto.
  - intros i m Hm. destruct (I2 i m Hm) as (j & x & E & Hx & Hv & Hd). exists j.
    destruct (decide (j = aid)) as [->|]; [|exists x; by rewrite lookup_insert_ne].
    assert (x = a) as -> by congruence. exists a'. rewrite lookup_insert_eq. split_and!; [done|done|congruence|].
    intros Hm'. by apply Hd in Hm'.
  - intros i x Hx Hc. rewrite lookup_insert_ne; [done|]. pose proof (Hne i x Hx Hc). congruence.
  - intros i x Hx. destruct (decide (i = aid)) as [->|].
    + rewrite lookup_insert_eq. exists a'. assert (x = a) as -> by congruence. done.
    + rewrite lookup_insert_ne by done. by exists x.
Qed.

(** An order whose action is cancelled is decided. *)
Lemma decide_order d d' i m m' aid a :
  actions d' = actions d -> intents d' = <[i := m']> (intents d) -> intents d !! i = Some m -> pi_Status m = U_OBRADI ->
  order_terms m' = order_terms m -> pi_PendingActionID m = Some aid -> actions d !! aid = Some a ->
  pa_Status a = ACTION_CANCELLED -> orderly d d'.
Proof.
  intros Ea Ei Hm Hs Ht Hid Ha Hc [I1 I2 I3 I4].
  assert (Hback : forall j x, <[i := m']> (intents d) !! j = Some x ->
            exists y, intents d !! j = Some y /\ order_terms x = order_terms y /\ (x = y \/ (y = m /\ j = i))).
  { intros j x Hx. destruct (decide (j = i)) as [->|].
    - rewrite lookup_insert_eq in Hx. injection Hx as <-. exists m. auto.
    - rewrite lookup_insert_ne in Hx by done. exists x. auto. }
  split; [split|split]; rewrite ?Ei, ?Ea; try done; eauto.
  - intros j x Hx. apply Hback in Hx as (y & Hy & Et & [->|[-> ->]]); [by apply (I2 j)|].
    destruct (I2 i m Hm) as (aid' & b & E & Hb & Hv & _). assert (aid' = aid) as -> by congruence.
    assert (b = a) as -> by congruence. exists aid, a. unfold order_terms in Et. split_and!; [congruence|done|congruence|done].
  - intros j k x y Hx Hy E. apply Hback in Hx as (x0 & Hx & Ex & _). apply Hback in Hy as (y0 & Hy & Ey & _).
    unfold order_terms in Ex, Ey. apply (I3 j k x0 y0); congruence.
  - intros j k x y Hx Hy E. apply Hback in Hx as (x0 & Hx & Ex & _). apply Hback in Hy as (y0 & Hy & Ey & _).
    unfold order_terms in Ex, Ey. apply (I4 j k x0 y0); congruence.
  - intros j x Hx Hd. rewrite lookup_insert_ne; [done|]. intros <-. congruence.
  - intros j x Hx. destruct (decide (j = i)) as [->|].
    + rewrite lookup_insert_eq. exists m'. assert (x = m) as -> by congruence. done.
    + rewrite lookup_insert_ne by done. by exists x.
  - intros j b Hb. by exists b.
Qed.

(** A new action. *)
Lemma new_action d d' aid a :
  intents d' = intents d -> actions d' = <[aid := a]> (actions d) -> actions d !! aid = None -> action_ok a -> orderly d d'.
Proof.
  intros Ei Ea Hn Hok [I1 I2 I3 I4].
  assert (Hne : forall i x, actions d !! i = Some x -> <[aid := a]> (actions d) !! i = Some x)
    by (intros i x Hx; rewrite lookup_insert_ne; [done|congruence]).
  split; [split|split]; rewrite ?Ei, ?Ea; try done; eauto.
  - intros i x Hx. destruct (decide (i = aid)) as [->|].
    + rewrite lookup_insert_eq in Hx. by injection Hx as <-.
    + rewrite lookup_insert_ne in Hx by done. eauto.
  - intros i m Hm. destruct (I2 i m Hm) as (j & x & E & Hx & Hv & Hd). exists j, x. auto.
  - intros i x Hx. exists x. split_and!; [auto|done|lia].
Qed.

(** A new order, with a new key, for an action no order waits for. *)
Lemma new_order d d' i m aid a :
  actions d' = actions d -> intents d' = <[i := m]> (intents d) -> intents d !! i = None -> pi_Status m = U_OBRADI ->
  pi_PendingActionID m = Some aid -> actions d !! aid = Some a -> pa_VlasnikID a = pi_InitiatedByUserID m ->
  (forall j x, intents d !! j = Some x -> pi_PendingActionID x <> Some aid /\ pi_IdempotencyKey x <> pi_IdempotencyKey m) ->
  orderly d d'.
Proof.
  intros Ea Ei Hn Hs Hid Ha Ho Hf [I1 I2 I3 I4].
  assert (Hback : forall j x, <[i := m]> (intents d) !! j = Some x -> (j = i /\ x = m) \/ (j <> i /\ intents d !! j = Some x)).
  { intros j x Hx. destruct (decide (j = i)) as [->|].
    - rewrite lookup_insert_eq in Hx. injection Hx as <-. auto.
    - rewrite lookup_insert_ne in Hx by done. auto. }
  assert (Hne : forall j x, intents d !! j = Some x -> <[i := m]> (intents d) !! j = Some x)
    by (intros j x Hx; rewrite lookup_insert_ne; [done|congruence]).
  split; [split|split]; rewrite ?Ei, ?Ea; try done; eauto.
  - intros j x Hx. apply Hback in Hx as [[-> ->]|[_ Hx]]; [|by apply (I2 j)]. by exists aid, a.
  - intros j k x y Hx Hy E. apply Hback in Hx as [[-> ->]|[Nj Hx]], Hy as [[-> ->]|[Nk Hy]]; [done| | |eauto].
    + destruct (Hf k y Hy). congruence.
    + destruct (Hf j x Hx). congruence.
  - intros j k x y Hx Hy E. apply Hback in Hx as [[-> ->]|[Nj Hx]], Hy as [[-> ->]|[Nk Hy]]; [done| | |eauto].
    + destruct (Hf k y Hy). congruence.
    + destruct (Hf j x Hx). congruence.
  - intros j b Hb. by exists b.
Qed.

(** ** What the operations do to the two tables *)

Section steps.
Context `{DL : decimal.Lib} `{PT : pg.Text}.

Lemma alter_present {A} (h : A -> A) i a (m : gmap Z A) : m !! i = Some a -> alter h i m = <[i := h a]> m.
Proof.
  intros Ha. apply map_eq. intros j. destruct (decide (j = i)) as [->|].
  - by rewrite lookup_alter_eq, lookup_insert_eq, Ha.
  - by rewrite lookup_alter_ne, lookup_insert_ne.
Qed.

(** An approved action is cancelled. *)
Lemma cancel_orderly d d' aid a :
  intents d' = intents d -> actions d' = alter cancelled aid (actions d) -> actions d !! aid = Some a ->
  pa_Status a = ACTION_APPROVED -> orderly d d'.
Proof.
  intros Ei Ea Ha Hs. rewrite (alter_present _ _ _ _ Ha) in Ea.
  apply (change_action d d' aid a (cancelled a)); try done; [congruence|].
  intros [A1 A2 A3 A4]. by split.
Qed.

(** Another attempt on it. *)
Lemma count_orderly d d' aid a :
  intents d' = intents d -> actions d' = alter (counted a) aid (actions d) -> actions d !! aid = Some a ->
  pa_Status a = ACTION_APPROVED -> orderly d d'.
Proof.
  intros Ei Ea Ha Hs. rewrite (alter_present _ _ _ _ Ha) in Ea.
  apply (change_action d d' aid a (counted a a)); try done; [congruence| |cbn; lia].
  intros [A1 A2 A3 A4].
  assert (pa_Attempts a <> 3) by (intros E; specialize (A2 E); congruence). specialize (A4 Hs).
  split; cbn; destruct (Z.leb_spec 3 (pa_Attempts a + 1)); try done; try lia; congruence.
Qed.

Lemma decide_orderly d d' h i m aid a :
  actions d' = actions d -> intents d' = alter h i (intents d) -> (forall m, order_terms (h m) = order_terms m) ->
  intents d !! i = Some m -> pi_Status m = U_OBRADI -> pi_PendingActionID m = Some aid ->
  actions d !! aid = Some a -> pa_Status a = ACTION_CANCELLED -> orderly d d'.
Proof.
  intros Ea Ei Ht Hm Hs Hid Ha Hc. rewrite (alter_present _ _ _ _ Hm) in Ei. by eapply decide_order.
Qed.

Lemma own_action_Some aid u d a : own_action aid u d = Some a -> actions d !! aid = Some a /\ pa_VlasnikID a = u.
Proof.
  unfold own_action. destruct (bd_pending_action _ !! aid) as [x|]; [|done]. cbn.
  destruct (Z.eqb_spec (pa_VlasnikID x) u); [|done]. by intros [= <-].
Qed.

Lemma verified_orderly inp e d r d' : verified inp e d r d' -> orderly d d'.
Proof.
  intros [er|m Hm Hu Hs|m aid a b [P1 P2 P3 P4 P5 P6] Hne|m aid a t1 t2 payer k now [P1 P2 P3 P4 P5 P6] _ _ _];
    [by apply orderly_same..| |]; apply own_action_Some in P5 as [P5 _].
  - unfold refused_db. destruct b; [|destruct (Z.leb_spec 3 (pa_Attempts a + 1)) as [H3|H3]].
    + set (d1 := set_pending_action (alter cancelled aid (actions d)) d).
      apply (orderly_trans d d1); [by apply (cancel_orderly d d1 aid a)|].
      apply (decide_orderly d1 _ (refused "Verifikacioni kod je istekao") (vp_IntentID inp) m aid (cancelled a)); try done.
      subst d1. cbn. by rewrite lookup_alter_eq, P5.
    + set (d1 := set_pending_action (alter (counted a) aid (actions d)) d).
      apply (orderly_trans d d1); [by apply (count_orderly d d1 aid a)|].
      apply (decide_orderly d1 _ (refused "Previse neuspesnih pokusaja") (vp_IntentID inp) m aid (counted a a)); try done.
      * subst d1. cbn. by rewrite lookup_alter_eq, P5.
      * unfold counted. by rewrite (proj2 (Z.leb_le _ _) H3).
    + by apply (count_orderly d _ aid a).
  - set (d1 := set_pending_action (alter cancelled aid (actions d)) d).
    apply (orderly_trans d d1); [by apply (cancel_orderly d d1 aid a)|].
    apply (decide_orderly d1 _ (realized k now) (vp_IntentID inp) m aid (cancelled a)); try done.
    subst d1. cbn. by rewrite lookup_alter_eq, P5.
Qed.

Lemma verify_orderly inp e w r w' :
  VerifyAndExecute inp e w = (r, w') -> w_depth w = O -> orderly (w_db w) (w_db w').
Proof.
  unfold VerifyAndExecute. intros H Hd. destruct (String.eqb _ _); [revert H; intros [= _ <-]; by apply orderly_same|].
  eapply verified_orderly, verify_cases; eauto.
Qed.

(** *** Actions *)

Lemma ApprovePendingAction_orderly aid u e w r w' :
  ApprovePendingAction aid u e w = (r, w') -> orderly (w_db w) (w_db w').
Proof.
  unfold ApprovePendingAction. intros H.
  apply bind_cases in H as [(row & w1 & H1 & H)|(er & -> & H)]; [|apply sql_err_db in H; rewrite H; by apply orderly_same].
  apply sql_read_ok in H1 as [-> E1].
  destruct (own_action aid u (w_db w)) as [a|] eqn:Ea; [|revert H; intros [= _ <-]; rewrite E1; by apply orderly_same].
  apply own_action_Some in Ea as [Ea _].
  case_decide as Hs; [|revert H; intros [= _ <-]; rewrite E1; by apply orderly_same].
  apply bind_cases in H as [(n & w2 & [= _ <-] & H)|(er & -> & [=])].
  apply bind_cases in H as [(now & w3 & [= _ <-] & H)|(er & -> & [=])].
  apply bind_cases in H as [(k & w4 & H4 & [= _ <-])|(er & -> & H)];
    [|apply sql_err_db in H; rewrite H; cbn; rewrite E1; by apply orderly_same].
  apply sql_ok in H4 as (d & H4 & -> & _). unfold update_action in H4. cbn [w_db next_step set_db] in *. rewrite E1 in H4.
  destruct (update_row _ _ _ _) as [[j m]|] eqn:E; [|discriminate]. injection H4 as <- <-.
  apply update_row_inv in E as [(_ & -> & _)|(_ & x & x' & Hx & _ & Hf & ->)]; [by apply orderly_same|].
  assert (x = a) as -> by congruence. unfold approve_action in Hf. destruct (varchar _ _); [|discriminate].
  injection Hf as <-. eapply (change_action _ _ aid a); try done; [congruence|].
  intros [A1 A2 A3 A4]. specialize (A3 Hs). split; cbn; try done; try lia.
Qed.

Lemma VerifyAndApplyLimit_orderly inp e w r w' :
  VerifyAndApplyLimit inp e w = (r, w') -> w_depth w = O -> orderly (w_db w) (w_db w').
Proof.
  intros H Hd. destruct r as [[]|er]; unfold VerifyAndApplyLimit in H;
    [|rewrite (Transaction_err _ _ _ _ _ H); by apply orderly_same].
  apply Transaction_commit in H as (w1 & H & -> & _ & _); [|done].
  apply bind_ok in H as (row & w2 & H2 & H). apply sql_read_ok in H2 as [-> E2]. cbn [w_db begin_tx] in H, E2.
  destruct (own_action _ _ _) as [a|] eqn:Ea; [|discriminate]. apply own_action_Some in Ea as [Ea _].
  case_decide as Hs; [|by case_decide; discriminate].
  apply bind_ok in H as (b & w3 & H3 & H). apply code_expired_ok in H3 as (E3 & _). rewrite E2 in E3.
  destruct b.
  { apply bind_ok in H as (x & w4 & _ & H). discriminate. }
  destruct (negb _). { apply bind_ok in H as (x & w4 & _ & H). discriminate. }
  destruct (limitParams _) as [dn ms]. apply bind_ok in H as ([] & w4 & H4 & H).
  assert (E4 : actions (w_db w4) = actions (w_db w) /\ intents (w_db w4) = intents (w_db w)).
  { destruct (f64_leb f64_zero dn || f64_leb f64_zero ms); [|injection H4 as <-; by rewrite E3].
    apply bind_ok in H4 as (n & w5 & H5 & [= <-]). apply sql_ok in H5 as (d & H5 & -> & _).
    rewrite E3 in H5. apply update_racun_inv in H5 as [(_ & ->)|(_ & r & r' & _ & _ & _ & ->)]; done. }
  apply bind_ok in H as (n & w5 & H5 & [= <-]). apply sql_ok in H5 as (d & H5 & -> & _).
  apply (update_action_eq _ cancelled _ _ _ _ cancel_action_eq) in H5. subst d. destruct E4 as [E4 E5].
  eapply (cancel_orderly _ _ (vl_ActionID inp) a); try done; cbn; by rewrite ?E4, ?E5.
Qed.

(** *** New orders *)

Lemma insert_action_ok a i d j d' :
  insert_action a i d = Ok (j, d') ->
  j = i /\ actions d !! i = None /\ d' = set_pending_action (<[i := a]> (actions d)) d.
Proof.
  unfold insert_action. destruct (d_racun d !! _); [|discriminate]. destruct (insert_row _ _ _) as [m|] eqn:E; [|discriminate].
  apply insert_row_ok in E as [E ->]. by intros [= <- <-].
Qed.

Lemma find_intent_None k d : find_intent k d = None -> forall i m, intents d !! i = Some m -> pi_IdempotencyKey m <> k.
Proof.
  unfold find_intent. intros H i m Hm Hk.
  assert (Hin : (i, m) ∈ filter (fun kv : Z * paymentIntentModel => pi_IdempotencyKey kv.2 = k) (map_to_list (intents d))).
  { apply list_elem_of_filter. split; [done|]. by apply elem_of_map_to_list. }
  destruct (filter _ _); [by apply elem_of_nil in Hin|done].
Qed.

Lemma intent_row_fields k p m :
  intent_row k p = Some m ->
  pi_IdempotencyKey m = k /\ pi_PendingActionID m = p_PendingActionID p /\
  pi_InitiatedByUserID m = p_InitiatedByUserID p /\ pi_Status m = p_Status p.
Proof.
  unfold intent_row. destruct (store_iznos (arg (p_Iznos p))); [|done]. cbn.
  destruct (match p_KrajnjiIznos p with Some f => _ | None => _ end); [|done]. cbn.
  destruct (store_iznos (arg (p_Provizija p))); [|done]. cbn. destruct (store_micros _); [|done]. cbn.
  destruct (_ && _); [|done]. by intros [= <-].
Qed.

Lemma insert_intent_ok p i d j d' :
  insert_intent p i d = Ok (j, d') ->
  exists k m, pg.uuid_in (p_IdempotencyKey p) = Some k /\ intent_row k p = Some m /\ find_intent k d = None /\
    intents d !! i = None /\ d' = set_payment_intent (<[i := m]> (intents d)) d.
Proof.
  unfold insert_intent. destruct (pg.uuid_in _) as [k|] eqn:Ek; [|discriminate].
  destruct (intent_row k p) as [m|] eqn:Em; [|discriminate]. destruct (find_intent k d) eqn:Ef; [discriminate|].
  destruct (_ && _); [|discriminate]. destruct (insert_row _ _ _) as [t|] eqn:Er; [|discriminate].
  apply insert_row_ok in Er as [Hn ->]. intros [= <- <-]. by exists k, m.
Qed.

(** The rows of a new order. *)
Record created_order (ty : ActionType) (params : ActionParams) (order : Z -> PaymentIntent) (payerID userID : Z)
    (opis : string) (aid now i : Z) (k : N) (m : paymentIntentModel) (d d' : DB) : Prop := {
  co_action : actions d !! aid = None;
  co_intent : intents d !! i = None;
  co_key : pg.uuid_in (p_IdempotencyKey (order aid)) = Some k;
  co_fresh : find_intent k d = None;
  co_row : intent_row k (order aid) = Some m;
  co_db : d' = set_payment_intent (<[i := m]> (intents d))
    (set_pending_action (<[aid := mkPendingAction userID payerID ty params opis ACTION_PENDING None None 0 now]> (actions d)) d)
}.

Lemma create_order_ok ty params order payerID userID opis e w aid w' :
  create_order ty params order payerID userID opis e w = (Ok aid, w') ->
  exists now i k m, created_order ty params order payerID userID opis aid now i k m (w_db w) (w_db w').
Proof.
  intros H. unfold create_order in H. apply Transaction_ok in H as (w1 & H & -> & _).
  apply bind_ok in H as (now & w2 & [= _ <-] & H). apply bind_ok in H as (aid' & w3 & H3 & H).
  apply sql_insert_ok in H3 as (d3 & H3 & E3).
  match type of H3 with insert_action (mkPendingAction _ _ _ _ _ _ _ _ _ ?t) _ _ = _ => set (now' := t) in * end.
  apply insert_action_ok in H3 as (Eaid & Hn3 & ->). rewrite <- Eaid in *. clear Eaid.
  apply bind_ok in H as (i & w4 & H4 & [= <- <-]). apply sql_insert_ok in H4 as (d4 & H4 & E4).
  apply insert_intent_ok in H4 as (k & m & Hk & Hm & Hf & Hn4 & ->).
  cbn [w_db w_seq next_step begin_tx] in *. rewrite E3 in *. rewrite E4.
  exists now', (w_seq w3), k, m. by split.
Qed.

(** Both rows of a new order appear together. *)
Lemma create_order_orderly ty params order payerID userID opis :
  (forall aid, p_PendingActionID (order aid) = Some aid /\ p_InitiatedByUserID (order aid) = userID /\
     p_Status (order aid) = U_OBRADI) ->
  preserves orderly (create_order ty params order payerID userID opis).
Proof.
  intros Ho e w [aid|er] w' H;
    [|unfold create_order in H; rewrite (Transaction_err _ _ _ _ _ H); reflexivity].
  apply create_order_ok in H as (now & i & k & m & [Ha Hi Hk Hf Hr ->]). destruct (Ho aid) as (O1 & O2 & O3).
  apply intent_row_fields in Hr as (F0 & F1 & F2 & F3). intros Hinv.
  set (a := mkPendingAction _ _ _ _ _ _ _ _ _ _). set (d1 := set_pending_action _ (w_db w)).
  apply (orderly_trans (w_db w) d1); [|..|exact Hinv].
  - by apply (new_action _ _ aid a).
  - apply (new_order d1 _ i m aid a); try done; try congruence.
    + subst d1. cbn. by rewrite lookup_insert_eq.
    + subst a. cbn. congruence.
    + intros j x Hx. split; [|rewrite F0; by apply (find_intent_None k (w_db w) Hf j)]. intros E.
      destruct (pv_waits _ Hinv j x Hx) as (aid2 & y & E2 & Hy & _). congruence.
Qed.

Lemma intent_by_key_reads key : preserves orderly (intent_by_key key).
Proof. apply preserves_sql; [apply _|]. intros d a d'. destruct (pg.uuid_in key); [|done]. intros [= _ <-]. reflexivity. Qed.

Lemma own_account_reads id u er : preserves orderly (own_account id u er).
Proof. unfold own_account. solve_preserves. Qed.

Lemma CreateIntent_orderly inp : preserves orderly (CreatePaymentIntent inp).
Proof.
  unfold CreatePaymentIntent, CreateIntent, finish_create, generateBrojNaloga. pose proof (own_account_reads).
  pose proof intent_by_key_reads. solve_preserves. by apply create_order_orderly.
Qed.

Lemma CreateTransfer_orderly inp : preserves orderly (CreateTransfer inp).
Proof.
  unfold CreateTransfer, CreateTransferIntent, finish_create, generateBrojNaloga. pose proof (own_account_reads).
  pose proof intent_by_key_reads. solve_preserves. by apply create_order_orderly.
Qed.

Lemma UpdateAccountLimit_orderly inp : preserves orderly (UpdateAccountLimit inp).
Proof.
  unfold UpdateAccountLimit. solve_preserves. apply preserves_sql_insert; [apply _|]. intros i d j d'.
  destruct (is_finite _ && is_finite _); [|done]. intros (_ & Hn & ->)%insert_action_ok.
  eapply new_action; [reflexivity|reflexivity|done|]. split; done.
Qed.

(** ** Every interleaving *)

Inductive payment_step (d d' : DB) : Prop :=
  | step_payment inp e w r w' : w_db w = d -> CreatePaymentIntent inp e w = (r, w') -> w_db w' = d' -> payment_step d d'
  | step_transfer inp e w r w' : w_db w = d -> CreateTransfer inp e w = (r, w') -> w_db w' = d' -> payment_step d d'
  | step_limit inp e w r w' : w_db w = d -> UpdateAccountLimit inp e w = (r, w') -> w_db w' = d' -> payment_step d d'
  | step_confirm aid u e w r w' :
      w_db w = d -> ApprovePendingAction aid u e w = (r, w') -> w_db w' = d' -> payment_step d d'
  | step_verify inp e w r w' :
      w_db w = d -> w_depth w = O -> VerifyAndExecute inp e w = (r, w') -> w_db w' = d' -> payment_step d d'
  | step_apply_limit inp e w r w' :
      w_db w = d -> w_depth w = O -> VerifyAndApplyLimit inp e w = (r, w') -> w_db w' = d' -> payment_step d d'
  | step_rest : actions d' = actions d -> intents d' = intents d -> payment_step d d'.

Lemma payment_step_orderly d d' : payment_step d d' -> orderly d d'.
Proof.
  intros [inp e w r w' <- H <-|inp e w r w' <- H <-|inp e w r w' <- H <-|aid u e w r w' <- H <-|
          inp e w r w' <- Hd H <-|inp e w r w' <- Hd H <-|Ea Ei].
  - eapply CreateIntent_orderly, H.
  - eapply CreateTransfer_orderly, H.
  - eapply UpdateAccountLimit_orderly, H.
  - by eapply ApprovePendingAction_orderly.
  - by eapply verify_orderly.
  - by eapply VerifyAndApplyLimit_orderly.
  - by apply orderly_same.
Qed.

(** C9: an order of payment is decided once, in every interleaving.  In every state
    that orders, transfers, changes of limits, confirmations on the mobile
    application, verifications and the rest of the bank reach, under any failures:
    an order waits for one action of the user who placed it, no two orders share an
    action or an idempotency key, the action of a decided order is cancelled, and an
    action has at most three attempts, the third of which cancels it.  A decided
    order and a cancelled action stay exactly as they are, orders keep their terms,
    and attempts are never taken back. *)
Theorem payment_lifecycle d d' :
  payment_inv d -> rtc payment_step d d' -> payment_inv d' /\ keeps_orders d d'.
Proof.
  intros Hi H. induction H as [d|d1 d2 d3 H12 H IH]; [done|].
  destruct (payment_step_orderly _ _ H12 Hi) as [Hi2 Hr2]. destruct (IH Hi2) as [Hi3 Hr3].
  split; [done|]. by transitivity d2.
Qed.

End steps.
