(* ===== verification/PaymentSpecs.v ===== *)
(** * A payment that can be made is made

    Forward reasoning with a working database: an approved order with the right code
    in time, whose payer can pay and whose amounts fit the columns, is executed. *)

From stdpp Require Import list.
From S2P Require Import Prelude Numeric Domain Tables Store StoreFacts OrderRepo Market FundsManager.
From S2P Require Import FundsFacts FundsSafety FundsTransfers GoMath AccountRepo PaymentRepo.
From S2P Require Import PaymentFacts PaymentRuns.
From S2P Require Import PaymentLifecycle.
#[local] Open Scope Z_scope.

(** Every counter of every account can move by [b] cents. *)
Definition room (b : Z) (d : DB) : Prop :=
  forall id r, d_racun d !! id = Some r ->
    Z.abs (r_stanje_racuna r) + b < 10 ^ 15 /\ Z.abs (ri_dnevna_potrosnja (r_info r)) + b < 10 ^ 15 /\
    Z.abs (ri_mesecna_potrosnja (r_info r)) + b < 10 ^ 15.

(** What the statements of an execution keep. *)
Record moving (d0 : DB) (b : Z) (w : World) : Prop := {
  mv_aborted : w_aborted w = false;
  mv_room : room b (w_db w);
  mv_accounts : forall id, is_Some (d_racun (w_db w) !! id) <-> is_Some (d_racun d0 !! id);
  mv_bank : d_bank (w_db w) = d_bank d0
}.

Section success.
Context `{DL : decimal.Lib} `{PT : pg.Text}.
Context (e : Env) (He : no_faults e).

Lemma active_moves d0 b a f id w :
  moving d0 (b + a) w -> 0 <= a ->
  (forall r, Z.abs (r_stanje_racuna r) + a < 10 ^ 15 -> Z.abs (ri_dnevna_potrosnja (r_info r)) + a < 10 ^ 15 ->
     Z.abs (ri_mesecna_potrosnja (r_info r)) + a < 10 ^ 15 ->
     exists r', f r = Some r' /\ Z.abs (r_stanje_racuna r') <= Z.abs (r_stanje_racuna r) + a /\
       Z.abs (ri_dnevna_potrosnja (r_info r')) <= Z.abs (ri_dnevna_potrosnja (r_info r)) + a /\
       Z.abs (ri_mesecna_potrosnja (r_info r')) <= Z.abs (ri_mesecna_potrosnja (r_info r)) + a) ->
  0 <= b -> runs e (exec_active id f) w tt (moving d0 b).
Proof.
  intros [Ha Hr Hs Hb] Ha0 Hf Hb0. unfold exec_active.
  assert (Hroom : room b (w_db w)) by (intros i r Hi; specialize (Hr i r Hi); lia).
  destruct (d_racun (w_db w) !! id) as [r|] eqn:Er; [destruct (active r) eqn:Eact|].
  - destruct (Hr id r Er) as (L1 & L2 & L3). destruct (Hf r) as (r' & E & K1 & K2 & K3); [lia..|].
    eapply runs_bind; [apply (runs_sql e He _ _ 1 (set_racun (<[id := r']> (d_racun (w_db w))) (w_db w))
                        (moving d0 b) Ha)|intros; by apply runs_ret].
    + unfold update_racun. by rewrite Er, Eact, E.
    + split; [done| | |done]; cbn [w_db next_step set_db d_racun set_racun].
      * intros i x. cbn [w_db next_step set_db d_racun set_racun]. intros Hi. destruct (decide (i = id)) as [->|].
        -- rewrite lookup_insert_eq in Hi. injection Hi as <-. lia.
        -- rewrite lookup_insert_ne in Hi by done. by apply (Hroom i).
      * intros i. rewrite <- Hs. destruct (decide (i = id)) as [->|]; [|by rewrite lookup_insert_ne].
        rewrite lookup_insert_eq, Er. by split; intros _.
  - eapply runs_bind; [apply (runs_sql e He _ _ 0 (w_db w) (moving d0 b) Ha)|intros; by apply runs_ret].
    + unfold update_racun. by rewrite Er, Eact.
    + by split.
  - eapply runs_bind; [apply (runs_sql e He _ _ 0 (w_db w) (moving d0 b) Ha)|intros; by apply runs_ret].
    + unfold update_racun. by rewrite Er.
    + by split.
Qed.

Lemma ledger_moves d0 b opis id tip q w :
  moving d0 b w -> varchar 500 opis = true -> is_Some (d_racun d0 !! id) -> Z.abs (to_cents q) < 10 ^ 15 ->
  runs e (insert_ledger opis id tip q) w tt (moving d0 b).
Proof.
  intros [Ha Hr Hs Hb] Ho Hid Hq. apply Hs in Hid as [r Er]. unfold insert_ledger.
  apply (runs_sql e He _ _ tt (set_transakcija (d_transakcija (w_db w) ++ ledger [(id, tip, q)]) (w_db w))); [done| |by split].
  rewrite Ho. unfold insert_transakcija, transakcija_rows. by rewrite Er, store_cents_fits.
Qed.

Lemma whole_fits q z a s :
  whole q z -> Z.abs (to_cents q) <= a -> Z.abs s + a < 10 ^ 15 ->
  store_cents (cents s + q) = Some (to_cents (cents s + q)) /\ Z.abs (to_cents (cents s + q)) <= Z.abs s + a.
Proof. intros Hq Ha Hs. pose proof (whole_moves q z s Hq) as E. split; [apply store_cents_fits|]; lia. Qed.

Lemma add_moves q z a r :
  whole q z -> Z.abs (to_cents q) <= a -> Z.abs (r_stanje_racuna r) + a < 10 ^ 15 ->
  exists r', add_stanje q r = Some r' /\ Z.abs (r_stanje_racuna r') <= Z.abs (r_stanje_racuna r) + a /\
    r_info r' = r_info r.
Proof.
  intros Hq Ha Hr. destruct (whole_fits _ _ _ _ Hq Ha Hr) as [E L]. unfold add_stanje. rewrite E. by eexists.
Qed.

Lemma sub_moves q z a r :
  whole q z -> Z.abs (to_cents q) <= a -> Z.abs (r_stanje_racuna r) + a < 10 ^ 15 ->
  exists r', sub_stanje q r = Some r' /\ Z.abs (r_stanje_racuna r') <= Z.abs (r_stanje_racuna r) + a /\
    r_info r' = r_info r.
Proof.
  intros Hq Ha Hr. pose proof (whole_opp_cents _ _ Hq) as Ho.
  destruct (whole_fits (- q) _ a _ (whole_opp _ _ Hq) ltac:(lia) Hr) as [E L].
  unfold sub_stanje. unfold Qminus. rewrite E. by eexists.
Qed.

Lemma debit_moves q z a r :
  whole q z -> Z.abs (to_cents q) <= a -> Z.abs (r_stanje_racuna r) + a < 10 ^ 15 ->
  Z.abs (ri_dnevna_potrosnja (r_info r)) + a < 10 ^ 15 -> Z.abs (ri_mesecna_potrosnja (r_info r)) + a < 10 ^ 15 ->
  exists r', debit_payer q r = Some r' /\ Z.abs (r_stanje_racuna r') <= Z.abs (r_stanje_racuna r) + a /\
    Z.abs (ri_dnevna_potrosnja (r_info r')) <= Z.abs (ri_dnevna_potrosnja (r_info r)) + a /\
    Z.abs (ri_mesecna_potrosnja (r_info r')) <= Z.abs (ri_mesecna_potrosnja (r_info r)) + a.
Proof.
  intros Hq Ha H1 H2 H3. pose proof (whole_opp_cents _ _ Hq) as Ho.
  destruct (whole_fits (- q) _ a _ (whole_opp _ _ Hq) ltac:(lia) H1) as [E1 L1].
  destruct (whole_fits _ _ _ _ Hq Ha H2) as [E2 L2]. destruct (whole_fits _ _ _ _ Hq Ha H3) as [E3 L3].
  unfold debit_payer. unfold Qminus. rewrite E1. cbn. rewrite E2. cbn. rewrite E3. cbn. eexists. split; [reflexivity|].
  cbn. done.
Qed.

(** An update of all columns that some alteration describes. *)
Lemma update_row_total {A} id (f : A -> option A) (m : gmap Z A) :
  (forall a, m !! id = Some a -> f a <> None) -> exists n m', update_row id (fun _ => true) f m = Ok (n, m').
Proof.
  intros Hf. unfold update_row. destruct (m !! id) as [a|] eqn:Ea; [|by eexists _, _].
  specialize (Hf a eq_refl). destruct (f a); [by eexists _, _|done].
Qed.

(** The texts of the four ledger rows fit. *)
Definition texts_fit (m : paymentIntentModel) : Prop :=
  varchar 500 ("Placanje " ++ pi_BrojNaloga m ++ " - " ++ pi_SvrhaPlacanja m) = true /\
  varchar 500 ("Konverzija " ++ pi_BrojNaloga m ++ " - uplata od klijenta") = true /\
  varchar 500 ("Konverzija " ++ pi_BrojNaloga m ++ " - isplata klijentu") = true /\
  varchar 500 ("Prenos " ++ pi_BrojNaloga m ++ " - " ++ pi_SvrhaPlacanja m) = true.

Section money.
Context (m : paymentIntentModel) (d0 : DB) (a zc : Z).
Context (Hq : whole (debit_q m) (pi_Iznos m)) (Hc : whole (credit_q m) zc).
Context (Aq : Z.abs (to_cents (debit_q m)) <= a) (Ac : Z.abs (to_cents (credit_q m)) <= a) (Aa : a < 10 ^ 15).
Context (Htx : texts_fit m).

Lemma treasury_moves t1 t2 w :
  moving d0 (3 * a) w -> is_Some (d_racun d0 !! t1) -> is_Some (d_racun d0 !! t2) ->
  runs e (through_treasury m t1 t2) w tt (moving d0 a).
Proof using All.
  intros Hw H1 H2. unfold through_treasury. fold (debit_q m) (credit_q m). cbv zeta. destruct Htx as (_ & T1 & T2 & _).
  eapply runs_bind.
  { apply (active_moves d0 (2 * a) a _ _ w); [by replace (2 * a + a) with (3 * a) by lia|lia| |lia].
    intros r L1 L2 L3. destruct (add_moves _ _ _ _ Hq Aq L1) as (r' & E & L & Ei). exists r'. rewrite E, Ei.
    split_and!; [done|done|lia|lia]. }
  intros w1 Hw1. eapply runs_bind; [apply (ledger_moves d0 (2 * a)); [done..|lia]|].
  intros w2 Hw2. eapply runs_bind.
  { apply (active_moves d0 a a _ _ w2); [by replace (a + a) with (2 * a) by lia|lia| |lia].
    intros r L1 L2 L3. destruct (sub_moves _ _ _ _ Hc Ac L1) as (r' & E & L & Ei). exists r'. rewrite E, Ei.
    split_and!; [done|done|lia|lia]. }
  intros w3 Hw3. apply (ledger_moves d0 a); [done..|lia].
Qed.

Lemma money_moves t1 t2 accounts w :
  moving d0 (4 * a) w -> is_Some (d_racun d0 !! pi_RacunPlatioceID m) ->
  (isCrossCurrency m = true -> is_Some (d_racun d0 !! t1) /\ is_Some (d_racun d0 !! t2)) ->
  (forall r, pi_RacunPrimaocaID m = Some r -> find_account r accounts = racun_for_payment r <$> d_racun d0 !! r) ->
  runs e (move_money m t1 t2 accounts) w tt (moving d0 0).
Proof using All.
  intros Hw Hp Ht Hfind. unfold move_money. fold (debit_q m). cbv zeta. pose proof Htx as (T1 & _ & _ & T4).
  eapply runs_bind.
  { apply (active_moves d0 (3 * a) a _ _ w); [by replace (3 * a + a) with (4 * a) by lia|lia| |lia].
    intros r L1 L2 L3. by apply (debit_moves _ _ _ _ Hq). }
  intros w1 Hw1. eapply runs_bind; [apply (ledger_moves d0 (3 * a)); [done..|lia]|]. intros w2 Hw2.
  assert (Hweak : forall w, moving d0 (3 * a) w -> moving d0 a w).
  { intros v [V1 V2 V3 V4]. split; [done| |done|done]. intros i r Hi. specialize (V2 i r Hi). lia. }
  eapply (runs_bind e _ _ _ tt _ (moving d0 a)).
  { destruct (isCrossCurrency m); [apply treasury_moves; [done|by apply Ht..]|apply runs_ret; by apply Hweak]. }
  intros w3 Hw3.
  assert (Hdone : moving d0 0 w3).
  { destruct Hw3 as [V1 V2 V3 V4]. split; [done| |done|done]. intros i r Hi. specialize (V2 i r Hi). lia. }
  destruct (pi_RacunPrimaocaID m) as [r|] eqn:Er; [|by apply runs_ret]. rewrite (Hfind r eq_refl).
  destruct (d_racun d0 !! r) as [x|] eqn:Ex; [|by apply runs_ret]. cbn [fmap option_fmap option_map].
  unfold credit_recipient. fold (credit_q m). cbv zeta. eapply runs_bind.
  { apply (active_moves d0 0 a _ _ w3); [by replace (0 + a) with a by lia|lia| |lia].
    intros y L1 L2 L3. destruct (add_moves _ _ _ _ Hc Ac L1) as (r' & E & L & Ei). exists r'. rewrite E, Ei.
    split_and!; [done|done|lia|lia]. }
  intros w4 Hw4. apply (ledger_moves d0 0); [done|done|by rewrite Ex|lia].
Qed.
End money.

(** ** The whole operation *)

(** An order that can be executed in [d]: its payer is active and can pay [iznos];
    the treasury has accounts for a conversion; every amount and text fits. *)
Record payable (m : paymentIntentModel) (payer : racun) (a k zc : Z) (d : DB) : Prop := {
  py_payer : d_racun d !! pi_RacunPlatioceID m = Some payer;
  py_active : r_status payer = AKTIVAN;
  py_funds : check_funds (racun_for_payment (pi_RacunPlatioceID m) payer) (scan_iznos (pi_Iznos m)) = Ok tt;
  py_treasury : isCrossCurrency m = true ->
    racun_ids trezor_owner (pi_Valuta m) d <> [] /\ racun_ids trezor_owner (recipient_currency m d) d <> [];
  py_ids : d_racun d !! 0 = None;
  py_debit : whole (debit_q m) (pi_Iznos m);
  py_credit : whole (credit_q m) zc;
  py_amounts : Z.abs (to_cents (debit_q m)) <= a /\ Z.abs (to_cents (credit_q m)) <= a;
  py_room : room (4 * a) d;
  py_texts : texts_fit m;
  py_stored : store_iznos (credit_q m) = Some k
}.

Lemma pick_member j l : l <> [] -> pick j l ∈ l.
Proof.
  destruct l as [|x l]; [done|]. intros _. unfold pick. apply list_elem_of_In, nth_In, Nat.mod_upper_bound. done.
Qed.

Lemma racun_ids_known owner c d id : id ∈ racun_ids owner c d -> is_Some (d_racun d !! id).
Proof. intros (r & -> & _)%racun_ids_active. done. Qed.

Lemma treasury_runs m d w :
  (isCrossCurrency m = true ->
    racun_ids trezor_owner (pi_Valuta m) d <> [] /\ racun_ids trezor_owner (recipient_currency m d) d <> []) ->
  d_racun d !! 0 = None -> healthy d w ->
  exists t1 t2, runs e (if isCrossCurrency m
      then trezor_pair (pi_Valuta m) (default 0 (pi_RacunPrimaocaID m)) else mret (0, 0)) w (t1, t2) (healthy d) /\
    (isCrossCurrency m = true -> is_Some (d_racun d !! t1) /\ is_Some (d_racun d !! t2)).
Proof using He.
  intros Ht H0 Hw. destruct (isCrossCurrency m); [|exists 0, 0; split; [by apply runs_ret|done]].
  destruct (Ht eq_refl) as [N1 N2]. set (c := recipient_currency m d) in *.
  set (j1 := env_row_choice e (S (S (w_step w)))). set (j2 := env_row_choice e (S (S (S (w_step w))))).
  set (t1 := pick j1 (racun_ids trezor_owner (pi_Valuta m) d)).
  set (t2 := if String.eqb (pi_Valuta m) c then t1 else pick j2 (racun_ids trezor_owner c d)).
  assert (K1 : is_Some (d_racun d !! t1)) by (by eapply racun_ids_known, pick_member).
  assert (K2 : is_Some (d_racun d !! t2)).
  { unfold t2. destruct (String.eqb _ _); [done|]. by eapply racun_ids_known, pick_member. }
  exists t1, t2. split; [|done]. unfold trezor_pair.
  destruct Hw as [Hd Ha]. exists (next_step (next_step (next_step (next_step (set_db d (set_db d w)))))).
  erewrite bind_run by (unfold sql_read; rewrite sql_run by done; reflexivity).
  erewrite bind_run by (unfold sql_read; rewrite sql_run by done; reflexivity).
  erewrite bind_run by reflexivity. erewrite bind_run by reflexivity.
  cbn [w_db w_step next_step set_db fst snd]. rewrite Hd. fold (recipient_currency m d). fold c j1 j2.
  cbv zeta. fold t1. fold t2.
  assert (NZ : forall t, is_Some (d_racun d !! t) -> (t =? 0) = false)
    by (intros t [r Hr]; apply Z.eqb_neq; intros ->; congruence).
  rewrite !NZ by done. cbn [orb]. split; [done|]. by split.
Qed.

Lemma execute_runs id m actionID payer a k zc w :
  healthy (w_db w) w -> payable m payer a k zc (w_db w) ->
  exists now, runs e (execute_intent id m actionID) w (executed_answer id m now) (fun w' => w_aborted w' = false).
Proof using He.
  intros Hw [P1 P2 P3 P4 P5 P6 P7 [P8 P9] P10 P11 P12]. unfold execute_intent.
  destruct (treasury_runs m (w_db w) w P4 P5 Hw) as (t1 & t2 & (w1 & R1 & H1) & Ht).
  destruct (read_healthy e He (locked (account_ids m t1 t2)) (w_db w) w1 H1) as (w2 & R2 & H2).
  set (now := env_now e (w_step w2)). exists now. unfold runs.
  rewrite (bind_run _ _ _ _ _ _ R1), (bind_run _ _ _ _ _ _ R2), find_locked by apply account_ids_payer.
  rewrite P1. cbn [fmap option_fmap option_map]. rewrite decide_True by done. rewrite P3.
  erewrite bind_run by reflexivity. erewrite bind_run by reflexivity. fold now.
  assert (Hm : moving (w_db w) (4 * a) (next_step w2)).
  { destruct H2 as [E2 A2]. split; cbn; rewrite ?E2; done. }
  destruct (money_moves m (w_db w) a zc P6 P7 P8 P9 ltac:(pose proof (P10 _ _ P1); lia) P11 t1 t2
    (locked (account_ids m t1 t2) (w_db w)) _ Hm ltac:(by rewrite P1) Ht
    (fun r Hr => find_locked r _ (w_db w) (account_ids_recipient m t1 t2 r Hr))) as (w3 & R3 & [A3 _ _ B3]).
  rewrite (bind_run _ _ _ _ _ _ R3).
  destruct (update_row_total id (realize_intent (credit_q m) now) (bd_payment_intent (d_bank (w_db w3)))) as (n4 & m4 & E4).
  { intros x _. unfold realize_intent. by rewrite P12. }
  erewrite bind_run by (rewrite sql_run by done; unfold update_intent; fold (credit_q m); rewrite E4; reflexivity).
  match goal with |- context [mbind _ (sql ?f) e ?w4] => set (w4' := w4) end.
  destruct (update_row_total actionID cancel_action (bd_pending_action (d_bank (w_db w4')))) as (n5 & m5 & E5); [done|].
  erewrite bind_run by (rewrite sql_run by done; unfold update_action; rewrite E5; reflexivity).
  eexists. split; [reflexivity|done].
Qed.

Lemma right_code_runs inp actionID x t w :
  pa_VerificationCode x = Some (vp_Code inp) -> pa_CodeExpiresAt x = Some t -> (forall n, env_now e n <= t) ->
  check_code inp actionID x e w = (Ok None, next_step w).
Proof.
  intros Hcode Hexp Hnow. unfold check_code.
  assert (E : code_expired x e w = (Ok false, next_step w)).
  { unfold code_expired. rewrite Hexp. erewrite bind_run by reflexivity.
    by rewrite (proj2 (Z.ltb_ge _ _) (Hnow _)). }
  rewrite (bind_run _ _ _ _ _ _ E). unfold code_matches. rewrite Hcode, String.eqb_refl. reflexivity.
Qed.

Lemma verify_executes inp m actionID x t payer a k zc w :
  w_depth w = O -> w_aborted w = false -> pending_order inp m actionID x (w_db w) ->
  pa_VerificationCode x = Some (vp_Code inp) -> pa_CodeExpiresAt x = Some t -> (forall n, env_now e n <= t) ->
  payable m payer a k zc (w_db w) ->
  exists p w', VerifyAndExecuteRow inp e w = (Ok p, w').
Proof using He.
  intros Hd Ha [O1 O2 O3 O4 O5 O6] Hcode Hexp Hnow Hpay. unfold VerifyAndExecuteRow.
  assert (Hw : healthy (w_db w) (begin_tx w)) by done.
  destruct (read_healthy e He (fun d => bd_payment_intent (d_bank d) !! vp_IntentID inp) _ _ Hw) as (w1 & R1 & H1).
  destruct (read_healthy e He (own_action actionID (vp_UserID inp)) _ _ H1) as (w2 & R2 & H2).
  assert (H3 : healthy (w_db (next_step w2)) (next_step w2)) by (split; [done|apply H2]).
  destruct (execute_runs (vp_IntentID inp) m actionID payer a k zc (next_step w2)) as (now & w4 & R4 & A4); [done| |].
  { cbn. destruct H2 as [-> _]. exact Hpay. }
  assert (V : verify_pending inp m e w1 = (Ok (Ok (executed_answer (vp_IntentID inp) m now)), w4)).
  { unfold verify_pending. rewrite O4, (bind_run _ _ _ _ _ _ R2), O5, decide_False, decide_True by (rewrite ?O6; done).
    rewrite (bind_run _ _ _ _ _ _ (right_code_runs _ _ _ _ _ Hcode Hexp Hnow)), (bind_run _ _ _ _ _ _ R4). reflexivity. }
  exists (executed_answer (vp_IntentID inp) m now), (commit_tx w w4). unfold VerifyAndExecuteRow.
  rewrite (bind_run _ _ _ _ (Ok (executed_answer (vp_IntentID inp) m now)) (commit_tx w w4)); [reflexivity|].
  erewrite Transaction_run; [|done|done|].
  2: { rewrite (bind_run _ _ _ _ _ _ R1), O1, O2, Z.eqb_refl, O3. cbn [negb]. exact V. }
  cbn. by rewrite Hd, A4.
Qed.

End success.

(** ** Theorems on payments and mobile verification *)
#[local] Open Scope string_scope.
#[local] Open Scope Z_scope.

Section specs.
Context `{DL : decimal.Lib} `{PT : pg.Text}.

(** C8: every run of [VerifyAndExecute], whatever statement fails, is a step of
    [verified]: an error with the tables unchanged; the stored answer again for an
    executed order; a refusal that writes only the order and its action, for an
    expired or a wrong code; or the execution, and that only for a pending order of
    the caller whose approved action has exactly this code, not yet expired, whose
    payer is active and passes the balance and limit checks, and then the accounts,
    the ledger, the order and the action are those of [executed_db]. *)
Theorem verify_refines inp e w r w' :
  w_depth w = O -> VerifyAndExecute inp e w = (r, w') -> verified inp e (w_db w) r (w_db w').
Proof.
  unfold VerifyAndExecute. intros Hd H. destruct (String.eqb _ _).
  - injection H as <- <-. apply verified_error.
  - by apply verify_cases.
Qed.

(** The order's payer pays in the currency of the order; without a conversion the
    recipient's account has the same currency; the amounts are exact. *)
Definition consistent_order (d : DB) (m : paymentIntentModel) : Prop :=
  exact_order m /\
  (forall payer, d_racun d !! pi_RacunPlatioceID m = Some payer -> r_oznaka payer = pi_Valuta m) /\
  (isCrossCurrency m = false -> forall r, pi_RacunPrimaocaID m = Some r -> recipient_currency m d = pi_Valuta m).

(** C10: verifying a payment makes no money and loses none.  Whatever fails, the
    money of all accounts in a currency stays the same, except that an executed
    order takes exactly its amount out of the currency when it pays an account that
    is not in this bank or no longer active. *)
Theorem payment_conserves o inp e w r w' m :
  w_depth w = O -> VerifyAndExecute inp e w = (r, w') ->
  intents (w_db w) !! vp_IntentID inp = Some m -> consistent_order (w_db w) m ->
  total o (d_racun (w_db w')) = total o (d_racun (w_db w)) \/
  (exists p, r = Ok p /\ pi_Status m = U_OBRADI /\
     total o (d_racun (w_db w')) = total o (d_racun (w_db w)) - paid_outside o m (w_db w)).
Proof.
  intros Hd H Hm (He & Hp & Hs). unfold VerifyAndExecute in H.
  destruct (String.eqb _ _); [injection H as _ <-; by left|].
  apply verify_cases in H; [|done].
  inversion H as [er|m' Hm' Hu Hst|m' aid a b Hpo Hne|m' aid a t1 t2 payer k now Hpo Hcode Hex Hk]; subst;
    [by left..| |].
  - left. unfold refused_db. destruct b; [done|]. by destruct (3 <=? _).
  - right. destruct Hpo as [P1 P2 P3 P4 P5 P6]. assert (m' = m) as -> by congruence.
    eexists. split; [reflexivity|]. split; [done|]. cbn.
    eapply accounts_after_total; [done|done| |done]. eapply Hp, ex_payer, Hex.
Qed.

(** C25: a payment that can be made is made.  With a working database, the right code
    in time, an active payer with the money and within the limits, the treasury's
    accounts in place for a conversion, and amounts and texts that fit their columns,
    [VerifyAndExecute] answers the order as REALIZOVANO and leaves the tables of
    [executed_db]. *)
Theorem payment_executes inp e w m actionID x t payer a k zc :
  no_faults e -> w_depth w = O -> w_aborted w = false -> vp_Code inp <> EmptyString ->
  pending_order inp m actionID x (w_db w) -> pa_VerificationCode x = Some (vp_Code inp) ->
  pa_CodeExpiresAt x = Some t -> (forall n, env_now e n <= t) -> payable m payer a k zc (w_db w) ->
  exists p w' now t1 t2, VerifyAndExecute inp e w = (Ok p, w') /\ p_ID p = vp_IntentID inp /\
    p_Status p = REALIZOVANO /\ p_KrajnjiIznos p = Some (creditAmount m) /\
    w_db w' = executed_db (vp_IntentID inp) m actionID k now t1 t2 (w_db w).
Proof.
  intros He Hd Ha Hne Hpo Hcode Hexp Hnow Hpay.
  destruct (verify_executes e He inp m actionID x t payer a k zc w Hd Ha Hpo Hcode Hexp Hnow Hpay) as (p & w' & H).
  pose proof (verify_cases _ _ _ _ _ H Hd) as V. destruct Hpo as [P1 P2 P3 P4 P5 P6].
  inversion V as [|m' Hm' Hu Hst|m' aid' a' b Hpo Hne'|m' aid' a' t1 t2 payer' k' now Hpo Hc' Hex Hk E1 E2].
  - congruence.
  - destruct Hpo as [Q1 Q2 Q3 Q4 Q5 Q6]. assert (m' = m) as -> by congruence. assert (aid' = actionID) as -> by congruence.
    assert (k' = k) as -> by (destruct Hpay; congruence).
    exists (executed_answer (vp_IntentID inp) m now), w', now, t1, t2. split_and!; try done.
    unfold VerifyAndExecute. rewrite (proj2 (String.eqb_neq _ _) Hne), H. by rewrite <- E1.
Qed.

End specs.
