(* ===== verification/PaymentOrders.v ===== *)
(** * New orders, new accounts, and guessed verification codes *)

From stdpp Require Import list pretty.
From stdpp Require Import list.
From S2P Require Import Prelude Numeric Domain Tables Store StoreFacts OrderRepo Market FundsManager.
From S2P Require Import FundsFacts FundsSafety FundsTransfers GoMath AccountRepo PaymentRepo.
From S2P Require Import PaymentFacts PaymentRuns PaymentLifecycle.
From S2P Require Import PaymentSpecs.
#[local] Open Scope string_scope.
#[local] Open Scope Z_scope.

Section orders.
Context `{DL : decimal.Lib} `{PT : pg.Text}.

Lemma find_intent_Some k d j x : find_intent k d = Some (j, x) -> intents d !! j = Some x /\ pi_IdempotencyKey x = k.
Proof.
  unfold find_intent. intros H. apply head_Some_elem_of in H.
  apply list_elem_of_filter in H as [H1 H2]. by apply elem_of_map_to_list in H2.
Qed.

Lemma find_intent_is_Some k d j x : intents d !! j = Some x -> pi_IdempotencyKey x = k -> is_Some (find_intent k d).
Proof.
  intros Hx Hk. destruct (find_intent k d) eqn:E; [done|]. exfalso. by eapply (find_intent_None k d).
Qed.

Lemma intent_by_key_ok key e w r w' :
  intent_by_key key e w = (Ok r, w') ->
  exists k, pg.uuid_in key = Some k /\ r = find_intent k (w_db w) /\ w_db w' = w_db w /\
    w_aborted w = false /\ w_aborted w' = false.
Proof.
  intros (d & H & -> & Ha)%sql_ok. destruct (pg.uuid_in key) as [k|]; [|discriminate].
  injection H as <- <-. by exists k.
Qed.

Lemma intent_row_amounts k p m :
  intent_row k p = Some m ->
  store_iznos (arg (p_Iznos p)) = Some (pi_Iznos m) /\
  match p_KrajnjiIznos p with
  | Some x => exists c, store_iznos (arg x) = Some c /\ pi_KrajnjiIznos m = Some c
  | None => pi_KrajnjiIznos m = None
  end.
Proof.
  unfold intent_row. destruct (store_iznos (arg (p_Iznos p))); [|done]. cbn.
  destruct (p_KrajnjiIznos p) as [x|]; [destruct (store_iznos (arg x)) as [c|]; [|done]|]; cbn;
    (destruct (store_iznos (arg (p_Provizija p))); [|done]); cbn; (destruct (store_micros _); [|done]); cbn;
    (destruct (_ && _); [|done]); intros [= <-]; eauto.
Qed.

(** A computation that leaves the tables alone. *)
Lemma reads_ok {A} (m : M A) e w a w' : reads m -> m e w = (Ok a, w') -> w_db w' = w_db w.
Proof. intros Hm H. symmetry. exact (Hm e w _ _ H). Qed.

Lemma own_account_quiet id u er : reads (own_account id u er).
Proof. unfold own_account. solve_reads. Qed.

Lemma generateBrojNaloga_quiet : reads generateBrojNaloga.
Proof. unfold generateBrojNaloga. solve_reads. Qed.

(** A new order is found by its key. *)
Lemma created_found ty params order payerID userID opis aid now i k m d d' :
  created_order ty params order payerID userID opis aid now i k m d d' -> find_intent k d' = Some (i, m).
Proof.
  intros [Ha Hi Hk Hf Hr ->]. apply intent_row_fields in Hr as (E & _).
  match goal with |- find_intent k ?d' = _ => set (d1 := d') end.
  assert (Hm : intents d1 !! i = Some m) by (subst d1; cbn; by rewrite lookup_insert_eq).
  destruct (find_intent_is_Some k d1 i m Hm E) as [[j x] F]. rewrite F. apply find_intent_Some in F as [Hj Ex].
  destruct (decide (j = i)) as [->|Hne]; [congruence|]. subst d1. cbn in Hj. rewrite lookup_insert_ne in Hj by done.
  exfalso. by apply (find_intent_None k d Hf j x).
Qed.

(** Either the key was known, or a new order was stored. *)
Lemma CreateIntent_ok inp e w p aid w' :
  CreateIntent inp e w = (Ok (p, aid), w') ->
  w_aborted w' = false /\ exists k id m, pg.uuid_in (cp_IdempotencyKey inp) = Some k /\
    find_intent k (w_db w') = Some (id, m) /\ p = intentToDomain id m /\ aid = default 0 (pi_PendingActionID m).
Proof.
  unfold CreateIntent. intros H. apply bind_ok in H as (ex & w1 & H1 & H).
  apply intent_by_key_ok in H1 as (k & Hk & Hex & E1 & _ & A1). destruct ex as [[id m]|].
  - injection H as <- <- <-. split; [done|]. exists k, id, m. by rewrite E1.
  - apply bind_ok in H as (payer & w2 & H2 & H). apply (reads_ok _ _ _ _ _ (own_account_quiet _ _ _)) in H2.
    destruct (String.eqb _ _); [discriminate|]. apply bind_ok in H as ([] & w3 & H3 & H).
    destruct (check_funds _ _) as [[]|]; [|discriminate]. injection H3 as <-.
    apply bind_ok in H as (row & w4 & H4 & H). apply sql_read_ok in H4 as [-> E4].
    apply bind_ok in H as (broj & w5 & H5 & H). apply (reads_ok _ _ _ _ _ generateBrojNaloga_quiet) in H5.
    apply bind_ok in H as (now & w6 & H6 & H). apply time_now_ok in H6.
    apply bind_ok in H as (actionID & w7 & H7 & H). apply create_order_ok in H7 as (t & i & k' & m & Hco).
    unfold finish_create in H. apply bind_ok in H as (found & w8 & H8 & H).
    apply intent_by_key_ok in H8 as (k2 & Hk2 & -> & E8 & _ & A8).
    pose proof (co_key _ _ _ _ _ _ _ _ _ _ _ _ _ Hco) as Hk'. cbn in Hk'. assert (k2 = k') as -> by congruence.
    rewrite (created_found _ _ _ _ _ _ _ _ _ _ _ _ _ Hco) in H. injection H as <- <- <-.
    split; [done|]. exists k', i, m. rewrite E8. split_and!; [done|by eapply created_found|done|].
    pose proof (co_row _ _ _ _ _ _ _ _ _ _ _ _ _ Hco) as Hr. apply intent_row_fields in Hr as (_ & -> & _). done.
Qed.

(** An idempotency key names one order.  After a payment was accepted, any
    request with the same key, whatever else it says, gets the same order and the
    same action and changes no table. *)
Theorem payment_key_is_idempotent inp inp' e w p aid w1 :
  no_faults e -> CreatePaymentIntent inp e w = (Ok (p, aid), w1) ->
  cp_IdempotencyKey inp' = cp_IdempotencyKey inp -> check_payment inp' = Ok tt ->
  exists w2, CreatePaymentIntent inp' e w1 = (Ok (p, aid), w2) /\ w_db w2 = w_db w1.
Proof.
  intros He H Hkey Hc. unfold CreatePaymentIntent in *. apply bind_ok in H as ([] & w0 & H0 & H).
  destruct (check_payment inp) as [[]|]; [|discriminate]. injection H0 as <-.
  apply CreateIntent_ok in H as (A1 & k & id & m & Hk & Hf & -> & ->).
  rewrite Hc. erewrite bind_run by reflexivity. unfold CreateIntent. rewrite Hkey.
  eexists. split; [|]. 
  - erewrite bind_run by (unfold intent_by_key; rewrite sql_run by done; rewrite Hk; reflexivity).
    rewrite Hf. reflexivity.
  - reflexivity.
Qed.

(** ** The exchange office *)

(** The exchange office pays what the client says.  The order that
    [ExchangeTransfer] stores for a new key has the amount that the request calls
    converted as its final amount, whatever the rates are; the rates only give the
    fee and the rate on paper. *)
Theorem exchange_trusts_the_client userID req e w p aid w' k :
  ExchangeTransfer userID req e w = (Ok (p, aid), w') -> pg.uuid_in (et_IdempotencyKey req) = Some k ->
  find_intent k (w_db w) = None -> f64_ltb f64_zero (et_ConvertedAmount req) = true ->
  f64_eqb (et_ConvertedAmount req) (et_Amount req) = false ->
  exists i m c, intents (w_db w') !! i = Some m /\ pi_InitiatedByUserID m = userID /\ pi_Status m = U_OBRADI /\
    store_iznos (arg (et_Amount req)) = Some (pi_Iznos m) /\
    store_iznos (arg (et_ConvertedAmount req)) = Some c /\ pi_KrajnjiIznos m = Some c.
Proof.
  unfold ExchangeTransfer, CreateTransfer, CreateTransferIntent. intros H Hk Hf Hp Hne.
  destruct (String.eqb _ _); [discriminate|]. destruct (f64_leb (et_Amount req) _); [discriminate|].
  destruct (f64_leb (et_ConvertedAmount req) f64_zero); [discriminate|]. destruct (_ =? _); [discriminate|].
  apply bind_ok in H as ([] & w0 & H0 & H). destruct (check_transfer _) as [[]|]; [|discriminate]. injection H0 as <-.
  cbn [ct_IdempotencyKey ct_RacunPlatioceID ct_RacunPrimaocaID ct_Iznos ct_ConvertedIznos ct_InitiatedByUserID ct_SvrhaPlacanja] in H.
  apply bind_ok in H as (ex & w1 & H1 & H). apply intent_by_key_ok in H1 as (k' & Hk' & -> & E1 & _ & A1).
  assert (k' = k) as -> by congruence. rewrite Hf in H.
  apply bind_ok in H as (payer & w2 & H2 & H). apply bind_ok in H as (rec & w3 & H3 & H).
  apply bind_ok in H as ([] & w4 & H4 & H). apply bind_ok in H as (broj & w5 & H5 & H).
  apply bind_ok in H as (now & w6 & H6 & H). apply bind_ok in H as (actionID & w7 & H7 & H).
  apply create_order_ok in H7 as (t & i & k2 & m & Hco).
  unfold finish_create in H. apply bind_ok in H as (found & w8 & H8 & H).
  apply intent_by_key_ok in H8 as (k3 & Hk3 & -> & E8 & _ & A8).
  destruct (find_intent k3 (w_db w7)) as [[id x]|]; [|discriminate]. injection H as <- <- <-.
  destruct Hco as [C1 C2 C3 C4 C5 C6]. rewrite E8, C6. exists i, m.
  apply intent_row_amounts in C5 as F. apply intent_row_fields in C5 as (_ & _ & F1 & F2).
  cbn [p_InitiatedByUserID p_Status p_Iznos p_KrajnjiIznos transfer_order ct_Iznos ct_ConvertedIznos] in *.
  destruct F as [G1 G2]. rewrite F1, F2. unfold transfer_conversion in G2. rewrite Hp, Hne in G2. cbn [andb negb] in G2.
  destruct (convertPaymentAmountWithFee _ _ _) as [[n0 k0] p0]. cbn [cv_krajnji] in G2.
  destruct G2 as (c & G2 & G3). exists c.
  split_and!; [apply lookup_insert_eq|done..].
Qed.

End orders.

(** ** Account numbers *)

Lemma append_cons c s t : (String c s ++ t)%string = String c (s ++ t).
Proof. reflexivity. Qed.

Lemma length_append s t : String.length (s ++ t)%string = (String.length s + String.length t)%nat.
Proof. induction s as [|c s IH]; [done|]. rewrite append_cons. cbn [String.length]. by rewrite IH. Qed.

Lemma length_zeros n : String.length (zeros n) = n.
Proof. induction n as [|n IH]; [done|]. cbn [zeros]. rewrite length_append, IH. done. Qed.

Lemma prefix_append s t : String.prefix s (s ++ t) = true.
Proof.
  induction s as [|c s IH]; [by destruct t|]. rewrite append_cons. cbn [String.prefix].
  by destruct (Ascii.ascii_dec c c).
Qed.

Lemma digit_sum_append s t : digit_sum (s ++ t) = digit_sum s + digit_sum t.
Proof. induction s as [|c s IH]; [done|]. rewrite append_cons. cbn [digit_sum]. rewrite IH. lia. Qed.

(** A number below [10^k] is written with [k] digits at most. *)
Lemma pretty_go_length k : forall x s,
  (x < 10 ^ N.of_nat k)%N -> (String.length (pretty_N_go x s) <= String.length s + k)%nat.
Proof.
  induction k as [|k IH]; intros x s Hx.
  - assert (x = 0%N) as -> by (cbn in Hx; lia). rewrite pretty_N_go_0. lia.
  - destruct (N.eq_dec x 0) as [->|Hx0]; [rewrite pretty_N_go_0; lia|].
    rewrite pretty_N_go_step by lia. etransitivity; [apply IH|cbn; lia].
    apply N.Div0.div_lt_upper_bound. replace (N.of_nat (S k)) with (N.succ (N.of_nat k)) in Hx by lia.
    by rewrite N.pow_succ_r' in Hx.
Qed.

Lemma pretty_length k z : 0 <= z < 10 ^ Z.of_nat (S k) -> (String.length (pretty z) <= S k)%nat.
Proof.
  intros [H0 H]. destruct z as [|p|p]; [cbn; lia| |lia]. unfold pretty, pretty_Z.
  change (pretty (N.pos p)) with (pretty_N_go (N.pos p) ""). etransitivity; [apply (pretty_go_length (S k))|cbn; lia].
  apply N2Z.inj_lt. rewrite N2Z.inj_pow. by rewrite nat_N_Z.
Qed.

Lemma padded_length k z : 0 <= z < 10 ^ Z.of_nat (S k) -> String.length (padded (S k) z) = S k.
Proof. intros H. unfold padded. rewrite length_append, length_zeros. pose proof (pretty_length k z H). lia. Qed.

Lemma pretty_digit c : 0 <= c <= 9 -> String.length (pretty c) = 1%nat /\ digit_sum (pretty c) = c.
Proof.
  intros H. assert (c = 0 \/ c = 1 \/ c = 2 \/ c = 3 \/ c = 4 \/ c = 5 \/ c = 6 \/ c = 7 \/ c = 8 \/ c = 9) as Hc by lia.
  repeat (destruct Hc as [->|Hc]; [done|]). by rewrite Hc.
Qed.

Lemma podvrsta_code_length p c : podvrsta_code p = Some c -> String.length c = 2%nat.
Proof.
  unfold podvrsta_code. intros H. apply fmap_Some in H as ([k x] & H & ->). apply List.find_some in H as [H _].
  repeat destruct H as [[= <- <-]|H]; try done.
Qed.

Lemma prefix_length k v p prefix : accountTypePrefix k v p = Some prefix -> String.length prefix = 9%nat.
Proof.
  unfold accountTypePrefix. intros (c & H & [= <-])%bind_Some. rewrite !length_append.
  enough (String.length c = 2%nat) as -> by done.
  repeat (destruct (_ && _) in H; [by injection H as <-|]). destruct (_ && _) in H; [|done].
  by apply podvrsta_code_length in H.
Qed.

(** The number of a new account is well formed.  Whenever the draws end, the
    number has 18 characters, starts with the prefix of the kind of account, and its
    digits sum to a multiple of 11. *)
Theorem account_number_checks fuel k v p prefix e w n w' :
  accountTypePrefix k v p = Some prefix -> generateAccountNumber fuel prefix e w = (Ok (Some n), w') ->
  String.length n = 18%nat /\ String.prefix prefix n = true /\ digit_sum n mod 11 = 0.
Proof.
  intros Hp. pose proof (prefix_length _ _ _ _ Hp) as Hl. clear Hp. revert w.
  induction fuel as [|fuel IH]; intros w H; [discriminate|]. cbn [generateAccountNumber] in H.
  apply bind_ok in H as (r & w1 & H1 & H). unfold rand_Intn, io in H1. injection H1 as <- <-.
  set (r8 := env_rand e (w_step w) mod 100000000) in *.
  assert (Hr : 0 <= r8 < 100000000) by (apply Z.mod_pos_bound; lia). clearbody r8.
  destruct (Z.ltb_spec 9 (check_digit prefix (padded 8 r8))) as [Hc|Hc]; [by eapply IH|]. injection H as <- _.
  set (c := check_digit prefix (padded 8 r8)) in *.
  assert (Hc0 : 0 <= c <= 9) by (split; [apply Z.mod_pos_bound; lia|done]).
  destruct (pretty_digit c Hc0) as [L1 D1]. split_and!.
  - rewrite !length_append, L1, (padded_length 7), Hl by done. done.
  - apply prefix_append.
  - rewrite !digit_sum_append, D1. unfold c, check_digit.
    set (s := digit_sum prefix + digit_sum (padded 8 r8)). rewrite Z.add_assoc. fold s.
    pose proof (Z.div_mod s 11 ltac:(lia)) as E. pose proof (Z.mod_pos_bound s 11 ltac:(lia)) as B.
    set (q := s / 11) in *. set (m := s mod 11) in *. clearbody q m. 
    destruct (Z.eq_dec m 0) as [->|Hm].
    + cbn. rewrite E. rewrite Z.add_0_r, Z.add_0_r, Z.mul_comm. by apply Z.mod_mul.
    + rewrite (Z.mod_small (11 - m) 11) by lia. rewrite E. replace (11 * q + m + (11 - m)) with ((q + 1) * 11) by lia.
      by apply Z.mod_mul.
Qed.

(** ** Guessing verification codes

    The attempts on an order of payment are counted and the third wrong code ends
    it.  The attempts on a change of limits are not: the error that the transaction
    returns rolls the counter back. *)

Section guesses.
Context `{DL : decimal.Lib} `{PT : pg.Text}.
Context (e : Env) (He : no_faults e).

(** A world between two requests. *)
Definition idle (d : DB) (w : World) : Prop := w_db w = d /\ w_depth w = O /\ w_aborted w = false.

Lemma idle_healthy d w : idle d w -> healthy d (begin_tx w).
Proof. intros (E & _ & A). by split. Qed.

(** A statement inside the transaction, its error dropped. *)
Lemma try_update {A} (f : DB -> result (A * DB)) d a d' w :
  healthy d w -> f d = Ok (a, d') -> runs e (try (sql f)) w (Ok a) (healthy d').
Proof using He. intros Hw Hf. by apply runs_try, (sql_healthy e He _ d). Qed.

Lemma update_action_run id h f d :
  (forall a, actions d !! id = Some a -> f a = Some (h a)) ->
  exists n, update_action id (fun _ => true) f d = Ok (n, set_pending_action (alter h id (actions d)) d).
Proof.
  intros Hf. unfold update_action, update_row. destruct (bd_pending_action _ !! id) as [a|] eqn:Ea.
  - rewrite (Hf a eq_refl), <- (alter_present h id a) by done. by eexists.
  - exists 0. rewrite alter_id by (intros ? E; congruence). done.
Qed.

Lemma update_intent_run id h f d :
  (forall a, f a = Some (h a)) ->
  exists n, update_intent id (fun _ => true) f d = Ok (n, set_payment_intent (alter h id (intents d)) d).
Proof.
  intros Hf. unfold update_intent, update_row. destruct (bd_payment_intent _ !! id) as [a|] eqn:Ea.
  - rewrite (Hf a), <- (alter_present h id a) by done. by eexists.
  - exists 0. rewrite alter_id by (intros ? E; congruence). done.
Qed.

Lemma count_attempt_run a d aid :
  action_ok a -> exists n, update_action aid (fun _ => true) (count_attempt (pa_Attempts a)) d
    = Ok (n, set_pending_action (alter (counted a) aid (actions d)) d).
Proof.
  intros [H _ _ _]. apply update_action_run. intros x _. unfold count_attempt, store_int.
  rewrite decide_True by (unfold is_int32; lia). done.
Qed.

Lemma wrong_code_check inp aid a t d w :
  healthy d w -> action_ok a -> pa_CodeExpiresAt a = Some t -> (forall n, env_now e n <= t) ->
  pa_VerificationCode a <> Some (vp_Code inp) ->
  runs e (check_code inp aid a) w (Some (refusal a false)) (healthy (refused_db (vp_IntentID inp) aid a false d)).
Proof using He.
  intros Hw Hok Hexp Hnow Hne. unfold check_code.
  assert (E : code_expired a e w = (Ok false, next_step w)).
  { unfold code_expired. rewrite Hexp. erewrite bind_run by reflexivity. by rewrite (proj2 (Z.ltb_ge _ _) (Hnow _)). }
  assert (Hm : code_matches (vp_Code inp) a = false).
  { unfold code_matches. destruct (pa_VerificationCode a) as [c|]; [|done]. apply String.eqb_neq. congruence. }
  unfold runs. rewrite (bind_run _ _ _ _ _ _ E), Hm. cbn [negb]. unfold refusal, refused_db.
  assert (Hw1 : healthy d (next_step w)) by (by destruct Hw).
  destruct (3 <=? pa_Attempts a + 1) eqn:E3.
  - rewrite bind_assoc.
    destruct (update_intent_run (vp_IntentID inp) (refused "Previse neuspesnih pokusaja")
                (refuse_intent "Previse neuspesnih pokusaja") d ltac:(done)) as (n1 & U1).
    set (d1 := set_payment_intent _ d) in *.
    destruct (try_update _ d n1 d1 _ Hw1 U1) as (w2 & R2 & H2). rewrite (bind_run _ _ _ _ _ _ R2).
    change (mret tt ≫= ?k) with (k tt). cbv beta.
    destruct (count_attempt_run a d1 aid Hok) as (n2 & U2).
    destruct (try_update _ d1 n2 _ _ H2 U2) as (w3 & R3 & H3). rewrite (bind_run _ _ _ _ _ _ R3). by exists w3.
  - change (mret tt ≫= ?k) with (k tt). cbv beta.
    destruct (count_attempt_run a d aid Hok) as (n2 & U2).
    destruct (try_update _ d n2 _ _ Hw1 U2) as (w3 & R3 & H3). rewrite (bind_run _ _ _ _ _ _ R3). by exists w3.
Qed.

(** One wrong code. *)
Lemma wrong_code_run inp m aid a t d w :
  idle d w -> pending_order inp m aid a d -> action_ok a -> pa_CodeExpiresAt a = Some t ->
  (forall n, env_now e n <= t) -> pa_VerificationCode a <> Some (vp_Code inp) -> vp_Code inp <> EmptyString ->
  exists w', VerifyAndExecute inp e w = (Err (refusal a false), w') /\
    idle (refused_db (vp_IntentID inp) aid a false d) w'.
Proof using He.
  intros (Ed & Hd & Ha) [O1 O2 O3 O4 O5 O6] Hok Hexp Hnow Hne Hempty.
  assert (Hw : healthy d (begin_tx w)) by (by rewrite <- Ed).
  destruct (read_healthy e He (fun d => bd_payment_intent (d_bank d) !! vp_IntentID inp) _ _ Hw) as (w1 & R1 & H1).
  destruct (read_healthy e He (own_action aid (vp_UserID inp)) _ _ H1) as (w2 & R2 & H2).
  destruct (wrong_code_check inp aid a t d w2 H2 Hok Hexp Hnow Hne) as (w3 & R3 & [E3 A3]).
  assert (V : verify_pending inp m e w1 = (Ok (Err (refusal a false)), w3)).
  { unfold verify_pending. rewrite O4, (bind_run _ _ _ _ _ _ R2), O5, decide_False, decide_True by (rewrite ?O6; done).
    rewrite (bind_run _ _ _ _ _ _ R3). reflexivity. }
  exists (commit_tx w w3). split; [|done].
  unfold VerifyAndExecute. rewrite (proj2 (String.eqb_neq _ _) Hempty). unfold VerifyAndExecuteRow.
  rewrite (bind_run _ _ _ _ (Err (refusal a false)) (commit_tx w w3)); [reflexivity|].
  erewrite Transaction_run; [|done|done|].
  2: { rewrite (bind_run _ _ _ _ _ _ R1), O1, O2, Z.eqb_refl, O3. cbn [negb]. exact V. }
  cbn. by rewrite Hd, A3.
Qed.

(** The caller tries codes on an order and looks at no answer. *)
Fixpoint guess_all (id user : Z) (codes : list string) : M unit :=
  match codes with
  | [] => mret tt
  | c :: cs => try (VerifyAndExecute (mkVerifyPayment id c user)) ;; guess_all id user cs
  end.

(** An order that failed answers every code with the same error. *)
Lemma failed_order id c user m d w :
  idle d w -> intents d !! id = Some m -> pi_InitiatedByUserID m = user -> pi_Status m = ODBIJENO -> c <> EmptyString ->
  exists w', VerifyAndExecute (mkVerifyPayment id c user) e w = (Err ErrPaymentAlreadyFailed, w') /\ idle d w'.
Proof using He.
  intros (Ed & Hd & Ha) Hm Hu Hs Hc. assert (Hw : healthy d (begin_tx w)) by (by rewrite <- Ed).
  destruct (read_healthy e He (fun d => bd_payment_intent (d_bank d) !! id) _ _ Hw) as (w1 & R1 & H1).
  exists (rollback_tx w w1). split; [|by rewrite <- Ed].
  unfold VerifyAndExecute. cbn [vp_Code]. rewrite (proj2 (String.eqb_neq _ _) Hc). unfold VerifyAndExecuteRow.
  rewrite (bind_run_err _ _ _ _ ErrPaymentAlreadyFailed (rollback_tx w w1)); [done|].
  erewrite Transaction_run; [|done|done|].
  2: { cbn [vp_IntentID vp_UserID]. rewrite (bind_run _ _ _ _ _ _ R1), Hm, Hu, Z.eqb_refl, Hs. reflexivity. }
  reflexivity.
Qed.

Lemma failed_guesses id user m codes d : forall w,
  idle d w -> intents d !! id = Some m -> pi_InitiatedByUserID m = user -> pi_Status m = ODBIJENO ->
  Forall (fun c => c <> EmptyString) codes -> exists w', guess_all id user codes e w = (Ok tt, w') /\ idle d w'.
Proof using He.
  intros w Hw Hm Hu Hs Hc. revert w Hw. induction Hc as [|c cs Hc _ IH]; intros w Hw; [by exists w|].
  destruct (failed_order id c user m d w Hw Hm Hu Hs Hc) as (w1 & R1 & H1).
  destruct (IH w1 H1) as (w2 & R2 & H2). exists w2. split; [|done]. cbn [guess_all].
  by rewrite (bind_run _ _ _ _ _ _ (try_eq _ _ _ _ _ R1)).
Qed.

(** Wrong codes until the order is refused. *)
Lemma guesses_run secret t id user codes : forall d w m aid a,
  idle d w -> pending_order (mkVerifyPayment id EmptyString user) m aid a d -> action_ok a ->
  pa_VerificationCode a = Some secret -> pa_CodeExpiresAt a = Some t -> (forall n, env_now e n <= t) ->
  Forall (fun c => c <> EmptyString /\ c <> secret) codes -> 3 - pa_Attempts a <= Z.of_nat (length codes) ->
  exists d' w' m', guess_all id user codes e w = (Ok tt, w') /\ idle d' w' /\ money d' = money d /\
    intents d' !! id = Some m' /\ pi_Status m' = ODBIJENO /\ pi_InitiatedByUserID m' = user.
Proof using He.
  induction codes as [|c cs IH]; intros d w m aid a Hw Hpo Hok Hcode Hexp Hnow Hc Hlen.
  { exfalso. destruct Hok as [A1 A2 A3 A4], Hpo as [_ _ _ _ _ Hs]. cbn in *.
    assert (pa_Attempts a = 3) as E by (cbn in Hlen; lia). rewrite (A2 E) in Hs. done. }
  apply Forall_cons_1 in Hc as [[Hc0 Hcs] Hc].
  destruct Hpo as [O1 O2 O3 O4 O5 O6]. cbn [vp_IntentID vp_UserID] in *.
  destruct (wrong_code_run (mkVerifyPayment id c user) m aid a t d w Hw) as (w1 & R1 & H1);
    [by split|done|done|done|cbn; congruence|done|]. cbn [vp_IntentID] in H1. cbn [guess_all].
  rewrite (bind_run _ _ _ _ _ _ (try_eq _ _ _ _ _ R1)). apply own_action_Some in O5 as [Ha Hv].
  unfold refused_db in H1. destruct (Z.leb_spec 3 (pa_Attempts a + 1)) as [H3|H3].
  - set (d1 := set_pending_action _ _) in H1.
    assert (Hm1 : intents d1 !! id = Some (refused "Previse neuspesnih pokusaja" m))
      by (subst d1; cbn; by rewrite lookup_alter_eq, O1).
    destruct (failed_guesses id user _ cs d1 w1 H1 Hm1) as (w2 & R2 & H2); [done|done| |].
    { revert Hc. apply Forall_impl. by intros x [Hx _]. }
    exists d1, w2, (refused "Previse neuspesnih pokusaja" m). by rewrite R2.
  - set (d1 := set_pending_action _ _) in H1.
    assert (Ha1 : actions d1 !! aid = Some (counted a a)) by (subst d1; cbn; by rewrite lookup_alter_eq, Ha).
    assert (Hst : pa_Status (counted a a) = pa_Status a) by (cbn; by rewrite (proj2 (Z.leb_gt _ _) H3)).
    destruct (IH d1 w1 m aid (counted a a)) as (d2 & w2 & m2 & R2 & H2 & E2 & Hm2 & Hs2 & Hu2); try done.
    + split; try done. all: cbn [vp_UserID]; try congruence. unfold own_action. rewrite Ha1. cbn.
      by rewrite Hv, Z.eqb_refl.
    + destruct Hok as [A1 A2 A3 A4]. split; rewrite ?Hst; cbn; try lia; try done. intros E. rewrite O6 in E. done.
    + cbn in Hlen |- *. lia.
    + exists d2, w2, m2. rewrite R2. split_and!; try done.
Qed.

(** C26: three wrong codes end an order.  With a working database, whoever tries
    codes on a pending order, without the right one among them, gets no more than
    three attempts counted together with the earlier ones: then the order is
    ODBIJENO, no account and no ledger row has changed, and from then on the right
    code is refused too. *)
Theorem three_wrong_codes id user codes m aid a secret t w :
  idle (w_db w) w -> pending_order (mkVerifyPayment id EmptyString user) m aid a (w_db w) -> action_ok a ->
  pa_VerificationCode a = Some secret -> secret <> EmptyString -> pa_CodeExpiresAt a = Some t ->
  (forall n, env_now e n <= t) -> Forall (fun c => c <> EmptyString /\ c <> secret) codes ->
  3 - pa_Attempts a <= Z.of_nat (length codes) ->
  exists w' m' w'', guess_all id user codes e w = (Ok tt, w') /\ money (w_db w') = money (w_db w) /\
    intents (w_db w') !! id = Some m' /\ pi_Status m' = ODBIJENO /\
    VerifyAndExecute (mkVerifyPayment id secret user) e w' = (Err ErrPaymentAlreadyFailed, w'') /\
    w_db w'' = w_db w'.
Proof using He.
  intros Hw Hpo Hok Hcode Hne Hexp Hnow Hc Hlen.
  destruct (guesses_run secret t id user codes (w_db w) w m aid a) as (d' & w' & m' & R & H' & E & Hm & Hs & Hu); try done.
  destruct (failed_order id secret user m' d' w') as (w'' & R2 & H2); try done.
  exists w', m', w''. destruct H' as [-> _], H2 as [-> _]. done.
Qed.

(** ** Limits *)

Fixpoint guess_limits (id user : Z) (codes : list string) : M unit :=
  match codes with
  | [] => mret tt
  | c :: cs => try (VerifyAndApplyLimit (mkVerifyLimit user id c)) ;; guess_limits id user cs
  end.

Lemma wrong_limit_code id user c a t d w :
  idle d w -> own_action id user d = Some a -> pa_Status a = ACTION_APPROVED -> pa_CodeExpiresAt a = Some t ->
  (forall n, env_now e n <= t) -> pa_VerificationCode a <> Some c ->
  exists er w', VerifyAndApplyLimit (mkVerifyLimit user id c) e w = (Err er, w') /\ idle d w'.
Proof using He.
  intros (Ed & Hd & Ha) Ho Hs Hexp Hnow Hne. assert (Hw : healthy d (begin_tx w)) by (by rewrite <- Ed).
  destruct (read_healthy e He (own_action id user) _ _ Hw) as (w1 & R1 & H1).
  assert (E : code_expired a e w1 = (Ok false, next_step w1)).
  { unfold code_expired. rewrite Hexp. erewrite bind_run by reflexivity. by rewrite (proj2 (Z.ltb_ge _ _) (Hnow _)). }
  assert (Hm : code_matches c a = false).
  { unfold code_matches. destruct (pa_VerificationCode a) as [x|]; [|done]. apply String.eqb_neq. congruence. }
  set (er := if 3 <=? pa_Attempts a + 1 then ErrTooManyAttempts else ErrWrongCode).
  destruct (sql (update_action id (fun _ => true) (count_attempt (pa_Attempts a))) e (next_step w1)) as [r2 w2] eqn:Es.
  exists er, (rollback_tx w w2). split; [|by rewrite <- Ed]. unfold VerifyAndApplyLimit. cbn [vl_ActionID vl_VlasnikID vl_Code].
  erewrite Transaction_run; [|done|done|].
  2: { rewrite (bind_run _ _ _ _ _ _ R1), Ho, decide_True by done. rewrite (bind_run _ _ _ _ _ _ E), Hm. cbn [negb].
       rewrite (bind_run _ _ _ _ _ _ (try_eq _ _ _ _ _ Es)). reflexivity. }
  reflexivity.
Qed.

Lemma limit_guesses id user a t secret codes d : forall w,
  idle d w -> own_action id user d = Some a -> pa_Status a = ACTION_APPROVED -> pa_CodeExpiresAt a = Some t ->
  (forall n, env_now e n <= t) -> pa_VerificationCode a = Some secret -> secret ∉ codes ->
  exists w', guess_limits id user codes e w = (Ok tt, w') /\ idle d w'.
Proof using He.
  induction codes as [|c cs IH]; intros w Hw Ho Hs Hexp Hnow Hcode Hc; [by exists w|].
  apply not_elem_of_cons in Hc as [Hne Hc].
  destruct (wrong_limit_code id user c a t d w Hw Ho Hs Hexp Hnow) as (er & w1 & R1 & H1); [congruence|].
  destruct (IH w1 H1 Ho Hs Hexp Hnow Hcode Hc) as (w2 & R2 & H2). exists w2. split; [|done]. cbn [guess_limits].
  by rewrite (bind_run _ _ _ _ _ _ (try_eq _ _ _ _ _ R1)).
Qed.

(** The limits on the account of the action. *)
Definition limits_db (id : Z) (a : pendingActionModel) (r' : racun) (d : DB) : DB :=
  set_pending_action (alter cancelled id (actions d)) (set_racun (<[pa_RacunID a := r']> (d_racun d)) d).

Lemma right_limit_code id user secret a t dn ms r r' d w :
  idle d w -> own_action id user d = Some a -> pa_Status a = ACTION_APPROVED -> pa_CodeExpiresAt a = Some t ->
  (forall n, env_now e n <= t) -> pa_VerificationCode a = Some secret ->
  limitParams (pa_ParamsJSON a) = (dn, ms) -> (f64_leb f64_zero dn || f64_leb f64_zero ms) = true ->
  d_racun d !! pa_RacunID a = Some r -> active r = true -> set_limits dn ms r = Some r' ->
  exists w', VerifyAndApplyLimit (mkVerifyLimit user id secret) e w = (Ok tt, w') /\ w_db w' = limits_db id a r' d.
Proof using He.
  intros (Ed & Hd & Ha) Ho Hs Hexp Hnow Hcode Hp Hpos Hr Hact Hl. assert (Hw : healthy d (begin_tx w)) by (by rewrite <- Ed).
  destruct (read_healthy e He (own_action id user) _ _ Hw) as (w1 & R1 & H1).
  assert (E : code_expired a e w1 = (Ok false, next_step w1)).
  { unfold code_expired. rewrite Hexp. erewrite bind_run by reflexivity. by rewrite (proj2 (Z.ltb_ge _ _) (Hnow _)). }
  assert (Hm : code_matches secret a = true) by (unfold code_matches; rewrite Hcode; apply String.eqb_refl).
  assert (H2 : healthy d (next_step w1)) by (by destruct H1).
  destruct (sql_healthy e He (update_racun (pa_RacunID a) active (set_limits dn ms)) d 1
              (set_racun (<[pa_RacunID a := r']> (d_racun d)) d) _ H2) as (w3 & R3 & H3).
  { unfold update_racun. by rewrite Hr, Hact, Hl. }
  destruct (update_action_run id cancelled cancel_action (set_racun (<[pa_RacunID a := r']> (d_racun d)) d) ltac:(done)) as (n & U).
  destruct (sql_healthy e He _ _ n _ _ H3 U) as (w4 & R4 & [E4 A4]).
  exists (commit_tx w w4). split; [|exact E4]. unfold VerifyAndApplyLimit. cbn [vl_ActionID vl_VlasnikID vl_Code].
  erewrite Transaction_run; [|done|done|].
  2: { rewrite (bind_run _ _ _ _ _ _ R1), Ho, decide_True by done. rewrite (bind_run _ _ _ _ _ _ E), Hm. cbn [negb].
       rewrite Hp, Hpos, bind_assoc, (bind_run _ _ _ _ _ _ R3). change (mret tt ≫= ?k) with (k tt). cbv beta.
       rewrite (bind_run _ _ _ _ _ _ R4). reflexivity. }
  cbn. by rewrite Hd, A4.
Qed.

(** The code of a change of limits can be guessed without end.  The attempts
    that [VerifyAndApplyLimit] counts are rolled back with the error it returns: with
    a working database any number of wrong codes leaves every table as it was, and
    the right code after them still sets the limits. *)
Theorem limit_code_never_locks id user codes secret a t dn ms r r' w :
  idle (w_db w) w -> own_action id user (w_db w) = Some a -> pa_Status a = ACTION_APPROVED ->
  pa_VerificationCode a = Some secret -> pa_CodeExpiresAt a = Some t -> (forall n, env_now e n <= t) ->
  secret ∉ codes -> limitParams (pa_ParamsJSON a) = (dn, ms) -> (f64_leb f64_zero dn || f64_leb f64_zero ms) = true ->
  d_racun (w_db w) !! pa_RacunID a = Some r -> active r = true -> set_limits dn ms r = Some r' ->
  exists w' w'', guess_limits id user codes e w = (Ok tt, w') /\ w_db w' = w_db w /\
    VerifyAndApplyLimit (mkVerifyLimit user id secret) e w' = (Ok tt, w'') /\ w_db w'' = limits_db id a r' (w_db w).
Proof using He.
  intros Hw Ho Hs Hcode Hexp Hnow Hc Hp Hpos Hr Hact Hl.
  destruct (limit_guesses id user a t secret codes (w_db w) w) as (w' & R & H'); try done.
  destruct (right_limit_code id user secret a t dn ms r r' (w_db w) w') as (w'' & R2 & E2); try done.
  exists w', w''. by destruct H' as [-> _].
Qed.

End guesses.
