(* ===== verification/AccountTypes.v ===== *)
(** * The tables of accounts and payments stay well typed

    [well_typed]: every number of accounts, ledger rows and orders fits its NUMERIC
    column, every text of accounts, orders, actions, firms and recipients its VARCHAR,
    their keys are unique, and what they refer to is there.  A dispatcher
    [serve] runs the requests on accounts, limits and payments; no sequence of them,
    whatever fails, leaves [well_typed]. *)

From stdpp Require Import list.
From S2P Require Import Prelude Numeric Domain Tables Store StoreFacts OrderRepo Market FundsManager.
From S2P Require Import FundsFacts FundsSafety FundsTransfers GoMath AccountRepo PaymentRepo.
From S2P Require Import PaymentFacts PaymentRuns PaymentLifecycle PaymentOrders.
#[local] Open Scope Z_scope.

(** ** Rows *)

Definition fits (digits c : Z) : Prop := Z.abs c < 10 ^ digits.
Definition fits_opt (digits : Z) (c : option Z) : Prop := match c with Some c => fits digits c | None => True end.

Lemma numeric_store_fits digits scale q c : numeric_store digits scale q = Some c -> fits digits c.
Proof. unfold numeric_store. case_decide as H; [|discriminate]. by intros [= <-]. Qed.

Record racun_ok (r : racun) : Prop := {
  rk_stanje : fits 15 (r_stanje_racuna r);
  rk_rezervisano : fits 15 (r_rezervisana_sredstva r);
  rk_dnevna : fits 15 (ri_dnevna_potrosnja (r_info r));
  rk_mesecna : fits 15 (ri_mesecna_potrosnja (r_info r));
  rk_dnevni : fits_opt 15 (ri_dnevni_limit (r_info r));
  rk_mesecni : fits_opt 15 (ri_mesecni_limit (r_info r));
  rk_broj : varchar 18 (r_broj_racuna r) = true;
  rk_naziv : varchar 255 (ri_naziv_racuna (r_info r)) = true;
  rk_podvrsta : match ri_podvrsta (r_info r) with Some s => varchar 100 s = true | None => True end;
  rk_kategorija : ri_kategorija_racuna (r_info r) ∈ ["TEKUCI"; "DEVIZNI"]%string
}.

Record intent_ok (m : paymentIntentModel) : Prop := {
  ik_iznos : fits 15 (pi_Iznos m);
  ik_krajnji : fits_opt 15 (pi_KrajnjiIznos m);
  ik_provizija : fits 15 (pi_Provizija m);
  ik_kurs : fits 18 (pi_Kurs m);
  ik_broj : varchar 30 (pi_BrojNaloga m) = true;
  ik_platioca : varchar 18 (pi_BrojRacunaPlatioca m) = true;
  ik_primaoca : varchar 18 (pi_BrojRacunaPrimaoca m) = true;
  ik_naziv : varchar 255 (pi_NazivPrimaoca m) = true;
  ik_valuta : varchar 10 (pi_Valuta m) = true;
  ik_valuta_primaoca : varchar 10 (pi_ValutaPrimaoca m) = true;
  ik_sifra : varchar 3 (pi_SifraPlacanja m) = true;
  ik_poziv : varchar 50 (pi_PozivNaBroj m) = true;
  ik_svrha : varchar 500 (pi_SvrhaPlacanja m) = true
}.

Definition action_typed (a : pendingActionModel) : Prop :=
  is_int32 (pa_Attempts a) /\ match pa_VerificationCode a with Some c => varchar 6 c = true | None => True end.

Record firma_ok (f : firmaModel) : Prop := {
  fk_naziv : varchar 255 (fi_naziv_firme f) = true;
  fk_maticni : varchar 20 (fi_maticni_broj f) = true;
  fk_poreski : varchar 20 (fi_poreski_broj f) = true;
  fk_adresa : varchar 255 (fi_adresa f) = true
}.

Record recipient_ok (m : paymentRecipientModel) : Prop := {
  ck_naziv : varchar 255 (pc_Naziv m) = true;
  ck_broj : varchar 18 (pc_BrojRacuna m) = true
}.

(** ** Tables *)

Definition firms (d : DB) : gmap Z firmaModel := bd_firma (d_bank d).
Definition recipients (d : DB) : gmap Z paymentRecipientModel := bd_payment_recipient (d_bank d).

Definition known (d : DB) (id : Z) : Prop := is_Some (d_racun d !! id).
Definition known_opt (d : DB) (id : option Z) : Prop := match id with Some i => known d i | None => True end.

Record well_typed (d : DB) : Prop := {
  wt_racun : forall i r, d_racun d !! i = Some r -> racun_ok r;
  wt_number : forall i j r r', d_racun d !! i = Some r -> d_racun d !! j = Some r' ->
    r_broj_racuna r = r_broj_racuna r' -> i = j;
  wt_ledger : forall x, x ∈ d_transakcija d -> fits 15 (t_Iznos x) /\ known d (t_RacunID x);
  wt_action : forall i a, actions d !! i = Some a -> action_typed a /\ known d (pa_RacunID a);
  wt_intent : forall i m, intents d !! i = Some m ->
    intent_ok m /\ known d (pi_RacunPlatioceID m) /\ known_opt d (pi_RacunPrimaocaID m) /\
    match pi_PendingActionID m with Some aid => is_Some (actions d !! aid) | None => True end;
  wt_key : forall i j m m', intents d !! i = Some m -> intents d !! j = Some m' ->
    pi_IdempotencyKey m = pi_IdempotencyKey m' -> i = j;
  wt_firma : forall i f, firms d !! i = Some f ->
    firma_ok f /\ is_Some (bd_delatnost (d_bank d) !! fi_id_delatnosti f);
  wt_firma_number : forall i j f g, firms d !! i = Some f -> firms d !! j = Some g ->
    fi_maticni_broj f = fi_maticni_broj g \/ fi_poreski_broj f = fi_poreski_broj g -> i = j;
  wt_recipient : forall i m, recipients d !! i = Some m -> recipient_ok m;
  wt_recipient_account : forall i j m m', recipients d !! i = Some m -> recipients d !! j = Some m' ->
    pc_VlasnikID m = pc_VlasnikID m' -> pc_BrojRacuna m = pc_BrojRacuna m' -> i = j
}.

Definition keeps_types (d d' : DB) : Prop := well_typed d -> well_typed d'.

#[export] Instance keeps_types_preorder : PreOrder keeps_types.
Proof. split; unfold keeps_types; [by intros d|by intros d1 d2 d3 H1 H2 H; apply H2, H1]. Qed.

(** ** Statements *)

Lemma types_racun d i r' :
  (forall r, d_racun d !! i = Some r -> racun_ok r -> racun_ok r' /\ r_broj_racuna r' = r_broj_racuna r) ->
  (d_racun d !! i = None -> racun_ok r' /\ forall j r, d_racun d !! j = Some r -> r_broj_racuna r <> r_broj_racuna r') ->
  keeps_types d (set_racun (<[i := r']> (d_racun d)) d).
Proof.
  intros Hold Hnew [T1 T2 T3 T4 T5 T6 T7 T8 T9 T10].
  assert (Hk : forall id, known d id -> known (set_racun (<[i := r']> (d_racun d)) d) id).
  { intros id [r Hr]. unfold known. cbn. destruct (decide (id = i)) as [->|]; [by rewrite lookup_insert_eq|].
    rewrite lookup_insert_ne by done. by exists r. }
  assert (Hr' : racun_ok r' /\ forall j r, j <> i -> d_racun d !! j = Some r -> r_broj_racuna r <> r_broj_racuna r').
  { destruct (d_racun d !! i) as [r|] eqn:Er.
    - destruct (Hold r eq_refl (T1 i r Er)) as [H1 H2]. split; [done|]. intros j x Hj Hx E. apply Hj.
      apply (T2 j i x r); congruence.
    - destruct (Hnew eq_refl) as [H1 H2]. split; [done|]. intros j x _. apply H2. }
  destruct Hr' as [Hok Hnum]. split; cbn; [| | | | |exact T6|exact T7|exact T8|exact T9|exact T10].
  - intros j x. destruct (decide (j = i)) as [->|]; [rewrite lookup_insert_eq; by intros [= <-]|].
    rewrite lookup_insert_ne by done. apply T1.
  - intros j k x y. destruct (decide (j = i)) as [->|Hj], (decide (k = i)) as [->|Hki];
      rewrite ?lookup_insert_eq, ?lookup_insert_ne by done; [done| | |apply T2].
    + intros [= <-] Hy E. exfalso. by apply (Hnum k y).
    + intros Hx [= <-] E. exfalso. by apply (Hnum j x).
  - intros x Hx. destruct (T3 x Hx) as [H1 H2]. auto.
  - intros j a Ha. destruct (T4 j a Ha) as [H1 H2]. auto.
  - intros j m Hm. destruct (T5 j m Hm) as (H1 & H2 & H3 & H4). split_and!; [done|auto| |done].
    unfold known_opt in *. destruct (pi_RacunPrimaocaID m); auto.
Qed.

Lemma keeps_update_racun id g f :
  (forall r r', f r = Some r' -> racun_ok r -> racun_ok r' /\ r_broj_racuna r' = r_broj_racuna r) ->
  preserves keeps_types (sql (update_racun id g f)).
Proof.
  intros Hf. apply preserves_sql; [apply _|]. intros d n d' H.
  apply update_racun_inv in H as [(_ & ->)|(_ & r & r' & Hr & _ & E & ->)]; [reflexivity|].
  apply types_racun; [|congruence]. intros x Hx. assert (x = r) as -> by congruence. by apply Hf.
Qed.

Lemma keeps_insert_ledger opis id tip q : preserves keeps_types (insert_ledger opis id tip q).
Proof.
  unfold insert_ledger. apply preserves_sql; [apply _|]. intros d u d'. destruct (varchar 500 opis); [|done].
  unfold insert_transakcija, transakcija_rows. destruct (d_racun d !! id) as [r|] eqn:Er; [|done].
  destruct (store_cents q) as [c|] eqn:Ec; [|done]. intros [= _ <-] [T1 T2 T3 T4 T5 T6 T7 T8 T9 T10]. split; try done.
  cbn. intros x [Hx|Hx]%elem_of_app; [by apply T3|]. apply list_elem_of_singleton in Hx as ->. cbn.
  split; [by eapply numeric_store_fits|by exists r].
Qed.

Lemma keeps_actions d m :
  (forall i a, m !! i = Some a -> (well_typed d -> action_typed a /\ known d (pa_RacunID a))) ->
  (forall i, is_Some (actions d !! i) -> is_Some (m !! i)) -> keeps_types d (set_pending_action m d).
Proof.
  intros Hm Hd Hwt. pose proof Hwt as [T1 T2 T3 T4 T5 T6 T7 T8 T9 T10]. split; try done; cbn.
  - intros i a Ha. by apply (Hm i a).
  - intros i x Hx. destruct (T5 i x Hx) as (H1 & H2 & H3 & H4). split_and!; try done.
    destruct (pi_PendingActionID x); [by apply Hd|done].
Qed.

Lemma keeps_update_action id g f :
  (forall a a', f a = Some a' -> pa_RacunID a' = pa_RacunID a /\ (action_typed a -> action_typed a')) ->
  preserves keeps_types (sql (update_action id g f)).
Proof.
  intros Hf. apply preserves_sql; [apply _|]. intros d n d'. unfold update_action.
  destruct (update_row _ _ _ _) as [[k m]|] eqn:E; [|done]. intros [= _ <-].
  apply update_row_inv in E as [(_ & -> & _)|(_ & a & a' & Ha & _ & E & ->)].
  - apply keeps_actions; [|done]. intros i a Ha Hwt. by apply (wt_action _ Hwt i).
  - apply Hf in E as [E1 E2]. apply keeps_actions.
    + intros i x Hx Hwt. destruct (decide (i = id)) as [->|].
      * rewrite lookup_insert_eq in Hx. injection Hx as <-. rewrite E1.
        destruct (wt_action _ Hwt id a Ha) as [H1 H2]. auto.
      * rewrite lookup_insert_ne in Hx by done. by apply (wt_action _ Hwt i).
    + intros i Hi. destruct (decide (i = id)) as [->|]; [by rewrite lookup_insert_eq|by rewrite lookup_insert_ne].
Qed.

Lemma insert_action_types a i d j d' : action_typed a -> insert_action a i d = Ok (j, d') -> keeps_types d d'.
Proof.
  intros Hok H. pose proof H as H0. unfold insert_action in H0. destruct (d_racun d !! pa_RacunID a) as [r|] eqn:Er; [|done].
  apply insert_action_ok in H as (_ & Hn & ->). apply keeps_actions.
  - intros k x Hx Hwt. destruct (decide (k = i)) as [->|].
    + rewrite lookup_insert_eq in Hx. injection Hx as <-. split; [done|by exists r].
    + rewrite lookup_insert_ne in Hx by done. by apply (wt_action _ Hwt k).
  - intros k Hk. destruct (decide (k = i)) as [->|]; [by rewrite lookup_insert_eq|by rewrite lookup_insert_ne].
Qed.

Lemma keeps_insert_action a : action_typed a -> preserves keeps_types (sql_insert (insert_action a)).
Proof. intros Hok. apply preserves_sql_insert; [apply _|]. intros i d j d'. by apply insert_action_types. Qed.

(** What an order refers to. *)
Definition refers (d : DB) (m : paymentIntentModel) : Prop :=
  known d (pi_RacunPlatioceID m) /\ known_opt d (pi_RacunPrimaocaID m) /\
  match pi_PendingActionID m with Some aid => is_Some (actions d !! aid) | None => True end.

(** The rows of [m] are right, and their keys are those of rows there were, or new. *)
Lemma keeps_intents d m :
  (forall i x, m !! i = Some x -> (well_typed d -> intent_ok x /\ refers d x)) ->
  (well_typed d -> forall i j x y, m !! i = Some x -> m !! j = Some y -> pi_IdempotencyKey x = pi_IdempotencyKey y -> i = j) ->
  keeps_types d (set_payment_intent m d).
Proof.
  intros Hm Hk Hwt. pose proof Hwt as [T1 T2 T3 T4 T5 T6 T7 T8 T9 T10]. split; try done; cbn.
  - intros i x Hx. by apply (Hm i x).
  - by apply Hk.
Qed.

Lemma keeps_update_intent id g f :
  (forall x x', f x = Some x' -> order_terms x' = order_terms x /\ (intent_ok x -> intent_ok x')) ->
  preserves keeps_types (sql (update_intent id g f)).
Proof.
  intros Hf. apply preserves_sql; [apply _|]. intros d n d'. unfold update_intent.
  destruct (update_row _ _ _ _) as [[k m]|] eqn:E; [|done]. intros [= _ <-].
  assert (Hold : forall i x, intents d !! i = Some x -> well_typed d -> intent_ok x /\ refers d x)
    by (intros i x Hx Hwt; apply (wt_intent _ Hwt i x Hx)).
  apply update_row_inv in E as [(_ & -> & _)|(_ & a & a' & Ha & _ & E & ->)];
    [apply keeps_intents; [exact Hold|intros Hwt; apply (wt_key _ Hwt)]|].
  apply Hf in E as [E1 E2]. apply keeps_intents.
  2: { intros Hwt i j x y Hx Hy Exy.
    assert (K : forall l z, <[id := a']> (intents d) !! l = Some z -> exists z0, intents d !! l = Some z0 /\ pi_IdempotencyKey z0 = pi_IdempotencyKey z).
    { intros l z [[<- <-]|[_ Hz]]%lookup_insert_Some; [|by exists z]. exists a. split; [done|]. unfold order_terms in E1. congruence. }
    destruct (K i x Hx) as (x0 & Hx0 & Ex), (K j y Hy) as (y0 & Hy0 & Ey). apply (wt_key _ Hwt i j x0 y0); [done..|congruence]. }
  intros i x Hx Hwt. destruct (decide (i = id)) as [->|].
  - rewrite lookup_insert_eq in Hx. injection Hx as <-. destruct (Hold id a Ha Hwt) as [H1 H2]. split; [auto|].
    unfold order_terms in E1. unfold refers in *.
    assert (pi_RacunPlatioceID a' = pi_RacunPlatioceID a) as -> by congruence.
    assert (pi_RacunPrimaocaID a' = pi_RacunPrimaocaID a) as -> by congruence.
    assert (pi_PendingActionID a' = pi_PendingActionID a) as -> by congruence. done.
  - rewrite lookup_insert_ne in Hx by done. by apply (Hold i).
Qed.

Section types.
Context `{DL : decimal.Lib} `{PT : pg.Text}.

Lemma intent_row_ok k p m :
  intent_row k p = Some m -> intent_ok m /\ pi_RacunPlatioceID m = p_RacunPlatioceID p /\
    pi_RacunPrimaocaID m = p_RacunPrimaocaID p /\ pi_PendingActionID m = p_PendingActionID p /\ pi_IdempotencyKey m = k.
Proof.
  unfold intent_row. destruct (store_iznos (arg (p_Iznos p))) as [c1|] eqn:E1; [|done]. cbn.
  destruct (match p_KrajnjiIznos p with Some f => _ | None => _ end) as [c2|] eqn:E2; [|done]. cbn.
  destruct (store_iznos (arg (p_Provizija p))) as [c3|] eqn:E3; [|done]. cbn.
  destruct (store_micros _) as [c4|] eqn:E4; [|done]. cbn.
  destruct (_ && _) eqn:Eb; [|done]. intros [= <-]. repeat apply andb_prop in Eb as [Eb ?].
  assert (Hc2 : fits_opt 15 c2).
  { destruct (p_KrajnjiIznos p) as [x|]; [|by injection E2 as <-].
    apply fmap_Some in E2 as (c & E2 & ->). by eapply numeric_store_fits. }
  split; [|done]. split; try done; by eapply numeric_store_fits.
Qed.

Lemma has_row_known {A} id (m : gmap Z A) :
  has_row id m = true -> match id with Some i => is_Some (m !! i) | None => True end.
Proof. unfold has_row. destruct id as [i|]; [|done]. by destruct (m !! i). Qed.

Lemma keeps_insert_intent p : preserves keeps_types (sql_insert (insert_intent p)).
Proof.
  apply preserves_sql_insert; [apply _|]. intros i d j d' H. unfold insert_intent in H.
  destruct (pg.uuid_in _) as [k|]; [|done]. destruct (intent_row k p) as [m|] eqn:Em; [|done].
  destruct (find_intent k d) eqn:Ek; [done|]. destruct (_ && _) eqn:Eb; [|done].
  destruct (insert_row _ _ _) as [t|] eqn:Et; [|done]. injection H as <- <-. apply insert_row_ok in Et as [_ ->].
  apply intent_row_ok in Em as (Hok & E1 & E2 & E3 & E4). apply andb_prop in Eb as [Eb Ea]. apply andb_prop in Eb as [Ep Er].
  apply keeps_intents.
  2: { assert (Hnew : forall l x, intents d !! l = Some x -> pi_IdempotencyKey x <> k).
    { intros l x Hx Ex. unfold find_intent in Ek. apply head_None in Ek.
      assert (Hin : (l, x) ∈ filter (fun kv : Z * paymentIntentModel => pi_IdempotencyKey kv.2 = k) (map_to_list (intents d)))
        by (apply list_elem_of_filter; split; [done|by apply elem_of_map_to_list]).
      exact (proj1 (elem_of_nil _) (eq_ind _ (fun n => (l, x) ∈ n) Hin _ Ek)). }
    intros Hwt l1 l2 x y [[<- <-]|[_ Hx]]%lookup_insert_Some [[<- <-]|[_ Hy]]%lookup_insert_Some E; [done| | |by apply (wt_key _ Hwt l1 l2 x y)].
    - destruct (Hnew l2 y Hy). congruence.
    - destruct (Hnew l1 x Hx). congruence. }
  intros l x Hx Hwt. destruct (decide (l = i)) as [->|].
  - rewrite lookup_insert_eq in Hx. injection Hx as <-. split; [done|].
    unfold refers. rewrite E1, E2, E3. split_and!.
    + exact (has_row_known _ _ Ep).
    + exact (has_row_known _ _ Er).
    + exact (has_row_known _ _ Ea).
  - rewrite lookup_insert_ne in Hx by done. by apply (wt_intent _ Hwt l).
Qed.

(** ** Operations *)

Lemma fits_store q c : store_cents q = Some c -> fits 15 c.
Proof. apply numeric_store_fits. Qed.

Lemma debit_payer_ok q r r' : debit_payer q r = Some r' -> racun_ok r -> racun_ok r' /\ r_broj_racuna r' = r_broj_racuna r.
Proof.
  unfold debit_payer.
  intros (s & E1 & (d & E2 & (m & E3 & [= <-])%bind_Some)%bind_Some)%bind_Some [K1 K2 K3 K4 K5 K6 K7 K8 K9 K10].
  split; [|done]. split; try done; by eapply fits_store.
Qed.

Lemma moved_ok (f : Q -> Q) q r r' :
  (s ← store_cents (f q); Some (with_stanje s r)) = Some r' -> racun_ok r ->
  racun_ok r' /\ r_broj_racuna r' = r_broj_racuna r.
Proof.
  intros (s & E & [= <-])%bind_Some [K1 K2 K3 K4 K5 K6 K7 K8 K9 K10].
  split; [|done]. split; try done. by eapply fits_store.
Qed.

Lemma set_limits_ok dn ms r r' : set_limits dn ms r = Some r' -> racun_ok r -> racun_ok r' /\ r_broj_racuna r' = r_broj_racuna r.
Proof.
  unfold set_limits. intros H [K1 K2 K3 K4 K5 K6 K7 K8 K9 K10].
  assert (Hone : forall l old x, fits_opt 15 old ->
    (if f64_leb f64_zero l then Some <$> store_cents (arg l) else Some old) = Some x -> fits_opt 15 x).
  { intros l old x Ho. destruct (f64_leb f64_zero l); [|by intros [= <-]]. intros (c & E & ->)%fmap_Some. by eapply fits_store. }
  apply bind_Some in H as (d & E1 & H). apply bind_Some in H as (m & E2 & [= <-]).
  split; [|done]. split; try done; cbn; [exact (Hone _ _ _ K5 E1)|exact (Hone _ _ _ K6 E2)].
Qed.

Create HintDb types.
#[local] Hint Resolve keeps_update_racun keeps_insert_ledger keeps_update_action keeps_update_intent keeps_insert_intent
  keeps_insert_action : types.

Lemma exec_active_types id f :
  (forall r r', f r = Some r' -> racun_ok r -> racun_ok r' /\ r_broj_racuna r' = r_broj_racuna r) ->
  preserves keeps_types (exec_active id f).
Proof. intros Hf. unfold exec_active. apply preserves_bind; [apply _|by apply keeps_update_racun|intros; apply preserves_ret, _]. Qed.

Lemma add_types id q : preserves keeps_types (exec_active id (add_stanje q)).
Proof. apply exec_active_types. intros r r'. apply (moved_ok (fun q => cents (r_stanje_racuna r) + q)%Q). Qed.

Lemma sub_types id q : preserves keeps_types (exec_active id (sub_stanje q)).
Proof. apply exec_active_types. intros r r'. apply (moved_ok (fun q => cents (r_stanje_racuna r) - q)%Q). Qed.

Lemma debit_types id q : preserves keeps_types (exec_active id (debit_payer q)).
Proof. apply exec_active_types, debit_payer_ok. Qed.

Lemma cancel_types id g : preserves keeps_types (sql (update_action id g cancel_action)).
Proof. apply keeps_update_action. by intros a a' [= <-]. Qed.

Lemma count_types id g n : preserves keeps_types (sql (update_action id g (count_attempt n))).
Proof.
  apply keeps_update_action. intros a a'. unfold count_attempt, store_int. case_decide as H; [|done]. intros [= <-].
  split; [done|]. by intros [_ Hc].
Qed.

Lemma refuse_types id g s : preserves keeps_types (sql (update_intent id g (refuse_intent s))).
Proof. apply keeps_update_intent. intros x x' [= <-]. split; [done|]. by intros []. Qed.

Lemma realize_types id g q now : preserves keeps_types (sql (update_intent id g (realize_intent q now))).
Proof.
  apply keeps_update_intent. intros x x'. unfold realize_intent. intros (k & E & [= <-])%bind_Some. split; [done|]. intros []. split; try done. by eapply numeric_store_fits.
Qed.

#[local] Hint Resolve add_types sub_types debit_types cancel_types count_types refuse_types realize_types : types.

Lemma own_account_types id u er : preserves keeps_types (own_account id u er).
Proof. apply reads_preserves; [apply _|apply own_account_quiet]. Qed.

Lemma intent_by_key_types key : preserves keeps_types (intent_by_key key).
Proof. apply preserves_sql; [apply _|]. intros d a d'. destruct (pg.uuid_in key); [|done]. intros [= _ <-]. reflexivity. Qed.

#[local] Hint Resolve own_account_types intent_by_key_types : types.

Ltac solve_types := repeat first [solve [eauto with types] | solve_preserves_step].

Lemma VerifyAndExecute_types inp : preserves keeps_types (VerifyAndExecute inp).
Proof.
  unfold VerifyAndExecute, VerifyAndExecuteRow, verify_pending, check_code, execute_intent, code_expired, trezor_pair,
    move_money, through_treasury, credit_recipient. solve_types.
Qed.

Lemma VerifyAndApplyLimit_types inp : preserves keeps_types (VerifyAndApplyLimit inp).
Proof.
  unfold VerifyAndApplyLimit, code_expired. solve_types. apply keeps_update_racun. apply set_limits_ok.
Qed.

Lemma new_action_typed u id ty params opis now :
  action_typed (mkPendingAction u id ty params opis ACTION_PENDING None None 0 now).
Proof. by split. Qed.

Lemma CreatePaymentIntent_types inp : preserves keeps_types (CreatePaymentIntent inp).
Proof.
  unfold CreatePaymentIntent, CreateIntent, create_order, finish_create, generateBrojNaloga. solve_types.
  apply keeps_insert_action, new_action_typed.
Qed.

Lemma CreateTransfer_types inp : preserves keeps_types (CreateTransfer inp).
Proof.
  unfold CreateTransfer, CreateTransferIntent, create_order, finish_create, generateBrojNaloga. solve_types.
  apply keeps_insert_action, new_action_typed.
Qed.

Lemma UpdateAccountLimit_types inp : preserves keeps_types (UpdateAccountLimit inp).
Proof.
  unfold UpdateAccountLimit. solve_types. apply preserves_sql_insert; [apply _|]. intros i d j d'.
  destruct (is_finite _ && is_finite _); [|done]. apply insert_action_types, new_action_typed.
Qed.

Lemma ApprovePendingAction_types aid u : preserves keeps_types (ApprovePendingAction aid u).
Proof.
  unfold ApprovePendingAction. solve_types. apply keeps_update_action. intros x x'. unfold approve_action.
  destruct (varchar 6 _) eqn:Ev; [|done]. intros [= <-]. split; [done|]. by intros [H _].
Qed.

(** *** Accounts *)

Lemma racun_row_ok inp broj firma now d r :
  racun_row inp broj firma now d = Some r -> racun_ok r /\ r_broj_racuna r = broj.
Proof.
  unfold racun_row. intros (v & _ & (t & _ & (c & E & H)%bind_Some)%bind_Some)%bind_Some.
  destruct (_ && _) eqn:Eb; [|done]. injection H as <-. repeat apply andb_prop in Eb as [Eb ?].
  split; [|done]. split; try done; cbn; [by eapply fits_store|by destruct (String.eqb _ _)|by eapply bool_decide_eq_true].
Qed.

Lemma insert_racun_types inp broj firma now i d j d' : insert_racun inp broj firma now i d = Ok (j, d') -> keeps_types d d'.
Proof.
  unfold insert_racun. destruct (racun_row _ _ _ _ _) as [r|] eqn:Er; [|done].
  destruct (racun_by_number broj d) eqn:Eb; [done|]. destruct (insert_row _ _ _) as [m|] eqn:Em; [|done].
  apply insert_row_ok in Em as [Hn ->]. intros [= _ <-]. apply racun_row_ok in Er as [Hok Hnum].
  apply types_racun; [congruence|]. intros _. split; [done|]. intros k x Hx E. unfold racun_by_number in Eb.
  assert (Hin : (k, x) ∈ filter (fun kv : Z * racun => r_broj_racuna kv.2 = broj) (map_to_list (d_racun d))).
  { apply list_elem_of_filter. split; [cbn; congruence|]. by apply elem_of_map_to_list. }
  destruct (filter _ _); [by apply elem_of_nil in Hin|done].
Qed.

(** *** Firms and recipients *)

Lemma existsb_none {A} (f : A -> bool) l : existsb f l = false -> forall x, x ∈ l -> f x = false.
Proof. intros H x Hx. destruct (f x) eqn:E; [|done]. rewrite <- H. symmetry. apply existsb_exists. exists x. by rewrite <- list_elem_of_In. Qed.

Lemma insert_firma_types f i d j d' : insert_firma f i d = Ok (j, d') -> keeps_types d d'.
Proof.
  unfold insert_firma. destruct (_ && _) eqn:Eb; [|done]. destruct (bd_delatnost _ !! _) as [x|] eqn:Ed; [|done].
  destruct (insert_row _ _ _) as [t|] eqn:Et; [|done]. apply insert_row_ok in Et as [Hn ->]. intros [= _ <-].
  repeat apply andb_prop in Eb as [Eb ?]. unfold firma_unique in Eb. apply negb_true_iff in Eb.
  assert (Hnew : forall k g, firms d !! k = Some g -> fi_maticni_broj g <> fi_maticni_broj f /\ fi_poreski_broj g <> fi_poreski_broj f).
  { intros k g Hg. pose proof (existsb_none _ _ Eb (k, g) ltac:(by apply elem_of_map_to_list)) as K. cbn in K.
    apply orb_false_iff in K as [K1%String.eqb_neq K2%String.eqb_neq]. done. }
  intros [T1 T2 T3 T4 T5 T6 T7 T8 T9 T10]. split; try done; unfold firms; cbn.
  - intros k g [[<- <-]|[_ Hg]]%lookup_insert_Some; [|by apply (T7 k)]. split; [by split|]. by exists x.
  - intros k l g h [[<- <-]|[_ Hg]]%lookup_insert_Some [[<- <-]|[_ Hh]]%lookup_insert_Some E; [done| | |by apply (T8 k l g h)].
    + destruct (Hnew l h Hh) as [N1 N2]. destruct E as [E|E]; by symmetry in E.
    + destruct (Hnew k g Hg) as [N1 N2]. by destruct E.
Qed.

(** A row that passes the checks, in its place. *)
Lemma recipient_types i m d :
  recipient_check i m (recipients d) = true -> keeps_types d (set_payment_recipient (<[i := m]> (recipients d)) d).
Proof.
  unfold recipient_check. intros Hc [T1 T2 T3 T4 T5 T6 T7 T8 T9 T10]. apply andb_prop in Hc as [Hc Hu].
  apply andb_prop in Hc as [H1 H2]. apply negb_true_iff in Hu.
  assert (Hnew : forall k x, recipients d !! k = Some x -> pc_VlasnikID x = pc_VlasnikID m -> pc_BrojRacuna x = pc_BrojRacuna m -> k = i).
  { intros k x Hx E1 E2. pose proof (existsb_none _ _ Hu (k, x) ltac:(by apply elem_of_map_to_list)) as K. cbn in K.
    rewrite E1, E2, Z.eqb_refl, String.eqb_refl, !andb_true_r in K. apply negb_false_iff in K. lia. }
  split; try done; unfold recipients; cbn.
  - intros k x [[<- <-]|[_ Hx]]%lookup_insert_Some; [by split|by apply (T9 k)].
  - intros k l x y [[<- <-]|[_ Hx]]%lookup_insert_Some [[<- <-]|[_ Hy]]%lookup_insert_Some E1 E2; [done| | |by apply (T10 k l x y)].
    + symmetry. by apply (Hnew l y).
    + by apply (Hnew k x).
Qed.

Lemma CreateAccount_types fuel inp : preserves keeps_types (CreateAccount fuel inp).
Proof.
  assert (Hg : forall n prefix, preserves keeps_types (generateAccountNumber n prefix)).
  { induction n as [|n IH]; intros prefix; cbn [generateAccountNumber]; solve_types. }
  unfold CreateAccount, validateCurrency, GetCurrencyByID, CreateAccountRow, create_firma. solve_types;
    (apply preserves_sql_insert; [apply _|]); intros i d j d'; [apply insert_firma_types|apply insert_racun_types].
Qed.

Lemma RenameAccount_types inp : preserves keeps_types (RenameAccount inp).
Proof.
  unfold RenameAccount, exec_racun. solve_types. apply keeps_update_racun. intros x x'.
  destruct (varchar 255 _) eqn:Ev; [|done]. intros [= <-] [K1 K2 K3 K4 K5 K6 K7 K8 K9 K10]. split; [|done]. by split.
Qed.

Lemma CreateRecipient_types u naziv broj : preserves keeps_types (CreateRecipient u naziv broj).
Proof.
  unfold CreateRecipient, RecipientCreate. solve_types. apply preserves_sql_insert; [apply _|]. intros i d j d'.
  unfold insert_recipient. destruct (recipient_check _ _ _) eqn:Ec; [|done]. destruct (insert_row _ _ _) as [t|] eqn:Et; [|done].
  apply insert_row_ok in Et as [_ ->]. intros [= _ <-]. by apply recipient_types.
Qed.

Lemma UpdateRecipient_types id u naziv broj : preserves keeps_types (UpdateRecipient id u naziv broj).
Proof.
  unfold UpdateRecipient, RecipientGetByID, RecipientUpdate. solve_types. apply preserves_sql; [apply _|]. intros d n d'.
  unfold update_recipient. destruct (update_row _ _ _ _) as [[k m]|] eqn:Eu; [|done]. intros [= _ <-].
  apply update_row_inv in Eu as [(_ & -> & _)|(_ & x & x' & Hx & _ & E & ->)].
  - intros [T1 T2 T3 T4 T5 T6 T7 T8 T9 T10]. by split.
  - cbv zeta in E. destruct (recipient_check _ _ _) eqn:Ec; [|done]. injection E as <-. by apply recipient_types.
Qed.

Lemma DeleteRecipient_types id u : preserves keeps_types (DeleteRecipient id u).
Proof.
  unfold DeleteRecipient, RecipientDelete. solve_types. apply preserves_sql; [apply _|]. intros d n d'.
  destruct (own_recipient _ _ _); [|by intros [= _ <-]]. intros [= _ <-] [T1 T2 T3 T4 T5 T6 T7 T8 T9 T10].
  split; try done; unfold recipients; cbn.
  - intros k x [_ Hx]%lookup_delete_Some. by apply (T9 k).
  - intros k l x y [_ Hx]%lookup_delete_Some [_ Hy]%lookup_delete_Some. by apply (T10 k l x y).
Qed.

(** ** Requests *)

Inductive account_request : Type :=
  | ReqCreateAccount (fuel : nat) (inp : CreateAccountInput)
  | ReqRename (inp : RenameAccountInput)
  | ReqLimit (inp : UpdateLimitInput)
  | ReqConfirm (actionID userID : Z)
  | ReqApplyLimit (inp : VerifyLimitInput)
  | ReqPayment (inp : CreatePaymentIntentInput)
  | ReqTransfer (inp : CreateTransferIntentInput)
  | ReqExchange (userID : Z) (req : exchangeTransferRequest)
  | ReqVerify (inp : VerifyPaymentInput)
  | ReqNewRecipient (userID : Z) (naziv broj : string)
  | ReqEditRecipient (id userID : Z) (naziv broj : string)
  | ReqDropRecipient (id userID : Z).

Definition serve (q : account_request) : M unit :=
  match q with
  | ReqCreateAccount fuel inp => CreateAccount fuel inp ;; mret tt
  | ReqRename inp => RenameAccount inp
  | ReqLimit inp => UpdateAccountLimit inp ;; mret tt
  | ReqConfirm aid u => ApprovePendingAction aid u ;; mret tt
  | ReqApplyLimit inp => VerifyAndApplyLimit inp
  | ReqPayment inp => CreatePaymentIntent inp ;; mret tt
  | ReqTransfer inp => CreateTransfer inp ;; mret tt
  | ReqExchange u req => ExchangeTransfer u req ;; mret tt
  | ReqVerify inp => VerifyAndExecute inp ;; mret tt
  | ReqNewRecipient u n b => CreateRecipient u n b ;; mret tt
  | ReqEditRecipient id u n b => UpdateRecipient id u n b ;; mret tt
  | ReqDropRecipient id u => DeleteRecipient id u
  end.

(** One request after the other, whatever each answers. *)
Definition serve_all (qs : list account_request) : M unit := for_each qs (fun q => try (serve q) ;; mret tt).

#[local] Hint Resolve CreateAccount_types RenameAccount_types UpdateAccountLimit_types ApprovePendingAction_types
  VerifyAndApplyLimit_types CreatePaymentIntent_types CreateTransfer_types VerifyAndExecute_types CreateRecipient_types
  UpdateRecipient_types DeleteRecipient_types : types.

Lemma serve_types q : preserves keeps_types (serve q).
Proof. destruct q; cbn [serve]; unfold ExchangeTransfer; solve_types. Qed.

(** C27: the tables of accounts and payments stay well typed.  Any sequence of requests
    on accounts, limits, payments, exchanges and recipients, whatever fails on the
    way, leaves every amount of accounts, ledger rows and orders within its NUMERIC
    column; every text of accounts, orders, actions, firms and recipients within its
    VARCHAR; the keys unique: account numbers, the idempotency keys of orders, the two
    numbers of a firm, the account numbers of an owner's recipients; the attempts of an
    action a 32-bit integer; and in place every account, action and field of business
    that a ledger row, an action, an order or a firm refers to. *)
Theorem account_tables_stay_typed qs e w r w' :
  serve_all qs e w = (r, w') -> well_typed (w_db w) -> well_typed (w_db w').
Proof.
  intros H. refine (preserves_for_each keeps_types qs _ _ e w r w' H). intros q _.
  apply preserves_bind; [apply _|apply preserves_try, serve_types|intros; apply preserves_ret, _].
Qed.

End types.
