(* ===== verification/PaymentExamples.v ===== *)
(** * The payment theorems applied to a concrete bank

    Client 7 has a dinar account of 10000 and a euro account, client 8 a dinar
    account; order 41 pays 1000 dinars to client 8, order 42 changes 1170 dinars into
    10 euros, both with approved actions; action 33 is an approved change of limits. *)

From stdpp Require Import list relations pretty.
From S2P Require Import Prelude Numeric DecimalModel Domain InterbankTables Tables Store StoreFacts OrderRepo.
From S2P Require Import Market FundsManager FundsSafety FundsTransfers Scenario GoMath AccountRepo PaymentRepo.
From S2P Require Import PaymentFacts PaymentRuns PaymentSpecs PaymentLifecycle PaymentOrders.
From S2P Require Import AccountTypes.
#[local] Open Scope string_scope.
#[local] Open Scope Z_scope.

Module payment_bank.
#[local] Existing Instance decimal_model.lib.

(** A UUID is read as some number; the empty text is none. *)
#[local] Instance texts : pg.Text := {|
  pg.uuid_in s := if String.eqb s EmptyString then None else Some (Npos (encode s));
  pg.uuid_out n := pretty n;
  pg.ilike _ _ := true |}.

Definition info (dnevni : Z) : racunInfo :=
  mkRacunInfo 1 None "TEKUCI" None "racun" 0 0 (Some dnevni) (Some 0) 0 0.

Definition racuni : gmap Z racun :=
list_to_map
  [(10, mkRacun "100" 7 "RSD" LICNI AKTIVAN 1000000 0 (info 500000));
   (11, mkRacun "110" 7 "EUR" LICNI AKTIVAN 50000 0 (info 0));
   (12, mkRacun "120" 8 "RSD" LICNI AKTIVAN 200000 0 (info 0));
   (20, mkRacun "666000122200000007" 2 "RSD" POSLOVNI AKTIVAN 1000000000 0 (info 0));
   (21, mkRacun "666000122200000009" 2 "EUR" POSLOVNI AKTIVAN 1000000000 0 (info 0))].

Definition action (ty : ActionType) (params : ActionParams) : pendingActionModel :=
  mkPendingAction 7 10 ty params "" ACTION_APPROVED (Some "123456") (Some 400) 0 50.

Definition akcije : gmap Z pendingActionModel :=
list_to_map
  [(31, action ACTION_PLACANJE (ParamsSifra "289")); (32, action ACTION_PRENOS (ParamsPrenos 11));
   (33, action ACTION_PROMENA_LIMITA (ParamsLimit (f64_of_Z 9000) (f64_of_Z 90000)))].

Definition placanje : paymentIntentModel :=
  mkPaymentIntent 1 "NAL00000000001" PLACANJE 10 "100" (Some 12) "120" "Pera" 10000000 None 0 0 "" "RSD" "289" ""
    "kirija" U_OBRADI (Some 31) 7 50 None None "".

Definition konverzija : paymentIntentModel :=
  mkPaymentIntent 2 "NAL00000000002" PRENOS 10 "100" (Some 11) "110" "Interni prenos" 11700000 (Some 100000) 0 8547
    "EUR" "RSD" "" "" "menjacnica" U_OBRADI (Some 32) 7 50 None None "".

Definition nalozi : gmap Z paymentIntentModel := list_to_map [(41, placanje); (42, konverzija)].

Definition valute : gmap Z valuta := list_to_map [(1, mkValuta "Dinar" "RSD" true); (2, mkValuta "Evro" "EUR" true)].

Definition db1 : DB :=
  mkDB racuni [] ∅ [] [] [] ∅ [] ∅ ∅ ∅ ∅ ∅ (mkBankDB valute ∅ ∅ akcije nalozi ∅ ∅ ∅ ∅ funds_empty) otc_empty.
Definition w1 : World := scenario.at_db db1.

(** The right code for both orders. *)
Definition pay : VerifyPaymentInput := mkVerifyPayment 41 "123456" 7.
Definition change : VerifyPaymentInput := mkVerifyPayment 42 "123456" 7.
Definition paid := VerifyAndExecute pay scenario.quiet w1.
Definition changed := VerifyAndExecute change scenario.quiet w1.

(** Finite maps of a few rows, case by case. *)
Ltac rows :=
  repeat match goal with
  | H : _ !! _ = Some _ |- _ =>
      apply elem_of_list_to_map_2 in H;
      repeat (apply elem_of_cons in H as [[= -> ->]|H]); [..|by apply elem_of_nil in H]
  end.

Definition balance (id : Z) (w : World) : option Z := r_stanje_racuna <$> d_racun (w_db w) !! id.

(** 1000 dinars from client 7 to client 8; 1170 dinars for 10 euros through the
    treasury. *)
Example payments_execute :
  (balance 10 paid.2, balance 12 paid.2) = (Some 900000, Some 300000) /\
  (balance 10 changed.2, balance 11 changed.2, balance 20 changed.2, balance 21 changed.2)
    = (Some 883000, Some 51000, Some 1000117000, Some 999999000).
Proof. vm_compute. done. Qed.

Lemma verify_refines_witness :
  w_depth w1 = O /\ verified change scenario.quiet (w_db w1) changed.1 (w_db changed.2).
Proof.
  split; [done|]. apply (verify_refines change scenario.quiet w1 changed.1 changed.2); [done|].
  apply surjective_pairing.
Defined.

Lemma konverzija_consistent : consistent_order db1 konverzija.
Proof.
  split; [split; [split; [vm_compute; reflexivity|vm_compute; discriminate]|exists 100000; split; [vm_compute; reflexivity|vm_compute; discriminate]]|].
  split; [intros p Hp; vm_compute in Hp; by injection Hp as <-|]. intros H. vm_compute in H. discriminate.
Qed.

Lemma payment_conserves_witness :
  intents (w_db w1) !! vp_IntentID change = Some konverzija /\ consistent_order (w_db w1) konverzija /\
  (total "EUR" (d_racun (w_db changed.2)) = total "EUR" (d_racun (w_db w1)) \/
   exists p, changed.1 = Ok p /\ pi_Status konverzija = U_OBRADI /\
     total "EUR" (d_racun (w_db changed.2)) = total "EUR" (d_racun (w_db w1)) - paid_outside "EUR" konverzija (w_db w1)).
Proof.
  split; [vm_compute; reflexivity|]. split; [exact konverzija_consistent|].
  apply (payment_conserves "EUR" change scenario.quiet w1 changed.1 changed.2 konverzija).
  - reflexivity.
  - apply surjective_pairing.
  - vm_compute. reflexivity.
  - exact konverzija_consistent.
Defined.

Lemma action_is_ok ty params : action_ok (action ty params).
Proof. split; cbn; try done; try lia. Qed.

Lemma pay_pending : pending_order pay placanje 31 (action ACTION_PLACANJE (ParamsSifra "289")) db1.
Proof. split; vm_compute; reflexivity. Qed.

Lemma pay_payable : payable placanje (mkRacun "100" 7 "RSD" LICNI AKTIVAN 1000000 0 (info 500000)) 100000 10000000 10000000 db1.
Proof.
  split.
  - vm_compute. reflexivity.
  - reflexivity.
  - vm_compute. reflexivity.
  - intros H. vm_compute in H. discriminate.
  - vm_compute. reflexivity.
  - split; [vm_compute; reflexivity|vm_compute; discriminate].
  - split; [vm_compute; reflexivity|vm_compute; discriminate].
  - split; vm_compute; discriminate.
  - intros i r Hr. rows; vm_compute; done.
  - split_and!; vm_compute; reflexivity.
  - vm_compute. reflexivity.
Qed.

Lemma payment_executes_witness :
  payable placanje (mkRacun "100" 7 "RSD" LICNI AKTIVAN 1000000 0 (info 500000)) 100000 10000000 10000000 (w_db w1) /\
  exists p w' now t1 t2, VerifyAndExecute pay scenario.quiet w1 = (Ok p, w') /\ p_ID p = vp_IntentID pay /\
    p_Status p = REALIZOVANO /\ p_KrajnjiIznos p = Some (creditAmount placanje) /\
    w_db w' = executed_db (vp_IntentID pay) placanje 31 10000000 now t1 t2 (w_db w1).
Proof.
  split; [exact pay_payable|].
  apply (payment_executes pay scenario.quiet w1 placanje 31 (action ACTION_PLACANJE (ParamsSifra "289")) 400
           (mkRacun "100" 7 "RSD" LICNI AKTIVAN 1000000 0 (info 500000)) 100000 10000000 10000000).
  - exact scenario.quiet_no_faults.
  - reflexivity.
  - reflexivity.
  - discriminate.
  - exact pay_pending.
  - reflexivity.
  - reflexivity.
  - intros n. vm_compute. discriminate.
  - exact pay_payable.
Defined.

Lemma db1_payment_inv : payment_inv db1.
Proof.
  split.
  - intros aid a Ha. rows; apply action_is_ok.
  - intros i m Hm. rows; eexists _, _; (split; [reflexivity|split; [vm_compute; reflexivity|split; [reflexivity|done]]]).
  - intros i j m m' Hm Hm'. rows; done.
  - intros i j m m' Hm Hm'. rows; done.
Qed.

Lemma payment_lifecycle_witness :
  payment_inv db1 /\ rtc payment_step db1 (w_db changed.2) /\
  payment_inv (w_db changed.2) /\ keeps_orders db1 (w_db changed.2).
Proof.
  assert (Hs : rtc payment_step db1 (w_db changed.2)).
  { eapply rtc_l; [|apply rtc_refl]. by apply (step_verify db1 (w_db changed.2) change scenario.quiet w1 changed.1 changed.2);
      [..|apply surjective_pairing|]. }
  split; [exact db1_payment_inv|]. split; [exact Hs|]. apply (payment_lifecycle db1 (w_db changed.2)); [exact db1_payment_inv|exact Hs].
Defined.

(** Two wrong codes, then a third. *)
Definition wrong : list string := ["000000"; "111111"; "222222"].

Lemma three_wrong_codes_witness :
  Forall (fun c => c <> EmptyString /\ c <> "123456") wrong /\
  exists w' m' w'', guess_all 41 7 wrong scenario.quiet w1 = (Ok tt, w') /\ money (w_db w') = money (w_db w1) /\
    intents (w_db w') !! 41 = Some m' /\ pi_Status m' = ODBIJENO /\
    VerifyAndExecute (mkVerifyPayment 41 "123456" 7) scenario.quiet w' = (Err ErrPaymentAlreadyFailed, w'') /\
    w_db w'' = w_db w'.
Proof.
  assert (Hc : Forall (fun c => c <> EmptyString /\ c <> "123456") wrong) by (repeat constructor; discriminate).
  split; [exact Hc|].
  apply (three_wrong_codes scenario.quiet scenario.quiet_no_faults 41 7 wrong placanje 31
           (action ACTION_PLACANJE (ParamsSifra "289")) "123456" 400 w1).
  - split; [reflexivity|by split].
  - split; vm_compute; reflexivity.
  - apply action_is_ok.
  - reflexivity.
  - discriminate.
  - reflexivity.
  - intros n. vm_compute. discriminate.
  - exact Hc.
  - vm_compute. discriminate.
Defined.

(** Five wrong codes on the change of limits. *)
Definition many : list string := ["1"; "2"; "3"; "4"; "5"].
Definition limited : racun :=
  mkRacun "100" 7 "RSD" LICNI AKTIVAN 1000000 0 (mkRacunInfo 1 None "TEKUCI" None "racun" 0 0 (Some 900000) (Some 9000000) 0 0).

Lemma limit_code_never_locks_witness :
  ("123456" ∉ many) /\
  exists w' w'', guess_limits 33 7 many scenario.quiet w1 = (Ok tt, w') /\ w_db w' = w_db w1 /\
    VerifyAndApplyLimit (mkVerifyLimit 7 33 "123456") scenario.quiet w' = (Ok tt, w'') /\
    w_db w'' = limits_db 33 (action ACTION_PROMENA_LIMITA (ParamsLimit (f64_of_Z 9000) (f64_of_Z 90000))) limited (w_db w1).
Proof.
  assert (Hn : "123456" ∉ many) by (apply (bool_decide_unpack _); vm_compute; exact I).
  split; [exact Hn|].
  apply (limit_code_never_locks scenario.quiet scenario.quiet_no_faults 33 7 many "123456"
           (action ACTION_PROMENA_LIMITA (ParamsLimit (f64_of_Z 9000) (f64_of_Z 90000))) 400 (f64_of_Z 9000) (f64_of_Z 90000)
           (mkRacun "100" 7 "RSD" LICNI AKTIVAN 1000000 0 (info 500000)) limited w1).
  - split; [reflexivity|by split].
  - vm_compute. reflexivity.
  - reflexivity.
  - reflexivity.
  - reflexivity.
  - intros n. vm_compute. discriminate.
  - exact Hn.
  - reflexivity.
  - vm_compute. reflexivity.
  - vm_compute. reflexivity.
  - vm_compute. reflexivity.
  - vm_compute. reflexivity.
Defined.

(** A payment of 50 dinars, asked for twice with different amounts. *)
Definition order (amount : Z) : CreatePaymentIntentInput :=
  mkCreatePayment "key" 10 "120" "Pera" (f64_of_Z amount) "289" "" "" 7.
Definition ordered := CreatePaymentIntent (order 50) scenario.quiet w1.
Definition the_order : PaymentIntent * Z :=
  match ordered.1 with Ok x => x | Err _ => (intentToDomain 0 placanje, 0) end.

Lemma payment_key_is_idempotent_witness :
  ordered = (Ok (the_order.1, the_order.2), ordered.2) /\
  exists w2, CreatePaymentIntent (order 70) scenario.quiet ordered.2 = (Ok (the_order.1, the_order.2), w2) /\
    w_db w2 = w_db ordered.2.
Proof.
  assert (H : ordered = (Ok (the_order.1, the_order.2), ordered.2)) by (vm_compute; reflexivity).
  split; [exact H|].
  apply (payment_key_is_idempotent (order 50) (order 70) scenario.quiet w1 the_order.1 the_order.2 ordered.2).
  - exact scenario.quiet_no_faults.
  - exact H.
  - reflexivity.
  - vm_compute. reflexivity.
Defined.

(** One dinar is exchanged for a thousand euros. *)
Definition greedy : exchangeTransferRequest := mkExchangeTransfer "gold" 10 11 (f64_of_Z 1) (f64_of_Z 1000) "".
Definition exchanged := ExchangeTransfer 7 greedy scenario.quiet w1.
Definition the_exchange : PaymentIntent * Z :=
  match exchanged.1 with Ok x => x | Err _ => (intentToDomain 0 placanje, 0) end.

Lemma exchange_trusts_the_client_witness :
  exchanged = (Ok (the_exchange.1, the_exchange.2), exchanged.2) /\
  exists i m c, intents (w_db exchanged.2) !! i = Some m /\ pi_InitiatedByUserID m = 7 /\ pi_Status m = U_OBRADI /\
    store_iznos (arg (et_Amount greedy)) = Some (pi_Iznos m) /\
    store_iznos (arg (et_ConvertedAmount greedy)) = Some c /\ pi_KrajnjiIznos m = Some c.
Proof.
  assert (H : exchanged = (Ok (the_exchange.1, the_exchange.2), exchanged.2)) by (vm_compute; reflexivity).
  split; [exact H|].
  apply (exchange_trusts_the_client 7 greedy scenario.quiet w1 the_exchange.1 the_exchange.2 exchanged.2 (Npos (encode "gold"))).
  - exact H.
  - reflexivity.
  - vm_compute. reflexivity.
  - vm_compute. reflexivity.
  - vm_compute. reflexivity.
Defined.

(** The number of a current account. *)
Definition numbered := generateAccountNumber 1 "666000111" scenario.quiet w1.
Definition the_number : string := match numbered.1 with Ok (Some n) => n | _ => EmptyString end.

Lemma account_number_checks_witness :
  numbered = (Ok (Some the_number), numbered.2) /\
  String.length the_number = 18%nat /\ String.prefix "666000111" the_number = true /\ digit_sum the_number mod 11 = 0.
Proof.
  assert (H : numbered = (Ok (Some the_number), numbered.2)) by (vm_compute; reflexivity).
  split; [exact H|].
  apply (account_number_checks 1 "TEKUCI" "LICNI" "standardni" "666000111" scenario.quiet w1 the_number numbered.2).
  - vm_compute. reflexivity.
  - exact H.
Defined.

Lemma db1_typed : well_typed db1.
Proof.
  split.
  - intros i r Hr. rows; (split; [..|cbn; set_solver]; vm_compute; done).
  - intros i j r r' Hr Hr'. rows; done.
  - intros x Hx. by apply elem_of_nil in Hx.
  - intros i a Ha. rows; (split; [split; [split; vm_compute; done|vm_compute; reflexivity]|by eexists]).
  - intros i m Hm. rows; (split; [split; vm_compute; done|split_and!; by eexists]).
  - intros i j m m' Hm Hm'. rows; done.
  - intros i f Hf. by vm_compute in Hf.
  - intros i j f g Hf Hg. by vm_compute in Hf.
  - intros i m Hm. by vm_compute in Hm.
  - intros i j m m' Hm Hm'. by vm_compute in Hm.
Qed.

(** A change of limits, a payment, its wrong and its right code. *)
Definition requests : list account_request :=
  [ReqLimit (mkUpdateLimit 7 10 (f64_of_Z 9) (f64_of_Z 90)); ReqPayment (order 50);
   ReqVerify (mkVerifyPayment 41 "000000" 7); ReqVerify pay; ReqExchange 7 greedy].
Definition served := serve_all requests scenario.quiet w1.

Lemma account_tables_stay_typed_witness : well_typed (w_db w1) /\ well_typed (w_db served.2).
Proof.
  split; [exact db1_typed|].
  apply (account_tables_stay_typed requests scenario.quiet w1 served.1 served.2); [apply surjective_pairing|exact db1_typed].
Defined.

End payment_bank.
