(* ===== verification/OtcRepo.v ===== *)
(** * Over-the-counter offers and contracts ([domain/otc.go],
    [repository/otc_repository.go], [repository/otc_payment.go],
    [service/otc_service.go])

    The structs of the module, one definition per method of the repository, the
    payment of the premium, and the negotiation.  A settlement date is the number of
    its day, midnight UTC.  The descriptions of the ledger rows are left out. *)

From stdpp Require Import list sorting.
From Stdlib Require Import SpecFloat.
From S2P Require Import Prelude Numeric Domain Tables Store StoreFacts OrderRepo Market FundsManager.
From S2P Require Import GoMath AccountRepo PaymentRepo.
#[local] Open Scope string_scope.
#[local] Open Scope Z_scope.

(** ** Structs *)

Record OTCOffer : Type := mkOffer {
  ofr_ID : Z;
  ofr_ListingID : Z;
  ofr_SellerID : Z;
  ofr_BuyerID : Z;
  ofr_BuyerAccountID : Z;
  ofr_SellerAccountID : option Z;
  ofr_Amount : Z;
  ofr_PricePerStock : float64;
  ofr_Premium : float64;
  ofr_SettlementDate : Z;
  ofr_Status : OTCOfferStatus;
  ofr_LastModified : Z;
  ofr_ModifiedBy : Z;
  ofr_CreatedAt : Z;
  ofr_SellerBankID : option Z;
  ofr_BuyerBankID : option Z
}.

Record OTCContract : Type := mkContract {
  ctr_ID : Z;
  ctr_OfferID : Z;
  ctr_ListingID : Z;
  ctr_SellerID : Z;
  ctr_BuyerID : Z;
  ctr_BuyerAccountID : Z;
  ctr_SellerAccountID : Z;
  ctr_Amount : Z;
  ctr_StrikePrice : float64;
  ctr_Premium : float64;
  ctr_SettlementDate : Z;
  ctr_Status : OTCContractStatus;
  ctr_CreatedAt : Z;
  ctr_ExercisedAt : option Z;
  ctr_SellerBankID : option Z;
  ctr_BuyerBankID : option Z
}.

(** The terms of one side of a history entry, as the service passes them. *)
Record entryTerms : Type := mkEntryTerms {
  et_Terms_Amount : Z;
  et_Terms_PricePerStock : float64;
  et_Terms_Premium : float64;
  et_Terms_SettlementDate : Z
}.

Record OTCOfferHistoryEntry : Type := mkHistoryEntry {
  he_ID : Z;
  he_OfferID : Z;
  he_Action : HistoryAction;
  he_ChangedBy : Z;
  he_New : option entryTerms;
  he_Old : option entryTerms;
  he_NewStatus : option OTCOfferStatus;
  he_CreatedAt : Z
}.

Record ListOTCOffersFilter : Type := mkOffersFilter {
  lf_UserID : Z;
  lf_Status : option string;
  lf_Role : string;
  lf_OnlyMyTurn : bool;
  lf_BankFilter : string;
  lf_OwnBankID : Z;
  lf_UserType : string
}.

Record OTCOfferListItem : Type := mkOfferItem {
  oi_Offer : OTCOffer;
  oi_Ticker : string;
  oi_StockName : string;
  oi_Exchange : string;
  oi_MarketPriceUSD : float64;
  oi_NeedsReview : bool;
  oi_PriceDeviationPct : float64;
  oi_PriceColor : string
}.

Record OTCMarketplaceItem : Type := mkMarketplaceItem {
  mi_ListingID : Z;
  mi_Ticker : string;
  mi_StockName : string;
  mi_Exchange : string;
  mi_MarketPriceUSD : float64;
  mi_SellerID : Z;
  mi_AvailableQuantity : Z
}.

Record ListCompletedOffersFilter : Type := mkCompletedFilter {
  cf_UserID : Z;
  cf_Status : option OTCOfferStatus;
  cf_From : option Z;
  cf_To : option Z;
  cf_CounterpartID : option Z
}.

Record NegotiationHistoryItem : Type := mkNegotiation {
  ni_Offer : OTCOffer;
  ni_Ticker : string;
  ni_StockName : string;
  ni_Exchange : string;
  ni_History : list OTCOfferHistoryEntry
}.

Record OTCPremiumTransferInput : Type := mkPremium {
  pt_OfferID : Z;
  pt_BuyerAccountID : Z;
  pt_SellerAccountID : Z;
  pt_AmountInListingCurrency : float64;
  pt_ListingCurrency : string;
  pt_InitiatedByUserID : Z
}.

(** ** Statements *)

(** A query that reads the clock of the server or the tables of listings. *)
Definition sql_env {A} (f : Env -> nat -> DB -> A) : M A := fun e w => sql_read (f e (w_step w)) e w.

(** [NOW()]. *)
Definition sql_now {A} (f : Z -> DB -> A) : M A := sql_env (fun e n => f (env_now e n)).

(** [settlement_date >= NOW()]: a date is compared as its midnight. *)
Definition live (now day : Z) : bool := now <=? 86400 * day.

Definition update_offer id guard f (d : DB) : result (Z * DB) :=
  match update_row id guard f (otc_offers (d_otc d)) with
  | Ok (n, m) => Ok (n, set_otc_offers m d)
  | Err er => Err er
  end.

Definition update_contract id guard f (d : DB) : result (Z * DB) :=
  match update_row id guard f (otc_contracts (d_otc d)) with
  | Ok (n, m) => Ok (n, set_otc_contracts m d)
  | Err er => Err er
  end.

(** The shares a user published of a listing: [SUM(quantity)]. *)
Definition published (userID listingID : Z) (s : publicShare) : bool :=
  (ps_UserID s =? userID) && (ps_ListingID s =? listingID).
Definition public_qty (userID listingID : Z) (d : DB) : Z :=
  zsum (fun s => if published userID listingID s then ps_Quantity s else 0) (d_public_shares d).

(** What an offer, and a contract, takes out of them at [now]. *)
Definition offer_claim (sellerID listingID now : Z) (m : otcOfferModel) : Z :=
  if (of_SellerID m =? sellerID) && (of_ListingID m =? listingID) && bool_decide (of_Status m = OTCOfferPending)
     && live now (of_SettlementDate m)
  then of_Amount m else 0.
Definition contract_claim (sellerID listingID now : Z) (m : otcContractModel) : Z :=
  if (oc_SellerID m =? sellerID) && (oc_ListingID m =? listingID) && bool_decide (oc_Status m = OTCContractValid)
     && live now (oc_SettlementDate m)
  then oc_Amount m else 0.

(** [SUM(amount) ... AND id <> ?]. *)
Definition pending_sum (sellerID listingID excludeOfferID now : Z) (d : DB) : Z :=
  msum (offer_claim sellerID listingID now) (delete excludeOfferID (otc_offers (d_otc d))).
Definition contract_sum (sellerID listingID now : Z) (d : DB) : Z :=
  msum (contract_claim sellerID listingID now) (otc_contracts (d_otc d)).

(** The columns of an offer that a counter-offer changes. *)
Definition countered (amount price premium day : Z) (sellerAcc : option Z) (now by_ : Z) (m : otcOfferModel)
    : otcOfferModel :=
  mkOfferModel (of_ListingID m) (of_SellerID m) (of_BuyerID m) (of_BuyerAccountID m)
    (match sellerAcc with Some a => Some a | None => of_SellerAccountID m end) amount price premium day
    (of_Status m) now by_ (of_CreatedAt m) (of_SellerBankID m) (of_BuyerBankID m).

Definition decided (s : OTCOfferStatus) (now by_ : Z) (m : otcOfferModel) : otcOfferModel :=
  mkOfferModel (of_ListingID m) (of_SellerID m) (of_BuyerID m) (of_BuyerAccountID m) (of_SellerAccountID m)
    (of_Amount m) (of_PricePerStock m) (of_Premium m) (of_SettlementDate m) s now by_ (of_CreatedAt m)
    (of_SellerBankID m) (of_BuyerBankID m).

Definition with_contract_status (s : OTCContractStatus) (exercisedAt : option Z) (m : otcContractModel)
    : otcContractModel :=
  mkContractModel (oc_OfferID m) (oc_ListingID m) (oc_SellerID m) (oc_BuyerID m) (oc_BuyerAccountID m)
    (oc_SellerAccountID m) (oc_Amount m) (oc_StrikePrice m) (oc_Premium m) (oc_SettlementDate m) s
    (oc_CreatedAt m) exercisedAt (oc_SellerBankID m) (oc_BuyerBankID m).

(** CHECK (amount > 0), (price_per_stock > 0), (premium >= 0). *)
Definition terms_ok (amount price premium : Z) : bool := (0 <? amount) && (0 <? price) && (0 <=? premium).

Definition price_color (a : float64) : string :=
  if f64_leb a (f64_of_Z 5) then "GREEN" else if f64_leb a (f64_of_Z 20) then "YELLOW" else "RED".

(** The deviation from the market price in percent, and its colour. *)
Definition priceDeviation (offered market : float64) : float64 * string :=
  if f64_leb market f64_zero then (f64_zero, "GREEN")
  else
    let pct := f64_mul (f64_div (f64_sub offered market) market) (f64_of_Z 100) in
    let a := if f64_ltb pct f64_zero then SFopp pct else pct in
    (pct, price_color a).

Definition offer_status_text (s : OTCOfferStatus) : string :=
  match s with
  | OTCOfferPending => "PENDING"
  | OTCOfferAccepted => "ACCEPTED"
  | OTCOfferRejected => "REJECTED"
  | OTCOfferDeactivated => "DEACTIVATED"
  end.

Section repository.
Context `{DL : decimal.Lib}.

(** A NUMERIC(18, 6) column scanned into a float64. *)
Definition scan_micros (c : Z) : float64 := decimal.float64_of_numeric (micros c).

(** ** Offers *)

Definition offerToDomain (id : Z) (m : otcOfferModel) : OTCOffer :=
  mkOffer id (of_ListingID m) (of_SellerID m) (of_BuyerID m) (of_BuyerAccountID m) (of_SellerAccountID m)
    (of_Amount m) (scan_micros (of_PricePerStock m)) (scan_micros (of_Premium m)) (of_SettlementDate m)
    (of_Status m) (of_LastModified m) (of_ModifiedBy m) (of_CreatedAt m) (of_SellerBankID m) (of_BuyerBankID m).

Definition offer_row (o : OTCOffer) : option otcOfferModel :=
  amount ← store_int (ofr_Amount o);
  price ← store_micros (arg (ofr_PricePerStock o));
  premium ← store_micros (arg (ofr_Premium o));
  if terms_ok amount price premium && negb (ofr_BuyerID o =? ofr_SellerID o) then
    Some (mkOfferModel (ofr_ListingID o) (ofr_SellerID o) (ofr_BuyerID o) (ofr_BuyerAccountID o)
            (ofr_SellerAccountID o) amount price premium (ofr_SettlementDate o) (ofr_Status o)
            (ofr_LastModified o) (ofr_ModifiedBy o) (ofr_CreatedAt o) (ofr_SellerBankID o) (ofr_BuyerBankID o))
  else None.

Definition insert_offer (o : OTCOffer) (i : Z) (d : DB) : result (Z * DB) :=
  match offer_row o with
  | None => Err ErrDB
  | Some m =>
      if has_row (Some (of_BuyerAccountID m)) (d_racun d) && has_row (of_SellerAccountID m) (d_racun d) then
        match insert_row i m (otc_offers (d_otc d)) with
        | Ok t => Ok (i, set_otc_offers t d)
        | Err er => Err er
        end
      else Err ErrDB
  end.

Definition with_offer_id (id : Z) (o : OTCOffer) : OTCOffer :=
  mkOffer id (ofr_ListingID o) (ofr_SellerID o) (ofr_BuyerID o) (ofr_BuyerAccountID o) (ofr_SellerAccountID o)
    (ofr_Amount o) (ofr_PricePerStock o) (ofr_Premium o) (ofr_SettlementDate o) (ofr_Status o)
    (ofr_LastModified o) (ofr_ModifiedBy o) (ofr_CreatedAt o) (ofr_SellerBankID o) (ofr_BuyerBankID o).

(** A PENDING offer of this moment; the answer is the row that was sent. *)
Definition InsertOffer (offer : OTCOffer) : M OTCOffer :=
  now ← time_now;
  let o := mkOffer 0 (ofr_ListingID offer) (ofr_SellerID offer) (ofr_BuyerID offer) (ofr_BuyerAccountID offer)
             (ofr_SellerAccountID offer) (ofr_Amount offer) (ofr_PricePerStock offer) (ofr_Premium offer)
             (ofr_SettlementDate offer) OTCOfferPending now (ofr_ModifiedBy offer) now
             (ofr_SellerBankID offer) (ofr_BuyerBankID offer) in
  id ← sql_insert (insert_offer o);
  mret (with_offer_id id o).

Definition GetOfferByID (id : Z) : M OTCOffer :=
  row ← sql_read (fun d => otc_offers (d_otc d) !! id);
  match row with Some m => mret (offerToDomain id m) | None => throw ErrOTCOfferNotFound end.

(** SELECT ... FOR UPDATE into a struct: no row leaves its id at 0. *)
Definition GetOfferByIDForUpdate (id : Z) : M OTCOffer :=
  row ← sql_read (fun d => otc_offers (d_otc d) !! id);
  match row with
  | Some m => if id =? 0 then throw ErrOTCOfferNotFound else mret (offerToDomain id m)
  | None => throw ErrOTCOfferNotFound
  end.

(** Owner and currency of an account. *)
Definition GetAccountInfo (accountID : Z) : M (Z * string) :=
  row ← sql_read (fun d => d_racun d !! accountID);
  match row with
  | Some r => if r_id_vlasnika r =? 0 then throw ErrOTCAccountNotOwned else mret (r_id_vlasnika r, r_oznaka r)
  | None => throw ErrOTCAccountNotOwned
  end.

Definition GetListingCurrency (listingID : Z) : M string :=
  oznaka ← sql_env (fun e n _ => lr_oznaka (env_listing_row e n listingID));
  if String.eqb oznaka EmptyString then throw ErrOTCListingNotFound else mret oznaka.

Definition counter_row (offer : OTCOffer) (now : Z) (d : DB) (m : otcOfferModel) : option otcOfferModel :=
  amount ← store_int (ofr_Amount offer);
  price ← store_micros (arg (ofr_PricePerStock offer));
  premium ← store_micros (arg (ofr_Premium offer));
  if terms_ok amount price premium && has_row (ofr_SellerAccountID offer) (d_racun d) then
    Some (countered amount price premium (ofr_SettlementDate offer) (ofr_SellerAccountID offer) now
            (ofr_ModifiedBy offer) m)
  else None.

Definition UpdateOfferOnCounter (offer : OTCOffer) : M unit :=
  now ← time_now;
  rows ← sql (fun d => update_offer (ofr_ID offer) (fun _ => true) (counter_row offer now d) d);
  if rows =? 0 then throw ErrOTCOfferNotFound else mret tt.

Definition UpdateOfferStatus (id : Z) (status : OTCOfferStatus) (modifiedBy : Z) : M unit :=
  now ← time_now;
  rows ← sql (update_offer id (fun _ => true) (fun m => Some (decided status now modifiedBy m)));
  if rows =? 0 then throw ErrOTCOfferNotFound else mret tt.

(** What is published, less the open offers and the valid contracts, as an int32. *)
Definition AvailablePublicShares (sellerID listingID excludeOfferID : Z) : M Z :=
  sql_read (fun d => ps_ID <$> filter (fun s => published sellerID listingID s = true) (d_public_shares d)) ;;
  publicQty ← sql_read (public_qty sellerID listingID);
  if publicQty <=? 0 then throw ErrOTCNotInPublicRegime
  else
    pendingSum ← sql_now (pending_sum sellerID listingID excludeOfferID);
    contractSum ← sql_now (contract_sum sellerID listingID);
    let avail := publicQty - pendingSum - contractSum in
    mret (wrap32 (if avail <? 0 then 0 else avail)).

(** The other side of an offer. *)
Definition counterparty (userID : Z) (m : otcOfferModel) : Z :=
  if of_BuyerID m =? userID then of_SellerID m else of_BuyerID m.

Definition known_banks (m : otcOfferModel) : option (Z * Z) :=
  s ← of_SellerBankID m; b ← of_BuyerBankID m; Some (s, b).

Definition bank_filter (f : ListOTCOffersFilter) (m : otcOfferModel) : bool :=
  if negb (0 <? lf_OwnBankID f) then true
  else if String.eqb (lf_BankFilter f) "OWN" then
    match of_SellerBankID m, of_BuyerBankID m with
    | Some s, Some b => (s =? lf_OwnBankID f) && (b =? lf_OwnBankID f)
    | None, None => true
    | _, _ => false
    end
  else if String.eqb (lf_BankFilter f) "INTERBANK" then
    match known_banks m with Some (s, b) => negb (s =? b) | None => false end
  else true.

Definition role_filter (f : ListOTCOffersFilter) (m : otcOfferModel) : bool :=
  if String.eqb (lf_Role f) "BUYER" then of_BuyerID m =? lf_UserID f
  else if String.eqb (lf_Role f) "SELLER" then of_SellerID m =? lf_UserID f
  else true.

(** Clients see the offers of clients, employees those of actuaries. *)
Definition type_filter (f : ListOTCOffersFilter) (d : DB) (m : otcOfferModel) : bool :=
  let other := is_actuary d (counterparty (lf_UserID f) m) in
  if String.eqb (lf_UserType f) "CLIENT" then negb other
  else if String.eqb (lf_UserType f) "EMPLOYEE" || String.eqb (lf_UserType f) "ADMIN" then other
  else true.

Definition status_filter (f : ListOTCOffersFilter) (m : otcOfferModel) : bool :=
  match lf_Status f with
  | Some s => String.eqb s EmptyString || String.eqb (offer_status_text (of_Status m)) s
  | None => true
  end.

Definition participant (userID : Z) (m : otcOfferModel) : bool := (of_BuyerID m =? userID) || (of_SellerID m =? userID).

Definition in_offers (f : ListOTCOffersFilter) (d : DB) (m : otcOfferModel) : bool :=
  participant (lf_UserID f) m && status_filter f m && role_filter f m &&
  (negb (lf_OnlyMyTurn f) || negb (of_ModifiedBy m =? lf_UserID f)) && bank_filter f m && type_filter f d m.

(** The list does not read the banks of an offer. *)
Definition offer_item (userID : Z) (row : Z -> listingRow) (kv : Z * otcOfferModel) : OTCOfferListItem :=
  let o := offerToDomain kv.1 kv.2 in
  let l := row (of_ListingID kv.2) in
  let '(dev, color) := priceDeviation (ofr_PricePerStock o) (lr_price l) in
  mkOfferItem
    (mkOffer (ofr_ID o) (ofr_ListingID o) (ofr_SellerID o) (ofr_BuyerID o) (ofr_BuyerAccountID o)
       (ofr_SellerAccountID o) (ofr_Amount o) (ofr_PricePerStock o) (ofr_Premium o) (ofr_SettlementDate o)
       (ofr_Status o) (ofr_LastModified o) (ofr_ModifiedBy o) (ofr_CreatedAt o) None None)
    (lr_ticker l) (lr_name l) (lr_acronym l) (lr_price l) (negb (of_ModifiedBy kv.2 =? userID)) dev color.

Definition ListOffers (f : ListOTCOffersFilter) : M (list OTCOfferListItem) :=
  sql_env (fun e n d =>
    offer_item (lf_UserID f) (env_listing_row e n) <$>
      sort_by (fun kv => - of_LastModified kv.2)
        (filter (fun kv => in_offers f d kv.2 = true) (map_to_list (otc_offers (d_otc d))))).

Definition GetOfferListItem (id callerID : Z) : M OTCOfferListItem :=
  items ← ListOffers (mkOffersFilter callerID None EmptyString false EmptyString 0 EmptyString);
  match List.find (fun it => ofr_ID (oi_Offer it) =? id) items with
  | Some it => mret it
  | None => throw ErrOTCOfferNotFound
  end.

(** The groups of the marketplace: a listing and its seller. *)
Definition market_groups (callerID : Z) (d : DB) : list (Z * Z) :=
  remove_dups ((fun s => (ps_ListingID s, ps_UserID s)) <$>
    filter (fun s => negb (ps_UserID s =? callerID) && negb (is_actuary d (ps_UserID s)) = true) (d_public_shares d)).

(** Every pending offer counts here, whatever its settlement date. *)
Definition reserved_offers (sellerID listingID : Z) (d : DB) : Z :=
  msum (fun m => if (of_SellerID m =? sellerID) && (of_ListingID m =? listingID) &&
                    bool_decide (of_Status m = OTCOfferPending) then of_Amount m else 0) (otc_offers (d_otc d)).

Definition market_item (now : Z) (row : Z -> listingRow) (d : DB) (g : Z * Z) : option OTCMarketplaceItem :=
  let avail := public_qty g.2 g.1 d - reserved_offers g.2 g.1 d - contract_sum g.2 g.1 now d in
  let l := row g.1 in
  if avail <=? 0 then None
  else Some (mkMarketplaceItem g.1 (lr_ticker l) (lr_name l) (lr_acronym l) (lr_price l) g.2 (wrap32 avail)).

Definition ListMarketplace (callerID : Z) : M (list OTCMarketplaceItem) :=
  sql_env (fun e n d =>
    omap (market_item (env_now e n) (env_listing_row e n) d)
      (merge_sort (by_text (fun g => lr_ticker (env_listing_row e n g.1))) (market_groups callerID d))).

(** ** Contracts *)

Definition contractToDomain (id : Z) (m : otcContractModel) : OTCContract :=
  mkContract id (oc_OfferID m) (oc_ListingID m) (oc_SellerID m) (oc_BuyerID m) (oc_BuyerAccountID m)
    (oc_SellerAccountID m) (oc_Amount m) (scan_micros (oc_StrikePrice m)) (scan_micros (oc_Premium m))
    (oc_SettlementDate m) (oc_Status m) (oc_CreatedAt m) (oc_ExercisedAt m) (oc_SellerBankID m) (oc_BuyerBankID m).

Definition contract_row (c : OTCContract) : option otcContractModel :=
  amount ← store_int (ctr_Amount c);
  strike ← store_micros (arg (ctr_StrikePrice c));
  premium ← store_micros (arg (ctr_Premium c));
  if 0 <? amount then
    Some (mkContractModel (ctr_OfferID c) (ctr_ListingID c) (ctr_SellerID c) (ctr_BuyerID c) (ctr_BuyerAccountID c)
            (ctr_SellerAccountID c) amount strike premium (ctr_SettlementDate c) (ctr_Status c) (ctr_CreatedAt c)
            (ctr_ExercisedAt c) (ctr_SellerBankID c) (ctr_BuyerBankID c))
  else None.

Definition insert_contract (c : OTCContract) (i : Z) (d : DB) : result (Z * DB) :=
  match contract_row c with
  | None => Err ErrDB
  | Some m =>
      if has_row (Some (oc_OfferID m)) (otc_offers (d_otc d)) && has_row (Some (oc_BuyerAccountID m)) (d_racun d) &&
         has_row (Some (oc_SellerAccountID m)) (d_racun d)
      then match insert_row i m (otc_contracts (d_otc d)) with
           | Ok t => Ok (i, set_otc_contracts t d)
           | Err er => Err er
           end
      else Err ErrDB
  end.

Definition stamped_contract (id : Z) (c : OTCContract) (now : Z) : OTCContract :=
  mkContract id (ctr_OfferID c) (ctr_ListingID c) (ctr_SellerID c) (ctr_BuyerID c) (ctr_BuyerAccountID c)
    (ctr_SellerAccountID c) (ctr_Amount c) (ctr_StrikePrice c) (ctr_Premium c) (ctr_SettlementDate c)
    OTCContractValid now None (ctr_SellerBankID c) (ctr_BuyerBankID c).

Definition CreateContract (c : OTCContract) : M OTCContract :=
  now ← time_now;
  id ← sql_insert (insert_contract (stamped_contract 0 c now));
  mret (stamped_contract id c now).

Definition ListContractsOf (userID : Z) : M (list OTCContract) :=
  sql_read (fun d =>
    (fun kv : Z * otcContractModel => contractToDomain kv.1 kv.2) <$>
      sort_by (fun kv => - oc_CreatedAt kv.2)
        (filter (fun kv => (oc_BuyerID kv.2 =? userID) || (oc_SellerID kv.2 =? userID) = true)
           (map_to_list (otc_contracts (d_otc d))))).

Definition GetContractByID (id : Z) : M OTCContract :=
  row ← sql_read (fun d => otc_contracts (d_otc d) !! id);
  match row with Some m => mret (contractToDomain id m) | None => throw ErrOTCContractNotFound end.

Definition GetContractByIDForUpdate (id : Z) : M OTCContract :=
  row ← sql_read (fun d => otc_contracts (d_otc d) !! id);
  match row with
  | Some m => if id =? 0 then throw ErrOTCContractNotFound else mret (contractToDomain id m)
  | None => throw ErrOTCContractNotFound
  end.

(** [exercised_at] is written for EXERCISED only. *)
Definition UpdateContractStatus (id : Z) (status : OTCContractStatus) : M unit :=
  exercisedAt ← (if decide (status = OTCContractExercised) then now ← time_now; mret (Some now) else mret None);
  rows ← sql (update_contract id (fun _ => true) (fun m =>
           Some (with_contract_status status
                   (match exercisedAt with Some t => Some t | None => oc_ExercisedAt m end) m)));
  if rows =? 0 then throw ErrOTCContractNotFound else mret tt.

(** [status = 'VALID' AND settlement_date < NOW()]. *)
Definition overdue (now : Z) (m : otcContractModel) : bool :=
  bool_decide (oc_Status m = OTCContractValid) && negb (live now (oc_SettlementDate m)).

Definition ExpireOverdueContracts : M Z := fun e w =>
  sql (fun d =>
    let late := overdue (env_now e (w_step w)) in
    Ok (Z.of_nat (length (filter (fun kv : Z * otcContractModel => late kv.2 = true) (map_to_list (otc_contracts (d_otc d))))),
        set_otc_contracts
          ((fun m => if late m then with_contract_status OTCContractExpired (oc_ExercisedAt m) m else m)
             <$> otc_contracts (d_otc d)) d)) e w.

Definition ListContractsExpiringSoon (withinDays : Z) : M (list (OTCContract * string)) :=
  sql_env (fun e n d =>
    (fun kv : Z * otcContractModel =>
       (contractToDomain kv.1 kv.2, lr_ticker (env_listing_row e n (oc_ListingID kv.2)))) <$>
      filter (fun kv => bool_decide (oc_Status kv.2 = OTCContractValid) &&
                        (oc_SettlementDate kv.2 =? truncate_day (env_now e n) + withinDays) = true)
        (map_to_list (otc_contracts (d_otc d)))).

(** ** The history of a negotiation *)

(** NUMERIC(15, 6). *)
Definition store_terms (t : entryTerms) : option offerTerms :=
  amount ← store_int (et_Terms_Amount t);
  price ← numeric_store 15 1000000 (arg (et_Terms_PricePerStock t));
  premium ← numeric_store 15 1000000 (arg (et_Terms_Premium t));
  Some (mkTerms amount price premium (et_Terms_SettlementDate t)).

Definition store_opt_terms (t : option entryTerms) : option (option offerTerms) :=
  match t with None => Some None | Some t => Some <$> store_terms t end.

Definition insert_history (entry : OTCOfferHistoryEntry) (now i : Z) (d : DB) : result (Z * DB) :=
  match store_opt_terms (he_New entry), store_opt_terms (he_Old entry) with
  | Some new_, Some old =>
      Ok (i, set_otc_history (otc_history (d_otc d) ++
                [mkHistoryModel i (he_OfferID entry) (he_Action entry) (he_ChangedBy entry) new_ old
                   (he_NewStatus entry) now]) d)
  | _, _ => Err ErrDB
  end.

(** gorm fills [created_at]. *)
Definition RecordOfferHistory (entry : OTCOfferHistoryEntry) : M unit :=
  now ← time_now;
  sql_insert (insert_history entry now) ;;
  mret tt.

Definition entry_terms (t : offerTerms) : entryTerms :=
  mkEntryTerms (tm_Amount t) (scan_micros (tm_PricePerStock t)) (scan_micros (tm_Premium t)) (tm_SettlementDate t).

Definition entry_of (h : otcOfferHistoryModel) : OTCOfferHistoryEntry :=
  mkHistoryEntry (oh_ID h) (oh_OfferID h) (oh_Action h) (oh_ChangedBy h) (entry_terms <$> oh_New h)
    (entry_terms <$> oh_Old h) (oh_NewStatus h) (oh_CreatedAt h).

Definition in_completed (f : ListCompletedOffersFilter) (m : otcOfferModel) : bool :=
  negb (bool_decide (of_Status m = OTCOfferPending)) && participant (cf_UserID f) m &&
  (match cf_Status f with Some s => bool_decide (of_Status m = s) | None => true end) &&
  (match cf_From f with Some t => t <=? of_LastModified m | None => true end) &&
  (match cf_To f with Some t => of_LastModified m <=? t | None => true end) &&
  (match cf_CounterpartID f with Some u => participant u m | None => true end).

Definition ListCompletedNegotiations (f : ListCompletedOffersFilter) : M (list NegotiationHistoryItem) :=
  rows ← sql_env (fun e n d =>
    (fun kv : Z * otcOfferModel => (kv, env_listing_row e n (of_ListingID kv.2))) <$>
      sort_by (fun kv => - of_LastModified kv.2)
        (filter (fun kv => in_completed f kv.2 = true) (map_to_list (otc_offers (d_otc d)))));
  match rows with
  | [] => mret []
  | _ :: _ =>
      hist ← sql_read (fun d => sort_by oh_CreatedAt (otc_history (d_otc d)));
      mret ((fun r : (Z * otcOfferModel) * listingRow =>
               mkNegotiation (offerToDomain r.1.1 r.1.2) (lr_ticker r.2) (lr_name r.2) (lr_acronym r.2)
                 (entry_of <$> filter (fun h => oh_OfferID h = r.1.1) hist)) <$> rows)
  end.

(** ** The premium *)

Definition load_account (id : Z) : M racunForPayment :=
  row ← sql_read (fun d => racun_for_payment id <$> d_racun d !! id);
  match row with
  | Some a => if rp_ID a =? 0 then throw ErrOTCAccountNotOwned else mret a
  | None => throw ErrOTCAccountNotOwned
  end.

(** The treasury's accounts in the three currencies, 0 for none: one for a currency,
    the last one the server answers with. *)
Record trezor : Type := mkTrezor { tz_buyer : Z; tz_seller : Z; tz_listing : Z }.

Definition treasury_accounts (buyerCcy sellerCcy listingCcy : string) : M trezor :=
  rows ← sql_read (fun d => (racun_ids trezor_owner buyerCcy d, racun_ids trezor_owner sellerCcy d,
                             racun_ids trezor_owner listingCcy d));
  k1 ← io (fun e n => Ok (env_row_choice e n));
  k2 ← io (fun e n => Ok (env_row_choice e n));
  k3 ← io (fun e n => Ok (env_row_choice e n));
  let b := pick k1 rows.1.1 in
  let s := if String.eqb sellerCcy buyerCcy then b else pick k2 rows.1.2 in
  let l := if String.eqb listingCcy buyerCcy then b else if String.eqb listingCcy sellerCcy then s else pick k3 rows.2 in
  mret (mkTrezor b s l).

Definition check_treasury (buyerCcy sellerCcy listingCcy : string) (t : trezor) : result unit :=
  let foreign c := negb (String.eqb c listingCcy) in
  if foreign buyerCcy && (tz_buyer t =? 0) then Err (ErrMsg "trezorski racun nedostupan")
  else if foreign sellerCcy && (tz_seller t =? 0) then Err (ErrMsg "trezorski racun nedostupan")
  else if (foreign buyerCcy || foreign sellerCcy) && (tz_listing t =? 0) then Err (ErrMsg "trezorski racun nedostupan")
  else Ok tt.

Definition debit (accountID : Z) (amount : float64) : M unit :=
  exec_active accountID (sub_stanje (arg amount)) ;;
  sql (insert_transakcija [(accountID, ISPLATA, arg amount)]).
Definition credit (accountID : Z) (amount : float64) : M unit :=
  exec_active accountID (add_stanje (arg amount)) ;;
  sql (insert_transakcija [(accountID, UPLATA, arg amount)]).

(** The legs: [b] leaves the buyer, [x] is the premium, [s] reaches the seller. *)
Definition premium_legs (buyerCcy sellerCcy listingCcy : string) (buyer seller : Z) (t : trezor) (b x s : float64)
    : M unit :=
  debit buyer b ;;
  (if negb (String.eqb buyerCcy listingCcy) then credit (tz_buyer t) b ;; debit (tz_listing t) x else mret tt) ;;
  (if negb (String.eqb sellerCcy listingCcy) then credit (tz_listing t) x ;; debit (tz_seller t) s else mret tt) ;;
  credit seller s.

(** The ids that are locked, before the server sorts them; 0 is no account. *)
Definition premium_ids (buyer seller : Z) (t : trezor) : list Z :=
  remove_dups ([buyer; seller] ++ filter (fun id => id <> 0) [tz_buyer t; tz_seller t; tz_listing t]).

Definition ExecuteOTCPremiumTransfer (inp : OTCPremiumTransferInput) : M unit :=
  if f64_leb (pt_AmountInListingCurrency inp) f64_zero then mret tt
  else if pt_BuyerAccountID inp =? pt_SellerAccountID inp then throw ErrOTCInvalidInput
  else
    buyerAcc ← load_account (pt_BuyerAccountID inp);
    sellerAcc ← load_account (pt_SellerAccountID inp);
    let listingCcy := if String.eqb (pt_ListingCurrency inp) EmptyString then "USD" else pt_ListingCurrency inp in
    let buyerCcy := rp_ValutaOznaka buyerAcc in
    let sellerCcy := rp_ValutaOznaka sellerAcc in
    let amountBuyerLeg := convertPaymentAmount listingCcy buyerCcy (pt_AmountInListingCurrency inp) in
    let amountSellerLeg := convertPaymentAmount listingCcy sellerCcy (pt_AmountInListingCurrency inp) in
    t ← treasury_accounts buyerCcy sellerCcy listingCcy;
    of_result (check_treasury buyerCcy sellerCcy listingCcy t) ;;
    accounts ← sql_read (locked (premium_ids (rp_ID buyerAcc) (rp_ID sellerAcc) t));
    match find_account (rp_ID buyerAcc) accounts with
    | None => throw ErrOTCAccountNotOwned
    | Some buyerLocked =>
        if decide (rp_Status buyerLocked = AKTIVAN) then
          if f64_ltb (f64_sub (rp_StanjeRacuna buyerLocked) (rp_RezervovanaSredstva buyerLocked)) amountBuyerLeg
          then throw ErrOTCInsufficientFunds
          else
            time_now ;;
            premium_legs buyerCcy sellerCcy listingCcy (rp_ID buyerAcc) (rp_ID sellerAcc) t amountBuyerLeg
              (pt_AmountInListingCurrency inp) amountSellerLeg
        else throw ErrOTCAccountNotOwned
    end.

End repository.

(** ** The negotiation of over-the-counter offers ([service/otc_service.go],
    [worker/otc_contract_expiry_worker.go])

    Offers, counter-offers, acceptance and refusal, each in one transaction, and the
    daily expiry of contracts.  The premium goes through
    [ExecuteOTCPremiumTransfer] of the payment repository, which the program passes
    to the service as its OTCPaymentPort. *)
#[local] Open Scope Z_scope.

(** ** Requests *)

Record CreateOTCOfferInput : Type := mkCreateOffer {
  co_ListingID : Z;
  co_BuyerID : Z;
  co_SellerID : Z;
  co_BuyerAccountID : Z;
  co_Amount : Z;
  co_PricePerStock : float64;
  co_Premium : float64;
  co_SettlementDate : Z;
  co_BuyerBankID : option Z;
  co_SellerBankID : option Z
}.

Record CounterOTCOfferInput : Type := mkCounterOffer {
  cn_OfferID : Z;
  cn_CallerID : Z;
  cn_Amount : Z;
  cn_PricePerStock : float64;
  cn_Premium : float64;
  cn_SettlementDate : Z;
  cn_SellerAccountID : option Z
}.

Record AcceptOTCOfferInput : Type := mkAcceptOffer {
  ac_OfferID : Z;
  ac_CallerID : Z;
  ac_SellerAccountID : option Z
}.

(** The day of Go's zero time, 1 January of the year 1. *)
Definition zero_day : Z := - unix_epoch.

Definition validateOfferFields (amount : Z) (price premium : float64) (settle : Z) : M unit :=
  if (amount <=? 0) || f64_leb price f64_zero || f64_ltb premium f64_zero then throw ErrOTCInvalidInput
  else if settle =? zero_day then mret tt
  else
    now ← time_now;
    if settle <? truncate_day now then throw ErrOTCInvalidInput else mret tt.

Section service.
Context `{DL : decimal.Lib}.

(** No caller: the accounts of an offer are not checked against their owners. *)
Definition validateAccountOwnership (accountID expectedOwnerID : Z) : M string :=
  row ← GetAccountInfo accountID;
  let '(owner, currency) := (row : Z * string) in
  if owner =? expectedOwnerID then mret currency else throw ErrOTCAccountNotOwned.

(** A failure to record is logged and dropped. *)
Definition record_history (offerID : Z) (action : HistoryAction) (by_ : Z) (new_ old : option entryTerms)
    (status : option OTCOfferStatus) : M unit :=
  try (RecordOfferHistory (mkHistoryEntry 0 offerID action by_ new_ old status 0)) ;; mret tt.

Definition CreateOffer (inp : CreateOTCOfferInput) : M OTCOffer :=
  if co_BuyerID inp =? co_SellerID inp then throw ErrOTCSelfTrade
  else
    validateOfferFields (co_Amount inp) (co_PricePerStock inp) (co_Premium inp) (co_SettlementDate inp) ;;
    Transaction (
      avail ← AvailablePublicShares (co_SellerID inp) (co_ListingID inp) 0;
      if avail <? co_Amount inp then throw ErrOTCInsufficientCapacity
      else
        created ← InsertOffer
          (mkOffer 0 (co_ListingID inp) (co_SellerID inp) (co_BuyerID inp) (co_BuyerAccountID inp) None
             (co_Amount inp) (co_PricePerStock inp) (co_Premium inp) (co_SettlementDate inp) OTCOfferPending 0
             (co_BuyerID inp) 0 (co_SellerBankID inp) (co_BuyerBankID inp));
        record_history (ofr_ID created) HISTORY_CREATED (co_BuyerID inp)
          (Some (mkEntryTerms (co_Amount inp) (co_PricePerStock inp) (co_Premium inp) (co_SettlementDate inp)))
          None None ;;
        mret created).

(** Whether the caller is a party to the offer. *)
Definition is_party (callerID : Z) (o : OTCOffer) : bool :=
  (callerID =? ofr_BuyerID o) || (callerID =? ofr_SellerID o).

(** The account for the premium: only the seller may set it. *)
Definition counter_account (inp : CounterOTCOfferInput) (o : OTCOffer) : option Z :=
  if cn_CallerID inp =? ofr_SellerID o
  then match cn_SellerAccountID inp with Some a => Some a | None => ofr_SellerAccountID o end
  else ofr_SellerAccountID o.

Definition CounterOffer (inp : CounterOTCOfferInput) : M OTCOffer :=
  validateOfferFields (cn_Amount inp) (cn_PricePerStock inp) (cn_Premium inp) (cn_SettlementDate inp) ;;
  Transaction (
    offer ← GetOfferByIDForUpdate (cn_OfferID inp);
    if negb (bool_decide (ofr_Status offer = OTCOfferPending)) then throw ErrOTCInvalidStatus
    else if negb (is_party (cn_CallerID inp) offer) then throw ErrOTCNotParticipant
    else if ofr_ModifiedBy offer =? cn_CallerID inp then throw ErrOTCNotCounterparty
    else
      avail ← AvailablePublicShares (ofr_SellerID offer) (ofr_ListingID offer) (ofr_ID offer);
      if avail <? cn_Amount inp then throw ErrOTCInsufficientCapacity
      else
        UpdateOfferOnCounter
          (mkOffer (ofr_ID offer) (ofr_ListingID offer) (ofr_SellerID offer) (ofr_BuyerID offer)
             (ofr_BuyerAccountID offer) (counter_account inp offer) (cn_Amount inp) (cn_PricePerStock inp)
             (cn_Premium inp) (cn_SettlementDate inp) (ofr_Status offer) (ofr_LastModified offer)
             (cn_CallerID inp) (ofr_CreatedAt offer) (ofr_SellerBankID offer) (ofr_BuyerBankID offer)) ;;
        updated ← GetOfferByID (ofr_ID offer);
        record_history (ofr_ID offer) HISTORY_COUNTER (cn_CallerID inp)
          (Some (mkEntryTerms (cn_Amount inp) (cn_PricePerStock inp) (cn_Premium inp) (cn_SettlementDate inp)))
          (Some (mkEntryTerms (ofr_Amount offer) (ofr_PricePerStock offer) (ofr_Premium offer)
                   (ofr_SettlementDate offer))) None ;;
        mret updated).

(** The seller's account: passed by the seller, or set before. *)
Definition accept_account (inp : AcceptOTCOfferInput) (o : OTCOffer) : result Z :=
  match ac_SellerAccountID inp with
  | Some a => if negb (ac_CallerID inp =? ofr_SellerID o) then Err ErrOTCNotCounterparty else Ok a
  | None => match ofr_SellerAccountID o with Some a => Ok a | None => Err ErrOTCSellerAccountMissing end
  end.

Definition contract_of (o : OTCOffer) (sellerAcc : Z) : OTCContract :=
  mkContract 0 (ofr_ID o) (ofr_ListingID o) (ofr_SellerID o) (ofr_BuyerID o) (ofr_BuyerAccountID o) sellerAcc
    (ofr_Amount o) (ofr_PricePerStock o) (ofr_Premium o) (ofr_SettlementDate o) OTCContractValid 0 None
    (ofr_SellerBankID o) (ofr_BuyerBankID o).

Definition premium_of (o : OTCOffer) (sellerAcc : Z) (listingCcy : string) (callerID : Z) : OTCPremiumTransferInput :=
  mkPremium (ofr_ID o) (ofr_BuyerAccountID o) sellerAcc (ofr_Premium o) listingCcy callerID.

Definition AcceptOffer (inp : AcceptOTCOfferInput) : M OTCContract :=
  Transaction (
    offer ← GetOfferByIDForUpdate (ac_OfferID inp);
    if negb (bool_decide (ofr_Status offer = OTCOfferPending)) then throw ErrOTCInvalidStatus
    else if negb (is_party (ac_CallerID inp) offer) then throw ErrOTCNotParticipant
    else if ofr_ModifiedBy offer =? ac_CallerID inp then throw ErrOTCSelfAccept
    else
      sellerAcc ← of_result (accept_account inp offer);
      avail ← AvailablePublicShares (ofr_SellerID offer) (ofr_ListingID offer) (ofr_ID offer);
      if avail <? ofr_Amount offer then throw ErrOTCInsufficientCapacity
      else
        listingCcy ← GetListingCurrency (ofr_ListingID offer);
        UpdateOfferStatus (ofr_ID offer) OTCOfferAccepted (ac_CallerID inp) ;;
        contract ← CreateContract (contract_of offer sellerAcc);
        record_history (ofr_ID offer) HISTORY_ACCEPTED (ac_CallerID inp) None None (Some OTCOfferAccepted) ;;
        ExecuteOTCPremiumTransfer (premium_of offer sellerAcc listingCcy (ac_CallerID inp)) ;;
        mret contract).

(** Withdrawn by the side that made it, refused by the other. *)
Definition declined_status (offer : OTCOffer) (callerID : Z) : OTCOfferStatus :=
  if ofr_ModifiedBy offer =? callerID then OTCOfferDeactivated else OTCOfferRejected.

Definition DeclineOffer (offerID callerID : Z) : M OTCOffer :=
  Transaction (
    offer ← GetOfferByIDForUpdate offerID;
    if negb (bool_decide (ofr_Status offer = OTCOfferPending)) then throw ErrOTCInvalidStatus
    else if negb (is_party callerID offer) then throw ErrOTCNotParticipant
    else
      let newStatus := declined_status offer callerID in
      UpdateOfferStatus (ofr_ID offer) newStatus callerID ;;
      record_history (ofr_ID offer) HISTORY_DECLINED callerID None None (Some newStatus) ;;
      mret (mkOffer (ofr_ID offer) (ofr_ListingID offer) (ofr_SellerID offer) (ofr_BuyerID offer)
              (ofr_BuyerAccountID offer) (ofr_SellerAccountID offer) (ofr_Amount offer) (ofr_PricePerStock offer)
              (ofr_Premium offer) (ofr_SettlementDate offer) newStatus (ofr_LastModified offer) callerID
              (ofr_CreatedAt offer) (ofr_SellerBankID offer) (ofr_BuyerBankID offer))).

Definition ListCompletedNegotiationsFor (callerID : Z) (f : ListCompletedOffersFilter) : M (list NegotiationHistoryItem) :=
  ListCompletedNegotiations (mkCompletedFilter callerID (cf_Status f) (cf_From f) (cf_To f) (cf_CounterpartID f)).

(** ** The daily worker *)

Definition expiryWarnDays : Z := 3.

(** One run: the contracts to warn about, if the query answers. *)
Definition expiry_run : M (list (OTCContract * string)) :=
  try ExpireOverdueContracts ;;
  expiring ← try (ListContractsExpiringSoon expiryWarnDays);
  mret (match expiring with Ok l => l | Err _ => [] end).

End service.
