(* ===== verification/OtcSaga.v ===== *)
(** * The exercise of a contract ([service/otc_contract_service.go],
    [repository/otc_saga_repository.go])

    [ExerciseContract] checks the contract and records an execution; [runSaga], a
    goroutine of its own, reserves the buyer's money, takes the seller's published
    shares, transfers the money, hands over the ownership and marks the contract,
    each in a transaction of its own; when one fails, [compensateFrom] undoes the
    ones before it, the last one first.  The statements of a step run without
    interruption, the others run while the goroutine waits between two attempts. *)

From stdpp Require Import list.
From S2P Require Import Prelude Numeric Domain Tables Store StoreFacts OrderRepo Market FundsManager.
From S2P Require Import GoMath AccountRepo PaymentRepo OtcRepo.
#[local] Open Scope string_scope.
#[local] Open Scope Z_scope.

(** ** The repository of executions *)

Record OTCSagaExecution : Type := mkExecution {
  ex_ID : Z;
  ex_ContractID : Z;
  ex_CurrentStep : OTCSagaStep;
  ex_Status : OTCSagaStatus;
  ex_BuyerReservedAmount : float64;
  ex_ErrorMessage : option error;
  ex_RetryCount : Z;
  ex_InitiatedBy : Z;
  ex_CreatedAt : Z;
  ex_UpdatedAt : Z
}.

Definition update_execution id (f : otcSagaExecutionModel -> option otcSagaExecutionModel) (d : DB) : result (Z * DB) :=
  match update_row id (fun _ => true) f (otc_executions (d_otc d)) with
  | Ok (n, m) => Ok (n, set_otc_executions m d)
  | Err er => Err er
  end.

(** The execution of a contract; there is one at most. *)
Definition find_execution (contractID : Z) (d : DB) : option (Z * otcSagaExecutionModel) :=
  head (filter (fun kv => sx_ContractID kv.2 = contractID) (map_to_list (otc_executions (d_otc d)))).

(** The foreign key of the contract, UNIQUE (contract_id). *)
Definition insert_execution (m : otcSagaExecutionModel) (i : Z) (d : DB) : result (Z * DB) :=
  match otc_contracts (d_otc d) !! sx_ContractID m, find_execution (sx_ContractID m) d with
  | Some _, None =>
      match insert_row i m (otc_executions (d_otc d)) with
      | Ok t => Ok (i, set_otc_executions t d)
      | Err er => Err er
      end
  | _, _ => Err ErrDB
  end.

Definition with_step (step : OTCSagaStep) (status : OTCSagaStatus) (errMsg : option error) (now : Z)
    (m : otcSagaExecutionModel) : otcSagaExecutionModel :=
  mkExecutionModel (sx_ContractID m) step status (sx_BuyerReservedAmount m) errMsg (sx_RetryCount m)
    (sx_InitiatedBy m) (sx_CreatedAt m) now.

Definition with_retry (n now : Z) (m : otcSagaExecutionModel) : otcSagaExecutionModel :=
  mkExecutionModel (sx_ContractID m) (sx_CurrentStep m) (sx_Status m) (sx_BuyerReservedAmount m)
    (sx_ErrorMessage m) n (sx_InitiatedBy m) (sx_CreatedAt m) now.

(** No row affected is no error. *)
Definition UpdateStep (id : Z) (step : OTCSagaStep) (status : OTCSagaStatus) (errMsg : option error) : M unit :=
  now ← time_now;
  sql (update_execution id (fun m => Some (with_step step status errMsg now m))) ;;
  mret tt.

(** The log refers to its execution and keeps it from being deleted; the orders of
    the execution only forget it. *)
Definition logged (id : Z) (d : DB) : bool := existsb (fun l => sl_ExecutionID l =? id) (otc_step_log (d_otc d)).

Definition DeleteExecution (id : Z) : M unit :=
  sql (fun d =>
    if logged id d then Err ErrDB
    else Ok (tt, set_otc_order_saga (filter (fun kv => kv.2 <> id) (otc_order_saga (d_otc d)))
                   (set_otc_executions (delete id (otc_executions (d_otc d))) d))).

Definition LogStep (executionID : Z) (step : OTCSagaStep) (status : OTCSagaStepStatus) (errMsg : option error)
    (attempt : Z) : M unit :=
  now ← time_now;
  sql (fun d =>
    if has_row (Some executionID) (otc_executions (d_otc d))
    then Ok (tt, set_otc_step_log (otc_step_log (d_otc d) ++ [mkStepLogModel executionID step status errMsg attempt now]) d)
    else Err ErrDB).

Section saga.
Context `{DL : decimal.Lib}.
(** EXCHANGE_SPREAD_RATE. *)
Context (spreadRate : float64).

Definition executionToDomain (id : Z) (m : otcSagaExecutionModel) : OTCSagaExecution :=
  mkExecution id (sx_ContractID m) (sx_CurrentStep m) (sx_Status m) (scan_micros (sx_BuyerReservedAmount m))
    (sx_ErrorMessage m) (sx_RetryCount m) (sx_InitiatedBy m) (sx_CreatedAt m) (sx_UpdatedAt m).

(** The answer holds the amount as it was computed, not as it was stored. *)
Definition CreateExecution (contractID initiatedBy : Z) (buyerReservedAmount : float64) : M OTCSagaExecution :=
  now ← time_now;
  id ← sql_insert (fun i d =>
         match store_micros (arg buyerReservedAmount) with
         | Some a => insert_execution (mkExecutionModel contractID OTCSagaStepPending OTCSagaStatusInProgress a None 0
                                         initiatedBy now now) i d
         | None => Err ErrDB
         end);
  mret (mkExecution id contractID OTCSagaStepPending OTCSagaStatusInProgress buyerReservedAmount None 0 initiatedBy
          now now).

Definition GetExecution (id : Z) : M OTCSagaExecution :=
  row ← sql_read (fun d => otc_executions (d_otc d) !! id);
  match row with
  | Some m => mret (executionToDomain id m)
  | None => throw (ErrMsg "saga execution nije pronadjena")
  end.

Definition GetExecutionByContractID (contractID : Z) : M (option OTCSagaExecution) :=
  row ← sql_read (find_execution contractID);
  mret ((fun kv : Z * otcSagaExecutionModel => executionToDomain kv.1 kv.2) <$> row).

Definition IncrementRetry (id : Z) : M Z :=
  now ← time_now;
  sql (update_execution id (fun m => n ← store_int (sx_RetryCount m + 1); Some (with_retry n now m))) ;;
  ex ← GetExecution id;
  mret (ex_RetryCount ex).

(** ** Contracts *)

(** Current price and profit; without a listing both stay 0. *)
Record OTCContractListItem : Type := mkContractItem {
  ci_Contract : OTCContract;
  ci_CurrentPrice : float64;
  ci_Profit : float64
}.

Definition enrichContract (c : OTCContract) : M OTCContractListItem :=
  listing ← try (GetListingByID (ctr_ListingID c));
  mret (match listing with
        | Ok l =>
            let price := l_Price (lc_Listing l) in
            mkContractItem c price
              (f64_sub (f64_mul (f64_sub price (ctr_StrikePrice c)) (f64_of_Z (ctr_Amount c))) (ctr_Premium c))
        | Err _ => mkContractItem c f64_zero f64_zero
        end).

Fixpoint enrich_all (cs : list OTCContract) : M (list OTCContractListItem) :=
  match cs with
  | [] => mret []
  | c :: cs' => item ← enrichContract c; items ← enrich_all cs'; mret (item :: items)
  end.

(** Middle rates to the dinar. *)
Definition rate_vs_rsd (rates : list ExchangeRate) : gmap string float64 :=
  foldl (fun m r => if f64_ltb f64_zero (er_Srednji r) then <[er_Oznaka r := er_Srednji r]> m else m)
    {["RSD" := f64_of_Z 1]} rates.

(** A unit of the target for a dollar; 1 when a rate is missing. *)
Definition cross_rate (rates : list ExchangeRate) (target : string) : float64 :=
  let usdRSD := default f64_zero (rate_vs_rsd rates !! "USD") in
  let targetRSD := default f64_zero (rate_vs_rsd rates !! target) in
  if f64_eqb usdRSD f64_zero || f64_eqb targetRSD f64_zero then f64_of_Z 1 else f64_div usdRSD targetRSD.

Definition usdToTargetRate (target : string) : M float64 :=
  if String.eqb target "USD" then mret (f64_of_Z 1)
  else
    rates ← try (GetRates spreadRate);
    mret (match rates with Ok l => cross_rate l target | Err _ => f64_of_Z 1 end).

Definition ListContracts (userID : Z) : M (list OTCContractListItem) :=
  contracts ← ListContractsOf userID;
  usdToTargetRate "RSD" ;;
  enrich_all contracts.

Definition GetContract (contractID callerID : Z) : M OTCContractListItem :=
  c ← GetContractByID contractID;
  if negb (ctr_BuyerID c =? callerID) && negb (ctr_SellerID c =? callerID) then throw ErrOTCNotParticipant
  else usdToTargetRate "RSD" ;; enrichContract c.

(** [time.Now().After(contract.SettlementDate)]. *)
Definition settlement_passed (c : OTCContract) : M bool :=
  now ← time_now; mret (negb (live now (ctr_SettlementDate c))).

(** EXERCISED and EXPIRED end it, before the clock is read. *)
Definition check_contract (c : OTCContract) (callerID : Z) : M unit :=
  if negb (ctr_BuyerID c =? callerID) then throw ErrOTCContractNotBuyer
  else match ctr_Status c with
       | OTCContractExercised => throw ErrOTCContractAlreadyExecuted
       | OTCContractExpired => throw ErrOTCContractExpired
       | OTCContractValid =>
           passed ← settlement_passed c;
           if (passed : bool) then throw ErrOTCContractExpired else mret tt
       end.

(** An execution that is not in progress makes room for a new one. *)
Definition clear_execution (contractID : Z) : M unit :=
  existing ← GetExecutionByContractID contractID;
  match existing with
  | None => mret tt
  | Some ex =>
      if decide (ex_Status ex = OTCSagaStatusInProgress) then throw ErrOTCSagaAlreadyRunning
      else DeleteExecution (ex_ID ex)
  end.

Definition buyer_currency (accountID : Z) : M string :=
  r ← try (sql_read (fun d => match d_racun d !! accountID with Some x => r_oznaka x | None => EmptyString end));
  mret (match r with Ok c => if String.eqb c EmptyString then "RSD" else c | Err _ => "RSD" end).

Definition strike_cost (c : OTCContract) (rate : float64) : float64 :=
  f64_mul (f64_mul (f64_of_Z (ctr_Amount c)) (ctr_StrikePrice c)) rate.

(** The answer to the client, and the contract for the goroutine. *)
Definition ExerciseContract (contractID callerID : Z) : M (OTCSagaExecution * OTCContract) :=
  contract ← GetContractByID contractID;
  check_contract contract callerID ;;
  clear_execution contractID ;;
  buyerCurrency ← buyer_currency (ctr_BuyerAccountID contract);
  rate ← usdToTargetRate buyerCurrency;
  ex ← CreateExecution contractID callerID (strike_cost contract rate);
  mret (ex, contract).

(** ** The steps *)

(** What became of a step goes to the execution and to its log; failures to write it
    are dropped. *)
Definition recordStep (ex : OTCSagaExecution) (step : OTCSagaStep) (r : result unit) : M unit :=
  match r with
  | Err er =>
      try (LogStep (ex_ID ex) step OTCSagaStepStatusFailed (Some er) 1) ;;
      try (UpdateStep (ex_ID ex) step OTCSagaStatusInProgress (Some er)) ;;
      throw er
  | Ok _ =>
      try (LogStep (ex_ID ex) step OTCSagaStepStatusCompleted None 1) ;;
      try (UpdateStep (ex_ID ex) step OTCSagaStatusInProgress None) ;;
      mret tt
  end.

Definition run_step (ex : OTCSagaExecution) (step : OTCSagaStep) (m : M unit) : M unit :=
  r ← try (Transaction m);
  recordStep ex step r.

(** Balance and reservation of an active account, both 0 for no row. *)
Definition active_funds (accountID : Z) (d : DB) : float64 * float64 :=
  match d_racun d !! accountID with
  | Some r => if active r then (scan_cents (r_stanje_racuna r), scan_cents (r_rezervisana_sredstva r))
              else (f64_zero, f64_zero)
  | None => (f64_zero, f64_zero)
  end.

Definition reserve_funds (ex : OTCSagaExecution) (c : OTCContract) : M unit :=
  row ← sql_read (active_funds (ctr_BuyerAccountID c));
  let '(stanje, rezerv) := (row : float64 * float64) in
  if f64_eqb stanje f64_zero && f64_eqb rezerv f64_zero then throw ErrOTCAccountNotOwned
  else if f64_ltb (f64_sub stanje rezerv) (ex_BuyerReservedAmount ex) then throw ErrOTCInsufficientFunds
  else exec_active (ctr_BuyerAccountID c) (add_rezervisano (arg (ex_BuyerReservedAmount ex))).

(** [DELETE FROM public_shares WHERE]: rows affected. *)
Definition delete_shares (P : publicShare -> bool) (d : DB) : result (Z * DB) :=
  Ok (Z.of_nat (length (filter (fun s => P s = true) (d_public_shares d))),
      set_public_shares (filter (fun s => P s = false) (d_public_shares d)) d).

(** [SET quantity = quantity + ?]: CHECK (quantity > 0), INTEGER. *)
Definition change_qty (n : Z) (s : publicShare) : option publicShare :=
  q ← store_int (ps_Quantity s + n);
  if 0 <? q then Some (mkPublicShare (ps_ID s) (ps_ListingID s) (ps_UserID s) q) else None.

(** Every row of the user and listing changes. *)
Definition add_shares (userID listingID n : Z) (d : DB) : result (Z * DB) :=
  match mapM (fun s => if published userID listingID s then change_qty n s else Some s) (d_public_shares d) with
  | Some l => Ok (Z.of_nat (length (filter (fun s => published userID listingID s = true) (d_public_shares d))),
                  set_public_shares l d)
  | None => Err ErrDB
  end.

Definition insert_share (userID listingID qty : Z) (i : Z) (d : DB) : result (unit * DB) :=
  match store_int qty with
  | Some q => if 0 <? q then Ok (tt, set_public_shares (d_public_shares d ++ [mkPublicShare i listingID userID q]) d)
              else Err ErrDB
  | None => Err ErrDB
  end.

Definition reserve_securities (c : OTCContract) : M unit :=
  let mine := published (ctr_SellerID c) (ctr_ListingID c) in
  sql_read (fun d => ps_ID <$> filter (fun s => mine s = true) (d_public_shares d)) ;;
  pubQty ← sql_read (public_qty (ctr_SellerID c) (ctr_ListingID c));
  if pubQty <? ctr_Amount c then throw ErrOTCInsufficientCapacity
  else
    rows ← sql (delete_shares (fun s => mine s && (ps_Quantity s =? ctr_Amount c)));
    if rows =? 0 then sql (add_shares (ctr_SellerID c) (ctr_ListingID c) (- ctr_Amount c)) ;; mret tt else mret tt.

(** Balance and reservation, both less [q]. *)
Definition take_both (q : Q) (r : racun) : option racun :=
  r' ← sub_stanje q r;
  v ← store_cents (cents (r_rezervisana_sredstva r) - q);
  Some (with_rezervisano v r').
Definition give_both (q : Q) (r : racun) : option racun := r' ← add_stanje q r; add_rezervisano q r'.

Definition transfer_funds (ex : OTCSagaExecution) (c : OTCContract) : M unit :=
  let q := arg (ex_BuyerReservedAmount ex) in
  exec_active (ctr_BuyerAccountID c) (take_both q) ;;
  sql (insert_transakcija [(ctr_BuyerAccountID c, ISPLATA, q)]) ;;
  exec_active (ctr_SellerAccountID c) (add_stanje q) ;;
  sql (insert_transakcija [(ctr_SellerAccountID c, UPLATA, q)]).

(** A DONE market order of the execution. *)
Definition synthetic_order (userID accountID : Z) (dir : OrderDirection) (c : OTCContract) (price now : Z) : orderModel :=
  {| om_UserID := userID;
     om_AccountID := accountID;
     om_ListingID := ctr_ListingID c;
     om_OrderType := OrderTypeMarket;
     om_Direction := dir;
     om_Quantity := ctr_Amount c;
     om_ContractSize := 1;
     om_PricePerUnit := Some price;
     om_StopPrice := None;
     om_Status := OrderStatusDone;
     om_ApprovedBy := None;
     om_IsDone := true;
     om_RemainingPortions := 0;
     om_AfterHours := false;
     om_AllOrNone := false;
     om_Margin := false;
     om_IsClient := false;
     om_FundID := None;
     om_CreatedAt := now |}.

Definition insert_synthetic (ex : OTCSagaExecution) (userID accountID : Z) (dir : OrderDirection) (c : OTCContract)
    (now i : Z) (d : DB) : result (unit * DB) :=
  match store_micros (arg (ctr_StrikePrice c)) with
  | None => Err ErrDB
  | Some price =>
      let m := synthetic_order userID accountID dir c price now in
      if orders_check m d && has_row (Some (ex_ID ex)) (otc_executions (d_otc d)) then
        match insert_row i m (d_orders d) with
        | Ok t => Ok (tt, set_otc_order_saga (<[i := ex_ID ex]> (otc_order_saga (d_otc d))) (set_orders t d))
        | Err er => Err er
        end
      else Err ErrDB
  end.

Definition transfer_ownership (ex : OTCSagaExecution) (c : OTCContract) (now : Z) : M unit :=
  sql_insert (insert_synthetic ex (ctr_BuyerID c) (ctr_BuyerAccountID c) OrderDirectionBuy c now) ;;
  sql_insert (insert_synthetic ex (ctr_SellerID c) (ctr_SellerAccountID c) OrderDirectionSell c now).

Definition stepReserveFunds (ex : OTCSagaExecution) (c : OTCContract) : M unit :=
  run_step ex OTCSagaStepReserveFunds (reserve_funds ex c).
Definition stepReserveSecurities (ex : OTCSagaExecution) (c : OTCContract) : M unit :=
  run_step ex OTCSagaStepReserveSecurities (reserve_securities c).
Definition stepTransferFunds (ex : OTCSagaExecution) (c : OTCContract) : M unit :=
  time_now ;; run_step ex OTCSagaStepTransferFunds (transfer_funds ex c).
Definition stepTransferOwnership (ex : OTCSagaExecution) (c : OTCContract) : M unit :=
  now ← time_now; run_step ex OTCSagaStepTransferOwnership (transfer_ownership ex c now).

(** The buyer's order of the execution. *)
Definition is_synthetic_buy (ex : OTCSagaExecution) (c : OTCContract) (d : DB) (kv : Z * orderModel) : bool :=
  bool_decide (otc_order_saga (d_otc d) !! kv.1 = Some (ex_ID ex)) && (om_UserID kv.2 =? ctr_BuyerID c) &&
  (om_ListingID kv.2 =? ctr_ListingID c) && bool_decide (om_Direction kv.2 = OrderDirectionBuy) &&
  bool_decide (om_Status kv.2 = OrderStatusDone) && om_IsDone kv.2.

Definition markCompleted (ex : OTCSagaExecution) (c : OTCContract) : M unit :=
  syntheticCount ← sql_read (fun d => length (filter (fun kv => is_synthetic_buy ex c d kv = true) (map_to_list (d_orders d))));
  if (syntheticCount =? 0)%nat then throw (ErrMsg "double-check: sinteticki BUY nalog nije pronadjen")
  else
    Transaction (
      UpdateContractStatus (ctr_ID c) OTCContractExercised ;;
      UpdateStep (ex_ID ex) OTCSagaStepCompleted OTCSagaStatusCompleted None) ;;
    try (LogStep (ex_ID ex) OTCSagaStepCompleted OTCSagaStepStatusCompleted None 1) ;;
    mret tt.

(** ** Compensation *)

Definition contract_row_of (ex : OTCSagaExecution) (d : DB) : option otcContractModel :=
  otc_contracts (d_otc d) !! ex_ContractID ex.

Definition compensateReserveFunds (ex : OTCSagaExecution) : M unit :=
  sql (fun d =>
    match contract_row_of ex d with
    | Some c => update_racun (oc_BuyerAccountID c) active (sub_rezervisano (arg (ex_BuyerReservedAmount ex))) d
    | None => Ok (0, d)
    end) ;;
  mret tt.

(** Seller, listing and amount, zeros without a row. *)
Definition compensateReserveSecurities (ex : OTCSagaExecution) : M unit :=
  Transaction (
    row ← sql_read (fun d => match contract_row_of ex d with
                             | Some c => (oc_SellerID c, oc_ListingID c, oc_Amount c)
                             | None => (0, 0, 0)
                             end);
    let '(seller, listing, amount) := (row : Z * Z * Z) in
    rows ← sql (add_shares seller listing amount);
    if rows =? 0 then sql_insert (insert_share seller listing amount) else mret tt).

(** The errors of the two ledger rows are dropped, but they abort the transaction. *)
Definition compensateTransferFunds (ex : OTCSagaExecution) : M unit :=
  time_now ;;
  Transaction (
    row ← sql_read (fun d => match contract_row_of ex d with
                             | Some c => (oc_BuyerAccountID c, oc_SellerAccountID c)
                             | None => (0, 0)
                             end);
    let '(buyer, seller) := (row : Z * Z) in
    let q := arg (ex_BuyerReservedAmount ex) in
    exec_active seller (sub_stanje q) ;;
    try (sql (insert_transakcija [(seller, ISPLATA, q)])) ;;
    exec_active buyer (give_both q) ;;
    try (sql (insert_transakcija [(buyer, UPLATA, q)])) ;;
    mret tt).

(** The ids of the orders of an execution. *)
Definition saga_orders (id : Z) (d : DB) : list Z :=
  fst <$> filter (fun kv => kv.2 = id) (map_to_list (otc_order_saga (d_otc d))).

(** Fills and audit rows keep their order from being deleted. *)
Definition referenced (orderID : Z) (d : DB) : bool :=
  existsb (fun t => ot_OrderID t =? orderID) (d_order_transactions d) ||
  existsb (fun a => al_OrderID a =? orderID) (d_order_audit_log d).

Definition compensateTransferOwnership (ex : OTCSagaExecution) : M unit :=
  sql (fun d =>
    let ids := saga_orders (ex_ID ex) d in
    if existsb (fun i => referenced i d) ids then Err ErrDB
    else Ok (tt, set_otc_order_saga (foldr delete (otc_order_saga (d_otc d)) ids)
                   (set_orders (foldr delete (d_orders d) ids) d))).

Definition maxCompRetries : Z := 3.

(** At most [n] more attempts: whether one succeeded. *)
Fixpoint retry (ex : OTCSagaExecution) (step : OTCSagaStep) (f : M unit) (n : nat) (attempt : Z) : M bool :=
  match n with
  | O => mret false
  | S n' =>
      try (IncrementRetry (ex_ID ex)) ;;
      compErr ← try f;
      match compErr with
      | Ok _ => try (LogStep (ex_ID ex) step OTCSagaStepStatusCompensated None attempt) ;; mret true
      | Err er =>
          try (LogStep (ex_ID ex) step OTCSagaStepStatusCompensationFailed (Some er) attempt) ;;
          (if attempt <? maxCompRetries then sleep else mret tt) ;;
          retry ex step f n' (attempt + 1)
      end
  end.

(** The compensations, the last step first. *)
Definition allSteps (ex : OTCSagaExecution) : list (OTCSagaStep * M unit) :=
  [(OTCSagaStepTransferOwnership, compensateTransferOwnership ex);
   (OTCSagaStepTransferFunds, compensateTransferFunds ex);
   (OTCSagaStepReserveSecurities, compensateReserveSecurities ex);
   (OTCSagaStepReserveFunds, compensateReserveFunds ex)].

(** The compensations from a step on; none for PENDING. *)
Fixpoint from_step (s : OTCSagaStep) (l : list (OTCSagaStep * M unit)) : list (OTCSagaStep * M unit) :=
  match l with
  | [] => []
  | x :: l' => if decide (x.1 = s) then l else from_step s l'
  end.

(** All of them run; the answer is whether all succeeded. *)
Fixpoint compensate_all (ex : OTCSagaExecution) (l : list (OTCSagaStep * M unit)) : M bool :=
  match l with
  | [] => mret true
  | x :: l' =>
      ok ← retry ex x.1 x.2 (Z.to_nat maxCompRetries) 1;
      oks ← compensate_all ex l';
      mret ((ok : bool) && oks)
  end.

Definition compensateFrom (ex : OTCSagaExecution) (lastSuccessful : OTCSagaStep) (originalErr : error) : M unit :=
  try (UpdateStep (ex_ID ex) lastSuccessful OTCSagaStatusCompensating (Some originalErr)) ;;
  ok ← compensate_all ex (from_step lastSuccessful (allSteps ex));
  try (UpdateStep (ex_ID ex) lastSuccessful
         (if (ok : bool) then OTCSagaStatusFailed else OTCSagaStatusCompensationFailed) (Some originalErr)) ;;
  mret tt.

(** ** The saga *)

(** A step, then the rest; a failure undoes what was done before it. *)
Definition or_compensate (ex : OTCSagaExecution) (lastSuccessful : OTCSagaStep) (m rest : M unit) : M unit :=
  r ← try m;
  match r with
  | Ok _ => rest
  | Err er => compensateFrom ex lastSuccessful er
  end.

Definition runSaga (ex : OTCSagaExecution) (c : OTCContract) : M unit :=
  or_compensate ex OTCSagaStepPending (stepReserveFunds ex c) (
  or_compensate ex OTCSagaStepReserveFunds (stepReserveSecurities ex c) (
  or_compensate ex OTCSagaStepReserveSecurities (stepTransferFunds ex c) (
  or_compensate ex OTCSagaStepTransferFunds (stepTransferOwnership ex c) (
  or_compensate ex OTCSagaStepTransferOwnership (markCompleted ex c) (mret tt))))).

End saga.
