(* ===== verification/OtcFacts.v ===== *)
(** * What the operations of the negotiation did

    Inversion of the runs of the repository and of the four requests: an error leaves
    the tables alone, a success changes one offer, and for an acceptance creates its
    contract and moves the premium. *)

From stdpp Require Import list.
From S2P Require Import Prelude Numeric Domain Tables Store StoreFacts OrderRepo Market FundsManager.
From S2P Require Import FundsFacts GoMath AccountRepo PaymentRepo PaymentFacts OtcRepo.
From S2P Require Import FundsSafety FundsTransfers PaymentRuns.
#[local] Open Scope Z_scope.

#[local] Abbreviation offers d := (otc_offers (d_otc d)).
#[local] Abbreviation contracts d := (otc_contracts (d_otc d)).

(** The tables that say who may claim which shares. *)
Definition otc_core (d : DB) : gmap Z otcOfferModel * gmap Z otcContractModel * list publicShare :=
  (offers d, contracts d, d_public_shares d).

(** ** Statements *)

Lemma sql_env_ok {A} (f : Env -> nat -> DB -> A) e w a w' :
  sql_env f e w = (Ok a, w') -> a = f e (w_step w) (w_db w) /\ w_db w' = w_db w.
Proof. unfold sql_env. apply sql_read_ok. Qed.

Lemma sql_env_reads {A} (f : Env -> nat -> DB -> A) : reads (sql_env f).
Proof. intros e w r w' H. eapply preserves_sql_read, H. apply _. Qed.
#[export] Hint Resolve sql_env_reads : reads.

Lemma sql_now_reads {A} (f : Z -> DB -> A) : reads (sql_now f).
Proof. apply sql_env_reads. Qed.
#[export] Hint Resolve sql_now_reads : reads.

Lemma of_result_ok {A} (r : result A) e w a w' : of_result r e w = (Ok a, w') -> r = Ok a /\ w' = w.
Proof. destruct r; cbn; [by intros [= -> ->]|discriminate]. Qed.

Lemma exec_active_frame {T} (h : DB -> T) id f :
  (forall m d, h (set_racun m d) = h d) -> preserves (same h) (exec_active id f).
Proof.
  intros Hh. unfold exec_active. apply preserves_bind; [apply _| |intros n; apply preserves_ret; apply _].
  by apply update_racun_frame.
Qed.

Section repository.
Context `{DL : decimal.Lib}.

Lemma AvailablePublicShares_reads s l x : reads (AvailablePublicShares s l x).
Proof. unfold AvailablePublicShares. solve_reads. Qed.

Lemma GetListingCurrency_reads l : reads (GetListingCurrency l).
Proof. unfold GetListingCurrency. solve_reads. Qed.

Lemma load_account_reads id : reads (load_account id).
Proof. unfold load_account. solve_reads. Qed.

Lemma treasury_accounts_reads b s l : reads (treasury_accounts b s l).
Proof. unfold treasury_accounts. solve_reads. Qed.

Lemma GetOffer_ok id e w o w' :
  GetOfferByIDForUpdate id e w = (Ok o, w') ->
  w_db w' = w_db w /\ exists m, offers (w_db w) !! id = Some m /\ o = offerToDomain id m.
Proof.
  unfold GetOfferByIDForUpdate. intros (row & w1 & [-> E1]%sql_read_ok & H)%bind_ok.
  destruct (otc_offers _ !! id) as [m|] eqn:Em; [|discriminate]. destruct (id =? 0); [discriminate|].
  injection H as <- <-. split; [done|]. by exists m.
Qed.

Lemma GetOfferByID_ok id e w o w' :
  GetOfferByID id e w = (Ok o, w') ->
  w_db w' = w_db w /\ exists m, offers (w_db w) !! id = Some m /\ o = offerToDomain id m.
Proof.
  unfold GetOfferByID. intros (row & w1 & [-> E1]%sql_read_ok & H)%bind_ok.
  destruct (otc_offers _ !! id) as [m|] eqn:Em; [|discriminate].
  injection H as <- <-. split; [done|]. by exists m.
Qed.

(** The row of an offer as it is stored. *)
Lemma offer_row_ok o m :
  offer_row o = Some m ->
  of_Amount m = ofr_Amount o /\ 0 < of_Amount m /\ 0 < of_PricePerStock m /\ 0 <= of_Premium m /\
  ofr_BuyerID o <> ofr_SellerID o /\
  m = mkOfferModel (ofr_ListingID o) (ofr_SellerID o) (ofr_BuyerID o) (ofr_BuyerAccountID o) (ofr_SellerAccountID o)
        (of_Amount m) (of_PricePerStock m) (of_Premium m) (ofr_SettlementDate o) (ofr_Status o) (ofr_LastModified o)
        (ofr_ModifiedBy o) (ofr_CreatedAt o) (ofr_SellerBankID o) (ofr_BuyerBankID o).
Proof.
  unfold offer_row, store_int. case_decide; [|discriminate]. cbn [mbind option_bind].
  intros (price & Hp & H2)%bind_Some. apply bind_Some in H2 as (premium & Hq & H2).
  unfold terms_ok in H2. destruct (_ && _) eqn:E in H2; [|discriminate]. injection H2 as <-.
  apply andb_prop in E as [E N%negb_true_iff%Z.eqb_neq]. apply andb_prop in E as [E P3%Z.leb_le].
  apply andb_prop in E as [P1%Z.ltb_lt P2%Z.ltb_lt]. done.
Qed.

Lemma insert_row_set {A} (i : Z) (a : A) m (g : gmap Z A -> DB -> DB) d n d' :
  match insert_row i a m with Ok t => Ok (i, g t d) | Err er => Err er end = Ok (n, d') ->
  n = i /\ m !! i = None /\ d' = g (<[i := a]> m) d.
Proof.
  unfold insert_row. destruct (m !! i); [discriminate|]. by intros [= <- <-].
Qed.

Lemma InsertOffer_ok o e w created w' :
  InsertOffer o e w = (Ok created, w') ->
  exists i m now, offers (w_db w) !! i = None /\
    offer_row (mkOffer 0 (ofr_ListingID o) (ofr_SellerID o) (ofr_BuyerID o) (ofr_BuyerAccountID o)
             (ofr_SellerAccountID o) (ofr_Amount o) (ofr_PricePerStock o) (ofr_Premium o)
             (ofr_SettlementDate o) OTCOfferPending now (ofr_ModifiedBy o) now
             (ofr_SellerBankID o) (ofr_BuyerBankID o)) = Some m /\
    ofr_ID created = i /\ w_db w' = set_otc_offers (<[i := m]> (offers (w_db w))) (w_db w).
Proof.
  unfold InsertOffer. intros (now & w1 & E1%time_now_ok & H)%bind_ok.
  apply bind_ok in H as (i & w2 & (d & H2 & E2)%sql_insert_ok & H). injection H as <- <-. cbn [w_db] in *.
  rewrite E1 in H2. unfold insert_offer in H2. destruct (offer_row _) as [m|] eqn:Em; [|discriminate].
  destruct (_ && _) in H2; [|discriminate].
  apply (insert_row_set _ _ _ (fun t d => set_otc_offers t d)) in H2 as (-> & Hn & ->).
  by exists (w_seq w1), m, now.
Qed.

Lemma update_offer_ok id f e w n w' (h : otcOfferModel -> otcOfferModel -> Prop) :
  sql (fun d => update_offer id (fun _ => true) (f d) d) e w = (Ok n, w') -> n <> 0 ->
  (forall m m', f (w_db w) m = Some m' -> h m m') ->
  exists m m', offers (w_db w) !! id = Some m /\ h m m' /\
    w_db w' = set_otc_offers (<[id := m']> (offers (w_db w))) (w_db w).
Proof.
  intros (d & H & -> & _)%sql_ok Hn Hf. unfold update_offer in H.
  destruct (update_row _ _ _ _) as [[k t]|] eqn:E; [|discriminate]. injection H as -> <-.
  apply update_row_inv in E as [(-> & _)|(_ & m & m' & Hm & _ & Em & ->)]; [done|].
  exists m, m'. eauto.
Qed.

Lemma counter_ok offer e w w' :
  UpdateOfferOnCounter offer e w = (Ok tt, w') ->
  exists m now price premium, offers (w_db w) !! ofr_ID offer = Some m /\
    terms_ok (ofr_Amount offer) price premium = true /\
    store_micros (arg (ofr_PricePerStock offer)) = Some price /\
    store_micros (arg (ofr_Premium offer)) = Some premium /\
    w_db w' = set_otc_offers (<[ofr_ID offer := countered (ofr_Amount offer) price premium (ofr_SettlementDate offer)
                                  (ofr_SellerAccountID offer) now (ofr_ModifiedBy offer) m]> (offers (w_db w))) (w_db w).
Proof.
  unfold UpdateOfferOnCounter. intros (now & w1 & E1%time_now_ok & H)%bind_ok. rewrite <- E1.
  apply bind_ok in H as (n & w2 & H2 & H). destruct (Z.eqb_spec n 0) as [|Hn]; [discriminate|]. injection H as <-.
  eapply (update_offer_ok _ (counter_row offer now)) in H2; [|done|intros m m' Hc; exact Hc].
  destruct H2 as (m & m' & Hm & Hc & E). unfold counter_row, store_int in Hc. case_decide; [|discriminate].
  cbn [mbind option_bind] in Hc. apply bind_Some in Hc as (price & Hp & Hc). apply bind_Some in Hc as (premium & Hq & Hc).
  destruct (terms_ok _ _ _) eqn:Et; [|discriminate]. destruct (has_row _ _); [|discriminate]. injection Hc as <-.
  exists m, now, price, premium. done.
Qed.

Lemma UpdateOfferStatus_ok id s by_ e w w' :
  UpdateOfferStatus id s by_ e w = (Ok tt, w') ->
  exists m now, offers (w_db w) !! id = Some m /\
    w_db w' = set_otc_offers (<[id := decided s now by_ m]> (offers (w_db w))) (w_db w).
Proof.
  unfold UpdateOfferStatus. intros (now & w1 & E1%time_now_ok & H)%bind_ok. rewrite <- E1.
  apply bind_ok in H as (n & w2 & H2 & H). destruct (Z.eqb_spec n 0) as [|Hn]; [discriminate|]. injection H as <-.
  apply (update_offer_ok _ (fun _ m => Some (decided s now by_ m)) _ _ _ _ (fun m m' => m' = decided s now by_ m)) in H2
    as (m & m' & Hm & -> & E); [|done|by intros m m' [= <-]]. by exists m, now.
Qed.

Lemma contract_row_ok c m :
  contract_row c = Some m ->
  exists strike premium, store_micros (arg (ctr_StrikePrice c)) = Some strike /\
    store_micros (arg (ctr_Premium c)) = Some premium /\ 0 < ctr_Amount c /\
    m = mkContractModel (ctr_OfferID c) (ctr_ListingID c) (ctr_SellerID c) (ctr_BuyerID c) (ctr_BuyerAccountID c)
          (ctr_SellerAccountID c) (ctr_Amount c) strike premium (ctr_SettlementDate c) (ctr_Status c) (ctr_CreatedAt c)
          (ctr_ExercisedAt c) (ctr_SellerBankID c) (ctr_BuyerBankID c).
Proof.
  unfold contract_row, store_int. case_decide; [|discriminate]. cbn [mbind option_bind].
  intros (strike & Hs & H2)%bind_Some. apply bind_Some in H2 as (premium & Hq & H2).
  destruct (Z.ltb_spec 0 (ctr_Amount c)); [|discriminate]. injection H2 as <-. by exists strike, premium.
Qed.

Lemma CreateContract_ok c e w out w' :
  CreateContract c e w = (Ok out, w') ->
  exists i m now, contracts (w_db w) !! i = None /\ contract_row (stamped_contract 0 c now) = Some m /\
    out = stamped_contract i c now /\ w_db w' = set_otc_contracts (<[i := m]> (contracts (w_db w))) (w_db w).
Proof.
  unfold CreateContract. intros (now & w1 & E1%time_now_ok & H)%bind_ok.
  apply bind_ok in H as (i & w2 & (d & H2 & E2)%sql_insert_ok & H). injection H as <- <-.
  rewrite E1 in H2. unfold insert_contract in H2. destruct (contract_row _) as [m|] eqn:Em; [|discriminate].
  destruct (_ && _) in H2; [|discriminate].
  apply (insert_row_set _ _ _ (fun t d => set_otc_contracts t d)) in H2 as (-> & Hn & ->).
  by exists (w_seq w1), m, now.
Qed.

(** ** Frames *)

Lemma insert_history_core entry now i d a d' : insert_history entry now i d = Ok (a, d') -> same otc_core d d'.
Proof.
  unfold insert_history. destruct (store_opt_terms _) as [n|]; [|discriminate].
  destruct (store_opt_terms _) as [o|]; [|discriminate]. by intros [= _ <-].
Qed.

Lemma record_history_core i a b n o s : preserves (same otc_core) (record_history i a b n o s).
Proof.
  unfold record_history, RecordOfferHistory. solve_preserves. apply preserves_sql_insert; [apply _|].
  intros j d x d'. apply insert_history_core.
Qed.

Lemma record_history_racun i a b n o s : preserves (same (fun d => (d_racun d, d_transakcija d))) (record_history i a b n o s).
Proof.
  unfold record_history, RecordOfferHistory. solve_preserves. apply preserves_sql_insert; [apply _|].
  intros j d x d'. unfold insert_history. destruct (store_opt_terms _) as [t|]; [|discriminate].
  destruct (store_opt_terms _) as [u|]; [|discriminate]. by intros [= _ <-].
Qed.

(** A payment leaves the rest of the tables alone. *)
Lemma debit_frame {T} (h : DB -> T) id x :
  (forall m d, h (set_racun m d) = h d) -> (forall l d, h (set_transakcija l d) = h d) -> preserves (same h) (debit id x).
Proof.
  intros H1 H2. unfold debit. apply preserves_bind; [apply _|by apply exec_active_frame|intros _].
  by apply insert_transakcija_frame.
Qed.

Lemma credit_frame {T} (h : DB -> T) id x :
  (forall m d, h (set_racun m d) = h d) -> (forall l d, h (set_transakcija l d) = h d) -> preserves (same h) (credit id x).
Proof.
  intros H1 H2. unfold credit. apply preserves_bind; [apply _|by apply exec_active_frame|intros _].
  by apply insert_transakcija_frame.
Qed.

Lemma premium_frame {T} (h : DB -> T) inp :
  (forall m d, h (set_racun m d) = h d) -> (forall l d, h (set_transakcija l d) = h d) ->
  preserves (same h) (ExecuteOTCPremiumTransfer inp).
Proof.
  intros H1 H2. pose proof (debit_frame h) as D. pose proof (credit_frame h) as C.
  unfold ExecuteOTCPremiumTransfer, premium_legs.
  repeat first [solve_preserves_step | by apply D | by apply C
               | apply reads_preserves; [apply _|apply load_account_reads || apply treasury_accounts_reads]].
Qed.
End repository.

(** ** The capacity check *)

(** The open offers but [x], the valid contracts and [amount] fit in what [s]
    published of [l], at two readings of the clock. *)
Definition fits (e : Env) (s l x amount : Z) (d : DB) : Prop :=
  exists n1 n2, pending_sum s l x (env_now e n1) d + contract_sum s l (env_now e n2) d + amount <= public_qty s l d.

Lemma wrap32_le z : 0 <= z -> wrap32 z <= z.
Proof. intros H. unfold wrap32. pose proof (Z.div_pos (z + 2 ^ 31) (2 ^ 32)). Z.to_euclidean_division_equations. lia. Qed.

Section requests.
Context `{DL : decimal.Lib}.

Lemma Available_ok s l x e w a w' :
  AvailablePublicShares s l x e w = (Ok a, w') ->
  w_db w' = w_db w /\ forall amount, 0 < amount -> amount <= a -> fits e s l x amount (w_db w).
Proof.
  unfold AvailablePublicShares. intros (ids & w1 & [_ E1]%sql_read_ok & H)%bind_ok.
  apply bind_ok in H as (q & w2 & [-> E2]%sql_read_ok & H). rewrite E1 in *.
  destruct (public_qty s l (w_db w) <=? 0) eqn:Eq; [discriminate|].
  apply bind_ok in H as (p & w3 & [-> E3]%sql_env_ok & H). apply bind_ok in H as (k & w4 & [-> E4]%sql_env_ok & H).
  injection H as <- <-. rewrite E4, E3, E2. split; [done|]. intros amount H0 Ha. exists (w_step w2), (w_step w3).
  set (z := public_qty _ _ _ - _ - _) in Ha. destruct (Z.ltb_spec z 0) as [Hz|Hz].
  - pose proof (wrap32_le 0). lia.
  - pose proof (wrap32_le z Hz). lia.
Qed.

Lemma validate_ok amount price premium settle e w w' :
  validateOfferFields amount price premium settle e w = (Ok tt, w') -> w_db w' = w_db w /\ 0 < amount.
Proof.
  unfold validateOfferFields. destruct (Z.leb_spec amount 0); cbn [orb]; [discriminate|].
  destruct (_ || _); [discriminate|]. destruct (settle =? zero_day); [by intros [= <-]|].
  intros (now & w1 & E1%time_now_ok & H1)%bind_ok. destruct (settle <? truncate_day now); [discriminate|].
  injection H1 as <-. done.
Qed.

Lemma validate_reads amount price premium settle : reads (validateOfferFields amount price premium settle).
Proof. unfold validateOfferFields. solve_reads. Qed.

(** What a request did to the offers and contracts. *)
Definition core_of (o : gmap Z otcOfferModel) (c : gmap Z otcContractModel) (d : DB) :=
  (o, c, d_public_shares d).

(** Money and ledger. *)
Definition funds (d : DB) : gmap Z racun * list transakcija := (d_racun d, d_transakcija d).

Lemma record_history_funds i a b n o s : preserves (same funds) (record_history i a b n o s).
Proof. apply record_history_racun. Qed.

Lemma CreateOffer_ok inp e w created w' :
  CreateOffer inp e w = (Ok created, w') ->
  exists i m, offers (w_db w) !! i = None /\ ofr_ID created = i /\
    of_SellerID m = co_SellerID inp /\ of_ListingID m = co_ListingID inp /\ of_BuyerID m = co_BuyerID inp /\
    of_ModifiedBy m = co_BuyerID inp /\ of_Status m = OTCOfferPending /\ of_Amount m = co_Amount inp /\
    of_SettlementDate m = co_SettlementDate inp /\ 0 < of_Amount m /\ of_BuyerID m <> of_SellerID m /\
    fits e (co_SellerID inp) (co_ListingID inp) 0 (co_Amount inp) (w_db w) /\
    otc_core (w_db w') = core_of (<[i := m]> (offers (w_db w))) (contracts (w_db w)) (w_db w) /\
    funds (w_db w') = funds (w_db w).
Proof.
  unfold CreateOffer. destruct (_ =? _); [discriminate|]. intros ([] & w0 & [E0 Ha]%validate_ok & H)%bind_ok.
  rewrite <- E0. clear E0. apply Transaction_ok in H as (w1 & H & -> & _ & _). change (w_db w0) with (w_db (begin_tx w0)).
  revert H. generalize (begin_tx w0). clear w0 w. intros w H.
  apply bind_ok in H as (a & w2 & [E2 Hfit]%Available_ok & H). destruct (Z.ltb_spec a (co_Amount inp)) as [|Hle]; [discriminate|].
  apply bind_ok in H as (o & w3 & H3 & H). apply InsertOffer_ok in H3 as (i & m & now & Hn & Hm & Ei & E3).
  apply bind_ok in H as ([] & w4 & H4 & H). injection H as <- <-. rewrite E2 in *.
  pose proof (record_history_funds _ _ _ _ _ _ _ _ _ _ H4) as F4. apply record_history_core in H4.
  apply offer_row_ok in Hm as (A1 & A2 & _ & _ & A5 & Em). cbn in A1, A5. exists i, m. unfold same in *.
  split; [exact Hn|]. split; [done|]. rewrite H4, F4, E3.
  assert (Hne : of_BuyerID m <> of_SellerID m) by (rewrite Em; cbn; done).
  assert (H0 : 0 < co_Amount inp) by (rewrite <- A1; done).
  split_and!; try (by rewrite Em); auto.
Qed.

(** An offer that the caller may answer: open, his, and the other side's last. *)
Record answerable (id caller : Z) (m : otcOfferModel) (d : DB) : Prop := {
  an_offer : offers d !! id = Some m;
  an_pending : of_Status m = OTCOfferPending;
  an_party : caller = of_BuyerID m \/ caller = of_SellerID m;
  an_turn : of_ModifiedBy m <> caller
}.

Lemma is_party_true caller id m :
  is_party caller (offerToDomain id m) = true -> caller = of_BuyerID m \/ caller = of_SellerID m.
Proof. unfold is_party. cbn. intros [H%Z.eqb_eq|H%Z.eqb_eq]%orb_prop; auto. Qed.

Lemma CounterOffer_ok inp e w o w' :
  CounterOffer inp e w = (Ok o, w') ->
  exists m acc price premium now, answerable (cn_OfferID inp) (cn_CallerID inp) m (w_db w) /\
    0 < cn_Amount inp /\ fits e (of_SellerID m) (of_ListingID m) (cn_OfferID inp) (cn_Amount inp) (w_db w) /\
    let m' := countered (cn_Amount inp) price premium (cn_SettlementDate inp) acc now (cn_CallerID inp) m in
    o = offerToDomain (cn_OfferID inp) m' /\
    otc_core (w_db w') = core_of (<[cn_OfferID inp := m']> (offers (w_db w))) (contracts (w_db w)) (w_db w) /\
    funds (w_db w') = funds (w_db w).
Proof.
  unfold CounterOffer. intros ([] & w0 & [E0 Ha]%validate_ok & H)%bind_ok.
  rewrite <- E0. clear E0. apply Transaction_ok in H as (w1 & H & -> & _ & _). change (w_db w0) with (w_db (begin_tx w0)).
  revert H. generalize (begin_tx w0). clear w0 w. intros w H.
  apply bind_ok in H as (o1 & w2 & [E2 (m & Hm & ->)]%GetOffer_ok & H). rewrite <- E2 in Hm |- *. clear E2 w.
  case_bool_decide as Hs; cbn [negb] in H; [|discriminate].
  destruct (is_party _ _) eqn:Ep; cbn [negb] in H; [|discriminate]. apply is_party_true in Ep.
  destruct (Z.eqb_spec (ofr_ModifiedBy (offerToDomain (cn_OfferID inp) m)) (cn_CallerID inp)) as [|Ht]; [discriminate|].
  cbn in Ht. apply bind_ok in H as (a & w3 & [E3 Hfit]%Available_ok & H).
  destruct (Z.ltb_spec a (cn_Amount inp)) as [|Hle]; [discriminate|].
  apply bind_ok in H as ([] & w4 & H4 & H). apply counter_ok in H4 as (m0 & now & price & premium & Hm0 & Hok & Hp & Hq & E4).
  cbn in Hm0. rewrite E3 in *. assert (m0 = m) as -> by congruence. cbn in E4.
  apply bind_ok in H as (o2 & w5 & [E5 (m' & Hm' & ->)]%GetOfferByID_ok & H).
  apply bind_ok in H as ([] & w6 & H6 & H). injection H as <- <-.
  pose proof (record_history_funds _ _ _ _ _ _ _ _ _ _ H6) as F6. apply record_history_core in H6.
  unfold same in *. rewrite H6, F6, E5, E4. rewrite E4 in Hm'. cbn in Hm'. rewrite lookup_insert_eq in Hm'. injection Hm' as <-.
  eexists m, _, _, _, _. split; [by split|]. split; [done|]. split; [by apply Hfit|]. cbv zeta. done.
Qed.

Lemma AcceptOffer_ok inp e w c w' :
  AcceptOffer inp e w = (Ok c, w') ->
  exists m acc i k now ccy w1 w2, answerable (ac_OfferID inp) (ac_CallerID inp) m (w_db w) /\
    accept_account inp (offerToDomain (ac_OfferID inp) m) = Ok acc /\
    contracts (w_db w) !! i = None /\
    contract_row (stamped_contract 0 (contract_of (offerToDomain (ac_OfferID inp) m) acc) (oc_CreatedAt k)) = Some k /\
    c = stamped_contract i (contract_of (offerToDomain (ac_OfferID inp) m) acc) (oc_CreatedAt k) /\
    fits e (of_SellerID m) (of_ListingID m) (ac_OfferID inp) (of_Amount m) (w_db w) /\
    otc_core (w_db w') = core_of (<[ac_OfferID inp := decided OTCOfferAccepted now (ac_CallerID inp) m]> (offers (w_db w)))
                           (<[i := k]> (contracts (w_db w))) (w_db w) /\
    ccy <> EmptyString /\
    ExecuteOTCPremiumTransfer (premium_of (offerToDomain (ac_OfferID inp) m) acc ccy (ac_CallerID inp)) e w1 = (Ok tt, w2) /\
    funds (w_db w1) = funds (w_db w) /\ w_db w' = w_db w2.
Proof.
  unfold AcceptOffer. intros H. apply Transaction_ok in H as (w1 & H & -> & _ & _). change (w_db w) with (w_db (begin_tx w)).
  revert H. generalize (begin_tx w). clear w. intros w H.
  apply bind_ok in H as (o1 & w2 & [E2 (m & Hm & ->)]%GetOffer_ok & H). rewrite <- E2 in Hm |- *. clear E2 w.
  case_bool_decide as Hs; cbn [negb] in H; [|discriminate].
  destruct (is_party _ _) eqn:Ep; cbn [negb] in H; [|discriminate]. apply is_party_true in Ep.
  destruct (Z.eqb_spec (ofr_ModifiedBy (offerToDomain (ac_OfferID inp) m)) (ac_CallerID inp)) as [|Ht]; [discriminate|].
  cbn in Ht. apply bind_ok in H as (acc & w3 & [Hacc ->]%of_result_ok & H).
  apply bind_ok in H as (a & w3 & [E3 Hfit]%Available_ok & H).
  destruct (Z.ltb_spec a (ofr_Amount (offerToDomain (ac_OfferID inp) m))) as [|Hle]; [discriminate|]. cbn in Hle.
  apply bind_ok in H as (ccy & w4 & H4 & H). pose proof H4 as E4. apply GetListingCurrency_reads in E4.
  assert (Hccy : ccy <> EmptyString).
  { unfold GetListingCurrency in H4. apply bind_ok in H4 as (x & v & _ & H4).
    destruct (String.eqb_spec x EmptyString); [discriminate|]. by injection H4 as <- _. }
  apply bind_ok in H as ([] & w5 & (m0 & now & Hm0 & E5)%UpdateOfferStatus_ok & H). cbn in Hm0, E5.
  apply bind_ok in H as (out & w6 & (i & k & now2 & Hi & Hk & -> & E6)%CreateContract_ok & H).
  apply bind_ok in H as ([] & w7 & H7 & H). apply bind_ok in H as ([] & w8 & H8 & H). injection H as <- <-.
  pose proof (record_history_funds _ _ _ _ _ _ _ _ _ _ H7) as F7. apply record_history_core in H7.
  pose proof H8 as C8. apply (premium_frame otc_core) in C8; [|done..]. unfold same in *. rewrite E5, <- E4, E3 in *.
  assert (m0 = m) as -> by congruence. cbn in Hi.
  pose proof (contract_row_ok _ _ Hk) as (st & pr & _ & _ & Hpos & Ek).
  assert (Hnow : now2 = oc_CreatedAt k) by (by rewrite Ek).
  exists m, acc, i, k, now, ccy, w7, w8. rewrite <- Hnow. split; [by split|]. split_and!; try done.
  - apply Hfit; [|done]. cbn in Hpos. done.
  - rewrite C8, H7, E6. reflexivity.
  - rewrite F7, E6. reflexivity.
Qed.

Lemma DeclineOffer_ok id caller e w o w' :
  DeclineOffer id caller e w = (Ok o, w') ->
  exists m now, offers (w_db w) !! id = Some m /\ of_Status m = OTCOfferPending /\
    (caller = of_BuyerID m \/ caller = of_SellerID m) /\
    let s := if of_ModifiedBy m =? caller then OTCOfferDeactivated else OTCOfferRejected in
    ofr_Status o = s /\
    otc_core (w_db w') = core_of (<[id := decided s now caller m]> (offers (w_db w))) (contracts (w_db w)) (w_db w) /\
    funds (w_db w') = funds (w_db w).
Proof.
  unfold DeclineOffer. intros H. apply Transaction_ok in H as (w1 & H & -> & _ & _). change (w_db w) with (w_db (begin_tx w)).
  revert H. generalize (begin_tx w). clear w. intros w H.
  apply bind_ok in H as (o1 & w2 & [E2 (m & Hm & ->)]%GetOffer_ok & H). rewrite <- E2 in Hm |- *. clear E2 w.
  case_bool_decide as Hs; cbn [negb] in H; [|discriminate].
  destruct (is_party _ _) eqn:Ep; cbn [negb] in H; [|discriminate]. apply is_party_true in Ep. cbv zeta in H.
  apply bind_ok in H as ([] & w5 & (m0 & now & Hm0 & E5)%UpdateOfferStatus_ok & H). cbn in Hm0, E5.
  assert (m0 = m) as -> by congruence.
  apply bind_ok in H as ([] & w7 & H7 & H). injection H as <- <-.
  pose proof (record_history_funds _ _ _ _ _ _ _ _ _ _ H7) as F7. apply record_history_core in H7.
  unfold same in *. exists m, now. split_and!; try done; [by rewrite H7, E5|by rewrite F7, E5].
Qed.

(** The daily worker marks the overdue contracts, whatever else fails. *)
Lemma expiry_run_core e w r w' :
  expiry_run e w = (r, w') ->
  offers (w_db w') = offers (w_db w) /\ d_public_shares (w_db w') = d_public_shares (w_db w) /\
  (contracts (w_db w') = contracts (w_db w) \/
   exists n, contracts (w_db w') =
     (fun m => if overdue (env_now e n) m then with_contract_status OTCContractExpired (oc_ExercisedAt m) m else m)
       <$> contracts (w_db w)).
Proof.
  unfold expiry_run. intros (r0 & w1 & H1 & H)%try_bind. apply try_bind in H as (r2 & w2 & H2 & H).
  injection H as <- <-. apply sql_env_reads in H2. rewrite <- H2. unfold ExpireOverdueContracts in H1.
  destruct r0 as [n|er].
  - apply sql_ok in H1 as (d & [= <- <-] & -> & _). cbn. split_and!; try done. right. by exists (w_step w).
  - apply sql_err_db in H1. rewrite H1. auto.
Qed.
End requests.

(** ** The premium of an accepted offer

    The transfer is a list of legs over the accounts; a currency only loses the part
    of the seller when the account to be credited takes no money. *)

(** Amounts for accounts, in the order of the statements; a debit is negative. *)
Definition post (t : gmap Z racun) (leg : Z * Q) : gmap Z racun := alter (on_active (moved leg.2)) leg.1 t.
Definition post_all (legs : list (Z * Q)) (t : gmap Z racun) : gmap Z racun := foldl post t legs.

Definition settled (q : Q) : Prop := exists z, whole q z.

Lemma settled_opp q : settled q -> settled (- q) /\ to_cents (- q) = - to_cents q.
Proof. intros [z H]. split; [exists (- z); by apply whole_opp|by eapply whole_opp_cents]. Qed.

Lemma counts_post o legs t j : counts o (post_all legs t !! j) = counts o (t !! j).
Proof.
  revert t. induction legs as [|x l IH]; intros t; [done|]. change (post_all (x :: l) t) with (post_all l (post t x)).
  rewrite IH. apply counts_alter. intros r. apply moved_keeps.
Qed.

Lemma total_post_all o legs t :
  Forall (fun x => settled x.2) legs ->
  total o (post_all legs t) = total o t + zsum (fun x => owed o (to_cents x.2) (t !! x.1)) legs.
Proof.
  intros H. revert t. induction H as [|x l [z Hx] _ IH]; intros t; [cbn; rewrite zsum_nil; lia|].
  change (post_all (x :: l) t) with (post_all l (post t x)).
  rewrite IH, zsum_cons. unfold post at 1. rewrite (total_moved _ _ _ _ _ Hx).
  rewrite (zsum_ext _ (fun y => owed o (to_cents y.2) (t !! y.1))); [lia|].
  intros y _. unfold owed. assert (E : counts o (post t x !! y.1) = counts o (t !! y.1)) by apply (counts_post o [x]). by rewrite E.
Qed.

Section premium.
Context `{DL : decimal.Lib}.

(** [m] posts the legs. *)
Definition posts (m : M unit) (legs : list (Z * Q)) : Prop :=
  forall e w w', m e w = (Ok tt, w') -> d_racun (w_db w') = post_all legs (d_racun (w_db w)).

Lemma posts_nil : posts (mret tt) [].
Proof. by intros e w w' [= <-]. Qed.

Lemma posts_bind m k l1 l2 : posts m l1 -> posts k l2 -> posts (m ;; k) (l1 ++ l2).
Proof.
  intros H1 H2 e w w' ([] & w1 & E1%H1 & E2%H2)%bind_ok. rewrite E2, E1. unfold post_all. by rewrite foldl_app.
Qed.

Lemma posts_if (b : bool) m k l1 l2 : posts m l1 -> posts k l2 -> posts (if b then m else k) (if b then l1 else l2).
Proof. by destruct b. Qed.

Lemma posts_entry id f q es :
  (forall r r', f r = Some r' -> r' = moved q r) -> posts (exec_active id f ;; sql (insert_transakcija es)) [(id, q)].
Proof.
  intros Hf e w w' ([] & w1 & H1 & H)%bind_ok. apply (exec_active_ok _ _ _ _ _ _ Hf) in H1.
  apply sql_ok in H as (d & H & -> & _). apply insert_transakcija_eq in H as ->. cbn. by rewrite H1.
Qed.

Lemma posts_debit id x : posts (debit id x) [(id, (- arg x)%Q)].
Proof. apply posts_entry. intros r r' H. by rewrite <- sub_moved, (sub_stanje_eq _ _ _ H). Qed.

Lemma posts_credit id x : posts (credit id x) [(id, arg x)].
Proof. apply posts_entry. intros r r' H. by apply add_stanje_eq in H. Qed.

Definition legs_of (buyerCcy sellerCcy listingCcy : string) (buyer seller : Z) (t : trezor) (b x s : Q) : list (Z * Q) :=
  [(buyer, - b)%Q] ++
  (if negb (String.eqb buyerCcy listingCcy) then [(tz_buyer t, b)] ++ [(tz_listing t, - x)%Q] else []) ++
  (if negb (String.eqb sellerCcy listingCcy) then [(tz_listing t, x)] ++ [(tz_seller t, - s)%Q] else []) ++
  [(seller, s)].

Lemma posts_premium bc sc lc buyer seller t b x s :
  posts (premium_legs bc sc lc buyer seller t b x s) (legs_of bc sc lc buyer seller t (arg b) (arg x) (arg s)).
Proof.
  unfold premium_legs, legs_of.
  apply posts_bind; [apply posts_debit|]. apply posts_bind.
  { apply posts_if; [apply posts_bind; [apply posts_credit|apply posts_debit]|apply posts_nil]. }
  apply posts_bind; [|apply posts_credit].
  apply posts_if; [apply posts_bind; [apply posts_credit|apply posts_debit]|apply posts_nil].
Qed.

(** ** What the transfer looked up *)

(** A treasury account for a currency other than the listing's. *)
Definition treasury_for (c listingCcy : string) (id : Z) (d : DB) : Prop := c <> listingCcy -> is_treasury id c d.

Lemma treasury_ok bc sc lc e w t w' :
  treasury_accounts bc sc lc e w = (Ok t, w') -> check_treasury bc sc lc t = Ok tt ->
  w_db w' = w_db w /\ treasury_for bc lc (tz_buyer t) (w_db w) /\ treasury_for sc lc (tz_seller t) (w_db w) /\
  (bc <> lc \/ sc <> lc -> is_treasury (tz_listing t) lc (w_db w)).
Proof.
  unfold treasury_accounts. intros (rows & w1 & [-> E1]%sql_read_ok & H)%bind_ok Hc.
  apply bind_ok in H as (k1 & w2 & [= <- <-] & H). apply bind_ok in H as (k2 & w3 & [= <- <-] & H).
  apply bind_ok in H as (k3 & w4 & [= <- <-] & H). injection H as <- <-. split; [exact E1|]. cbn [fst snd] in Hc.
  unfold check_treasury, treasury_for in *. cbn [tz_buyer tz_seller tz_listing] in *.
  assert (P : forall k c, pick k (racun_ids trezor_owner c (w_db w)) <> 0 ->
            is_treasury (pick k (racun_ids trezor_owner c (w_db w))) c (w_db w)).
  { intros k c Hk. by apply racun_ids_active, pick_in. }
  revert Hc. destruct (String.eqb_spec bc lc) as [->|Hb]; destruct (String.eqb_spec sc lc) as [->|Hs];
    rewrite ?String.eqb_refl; cbn [negb andb orb]; [intros _; split_and!; try done; by intros []|..];
    repeat match goal with |- context [String.eqb ?x ?y] => destruct (String.eqb_spec x y) as [->|]; try done end;
    repeat match goal with |- context [?x =? 0] => destruct (Z.eqb_spec x 0); cbn [andb orb]; try done end; eauto 7.
Qed.

(** ** The transfer *)

Definition listing_currency (inp : OTCPremiumTransferInput) : string :=
  if String.eqb (pt_ListingCurrency inp) EmptyString then "USD" else pt_ListingCurrency inp.

(** The premium for an account. *)
Definition premium_in (inp : OTCPremiumTransferInput) (r : racun) : float64 :=
  convertPaymentAmount (listing_currency inp) (r_oznaka r) (pt_AmountInListingCurrency inp).

Definition premium_legs_of (inp : OTCPremiumTransferInput) (buyer seller : racun) (t : trezor) : list (Z * Q) :=
  legs_of (r_oznaka buyer) (r_oznaka seller) (listing_currency inp) (pt_BuyerAccountID inp) (pt_SellerAccountID inp) t
    (arg (premium_in inp buyer)) (arg (pt_AmountInListingCurrency inp)) (arg (premium_in inp seller)).

Lemma load_account_ok id e w a w' :
  load_account id e w = (Ok a, w') ->
  w_db w' = w_db w /\ exists r, d_racun (w_db w) !! id = Some r /\ a = racun_for_payment id r.
Proof.
  unfold load_account. intros (row & w1 & [-> E1]%sql_read_ok & H)%bind_ok.
  destruct (d_racun (w_db w) !! id) as [r|]; [|discriminate]. cbn [fmap option_fmap option_map] in H.
  destruct (_ =? 0); [discriminate|]. injection H as <- <-. eauto.
Qed.

Lemma premium_posts inp e w w' :
  ExecuteOTCPremiumTransfer inp e w = (Ok tt, w') -> f64_leb (pt_AmountInListingCurrency inp) f64_zero = false ->
  exists buyer seller t,
    d_racun (w_db w) !! pt_BuyerAccountID inp = Some buyer /\ d_racun (w_db w) !! pt_SellerAccountID inp = Some seller /\
    r_status buyer = AKTIVAN /\
    f64_ltb (f64_sub (scan_cents (r_stanje_racuna buyer)) (scan_cents (r_rezervisana_sredstva buyer)))
      (premium_in inp buyer) = false /\
    treasury_for (r_oznaka buyer) (listing_currency inp) (tz_buyer t) (w_db w) /\
    treasury_for (r_oznaka seller) (listing_currency inp) (tz_seller t) (w_db w) /\
    (r_oznaka buyer <> listing_currency inp \/ r_oznaka seller <> listing_currency inp ->
     is_treasury (tz_listing t) (listing_currency inp) (w_db w)) /\
    d_racun (w_db w') = post_all (premium_legs_of inp buyer seller t) (d_racun (w_db w)).
Proof.
  unfold ExecuteOTCPremiumTransfer. intros H Hpos. rewrite Hpos in H. destruct (_ =? _); [discriminate|].
  apply bind_ok in H as (ab & w1 & [E1 (buyer & Hb & ->)]%load_account_ok & H).
  apply bind_ok in H as (asl & w2 & [E2 (seller & Hs & ->)]%load_account_ok & H). rewrite E1 in *. cbv zeta in H.
  fold (listing_currency inp) in H.
  apply bind_ok in H as (t & w3 & H3 & H). apply bind_ok in H as ([] & w4 & [Hc ->]%of_result_ok & H).
  apply (treasury_ok _ _ _ _ _ _ _ H3) in Hc as (E3 & T1 & T2 & T3). rewrite E2 in *.
  apply bind_ok in H as (accounts & w5 & [-> E5]%sql_read_ok & H). rewrite E3 in *.
  rewrite find_locked in H by (apply elem_of_remove_dups; left).
  cbn [rp_ID racun_for_payment] in H. rewrite Hb in H. cbn [fmap option_fmap option_map] in H.
  case_decide as Ha; [|discriminate]. destruct (f64_ltb _ _) eqn:Ef; [discriminate|].
  apply bind_ok in H as (now & w6 & E6%time_now_ok & H). apply posts_premium in H.
  exists buyer, seller, t. split_and!; try done. rewrite H, E6, E5. reflexivity.
Qed.

Lemma counts_treasury o c id d : is_treasury id c d -> counts o (d_racun d !! id) = String.eqb c o.
Proof. intros (r & -> & _ & Ha & <-). unfold counts, active. by rewrite Ha, bool_decide_eq_true_2. Qed.

(** The premium of an accepted offer is moved, not made.  A transfer of a positive
    premium leaves the accounts as its legs say: the premium in the buyer's currency
    leaves his active account, which held it, goes through treasury accounts of the
    two currencies when they differ from the listing's, and reaches the seller.  When
    no leg is half a cent, the money of every currency stays the same, except for the
    seller's part when his account is not active: that part is gone. *)
Theorem premium_conserves inp e w w' :
  ExecuteOTCPremiumTransfer inp e w = (Ok tt, w') -> f64_leb (pt_AmountInListingCurrency inp) f64_zero = false ->
  exists buyer seller t,
    d_racun (w_db w) !! pt_BuyerAccountID inp = Some buyer /\ d_racun (w_db w) !! pt_SellerAccountID inp = Some seller /\
    r_status buyer = AKTIVAN /\
    f64_ltb (f64_sub (scan_cents (r_stanje_racuna buyer)) (scan_cents (r_rezervisana_sredstva buyer)))
      (premium_in inp buyer) = false /\
    d_racun (w_db w') = post_all (premium_legs_of inp buyer seller t) (d_racun (w_db w)) /\
    (settled (arg (premium_in inp buyer)) -> settled (arg (premium_in inp seller)) ->
     settled (arg (pt_AmountInListingCurrency inp)) ->
     forall o, total o (d_racun (w_db w')) = total o (d_racun (w_db w)) -
       (if String.eqb (r_oznaka seller) o && negb (active seller) then to_cents (arg (premium_in inp seller)) else 0)).
Proof.
  intros H Hpos. destruct (premium_posts _ _ _ _ H Hpos) as (buyer & seller & t & Hb & Hs & Ha & Hf & T1 & T2 & T3 & E).
  exists buyer, seller, t. split_and!; [done..|]. rewrite E. clear H Hpos E Hf. unfold premium_legs_of, premium_in.
  set (lc := listing_currency inp) in *. set (x := pt_AmountInListingCurrency inp). intros S1 S2 S3 o.
  assert (Same : convertPaymentAmount lc lc x = x).
  { unfold convertPaymentAmount, convertPaymentAmountWithFee. by rewrite String.eqb_refl. }
  destruct (settled_opp _ S1) as [S1' N1], (settled_opp _ S2) as [S2' N2], (settled_opp _ S3) as [S3' N3].
  rewrite total_post_all.
  2:{ unfold legs_of. repeat case_match; repeat (apply Forall_cons_2 || apply Forall_nil_2); done. }
  assert (Cb : counts o (Some buyer) = String.eqb (r_oznaka buyer) o).
  { unfold counts, active. by rewrite Ha, bool_decide_eq_true_2. }
  unfold legs_of. rewrite !zsum_app, !zsum_cons, !zsum_nil. cbn [fst snd]. unfold owed. rewrite Hb, Hs, Cb, N1.
  unfold treasury_for in *. change (counts o (Some seller)) with (active seller && String.eqb (r_oznaka seller) o).
  destruct (String.eqb_spec (r_oznaka buyer) lc) as [Eb|Nb], (String.eqb_spec (r_oznaka seller) lc) as [Es|Ns];
    cbn [negb]; rewrite ?zsum_app, ?zsum_cons, ?zsum_nil; cbn [fst snd];
    try (specialize (T1 Nb); rewrite (counts_treasury o _ _ _ T1));
    try (specialize (T2 Ns); rewrite (counts_treasury o _ _ _ T2));
    try (rewrite (counts_treasury o _ _ _ (T3 ltac:(auto)))); rewrite ?Eb, ?Es, ?Same, ?N1, ?N2, ?N3;
    repeat (destruct (String.eqb _ o)); destruct (active seller); cbn [andb negb]; lia.
Qed.
End premium.
