(* ===== verification/OtcSagaFacts.v ===== *)
(** * What the pieces of the saga can change

    Frames: the notes on an execution touch its row and its log only; each step and
    each compensation touches its own table.  [saga_at] composes them, for the
    whole saga and whatever fails, with the waits between two attempts. *)

From stdpp Require Import list.
From S2P Require Import Prelude Numeric Domain Tables Store StoreFacts OrderRepo Market FundsManager.
From S2P Require Import FundsFacts GoMath AccountRepo PaymentRepo PaymentFacts OtcRepo OtcFacts OtcSaga.
#[local] Open Scope Z_scope.

#[local] Abbreviation offers d := (otc_offers (d_otc d)).
#[local] Abbreviation contracts d := (otc_contracts (d_otc d)).

Section at_rules.
Context (e : Env) (R : DB -> DB -> Prop) `{HR : !PreOrder R}.

Lemma preserves_at_try {A} (m : M A) : preserves_at e R m -> preserves_at e R (try m).
Proof. intros Hm w r w' H. apply try_run in H as (r0 & _ & H). eapply Hm, H. Qed.

Lemma preserves_at_sleep_unless (b : bool) : interferes e R -> preserves_at e R (if b then sleep else mret tt).
Proof.
  intros H. destruct b; [by apply preserves_at_sleep|].
  intros w r w' [= <- <-]. reflexivity.
Qed.
End at_rules.

Section pieces.
Context `{DL : decimal.Lib}.

(** ** Notes on the execution *)

Section notes.
Context (R : DB -> DB -> Prop) `{HR : !PreOrder R}.
Context (Hexec : forall m d, R d (set_otc_executions m d)) (Hlog : forall l d, R d (set_otc_step_log l d)).

Lemma update_execution_preserves id f : preserves R (sql (update_execution id f)).
Proof using All.
  apply preserves_sql; [done|]. intros d n d'. unfold update_execution.
  destruct (update_row _ _ _ _) as [[k m]|]; [|discriminate]. intros [= _ <-]. apply Hexec.
Qed.

Lemma UpdateStep_preserves id s st er : preserves R (UpdateStep id s st er).
Proof using All. pose proof (update_execution_preserves id). unfold UpdateStep. solve_preserves. Qed.

Lemma LogStep_preserves id s st er n : preserves R (LogStep id s st er n).
Proof using All.
  unfold LogStep. apply preserves_bind; [done|apply preserves_io; done|intros now]. apply preserves_sql; [done|].
  intros d x d'. destruct (has_row _ _); [|discriminate]. intros [= _ <-]. apply Hlog.
Qed.

Lemma IncrementRetry_preserves id : preserves R (IncrementRetry id).
Proof using All. pose proof (update_execution_preserves id). unfold IncrementRetry, GetExecution. solve_preserves. Qed.

Lemma run_step_preserves ex s m : preserves R m -> preserves R (run_step ex s m).
Proof using All.
  intros Hm. pose proof LogStep_preserves. pose proof UpdateStep_preserves.
  unfold run_step, recordStep. solve_preserves.
Qed.

(** A retried compensation, with the others running in between. *)
Lemma retry_at e ex s f n k :
  interferes e R -> preserves R f -> preserves_at e R (retry ex s f n k).
Proof using All.
  intros Hi Hf. revert k. induction n as [|n IH]; intros k; cbn [retry].
  - apply preserves_at_of. apply preserves_ret. done.
  - apply preserves_at_bind; [done|apply preserves_at_of, preserves_try, IncrementRetry_preserves|intros _].
    apply preserves_at_bind; [done|by apply preserves_at_of, preserves_try|intros [[]|er]].
    + apply preserves_at_of. pose proof LogStep_preserves. solve_preserves.
    + apply preserves_at_bind; [done|apply preserves_at_of, preserves_try, LogStep_preserves|intros _].
      apply preserves_at_bind; [done|by apply preserves_at_sleep_unless|intros _]. apply IH.
Qed.

Lemma compensate_all_at e ex l :
  interferes e R -> Forall (fun x => preserves R x.2) l -> preserves_at e R (compensate_all ex l).
Proof using All.
  intros Hi. induction 1 as [|x l Hx _ IH]; cbn [compensate_all]; [apply preserves_at_of, preserves_ret; done|].
  apply preserves_at_bind; [done|by apply retry_at|intros ok].
  apply preserves_at_bind; [done|exact IH|intros oks]. apply preserves_at_of, preserves_ret. done.
Qed.

Lemma compensateFrom_at e ex s er :
  interferes e R -> Forall (fun x => preserves R x.2) (from_step s (allSteps ex)) ->
  preserves_at e R (compensateFrom ex s er).
Proof using All.
  intros Hi Hl. pose proof UpdateStep_preserves as Hu. unfold compensateFrom.
  apply preserves_at_bind; [done|apply preserves_at_of, preserves_try, Hu|intros _].
  apply preserves_at_bind; [done|by apply compensate_all_at|intros ok].
  apply preserves_at_of. solve_preserves.
Qed.

Lemma from_step_Forall (P : OTCSagaStep * M unit -> Prop) s l : Forall P l -> Forall P (from_step s l).
Proof using.
  induction 1 as [|x l Hx Hl IH]; cbn [from_step]; [constructor|]. case_decide; [by constructor|done].
Qed.

(** The whole saga, when each step and each compensation keeps [R]. *)
Lemma saga_at e ex c :
  interferes e R -> Forall (fun x => preserves R x.2) (allSteps ex) ->
  preserves R (reserve_funds ex c) -> preserves R (reserve_securities c) -> preserves R (transfer_funds ex c) ->
  (forall now, preserves R (transfer_ownership ex c now)) -> preserves R (markCompleted ex c) ->
  preserves_at e R (runSaga ex c).
Proof using All.
  intros Hi Hl H1 H2 H3 H4 H5. pose proof run_step_preserves as Hrun.
  assert (K : forall s m rest, preserves R m -> preserves_at e R rest -> preserves_at e R (or_compensate ex s m rest)).
  { intros s m rest Hm Hr. unfold or_compensate. apply preserves_at_bind; [done|by apply preserves_at_of, preserves_try|].
    intros [a|er]; [done|]. apply compensateFrom_at; [done|by apply from_step_Forall]. }
  unfold runSaga, stepReserveFunds, stepReserveSecurities, stepTransferFunds, stepTransferOwnership.
  apply K; [by apply Hrun|]. apply K; [by apply Hrun|]. apply K; [|apply K; [|apply K; [done|]]].
  - apply preserves_bind; [done|apply preserves_io; done|intros _]. by apply Hrun.
  - apply preserves_bind; [done|apply preserves_io; done|intros now]. by apply Hrun.
  - apply preserves_at_of, preserves_ret. done.
Qed.
End notes.

(** ** Steps and compensations, by the tables they write *)

Lemma reserve_funds_frame {T} (h : DB -> T) ex c :
  (forall m d, h (set_racun m d) = h d) -> preserves (same h) (reserve_funds ex c).
Proof. intros H. pose proof (fun id f => exec_active_frame h id f H). unfold reserve_funds. solve_preserves. Qed.

Lemma transfer_funds_frame {T} (h : DB -> T) ex c :
  (forall m d, h (set_racun m d) = h d) -> (forall l d, h (set_transakcija l d) = h d) ->
  preserves (same h) (transfer_funds ex c).
Proof.
  intros H1 H2. pose proof (fun id f => exec_active_frame h id f H1). pose proof (fun es => insert_transakcija_frame h es H2).
  unfold transfer_funds. cbv zeta. solve_preserves.
Qed.

Lemma compensate_funds_frame {T} (h : DB -> T) ex :
  (forall m d, h (set_racun m d) = h d) -> (forall l d, h (set_transakcija l d) = h d) ->
  preserves (same h) (compensateTransferFunds ex).
Proof.
  intros H1 H2. pose proof (fun id f => exec_active_frame h id f H1). pose proof (fun es => insert_transakcija_frame h es H2).
  unfold compensateTransferFunds. solve_preserves.
Qed.

Lemma compensate_reserve_frame {T} (h : DB -> T) ex :
  (forall m d, h (set_racun m d) = h d) -> preserves (same h) (compensateReserveFunds ex).
Proof.
  intros H. unfold compensateReserveFunds. apply preserves_bind; [apply _| |intros n; apply preserves_ret; apply _].
  apply preserves_sql; [apply _|]. intros d n d'. destruct (contract_row_of ex d) as [c|]; [|by intros [= _ <-]].
  intros E%update_racun_inv. destruct E as [(_ & ->)|(_ & r & r' & _ & _ & _ & ->)]; [done|]. apply H.
Qed.

Lemma shares_frame {T} (h : DB -> T) c :
  (forall l d, h (set_public_shares l d) = h d) -> preserves (same h) (reserve_securities c).
Proof.
  intros H.
  assert (D : forall P, preserves (same h) (sql (delete_shares P)))
    by (intros P; apply preserves_sql; [apply _|]; intros d n d' [= _ <-]; apply H).
  assert (A : forall u l n, preserves (same h) (sql (add_shares u l n))).
  { intros u l n. apply preserves_sql; [apply _|]. intros d k d'. unfold add_shares.
    destruct (mapM _ _); [|discriminate]. intros [= _ <-]. apply H. }
  unfold reserve_securities. cbv zeta. solve_preserves.
Qed.

Lemma compensate_shares_frame {T} (h : DB -> T) ex :
  (forall l d, h (set_public_shares l d) = h d) -> preserves (same h) (compensateReserveSecurities ex).
Proof.
  intros H.
  assert (A : forall u l n, preserves (same h) (sql (add_shares u l n))).
  { intros u l n. apply preserves_sql; [apply _|]. intros d k d'. unfold add_shares.
    destruct (mapM _ _); [|discriminate]. intros [= _ <-]. apply H. }
  assert (I : forall u l n, preserves (same h) (sql_insert (insert_share u l n))).
  { intros u l n. apply preserves_sql_insert; [apply _|]. intros i d k d'. unfold insert_share.
    destruct (store_int n); [|discriminate]. destruct (0 <? _); [|discriminate]. intros [= _ <-]. apply H. }
  unfold compensateReserveSecurities. solve_preserves.
Qed.

Lemma ownership_frame {T} (h : DB -> T) ex c now :
  (forall m d, h (set_orders m d) = h d) -> (forall m d, h (set_otc_order_saga m d) = h d) ->
  preserves (same h) (transfer_ownership ex c now).
Proof.
  intros H1 H2.
  assert (I : forall u a dir, preserves (same h) (sql_insert (insert_synthetic ex u a dir c now))).
  { intros u a dir. apply preserves_sql_insert; [apply _|]. intros i d k d'. unfold insert_synthetic.
    destruct (store_micros _); [|discriminate]. destruct (_ && _); [|discriminate].
    destruct (insert_row _ _ _); [|discriminate]. intros [= _ <-]. unfold same. by rewrite H2, H1. }
  unfold transfer_ownership. solve_preserves.
Qed.

Lemma compensate_ownership_frame {T} (h : DB -> T) ex :
  (forall m d, h (set_orders m d) = h d) -> (forall m d, h (set_otc_order_saga m d) = h d) ->
  preserves (same h) (compensateTransferOwnership ex).
Proof.
  intros H1 H2. unfold compensateTransferOwnership. apply preserves_sql; [apply _|]. intros d k d'. cbv zeta.
  destruct (existsb _ _); [discriminate|]. intros [= _ <-]. unfold same. by rewrite H2, H1.
Qed.

(** The contract becomes EXERCISED, the execution COMPLETED. *)
Lemma markCompleted_preserves (R : DB -> DB -> Prop) `{!PreOrder R} ex c :
  (forall m d, R d (set_otc_executions m d)) -> (forall l d, R d (set_otc_step_log l d)) ->
  (forall d k t, contracts d !! ctr_ID c = Some k ->
     R d (set_otc_contracts (<[ctr_ID c := with_contract_status OTCContractExercised t k]> (contracts d)) d)) ->
  preserves R (markCompleted ex c).
Proof.
  intros H1 H2 H3. pose proof (UpdateStep_preserves R H1 H2). pose proof (LogStep_preserves R H1 H2).
  assert (U : preserves R (UpdateContractStatus (ctr_ID c) OTCContractExercised)).
  { unfold UpdateContractStatus. rewrite decide_True by done.
    apply preserves_bind; [done|solve_preserves|intros t]. apply preserves_bind; [done| |intros n; solve_preserves].
    apply preserves_sql; [done|]. intros d n d'. unfold update_contract.
    destruct (update_row _ _ _ _) as [[k m]|] eqn:E; [|discriminate]. intros [= _ <-].
    apply update_row_inv in E as [(_ & -> & Hn)|(_ & k0 & k1 & Hk & _ & [= <-] & ->)]; [|by apply H3].
    destruct (contracts d !! ctr_ID c) as [k0|] eqn:Ek; [by specialize (Hn _ eq_refl)|].
    replace (set_otc_contracts (contracts d) d) with d; [done|]. destruct d as []. cbn. f_equal. by destruct d_otc. }
  unfold markCompleted. solve_preserves.
Qed.
End pieces.
