(* ===== verification/OtcOffers.v ===== *)
(** * Nobody promises more shares than he published

    [negotiation_step]: the requests of the negotiation and the daily expiry, each in
    any world and under any failures, while the published shares do not shrink and the
    clock does not run back.  [capacity_inv] is kept: the open offers and valid
    contracts whose settlement day has not begun claim no more than their seller
    published.  Those whose day has begun are not counted, here as in the code. *)

From stdpp Require Import list relations.
From S2P Require Import Prelude Numeric Domain Tables Store StoreFacts OrderRepo Market FundsManager.
From S2P Require Import FundsFacts GoMath AccountRepo PaymentRepo OtcRepo OtcFacts.
From S2P Require Import OtcSaga OtcSagaFacts.
#[local] Open Scope Z_scope.

#[local] Abbreviation offers d := (otc_offers (d_otc d)).
#[local] Abbreviation contracts d := (otc_contracts (d_otc d)).

(** All that is claimed of a seller's shares of a listing at [t], by offers and
    contracts with a settlement midnight that is not past ([live]). *)
Definition claimed (s l t : Z) (d : DB) : Z :=
  msum (offer_claim s l t) (offers d) + contract_sum s l t d.

Record capacity_inv (t : Z) (d : DB) : Prop := {
  cp_offer : forall i m, offers d !! i = Some m -> 0 < of_Amount m;
  cp_contract : forall i c, contracts d !! i = Some c -> 0 < oc_Amount c;
  cp_id : offers d !! 0 = None;
  cp_room : forall s l, claimed s l t d <= public_qty s l d
}.

(** ** Claims *)

Lemma live_later t t' day : t <= t' -> live t' day = true -> live t day = true.
Proof. unfold live. intros H H1%Z.leb_le. apply Z.leb_le. lia. Qed.

Lemma offer_claim_later s l t t' m : t <= t' -> 0 < of_Amount m -> 0 <= offer_claim s l t' m <= offer_claim s l t m.
Proof.
  intros Ht Hm. unfold offer_claim. destruct (live t' _) eqn:E.
  - rewrite (live_later _ _ _ Ht E). destruct (_ && _ && _ && _); lia.
  - rewrite andb_false_r. destruct (_ && _ && _ && _); lia.
Qed.

Lemma contract_claim_later s l t t' c :
  t <= t' -> 0 < oc_Amount c -> 0 <= contract_claim s l t' c <= contract_claim s l t c.
Proof.
  intros Ht Hm. unfold contract_claim. destruct (live t' _) eqn:E.
  - rewrite (live_later _ _ _ Ht E). destruct (_ && _ && _ && _); lia.
  - rewrite andb_false_r. destruct (_ && _ && _ && _); lia.
Qed.

Lemma offers_later s l t t' (m : gmap Z otcOfferModel) :
  (forall i o, m !! i = Some o -> 0 < of_Amount o) -> t <= t' ->
  msum (offer_claim s l t') m <= msum (offer_claim s l t) m.
Proof. intros Hm Ht. apply msum_le. intros i o Ho. apply offer_claim_later; eauto. Qed.

Lemma contracts_later s l t t' d :
  (forall i c, contracts d !! i = Some c -> 0 < oc_Amount c) -> t <= t' ->
  contract_sum s l t' d <= contract_sum s l t d.
Proof. intros Hm Ht. apply msum_le. intros i c Hc. apply contract_claim_later; eauto. Qed.

Lemma capacity_later t t' d : t <= t' -> capacity_inv t d -> capacity_inv t' d.
Proof.
  intros Ht [I1 I2 I3 I4]. split; [done..|]. intros s l. specialize (I4 s l). unfold claimed in *.
  pose proof (offers_later s l t t' _ I1 Ht). pose proof (contracts_later s l t t' _ I2 Ht). lia.
Qed.

(** What the capacity check read bounds the claims at every later time. *)
Lemma fits_later e s l x amount t d :
  capacity_inv t d -> (forall n, env_now e n <= t) -> fits e s l x amount d ->
  msum (offer_claim s l t) (delete x (offers d)) + contract_sum s l t d + amount <= public_qty s l d.
Proof.
  intros [I1 I2 I3 I4] Ht (n1 & n2 & H). unfold pending_sum in H.
  assert (msum (offer_claim s l t) (delete x (offers d)) <= msum (offer_claim s l (env_now e n1)) (delete x (offers d))).
  { apply offers_later; [|done]. intros i o [_ Ho]%lookup_delete_Some. eauto. }
  pose proof (contracts_later s l _ _ _ I2 (Ht n2)). lia.
Qed.

(** A claim is on the shares of one seller and listing, and no more than the amount. *)
Lemma offer_claim_bound s l t m : 0 < of_Amount m ->
  offer_claim s l t m <= if (of_SellerID m =? s) && (of_ListingID m =? l) then of_Amount m else 0.
Proof. intros Hm. unfold offer_claim. destruct (_ =? s), (_ =? l), (bool_decide _), (live _ _); cbn; lia. Qed.

Lemma contract_claim_bound s l t c : 0 < oc_Amount c ->
  contract_claim s l t c <= if (oc_SellerID c =? s) && (oc_ListingID c =? l) then oc_Amount c else 0.
Proof. intros Hm. unfold contract_claim. destruct (_ =? s), (_ =? l), (bool_decide _), (live _ _); cbn; lia. Qed.

(** One offer is replaced, or a new one added: [old] is what it claimed before. *)
Lemma replace_offer t d i m d' old :
  capacity_inv t d -> otc_core d' = core_of (<[i := m]> (offers d)) (contracts d) d -> 0 < of_Amount m -> i <> 0 ->
  old = delete i (offers d) ->
  (forall s l, msum (offer_claim s l t) old + contract_sum s l t d + offer_claim s l t m <= public_qty s l d) ->
  capacity_inv t d'.
Proof.
  intros [I1 I2 I3 I4] [= Eo Ec Es] Hm Hi -> H. split.
  - rewrite Eo. intros j o Ho. apply lookup_insert_Some in Ho as [[_ <-]|[_ Ho]]; eauto.
  - rewrite Ec. eauto.
  - rewrite Eo. by rewrite lookup_insert_ne.
  - intros s l. specialize (H s l). unfold claimed, contract_sum, public_qty in *. rewrite Eo, Ec, Es.
    rewrite <- insert_delete_eq, msum_insert by apply lookup_delete_eq. lia.
Qed.

(** An offer that claims no more than before. *)
Lemma shrink_offer t d i m m' d' :
  capacity_inv t d -> offers d !! i = Some m -> otc_core d' = core_of (<[i := m']> (offers d)) (contracts d) d ->
  0 < of_Amount m' -> (forall s l, offer_claim s l t m' <= offer_claim s l t m) -> capacity_inv t d'.
Proof.
  intros I Hm E Ha Hle. pose proof I as [I1 I2 I3 I4].
  eapply replace_offer; [done..| |done|]; [by intros ->; congruence|].
  intros s l. specialize (I4 s l). specialize (Hle s l). unfold claimed in I4.
  rewrite (msum_delete _ _ _ _ Hm) in I4. lia.
Qed.

Section steps.
Context `{DL : decimal.Lib}.

(** No reading of the clock is later than [t]. *)
Definition clock (e : Env) (t : Z) : Prop := forall n, env_now e n <= t.

Inductive negotiation_step (t : Z) : DB -> DB -> Prop :=
  | ns_create inp e w r w' : clock e t -> CreateOffer inp e w = (r, w') -> offers (w_db w') !! 0 = None ->
      negotiation_step t (w_db w) (w_db w')
  | ns_counter inp e w r w' : clock e t -> CounterOffer inp e w = (r, w') -> negotiation_step t (w_db w) (w_db w')
  | ns_accept inp e w r w' : clock e t -> AcceptOffer inp e w = (r, w') -> negotiation_step t (w_db w) (w_db w')
  | ns_decline id caller e w r w' : clock e t -> DeclineOffer id caller e w = (r, w') ->
      negotiation_step t (w_db w) (w_db w')
  | ns_expiry e w r w' : clock e t -> expiry_run e w = (r, w') -> negotiation_step t (w_db w) (w_db w')
  (** The rest of the bank: nobody withdraws what he published. *)
  | ns_others d d' : offers d' = offers d -> contracts d' = contracts d ->
      (forall s l, public_qty s l d <= public_qty s l d') -> negotiation_step t d d'.

(** Steps at times that do not run back. *)
Definition timed_step (x y : Z * DB) : Prop := x.1 <= y.1 /\ negotiation_step y.1 x.2 y.2.

Lemma create_capacity t inp e w r w' :
  clock e t -> CreateOffer inp e w = (r, w') -> offers (w_db w') !! 0 = None ->
  capacity_inv t (w_db w) -> capacity_inv t (w_db w').
Proof.
  intros Ht H H0 I. destruct r as [o|er].
  - apply CreateOffer_ok in H as (i & m & Hi & _ & Es & El & _ & _ & _ & Ea & _ & Hm & _ & Hfit & E & _).
    apply (fits_later _ _ _ _ _ _ _ I Ht) in Hfit. pose proof (cp_id _ _ I) as I0.
    rewrite delete_id in Hfit by done.
    assert (Hne : i <> 0). { intros ->. injection E as Eo _ _. rewrite Eo, lookup_insert_eq in H0. done. }
    eapply (replace_offer t (w_db w) i m _ (offers (w_db w))); try done; [by rewrite delete_id|].
    intros s l. pose proof (offer_claim_bound s l t m Hm) as Hb. pose proof (cp_room _ _ I s l) as I4.
    unfold claimed in I4. destruct (Z.eqb_spec (of_SellerID m) s) as [E1|], (Z.eqb_spec (of_ListingID m) l) as [E2|];
      cbn [andb] in Hb; try lia. rewrite Es in E1. rewrite El in E2. subst s l. lia.
  - unfold CreateOffer in H. destruct (_ =? _); [by injection H as _ <-|].
    apply bind_err in H as [H|([] & w1 & H1 & H)]; [apply validate_reads in H; by rewrite <- H|].
    apply validate_reads in H1. apply Transaction_err in H. by rewrite H, <- H1.
Qed.

Lemma counter_capacity t inp e w r w' :
  clock e t -> CounterOffer inp e w = (r, w') -> capacity_inv t (w_db w) -> capacity_inv t (w_db w').
Proof.
  intros Ht H I. destruct r as [o|er].
  - apply CounterOffer_ok in H as (m & acc & price & premium & now & [Hm Hs Hp Hturn] & Ha & Hfit & _ & E & _).
    apply (fits_later _ _ _ _ _ _ _ I Ht) in Hfit.
    eapply replace_offer; [done|exact E|done|intros E0; rewrite E0, (cp_id _ _ I) in Hm; done|done|].
    intros s l. pose proof (offer_claim_bound s l t (countered (cn_Amount inp) price premium (cn_SettlementDate inp) acc now
      (cn_CallerID inp) m) Ha) as Hb. cbn [of_SellerID of_ListingID of_Amount countered] in Hb.
    pose proof (cp_room _ _ I s l) as I4. unfold claimed in I4. rewrite (msum_delete _ _ _ _ Hm) in I4.
    pose proof (offer_claim_later s l t t m ltac:(lia) (cp_offer _ _ I _ _ Hm)).
    destruct (Z.eqb_spec (of_SellerID m) s) as [E1|], (Z.eqb_spec (of_ListingID m) l) as [E2|];
      cbn [andb] in Hb; try subst s l; lia.
  - unfold CounterOffer in H. apply bind_err in H as [H|([] & w1 & H1 & H)]; [apply validate_reads in H; by rewrite <- H|].
    apply validate_reads in H1. apply Transaction_err in H. by rewrite H, <- H1.
Qed.

(** A decided offer claims nothing. *)
Lemma decided_claim s l t st now by_ m : st <> OTCOfferPending -> offer_claim s l t (decided st now by_ m) = 0.
Proof.
  intros Hs. unfold offer_claim. cbn [decided of_Status]. rewrite bool_decide_eq_false_2 by done.
  by rewrite andb_false_r.
Qed.

Lemma decline_capacity t id caller e w r w' :
  DeclineOffer id caller e w = (r, w') -> capacity_inv t (w_db w) -> capacity_inv t (w_db w').
Proof.
  intros H I. destruct r as [o|er]; [|unfold DeclineOffer in H; apply Transaction_err in H; by rewrite H].
  apply DeclineOffer_ok in H as (m & now & Hm & _ & _ & _ & E & _). cbv zeta in E.
  pose proof (cp_offer _ _ I _ _ Hm) as Ha. eapply shrink_offer; [done|done|exact E|done|].
  intros s l. rewrite decided_claim by (by destruct (_ =? _)). by apply (offer_claim_later s l t t).
Qed.

(** The contract claims what its offer claimed. *)
Lemma accept_capacity t inp e w r w' :
  AcceptOffer inp e w = (r, w') -> capacity_inv t (w_db w) -> capacity_inv t (w_db w').
Proof.
  intros H I. destruct r as [c|er]; [|unfold AcceptOffer in H; apply Transaction_err in H; by rewrite H].
  apply AcceptOffer_ok in H as (m & acc & i & k & now & ccy & w1 & w2 & [Hm Hs _ _] & _ & Hi & Hk & _ & _ & E & _).
  apply contract_row_ok in Hk as (strike & premium & _ & _ & Hpos & Ek). cbn in Hpos, Ek.
  destruct I as [I1 I2 I3 I4]. injection E as Eo Ec Es. split.
  - rewrite Eo. intros j o Ho. apply lookup_insert_Some in Ho as [[_ <-]|[_ Ho]]; eauto.
  - rewrite Ec. intros j o Ho. apply lookup_insert_Some in Ho as [[_ <-]|[_ Ho]]; [by rewrite Ek|eauto].
  - rewrite Eo, lookup_insert_ne; [done|]. intros E0. rewrite E0, I3 in Hm. done.
  - intros s l. specialize (I4 s l). unfold claimed, contract_sum, public_qty in *. rewrite Eo, Ec, Es.
    rewrite (msum_update _ _ _ _ _ Hm), decided_claim, msum_insert by done.
    assert (contract_claim s l t k = offer_claim s l t m) as ->; [|lia].
    rewrite Ek. unfold contract_claim, offer_claim. cbn. by rewrite Hs, !bool_decide_eq_true_2.
Qed.

Lemma expiry_capacity t e w r w' :
  clock e t -> expiry_run e w = (r, w') -> capacity_inv t (w_db w) -> capacity_inv t (w_db w').
Proof.
  intros Ht H [I1 I2 I3 I4]. apply expiry_run_core in H as (Eo & Es & [Ec|(n & Ec)]).
  - split; rewrite ?Eo, ?Ec; try done. intros s l. specialize (I4 s l).
    unfold claimed, contract_sum, public_qty in *. by rewrite Eo, Ec, Es.
  - split; rewrite ?Eo, ?Ec; try done.
    + intros i c Hc. rewrite lookup_fmap in Hc. apply fmap_Some in Hc as (c0 & Hc & ->). destruct (overdue _ _); cbn; eauto.
    + intros s l. specialize (I4 s l). unfold claimed, contract_sum, public_qty in *. rewrite Eo, Ec, Es, msum_fmap.
      erewrite (msum_ext _ (contract_claim s l t)); [done|]. intros i c Hc. cbn beta.
      destruct (overdue (env_now e n) c) eqn:Eov; [|done]. unfold overdue in Eov.
      apply andb_prop in Eov as [_ Hl%negb_true_iff]. unfold contract_claim. cbn.
      destruct (live t (oc_SettlementDate c)) eqn:El; [|by rewrite !andb_false_r].
      by rewrite (live_later _ _ _ (Ht n) El) in Hl.
Qed.

Lemma step_capacity t d d' : negotiation_step t d d' -> capacity_inv t d -> capacity_inv t d'.
Proof.
  destruct 1 as [inp e w r w' Ht H H0|inp e w r w' Ht H|inp e w r w' Ht H|id caller e w r w' Ht H|e w r w' Ht H|d d' Eo Ec Hs].
  - by eapply create_capacity.
  - by eapply counter_capacity.
  - by eapply accept_capacity.
  - by eapply decline_capacity.
  - by eapply expiry_capacity.
  - intros [I1 I2 I3 I4]. split; rewrite ?Eo, ?Ec; try done. intros s l. specialize (I4 s l). specialize (Hs s l).
    unfold claimed, contract_sum in *. rewrite Eo, Ec. lia.
Qed.

Lemma steps_capacity x y : rtc timed_step x y -> capacity_inv x.1 x.2 -> capacity_inv y.1 y.2.
Proof.
  induction 1 as [x|x y z [Hle Hs] _ IH]; intros I; [done|].
  apply IH. eapply step_capacity; [done|]. by eapply capacity_later.
Qed.

(** C12: whatever the parties offer, counter, accept and decline, in whatever order, and
    whatever fails, the pending offers and valid contracts of a seller whose settlement
    midnight is not past never claim more of a listing than he published.  Offers and
    contracts are counted as the code counts them: one whose settlement day has begun
    counts no more, so two of them may claim more than there is (Example
    [two_offers_for_today]: 20 of 10).  The theorem is about steps at times that do not
    run back ([timed_step]), new rows get ids other than 0, and between the requests
    the rest of the bank does not take published shares away ([ns_others]); exercising
    a contract takes them and is not a step here. *)
Theorem nobody_oversells t d t' d' :
  rtc timed_step (t, d) (t', d') -> capacity_inv t d -> capacity_inv t' d'.
Proof. exact (steps_capacity (t, d) (t', d')). Qed.

End steps.

(** ** The life of offers and contracts, in every interleaving

    [otc_step]: the requests of the negotiation, the exercise of contracts with its
    goroutine and the daily expiry, each in any world and under any failures, and
    whatever the rest of the bank does to the other tables.  An accepted offer and
    its contract come into being together and keep their terms. *)


Section offers.
Context `{DL : decimal.Lib}.

(** ** The invariant *)

(** The contract says what the offer said; the prices went through float64. *)
Record same_deal (c : otcContractModel) (m : otcOfferModel) : Prop := {
  sd_listing : oc_ListingID c = of_ListingID m;
  sd_seller : oc_SellerID c = of_SellerID m;
  sd_buyer : oc_BuyerID c = of_BuyerID m;
  sd_account : oc_BuyerAccountID c = of_BuyerAccountID m;
  sd_amount : oc_Amount c = of_Amount m;
  sd_day : oc_SettlementDate c = of_SettlementDate m;
  sd_price : store_micros (arg (scan_micros (of_PricePerStock m))) = Some (oc_StrikePrice c);
  sd_premium : store_micros (arg (scan_micros (of_Premium m))) = Some (oc_Premium c)
}.

Record otc_inv (d : DB) : Prop := {
  oi_parties : forall i m, offers d !! i = Some m ->
    of_BuyerID m <> of_SellerID m /\ (of_ModifiedBy m = of_BuyerID m \/ of_ModifiedBy m = of_SellerID m) /\ 0 < of_Amount m;
  (** A contract stands for an accepted offer, *)
  oi_contract : forall i c, contracts d !! i = Some c ->
    exists m, offers d !! oc_OfferID c = Some m /\ of_Status m = OTCOfferAccepted /\ same_deal c m;
  (** and an accepted offer has one contract. *)
  oi_one : forall i j c c', contracts d !! i = Some c -> contracts d !! j = Some c' -> oc_OfferID c = oc_OfferID c' -> i = j;
  oi_accepted : forall id m, offers d !! id = Some m -> of_Status m = OTCOfferAccepted ->
    exists i c, contracts d !! i = Some c /\ oc_OfferID c = id
}.

(** All of a contract but its state. *)
Definition deal (c : otcContractModel) :=
  (oc_OfferID c, oc_ListingID c, (oc_SellerID c, oc_BuyerID c, oc_BuyerAccountID c, oc_SellerAccountID c),
   (oc_Amount c, oc_StrikePrice c, oc_Premium c), oc_SettlementDate c, oc_CreatedAt c).

(** What is decided is final, an offer keeps its parties and what it is about, a
    contract its terms, and one that was exercised or has expired is never valid
    again. *)
Record keeps_deals (d d' : DB) : Prop := {
  kd_decided : forall i m, offers d !! i = Some m -> of_Status m <> OTCOfferPending -> offers d' !! i = Some m;
  kd_offer : forall i m, offers d !! i = Some m -> exists m', offers d' !! i = Some m' /\
    of_ListingID m' = of_ListingID m /\ of_SellerID m' = of_SellerID m /\ of_BuyerID m' = of_BuyerID m /\
    of_BuyerAccountID m' = of_BuyerAccountID m;
  kd_contract : forall i c, contracts d !! i = Some c -> exists c', contracts d' !! i = Some c' /\
    deal c' = deal c /\ (oc_Status c <> OTCContractValid -> oc_Status c' <> OTCContractValid)
}.

#[export] Instance keeps_deals_preorder : PreOrder keeps_deals.
Proof.
  split; [split; eauto 10|].
  intros d1 d2 d3 [A1 A2 A3] [B1 B2 B3]. split; [auto| |].
  - intros i m Hm. destruct (A2 _ _ Hm) as (m2 & H2 & E1 & E2 & E3 & E4).
    destruct (B2 _ _ H2) as (m3 & H3 & F1 & F2 & F3 & F4). exists m3. split; [done|]. split_and!; congruence.
  - intros i c Hc. destruct (A3 _ _ Hc) as (c2 & H2 & E2 & S2). destruct (B3 _ _ H2) as (c3 & H3 & E3 & S3).
    exists c3. split_and!; [done|congruence|auto].
Qed.

Definition orderly_deals (d d' : DB) : Prop := otc_inv d -> otc_inv d' /\ keeps_deals d d'.

#[export] Instance orderly_deals_preorder : PreOrder orderly_deals.
Proof.
  split; [by intros d Hi|]. intros d1 d2 d3 H1 H2 Hi. destruct (H1 Hi) as [Hi2 K1].
  destruct (H2 Hi2) as [Hi3 K2]. split; [done|by transitivity d2].
Qed.

Definition books (d : DB) := (offers d, contracts d).

Lemma orderly_books d d' : books d' = books d -> orderly_deals d d'.
Proof.
  intros [= Eo Ec] [I1 I2 I3 I4]. split; split; rewrite ?Eo, ?Ec; eauto 10.
Qed.

Lemma same_books d d' : same books d d' -> orderly_deals d d'.
Proof. apply orderly_books. Qed.

Lemma preserves_books {A} (m : M A) : preserves (same books) m -> preserves orderly_deals m.
Proof. intros H e w r w' E. apply same_books. eapply H, E. Qed.

(** ** The changes of the two tables *)

(** A new pending offer. *)
Lemma new_offer d d' i m :
  books d' = (<[i := m]> (offers d), contracts d) -> offers d !! i = None -> of_Status m = OTCOfferPending ->
  of_BuyerID m <> of_SellerID m -> of_ModifiedBy m = of_BuyerID m \/ of_ModifiedBy m = of_SellerID m ->
  0 < of_Amount m -> orderly_deals d d'.
Proof.
  intros [= Eo Ec] Hi Hs Hp Hm Ha [I1 I2 I3 I4].
  assert (K : forall j o, offers d !! j = Some o -> <[i := m]> (offers d) !! j = Some o)
    by (intros j o Ho; rewrite lookup_insert_ne; [done|congruence]).
  split; split; rewrite ?Eo, ?Ec.
  - intros j o Ho. apply lookup_insert_Some in Ho as [[_ <-]|[_ Ho]]; eauto.
  - intros j c Hc. destruct (I2 _ _ Hc) as (o & Ho & H). eauto.
  - done.
  - intros id o Ho Hacc. apply lookup_insert_Some in Ho as [[_ <-]|[_ Ho]]; [congruence|eauto].
  - eauto.
  - intros j o Ho. exists o. auto.
  - intros j k Hk. by exists k.
Qed.

(** A pending offer changes, and is not accepted. *)
Lemma change_offer d d' i m m' :
  books d' = (<[i := m']> (offers d), contracts d) -> offers d !! i = Some m -> of_Status m = OTCOfferPending ->
  of_Status m' <> OTCOfferAccepted ->
  of_ListingID m' = of_ListingID m -> of_SellerID m' = of_SellerID m -> of_BuyerID m' = of_BuyerID m ->
  of_BuyerAccountID m' = of_BuyerAccountID m ->
  of_ModifiedBy m' = of_BuyerID m \/ of_ModifiedBy m' = of_SellerID m -> 0 < of_Amount m' -> orderly_deals d d'.
Proof.
  intros [= Eo Ec] Hi Hs Hs' E1 E2 E3 E4 Hm Ha [I1 I2 I3 I4].
  split; split; rewrite ?Eo, ?Ec.
  - intros j o Ho. apply lookup_insert_Some in Ho as [[_ <-]|[_ Ho]]; [|eauto].
    rewrite E2, E3. by destruct (I1 _ _ Hi) as (? & _ & _).
  - intros j c Hc. destruct (I2 _ _ Hc) as (o & Ho & Hacc & H). exists o. rewrite lookup_insert_ne; [done|congruence].
  - done.
  - intros id o Ho Hacc. apply lookup_insert_Some in Ho as [[_ <-]|[_ Ho]]; [done|eauto].
  - intros j o Ho Hd. rewrite lookup_insert_ne; [done|]. intros <-. congruence.
  - intros j o Ho. destruct (decide (j = i)) as [->|].
    + rewrite lookup_insert_eq. exists m'. assert (o = m) as -> by congruence. done.
    + rewrite lookup_insert_ne by done. by exists o.
  - intros j k Hk. by exists k.
Qed.

(** A pending offer becomes a contract. *)
Lemma accept_deal d d' id m m' i c :
  books d' = (<[id := m']> (offers d), <[i := c]> (contracts d)) -> offers d !! id = Some m ->
  of_Status m = OTCOfferPending -> of_Status m' = OTCOfferAccepted -> contracts d !! i = None ->
  oc_OfferID c = id -> same_deal c m ->
  of_ListingID m' = of_ListingID m -> of_SellerID m' = of_SellerID m -> of_BuyerID m' = of_BuyerID m ->
  of_BuyerAccountID m' = of_BuyerAccountID m -> of_Amount m' = of_Amount m ->
  of_SettlementDate m' = of_SettlementDate m -> of_PricePerStock m' = of_PricePerStock m -> of_Premium m' = of_Premium m ->
  of_ModifiedBy m' = of_BuyerID m \/ of_ModifiedBy m' = of_SellerID m -> orderly_deals d d'.
Proof.
  intros [= Eo Ec] Hm Hs Hs' Hi Hid [S1 S2 S3 S4 S5 S6 S7 S8] E1 E2 E3 E4 E5 E6 E7 E8 Hby [I1 I2 I3 I4].
  assert (Hfree : forall j k, contracts d !! j = Some k -> oc_OfferID k <> id).
  { intros j k Hk E. destruct (I2 _ _ Hk) as (o & Ho & Hacc & _). rewrite E in Ho. congruence. }
  split; split; rewrite ?Eo, ?Ec.
  - intros j o Ho. apply lookup_insert_Some in Ho as [[_ <-]|[_ Ho]]; [|eauto].
    rewrite E2, E3, E5. destruct (I1 _ _ Hm) as (? & _ & ?). done.
  - intros j k Hk. apply lookup_insert_Some in Hk as [[_ <-]|[_ Hk]].
    + exists m'. rewrite Hid, lookup_insert_eq. split; [done|]. split; [done|]. split; congruence.
    + destruct (I2 _ _ Hk) as (o & Ho & Hacc & H). exists o. rewrite lookup_insert_ne; [done|].
      intros E. by apply (Hfree _ _ Hk).
  - intros j k x y Hx Hy E. apply lookup_insert_Some in Hx as [[<- <-]|[N1 Hx]], Hy as [[<- <-]|[N2 Hy]]; [done| | |eauto].
    + destruct (Hfree _ _ Hy). congruence.
    + destruct (Hfree _ _ Hx). congruence.
  - intros j o Ho Hacc. apply lookup_insert_Some in Ho as [[<- <-]|[N Ho]].
    + exists i, c. by rewrite lookup_insert_eq.
    + destruct (I4 _ _ Ho Hacc) as (k & x & Hx & E). exists k, x. split; [|done].
      rewrite lookup_insert_ne; [done|congruence].
  - intros j o Ho Hd. rewrite lookup_insert_ne; [done|]. intros <-. congruence.
  - intros j o Ho. destruct (decide (j = id)) as [->|].
    + rewrite lookup_insert_eq. exists m'. assert (o = m) as -> by congruence. done.
    + rewrite lookup_insert_ne by done. by exists o.
  - intros j k Hk. exists k. rewrite lookup_insert_ne; [done|congruence].
Qed.

(** The contracts' states change, away from VALID. *)
Lemma change_states d d' (f : otcContractModel -> otcContractModel) :
  offers d' = offers d -> (forall i, contracts d' !! i = f <$> contracts d !! i \/ contracts d' !! i = contracts d !! i) ->
  (forall c, deal (f c) = deal c /\ (oc_Status c <> OTCContractValid -> oc_Status (f c) <> OTCContractValid)) ->
  orderly_deals d d'.
Proof.
  intros Eo Ec Hf [I1 I2 I3 I4].
  assert (Hback : forall i c', contracts d' !! i = Some c' -> exists c, contracts d !! i = Some c /\ deal c' = deal c).
  { intros i c' Hc. destruct (Ec i) as [E|E]; rewrite E in Hc; [|by exists c'].
    apply fmap_Some in Hc as (c & Hc & ->). exists c. split; [done|apply Hf]. }
  assert (Hfwd : forall i c, contracts d !! i = Some c -> exists c', contracts d' !! i = Some c' /\ deal c' = deal c /\
            (oc_Status c <> OTCContractValid -> oc_Status c' <> OTCContractValid)).
  { intros i c Hc. destruct (Ec i) as [E|E]; rewrite E, Hc; cbn; [exists (f c)|exists c]; split; auto. }
  split; split; rewrite ?Eo; [done| | | |done| |done].
  - intros i c' Hc. destruct (Hback _ _ Hc) as (c & Hc0 & Ed). destruct (I2 _ _ Hc0) as (m & Hm & Hacc & [S1 S2 S3 S4 S5 S6 S7 S8]).
    unfold deal in Ed. injection Ed as F1 F2 F3 F4 F5 F6 F7 F8 F9 F10 F11. exists m. rewrite F1.
    split; [done|]. split; [done|]. split; congruence.
  - intros i j c c' Hc Hc' E. destruct (Hback _ _ Hc) as (x & Hx & Ex). destruct (Hback _ _ Hc') as (y & Hy & Ey).
    apply (I3 _ _ _ _ Hx Hy). unfold deal in Ex, Ey. congruence.
  - intros id m Hm Hacc. destruct (I4 _ _ Hm Hacc) as (i & c & Hc & E). destruct (Hfwd _ _ Hc) as (c' & Hc' & Ed & _).
    exists i, c'. split; [done|]. unfold deal in Ed. congruence.
  - intros i m Hm. by exists m.
Qed.

(** ** The requests *)

Lemma core_books d d' o c : otc_core d' = core_of o c d -> books d' = (o, c).
Proof. unfold otc_core, core_of, books. congruence. Qed.

Lemma create_orderly inp : preserves orderly_deals (CreateOffer inp).
Proof.
  intros e w r w' H. destruct r as [o|er].
  - apply CreateOffer_ok in H as (i & m & Hi & _ & _ & _ & Eb & Em & Est & _ & _ & Hm & Hne & _ & E & _).
    apply core_books in E. eapply new_offer; eauto. left. congruence.
  - unfold CreateOffer in H. destruct (_ =? _); [by injection H as _ <-|].
    apply bind_err in H as [H|([] & w1 & H1 & H)]; [apply validate_reads in H; by rewrite <- H|].
    apply validate_reads in H1. apply Transaction_err in H. by rewrite H, <- H1.
Qed.

Lemma counter_orderly inp : preserves orderly_deals (CounterOffer inp).
Proof.
  intros e w r w' H. destruct r as [o|er].
  - apply CounterOffer_ok in H as (m & acc & price & premium & now & [Hm Hs Hp _] & Ha & _ & _ & E & _).
    apply core_books in E. eapply change_offer; eauto; cbn; try done; first [by rewrite Hs|tauto].
  - unfold CounterOffer in H. apply bind_err in H as [H|([] & w1 & H1 & H)]; [apply validate_reads in H; by rewrite <- H|].
    apply validate_reads in H1. apply Transaction_err in H. by rewrite H, <- H1.
Qed.

Lemma decline_orderly id caller : preserves orderly_deals (DeclineOffer id caller).
Proof.
  intros e w r w' H. destruct r as [o|er]; [|unfold DeclineOffer in H; apply Transaction_err in H; by rewrite H].
  intros I. apply DeclineOffer_ok in H as (m & now & Hm & Hs & Hp & _ & E & _). cbv zeta in E. apply core_books in E.
  destruct (oi_parties _ I _ _ Hm) as (_ & _ & Ha). revert I.
  eapply change_offer; eauto; cbn; try done; first [by destruct (_ =? _)|tauto].
Qed.

Lemma accept_orderly inp : preserves orderly_deals (AcceptOffer inp).
Proof.
  intros e w r w' H. destruct r as [o|er]; [|unfold AcceptOffer in H; apply Transaction_err in H; by rewrite H].
  apply AcceptOffer_ok in H as (m & acc & i & k & now & ccy & w1 & w2 & [Hm Hs Hp _] & _ & Hi & Hk & _ & _ & E & _).
  apply contract_row_ok in Hk as (strike & premium & Hst & Hpr & _ & Ek). cbn in Hst, Hpr, Ek. apply core_books in E.
  eapply accept_deal; eauto; try done; first [by rewrite Ek; split|by rewrite Ek|cbn; tauto].
Qed.

Lemma expiry_orderly : preserves orderly_deals expiry_run.
Proof.
  intros e w r w' H. apply expiry_run_core in H as (Eo & _ & [Ec|(n & Ec)]).
  - apply orderly_books. unfold books. congruence.
  - eapply change_states; [done|intros i; left; rewrite Ec; apply lookup_fmap|].
    intros c. cbv beta. destruct (overdue (env_now e n) c); (split; [done|intros Hs; cbn; (discriminate || exact Hs)]).
Qed.

Lemma exercise_orderly spread id caller : preserves orderly_deals (ExerciseContract spread id caller).
Proof.
  assert (D : forall i, preserves (same books) (DeleteExecution i)).
  { intros i. apply preserves_sql; [apply _|]. intros d x d'. destruct (logged i d); [discriminate|]. by intros [= _ <-]. }
  assert (C : forall a b x, preserves (same books) (CreateExecution a b x)).
  { intros a b x. unfold CreateExecution. apply preserves_bind; [apply _|solve_preserves|intros now].
    apply preserves_bind; [apply _| |intros i; solve_preserves]. apply preserves_sql_insert; [apply _|].
    intros i d y d'. destruct (store_micros _); [|discriminate]. unfold insert_execution.
    destruct (_ !! _); [|discriminate]. destruct (find_execution _ _); [discriminate|].
    destruct (insert_row _ _ _); [|discriminate]. by intros [= _ <-]. }
  apply preserves_books. unfold ExerciseContract, GetContractByID, check_contract, settlement_passed, clear_execution,
    GetExecutionByContractID, buyer_currency, usdToTargetRate. solve_preserves.
Qed.

Lemma saga_orderly e ex c : interferes e orderly_deals -> preserves_at e orderly_deals (runSaga ex c).
Proof.
  intros Hi. assert (B : forall d d', books d' = books d -> orderly_deals d d') by exact orderly_books.
  apply saga_at; [apply _|intros m d; by apply B|intros l d; by apply B|exact Hi|..].
  - unfold allSteps. repeat (apply Forall_cons_2 || apply Forall_nil_2); apply preserves_books;
      [by apply compensate_ownership_frame|by apply compensate_funds_frame|by apply compensate_shares_frame
      |by apply compensate_reserve_frame].
  - by apply preserves_books, reserve_funds_frame.
  - by apply preserves_books, shares_frame.
  - by apply preserves_books, transfer_funds_frame.
  - intros now. by apply preserves_books, ownership_frame.
  - apply markCompleted_preserves; [apply _|intros m d; by apply B|intros l d; by apply B|].
    intros d k t Hk. apply (change_states _ _ (with_contract_status OTCContractExercised t)); [done| |done].
    intros i. cbn. destruct (decide (i = ctr_ID c)) as [->|]; [left|right; by rewrite lookup_insert_ne].
    by rewrite lookup_insert_eq, Hk.
Qed.

(** ** Every interleaving *)

Inductive otc_step : DB -> DB -> Prop :=
  | os_create inp e w r w' : CreateOffer inp e w = (r, w') -> otc_step (w_db w) (w_db w')
  | os_counter inp e w r w' : CounterOffer inp e w = (r, w') -> otc_step (w_db w) (w_db w')
  | os_accept inp e w r w' : AcceptOffer inp e w = (r, w') -> otc_step (w_db w) (w_db w')
  | os_decline id caller e w r w' : DeclineOffer id caller e w = (r, w') -> otc_step (w_db w) (w_db w')
  | os_expiry e w r w' : expiry_run e w = (r, w') -> otc_step (w_db w) (w_db w')
  | os_exercise spread id caller e w r w' : ExerciseContract spread id caller e w = (r, w') -> otc_step (w_db w) (w_db w')
  | os_saga ex c e w r w' : interferes e orderly_deals -> runSaga ex c e w = (r, w') -> otc_step (w_db w) (w_db w')
  | os_others d d' : offers d' = offers d -> contracts d' = contracts d -> otc_step d d'.

Lemma step_orderly d d' : otc_step d d' -> orderly_deals d d'.
Proof.
  destruct 1 as [inp e w r w' H|inp e w r w' H|inp e w r w' H|id caller e w r w' H|e w r w' H|spread id caller e w r w' H
                |ex c e w r w' Hi H|d d' Eo Ec].
  - eapply create_orderly, H.
  - eapply counter_orderly, H.
  - eapply accept_orderly, H.
  - eapply decline_orderly, H.
  - eapply expiry_orderly, H.
  - eapply exercise_orderly, H.
  - eapply saga_orderly, H. done.
  - apply orderly_books. unfold books. congruence.
Qed.

Lemma steps_orderly d d' : rtc otc_step d d' -> orderly_deals d d'.
Proof. induction 1 as [d|x y z H _ IH]; [reflexivity|]. etransitivity; [by apply step_orderly|done]. Qed.

(** C13: in every state that the negotiation, the exercise of contracts and the daily
    expiry reach, in whatever order and whatever fails, an offer is between two
    parties and was last changed by one of them, every contract stands for one
    accepted offer with the same parties, amount and day and its stored prices, every
    accepted offer has exactly one contract; decided offers stay as they are,
    contracts keep their terms, and none that was exercised or has expired is valid
    again. *)
Theorem deals_are_kept d d' : rtc otc_step d d' -> otc_inv d -> otc_inv d' /\ keeps_deals d d'.
Proof. exact (steps_orderly d d'). Qed.

End offers.
