(* ===== verification/OtcOutcome.v ===== *)
(** * What a step of the saga did, and that its compensation undoes it

    [saga_state s d0 d]: the tables of [d] are those of [d0] with the steps up to [s]
    done.  A step that succeeds moves it on, one that fails leaves it; the
    compensation of a step that succeeds moves it back. *)

From stdpp Require Import list.
From S2P Require Import Prelude Numeric Domain Tables Store StoreFacts OrderRepo Market FundsManager.
From S2P Require Import FundsFacts FundsSafety FundsTransfers GoMath AccountRepo PaymentRepo PaymentFacts.
From S2P Require Import OtcRepo OtcFacts OtcSaga OtcSagaFacts.
#[local] Open Scope Z_scope.

#[local] Abbreviation offers d := (otc_offers (d_otc d)).
#[local] Abbreviation contracts d := (otc_contracts (d_otc d)).

(** ** Accounts *)

(** An amount that moves every balance by the same number of cents, up and down. *)
Definition settles (q : Q) : Prop :=
  forall s, to_cents (cents s + q) = s + to_cents q /\ to_cents (cents s - q) = s - to_cents q.

Definition reserved (q : Q) (r : racun) : racun := with_rezervisano (to_cents (cents (r_rezervisana_sredstva r) + q)) r.
Definition released (q : Q) (r : racun) : racun :=
  with_rezervisano (to_cents (greatest0 (cents (r_rezervisana_sredstva r) - q))) r.
Definition taken (q : Q) (r : racun) : racun :=
  with_rezervisano (to_cents (cents (r_rezervisana_sredstva r) - q)) (moved (- q) r).
Definition given (q : Q) (r : racun) : racun := reserved q (moved q r).

Lemma settles_cents k : settles (cents k).
Proof. intros s. rewrite <- cents_plus, <- cents_minus, !to_cents_cents. done. Qed.

Lemma moved_back q r : settles q -> moved (- q) (moved q r) = r.
Proof.
  intros H. unfold moved. cbn. destruct (H (r_stanje_racuna r)) as [-> _].
  destruct (H (r_stanje_racuna r + to_cents q)) as [_ E]. unfold Qminus in E. rewrite E. destruct r. cbn.
  unfold with_stanje. cbn. f_equal. lia.
Qed.

Lemma given_taken q r : settles q -> given q (taken q r) = r.
Proof.
  intros H.
  assert (E1 : to_cents (cents (to_cents (cents (r_stanje_racuna r) + - q)) + q) = r_stanje_racuna r).
  { destruct (H (r_stanje_racuna r)) as [_ E]. unfold Qminus in E. rewrite E.
    destruct (H (r_stanje_racuna r - to_cents q)) as [-> _]. lia. }
  assert (E2 : to_cents (cents (to_cents (cents (r_rezervisana_sredstva r) - q)) + q) = r_rezervisana_sredstva r).
  { destruct (H (r_rezervisana_sredstva r)) as [_ ->].
    destruct (H (r_rezervisana_sredstva r - to_cents q)) as [-> _]. lia. }
  unfold given, taken, reserved, moved. cbn. rewrite E1, E2. by destruct r.
Qed.

Lemma released_reserved q r : settles q -> 0 <= r_rezervisana_sredstva r -> released q (reserved q r) = r.
Proof.
  intros H H0. unfold released, reserved. cbn. destruct (H (r_rezervisana_sredstva r)) as [-> _].
  destruct (H (r_rezervisana_sredstva r + to_cents q)) as [_ E]. unfold greatest0.
  assert (K : to_cents (if Qle_bool 0 (cents (r_rezervisana_sredstva r + to_cents q) - q)
                        then cents (r_rezervisana_sredstva r + to_cents q) - q else 0)%Q = r_rezervisana_sredstva r).
  { destruct (Qle_bool _ _) eqn:El; [lia|].
    assert (to_cents (cents (r_rezervisana_sredstva r + to_cents q) - q) <= 0).
    { apply (to_cents_le _ 0). rewrite cents_0. apply Qlt_le_weak, Qnot_le_lt. intros Hle.
      apply Qle_bool_iff in Hle. congruence. }
    assert (E0 : r_rezervisana_sredstva r = 0) by lia. rewrite E0. exact (to_cents_cents 0). }
  rewrite K. by destruct r.
Qed.

(** Undoing an update of one account. *)
Lemma alter_back (h h' : racun -> racun) id (t : gmap Z racun) :
  (forall r, active (h r) = active r) -> (forall r, t !! id = Some r -> active r = true -> h' (h r) = r) ->
  alter (on_active h') id (alter (on_active h) id t) = t.
Proof.
  intros Ha Hh. apply map_eq. intros i. destruct (decide (id = i)) as [->|]; [|by rewrite !lookup_alter_ne].
  rewrite !lookup_alter_eq. destruct (t !! i) as [r|] eqn:Er; [|done]. cbn. f_equal. unfold on_active.
  destruct (active r) eqn:E; [|by rewrite E]. rewrite Ha, E. by apply Hh.
Qed.

Lemma update_racun_alter id f h d n d' :
  update_racun id active f d = Ok (n, d') -> (forall r r', f r = Some r' -> r' = h r) ->
  d_racun d' = alter (on_active h) id (d_racun d).
Proof.
  unfold update_racun. intros H Hf. apply map_eq. intros i. destruct (decide (id = i)) as [->|Hi].
  - rewrite lookup_alter_eq. unfold on_active. destruct (d_racun d !! i) as [r|] eqn:Er; cbn.
    + destruct (active r); [|by injection H as _ <-]. destruct (f r) as [r'|] eqn:Ef; [|discriminate].
      injection H as _ <-. cbn. rewrite lookup_insert_eq. f_equal. by apply Hf.
    + by injection H as _ <-.
  - rewrite lookup_alter_ne by done. destruct (d_racun d !! id) as [r|]; [|by injection H as _ <-].
    destruct (active r); [|by injection H as _ <-]. destruct (f r); [|discriminate]. injection H as _ <-. cbn.
    by rewrite lookup_insert_ne.
Qed.

(** ** Shares *)

(** How many rows a user has for a listing. *)
Definition share_rows (u l : Z) (d : DB) : Z :=
  zsum (fun s => if published u l s then 1 else 0) (d_public_shares d).

Lemma count_rows (P : publicShare -> bool) (l : list publicShare) :
  Z.of_nat (length (filter (fun s => P s = true) l)) = zsum (fun s => if P s then 1 else 0) l.
Proof.
  induction l as [|s l IH]; [done|]. rewrite filter_cons, zsum_cons. destruct (P s) eqn:E.
  - rewrite decide_True by done. cbn [length]. lia.
  - rewrite decide_False by done. lia.
Qed.

Lemma zsum_plus {A} (f g : A -> Z) l : zsum (fun x => f x + g x) l = zsum f l + zsum g l.
Proof. induction l as [|x l IH]; [done|]. rewrite !zsum_cons, IH. lia. Qed.

Lemma zsum_filter {A} (f : A -> Z) (P : A -> bool) l :
  zsum f (filter (fun x => P x = false) l) = zsum f l - zsum (fun x => if P x then f x else 0) l.
Proof.
  induction l as [|x l IH]; [done|]. rewrite filter_cons, !zsum_cons. destruct (P x) eqn:E.
  - rewrite decide_False by done. lia.
  - rewrite decide_True by done. rewrite zsum_cons. lia.
Qed.

Lemma zsum_Forall2 {A} (f g : A -> Z) (R : A -> A -> Prop) l l' :
  Forall2 R l l' -> (forall x y, R x y -> g y = f x) -> zsum g l' = zsum f l.
Proof. intros H Hf. induction H as [|x y l l' Hxy _ IH]; [done|]. rewrite !zsum_cons, IH. f_equal. by apply Hf. Qed.

Lemma zsum_below {A} (f g : A -> Z) l : (forall x, f x <= g x) -> zsum f l <= zsum g l.
Proof. intros H. induction l as [|x l IH]; [done|]. rewrite !zsum_cons. specialize (H x). lia. Qed.

Lemma zsum_scale {A} (f : A -> bool) n (l : list A) :
  zsum (fun x => if f x then n else 0) l = n * zsum (fun x => if f x then 1 else 0) l.
Proof. induction l as [|x l IH]; [rewrite !zsum_nil; lia|]. rewrite !zsum_cons, IH. destruct (f x); lia. Qed.

Lemma change_qty_ok n s s' :
  change_qty n s = Some s' -> ps_Quantity s' = ps_Quantity s + n /\ (forall u l, published u l s' = published u l s).
Proof.
  unfold change_qty, store_int. case_decide; [|discriminate]. cbn [mbind option_bind].
  destruct (0 <? _); [|discriminate]. by intros [= <-].
Qed.

Definition same_key (u l u' l' : Z) : bool := (u =? u') && (l =? l').

Lemma published_other u l u' l' s : same_key u l u' l' = false -> published u l s = true -> published u' l' s = false.
Proof.
  unfold same_key, published. intros H [E1%Z.eqb_eq E2%Z.eqb_eq]%andb_prop. subst.
  destruct (Z.eqb_spec (ps_UserID s) u'), (Z.eqb_spec (ps_ListingID s) l'); cbn in *; congruence.
Qed.

(** Every row of [u] and [l] moves by [n]. *)
Lemma add_shares_ok u l n d k d' :
  add_shares u l n d = Ok (k, d') ->
  exists rows, d' = set_public_shares rows d /\ k = share_rows u l d /\
    forall u' l', share_rows u' l' d' = share_rows u' l' d /\
      public_qty u' l' d' = public_qty u' l' d + (if same_key u l u' l' then n * share_rows u l d else 0).
Proof.
  unfold add_shares. destruct (mapM _ _) as [rows|] eqn:E; [|discriminate]. intros [= <- <-].
  exists rows. split; [done|]. split; [unfold share_rows; by rewrite <- count_rows|].
  apply mapM_Some in E. intros u' l'. unfold share_rows, public_qty. cbn [d_public_shares set_public_shares].
  split.
  - eapply zsum_Forall2; [exact E|]. intros s s' H. cbv beta in H.
    destruct (published u l s); [by apply change_qty_ok in H as [_ ->]|by injection H as <-].
  - destruct (same_key u l u' l') eqn:Ek.
    + apply andb_prop in Ek as [<-%Z.eqb_eq <-%Z.eqb_eq].
      rewrite <- zsum_scale, <- zsum_plus. eapply zsum_Forall2; [exact E|]. intros s s' H. cbv beta in H.
      destruct (published u l s) eqn:Ep; [|injection H as <-; rewrite Ep; lia].
      apply change_qty_ok in H as [Hq Hp]. rewrite Hp, Ep. lia.
    + rewrite Z.add_0_r. eapply zsum_Forall2; [exact E|]. intros s s' H. cbv beta in H.
      destruct (published u l s) eqn:Ep; [|by injection H as <-].
      apply change_qty_ok in H as [_ Hp]. by rewrite Hp, (published_other u l u' l' s Ek Ep).
Qed.

(** The rows of [u] and [l] with quantity [n] go. *)
Lemma delete_shares_ok u l n d k d' :
  delete_shares (fun s => published u l s && (ps_Quantity s =? n)) d = Ok (k, d') ->
  0 <= k <= share_rows u l d /\ (exists rows, d' = set_public_shares rows d) /\
  forall u' l', share_rows u' l' d' = share_rows u' l' d - (if same_key u l u' l' then k else 0) /\
    public_qty u' l' d' = public_qty u' l' d - (if same_key u l u' l' then n * k else 0).
Proof.
  unfold delete_shares. intros [= <- <-]. set (P := fun s : publicShare => published u l s && (ps_Quantity s =? n)).
  change (fun s : publicShare => published u l s && (ps_Quantity s =? n) = true) with (fun s => P s = true).
  change (fun s : publicShare => published u l s && (ps_Quantity s =? n) = false) with (fun s => P s = false).
  rewrite (count_rows P).
  split; [|split; [by eexists|]].
  - split; [apply zsum_nonneg; intros s _; cbv beta; destruct (P s); lia|]. apply zsum_below. intros s. cbv beta. unfold P.
    destruct (published u l s); cbn [andb]; [destruct (_ =? _)|]; lia.
  - intros u' l'. unfold share_rows, public_qty. cbn [d_public_shares set_public_shares]. rewrite !(zsum_filter _ P).
    destruct (same_key u l u' l') eqn:Ek.
    + apply andb_prop in Ek as [<-%Z.eqb_eq <-%Z.eqb_eq]. split; f_equal.
      * apply zsum_ext. intros s _. unfold P. destruct (published u l s); cbn [andb]; [|done]. by destruct (_ =? _).
      * rewrite <- zsum_scale. apply zsum_ext. intros s _. unfold P. destruct (published u l s); cbn [andb]; [|done].
        by destruct (Z.eqb_spec (ps_Quantity s) n).
    + assert (Z0 : forall f, zsum (fun s => if P s then if published u' l' s then f s else 0 else 0) (d_public_shares d) = 0).
      { intros f. erewrite (zsum_ext _ (fun _ => 0)); [induction (d_public_shares d) as [|s t IH]; [done|by rewrite zsum_cons]|].
        intros s _. unfold P. destruct (published u l s) eqn:Ep; cbn [andb]; [|done].
        rewrite (published_other u l u' l' s Ek Ep). by destruct (_ =? _). }
      pose proof (Z0 (fun _ => 1)) as Z1. pose proof (Z0 ps_Quantity) as Z2. cbv beta in Z1, Z2 |- *. rewrite Z1, Z2. lia.
Qed.

Lemma insert_share_ok u l n i d x d' :
  insert_share u l n i d = Ok (x, d') ->
  (exists rows, d' = set_public_shares rows d) /\
  forall u' l', public_qty u' l' d' = public_qty u' l' d + (if same_key u l u' l' then n else 0).
Proof.
  unfold insert_share, store_int. case_decide; [|discriminate]. destruct (0 <? n); [|discriminate]. intros [= _ <-].
  split; [by eexists|]. intros u' l'. unfold public_qty. cbn [d_public_shares set_public_shares].
  rewrite zsum_app, zsum_cons, zsum_nil. unfold published at 2. cbn. unfold same_key.
  destruct ((u =? u') && (l =? l')); lia.
Qed.

(** ** Steps *)

(** What the steps work on. *)
Definition saga_core (d : DB) :=
  (d_racun d, d_public_shares d, (d_orders d, otc_order_saga (d_otc d)), contracts d).

Definition took (s : OTCSagaStep) : bool :=
  match s with OTCSagaStepPending | OTCSagaStepReserveFunds => false | _ => true end.
Definition owned (s : OTCSagaStep) : bool :=
  match s with OTCSagaStepTransferOwnership | OTCSagaStepCompleted => true | _ => false end.

Section steps.
Context `{DL : decimal.Lib} (ex : OTCSagaExecution) (k : otcContractModel).

#[local] Abbreviation q := (arg (ex_BuyerReservedAmount ex)).
#[local] Abbreviation the_contract := (contractToDomain (ex_ContractID ex) k).

Definition accounts_at (s : OTCSagaStep) (t : gmap Z racun) : gmap Z racun :=
  let r := alter (on_active (reserved q)) (oc_BuyerAccountID k) t in
  match s with
  | OTCSagaStepPending => t
  | OTCSagaStepReserveFunds | OTCSagaStepReserveSecurities => r
  | _ => alter (on_active (moved q)) (oc_SellerAccountID k) (alter (on_active (taken q)) (oc_BuyerAccountID k) r)
  end.

(** Two new orders of the execution, or none. *)
Definition orders_at (s : OTCSagaStep) (d0 d : DB) : Prop :=
  if owned s then
    exists i j b s, d_orders d0 !! i = None /\ d_orders d0 !! j = None /\ i <> j /\
      (exists price now, b = synthetic_order (oc_BuyerID k) (oc_BuyerAccountID k) OrderDirectionBuy the_contract price now /\
         s = synthetic_order (oc_SellerID k) (oc_SellerAccountID k) OrderDirectionSell the_contract price now) /\
      d_orders d = <[j := s]> (<[i := b]> (d_orders d0)) /\
      otc_order_saga (d_otc d) = <[j := ex_ID ex]> (<[i := ex_ID ex]> (otc_order_saga (d_otc d0)))
  else d_orders d = d_orders d0 /\ otc_order_saga (d_otc d) = otc_order_saga (d_otc d0).

Record saga_state (s : OTCSagaStep) (d0 d : DB) : Prop := {
  ss_accounts : d_racun d = accounts_at s (d_racun d0);
  ss_rows : share_rows (oc_SellerID k) (oc_ListingID k) d <= 1;
  ss_shares : forall u l, public_qty u l d =
    public_qty u l d0 - (if took s && same_key (oc_SellerID k) (oc_ListingID k) u l then oc_Amount k else 0);
  ss_orders : orders_at s d0 d;
  ss_contracts : contracts d = contracts d0
}.

Lemma saga_state_core s d0 d d' : saga_core d' = saga_core d -> saga_state s d0 d -> saga_state s d0 d'.
Proof.
  intros [= E1 E2 E3 E4 E5] [A1 A2 A3 A4 A5]. unfold share_rows, public_qty, orders_at in *.
  split; unfold share_rows, public_qty, orders_at; rewrite ?E1, ?E2, ?E3, ?E4, ?E5; done.
Qed.

Lemma notes_core {A} (m : M A) :
  (forall (R : DB -> DB -> Prop), PreOrder R -> (forall m d, R d (set_otc_executions m d)) ->
     (forall l d, R d (set_otc_step_log l d)) -> preserves R m) -> preserves (same saga_core) m.
Proof. intros H. apply H; [apply _|done..]. Qed.

Lemma run_step_cases s m e w r w' :
  run_step ex s m e w = (r, w') ->
  (r = Ok tt /\ exists w1 w2, m e w1 = (Ok tt, w2) /\ w_db w1 = w_db w /\ saga_core (w_db w') = saga_core (w_db w2)) \/
  (exists er, r = Err er /\ saga_core (w_db w') = saga_core (w_db w)).
Proof.
  unfold run_step. intros (x & w1 & H1 & H)%try_bind.
  assert (L : forall i a b c n, preserves (same saga_core) (LogStep i a b c n))
    by (intros i a b c n; by apply LogStep_preserves; try apply _).
  assert (U : forall i a b c, preserves (same saga_core) (UpdateStep i a b c))
    by (intros i a b c; by apply UpdateStep_preserves; try apply _).
  destruct x as [[]|er]; unfold recordStep in H.
  - left. apply try_bind in H as (r2 & w2 & H2%L & H). apply try_bind in H as (r3 & w3 & H3%U & H). injection H as <- <-.
    apply Transaction_ok in H1 as (w4 & H1 & E1 & _ & _). split; [done|]. exists (begin_tx w), w4.
    split; [done|]. split; [done|]. unfold same in *. congruence.
  - right. apply try_bind in H as (r2 & w2 & H2%L & H). apply try_bind in H as (r3 & w3 & H3%U & H). injection H as <- <-.
    apply Transaction_err in H1. exists er. split; [done|]. unfold same in *. congruence.
Qed.

Lemma reserve_funds_moves e w w' d0 :
  reserve_funds ex the_contract e w = (Ok tt, w') -> saga_state OTCSagaStepPending d0 (w_db w) ->
  saga_state OTCSagaStepReserveFunds d0 (w_db w').
Proof.
  unfold reserve_funds. intros (row & w1 & [-> E1]%sql_read_ok & H)%bind_ok S.
  destruct (active_funds _ _) as [stanje rezerv]. destruct (_ && _); [discriminate|]. destruct (f64_ltb _ _); [discriminate|].
  apply (exec_active_ok _ (reserved q)) in H; [|intros r r' Hr; by apply add_rezervisano_eq in Hr].
  rewrite H, E1. destruct S as [A1 A2 A3 A4 A5]. by split; cbn; try rewrite A1.
Qed.

Lemma reserve_securities_moves e w w' d0 :
  reserve_securities the_contract e w = (Ok tt, w') -> 0 < oc_Amount k ->
  saga_state OTCSagaStepReserveFunds d0 (w_db w) -> saga_state OTCSagaStepReserveSecurities d0 (w_db w').
Proof.
  unfold reserve_securities. cbv zeta. cbn [ctr_SellerID ctr_ListingID ctr_Amount contractToDomain]. intros H Hpos S.
  apply bind_ok in H as (ids & w1 & [_ E1]%sql_read_ok & H).
  apply bind_ok in H as (qty & w2 & [-> E2]%sql_read_ok & H). rewrite E1 in *.
  destruct (Z.ltb_spec (public_qty (oc_SellerID k) (oc_ListingID k) (w_db w)) (oc_Amount k)) as [|Hq]; [discriminate|].
  apply bind_ok in H as (n & w3 & H3 & H). apply sql_ok in H3 as (d3 & H3 & -> & _). cbn [w_db next_step set_db] in H.
  rewrite E2 in H3. apply delete_shares_ok in H3 as (Hn & (rows & ->) & Hd).
  assert (Hr1 : share_rows (oc_SellerID k) (oc_ListingID k) (w_db w) = 1).
  { pose proof (ss_rows _ _ _ S). enough (0 < share_rows (oc_SellerID k) (oc_ListingID k) (w_db w)) by lia.
    unfold share_rows, public_qty in *.
    destruct (Z.le_gt_cases (zsum (fun s => if published (oc_SellerID k) (oc_ListingID k) s then 1 else 0)
                               (d_public_shares (w_db w))) 0) as [Hle|]; [|lia]. exfalso.
    assert (Z0 : forall l, zsum (fun s => if published (oc_SellerID k) (oc_ListingID k) s then 1 else 0) l <= 0 ->
              zsum (fun s => if published (oc_SellerID k) (oc_ListingID k) s then ps_Quantity s else 0) l = 0).
    { induction l as [|s l IH]; [done|]. rewrite !zsum_cons.
      assert (0 <= zsum (fun s => if published (oc_SellerID k) (oc_ListingID k) s then 1 else 0) l)
        by (apply zsum_nonneg; intros x _; destruct (published _ _ x); lia).
      destruct (published _ _ s); [lia|]. intros. rewrite IH; lia. }
    rewrite Z0 in Hq by done. lia. }
  destruct (Z.eqb_spec n 0) as [->|Hn0].
  - apply bind_ok in H as (m & w4 & H4 & H). injection H as <-. apply sql_ok in H4 as (d4 & H4 & -> & _).
    cbn [w_db next_step set_db] in *. apply add_shares_ok in H4 as (rows2 & -> & _ & Ha).
    assert (Hr2 : share_rows (oc_SellerID k) (oc_ListingID k) (set_public_shares rows (w_db w)) = 1).
    { destruct (Hd (oc_SellerID k) (oc_ListingID k)) as [-> _]. destruct (same_key _ _ _ _); lia. }
    destruct S as [A1 A2 A3 A4 A5]. split; [done| | |done|done].
    + destruct (Ha (oc_SellerID k) (oc_ListingID k)) as [-> _]. lia.
    + intros u l. destruct (Ha u l) as [_ ->]. destruct (Hd u l) as [_ ->]. rewrite A3, Hr2. cbn [took andb].
      destruct (same_key (oc_SellerID k) (oc_ListingID k) u l); lia.
  - injection H as <-. assert (n = 1) as -> by lia. cbn [w_db next_step set_db].
    destruct S as [A1 A2 A3 A4 A5]. split; [done| | |done|done].
    + destruct (Hd (oc_SellerID k) (oc_ListingID k)) as [-> _]. destruct (same_key _ _ _ _); lia.
    + intros u l. destruct (Hd u l) as [_ ->]. rewrite A3. cbn [took andb].
      destruct (same_key (oc_SellerID k) (oc_ListingID k) u l); lia.
Qed.

Lemma take_both_eq x r r' : take_both x r = Some r' -> r' = taken x r.
Proof.
  unfold take_both. destruct (sub_stanje x r) as [r1|] eqn:E1; [|discriminate]. cbn [mbind option_bind].
  intros (v & Hv & H)%bind_Some. injection H as <-. apply sub_stanje_eq in E1 as ->. rewrite sub_moved.
  apply store_cents_Some in Hv as ->. done.
Qed.

Lemma give_both_eq x r r' : give_both x r = Some r' -> r' = given x r.
Proof.
  unfold give_both. destruct (add_stanje x r) as [r1|] eqn:E1; [|discriminate]. cbn [mbind option_bind].
  intros H. apply add_stanje_eq in E1 as ->. by apply add_rezervisano_eq in H.
Qed.

Lemma transfer_funds_moves e w w' d0 :
  transfer_funds ex the_contract e w = (Ok tt, w') -> saga_state OTCSagaStepReserveSecurities d0 (w_db w) ->
  saga_state OTCSagaStepTransferFunds d0 (w_db w').
Proof.
  unfold transfer_funds. cbv zeta. intros H S.
  apply bind_ok in H as ([] & w1 & H1 & H). apply (exec_active_ok _ _ _ _ _ _ (take_both_eq q)) in H1.
  apply bind_ok in H as ([] & w2 & H2 & H). apply sql_ok in H2 as (d2 & H2 & -> & _). apply insert_transakcija_eq in H2 as ->.
  apply bind_ok in H as ([] & w3 & H3 & H). apply (exec_active_ok _ (moved q)) in H3; [|intros r r' Hr; by apply add_stanje_eq in Hr].
  apply sql_ok in H as (d4 & H4 & -> & _). apply insert_transakcija_eq in H4 as ->. cbn [w_db next_step set_db] in *.
  rewrite H3, H1. destruct S as [A1 A2 A3 A4 A5]. split; [|done..]. cbn. by rewrite A1.
Qed.

Lemma insert_synthetic_ok u a dir now i d x d' :
  insert_synthetic ex u a dir the_contract now i d = Ok (x, d') ->
  exists price, store_micros (arg (ctr_StrikePrice the_contract)) = Some price /\ d_orders d !! i = None /\
    d' = set_otc_order_saga (<[i := ex_ID ex]> (otc_order_saga (d_otc d)))
           (set_orders (<[i := synthetic_order u a dir the_contract price now]> (d_orders d)) d).
Proof.
  unfold insert_synthetic. destruct (store_micros _) as [price|]; [|discriminate]. destruct (_ && _); [|discriminate].
  destruct (insert_row _ _ _) as [t|] eqn:E; [|discriminate]. apply insert_row_ok in E as [Hi ->]. intros [= _ <-].
  by exists price.
Qed.

Lemma transfer_ownership_moves e w now w' d0 :
  transfer_ownership ex the_contract now e w = (Ok tt, w') -> saga_state OTCSagaStepTransferFunds d0 (w_db w) ->
  saga_state OTCSagaStepTransferOwnership d0 (w_db w').
Proof.
  unfold transfer_ownership. intros H [A1 A2 A3 [A4 A6] A5].
  apply bind_ok in H as ([] & w1 & (d1 & H1 & E1)%sql_insert_ok & H).
  apply sql_insert_ok in H as (d2 & H2 & ->). rewrite E1 in H2.
  apply insert_synthetic_ok in H1 as (price & Hp & Hi & ->). apply insert_synthetic_ok in H2 as (price2 & Hp2 & Hj & ->).
  assert (price2 = price) as -> by congruence. cbn in Hj. apply lookup_insert_None in Hj as [Hj Hij].
  split; [done..| |done]. rewrite A4 in Hi, Hj. eexists _, _, _, _. split_and!; [exact Hi|exact Hj|done| | |].
  - by exists price, now.
  - cbn. by rewrite A4.
  - cbn. by rewrite A6.
Qed.

(** ** Compensations *)

Lemma comp_ownership_moves e w w' d0 :
  compensateTransferOwnership ex e w = (Ok tt, w') ->
  (forall i, otc_order_saga (d_otc d0) !! i <> Some (ex_ID ex)) ->
  (forall i x, otc_order_saga (d_otc d0) !! i = Some x -> is_Some (d_orders d0 !! i)) ->
  saga_state OTCSagaStepTransferOwnership d0 (w_db w) -> saga_state OTCSagaStepTransferFunds d0 (w_db w').
Proof.
  unfold compensateTransferOwnership. intros (d & H & -> & _)%sql_ok Hnone Hrows [A1 A2 A3 A4 A5]. cbv zeta in H.
  destruct (existsb _ _); [discriminate|]. injection H as <-.
  destruct A4 as (i & j & b & s & Hi & Hj & Hij & _ & Eo & Es).
  assert (Hin : forall x, x ∈ saga_orders (ex_ID ex) (w_db w) <-> x = i \/ x = j).
  { intros x. unfold saga_orders. rewrite list_elem_of_fmap. split.
    - intros ([y z] & -> & [Hz Hy]%list_elem_of_filter). apply elem_of_map_to_list in Hy. cbn in *. subst z.
      rewrite Es in Hy. apply lookup_insert_Some in Hy as [[<- _]|[_ Hy]]; [by right|].
      apply lookup_insert_Some in Hy as [[<- _]|[_ Hy]]; [by left|]. by apply Hnone in Hy.
    - intros Hx. exists (x, ex_ID ex). split; [done|]. apply list_elem_of_filter. split; [done|].
      apply elem_of_map_to_list. rewrite Es. destruct Hx as [-> | ->].
      + by rewrite lookup_insert_ne, lookup_insert_eq.
      + by rewrite lookup_insert_eq. }
  assert (Hdel : forall {A} (t t0 : gmap Z A), t !! i = t !! i -> t0 !! i = None -> t0 !! j = None ->
            (forall x, x <> i -> x <> j -> t !! x = t0 !! x) -> foldr delete t (saga_orders (ex_ID ex) (w_db w)) = t0).
  { intros A t t0 _ Ni Nj Hx. apply map_eq. intros x.
    assert (L : forall l, foldr delete t l !! x = if bool_decide (x ∈ l) then None else t !! x).
    { induction l as [|y l IH]; [done|]. cbn [foldr]. destruct (decide (x = y)) as [->|Hne].
      - rewrite lookup_delete_eq, bool_decide_eq_true_2; [done|by left].
      - rewrite lookup_delete_ne, IH by done. replace (bool_decide (x ∈ y :: l)) with (bool_decide (x ∈ l)); [done|].
        apply bool_decide_ext. rewrite elem_of_cons. tauto. }
    rewrite L. case_bool_decide as Hb; [apply Hin in Hb as [->| ->]; congruence|].
    apply Hx; intros ->; apply Hb, Hin; auto. }
  split; [done..| |done]. cbn. split.
  - apply Hdel; [done..|]. intros x Hxi Hxj. by rewrite Eo, !lookup_insert_ne.
  - apply Hdel; [done|..].
    + destruct (otc_order_saga (d_otc d0) !! i) as [x|] eqn:Ex; [|done]. apply Hrows in Ex as [? ?]. congruence.
    + destruct (otc_order_saga (d_otc d0) !! j) as [x|] eqn:Ex; [|done]. apply Hrows in Ex as [? ?]. congruence.
    + intros x Hxi Hxj. by rewrite Es, !lookup_insert_ne.
Qed.

Lemma comp_funds_moves e w w' d0 :
  compensateTransferFunds ex e w = (Ok tt, w') -> contracts d0 !! ex_ContractID ex = Some k -> settles q ->
  saga_state OTCSagaStepTransferFunds d0 (w_db w) -> saga_state OTCSagaStepReserveSecurities d0 (w_db w').
Proof.
  unfold compensateTransferFunds. intros (now & w0 & E0%time_now_ok & H)%bind_ok Hk Hq S. rewrite <- E0 in S. clear E0 w.
  apply Transaction_ok in H as (w1 & H & -> & _ & _). change (w_db w0) with (w_db (begin_tx w0)) in S.
  revert H S. generalize (begin_tx w0). clear w0 w' now. intros w H S.
  apply bind_ok in H as (row & w2 & [-> E2]%sql_read_ok & H). unfold contract_row_of in H.
  rewrite (ss_contracts _ _ _ S), Hk in H. cbv zeta in H.
  assert (Led : forall es, preserves (same saga_core) (sql (insert_transakcija es))) by (intros es; by apply insert_transakcija_frame).
  apply bind_ok in H as ([] & w3 & H3 & H). apply (exec_active_ok _ (moved (- q))) in H3;
    [|intros r r' Hr; apply sub_stanje_eq in Hr; by rewrite Hr, sub_moved].
  apply try_bind in H as (r4 & w4 & H4%Led & H).
  apply bind_ok in H as ([] & w5 & H5 & H). apply (exec_active_ok _ _ _ _ _ _ (give_both_eq q)) in H5.
  apply try_bind in H as (r6 & w6 & H6%Led & H). injection H as <-.
  eapply saga_state_core; [exact H6|]. rewrite H5.
  assert (E4 : saga_core (w_db w4) = saga_core (set_racun (alter (on_active (moved (- q))) (oc_SellerAccountID k)
                 (d_racun (w_db w))) (w_db w))) by (unfold same in H4; by rewrite H4, H3, E2).
  destruct S as [A1 A2 A3 A4 A5].
  apply (saga_state_core _ _ (set_racun (alter (on_active (given q)) (oc_BuyerAccountID k)
           (alter (on_active (moved (- q))) (oc_SellerAccountID k) (d_racun (w_db w)))) (w_db w))).
  { unfold saga_core in *. cbn in *. congruence. }
  split; [|done..]. cbn. rewrite A1. cbn [accounts_at].
  rewrite (alter_back (moved q) (moved (- q)) _ _ (fun _ => eq_refl) (fun r _ _ => moved_back q r Hq)).
  apply (alter_back (taken q) (given q)); [done|]. intros r _ _. by apply given_taken.
Qed.

Lemma comp_shares_moves e w w' d0 :
  compensateReserveSecurities ex e w = (Ok tt, w') -> contracts d0 !! ex_ContractID ex = Some k ->
  saga_state OTCSagaStepReserveSecurities d0 (w_db w) ->
  (forall u l, public_qty u l (w_db w') = public_qty u l d0) /\ d_racun (w_db w') = d_racun (w_db w) /\
  (d_orders (w_db w'), otc_order_saga (d_otc (w_db w')), contracts (w_db w')) =
    (d_orders (w_db w), otc_order_saga (d_otc (w_db w)), contracts (w_db w)).
Proof.
  unfold compensateReserveSecurities. intros H Hk S.
  apply Transaction_ok in H as (w1 & H & -> & _ & _). change (w_db w) with (w_db (begin_tx w)) in S |- *.
  revert H S. generalize (begin_tx w). clear w w'. intros w H S.
  apply bind_ok in H as (row & w2 & [-> E2]%sql_read_ok & H). unfold contract_row_of in H.
  rewrite (ss_contracts _ _ _ S), Hk in H.
  apply bind_ok in H as (n & w3 & H3 & H). apply sql_ok in H3 as (d3 & H3 & -> & _). rewrite E2 in H3.
  apply add_shares_ok in H3 as (rows & -> & -> & Ha). pose proof (ss_rows _ _ _ S) as H1. destruct S as [A1 A2 A3 A4 A5].
  assert (H0 : 0 <= share_rows (oc_SellerID k) (oc_ListingID k) (w_db w)).
  { apply zsum_nonneg. intros s _. cbv beta. destruct (published _ _ s); lia. }
  destruct (Z.eqb_spec (share_rows (oc_SellerID k) (oc_ListingID k) (w_db w)) 0) as [E|E].
  - apply sql_insert_ok in H as (d4 & H4 & ->). cbn [w_db next_step set_db w_seq] in H4.
    apply insert_share_ok in H4 as [(rows2 & ->) Hq]. split; [|done]. intros u l. rewrite Hq.
    destruct (Ha u l) as [_ ->]. rewrite A3, E. cbn [took andb]. destruct (same_key _ _ u l); lia.
  - injection H as <-. split; [|done]. intros u l. cbn [w_db next_step set_db]. destruct (Ha u l) as [_ ->].
    assert (E1 : share_rows (oc_SellerID k) (oc_ListingID k) (w_db w) = 1) by lia. rewrite A3, E1. cbn [took andb]. destruct (same_key _ _ u l); lia.
Qed.

Lemma comp_reserve_moves e w w' t :
  compensateReserveFunds ex e w = (Ok tt, w') -> contracts (w_db w) !! ex_ContractID ex = Some k -> settles q ->
  (forall r, t !! oc_BuyerAccountID k = Some r -> 0 <= r_rezervisana_sredstva r) ->
  d_racun (w_db w) = alter (on_active (reserved q)) (oc_BuyerAccountID k) t ->
  d_racun (w_db w') = t.
Proof.
  unfold compensateReserveFunds. intros H Hk Hq Hr Et. apply bind_ok in H as (n & w1 & H1 & H). injection H as <-.
  apply sql_ok in H1 as (d & H1 & -> & _). unfold contract_row_of in H1. rewrite Hk in H1. cbn [w_db next_step set_db].
  apply (update_racun_alter _ _ (released q)) in H1; [|intros r r' Hf; by apply sub_rezervisano_eq in Hf].
  rewrite H1, Et. apply (alter_back (reserved q) (released q)); [done|]. intros r Hx _. apply released_reserved; eauto.
Qed.
End steps.

(** ** The status of an execution tells what the saga did

    Whatever statement fails and whenever: an execution marked COMPLETED has moved
    the money, the shares and the ownership and marked the contract, one marked
    FAILED has left accounts, shares, orders and contract as they were. *)


Section outcome.
Context `{DL : decimal.Lib} (ex : OTCSagaExecution) (k : otcContractModel).

#[local] Abbreviation q := (arg (ex_BuyerReservedAmount ex)).
#[local] Abbreviation the_contract := (contractToDomain (ex_ContractID ex) k).
#[local] Abbreviation state := (saga_state ex k).

(** The saga of [ex] is about to exercise contract [k]: the contract is stored and its
    amount positive, the amount of the execution settles (moves every balance by one
    number of cents), the reservations of the buyer's account are not negative, its
    seller published the listing in one row at most, no order is of this execution
    yet, the orders that have an execution exist, and the execution is IN_PROGRESS. *)
Record ready (d : DB) : Prop := {
  rd_contract : contracts d !! ex_ContractID ex = Some k;
  rd_amount : 0 < oc_Amount k;
  rd_settles : settles q;
  rd_reserved : forall r, d_racun d !! oc_BuyerAccountID k = Some r -> 0 <= r_rezervisana_sredstva r;
  rd_rows : share_rows (oc_SellerID k) (oc_ListingID k) d <= 1;
  rd_new : forall i, otc_order_saga (d_otc d) !! i <> Some (ex_ID ex);
  rd_orders : forall i x, otc_order_saga (d_otc d) !! i = Some x -> is_Some (d_orders d !! i);
  rd_execution : sx_Status <$> otc_executions (d_otc d) !! ex_ID ex = Some OTCSagaStatusInProgress
}.

(** Nobody writes while the saga waits. *)
Definition others_wait (e : Env) : Prop := forall n d, env_interference e n d = d.

Record restored (d0 d : DB) : Prop := {
  rs_accounts : d_racun d = d_racun d0;
  rs_shares : forall u l, public_qty u l d = public_qty u l d0;
  rs_orders : d_orders d = d_orders d0;
  rs_saga : otc_order_saga (d_otc d) = otc_order_saga (d_otc d0);
  rs_contracts : contracts d = contracts d0
}.

(** What a completed exercise has done.  The statements on accounts carry
    [status = 'AKTIVAN']: the amount leaves the buyer's account, and arrives on the
    seller's, only where that account is active; one that is not keeps its balance. *)
Record exercised (d0 d : DB) : Prop := {
  xc_accounts : d_racun d = accounts_at ex k OTCSagaStepCompleted (d_racun d0);
  xc_shares : forall u l, public_qty u l d =
    public_qty u l d0 - (if same_key (oc_SellerID k) (oc_ListingID k) u l then oc_Amount k else 0);
  xc_orders : orders_at ex k OTCSagaStepCompleted d0 d;
  xc_contract : exists now, contracts d =
    <[ex_ContractID ex := with_contract_status OTCContractExercised (Some now) k]> (contracts d0)
}.

(** ** Statuses *)

Definition exec_status (d : DB) : option OTCSagaStatus := sx_Status <$> otc_executions (d_otc d) !! ex_ID ex.

(** Nothing but IN_PROGRESS and COMPENSATING is written on the way. *)
Definition on_the_way (d d' : DB) : Prop :=
  exec_status d' = exec_status d \/ exec_status d' = Some OTCSagaStatusInProgress \/
  exec_status d' = Some OTCSagaStatusCompensating.

#[export] Instance on_the_way_preorder : PreOrder on_the_way.
Proof.
  split; [by left|]. intros x y z [E|[E|E]] [F|[F|F]]; unfold on_the_way; rewrite ?F, ?E; auto.
Qed.

Lemma UpdateStep_status id s st er e w r w' :
  UpdateStep id s st er e w = (r, w') ->
  exec_status (w_db w') = exec_status (w_db w) \/ (id = ex_ID ex /\ exec_status (w_db w') = Some st).
Proof.
  unfold UpdateStep. intros H. apply bind_cases in H as [(now & w1 & E1%time_now_ok & H)|(x & _ & H)]; [|discriminate].
  rewrite <- E1. apply bind_cases in H as [(n & w2 & H2 & H)|(x & _ & H2)].
  - injection H as <- <-. apply sql_ok in H2 as (d & H2 & -> & _). unfold update_execution in H2.
    destruct (update_row _ _ _ _) as [[j m]|] eqn:E; [|discriminate]. injection H2 as _ <-.
    apply update_row_inv in E as [(_ & -> & _)|(_ & a & a' & Ha & _ & [= <-] & ->)]; [by left|].
    unfold exec_status. cbn. destruct (decide (id = ex_ID ex)) as [->|Hne].
    + right. by rewrite lookup_insert_eq.
    + left. by rewrite lookup_insert_ne.
  - apply sql_err_db in H2. left. by rewrite H2.
Qed.

Lemma UpdateStep_on_the_way id s st er :
  st = OTCSagaStatusInProgress \/ st = OTCSagaStatusCompensating -> preserves on_the_way (UpdateStep id s st er).
Proof.
  intros Hst e w r w' H. apply UpdateStep_status in H as [E|[_ E]]; [by left|]. unfold on_the_way.
  destruct Hst as [->| ->]; auto.
Qed.

Lemma same_on_the_way {A} (m : M A) : preserves (same exec_status) m -> preserves on_the_way m.
Proof. intros H e w r w' E. left. exact (H _ _ _ _ E). Qed.

Lemma LogStep_status id s st er n : preserves (same exec_status) (LogStep id s st er n).
Proof.
  unfold LogStep. apply preserves_bind; [apply _|apply preserves_io; apply _|intros now]. apply preserves_sql; [apply _|].
  intros d x d'. destruct (has_row _ _); [|discriminate]. by intros [= _ <-].
Qed.

Lemma IncrementRetry_status id : preserves (same exec_status) (IncrementRetry id).
Proof.
  unfold IncrementRetry, GetExecution. apply preserves_bind; [apply _|apply preserves_io; apply _|intros now].
  apply preserves_bind; [apply _| |intros n; solve_preserves].
  apply preserves_sql; [apply _|]. intros d n d'. unfold update_execution.
  destruct (update_row _ _ _ _) as [[j m]|] eqn:E; [|discriminate]. intros [= _ <-]. unfold same, exec_status. cbn.
  apply update_row_inv in E as [(_ & -> & _)|(_ & a & a' & Ha & _ & (x & _ & [= <-])%bind_Some & ->)]; [done|].
  destruct (decide (id = ex_ID ex)) as [->|Hne]; [by rewrite lookup_insert_eq, Ha|by rewrite lookup_insert_ne].
Qed.

Lemma run_step_on_the_way s m : preserves (same exec_status) m -> preserves on_the_way (run_step ex s m).
Proof.
  intros Hm.
  assert (U : forall a b c, preserves on_the_way (UpdateStep a b OTCSagaStatusInProgress c))
    by (intros a b c; apply UpdateStep_on_the_way; auto).
  assert (L : forall a b c d f, preserves on_the_way (LogStep a b c d f))
    by (intros a b c d f; apply same_on_the_way, LogStep_status).
  apply same_on_the_way in Hm. unfold run_step, recordStep. solve_preserves.
Qed.

(** The compensations leave the status alone. *)
Lemma compensations_status : Forall (fun x => preserves (same exec_status) x.2) (allSteps ex).
Proof.
  unfold allSteps. repeat (apply Forall_cons_2 || apply Forall_nil_2);
    [by apply compensate_ownership_frame|by apply compensate_funds_frame|by apply compensate_shares_frame
    |by apply compensate_reserve_frame].
Qed.

(** ** One compensation with its attempts *)

Definition keeps_on_error (f : M unit) : Prop :=
  forall e w er w', f e w = (Err er, w') -> saga_core (w_db w') = saga_core (w_db w).

Lemma compensations_keep : Forall (fun x => keeps_on_error x.2) (allSteps ex).
Proof.
  unfold allSteps. repeat (apply Forall_cons_2 || apply Forall_nil_2); intros e w er w' H; cbn [snd] in H.
  - apply sql_err_db in H. by rewrite H.
  - unfold compensateTransferFunds in H. apply bind_err in H as [H|(now & w1 & E1%time_now_ok & H)]; [discriminate|].
    apply Transaction_err in H. by rewrite H, E1.
  - apply Transaction_err in H. by rewrite H.
  - unfold compensateReserveFunds in H. apply bind_err in H as [H|(n & w1 & _ & H)]; [|discriminate].
    apply sql_err_db in H. by rewrite H.
Qed.

Lemma note_core {A} (m : M A) e w r w' :
  preserves (same saga_core) m -> m e w = (r, w') -> saga_core (w_db w') = saga_core (w_db w).
Proof. intros H E. exact (H _ _ _ _ E). Qed.

Lemma LogStep_core i a b c n : preserves (same saga_core) (LogStep i a b c n).
Proof. apply LogStep_preserves; try apply _; done. Qed.

Lemma UpdateStep_core i a b c : preserves (same saga_core) (UpdateStep i a b c).
Proof. apply UpdateStep_preserves; try apply _; done. Qed.

Lemma IncrementRetry_core i : preserves (same saga_core) (IncrementRetry i).
Proof. apply IncrementRetry_preserves; try apply _; done. Qed.

Lemma retry_cases e s f n a w r w' :
  others_wait e -> keeps_on_error f -> retry ex s f n a e w = (r, w') ->
  (r = Ok true /\ exists w1 w2, saga_core (w_db w1) = saga_core (w_db w) /\ f e w1 = (Ok tt, w2) /\
     saga_core (w_db w') = saga_core (w_db w2)) \/
  (r = Ok false /\ saga_core (w_db w') = saga_core (w_db w)).
Proof.
  intros He Hf. revert a w. induction n as [|n IH]; intros a w; cbn [retry]; [intros [= <- <-]; by right|].
  intros (r1 & w1 & H1%(note_core _ _ _ _ _ (IncrementRetry_core _)) & H)%try_bind.
  apply try_bind in H as (r2 & w2 & H2 & H). destruct r2 as [[]|er].
  - left. apply try_bind in H as (r3 & w3 & H3%(note_core _ _ _ _ _ (LogStep_core _ _ _ _ _)) & H). injection H as <- <-.
    split; [done|]. by exists w1, w2.
  - apply Hf in H2. apply try_bind in H as (r3 & w3 & H3%(note_core _ _ _ _ _ (LogStep_core _ _ _ _ _)) & H).
    assert (Hs : exists w4, retry ex s f n (a + 1) e w4 = (r, w') /\ w_db w4 = w_db w3).
    { destruct (a <? maxCompRetries).
      - unfold mbind, M_bind, sleep in H. eexists. split; [exact H|]. cbn. apply He.
      - exists w3. done. }
    destruct Hs as (w4 & H4 & E4). apply IH in H4 as [(-> & v1 & v2 & F1 & F2 & F3)|[-> F]].
    + left. split; [done|]. exists v1, v2. split; [congruence|done].
    + right. split; [done|]. congruence.
Qed.

Lemma compensate_all_cons e x l w r w' :
  others_wait e -> keeps_on_error x.2 -> compensate_all ex (x :: l) e w = (r, w') ->
  exists b w1 w2, compensate_all ex l e w1 = (b, w2) /\ w' = w2 /\
    ((r = Ok true -> b = Ok true /\ exists v1 v2, saga_core (w_db v1) = saga_core (w_db w) /\ x.2 e v1 = (Ok tt, v2) /\
        saga_core (w_db w1) = saga_core (w_db v2))).
Proof.
  intros He Hx. cbn [compensate_all]. intros H. apply bind_cases in H as [(ok & w1 & H1 & H)|(er & -> & H1)].
  - apply bind_cases in H as [(oks & w2 & H2 & H)|(er & -> & H2)].
    + injection H as <- <-. exists (Ok oks), w1, w2. split_and!; [done|done|]. intros [= E].
      apply andb_prop in E as [-> ->]. split; [done|].
      apply (retry_cases _ _ _ _ _ _ _ _ He Hx) in H1 as [(_ & v1 & v2 & F)|[E _]]; [by exists v1, v2|discriminate].
    + exists (Err er), w1, w'. done.
  - apply (retry_cases _ _ _ _ _ _ _ _ He Hx) in H1 as [(E & _)|[E _]]; discriminate.
Qed.

(** ** All of them *)

Lemma undo_reserve e w w' d0 :
  others_wait e -> ready d0 -> compensate_all ex [(OTCSagaStepReserveFunds, compensateReserveFunds ex)] e w = (Ok true, w') ->
  d_racun (w_db w) = alter (on_active (reserved q)) (oc_BuyerAccountID k) (d_racun d0) ->
  (forall u l, public_qty u l (w_db w) = public_qty u l d0) -> d_orders (w_db w) = d_orders d0 ->
  otc_order_saga (d_otc (w_db w)) = otc_order_saga (d_otc d0) -> contracts (w_db w) = contracts d0 ->
  restored d0 (w_db w').
Proof.
  intros He [R1 R2 R3 R4 _ _ _ _] H Ea Es Eo Eg Ec.
  apply compensate_all_cons in H as (b & w1 & w2 & H & -> & K); [|done|].
  2:{ by apply (Forall_inv (Forall_inv_tail (Forall_inv_tail (Forall_inv_tail compensations_keep)))). }
  destruct (K eq_refl) as (-> & v1 & v2 & F1 & F2 & F3). injection H as <-.
  unfold saga_core in F1, F3. injection F1 as A1 A2 A3 A4 A5. injection F3 as B1 B2 B3 B4 B5. cbn [snd] in F2.
  pose proof F2 as F4. apply (comp_reserve_moves ex k _ _ _ (d_racun d0)) in F2; [|congruence|done|done|congruence].
  assert (E : preserves (same (fun d => (d_public_shares d, d_orders d, otc_order_saga (d_otc d), contracts d)))
                (compensateReserveFunds ex)) by (by apply compensate_reserve_frame).
  apply E in F4. unfold same in F4. injection F4 as G1 G2 G3 G4. unfold public_qty in *.
  split; unfold public_qty; try congruence. intros u l. rewrite <- Es. congruence.
Qed.

Lemma undone e s w w' d0 :
  others_wait e -> ready d0 -> s <> OTCSagaStepCompleted -> state s d0 (w_db w) ->
  compensate_all ex (from_step s (allSteps ex)) e w = (Ok true, w') -> restored d0 (w_db w').
Proof.
  intros He R Hs S H. pose proof R as [R1 R2 R3 R4 R5 R6 R7 R8].
  pose proof compensations_keep as Kp. unfold allSteps in H, Kp.
  apply Forall_cons_1 in Kp as [K1 Kp]. apply Forall_cons_1 in Kp as [K2 Kp]. apply Forall_cons_1 in Kp as [K3 _].
  assert (G3 : forall v v', state OTCSagaStepReserveSecurities d0 (w_db v) ->
    compensate_all ex [(OTCSagaStepReserveSecurities, compensateReserveSecurities ex);
                       (OTCSagaStepReserveFunds, compensateReserveFunds ex)] e v = (Ok true, v') -> restored d0 (w_db v')).
  { intros v v' Sv Hv. apply compensate_all_cons in Hv as (b & w1 & w2 & Hv & -> & K); [|done|done].
    destruct (K eq_refl) as (-> & v1 & v2 & F1 & F2 & F3).
    apply (saga_state_core ex k _ _ _ _ F1) in Sv. pose proof Sv as [A1 _ _ [A4 A6] A5].
    apply (comp_shares_moves ex k _ _ _ d0) in F2 as (B1 & B2 & B3); [|done|done].
    injection B3 as B3 B4 B5. unfold saga_core in F3. injection F3 as C1 C2 C3 C4 C5.
    eapply (undo_reserve _ _ _ _ He R Hv); [by rewrite C1, B2, A1| |congruence..].
    intros u l. rewrite <- B1. unfold public_qty. by rewrite C2. }
  assert (G2 : forall v v', state OTCSagaStepTransferFunds d0 (w_db v) ->
    compensate_all ex [(OTCSagaStepTransferFunds, compensateTransferFunds ex);
                       (OTCSagaStepReserveSecurities, compensateReserveSecurities ex);
                       (OTCSagaStepReserveFunds, compensateReserveFunds ex)] e v = (Ok true, v') -> restored d0 (w_db v')).
  { intros v v' Sv Hv. apply compensate_all_cons in Hv as (b & w1 & w2 & Hv & -> & K); [|done|done].
    destruct (K eq_refl) as (-> & v1 & v2 & F1 & F2 & F3). apply (saga_state_core ex k _ _ _ _ F1) in Sv.
    apply (comp_funds_moves ex k _ _ _ d0) in F2; [|done..]. eapply G3; [|done]. by eapply saga_state_core. }
  destruct s; cbn in H; try done.
  - injection H as <-. destruct S as [A1 A2 A3 [A4 A6] A5]. split; try done. intros u l. rewrite A3. cbn. lia.
  - destruct S as [A1 A2 A3 [A4 A6] A5]. eapply (undo_reserve _ _ _ _ He R H); try done.
    intros u l. rewrite A3. cbn. lia.
  - by eapply G3.
  - by eapply G2.
  - apply compensate_all_cons in H as (b & w1 & w2 & H & -> & K); [|done|done].
    destruct (K eq_refl) as (-> & v1 & v2 & F1 & F2 & F3). apply (saga_state_core ex k _ _ _ _ F1) in S.
    apply (comp_ownership_moves ex k _ _ _ d0) in F2; [|done..]. eapply G2; [|done]. by eapply saga_state_core.
Qed.

(** ** The whole saga *)

Definition going (d : DB) : Prop :=
  exec_status d = Some OTCSagaStatusInProgress \/ exec_status d = Some OTCSagaStatusCompensating.

(** What the three answers mean. *)
Definition truthful (d0 d : DB) : Prop :=
  (exec_status d = Some OTCSagaStatusCompleted -> exercised d0 d) /\
  (exec_status d = Some OTCSagaStatusFailed -> restored d0 d) /\
  (exec_status d <> Some OTCSagaStatusCompleted -> contracts d = contracts d0).

Lemma going_on d d' : on_the_way d d' -> going d -> going d'.
Proof. unfold on_the_way, going. intros [-> | [-> | ->]]; auto. Qed.

Lemma others_interfere e (R : DB -> DB -> Prop) `{!PreOrder R} : others_wait e -> interferes e R.
Proof. intros He n d. rewrite He. reflexivity. Qed.

Lemma retry_status e s f n a :
  others_wait e -> preserves (same exec_status) f -> preserves_at e (same exec_status) (retry ex s f n a).
Proof.
  intros He Hf. pose proof (others_interfere e (same exec_status) He) as Hi.
  revert a. induction n as [|n IH]; intros a; cbn [retry]; [apply preserves_at_of, preserves_ret; apply _|].
  apply preserves_at_bind; [apply _|apply preserves_at_of, preserves_try, IncrementRetry_status|intros _].
  apply preserves_at_bind; [apply _|by apply preserves_at_of, preserves_try|intros [[]|er]].
  - apply preserves_at_of. pose proof LogStep_status. solve_preserves.
  - apply preserves_at_bind; [apply _|apply preserves_at_of, preserves_try, LogStep_status|intros _].
    apply preserves_at_bind; [apply _|by apply preserves_at_sleep_unless; [apply _|]|intros _]. apply IH.
Qed.

Lemma compensate_all_status e l :
  others_wait e -> Forall (fun x => preserves (same exec_status) x.2) l ->
  preserves_at e (same exec_status) (compensate_all ex l).
Proof.
  intros He. induction 1 as [|x l Hx _ IH]; cbn [compensate_all]; [apply preserves_at_of, preserves_ret; apply _|].
  apply preserves_at_bind; [apply _|by apply retry_status|intros ok].
  apply preserves_at_bind; [apply _|exact IH|intros oks]. apply preserves_at_of, preserves_ret. apply _.
Qed.

Lemma compensations_contracts : Forall (fun x => preserves (same (fun d => contracts d)) x.2) (allSteps ex).
Proof.
  unfold allSteps. repeat (apply Forall_cons_2 || apply Forall_nil_2);
    [by apply compensate_ownership_frame|by apply compensate_funds_frame|by apply compensate_shares_frame
    |by apply compensate_reserve_frame].
Qed.

Lemma compensateFrom_truthful e s er w r w' d0 :
  others_wait e -> ready d0 -> s <> OTCSagaStepCompleted -> state s d0 (w_db w) -> going (w_db w) ->
  compensateFrom ex s er e w = (r, w') -> truthful d0 (w_db w').
Proof.
  intros He R Hs S G H.
  assert (Ec : contracts (w_db w') = contracts d0).
  { rewrite <- (ss_contracts _ _ _ _ _ S). refine (compensateFrom_at (same (fun d => contracts d)) _ _ e ex s er _ _ _ _ _ H);
      [done..|apply others_interfere; [apply _|done]|apply from_step_Forall, compensations_contracts]. }
  unfold compensateFrom in H. apply try_bind in H as (r1 & w1 & H1 & H).
  pose proof (UpdateStep_core _ _ _ _ _ _ _ _ H1) as C1. apply (saga_state_core ex k _ _ _ _ C1) in S.
  apply UpdateStep_on_the_way in H1; [|by right]. apply (going_on _ _ H1) in G. clear H1 C1.
  pose proof (compensate_all_status e (from_step s (allSteps ex)) He (from_step_Forall _ _ _ compensations_status)) as Ks.
  apply bind_cases in H as [(ok & w2 & H2 & H)|(x & -> & H2)].
  - pose proof (Ks _ _ _ H2) as G2. unfold same in G2. apply try_bind in H as (r3 & w3 & H3 & H). injection H as _ <-.
    pose proof (UpdateStep_core _ _ _ _ _ _ _ _ H3) as C3. apply UpdateStep_status in H3. unfold going in G. rewrite <- G2 in G.
    split_and!; intros E; [..|done].
    + rewrite E in H3. destruct ok, H3 as [H3|[_ H3]], G; congruence.
    + destruct ok; [|rewrite E in H3; destruct H3 as [H3|[_ H3]], G; congruence].
      apply (undone _ _ _ _ _ He R Hs S) in H2 as [B1 B2 B3 B4 B5]. injection C3 as E1 E2 E3 E4 E5.
      unfold public_qty in *. split; unfold public_qty; [congruence|intros u l; rewrite <- B2; congruence|congruence..].
  - apply Ks in H2. unfold same in H2. unfold going in G. rewrite <- H2 in G.
    split_and!; intros E; [destruct G; congruence..|done].
Qed.

Lemma or_compensate_truthful e s m rest w r w' d0 :
  others_wait e -> ready d0 -> s <> OTCSagaStepCompleted -> state s d0 (w_db w) -> going (w_db w) ->
  (forall w1 er, m e w = (Err er, w1) -> state s d0 (w_db w1) /\ going (w_db w1)) ->
  (forall w1, m e w = (Ok tt, w1) -> rest e w1 = (r, w') -> truthful d0 (w_db w')) ->
  or_compensate ex s m rest e w = (r, w') -> truthful d0 (w_db w').
Proof.
  intros He R Hs S G Hm Hr H. unfold or_compensate in H. apply try_bind in H as (x & w1 & H1 & H).
  destruct x as [[]|er]; [by eapply Hr|]. apply Hm in H1 as [S1 G1]. by eapply compensateFrom_truthful.
Qed.

(** A step in its transaction, and what it moves. *)
Lemma step_truthful e s s' m rest w r w' d0 :
  others_wait e -> ready d0 -> s <> OTCSagaStepCompleted -> state s d0 (w_db w) -> going (w_db w) ->
  preserves (same exec_status) m ->
  (forall w1 w2, m e w1 = (Ok tt, w2) -> state s d0 (w_db w1) -> state s' d0 (w_db w2)) ->
  (forall w1, state s' d0 (w_db w1) -> going (w_db w1) -> rest e w1 = (r, w') -> truthful d0 (w_db w')) ->
  or_compensate ex s (run_step ex s' m) rest e w = (r, w') -> truthful d0 (w_db w').
Proof.
  intros He R Hs S G Hm Hmoves Hr. apply or_compensate_truthful; try done.
  - intros w1 er H1. pose proof (run_step_on_the_way _ _ Hm _ _ _ _ H1) as Ho.
    apply run_step_cases in H1 as [[E _]|(er' & _ & C)]; [discriminate|]. split; [|by eapply going_on].
    by eapply saga_state_core.
  - intros w1 H1. pose proof (run_step_on_the_way _ _ Hm _ _ _ _ H1) as Ho.
    apply run_step_cases in H1 as [(_ & v1 & v2 & Hrun & Ev & C)|(er' & E & _)]; [|discriminate].
    apply Hr; [|by eapply going_on]. eapply saga_state_core; [exact C|]. eapply Hmoves; [exact Hrun|]. by rewrite Ev.
Qed.

Lemma bind_time_now {A} (f : Z -> M A) e w r w' :
  (now ← time_now; f now) e w = (r, w') -> exists now w1, w_db w1 = w_db w /\ f now e w1 = (r, w').
Proof.
  intros H. apply bind_cases in H as [(now & w1 & H1%time_now_ok & H)|(x & _ & H)]; [by exists now, w1|discriminate].
Qed.

(** The rest of a saga after reading the clock. *)
Lemma or_compensate_clock e s (m : Z -> M unit) rest w r w' :
  or_compensate ex s (now ← time_now; m now) rest e w = (r, w') ->
  exists now w1, w_db w1 = w_db w /\ or_compensate ex s (m now) rest e w1 = (r, w').
Proof.
  unfold or_compensate. intros (x & w2 & H2 & H)%try_bind. apply bind_time_now in H2 as (now & w1 & E & H2).
  exists now, w1. split; [done|]. unfold mbind, M_bind, try in *. by rewrite H2.
Qed.

(** ** The last step *)

Lemma UpdateContractStatus_ok st e w w' :
  UpdateContractStatus (ex_ContractID ex) st e w = (Ok tt, w') -> st = OTCContractExercised ->
  contracts (w_db w) !! ex_ContractID ex = Some k ->
  exists now, w_db w' = set_otc_contracts
    (<[ex_ContractID ex := with_contract_status OTCContractExercised (Some now) k]> (contracts (w_db w))) (w_db w).
Proof.
  unfold UpdateContractStatus. intros H -> Hk. rewrite decide_True in H by done.
  apply bind_ok in H as (t & w1 & H1 & H). apply bind_ok in H1 as (now & w0 & E0%time_now_ok & H1). injection H1 as <- <-.
  apply bind_ok in H as (n & w2 & (d & H2 & -> & _)%sql_ok & H). exists now. rewrite E0 in H2.
  unfold update_contract in H2. destruct (update_row _ _ _ _) as [[j m]|] eqn:E; [|discriminate]. injection H2 as -> <-.
  apply update_row_inv in E as [(_ & _ & Hn)|(-> & k0 & k1 & Hk0 & _ & [= <-] & ->)]; [by specialize (Hn _ Hk)|].
  assert (k0 = k) as -> by congruence. by injection H as <-.
Qed.

Lemma UpdateStep_ok st s er e w w' :
  UpdateStep (ex_ID ex) s st er e w = (Ok tt, w') -> is_Some (exec_status (w_db w)) -> exec_status (w_db w') = Some st.
Proof.
  unfold UpdateStep. intros (now & w1 & E1%time_now_ok & H)%bind_ok [s0 Hs].
  apply bind_ok in H as (n & w2 & (d & H2 & -> & _)%sql_ok & H). injection H as <-. rewrite E1 in H2.
  unfold update_execution in H2. destruct (update_row _ _ _ _) as [[j m]|] eqn:E; [|discriminate]. injection H2 as _ <-.
  unfold exec_status in *. apply fmap_Some in Hs as (x & Hx & _).
  apply update_row_inv in E as [(_ & _ & Hn)|(_ & a & a' & Ha & _ & [= <-] & ->)]; [by specialize (Hn _ Hx)|].
  cbn. by rewrite lookup_insert_eq.
Qed.

Lemma markCompleted_cases e w r w' :
  markCompleted ex the_contract e w = (r, w') -> contracts (w_db w) !! ex_ContractID ex = Some k -> going (w_db w) ->
  (exists er, r = Err er /\ saga_core (w_db w') = saga_core (w_db w) /\ exec_status (w_db w') = exec_status (w_db w)) \/
  (r = Ok tt /\ exec_status (w_db w') = Some OTCSagaStatusCompleted /\
   exists now, saga_core (w_db w') = saga_core (set_otc_contracts
     (<[ex_ContractID ex := with_contract_status OTCContractExercised (Some now) k]> (contracts (w_db w))) (w_db w))).
Proof.
  unfold markCompleted. intros H Hk G. apply bind_cases in H as [(n & w1 & [_ E1]%sql_read_ok & H)|(x & -> & H)].
  2:{ left. apply sql_err_db in H. rewrite H. eauto. }
  destruct (n =? 0)%nat; [injection H as <- <-; left; rewrite E1; eauto|].
  apply bind_cases in H as [([] & w2 & H2 & H)|(x & -> & H)].
  2:{ left. apply Transaction_err in H. rewrite H, E1. eauto. }
  right. apply try_bind in H as (r3 & w3 & H3 & H). injection H as <- <-. split; [done|].
  pose proof (LogStep_status _ _ _ _ _ _ _ _ _ H3) as C. apply LogStep_core in H3. unfold same in *.
  apply Transaction_ok in H2 as (w4 & H2 & E2 & _ & _). rewrite H3, C, E2.
  apply bind_ok in H2 as ([] & w5 & H5 & H6). apply UpdateContractStatus_ok in H5 as [now E5]; [|done|by rewrite <- E1 in Hk].
  pose proof (UpdateStep_core _ _ _ _ _ _ _ _ H6) as C6. unfold same in C6. split.
  - apply UpdateStep_ok in H6; [done|]. rewrite E5. unfold going, exec_status in *. cbn. rewrite E1.
    destruct G as [-> | ->]; eauto.
  - exists now. rewrite C6, E5. cbn. by rewrite E1.
Qed.

(** C11: An execution tells the truth, whatever statements fail.  The saga of an
    execution that is in progress is run on its stored contract, [ready]: the amounts
    are positive and whole cents move, no reservation of the buyer's account is
    negative, the seller published the listing in at most one row, and no order is of
    this execution yet.  Nobody else writes while the saga waits between two attempts,
    [others_wait].  If the execution ends COMPLETED, the reserved amount was taken off
    the buyer's account where that is active, and added to the seller's account only
    where that one is active (a seller's account that is not is not credited, though
    the execution completes); the seller's published shares are fewer by the amount of
    the contract, the two orders of the execution are there and the contract is
    EXERCISED.  If it ends FAILED, accounts, published quantities, orders and contracts
    are what they were.  And no contract is touched unless the execution ends
    COMPLETED. *)
Theorem saga_tells_the_truth e w r w' :
  others_wait e -> ready (w_db w) -> runSaga ex the_contract e w = (r, w') -> truthful (w_db w) (w_db w').
Proof.
  intros He R. set (d0 := w_db w) in *.
  assert (S : state OTCSagaStepPending d0 (w_db w)).
  { split; [done|apply (rd_rows _ R)|intros u l; cbn [took andb]; unfold d0; lia|done|done]. }
  assert (G : going (w_db w)) by (left; apply (rd_execution _ R)).
  unfold runSaga, stepReserveFunds, stepReserveSecurities, stepTransferFunds, stepTransferOwnership.
  revert S G. generalize w. clearbody d0. clear w. intros w S G.
  apply step_truthful; [done..|by apply reserve_funds_frame|intros *; apply reserve_funds_moves|].
  clear w S G. intros w S G.
  apply step_truthful; [done..|by apply shares_frame|intros w1 w2 H; apply (reserve_securities_moves ex k e w1 w2 d0 H (rd_amount _ R))|].
  clear w S G. intros w S G (now & w0 & E0 & H)%or_compensate_clock. rewrite <- E0 in S, G. clear E0 w. revert H.
  apply step_truthful; [done..|by apply transfer_funds_frame|intros *; apply transfer_funds_moves|].
  clear w0 S G now. intros w S G (now & w0 & E0 & H)%or_compensate_clock. rewrite <- E0 in S, G. clear E0 w. revert H.
  apply step_truthful; [done..|by apply ownership_frame|intros *; apply transfer_ownership_moves|].
  clear w0 S G now. intros w S G.
  assert (Hk : contracts (w_db w) !! ex_ContractID ex = Some k) by (rewrite (ss_contracts _ _ _ _ _ S); apply (rd_contract _ R)).
  apply or_compensate_truthful; try done.
  - intros w1 er H. apply markCompleted_cases in H as [(? & _ & C & E)|([=] & _)]; [|done..].
    split; [by eapply saga_state_core|]. unfold going in *. by rewrite E.
  - intros w1 H [= _ <-]. apply markCompleted_cases in H as [(? & [=] & _)|(_ & E & now & C)]; [|done..].
    injection C as C1 C2 C3 C4 C5. destruct S as [A1 A2 A3 A4 A5]. split_and!; intros E'; [|congruence..].
    split.
    + by rewrite C1, A1.
    + intros u l. unfold public_qty in *. rewrite C2. apply A3.
    + unfold orders_at in *. cbn in *. rewrite C3, C4. exact A4.
    + exists now. rewrite C5. cbn. by rewrite A5.
Qed.
End outcome.

Section again.
Context `{DL : decimal.Lib}.

Lemma GetContract_reads id : reads (GetContractByID id).
Proof. unfold GetContractByID. solve_reads. Qed.

Lemma check_contract_reads c caller : reads (check_contract c caller).
Proof. unfold check_contract, settlement_passed. solve_reads. Qed.

Lemma clear_execution_stuck contractID id m e w r w' :
  find_execution contractID (w_db w) = Some (id, m) -> logged id (w_db w) = true ->
  clear_execution contractID e w = (r, w') -> (exists er, r = Err er) /\ w_db w' = w_db w.
Proof.
  intros Hf Hl H. unfold clear_execution in H.
  apply bind_cases in H as [(existing & w1 & H1 & H)|(er & -> & H1)].
  - unfold GetExecutionByContractID in H1. apply bind_ok in H1 as (row & w2 & [-> E2]%sql_read_ok & H1).
    injection H1 as <- <-. rewrite Hf in H. cbn [fmap option_fmap option_map] in H. case_decide.
    + injection H as <- <-. eauto.
    + unfold DeleteExecution in H. destruct r as [x|er].
      * apply sql_ok in H as (d & H & _). cbn [ex_ID executionToDomain] in H. cbn in H. by rewrite E2, Hl in H.
      * apply sql_err_db in H. rewrite H. eauto.
  - unfold GetExecutionByContractID in H1. apply bind_cases in H1 as [(row & w2 & [-> E2]%sql_read_ok & H1)|(x & [= <-] & H1)].
    + discriminate.
    + apply sql_err_db in H1. rewrite H1. eauto.
Qed.

(** C15: An execution that has left a note in the step log blocks its contract for
    good, however it ended: the foreign key of the log keeps [DeleteExecution] from
    making room for another, so [ExerciseContract] answers with an error and writes
    nothing. *)
Theorem failed_exercise_cannot_be_retried spreadRate contractID caller id m e w r w' :
  find_execution contractID (w_db w) = Some (id, m) -> logged id (w_db w) = true ->
  ExerciseContract spreadRate contractID caller e w = (r, w') -> (exists er, r = Err er) /\ w_db w' = w_db w.
Proof.
  intros Hf Hl H. unfold ExerciseContract in H.
  apply bind_cases in H as [(c & w1 & H1 & H)|(er & -> & H1)].
  2:{ apply GetContract_reads in H1. eauto. }
  apply GetContract_reads in H1.
  apply bind_cases in H as [([] & w2 & H2 & H)|(er & -> & H2)]; apply check_contract_reads in H2; [|split; [eauto|congruence]].
  rewrite H1, H2 in Hf, Hl.
  apply bind_cases in H as [([] & w3 & H3 & H)|(er & -> & H3)].
  - apply (clear_execution_stuck _ _ _ _ _ _ _ Hf Hl) in H3 as [[? [=]] _].
  - apply (clear_execution_stuck _ _ _ _ _ _ _ Hf Hl) in H3 as [_ E]. split; [eauto|congruence].
Qed.
End again.
