(* ===== verification/OtcExamples.v ===== *)
(** * The over-the-counter theorems applied to a concrete bank

    Client 7 has a dollar account of 1000, client 8 one of 200 and has published ten
    shares of listing 1; client 7 asks for five of them at 20 dollars. *)

From stdpp Require Import list relations.
From S2P Require Import Prelude Numeric DecimalModel Domain InterbankTables Tables Store StoreFacts OrderRepo.
From S2P Require Import Market FundsManager FundsFacts FundsSafety FundsTransfers Scenario GoMath AccountRepo PaymentRepo.
From S2P Require Import PaymentFacts PaymentRuns OtcRepo OtcSaga OtcFacts OtcOffers OtcSagaFacts OtcOutcome.
#[local] Open Scope string_scope.
#[local] Open Scope Z_scope.

Module otc_bank.
#[local] Existing Instance decimal_model.lib.

Definition racuni : gmap Z racun :=
list_to_map
  [(10, mkRacun "100" 7 "USD" LICNI AKTIVAN 100000 0 scenario.no_info);
   (12, mkRacun "120" 8 "USD" LICNI AKTIVAN 20000 0 scenario.no_info);
   (20, mkRacun "666000122200000008" 2 "USD" POSLOVNI AKTIVAN 10000000 0 scenario.no_info)].

Definition db1 : DB :=
  mkDB racuni [] ∅ [] [] [mkPublicShare 1 1 8 10] ∅ [] ∅ ∅ ∅ ∅ ∅ bank_empty otc_empty.
Definition w1 : World := scenario.at_db db1.
Definition e1 : Env := scenario.quiet.

(** ** From an offer to a contract *)

Definition ask : CreateOTCOfferInput := mkCreateOffer 1 7 8 10 5 (f64_of_Z 20) (f64_of_Z 3) 10 None None.
Definition asked := CreateOffer ask e1 w1.
Definition offer_id : Z := match asked.1 with Ok o => ofr_ID o | Err _ => 0 end.

(** The seller accepts. *)
Definition yes : AcceptOTCOfferInput := mkAcceptOffer offer_id 8 (Some 12).
Definition accepted := AcceptOffer yes e1 asked.2.
Definition contract_id : Z := match accepted.1 with Ok c => ctr_ID c | Err _ => 0 end.

(** The buyer exercises. *)
Definition started := ExerciseContract scenario.rate contract_id 7 e1 accepted.2.
Definition the_pair : OTCSagaExecution * OTCContract :=
  match started.1 with
  | Ok p => p
  | Err _ => (mkExecution 0 0 OTCSagaStepPending OTCSagaStatusFailed f64_zero None 0 0 0 0, contractToDomain 0
                (mkContractModel 0 0 0 0 0 0 0 0 0 0 OTCContractValid 0 None None None))
  end.
Definition finished := runSaga the_pair.1 the_pair.2 e1 started.2.

Definition balance (id : Z) (w : World) : option (Z * Z) :=
  (fun r => (r_stanje_racuna r, r_rezervisana_sredstva r)) <$> d_racun (w_db w) !! id.
Definition status (w : World) : list OTCSagaStatus :=
  (fun kv => sx_Status kv.2) <$> map_to_list (otc_executions (d_otc (w_db w))).
Definition states (w : World) : list OTCContractStatus :=
  (fun kv => oc_Status kv.2) <$> map_to_list (otc_contracts (d_otc (w_db w))).


(** The bank as before, with statement [n] failing. *)
Definition fails_at (n : nat) : Env :=
  {| env_fault i := bool_decide (i = n); env_listing := env_listing e1; env_daily_change := env_daily_change e1;
     env_mid_rates := env_mid_rates e1; env_market_status := env_market_status e1; env_rand := env_rand e1;
     env_rand_float := env_rand_float e1; env_now := env_now e1; env_ctx_done := env_ctx_done e1;
     env_row_choice := env_row_choice e1; env_price_tick := env_price_tick e1; env_interference _ d := d;
     env_json := env_json e1; env_ticker := env_ticker e1; env_uuid := env_uuid e1; env_peer := env_peer e1;
     env_listing_row := env_listing_row e1 |}.

(** A premium of 3 dollars, then 100 for five shares. *)
Example trade_completes :
  (balance 10 accepted.2, balance 12 accepted.2) = (Some (99700, 0), Some (20300, 0)) /\
  (balance 10 finished.2, balance 12 finished.2) = (Some (89700, 0), Some (30300, 0)) /\
  ps_Quantity <$> d_public_shares (w_db finished.2) = [5] /\
  status finished.2 = [OTCSagaStatusCompleted] /\ states finished.2 = [OTCContractExercised].
Proof. vm_compute. done. Qed.

(** Whichever statement of the saga fails, the execution ends COMPLETED with the money
    moved or FAILED with the money back. *)
Example one_fault_is_survived :
  forallb (fun n =>
    let w := (runSaga the_pair.1 the_pair.2 (fails_at n) started.2).2 in
    match status w, balance 10 w, balance 12 w with
    | [OTCSagaStatusCompleted], Some (89700, 0), Some (30300, 0) => true
    | [OTCSagaStatusFailed], Some (99700, 0), Some (20300, 0) => true
    | _, _, _ => false
    end) (seq (w_step started.2) 50) = true.
Proof. vm_compute. done. Qed.

(** After a failed exercise the buyer cannot try again. *)
Definition broken : World := (runSaga the_pair.1 the_pair.2 (fails_at 73) started.2).2.

Lemma failed_exercise_cannot_be_retried_witness :
  status broken = [OTCSagaStatusFailed] /\
  exists m, find_execution contract_id (w_db broken) = Some (ex_ID the_pair.1, m) /\
    logged (ex_ID the_pair.1) (w_db broken) = true /\
    (exists er, (ExerciseContract scenario.rate contract_id 7 e1 broken).1 = Err er) /\
    w_db (ExerciseContract scenario.rate contract_id 7 e1 broken).2 = w_db broken.
Proof.
  split; [vm_compute; reflexivity|]. eexists. split; [vm_compute; reflexivity|]. split; [vm_compute; reflexivity|].
  eapply (failed_exercise_cannot_be_retried scenario.rate contract_id 7 (ex_ID the_pair.1) _ e1 broken).
  - vm_compute. reflexivity.
  - vm_compute. reflexivity.
  - apply surjective_pairing.
Defined.

(** An offer that settles today passes the checks but takes up no room: two offers for
    all ten shares stand side by side. *)
Definition today : CreateOTCOfferInput := mkCreateOffer 1 7 8 10 10 (f64_of_Z 20) (f64_of_Z 3) 0 None None.
Example two_offers_for_today :
  let w := (CreateOffer today e1 w1).2 in
  (exists o o', (CreateOffer today e1 w1).1 = Ok o /\ (CreateOffer today e1 w).1 = Ok o').
Proof. cbv zeta. eexists _, _. split; vm_compute; reflexivity. Qed.

(** Nobody asks whose account pays: client 7 names the treasury's. *)
Definition on_the_bank : CreateOTCOfferInput := mkCreateOffer 1 7 8 20 5 (f64_of_Z 20) (f64_of_Z 3) 10 None None.
Example strangers_pay :
  let w := (CreateOffer on_the_bank e1 w1).2 in
  (balance 10 (AcceptOffer yes e1 w).2, balance 20 (AcceptOffer yes e1 w).2) = (Some (100000, 0), Some (9999700, 0)).
Proof. vm_compute. done. Qed.

(** ** The theorems, applied *)

Lemma nobody_oversells_witness :
  rtc timed_step (100, w_db w1) (100, w_db asked.2) /\ capacity_inv 100 (w_db w1) /\ capacity_inv 100 (w_db asked.2).
Proof.
  assert (H : rtc timed_step (100, w_db w1) (100, w_db asked.2)).
  { apply rtc_once. split; [cbn [fst]; lia|]. change (negotiation_step 100 (w_db w1) (w_db asked.2)).
    refine (ns_create 100 ask e1 w1 asked.1 asked.2 _ _ _);
      [intros n; reflexivity|unfold asked; apply surjective_pairing|vm_compute; reflexivity]. }
  assert (I : capacity_inv 100 (w_db w1)).
  { split; [done..|]. intros s l.
    assert (Hp : claimed s l 100 (w_db w1) = 0) by (vm_compute; reflexivity). rewrite Hp.
    unfold public_qty. cbn [w_db w1 scenario.at_db d_public_shares db1]. rewrite zsum_cons, zsum_nil.
    destruct (published _ _ _); cbn; lia. }
  split; [exact H|]. split; [exact I|]. exact (nobody_oversells 100 (w_db w1) 100 (w_db asked.2) H I).
Defined.

Lemma deals_are_kept_witness :
  rtc otc_step (w_db w1) (w_db finished.2) /\ otc_inv (w_db w1) /\
  otc_inv (w_db finished.2) /\ keeps_deals (w_db w1) (w_db finished.2).
Proof.
  assert (H : rtc otc_step (w_db w1) (w_db finished.2)).
  { eapply rtc_l; [apply (os_create ask e1 w1 asked.1 asked.2); unfold asked; apply surjective_pairing|].
    eapply rtc_l; [apply (os_accept yes e1 asked.2 accepted.1 accepted.2); unfold accepted; apply surjective_pairing|].
    eapply rtc_l; [apply (os_exercise scenario.rate contract_id 7 e1 accepted.2 started.1 started.2); unfold started; apply surjective_pairing|].
    apply rtc_once. apply (os_saga the_pair.1 the_pair.2 e1 started.2 finished.1 finished.2); [|unfold finished; apply surjective_pairing].
    intros n d. reflexivity. }
  assert (I : otc_inv (w_db w1)) by (split; done).
  split; [exact H|]. split; [exact I|]. exact (deals_are_kept (w_db w1) (w_db finished.2) H I).
Defined.

(** The row of the contract before the exercise. *)
Definition row : otcContractModel :=
  default (mkContractModel 0 0 0 0 0 0 0 0 0 0 OTCContractValid 0 None None None)
    (otc_contracts (d_otc (w_db started.2)) !! contract_id).

Lemma saga_tells_the_truth_witness :
  others_wait e1 /\ ready the_pair.1 row (w_db started.2) /\
  truthful the_pair.1 row (w_db started.2) (w_db finished.2).
Proof.
  assert (He : others_wait e1) by done.
  assert (R : ready the_pair.1 row (w_db started.2)).
  { split.
    - vm_compute. reflexivity.
    - vm_compute. reflexivity.
    - intros s. assert (E : (arg (ex_BuyerReservedAmount the_pair.1) == cents 10000)%Q) by (vm_compute; reflexivity).
      rewrite !E. apply settles_cents.
    - intros r Hr. vm_compute in Hr. injection Hr as <-. vm_compute. discriminate.
    - vm_compute. discriminate.
    - intros i Hi. vm_compute in Hi. destruct i; discriminate.
    - intros i x Hi. vm_compute in Hi. destruct i; discriminate.
    - vm_compute. reflexivity. }
  split; [exact He|]. split; [exact R|].
  apply (saga_tells_the_truth the_pair.1 row e1 started.2 finished.1 finished.2 He R).
  assert (E : contractToDomain (ex_ContractID the_pair.1) row = the_pair.2) by (vm_compute; reflexivity).
  rewrite E. unfold finished. apply surjective_pairing.
Defined.

(** The premium of the accepted offer. *)
Definition fee : OTCPremiumTransferInput := mkPremium offer_id 10 12 (f64_of_Z 3) "USD" 8.
Definition fee_paid := ExecuteOTCPremiumTransfer fee e1 asked.2.

Lemma premium_conserves_witness :
  fee_paid.1 = Ok tt /\ f64_leb (pt_AmountInListingCurrency fee) f64_zero = false /\
  exists buyer seller t,
    d_racun (w_db asked.2) !! pt_BuyerAccountID fee = Some buyer /\ d_racun (w_db asked.2) !! pt_SellerAccountID fee = Some seller /\
    r_status buyer = AKTIVAN /\
    f64_ltb (f64_sub (scan_cents (r_stanje_racuna buyer)) (scan_cents (r_rezervisana_sredstva buyer)))
      (premium_in fee buyer) = false /\
    d_racun (w_db fee_paid.2) = post_all (premium_legs_of fee buyer seller t) (d_racun (w_db asked.2)) /\
    (settled (arg (premium_in fee buyer)) -> settled (arg (premium_in fee seller)) ->
     settled (arg (pt_AmountInListingCurrency fee)) ->
     forall o, total o (d_racun (w_db fee_paid.2)) = total o (d_racun (w_db asked.2)) -
       (if String.eqb (r_oznaka seller) o && negb (active seller) then to_cents (arg (premium_in fee seller)) else 0)).
Proof.
  split; [vm_compute; reflexivity|]. split; [vm_compute; reflexivity|].
  apply (premium_conserves fee e1 asked.2 fee_paid.2).
  - assert (E : fee_paid.1 = Ok tt) by (vm_compute; reflexivity). rewrite <- E. unfold fee_paid. apply surjective_pairing.
  - vm_compute. reflexivity.
Defined.

Example fee_is_settled : settled (arg (pt_AmountInListingCurrency fee)).
Proof. exists 30000. split; [vm_compute; reflexivity|vm_compute; discriminate]. Qed.
End otc_bank.
