(* ===== verification/CardNumbers.v ===== *)
(** * Numbers, codes and hashes of cards ([service/kartica_service.go])

    The number of a card with its Luhn check digit, the CVV and the one-time code,
    and HMAC-SHA256 of the CVV: crypto/sha256 and crypto/hmac as FIPS 180-4 and RFC
    2104 define them, with the round constants computed as the roots they are.
    Texts are their bytes. *)

From S2P Require Import Prelude Numeric Domain Tables Store StoreFacts GoMath PaymentOrders.
From stdpp Require Import list pretty.
#[local] Open Scope string_scope.
#[local] Open Scope Z_scope.

(** ** SHA-256 *)

Module sha256.

Definition add32 (x y : Z) : Z := (x + y) mod 2 ^ 32.
Definition rotr (n x : Z) : Z := Z.lor (Z.shiftr x n) (Z.shiftl x (32 - n) mod 2 ^ 32).
Definition xor3 (x y z : Z) : Z := Z.lxor x (Z.lxor y z).

(** The least root, by bisection: [r ^ 3 <= n < (r + 1) ^ 3]. *)
Fixpoint cbrt (bits : nat) (r n : Z) : Z :=
  match bits with
  | O => r
  | S k => let r' := r + 2 ^ Z.of_nat k in cbrt k (if r' ^ 3 <=? n then r' else r) n
  end.

Definition primes : list Z :=
  [2; 3; 5; 7; 11; 13; 17; 19; 23; 29; 31; 37; 41; 43; 47; 53; 59; 61; 67; 71; 73; 79; 83; 89; 97; 101; 103; 107; 109;
   113; 127; 131; 137; 139; 149; 151; 157; 163; 167; 173; 179; 181; 191; 193; 197; 199; 211; 223; 227; 229; 233; 239;
   241; 251; 257; 263; 269; 271; 277; 281; 283; 293; 307; 311].

(** The first 32 bits of the fractions of the cube roots, and of the square roots. *)
Definition constants : list Z := Eval vm_compute in (fun p => cbrt 40 0 (p * 2 ^ 96) mod 2 ^ 32) <$> primes.
Definition initial : list Z := Eval vm_compute in (fun p => Z.sqrt (p * 2 ^ 64) mod 2 ^ 32) <$> take 8 primes.

(** The next word of the message schedule, from the last sixteen. *)
Definition next_word (win : list Z) : Z :=
  let at_ i := nth i win 0 in
  let s0 x := xor3 (rotr 7 x) (rotr 18 x) (Z.shiftr x 3) in
  let s1 x := xor3 (rotr 17 x) (rotr 19 x) (Z.shiftr x 10) in
  add32 (add32 (s1 (at_ 14%nat)) (at_ 9%nat)) (add32 (s0 (at_ 1%nat)) (at_ 0%nat)).

Definition round (k word : Z) (st : list Z) : list Z :=
  match st with
  | [a; b; c; d; e; f; g; h] =>
      let ch := Z.lxor (Z.land e f) (Z.land (2 ^ 32 - 1 - e) g) in
      let maj := xor3 (Z.land a b) (Z.land a c) (Z.land b c) in
      let t1 := add32 (add32 (add32 h (xor3 (rotr 6 e) (rotr 11 e) (rotr 25 e))) (add32 ch k)) word in
      let t2 := add32 (xor3 (rotr 2 a) (rotr 13 a) (rotr 22 a)) maj in
      [add32 t1 t2; a; b; c; add32 d t1; e; f; g]
  | _ => st
  end.

Fixpoint rounds (ks win st : list Z) : list Z :=
  match ks with
  | [] => st
  | k :: ks' => rounds ks' (drop 1 win ++ [next_word win]) (round k (nth 0 win 0) st)
  end.

Definition block (st words : list Z) : list Z := zip_with add32 st (rounds constants words st).

Fixpoint blocks (n : nat) (words st : list Z) : list Z :=
  match n with
  | O => st
  | S n' => blocks n' (drop 16 words) (block st (take 16 words))
  end.

(** A number as [n] bytes, the most significant first. *)
Fixpoint big_endian (n : nat) (z : Z) : list Z :=
  match n with O => [] | S n' => big_endian n' (z / 256) ++ [z mod 256] end.

Fixpoint words_of (bytes : list Z) : list Z :=
  match bytes with
  | a :: b :: c :: d :: rest => ((a * 256 + b) * 256 + c) * 256 + d :: words_of rest
  | _ => []
  end.

Definition pad (msg : list Z) : list Z :=
  let n := Z.of_nat (length msg) in
  msg ++ [128] ++ replicate (Z.to_nat ((55 - n) mod 64)) 0 ++ big_endian 8 (8 * n).

Definition Sum256 (msg : list Z) : list Z :=
  let words := words_of (pad msg) in
  blocks (length words / 16) words initial ≫= big_endian 4.

(** ** HMAC *)

Definition hmac_key (key : list Z) : list Z :=
  let k := if 64 <? Z.of_nat (length key) then Sum256 key else key in
  k ++ replicate (64 - length k)%nat 0.

Definition hmac (key msg : list Z) : list Z :=
  let k := hmac_key key in
  Sum256 ((Z.lxor 92 <$> k) ++ Sum256 ((Z.lxor 54 <$> k) ++ msg)).

End sha256.

(** [[]byte(s)] *)
Fixpoint bytes_of (s : string) : list Z :=
  match s with EmptyString => [] | String c s' => Z.of_nat (Ascii.nat_of_ascii c) :: bytes_of s' end.

Definition hex_digit (n : Z) : Ascii.ascii :=
  Ascii.ascii_of_nat (Z.to_nat (if n <? 10 then 48 + n else 87 + n)).

(** [hex.EncodeToString] *)
Fixpoint EncodeToString (bytes : list Z) : string :=
  match bytes with
  | [] => EmptyString
  | b :: bytes' => String (hex_digit (b / 16)) (String (hex_digit (b mod 16)) (EncodeToString bytes'))
  end.

Definition hashCVV (cvv pepper : string) : string :=
  EncodeToString (sha256.hmac (bytes_of pepper) (bytes_of cvv)).

(** ** Numbers and codes *)

Definition TipKarticaVisa : string := "VISA".
Definition TipKarticaMastercard : string := "MASTERCARD".
Definition TipKarticaDinaCard : string := "DINACARD".
Definition TipKarticaAmex : string := "AMEX".

Definition iinVisa : string := "466666".
Definition iinMastercard : string := "512345".
Definition iinDinaCard : string := "989100".
Definition iinAmex : string := "341234".

(** The sum over the digits from the right; [pos] is [posFromRight]. *)
Fixpoint luhn_loop (pos : Z) (from_right : list Z) (sum : Z) : Z :=
  match from_right with
  | [] => sum
  | d :: l =>
      let d' := if pos mod 2 =? 1 then (if 9 <? d * 2 then d * 2 - 9 else d * 2) else d in
      luhn_loop (pos + 1) l (sum + d')
  end.

Definition luhnCheckDigit (digits : list Z) : Z := (10 - luhn_loop 1 (rev digits) 0 mod 10) mod 10.

(** [int(ch - '0')] of every character. *)
Definition digits_of (s : string) : list Z := (fun b => b - 48) <$> bytes_of s.

(** The issuer's number and the count of random digits. *)
Definition number_format (tipKartice : string) : string * nat :=
  if String.eqb tipKartice TipKarticaMastercard then (iinMastercard, 9%nat)
  else if String.eqb tipKartice TipKarticaDinaCard then (iinDinaCard, 9%nat)
  else if String.eqb tipKartice TipKarticaAmex then (iinAmex, 8%nat)
  else (iinVisa, 9%nat).

Definition generateBrojKartice (tipKartice : string) : M string :=
  let '(iin, accountLen) := number_format tipKartice in
  n ← rand_Intn (10 ^ Z.of_nat accountLen);
  let partial := (iin ++ padded accountLen n)%string in
  let check := luhnCheckDigit (digits_of partial) in
  mret (partial ++ pretty check)%string.

Definition generateCVV : M string := n ← rand_Intn 1000; mret (padded 3 n).

Definition generateOTP : M string := n ← rand_Intn 1000000; mret (padded 6 n).

(** ** Known answers *)

(** FIPS 180-4, and RFC 4231 test case 2. *)
Example sha256_abc : EncodeToString (sha256.Sum256 (bytes_of "abc")) =
  "ba7816bf8f01cfea414140de5dae2223b00361a396177a9cb410ff61f20015ad".
Proof. vm_compute. reflexivity. Qed.

Example hmac_jefe : hashCVV "what do ya want for nothing?" "Jefe" =
  "5bdcc146bf60754e6a042426089575c75a003f089d2739839dec58b964ec3843".
Proof. vm_compute. reflexivity. Qed.

(** ** Luhn's check

    The reference: from the right, every second digit counts as the digits of its
    double, and the total is a multiple of ten. *)

Definition is_digit (d : Z) : Prop := 0 <= d <= 9.

Fixpoint luhn_total (doubled : bool) (from_right : list Z) : Z :=
  match from_right with
  | [] => 0
  | d :: l => (if doubled then 2 * d / 10 + (2 * d) mod 10 else d) + luhn_total (negb doubled) l
  end.

Definition luhn_valid (digits : list Z) : Prop := luhn_total false (rev digits) mod 10 = 0.

Lemma digit_cases d : is_digit d ->
  d = 0 \/ d = 1 \/ d = 2 \/ d = 3 \/ d = 4 \/ d = 5 \/ d = 6 \/ d = 7 \/ d = 8 \/ d = 9.
Proof. unfold is_digit. lia. Qed.

Ltac digit_case d H := destruct (digit_cases d H) as [->|[->|[->|[->|[->|[->|[->|[->|[->| ->]]]]]]]]].

Lemma doubled_digit d : is_digit d -> (if 9 <? d * 2 then d * 2 - 9 else d * 2) = 2 * d / 10 + (2 * d) mod 10.
Proof. intros H. by digit_case d H. Qed.

Lemma mod2_step pos : ((pos + 1) mod 2 =? 1) = negb (pos mod 2 =? 1).
Proof.
  pose proof (Z.mod_pos_bound pos 2 ltac:(lia)). rewrite Zplus_mod. change (1 mod 2) with 1.
  assert (pos mod 2 = 0 \/ pos mod 2 = 1) as [-> | ->] by lia; reflexivity.
Qed.

Lemma luhn_loop_total l : Forall is_digit l -> forall pos sum,
  luhn_loop pos l sum = sum + luhn_total (pos mod 2 =? 1) l.
Proof.
  induction 1 as [|d l Hd _ IH]; intros pos sum; cbn [luhn_loop luhn_total]; [lia|].
  rewrite IH, mod2_step, doubled_digit by done. destruct (pos mod 2 =? 1); lia.
Qed.

Lemma luhnCheckDigit_total ds : Forall is_digit ds ->
  luhnCheckDigit ds = (10 - luhn_total true (rev ds) mod 10) mod 10.
Proof. intros H. unfold luhnCheckDigit. rewrite luhn_loop_total by by apply List.Forall_rev. done. Qed.

Lemma luhnCheckDigit_digit ds : is_digit (luhnCheckDigit ds).
Proof. unfold is_digit, luhnCheckDigit. pose proof (Z.mod_pos_bound (10 - luhn_loop 1 (rev ds) 0 mod 10) 10). lia. Qed.

(** The check digit is the one digit that completes the number. *)
Lemma luhn_completes ds c : Forall is_digit ds -> is_digit c ->
  (luhn_valid (ds ++ [c])%list <-> c = luhnCheckDigit ds).
Proof.
  intros H Hc. rewrite luhnCheckDigit_total by done. unfold luhn_valid. rewrite List.rev_app_distr.
  change (rev [c] ++ rev ds)%list with (c :: rev ds). cbn [luhn_total negb].
  set (t := luhn_total true (rev ds)). clearbody t. rewrite <- Zplus_mod_idemp_r.
  pose proof (Z.mod_pos_bound t 10 ltac:(lia)) as B. set (m := t mod 10) in *. clearbody m.
  unfold is_digit in Hc.
  assert (m = 0 \/ 0 < m) as [->|Hm] by lia; [rewrite Z.add_0_r, (Z.mod_small c) by lia; change ((10 - 0) mod 10) with 0; done|].
  rewrite (Z.mod_small (10 - m)) by lia. destruct (Z_lt_le_dec (c + m) 10) as [Hlt|Hge].
  - rewrite Z.mod_small by lia. lia.
  - replace (c + m) with (c + m - 10 + 1 * 10) by lia. rewrite Z_mod_plus_full, Z.mod_small by lia. lia.
Qed.

Lemma luhn_total_app b l1 l2 :
  luhn_total b (l1 ++ l2)%list = luhn_total b l1 + luhn_total (xorb b (Nat.odd (length l1))) l2.
Proof.
  revert b. induction l1 as [|d l1 IH]; intros b; cbn [app luhn_total length]; [by destruct b|].
  rewrite IH, Nat.odd_succ, <- Nat.negb_odd. destruct b, (Nat.odd (length l1)); cbn [negb xorb]; lia.
Qed.

(** No single wrong digit goes unnoticed. *)
Lemma luhn_single_error l1 a b l2 : is_digit a -> is_digit b ->
  luhn_valid (l1 ++ a :: l2)%list -> luhn_valid (l1 ++ b :: l2)%list -> a = b.
Proof.
  unfold luhn_valid. rewrite !List.rev_app_distr. cbn [rev]. rewrite <- !app_assoc, !(luhn_total_app false (rev l2)). cbn [app luhn_total].
  set (s := luhn_total false (rev l2)). set (o := xorb false (Nat.odd (length (rev l2)))).
  set (t := luhn_total (negb o) (rev l1)). clearbody s t o. intros Ha Hb H1 H2.
  assert (E : forall x y u, (x + (y + u)) mod 10 = 0 -> y mod 10 = (- (x + u)) mod 10).
  { intros x y u H. apply Z.mod_divide in H as [q Hq]; [|lia].
    replace y with (- (x + u) + q * 10) by lia. by rewrite Z_mod_plus_full. }
  apply E in H1, H2. rewrite <- H2 in H1. clear - Ha Hb H1.
  digit_case a Ha; digit_case b Hb; first [reflexivity|destruct o; vm_compute in H1; discriminate H1].
Qed.

(** ** Texts *)

Lemma append_assoc s t u : ((s ++ t) ++ u = s ++ (t ++ u))%string.
Proof. induction s as [|c s IH]; [done|]. rewrite !append_cons. by rewrite IH. Qed.

Lemma bytes_of_append s t : bytes_of (s ++ t) = (bytes_of s ++ bytes_of t)%list.
Proof. induction s as [|c s IH]; [done|]. rewrite append_cons. cbn [bytes_of app]. by rewrite IH. Qed.

Lemma digits_of_append s t : digits_of (s ++ t) = (digits_of s ++ digits_of t)%list.
Proof. unfold digits_of. by rewrite bytes_of_append, fmap_app. Qed.

Lemma length_digits_of s : length (digits_of s) = String.length s.
Proof. unfold digits_of. rewrite length_fmap. induction s as [|c s IH]; [done|]. cbn. by rewrite IH. Qed.

Definition numeral (s : string) : Prop := Forall is_digit (digits_of s).

Lemma numeral_append s t : numeral s -> numeral t -> numeral (s ++ t).
Proof. unfold numeral. rewrite digits_of_append. intros. by apply Forall_app. Qed.

Lemma numeral_zeros n : numeral (zeros n).
Proof. induction n as [|n IH]; [constructor|]. apply (numeral_append "0"); [by repeat constructor|done]. Qed.

Lemma numeral_pretty_go x : forall s, numeral s -> numeral (pretty_N_go x s).
Proof.
  induction (N.lt_wf_0 x) as [x _ IH]. intros s Hs. destruct (N.eq_dec x 0%N) as [->|Hx]; [by rewrite pretty_N_go_0|].
  rewrite pretty_N_go_step by lia. apply IH; [apply N.div_lt; lia|].
  assert (Hd : numeral (String (pretty_N_char (x `mod` 10)%N) EmptyString)).
  { assert (x `mod` 10 < 10)%N as Hm by (apply N.mod_upper_bound; lia). set (d := (x `mod` 10)%N) in *. clearbody d.
    repeat (destruct d as [|d]; [by repeat constructor|]).
    destruct d as [d|d|]; [| |by repeat constructor];
      repeat (destruct d as [d|d|]; try (exfalso; lia); try (by repeat constructor)). }
  by apply (numeral_append (String (pretty_N_char (x `mod` 10)%N) EmptyString)).
Qed.

Lemma numeral_pretty z : 0 <= z -> numeral (pretty z).
Proof.
  intros H. destruct z as [|p|p]; [by repeat constructor| |lia]. unfold pretty, pretty_Z.
  change (pretty (N.pos p)) with (pretty_N_go (N.pos p) ""). apply numeral_pretty_go. constructor.
Qed.

Lemma numeral_padded k z : 0 <= z -> numeral (padded k z).
Proof. intros H. apply numeral_append; [apply numeral_zeros|by apply numeral_pretty]. Qed.

Lemma digits_of_pretty c : is_digit c -> digits_of (pretty c) = [c].
Proof. intros H. by digit_case c H. Qed.

(** ** What is generated *)

(** The number of a card of a type: 16 digits, 15 of an American Express, the
    issuer first, and Luhn's check. *)
Record card_number (tip s : string) : Prop := {
  cn_length : String.length s = if String.eqb tip TipKarticaAmex then 15%nat else 16%nat;
  cn_issuer : String.prefix (number_format tip).1 s = true;
  cn_digits : numeral s;
  cn_luhn : luhn_valid (digits_of s)
}.

Lemma number_format_cases (P : string -> string * nat -> Prop) tip :
  P TipKarticaMastercard (iinMastercard, 9%nat) -> P TipKarticaDinaCard (iinDinaCard, 9%nat) ->
  P TipKarticaAmex (iinAmex, 8%nat) -> (forall t, t <> TipKarticaAmex -> P t (iinVisa, 9%nat)) -> P tip (number_format tip).
Proof.
  intros H1 H2 H3 H4. unfold number_format. destruct (String.eqb_spec tip TipKarticaMastercard) as [->|]; [done|].
  destruct (String.eqb_spec tip TipKarticaDinaCard) as [->|]; [done|].
  destruct (String.eqb_spec tip TipKarticaAmex) as [->|]; [done|]. by apply H4.
Qed.

Lemma format_facts tip : let '(iin, n) := number_format tip in
  numeral iin /\ (exists k, n = S k) /\
  (String.length iin + n + 1 = if String.eqb tip TipKarticaAmex then 15 else 16)%nat.
Proof.
  apply (number_format_cases (fun tip p => let '(iin, n) := p in numeral iin /\ (exists k, n = S k) /\
    (String.length iin + n + 1 = if String.eqb tip TipKarticaAmex then 15 else 16)%nat)).
  - split_and!; [by repeat constructor|by eexists|done].
  - split_and!; [by repeat constructor|by eexists|done].
  - split_and!; [by repeat constructor|by eexists|done].
  - intros t Ht. split_and!; [by repeat constructor|by eexists|]. by destruct (String.eqb_spec t TipKarticaAmex).
Qed.

Lemma generated_number tip e w s w' : generateBrojKartice tip e w = (Ok s, w') -> card_number tip s.
Proof.
  unfold generateBrojKartice. pose proof (format_facts tip) as F. destruct (number_format tip) as [iin n] eqn:En.
  destruct F as (Hi & [k ->] & Hl). intros H. apply bind_ok in H as (r & w1 & H1 & H).
  unfold rand_Intn, io in H1. replace (10 ^ Z.of_nat (S k) <=? 0) with false in H1
    by (symmetry; apply Z.leb_gt, Z.pow_pos_nonneg; lia).
  injection H1 as <- <-. injection H as <- <-.
  pose proof (Z.mod_pos_bound (env_rand e (w_step w)) (10 ^ Z.of_nat (S k))
    ltac:(apply Z.pow_pos_nonneg; lia)) as B.
  set (r := env_rand e (w_step w) mod _) in *. clearbody r. set (partial := (iin ++ padded (S k) r)%string).
  assert (Hp : numeral partial) by (apply numeral_append; [done|apply numeral_padded; lia]).
  pose proof (luhnCheckDigit_digit (digits_of partial)) as Hc. set (c := luhnCheckDigit (digits_of partial)) in *.
  assert (numeral (pretty c)) by (apply numeral_pretty; unfold is_digit in Hc; lia).
  split.
  - subst partial. rewrite !length_append, (padded_length k r B). rewrite (proj1 (pretty_digit c Hc)). rewrite <- Hl. lia.
  - rewrite En. subst partial. cbn [fst]. rewrite append_assoc. apply prefix_append.
  - by apply numeral_append.
  - rewrite digits_of_append, digits_of_pretty by done. by apply luhn_completes.
Qed.

(** C30: every number the program gives a card passes the check a shop makes, and
    protects against typing errors: it has the digits and the issuer of its type,
    Luhn's sum is right for no other last digit, and no other number that differs in
    one digit has a right sum. *)
Theorem card_numbers_are_luhn tip e w s w' : generateBrojKartice tip e w = (Ok s, w') ->
  card_number tip s /\
  forall l1 a b l2, digits_of s = (l1 ++ a :: l2)%list -> is_digit b -> b <> a -> ~ luhn_valid (l1 ++ b :: l2)%list.
Proof.
  intros H. apply generated_number in H. split; [done|]. intros l1 a b l2 E Hb Hne Hv. apply Hne.
  pose proof (cn_luhn _ _ H) as Hl. pose proof (cn_digits _ _ H) as Hd. unfold numeral in Hd. rewrite E in Hl, Hd.
  apply Forall_app in Hd as [_ Hd]. apply Forall_cons in Hd as [Ha _]. by eapply luhn_single_error.
Qed.

(** ** The stored hash *)

Lemma big_endian_length n z : length (sha256.big_endian n z) = n.
Proof. revert z. induction n as [|n IH]; intros z; [done|]. cbn. rewrite length_app, IH. cbn. lia. Qed.

Lemma big_endian_bytes n z : Forall (fun b => 0 <= b < 256) (sha256.big_endian n z).
Proof.
  revert z. induction n as [|n IH]; intros z; cbn; [constructor|]. apply Forall_app. split; [done|].
  constructor; [apply Z.mod_pos_bound; lia|constructor].
Qed.

Lemma round_length k x st : length st = 8%nat -> length (sha256.round k x st) = 8%nat.
Proof. do 9 (destruct st as [|? st]; try done). Qed.

Lemma rounds_length ks win st : length st = 8%nat -> length (sha256.rounds ks win st) = 8%nat.
Proof. revert win st. induction ks as [|k ks IH]; intros win st H; [done|]. cbn. by apply IH, round_length. Qed.

Lemma blocks_length n words st : length st = 8%nat -> length (sha256.blocks n words st) = 8%nat.
Proof.
  revert words st. induction n as [|n IH]; intros words st H; [done|]. cbn [sha256.blocks]. apply IH.
  unfold sha256.block. by rewrite length_zip_with, rounds_length, H.
Qed.

Lemma Sum256_bytes msg : length (sha256.Sum256 msg) = 32%nat /\ Forall (fun b => 0 <= b < 256) (sha256.Sum256 msg).
Proof.
  unfold sha256.Sum256. set (l := sha256.blocks _ _ _). assert (Hl : length l = 8%nat) by by apply blocks_length.
  clearbody l. split.
  - do 9 (destruct l as [|? l]; try discriminate Hl). rewrite !bind_cons.
    rewrite !length_app, !big_endian_length. done.
  - clear Hl. induction l as [|x l IH]; [constructor|]. rewrite bind_cons. apply Forall_app. split; [apply big_endian_bytes|done].
Qed.

(** [0-9a-f] *)
Definition hex_char (b : Z) : Prop := 48 <= b <= 57 \/ 97 <= b <= 102.

Lemma hex_digit_char n : 0 <= n < 16 -> hex_char (Z.of_nat (Ascii.nat_of_ascii (hex_digit n))).
Proof.
  intros H. unfold hex_digit, hex_char. destruct (Z.ltb_spec n 10); rewrite Ascii.nat_ascii_embedding by lia; lia.
Qed.

Lemma EncodeToString_hex l : Forall (fun b => 0 <= b < 256) l ->
  String.length (EncodeToString l) = (2 * length l)%nat /\ Forall hex_char (bytes_of (EncodeToString l)).
Proof.
  induction 1 as [|b l Hb _ [IH1 IH2]]; [split; [done|constructor]|]. cbn [EncodeToString String.length bytes_of length].
  split; [lia|]. constructor; [apply hex_digit_char|constructor; [apply hex_digit_char|done]].
  - split; [apply Z.div_pos; lia|apply Z.div_lt_upper_bound; lia].
  - apply Z.mod_pos_bound. lia.
Qed.

(** The hash fills the CHAR(64) column exactly, whatever the CVV and the pepper. *)
Lemma hashCVV_column cvv pepper :
  String.length (hashCVV cvv pepper) = 64%nat /\ Forall hex_char (bytes_of (hashCVV cvv pepper)).
Proof.
  unfold hashCVV, sha256.hmac. match goal with |- context [sha256.Sum256 ?m] => destruct (Sum256_bytes m) as [H1 H2] end.
  apply EncodeToString_hex in H2 as [H2 H3]. rewrite H1 in H2. split; done.
Qed.

Lemma generated_code k n z : n = 10 ^ Z.of_nat (S k) -> 0 <= z < n ->
  String.length (padded (S k) z) = S k /\ numeral (padded (S k) z).
Proof. intros -> H. split; [by apply padded_length|apply numeral_padded; lia]. Qed.
