(* ===== verification/Cards.v ===== *)
(** * Cards ([repository/kartica_repository.go], [transport/redis_client.go],
    [service/kartica_service.go])

    The two tables of cards, the store of requests that wait for their code, and
    the service: a card with a new account, the request and the confirmation of a
    card, and the changes of its status.  The store is an interface
    ([CardRequestStore]) with two implementations, Redis and the one without
    Redis; [CardRequestStoreLaws] is what the service relies on.  JSON of a request
    is the request. *)

From S2P Require Import Prelude Numeric Domain Tables Store StoreFacts OrderRepo Market FundsManager.
From S2P Require Import GoMath AccountRepo CardNumbers.
From stdpp Require Import list pretty.
From Stdlib Require Import SpecFloat Ascii.
#[local] Open Scope string_scope.
#[local] Open Scope Z_scope.

(** ** Structs *)

Record OvlascenoLice : Type := mkOvlascenoLiceStruct {
  oc_ID : Z;
  oc_KarticaID : Z;
  oc_Ime : string;
  oc_Prezime : string;
  oc_Pol : string;
  oc_EmailAdresa : string;
  oc_BrojTelefona : string;
  oc_Adresa : string;
  oc_DatumRodjenja : Z
}.

Record Kartica : Type := mkKarticaStruct {
  ka_ID : Z;
  ka_BrojKartice : string;
  ka_TipKartice : string;
  ka_VrstaKartice : string;
  ka_DatumKreiranja : Z;
  ka_DatumIsteka : Z;
  ka_RacunID : Z;
  ka_LimitKartice : float64;
  ka_Status : string;
  ka_OvlascenoLice : option OvlascenoLice
}.

Record CreateKarticaInput : Type := mkCreateKartica {
  ck_RacunID : Z;
  ck_BrojKartice : string;
  ck_TipKartice : string;
  ck_VrstaKartice : string;
  ck_CvvKodHash : string;
  ck_DatumKreiranja : Z;
  ck_DatumIsteka : Z;
  ck_LimitKartice : float64;
  ck_Status : string;
  ck_ProvizijaProcenat : option float64;
  ck_KonverzijaNaknadaProcenat : option float64
}.

Record RacunInfo : Type := mkRacunInfoStruct {
  ro_VrstaRacuna : VrstaRacuna;
  ro_MesecniLimit : float64;
  ro_ValutaOznaka : string
}.

Record RacunVlasnikInfo : Type := mkRacunVlasnikInfo {
  rv_VlasnikID : Z;
  rv_VrstaRacuna : VrstaRacuna;
  rv_Status : RacunStatus;
  rv_MesecniLimit : float64
}.

Record RequestKarticaInput : Type := mkRequestKartica {
  rq_RacunID : Z;
  rq_VlasnikID : Z;
  rq_VlasnikEmail : string;
  rq_TipKartice : string;
  rq_OvlascenoLice : option OvlascenoLiceInput
}.

Record ConfirmKarticaInput : Type := mkConfirmKartica {
  cf_VlasnikID : Z;
  cf_OTPCode : string
}.

Record KarticaEmployeeRow : Type := mkEmployeeRow {
  er_ID : Z;
  er_BrojKartice : string;
  er_Status : string;
  er_VlasnikID : Z
}.

Record KarticaSaRacunom : Type := mkKarticaSaRacunom {
  ks_Kartica : Kartica;
  ks_NazivRacuna : string;
  ks_BrojRacuna : string
}.

Record KarticaOwnerInfo : Type := mkOwnerInfo {
  kw_Status : string;
  kw_VlasnikID : Z
}.

Record KarticaZaStatusChange : Type := mkStatusChange {
  sc_ID : Z;
  sc_TrenutniStatus : string;
  sc_VlasnikID : Z;
  sc_VrstaRacuna : VrstaRacuna;
  (** Given name, surname and e-mail; the other fields stay empty. *)
  sc_OvlascenoLice : option (string * string * string)
}.

Record karticaGeneratedData : Type := mkGeneratedData {
  gd_BrojKartice : string;
  gd_CvvKodHash : string;
  gd_LimitKartice : float64;
  gd_ProvizijaProcenat : option float64;
  gd_KonverzijaNaknadaProcenat : option float64
}.

(** ** The store of requests *)

Class CardRequestStore : Type := {
  SaveCardRequest : Z -> CardRequestState -> Z -> M unit;
  GetCardRequest : Z -> M CardRequestState;
  DeleteCardRequest : Z -> M unit
}.

(** A command to Redis, which tells the time itself. *)
Definition redis_command {A} (f : Z -> Redis -> result A * Redis) : M A := fun e w =>
  if env_fault e (w_step w) then (Err ErrDB, next_step w)
  else let '(a, r) := f (env_now e (w_step w)) (w_redis w) in (a, next_step (set_redis r w)).

#[export] Instance RedisCardRequestStore : CardRequestStore := {|
  SaveCardRequest ownerID state ttl := redis_command (fun now r => (Ok tt, <[ownerID := (state, now + ttl)]> r));
  GetCardRequest ownerID := redis_command (fun now r =>
    match r !! ownerID with
    | Some (state, expires) => (if now <? expires then Ok state else Err ErrCardRequestNotFound, r)
    | None => (Err ErrCardRequestNotFound, r)
    end);
  DeleteCardRequest ownerID := redis_command (fun _ r => (Ok tt, delete ownerID r))
|}.

(** Used when REDIS_URL is not set. *)
Definition NoOpCardRequestStore : CardRequestStore := {|
  SaveCardRequest _ _ _ := throw (ErrMsg "redis nije konfigurisan — postavi REDIS_URL env varijablu");
  GetCardRequest _ := throw (ErrMsg "redis nije konfigurisan — postavi REDIS_URL env varijablu");
  DeleteCardRequest _ := mret tt
|}.

(** [notifClient.SendCardOTP]: the notification service answers or does not. *)
Definition SendCardOTP (toEmail otpCode : string) : M unit :=
  io (fun e n => if env_fault e n then Err (ErrMsg "notification-service") else Ok tt).

(** ** Repository *)

Definition kartice (d : DB) : gmap Z karticaModel := bd_kartica (d_bank d).
Definition ovlascena_lica (d : DB) : gmap Z ovlascenoLiceModel := bd_ovlasceno_lice (d_bank d).

Definition tipovi : list string := [TipKarticaVisa; TipKarticaMastercard; TipKarticaDinaCard; TipKarticaAmex].
Definition statusi : list string := ["AKTIVNA"; "BLOKIRANA"; "DEAKTIVIRANA"].

Definition number_free (broj : string) (m : gmap Z karticaModel) : bool :=
  negb (existsb (fun kv : Z * karticaModel => String.eqb (kc_BrojKartice kv.2) broj) (map_to_list m)).

(** The CHECK, UNIQUE and REFERENCES constraints of [kartica]. *)
Definition kartica_checks (m : karticaModel) (d : DB) : bool :=
  varchar 16 (kc_BrojKartice m) && bool_decide (kc_TipKartice m ∈ tipovi) &&
  bool_decide (kc_VrstaKartice m ∈ ["DEBIT"; "CREDIT"]) && bool_decide (kc_Status m ∈ statusi) &&
  varchar 64 (kc_CvvKod m) && number_free (kc_BrojKartice m) (kartice d) &&
  bool_decide (is_Some (d_racun d !! kc_RacunID m)).

Definition insert_kartica_row (m : karticaModel) (i : Z) (d : DB) : result (Z * DB) :=
  if kartica_checks m d then
    match insert_row i m (kartice d) with Ok t => Ok (i, set_kartica t d) | Err er => Err er end
  else Err ErrDB.

Definition lice_checks (o : OvlascenoLiceInput) : bool :=
  varchar 100 (oi_Ime o) && varchar 100 (oi_Prezime o) && varchar 20 (oi_Pol o) && varchar 255 (oi_EmailAdresa o) &&
  varchar 30 (oi_BrojTelefona o) && varchar 255 (oi_Adresa o).

Definition insert_lice (m : ovlascenoLiceModel) (i : Z) (d : DB) : result (Z * DB) :=
  if lice_checks (ol_Input m) && bool_decide (is_Some (kartice d !! ol_KarticaID m)) then
    match insert_row i m (ovlascena_lica d) with Ok t => Ok (i, set_ovlasceno_lice t d) | Err er => Err er end
  else Err ErrDB.

Definition with_status (s : string) (m : karticaModel) : karticaModel :=
  mkKartica (kc_BrojKartice m) (kc_TipKartice m) (kc_VrstaKartice m) (kc_DatumKreiranja m) (kc_DatumIsteka m)
    (kc_RacunID m) (kc_CvvKod m) (kc_LimitKartice m) s (kc_ProvizijaProcenat m) (kc_KonverzijaNaknadaProcenat m).

Definition cards_of (racunID : Z) (d : DB) : list (Z * karticaModel) :=
  filter (fun kv => kc_RacunID kv.2 = racunID) (map_to_list (kartice d)).

Definition lica_of (karticaID : Z) (d : DB) : list (Z * ovlascenoLiceModel) :=
  filter (fun kv => ol_KarticaID kv.2 = karticaID) (map_to_list (ovlascena_lica d)).

Definition lice_toDomain (kv : Z * ovlascenoLiceModel) : OvlascenoLice :=
  let o := ol_Input kv.2 in
  mkOvlascenoLiceStruct kv.1 (ol_KarticaID kv.2) (oi_Ime o) (oi_Prezime o) (oi_Pol o) (oi_EmailAdresa o)
    (oi_BrojTelefona o) (oi_Adresa o) (oi_DatumRodjenja o).

Section repository.
Context `{DL : decimal.Lib}.

(** A fraction of NUMERIC(5, 4). *)
Definition store_fee (f : option float64) : option (option Z) :=
  match f with None => Some None | Some x => Some <$> numeric_store 5 10000 (arg x) end.

Definition kartica_row (input : CreateKarticaInput) : option karticaModel :=
  limit ← store_cents (arg (ck_LimitKartice input));
  provizija ← store_fee (ck_ProvizijaProcenat input);
  konverzija ← store_fee (ck_KonverzijaNaknadaProcenat input);
  Some (mkKartica (ck_BrojKartice input) (ck_TipKartice input) (ck_VrstaKartice input) (ck_DatumKreiranja input)
          (ck_DatumIsteka input) (ck_RacunID input) (ck_CvvKodHash input) limit (ck_Status input) provizija konverzija).

Definition insert_kartica (input : CreateKarticaInput) (i : Z) (d : DB) : result (Z * DB) :=
  match kartica_row input with Some m => insert_kartica_row m i d | None => Err ErrDB end.

Definition CreateKartica (input : CreateKarticaInput) : M Z := sql_insert (insert_kartica input).

Definition CreateKarticaSaOvlascenoLicem (karticaInput : CreateKarticaInput) (olInput : OvlascenoLiceInput) : M Z :=
  Transaction (
    karticaID ← sql_insert (insert_kartica karticaInput);
    sql_insert (insert_lice (mkOvlascenoLice karticaID olInput)) ;;
    mret karticaID).

Definition CountKarticeZaRacun (racunID : Z) : M Z :=
  sql_read (fun d => Z.of_nat (length (cards_of racunID d))).

(** LEFT JOIN ... WHERE ol.kartica_id IS NULL *)
Definition owner_cards (racunID : Z) (d : DB) : list (Z * karticaModel) :=
  filter (fun kv => lica_of kv.1 d = []) (cards_of racunID d).

Definition HasVlasnikovaKarticaPostoji (racunID : Z) : M bool :=
  sql_read (fun d => 0 <? Z.of_nat (length (owner_cards racunID d))).

Definition lica_with_email (emailAdresa : string) (d : DB) : list (Z * ovlascenoLiceModel) :=
  filter (fun kv => oi_EmailAdresa (ol_Input kv.2) = emailAdresa) (map_to_list (ovlascena_lica d)).

Definition HasOvlascenoLiceKarticu (emailAdresa : string) : M bool :=
  sql_read (fun d => 0 <? Z.of_nat (length (lica_with_email emailAdresa d))).

Definition kartica_toDomain (lice : option OvlascenoLice) (kv : Z * karticaModel) : Kartica :=
  let m := kv.2 in
  mkKarticaStruct kv.1 (kc_BrojKartice m) (kc_TipKartice m) (kc_VrstaKartice m) (kc_DatumKreiranja m)
    (kc_DatumIsteka m) (kc_RacunID m) (scan_cents (kc_LimitKartice m)) (kc_Status m) lice.

(** [Preload("OvlascenoLice")] *)
Definition preload (d : DB) (kv : Z * karticaModel) : Kartica :=
  kartica_toDomain (lice_toDomain <$> last (lica_of kv.1 d)) kv.

Definition GetKarticaByID (karticaID : Z) : M Kartica :=
  k ← sql_read (fun d => (fun m => preload d (karticaID, m)) <$> kartice d !! karticaID);
  match k with Some k => mret k | None => throw (ErrMsg "record not found") end.

Definition GetKarticeByRacun (racunID : Z) : M (list Kartica) :=
  sql_read (fun d => preload d <$> cards_of racunID d).

Definition GetRacunInfo (racunID : Z) : M RacunInfo :=
  r ← sql_read (fun d => d_racun d !! racunID);
  match r with
  | Some r => mret (mkRacunInfoStruct (r_vrsta_racuna r) (scan_cents (default 0 (ri_mesecni_limit (r_info r))))
                      (r_oznaka r))
  | None => throw (ErrMsg "record not found")
  end.

Definition GetRacunVlasnikInfo (racunID : Z) : M RacunVlasnikInfo :=
  r ← sql_read (fun d => d_racun d !! racunID);
  match r with
  | Some r => mret (mkRacunVlasnikInfo (r_id_vlasnika r) (r_vrsta_racuna r) (r_status r)
                      (scan_cents (default 0 (ri_mesecni_limit (r_info r)))))
  | None => throw (ErrMsg "record not found")
  end.

(** JOIN racun: every card with its account. *)
Definition with_racun (d : DB) : list (Z * karticaModel * racun) :=
  map_to_list (kartice d) ≫= fun kv : Z * karticaModel =>
    match d_racun d !! kc_RacunID kv.2 with Some r => [(kv, r)] | None => [] end.

(** ORDER BY ra.id, k.id *)
Definition GetKarticeKorisnika (korisnikID : Z) : M (list KarticaSaRacunom) :=
  sql_read (fun d =>
    (fun x : Z * karticaModel * racun =>
       mkKarticaSaRacunom (kartica_toDomain None x.1) (ri_naziv_racuna (r_info x.2)) (r_broj_racuna x.2)) <$>
      sort_by (fun x => kc_RacunID x.1.2) (sort_by (fun x => x.1.1)
        (filter (fun x => r_id_vlasnika x.2 = korisnikID) (with_racun d)))).

Definition GetKarticaOwnerInfo (karticaID : Z) : M KarticaOwnerInfo :=
  rows ← sql_read (fun d => filter (fun x => x.1.1 = karticaID) (with_racun d));
  match rows with
  | x :: _ => mret (mkOwnerInfo (kc_Status x.1.2) (r_id_vlasnika x.2))
  | [] => throw ErrKarticaNotFound
  end.

Definition set_status (noviStatus : string) (m : karticaModel) : option karticaModel :=
  if bool_decide (noviStatus ∈ statusi) then Some (with_status noviStatus m) else None.

Definition update_kartica (id : Z) (f : karticaModel -> option karticaModel) (d : DB) : result (Z * DB) :=
  match update_row id (fun _ => true) f (kartice d) with
  | Ok (n, t) => Ok (n, set_kartica t d)
  | Err er => Err er
  end.

Definition SetKarticaStatus (karticaID : Z) (noviStatus : string) : M unit :=
  n ← sql (update_kartica karticaID (set_status noviStatus));
  if n =? 0 then throw ErrKarticaNotFound else mret tt.

(** LEFT JOIN ovlasceno_lice, LIMIT 1 *)
Definition status_change_row (brojKartice : string) (d : DB) : option KarticaZaStatusChange :=
  x ← head (filter (fun x => kc_BrojKartice x.1.2 = brojKartice) (with_racun d));
  Some (mkStatusChange x.1.1 (kc_Status x.1.2) (r_id_vlasnika x.2) (r_vrsta_racuna x.2)
          ((fun kv : Z * ovlascenoLiceModel =>
              (oi_Ime (ol_Input kv.2), oi_Prezime (ol_Input kv.2), oi_EmailAdresa (ol_Input kv.2))) <$>
             head (lica_of x.1.1 d))).

Definition GetKarticaZaStatusChange (brojKartice : string) : M KarticaZaStatusChange :=
  row ← sql_read (status_change_row brojKartice);
  match row with
  | Some k => if sc_ID k =? 0 then throw ErrKarticaNotFound else mret k
  | None => throw ErrKarticaNotFound
  end.

Definition GetKarticeZaRacunBroj (brojRacuna : string) : M (list KarticaEmployeeRow) :=
  sql_read (fun d =>
    (fun x : Z * karticaModel * racun =>
       mkEmployeeRow x.1.1 (kc_BrojKartice x.1.2) (kc_Status x.1.2) (r_id_vlasnika x.2)) <$>
      filter (fun x => r_broj_racuna x.2 = brojRacuna) (with_racun d)).

(** ** Service *)

Context `{CS : CardRequestStore} (pepper : string).

Definition maxKarticeLicni : Z := 2.
Definition defaultLimitKartice : float64 := f64_of_Z 1000000.
Definition mcProvizijaProcenat : float64 := f64_lit 2 2.
Definition mcKonverzijaProcenat : float64 := f64_lit 5 3.
Definition maxOTPAttempts : Z := 3.

Definition generateKarticaData (racunInfo : RacunInfo) (tipKartice : string) : M karticaGeneratedData :=
  brojKartice ← generateBrojKartice tipKartice;
  cvvRaw ← generateCVV;
  let limitKartice := if f64_leb (ro_MesecniLimit racunInfo) f64_zero then defaultLimitKartice
                      else ro_MesecniLimit racunInfo in
  let charged := String.eqb tipKartice TipKarticaMastercard && String.eqb (ro_ValutaOznaka racunInfo) "RSD" in
  mret (mkGeneratedData brojKartice (hashCVV cvvRaw pepper) limitKartice
          (if charged then Some mcProvizijaProcenat else None)
          (if charged then Some mcKonverzijaProcenat else None)).

Definition proveraLimita (racunID : Z) (vrstaRacuna : VrstaRacuna) : M unit :=
  match vrstaRacuna with
  | LICNI =>
      count ← CountKarticeZaRacun racunID;
      if maxKarticeLicni <=? count then throw ErrKarticaLimitPremasen else mret tt
  | POSLOVNI =>
      exists_ ← HasVlasnikovaKarticaPostoji racunID;
      if (exists_ : bool) then throw ErrKarticaLimitPremasen else mret tt
  end.

(** The input both flows build. *)
Definition kartica_input (racunID : Z) (tipKartice : string) (data : karticaGeneratedData) (now : Z)
    : CreateKarticaInput :=
  mkCreateKartica racunID (gd_BrojKartice data) tipKartice "DEBIT" (gd_CvvKodHash data) now
    (AddDate (truncate_day now) 60) (gd_LimitKartice data) "AKTIVNA" (gd_ProvizijaProcenat data)
    (gd_KonverzijaNaknadaProcenat data).

Definition CreateKarticaZaVlasnika (racunID : Z) (tipKartice : string) : M Z :=
  racunInfo ← GetRacunInfo racunID;
  if negb (bool_decide (tipKartice ∈ tipovi)) then throw ErrNepoznatTipKartice
  else if String.eqb tipKartice TipKarticaDinaCard && negb (String.eqb (ro_ValutaOznaka racunInfo) "RSD")
  then throw ErrDinaCardSamoRSD
  else
    proveraLimita racunID (ro_VrstaRacuna racunInfo) ;;
    data ← generateKarticaData racunInfo tipKartice;
    now ← time_now;
    CreateKartica (kartica_input racunID tipKartice data now).

(** [strings.Contains] *)
Fixpoint contains (c : Ascii.ascii) (s : string) : bool :=
  match s with EmptyString => false | String c' s' => Ascii.eqb c c' || contains c s' end.

Definition validateOvlascenoLice (ol : OvlascenoLiceInput) : result unit :=
  if String.eqb (oi_Ime ol) EmptyString || String.eqb (oi_Prezime ol) EmptyString ||
     String.eqb (oi_EmailAdresa ol) EmptyString
  then Err ErrOvlascenoLiceMissingData
  else if negb (contains "@"%char (oi_EmailAdresa ol)) || negb (contains "."%char (oi_EmailAdresa ol))
  then Err ErrInvalidEmailFormat
  else Ok tt.

Definition proveraLimitaFlow2 (racunID : Z) (vrstaRacuna : VrstaRacuna) (ovlascenoLice : option OvlascenoLiceInput)
    : M unit :=
  match vrstaRacuna, ovlascenoLice with
  | LICNI, _ =>
      count ← CountKarticeZaRacun racunID;
      if maxKarticeLicni <=? count then throw ErrKarticaLimitPremasen else mret tt
  | POSLOVNI, None =>
      exists_ ← HasVlasnikovaKarticaPostoji racunID;
      if (exists_ : bool) then throw ErrKarticaLimitPremasen else mret tt
  | POSLOVNI, Some ol =>
      exists_ ← HasOvlascenoLiceKarticu (oi_EmailAdresa ol);
      if (exists_ : bool) then throw ErrKarticaVecPostoji else mret tt
  end.

(** The checks of a request, before its limits. *)
Definition check_request (input : RequestKarticaInput) (racunInfo : RacunVlasnikInfo) : result unit :=
  if negb (rv_VlasnikID racunInfo =? rq_VlasnikID input) then Err ErrRacunNijeTvoj
  else if negb (bool_decide (rv_Status racunInfo = AKTIVAN)) then Err ErrRacunNijeAktivan
  else
    match rv_VrstaRacuna racunInfo, rq_OvlascenoLice input with
    | LICNI, Some _ => Err ErrOvlascenoLiceNijeDozvoljeno
    | _, Some ol => validateOvlascenoLice ol
    | _, None => Ok tt
    end.

Definition RequestKartica (input : RequestKarticaInput) : M unit :=
  racunInfo ← GetRacunVlasnikInfo (rq_RacunID input);
  of_result (check_request input racunInfo) ;;
  proveraLimitaFlow2 (rq_RacunID input) (rv_VrstaRacuna racunInfo) (rq_OvlascenoLice input) ;;
  otpCode ← generateOTP;
  let state := mkCardRequestState (rq_RacunID input) (rq_TipKartice input) (rq_OvlascenoLice input) otpCode 0 in
  SaveCardRequest (rq_VlasnikID input) state 300 ;;
  sent ← try (SendCardOTP (rq_VlasnikEmail input) otpCode);
  match sent with
  | Ok _ => mret tt
  | Err _ => try (DeleteCardRequest (rq_VlasnikID input)) ;; throw ErrNotificationFailed
  end.

Definition with_attempts (n : Z) (s : CardRequestState) : CardRequestState :=
  mkCardRequestState (cr_AccountID s) (cr_TipKartice s) (cr_OvlascenoLice s) (cr_OTPCode s) n.

Definition wrong_otp (vlasnikID : Z) (state : CardRequestState) : M Z :=
  let attempts := cr_Attempts state + 1 in
  if maxOTPAttempts <=? attempts then
    try (DeleteCardRequest vlasnikID) ;; throw ErrOTPMaxAttempts
  else
    try (SaveCardRequest vlasnikID (with_attempts attempts state) 300) ;; throw ErrOTPInvalid.

Definition ConfirmKartica (input : ConfirmKarticaInput) : M Z :=
  state ← GetCardRequest (cf_VlasnikID input);
  if negb (String.eqb (cr_OTPCode state) (cf_OTPCode input)) then wrong_otp (cf_VlasnikID input) state
  else
    racunInfo ← GetRacunInfo (cr_AccountID state);
    proveraLimitaFlow2 (cr_AccountID state) (ro_VrstaRacuna racunInfo) (cr_OvlascenoLice state) ;;
    data ← generateKarticaData racunInfo (cr_TipKartice state);
    now ← time_now;
    let karticaInput := kartica_input (cr_AccountID state) (cr_TipKartice state) data now in
    karticaID ← (match cr_OvlascenoLice state with
                 | Some ol => CreateKarticaSaOvlascenoLicem karticaInput ol
                 | None => CreateKartica karticaInput
                 end);
    try (DeleteCardRequest (cf_VlasnikID input)) ;;
    mret karticaID.

Definition GetMojeKartice (korisnikID : Z) : M (list KarticaSaRacunom) := GetKarticeKorisnika korisnikID.

Definition GetKarticeZaPortalZaposlenih (brojRacuna : string) : M (list KarticaEmployeeRow) :=
  GetKarticeZaRacunBroj brojRacuna.

Definition employee_transition (trenutni novi : string) : result unit :=
  if String.eqb trenutni "DEAKTIVIRANA" then Err ErrNedozvoljenaPromenaSatusa
  else if String.eqb trenutni "AKTIVNA" then
    if String.eqb novi "AKTIVNA" then Err ErrKarticaVecAktivna
    else if negb (String.eqb novi "BLOKIRANA") && negb (String.eqb novi "DEAKTIVIRANA")
    then Err ErrNedozvoljenaPromenaSatusa else Ok tt
  else if String.eqb trenutni "BLOKIRANA" then
    if String.eqb novi "BLOKIRANA" then Err ErrKarticaVecBlokirana
    else if negb (String.eqb novi "AKTIVNA") && negb (String.eqb novi "DEAKTIVIRANA")
    then Err ErrNedozvoljenaPromenaSatusa else Ok tt
  else Err ErrNedozvoljenaPromenaSatusa.

Definition ChangeEmployeeCardStatus (brojKartice noviStatus : string) : M KarticaZaStatusChange :=
  kartica ← GetKarticaZaStatusChange brojKartice;
  of_result (employee_transition (sc_TrenutniStatus kartica) noviStatus) ;;
  SetKarticaStatus (sc_ID kartica) noviStatus ;;
  mret kartica.

Definition client_transition (status : string) : result unit :=
  if String.eqb status "AKTIVNA" then Ok tt
  else if String.eqb status "BLOKIRANA" then Err ErrKarticaVecBlokirana
  else if String.eqb status "DEAKTIVIRANA" then Err ErrKarticaDeaktivirana
  else Err (ErrMsg ("neočekivani status kartice: " ++ status)%string).

Definition BlokirajKarticu (karticaID korisnikID : Z) : M unit :=
  info ← GetKarticaOwnerInfo karticaID;
  if negb (kw_VlasnikID info =? korisnikID) then throw ErrKarticaNijeTvoja
  else
    of_result (client_transition (kw_Status info)) ;;
    SetKarticaStatus karticaID "BLOKIRANA".

End repository.
