(* ===== verification/CardHandlers.v ===== *)
(** * The endpoints of cards ([handler/kartica_handler.go],
    [handler/klient_kartice_handler.go] and, of [handler/grpc_handler.go],
    [CreateAccount], [EmployeeChangeCardStatus] and [GetAccountCards])

    A handler answers an HTTP or gRPC status and publishes e-mail events, whose
    delivery is only logged.  The JWT library and the user service are arguments:
    [verify] and [UserClient].  A body that is no JSON is [None]. *)

From S2P Require Import Prelude Numeric Domain Tables Store StoreFacts OrderRepo Market FundsManager.
From S2P Require Import InterbankExecutor GoMath AccountRepo CardNumbers Cards.
From stdpp Require Import list pretty.
#[local] Open Scope string_scope.
#[local] Open Scope Z_scope.

(** ** Messages *)

Record AccessClaims : Type := mkClaims {
  cl_Email : string;
  cl_UserType : string;
  cl_Permissions : list string;
  cl_Subject : string
}.

Record karticaRequestBody : Type := mkRequestBody {
  kb_AccountID : Z;
  kb_TipKartice : string;
  kb_AuthorizedPerson : option OvlascenoLiceInput
}.

Record AccountEmailEvent : Type := mkEmailEvent {
  ee_Type : string;
  ee_Email : string;
  ee_Token : string
}.

(** The HTTP status with the error, the new card or the list of cards. *)
Inductive Payload : Type :=
  | Message (m : string)
  | Failure (er : error)
  | Created (karticaID : Z)
  | CardList (l : list KarticaSaRacunom).

Record Response : Type := mkResponse { rs_Status : Z; rs_Payload : Payload }.

Inductive Code : Type :=
  PermissionDenied | NotFound | InvalidArgument | FailedPrecondition | Unavailable | DeadlineExceeded | Internal.
#[export] Instance Code_eq_dec : EqDecision Code.
Proof. solve_decision. Defined.

Record EmployeeKarticaListItem : Type := mkEmployeeKartica {
  ek_Id : Z;
  ek_BrojKartice : string;
  ek_Status : string;
  ek_ImeVlasnika : string;
  ek_PrezimeVlasnika : string;
  ek_EmailVlasnika : string
}.

(** The user service, at the number of the call: e-mail of the caller, of a client,
    and the name with the e-mail of a client. *)
Class UserClient : Type := {
  uc_GetMyEmail : nat -> result string;
  uc_GetClientEmail : nat -> Z -> Code + string;
  uc_GetClientInfo : nat -> Z -> result (string * string * string)
}.

Definition strip_bearer (header : string) : option string :=
  if String.prefix "Bearer " header then Some (String.substring 7 (String.length header - 7) header) else None.

Definition internal_error : Response := mkResponse 500 (Failure (ErrMsg "interna greška servera")).
Definition refuse (status : Z) (text : string) : Response := mkResponse status (Failure (ErrMsg text)).

Section handlers.
Context `{DL : decimal.Lib} `{PT : pg.Text} `{CS : CardRequestStore} `{UC : UserClient}.
Context (pepper : string) (verify : string -> option AccessClaims).

(** The two handlers of clients check the caller in the same way. *)
Definition requireClientAuth (authHeader : string) : Response + Z :=
  match strip_bearer authHeader with
  | None => inl (refuse 401 "unauthorized")
  | Some token =>
      match verify token with
      | None => inl (refuse 401 "unauthorized")
      | Some claims =>
          if negb (String.eqb (cl_UserType claims) "CLIENT")
          then inl (refuse 403 "samo klijenti mogu koristiti ovaj endpoint")
          else match ParseInt (cl_Subject claims) with
               | (_, false) => inl (refuse 401 "neispravan token")
               | (ownerID, true) => inr ownerID
               end
      end
  end.

Definition request_error (er : error) : Response :=
  if bool_decide (er = ErrRacunNijeTvoj) then mkResponse 403 (Failure er)
  else if bool_decide (er ∈ [ErrAccountNotFound; ErrRacunNijeAktivan; ErrOvlascenoLiceNijeDozvoljeno;
                             ErrOvlascenoLiceMissingData; ErrInvalidEmailFormat; ErrKarticaLimitPremasen;
                             ErrKarticaVecPostoji; ErrNepoznatTipKartice; ErrDinaCardSamoRSD])
  then mkResponse 400 (Failure er)
  else if bool_decide (er = ErrNotificationFailed) then mkResponse 500 (Failure er)
  else internal_error.

Definition handleRequest (ownerID : Z) (payload : option karticaRequestBody) : M Response :=
  match payload with
  | None => mret (refuse 400 "neispravan JSON payload")
  | Some body =>
      if kb_AccountID body =? 0 then mret (refuse 400 "account_id je obavezan")
      else if String.eqb (kb_TipKartice body) EmptyString
      then mret (refuse 400 "tip_kartice je obavezan (VISA, MASTERCARD, DINACARD, AMEX)")
      else
        email ← try (io (fun _ n => uc_GetMyEmail n));
        match email with
        | Err _ => mret (refuse 503 "user-service nije dostupan — pokušajte ponovo")
        | Ok ownerEmail =>
            r ← try (RequestKartica (mkRequestKartica (kb_AccountID body) ownerID ownerEmail (kb_TipKartice body)
                                       (kb_AuthorizedPerson body)));
            mret (match r with
                  | Ok _ => mkResponse 200 (Message "Verifikacioni kod je poslat na vaš email")
                  | Err er => request_error er
                  end)
        end
  end.

Definition confirm_error (er : error) : Response :=
  if bool_decide (er ∈ [ErrCardRequestNotFound; ErrOTPInvalid; ErrOTPMaxAttempts; ErrKarticaLimitPremasen;
                        ErrKarticaVecPostoji])
  then mkResponse 400 (Failure er) else internal_error.

Definition CardCreatedType : string := "KREIRANA_KARTICA".
Definition CardStatusChangedType : string := "CARD_STATUS_CHANGED".

(** An event to an e-mail address that is known. *)
Definition event_to (email type token : string) : list AccountEmailEvent :=
  if String.eqb email EmptyString then [] else [mkEmailEvent type email token].

Definition handleConfirm (ownerID : Z) (payload : option string) : M (Response * list AccountEmailEvent) :=
  match payload with
  | None => mret (refuse 400 "neispravan JSON payload", [])
  | Some otp =>
      if String.eqb otp EmptyString then mret (refuse 400 "otp_code je obavezan", [])
      else
        r ← try (ConfirmKartica pepper (mkConfirmKartica ownerID otp));
        match r with
        | Err er => mret (confirm_error er, [])
        | Ok karticaID =>
            email ← try (io (fun _ n => uc_GetMyEmail n));
            mret (mkResponse 201 (Created karticaID),
                  match email with Ok a => event_to a CardCreatedType EmptyString | Err _ => [] end)
        end
  end.

(** [KarticaRequestHandler.ServeHTTP], the payload read both ways. *)
Definition serve_requests (method path authHeader : string) (request : option karticaRequestBody) (otp : option string)
    : M (Response * list AccountEmailEvent) :=
  if negb (String.eqb method "POST") then mret (refuse 405 "method not allowed", [])
  else if String.eqb path "/bank/cards/request" then
    match requireClientAuth authHeader with
    | inl r => mret (r, [])
    | inr ownerID => r ← handleRequest ownerID request; mret (r, [])
    end
  else if String.eqb path "/bank/cards/confirm" then
    match requireClientAuth authHeader with
    | inl r => mret (r, [])
    | inr ownerID => handleConfirm ownerID otp
    end
  else mret (refuse 404 "endpoint nije pronađen", []).

Definition handleGetMojeKartice (korisnikID : Z) : M Response :=
  r ← try (GetMojeKartice korisnikID);
  mret (match r with Ok l => mkResponse 200 (CardList l) | Err _ => internal_error end).

Definition block_error (er : error) : Response :=
  if bool_decide (er = ErrKarticaNijeTvoja) then mkResponse 403 (Failure er)
  else if bool_decide (er = ErrKarticaNotFound) then mkResponse 404 (Failure er)
  else if bool_decide (er ∈ [ErrKarticaVecBlokirana; ErrKarticaDeaktivirana]) then mkResponse 400 (Failure er)
  else internal_error.

Definition handleBlokirajKarticu (pathID : string) (korisnikID : Z) : M Response :=
  match ParseInt pathID with
  | (_, false) => mret (refuse 400 "neispravan ID kartice")
  | (karticaID, true) =>
      if karticaID <=? 0 then mret (refuse 400 "neispravan ID kartice")
      else
        r ← try (BlokirajKarticu karticaID korisnikID);
        mret (match r with
              | Ok _ => mkResponse 200 (Message "Kartica je uspešno blokirana")
              | Err er => block_error er
              end)
  end.

(** [KlientKarticeHandler.ServeHTTP] *)
Definition serve_cards (method path pathID authHeader : string) : M Response :=
  match requireClientAuth authHeader with
  | inl r => mret r
  | inr korisnikID =>
      if String.eqb method "GET" && String.eqb path "/bank/cards/my" then handleGetMojeKartice korisnikID
      else if String.eqb method "PATCH" && negb (String.eqb pathID EmptyString)
      then handleBlokirajKarticu pathID korisnikID
      else mret (refuse 405 "method not allowed")
  end.

(** ** gRPC *)

Definition is_employee (claims : option AccessClaims) : bool :=
  match claims with
  | Some c => String.eqb (cl_UserType c) "EMPLOYEE" || String.eqb (cl_UserType c) "ADMIN"
  | None => false
  end.

Definition status_change_code (er : error) : Code :=
  if bool_decide (er = ErrKarticaNotFound) then NotFound
  else if bool_decide (er ∈ [ErrKarticaVecAktivna; ErrKarticaVecBlokirana; ErrNedozvoljenaPromenaSatusa])
  then FailedPrecondition else Internal.

Definition EmployeeChangeCardStatus (claims : option AccessClaims) (brojKartice noviStatus : string)
    : M ((Code + unit) * list AccountEmailEvent) :=
  if negb (is_employee claims) then mret (inl PermissionDenied, [])
  else if String.eqb brojKartice EmptyString then mret (inl InvalidArgument, [])
  else if negb (bool_decide (noviStatus ∈ statusi)) then mret (inl InvalidArgument, [])
  else
    r ← try (ChangeEmployeeCardStatus brojKartice noviStatus);
    match r with
    | Err er => mret (inl (status_change_code er), [])
    | Ok kartica =>
        owner ← try (io (fun _ n => uc_GetClientInfo n (sc_VlasnikID kartica)));
        let to_owner := match owner with
                        | Ok (_, _, email) => event_to email CardStatusChangedType noviStatus
                        | Err _ => []
                        end in
        let to_lice := match sc_VrstaRacuna kartica, sc_OvlascenoLice kartica with
                       | POSLOVNI, Some (_, _, email) => event_to email CardStatusChangedType noviStatus
                       | _, _ => []
                       end in
        mret (inr tt, (to_owner ++ to_lice)%list)
    end.

Definition GetAccountCards (claims : option AccessClaims) (brojRacuna : string)
    : M (Code + list EmployeeKarticaListItem) :=
  if negb (is_employee claims) then mret (inl PermissionDenied)
  else if String.eqb brojRacuna EmptyString then mret (inl InvalidArgument)
  else
    r ← try (GetKarticeZaPortalZaposlenih brojRacuna);
    match r with
    | Err _ => mret (inl Internal)
    | Ok [] => mret (inr [])
    | Ok (k :: l) =>
        info ← try (io (fun _ n => uc_GetClientInfo n (er_VlasnikID k)));
        let '(ime, prezime, email) := match info with
                                      | Ok i => i
                                      | Err _ => (EmptyString, EmptyString, EmptyString)
                                      end in
        mret (inr ((fun x => mkEmployeeKartica (er_ID x) (er_BrojKartice x) (er_Status x) ime prezime email) <$> (k :: l)))
    end.

(** The card of a new account: what the caller must see of its failure, and the
    events. *)
Definition card_with_account (racunID : Z) (kreirajKarticu : bool) (tip email : string)
    : M (option Code * list AccountEmailEvent) :=
  if negb kreirajKarticu then mret (None, [])
  else
    let tipKartice := if String.eqb tip EmptyString then TipKarticaVisa else tip in
    r ← try (CreateKarticaZaVlasnika pepper racunID tipKartice);
    match r with
    | Err er => mret (if bool_decide (er ∈ [ErrDinaCardSamoRSD; ErrNepoznatTipKartice])
                      then Some InvalidArgument else None, [])
    | Ok _ => mret (None, event_to email CardCreatedType EmptyString)
    end.

(** [BankHandler.CreateAccount]; [None] when the draws of the account number did not
    end within [fuel]. *)
Definition CreateAccountHandler (fuel : nat) (claims : option AccessClaims) (input : CreateAccountInput)
    (kreirajKarticu : bool) (tip : string) : M (option (Code + Z) * list AccountEmailEvent) :=
  if negb (match claims with Some c => String.eqb (cl_UserType c) "EMPLOYEE" | None => false end)
  then mret (Some (inl PermissionDenied), [])
  else
    email ← io (fun _ n => Ok (uc_GetClientEmail n (ca_VlasnikID input)));
    match email with
    | inl NotFound => mret (Some (inl NotFound), [])
    | inl _ => mret (Some (inl Unavailable), [])
    | inr email =>
        if String.eqb (to_upper email) (to_upper "drzava@exbanka.rs") then mret (Some (inl PermissionDenied), [])
        else
          r ← try (CreateAccount fuel input);
          match r with
          | Err er => mret (Some (inl (if bool_decide (er ∈ [ErrInvalidCurrency; ErrInvalidPodvrsta])
                                       then InvalidArgument else Internal)), [])
          | Ok None => mret (None, [])
          | Ok (Some id) =>
              card ← card_with_account id kreirajKarticu tip email;
              match card.1 with
              | Some code => mret (Some (inl code), card.2)
              | None => mret (Some (inr id), (card.2 ++ event_to email "ACCOUNT_CREATED" EmptyString)%list)
              end
          end
    end.

End handlers.
