(* ===== verification/CardLimits.v ===== *)
(** * The rules of cards hold in every reachable state

    [cards_ok] ties the tables of cards to the requests that wait in the store: a
    personal account has at most two cards and nobody else's, a business account one
    card of its owner, a person one card by e-mail address; every row has a number
    with a right check digit and a hashed CVV.  The proof is by a weakest
    precondition over what cards are made of, the tables and Redis ([wp]), with a
    rule for each construct of the monad and of the store. *)

From stdpp Require Import list.
From S2P Require Import Prelude Numeric Domain Tables Store StoreFacts OrderRepo Market FundsManager.
From S2P Require Import GoMath AccountRepo PaymentOrders CardNumbers Cards.
#[local] Open Scope string_scope.
#[local] Open Scope Z_scope.

(** ** Weakest preconditions *)

Definition view (w : World) : DB * Redis := (w_db w, w_redis w).

(** Every run of [m] from [s] that ends well satisfies [Q], every other one [E]. *)
Definition wp {A} (m : M A) (Q : A -> DB * Redis -> Prop) (E : DB * Redis -> Prop) (s : DB * Redis) : Prop :=
  forall e w r w', view w = s -> m e w = (r, w') ->
    match r with Ok a => Q a (view w') | Err _ => E (view w') end.

Section wp_rules.
Context {A : Type}.
Implicit Types (Q : A -> DB * Redis -> Prop) (E : DB * Redis -> Prop) (s : DB * Redis).

Lemma wp_ret (a : A) Q E s : Q a s -> wp (mret a) Q E s.
Proof. by intros H e w r w' <- [= <- <-]. Qed.

Lemma wp_throw er Q E s : E s -> wp (@throw A er) Q E s.
Proof. by intros H e w r w' <- [= <- <-]. Qed.

Lemma wp_mono (m : M A) Q Q' E E' s :
  wp m Q E s -> (forall a s', Q a s' -> Q' a s') -> (forall s', E s' -> E' s') -> wp m Q' E' s.
Proof. intros H HQ HE e w r w' Hv Hm. specialize (H e w r w' Hv Hm). destruct r; auto. Qed.

Lemma wp_bind {B} (m : M A) (k : A -> M B) (Q : B -> DB * Redis -> Prop) E s :
  wp m (fun a s' => wp (k a) Q E s') E s -> wp (x ← m; k x) Q E s.
Proof.
  intros H e w r w' Hv Hm. apply bind_cases in Hm as [(a & w1 & Hm & Hk)|(er & -> & Hm)].
  - specialize (H e w _ _ Hv Hm). cbn in H. exact (H e w1 r w' eq_refl Hk).
  - exact (H e w _ _ Hv Hm).
Qed.

Lemma wp_try (m : M A) (Q : result A -> DB * Redis -> Prop) E s :
  wp m (fun a => Q (Ok a)) (fun s' => forall er, Q (Err er) s') s -> wp (try m) Q E s.
Proof.
  intros H e w r w' Hv Hm. apply try_run in Hm as (r' & -> & Hm). specialize (H e w r' w' Hv Hm). destruct r'; auto.
Qed.

Lemma wp_of_result (r : result A) Q E s :
  match r with Ok a => Q a s | Err _ => E s end -> wp (of_result r) Q E s.
Proof. destruct r; [apply wp_ret|apply wp_throw]. Qed.

Lemma wp_io (f : Env -> nat -> result A) Q E s : (forall a, Q a s) -> E s -> wp (io f) Q E s.
Proof. intros HQ HE e w r w' <- [= <- <-]. destruct (f e (w_step w)); cbn; [apply HQ|apply HE]. Qed.

Lemma wp_sql (f : DB -> result (A * DB)) Q E s :
  E s -> (forall a d, f s.1 = Ok (a, d) -> Q a (d, s.2)) -> wp (sql f) Q E s.
Proof.
  intros HE HQ e w r w' <- Hm. unfold sql in Hm. destruct (w_aborted w); [by injection Hm as <- <-|].
  destruct (env_fault e (w_step w)); [by injection Hm as <- <-|].
  destruct (f (w_db w)) as [[a d]|er] eqn:Ef; injection Hm as <- <-; [by apply (HQ a d)|done].
Qed.

Lemma wp_read (f : DB -> A) Q E s : E s -> Q (f s.1) s -> wp (sql_read f) Q E s.
Proof. intros HE HQ. apply wp_sql; [done|]. intros a d [= <- <-]. by destruct s. Qed.

Lemma wp_insert (f : Z -> DB -> result (A * DB)) Q E s :
  E s -> (forall i a d, f i s.1 = Ok (a, d) -> Q a (d, s.2)) -> wp (sql_insert f) Q E s.
Proof.
  intros HE HQ e w r w' Hv Hm. unfold sql_insert in Hm.
  exact (wp_sql (f (w_seq w)) Q E s HE (HQ (w_seq w)) e (next_seq w) r w' Hv Hm).
Qed.

(** A ROLLBACK restores the tables and leaves Redis. *)
Lemma wp_Transaction (m : M A) Q E s :
  E s -> wp m (fun a s' => Q a s' /\ E (s.1, s'.2)) (fun s' => E (s.1, s'.2)) s -> wp (Transaction m) Q E s.
Proof.
  intros HE H e w r w' <- Hm. unfold Transaction in Hm.
  destruct (w_aborted w || env_fault e (w_step w)); [by injection Hm as <- <-|].
  destruct (m e (begin_tx w)) as [r1 w1] eqn:Em. specialize (H e (begin_tx w) r1 w1 eq_refl Em).
  destruct r1 as [a|er]; [|by injection Hm as <- <-]. destruct H as [HQ HR].
  destruct (w_depth w); [|by injection Hm as <- <-].
  destruct (w_aborted w1 || _); by injection Hm as <- <-.
Qed.
End wp_rules.

(** ** The interface of the store *)

(** What a store can still answer about an owner, by the contents of Redis. *)
Class CardRequestStoreLaws (CS : CardRequestStore) : Type := {
  held : Redis -> Z -> option CardRequestState;
  SaveCardRequest_wp : forall o st ttl d h,
    wp (SaveCardRequest o st ttl)
      (fun _ s => s.1 = d /\ forall o' st', held s.2 o' = Some st' -> held h o' = Some st' \/ (o' = o /\ st' = st))
      (fun s => s = (d, h)) (d, h);
  GetCardRequest_wp : forall o d h,
    wp (GetCardRequest o) (fun st s => s = (d, h) /\ held h o = Some st) (fun s => s = (d, h)) (d, h);
  DeleteCardRequest_wp : forall o d h,
    wp (DeleteCardRequest o) (fun _ s => s.1 = d /\ forall o' st, held s.2 o' = Some st -> held h o' = Some st)
      (fun s => s = (d, h)) (d, h)
}.

Lemma wp_redis_command {A} (f : Z -> Redis -> result A * Redis) (Q : A -> DB * Redis -> Prop) d h :
  (forall now a h', f now h = (Ok a, h') -> Q a (d, h')) ->
  (forall now er h', f now h = (Err er, h') -> h' = h) ->
  wp (redis_command f) Q (fun s => s = (d, h)) (d, h).
Proof.
  intros HQ HE e w r w' Hv Hm. unfold redis_command in Hm. destruct (env_fault e (w_step w)); [by injection Hm as <- <-|].
  destruct (f _ _) as [[a|er] h'] eqn:Ef; injection Hm as <- <-; injection Hv as <- <-.
  - by apply (HQ _ _ _ Ef).
  - by rewrite (HE _ _ _ Ef).
Qed.

#[export] Program Instance RedisLaws : CardRequestStoreLaws RedisCardRequestStore := {|
  held h o := fst <$> h !! o
|}.
Next Obligation.
  apply wp_redis_command; [|discriminate]. intros now [] h' [= <-]. split; [done|]. cbn [snd].
  intros o' st'. destruct (decide (o' = o)) as [->|]; [|rewrite lookup_insert_ne by done; by left].
  rewrite lookup_insert_eq. intros [= <-]. by right.
Qed.
Next Obligation.
  apply wp_redis_command.
  - intros now a h'. destruct (h !! o) as [[st t]|]; [|discriminate]. destruct (now <? t); [|discriminate]. by intros [= <- <-].
  - intros now er h'. destruct (h !! o) as [[st t]|]; by intros [= _ <-].
Qed.
Next Obligation.
  apply wp_redis_command; [|discriminate]. intros now [] h' [= <-]. split; [done|]. cbn [snd]. intros o' st.
  destruct (decide (o' = o)) as [->|]; [by rewrite lookup_delete_eq|by rewrite lookup_delete_ne].
Qed.

#[export] Program Instance NoOpLaws : CardRequestStoreLaws NoOpCardRequestStore := {|
  held _ _ := None
|}.
Next Obligation. by apply wp_throw. Qed.
Next Obligation. by apply wp_throw. Qed.
Next Obligation. by apply wp_ret. Qed.

(** ** Counting rows *)

Lemma no_row_passes {A} (P : A -> Prop) `{HPd : !forall x, Decision (P x)} l : filter P l = [] <-> forall x, x ∈ l -> ~ P x.
Proof.
  split; [intros H x Hx HP; by apply (filter_nil_not_elem_of P l x H HP)|].
  induction l as [|x l IH]; intros H; [done|]. rewrite filter_cons, decide_False by (apply H; left).
  apply IH. intros y Hy. apply H. by right.
Qed.

Definition count {A} (P : Z * A -> Prop) `{HPd : !forall x, Decision (P x)} (m : gmap Z A) : nat :=
  length (filter P (map_to_list m)).

Section count.
Context {A : Type} (P : Z * A -> Prop) `{HPd : !forall x, Decision (P x)}.
Implicit Types (m : gmap Z A) (x y : A).

Lemma count_insert m i x : m !! i = None ->
  count P (<[i := x]> m) = ((if decide (P (i, x)) then 1 else 0) + count P m)%nat.
Proof.
  intros Hi. unfold count. rewrite (map_to_list_insert m i x Hi), filter_cons. by destruct (decide (P (i, x))).
Qed.

Lemma count_update m i x y : m !! i = Some x -> (P (i, x) <-> P (i, y)) -> count P (<[i := y]> m) = count P m.
Proof.
  intros Hi HP. rewrite <- (insert_id m i x Hi) at 2. rewrite <- (insert_delete_eq m i x), <- (insert_delete_eq m i y).
  rewrite !count_insert by apply lookup_delete_eq. destruct (decide (P (i, x))), (decide (P (i, y))); tauto.
Qed.

Lemma count_none m : (forall i x, m !! i = Some x -> ~ P (i, x)) -> count P m = O.
Proof.
  intros H. unfold count. apply length_zero_iff_nil, no_row_passes. intros [i x] Hx%elem_of_map_to_list. by apply H.
Qed.

Lemma count_pos m i x : m !! i = Some x -> P (i, x) -> (0 < count P m)%nat.
Proof.
  intros Hi HP. rewrite <- (insert_id m i x Hi), <- insert_delete_eq, count_insert by apply lookup_delete_eq.
  rewrite decide_True by done. lia.
Qed.
End count.

Lemma count_ext {A} (P R : Z * A -> Prop) `{HPd : !forall x, Decision (P x)} `{HRd : !forall x, Decision (R x)} (m : gmap Z A) :
  (forall i x, m !! i = Some x -> P (i, x) <-> R (i, x)) -> count P m = count R m.
Proof.
  induction m as [|i x m Hi IH] using map_ind; [done|]. intros H. rewrite !count_insert by done.
  rewrite IH by (intros j y Hj; apply H; rewrite lookup_insert_ne; [done|congruence]).
  specialize (H i x (lookup_insert_eq _ _ _)). destruct (decide (P (i, x))), (decide (R (i, x))); tauto.
Qed.

Definition on_account (acc : Z) (kv : Z * karticaModel) : Prop := kc_RacunID kv.2 = acc.
#[export] Instance on_account_dec acc kv : Decision (on_account acc kv).
Proof. unfold on_account. apply _. Defined.

(** A card without an authorised person. *)
Definition owner_on (d : DB) (acc : Z) (kv : Z * karticaModel) : Prop :=
  lica_of kv.1 d = [] /\ kc_RacunID kv.2 = acc.
#[export] Instance owner_on_dec d acc kv : Decision (owner_on d acc kv).
Proof. unfold owner_on. apply _. Defined.

Lemma cards_of_count acc d : length (cards_of acc d) = count (on_account acc) (kartice d).
Proof. done. Qed.

Lemma owner_cards_count acc d : length (owner_cards acc d) = count (owner_on d acc) (kartice d).
Proof. unfold owner_cards, cards_of, count. rewrite list_filter_filter. done. Qed.

Lemma lica_of_nil i d : lica_of i d = [] <-> forall j o, ovlascena_lica d !! j = Some o -> ol_KarticaID o <> i.
Proof.
  unfold lica_of. rewrite no_row_passes. split.
  - intros H j o Hj. apply (H (j, o)). by apply elem_of_map_to_list.
  - intros H [j o] Hj%elem_of_map_to_list. by apply (H j o).
Qed.

(** ** The invariant *)

Record card_ok (m : karticaModel) : Prop := {
  cd_number : card_number (kc_TipKartice m) (kc_BrojKartice m);
  cd_tip : kc_TipKartice m ∈ tipovi;
  cd_vrsta : kc_VrstaKartice m = "DEBIT";
  cd_status : kc_Status m ∈ statusi;
  cd_cvv : String.length (kc_CvvKod m) = 64%nat /\ Forall hex_char (bytes_of (kc_CvvKod m));
  cd_limit : Z.abs (kc_LimitKartice m) < 10 ^ 15
}.

(** A request that waits: its account is the owner's, an authorised person is one of
    a business account, and wrong codes are left. *)
Definition request_ok (d : DB) (owner : Z) (st : CardRequestState) : Prop :=
  exists r, d_racun d !! cr_AccountID st = Some r /\ r_id_vlasnika r = owner /\
    0 <= cr_Attempts st < maxOTPAttempts /\ String.length (cr_OTPCode st) = 6%nat /\ numeral (cr_OTPCode st) /\
    match cr_OvlascenoLice st with
    | Some ol => r_vrsta_racuna r = POSLOVNI /\ validateOvlascenoLice ol = Ok tt
    | None => True
    end.

Definition vrsta_of (d : DB) (acc : Z) : option VrstaRacuna := r_vrsta_racuna <$> d_racun d !! acc.

Section invariant.
Context {CS : CardRequestStore} {CL : CardRequestStoreLaws CS}.

Record cards_ok (s : DB * Redis) : Prop := {
  co_card : forall i m, kartice s.1 !! i = Some m -> card_ok m /\ is_Some (d_racun s.1 !! kc_RacunID m);
  co_number : forall i j m m', kartice s.1 !! i = Some m -> kartice s.1 !! j = Some m' ->
    kc_BrojKartice m = kc_BrojKartice m' -> i = j;
  co_lice : forall j o, ovlascena_lica s.1 !! j = Some o -> exists m, kartice s.1 !! ol_KarticaID o = Some m /\
    vrsta_of s.1 (kc_RacunID m) = Some POSLOVNI /\ validateOvlascenoLice (ol_Input o) = Ok tt;
  co_person : forall i j o o', ovlascena_lica s.1 !! i = Some o -> ovlascena_lica s.1 !! j = Some o' ->
    ol_KarticaID o = ol_KarticaID o' \/ oi_EmailAdresa (ol_Input o) = oi_EmailAdresa (ol_Input o') -> i = j;
  co_licni : forall acc, vrsta_of s.1 acc = Some LICNI -> Z.of_nat (length (cards_of acc s.1)) <= maxKarticeLicni;
  co_poslovni : forall acc, vrsta_of s.1 acc = Some POSLOVNI -> (length (owner_cards acc s.1) <= 1)%nat;
  co_request : forall owner st, held s.2 owner = Some st -> request_ok s.1 owner st
}.

(** ** A new card *)

(** The card and, when there is one, its authorised person. *)
Definition add_card (i : Z) (m : karticaModel) (lice : option (Z * OvlascenoLiceInput)) (d : DB) : DB :=
  let d1 := set_kartica (<[i := m]> (kartice d)) d in
  match lice with
  | None => d1
  | Some (j, o) => set_ovlasceno_lice (<[j := mkOvlascenoLice i o]> (ovlascena_lica d)) d1
  end.

(** The limits leave room for a card. *)
Definition room (d : DB) (acc : Z) (vrsta : VrstaRacuna) (ol : option OvlascenoLiceInput) : Prop :=
  match vrsta, ol with
  | LICNI, _ => Z.of_nat (length (cards_of acc d)) < maxKarticeLicni
  | POSLOVNI, None => length (owner_cards acc d) = O
  | POSLOVNI, Some o => lica_with_email (oi_EmailAdresa o) d = []
  end.

Definition person_ok (vrsta : VrstaRacuna) (ol : option OvlascenoLiceInput) : Prop :=
  match ol with Some o => vrsta = POSLOVNI /\ validateOvlascenoLice o = Ok tt | None => True end.

Lemma add_card_kartice i m lice d : kartice (add_card i m lice d) = <[i := m]> (kartice d).
Proof. by destruct lice as [[j o]|]. Qed.
Lemma add_card_racun i m lice d : d_racun (add_card i m lice d) = d_racun d.
Proof. by destruct lice as [[j o]|]. Qed.
Lemma add_card_vrsta i m lice d acc : vrsta_of (add_card i m lice d) acc = vrsta_of d acc.
Proof. unfold vrsta_of. by rewrite add_card_racun. Qed.

Section new_card.
Context (d : DB) (h : Redis) (i : Z) (m : karticaModel) (lice : option (Z * OvlascenoLiceInput)) (vrsta : VrstaRacuna).
Context (Hok : cards_ok (d, h)) (Hi : kartice d !! i = None) (Hm : card_ok m).
Context (Hfree : number_free (kc_BrojKartice m) (kartice d) = true) (Hacc : vrsta_of d (kc_RacunID m) = Some vrsta).
Context (Hroom : room d (kc_RacunID m) vrsta (snd <$> lice)) (Hperson : person_ok vrsta (snd <$> lice)).
Context (Hj : match lice with Some (j, _) => ovlascena_lica d !! j = None | None => True end).

Lemma free_number j m' : kartice d !! j = Some m' -> kc_BrojKartice m' <> kc_BrojKartice m.
Proof.
  intros Hm' E. unfold number_free in Hfree. apply negb_true_iff in Hfree.
  assert (existsb (fun kv : Z * karticaModel => String.eqb (kc_BrojKartice kv.2) (kc_BrojKartice m))
            (map_to_list (kartice d)) = true); [|congruence].
  apply existsb_exists. exists (j, m'). split; [by apply list_elem_of_In, elem_of_map_to_list|]. cbn.
  rewrite E. apply String.eqb_refl.
Qed.

(** The rows of authorised persons: the old ones, and the new one for this card. *)
Lemma add_card_lice j o : ovlascena_lica (add_card i m lice d) !! j = Some o ->
  (ovlascena_lica d !! j = Some o /\ ol_KarticaID o <> i) \/
  (lice = Some (j, ol_Input o) /\ ol_KarticaID o = i).
Proof.
  assert (Hold : ovlascena_lica d !! j = Some o -> ovlascena_lica d !! j = Some o /\ ol_KarticaID o <> i).
  { intros H. split; [done|]. intros E. destruct (co_lice _ Hok j o H) as (m' & Hm' & _). cbn in Hm'. congruence. }
  destruct lice as [[j' o']|]; [|by left; apply Hold]. cbn. change (bd_ovlasceno_lice (d_bank d)) with (ovlascena_lica d).
  destruct (decide (j = j')) as [->|]; [|rewrite lookup_insert_ne by done; left; by apply Hold].
  rewrite lookup_insert_eq. intros [= <-]. by right.
Qed.

Lemma add_card_owner acc k x : k <> i -> owner_on (add_card i m lice d) acc (k, x) <-> owner_on d acc (k, x).
Proof.
  intros Hk. unfold owner_on. cbn [fst snd]. enough (lica_of k (add_card i m lice d) = [] <-> lica_of k d = []) by tauto.
  rewrite !lica_of_nil. split; intros H j o Ho.
  - intros E. apply (H j o); [|done]. destruct lice as [[j' o']|]; [|done]. cbn.
    change (bd_ovlasceno_lice (d_bank d)) with (ovlascena_lica d). rewrite lookup_insert_ne; [done|congruence].
  - apply add_card_lice in Ho as [[Ho _]|[_ E]]; [by apply (H j o)|congruence].
Qed.

Lemma add_card_licni acc : vrsta_of d acc = Some LICNI ->
  Z.of_nat (length (cards_of acc (add_card i m lice d))) <= maxKarticeLicni.
Proof.
  intros Hv. rewrite cards_of_count, add_card_kartice, count_insert by done. rewrite <- cards_of_count.
  case_decide as Hd; [|by apply (co_licni _ Hok)]. unfold on_account in Hd. cbn in Hd. subst acc.
  assert (vrsta = LICNI) as -> by congruence. cbn in Hroom. lia.
Qed.

Lemma add_card_poslovni acc : vrsta_of d acc = Some POSLOVNI -> (length (owner_cards acc (add_card i m lice d)) <= 1)%nat.
Proof.
  intros Hv. rewrite owner_cards_count, add_card_kartice, count_insert by done.
  rewrite (count_ext _ (owner_on d acc)) by (intros k x Hk; apply add_card_owner; congruence).
  rewrite <- owner_cards_count. case_decide as Hd; [|by apply (co_poslovni _ Hok)].
  destruct Hd as [Hn Hd]. cbn in Hd. subst acc. assert (vrsta = POSLOVNI) as -> by congruence.
  destruct lice as [[j o]|]; [|cbn in Hroom; lia]. exfalso. rewrite lica_of_nil in Hn.
  apply (Hn j (mkOvlascenoLice i o)); [|done]. cbn. by rewrite lookup_insert_eq.
Qed.

Lemma new_person j j' o o' : lice = Some (j, ol_Input o) -> ovlascena_lica d !! j' = Some o' ->
  oi_EmailAdresa (ol_Input o) <> oi_EmailAdresa (ol_Input o').
Proof.
  intros E Ho' Ee. rewrite E in Hroom, Hperson. destruct Hperson as [-> _]. cbn in Hroom.
  unfold lica_with_email in Hroom. rewrite no_row_passes in Hroom. apply (Hroom (j', o')); [by apply elem_of_map_to_list|done].
Qed.

Lemma cards_ok_add : cards_ok (add_card i m lice d, h).
Proof.
  split; cbn [fst snd].
  - intros k x. rewrite add_card_kartice, add_card_racun. destruct (decide (k = i)) as [->|].
    + rewrite lookup_insert_eq. intros [= <-]. split; [done|]. unfold vrsta_of in Hacc.
      destruct (d_racun d !! kc_RacunID m); [by eexists|done].
    + rewrite lookup_insert_ne by done. apply (co_card _ Hok).
  - intros k k' x x'. rewrite add_card_kartice.
    destruct (decide (k = i)) as [->|], (decide (k' = i)) as [->|];
      rewrite ?lookup_insert_eq, ?lookup_insert_ne by done; [done| | |apply (co_number _ Hok)].
    + intros [= <-] Hx' E. by destruct (free_number k' x' Hx').
    + intros Hx [= <-] E. by destruct (free_number k x Hx).
  - intros j o Ho. rewrite add_card_kartice. apply add_card_lice in Ho as [[Ho Hne]|[E Ek]].
    + destruct (co_lice _ Hok j o Ho) as (x & Hx & Hv). exists x. rewrite lookup_insert_ne by done.
      by rewrite add_card_vrsta.
    + rewrite Ek, lookup_insert_eq. exists m. rewrite add_card_vrsta. rewrite E in Hperson. cbn in Hperson.
      destruct Hperson as [-> ?]. done.
  - intros j j' o o' Ho Ho' E.
    apply add_card_lice in Ho as [[Ho Hne]|[El Ek]]; apply add_card_lice in Ho' as [[Ho' Hne']|[El' Ek']].
    + by apply (co_person _ Hok j j' o o').
    + exfalso. destruct E as [E|E]; [congruence|]. by apply (new_person j' j o' o).
    + exfalso. destruct E as [E|E]; [congruence|]. by apply (new_person j j' o o').
    + congruence.
  - intros acc. rewrite add_card_vrsta. apply add_card_licni.
  - intros acc. rewrite add_card_vrsta. apply add_card_poslovni.
  - intros owner st Hst. destruct (co_request _ Hok owner st Hst) as (r & H). exists r. by rewrite add_card_racun.
Qed.
End new_card.

(** ** Other changes *)

Lemma cards_ok_status d h i m s : cards_ok (d, h) -> kartice d !! i = Some m -> s ∈ statusi ->
  cards_ok (set_kartica (<[i := with_status s m]> (kartice d)) d, h).
Proof.
  intros Hok Hi Hs. set (d' := set_kartica _ _).
  assert (Hk : kartice d' = <[i := with_status s m]> (kartice d)) by done.
  assert (Hx : forall k x, kartice d' !! k = Some x -> exists y, kartice d !! k = Some y /\
    kc_BrojKartice x = kc_BrojKartice y /\ kc_RacunID x = kc_RacunID y /\ (card_ok y -> card_ok x)).
  { intros k x. rewrite Hk. destruct (decide (k = i)) as [->|]; [|rewrite lookup_insert_ne by done; eauto].
    rewrite lookup_insert_eq. intros [= <-]. exists m. split_and!; [done..|]. intros [? ? ? _ ? ?]. by split. }
  split; cbn [fst snd].
  - intros k x (y & Hy & _ & -> & Hc)%Hx. destruct (co_card _ Hok k y Hy) as [H1 H2]. split; [by apply Hc|done].
  - intros k k' x x' (y & Hy & -> & _)%Hx (y' & Hy' & -> & _)%Hx. by apply (co_number _ Hok).
  - intros j o Ho. destruct (co_lice _ Hok j o Ho) as (x & H & Hv). rewrite Hk.
    destruct (decide (ol_KarticaID o = i)) as [E|]; [|rewrite lookup_insert_ne by done; by exists x].
    rewrite E in *. rewrite lookup_insert_eq. exists (with_status s m). cbn [fst] in H. assert (x = m) as -> by congruence. done.
  - apply (co_person _ Hok).
  - intros acc Hv. rewrite cards_of_count, Hk, (count_update _ _ _ _ _ Hi) by done. by apply (co_licni _ Hok).
  - intros acc Hv. rewrite owner_cards_count, Hk.
    rewrite (count_update _ _ _ m _ Hi) by done. rewrite (count_ext _ (owner_on d acc)) by done.
    rewrite <- owner_cards_count. by apply (co_poslovni _ Hok).
  - apply (co_request _ Hok).
Qed.

(** Requests that wait may be lost or replaced by one that is in order. *)
Lemma cards_ok_requests d h h' : cards_ok (d, h) ->
  (forall o st, held h' o = Some st -> held h o = Some st \/ request_ok d o st) -> cards_ok (d, h').
Proof.
  intros Hok H. destruct Hok. split; try done. cbn. intros o st [Hst|Hst]%H; [by apply co_request0|done].
Qed.

(** What every other part of the bank does to what cards are made of: accounts are
    opened and change, but keep their owner and kind. *)
Definition accounts_grow (d d' : DB) : Prop :=
  kartice d' = kartice d /\ ovlascena_lica d' = ovlascena_lica d /\
  forall i r, d_racun d !! i = Some r -> exists r', d_racun d' !! i = Some r' /\
    r_vrsta_racuna r' = r_vrsta_racuna r /\ r_id_vlasnika r' = r_id_vlasnika r.

#[export] Instance accounts_grow_preorder : PreOrder accounts_grow.
Proof.
  split; [intros d; split_and!; eauto|]. intros d1 d2 d3 (K1 & L1 & H1) (K2 & L2 & H2). split_and!; [congruence..|].
  intros i r Hr. destruct (H1 i r Hr) as (r1 & Hr1 & V1 & O1). destruct (H2 i r1 Hr1) as (r2 & Hr2 & V2 & O2).
  exists r2. split_and!; congruence.
Qed.

Lemma accounts_grow_vrsta d d' acc : accounts_grow d d' -> is_Some (d_racun d !! acc) -> vrsta_of d' acc = vrsta_of d acc.
Proof.
  intros (_ & _ & H) [r Hr]. destruct (H acc r Hr) as (r' & Hr' & E & _). unfold vrsta_of. rewrite Hr, Hr'. cbn.
  by rewrite E.
Qed.

Lemma cards_ok_grow d d' h : accounts_grow d d' -> cards_ok (d, h) -> cards_ok (d', h).
Proof.
  intros G Hok. pose proof G as (K & L & A).
  assert (Hc : forall acc, ~ is_Some (d_racun d !! acc) -> count (on_account acc) (kartice d) = O).
  { intros acc Hn. apply count_none. intros i m Hm E. apply Hn. unfold on_account in E. cbn in E. rewrite <- E.
    by apply (co_card _ Hok i m). }
  assert (Ho : forall acc, length (owner_cards acc d') = length (owner_cards acc d)).
  { intros acc. rewrite !owner_cards_count, K. apply count_ext. intros i x _. unfold owner_on, lica_of. by rewrite L. }
  assert (Hk : forall acc, length (cards_of acc d') = length (cards_of acc d)) by (intros; by rewrite !cards_of_count, K).
  assert (Hle : forall acc, (length (owner_cards acc d) <= length (cards_of acc d))%nat)
    by (intros; apply length_filter).
  split; cbn [fst snd].
  - rewrite K. intros i m Hm. destruct (co_card _ Hok i m Hm) as [H1 [r Hr]]. split; [done|].
    destruct (A _ _ Hr) as (r' & Hr' & _). by exists r'.
  - rewrite K. apply (co_number _ Hok).
  - rewrite K, L. intros j o Hj. destruct (co_lice _ Hok j o Hj) as (m & Hm & Hv & Ev). exists m. split_and!; [done| |done].
    rewrite (accounts_grow_vrsta d d') by (done || by apply (co_card _ Hok _ m Hm)). done.
  - rewrite L. apply (co_person _ Hok).
  - intros acc Hv. rewrite Hk. destruct (d_racun d !! acc) as [r|] eqn:Er.
    + apply (co_licni _ Hok). rewrite <- (accounts_grow_vrsta d d') by (done || by eexists). done.
    + rewrite cards_of_count, Hc by (rewrite Er; by intros [? ?]). done.
  - intros acc Hv. rewrite Ho. destruct (d_racun d !! acc) as [r|] eqn:Er.
    + apply (co_poslovni _ Hok). rewrite <- (accounts_grow_vrsta d d') by (done || by eexists). done.
    + specialize (Hle acc). rewrite cards_of_count, Hc in Hle by (rewrite Er; by intros [? ?]). lia.
  - intros owner st Hst. destruct (co_request _ Hok owner st Hst) as (r & Hr & <- & R1 & R2 & R3 & R4).
    destruct (A _ _ Hr) as (r' & Hr' & Ev & Eo). exists r'. do 5 (split; [done|]).
    destruct (cr_OvlascenoLice st); [by rewrite Ev|done].
Qed.

(** ** The operations keep the invariant *)

Context {DL : decimal.Lib} (pepper : string).

(** A row of the input keeps its texts. *)
Lemma kartica_row_fields input m : kartica_row input = Some m ->
  kc_BrojKartice m = ck_BrojKartice input /\ kc_TipKartice m = ck_TipKartice input /\
  kc_VrstaKartice m = ck_VrstaKartice input /\ kc_Status m = ck_Status input /\ kc_CvvKod m = ck_CvvKodHash input /\
  kc_RacunID m = ck_RacunID input /\ Z.abs (kc_LimitKartice m) < 10 ^ 15.
Proof.
  unfold kartica_row. intros (l & Hl & H)%bind_Some. apply bind_Some in H as (p & _ & H).
  apply bind_Some in H as (k & _ & [= <-]). split_and!; try done. cbn. unfold store_cents, numeric_store in Hl.
  case_decide; [|done]. by injection Hl as <-.
Qed.

Definition generated (tip : string) (data : karticaGeneratedData) : Prop :=
  card_number tip (gd_BrojKartice data) /\ String.length (gd_CvvKodHash data) = 64%nat /\
  Forall hex_char (bytes_of (gd_CvvKodHash data)).

Lemma kartica_input_ok acc tip data now m : generated tip data -> kartica_row (kartica_input acc tip data now) = Some m ->
  tip ∈ tipovi -> card_ok m /\ kc_RacunID m = acc.
Proof.
  intros (G1 & G2 & G3) (E1 & E2 & E3 & E4 & E5 & E6 & E7)%kartica_row_fields Ht. cbn in *. split; [|done].
  split; rewrite ?E1, ?E2, ?E3, ?E4, ?E5; try done. by left.
Qed.

(** What the INSERT of a card has checked. *)
Lemma insert_kartica_inv input i d id d' : insert_kartica input i d = Ok (id, d') ->
  exists m, kartica_row input = Some m /\ id = i /\ kartice d !! i = None /\ kc_TipKartice m ∈ tipovi /\
    number_free (kc_BrojKartice m) (kartice d) = true /\ d' = set_kartica (<[i := m]> (kartice d)) d.
Proof.
  unfold insert_kartica, insert_kartica_row. destruct (kartica_row input) as [m|]; [|done].
  destruct (kartica_checks m d) eqn:Ec; [|done]. unfold kartica_checks in Ec. rewrite !andb_true_iff, !bool_decide_eq_true in Ec.
  destruct (insert_row i m (kartice d)) as [t|] eqn:Er; [|done]. intros [= <- <-]. apply insert_row_ok in Er as [H1 ->].
  exists m. tauto.
Qed.

Lemma insert_lice_inv o i d id d' : insert_lice o i d = Ok (id, d') ->
  ovlascena_lica d !! i = None /\ d' = set_ovlasceno_lice (<[i := o]> (ovlascena_lica d)) d.
Proof.
  unfold insert_lice. destruct (_ && _); [|done]. destruct (insert_row i o (ovlascena_lica d)) as [t|] eqn:Er; [|done].
  intros [= <- <-]. by apply insert_row_ok in Er as [H1 ->].
Qed.

(** Reads and draws leave the view alone; what they answer is [P]. *)
Definition looks {A} (m : M A) (P : A -> Prop) (s : DB * Redis) : Prop := wp m (fun a s' => s' = s /\ P a) (fun s' => s' = s) s.

Lemma looks_bind {A B} (m : M A) (k : A -> M B) P (Q : B -> DB * Redis -> Prop) (E : DB * Redis -> Prop) s :
  looks m P s -> E s -> (forall a, P a -> wp (k a) Q E s) -> wp (x ← m; k x) Q E s.
Proof. intros H HE Hk. apply wp_bind. eapply wp_mono; [exact H|intros a s' [-> Ha]; by apply Hk|intros s' ->; done]. Qed.

Lemma looks_read {A} (f : DB -> A) (s : DB * Redis) : looks (sql_read f) (eq (f s.1)) s.
Proof. by apply wp_read. Qed.

Lemma looks_now s : looks time_now (fun _ => True) s.
Proof. by apply wp_io. Qed.

Lemma looks_rand n s : 0 < n -> looks (rand_Intn n) (fun z => 0 <= z < n) s.
Proof.
  intros Hn e w r w' <- H. unfold rand_Intn, io in H. replace (n <=? 0) with false in H by lia. injection H as <- <-.
  split; [done|]. by apply Z.mod_pos_bound.
Qed.

Lemma looks_number tip s : looks (generateBrojKartice tip) (card_number tip) s.
Proof.
  intros e w r w' <- H. assert (exists x, r = Ok x /\ view w' = view w) as (x & -> & Hv).
  { unfold generateBrojKartice in H. pose proof (format_facts tip) as F. destruct (number_format tip) as [iin n].
    destruct F as (_ & [k ->] & _). apply bind_cases in H as [(z & w1 & H1 & [= <- <-])|(er & -> & H1)];
      unfold rand_Intn, io in H1; replace (10 ^ Z.of_nat (S k) <=? 0) with false in H1
        by (symmetry; apply Z.leb_gt, Z.pow_pos_nonneg; lia); [|done].
    injection H1 as <- <-. by eexists. }
  split; [done|]. by eapply generated_number.
Qed.

Lemma looks_data info tip s : looks (generateKarticaData pepper info tip) (generated tip) s.
Proof.
  unfold generateKarticaData. eapply looks_bind; [apply looks_number|done|]. intros broj Hb.
  unfold generateCVV. eapply looks_bind with (P := fun _ => True); [|done|].
  - eapply looks_bind; [by apply looks_rand|done|]. intros z ?. by apply wp_ret.
  - intros cvv ?. apply wp_ret. split; [done|]. split; [done|]. apply hashCVV_column.
Qed.

Lemma looks_otp s : looks generateOTP (fun otp => String.length otp = 6%nat /\ numeral otp) s.
Proof.
  unfold generateOTP. eapply looks_bind; [by apply looks_rand|done|]. intros z Hz. apply wp_ret. split; [done|].
  by apply (generated_code 5 1000000).
Qed.

Lemma looks_info acc s : looks (GetRacunInfo acc) (fun i => vrsta_of s.1 acc = Some (ro_VrstaRacuna i)) s.
Proof.
  unfold GetRacunInfo. eapply looks_bind; [apply looks_read|done|]. intros r <-.
  destruct (d_racun s.1 !! acc) as [r|] eqn:Er; [|by apply wp_throw]. apply wp_ret. split; [done|].
  unfold vrsta_of. by rewrite Er.
Qed.

Lemma looks_owner acc s :
  looks (GetRacunVlasnikInfo acc) (fun i => exists r, d_racun s.1 !! acc = Some r /\
    r_id_vlasnika r = rv_VlasnikID i /\ r_vrsta_racuna r = rv_VrstaRacuna i) s.
Proof.
  unfold GetRacunVlasnikInfo. eapply looks_bind; [apply looks_read|done|]. intros r <-.
  destruct (d_racun s.1 !! acc) as [r|] eqn:Er; [|by apply wp_throw]. apply wp_ret. split; [done|]. by exists r.
Qed.

Lemma looks_limits acc vrsta ol s : looks (proveraLimitaFlow2 acc vrsta ol) (fun _ => room s.1 acc vrsta ol) s.
Proof.
  unfold proveraLimitaFlow2. destruct vrsta; [|destruct ol as [o|]];
    (eapply looks_bind; [apply looks_read|done|]); intros n <-.
  - destruct (Z.leb_spec maxKarticeLicni (Z.of_nat (length (cards_of acc s.1)))); [by apply wp_throw|by apply wp_ret].
  - destruct (lica_with_email _ _) eqn:El; [by apply wp_ret|by apply wp_throw].
  - destruct (owner_cards acc s.1) eqn:El; [|by apply wp_throw]. apply wp_ret. split; [done|]. cbn. by rewrite El.
Qed.

Lemma looks_limits1 acc vrsta s : looks (proveraLimita acc vrsta) (fun _ => room s.1 acc vrsta None) s.
Proof. exact (looks_limits acc vrsta None s). Qed.

(** [cards_ok] and nothing else. *)
Definition keeps_cards {A} (m : M A) : Prop := forall s, cards_ok s -> wp m (fun _ => cards_ok) cards_ok s.

Lemma wp_CreateKartica acc tip data now vrsta s :
  cards_ok s -> generated tip data -> vrsta_of s.1 acc = Some vrsta -> room s.1 acc vrsta None ->
  wp (CreateKartica (kartica_input acc tip data now)) (fun _ => cards_ok) cards_ok s.
Proof.
  intros Hok G Hv Hr. apply wp_insert; [done|]. intros i id d' (m & Hm & -> & Hi & Ht & Hf & ->)%insert_kartica_inv.
  destruct s as [d h]. cbn [fst snd] in *. pose proof (kartica_row_fields _ _ Hm) as (_ & Et & _). cbn in Et.
  rewrite Et in Ht. destruct (kartica_input_ok _ _ _ _ _ G Hm Ht) as [Hc Ea].
  apply (cards_ok_add d h i m None vrsta); try done; by rewrite Ea.
Qed.

Lemma wp_CreateSaLicem acc tip data now ol s :
  cards_ok s -> generated tip data -> vrsta_of s.1 acc = Some POSLOVNI -> validateOvlascenoLice ol = Ok tt ->
  room s.1 acc POSLOVNI (Some ol) ->
  wp (CreateKarticaSaOvlascenoLicem (kartica_input acc tip data now) ol) (fun _ => cards_ok) cards_ok s.
Proof.
  intros Hok G Hv Hval Hr. unfold CreateKarticaSaOvlascenoLicem. apply wp_Transaction; [done|]. destruct s as [d h].
  cbn [fst snd] in *. apply wp_bind, wp_insert; [done|]. intros i id d' (m & Hm & -> & Hi & Ht & Hf & ->)%insert_kartica_inv.
  pose proof (kartica_row_fields _ _ Hm) as (_ & Et & _). cbn in Et. rewrite Et in Ht.
  destruct (kartica_input_ok _ _ _ _ _ G Hm Ht) as [Hc Ea].
  apply wp_bind, wp_insert; [done|]. intros j jd d' [Hj ->]%insert_lice_inv. apply wp_ret. cbn [fst snd]. split; [|done].
  apply (cards_ok_add d h i m (Some (j, ol)) POSLOVNI); try done; by rewrite Ea.
Qed.

Lemma keeps_CreateKarticaZaVlasnika acc tip : keeps_cards (CreateKarticaZaVlasnika pepper acc tip).
Proof.
  intros s Hok. unfold CreateKarticaZaVlasnika. eapply looks_bind; [apply looks_info|done|]. intros info Hv. cbn beta in Hv.
  destruct (negb _); [by apply wp_throw|]. destruct (_ && _); [by apply wp_throw|].
  eapply looks_bind; [apply looks_limits1|done|]. intros ? Hr. cbn beta in Hr.
  eapply looks_bind; [apply looks_data|done|]. intros data G.
  eapply looks_bind; [apply looks_now|done|]. intros now ?. by eapply wp_CreateKartica.
Qed.

Lemma keeps_Delete o : keeps_cards (try (DeleteCardRequest o)).
Proof.
  intros [d h] Hok. apply wp_try. eapply wp_mono; [apply DeleteCardRequest_wp| |intros s' ->; done].
  intros _ [d' h'] [E H]. cbn in E. subst d'. apply (cards_ok_requests d h); [done|]. intros o' st Hst. left. by apply H.
Qed.

Lemma keeps_Save o st ttl s : cards_ok s -> request_ok s.1 o st ->
  wp (SaveCardRequest o st ttl) (fun _ s' => cards_ok s') cards_ok s.
Proof.
  destruct s as [d h]. intros Hok Hst. eapply wp_mono; [apply SaveCardRequest_wp| |intros s' ->; done].
  intros _ [d' h'] [E H]. cbn in E. subst d'. apply (cards_ok_requests d h); [done|].
  intros o' st' [Hs|[-> ->]]%H; [by left|by right].
Qed.

Lemma check_request_ok input info r : check_request input info = Ok tt ->
  r_id_vlasnika r = rv_VlasnikID info -> r_vrsta_racuna r = rv_VrstaRacuna info ->
  r_id_vlasnika r = rq_VlasnikID input /\ person_ok (r_vrsta_racuna r) (rq_OvlascenoLice input).
Proof.
  unfold check_request, person_ok. intros H -> ->. destruct (Z.eqb_spec (rv_VlasnikID info) (rq_VlasnikID input)); [|done].
  cbn in H. destruct (bool_decide _); [|done]. cbn in H. split; [done|].
  destruct (rv_VrstaRacuna info), (rq_OvlascenoLice input); done.
Qed.

Lemma keeps_RequestKartica input : keeps_cards (RequestKartica input).
Proof.
  intros s Hok. unfold RequestKartica. eapply looks_bind; [apply looks_owner|done|]. intros info (r & Hr & Eo & Ev).
  apply wp_bind, wp_of_result. destruct (check_request input info) as [[]|] eqn:Ec; [|done].
  eapply looks_bind; [apply looks_limits|done|]. intros ? Hroom. cbn beta in Hroom.
  eapply looks_bind; [apply looks_otp|done|]. intros otp [L N].
  destruct (check_request_ok input info r Ec Eo Ev) as [Ho Hp].
  apply wp_bind. eapply wp_mono; [apply keeps_Save; [done|]| |done].
  - exists r. unfold maxOTPAttempts. cbn. split_and!; try done; lia.
  - cbn beta. intros ? s' Hok'. apply wp_bind, wp_try, wp_io; cbn.
    + intros _. by apply wp_ret.
    + intros er. apply wp_bind. eapply wp_mono; [by apply keeps_Delete| |done]. intros x s2 H2. by apply wp_throw.
Qed.

Lemma keeps_wrong_otp o st s : cards_ok s -> request_ok s.1 o st -> wp (wrong_otp o st) (fun _ => cards_ok) cards_ok s.
Proof.
  intros Hok (r & Hr & Ho & Ha & H). unfold wrong_otp. destruct (Z.leb_spec maxOTPAttempts (cr_Attempts st + 1)) as [Hl|Hl].
  - apply wp_bind. eapply wp_mono; [by apply keeps_Delete| |done]. intros x s2 H2. by apply wp_throw.
  - apply wp_bind, wp_try. eapply wp_mono; [apply keeps_Save; [done|]| |].
    + exists r. cbn. split_and!; try done; try lia; apply H.
    + intros ? s2 H2. by apply wp_throw.
    + intros s2 H2 er. by apply wp_throw.
Qed.

Lemma keeps_ConfirmKartica input : keeps_cards (ConfirmKartica pepper input).
Proof.
  intros [d h] Hok. unfold ConfirmKartica. apply wp_bind. eapply wp_mono; [apply GetCardRequest_wp| |intros s' ->; done].
  intros st s' [-> Hst]. pose proof (co_request _ Hok _ _ Hst) as Hreq. cbn in Hreq.
  destruct (negb _); [by apply keeps_wrong_otp|]. destruct Hreq as (r & Hr & Ho & _ & _ & _ & Hp).
  eapply looks_bind; [apply looks_info|done|]. intros info Hv. cbn beta in Hv.
  eapply looks_bind; [apply looks_limits|done|]. intros ? Hroom. cbn beta in Hroom.
  eapply looks_bind; [apply looks_data|done|]. intros data G.
  eapply looks_bind; [apply looks_now|done|]. intros now ?. cbn zeta.
  assert (r_vrsta_racuna r = ro_VrstaRacuna info) as Ev by (unfold vrsta_of in Hv; cbn in Hv; rewrite Hr in Hv; by injection Hv).
  apply wp_bind. eapply (wp_mono _ (fun _ => cards_ok) _ cards_ok); [| |done].
  - destruct (cr_OvlascenoLice st) as [ol|]; [|by eapply wp_CreateKartica]. destruct Hp as [Hp1 Hp2].
    assert (ro_VrstaRacuna info = POSLOVNI) as Ei by congruence. rewrite Ei in Hv, Hroom. by apply wp_CreateSaLicem.
  - intros id s2 H2. apply wp_bind. eapply wp_mono; [by apply keeps_Delete| |done]. intros x s3 H3. by apply wp_ret.
Qed.

Lemma keeps_SetKarticaStatus i noviStatus : keeps_cards (SetKarticaStatus i noviStatus).
Proof.
  intros [d h] Hok. unfold SetKarticaStatus. apply wp_bind, wp_sql; [done|]. cbn [fst snd]. intros n d'. unfold update_kartica.
  destruct (update_row _ _ _ _) as [[k t]|] eqn:Eu; [|done]. intros [= -> <-].
  enough (cards_ok (set_kartica t d, h)) by (destruct (n =? 0); [by apply wp_throw|by apply wp_ret]).
  apply update_row_inv in Eu as [(_ & -> & _)|(_ & m & m' & Hm & _ & Es & ->)]; [by destruct d as [? ? ? ? ? ? ? ? ? ? ? ? ? [] ?]|].
  unfold set_status in Es. case_bool_decide; [|done]. injection Es as <-. by apply cards_ok_status.
Qed.

Lemma looks_row (num : string) (s : DB * Redis) : looks (GetKarticaZaStatusChange num) (fun _ => True) s.
Proof.
  unfold GetKarticaZaStatusChange. eapply looks_bind; [apply looks_read|done|]. intros x ?.
  destruct x as [k|]; [|by apply wp_throw]. destruct (_ =? 0); [by apply wp_throw|by apply wp_ret].
Qed.

Lemma keeps_ChangeEmployeeCardStatus num noviStatus : keeps_cards (ChangeEmployeeCardStatus num noviStatus).
Proof.
  intros s Hok. unfold ChangeEmployeeCardStatus. eapply looks_bind; [apply looks_row|done|]. intros k ?.
  apply wp_bind, wp_of_result. destruct (employee_transition _ _); [|done].
  apply wp_bind. eapply wp_mono; [by apply keeps_SetKarticaStatus| |done]. intros [] s' Hs. by apply wp_ret.
Qed.

Lemma keeps_BlokirajKarticu i user : keeps_cards (BlokirajKarticu i user).
Proof.
  intros s Hok. unfold BlokirajKarticu, GetKarticaOwnerInfo. apply wp_bind.
  eapply looks_bind; [apply looks_read|done|]. intros rows ?. destruct rows as [|x rows]; [by apply wp_throw|].
  apply wp_ret. destruct (negb _); [by apply wp_throw|]. apply wp_bind, wp_of_result.
  destruct (client_transition _); [|done]. by apply keeps_SetKarticaStatus.
Qed.

End invariant.
