(* ===== verification/CardRuns.v ===== *)
(** * What the endpoints of cards do, call after call

    [endpoint] is everything a client or an employee can send about cards, and the
    requests of [AccountTypes] on accounts and payments run between the calls.
    Theorems: the rules of [cards_ok] after any run, the life of a card (which
    status follows which, nothing else ever changes), who may change a status, and
    the guesses of a code. *)

From stdpp Require Import list relations.
From S2P Require Import Prelude Numeric Domain Tables Store StoreFacts OrderRepo Market FundsManager.
From S2P Require Import FundsFacts FundsTransfers InterbankExecutor GoMath AccountRepo PaymentRepo PaymentFacts.
From S2P Require Import AccountTypes CardNumbers Cards CardHandlers CardLimits.
#[local] Open Scope string_scope.
#[local] Open Scope Z_scope.

(** ** The life of a card *)

Definition status_step (s s' : string) : Prop :=
  (s, s') ∈ [("AKTIVNA", "BLOKIRANA"); ("AKTIVNA", "DEAKTIVIRANA"); ("BLOKIRANA", "AKTIVNA");
             ("BLOKIRANA", "DEAKTIVIRANA")].

(** Cards are never removed, and only their status changes, along [status_step]. *)
Definition cards_evolve (d d' : DB) : Prop :=
  forall i m, kartice d !! i = Some m -> exists s, kartice d' !! i = Some (with_status s m) /\
    rtc status_step (kc_Status m) s.

Lemma with_own_status m : with_status (kc_Status m) m = m.
Proof. by destruct m. Qed.

Lemma cards_evolve_same d d' : kartice d' = kartice d -> cards_evolve d d'.
Proof. intros E i m Hm. exists (kc_Status m). rewrite E, with_own_status. split; [done|reflexivity]. Qed.

#[export] Instance cards_evolve_preorder : PreOrder cards_evolve.
Proof.
  split; [intros d; by apply cards_evolve_same|]. intros d1 d2 d3 H1 H2 i m Hm.
  destruct (H1 i m Hm) as (s & Hs & R1). destruct (H2 i _ Hs) as (s' & Hs' & R2). exists s'. split; [done|].
  by etransitivity.
Qed.

Lemma cards_evolve_insert d i m : kartice d !! i = None -> cards_evolve d (set_kartica (<[i := m]> (kartice d)) d).
Proof.
  intros Hi k x Hx. exists (kc_Status x). rewrite with_own_status. split; [|reflexivity].
  change (<[i := m]> (kartice d) !! k = Some x). rewrite lookup_insert_ne; [done|congruence].
Qed.

Lemma cards_evolve_status d i m s : kartice d !! i = Some m -> status_step (kc_Status m) s ->
  cards_evolve d (set_kartica (<[i := with_status s m]> (kartice d)) d).
Proof.
  intros Hi Hs k x Hx. change (kartice (set_kartica ?t d)) with t. destruct (decide (k = i)) as [->|].
  - assert (x = m) as -> by congruence. exists s. rewrite lookup_insert_eq. split; [done|by apply rtc_once].
  - exists (kc_Status x). rewrite lookup_insert_ne by done. rewrite with_own_status. split; [done|reflexivity].
Qed.

Lemma status_step_from s s' : status_step s s' -> s <> "DEAKTIVIRANA".
Proof. unfold status_step. intros H ->. repeat (apply elem_of_cons in H as [H|H]; [done|]). by apply elem_of_nil in H. Qed.

(** Nothing follows a deactivation. *)
Lemma deactivated_stays s : rtc status_step "DEAKTIVIRANA" s -> s = "DEAKTIVIRANA".
Proof. intros [H|(y & H & _)]%rtc_inv; [done|]. by destruct (status_step_from _ _ H). Qed.

(** ** Changes of status *)

Lemma employee_transition_step s s' : employee_transition s s' = Ok tt -> status_step s s'.
Proof.
  unfold employee_transition, status_step. destruct (String.eqb_spec s "DEAKTIVIRANA"); [done|].
  destruct (String.eqb_spec s "AKTIVNA") as [->|].
  - destruct (String.eqb_spec s' "AKTIVNA"); [done|]. destruct (String.eqb_spec s' "BLOKIRANA") as [->|]; [set_solver|].
    destruct (String.eqb_spec s' "DEAKTIVIRANA") as [->|]; [set_solver|done].
  - destruct (String.eqb_spec s "BLOKIRANA") as [->|]; [|done]. destruct (String.eqb_spec s' "BLOKIRANA"); [done|].
    destruct (String.eqb_spec s' "AKTIVNA") as [->|]; [set_solver|].
    destruct (String.eqb_spec s' "DEAKTIVIRANA") as [->|]; [set_solver|done].
Qed.

Lemma with_racun_elem d i m r : (i, m, r) ∈ with_racun d <-> kartice d !! i = Some m /\ d_racun d !! kc_RacunID m = Some r.
Proof.
  unfold with_racun. rewrite list_elem_of_bind. split.
  - intros ([j x] & H & Hj%elem_of_map_to_list). cbn in H. destruct (d_racun d !! kc_RacunID x) as [y|] eqn:Ey.
    + apply list_elem_of_singleton in H. injection H as -> -> ->. done.
    + by apply elem_of_nil in H.
  - intros [Hm Hr]. exists (i, m). split; [|by apply elem_of_map_to_list]. cbn. rewrite Hr. by left.
Qed.

Lemma head_filter_elem {A} (P : A -> Prop) `{HPd : !forall x, Decision (P x)} (l : list A) x k :
  filter P l = x :: k -> P x /\ x ∈ l.
Proof. intros E. apply (list_elem_of_filter P). rewrite E. by left. Qed.

(** The row an employee names, with its account. *)
Lemma status_change_row_inv num d k : status_change_row num d = Some k ->
  exists m r, kartice d !! sc_ID k = Some m /\ d_racun d !! kc_RacunID m = Some r /\ kc_BrojKartice m = num /\
    kc_Status m = sc_TrenutniStatus k /\ r_id_vlasnika r = sc_VlasnikID k.
Proof.
  unfold status_change_row. intros ([[i m] r] & H & [= <-])%bind_Some.
  destruct (filter _ _) as [|x l] eqn:E; [done|]. injection H as ->. apply head_filter_elem in E as [E1 E2].
  apply with_racun_elem in E2 as [H1 H2]. by exists m, r.
Qed.

(** A change that succeeded found its card. *)
Lemma SetKarticaStatus_ok i s e w w' : SetKarticaStatus i s e w = (Ok tt, w') ->
  exists m, kartice (w_db w) !! i = Some m /\ s ∈ statusi /\
    w_db w' = set_kartica (<[i := with_status s m]> (kartice (w_db w))) (w_db w).
Proof.
  unfold SetKarticaStatus. intros H. apply bind_ok in H as (n & w1 & H1 & H). apply sql_ok in H1 as (d & Hd & -> & _).
  unfold update_kartica in Hd. destruct (update_row _ _ _ _) as [[k t]|] eqn:Eu; [|done]. injection Hd as -> <-.
  apply update_row_inv in Eu as [(-> & -> & _)|(-> & m & m' & Hm & _ & Es & ->)]; [done|]. injection H as <-.
  unfold set_status in Es. case_bool_decide as Hs; [|done]. injection Es as <-. by exists m.
Qed.

(** When it fails nothing has changed. *)
Lemma SetKarticaStatus_err i s e w er w' : SetKarticaStatus i s e w = (Err er, w') ->
  kartice (w_db w') = kartice (w_db w) /\ accounts_grow (w_db w) (w_db w').
Proof.
  unfold SetKarticaStatus. intros H. assert (Hsame : forall d, kartice d = kartice d /\ accounts_grow d d) by by intros.
  apply bind_cases in H as [(n & w1 & H1 & H)|(er' & _ & H)].
  - apply sql_ok in H1 as (d & Hd & -> & _). unfold update_kartica in Hd.
    destruct (update_row _ _ _ _) as [[k t]|] eqn:Eu; [|done]. injection Hd as -> <-.
    apply update_row_inv in Eu as [(-> & -> & _)|(-> & m & m' & Hm & _ & Es & ->)]; [|done]. injection H as _ <-.
    cbn. split; [done|]. by split_and!; [..|eauto].
  - apply sql_err_db in H. by rewrite H.
Qed.

(** What an employee's change does, and to which card. *)
Lemma employee_change num s e w r w' : ChangeEmployeeCardStatus num s e w = (r, w') ->
  match r with
  | Ok k => exists m, kartice (w_db w) !! sc_ID k = Some m /\ kc_BrojKartice m = num /\ status_step (kc_Status m) s /\
      w_db w' = set_kartica (<[sc_ID k := with_status s m]> (kartice (w_db w))) (w_db w)
  | Err _ => kartice (w_db w') = kartice (w_db w)
  end.
Proof.
  unfold ChangeEmployeeCardStatus. intros H.
  assert (Hr : reads (GetKarticaZaStatusChange num)) by (unfold GetKarticaZaStatusChange; solve_reads).
  apply bind_cases in H as [(k & w1 & H1 & H)|(er & -> & H)]; [|by rewrite (Hr _ _ _ _ H)].
  unfold GetKarticaZaStatusChange in H1.
  apply bind_ok in H1 as (row & w0 & H0 & H1). apply sql_read_ok in H0 as [-> E0].
  destruct (status_change_row num (w_db w)) as [k'|] eqn:Ek; [|done]. destruct (sc_ID k' =? 0); [done|]. injection H1 as -> <-.
  apply status_change_row_inv in Ek as (m & acc & Hm & _ & En & Est & _).
  apply bind_cases in H as [([] & w2 & H2 & H)|(er & -> & H)].
  - destruct (employee_transition _ _) as [[]|] eqn:Et; [|done]. injection H2 as <-. apply employee_transition_step in Et.
    apply bind_cases in H as [([] & w3 & H3 & H)|(er & -> & H)].
    + injection H as <- <-. apply SetKarticaStatus_ok in H3 as (m' & Hm' & _ & ->). rewrite E0 in *.
      assert (m' = m) as -> by congruence. exists m. rewrite Est. done.
    + apply SetKarticaStatus_err in H as [H _]. by rewrite H, E0.
  - destruct (employee_transition _ _); [done|]. injection H as _ <-. by rewrite E0.
Qed.

(** A client blocks an active card of its own, or changes nothing. *)
Lemma client_change i user e w r w' : BlokirajKarticu i user e w = (r, w') ->
  match r with
  | Ok _ => exists m a, kartice (w_db w) !! i = Some m /\ d_racun (w_db w) !! kc_RacunID m = Some a /\
      r_id_vlasnika a = user /\ kc_Status m = "AKTIVNA" /\
      w_db w' = set_kartica (<[i := with_status "BLOKIRANA" m]> (kartice (w_db w))) (w_db w)
  | Err _ => kartice (w_db w') = kartice (w_db w)
  end.
Proof.
  unfold BlokirajKarticu, GetKarticaOwnerInfo. intros H. apply bind_cases in H as [(k & w1 & H1 & H)|(er & -> & H)].
  - apply bind_ok in H1 as (rows & w0 & H0 & H1). apply sql_read_ok in H0 as [-> E0].
    destruct (filter _ _) as [|[[j m] a] l] eqn:E; [done|]. injection H1 as <- <-. apply head_filter_elem in E as [Ej Em].
    cbn in Ej. subst j. apply with_racun_elem in Em as [Hm Ha]. cbn in H.
    destruct (Z.eqb_spec (r_id_vlasnika a) user) as [Eo|]; cbn in H; [|injection H as <- <-; by rewrite E0].
    apply bind_cases in H as [([] & w2 & H2 & H)|(er & -> & H)].
    + unfold client_transition in H2. destruct (String.eqb_spec (kc_Status m) "AKTIVNA") as [Es|];
        [|repeat destruct (String.eqb _ _); done]. injection H2 as <-. destruct r as [[]|er].
      * apply SetKarticaStatus_ok in H as (m' & Hm' & _ & ->). rewrite E0 in *. assert (m' = m) as -> by congruence. by exists m, a.
      * apply SetKarticaStatus_err in H as [H _]. by rewrite H, E0.
    + assert (w' = w0) as -> by (destruct (client_transition _); [done|by injection H]). by rewrite E0.
  - apply bind_cases in H as [(rows & w0 & H0 & H)|(er' & _ & H)].
    + apply sql_read_ok in H0 as [-> E0]. destruct (filter _ _); [|done]. injection H as _ <-. by rewrite E0.
    + apply sql_err_db in H. by rewrite H.
Qed.

(** ** Requests on accounts leave cards alone *)

(** [m] gives no command to Redis. *)
Definition no_redis {A} (m : M A) : Prop := forall e w r w', m e w = (r, w') -> w_redis w' = w_redis w.

Lemma no_redis_ret {A} (a : A) : no_redis (mret a).
Proof. by intros e w r w' [= _ <-]. Qed.
Lemma no_redis_throw {A} er : no_redis (@throw A er).
Proof. by intros e w r w' [= _ <-]. Qed.
Lemma no_redis_of_result {A} (r : result A) : no_redis (of_result r).
Proof. destruct r; [apply no_redis_ret|apply no_redis_throw]. Qed.
Lemma no_redis_io {A} (f : Env -> nat -> result A) : no_redis (io f).
Proof. by intros e w r w' [= _ <-]. Qed.
Lemma no_redis_bind {A B} (m : M A) (k : A -> M B) : no_redis m -> (forall a, no_redis (k a)) -> no_redis (x ← m; k x).
Proof.
  intros Hm Hk e w r w' H. apply bind_cases in H as [(a & w1 & H1 & H)|(er & _ & H)]; [|by eapply Hm].
  rewrite (Hk _ _ _ _ _ H). by eapply Hm.
Qed.
Lemma no_redis_try {A} (m : M A) : no_redis m -> no_redis (try m).
Proof. intros Hm e w r w' (r' & _ & H)%try_run. by eapply Hm. Qed.
Lemma no_redis_sql {A} (f : DB -> result (A * DB)) : no_redis (sql f).
Proof.
  intros e w r w'. unfold sql. destruct (w_aborted w); [by intros [= _ <-]|]. destruct (env_fault _ _); [by intros [= _ <-]|].
  by destruct (f (w_db w)) as [[a d]|er]; intros [= _ <-].
Qed.
Lemma no_redis_insert {A} (f : Z -> DB -> result (A * DB)) : no_redis (sql_insert f).
Proof. intros e w r w' H. by apply no_redis_sql in H. Qed.
Lemma no_redis_insert_many {A} n (f : Z -> DB -> result (A * DB)) : no_redis (sql_insert_many n f).
Proof.
  intros e w r w' H. apply no_redis_sql in H. rewrite H. clear. induction n as [|n IH]; [done|exact IH].
Qed.
Lemma no_redis_Transaction {A} (m : M A) : no_redis m -> no_redis (Transaction m).
Proof.
  intros Hm e w r w'. unfold Transaction. destruct (_ || _); [by intros [= _ <-]|].
  destruct (m e (begin_tx w)) as [r1 w1] eqn:Em. apply Hm in Em. cbn in Em. destruct r1; [|by intros [= _ <-]].
  destruct (w_depth w); [destruct (_ || _)|]; by intros [= _ <-].
Qed.

Ltac solve_no_redis :=
  repeat match goal with
  | |- no_redis (mret _) => apply no_redis_ret
  | |- no_redis (throw _) => apply no_redis_throw
  | |- no_redis (of_result _) => apply no_redis_of_result
  | |- no_redis (mbind _ _) => apply no_redis_bind; [|intros ?]
  | |- no_redis (try _) => apply no_redis_try
  | |- no_redis (io _) => apply no_redis_io
  | |- no_redis time_now => apply no_redis_io
  | |- no_redis (rand_Intn _) => apply no_redis_io
  | |- no_redis (sql _) => apply no_redis_sql
  | |- no_redis (sql_read _) => apply no_redis_sql
  | |- no_redis (sql_insert _) => apply no_redis_insert
  | |- no_redis (sql_insert_many _ _) => apply no_redis_insert_many
  | |- no_redis (Transaction _) => apply no_redis_Transaction
  | |- no_redis (match ?x with _ => _ end) => destruct x
  | |- no_redis (let _ := _ in _) => cbv zeta
  | H : forall x y, no_redis _ |- no_redis _ => apply H
  end.

Section requests.
Context `{DL : decimal.Lib} `{PT : pg.Text}.

Lemma serve_no_redis q : no_redis (serve q).
Proof.
  assert (Hg : forall n prefix, no_redis (generateAccountNumber n prefix)).
  { induction n as [|n IH]; intros prefix; cbn [generateAccountNumber]; [apply no_redis_ret|]; solve_no_redis; apply IH. }
  destruct q; cbn [serve]; unfold ExchangeTransfer, CreateAccount, validateCurrency, GetCurrencyByID, CreateAccountRow,
    create_firma, RenameAccount, exec_racun, UpdateAccountLimit, ApprovePendingAction, VerifyAndApplyLimit,
    CreatePaymentIntent, CreateIntent, CreateTransfer, CreateTransferIntent, create_order, finish_create, intent_by_key,
    own_account, generateBrojNaloga, VerifyAndExecute, VerifyAndExecuteRow, verify_pending, check_code, execute_intent,
    code_expired, trezor_pair, move_money, through_treasury, credit_recipient, exec_active, insert_ledger, CreateRecipient,
    RecipientCreate, UpdateRecipient, RecipientGetByID, RecipientUpdate, DeleteRecipient, RecipientDelete; solve_no_redis.
Qed.

(** The rows of accounts keep their owner and kind. *)
Definition keeps_owner (f : racun -> option racun) : Prop :=
  forall r r', f r = Some r' -> r_vrsta_racuna r' = r_vrsta_racuna r /\ r_id_vlasnika r' = r_id_vlasnika r.

Lemma grow_same d d' : d_racun d' = d_racun d -> kartice d' = kartice d -> ovlascena_lica d' = ovlascena_lica d ->
  accounts_grow d d'.
Proof. intros E1 E2 E3. split_and!; [done..|]. intros i r Hr. exists r. by rewrite E1. Qed.

Lemma grow_update_racun id g f : keeps_owner f -> preserves accounts_grow (sql (update_racun id g f)).
Proof.
  intros Hf. apply preserves_sql; [apply _|]. intros d n d' H.
  apply update_racun_inv in H as [(_ & ->)|(_ & r & r' & Hr & _ & E & ->)]; [reflexivity|]. split_and!; [done..|].
  intros j x Hx. cbn. destruct (decide (j = id)) as [->|]; [|rewrite lookup_insert_ne by done; by exists x].
  rewrite lookup_insert_eq. exists r'. assert (x = r) as -> by congruence. split; [done|by apply Hf].
Qed.

Lemma grow_update_action id g f : preserves accounts_grow (sql (update_action id g f)).
Proof.
  apply preserves_sql; [apply _|]. intros d n d'. unfold update_action. destruct (update_row _ _ _ _) as [[k m]|]; [|done].
  intros [= _ <-]. by apply grow_same.
Qed.

Lemma grow_update_intent id g f : preserves accounts_grow (sql (update_intent id g f)).
Proof.
  apply preserves_sql; [apply _|]. intros d n d'. unfold update_intent. destruct (update_row _ _ _ _) as [[k m]|]; [|done].
  intros [= _ <-]. by apply grow_same.
Qed.

(** An INSERT or UPDATE of another table. *)
Ltac grow_leaf :=
  first [apply preserves_sql_insert; [apply _|intros ? ? ? ?] | apply preserves_sql; [apply _|intros ? ? ?]];
  repeat (match goal with |- context [match ?x with _ => _ end] => destruct x end; try done);
  intros [= _ <-]; first [reflexivity | by apply grow_same].

Lemma grow_insert_action a : preserves accounts_grow (sql_insert (insert_action a)).
Proof. unfold insert_action. grow_leaf. Qed.

Lemma grow_limit_action (b : bool) a :
  preserves accounts_grow (sql_insert (fun i d => if b then insert_action a i d else Err ErrDB)).
Proof. unfold insert_action. grow_leaf. Qed.

Lemma grow_insert_firma f : preserves accounts_grow (sql_insert (insert_firma f)).
Proof. unfold insert_firma. grow_leaf. Qed.

Lemma grow_insert_intent x : preserves accounts_grow (sql_insert (insert_intent x)).
Proof. unfold insert_intent. grow_leaf. Qed.

Lemma grow_intent_by_key k : preserves accounts_grow (intent_by_key k).
Proof. unfold intent_by_key. grow_leaf. Qed.

Lemma grow_insert_ledger opis id tip q : preserves accounts_grow (insert_ledger opis id tip q).
Proof. unfold insert_ledger, insert_transakcija, transakcija_rows. grow_leaf. Qed.

Lemma grow_insert_racun inp broj firma now : preserves accounts_grow (sql_insert (insert_racun inp broj firma now)).
Proof.
  apply preserves_sql_insert; [apply _|]. intros i d j d'. unfold insert_racun. destruct (racun_row _ _ _ _ _) as [r|]; [|done].
  destruct (racun_by_number _ _); [done|]. destruct (insert_row _ _ _) as [m|] eqn:Em; [|done].
  apply insert_row_ok in Em as [Hn ->]. intros [= _ <-]. split_and!; [done..|]. intros k x Hx. exists x. split; [|done].
  cbn. rewrite lookup_insert_ne; [done|congruence].
Qed.

Lemma stanje_keeps_owner q : keeps_owner (add_stanje q) /\ keeps_owner (sub_stanje q).
Proof. by split; intros r r' (c & _ & [= <-])%bind_Some. Qed.

Lemma debit_keeps_owner q : keeps_owner (debit_payer q).
Proof. intros r r'. unfold debit_payer. by intros (s & _ & (d & _ & (m & _ & [= <-])%bind_Some)%bind_Some)%bind_Some. Qed.

Lemma limits_keep_owner dn ms : keeps_owner (set_limits dn ms).
Proof. intros r r'. unfold set_limits. by intros (d & _ & (m & _ & [= <-])%bind_Some)%bind_Some. Qed.

Lemma grow_exec_active id f : keeps_owner f -> preserves accounts_grow (exec_active id f).
Proof. intros Hf. unfold exec_active. apply preserves_bind; [apply _|by apply grow_update_racun|intros; apply preserves_ret, _]. Qed.

Lemma grow_moves id q : preserves accounts_grow (exec_active id (add_stanje q)) /\
  preserves accounts_grow (exec_active id (sub_stanje q)) /\ preserves accounts_grow (exec_active id (debit_payer q)).
Proof. split_and!; apply grow_exec_active; [apply stanje_keeps_owner..|apply debit_keeps_owner]. Qed.

Lemma grow_rename inp : preserves accounts_grow (RenameAccount inp).
Proof.
  unfold RenameAccount, exec_racun. solve_preserves. apply grow_update_racun. intros x x'. destruct (varchar _ _); [|done].
  by intros [= <-].
Qed.

Lemma grow_recipients u id n b :
  preserves accounts_grow (CreateRecipient u n b) /\ preserves accounts_grow (UpdateRecipient id u n b) /\
  preserves accounts_grow (DeleteRecipient id u).
Proof.
  split_and!; unfold CreateRecipient, RecipientCreate, UpdateRecipient, RecipientGetByID, RecipientUpdate, DeleteRecipient,
    RecipientDelete; solve_preserves; [unfold insert_recipient; grow_leaf|unfold update_recipient; grow_leaf|grow_leaf].
Qed.

#[local] Hint Resolve grow_update_action grow_update_intent grow_insert_action grow_limit_action grow_insert_firma
  grow_insert_intent grow_intent_by_key grow_insert_ledger grow_insert_racun grow_rename : preserves.
#[local] Hint Extern 1 (preserves accounts_grow (exec_active _ _)) => apply grow_moves : preserves.
#[local] Hint Extern 1 (preserves accounts_grow (sql (update_racun _ _ (set_limits _ _)))) =>
  apply grow_update_racun, limits_keep_owner : preserves.

(** Requests on accounts and payments neither touch a card nor change whose account
    is whose, or of which kind. *)
Lemma serve_grows q : preserves accounts_grow (serve q).
Proof.
  assert (Hg : forall n prefix, preserves accounts_grow (generateAccountNumber n prefix)).
  { induction n as [|n IH]; intros prefix; cbn [generateAccountNumber]; solve_preserves. }
  destruct q; cbn [serve]; unfold ExchangeTransfer, CreateAccount, validateCurrency, GetCurrencyByID, CreateAccountRow,
    create_firma, UpdateAccountLimit, ApprovePendingAction, VerifyAndApplyLimit, CreatePaymentIntent, CreateIntent,
    CreateTransfer, CreateTransferIntent, create_order, finish_create, own_account, generateBrojNaloga, VerifyAndExecute,
    VerifyAndExecuteRow, verify_pending, check_code, execute_intent, code_expired, trezor_pair, move_money,
    through_treasury, credit_recipient; solve_preserves.
  - apply (grow_recipients userID 0).
  - apply (grow_recipients userID id naziv broj).
  - apply (grow_recipients userID id EmptyString EmptyString).
Qed.
End requests.

(** ** The endpoints *)

Inductive endpoint : Type :=
  | CardRequests (method path authHeader : string) (request : option karticaRequestBody) (otp : option string)
  | ClientCards (method path pathID authHeader : string)
  | EmployeeStatus (claims : option AccessClaims) (brojKartice noviStatus : string)
  | EmployeeCards (claims : option AccessClaims) (brojRacuna : string)
  | OpenAccount (fuel : nat) (claims : option AccessClaims) (input : CreateAccountInput) (kreirajKarticu : bool)
      (tip : string)
  | AccountRequest (q : account_request).

Section endpoints.
Context `{DL : decimal.Lib} `{PT : pg.Text} {CS : CardRequestStore} `{UC : UserClient}.
Context (pepper : string) (verify : string -> option AccessClaims).

Definition handle (c : endpoint) : M unit :=
  match c with
  | CardRequests m p a r o => serve_requests pepper verify m p a r o ;; mret tt
  | ClientCards m p i a => serve_cards verify m p i a ;; mret tt
  | EmployeeStatus c b s => EmployeeChangeCardStatus c b s ;; mret tt
  | EmployeeCards c b => GetAccountCards c b ;; mret tt
  | OpenAccount n c i k t => CreateAccountHandler pepper n c i k t ;; mret tt
  | AccountRequest q => serve q
  end.

(** What the rest of the bank does meanwhile. *)
Definition others (w w' : World) : Prop := accounts_grow (w_db w) (w_db w') /\ w_redis w' = w_redis w.

(** One call, in any environment, or a step of the others. *)
Inductive card_step (w : World) : World -> Prop :=
  | step_call c e r w' : handle c e w = (r, w') -> card_step w w'
  | step_others w' : others w w' -> card_step w w'.

Context {CL : CardRequestStoreLaws CS}.

(** *** The invariant *)

Lemma kept_bind {A B} (m : M A) (k : A -> M B) :
  keeps_cards m -> (forall a, keeps_cards (k a)) -> keeps_cards (x ← m; k x).
Proof. intros Hm Hk s Hs. apply wp_bind. eapply wp_mono; [by apply Hm|intros a s' Hs'; by apply Hk|done]. Qed.

Lemma kept_try {A} (m : M A) : keeps_cards m -> keeps_cards (try m).
Proof. intros Hm s Hs. apply wp_try. eapply wp_mono; [by apply Hm|done|done]. Qed.

Lemma kept_ret {A} (a : A) : keeps_cards (mret a).
Proof. intros s Hs. by apply wp_ret. Qed.

Lemma kept_throw {A} er : keeps_cards (@throw A er).
Proof. intros s Hs. by apply wp_throw. Qed.

Lemma kept_io {A} (f : Env -> nat -> result A) : keeps_cards (io f).
Proof. intros s Hs. by apply wp_io. Qed.

Lemma kept_read {A} (f : DB -> A) : keeps_cards (sql_read f).
Proof. intros s Hs. by apply wp_read. Qed.

Lemma kept_grows {A} (m : M A) : preserves accounts_grow m -> no_redis m -> keeps_cards m.
Proof.
  intros Hg Hr s Hs e w r w' <- H. enough (cards_ok (view w')) by by destruct r.
  unfold view. rewrite (Hr _ _ _ _ H). exact (cards_ok_grow _ _ _ (Hg _ _ _ _ H) Hs).
Qed.

Ltac solve_keeps :=
  repeat match goal with
  | |- keeps_cards (mret _) => apply kept_ret
  | |- keeps_cards (throw _) => apply kept_throw
  | |- keeps_cards (io _) => apply kept_io
  | |- keeps_cards (sql_read _) => apply kept_read
  | |- keeps_cards (mbind _ _) => apply kept_bind; [|intros ?]
  | |- keeps_cards (try _) => apply kept_try
  | |- keeps_cards (RequestKartica _) => apply keeps_RequestKartica
  | |- keeps_cards (ConfirmKartica _ _) => apply keeps_ConfirmKartica
  | |- keeps_cards (BlokirajKarticu _ _) => apply keeps_BlokirajKarticu
  | |- keeps_cards (ChangeEmployeeCardStatus _ _) => apply keeps_ChangeEmployeeCardStatus
  | |- keeps_cards (CreateKarticaZaVlasnika _ _ _) => apply keeps_CreateKarticaZaVlasnika
  | |- keeps_cards (match ?x with _ => _ end) => destruct x
  | |- keeps_cards (let _ := _ in _) => cbv zeta
  end.

Lemma CreateAccount_keeps fuel inp : keeps_cards (CreateAccount fuel inp).
Proof.
  intros s Hs e w r w' Hv H. pose proof (kept_grows _ (serve_grows (ReqCreateAccount fuel inp)) (serve_no_redis _) s Hs e w) as K.
  cbn [serve] in K. destruct r as [a|er].
  - specialize (K (Ok tt) w' Hv). rewrite (bind_run _ _ _ _ _ _ H) in K. by apply K.
  - specialize (K (Err er) w' Hv). rewrite (bind_run_err _ _ _ _ _ _ H) in K. by apply K.
Qed.

Lemma handle_keeps c : keeps_cards (handle c).
Proof.
  destruct c; cbn [handle]; [| | | | |apply kept_grows; [apply serve_grows|apply serve_no_redis]];
    apply kept_bind; try (intros; apply kept_ret);
    unfold serve_requests, handleRequest, handleConfirm, serve_cards, handleGetMojeKartice, GetMojeKartice,
      GetKarticeKorisnika, handleBlokirajKarticu, EmployeeChangeCardStatus, GetAccountCards, GetKarticeZaPortalZaposlenih,
      GetKarticeZaRacunBroj, CreateAccountHandler, card_with_account; solve_keeps; apply CreateAccount_keeps.
Qed.

Lemma card_step_keeps w w' : card_step w w' -> cards_ok (view w) -> cards_ok (view w').
Proof.
  intros [c e r w1 H|w1 [H1 H2]] Hok.
  - pose proof (handle_keeps c (view w) Hok e w r w1 eq_refl H) as K. by destruct r.
  - unfold view. rewrite H2. by apply (cards_ok_grow (w_db w)).
Qed.

(** C28: the rules of cards.  Whatever clients and employees send to the endpoints of
    cards and accounts, in any order, with any failures and any randomness, and
    whatever the rest of the bank does to balances and accounts in between: a
    personal account never has more than two cards and never one of somebody else, a
    business account never two cards of its owner, an authorised person never two
    cards, and a card no second person; every card has a number of its own with the
    right check digit, a hashed CVV and a status and type of the lists, and every
    request that waits for its code is one of the owner of the account. *)
Theorem card_rules_hold w w' : rtc card_step w w' -> cards_ok (view w) -> cards_ok (view w').
Proof. induction 1 as [|w w1 w' H _ IH]; [done|]. intros Hok. by apply IH, (card_step_keeps w). Qed.

(** *** The life of a card *)

Lemma Save_reads o st ttl : reads (SaveCardRequest o st ttl).
Proof.
  intros e w r w' H. pose proof (SaveCardRequest_wp o st ttl (w_db w) (w_redis w) e w r w' eq_refl H) as K.
  destruct r; [by destruct K as [<- _]|by injection K as <- _].
Qed.
Lemma Get_reads o : reads (GetCardRequest o).
Proof.
  intros e w r w' H. pose proof (GetCardRequest_wp o (w_db w) (w_redis w) e w r w' eq_refl H) as K.
  destruct r; [destruct K as [K _]|]; by injection K as <- _.
Qed.
Lemma Delete_reads o : reads (DeleteCardRequest o).
Proof.
  intros e w r w' H. pose proof (DeleteCardRequest_wp o (w_db w) (w_redis w) e w r w' eq_refl H) as K.
  destruct r; [by destruct K as [<- _]|by injection K as <- _].
Qed.
#[local] Hint Resolve Save_reads Get_reads Delete_reads : reads.

Lemma generateBrojKartice_reads tip : reads (generateBrojKartice tip).
Proof. unfold generateBrojKartice. destruct (number_format tip). solve_reads. Qed.
#[local] Hint Resolve generateBrojKartice_reads : reads.

Lemma CreateKartica_evolves input : preserves cards_evolve (CreateKartica input).
Proof.
  apply preserves_sql_insert; [apply _|]. intros i d id d' (m & _ & _ & Hi & _ & _ & ->)%insert_kartica_inv.
  by apply cards_evolve_insert.
Qed.

Lemma CreateSaLicem_evolves input ol : preserves cards_evolve (CreateKarticaSaOvlascenoLicem input ol).
Proof.
  unfold CreateKarticaSaOvlascenoLicem. solve_preserves; [apply CreateKartica_evolves|].
  apply preserves_sql_insert; [apply _|]. intros i d id d' [_ ->]%insert_lice_inv. by apply cards_evolve_same.
Qed.

Lemma employee_evolves num s : preserves cards_evolve (ChangeEmployeeCardStatus num s).
Proof.
  intros e w r w' H%employee_change. destruct r as [k|er]; [|by apply cards_evolve_same].
  destruct H as (m & Hm & _ & Hs & ->). by apply cards_evolve_status.
Qed.

Lemma client_evolves i user : preserves cards_evolve (BlokirajKarticu i user).
Proof.
  intros e w r w' H%client_change. destruct r as [k|er]; [|by apply cards_evolve_same].
  destruct H as (m & a & Hm & _ & _ & Hs & ->). apply cards_evolve_status; [done|]. rewrite Hs. by left.
Qed.

Lemma serve_evolves q : preserves cards_evolve (serve q).
Proof. intros e w r w' H. apply cards_evolve_same. by apply (serve_grows q e w r w' H). Qed.

Lemma CreateAccount_evolves fuel inp : preserves cards_evolve (CreateAccount fuel inp).
Proof.
  intros e w r w' H. pose proof (serve_evolves (ReqCreateAccount fuel inp) e w) as K. cbn [serve] in K. destruct r as [a|er].
  - rewrite (bind_run _ _ _ _ _ _ H) in K. by eapply K.
  - rewrite (bind_run_err _ _ _ _ _ _ H) in K. by eapply K.
Qed.
#[local] Hint Resolve CreateKartica_evolves CreateSaLicem_evolves employee_evolves client_evolves serve_evolves
  CreateAccount_evolves : preserves.

Lemma handle_evolves c : preserves cards_evolve (handle c).
Proof.
  destruct c; cbn [handle]; unfold serve_requests, handleRequest, handleConfirm, serve_cards, handleGetMojeKartice,
    GetMojeKartice, GetKarticeKorisnika, handleBlokirajKarticu, EmployeeChangeCardStatus, GetAccountCards,
    GetKarticeZaPortalZaposlenih, GetKarticeZaRacunBroj, CreateAccountHandler, card_with_account, RequestKartica,
    ConfirmKartica, wrong_otp, CreateKarticaZaVlasnika, GetRacunInfo, GetRacunVlasnikInfo, proveraLimita,
    proveraLimitaFlow2, CountKarticeZaRacun, HasVlasnikovaKarticaPostoji, HasOvlascenoLiceKarticu, generateKarticaData,
    generateCVV, generateOTP, SendCardOTP; solve_preserves.
Qed.

Lemma run_evolves w w' : rtc card_step w w' -> cards_evolve (w_db w) (w_db w').
Proof.
  induction 1 as [|w w1 w' H _ IH]; [reflexivity|]. transitivity (w_db w1); [|done].
  destruct H as [c e r w1 H|w1 [H _]]; [by eapply handle_evolves|]. by apply cards_evolve_same, H.
Qed.

(** The life of a card.  Through any run of the endpoints a card that exists goes on
    existing with the same number, type, account, limit, fees, dates and hash; its
    status moves only between active and blocked, or from one of them to
    deactivated; and a deactivated card is never anything else again. *)
Theorem card_life w w' i m : rtc card_step w w' -> kartice (w_db w) !! i = Some m ->
  exists s, kartice (w_db w') !! i = Some (with_status s m) /\ rtc status_step (kc_Status m) s /\
    (kc_Status m = "DEAKTIVIRANA" -> s = "DEAKTIVIRANA").
Proof.
  intros H Hm. destruct (run_evolves w w' H i m Hm) as (s & Hs & R). exists s. split_and!; [done..|].
  intros E. rewrite E in R. by apply deactivated_stays.
Qed.

(** *** Who may change a status *)

(** C29: what a client can do to cards.  A call of the endpoints for a client's own cards
    changes no row, unless it answers 200 to a block: then the caller has a valid
    token of a client, the card is on an account of this client and was active, and
    blocking it is all that changed. *)
Theorem client_only_blocks_own_card m p i a e w resp w' :
  serve_cards verify m p i a e w = (Ok resp, w') ->
  kartice (w_db w') = kartice (w_db w) \/
  exists user id k acc, requireClientAuth verify a = inr user /\ ParseInt i = (id, true) /\
    kartice (w_db w) !! id = Some k /\ d_racun (w_db w) !! kc_RacunID k = Some acc /\ r_id_vlasnika acc = user /\
    kc_Status k = "AKTIVNA" /\ rs_Status resp = 200 /\
    w_db w' = set_kartica (<[id := with_status "BLOKIRANA" k]> (kartice (w_db w))) (w_db w).
Proof.
  unfold serve_cards. destruct (requireClientAuth verify a) as [r|user] eqn:Ea; [intros [= <- <-]; by left|].
  destruct (_ && _).
  { unfold handleGetMojeKartice, GetMojeKartice, GetKarticeKorisnika. intros H. left.
    assert (Hr : reads (r ← try (sql_read (fun d => (fun x : Z * karticaModel * racun =>
       mkKarticaSaRacunom (kartica_toDomain None x.1) (ri_naziv_racuna (r_info x.2)) (r_broj_racuna x.2)) <$>
      sort_by (fun x => kc_RacunID x.1.2) (sort_by (fun x => x.1.1)
        (filter (fun x => r_id_vlasnika x.2 = user) (with_racun d)))));
      mret (match r with Ok l => mkResponse 200 (CardList l) | Err _ => internal_error end))) by solve_reads.
    by rewrite (Hr _ _ _ _ H). }
  destruct (_ && _); [|intros [= <- <-]; by left]. unfold handleBlokirajKarticu.
  destruct (ParseInt i) as [id []]; [|intros [= <- <-]; by left]. destruct (id <=? 0); [intros [= <- <-]; by left|].
  intros (r & w1 & H1 & H)%try_bind. injection H as <- <-. apply client_change in H1. destruct r as [[]|er]; [|by left].
  destruct H1 as (k & acc & H1 & H2 & H3 & H4 & H5). right. by exists user, id, k, acc.
Qed.

End endpoints.
