(* ===== verification/CardSpecs.v ===== *)
(** * What the two steps of a request for a card answer

    The confirmation: which card is issued, and that a failure leaves the tables as
    they were; the codes that can be tried; what the request does not look at; and
    what is left of an account whose card is refused. *)

From stdpp Require Import list.
From S2P Require Import Prelude Numeric Domain Tables Store StoreFacts OrderRepo Market FundsManager.
From S2P Require Import FundsFacts FundsTransfers GoMath AccountRepo CardNumbers Cards CardHandlers.
From S2P Require Import CardLimits CardRuns.
#[local] Open Scope string_scope.
#[local] Open Scope Z_scope.

(** ** Which card is issued *)

Section confirm.
Context `{DL : decimal.Lib} {CS : CardRequestStore} {CL : CardRequestStoreLaws CS} (pepper : string).

(** The row of a card of a type, of an account, at a time. *)
Record issued (r : racun) (acc : Z) (tip : string) (now : Z) (m : karticaModel) : Prop := {
  is_number : card_number tip (kc_BrojKartice m);
  is_type : kc_TipKartice m = tip /\ tip ∈ tipovi;
  is_kind : kc_VrstaKartice m = "DEBIT" /\ kc_Status m = "AKTIVNA";
  is_account : kc_RacunID m = acc;
  is_created : kc_DatumKreiranja m = now;
  is_expiry : kc_DatumIsteka m = AddDate (truncate_day now) 60;
  is_hashed : exists cvv, kc_CvvKod m = hashCVV cvv pepper;
  is_limit : let l := scan_cents (default 0 (ri_mesecni_limit (r_info r))) in
    store_cents (arg (if f64_leb l f64_zero then defaultLimitKartice else l)) = Some (kc_LimitKartice m);
  is_fees : if String.eqb tip TipKarticaMastercard && String.eqb (r_oznaka r) "RSD"
    then store_fee (Some mcProvizijaProcenat) = Some (kc_ProvizijaProcenat m) /\
         store_fee (Some mcKonverzijaProcenat) = Some (kc_KonverzijaNaknadaProcenat m)
    else kc_ProvizijaProcenat m = None /\ kc_KonverzijaNaknadaProcenat m = None
}.

Lemma info_ok acc e w info w' : GetRacunInfo acc e w = (Ok info, w') ->
  w_db w' = w_db w /\ exists r, d_racun (w_db w) !! acc = Some r /\
    info = mkRacunInfoStruct (r_vrsta_racuna r) (scan_cents (default 0 (ri_mesecni_limit (r_info r)))) (r_oznaka r).
Proof.
  unfold GetRacunInfo. intros H. apply bind_ok in H as (x & w1 & H1 & H). apply sql_read_ok in H1 as [-> E].
  destruct (d_racun (w_db w) !! acc) as [r|] eqn:Er; [|done]. injection H as <- <-. by eauto.
Qed.

Lemma data_ok info tip e w data w' : generateKarticaData pepper info tip e w = (Ok data, w') ->
  w_db w' = w_db w /\ card_number tip (gd_BrojKartice data) /\ (exists cvv, gd_CvvKodHash data = hashCVV cvv pepper) /\
  gd_LimitKartice data = (if f64_leb (ro_MesecniLimit info) f64_zero then defaultLimitKartice else ro_MesecniLimit info) /\
  let charged := String.eqb tip TipKarticaMastercard && String.eqb (ro_ValutaOznaka info) "RSD" in
  gd_ProvizijaProcenat data = (if charged then Some mcProvizijaProcenat else None) /\
  gd_KonverzijaNaknadaProcenat data = (if charged then Some mcKonverzijaProcenat else None).
Proof.
  unfold generateKarticaData, generateCVV. intros H. apply bind_ok in H as (num & w1 & H1 & H).
  apply bind_ok in H as (cvv & w2 & H2 & H). injection H as <- <-.
  assert (E2 : w_db w2 = w_db w1).
  { apply bind_ok in H2 as (z & w3 & H3 & H2). injection H2 as _ <-. unfold rand_Intn, io in H3. by injection H3 as _ <-. }
  pose proof (generateBrojKartice_reads tip e w _ w1 H1) as E1. rewrite E2, <- E1.
  split_and!; try done; [by eapply generated_number|by eexists].
Qed.

(** A lemma of its own: the conversion must not look into the calendar. *)
Lemma expiry_field a b c d f g x h i j k : ck_DatumIsteka (mkCreateKartica a b c d f g x h i j k) = x.
Proof. done. Qed.

Lemma kartica_row_inv input m : kartica_row input = Some m ->
  store_cents (arg (ck_LimitKartice input)) = Some (kc_LimitKartice m) /\
  store_fee (ck_ProvizijaProcenat input) = Some (kc_ProvizijaProcenat m) /\
  store_fee (ck_KonverzijaNaknadaProcenat input) = Some (kc_KonverzijaNaknadaProcenat m) /\
  kc_BrojKartice m = ck_BrojKartice input /\ kc_TipKartice m = ck_TipKartice input /\
  kc_VrstaKartice m = ck_VrstaKartice input /\ kc_DatumKreiranja m = ck_DatumKreiranja input /\
  kc_DatumIsteka m = ck_DatumIsteka input /\ kc_RacunID m = ck_RacunID input /\ kc_CvvKod m = ck_CvvKodHash input /\
  kc_Status m = ck_Status input.
Proof.
  unfold kartica_row. intros (l & E1 & H)%bind_Some. apply bind_Some in H as (p & E2 & H).
  apply bind_Some in H as (k & E3 & [= <-]). cbn. by rewrite E1, E2, E3.
Qed.

Lemma issued_row r acc tip data now m info :
  info = mkRacunInfoStruct (r_vrsta_racuna r) (scan_cents (default 0 (ri_mesecni_limit (r_info r)))) (r_oznaka r) ->
  card_number tip (gd_BrojKartice data) -> (exists cvv, gd_CvvKodHash data = hashCVV cvv pepper) ->
  gd_LimitKartice data = (if f64_leb (ro_MesecniLimit info) f64_zero then defaultLimitKartice else ro_MesecniLimit info) ->
  (let charged := String.eqb tip TipKarticaMastercard && String.eqb (ro_ValutaOznaka info) "RSD" in
   gd_ProvizijaProcenat data = (if charged then Some mcProvizijaProcenat else None) /\
   gd_KonverzijaNaknadaProcenat data = (if charged then Some mcKonverzijaProcenat else None)) ->
  kartica_row (kartica_input acc tip data now) = Some m -> kc_TipKartice m ∈ tipovi -> issued r acc tip now m.
Proof.
  intros -> Hn Hc Hl [Hp Hk] Hrow Ht. unfold kartica_input in Hrow.
  apply kartica_row_inv in Hrow as (L & P & K & B & T & V & D & I & A & C & S).
  cbn [ro_MesecniLimit ro_ValutaOznaka] in Hl, Hp, Hk. rewrite expiry_field in I.
  cbn [ck_LimitKartice ck_ProvizijaProcenat ck_KonverzijaNaknadaProcenat ck_BrojKartice ck_TipKartice ck_VrstaKartice
    ck_Status ck_RacunID ck_DatumKreiranja ck_CvvKodHash] in *.
  rewrite Hl in L. rewrite Hp in P. rewrite Hk in K. clear Hl Hp Hk. split.
  - by rewrite B.
  - split; [exact T|by rewrite <- T].
  - by split.
  - exact A.
  - exact D.
  - exact I.
  - by rewrite C.
  - exact L.
  - destruct (_ && _); [by split|]. injection P as <-. by injection K as <-.
Qed.

(** The tables after the issue of card [id]. *)
Definition with_card (id : Z) (m : karticaModel) (ol : option OvlascenoLiceInput) (d d' : DB) : Prop :=
  kartice d !! id = None /\
  match ol with
  | None => d' = add_card id m None d
  | Some o => exists j, ovlascena_lica d !! j = None /\ d' = add_card id m (Some (j, o)) d
  end.

(** Either way of writing the card. *)
Lemma write_card r acc tip data now info ol e w res w' :
  info = mkRacunInfoStruct (r_vrsta_racuna r) (scan_cents (default 0 (ri_mesecni_limit (r_info r)))) (r_oznaka r) ->
  card_number tip (gd_BrojKartice data) -> (exists cvv, gd_CvvKodHash data = hashCVV cvv pepper) ->
  gd_LimitKartice data = (if f64_leb (ro_MesecniLimit info) f64_zero then defaultLimitKartice else ro_MesecniLimit info) ->
  (let charged := String.eqb tip TipKarticaMastercard && String.eqb (ro_ValutaOznaka info) "RSD" in
   gd_ProvizijaProcenat data = (if charged then Some mcProvizijaProcenat else None) /\
   gd_KonverzijaNaknadaProcenat data = (if charged then Some mcKonverzijaProcenat else None)) ->
  match ol with
  | Some o => CreateKarticaSaOvlascenoLicem (kartica_input acc tip data now) o
  | None => CreateKartica (kartica_input acc tip data now)
  end e w = (res, w') ->
  match res with
  | Ok id => exists m, issued r acc tip now m /\ number_free (kc_BrojKartice m) (kartice (w_db w)) = true /\
      with_card id m ol (w_db w) (w_db w')
  | Err _ => w_db w' = w_db w
  end.
Proof.
  intros Hi Hn Hc Hl Hf H. destruct ol as [o|].
  - unfold CreateKarticaSaOvlascenoLicem in H. destruct res as [id|er]; [|by apply Transaction_err in H].
    apply Transaction_ok in H as (w2 & H & E). apply bind_ok in H as (i & w3 & H3 & H).
    apply sql_insert_ok in H3 as (d3 & H3 & E3). apply insert_kartica_inv in H3 as (m & Hm & -> & Hfree & Ht & Hnum & ->).
    apply bind_ok in H as (j & w4 & H4 & H). injection H as <- <-. apply sql_insert_ok in H4 as (d4 & H4 & E4).
    rewrite E3 in H4. apply insert_lice_inv in H4 as [Hj ->]. exists m. cbn in *. split_and!; [by eapply issued_row|done|].
    split; [done|]. exists (w_seq w3). split; [done|]. destruct E as [E _]. by rewrite E, E4.
  - unfold CreateKartica in H. destruct res as [id|er]; [|by apply sql_err_db in H].
    apply sql_insert_ok in H as (d3 & H & E). apply insert_kartica_inv in H as (m & Hm & -> & Hfree & Ht & Hnum & ->).
    exists m. split_and!; [by eapply issued_row|done|]. by split.
Qed.
Lemma limits_ok acc vrsta ol e w w' : proveraLimitaFlow2 acc vrsta ol e w = (Ok tt, w') ->
  w_db w' = w_db w /\ room (w_db w) acc vrsta ol.
Proof.
  intros H. destruct (looks_limits acc vrsta ol (view w) e w (Ok tt) w' eq_refl H) as [E R]. injection E as E _. done.
Qed.

Lemma limits_reads acc vrsta ol : reads (proveraLimitaFlow2 acc vrsta ol).
Proof.
  unfold proveraLimitaFlow2, CountKarticeZaRacun, HasVlasnikovaKarticaPostoji, HasOvlascenoLiceKarticu.
  destruct vrsta; [|destruct ol]; solve_reads.
Qed.

Lemma info_reads acc : reads (GetRacunInfo acc).
Proof. unfold GetRacunInfo. solve_reads. Qed.

Lemma data_reads info tip : reads (generateKarticaData pepper info tip).
Proof.
  unfold generateKarticaData, generateCVV. apply preserves_bind; [apply _|apply generateBrojKartice_reads|]. intros. solve_reads.
Qed.

Lemma get_ok o e w st w' : GetCardRequest o e w = (Ok st, w') -> w_db w' = w_db w /\ held (w_redis w) o = Some st.
Proof. intros H. destruct (GetCardRequest_wp o (w_db w) (w_redis w) e w (Ok st) w' eq_refl H) as [[= E _] K]. done. Qed.

(** The confirmation of a card, in every environment.  When it answers a card, the
    owner had a request with exactly this code, the account of the request had room
    for the card, and the tables differ by this card only, with the person it is
    for: the number, hash, type, monthly limit (one million when the account has
    none), Mastercard fees and five years of the row are as they should be.  When it
    answers an error, no table has changed. *)
Theorem confirm_card_spec o code e w res w' :
  ConfirmKartica pepper (mkConfirmKartica o code) e w = (res, w') ->
  match res with
  | Ok id => exists st r now m, held (w_redis w) o = Some st /\ cr_OTPCode st = code /\
      d_racun (w_db w) !! cr_AccountID st = Some r /\
      room (w_db w) (cr_AccountID st) (r_vrsta_racuna r) (cr_OvlascenoLice st) /\
      issued r (cr_AccountID st) (cr_TipKartice st) now m /\
      number_free (kc_BrojKartice m) (kartice (w_db w)) = true /\
      with_card id m (cr_OvlascenoLice st) (w_db w) (w_db w')
  | Err _ => w_db w' = w_db w
  end.
Proof.
  unfold ConfirmKartica. cbn [cf_VlasnikID cf_OTPCode]. intros H.
  apply bind_cases in H as [(st & w1 & H1 & H)|(er & -> & H)]; [|by rewrite (Get_reads o _ _ _ _ H)].
  apply get_ok in H1 as [E1 Hst]. destruct (String.eqb_spec (cr_OTPCode st) code) as [Ec|]; cbn [negb] in H.
  2:{ assert (Hw : reads (wrong_otp o st)).
      { unfold wrong_otp. destruct (_ <=? _); (apply preserves_bind; [apply _|apply preserves_try|intros; apply preserves_throw, _]);
          [apply Delete_reads|apply Save_reads]. }
      destruct res as [id|er]; [|by rewrite <- (Hw _ _ _ _ H)]. exfalso. unfold wrong_otp in H.
      destruct (_ <=? _); by apply bind_ok in H as (? & ? & _ & H). }
  apply bind_cases in H as [(info & w2 & H2 & H)|(er & -> & H)]; [|by rewrite <- (info_reads _ _ _ _ _ H)].
  apply info_ok in H2 as (E2 & r & Hr & Ei). rewrite E1 in Hr.
  apply bind_cases in H as [([] & w3 & H3 & H)|(er & -> & H)]; [|rewrite <- (limits_reads _ _ _ _ _ _ _ H); congruence].
  apply limits_ok in H3 as [E3 Hroom]. rewrite E2, E1 in Hroom.
  apply bind_cases in H as [(data & w4 & H4 & H)|(er & -> & H)]; [|rewrite <- (data_reads _ _ _ _ _ _ H); congruence].
  apply data_ok in H4 as (E4 & Hn & Hc & Hl & Hf).
  apply bind_cases in H as [(now & w5 & H5 & H)|(er & -> & H)]; [|by injection H]. apply time_now_ok in H5 as E5. cbv zeta in H.
  assert (E : w_db w5 = w_db w) by congruence.
  apply bind_cases in H as [(id & w6 & H6 & H)|(er & -> & H)].
  - apply (write_card r _ _ _ _ info) in H6 as (m & M1 & M2 & M3); [|done..]. rewrite E in *.
    apply try_bind in H as (r7 & w7 & H7 & H). injection H as <- <-. rewrite <- (Delete_reads o _ _ _ _ H7).
    exists st, r, now, m. rewrite Ei in Hroom. done.
  - apply (write_card r _ _ _ _ info) in H; [|done..]. congruence.
Qed.

End confirm.

(** ** How many codes can be tried *)

(** [m] never answers [er]. *)
Definition never {A} (er : error) (m : M A) : Prop := forall e w w', m e w <> (Err er, w').

Section never.
Context (er : error).

Lemma never_ret {A} (a : A) : never er (mret a).
Proof. by intros e w w' [=]. Qed.
Lemma never_throw {A} er' : er' <> er -> never er (@throw A er').
Proof. intros Hne e w w' [= -> _]. done. Qed.
Lemma never_bind {A B} (m : M A) (k : A -> M B) : never er m -> (forall a, never er (k a)) -> never er (x ← m; k x).
Proof.
  intros Hm Hk e w w' H. apply bind_cases in H as [(a & w1 & _ & H)|(er' & [= <-] & H)]; [by eapply Hk|by eapply Hm].
Qed.
Lemma never_try {A} (m : M A) : never er (try m).
Proof. by intros e w w' (r & [=] & _)%try_run. Qed.
Lemma never_read {A} (f : DB -> A) : er <> ErrDB -> never er (sql_read f).
Proof. intros Hne e w w' H%sql_read_err. done. Qed.
Lemma never_sql {A} (f : DB -> result (A * DB)) :
  er <> ErrDB -> (forall d, f d <> Err er) -> never er (sql f).
Proof.
  intros Hne Hf e w w'. unfold sql. destruct (w_aborted w); [intros [= E _]; congruence|].
  destruct (env_fault _ _); [intros [= E _]; congruence|].
  specialize (Hf (w_db w)). destruct (f (w_db w)) as [[a d]|er']; intros [= E _]. congruence.
Qed.
Lemma never_Transaction {A} (m : M A) : er <> ErrDB -> never er m -> never er (Transaction m).
Proof. intros Hne Hm e w w' [E|(w1 & H)]%Transaction_err_cases; [done|by eapply Hm]. Qed.
End never.

Ltac solve_never :=
  repeat match goal with
  | |- never _ (mret _) => apply never_ret
  | |- never _ (throw _) => by apply never_throw
  | |- never _ (mbind _ _) => apply never_bind; [|intros ?]
  | |- never _ (try _) => apply never_try
  | |- never _ (sql_read _) => by apply never_read
  | |- never _ time_now => by intros ? ? ? [=]
  | |- never _ (Transaction _) => apply never_Transaction; [done|]
  | |- never _ (match ?x with _ => _ end) => destruct x
  end.

(** A wrong code was compared. *)
Definition refused (r : result Z) : Prop := r = Err ErrOTPInvalid \/ r = Err ErrOTPMaxAttempts.
#[export] Instance refused_dec r : Decision (refused r).
Proof. unfold refused. destruct r; [right; by intros [?|?]|]. destruct (decide (e = ErrOTPInvalid)) as [->|]; [by left; left|].
  destruct (decide (e = ErrOTPMaxAttempts)) as [->|]; [by left; right|]. right. by intros [[=]|[=]]. Defined.

Section guesses.
Context `{DL : decimal.Lib} (pepper : string) (o : Z).
#[local] Existing Instance RedisCardRequestStore.

Definition guess (code : string) : M Z := ConfirmKartica pepper (mkConfirmKartica o code).

(** One code after the other, whatever is answered. *)
Fixpoint guess_all (codes : list string) : M (list (result Z)) :=
  match codes with
  | [] => mret []
  | c :: l => r ← try (guess c); rs ← guess_all l; mret (r :: rs)
  end.

(** After the code was found right. *)
Definition issue (st : CardRequestState) : M Z :=
  racunInfo ← GetRacunInfo (cr_AccountID st);
  proveraLimitaFlow2 (cr_AccountID st) (ro_VrstaRacuna racunInfo) (cr_OvlascenoLice st) ;;
  data ← generateKarticaData pepper racunInfo (cr_TipKartice st);
  now ← time_now;
  match cr_OvlascenoLice st with
  | Some ol => CreateKarticaSaOvlascenoLicem (kartica_input (cr_AccountID st) (cr_TipKartice st) data now) ol
  | None => CreateKartica (kartica_input (cr_AccountID st) (cr_TipKartice st) data now)
  end.

Lemma guess_eq code e w : guess code e w =
  (state ← GetCardRequest o;
   if negb (String.eqb (cr_OTPCode state) code) then wrong_otp o state
   else (id ← issue state; try (DeleteCardRequest o) ;; mret id)) e w.
Proof.
  unfold guess, ConfirmKartica, issue, mbind, M_bind. cbn [cf_VlasnikID cf_OTPCode].
  destruct (GetCardRequest o e w) as [[st|er] w1]; [|done]. destruct (negb _); [done|].
  destruct (GetRacunInfo _ e w1) as [[info|er] w2]; [|done]. destruct (proveraLimitaFlow2 _ _ _ e w2) as [[[]|er] w3]; [|done].
  destruct (generateKarticaData _ _ _ e w3) as [[data|er] w4]; [|done]. by destruct (time_now e w4) as [[now|er] w5].
Qed.

Lemma insert_never er input i d : er <> ErrDB -> insert_kartica input i d <> Err er.
Proof.
  unfold insert_kartica, insert_kartica_row, insert_row. intros Hne. destruct (kartica_row input); [|congruence].
  destruct (kartica_checks _ _); [|congruence]. destruct (kartice d !! i); congruence.
Qed.

Lemma insert_lice_never er x i d : er <> ErrDB -> insert_lice x i d <> Err er.
Proof.
  unfold insert_lice, insert_row. intros Hne. destruct (_ && _); [|congruence]. destruct (ovlascena_lica d !! i); congruence.
Qed.

Lemma number_never er tip : never er (generateBrojKartice tip).
Proof.
  intros e w w' H. unfold generateBrojKartice in H. pose proof (format_facts tip) as F. destruct (number_format tip) as [iin n].
  destruct F as (_ & [k ->] & _). apply bind_cases in H as [(z & w1 & _ & [=])|(er' & _ & H)].
  unfold rand_Intn, io in H. replace (10 ^ Z.of_nat (S k) <=? 0) with false in H; [done|].
  symmetry. apply Z.leb_gt, Z.pow_pos_nonneg; lia.
Qed.

Lemma issue_never er st : er = ErrOTPInvalid \/ er = ErrOTPMaxAttempts -> never er (issue st).
Proof.
  intros Her. assert (Hne : er <> ErrDB) by (destruct Her; congruence).
  assert (Hins : forall input, never er (CreateKartica input)).
  { intros input e w w'. apply never_sql; [done|]. intros d. by apply insert_never. }
  unfold issue, GetRacunInfo, proveraLimitaFlow2, CountKarticeZaRacun, HasVlasnikovaKarticaPostoji, HasOvlascenoLiceKarticu,
    generateKarticaData, generateCVV, CreateKarticaSaOvlascenoLicem.
  repeat match goal with
  | |- never _ (throw _) => apply never_throw; destruct Her; congruence
  | |- never _ (sql_read _) => by apply never_read
  | |- never _ (generateBrojKartice _) => apply number_never
  | |- never _ (CreateKartica _) => apply Hins
  | |- never _ (rand_Intn _) => by intros ? ? ? [=]
  | |- never _ (Transaction _) => apply never_Transaction; [done|]
  | |- never _ (sql_insert (insert_kartica _)) => apply Hins
  | |- never _ (sql_insert (insert_lice _)) =>
      intros e w w'; apply never_sql; [done|intros d; by apply insert_lice_never]
  | _ => progress solve_never
  end.
Qed.

Lemma issue_no_redis st : no_redis (issue st).
Proof.
  assert (Hn : forall tip, no_redis (generateBrojKartice tip)).
  { intros tip. unfold generateBrojKartice. destruct (number_format tip). solve_no_redis. }
  unfold issue, GetRacunInfo, proveraLimitaFlow2, CountKarticeZaRacun, HasVlasnikovaKarticaPostoji, HasOvlascenoLiceKarticu,
    generateKarticaData, generateCVV, CreateKarticaSaOvlascenoLicem, CreateKartica; solve_no_redis; apply Hn.
Qed.

Lemma redis_run {A} (f : Z -> Redis -> result A * Redis) e w : no_faults e ->
  redis_command f e w = let '(a, r) := f (env_now e (w_step w)) (w_redis w) in (a, next_step (set_redis r w)).
Proof. intros He. unfold redis_command. by rewrite He. Qed.

(** What one guess does to the request. *)
Inductive guessed (code : string) (h : Redis) (r : result Z) (h' : Redis) : Prop :=
  | guessed_nothing : r = Err ErrCardRequestNotFound -> h' = h -> guessed code h r h'
  | guessed_last st t : h !! o = Some (st, t) -> maxOTPAttempts <= cr_Attempts st + 1 -> r = Err ErrOTPMaxAttempts ->
      h' = delete o h -> guessed code h r h'
  | guessed_wrong st t t' : h !! o = Some (st, t) -> cr_Attempts st + 1 < maxOTPAttempts -> r = Err ErrOTPInvalid ->
      h' = <[o := (with_attempts (cr_Attempts st + 1) st, t')]> h -> guessed code h r h'
  | guessed_right st t id : h !! o = Some (st, t) -> cr_OTPCode st = code -> r = Ok id -> h' = delete o h -> guessed code h r h'
  | guessed_failed er : r = Err er -> ~ refused r -> h' = h -> guessed code h r h'.

Lemma guess_step code e w r w' : no_faults e -> guess code e w = (r, w') -> guessed code (w_redis w) r (w_redis w').
Proof.
  intros He H. rewrite guess_eq in H. apply bind_cases in H as [(st & w1 & H1 & H)|(er & -> & H)];
    cbn [GetCardRequest RedisCardRequestStore] in *; rewrite redis_run in * by done.
  2:{ destruct (w_redis w !! o) as [[st t]|]; [destruct (_ <? _); [done|]|]; injection H as <- <-; by apply guessed_nothing. }
  destruct (w_redis w !! o) as [[st' t]|] eqn:Eo; [|done]. destruct (_ <? t); [|done]. injection H1 as -> <-.
  destruct (String.eqb_spec (cr_OTPCode st) code) as [Ec|Ec]; cbn [negb] in H.
  - apply bind_cases in H as [(id & w2 & H2 & H)|(er & -> & H)].
    + apply issue_no_redis in H2. apply try_bind in H as (r3 & w3 & H3 & H). injection H as <- <-.
      cbn [DeleteCardRequest RedisCardRequestStore] in H3. rewrite redis_run in H3 by done. injection H3 as _ <-.
      eapply guessed_right; [exact Eo|done|done|]. cbn. by rewrite H2.
    + eapply guessed_failed; [done| |apply issue_no_redis in H; by rewrite H].
      intros [[= ->]|[= ->]]; [by eapply (issue_never ErrOTPInvalid); [left|]|by eapply (issue_never ErrOTPMaxAttempts); [right|]].
  - unfold wrong_otp in H. destruct (Z.leb_spec maxOTPAttempts (cr_Attempts st + 1)) as [Hl|Hl];
      apply try_bind in H as (r3 & w3 & H3 & H); injection H as <- <-;
      cbn [DeleteCardRequest SaveCardRequest RedisCardRequestStore] in H3; rewrite redis_run in H3 by done; injection H3 as _ <-.
    + by eapply guessed_last.
    + eapply guessed_wrong; [exact Eo|done|done|]. by cbn.
Qed.

Definition refusals (rs : list (result Z)) : Z := Z.of_nat (length (filter refused rs)).

Lemma refusals_cons r rs : refusals (r :: rs) = (if decide (refused r) then 1 else 0) + refusals rs.
Proof. unfold refusals. rewrite filter_cons. destruct (decide (refused r)); cbn [length]; lia. Qed.

(** Nothing comes from guesses without a request. *)
Lemma guess_none codes : forall e w rs w', no_faults e -> w_redis w !! o = None -> guess_all codes e w = (Ok rs, w') ->
  refusals rs = 0 /\ forall k id, rs !! k <> Some (Ok id).
Proof.
  induction codes as [|c codes IH]; intros e w rs w' He Hn H; [by injection H as <- _|].
  apply try_bind in H as (r & w1 & H1 & H). apply bind_ok in H as (rs1 & w2 & H2 & H). injection H as <- <-.
  apply guess_step in H1; [|done]. assert (Hr : ~ refused r /\ (forall id, r <> Ok id) /\ w_redis w1 !! o = None).
  { destruct H1 as [-> ->|? ? E|? ? ? E|? ? ? E|er -> Hr ->]; [by split_and!; [intros [?|?]|..]|congruence..|by split_and!]. }
  destruct Hr as (Hr1 & Hr2 & Hr3). destruct (IH e w1 rs1 w2 He Hr3 H2) as [I1 I2].
  rewrite refusals_cons, decide_False, I1 by done. split; [done|]. intros [|k] id; cbn; [intros [= E]; by eapply Hr2|apply I2].
Qed.

(** Three wrong codes at most.  However many codes an owner sends, one after the
    other with Redis at work, and whatever becomes of the card after a right one: the
    wrong codes that are compared and those that the request has on its account are
    three together at most; a card is only issued for the code of the request, and
    only while fewer than three wrong ones have been compared. *)
Theorem three_wrong_card_codes codes e w rs w' st t :
  no_faults e -> guess_all codes e w = (Ok rs, w') -> w_redis w !! o = Some (st, t) -> 0 <= cr_Attempts st < maxOTPAttempts ->
  cr_Attempts st + refusals rs <= maxOTPAttempts /\
  forall k id, rs !! k = Some (Ok id) -> codes !! k = Some (cr_OTPCode st) /\
    cr_Attempts st + refusals (take k rs) < maxOTPAttempts.
Proof.
  revert w rs st t. induction codes as [|c codes IH]; intros w rs st t He H Ho Ha.
  { injection H as <- _. unfold refusals. cbn. split; [lia|done]. }
  apply try_bind in H as (r & w1 & H1 & H). apply bind_ok in H as (rs1 & w2 & H2 & H). injection H as <- ->.
  apply guess_step in H1; [|done]. destruct H1 as [-> E|st' t' E Hl -> E2|st' t' t2 E Hl -> E2|st' t' id E Ec -> E2|er -> Hr E].
  - destruct (IH w1 rs1 st t He H2) as [I1 I2]; [by rewrite E|done|]. rewrite refusals_cons, decide_False by (by intros [?|?]).
    split; [lia|]. intros [|k] id Hk; [done|]. cbn [take]. rewrite refusals_cons, decide_False by (by intros [?|?]). by apply I2 in Hk.
  - assert (st' = st) as -> by congruence. destruct (guess_none codes e w1 rs1 w' He) as [I1 I2]; [by rewrite E2, lookup_delete_eq|done|].
    rewrite refusals_cons, decide_True, I1 by by right. split; [lia|]. intros [|k] id Hk; [done|]. by apply I2 in Hk.
  - assert (st' = st) as -> by congruence.
    destruct (IH w1 rs1 (with_attempts (cr_Attempts st + 1) st) t2 He H2) as [I1 I2]; [by rewrite E2, lookup_insert_eq|cbn; lia|].
    cbn [with_attempts cr_Attempts cr_OTPCode] in I1, I2. rewrite refusals_cons, decide_True by by left. split; [lia|].
    intros [|k] id Hk; [done|]. cbn [take]. rewrite refusals_cons, decide_True by by left. apply I2 in Hk as [K1 K2].
    split; [done|lia].
  - assert (st' = st) as -> by congruence. destruct (guess_none codes e w1 rs1 w' He) as [I1 I2]; [by rewrite E2, lookup_delete_eq|done|].
    rewrite refusals_cons, decide_False, I1 by (by intros [?|?]). split; [lia|]. intros [|k] id' Hk; [|by apply I2 in Hk].
    cbn. rewrite Ec. split; [done|]. unfold refusals. cbn. lia.
  - destruct (IH w1 rs1 st t He H2) as [I1 I2]; [by rewrite E|done|]. rewrite refusals_cons, decide_False by done.
    split; [lia|]. intros [|k] id Hk; [done|]. cbn [take]. rewrite refusals_cons, decide_False by done. by apply I2 in Hk.
Qed.

End guesses.

(** ** What is not looked at *)

Section unchecked.
Context `{DL : decimal.Lib} `{PT : pg.Text} `{UC : UserClient} (pepper : string).
#[local] Existing Instance RedisCardRequestStore.

Definition with_type (tip : string) (inp : RequestKarticaInput) : RequestKarticaInput :=
  mkRequestKartica (rq_RacunID inp) (rq_VlasnikID inp) (rq_VlasnikEmail inp) tip (rq_OvlascenoLice inp).

(** What follows the code of a request. *)
Definition store_and_send (inp : RequestKarticaInput) (otp : string) : M unit :=
  SaveCardRequest (rq_VlasnikID inp) (mkCardRequestState (rq_RacunID inp) (rq_TipKartice inp) (rq_OvlascenoLice inp) otp 0) 300 ;;
  sent ← try (SendCardOTP (rq_VlasnikEmail inp) otp);
  match sent with
  | Ok _ => mret tt
  | Err _ => try (DeleteCardRequest (rq_VlasnikID inp)) ;; throw ErrNotificationFailed
  end.

(** What comes before it. *)
Definition before_code (inp : RequestKarticaInput) : M string :=
  racunInfo ← GetRacunVlasnikInfo (rq_RacunID inp);
  of_result (check_request inp racunInfo) ;;
  proveraLimitaFlow2 (rq_RacunID inp) (rv_VrstaRacuna racunInfo) (rq_OvlascenoLice inp) ;;
  generateOTP.

Lemma request_eq inp e w : RequestKartica inp e w = (otp ← before_code inp; store_and_send inp otp) e w.
Proof.
  unfold RequestKartica, before_code, store_and_send, mbind, M_bind.
  destruct (GetRacunVlasnikInfo _ e w) as [[info|er] w1]; [|done]. destruct (of_result _ e w1) as [[[]|er] w2]; [|done].
  destruct (proveraLimitaFlow2 _ _ _ e w2) as [[[]|er] w3]; [|done]. by destruct (generateOTP e w3) as [[otp|er] w4].
Qed.

(** Both the answer and the stored request. *)
Lemma store_and_send_run inp otp e w :
  let r := (store_and_send inp otp e w).1 in
  r = (if env_fault e (w_step w) then Err ErrDB
       else if env_fault e (S (w_step w)) then Err ErrNotificationFailed else Ok tt) /\
  (r = Ok tt -> w_redis (store_and_send inp otp e w).2 !! rq_VlasnikID inp =
     Some (mkCardRequestState (rq_RacunID inp) (rq_TipKartice inp) (rq_OvlascenoLice inp) otp 0, env_now e (w_step w) + 300)).
Proof.
  unfold store_and_send, SendCardOTP, mbind, M_bind, try, io. cbn [SaveCardRequest DeleteCardRequest RedisCardRequestStore].
  unfold redis_command. destruct (env_fault e (w_step w)); [by split|]. cbn [w_step next_step set_redis].
  destruct (env_fault e (S (w_step w))).
  - cbn [w_step next_step set_redis]. by destruct (env_fault e (S (S (w_step w)))).
  - cbn. split; [done|]. intros _. apply lookup_insert_eq.
Qed.

(** Nobody checks the type of a requested card.  A request gets the same answer
    whatever type of card it names, a type that does not exist or a DinaCard for an
    account in euros included; and when it is accepted, the request that waits for
    its code has that type. *)
Theorem request_never_checks_type tip inp e w :
  (RequestKartica (with_type tip inp) e w).1 = (RequestKartica inp e w).1 /\
  ((RequestKartica inp e w).1 = Ok tt -> exists st t,
     w_redis (RequestKartica (with_type tip inp) e w).2 !! rq_VlasnikID inp = Some (st, t) /\
     cr_TipKartice st = tip /\ cr_AccountID st = rq_RacunID inp).
Proof.
  rewrite !request_eq. change (before_code (with_type tip inp)) with (before_code inp).
  unfold mbind, M_bind. destruct (before_code inp e w) as [[otp|er] w1]; [|by split].
  destruct (store_and_send_run inp otp e w1) as [E1 _].
  destruct (store_and_send_run (with_type tip inp) otp e w1) as [E2 K]. rewrite E2, E1 in *. split; [done|].
  intros Hok. specialize (K Hok). eexists _, _. split; [exact K|done].
Qed.

(** A wrong code is not counted when Redis cannot be written: the answer is that the
    code was wrong, and the request waits with the attempts it had. *)
Lemma lost_attempt o code e w st t :
  env_fault e (w_step w) = false -> env_fault e (S (w_step w)) = true -> w_redis w !! o = Some (st, t) ->
  env_now e (w_step w) < t -> cr_OTPCode st <> code -> cr_Attempts st + 1 < maxOTPAttempts ->
  exists w', guess pepper o code e w = (Err ErrOTPInvalid, w') /\ w_redis w' = w_redis w.
Proof.
  intros F1 F2 Ho Ht Hne Ha. rewrite guess_eq. unfold mbind, M_bind, wrong_otp, try.
  cbn [GetCardRequest SaveCardRequest RedisCardRequestStore]. unfold redis_command. rewrite F1, Ho.
  replace (env_now e (w_step w) <? t) with true by lia. rewrite (proj2 (String.eqb_neq _ _) Hne). cbn [negb].
  replace (maxOTPAttempts <=? cr_Attempts st + 1) with false by lia. unfold mbind, M_bind. cbn [w_step next_step set_redis].
  rewrite F2. eexists. split; [reflexivity|]. by destruct w.
Qed.

(** An account stays when its card is refused: the employee is told that the request
    was invalid, and the account exists. *)
Lemma refused_card_keeps_account fuel claims inp tip email e w id w1 r :
  cl_UserType claims = "EMPLOYEE" -> uc_GetClientEmail (w_step w) (ca_VlasnikID inp) = inr email ->
  to_upper email <> to_upper "drzava@exbanka.rs" ->
  CreateAccount fuel inp e (next_step w) = (Ok (Some id), w1) -> d_racun (w_db w1) !! id = Some r ->
  no_faults e -> w_aborted w1 = false -> tip <> EmptyString -> tip ∉ tipovi ->
  exists w', CreateAccountHandler pepper fuel (Some claims) inp true tip e w = (Ok (Some (inl InvalidArgument), []), w') /\
    d_racun (w_db w') !! id = Some r.
Proof.
  intros Hc He Hd Ha Hr Hf Hab Ht1 Ht2. exists (next_step w1).
  unfold CreateAccountHandler. rewrite Hc, String.eqb_refl. cbn [negb]. unfold mbind at 1, M_bind at 1, io. rewrite He.
  rewrite (proj2 (String.eqb_neq _ _) Hd). rewrite (bind_run _ _ _ _ _ _ (try_eq _ _ _ _ _ Ha)).
  assert (Hcard : CreateKarticaZaVlasnika pepper id tip e w1 = (Err ErrNepoznatTipKartice, next_step w1)).
  { unfold CreateKarticaZaVlasnika, GetRacunInfo. rewrite bind_assoc.
    rewrite (bind_run _ _ _ _ (Some r) (next_step w1)) by (unfold sql_read; rewrite sql_run by done; by rewrite Hr; destruct w1).
    unfold mbind, M_bind, mret, M_ret. rewrite bool_decide_eq_false_2 by done. done. }
  unfold card_with_account. cbn [negb]. rewrite (proj2 (String.eqb_neq _ _) Ht1).
  rewrite bind_assoc, (bind_run _ _ _ _ _ _ (try_eq _ _ _ _ _ Hcard)). by split.
Qed.

End unchecked.
