(* ===== verification/CardExamples.v ===== *)
(** * The card theorems applied to a concrete bank

    Client 7 has a personal account in euros (11), client 8 a business account in
    dinars (20).  Client 7 asks for a DinaCard, which the bank says it only issues for
    dinar accounts, and gets it; then it blocks the card and an employee deactivates
    it.  Client 8 asks for a Mastercard for a worker. *)

From stdpp Require Import list relations pretty.
From S2P Require Import Prelude Numeric DecimalModel Domain InterbankTables Tables Store StoreFacts OrderRepo.
From S2P Require Import Market FundsManager Scenario InterbankExecutor GoMath AccountRepo PaymentRepo AccountTypes.
From S2P Require Import CardNumbers Cards CardHandlers CardLimits CardRuns CardSpecs.
#[local] Open Scope string_scope.
#[local] Open Scope Z_scope.

Module card_bank.
#[local] Existing Instance decimal_model.lib.
#[local] Existing Instance RedisCardRequestStore.

#[local] Instance texts : pg.Text := {|
  pg.uuid_in s := if String.eqb s EmptyString then None else Some (Npos (encode s));
  pg.uuid_out n := pretty n;
  pg.ilike _ _ := true |}.

#[local] Instance users : UserClient := {|
  uc_GetMyEmail _ := Ok "pera@raf.rs";
  uc_GetClientEmail _ _ := inr "pera@raf.rs";
  uc_GetClientInfo _ _ := Ok ("Pera", "Peric", "pera@raf.rs") |}.

Definition verify (token : string) : option AccessClaims :=
  if String.eqb token "t7" then Some (mkClaims "pera@raf.rs" "CLIENT" [] "7")
  else if String.eqb token "t8" then Some (mkClaims "mika@raf.rs" "CLIENT" [] "8") else None.

Definition employee : option AccessClaims := Some (mkClaims "zika@raf.rs" "EMPLOYEE" [] "1").

Definition info (mesecni : Z) : racunInfo :=
  mkRacunInfo 1 None "TEKUCI" None "racun" 0 0 (Some 0) (Some mesecni) 0 0.

Definition racuni : gmap Z racun :=
list_to_map [(11, mkRacun "110" 7 "EUR" LICNI AKTIVAN 50000 0 (info 0));
             (20, mkRacun "200" 8 "RSD" POSLOVNI AKTIVAN 900000 0 (info 2500000))].

Definition db0 : DB := mkDB racuni [] ∅ [] [] [] ∅ [] ∅ ∅ ∅ ∅ ∅ bank_empty otc_empty.
Definition w0 : World := scenario.at_db db0.
Definition e : Env := scenario.quiet.

(** [crypto/rand] answers 3 each time. *)
Definition otp : string := "000003".
Definition number : string := "9891000000000037".

Definition worker : OvlascenoLiceInput :=
  mkOvlascenoLiceInput "Ana" "Anic" "Z" "ana@firma.rs" "060" "Knez Mihailova 1" 631152000.

Definition ask : endpoint :=
  CardRequests "POST" "/bank/cards/request" "Bearer t7" (Some (mkRequestBody 11 "DINACARD" None)) None.
Definition confirm : endpoint := CardRequests "POST" "/bank/cards/confirm" "Bearer t7" None (Some otp).
Definition block : endpoint := ClientCards "PATCH" "/bank/cards/100/block" "100" "Bearer t7".
Definition deactivate : endpoint := EmployeeStatus employee number "DEAKTIVIRANA".
Definition ask8 : endpoint :=
  CardRequests "POST" "/bank/cards/request" "Bearer t8" (Some (mkRequestBody 20 "MASTERCARD" (Some worker))) None.
Definition confirm8 : endpoint := CardRequests "POST" "/bank/cards/confirm" "Bearer t8" None (Some otp).

Definition after (c : endpoint) (w : World) : World := (handle "pepper" verify c e w).2.
Definition w1 : World := after ask w0.
Definition w2 : World := after confirm w1.
Definition w3 : World := after block w2.
Definition w4 : World := after deactivate w3.
Definition w5 : World := after ask8 w4.
Definition w6 : World := after confirm8 w5.

Definition card (id : Z) (w : World) := (fun m => (kc_BrojKartice m, kc_TipKartice m, kc_RacunID m, kc_Status m,
  kc_LimitKartice m, kc_ProvizijaProcenat m)) <$> kartice (w_db w) !! id.

(** A DinaCard on an account in euros; then its life; then the card of a worker, with
    the fees of a Mastercard in dinars and the limit of the account. *)
Example run_of_cards :
  w_redis w1 !! 7 = Some (mkCardRequestState 11 "DINACARD" None otp 0, 400) /\
  card 100 w2 = Some (number, "DINACARD", 11, "AKTIVNA", 100000000, None) /\ w_redis w2 !! 7 = None /\
  card 100 w3 = Some (number, "DINACARD", 11, "BLOKIRANA", 100000000, None) /\
  card 100 w4 = Some (number, "DINACARD", 11, "DEAKTIVIRANA", 100000000, None) /\
  card 101 w6 = Some ("5123450000000032", "MASTERCARD", 20, "AKTIVNA", 2500000, Some 200) /\
  ol_KarticaID <$> ovlascena_lica (w_db w6) !! 102 = Some 101.
Proof. vm_compute. repeat split. Qed.

(** The reference check of the number by hand. *)
Example number_is_valid : luhn_valid (digits_of number).
Proof. vm_compute. reflexivity. Qed.

Lemma calls c w : card_step "pepper" verify w (after c w).
Proof. apply (step_call "pepper" verify w c e (handle "pepper" verify c e w).1). unfold after. apply surjective_pairing. Qed.

Lemma steps26 : rtc (card_step "pepper" verify) w2 w6.
Proof.
  apply (rtc_l _ w2 w3 w6 (calls block w2)), (rtc_l _ w3 w4 w6 (calls deactivate w3)).
  apply (rtc_l _ w4 w5 w6 (calls ask8 w4)), (rtc_l _ w5 w6 w6 (calls confirm8 w5)), rtc_refl.
Qed.

Lemma steps06 : rtc (card_step "pepper" verify) w0 w6.
Proof. exact (rtc_l _ w0 w1 w6 (calls ask w0) (rtc_l _ w1 w2 w6 (calls confirm w1) steps26)). Qed.

(** A bank without cards is in order. *)
Lemma start_ok : cards_ok (view w0).
Proof.
  split; cbn [view fst snd].
  - intros i m H. vm_compute in H. discriminate.
  - intros i j m m' H. vm_compute in H. discriminate.
  - intros j o H. vm_compute in H. discriminate.
  - intros i j o o' H. vm_compute in H. discriminate.
  - intros acc _. vm_compute. discriminate.
  - intros acc _. change (length (owner_cards acc (w_db w0))) with O. lia.
  - intros o st H. vm_compute in H. discriminate.
Qed.

Lemma card_rules_hold_witness :
  cards_ok (view w0) /\ cards_ok (view w6).
Proof.
  split; [exact start_ok|]. apply (card_rules_hold "pepper" verify w0 w6); [exact steps06|exact start_ok].
Defined.

Lemma card_numbers_are_luhn_witness :
  (generateBrojKartice "AMEX" e w0).1 = Ok "341234000000037" /\ card_number "AMEX" "341234000000037".
Proof.
  split; [vm_compute; reflexivity|].
  apply (card_numbers_are_luhn "AMEX" e w0 "341234000000037" (generateBrojKartice "AMEX" e w0).2).
  vm_compute. reflexivity.
Defined.

Definition issued_card : option karticaModel := Eval vm_compute in kartice (w_db w2) !! 100.

Lemma card_life_witness : exists m s,
  kartice (w_db w2) !! 100 = Some m /\ kc_Status m = "AKTIVNA" /\
  kartice (w_db w6) !! 100 = Some (with_status s m) /\ rtc status_step (kc_Status m) s.
Proof.
  destruct (kartice (w_db w2) !! 100) as [m|] eqn:Hm; [|vm_compute in Hm; discriminate].
  destruct (card_life "pepper" verify w2 w6 100 m steps26 Hm) as (s & H1 & H2 & _). exists m, s.
  split; [reflexivity|]. split; [vm_compute in Hm; injection Hm as <-; reflexivity|]. split; [exact H1|exact H2].
Defined.

Lemma client_only_blocks_own_card_witness :
  (serve_cards verify "PATCH" "/bank/cards/100/block" "100" "Bearer t7" e w2).1
    = Ok (mkResponse 200 (Message "Kartica je uspešno blokirana")) /\
  exists user id k acc, requireClientAuth verify "Bearer t7" = inr user /\ ParseInt "100" = (id, true) /\
    kartice (w_db w2) !! id = Some k /\ d_racun (w_db w2) !! kc_RacunID k = Some acc /\ r_id_vlasnika acc = user.
Proof.
  split; [vm_compute; reflexivity|].
  destruct (client_only_blocks_own_card verify "PATCH" "/bank/cards/100/block" "100" "Bearer t7" e w2
    (mkResponse 200 (Message "Kartica je uspešno blokirana"))
    (serve_cards verify "PATCH" "/bank/cards/100/block" "100" "Bearer t7" e w2).2) as [H|H].
  - vm_compute. reflexivity.
  - exfalso. apply (f_equal (fun m => kc_Status <$> m !! 100)) in H. vm_compute in H. discriminate.
  - destruct H as (user & id & k & acc & H1 & H2 & H3 & H4 & H5 & _). exists user, id, k, acc.
    exact (conj H1 (conj H2 (conj H3 (conj H4 H5)))).
Defined.

Definition confirmed := ConfirmKartica "pepper" (mkConfirmKartica 7 otp) e w1.

Lemma confirm_card_spec_witness :
  confirmed.1 = Ok 100 /\
  exists now m, issued "pepper" (mkRacun "110" 7 "EUR" LICNI AKTIVAN 50000 0 (info 0)) 11 "DINACARD" now m.
Proof.
  split; [vm_compute; reflexivity|].
  assert (H := confirm_card_spec "pepper" 7 otp e w1 (Ok 100) confirmed.2).
  destruct H as (st & r & now & m & H1 & _ & H2 & _ & H3 & _).
  - vm_compute. reflexivity.
  - vm_compute in H1. injection H1 as <-. vm_compute in H2. injection H2 as <-. exists now, m. exact H3.
Defined.

Definition guesses : list string := ["111111"; "222222"; otp; "333333"].

Lemma three_wrong_card_codes_witness :
  (guess_all "pepper" 7 guesses e w1).1 = Ok [Err ErrOTPInvalid; Err ErrOTPInvalid; Ok 100; Err ErrCardRequestNotFound] /\
  0 + refusals [Err ErrOTPInvalid; Err ErrOTPInvalid; Ok 100; Err ErrCardRequestNotFound] <= maxOTPAttempts.
Proof.
  split; [vm_compute; reflexivity|].
  apply (three_wrong_card_codes "pepper" 7 guesses e w1 [Err ErrOTPInvalid; Err ErrOTPInvalid; Ok 100; Err ErrCardRequestNotFound]
    (guess_all "pepper" 7 guesses e w1).2 (mkCardRequestState 11 "DINACARD" None otp 0) 400).
  - intros n. reflexivity.
  - vm_compute. reflexivity.
  - vm_compute. reflexivity.
  - cbn. unfold maxOTPAttempts. lia.
Defined.

Definition visa : RequestKarticaInput := mkRequestKartica 11 7 "pera@raf.rs" "VISA" None.

Lemma request_never_checks_type_witness :
  (RequestKartica visa e w0).1 = Ok tt /\ (RequestKartica (with_type "ZLATNA" visa) e w0).1 = Ok tt.
Proof.
  split; [vm_compute; reflexivity|].
  destruct (request_never_checks_type "ZLATNA" visa e w0) as [-> _]. vm_compute. reflexivity.
Defined.

End card_bank.
