(* ===== verification/Tax.v ===== *)
(** * Capital gains tax ([service/tax_service.go], [handler/tax_handler.go],
    [worker/monthly_tax_worker.go])

    The tax of a calendar month: 15% of the gain on shares sold in it, per user and
    account, taken from the account the shares were traded on and paid to the state.
    The query for the gains is the function of the tables that its SQL denotes, in
    the float8 of PostgreSQL, with sums in the order of the rows; the advisory locks
    are answers of the environment.  Instants of periods are microseconds, times of
    fills whole seconds; the times of writing of [tax_records] are left out. *)

From S2P Require Import Prelude Numeric Domain Tables Store StoreFacts OrderRepo Market FundsManager.
From S2P Require Import GoMath AccountRepo OtcRepo CardNumbers Cards CardHandlers.
From stdpp Require Import list sorting pretty.
From Stdlib Require Import SpecFloat.
#[local] Open Scope string_scope.
#[local] Open Scope Z_scope.

(** PostgreSQL's cast of a NUMERIC to float8, and [pg_try_advisory_lock] at the
    number of the statement. *)
Class TaxServer : Type := {
  float8_of_numeric : Q -> float64;
  pg_try_advisory_lock : nat -> Z -> bool
}.

(** [GetEmployeeInfo] and [GetClientInfo] of the user service: first name, last name
    and e-mail. *)
Class TaxUserClient : Type := {
  tu_GetEmployeeInfo : nat -> Z -> option (string * string * string);
  tu_GetClientInfo : nat -> Z -> option (string * string * string)
}.

Definition TaxRate : float64 := f64_lit 15 2.
Definition drzavaEmail : string := "drzava@exbanka.rs".
Definition drzavaBrojRacuna : string := "666000112000000001".
Definition TaxTriggeredByCron : string := "CRON".
Definition TaxTriggeredByManual : string := "MANUAL".

(** ** Periods *)

Definition micros_of_day (day : Z) : Z := 86400000000 * day.

(** [time.Date(year, month, 1, ...)], the month from 1. *)
Definition month_first (year month : Z) : Z := micros_of_day (nth_month year (month - 1)).

Definition MonthWindow (year month : Z) : Z * Z := (month_first year month, month_first year (month + 1) - 1).

(** [t.Year()] and [t.Month()] of an instant of a period. *)
Definition year_month (t : Z) : Z * Z := let '(y, m, _) := Date (t / 86400000000) in (y, m + 1).

(** [now.Year()] and [now.Month()]. *)
Definition now_month (now : Z) : Z * Z := let '(y, m, _) := Date (truncate_day now) in (y, m + 1).

Definition CurrentMonthWindow (now : Z) : Z * Z := let '(y, m) := now_month now in MonthWindow y m.

Definition PreviousMonthWindow (now : Z) : Z * Z :=
  let '(y, m) := now_month now in
  let start := month_first y (m - 1) in
  let '(ys, ms) := year_month start in
  (start, month_first ys (ms + 1) - 1).

(** ** Advisory keys *)

(** FNV-1a of 64 bits. *)
Definition fnv64a (bytes : list Z) : Z :=
  foldl (fun h b => Z.lxor h b * 1099511628211 mod 2 ^ 64) 14695981039346656037 bytes.

Definition advisoryKey (s : string) : Z :=
  let h := fnv64a (bytes_of s) in if h <? 2 ^ 63 then h else h - 2 ^ 64.

Definition periodLockKey (start : Z) : Z :=
  let '(y, m) := year_month start in advisoryKey ("tax:period:" ++ pretty y ++ "-" ++ padded 2 m).

(** ** The gains of a period ([computeProfitSQL]) *)

Section profit.
Context `{DL : decimal.Lib}.

Record UserAccountProfit : Type := mkProfit {
  up_UserID : Z;
  up_AccountID : Z;
  up_SourceCurrency : string;
  up_ProfitNative : decimal.t;
  up_TaxNative : decimal.t;
  up_TaxRSD : decimal.t;
  up_RateUsed : decimal.t;
  up_TxnCount : Z
}.

End profit.

Record profitRow : Type := mkProfitRow {
  pw_UserID : Z;
  pw_AccountID : Z;
  pw_ProfitNative : float64;
  pw_TxnCount : Z
}.

(** SUM and AVG of float8: NULL of no rows. *)
Definition sql_sum (l : list float64) : option float64 :=
  match l with [] => None | x :: l' => Some (foldl f64_add x l') end.
Definition sql_avg (l : list float64) : option float64 :=
  s ← sql_sum l; Some (f64_div s (f64_of_Z (Z.of_nat (length l)))).

(** GREATEST(0, x). *)
Definition greatest0 (x : float64) : float64 := if f64_leb x f64_zero then f64_zero else x.

(** GROUP BY *)
Definition group_by {A K} `{EqDecision K} (key : A -> K) (l : list A) : list (K * list A) :=
  (fun k => (k, filter (fun x => key x = k) l)) <$> remove_dups (key <$> l).

Section query.
Context `{TS : TaxServer}.
(** The listings of type STOCK. *)
Context (stock : Z -> bool).

(** [CAST(executed_price AS FLOAT) * executed_quantity] *)
Definition traded (t : orderTransactionModel) : float64 :=
  f64_mul (float8_of_numeric (micros (ot_ExecutedPrice t))) (f64_of_Z (ot_ExecutedQuantity t)).

(** User, account and listing. *)
Definition order_key (m : orderModel) : Z * Z * Z := (om_UserID m, om_AccountID m, om_ListingID m).

Definition is_finished (dir : OrderDirection) (m : orderModel) : bool :=
  bool_decide (om_Direction m = dir) && bool_decide (om_Status m = OrderStatusDone) && om_IsDone m &&
  stock (om_ListingID m).

Definition in_period (start end_ : Z) (t : orderTransactionModel) : bool :=
  (start <=? 1000000 * ot_ExecutionTime t) && (1000000 * ot_ExecutionTime t <=? end_).

(** The fills of finished sales in the period. *)
Definition sold (start end_ : Z) (d : DB) : list (orderModel * orderTransactionModel) :=
  filter (fun x => is_finished OrderDirectionSell x.1 && in_period start end_ x.2)
    (omap (fun t => (fun m => (m, t)) <$> d_orders d !! ot_OrderID t) (d_order_transactions d)).

(** The finished purchases, each with each of its fills, or with none. *)
Definition bought (d : DB) : list (orderModel * option orderTransactionModel) :=
  filter (fun kv => is_finished OrderDirectionBuy kv.2) (map_to_list (d_orders d)) ≫= fun kv =>
    match filter (fun t => ot_OrderID t = kv.1) (d_order_transactions d) with
    | [] => [(kv.2, None)]
    | ts => (fun t => (kv.2, Some t)) <$> ts
    end.

(** A row of [buy_avg], NULL where there is none. *)
Definition buy_avg (key : Z * Z * Z) (d : DB) : option float64 :=
  let rows := filter (fun x => order_key x.1 = key) (bought d) in
  let fills := omap snd rows in
  let quantity := zsum ot_ExecutedQuantity fills in
  if 0 <? quantity then s ← sql_sum (traded <$> fills); Some (f64_div s (f64_of_Z quantity))
  else sql_avg (omap (fun x => (fun c => float8_of_numeric (micros c)) <$> om_PricePerUnit x.1) rows).

(** The gain of a row of [sell_fills], never negative. *)
Definition gain (d : DB) (row : (Z * Z * Z) * list (orderModel * orderTransactionModel)) : float64 :=
  let quantity := zsum (fun x => ot_ExecutedQuantity x.2) row.2 in
  let avg_sell := if quantity =? 0 then None
                  else s ← sql_sum ((fun x => traded x.2) <$> row.2); Some (f64_div s (f64_of_Z quantity)) in
  match avg_sell with
  | Some a => greatest0 (f64_mul (f64_sub a (default f64_zero (buy_avg row.1 d))) (f64_of_Z quantity))
  | None => f64_zero
  end.

Definition sell_fills (start end_ : Z) (d : DB) : list ((Z * Z * Z) * list (orderModel * orderTransactionModel)) :=
  group_by (fun x => order_key x.1) (sold start end_ d).

Definition compute_profit (start end_ : Z) (d : DB) : list profitRow :=
  omap (fun '((user, account), rows) =>
    let profit := default f64_zero (sql_sum (gain d <$> rows)) in
    if f64_leb profit f64_zero then None
    else Some (mkProfitRow user account profit (zsum (fun r => Z.of_nat (length r.2)) rows)))
    (group_by (fun r => r.1.1) (sell_fills start end_ d)).
End query.

Definition is_stock (e : Env) (n : nat) (listingID : Z) : bool :=
  match env_listing e n listingID with
  | Ok l => match l_ListingType l with ListingTypeStock => true | _ => false end
  | Err _ => false
  end.

(** ** The table *)

Definition tax_records (d : DB) : gmap Z taxRecord := bd_tax_records (d_bank d).

(** UNIQUE (user_id, account_id, period_start, period_end) *)
Definition tax_key (r : taxRecord) : Z * Z * Z * Z := (tr_UserID r, tr_AccountID r, tr_PeriodStart r, tr_PeriodEnd r).

Definition find_tax (key : Z * Z * Z * Z) (d : DB) : option (Z * taxRecord) :=
  head (filter (fun kv => tax_key kv.2 = key) (map_to_list (tax_records d))).

(** The columns NUMERIC(18, 4) and NUMERIC(18, 6). *)
Definition store_money (q : Q) : option Z := numeric_store 18 10000 q.
Definition store_rate (q : Q) : option Z := numeric_store 18 1000000 q.

Definition tax_checks (r : taxRecord) (d : DB) : bool :=
  bool_decide (is_Some (d_racun d !! tr_AccountID r)) && (1 <=? tr_Month r) && (tr_Month r <=? 12) &&
  bool_decide (find_tax (tax_key r) d = None) && varchar 10 (tr_SourceCurrency r) && varchar 16 (tr_TriggeredBy r).

Definition insert_tax (row : option taxRecord) (i : Z) (d : DB) : result (unit * DB) :=
  match row with
  | Some r =>
      if tax_checks r d then
        match insert_row i r (tax_records d) with
        | Ok m => Ok (tt, set_tax_records m d)
        | Err er => Err er
        end
      else Err ErrDB
  | None => Err ErrDB
  end.

Definition update_tax (id : Z) (f : taxRecord -> option taxRecord) (d : DB) : result (Z * DB) :=
  match update_row id (fun _ => true) f (tax_records d) with
  | Ok (n, m) => Ok (n, set_tax_records m d)
  | Err er => Err er
  end.

(** [WHERE user_id = ? AND account_id = ? AND period_start = ? AND period_end = ?] *)
Definition update_tax_key (key : Z * Z * Z * Z) (f : taxRecord -> option taxRecord) (d : DB) : result (Z * DB) :=
  match find_tax key d with Some (id, _) => update_tax id f d | None => Ok (0, d) end.

(** [SET status, paid, paid_amount_rsd, remaining_debt_rsd] *)
Definition with_payment (st : TaxStatus) (paid : bool) (amount remaining : Z) (r : taxRecord) : taxRecord :=
  mkTaxRecord (tr_UserID r) (tr_AccountID r) (tr_Year r) (tr_Month r) (tr_PeriodStart r) (tr_PeriodEnd r)
    (tr_AmountRSD r) amount remaining (tr_ProfitBase r) (tr_SourceCurrency r) (tr_ExchangeRate r) (tr_TxnCount r)
    st (tr_Attempts r) (tr_TriggeredBy r) paid.

(** The first UPDATE of another attempt. *)
Definition with_target (amount remaining base rate cnt attempts : Z) (by_ : string) (r : taxRecord) : taxRecord :=
  mkTaxRecord (tr_UserID r) (tr_AccountID r) (tr_Year r) (tr_Month r) (tr_PeriodStart r) (tr_PeriodEnd r)
    amount (tr_PaidAmountRSD r) remaining base (tr_SourceCurrency r) rate cnt
    (tr_Status r) attempts by_ (tr_Paid r).

(** [collectOne] answers the status of the record, or "ALREADY". *)
Inductive Outcome : Type := Already | Final (st : TaxStatus).

(** ** Users *)

Record TaxUserFilter : Type := mkTaxUserFilter { tf_Role : string; tf_FirstName : string; tf_LastName : string }.

Record TaxUserRow : Type := mkTaxUserRow {
  tu_UserID : Z;
  tu_UserType : string;
  tu_FirstName : string;
  tu_LastName : string;
  tu_Email : string;
  tu_TaxDebt : float64
}.

(** The functions of Go's package [strings], on ASCII texts. *)
Definition is_space (c : Ascii.ascii) : bool :=
  let n := Ascii.nat_of_ascii c in (n =? 32)%nat || ((9 <=? n)%nat && (n <=? 13)%nat).
Fixpoint trim_left (s : string) : string :=
  match s with String c s' => if is_space c then trim_left s' else s | EmptyString => s end.
Fixpoint trim_right (s : string) : string :=
  match s with
  | EmptyString => EmptyString
  | String c s' =>
      match trim_right s' with
      | EmptyString => if is_space c then EmptyString else String c EmptyString
      | t => String c t
      end
  end.
Definition TrimSpace (s : string) : string := trim_right (trim_left s).

Definition lower_char (c : Ascii.ascii) : Ascii.ascii :=
  let n := Ascii.nat_of_ascii c in
  if (65 <=? n)%nat && (n <=? 90)%nat then Ascii.ascii_of_nat (n + 32) else c.
Fixpoint ToLower (s : string) : string :=
  match s with EmptyString => EmptyString | String c s' => String (lower_char c) (ToLower s') end.
Definition EqualFold (s t : string) : bool := String.eqb (ToLower s) (ToLower t).

(** [strings.Contains(s, sub)] *)
Fixpoint Contains (sub s : string) : bool :=
  String.prefix sub s || match s with String _ s' => Contains sub s' | EmptyString => false end.

Section summary.
Context `{DL : decimal.Lib}.

(** The answer of a period; the float64 of the total and the limits of the period,
    which it repeats, are left out. *)
Record PeriodSummary : Type := mkSummary {
  sm_ProcessedUsers : Z;
  sm_TotalCollectedRSD : decimal.t;
  sm_FullyCollected : Z;
  sm_Partial : Z;
  sm_Unpaid : Z;
  sm_AlreadyCollected : Z;
  sm_Errors : Z
}.

Inductive TaxReply : Type :=
  | TaxUsers (rows : list TaxUserRow)
  | TaxCalculated (s : PeriodSummary) (start end_ : Z)
  | TaxRefused.

End summary.

Section service.
Context `{DL : decimal.Lib} `{TS : TaxServer}.
Context (spreadRate : float64).

Definition fixed (n : Z) (d : decimal.t) : Q := decimal.StringFixed n d.

Definition reconciled (r : taxRecord) : option taxRecord :=
  Some (with_payment TaxStatusCollected true (tr_PaidAmountRSD r) 0 r).

Definition new_record (p : UserAccountProfit) (start end_ : Z) (triggeredBy : string) : option taxRecord :=
  amount ← store_money (fixed 4 (up_TaxRSD p));
  base ← store_money (fixed 4 (up_ProfitNative p));
  rate ← store_rate (fixed 6 (up_RateUsed p));
  cnt ← store_int (up_TxnCount p);
  let '(y, m) := year_month start in
  year ← store_int y;
  Some (mkTaxRecord (up_UserID p) (up_AccountID p) year m start end_ amount 0 amount base (up_SourceCurrency p) rate
          cnt TaxStatusOpen 1 triggeredBy false).

Definition another_attempt (p : UserAccountProfit) (toCollect : decimal.t) (triggeredBy : string) (r : taxRecord)
    : option taxRecord :=
  amount ← store_money (fixed 4 (up_TaxRSD p));
  remaining ← store_money (fixed 4 toCollect);
  base ← store_money (fixed 4 (up_ProfitNative p));
  rate ← store_rate (fixed 6 (up_RateUsed p));
  cnt ← store_int (up_TxnCount p);
  attempts ← store_int (tr_Attempts r + 1);
  if varchar 16 triggeredBy then Some (with_target amount remaining base rate cnt attempts triggeredBy r) else None.

Definition unpaid (toCollect : decimal.t) (r : taxRecord) : option taxRecord :=
  remaining ← store_money (fixed 4 toCollect);
  Some (with_payment TaxStatusUnpaid false (tr_PaidAmountRSD r) remaining r).

Definition collected (newPaid : decimal.t) (r : taxRecord) : option taxRecord :=
  amount ← store_money (fixed 4 newPaid);
  Some (with_payment TaxStatusCollected true amount 0 r).

Definition partly_collected (newPaid newRemaining : decimal.t) (r : taxRecord) : option taxRecord :=
  amount ← store_money (fixed 4 newPaid);
  remaining ← store_money (fixed 4 newRemaining);
  Some (with_payment TaxStatusPartial false amount remaining r).

(** ** Rates *)

Definition mid_rate (oznaka : string) (rates : list ExchangeRate) : option float64 :=
  er_Srednji <$> List.find (fun r => String.eqb (er_Oznaka r) oznaka && f64_ltb f64_zero (er_Srednji r)) rates.

Definition usdToRSD : M decimal.t :=
  rates ← GetRates spreadRate;
  match mid_rate "USD" rates with
  | Some r => mret (decimal.NewFromFloat r)
  | None => throw ErrUSDRateUnavailable
  end.

Definition nativeToRSD (rates : list ExchangeRate) (amount : decimal.t) (currency : string) : decimal.t :=
  if String.eqb currency "RSD" then amount
  else match mid_rate currency rates with
       | Some r => decimal.Mul amount (decimal.NewFromFloat r)
       | None => amount
       end.

Definition rsdToNative (rates : list ExchangeRate) (rsdAmount : decimal.t) (currency : string) : decimal.t :=
  if String.eqb currency "RSD" then rsdAmount
  else match mid_rate currency rates with
       | Some r => decimal.Div rsdAmount (decimal.NewFromFloat r)
       | None => rsdAmount
       end.

(** ** Gains and taxes *)

Definition to_profit (rate : decimal.t) (r : profitRow) : option UserAccountProfit :=
  if f64_leb (pw_ProfitNative r) f64_zero then None
  else
    let profit := decimal.NewFromFloat (pw_ProfitNative r) in
    let taxN := decimal.Mul profit (decimal.NewFromFloat TaxRate) in
    Some (mkProfit (pw_UserID r) (pw_AccountID r) "USD" profit taxN (decimal.Mul taxN rate) rate (pw_TxnCount r)).

Definition ComputeProfitForPeriod (start end_ : Z) : M (list UserAccountProfit) :=
  rate ← usdToRSD;
  rows ← sql_env (fun e n => compute_profit (is_stock e n) start end_);
  mret (omap (to_profit rate) rows).

(** ** Collecting one tax *)

(** What to take from the account and to pay to the state, and the status. *)
Definition collection (rates : list ExchangeRate) (toCollect : decimal.t) (stanje : float64) (oznaka : string)
    : TaxStatus * decimal.t * decimal.t :=
  let deduction := rsdToNative rates toCollect oznaka in
  if f64_leb (decimal.InexactFloat64 deduction) stanje then (TaxStatusCollected, deduction, toCollect)
  else
    let stanjeDec := decimal.NewFromFloat stanje in
    (TaxStatusPartial, stanjeDec, nativeToRSD rates stanjeDec oznaka).

Definition mark_unpaid (key : Z * Z * Z * Z) (toCollect : decimal.t) : M (Outcome * decimal.t) :=
  sql (update_tax_key key (unpaid toCollect)) ;;
  mret (Final TaxStatusUnpaid, decimal.Zero).

(** The two postings and the record. *)
Definition book_tax (key : Z * Z * Z * Z) (accountID stateAccountID : Z) (target paidSoFar : decimal.t)
    (status : TaxStatus) (actualDeductNative actualCreditRSD : decimal.t) : M (Outcome * decimal.t) :=
  let q := decimal.sql_arg actualDeductNative in
  let c := decimal.sql_arg actualCreditRSD in
  exec_racun accountID (sub_stanje q) ;;
  exec_racun stateAccountID (add_stanje c) ;;
  sql (insert_transakcija [(accountID, ISPLATA, q)]) ;;
  sql (insert_transakcija [(stateAccountID, UPLATA, c)]) ;;
  let newPaid := decimal.Add paidSoFar actualCreditRSD in
  let rest := decimal.Sub target newPaid in
  let newRemaining := if decimal.LessThan rest decimal.Zero then decimal.Zero else rest in
  (match status with
   | TaxStatusCollected => sql (update_tax_key key (collected newPaid))
   | _ => sql (update_tax_key key (partly_collected newPaid newRemaining))
   end) ;;
  mret (Final status, actualCreditRSD).

(** From the locked accounts on. *)
Definition collect_from (key : Z * Z * Z * Z) (p : UserAccountProfit) (stateAccountID : Z) (rates : list ExchangeRate)
    (paidSoFar toCollect : decimal.t) : M (Outcome * decimal.t) :=
  acc ← sql_read (fun d => d_racun d !! up_AccountID p);
  match acc with
  | None => throw (ErrMsg "user account not found")
  | Some r =>
      state ← sql_read (fun d => d_racun d !! stateAccountID);
      match state with
      | None => throw ErrStateAccountMissing
      | Some _ =>
          let stanje := scan_cents (r_stanje_racuna r) in
          if f64_leb stanje f64_zero then mark_unpaid key toCollect
          else
            let '(status, native, credit) := collection rates toCollect stanje (r_oznaka r) in
            if f64_leb (decimal.InexactFloat64 native) f64_zero then mark_unpaid key toCollect
            else book_tax key (up_AccountID p) stateAccountID (up_TaxRSD p) paidSoFar status native credit
      end
  end.

(** The scan of a NUMERIC column into a decimal. *)
Definition scan_decimal (z : Z) : M decimal.t :=
  match decimal.NewFromString (units z) with Some d => mret d | None => throw ErrDB end.

Definition paid_so_far (existing : option (Z * taxRecord)) : M decimal.t :=
  match existing with Some (_, r) => scan_decimal (tr_PaidAmountRSD r) | None => mret decimal.Zero end.

Definition collectOne (p : UserAccountProfit) (start end_ : Z) (triggeredBy : string) (stateAccountID : Z)
    (rates : list ExchangeRate) : M (Outcome * decimal.t) :=
  let key := (up_UserID p, up_AccountID p, start, end_) in
  Transaction (
    (* pg_advisory_xact_lock *)
    sql_read (fun _ => tt) ;;
    existing ← sql_read (find_tax key);
    paidSoFar ← paid_so_far existing;
    let toCollect := decimal.Sub (up_TaxRSD p) paidSoFar in
    if decimal.LessThanOrEqual toCollect decimal.Zero then
      (match existing with
       | Some (id, r) =>
           if decide (tr_Status r = TaxStatusCollected) then mret tt
           else sql (update_tax id reconciled) ;; mret tt
       | None => mret tt
       end) ;;
      mret (Already, decimal.Zero)
    else
      (match existing with
       | None => sql_insert (insert_tax (new_record p start end_ triggeredBy))
       | Some (id, _) => sql (update_tax id (another_attempt p toCollect triggeredBy)) ;; mret tt
       end) ;;
      collect_from key p stateAccountID rates paidSoFar toCollect).

(** ** A period *)

Definition no_summary : PeriodSummary := mkSummary 0 decimal.Zero 0 0 0 0 0.

(** One round of the loop. *)
Definition count_outcome (r : result (Outcome * decimal.t)) (s : PeriodSummary) : PeriodSummary :=
  let '(mkSummary u t f p n a x) := s in
  match r with
  | Err _ => mkSummary u t f p n a (x + 1)
  | Ok (Already, _) => mkSummary u t f p n (a + 1) x
  | Ok (Final TaxStatusCollected, c) => mkSummary (u + 1) (decimal.Add t c) (f + 1) p n a x
  | Ok (Final TaxStatusPartial, c) => mkSummary (u + 1) (decimal.Add t c) f (p + 1) n a x
  | Ok (Final TaxStatusUnpaid, c) => mkSummary (u + 1) (decimal.Add t c) f p (n + 1) a x
  | Ok (Final TaxStatusOpen, c) => mkSummary (u + 1) (decimal.Add t c) f p n a x
  end.

Fixpoint collect_all (ps : list UserAccountProfit) (start end_ : Z) (triggeredBy : string) (stateAccountID : Z)
    (rates : list ExchangeRate) (s : PeriodSummary) : M PeriodSummary :=
  match ps with
  | [] => mret s
  | p :: ps' =>
      r ← try (collectOne p start end_ triggeredBy stateAccountID rates);
      collect_all ps' start end_ triggeredBy stateAccountID rates (count_outcome r s)
  end.

(** [ResolveStateRevenueAccountID]; the id it caches, 0 at first, is the second
    component of its answer. *)
Definition lookup_state (cfgAccountID : Z) (userClient_set : bool) : M (option Z) :=
  byConfig ← (if 0 <? cfgAccountID
              then r ← try (sql_read (fun d => bool_decide (is_Some (d_racun d !! cfgAccountID))));
                   mret (match r with Ok true => true | _ => false end)
              else mret false);
  if (byConfig : bool) then mret (Some cfgAccountID)
  else
    byNumber ← try (sql_read (racun_by_number drzavaBrojRacuna));
    match byNumber with
    | Ok (Some (id, _)) => mret (Some id)
    | _ =>
        if userClient_set then
          byOwner ← try (sql_read (fun d => head (merge_sort Z.le (fst <$>
            filter (fun kv : Z * racun => r_id_vlasnika kv.2 = 5 /\ r_oznaka kv.2 = "RSD")
              (map_to_list (d_racun d))))));
          mret (match byOwner with Ok o => o | Err _ => None end)
        else mret None
    end.

Definition ResolveStateRevenueAccountID (cfgAccountID : Z) (userClient_set : bool) (cached : Z) : M (option Z * Z) :=
  if 0 <? cached then mret (Some cached, cached)
  else
    found ← lookup_state cfgAccountID userClient_set;
    mret (match found with Some id => (Some id, id) | None => (None, cached) end).

(** With the lock of the period held. *)
Definition calculate_locked (start end_ : Z) (triggeredBy : string) (stateAccountID : option Z) : M PeriodSummary :=
  match stateAccountID with
  | None => throw ErrStateAccountMissing
  | Some stateAccountID =>
      profits ← ComputeProfitForPeriod start end_;
      rates ← GetRates spreadRate;
      collect_all profits start end_ triggeredBy stateAccountID rates no_summary
  end.

Definition CalculateAndCollectForPeriod (cfgAccountID : Z) (userClient_set : bool) (cached start end_ : Z)
    (triggeredBy : string) : M (result PeriodSummary * Z) :=
  gotLock ← try (sql_env (fun _ n _ => pg_try_advisory_lock n (periodLockKey start)));
  match gotLock with
  | Err er => mret (Err er, cached)
  | Ok false => mret (Err ErrPeriodAlreadyRunning, cached)
  | Ok true =>
      state ← ResolveStateRevenueAccountID cfgAccountID userClient_set cached;
      r ← try (calculate_locked start end_ triggeredBy state.1);
      (* the deferred pg_advisory_unlock *)
      try (sql_read (fun _ => tt)) ;;
      mret (r, state.2)
  end.

(** ** Debts *)

(** [EXTRACT(YEAR FROM period_start)] *)
Definition period_year (r : taxRecord) : Z := (year_month (tr_PeriodStart r)).1.

Definition all_records (d : DB) : list taxRecord := snd <$> map_to_list (tax_records d).

Definition in_debt (r : taxRecord) : bool := negb (bool_decide (tr_Status r = TaxStatusCollected)).

Definition within (start end_ : Z) (r : taxRecord) : bool := (start <=? tr_PeriodStart r) && (tr_PeriodEnd r <=? end_).

(** A SUM of amounts, scanned into a float64. *)
Definition sum_money (f : taxRecord -> Z) (rs : list taxRecord) : float64 :=
  decimal.float64_of_numeric (units (zsum f rs)).

(** A Go map of decimals, 0 where it has no key. *)
Definition at_key (m : gmap Z decimal.t) (u : Z) : decimal.t := default decimal.Zero (m !! u).

Definition sum_by_user (f : taxRecord -> Z) (rs : list taxRecord) : gmap Z decimal.t :=
  list_to_map ((fun g => (g.1, decimal.NewFromFloat (sum_money f g.2))) <$> group_by tr_UserID rs).

Definition UserTaxPaidForYear (userID year : Z) : M float64 :=
  sql_read (fun d => sum_money tr_PaidAmountRSD
    (filter (fun r => (tr_UserID r =? userID) && (period_year r =? year)) (all_records d))).

Definition UserTaxUnpaidForMonth (userID start end_ : Z) : M float64 :=
  recorded ← sql_read (fun d => sum_money tr_RemainingDebtRSD
    (filter (fun r => (tr_UserID r =? userID) && within start end_ r && in_debt r) (all_records d)));
  profits ← try (ComputeProfitForPeriod start end_);
  match profits with
  | Err _ => mret recorded
  | Ok profits =>
      covered ← try (sql_read (fun d => sum_money tr_AmountRSD
        (filter (fun r => (tr_UserID r =? userID) && within start end_ r) (all_records d))));
      let covered := match covered with Ok c => c | Err _ => f64_zero end in
      let totalEstimated := foldl (fun t p => if up_UserID p =? userID
                                              then f64_add t (decimal.InexactFloat64 (up_TaxRSD p)) else t) f64_zero profits in
      let uncovered := f64_sub totalEstimated covered in
      let uncovered := if f64_ltb uncovered f64_zero then f64_zero else uncovered in
      mret (f64_add recorded uncovered)
  end.

(** The estimate of what the current month owes beyond its records. *)
Definition add_uncovered (profits : list UserAccountProfit) (covered debts : gmap Z decimal.t) : gmap Z decimal.t :=
  let aggProfit := foldl (fun m p => <[up_UserID p := decimal.Add (at_key m (up_UserID p)) (up_TaxRSD p)]> m)
                     (∅ : gmap Z decimal.t) profits in
  foldl (fun m kv =>
      let uncovered := decimal.Sub kv.2 (at_key covered kv.1) in
      if decimal.GreaterThan uncovered decimal.Zero
      then <[kv.1 := decimal.Add (at_key m kv.1) uncovered]> m else m)
    debts (map_to_list aggProfit).

Definition estimate_debts (now : Z) (debts : gmap Z decimal.t) : M (gmap Z decimal.t) :=
  let '(cmStart, cmEnd) := CurrentMonthWindow now in
  profits ← try (ComputeProfitForPeriod cmStart cmEnd);
  match profits with
  | Err _ => mret debts
  | Ok profits =>
      existing ← try (sql_read (fun d => sum_by_user tr_AmountRSD (filter (within cmStart cmEnd) (all_records d))));
      mret (add_uncovered profits (match existing with Ok m => m | Err _ => ∅ end) debts)
  end.

(** The users that trade and all actuaries, with their kind. *)
Definition trading_clients (d : DB) : list Z :=
  remove_dups (filter (fun u => bool_decide (u ∈ (ai_EmployeeID <$> (snd <$> map_to_list (d_actuary_info d)))) = false)
    ((fun kv => om_UserID kv.2) <$> map_to_list (d_orders d))).

Definition userType (clients actuaries : list Z) : gmap Z string :=
  list_to_map (((fun a => (a, "ACTUARY")) <$> actuaries) ++ ((fun c => (c, "CLIENT")) <$> clients)).

Definition user_info `{TaxUserClient} (userClient_set : bool) (ut : string) (uid : Z) : M (string * string * string) :=
  if userClient_set then
    io (fun _ n => Ok (default (EmptyString, EmptyString, EmptyString)
      (if String.eqb ut "ACTUARY" then tu_GetEmployeeInfo n uid else tu_GetClientInfo n uid)))
  else mret (EmptyString, EmptyString, EmptyString).

(** The filters on a user, after the texts were trimmed and lowered. *)
Definition shown (firstFilter lastFilter first last email : string) : bool :=
  negb (String.eqb (TrimSpace first) EmptyString && String.eqb (TrimSpace last) EmptyString) &&
  negb (EqualFold (TrimSpace email) drzavaEmail) &&
  (String.eqb firstFilter EmptyString || Contains firstFilter (ToLower first)) &&
  (String.eqb lastFilter EmptyString || Contains lastFilter (ToLower last)).

Fixpoint list_users `{TaxUserClient} (userClient_set : bool) (filter_ : TaxUserFilter) (debts : gmap Z decimal.t)
    (users : list (Z * string)) : M (list TaxUserRow) :=
  match users with
  | [] => mret []
  | (uid, ut) :: users' =>
      let role := ToLower (TrimSpace (tf_Role filter_)) in
      if (String.eqb role "client" && negb (String.eqb ut "CLIENT")) ||
         (String.eqb role "actuary" && negb (String.eqb ut "ACTUARY"))
      then list_users userClient_set filter_ debts users'
      else
        info ← user_info userClient_set ut uid;
        let '(first, last, email) := info in
        rows ← list_users userClient_set filter_ debts users';
        mret (if shown (ToLower (TrimSpace (tf_FirstName filter_))) (ToLower (TrimSpace (tf_LastName filter_)))
                   first last email
              then mkTaxUserRow uid ut first last email (decimal.InexactFloat64 (at_key debts uid)) :: rows else rows)
  end.

(** The order of the users is that of a Go map: any fixed one here. *)
Definition ListTaxEligibleUsers `{TaxUserClient} (userClient_set : bool) (filter_ : TaxUserFilter) : M (list TaxUserRow) :=
  now ← time_now;
  clients ← sql_read trading_clients;
  actuaries ← sql_read (fun d => ai_EmployeeID <$> (snd <$> map_to_list (d_actuary_info d)));
  debts ← try (sql_read (fun d => sum_by_user tr_RemainingDebtRSD
    (filter (fun r => (period_year r =? (now_month now).1) && in_debt r) (all_records d))));
  debts ← estimate_debts now (match debts with Ok m => m | Err _ => ∅ end);
  list_users userClient_set filter_ debts (map_to_list (userType clients actuaries)).

(** ** The worker *)

(** The first of the next month, at one minute past midnight, in seconds. *)
Definition nextMonthlyRun (now : Z) : Z :=
  let '(y, m) := now_month now in
  let first := 86400 * nth_month y m + 60 in
  if now <? first then first else 86400 * AddDate (nth_month y m) 1 + 60.

(** [RunFor] with the runner of [main.go]; its error is only logged. *)
Definition RunFor (cfgAccountID : Z) (userClient_set : bool) (cached year month : Z) : M (result PeriodSummary * Z) :=
  let '(start, end_) := MonthWindow year month in
  CalculateAndCollectForPeriod cfgAccountID userClient_set cached start end_ TaxTriggeredByCron.

(** The month before the run: [next.AddDate(0, -1, 0)]. *)
Definition month_before (next : Z) : Z * Z := let '(y, m, _) := Date (AddDate (truncate_day next) (-1)) in (y, m + 1).

(** [fuel] months at most, while the others work in between. *)
Fixpoint MonthlyTaxWorker_Start (fuel : nat) (cfgAccountID : Z) (userClient_set : bool) (cached : Z) : M Z :=
  match fuel with
  | O => mret cached
  | S fuel' =>
      now ← time_now;
      let '(y, m) := month_before (nextMonthlyRun now) in
      sleep ;;
      stop ← ctx_done;
      if (stop : bool) then mret cached
      else
        r ← RunFor cfgAccountID userClient_set cached y m;
        MonthlyTaxWorker_Start fuel' cfgAccountID userClient_set r.2
  end.

(** ** The handler *)

Section handler.
Context `{UC : TaxUserClient} (verify : string -> option AccessClaims).

(** The status of a refusal. *)
Definition verifySupervisor (authHeader : string) : Z + AccessClaims :=
  match strip_bearer authHeader with
  | None => inl 401
  | Some token =>
      match verify token with
      | None => inl 401
      | Some claims =>
          if negb (String.eqb (cl_UserType claims) "EMPLOYEE") && negb (String.eqb (cl_UserType claims) "ADMIN")
          then inl 403
          else if String.eqb (cl_UserType claims) "EMPLOYEE" && negb (bool_decide ("SUPERVISOR" ∈ cl_Permissions claims))
          then inl 403 else inr claims
      end
  end.

(** The window of a request: the body is absent, no JSON, or names a year and a
    month. *)
Definition requested_window (now : Z) (body : option (option (Z * Z))) : Z + Z * Z :=
  match body with
  | None => inr (CurrentMonthWindow now)
  | Some None => inl 400
  | Some (Some (year, month)) =>
      if (0 <? year) && (1 <=? month) && (month <=? 12) then
        if 1000000 * now <? month_first year month then inl 400 else inr (MonthWindow year month)
      else inr (CurrentMonthWindow now)
  end.

Definition calculate_error (er : error) : Z :=
  if bool_decide (er = ErrPeriodAlreadyRunning) then 409
  else if bool_decide (er = ErrStateAccountMissing) then 500
  else if bool_decide (er = ErrUSDRateUnavailable) then 503 else 500.

Definition calculateAndCollect (cfgAccountID : Z) (userClient_set : bool) (cached : Z) (body : option (option (Z * Z)))
    : M ((Z * TaxReply) * Z) :=
  now ← time_now;
  match requested_window now body with
  | inl code => mret ((code, TaxRefused), cached)
  | inr (start, end_) =>
      r ← CalculateAndCollectForPeriod cfgAccountID userClient_set cached start end_ TaxTriggeredByManual;
      mret (match r.1 with
            | Err er => (calculate_error er, TaxRefused)
            | Ok s => (200, TaxCalculated s start end_)
            end, r.2)
  end.

Definition listUsers (userClient_set : bool) (filter_ : TaxUserFilter) : M (Z * TaxReply) :=
  r ← try (ListTaxEligibleUsers userClient_set
             (mkTaxUserFilter (TrimSpace (tf_Role filter_)) (TrimSpace (tf_FirstName filter_)) (TrimSpace (tf_LastName filter_))));
  mret (match r with Ok rows => (200, TaxUsers rows) | Err _ => (500, TaxRefused) end).

(** [TaxHandler.ServeHTTP] *)
Definition serve_tax (cfgAccountID : Z) (userClient_set : bool) (cached : Z) (method path authHeader : string)
    (filter_ : TaxUserFilter) (body : option (option (Z * Z))) : M ((Z * TaxReply) * Z) :=
  match verifySupervisor authHeader with
  | inl code => mret ((code, TaxRefused), cached)
  | inr _ =>
      if String.eqb path "/bank/tax/users" && String.eqb method "GET"
      then r ← listUsers userClient_set filter_; mret (r, cached)
      else if String.eqb path "/bank/tax/calculate" && String.eqb method "POST"
      then calculateAndCollect cfgAccountID userClient_set cached body
      else mret ((404, TaxRefused), cached)
  end.
End handler.

End service.
