(* ===== verification/TaxFacts.v ===== *)
(** * What the collection of a tax does

    One call of [collectOne] in every environment: nothing on an error, the record
    and the two postings of its case otherwise.  The record of a tax that is
    [COLLECTED] holds the whole tax, so the same tax is not taken a second time. *)

From stdpp Require Import list sorting.
From S2P Require Import Prelude Numeric Domain Tables Store StoreFacts OrderRepo Market FundsManager FundsFacts.
From S2P Require Import FundsTransfers GoMath AccountRepo OtcRepo OtcFacts CardNumbers Cards CardHandlers Tax.
From Stdlib Require Import Lqa.
#[local] Open Scope string_scope.
#[local] Open Scope Z_scope.

(** ** Amounts of four digits *)

Definition to_units (q : Q) : Z := round_half_away (q * inject_Z 10000).

#[export] Instance to_units_proper : Proper (Qeq ==> eq) to_units.
Proof. intros p q H. unfold to_units. by rewrite H. Qed.

#[export] Instance store_money_proper : Proper (Qeq ==> eq) store_money.
Proof.
  intros p q H. unfold store_money, numeric_store.
  assert (E : round_half_away (p * inject_Z 10000) = round_half_away (q * inject_Z 10000)) by by rewrite H.
  by rewrite E.
Qed.

Lemma units_inject z : (units z * inject_Z 10000 == inject_Z z)%Q.
Proof. unfold units, numeric_val, Qeq. cbn. lia. Qed.

Lemma to_units_units z : to_units (units z) = z.
Proof. unfold to_units. by rewrite units_inject, round_inject. Qed.

Lemma to_units_mono p q : (p <= q)%Q -> to_units p <= to_units q.
Proof.
  intros H. apply round_mono. rewrite !(Qmult_comm _ (inject_Z 10000)). apply Qmult_le_l; [reflexivity|done].
Qed.

Lemma store_money_units z c : store_money (units z) = Some c -> c = z.
Proof.
  unfold store_money, numeric_store. change (round_half_away (units z * inject_Z 10000)) with (to_units (units z)).
  rewrite to_units_units. case_decide; [|discriminate]. by intros [= <-].
Qed.

Section facts.
Context `{DL : decimal.Laws} `{TS : TaxServer}.
#[local] Abbreviation val := decimal.val.

(** What [StringFixed(4)] writes is the amount rounded to four digits. *)
Lemma store_fixed d z : store_money (fixed 4 d) = Some z -> z = to_units (val d).
Proof.
  unfold fixed. rewrite decimal.StringFixed_val by lia. change (Z.to_pos (10 ^ 4)) with 10000%positive.
  change (10 ^ 4) with 10000. fold (to_units (val d)). change (numeric_val 10000) with units.
  apply store_money_units.
Qed.

(** ** The table *)

Definition tax_unique (d : DB) : Prop :=
  forall i j r r', tax_records d !! i = Some r -> tax_records d !! j = Some r' -> tax_key r = tax_key r' -> i = j.

Lemma find_tax_Some key d i r :
  find_tax key d = Some (i, r) -> tax_records d !! i = Some r /\ tax_key r = key.
Proof.
  unfold find_tax. intros H%head_Some_elem_of. apply list_elem_of_filter in H as [Hk Hin].
  by apply elem_of_map_to_list in Hin.
Qed.

Lemma find_tax_None key d i r : find_tax key d = None -> tax_records d !! i = Some r -> tax_key r <> key.
Proof.
  unfold find_tax. intros H%head_None Hr E.
  assert (K : (i, r) ∈ filter (fun kv : Z * taxRecord => tax_key kv.2 = key) (map_to_list (tax_records d))).
  { apply list_elem_of_filter. split; [done|]. by apply elem_of_map_to_list. }
  rewrite H in K. by apply not_elem_of_nil in K.
Qed.

Lemma find_tax_unique key d i r : tax_unique d -> tax_records d !! i = Some r -> tax_key r = key -> find_tax key d = Some (i, r).
Proof.
  intros Hu Hr Hk. destruct (find_tax key d) as [[j r']|] eqn:E.
  - apply find_tax_Some in E as [Hr' Hk']. assert (j = i) as -> by (eapply Hu; [done..|congruence]). congruence.
  - exfalso. eapply find_tax_None; eauto.
Qed.

(** The row of a key is written over, or is new. *)
Definition place (key : Z * Z * Z * Z) (id : Z) (d : DB) : Prop :=
  match find_tax key d with Some (i, _) => id = i | None => tax_records d !! id = None end.

Lemma place_unique key id r d :
  tax_unique d -> place key id d -> tax_key r = key -> tax_unique (set_tax_records (<[id := r]> (tax_records d)) d).
Proof.
  intros Hu Hp Hk i j ri rj. cbn.
  assert (Hother : forall k x, tax_records d !! k = Some x -> tax_key x = key -> k = id).
  { intros k x Hx Ex. unfold place in Hp. rewrite (find_tax_unique key d k x) in Hp by done. done. }
  intros [[<- <-]|[Hi Ri]]%lookup_insert_Some [[<- <-]|[Hj Rj]]%lookup_insert_Some E; [done| | |by eapply Hu].
  - symmetry. apply (Hother j rj); congruence.
  - apply (Hother i ri); congruence.
Qed.

Lemma update_tax_ok id f d n d' : update_tax id f d = Ok (n, d') ->
  match tax_records d !! id with
  | Some r => exists r', f r = Some r' /\ d' = set_tax_records (<[id := r']> (tax_records d)) d
  | None => d' = d
  end.
Proof.
  unfold update_tax, update_row. destruct (tax_records d !! id) as [r|].
  - destruct (f r) as [r'|]; [|discriminate]. intros [= _ <-]. eauto.
  - intros [= _ <-]. by destruct d as [????????????? []].
Qed.

(** ** The first write *)

(** The record of this attempt, before anything is taken. *)
Definition attempted (p : UserAccountProfit) (start end_ paid : Z) (r : taxRecord) : Prop :=
  tax_key r = (up_UserID p, up_AccountID p, start, end_) /\ tr_AmountRSD r = to_units (val (up_TaxRSD p)) /\
  tr_PaidAmountRSD r = paid.

Definition paid_before (key : Z * Z * Z * Z) (d : DB) : Z :=
  match find_tax key d with Some (_, r) => tr_PaidAmountRSD r | None => 0 end.

Lemma new_record_ok p start end_ by_ r :
  new_record p start end_ by_ = Some r ->
  attempted p start end_ 0 r /\ tr_Status r = TaxStatusOpen /\ tr_Attempts r = 1 /\
  (tr_Year r, tr_Month r) = year_month start /\ tr_Paid r = false.
Proof.
  unfold new_record. intros H. do 4 (apply bind_Some in H as (? & ? & H)).
  destruct (year_month start) as [y m] eqn:Ey. apply bind_Some in H as (y' & Hy & [= <-]).
  unfold store_int in Hy. case_decide; [|discriminate]. injection Hy as ->.
  split_and!; try done. split_and!; [done| |done]. by apply store_fixed.
Qed.

Lemma another_attempt_ok p t by_ r r' :
  another_attempt p t by_ r = Some r' ->
  tax_key r' = tax_key r /\ tr_AmountRSD r' = to_units (val (up_TaxRSD p)) /\ tr_PaidAmountRSD r' = tr_PaidAmountRSD r /\
  tr_Status r' = tr_Status r /\ tr_Attempts r' = tr_Attempts r + 1 /\
  tr_Year r' = tr_Year r /\ tr_Month r' = tr_Month r /\ tr_Paid r' = tr_Paid r.
Proof.
  unfold another_attempt. intros H. do 6 (apply bind_Some in H as (? & ? & H)).
  destruct (varchar 16 by_); [|discriminate]. injection H as <-. cbn.
  unfold store_int in *. repeat case_decide; simplify_eq. split_and!; try done. by apply store_fixed.
Qed.

(** ** The collection *)

(** Only accounts, the ledger and the table of taxes may differ. *)
Definition tax_frame (d d' : DB) : Prop :=
  d' = set_tax_records (tax_records d') (set_transakcija (d_transakcija d') (set_racun (d_racun d') d)).

#[export] Instance tax_frame_preorder : PreOrder tax_frame.
Proof.
  split.
  - intros d. by destruct d as [????????????? []].
  - unfold tax_frame. intros d1 d2 d3 H1 H2. rewrite H2, H1. reflexivity.
Qed.

(** The money of a tax: [q] out of the account, [c] to the state, in this order, and
    the two rows of the ledger. *)
Definition moved (acc state : Z) (q c : Q) (d d' : DB) : Prop :=
  exists r r' s s', d_racun d !! acc = Some r /\ sub_stanje q r = Some r' /\
    <[acc := r']> (d_racun d) !! state = Some s /\ add_stanje c s = Some s' /\
    d_racun d' = <[state := s']> (<[acc := r']> (d_racun d)) /\
    d_transakcija d' = (d_transakcija d ++
      [mkTransakcija acc ISPLATA (to_cents q); mkTransakcija state UPLATA (to_cents c)])%list.

Definition same_money (d d' : DB) : Prop := d_racun d' = d_racun d /\ d_transakcija d' = d_transakcija d.

Lemma update_key_ok key f d n d' id r :
  update_tax_key key f d = Ok (n, d') -> find_tax key d = Some (id, r) ->
  exists r', f r = Some r' /\ d' = set_tax_records (<[id := r']> (tax_records d)) d.
Proof.
  unfold update_tax_key. intros H E. rewrite E in H. apply find_tax_Some in E as [Hr _].
  apply update_tax_ok in H. by rewrite Hr in H.
Qed.

Lemma mark_unpaid_ok key t e w o c w' id r :
  mark_unpaid key t e w = (Ok (o, c), w') -> find_tax key (w_db w) = Some (id, r) ->
  o = Final TaxStatusUnpaid /\ c = decimal.Zero /\
  exists r', unpaid t r = Some r' /\ w_db w' = set_tax_records (<[id := r']> (tax_records (w_db w))) (w_db w).
Proof.
  unfold mark_unpaid. intros H E. apply bind_ok in H as (n & w1 & H & H1). injection H1 as <- <- <-.
  apply sql_ok in H as (d & H & -> & _). by apply (update_key_ok _ _ _ _ _ _ _ H) in E.
Qed.

(** The record that a status writes. *)
Definition settled (st : TaxStatus) (newPaid newRemaining : decimal.t) (r : taxRecord) : option taxRecord :=
  match st with TaxStatusCollected => collected newPaid r | _ => partly_collected newPaid newRemaining r end.

Definition clamped (d : decimal.t) : decimal.t := if decimal.LessThan d decimal.Zero then decimal.Zero else d.

Lemma book_tax_ok key acc state target paid st native credit e w o c w' id r ra rs :
  book_tax key acc state target paid st native credit e w = (Ok (o, c), w') ->
  find_tax key (w_db w) = Some (id, r) -> d_racun (w_db w) !! acc = Some ra -> d_racun (w_db w) !! state = Some rs ->
  o = Final st /\ c = credit /\
  moved acc state (decimal.sql_arg native) (decimal.sql_arg credit) (w_db w) (w_db w') /\ tax_frame (w_db w) (w_db w') /\
  exists r', settled st (decimal.Add paid credit) (clamped (decimal.Sub target (decimal.Add paid credit))) r = Some r' /\
    tax_records (w_db w') = <[id := r']> (tax_records (w_db w)).
Proof.
  unfold book_tax. intros H E Ha Hs.
  apply bind_ok in H as ([] & w1 & H1 & H). eapply exec_racun_ok in H1 as (ra' & Hra & D1); [|done].
  assert (Hs1 : exists s1, <[acc := ra']> (d_racun (w_db w)) !! state = Some s1).
  { destruct (decide (state = acc)) as [->|]; [rewrite lookup_insert_eq|rewrite lookup_insert_ne by done]; by eexists. }
  destruct Hs1 as [s1 Hs1].
  apply bind_ok in H as ([] & w2 & H2 & H). eapply exec_racun_ok in H2 as (s' & Hs' & D2); [|rewrite D1; exact Hs1].
  apply bind_ok in H as ([] & w3 & H3 & H). apply insert_transakcija_ok in H3 as D3.
  apply bind_ok in H as ([] & w4 & H4 & H). apply insert_transakcija_ok in H4 as D4.
  apply bind_ok in H as (n & w5 & H5 & H). injection H as <- <- <-.
  assert (D : w_db w4 = set_transakcija (d_transakcija (w_db w) ++
      [mkTransakcija acc ISPLATA (to_cents (decimal.sql_arg native));
       mkTransakcija state UPLATA (to_cents (decimal.sql_arg credit))])%list
      (set_racun (<[state := s']> (<[acc := ra']> (d_racun (w_db w)))) (w_db w))).
  { rewrite D4, D3, D2, D1. cbn. by rewrite <- app_assoc. }
  assert (K : exists r', settled st (decimal.Add paid credit) (clamped (decimal.Sub target (decimal.Add paid credit))) r = Some r' /\
    w_db w5 = set_tax_records (<[id := r']> (tax_records (w_db w))) (w_db w4)).
  { assert (E4 : find_tax key (w_db w4) = Some (id, r)) by by rewrite D.
    destruct st; apply sql_ok in H5 as (d & H5 & -> & _);
      apply (update_key_ok _ _ _ _ _ _ _ H5) in E4 as (r' & Hr' & Ed); exists r'; (split; [done|]);
      cbn; rewrite Ed, D; done. }
  destruct K as (r' & Hr' & D5). split_and!; [done..| | |].
  - exists ra, ra', s1, s'. rewrite D5, D. split_and!; done.
  - unfold tax_frame. rewrite D5, D. reflexivity.
  - exists r'. split; [done|]. by rewrite D5.
Qed.

(** The price of [x] dinars in a currency, and the dinars that an amount is worth: the
    middle rate, where the list has one. *)
Inductive priced (rates : list ExchangeRate) (oznaka : string) (x : decimal.t) : decimal.t -> Prop :=
  | priced_dinars : oznaka = "RSD" -> priced rates oznaka x x
  | priced_rate r : oznaka <> "RSD" -> mid_rate oznaka rates = Some r ->
      priced rates oznaka x (decimal.Div x (decimal.NewFromFloat r))
  | priced_no_rate : oznaka <> "RSD" -> mid_rate oznaka rates = None -> priced rates oznaka x x.

Inductive valued (rates : list ExchangeRate) (oznaka : string) (x : decimal.t) : decimal.t -> Prop :=
  | valued_dinars : oznaka = "RSD" -> valued rates oznaka x x
  | valued_rate r : oznaka <> "RSD" -> mid_rate oznaka rates = Some r ->
      valued rates oznaka x (decimal.Mul x (decimal.NewFromFloat r))
  | valued_no_rate : oznaka <> "RSD" -> mid_rate oznaka rates = None -> valued rates oznaka x x.

Lemma rsdToNative_priced rates x oznaka : priced rates oznaka x (rsdToNative rates x oznaka).
Proof.
  unfold rsdToNative. destruct (String.eqb_spec oznaka "RSD") as [->|Hn]; [by constructor|].
  destruct (mid_rate oznaka rates) eqn:E; by constructor.
Qed.

Lemma nativeToRSD_valued rates x oznaka : valued rates oznaka x (nativeToRSD rates x oznaka).
Proof.
  unfold nativeToRSD. destruct (String.eqb_spec oznaka "RSD") as [->|Hn]; [by constructor|].
  destruct (mid_rate oznaka rates) eqn:E; by constructor.
Qed.

(** How [x] dinars are taken from an account: the status, what leaves the account in its
    currency, and what the state gets in dinars. All of it when the balance covers the
    price; otherwise the whole balance; nothing when there is none. *)
Inductive charge (rates : list ExchangeRate) (x : decimal.t) (ra : racun) : TaxStatus -> decimal.t -> decimal.t -> Prop :=
  | charge_empty :
      f64_leb (scan_cents (r_stanje_racuna ra)) f64_zero = true ->
      charge rates x ra TaxStatusUnpaid decimal.Zero decimal.Zero
  | charge_whole price :
      f64_leb (scan_cents (r_stanje_racuna ra)) f64_zero = false -> priced rates (r_oznaka ra) x price ->
      f64_leb (decimal.InexactFloat64 price) (scan_cents (r_stanje_racuna ra)) = true ->
      f64_leb (decimal.InexactFloat64 price) f64_zero = false ->
      charge rates x ra TaxStatusCollected price x
  | charge_balance price worth :
      f64_leb (scan_cents (r_stanje_racuna ra)) f64_zero = false -> priced rates (r_oznaka ra) x price ->
      f64_leb (decimal.InexactFloat64 price) (scan_cents (r_stanje_racuna ra)) = false ->
      let balance := decimal.NewFromFloat (scan_cents (r_stanje_racuna ra)) in
      f64_leb (decimal.InexactFloat64 balance) f64_zero = false -> valued rates (r_oznaka ra) balance worth ->
      charge rates x ra TaxStatusPartial balance worth
  | charge_nothing price :
      f64_leb (scan_cents (r_stanje_racuna ra)) f64_zero = false -> priced rates (r_oznaka ra) x price ->
      (if f64_leb (decimal.InexactFloat64 price) (scan_cents (r_stanje_racuna ra))
       then f64_leb (decimal.InexactFloat64 price) f64_zero
       else f64_leb (decimal.InexactFloat64 (decimal.NewFromFloat (scan_cents (r_stanje_racuna ra)))) f64_zero) = true ->
      charge rates x ra TaxStatusUnpaid decimal.Zero decimal.Zero.

Lemma collection_charge rates x ra st native c :
  f64_leb (scan_cents (r_stanje_racuna ra)) f64_zero = false ->
  collection rates x (scan_cents (r_stanje_racuna ra)) (r_oznaka ra) = (st, native, c) ->
  if f64_leb (decimal.InexactFloat64 native) f64_zero then charge rates x ra TaxStatusUnpaid decimal.Zero decimal.Zero
  else charge rates x ra st native c /\ (st = TaxStatusCollected \/ st = TaxStatusPartial).
Proof.
  intros H0. unfold collection. pose proof (rsdToNative_priced rates x (r_oznaka ra)) as Hp.
  destruct (f64_leb (decimal.InexactFloat64 (rsdToNative rates x (r_oznaka ra))) (scan_cents (r_stanje_racuna ra))) eqn:E;
    intros [= <- <- <-].
  - destruct (f64_leb (decimal.InexactFloat64 (rsdToNative rates x (r_oznaka ra))) f64_zero) eqn:E1;
      [|split; [by apply charge_whole|by left]].
    eapply charge_nothing; [done|exact Hp|by rewrite E].
  - destruct (f64_leb (decimal.InexactFloat64 (decimal.NewFromFloat _)) f64_zero) eqn:E1.
    + eapply charge_nothing; [done|exact Hp|by rewrite E].
    + split; [|by right]. eapply charge_balance; [done|exact Hp|done|done|apply nativeToRSD_valued].
Qed.

(** What [collect_from] does, by its case. *)
Definition collected_from (p : UserAccountProfit) (state : Z) (rates : list ExchangeRate) (paid toCollect : decimal.t)
    (o : Outcome) (c : decimal.t) (r r' : taxRecord) (d d' : DB) : Prop :=
  exists ra rs st native, d_racun d !! up_AccountID p = Some ra /\ d_racun d !! state = Some rs /\
    o = Final st /\ charge rates toCollect ra st native c /\
    ((st = TaxStatusUnpaid /\ unpaid toCollect r = Some r' /\ same_money d d') \/
     ((st = TaxStatusCollected \/ st = TaxStatusPartial) /\
        moved (up_AccountID p) state (decimal.sql_arg native) (decimal.sql_arg c) d d' /\
        settled st (decimal.Add paid c) (clamped (decimal.Sub (up_TaxRSD p) (decimal.Add paid c))) r = Some r')).

Lemma collect_from_ok key p state rates paid toCollect e w o c w' id r :
  collect_from key p state rates paid toCollect e w = (Ok (o, c), w') -> find_tax key (w_db w) = Some (id, r) ->
  tax_frame (w_db w) (w_db w') /\
  exists r', tax_records (w_db w') = <[id := r']> (tax_records (w_db w)) /\
    collected_from p state rates paid toCollect o c r r' (w_db w) (w_db w').
Proof.
  unfold collect_from. intros H E.
  apply bind_ok in H as (acc & w1 & H1 & H). apply sql_read_ok in H1 as [-> D1].
  destruct (d_racun (w_db w) !! up_AccountID p) as [ra|] eqn:Ea; [|discriminate].
  apply bind_ok in H as (st0 & w2 & H2 & H). apply sql_read_ok in H2 as [-> D2]. rewrite D1 in *.
  destruct (d_racun (w_db w) !! state) as [rs|] eqn:Es; [|discriminate].
  assert (U : forall w0, w_db w0 = w_db w -> charge rates toCollect ra TaxStatusUnpaid decimal.Zero decimal.Zero ->
    mark_unpaid key toCollect e w0 = (Ok (o, c), w') ->
    tax_frame (w_db w) (w_db w') /\ exists r', tax_records (w_db w') = <[id := r']> (tax_records (w_db w)) /\
      collected_from p state rates paid toCollect o c r r' (w_db w) (w_db w')).
  { intros w0 E0 Hch Hm. rewrite <- E0 in E. apply (mark_unpaid_ok _ _ _ _ _ _ _ id r) in Hm as (-> & -> & r' & Hr' & D); [|done].
    rewrite E0 in D. split; [unfold tax_frame; rewrite D; by destruct (w_db w) as [????????????? []]|].
    exists r'. rewrite D. split; [done|]. exists ra, rs, TaxStatusUnpaid, decimal.Zero. split_and!; [done..|left]. by split_and!. }
  destruct (f64_leb (scan_cents (r_stanje_racuna ra)) f64_zero) eqn:E0; [by apply (U w2 D2); [apply charge_empty|]|].
  destruct (collection rates toCollect (scan_cents (r_stanje_racuna ra)) (r_oznaka ra)) as [[st native] credit] eqn:Ec.
  apply collection_charge in Ec; [|done].
  destruct (f64_leb (decimal.InexactFloat64 native) f64_zero); [by apply (U w2 D2)|]. destruct Ec as [Hch Hst].
  rewrite <- D2 in E, Ea, Es. apply (book_tax_ok _ _ _ _ _ _ _ _ _ _ _ _ _ id r ra rs) in H as (-> & -> & Hm & Hf & r' & Hr' & Ht); [|done..].
  rewrite D2 in *. split; [done|]. exists r'. split; [done|]. exists ra, rs, st, native. split_and!; [done..|right]. by split_and!.
Qed.


(** ** One tax *)

(** The first write of an attempt: a new row, or the row of the key. *)
Definition continues (start : Z) (d : DB) (old : option (Z * taxRecord)) (r : taxRecord) : Prop :=
  match old with
  | None => tr_Attempts r = 1 /\ (tr_Year r, tr_Month r) = year_month start /\ 1 <= tr_Month r <= 12 /\
      is_Some (d_racun d !! tr_AccountID r)
  | Some (_, r0) => tr_Attempts r = tr_Attempts r0 + 1 /\ tr_Year r = tr_Year r0 /\ tr_Month r = tr_Month r0
  end.

Lemma insert_tax_ok row i d d' : insert_tax row i d = Ok (tt, d') ->
  exists r, row = Some r /\ tax_checks r d = true /\ tax_records d !! i = None /\
    d' = set_tax_records (<[i := r]> (tax_records d)) d.
Proof.
  unfold insert_tax. destruct row as [r|]; [|discriminate]. destruct (tax_checks r d) eqn:Ec; [|discriminate].
  destruct (insert_row i r (tax_records d)) as [m|] eqn:Ei; [|discriminate]. intros [= <-].
  apply insert_row_ok in Ei as [Hi ->]. eauto 6.
Qed.

Lemma first_write_ok p start end_ by_ toCollect e w w1 :
  let key := (up_UserID p, up_AccountID p, start, end_) in
  tax_unique (w_db w) ->
  (match find_tax key (w_db w) with
   | None => sql_insert (insert_tax (new_record p start end_ by_))
   | Some (id, _) => sql (update_tax id (another_attempt p toCollect by_)) ;; mret tt
   end) e w = (Ok tt, w1) ->
  exists id r, place key id (w_db w) /\ w_db w1 = set_tax_records (<[id := r]> (tax_records (w_db w))) (w_db w) /\
    attempted p start end_ (paid_before key (w_db w)) r /\ continues start (w_db w) (find_tax key (w_db w)) r /\
    find_tax key (w_db w1) = Some (id, r).
Proof.
  intros key Hu H.
  assert (K : exists id r, place key id (w_db w) /\ w_db w1 = set_tax_records (<[id := r]> (tax_records (w_db w))) (w_db w) /\
    attempted p start end_ (paid_before key (w_db w)) r /\ continues start (w_db w) (find_tax key (w_db w)) r).
  2: { destruct K as (id & r & Hp & D & Ha & Hc). exists id, r. split_and!; try done.
       rewrite D. apply find_tax_unique; [by apply (place_unique key); [..|apply Ha]|by apply lookup_insert_eq|apply Ha]. }
  unfold place, paid_before. destruct (find_tax key (w_db w)) as [[id r0]|] eqn:E.
  - apply find_tax_Some in E as [Hr0 Hk]. apply bind_ok in H as (n & w2 & H & H2). injection H2 as <-.
    apply sql_ok in H as (d & H & -> & _). apply update_tax_ok in H. rewrite Hr0 in H. destruct H as (r & Hr & ->).
    apply another_attempt_ok in Hr as (Ek & Ea & Ep & _ & Et & Ey & Em & _).
    exists id, r. split_and!; [done|done|split_and!; [by rewrite Ek|done|done]|split_and!; done].
  - apply sql_insert_ok in H as (d & H & ->). apply insert_tax_ok in H as (r & Hr & Hc & Hi & ->).
    apply new_record_ok in Hr as (Ha & _ & Et & Ey & _). exists (w_seq w), r. split_and!; [done..|].
    unfold tax_checks in Hc. repeat (apply andb_prop in Hc as [Hc ?]). split_and!; try done; [lia|lia|].
    by eapply bool_decide_eq_true.
Qed.

(** Everything one call does to the tables. *)
Definition charged (p : UserAccountProfit) (start end_ : Z) (state : Z) (rates : list ExchangeRate) (o : Outcome) (c : decimal.t)
    (d d' : DB) : Prop :=
  let key := (up_UserID p, up_AccountID p, start, end_) in
  exists id r r' paid toCollect, place key id d /\ tax_records d' = <[id := r']> (tax_records d) /\
    attempted p start end_ (paid_before key d) r /\ continues start d (find_tax key d) r /\
    (val paid == units (paid_before key d))%Q /\ (val toCollect == val (up_TaxRSD p) - units (paid_before key d))%Q /\
    collected_from p state rates paid toCollect o c r r' d d'.

Definition left_alone (key : Z * Z * Z * Z) (d d' : DB) : Prop :=
  d' = d \/ exists id r, find_tax key d = Some (id, r) /\ tr_Status r <> TaxStatusCollected /\
    d' = set_tax_records (<[id := with_payment TaxStatusCollected true (tr_PaidAmountRSD r) 0 r]> (tax_records d)) d.

Lemma paid_so_far_ok key e w d w1 :
  paid_so_far (find_tax key (w_db w)) e w = (Ok d, w1) -> w1 = w /\ (val d == units (paid_before key (w_db w)))%Q.
Proof.
  unfold paid_so_far, paid_before. destruct (find_tax key (w_db w)) as [[id r]|].
  - unfold scan_decimal. destruct (decimal.NewFromString_val (units (tr_PaidAmountRSD r))) as (x & -> & Hx).
    by intros [= <- <-].
  - intros [= <- <-]. split; [done|]. rewrite decimal.val_Zero. reflexivity.
Qed.

Lemma collectOne_cases p start end_ by_ state rates e w o c w' :
  let key := (up_UserID p, up_AccountID p, start, end_) in
  tax_unique (w_db w) -> collectOne p start end_ by_ state rates e w = (Ok (o, c), w') ->
  tax_frame (w_db w) (w_db w') /\
  ((o = Already /\ c = decimal.Zero /\ (val (up_TaxRSD p) <= units (paid_before key (w_db w)))%Q /\
    left_alone key (w_db w) (w_db w')) \/
   (exists st, o = Final st /\ (units (paid_before key (w_db w)) < val (up_TaxRSD p))%Q /\
    charged p start end_ state rates o c (w_db w) (w_db w'))).
Proof.
  intros key Hu H. unfold collectOne in H. apply Transaction_ok in H as (w1 & H & D & _ & _). rewrite D. clear D w'.
  change (w_db w) with (w_db (begin_tx w)) in *. set (w0 := begin_tx w) in *. clearbody w0.
  apply bind_ok in H as ([] & w2 & H2 & H). apply sql_read_ok in H2 as [_ D2].
  apply bind_ok in H as (ex & w3 & H3 & H). apply sql_read_ok in H3 as [-> D3]. rewrite D2 in *.
  apply bind_ok in H as (paid & w4 & H4 & H). rewrite <- D3 in H4. apply paid_so_far_ok in H4 as [-> Hpaid]. rewrite D3 in *.
  set (toCollect := decimal.Sub (up_TaxRSD p) paid) in *.
  assert (Hto : (val toCollect == val (up_TaxRSD p) - units (paid_before key (w_db w0)))%Q).
  { subst toCollect. rewrite decimal.val_Sub, Hpaid. reflexivity. }
  destruct (decimal.LessThanOrEqual toCollect decimal.Zero) eqn:El.
  - apply decimal.LessThanOrEqual_spec in El. rewrite Hto, decimal.val_Zero in El.
    apply bind_ok in H as ([] & w5 & H5 & H). injection H as <- <- <-.
    assert (Hleft : left_alone key (w_db w0) (w_db w5)).
    { fold key in H5. destruct (find_tax key (w_db w0)) as [[id r]|] eqn:Ef.
      - destruct (decide (tr_Status r = TaxStatusCollected)); [injection H5 as <-; left; congruence|].
        apply bind_ok in H5 as (k0 & w6 & H5 & H6). injection H6 as <-. apply sql_ok in H5 as (d & H5 & -> & _).
        rewrite D3 in H5. pose proof Ef as Hf. apply find_tax_Some in Hf as [Hr _].
        apply update_tax_ok in H5. rewrite Hr in H5. destruct H5 as (r' & [= <-] & ->).
        right. exists id, r. by split_and!.
      - injection H5 as <-. left. congruence. }
    split; [|left; split_and!; [done..|lra|done]].
    destruct Hleft as [->|(id & r & _ & _ & ->)]; [reflexivity|]. unfold tax_frame. by destruct (w_db w0) as [????????????? []].
  - assert (Hlt : (units (paid_before key (w_db w0)) < val (up_TaxRSD p))%Q).
    { destruct (Qlt_le_dec (units (paid_before key (w_db w0))) (val (up_TaxRSD p))) as [|Hge]; [done|].
      assert (T : decimal.LessThanOrEqual toCollect decimal.Zero = true)
        by (apply decimal.LessThanOrEqual_spec; rewrite Hto, decimal.val_Zero; lra). congruence. }
    apply bind_ok in H as ([] & w5 & H5 & H). fold key in H5, H. rewrite <- D3 in H5.
    apply first_write_ok in H5 as (id & r & Hp & D5 & Ha & Hc & Hf); [|by rewrite D3]. fold key in Hp, Ha, Hc, Hf. rewrite D3 in *.
    apply (collect_from_ok _ _ _ _ _ _ _ _ _ _ _ id r) in H as (F & r' & Ht & K); [|done].
    split.
    { transitivity (w_db w5); [|done]. rewrite D5. unfold tax_frame. by destruct (w_db w0) as [????????????? []]. }
    right. assert (exists st, o = Final st) as [st ->].
    { destruct K as (? & ? & st & ? & _ & _ & -> & _). eauto. }
    exists st. split_and!; [done..|]. exists id, r, r', paid, toCollect. split_and!; try done.
    + rewrite Ht, D5. cbn. apply insert_insert_eq.
    + rewrite D5 in K. exact K.
Qed.

End facts.
