(* ===== verification/TaxRuns.v ===== *)
(** * The collection of a period

    What one call leaves behind, case by case; the run of a period as the sequence of
    its collections; the rules of [tax_records] under every interleaving of requests,
    the monthly worker and the rest of the bank; a tax that is collected stays
    collected; who may start a collection; and what the query leaves out. *)

From Stdlib Require Import SpecFloat Lqa.
From S2P Require Import Prelude Numeric Domain Tables Store StoreFacts OrderRepo Market FundsManager FundsFacts.
From S2P Require Import FundsTransfers GoMath AccountRepo OtcRepo OtcSaga OtcFacts OtcSagaFacts CardNumbers Cards CardHandlers Tax TaxFacts.
From stdpp Require Import list sorting relations.
#[local] Open Scope string_scope.
#[local] Open Scope Z_scope.

Section runs.
Context `{DL : decimal.Laws} `{TS : TaxServer}.
#[local] Abbreviation val := decimal.val.

(** ** One tax *)

(** The record an attempt leaves. *)
Definition recorded (p : UserAccountProfit) (start end_ : Z) (st : TaxStatus) (paid remaining : Z) (r : taxRecord) : Prop :=
  tax_key r = (up_UserID p, up_AccountID p, start, end_) /\ tr_AmountRSD r = to_units (val (up_TaxRSD p)) /\
  tr_Status r = st /\ tr_Paid r = bool_decide (st = TaxStatusCollected) /\
  tr_PaidAmountRSD r = paid /\ tr_RemainingDebtRSD r = remaining.

(** The money of a status: [b] was paid before, [c] is paid now. What is still owed is
    taken from the account as [charge] says, and the state gets the counterpart. *)
Definition money (p : UserAccountProfit) (state : Z) (rates : list ExchangeRate) (b : Q) (st : TaxStatus) (c : decimal.t)
    (d d' : DB) : Prop :=
  exists ra owed native, d_racun d !! up_AccountID p = Some ra /\ is_Some (d_racun d !! state) /\
    (val owed == val (up_TaxRSD p) - b)%Q /\ charge rates owed ra st native c /\
    match st with
    | TaxStatusUnpaid => same_money d d'
    | _ => moved (up_AccountID p) state (decimal.sql_arg native) (decimal.sql_arg c) d d'
    end.

Definition paid_after (p : UserAccountProfit) (b : Q) (st : TaxStatus) (c : decimal.t) : Z :=
  match st with TaxStatusCollected => to_units (val (up_TaxRSD p)) | TaxStatusUnpaid => to_units b | _ => to_units (b + val c) end.

Definition remaining_after (p : UserAccountProfit) (b : Q) (st : TaxStatus) (c : decimal.t) : Z :=
  match st with
  | TaxStatusCollected => 0
  | _ => Z.max 0 (to_units (val (up_TaxRSD p) - b - val c))
  end.

(** Everything [collectOne] may do. *)
Definition collect_post (p : UserAccountProfit) (start end_ state : Z) (rates : list ExchangeRate)
    (r : result (Outcome * decimal.t)) (d d' : DB) : Prop :=
  let key := (up_UserID p, up_AccountID p, start, end_) in
  let b := units (paid_before key d) in
  match r with
  | Err _ => d' = d
  | Ok (Already, c) => c = decimal.Zero /\ (val (up_TaxRSD p) <= b)%Q /\ left_alone key d d'
  | Ok (Final st, c) =>
      (b < val (up_TaxRSD p))%Q /\ tax_frame d d' /\ money p state rates b st c d d' /\
      exists id r', place key id d /\ tax_records d' = <[id := r']> (tax_records d) /\
        recorded p start end_ st (paid_after p b st c) (remaining_after p b st c) r' /\ continues start d (find_tax key d) r'
  end.

Lemma with_payment_key st paid a m r : tax_key (with_payment st paid a m r) = tax_key r.
Proof. by destruct r. Qed.

Lemma continues_payment start d old st paid a m r :
  continues start d old r -> continues start d old (with_payment st paid a m r).
Proof. by destruct old as [[i r0]|]. Qed.

Lemma to_units_clamped x : to_units (val (clamped x)) = Z.max 0 (to_units (val x)).
Proof.
  unfold clamped. assert (E0 : to_units (val decimal.Zero) = 0) by by rewrite decimal.val_Zero.
  destruct (decimal.LessThan x decimal.Zero) eqn:E.
  - apply decimal.LessThan_spec in E. rewrite decimal.val_Zero in E.
    assert (to_units (val x) <= 0); [|lia]. rewrite <- E0, decimal.val_Zero. apply to_units_mono. lra.
  - apply decimal.LessThan_false in E. assert (0 <= to_units (val x)); [|lia].
    rewrite <- E0. by apply to_units_mono.
Qed.

(** The status decides the last write. *)
Lemma settled_ok p start end_ b paid st c r r' :
  attempted p start end_ b r -> (val paid == units b)%Q ->
  st = TaxStatusCollected /\ (val c == val (up_TaxRSD p) - val paid)%Q \/ st = TaxStatusPartial ->
  settled st (decimal.Add paid c) (clamped (decimal.Sub (up_TaxRSD p) (decimal.Add paid c))) r = Some r' ->
  recorded p start end_ st (paid_after p (units b) st c) (remaining_after p (units b) st c) r'.
Proof.
  intros (Hk & Ha & _) Hp Hst H. destruct Hst as [[-> Hc]| ->]; cbn in H.
  - apply bind_Some in H as (a & Hs & [= <-]). apply store_fixed in Hs. split_and!; try done.
    cbn. rewrite Hs. apply to_units_proper. rewrite decimal.val_Add, Hc. lra.
  - apply bind_Some in H as (a & Hs & H). apply bind_Some in H as (m & Hm & [= <-]).
    apply store_fixed in Hs, Hm. split_and!; try done; cbn.
    + rewrite Hs. apply to_units_proper. rewrite decimal.val_Add, Hp. reflexivity.
    + rewrite Hm, to_units_clamped. f_equal. apply to_units_proper. rewrite decimal.val_Sub, decimal.val_Add, Hp. lra.
Qed.

Lemma unpaid_ok p start end_ b toCollect r r' :
  attempted p start end_ b r -> (val toCollect == val (up_TaxRSD p) - units b)%Q -> (units b < val (up_TaxRSD p))%Q ->
  unpaid toCollect r = Some r' ->
  recorded p start end_ TaxStatusUnpaid (paid_after p (units b) TaxStatusUnpaid decimal.Zero)
    (remaining_after p (units b) TaxStatusUnpaid decimal.Zero) r'.
Proof.
  intros (Hk & Ha & Hb) Ht Hlt H. unfold unpaid in H. apply bind_Some in H as (m & Hm & [= <-]). apply store_fixed in Hm.
  split_and!; try done; cbn.
  - by rewrite to_units_units.
  - rewrite Hm. assert (E : to_units (val toCollect) = to_units (val (up_TaxRSD p) - units b - val decimal.Zero))
      by (apply to_units_proper; rewrite Ht, decimal.val_Zero; lra).
    rewrite <- E. assert (0 <= to_units (val toCollect)); [|lia].
    rewrite <- (to_units_units 0). apply to_units_mono. rewrite Ht.
    assert (units 0 == 0)%Q as -> by reflexivity. lra.
Qed.

Lemma collectOne_post p start end_ by_ state rates e w r w' :
  tax_unique (w_db w) -> collectOne p start end_ by_ state rates e w = (r, w') ->
  collect_post p start end_ state rates r (w_db w) (w_db w').
Proof.
  intros Hu H. destruct r as [[o c]|er]; [|by eapply Transaction_err].
  apply collectOne_cases in H as (Hf & [(-> & -> & Hle & Hl)|(st & -> & Hlt & Hc)]); [by split_and!| |done].
  destruct Hc as (id & r & r' & paid & toc & Hp & Ht & Ha & Hn & Hpd & Htc & ra & rs & st0 & native & Hcase).
  unfold collect_post. cbv zeta. split; [done|]. split; [done|]. destruct Hcase as (Hra & Hrs & [= <-] & Hch & Hcase).
  destruct Hcase as [(-> & Hu' & Hm)|(Hst & Hm & Hs)].
  - split; [by exists ra, toc, native; split_and!|]. exists id, r'. split_and!; try done.
    + assert (c = decimal.Zero) as -> by by inversion Hch. by eapply unpaid_ok.
    + unfold unpaid in Hu'. apply bind_Some in Hu' as (m & _ & [= <-]). by apply continues_payment.
  - assert (Hc : st = TaxStatusCollected /\ (val c == val (up_TaxRSD p) - val paid)%Q \/ st = TaxStatusPartial).
    { destruct Hst as [-> | ->]; [left|by right]. inversion Hch; subst. split; [done|]. by rewrite Htc, Hpd. }
    split; [exists ra, toc, native; split_and!; try done; by destruct Hst as [-> | ->]|].
    exists id, r'. split_and!; try done; [by eapply settled_ok|].
    destruct Hst as [-> | ->]; cbn in Hs.
    + apply bind_Some in Hs as (? & _ & [= <-]). by apply continues_payment.
    + apply bind_Some in Hs as (? & _ & Hs). apply bind_Some in Hs as (? & _ & [= <-]). by apply continues_payment.
Qed.

(** ** What only reads *)

Lemma ComputeProfit_reads spread start end_ : reads (ComputeProfitForPeriod spread start end_).
Proof. unfold ComputeProfitForPeriod, usdToRSD. solve_reads. Qed.
#[local] Hint Resolve ComputeProfit_reads : reads.

Lemma Resolve_reads cfg uc cached : reads (ResolveStateRevenueAccountID cfg uc cached).
Proof. unfold ResolveStateRevenueAccountID, lookup_state. solve_reads. Qed.
#[local] Hint Resolve Resolve_reads : reads.

Lemma list_users_reads `{TaxUserClient} uc f debts us : reads (list_users uc f debts us).
Proof.
  induction us as [|[u t] us IH]; cbn [list_users]; [solve_reads|]. unfold user_info. unfold reads in *. solve_preserves; exact IH.
Qed.
#[local] Hint Resolve list_users_reads : reads.

Lemma listUsers_reads `{TaxUserClient} spread uc f : reads (listUsers spread uc f).
Proof. unfold listUsers, ListTaxEligibleUsers, estimate_debts. solve_reads. Qed.
#[local] Hint Resolve listUsers_reads : reads.

(** ** What a collection preserves, the rest does *)

Section preserved.
Context (R : DB -> DB -> Prop) `{HR : !PreOrder R}.
Context (HC : forall p start end_ by_ state rates, preserves R (collectOne p start end_ by_ state rates)).

Lemma collect_all_preserves ps start end_ by_ state rates s :
  preserves R (collect_all ps start end_ by_ state rates s).
Proof using HR HC. revert s. induction ps as [|p ps IH]; intros s; cbn [collect_all]; solve_preserves. Qed.

Lemma period_preserves spread cfg uc cached start end_ by_ :
  preserves R (CalculateAndCollectForPeriod spread cfg uc cached start end_ by_).
Proof using HR HC.
  unfold CalculateAndCollectForPeriod, calculate_locked. pose proof collect_all_preserves. solve_preserves.
Qed.

Lemma serve_tax_preserves `{TaxUserClient} spread verify cfg uc cached method path auth f body :
  preserves R (serve_tax spread verify cfg uc cached method path auth f body).
Proof using HR HC.
  unfold serve_tax, calculateAndCollect. pose proof period_preserves. solve_preserves.
Qed.
End preserved.

(** ** The rules of the table *)

Definition row_rules (d : DB) (r : taxRecord) : Prop :=
  is_Some (d_racun d !! tr_AccountID r) /\ 1 <= tr_Month r <= 12 /\
  (tr_Year r, tr_Month r) = year_month (tr_PeriodStart r) /\
  tr_Status r <> TaxStatusOpen /\ tr_Paid r = bool_decide (tr_Status r = TaxStatusCollected) /\
  (tr_Status r = TaxStatusCollected -> tr_RemainingDebtRSD r = 0) /\ 0 <= tr_RemainingDebtRSD r /\ 1 <= tr_Attempts r.

Definition tax_rules (d : DB) : Prop :=
  tax_unique d /\ forall i r, tax_records d !! i = Some r -> row_rules d r.

Definition keeps_accounts (d d' : DB) : Prop := forall i, is_Some (d_racun d !! i) -> is_Some (d_racun d' !! i).

Lemma moved_accounts acc state q c d d' : moved acc state q c d d' -> keeps_accounts d d'.
Proof.
  intros (r & r' & s & s' & _ & _ & _ & _ & E & _) i Hi. rewrite E. rewrite !lookup_insert_is_Some'. auto.
Qed.

Lemma money_accounts p state rates b st c d d' : money p state rates b st c d d' -> keeps_accounts d d'.
Proof.
  intros (ra & x & q & _ & _ & _ & _ & H). destruct st; [by eapply moved_accounts..|]. destruct H as [E _]. intros i. by rewrite E.
Qed.

Lemma money_status p state rates b st c d d' : money p state rates b st c d d' -> st <> TaxStatusOpen.
Proof. intros (ra & x & q & _ & _ & _ & H & _) ->. inversion H. Qed.

Lemma row_rules_mono d d' r : keeps_accounts d d' -> row_rules d r -> row_rules d' r.
Proof. intros H (H1 & H2). split; [by apply H|done]. Qed.

(** A table with one row written over or new. *)
Lemma tax_rules_place d d' key id r :
  tax_rules d -> keeps_accounts d d' -> place key id d -> tax_key r = key -> tax_records d' = <[id := r]> (tax_records d) ->
  row_rules d' r -> tax_rules d'.
Proof.
  intros [Hu Hr] Ha Hp Hk E Hn. split.
  - pose proof (place_unique key id r d Hu Hp Hk) as H. unfold tax_unique in *. cbn in H. by rewrite E.
  - rewrite E. intros i x [[_ <-]|[_ Hx]]%lookup_insert_Some; [done|]. by eapply row_rules_mono, Hr.
Qed.

Lemma recorded_rules p start end_ st paid rest r d d' :
  let key := (up_UserID p, up_AccountID p, start, end_) in
  tax_rules d -> keeps_accounts d d' -> st <> TaxStatusOpen -> 0 <= rest -> (st = TaxStatusCollected -> rest = 0) ->
  recorded p start end_ st paid rest r -> continues start d (find_tax key d) r -> row_rules d' r.
Proof.
  intros key [_ Hr] Ha Hst Hn Hz (Hk & _ & Es & Ep & _ & Er) Hc. injection Hk as Ku Kacc Ks _.
  assert (K : is_Some (d_racun d !! tr_AccountID r) /\ 1 <= tr_Month r <= 12 /\
    (tr_Year r, tr_Month r) = year_month (tr_PeriodStart r) /\ 1 <= tr_Attempts r).
  { destruct (find_tax key d) as [[i r0]|] eqn:E.
    - apply find_tax_Some in E as [Hi Hk0]. injection Hk0 as _ Ka0 Ks0 _.
      destruct (Hr i r0 Hi) as (R1 & R2 & R3 & _ & _ & _ & _ & R8). destruct Hc as (-> & -> & ->).
      rewrite Kacc, <- Ka0, Ks, <- Ks0. repeat split; try done; lia.
    - destruct Hc as (-> & Hy & Hm & Hx). rewrite Ks. repeat split; try done; lia. }
  destruct K as (K1 & K2 & K3 & K4). unfold row_rules. rewrite Es, Ep, Er. split_and!; try done; [by apply Ha|lia|lia].
Qed.

Definition keeps_rules (d d' : DB) : Prop := tax_rules d -> tax_rules d'.
#[export] Instance keeps_rules_preorder : PreOrder keeps_rules.
Proof. split; [by intros d H|]. intros d1 d2 d3 H1 H2 H. by apply H2, H1. Qed.

Lemma remaining_nonneg p b st c :
  0 <= remaining_after p b st c /\ (st = TaxStatusCollected -> remaining_after p b st c = 0).
Proof. split; [|by intros ->]. destruct st; cbn; lia. Qed.

Lemma collectOne_rules p start end_ by_ state rates : preserves keeps_rules (collectOne p start end_ by_ state rates).
Proof.
  intros e w r w' H Hd. apply collectOne_post in H; [|apply Hd]. destruct r as [[[|st] c]|er]; cbn in H.
  - destruct H as (_ & _ & [->|(id & r & Hf & Hs & ->)]); [done|]. pose proof Hf as [Hi Hk]%find_tax_Some.
    eapply (tax_rules_place (w_db w) _ (tax_key r) id); [done|by intros j Hj| | |reflexivity|]; [unfold place; by rewrite Hk, Hf|done|].
    destruct Hd as [_ Hr]. destruct (Hr id r Hi) as (R1 & R2 & R3 & _ & _ & _ & _ & R8).
    split_and!; try done; cbn; lia.
  - destruct H as (_ & _ & Hm & id & r' & Hp & Ht & Hrec & Hc). pose proof (money_accounts _ _ _ _ _ _ _ _ Hm) as Ha.
    eapply (tax_rules_place (w_db w) _ _ id r'); [done|done|exact Hp|apply Hrec|done|].
    eapply (recorded_rules p start end_ st _ _ r' (w_db w)); [done|done|by eapply money_status|apply remaining_nonneg..|done|done].
  - by rewrite H.
Qed.

(** ** The loop over the taxes of a period *)

Inductive collections (start end_ state : Z) (rates : list ExchangeRate) :
    list UserAccountProfit -> list (result (Outcome * decimal.t)) -> DB -> DB -> Prop :=
  | collections_nil d : collections start end_ state rates [] [] d d
  | collections_cons p ps r rs d d1 d2 :
      collect_post p start end_ state rates r d d1 -> collections start end_ state rates ps rs d1 d2 ->
      collections start end_ state rates (p :: ps) (r :: rs) d d2.

Lemma post_unique p start end_ state rates r d d' :
  tax_unique d -> collect_post p start end_ state rates r d d' -> tax_unique d'.
Proof.
  intros Hu H.
  assert (K : forall key id x, place key id d -> tax_key x = key -> tax_records d' = <[id := x]> (tax_records d) -> tax_unique d').
  { intros key id x Hp Hk E. pose proof (place_unique key id x d Hu Hp Hk) as K. unfold tax_unique in *. cbn in K. by rewrite E. }
  destruct r as [[[|st] c]|er]; cbn in H.
  - destruct H as (_ & _ & [->|(id & x & Hf & _ & ->)]); [done|]. pose proof Hf as [_ Hk]%find_tax_Some.
    eapply (K (tax_key x) id); [unfold place; by rewrite Hk, Hf| |reflexivity]. done.
  - destruct H as (_ & _ & _ & id & x & Hp & E & Hr & _). eapply K; [exact Hp|apply Hr|done].
  - by rewrite H.
Qed.

Lemma collect_all_ok ps start end_ by_ state rates s e w r w' :
  tax_unique (w_db w) -> collect_all ps start end_ by_ state rates s e w = (r, w') ->
  exists rs, r = Ok (foldl (fun s r => count_outcome r s) s rs) /\
    collections start end_ state rates ps rs (w_db w) (w_db w').
Proof.
  revert s w. induction ps as [|p ps IH]; intros s w Hu H; cbn [collect_all] in H.
  - injection H as <- <-. exists []. split; [done|constructor].
  - apply try_bind in H as (r0 & w1 & H1 & H). apply collectOne_post in H1; [|done].
    apply IH in H as (rs & -> & Hc); [|by eapply post_unique]. exists (r0 :: rs). split; [done|by econstructor].
Qed.

(** Every tax is counted once, and two rows of the ledger belong to every tax that
    was paid at least in part. *)
Definition counted (s : PeriodSummary) (n : nat) : Prop :=
  sm_FullyCollected s + sm_Partial s + sm_Unpaid s = sm_ProcessedUsers s /\
  sm_ProcessedUsers s + sm_AlreadyCollected s + sm_Errors s = Z.of_nat n.

Definition paid_taxes (s : PeriodSummary) : Z := sm_FullyCollected s + sm_Partial s.

Definition rows_of (d : DB) : Z := Z.of_nat (length (d_transakcija d)).

Lemma post_counted p start end_ state rates r d d' s n :
  collect_post p start end_ state rates r d d' -> counted s n ->
  counted (count_outcome r s) (S n) /\
  rows_of d' - 2 * paid_taxes (count_outcome r s) = rows_of d - 2 * paid_taxes s.
Proof.
  unfold counted, paid_taxes, rows_of. destruct s as [u t f q k a x]. cbn.
  assert (Hm : forall acc c1 c2, moved acc state c1 c2 d d' -> length (d_transakcija d') = S (S (length (d_transakcija d)))).
  { intros acc c1 c2 (r1 & r2 & s1 & s2 & _ & _ & _ & _ & _ & E). rewrite E, length_app. cbn. lia. }
  destruct r as [[[|st] c]|er]; cbn.
  - intros (_ & _ & [->|(id & y & _ & _ & ->)]) H; cbn; lia.
  - intros (_ & _ & M & _) H. pose proof (money_status _ _ _ _ _ _ _ _ M) as Hn. destruct M as (ra & y & z & _ & _ & _ & _ & M).
    destruct st; cbn in *; [done|apply Hm in M; rewrite M; lia|apply Hm in M; rewrite M; lia|destruct M as [_ ->]; lia].
  - intros -> H. lia.
Qed.

Lemma collections_counted start end_ state rates ps rs d d' s n :
  collections start end_ state rates ps rs d d' -> counted s n ->
  counted (foldl (fun s r => count_outcome r s) s rs) (n + length ps) /\
  rows_of d' - 2 * paid_taxes (foldl (fun s r => count_outcome r s) s rs) = rows_of d - 2 * paid_taxes s.
Proof.
  intros H. revert s n. induction H as [d|p ps r rs d d1 d2 H _ IH]; intros s n Hs; cbn [foldl length].
  - split; [by rewrite Nat.add_0_r|done].
  - destruct (post_counted _ _ _ _ _ _ _ _ s n H Hs) as [H1 H2]. destruct (IH _ _ H1) as [H3 H4].
    split; [by replace (n + S (length ps))%nat with (S n + length ps)%nat by lia|lia].
Qed.

(** ** One tax per user and account *)

Definition row_key (r : profitRow) : Z * Z := (pw_UserID r, pw_AccountID r).
Definition profit_key (p : UserAccountProfit) : Z * Z := (up_UserID p, up_AccountID p).

Lemma NoDup_omap_key {A B K} (k1 : A -> K) (k2 : B -> K) (g : A -> option B) l :
  (forall a b, g a = Some b -> k2 b = k1 a) -> NoDup (k1 <$> l) -> NoDup (k2 <$> omap g l).
Proof.
  intros Hg. induction l as [|a l IH]; cbn; [constructor|]. intros [Hn Hd]%NoDup_cons.
  destruct (g a) as [b|] eqn:E; [|by apply IH]. cbn. constructor; [|by apply IH]. rewrite (Hg a b E).
  intros (b' & Eb & (a' & Ha' & E')%list_elem_of_omap)%list_elem_of_fmap. apply Hn. rewrite Eb, (Hg a' b' E').
  by apply list_elem_of_fmap_2.
Qed.

Lemma group_by_keys {A K} `{EqDecision K} (key : A -> K) l : (group_by key l).*1 = remove_dups (key <$> l).
Proof. unfold group_by. rewrite <- list_fmap_compose. by apply list_fmap_id. Qed.

Lemma compute_profit_keys stock start end_ d : NoDup (row_key <$> compute_profit stock start end_ d).
Proof.
  unfold compute_profit. eapply (NoDup_omap_key fst).
  - intros [[u a] rows] b. destruct (f64_leb _ _); [done|]. by intros [= <-].
  - rewrite group_by_keys. apply NoDup_remove_dups.
Qed.

Lemma profit_keys rate rows : NoDup (row_key <$> rows) -> NoDup (profit_key <$> omap (to_profit rate) rows).
Proof.
  intros H. eapply NoDup_omap_key; [|exact H]. intros a b. unfold to_profit. destruct (f64_leb _ _); [done|]. by intros [= <-].
Qed.

(** ** Months *)

Definition in_window (w : Z * Z) (t : Z) : Prop := w.1 <= t <= w.2.

Lemma in_month t y m : in_window (MonthWindow y m) t <-> nth_month y (m - 1) <= t / 86400000000 < nth_month y m.
Proof.
  unfold in_window, MonthWindow, month_first, micros_of_day. cbn [fst snd]. replace (m + 1 - 1) with m by lia.
  generalize (nth_month y (m - 1)), (nth_month y m). intros a b. Z.to_euclidean_division_equations; lia.
Qed.

Lemma now_month_range now : let '(y, m) := now_month now in
  1 <= m <= 12 /\ 86400 * nth_month y (m - 1) <= now < 86400 * nth_month y m.
Proof.
  unfold now_month, truncate_day. destruct (Date (now / 86400)) as [[y m] d] eqn:E. apply Date_spec in E as (Hm & _ & Hd).
  replace (m + 1 - 1) with m by lia. split; [lia|]. revert Hd. generalize (nth_month y m), (nth_month y (m + 1)). intros a b Hd.
  Z.to_euclidean_division_equations; lia.
Qed.

(** ** What never fails *)

Definition answers {A} (m : M A) : Prop := forall e w r w', m e w = (r, w') -> exists a, r = Ok a.

Lemma answers_ret {A} (a : A) : answers (mret a).
Proof. intros e w r w' [= <- _]. eauto. Qed.
Lemma answers_try {A} (m : M A) : answers (try m).
Proof. intros e w r w' (r0 & -> & _)%try_run. eauto. Qed.
Lemma answers_bind {A B} (m : M A) (k : A -> M B) : answers m -> (forall a, answers (k a)) -> answers (x ← m; k x).
Proof.
  intros Hm Hk e w r w' [(a & w1 & _ & H)|(er & _ & H)]%bind_cases; [by eapply Hk|].
  by destruct (Hm _ _ _ _ H).
Qed.

Ltac solve_answers :=
  repeat match goal with
  | |- answers (mret _) => apply answers_ret
  | |- answers (try _) => apply answers_try
  | |- answers (mbind _ _) => apply answers_bind; [|intros ?]
  | |- answers (match ?x with _ => _ end) => destruct x
  end.

Lemma Resolve_answers cfg uc cached : answers (ResolveStateRevenueAccountID cfg uc cached).
Proof. unfold ResolveStateRevenueAccountID, lookup_state. solve_answers. Qed.

(** The run with the lock held. *)
Lemma calculate_locked_ok spread start end_ by_ state e w r w' :
  tax_unique (w_db w) -> calculate_locked spread start end_ by_ state e w = (r, w') ->
  match r with
  | Err _ => w_db w' = w_db w
  | Ok s => exists n rate st rates outs,
      let ps := omap (to_profit rate) (compute_profit (is_stock e n) start end_ (w_db w)) in
      collections start end_ st rates ps outs (w_db w) (w_db w') /\ s = foldl (fun s r => count_outcome r s) no_summary outs
  end.
Proof.
  intros Hu H. unfold calculate_locked in H. destruct state as [st|]; [|by injection H as <- <-].
  apply bind_cases in H as [(ps & w1 & H1 & H)|(er & -> & H)]; [|by rewrite (ComputeProfit_reads _ _ _ _ _ _ _ H)].
  pose proof (ComputeProfit_reads _ _ _ _ _ _ _ H1) as D1. unfold ComputeProfitForPeriod in H1.
  apply bind_ok in H1 as (rate & w2 & H2 & H1).
  assert (D2 : w_db w2 = w_db w).
  { symmetry. assert (Hr : reads (usdToRSD spread)) by (unfold usdToRSD; solve_reads). by apply (Hr _ _ _ _ H2). }
  apply bind_ok in H1 as (rows & w3 & H3 & H1). apply sql_env_ok in H3 as [-> _]. injection H1 as <- <-. rewrite D2 in H.
  destruct (GetRates_total spread e w3) as [rates Hrt]. rewrite (bind_run _ _ _ _ _ _ Hrt) in H.
  assert (E3 : w_db (next_step w3) = w_db w) by (symmetry; exact D1).
  apply collect_all_ok in H as (outs & -> & H); [|by rewrite E3]. rewrite E3 in H.
  exists (w_step w2), rate, st, rates, outs. by split.
Qed.

Lemma collect_all_answers ps start end_ by_ state rates s : answers (collect_all ps start end_ by_ state rates s).
Proof. revert s. induction ps as [|p ps IH]; intros s; cbn [collect_all]; solve_answers. apply IH. Qed.

(** Only a run with an answer has changed anything. *)
Lemma period_err spread cfg uc cached start end_ by_ e w r w' :
  CalculateAndCollectForPeriod spread cfg uc cached start end_ by_ e w = (r, w') ->
  exists x c', r = Ok (x, c') /\ forall er, x = Err er -> w_db w' = w_db w.
Proof.
  intros H. unfold CalculateAndCollectForPeriod in H. apply try_bind in H as (l & w1 & H1 & H).
  pose proof (sql_env_reads _ _ _ _ _ H1) as D1. destruct l as [[]|er]; [|injection H as <- <-; eauto..].
  apply bind_cases in H as [([st c'] & w2 & H2 & H)|(er & -> & H)]; [|by destruct (Resolve_answers _ _ _ _ _ _ _ H)].
  apply Resolve_reads in H2. apply try_bind in H as (x & w3 & H3 & H). apply try_bind in H as (u & w4 & H4 & H). injection H as <- <-.
  apply (preserves_sql_read eq (fun _ => tt)) in H4. exists x, c'. split; [done|]. intros er ->.
  assert (D3 : w_db w3 = w_db w2); [|congruence]. clear H4 D1 H2. unfold calculate_locked in H3.
  destruct (st, c').1 as [i|]; [|by injection H3 as _ <-].
  apply bind_cases in H3 as [(ps & w5 & H5 & H3)|(er' & _ & H3)]; [|by rewrite (ComputeProfit_reads _ _ _ _ _ _ _ H3)].
  destruct (GetRates_total spread e w5) as [rates Hrt]. rewrite (bind_run _ _ _ _ _ _ Hrt) in H3.
  by destruct (collect_all_answers _ _ _ _ _ _ _ _ _ _ _ H3).
Qed.

(** A token that passes belongs to a supervisor. *)
Lemma verifySupervisor_ok verify auth claims : verifySupervisor verify auth = inr claims ->
  exists token, strip_bearer auth = Some token /\ verify token = Some claims /\
    (cl_UserType claims = "ADMIN" \/ cl_UserType claims = "EMPLOYEE" /\ "SUPERVISOR" ∈ cl_Permissions claims).
Proof.
  unfold verifySupervisor. destruct (strip_bearer auth) as [token|]; [|done]. destruct (verify token) as [k|] eqn:E; [|done].
  destruct (String.eqb_spec (cl_UserType k) "EMPLOYEE") as [Ee|]; destruct (String.eqb_spec (cl_UserType k) "ADMIN") as [Ea|];
    cbn; try (case_bool_decide; cbn); try done; intros [= <-]; exists token; auto.
Qed.

Lemma requested_window_past now body win : requested_window now body = inr win -> win.1 <= 1000000 * now.
Proof.
  assert (C : (CurrentMonthWindow now).1 <= 1000000 * now).
  { unfold CurrentMonthWindow. pose proof (now_month_range now) as H. destruct (now_month now) as [y m].
    change (86400000000 * nth_month y (m - 1) <= 1000000 * now). lia. }
  assert (K : forall x, inr x = inr win :> Z + Z * Z -> x.1 <= 1000000 * now -> win.1 <= 1000000 * now) by (intros x [= ->]; done).
  unfold requested_window. destruct body as [[[y m]|]|]; [|done|intros H; by apply (K _ H)].
  destruct (_ && _); [|intros H; by apply (K _ H)].
  destruct (Z.ltb_spec (1000000 * now) (month_first y m)) as [|Hle]; [done|]. intros H. by apply (K _ H).
Qed.

(** ** A tax is collected

    On a database that works, a call for a tax whose amounts fit their columns answers:
    nothing but a failed statement, a missing account or an overflow stops it. *)

Definition fits (x : Q) : Prop := Z.abs (to_units x) < 10 ^ 18.

#[export] Instance fits_proper : Proper (Qeq ==> iff) fits.
Proof. intros x y E. unfold fits. by rewrite E. Qed.

Lemma store_money_fits x : fits (val x) -> store_money (fixed 4 x) = Some (to_units (val x)).
Proof.
  intros H. unfold store_money, numeric_store. change (round_half_away (fixed 4 x * inject_Z 10000)) with (to_units (fixed 4 x)).
  assert (E : to_units (fixed 4 x) = to_units (val x)).
  { rewrite <- (to_units_units (to_units (val x))). apply to_units_proper. unfold fixed. rewrite decimal.StringFixed_val by lia. reflexivity. }
  rewrite E. by rewrite decide_True.
Qed.

Lemma store_clamped x : fits (val x) -> is_Some (store_money (fixed 4 (clamped x))).
Proof.
  intros H. eexists. apply store_money_fits. unfold clamped. destruct (decimal.LessThan _ _); [|done].
  unfold fits. rewrite decimal.val_Zero. change (to_units 0) with 0. lia.
Qed.

(** What was paid before, as it is read. *)
Definition paid_is (key : Z * Z * Z * Z) (d : DB) (paid : decimal.t) : Prop :=
  match find_tax key d with
  | Some (_, r) => decimal.NewFromString (units (tr_PaidAmountRSD r)) = Some paid
  | None => paid = decimal.Zero
  end.

Record collectable (p : UserAccountProfit) (start end_ : Z) (by_ : string) (state : Z) (rates : list ExchangeRate)
    (seq : Z) (d : DB) : Prop := {
  cb_row : match find_tax (up_UserID p, up_AccountID p, start, end_) d with
           | Some (_, r) => is_int32 (tr_Attempts r + 1)
           | None => tax_records d !! seq = None /\ varchar 10 (up_SourceCurrency p) = true /\
               is_int32 (year_month start).1
           end;
  cb_texts : varchar 16 by_ = true /\ is_int32 (up_TxnCount p) /\ is_Some (store_rate (fixed 6 (up_RateUsed p)));
  cb_sums : fits (val (up_TaxRSD p)) /\ fits (val (up_ProfitNative p)) /\
    fits (val (up_TaxRSD p) - units (paid_before (up_UserID p, up_AccountID p, start, end_) d));
  cb_accounts : is_Some (d_racun d !! up_AccountID p) /\ is_Some (d_racun d !! state);
  cb_money : forall ra paid st native c,
    let b := units (paid_before (up_UserID p, up_AccountID p, start, end_) d) in
    d_racun d !! up_AccountID p = Some ra -> paid_is (up_UserID p, up_AccountID p, start, end_) d paid ->
    charge rates (decimal.Sub (up_TaxRSD p) paid) ra st native c -> st <> TaxStatusUnpaid ->
    fits (b + val c) /\ fits (val (up_TaxRSD p) - b - val c) /\
    Z.abs (to_cents (decimal.sql_arg native)) < 10 ^ 15 /\ Z.abs (to_cents (decimal.sql_arg c)) < 10 ^ 15 /\
    exists ra' s s', sub_stanje (decimal.sql_arg native) ra = Some ra' /\
      <[up_AccountID p := ra']> (d_racun d) !! state = Some s /\ add_stanje (decimal.sql_arg c) s = Some s'
}.

Section answers.
Context (e : Env) (He : no_faults e).

Lemma update_key_succeeds key f w id r :
  w_aborted w = false -> find_tax key (w_db w) = Some (id, r) -> is_Some (f r) -> succeeds e (sql (update_tax_key key f)) w.
Proof using He.
  intros Ha E [r' Hr']. apply succeeds_sql; [done..|]. unfold update_tax_key. rewrite E. apply find_tax_Some in E as [E _].
  unfold update_tax, update_row. rewrite E, Hr'. eauto.
Qed.

Lemma exec_succeeds id f w r :
  w_aborted w = false -> d_racun (w_db w) !! id = Some r -> is_Some (f r) -> succeeds e (exec_racun id f) w.
Proof using He.
  intros Ha E [r' Hr']. apply succeeds_bind; [|intros; by apply succeeds_ret]. apply succeeds_sql; [done..|].
  unfold update_racun. rewrite E, Hr'. cbn. eauto.
Qed.

Lemma ledger_succeeds id tip q w :
  w_aborted w = false -> is_Some (d_racun (w_db w) !! id) -> Z.abs (to_cents q) < 10 ^ 15 ->
  succeeds e (sql (insert_transakcija [(id, tip, q)])) w.
Proof using He.
  intros Ha [r E] Hq. apply succeeds_sql; [done..|]. unfold insert_transakcija, transakcija_rows.
  rewrite E, store_cents_fits by done. eauto.
Qed.

Lemma mark_unpaid_succeeds key x w id r :
  w_aborted w = false -> find_tax key (w_db w) = Some (id, r) -> fits (val x) -> succeeds e (mark_unpaid key x) w.
Proof using He.
  intros Ha E Hx. apply succeeds_bind; [|intros; by apply succeeds_ret]. eapply update_key_succeeds; [done..|].
  unfold unpaid. rewrite store_money_fits by done. by eexists.
Qed.

Lemma book_tax_succeeds key acc state target paid st native c w id r ra ra' s s' :
  w_aborted w = false -> find_tax key (w_db w) = Some (id, r) ->
  d_racun (w_db w) !! acc = Some ra -> sub_stanje (decimal.sql_arg native) ra = Some ra' ->
  <[acc := ra']> (d_racun (w_db w)) !! state = Some s -> add_stanje (decimal.sql_arg c) s = Some s' ->
  Z.abs (to_cents (decimal.sql_arg native)) < 10 ^ 15 -> Z.abs (to_cents (decimal.sql_arg c)) < 10 ^ 15 ->
  fits (val (decimal.Add paid c)) -> fits (val (decimal.Sub target (decimal.Add paid c))) ->
  succeeds e (book_tax key acc state target paid st native c) w.
Proof using He.
  intros Ha E Hra Hsub Hs Hadd Hn Hc F1 F2. unfold book_tax.
  apply succeeds_bind; [by eapply exec_succeeds; [..|eexists]|intros [] w1 H1 A1].
  eapply exec_racun_ok in H1 as (x1 & Hx1 & D1); [|done]. rewrite Hsub in Hx1. injection Hx1 as <-.
  apply succeeds_bind; [eapply exec_succeeds; [done|by rewrite D1|by eexists]|intros [] w2 H2 A2].
  eapply exec_racun_ok in H2 as (x2 & Hx2 & D2); [|by rewrite D1].
  assert (K : is_Some (d_racun (w_db w2) !! acc) /\ is_Some (d_racun (w_db w2) !! state)).
  { assert (Hx : is_Some (<[acc := ra']> (d_racun (w_db w)) !! acc)) by (rewrite lookup_insert_eq; by eexists).
    rewrite D2, D1. cbn. split; apply lookup_insert_is_Some'; [by right|by left]. }
  destruct K as [K1 K2]. apply succeeds_bind; [by apply ledger_succeeds|intros [] w3 H3 A3]. apply insert_transakcija_ok in H3 as D3.
  apply succeeds_bind; [apply ledger_succeeds; [done|by rewrite D3|done]|intros [] w4 H4 A4]. apply insert_transakcija_ok in H4 as D4.
  assert (E4 : find_tax key (w_db w4) = Some (id, r)) by by rewrite D4, D3, D2, D1.
  apply succeeds_bind; [|intros; by apply succeeds_ret].
  destruct (store_clamped _ F2) as [z Hz]. unfold clamped in Hz.
  destruct st; (eapply update_key_succeeds; [exact A4|exact E4|]); unfold collected, partly_collected;
    rewrite (store_money_fits (decimal.Add paid c)) by done; cbn; rewrite ?Hz; by eexists.
Qed.

Lemma collect_from_succeeds key p state rates paid owed w id r b :
  w_aborted w = false -> find_tax key (w_db w) = Some (id, r) ->
  is_Some (d_racun (w_db w) !! up_AccountID p) -> is_Some (d_racun (w_db w) !! state) ->
  (val paid == b)%Q -> fits (val owed) ->
  (forall ra st native c, d_racun (w_db w) !! up_AccountID p = Some ra -> charge rates owed ra st native c ->
     st <> TaxStatusUnpaid ->
     fits (b + val c) /\ fits (val (up_TaxRSD p) - b - val c) /\
     Z.abs (to_cents (decimal.sql_arg native)) < 10 ^ 15 /\ Z.abs (to_cents (decimal.sql_arg c)) < 10 ^ 15 /\
     exists ra' s s', sub_stanje (decimal.sql_arg native) ra = Some ra' /\
       <[up_AccountID p := ra']> (d_racun (w_db w)) !! state = Some s /\ add_stanje (decimal.sql_arg c) s = Some s') ->
  succeeds e (collect_from key p state rates paid owed) w.
Proof using He.
  intros Ha E [ra Hra] [rs Hrs] Hb Ho Hm. unfold collect_from.
  apply succeeds_bind; [by apply succeeds_read|intros acc w1 H1 A1]. apply sql_read_ok in H1 as [-> D1]. rewrite Hra.
  apply succeeds_bind; [by apply succeeds_read|intros acc w2 H2 A2]. apply sql_read_ok in H2 as [-> D2]. rewrite D1, Hrs.
  rewrite D1 in D2. assert (U : succeeds e (mark_unpaid key owed) w2) by (eapply mark_unpaid_succeeds; [done|by rewrite D2|done]).
  destruct (f64_leb (scan_cents (r_stanje_racuna ra)) f64_zero) eqn:E0; [done|].
  destruct (collection rates owed (scan_cents (r_stanje_racuna ra)) (r_oznaka ra)) as [[st native] c] eqn:Ec.
  apply collection_charge in Ec; [|done]. destruct (f64_leb (decimal.InexactFloat64 native) f64_zero); [done|].
  destruct Ec as [Hch Hst]. destruct (Hm ra st native c Hra Hch) as (F1 & F2 & N1 & N2 & ra' & s & s' & S1 & S2 & S3);
    [by destruct Hst as [-> | ->]|].
  eapply book_tax_succeeds; [done|by rewrite D2|by rewrite D2|exact S1|by rewrite D2|exact S3|done|done|..].
  - by rewrite decimal.val_Add, Hb.
  - rewrite decimal.val_Sub, decimal.val_Add, Hb. eapply fits_proper; [|exact F2]. lra.
Qed.

Lemma first_write_succeeds p start end_ by_ state rates owed w :
  let key := (up_UserID p, up_AccountID p, start, end_) in
  w_aborted w = false -> collectable p start end_ by_ state rates (w_seq w) (w_db w) -> fits (val owed) ->
  succeeds e (match find_tax key (w_db w) with
   | None => sql_insert (insert_tax (new_record p start end_ by_))
   | Some (id, _) => sql (update_tax id (another_attempt p owed by_)) ;; mret tt
   end) w.
Proof using He.
  intros key Ha [Hrow (Hby & Hcnt & [rt Hrt]) (F1 & F2 & _) [Hacc _] _] Ho. fold key in Hrow.
  destruct (find_tax key (w_db w)) as [[id r]|] eqn:E.
  - apply succeeds_bind; [|intros; by apply succeeds_ret]. apply succeeds_sql; [done..|]. apply find_tax_Some in E as [E _].
    unfold update_tax, update_row. rewrite E. unfold another_attempt, store_int.
    rewrite !store_money_fits, Hrt by done. cbn. rewrite !decide_True by done. cbn. rewrite Hby. by eexists _, _.
  - destruct Hrow as (Hi & Hsrc & Hy). apply succeeds_insert; [done..|]. unfold insert_tax, new_record, store_int.
    assert (Hym : 1 <= (year_month start).2 <= 12).
    { unfold year_month. destruct (Date (start / 86400000000)) as [[y m] x] eqn:Ed. apply Date_spec in Ed as (Hd & _). cbn. lia. }
    destruct (year_month start) as [y m]. cbn [fst snd] in Hy, Hym. rewrite !store_money_fits, Hrt by done. cbn.
    rewrite !decide_True by done. cbn. unfold tax_checks. cbn.
    rewrite bool_decide_eq_true_2 by done. rewrite (bool_decide_eq_true_2 (find_tax _ _ = None)) by exact E.
    rewrite Hsrc, Hby. destruct (Z.leb_spec 1 m); [|lia]. destruct (Z.leb_spec m 12); [|lia]. cbn.
    unfold insert_row. rewrite Hi. by eexists _, _.
Qed.

Lemma read_eq {A} (f : DB -> A) w a w' : w_aborted w = false -> sql_read f e w = (Ok a, w') ->
  a = f (w_db w) /\ w_db w' = w_db w /\ w_seq w' = w_seq w.
Proof using He. intros Ha. unfold sql_read. rewrite (sql_run _ _ _ He Ha). by intros [= <- <-]. Qed.

Lemma collectOne_answers p start end_ by_ state rates w :
  tax_unique (w_db w) -> w_aborted w = false -> w_depth w = O ->
  collectable p start end_ by_ state rates (w_seq w) (w_db w) ->
  exists x, (collectOne p start end_ by_ state rates e w).1 = Ok x.
Proof using He.
  intros Hu Ha Hd Hc. assert (K : succeeds e (collectOne p start end_ by_ state rates) w); [|by destruct K as (x & w' & -> & _); exists x].
  unfold collectOne. set (key := (up_UserID p, up_AccountID p, start, end_)). apply succeeds_Transaction; [done..|].
  set (w0 := begin_tx w). assert (Hu0 : tax_unique (w_db w0)) by exact Hu. assert (Ha0 : w_aborted w0 = false) by exact Ha.
  assert (Hc0 : collectable p start end_ by_ state rates (w_seq w0) (w_db w0)) by exact Hc.
  clearbody w0. clear w Hu Ha Hd Hc. rename w0 into w, Hu0 into Hu, Ha0 into Ha, Hc0 into Hc.
  apply succeeds_bind; [by apply succeeds_read|intros [] w1 H1 A1]. apply read_eq in H1 as (_ & D1 & S1); [|done].
  apply succeeds_bind; [by apply succeeds_read|intros ex w2 H2 A2]. apply read_eq in H2 as (-> & D2 & S2); [|done]. rewrite D1.
  rewrite D1 in D2. rewrite S1 in S2. rewrite <- D2, <- S2 in *. clear w w1 D1 D2 S1 S2 Ha A1. rename w2 into w, A2 into Ha.
  assert (P : exists paid, paid_so_far (find_tax key (w_db w)) e w = (Ok paid, w) /\ paid_is key (w_db w) paid /\ (val paid == units (paid_before key (w_db w)))%Q).
  { unfold paid_so_far, paid_is, paid_before, scan_decimal. destruct (find_tax key (w_db w)) as [[i r]|].
    - destruct (decimal.NewFromString_val (units (tr_PaidAmountRSD r))) as (x & E & Hx). rewrite E. by exists x.
    - exists decimal.Zero. split; [done|]. split; [done|]. rewrite decimal.val_Zero. reflexivity. }
  destruct P as (paid & Hpaid & His & Hv). apply succeeds_bind; [by exists paid, w|]. intros x w' H _. rewrite Hpaid in H. injection H as <- <-.
  cbv zeta. destruct (decimal.LessThanOrEqual _ _).
  - apply succeeds_bind; [|intros; by apply succeeds_ret]. destruct (find_tax key (w_db w)) as [[i r]|] eqn:E; [|by apply succeeds_ret].
    destruct (decide _); [by apply succeeds_ret|]. apply succeeds_bind; [|intros; by apply succeeds_ret]. apply succeeds_sql; [done..|].
    apply find_tax_Some in E as [E _]. unfold update_tax, update_row. rewrite E. cbn. eauto.
  - assert (Ho : (val (decimal.Sub (up_TaxRSD p) paid) == val (up_TaxRSD p) - units (paid_before key (w_db w)))%Q)
      by (by rewrite decimal.val_Sub, Hv).
    assert (Fo : fits (val (decimal.Sub (up_TaxRSD p) paid))) by (rewrite Ho; apply Hc).
    apply succeeds_bind; [eapply (first_write_succeeds p start end_ by_ state rates); [done|exact Hc|done]|intros [] w1 H1 A1].
    apply first_write_ok in H1 as (i & r & _ & D & _ & _ & E); [|done]. fold key in E.
    eapply collect_from_succeeds; [done|exact E|rewrite D; apply Hc|rewrite D; apply Hc|exact Hv|done|].
    rewrite D. cbn. intros ra st native c Hra Hch Hst. by apply (cb_money _ _ _ _ _ _ _ _ Hc ra paid st native c Hra His Hch Hst).
Qed.
End answers.

(** ** The properties *)

(** C31: One call of [collectOne] for a tax, whatever fails and whatever the rates are,
    with one record for each user, account and period ([tax_unique]).  An error leaves every table alone. A tax that is paid already moves no money.
    Otherwise the rest of the tax is taken from the account as [charge] says: when the
    balance covers its price, in the account's currency at the middle rate (one for one
    if it has no rate), all of it (COLLECTED); when it does not, the whole balance, and the state gets what that is
    worth (PARTIAL); nothing when the balance, or the price, is not positive (UNPAID). The
    state gets the counterpart, both postings are in the ledger, and the record of the
    key holds the status, what is paid and what is left. And on a database that works
    the call answers, so long as both accounts exist and the amounts fit their columns
    ([collectable]). *)
Theorem collect_one_spec p start end_ by_ state rates e w r w' :
  tax_unique (w_db w) -> collectOne p start end_ by_ state rates e w = (r, w') ->
  collect_post p start end_ state rates r (w_db w) (w_db w') /\
  (no_faults e -> w_aborted w = false -> w_depth w = O ->
   collectable p start end_ by_ state rates (w_seq w) (w_db w) -> exists x, r = Ok x).
Proof.
  intros Hu H. split; [by eapply collectOne_post|]. intros He Ha Hd Hc.
  destruct (collectOne_answers e He p start end_ by_ state rates w Hu Ha Hd Hc) as [x Hx]. rewrite H in Hx. by exists x.
Qed.

(** C32: The run of a period always answers, with an error that changed nothing or
    with a summary: one collection for each user and account with a taxed gain, every
    collection counted once, and two rows of the ledger for each tax that was paid at
    least in part. *)
Theorem tax_run_spec spread cfg uc cached start end_ by_ e w r w' :
  tax_unique (w_db w) -> CalculateAndCollectForPeriod spread cfg uc cached start end_ by_ e w = (r, w') ->
  exists x cached', r = Ok (x, cached') /\
  match x with
  | Err _ => w_db w' = w_db w
  | Ok s => pg_try_advisory_lock (w_step w) (periodLockKey start) = true /\
      exists n rate state rates outs,
        let ps := omap (to_profit rate) (compute_profit (is_stock e n) start end_ (w_db w)) in
        NoDup (profit_key <$> ps) /\ collections start end_ state rates ps outs (w_db w) (w_db w') /\
        s = foldl (fun s r => count_outcome r s) no_summary outs /\ counted s (length ps) /\
        rows_of (w_db w') = rows_of (w_db w) + 2 * paid_taxes s
  end.
Proof.
  intros Hu H. unfold CalculateAndCollectForPeriod in H. apply try_bind in H as (l & w1 & H1 & H).
  pose proof (sql_env_reads _ _ _ _ _ H1) as D1.
  destruct l as [[]|er]; [|injection H as <- <-; by exists (Err ErrPeriodAlreadyRunning), cached|injection H as <- <-; by exists (Err er), cached].
  apply sql_env_ok in H1 as [Hl _].
  apply bind_cases in H as [([st c'] & w2 & H2 & H)|(er & -> & H)]; [|by destruct (Resolve_answers _ _ _ _ _ _ _ H)].
  apply Resolve_reads in H2. rewrite D1, H2 in *. apply try_bind in H as (x & w3 & H3 & H).
  apply try_bind in H as (u & w4 & H4 & H). injection H as <- <-.
  assert (D4 : w_db w4 = w_db w3) by (symmetry; by apply (preserves_sql_read eq (fun _ => tt)) in H4).
  exists x, c'. split; [done|]. rewrite D4. apply calculate_locked_ok in H3; [|done]. destruct x as [s|er]; [|done].
  destruct H3 as (n & rate & st' & rates & outs & H5 & ->). split; [done|]. exists n, rate, st', rates, outs. cbv zeta.
  split; [apply profit_keys, compute_profit_keys|]. split; [done|]. split; [done|].
  destruct (collections_counted _ _ _ _ _ _ _ _ no_summary 0 H5) as [Hn Hm]; [done|].
  split; [done|]. change (paid_taxes no_summary) with 0 in Hm. lia.
Qed.

(** C34: A tax that was collected is not collected again: a later call for the same
    user, account and period, in any world where the record is the same, changes
    nothing and answers that the tax is paid, as long as the tax computed then is not
    above the amount the record holds. *)
Theorem tax_paid_once p p' start end_ by_ by' state state' rates rates' e e' w w1 w2 w3 c r :
  let key := (up_UserID p, up_AccountID p, start, end_) in
  tax_unique (w_db w) -> collectOne p start end_ by_ state rates e w = (Ok (Final TaxStatusCollected, c), w1) ->
  profit_key p' = profit_key p -> tax_unique (w_db w2) -> find_tax key (w_db w2) = find_tax key (w_db w1) ->
  (val (up_TaxRSD p') <= units (to_units (val (up_TaxRSD p))))%Q ->
  collectOne p' start end_ by' state' rates' e' w2 = (r, w3) ->
  w_db w3 = w_db w2 /\ forall x, r = Ok x -> x = (Already, decimal.Zero).
Proof.
  intros key Hu H1 Hk Hu2 Hf Hle H2. injection Hk as Ku Ka.
  apply collectOne_post in H1 as H1'; [|done]. pose proof (post_unique _ _ _ _ _ _ _ _ Hu H1') as Hu1.
  destruct H1' as (_ & _ & _ & id & x & _ & E & (Hx & _ & Hs & _ & Hp & _) & _).
  assert (F : find_tax key (w_db w1) = Some (id, x)) by (apply find_tax_unique; [done|by rewrite E, lookup_insert_eq|done]).
  rewrite F in Hf. apply collectOne_post in H2; [|done]. unfold collect_post in H2. rewrite Ku, Ka in H2. fold key in H2.
  cbv zeta in H2. unfold paid_before, left_alone in H2. rewrite Hf, Hp in H2.
  destruct r as [[[|st] c']|er]; cbn in H2.
  - destruct H2 as (-> & _ & [->|(i & y & [= <- <-] & Hn & _)]); [|done]. split; [done|]. by intros x' [= <-].
  - destruct H2 as (Hlt & _). exfalso. cbn in Hle. lra.
  - split; [done|]. by intros.
Qed.

(** The windows of the months tile time: every instant lies in exactly one of them,
    that of its year and month. *)
Theorem month_windows_tile t :
  let '(y, m) := year_month t in
  1 <= m <= 12 /\ in_window (MonthWindow y m) t /\
  forall y' m', 1 <= m' <= 12 -> in_window (MonthWindow y' m') t -> (y', m') = (y, m).
Proof.
  unfold year_month. destruct (Date (t / 86400000000)) as [[y m] d] eqn:E. pose proof E as (Hm & _ & Hd)%Date_spec.
  split; [lia|]. split; [apply in_month; by replace (m + 1 - 1) with m by lia|].
  intros y' m' Hm' H%in_month. destruct (Date_unique (t / 86400000000) y' (m' - 1)) as [d' E']; [lia|by replace (m' - 1 + 1) with m' by lia|].
  rewrite E in E'. injection E' as -> -> ->. f_equal. lia.
Qed.

(** The run after [now], in terms of the month of [now]. *)
Lemma next_run now y m : now_month now = (y, m) ->
  nextMonthlyRun now = 86400 * nth_month y m + 60 /\ month_before (nextMonthlyRun now) = (y, m).
Proof.
  intros E. pose proof (now_month_range now) as H. rewrite E in H. destruct H as [Hm H].
  assert (En : nextMonthlyRun now = 86400 * nth_month y m + 60).
  { unfold nextMonthlyRun. rewrite E. destruct (Z.ltb_spec now (86400 * nth_month y m + 60)); [done|lia]. }
  split; [done|]. rewrite En. unfold month_before, truncate_day.
  replace ((86400 * nth_month y m + 60) / 86400) with (nth_month y m) by (Z.to_euclidean_division_equations; lia).
  assert (Ef : AddDate (nth_month y m) (-1) = nth_month y (m - 1)).
  { unfold AddDate. rewrite (nth_month_index y m). set (k := 12 * y + m).
    assert (Ek : nth_month 0 k = nth_month (k / 12) (k mod 12)).
    { rewrite (nth_month_index (k / 12)). f_equal. apply Z.div_mod. lia. }
    rewrite Ek, Date_first by (pose proof (Z.mod_pos_bound k 12); lia). unfold of_date.
    rewrite (nth_month_index (k / 12)), (nth_month_index y). replace (12 * (k / 12) + (k mod 12 + -1)) with (12 * y + (m - 1)); [lia|].
    pose proof (Z.div_mod k 12). unfold k in *. lia. }
  rewrite Ef, Date_first by lia. f_equal. lia.
Qed.

(** The worker sleeps until one minute past midnight of the first of the next
    month and collects the month that ended there; the run after that collects the
    month that follows, so no month is skipped and none is collected early. *)
Theorem worker_collects_every_month now :
  let next := nextMonthlyRun now in
  let '(y, m) := month_before next in
  let '(y', m') := month_before (nextMonthlyRun next) in
  now < next <= now + 86400 * 31 + 60 /\ in_window (MonthWindow y m) (1000000 * now) /\
  (MonthWindow y m).2 + 1 = 1000000 * (next - 60) /\ (MonthWindow y' m').1 = (MonthWindow y m).2 + 1.
Proof.
  cbv zeta. destruct (now_month now) as [y m] eqn:E. destruct (next_run now y m E) as [En ->].
  pose proof (now_month_range now) as H. rewrite E in H. destruct H as [Hm H]. rewrite En.
  set (next := 86400 * nth_month y m + 60). destruct (now_month next) as [y' m'] eqn:E'.
  destruct (next_run next y' m' E') as [_ ->].
  pose proof (nth_month_next y (m - 1)) as Hs. replace (m - 1 + 1) with m in Hs by lia.
  split; [lia|]. split.
  - apply in_month. replace (1000000 * now / 86400000000) with (now / 86400); [Z.to_euclidean_division_equations; lia|].
    replace (1000000 * now) with (now * 1000000) by lia. change 86400000000 with (86400 * 1000000). by rewrite Z.div_mul_cancel_r.
  - pose proof (now_month_range next) as H'. rewrite E' in H'. destruct H' as [Hm' H'].
    unfold MonthWindow, month_first, micros_of_day. cbn [fst snd]. replace (m + 1 - 1) with m by lia. split; [lia|].
    assert (Ey : nth_month y' (m' - 1) = nth_month y m); [|lia].
    unfold now_month, truncate_day in E'.
    replace (next / 86400) with (nth_month y m) in E' by (unfold next; Z.to_euclidean_division_equations; lia).
    destruct (Date (nth_month y m)) as [[y0 m0] d0] eqn:Ed. injection E' as -> <-.
    rewrite (nth_month_index y m) in Ed. set (k := 12 * y + m) in *.
    assert (Ek : nth_month 0 k = nth_month (k / 12) (k mod 12)).
    { rewrite (nth_month_index (k / 12)). f_equal. apply Z.div_mod. lia. }
    rewrite Ek, Date_first in Ed by (pose proof (Z.mod_pos_bound k 12); lia). injection Ed as <- <- _.
    replace (k mod 12 + 1 - 1) with (k mod 12) by lia. rewrite <- Ek. by rewrite (nth_month_index y m).
Qed.

(** ** Requests, the worker and the rest of the bank *)

Section steps.
Context `{UC : TaxUserClient} (verify : string -> option AccessClaims) (spread : float64) (cfg : Z) (uc : bool).

(** One step of the bank: a request to the handler, a month of the worker, or
    anything that leaves [tax_records] alone and removes no account. *)
Inductive tax_step (w : World) : World -> Prop :=
  | step_request cached method path auth f body e r w' :
      serve_tax spread verify cfg uc cached method path auth f body e w = (r, w') -> tax_step w w'
  | step_month cached year month e r w' : RunFor spread cfg uc cached year month e w = (r, w') -> tax_step w w'
  | step_other w' :
      tax_records (w_db w') = tax_records (w_db w) -> keeps_accounts (w_db w) (w_db w') -> tax_step w w'.

Lemma tax_step_keeps w w' : tax_step w w' -> keeps_rules (w_db w) (w_db w').
Proof.
  intros [cached method path auth f body e r w1 H|cached year month e r w1 H|w1 E Ha].
  - eapply serve_tax_preserves, H; [apply _|apply collectOne_rules].
  - unfold RunFor in H. destruct (MonthWindow year month) as [start end_].
    eapply period_preserves, H; [apply _|apply collectOne_rules].
  - intros [Hu Hr]. split; [unfold tax_unique in *; by rewrite E|]. rewrite E. intros i x Hx.
    by eapply row_rules_mono, Hr.
Qed.

(** C33: The rules of [tax_records] hold after any sequence of requests, runs of the
    worker and other work of the bank, failed or not: one record for each user,
    account and period; its account exists; year and month are those of the period;
    no record stays OPEN; [paid] is set exactly on COLLECTED records, which owe
    nothing; what remains is never negative; every record counts an attempt. *)
Theorem tax_records_hold w w' : rtc tax_step w w' -> tax_rules (w_db w) -> tax_rules (w_db w').
Proof. induction 1 as [|w w1 w' H _ IH]; [done|]. intros Hr. by apply IH, (tax_step_keeps w). Qed.

(** A request to the handler changes the database only when its bearer token
    verifies, its user is an ADMIN or an EMPLOYEE with the permission SUPERVISOR, and
    it is POST /bank/tax/calculate for a month that has begun; the answer is 200. *)
Theorem tax_only_by_supervisors cached method path auth f body e w r w' :
  serve_tax spread verify cfg uc cached method path auth f body e w = (r, w') -> w_db w' <> w_db w ->
  (exists token claims, strip_bearer auth = Some token /\ verify token = Some claims /\
    (cl_UserType claims = "ADMIN" \/ cl_UserType claims = "EMPLOYEE" /\ "SUPERVISOR" ∈ cl_Permissions claims)) /\
  method = "POST" /\ path = "/bank/tax/calculate" /\
  exists s start end_ cached', r = Ok ((200, TaxCalculated s start end_), cached') /\ start <= 1000000 * env_now e (w_step w).
Proof.
  intros H Hne. unfold serve_tax in H. destruct (verifySupervisor verify auth) as [code|claims] eqn:Ev; [by injection H as <- <-|].
  apply verifySupervisor_ok in Ev as (token & Ht & Hv & Hc).
  destruct (String.eqb path "/bank/tax/users" && String.eqb method "GET").
  { destruct Hne. symmetry. assert (K : reads (r ← listUsers spread uc f; mret (r, cached))) by solve_reads. by apply (K _ _ _ _ H). }
  destruct (String.eqb_spec path "/bank/tax/calculate") as [->|], (String.eqb_spec method "POST") as [->|];
    cbn in H; try by injection H as <- <-.
  split; [by exists token, claims|]. split; [done|]. split; [done|]. unfold calculateAndCollect in H.
  apply bind_cases in H as [(now & w1 & H1 & H)|(er & _ & H)]; [|unfold time_now, io in H; discriminate].
  unfold time_now, io in H1. injection H1 as <- <-.
  destruct (requested_window _ _) as [code|[start end_]] eqn:Ew; [by injection H as <- <-|]. apply requested_window_past in Ew.
  apply bind_cases in H as [([x c'] & w2 & H2 & H)|(er & -> & H)]; apply period_err in H2 as (x' & c1 & E & Hx) || apply period_err in H as (x' & c1 & E & Hx); [|done].
  injection E as <- <-. injection H as <- <-. destruct x as [s|er]; [|destruct Hne; exact (Hx er eq_refl)].
  by exists s, start, end_, c'.
Qed.
End steps.

(** ** Sales over the counter *)

(** Every fill is of an order: the foreign key of [order_transactions]. *)
Definition fills_ok (d : DB) : Prop := forall t, t ∈ d_order_transactions d -> is_Some (d_orders d !! ot_OrderID t).

Definition no_new_sale (d d' : DB) : Prop :=
  fills_ok d -> fills_ok d' /\ forall stock start end_, sold stock start end_ d' = sold stock start end_ d.

#[export] Instance no_new_sale_preorder : PreOrder no_new_sale.
Proof.
  split; [by intros d H|]. intros d1 d2 d3 H1 H2 H. destruct (H1 H) as [K1 E1]. destruct (H2 K1) as [K2 E2].
  split; [done|]. intros. by rewrite E2.
Qed.

Lemma no_new_sale_orders d d' :
  d_order_transactions d' = d_order_transactions d ->
  (fills_ok d -> forall t, t ∈ d_order_transactions d -> d_orders d' !! ot_OrderID t = d_orders d !! ot_OrderID t) ->
  no_new_sale d d'.
Proof.
  intros E Ho H. specialize (Ho H). split; [intros t; rewrite E; intros Ht; rewrite (Ho t Ht); by apply H|].
  intros stock start end_. unfold sold. f_equal. rewrite E. clear H E. revert Ho.
  induction (d_order_transactions d) as [|t l IH]; intros Ho; [done|]. cbn. rewrite (Ho t) by set_solver.
  assert (El := IH ltac:(set_solver)). cbn in El. by rewrite El.
Qed.

Lemma no_new_sale_same {A} (m : M A) :
  preserves (same (fun d => (d_orders d, d_order_transactions d))) m -> preserves no_new_sale m.
Proof. intros Hm e w r w' [= E1 E2]%Hm. apply no_new_sale_orders; [done|]. intros _ t _. by rewrite E1. Qed.

Lemma foldr_delete_other {A} (ids : list Z) (m : gmap Z A) i : i ∉ ids -> foldr delete m ids !! i = m !! i.
Proof. induction ids as [|j ids IH]; [done|]. intros H. cbn. rewrite lookup_delete_ne by set_solver. apply IH. set_solver. Qed.

Lemma ownership_no_sale ex c now : preserves no_new_sale (transfer_ownership ex c now).
Proof.
  assert (I : forall u a dir, preserves no_new_sale (sql_insert (insert_synthetic ex u a dir c now))).
  { intros u a dir. apply preserves_sql_insert; [apply _|]. intros i d k d'. unfold insert_synthetic.
    destruct (store_micros _); [|discriminate]. destruct (_ && _); [|discriminate].
    destruct (insert_row _ _ _) as [m|] eqn:Em; [|discriminate]. apply insert_row_ok in Em as [Hi ->]. intros [= _ <-].
    apply no_new_sale_orders; [done|]. intros Hf t Ht. cbn. rewrite lookup_insert_ne; [done|].
    intros ->. destruct (Hf t Ht) as [x Hx]. congruence. }
  unfold transfer_ownership. solve_preserves.
Qed.

Lemma compensate_ownership_no_sale ex : preserves no_new_sale (compensateTransferOwnership ex).
Proof.
  unfold compensateTransferOwnership. apply preserves_sql; [apply _|]. intros d k d'. cbv zeta.
  destruct (existsb _ _) eqn:E; [discriminate|]. intros [= _ <-]. apply no_new_sale_orders; [done|].
  intros _ t Ht. apply foldr_delete_other. intros Hin. apply not_true_iff_false in E. apply E, existsb_exists.
  exists (ot_OrderID t). split; [by apply list_elem_of_In|]. unfold referenced. apply orb_true_intro. left.
  apply existsb_exists. exists t. split; [by apply list_elem_of_In|lia].
Qed.

(** A sale over the counter is not taxed. Whatever happens during the saga of an
    exercised option, and whether it completes or is compensated, the sales that the
    query of the tax sees in any period are those it saw before: the orders that the
    saga writes for the buyer and the seller have no fills. *)
Theorem otc_sale_is_not_taxed e ex c w r w' stock start end_ :
  interferes e no_new_sale -> fills_ok (w_db w) -> runSaga ex c e w = (r, w') ->
  sell_fills stock start end_ (w_db w') = sell_fills stock start end_ (w_db w).
Proof.
  intros Hi Hf H.
  assert (K : preserves_at e no_new_sale (runSaga ex c)).
  { apply saga_at; [apply _|by intros..|done| | | | |apply ownership_no_sale|].
    - unfold allSteps. rewrite !Forall_cons. split; [apply compensate_ownership_no_sale|].
      split_and!; [apply no_new_sale_same; cbn [snd]..|constructor].
      + by apply compensate_funds_frame.
      + by apply compensate_shares_frame.
      + by apply compensate_reserve_frame.
    - by apply no_new_sale_same, reserve_funds_frame.
    - by apply no_new_sale_same, shares_frame.
    - by apply no_new_sale_same, transfer_funds_frame.
    - apply markCompleted_preserves; [apply _|by intros..]. }
  destruct (K _ _ _ H Hf) as [_ E]. unfold sell_fills. by rewrite E.
Qed.

End runs.
