(* ===== verification/TaxExamples.v ===== *)
(** * The tax theorems applied to a concrete bank

    January 1970.  Clients 7, 8 and 9 bought ten shares at 15 dollars and sold them at
    20; client 7 can pay the tax, client 8 a part of it, client 9 nothing. *)

From stdpp Require Import list relations.
From S2P Require Import Prelude Numeric DecimalModel Domain InterbankTables Tables Store StoreFacts OrderRepo.
From S2P Require Import Market FundsManager FundsFacts Scenario GoMath AccountRepo PaymentRepo OtcRepo OtcSaga OtcFacts OtcSagaFacts OtcExamples CardNumbers Cards CardHandlers Tax TaxFacts TaxRuns.
From Stdlib Require Import Lqa.
#[local] Open Scope string_scope.
#[local] Open Scope Z_scope.

Module tax_bank.
#[local] Existing Instance decimal_model.lib.
#[local] Existing Instance decimal_model.laws.

#[local] Instance server : TaxServer := {| float8_of_numeric := decimal.float64_of_numeric; pg_try_advisory_lock _ _ := true |}.

#[local] Instance users : TaxUserClient := {|
  tu_GetEmployeeInfo _ _ := Some ("Sava", "Savic", "sava@raf.rs");
  tu_GetClientInfo _ _ := Some ("Pera", "Peric", "pera@raf.rs") |}.

Definition verify (token : string) : option AccessClaims :=
  if String.eqb token "s" then Some (mkClaims "sava@raf.rs" "EMPLOYEE" ["SUPERVISOR"] "5")
  else if String.eqb token "t7" then Some (mkClaims "pera@raf.rs" "CLIENT" [] "7") else None.

Definition racuni : gmap Z racun :=
list_to_map
  [(30, mkRacun "300" 7 "RSD" LICNI AKTIVAN 2000000 0 scenario.no_info);
   (31, mkRacun "310" 8 "RSD" LICNI AKTIVAN 50000 0 scenario.no_info);
   (32, mkRacun "320" 9 "RSD" LICNI AKTIVAN 0 0 scenario.no_info);
   (99, mkRacun "666000112000000001" 5 "RSD" POSLOVNI AKTIVAN 0 0 scenario.no_info)].

Definition order (user account : Z) (dir : OrderDirection) : orderModel :=
  mkOrderModel user account 1 OrderTypeMarket dir 10 1 None None OrderStatusDone None true 0 false false false true None 10.

Definition nalozi : gmap Z orderModel :=
list_to_map
  [(1, order 7 30 OrderDirectionBuy); (2, order 7 30 OrderDirectionSell); (3, order 8 31 OrderDirectionBuy);
   (4, order 8 31 OrderDirectionSell); (5, order 9 32 OrderDirectionBuy); (6, order 9 32 OrderDirectionSell)].

Definition fill (orderID price : Z) : orderTransactionModel := mkOrderTransactionModel orderID 10 (1000000 * price) 50.

Definition db1 : DB :=
  mkDB racuni [] nalozi [fill 1 15; fill 2 20; fill 3 15; fill 4 20; fill 5 15; fill 6 20] [] [] ∅ [] ∅ ∅ ∅ ∅ ∅
    bank_empty otc_empty.
Definition w1 : World := scenario.at_db db1.
Definition e1 : Env := scenario.quiet.

Definition call (auth : string) (w : World) :=
  serve_tax scenario.rate verify 0 true 0 "POST" "/bank/tax/calculate" auth (mkTaxUserFilter "" "" "") None e1 w.
Definition first := call "Bearer s" w1.

Definition balance (id : Z) (w : World) : option Z := r_stanje_racuna <$> d_racun (w_db w) !! id.
Definition taxes (w : World) : list (Z * Z * Z * Z * TaxStatus) :=
  (fun r => (tr_UserID r, tr_AmountRSD r, tr_PaidAmountRSD r, tr_RemainingDebtRSD r, tr_Status r)) <$> all_records (w_db w).


(** The rates that [GetRates] falls back to: 107.75 dinars for a dollar. The three
    postings are of fractions of a cent, and the columns round: the bank has one cent
    more than before. *)
Example january_is_collected :
  taxes first.2 = [(8, 8081250, 5000000, 3081250, TaxStatusPartial); (9, 8081250, 0, 8081250, TaxStatusUnpaid);
                   (7, 8081250, 8081250, 0, TaxStatusCollected)] /\
  (balance 30 first.2, balance 31 first.2, balance 32 first.2, balance 99 first.2) =
    (Some 1919188, Some 0, Some 0, Some 130813) /\
  rows_of (w_db first.2) = 4 /\ 2000000 + 50000 + 1 = 1919188 + 130813.
Proof. vm_compute. done. Qed.

(** The same month again: client 7 has paid, client 8 and client 9 have no money. *)
Definition second := call "Bearer s" first.2.
Example january_again :
  taxes second.2 = [(8, 8081250, 5000000, 3081250, TaxStatusUnpaid); (9, 8081250, 0, 8081250, TaxStatusUnpaid);
                    (7, 8081250, 8081250, 0, TaxStatusCollected)] /\
  (balance 30 second.2, balance 99 second.2) = (balance 30 first.2, balance 99 first.2) /\
  rows_of (w_db second.2) = 4.
Proof. vm_compute. done. Qed.

(** A client is refused. *)
Definition code (r : result ((Z * TaxReply) * Z)) : option Z := match r with Ok x => Some x.1.1 | Err _ => None end.
Example client_is_refused : (code (call "Bearer s" w1).1, code (call "Bearer t7" w1).1) = (Some 200, Some 403).
Proof. vm_compute. reflexivity. Qed.

(** ** One tax *)

Definition tax_of (q : Q) : UserAccountProfit := mkProfit 7 30 "USD" 1%Q 1%Q q 1%Q 1.
Definition hundred : UserAccountProfit := tax_of 100%Q.
Definition paid := collectOne hundred 0 2678399999999 "CRON" 99 [] e1 w1.
Definition paid_again := collectOne hundred 0 2678399999999 "CRON" 99 [] e1 paid.2.

(** A tax with a fifth decimal that the column rounds down: the collection of the rest
    posts two rows of nothing and counts as COLLECTED, at every run. *)
Definition odd : UserAccountProfit := tax_of (10000003 # 100000).
Definition odd_paid := collectOne odd 0 2678399999999 "CRON" 99 [] e1 w1.
Definition odd_again := collectOne odd 0 2678399999999 "CRON" 99 [] e1 odd_paid.2.

Example phantom_postings :
  fst <$> (match odd_again.1 with Ok x => Some x | Err _ => None end) = Some (Final TaxStatusCollected) /\
  (balance 30 odd_again.2, balance 99 odd_again.2) = (balance 30 odd_paid.2, balance 99 odd_paid.2) /\
  t_Iznos <$> d_transakcija (w_db odd_again.2) = [10000; 10000; 0; 0] /\
  tr_Attempts <$> all_records (w_db odd_again.2) = [2].
Proof. vm_compute. done. Qed.

(** ** The theorems, applied *)

Lemma no_taxes : tax_unique (w_db w1).
Proof. intros i j r r' H. vm_compute in H. destruct i; discriminate. Qed.

Lemma hundred_fits : collectable hundred 0 2678399999999 "CRON" 99 [] (w_seq w1) (w_db w1).
Proof.
  split.
  - vm_compute. done.
  - split_and!; [by vm_compute..|eexists; by vm_compute].
  - split_and!; by vm_compute.
  - split; eexists; by vm_compute.
  - intros ra paid st native c b Hra Hp Hch Hst. vm_compute in Hra. injection Hra as <-.
    assert (paid = decimal.Zero) as -> by exact Hp.
    destruct Hch as [_|price _ Hpr _ _|price worth _ Hpr Hle|price _ _ _]; [done| | |done].
    + destruct Hpr as [_|r Hn|Hn]; [|by destruct Hn..].
      split; [by vm_compute|]. split; [by vm_compute|]. split; [by vm_compute|]. split; [by vm_compute|].
      eexists _, _, _. split; [vm_compute; reflexivity|]. split; [vm_compute; reflexivity|vm_compute; reflexivity].
    + destruct Hpr as [_|r Hn|Hn]; [|by destruct Hn..]. exfalso. vm_compute in Hle. discriminate Hle.
Qed.

Lemma collect_one_spec_witness :
  tax_unique (w_db w1) /\ collect_post hundred 0 2678399999999 99 [] paid.1 (w_db w1) (w_db paid.2) /\
  exists x, paid.1 = Ok x.
Proof.
  split; [exact no_taxes|].
  destruct (collect_one_spec hundred 0 2678399999999 "CRON" 99 [] e1 w1 paid.1 paid.2 no_taxes (surjective_pairing _)) as [K L].
  split; [exact K|]. apply L; [exact scenario.quiet_no_faults|reflexivity|reflexivity|exact hundred_fits].
Defined.

Definition january := CalculateAndCollectForPeriod scenario.rate 0 true 0 0 2678399999999 "CRON" e1 w1.

(** Processed, collected, partial, unpaid. *)
Definition numbers (r : result (result PeriodSummary * Z)) : option (Z * Z * Z * Z) :=
  match r with
  | Ok (Ok s, _) => Some (sm_ProcessedUsers s, sm_FullyCollected s, sm_Partial s, sm_Unpaid s)
  | _ => None
  end.

Lemma tax_run_spec_witness :
  tax_unique (w_db w1) /\ exists s c', january.1 = Ok (Ok s, c') /\ sm_ProcessedUsers s = 3 /\
    rows_of (w_db january.2) = rows_of (w_db w1) + 2 * paid_taxes s.
Proof.
  split; [exact no_taxes|].
  destruct (tax_run_spec scenario.rate 0 true 0 0 2678399999999 "CRON" e1 w1 january.1 january.2 no_taxes (surjective_pairing _))
    as (x & c' & E & H).
  assert (K : numbers january.1 = Some (3, 1, 1, 1)) by (vm_compute; reflexivity). rewrite E in K.
  destruct x as [s|er]; [|discriminate K]. exists s, c'. split; [exact E|]. split; [cbn in K; congruence|].
  destruct H as (_ & n & rate & state & rates & outs & _ & _ & _ & _ & Hr). exact Hr.
Defined.

Lemma tax_paid_once_witness :
  paid.1 = Ok (Final TaxStatusCollected, 100%Q) /\
  w_db paid_again.2 = w_db paid.2 /\ forall x, paid_again.1 = Ok x -> x = (Already, decimal.Zero).
Proof.
  assert (E : paid.1 = Ok (Final TaxStatusCollected, 100%Q)) by (vm_compute; reflexivity).
  split; [exact E|].
  apply (tax_paid_once hundred hundred 0 2678399999999 "CRON" "CRON" 99 99 [] [] e1 e1 w1 paid.2 paid.2 paid_again.2 100%Q paid_again.1).
  - exact no_taxes.
  - change (paid = (Ok (Final TaxStatusCollected, 100%Q), paid.2)). rewrite <- E. apply surjective_pairing.
  - reflexivity.
  - apply (post_unique hundred 0 2678399999999 99 [] paid.1 (w_db w1)); [exact no_taxes|].
    apply (collectOne_post hundred 0 2678399999999 "CRON" 99 [] e1 w1); [exact no_taxes|apply surjective_pairing].
  - reflexivity.
  - vm_compute. discriminate.
  - apply surjective_pairing.
Defined.

Lemma tax_records_hold_witness :
  rtc (tax_step verify scenario.rate 0 true) w1 first.2 /\ tax_rules (w_db w1) /\ tax_rules (w_db first.2).
Proof.
  assert (H : rtc (tax_step verify scenario.rate 0 true) w1 first.2).
  { apply rtc_once. eapply step_request. unfold first, call. apply surjective_pairing. }
  assert (R : tax_rules (w_db w1)) by (split; [exact no_taxes|intros i r Hr; vm_compute in Hr; destruct i; discriminate]).
  split; [exact H|]. split; [exact R|]. exact (tax_records_hold verify scenario.rate 0 true w1 first.2 H R).
Defined.

Lemma tax_only_by_supervisors_witness :
  w_db first.2 <> w_db w1 /\
  (exists token claims, strip_bearer "Bearer s" = Some token /\ verify token = Some claims /\
    (cl_UserType claims = "ADMIN" \/ cl_UserType claims = "EMPLOYEE" /\ "SUPERVISOR" ∈ cl_Permissions claims)).
Proof.
  assert (N : w_db first.2 <> w_db w1) by (intros H%(f_equal rows_of); vm_compute in H; discriminate).
  split; [exact N|].
  apply (tax_only_by_supervisors verify scenario.rate 0 true 0 "POST" "/bank/tax/calculate" "Bearer s"
           (mkTaxUserFilter "" "" "") None e1 w1 first.1 first.2); [|exact N].
  unfold first, call. apply surjective_pairing.
Defined.

(** The option of [OtcExamples] was exercised, two orders were written, and the tax sees
    no sale. *)
Lemma otc_sale_is_not_taxed_witness :
  interferes otc_bank.e1 no_new_sale /\ fills_ok (w_db otc_bank.started.2) /\
  otc_bank.status otc_bank.finished.2 = [OTCSagaStatusCompleted] /\
  length (map_to_list (d_orders (w_db otc_bank.finished.2))) = 2%nat /\
  sell_fills (fun _ => true) 0 2678399999999 (w_db otc_bank.finished.2) =
    sell_fills (fun _ => true) 0 2678399999999 (w_db otc_bank.started.2).
Proof.
  assert (I : interferes otc_bank.e1 no_new_sale) by (intros n d; reflexivity).
  assert (F : fills_ok (w_db otc_bank.started.2)) by (intros t Ht; vm_compute in Ht; inversion Ht).
  split; [exact I|]. split; [exact F|]. split; [vm_compute; reflexivity|]. split; [vm_compute; reflexivity|].
  apply (otc_sale_is_not_taxed otc_bank.e1 otc_bank.the_pair.1 otc_bank.the_pair.2 otc_bank.started.2 otc_bank.finished.1); [exact I|exact F|].
  unfold otc_bank.finished. apply surjective_pairing.
Defined.
End tax_bank.
