(* ===== verification/InvestmentFunds.v ===== *)
(** * Investment funds ([repository/investment_fund_repository.go],
    [service/investment_fund_service.go], [handler/fund_handler.go], the creation of
    funds in [handler/investment_fund_handler.go] and the removal of an actuary in
    [handler/internal_actuary_handler.go])

    A row of [investment_funds] is the entry of [fd_funds] with the amount of
    [d_liquid_assets] at the same id.  The handlers answer an HTTP status; the texts
    of errors and of the ledger are left out, and a body that is no JSON is [None].
    A query whose error the source ignores is under [try]: inside a transaction its
    failure still aborts the transaction.  Left out: the statistics over historical
    snapshots and the sorted list that shows them. *)

From S2P Require Import Prelude Numeric Domain Tables Store StoreFacts OrderRepo Market FundsManager.
From S2P Require Import Actuaries Engine InterbankExecutor GoMath AccountRepo PaymentRepo OtcRepo Cards CardHandlers Tax.
From stdpp Require Import list sorting pretty.
From Stdlib Require Import SpecFloat Ascii.
#[local] Open Scope string_scope.
#[local] Open Scope Z_scope.

(** ** Entities *)

Record InvestmentFund : Type := mkInvestmentFund {
  iv_ID : Z;
  iv_Name : string;
  iv_Description : string;
  iv_MinimumContribution : float64;
  iv_ManagerID : Z;
  iv_LiquidAssets : float64;
  iv_AccountID : Z;
  iv_CreatedAt : Z
}.

Record FundSecurity : Type := mkFundSecurityStruct {
  fu_ListingID : Z;
  fu_Quantity : float64;
  fu_InitialCostRSD : float64
}.

Record FundSecurityDetail : Type := mkFundSecurityDetail {
  fx_Security : FundSecurity;
  fx_Ticker : string;
  fx_CurrentPriceUSD : float64;
  fx_CurrentPriceRSD : float64;
  fx_ChangePercent : float64;
  fx_Volume : Z;
  fx_InitialMarginCost : float64
}.

Record FundDetails : Type := mkFundDetails {
  fe_Fund : InvestmentFund;
  fe_FundValueRSD : float64;
  fe_Profit : float64;
  fe_Securities : list FundSecurityDetail
}.

Record ClientFundPosition : Type := mkClientFundPosition {
  cp_ID : Z;
  cp_FundID : Z;
  cp_UserID : Z;
  cp_TotalInvestedRSD : float64
}.

Record CreateFundInput : Type := mkCreateFundInput {
  ci_Name : string;
  ci_Description : string;
  ci_MinimumContribution : float64;
  ci_ManagerID : Z
}.

Record BankAccountItem : Type := mkBankAccountItem {
  ba_ID : Z;
  ba_BrojRacuna : string;
  ba_NazivRacuna : string;
  ba_ValutaOznaka : string;
  ba_StanjeRacuna : float64;
  ba_RezervovanaSredstva : float64;
  ba_RaspolozivoStanje : float64
}.

(** A fund's share of one listing, as the dividend worker reads it. *)
Record FundHolding : Type := mkFundHolding {
  fh_FundID : Z;
  fh_AccountID : Z;
  fh_Quantity : float64
}.

(** ** Tables *)

Definition fund_db (d : DB) : FundDB := bd_funds (d_bank d).
Definition investment_funds (d : DB) : gmap Z investmentFundModel := fd_funds (fund_db d).
Definition fund_positions (d : DB) : gmap Z fundPositionModel := fd_positions (fund_db d).
Definition fund_transactions (d : DB) : list clientFundTransactionModel := fd_transactions (fund_db d).

Definition set_funds (m : gmap Z investmentFundModel) (d : DB) : DB :=
  set_fund_db (mkFundDB m (fd_positions (fund_db d)) (fd_transactions (fund_db d)) (fd_payouts (fund_db d))) d.
Definition set_positions (m : gmap Z fundPositionModel) (d : DB) : DB :=
  set_fund_db (mkFundDB (fd_funds (fund_db d)) m (fd_transactions (fund_db d)) (fd_payouts (fund_db d))) d.
Definition set_fund_transactions (l : list clientFundTransactionModel) (d : DB) : DB :=
  set_fund_db (mkFundDB (fd_funds (fund_db d)) (fd_positions (fund_db d)) l (fd_payouts (fund_db d))) d.

(** [liquid_assets] of a fund. *)
Definition liquid (id : Z) (d : DB) : Z := default 0 (d_liquid_assets d !! id).

(** [invested_rsd] NUMERIC(18, 4), [quantity] DECIMAL(20, 6). *)
Definition store_invested (q : Q) : option Z := numeric_store 18 10000 q.
Definition store_quantity (q : Q) : option Z := numeric_store 20 1000000 q.

(** UNIQUE (fund_id, user_id) *)
Definition position_of (fundID userID : Z) (d : DB) : option (Z * fundPositionModel) :=
  head (filter (fun kv => fp_FundID kv.2 = fundID /\ fp_UserID kv.2 = userID) (map_to_list (fund_positions d))).

Definition with_invested (v : Z) (p : fundPositionModel) : fundPositionModel :=
  mkFundPosition (fp_FundID p) (fp_UserID p) (fp_AccountID p) v.

Definition with_manager (id : Z) (f : investmentFundModel) : investmentFundModel :=
  mkFundModel (if_Name f) (if_Description f) (if_MinimumContribution f) (if_AccountID f) id (if_CreatedAt f).

(** [ORDER BY v.oznaka, r.id] *)
Definition by_oznaka (x y : Z * racun) : Prop :=
  String.leb (r_oznaka x.2) (r_oznaka y.2) = true /\ (r_oznaka x.2 = r_oznaka y.2 -> x.1 <= y.1).
#[export] Instance by_oznaka_dec x y : Decision (by_oznaka x y).
Proof. unfold by_oznaka. apply _. Defined.

(** int64 of a float64: what does not fit is the least int64, as on amd64. *)
Definition int64_of_f64 (x : float64) : Z :=
  match x with
  | S754_finite s m e =>
      let n := match e with Z0 => Zpos m | Zpos _ => Zpos m * 2 ^ e | Zneg k => Zpos m / 2 ^ Zpos k end in
      let v := if s then - n else n in
      if (- 2 ^ 63 <=? v) && (v <? 2 ^ 63) then v else - 2 ^ 63
  | S754_zero _ => 0
  | _ => - 2 ^ 63
  end.

Section repository.
Context `{DL : decimal.Lib}.

(** A NUMERIC column scanned into a float64. *)
Definition scan_invested (z : Z) : float64 := decimal.float64_of_numeric (units z).
Definition scan_quantity (z : Z) : float64 := decimal.float64_of_numeric (micros z).

(** ** The repository *)

Definition fund_toDomain (id : Z) (m : investmentFundModel) (liquidAssets : Z) : InvestmentFund :=
  mkInvestmentFund id (if_Name m) (if_Description m) (scan_cents (if_MinimumContribution m)) (if_ManagerID m)
    (scan_cents liquidAssets) (default 0 (if_AccountID m)) (if_CreatedAt m).

Definition insert_fund (name description : string) (minimum : float64) (accountID : option Z) (managerID now i : Z)
    (d : DB) : result ((Z * investmentFundModel) * DB) :=
  match store_cents (arg minimum), varchar 255 name with
  | Some c, true =>
      let row := mkFundModel name description c accountID managerID now in
      match insert_row i row (investment_funds d) with
      | Ok m => Ok ((i, row), set_liquid_assets (<[i := 0]> (d_liquid_assets d)) (set_funds m d))
      | Err er => Err er
      end
  | _, _ => Err ErrDB
  end.

Definition fundRepo_Create (fund : InvestmentFund) : M InvestmentFund :=
  now ← time_now;
  row ← sql_insert (insert_fund (iv_Name fund) (iv_Description fund) (iv_MinimumContribution fund)
                      (if iv_AccountID fund =? 0 then None else Some (iv_AccountID fund)) (iv_ManagerID fund) now);
  mret (fund_toDomain row.1 row.2 0).

Definition fundRepo_GetByID (id : Z) : M InvestmentFund :=
  row ← sql_read (fun d => (fun m => (m, liquid id d)) <$> investment_funds d !! id);
  match row with
  | Some (m, l) => mret (fund_toDomain id m l)
  | None => throw (ErrMsg "fond nije pronađen")
  end.

Definition fundRepo_List : M (list InvestmentFund) :=
  sql_read (fun d => (fun kv : Z * investmentFundModel => fund_toDomain kv.1 kv.2 (liquid kv.1 d)) <$>
    rev (sort_by (fun kv : Z * investmentFundModel => if_CreatedAt kv.2) (map_to_list (investment_funds d)))).

Definition fundRepo_GetAccountNumber (accountID : Z) : M string :=
  sql_read (fun d => match d_racun d !! accountID with Some r => r_broj_racuna r | None => EmptyString end).

(** The active accounts of the bank that belong to no fund. *)
Definition fund_account_ids (d : DB) : list Z :=
  omap (fun kv : Z * investmentFundModel => if_AccountID kv.2) (map_to_list (investment_funds d)).

Definition bank_accounts (d : DB) : list (Z * racun) :=
  filter (fun kv : Z * racun => r_id_vlasnika kv.2 = trezor_owner /\ r_status kv.2 = AKTIVAN /\
    kv.1 ∉ fund_account_ids d) (map_to_list (d_racun d)).

Definition bank_item (kv : Z * racun) : BankAccountItem :=
  mkBankAccountItem kv.1 (r_broj_racuna kv.2) (ri_naziv_racuna (r_info kv.2)) (r_oznaka kv.2)
    (scan_cents (r_stanje_racuna kv.2)) (scan_cents (r_rezervisana_sredstva kv.2))
    (f64_sub (scan_cents (r_stanje_racuna kv.2)) (scan_cents (r_rezervisana_sredstva kv.2))).

Definition ListBankRSDAccounts : M (list BankAccountItem) :=
  sql_read (fun d => bank_item <$> sort_by fst (filter (fun kv => r_oznaka kv.2 = "RSD") (bank_accounts d))).

Definition ListBankAllAccounts : M (list BankAccountItem) :=
  sql_read (fun d => bank_item <$> merge_sort by_oznaka (bank_accounts d)).

Definition TransferManagerFunds (oldManagerID newManagerID : Z) : M unit :=
  sql (fun d => Ok (tt, set_funds ((fun f => if if_ManagerID f =? oldManagerID then with_manager newManagerID f else f)
                                     <$> investment_funds d) d)).

Definition GetSecurities (fundID : Z) : M (list FundSecurity) :=
  sql_read (fun d => (fun kv : (Z * Z) * fundSecurity =>
      mkFundSecurityStruct kv.1.2 (scan_quantity (fs_quantity kv.2)) (scan_cents (fs_initial_cost_rsd kv.2))) <$>
    filter (fun kv => kv.1.1 = fundID) (map_to_list (d_fund_securities d))).

(** Replaces the quantity and the cost of the row, if there is one. *)
Definition UpsertSecurity (fundID : Z) (sec : FundSecurity) : M unit :=
  sql (fun d =>
    match store_quantity (arg (fu_Quantity sec)), store_cents (arg (fu_InitialCostRSD sec)) with
    | Some q, Some c =>
        Ok (tt, set_fund_securities (<[(fundID, fu_ListingID sec) := mkFundSecurity q c]> (d_fund_securities d)) d)
    | _, _ => Err ErrDB
    end).

Definition GetPositions (fundID : Z) : M (list ClientFundPosition) :=
  sql_read (fun d => (fun kv : Z * fundPositionModel =>
      mkClientFundPosition kv.1 (fp_FundID kv.2) (fp_UserID kv.2) (scan_invested (fp_InvestedRSD kv.2))) <$>
    filter (fun kv => fp_FundID kv.2 = fundID) (map_to_list (fund_positions d))).

(** The sum of the column, exact. *)
Definition total_invested (fundID : Z) (d : DB) : Z :=
  msum (fun p => if fp_FundID p =? fundID then fp_InvestedRSD p else 0) (fund_positions d).

Definition GetTotalInvested (fundID : Z) : M float64 := sql_read (fun d => scan_invested (total_invested fundID d)).

(** [SET liquid_assets = liquid_assets + ?]; [AddSecurityQuantity] and
    [DeductLiquidAssets] are with the engine. *)
Definition AddLiquidAssets (fundID : Z) (amountRSD : float64) : M unit :=
  sql (fun d =>
    match d_liquid_assets d !! fundID with
    | None => Ok (tt, d)
    | Some v =>
        match store_cents (cents v + arg amountRSD) with
        | Some v' => Ok (tt, set_liquid_assets (<[fundID := v']> (d_liquid_assets d)) d)
        | None => Err ErrDB
        end
    end).

Definition ListFundsByListingID (listingID : Z) : M (list FundHolding) :=
  sql_read (fun d => omap (fun kv : (Z * Z) * fundSecurity =>
    if (kv.1.2 =? listingID) && (0 <? fs_quantity kv.2) then
      (fun f => mkFundHolding kv.1.1 (default 0 (if_AccountID f)) (scan_quantity (fs_quantity kv.2))) <$>
        investment_funds d !! kv.1.1
    else None) (map_to_list (d_fund_securities d))).

End repository.

(** ** The service *)

Section service.
Context `{DL : decimal.Lib} `{PT : pg.Text}.
Context (spreadRate : float64).

(** The middle rate of the dollar, 1 where there is none. *)
Definition usdToRSDRate : M float64 :=
  rates ← try (GetRates spreadRate);
  mret (match rates with Ok rates => default (f64_of_Z 1) (mid_rate "USD" rates) | Err _ => f64_of_Z 1 end).

Definition rsdCurrencyID : M Z :=
  currencies ← GetCurrencies;
  match List.find (fun c => String.eqb (cu_Oznaka c) "RSD") currencies with
  | Some c => mret (cu_ID c)
  | None => throw (ErrMsg "RSD valuta nije pronađena u šifarniku")
  end.

(** [None] when the draws of the account number did not end within [fuel]. *)
Definition CreateFund (fuel : nat) (input : CreateFundInput) : M (option InvestmentFund) :=
  rsdID ← rsdCurrencyID;
  accountID ← CreateAccount fuel (mkCreateAccount (ci_ManagerID input) 2 rsdID None "TEKUCI" "POSLOVNI" EmptyString
                                    ("Fond: " ++ ci_Name input) f64_zero);
  match accountID with
  | None => mret None
  | Some accountID =>
      now ← time_now;
      fund ← fundRepo_Create (mkInvestmentFund 0 (ci_Name input) (ci_Description input) (ci_MinimumContribution input)
                                (ci_ManagerID input) f64_zero accountID now);
      mret (Some fund)
  end.

(** The securities whose listing is found, with their value so far. *)
Fixpoint security_details (usdRate : float64) (secs : list FundSecurity) (total : float64)
    : M (list FundSecurityDetail * float64) :=
  match secs with
  | [] => mret ([], total)
  | sec :: secs' =>
      listing ← try (GetListingByID (fu_ListingID sec));
      match listing with
      | Err _ => security_details usdRate secs' total
      | Ok l =>
          ticker ← io (fun e n => Ok (lr_ticker (env_listing_row e n (fu_ListingID sec))));
          let price := l_Price (lc_Listing l) in
          let priceRSD := f64_mul price usdRate in
          let detail := mkFundSecurityDetail sec ticker price priceRSD (lc_ChangePercent l) (l_Volume (lc_Listing l))
                          (lc_InitialMarginCost l) in
          rest ← security_details usdRate secs' (f64_add total (f64_mul (fu_Quantity sec) priceRSD));
          mret (detail :: rest.1, rest.2)
      end
  end.

Definition GetFundDetails (id : Z) : M FundDetails :=
  fund ← fundRepo_GetByID id;
  securities ← GetSecurities id;
  usdRate ← usdToRSDRate;
  secs ← security_details usdRate securities f64_zero;
  let fundValue := f64_add (iv_LiquidAssets fund) secs.2 in
  invested ← try (GetTotalInvested id);
  let totalInvested := match invested with Ok t => t | Err _ => f64_zero end in
  mret (mkFundDetails fund fundValue (f64_sub fundValue totalInvested) secs.1).

End service.

(** ** Requests and answers *)

Record investRequest : Type := mkInvestRequest { nr_AccountID : string; nr_Amount : float64 }.

Record withdrawRequest : Type := mkWithdrawRequest {
  wr_AccountID : string;
  wr_AmountRSD : float64;
  wr_WithdrawAll : bool
}.

Record createInvestmentFundRequest : Type := mkCreateFundRequest {
  fr_Name : string;
  fr_Description : string;
  fr_MinimumContribution : float64
}.

Record fundForClient : Type := mkFundForClient {
  fc_ID : Z;
  fc_Name : string;
  fc_Description : string;
  fc_FundValueRSD : float64;
  fc_SharePercent : float64;
  fc_ShareRSD : float64;
  fc_Profit : float64;
  fc_InvestedRSD : float64
}.

Record fundForManager : Type := mkFundForManager {
  fm_ID : Z;
  fm_Name : string;
  fm_Description : string;
  fm_FundValueRSD : float64;
  fm_LiquidityRSD : float64
}.

(** [FundPerformance] stands for the averages of the snapshots of a fund, which
    are not modelled. *)
Inductive FundReply : Type :=
  | Invested (amountRsd : float64) (fundID : Z)
  | Withdrawn (withdrawnRsd netWithdrawnRsd commissionRsd creditedAmount : float64) (currency : string)
  | SecuritySold (ticker : string) (quantity proceeds priceRsd : float64)
  | ClientFunds (l : list fundForClient)
  | ManagedFunds (l : list fundForManager)
  | FundPerformance (fundID : Z)
  | FundCreated (fund : InvestmentFund) (accountNumber : string)
  | BankAccounts (l : list BankAccountItem)
  | FundRefused
  | NoContent.

Definition refused (code : Z) : Z * FundReply := (code, FundRefused).

(** [isBankSupervisorClaims], and its copies [isSupervisor] and
    [isSupervisorPermission]. *)
Definition isSupervisor (claims : AccessClaims) : bool :=
  String.eqb (cl_UserType claims) "ADMIN" || bool_decide ("SUPERVISOR" ∈ cl_Permissions claims).

(** The bank's own user, for which a supervisor invests. *)
Definition bankSystemUserID : Z := 2.

Definition investor (claims : AccessClaims) (callerID : Z) : Z :=
  if isSupervisor claims then bankSystemUserID else callerID.

(** ** Paths *)

Definition HasSuffix (suffix s : string) : bool :=
  (String.length suffix <=? String.length s)%nat &&
  String.eqb (String.substring (String.length s - String.length suffix) (String.length suffix) s) suffix.
Definition TrimSuffix (suffix s : string) : string :=
  if HasSuffix suffix s then String.substring 0 (String.length s - String.length suffix) s else s.
Definition TrimPrefix (prefix s : string) : string :=
  if String.prefix prefix s then String.substring (String.length prefix) (String.length s - String.length prefix) s else s.

(** [strings.Split(s, "/")], never empty. *)
Fixpoint Split (s : string) : list string :=
  match s with
  | EmptyString => [EmptyString]
  | String c s' =>
      match Split s' with
      | p :: ps => if Ascii.eqb c "/"%char then EmptyString :: p :: ps else String c p :: ps
      | [] => [String c EmptyString]
      end
  end.

(** The texts before and after the first slash. *)
Fixpoint Cut (s : string) : option (string * string) :=
  match s with
  | EmptyString => None
  | String c s' =>
      if Ascii.eqb c "/"%char then Some (EmptyString, s')
      else match Cut s' with Some (a, b) => Some (String c a, b) | None => None end
  end.

Definition parse_id (s : string) : Z := (ParseInt s).1.

Definition extractFundID (path suffix : string) : Z :=
  parse_id (List.last (Split (TrimSuffix suffix path)) EmptyString).

Definition parseSellPath (path : string) : Z * string :=
  match Cut (TrimPrefix "/bank/funds/" path) with
  | Some (id, rest) =>
      match Cut rest with
      | Some (verb, ticker) => if String.eqb verb "sell" then (parse_id id, ticker) else (0, EmptyString)
      | None => (0, EmptyString)
      end
  | None => (0, EmptyString)
  end.

(** ** The handlers *)

Section handlers.
Context `{DL : decimal.Lib} `{PT : pg.Text}.
Context (spreadRate : float64).

Definition fundWithdrawalCommissionRate : float64 := f64_lit 1 2.
Definition fundInvestCommissionRate : float64 := f64_lit 5 3.

(** The currency of an account, the empty text when the query fails. *)
Definition account_oznaka (accountID : Z) : M string :=
  r ← try (sql_read (fun d => r_oznaka <$> d_racun d !! accountID));
  mret (match r with Ok (Some o) => o | _ => EmptyString end).

Definition is_fx (oznaka : string) : bool := negb (String.eqb oznaka EmptyString) && negb (String.eqb oznaka "RSD").

(** [stanje_racuna - rezervisana_sredstva], 0 when the query fails. *)
Definition available (accountID : Z) : M float64 :=
  r ← try (sql_read (fun d => d_racun d !! accountID));
  mret (match r with Ok (Some acc) => scan_cents (free_cents acc) | _ => f64_zero end).

(** An active account of the bank in the currency: the server picks one. *)
Definition fetchTreasuryID (oznaka : string) : M Z :=
  ids ← sql_read (racun_ids trezor_owner oznaka);
  k ← io (fun e n => Ok (env_row_choice e n));
  let id := pick k ids in
  if id =? 0 then throw (ErrMsg "trezorski račun nije pronađen") else mret id.

(** *** POST /bank/funds/{id}/invest *)

(** What the account is debited, and the two treasury accounts of a conversion. *)
Record fxQuote : Type := mkQuote { fq_amount : float64; fq_treasuries : option (Z * Z) }.

Definition invest_quote (oznaka : string) (amountRSD : float64) : M (Z + fxQuote) :=
  if is_fx oznaka then
    rates ← try (GetRates spreadRate);
    match rates with
    | Err _ => mret (inl 500)
    | Ok rates =>
        let kupovni := match find_rate oznaka rates with Some r => er_Kupovni r | None => f64_zero end in
        if f64_leb kupovni f64_zero then mret (inl 400)
        else
          let baseAmount := f64_div amountRSD kupovni in
          let commission := f64_mul baseAmount fundInvestCommissionRate in
          fromID ← try (fetchTreasuryID oznaka);
          match fromID with
          | Err _ => mret (inl 500)
          | Ok fromID =>
              rsdID ← try (fetchTreasuryID "RSD");
              match rsdID with
              | Err _ => mret (inl 500)
              | Ok rsdID => mret (inr (mkQuote (f64_add baseAmount commission) (Some (fromID, rsdID))))
              end
          end
    end
  else mret (inr (mkQuote amountRSD None)).

(** The ledger rows of a conversion, one INSERT each; account 0 is skipped. *)
Definition fx_ledger (recs : list (Z * float64)) : M unit :=
  for_each recs (fun rec =>
    if rec.1 =? 0 then mret tt else sql (insert_transakcija [(rec.1, MENJACNICA, arg rec.2)])).

Definition upsert_position (fundID userID accountID : Z) (amountRSD : float64) (i : Z) (d : DB) : result (unit * DB) :=
  match store_invested (arg amountRSD) with
  | None => Err ErrDB
  | Some v =>
      match position_of fundID userID d with
      | Some (id, p) =>
          match store_invested (units (fp_InvestedRSD p + v)) with
          | Some v' => Ok (tt, set_positions (<[id := with_invested v' p]> (fund_positions d)) d)
          | None => Err ErrDB
          end
      | None =>
          match investment_funds d !! fundID, d_racun d !! accountID,
                insert_row i (mkFundPosition fundID userID accountID v) (fund_positions d) with
          | Some _, Some _, Ok m => Ok (tt, set_positions m d)
          | _, _, _ => Err ErrDB
          end
      end
  end.

Definition insert_fund_transaction (fundID userID : Z) (amountRSD : float64) (now : Z) (inflow : bool) (d : DB)
    : result (unit * DB) :=
  match store_cents (arg amountRSD) with
  | Some c => Ok (tt, set_fund_transactions
                        (fund_transactions d ++ [mkFundTransaction fundID userID c "completed" now inflow])%list d)
  | None => Err ErrDB
  end.

Definition record_fund_transaction (fundID userID : Z) (amountRSD : float64) (inflow : bool) : M unit :=
  now ← time_now;
  sql (insert_fund_transaction fundID userID amountRSD now inflow).

(** An account update for a fund that has an account. *)
Definition exec_fund_account (fundAccountID : Z) (f : racun -> option racun) : M unit :=
  if 0 <? fundAccountID then exec_racun fundAccountID f else mret tt.

(** The money of an investment. *)
Definition invest_money (accountID fundAccountID : Z) (amountRSD : float64) (quote : fxQuote) : M unit :=
  match fq_treasuries quote with
  | Some (treasuryFromID, treasuryRSDID) =>
      now ← time_now;
      exec_racun accountID (sub_stanje (arg (fq_amount quote))) ;;
      exec_racun treasuryFromID (add_stanje (arg (fq_amount quote))) ;;
      exec_racun treasuryRSDID (sub_stanje (arg amountRSD)) ;;
      exec_fund_account fundAccountID (add_stanje (arg amountRSD)) ;;
      fx_ledger [(accountID, fq_amount quote); (treasuryFromID, fq_amount quote); (treasuryRSDID, amountRSD);
                 (fundAccountID, amountRSD)]
  | None =>
      exec_racun accountID (sub_stanje (arg amountRSD)) ;;
      exec_fund_account fundAccountID (add_stanje (arg amountRSD)) ;;
      sql (insert_transakcija [(accountID, ISPLATA, arg amountRSD)]) ;;
      if 0 <? fundAccountID then sql (insert_transakcija [(fundAccountID, UPLATA, arg amountRSD)]) else mret tt
  end.

Definition invest_tx (fundID userID accountID fundAccountID : Z) (amountRSD : float64) (quote : fxQuote) : M unit :=
  Transaction (
    invest_money accountID fundAccountID amountRSD quote ;;
    AddLiquidAssets fundID amountRSD ;;
    sql_insert (upsert_position fundID userID accountID amountRSD) ;;
    record_fund_transaction fundID userID amountRSD true).

(** The account of a request, when it is a positive number. *)
Definition parse_account (s : string) : option Z :=
  let '(id, ok) := ParseInt s in if ok && (0 <? id) then Some id else None.

Definition below_minimum (fund : investmentFundModel) (amountRSD : float64) : bool :=
  let minimum := scan_cents (if_MinimumContribution fund) in
  f64_ltb f64_zero minimum && f64_ltb amountRSD minimum.

(** A request whose body was decoded and whose account is a number. *)
Definition invest_from (fundID userID accountID : Z) (amountRSD : float64) : M (Z * FundReply) :=
  fund ← try (sql_read (fun d => investment_funds d !! fundID));
  match fund with
  | Ok (Some fund) =>
      oznaka ← account_oznaka accountID;
      quote ← invest_quote oznaka amountRSD;
      match quote with
      | inl code => mret (refused code)
      | inr quote =>
          if below_minimum fund amountRSD then mret (refused 400)
          else
            free ← available accountID;
            if f64_ltb free (fq_amount quote) then mret (refused 400)
            else
              r ← try (invest_tx fundID userID accountID (default 0 (if_AccountID fund)) amountRSD quote);
              mret (match r with Ok _ => (200, Invested amountRSD fundID) | Err _ => refused 500 end)
      end
  | _ => mret (refused 404)
  end.

Definition invest (claims : AccessClaims) (fundID : Z) (body : option investRequest) : M (Z * FundReply) :=
  if fundID <=? 0 then mret (refused 400)
  else
    match ParseInt (cl_Subject claims) with
    | (_, false) => mret (refused 500)
    | (callerID, true) =>
        match body with
        | None => mret (refused 400)
        | Some req =>
            if f64_leb (nr_Amount req) f64_zero then mret (refused 400)
            else match parse_account (nr_AccountID req) with
                 | None => mret (refused 400)
                 | Some accountID => invest_from fundID (investor claims callerID) accountID (nr_Amount req)
                 end
        end
    end.

(** *** POST /bank/funds/{id}/withdraw *)

(** The market price of a security, or the price it was bought for. *)
Definition effectiveUnitPrice (sec : FundSecurityDetail) : float64 :=
  let s := fx_Security sec in
  if f64_ltb f64_zero (fx_CurrentPriceRSD sec) then fx_CurrentPriceRSD sec
  else if f64_ltb f64_zero (fu_Quantity s) && f64_ltb f64_zero (fu_InitialCostRSD s)
  then f64_div (fu_InitialCostRSD s) (fu_Quantity s) else f64_zero.

(** [SET quantity = quantity - ?] *)
Definition sell_quantity (fundID listingID : Z) (quantity : float64) (d : DB) : result (unit * DB) :=
  match d_fund_securities d !! (fundID, listingID) with
  | None => Ok (tt, d)
  | Some s =>
      match store_quantity (micros (fs_quantity s) - arg quantity) with
      | Some q => Ok (tt, set_fund_securities
                            (<[(fundID, listingID) := mkFundSecurity q (fs_initial_cost_rsd s)]> (d_fund_securities d)) d)
      | None => Err ErrDB
      end
  end.

(** DELETE of the row: [AND quantity <= 0], or whatever its quantity. *)
Definition drop_security (fundID listingID : Z) (sold_out : fundSecurity -> bool) (d : DB) : result (unit * DB) :=
  match d_fund_securities d !! (fundID, listingID) with
  | Some s => if sold_out s then Ok (tt, set_fund_securities (delete (fundID, listingID) (d_fund_securities d)) d)
              else Ok (tt, d)
  | None => Ok (tt, d)
  end.

(** The row of a sale that the order book did not see; its listing exists. *)
Definition synthetic_sell (managerID accountID listingID quantity fundID now i : Z) (d : DB) : result (unit * DB) :=
  let m := mkOrderModel managerID accountID listingID OrderTypeMarket OrderDirectionSell quantity 1 None None
             OrderStatusDone None true 0 false false false false (Some fundID) now in
  if orders_check m d && bool_decide (d_orders d !! i = None)
  then Ok (tt, set_orders (<[i := m]> (d_orders d)) d) else Err ErrDB.

(** [tx.Exec] without a look at its error. *)
Definition book_sale (managerID fundAccountID listingID fundID : Z) (quantity : float64) : M unit :=
  if (0 <? managerID) && (0 <? fundAccountID) then
    let sellQty := int64_of_f64 (math.Round quantity) in
    if 0 <? sellQty then
      now ← time_now;
      try (sql_insert (synthetic_sell managerID fundAccountID listingID sellQty fundID now)) ;;
      mret tt
    else mret tt
  else mret tt.

(** What is sold of a security: the quantity and the proceeds. *)
Definition sale_of (sec : FundSecurityDetail) (total originalNeeded : float64) : float64 * float64 :=
  let unitPrice := effectiveUnitPrice sec in
  let secValue := f64_mul (fu_Quantity (fx_Security sec)) unitPrice in
  let share := f64_mul originalNeeded (f64_div secValue total) in
  let targetProceeds := if f64_ltb secValue share then secValue else share in
  let canSell := if f64_leb secValue targetProceeds then fu_Quantity (fx_Security sec)
                 else f64_div targetProceeds unitPrice in
  (canSell, f64_mul canSell unitPrice).

(** The loop over the securities; it threads the cash of the fund and what is
    still needed. *)
Fixpoint liquidate (fundID fundAccountID managerID : Z) (total originalNeeded : float64)
    (secs : list FundSecurityDetail) (cash needed : float64) : M (float64 * float64) :=
  match secs with
  | [] => mret (cash, needed)
  | sec :: secs' =>
      if f64_leb (effectiveUnitPrice sec) f64_zero || f64_leb total f64_zero
      then liquidate fundID fundAccountID managerID total originalNeeded secs' cash needed
      else
        let '(canSell, proceeds) := sale_of sec total originalNeeded in
        let listingID := fu_ListingID (fx_Security sec) in
        sql (sell_quantity fundID listingID canSell) ;;
        try (sql (drop_security fundID listingID (fun s => fs_quantity s <=? 0))) ;;
        AddLiquidAssets fundID proceeds ;;
        exec_fund_account fundAccountID (add_stanje (arg proceeds)) ;;
        book_sale managerID fundAccountID listingID fundID canSell ;;
        liquidate fundID fundAccountID managerID total originalNeeded secs' (f64_add cash proceeds) (f64_sub needed proceeds)
  end.

Definition total_value (secs : list FundSecurityDetail) : float64 :=
  foldl (fun t sec => f64_add t (f64_mul (fu_Quantity (fx_Security sec)) (effectiveUnitPrice sec))) f64_zero secs.

(** Enough cash, after selling securities if need be: the cash there is. *)
Definition raise_cash (fundID fundAccountID managerID : Z) (details : option FundDetails) (withdrawAll : bool)
    (netRSD cash : float64) : M float64 :=
  if f64_ltb cash netRSD then
    match details with
    | None | Some (mkFundDetails _ _ _ []) => throw (ErrMsg "fond nema dovoljno likvidnih sredstava za povlačenje")
    | Some details =>
        let secs := fe_Securities details in
        let needed := f64_sub netRSD cash in
        r ← liquidate fundID fundAccountID managerID (total_value secs) needed secs cash needed;
        if f64_ltb (f64_lit 1 2) r.2 && negb withdrawAll
        then throw (ErrMsg "fond nema dovoljno sredstava za povlačenje")
        else mret r.1
    end
  else mret cash.

(** The money of a withdrawal: [credit] is what the account receives. *)
Definition withdraw_money (accountID fundAccountID : Z) (netRSD credit : float64) (treasuries : option (Z * Z)) : M unit :=
  match treasuries with
  | Some (treasuryRSDID, treasuryFXID) =>
      now ← time_now;
      exec_fund_account fundAccountID (sub_stanje (arg netRSD)) ;;
      exec_racun treasuryRSDID (add_stanje (arg netRSD)) ;;
      exec_racun treasuryFXID (sub_stanje (arg credit)) ;;
      exec_racun accountID (add_stanje (arg credit)) ;;
      fx_ledger [(fundAccountID, netRSD); (treasuryRSDID, netRSD); (treasuryFXID, credit); (accountID, credit)]
  | None =>
      exec_fund_account fundAccountID (sub_stanje (arg netRSD)) ;;
      exec_racun accountID (add_stanje (arg credit)) ;;
      (if 0 <? fundAccountID then sql (insert_transakcija [(fundAccountID, ISPLATA, arg netRSD)]) else mret tt) ;;
      sql (insert_transakcija [(accountID, UPLATA, arg credit)])
  end.

Definition delete_position (id : Z) (d : DB) : result (unit * DB) :=
  Ok (tt, set_positions (delete id (fund_positions d)) d).
Definition update_position (id : Z) (invested : float64) (d : DB) : result (unit * DB) :=
  match fund_positions d !! id with
  | None => Ok (tt, d)
  | Some p =>
      match store_invested (arg invested) with
      | Some v => Ok (tt, set_positions (<[id := with_invested v p]> (fund_positions d)) d)
      | None => Err ErrDB
      end
  end.

(** The rest of a position of less than a thousandth is written off. *)
Definition shrink_position (id : Z) (remaining : float64) : M unit :=
  if f64_leb remaining (f64_lit 1 3) then sql (delete_position id) else sql (update_position id remaining).

(** How an account in a foreign currency is paid: the rate, the treasury accounts of
    dinars and of the currency. *)
Record payout : Type := mkPayout { py_credit : float64; py_rate : float64; py_treasuries : option (Z * Z) }.

Definition withdraw_quote (supervisor : bool) (oznaka : string) (netRSD : float64) : M (Z + payout) :=
  if is_fx oznaka then
    rates ← try (GetRates spreadRate);
    match rates with
    | Err _ => mret (inl 500)
    | Ok rates =>
        let matchRate := match find_rate oznaka rates with
                         | Some r => if supervisor then er_Srednji r else er_Prodajni r
                         | None => f64_zero end in
        if f64_leb matchRate f64_zero then mret (inl 400)
        else
          rsdID ← try (fetchTreasuryID "RSD");
          match rsdID with
          | Err _ => mret (inl 500)
          | Ok rsdID =>
              fxID ← try (fetchTreasuryID oznaka);
              match fxID with
              | Err _ => mret (inl 500)
              | Ok fxID => mret (inr (mkPayout (f64_div netRSD matchRate) matchRate (Some (rsdID, fxID))))
              end
          end
    end
  else mret (inr (mkPayout netRSD f64_zero None)).

(** What the account receives when the fund pays only [actualNetRSD]. *)
Definition actual_credit (netRSD actualNetRSD : float64) (p : payout) : float64 :=
  if f64_ltb actualNetRSD netRSD then
    match py_treasuries p with
    | Some _ => if f64_ltb f64_zero (py_rate p) then f64_div actualNetRSD (py_rate p) else actualNetRSD
    | None => actualNetRSD
    end
  else py_credit p.

(** The locked row of the fund: account, manager and cash. *)
Definition locked_fund (fundID : Z) (d : DB) : Z * Z * float64 :=
  match investment_funds d !! fundID with
  | Some f => (default 0 (if_AccountID f), if_ManagerID f, scan_cents (liquid fundID d))
  | None => (0, 0, f64_zero)
  end.

(** The withdrawal of [withdrawRSD], of which the investor receives [netRSD]. *)
Definition withdraw_tx (fundID userID accountID posID : Z) (invested withdrawRSD netRSD : float64) (withdrawAll : bool)
    (p : payout) (details : option FundDetails) : M unit :=
  Transaction (
    fund ← sql_read (locked_fund fundID);
    let '(fundAccountID, managerID, liquidAssets) := fund in
    cash ← raise_cash fundID fundAccountID managerID details withdrawAll netRSD liquidAssets;
    let actualNetRSD := if f64_ltb cash netRSD then cash else netRSD in
    DeductLiquidAssets fundID actualNetRSD ;;
    withdraw_money accountID fundAccountID actualNetRSD (actual_credit netRSD actualNetRSD p) (py_treasuries p) ;;
    shrink_position posID (f64_sub invested withdrawRSD) ;;
    record_fund_transaction fundID userID withdrawRSD false).

Definition withdraw_amount (req : withdrawRequest) (invested : float64) : float64 :=
  if wr_WithdrawAll req || f64_leb (wr_AmountRSD req) f64_zero then invested else wr_AmountRSD req.

(** The fee of a withdrawal: none for supervisors. *)
Definition withdraw_fee (supervisor : bool) (withdrawRSD : float64) : float64 :=
  f64_mul withdrawRSD (if supervisor then f64_zero else fundWithdrawalCommissionRate).

Definition withdraw_from (supervisor : bool) (fundID userID accountID : Z) (req : withdrawRequest) : M (Z * FundReply) :=
  pos ← try (sql_read (position_of fundID userID));
  match pos with
  | Ok (Some (posID, pos)) =>
      let invested := scan_invested (fp_InvestedRSD pos) in
      let withdrawRSD := withdraw_amount req invested in
      if f64_ltb invested withdrawRSD then mret (refused 400)
      else
        let commission := withdraw_fee supervisor withdrawRSD in
        let netRSD := f64_sub withdrawRSD commission in
        oznaka ← account_oznaka accountID;
        quote ← withdraw_quote supervisor oznaka netRSD;
        match quote with
        | inl code => mret (refused code)
        | inr p =>
            details ← try (GetFundDetails spreadRate fundID);
            r ← try (withdraw_tx fundID userID accountID posID invested withdrawRSD netRSD (wr_WithdrawAll req) p
                       (match details with Ok det => Some det | Err _ => None end));
            mret (match r with
                  | Ok _ => (200, Withdrawn withdrawRSD netRSD commission (py_credit p) oznaka)
                  | Err _ => refused 500
                  end)
        end
  | _ => mret (refused 404)
  end.

Definition withdraw (claims : AccessClaims) (fundID : Z) (body : option withdrawRequest) : M (Z * FundReply) :=
  if fundID <=? 0 then mret (refused 400)
  else
    match ParseInt (cl_Subject claims) with
    | (_, false) => mret (refused 500)
    | (callerID, true) =>
        match body with
        | None => mret (refused 400)
        | Some req =>
            match parse_account (wr_AccountID req) with
            | None => mret (refused 400)
            | Some accountID =>
                withdraw_from (isSupervisor claims) fundID (investor claims callerID) accountID req
            end
        end
    end.

(** *** POST /bank/funds/{id}/sell/{ticker} *)

Definition sell_tx (fundID : Z) (sec : FundSecurity) (proceeds : float64) : M unit :=
  Transaction (
    sql (drop_security fundID (fu_ListingID sec) (fun _ => true)) ;;
    AddLiquidAssets fundID proceeds ;;
    meta ← try (sql_read (locked_fund fundID));
    let '(fundAccountID, managerID, _) := match meta with Ok m => m | Err _ => (0, 0, f64_zero) end in
    exec_fund_account fundAccountID (add_stanje (arg proceeds)) ;;
    book_sale managerID fundAccountID (fu_ListingID sec) fundID (fu_Quantity sec)).

Definition find_security (ticker : string) (details : FundDetails) : option FundSecurityDetail :=
  List.find (fun sec => EqualFold (fx_Ticker sec) ticker) (fe_Securities details).

Definition sellSecurity (claims : AccessClaims) (fundID : Z) (ticker : string) : M (Z * FundReply) :=
  if (fundID <=? 0) || String.eqb ticker EmptyString then mret (refused 400)
  else if negb (isSupervisor claims) then mret (refused 403)
  else
    details ← try (GetFundDetails spreadRate fundID);
    match details with
    | Err _ => mret (refused 404)
    | Ok details =>
        match find_security ticker details with
        | None => mret (refused 404)
        | Some sec =>
            let price := fx_CurrentPriceRSD sec in
            let quantity := fu_Quantity (fx_Security sec) in
            if f64_leb price f64_zero || f64_leb quantity f64_zero then mret (refused 400)
            else
              let proceeds := f64_mul quantity price in
              r ← try (sell_tx fundID (fx_Security sec) proceeds);
              mret (match r with
                    | Ok _ => (200, SecuritySold ticker quantity proceeds price)
                    | Err _ => refused 500
                    end)
        end
    end.

(** *** GET /bank/funds *)

(** The rows of the manager, each with its [liquid_assets]. *)
Fixpoint managed_funds (funds : list (Z * investmentFundModel * float64)) : M (list fundForManager) :=
  match funds with
  | [] => mret []
  | (id, f, cash) :: funds' =>
      details ← try (GetFundDetails spreadRate id);
      let '(value, liquidity) := match details with
                                 | Ok det => (fe_FundValueRSD det, iv_LiquidAssets (fe_Fund det))
                                 | Err _ => (cash, cash)
                                 end in
      rest ← managed_funds funds';
      mret (mkFundForManager id (if_Name f) (if_Description f) value liquidity :: rest)
  end.

Definition client_fund (pos : fundPositionModel) (f : investmentFundModel) (totalFundInvested fundValueRSD : float64)
    : fundForClient :=
  let invested := scan_invested (fp_InvestedRSD pos) in
  let '(percent, share) :=
    if f64_ltb f64_zero totalFundInvested
    then (f64_mul (f64_div invested totalFundInvested) (f64_of_Z 100),
          f64_mul (f64_div invested totalFundInvested) fundValueRSD)
    else (f64_zero, invested) in
  mkFundForClient (fp_FundID pos) (if_Name f) (if_Description f) fundValueRSD percent share (f64_sub share invested) invested.

Fixpoint client_funds (positions : list fundPositionModel) : M (list fundForClient) :=
  match positions with
  | [] => mret []
  | pos :: positions' =>
      fund ← try (sql_read (fun d => investment_funds d !! fp_FundID pos));
      match fund with
      | Ok (Some f) =>
          total ← try (GetTotalInvested (fp_FundID pos));
          let total := match total with Ok t => t | Err _ => f64_zero end in
          details ← try (GetFundDetails spreadRate (fp_FundID pos));
          let value := match details with Ok det => fe_FundValueRSD det | Err _ => total end in
          rest ← client_funds positions';
          mret (client_fund pos f total value :: rest)
      | _ => client_funds positions'
      end
  end.

Definition listFunds (claims : AccessClaims) : M (Z * FundReply) :=
  match ParseInt (cl_Subject claims) with
  | (_, false) => mret (refused 500)
  | (userID, true) =>
      if isSupervisor claims then
        funds ← try (sql_read (fun d => (fun kv => (kv, scan_cents (liquid kv.1 d))) <$>
          filter (fun kv : Z * investmentFundModel => if_ManagerID kv.2 = userID) (map_to_list (investment_funds d))));
        l ← managed_funds (match funds with Ok funds => funds | Err _ => [] end);
        mret (200, ManagedFunds l)
      else
        positions ← try (sql_read (fun d => filter (fun p => fp_UserID p = userID)
                                              (snd <$> map_to_list (fund_positions d))));
        l ← client_funds (match positions with Ok ps => ps | Err _ => [] end);
        mret (200, ClientFunds l)
  end.

(** *** Dispatch of /bank/funds *)

Context (verify : string -> option AccessClaims).

Definition with_claims {A} (authHeader : string) (denied : A) (k : AccessClaims -> M A) : M A :=
  match strip_bearer authHeader with
  | Some token => match verify token with Some claims => k claims | None => mret denied end
  | None => mret denied
  end.

(** The bodies are those of an investment and of a withdrawal. *)
Definition serve_funds (method path authHeader : string) (invested : option investRequest)
    (withdrawn : option withdrawRequest) : M (Z * FundReply) :=
  if String.eqb method "OPTIONS" then mret (204, NoContent)
  else with_claims authHeader (refused 401) (fun claims =>
    if String.eqb path "/bank/funds" && String.eqb method "GET" then listFunds claims
    else if HasSuffix "/invest" path && String.eqb method "POST"
    then invest claims (extractFundID path "/invest") invested
    else if HasSuffix "/withdraw" path && String.eqb method "POST"
    then withdraw claims (extractFundID path "/withdraw") withdrawn
    else if Contains "/sell/" path && String.eqb method "POST"
    then let '(fundID, ticker) := parseSellPath path in sellSecurity claims fundID ticker
    else if HasSuffix "/performance" path && String.eqb method "GET"
    then let fundID := extractFundID path "/performance" in
         mret (if fundID <=? 0 then refused 400 else (200, FundPerformance fundID))
    else mret (refused 404)).

(** *** Creating a fund *)

Definition createFund (fuel : nat) (claims : AccessClaims) (body : option createInvestmentFundRequest)
    : M (option (Z * FundReply)) :=
  if negb (isSupervisor claims) then mret (Some (refused 403))
  else
    match ParseInt (cl_Subject claims), body with
    | (_, false), _ => mret (Some (refused 500))
    | (_, true), None => mret (Some (refused 400))
    | (managerID, true), Some req =>
        if String.eqb (TrimSpace (fr_Name req)) EmptyString || f64_leb (fr_MinimumContribution req) f64_zero
        then mret (Some (refused 400))
        else
          r ← try (CreateFund fuel (mkCreateFundInput (TrimSpace (fr_Name req)) (TrimSpace (fr_Description req))
                                      (fr_MinimumContribution req) managerID));
          match r with
          | Ok None => mret None
          | Ok (Some fund) =>
              (* resolveAccountNumber *)
              num ← (if iv_AccountID fund =? 0 then mret EmptyString
                     else n ← try (fundRepo_GetAccountNumber (iv_AccountID fund));
                          mret (match n with Ok s => s | Err _ => EmptyString end));
              mret (Some (201, FundCreated fund num))
          | Err _ => mret (Some (refused 500))
          end
    end.

(** GET /bank/bank-accounts *)
Definition BankAccountsHandler (method authHeader : string) (allCurrencies : bool) : M (Z * FundReply) :=
  if String.eqb method "OPTIONS" then mret (204, NoContent)
  else if negb (String.eqb method "GET") then mret (refused 405)
  else with_claims authHeader (refused 401) (fun claims =>
    if negb (String.eqb (cl_UserType claims) "EMPLOYEE") && negb (String.eqb (cl_UserType claims) "ADMIN")
    then mret (refused 403)
    else
      r ← try (if allCurrencies then ListBankAllAccounts else ListBankRSDAccounts);
      mret (match r with Ok l => (200, BankAccounts l) | Err _ => refused 500 end)).

(** ** Making and removing actuaries ([internal_actuary_handler.go])

    The answer is the status alone; the system's audit log is left out. *)

Definition requireAdmin (authHeader : string) : option AccessClaims :=
  match strip_bearer authHeader with
  | Some token =>
      match verify token with
      | Some claims => if String.eqb (cl_UserType claims) "ADMIN" then Some claims else None
      | None => None
      end
  | None => None
  end.

Definition handleCreate (body : option (Z * string)) : M Z :=
  match body with
  | None => mret 400
  | Some (employeeID, actuaryType) =>
      if employeeID =? 0 then mret 400
      else
        let create ty := r ← try (CreateActuaryForEmployee employeeID ty); mret (match r with Ok _ => 201 | Err _ => 500 end) in
        if String.eqb actuaryType "SUPERVISOR" then create ActuaryTypeSupervisor
        else if String.eqb actuaryType "AGENT" then create ActuaryTypeAgent else mret 400
  end.

(** The removal, with the query parameter [actuaryType]. *)
Definition handleDelete (authHeader path actuaryType : string) : M Z :=
  match ParseInt (List.last (Split (TrimSuffix "/" path)) EmptyString) with
  | (_, false) => mret 400
  | (employeeID, true) =>
      if employeeID =? 0 then mret 400
      else
        existing ← try (GetByEmployeeID employeeID);
        let isSupervisorBeingRemoved := match existing with
                                        | Ok a => bool_decide (act_ActuaryType a = ActuaryTypeSupervisor)
                                        | Err _ => String.eqb actuaryType "SUPERVISOR"
                                        end in
        deleted ← try (DeleteActuaryForEmployee employeeID);
        match deleted with
        | Err _ => mret 500
        | Ok _ =>
            if isSupervisorBeingRemoved then
              match requireAdmin authHeader with
              | None => mret 401
              | Some claims =>
                  match ParseInt (cl_Subject claims) with
                  | (_, false) => mret 500
                  | (adminID, true) =>
                      transferred ← try (TransferManagerFunds employeeID adminID);
                      mret (match transferred with Ok _ => 204 | Err _ => 500 end)
                  end
              end
            else mret 204
        end
  end.

Definition serve_actuary (method authHeader path actuaryType : string) (body : option (Z * string)) : M Z :=
  match requireAdmin authHeader with
  | None => mret 401
  | Some _ =>
      if String.eqb method "POST" then handleCreate body
      else if String.eqb method "DELETE" then handleDelete authHeader path actuaryType
      else mret 405
  end.

End handlers.
