(* ===== verification/FundFacts.v ===== *)
(** * What the requests of an investment fund do

    Every statement as a function of the tables, then the two requests that move
    money: a transaction that ends well has posted the legs of its case on the
    accounts, moved the cash of the fund by the same amounts, written the position
    and the record; anything else has left the database alone. *)

From S2P Require Import Prelude Numeric Domain Tables Store StoreFacts OrderRepo OrderRepoFacts Market FundsManager FundsFacts.
From S2P Require Import FundsSafety FundsTransfers Actuaries Engine InterbankExecutor GoMath AccountRepo PaymentRepo PaymentFacts OtcRepo OtcFacts Cards CardHandlers.
From S2P Require Import Tax TaxFacts InvestmentFunds.
From stdpp Require Import list sorting.
From Stdlib Require Import Lqa SpecFloat.
#[local] Open Scope string_scope.
#[local] Open Scope Z_scope.

(** ** Postings *)

(** Every account, active or not, moves by what is posted on it. *)
Definition post_legs (legs : list (Z * Q)) (t : gmap Z racun) : gmap Z racun :=
  foldl (fun t leg => alter (FundsTransfers.moved leg.2) leg.1 t) t legs.

Definition booked (legs : list (Z * Q)) (rows : list transakcija) (d : DB) : DB :=
  set_transakcija (d_transakcija d ++ rows)%list (set_racun (post_legs legs (d_racun d)) d).

Lemma booked_nil d : booked [] [] d = d.
Proof. unfold booked. rewrite app_nil_r. by destruct d. Qed.

Lemma booked_app l1 l2 r1 r2 d : booked l2 r2 (booked l1 r1 d) = booked (l1 ++ l2)%list (r1 ++ r2)%list d.
Proof. unfold booked, post_legs. destruct d. cbn. by rewrite foldl_app, app_assoc. Qed.

(** [m], when it ends well, books these. *)
Definition books (m : M unit) (legs : list (Z * Q)) (rows : list transakcija) : Prop :=
  forall e w w', m e w = (Ok tt, w') -> w_db w' = booked legs rows (w_db w).

Lemma books_nil : books (mret tt) [] [].
Proof. intros e w w' [= <-]. by rewrite booked_nil. Qed.

Lemma books_bind m k l1 l2 r1 r2 : books m l1 r1 -> books k l2 r2 -> books (m ;; k) (l1 ++ l2)%list (r1 ++ r2)%list.
Proof. intros H1 H2 e w w' ([] & w1 & E1%H1 & E2%H2)%bind_ok. by rewrite E2, E1, booked_app. Qed.

Lemma books_if (b : bool) m k l1 l2 r1 r2 :
  books m l1 r1 -> books k l2 r2 -> books (if b then m else k) (if b then l1 else l2) (if b then r1 else r2).
Proof. by destruct b. Qed.

Lemma books_now {A} (m : M A) k l r : (forall e w a w', m e w = (Ok a, w') -> w_db w' = w_db w) ->
  books k l r -> books (_ ← m; k) l r.
Proof. intros Hm Hk e w w' (a & w1 & E1%Hm & E2%Hk)%bind_ok. by rewrite E2, E1. Qed.

Lemma exec_racun_alter id f q e w w' : (forall r r', f r = Some r' -> r' = FundsTransfers.moved q r) ->
  exec_racun id f e w = (Ok tt, w') -> w_db w' = set_racun (alter (FundsTransfers.moved q) id (d_racun (w_db w))) (w_db w).
Proof.
  intros Hf. unfold exec_racun. intros (n & w1 & H & [= <-])%bind_ok. apply sql_ok in H as (d & H & -> & _).
  cbn. unfold update_racun in H. destruct (d_racun (w_db w) !! id) as [r|] eqn:Hr; cbn in H.
  - destruct (f r) as [r'|] eqn:E; [|discriminate]. injection H as _ <-. apply Hf in E as ->.
    f_equal. apply map_eq. intros i. destruct (decide (i = id)) as [->|].
    + by rewrite lookup_insert_eq, lookup_alter_eq, Hr.
    + by rewrite lookup_insert_ne, lookup_alter_ne.
  - injection H as _ <-. rewrite alter_id'; [by destruct (w_db w)|]. congruence.
Qed.

Lemma books_exec id f q :
  (forall r r', f r = Some r' -> r' = FundsTransfers.moved q r) -> books (exec_racun id f) [(id, q)] [].
Proof.
  intros Hf e w w' H. rewrite (exec_racun_alter _ _ _ _ _ _ Hf H). unfold booked. rewrite app_nil_r. by destruct (w_db w).
Qed.

Lemma books_add id q : books (exec_racun id (add_stanje q)) [(id, q)] [].
Proof. apply books_exec. intros r r' H. by apply add_stanje_eq in H. Qed.
Lemma books_sub id q : books (exec_racun id (sub_stanje q)) [(id, (- q)%Q)] [].
Proof. apply books_exec. intros r r' H. by apply sub_stanje_eq in H. Qed.

Lemma books_ledger es : books (sql (insert_transakcija es)) [] (ledger es).
Proof. intros e w w' H%insert_transakcija_ok. rewrite H. unfold booked. cbn. by destruct (w_db w). Qed.

(** ** Statements *)

Definition set_cash (fundID : Z) (f : Z -> Z) (d : DB) : DB :=
  set_liquid_assets (alter f fundID (d_liquid_assets d)) d.

Lemma set_cash_insert fundID v f d : d_liquid_assets d !! fundID = Some v ->
  set_liquid_assets (<[fundID := f v]> (d_liquid_assets d)) d = set_cash fundID f d.
Proof.
  intros H. unfold set_cash. f_equal. apply map_eq. intros i. destruct (decide (i = fundID)) as [->|].
  - by rewrite lookup_insert_eq, lookup_alter_eq, H.
  - by rewrite lookup_insert_ne, lookup_alter_ne.
Qed.

Lemma set_cash_none fundID f d : d_liquid_assets d !! fundID = None -> set_cash fundID f d = d.
Proof.
  intros H. unfold set_cash. rewrite alter_id'; [by destruct d|]. congruence.
Qed.

(** ** Rates

    The middle rate of a currency of the bank at a step: the provider's, or the local
    table's when the provider fails or answers nothing. The bank buys for less and sells
    for more than it, by the spread. *)
Definition quoted (e : Env) (n : nat) (c : string) : option float64 :=
  if bool_decide (c ∈ SupportedExchangeCodes)
  then map_get c (match env_mid_rates e n with None | Some [] => fallbackMidRates | Some rates => rates end)
  else None.

Definition buying (spread mid : float64) : float64 := f64_mul mid (f64_sub (f64_of_Z 1) spread).
Definition selling (spread mid : float64) : float64 := f64_mul mid (f64_add (f64_of_Z 1) spread).

Lemma find_rate_of spread c codes mids :
  find_rate c (rates_of spread codes mids) = if bool_decide (c ∈ codes) then buildRate spread c <$> map_get c mids else None.
Proof.
  induction codes as [|k codes IH]; [done|]. cbn [rates_of]. destruct (decide (k = c)) as [->|Hne].
  - rewrite (bool_decide_eq_true_2 (c ∈ c :: codes)) by (by left). destruct (map_get c mids) as [m|].
    + unfold find_rate. cbn. by rewrite String.eqb_refl.
    + rewrite IH. by case_bool_decide.
  - rewrite (bool_decide_ext (c ∈ k :: codes) (c ∈ codes)) by (rewrite elem_of_cons; intuition congruence). destruct (map_get k mids) as [m|]; [|exact IH].
    unfold find_rate in *. cbn. apply String.eqb_neq in Hne. by rewrite Hne.
Qed.

Lemma GetRates_quoted spread e w r w' : GetRates spread e w = (r, w') ->
  w_db w' = w_db w /\ exists rates, r = Ok rates /\ forall c, find_rate c rates = buildRate spread c <$> quoted e (w_step w) c.
Proof.
  intros H. injection H as <- <-. split; [done|].
  exists (rates_of spread SupportedExchangeCodes
            (match env_mid_rates e (w_step w) with None | Some [] => fallbackMidRates | Some rates => rates end)).
  split; [done|]. intros c. rewrite find_rate_of. unfold quoted. by case_bool_decide.
Qed.

(** The dollar, 1 where there is no positive rate. *)
Definition dollar (e : Env) (n : nat) : float64 :=
  match quoted e n "USD" with Some mid => if f64_ltb f64_zero mid then mid else f64_of_Z 1 | None => f64_of_Z 1 end.

Lemma mid_rate_of spread c codes mids :
  mid_rate c (rates_of spread codes mids) =
    if bool_decide (c ∈ codes) then mid ← map_get c mids; if f64_ltb f64_zero mid then Some mid else None else None.
Proof.
  induction codes as [|k codes IH]; [done|]. cbn [rates_of]. destruct (decide (k = c)) as [->|Hne].
  - rewrite (bool_decide_eq_true_2 (c ∈ c :: codes)) by (by left). destruct (map_get c mids) as [m|]; cbn [mbind option_bind] in *.
    + unfold mid_rate in *. cbn. rewrite String.eqb_refl. cbn [andb]. destruct (f64_ltb f64_zero m) eqn:E; [done|].
      rewrite IH. by case_bool_decide.
    + rewrite IH. by case_bool_decide.
  - rewrite (bool_decide_ext (c ∈ k :: codes) (c ∈ codes)) by (rewrite elem_of_cons; intuition congruence). destruct (map_get k mids) as [m|]; [|exact IH].
    unfold mid_rate in *. cbn. apply String.eqb_neq in Hne. by rewrite Hne.
Qed.

(** The cash of a fund after a payment in and after a payment out. *)
Definition cash_in (q : Q) (v : Z) : Z := to_cents (cents v + q).
Definition cash_out (q : Q) (v : Z) : Z := to_cents (FundsManager.greatest0 (cents v - q)).

Section facts.
Context `{DL : decimal.Lib} `{PT : pg.Text}.

Lemma AddLiquidAssets_ok fundID x e w w' :
  AddLiquidAssets fundID x e w = (Ok tt, w') -> w_db w' = set_cash fundID (cash_in (arg x)) (w_db w).
Proof.
  intros (d & H & -> & _)%sql_ok. cbn. destruct (d_liquid_assets (w_db w) !! fundID) as [v|] eqn:E.
  - destruct (store_cents _) as [v'|] eqn:Es; [|discriminate]. injection H as <-. apply store_cents_Some in Es as ->.
    by apply (set_cash_insert fundID v (cash_in (arg x))).
  - injection H as <-. by rewrite set_cash_none.
Qed.

Lemma DeductLiquidAssets_ok fundID x e w w' :
  DeductLiquidAssets fundID x e w = (Ok tt, w') -> w_db w' = set_cash fundID (cash_out (arg x)) (w_db w).
Proof.
  intros (d & H & -> & _)%sql_ok. cbn. cbv zeta in H. destruct (d_liquid_assets (w_db w) !! fundID) as [v|] eqn:E.
  - destruct (store_cents _) as [v'|] eqn:Es; [|discriminate]. injection H as <-. apply store_cents_Some in Es as ->.
    by apply (set_cash_insert fundID v (cash_out (arg x))).
  - injection H as <-. by rewrite set_cash_none.
Qed.

Lemma store_invested_units z v : store_invested (units z) = Some v -> v = z.
Proof. exact (store_money_units z v). Qed.

Lemma store_invested_Some q v : store_invested q = Some v -> v = to_units q.
Proof. unfold store_invested, numeric_store, to_units. case_decide; congruence. Qed.

(** The row an investment leaves: the position grown, or a new one. *)
Definition grown (fundID userID accountID : Z) (q : Q) (d : DB) (id : Z) (p : fundPositionModel) : Prop :=
  match position_of fundID userID d with
  | Some (i, p0) => id = i /\ p = with_invested (fp_InvestedRSD p0 + to_units q) p0
  | None => fund_positions d !! id = None /\ is_Some (investment_funds d !! fundID) /\
            p = mkFundPosition fundID userID accountID (to_units q)
  end.

Lemma upsert_position_ok fundID userID accountID x i d d' :
  upsert_position fundID userID accountID x i d = Ok (tt, d') ->
  exists id p, grown fundID userID accountID (arg x) d id p /\ d' = set_positions (<[id := p]> (fund_positions d)) d.
Proof.
  unfold upsert_position, grown. destruct (store_invested (arg x)) as [v|] eqn:Ev; [|discriminate].
  apply store_invested_Some in Ev as ->. destruct (position_of fundID userID d) as [[j p0]|].
  - destruct (store_invested (units _)) as [v'|] eqn:Ev'; [|discriminate]. apply store_invested_units in Ev' as ->.
    intros [= <-]. eauto.
  - destruct (investment_funds d !! fundID); [|discriminate]. destruct (d_racun d !! accountID); [|discriminate].
    destruct (insert_row _ _ _) eqn:Ei; [|discriminate]. apply insert_row_ok in Ei as [Hn ->]. intros [= <-]. eauto 10.
Qed.

(** The row of [client_fund_transactions]. *)
Definition fund_record (fundID userID : Z) (q : Q) (now : Z) (inflow : bool) (d : DB) : DB :=
  set_fund_transactions (fund_transactions d ++ [mkFundTransaction fundID userID (to_cents q) "completed" now inflow])%list d.

Lemma record_fund_transaction_ok fundID userID x inflow e w w' :
  record_fund_transaction fundID userID x inflow e w = (Ok tt, w') ->
  exists now, w_db w' = fund_record fundID userID (arg x) now inflow (w_db w).
Proof.
  unfold record_fund_transaction. intros (now & w1 & E1%time_now_ok & (d & H & -> & _)%sql_ok)%bind_ok.
  unfold insert_fund_transaction in H. destruct (store_cents (arg x)) as [c|] eqn:Ec; [|discriminate].
  injection H as <-. apply store_cents_Some in Ec as ->. rewrite E1. by exists now.
Qed.

(** ** The money of a request *)

Definition fund_leg (fundAccountID : Z) (q : Q) : list (Z * Q) := if 0 <? fundAccountID then [(fundAccountID, q)] else [].

Lemma books_fund_add id q : books (exec_fund_account id (add_stanje q)) (fund_leg id q) [].
Proof. unfold exec_fund_account, fund_leg. destruct (0 <? id); [apply books_add|apply books_nil]. Qed.
Lemma books_fund_sub id q : books (exec_fund_account id (sub_stanje q)) (fund_leg id (- q)) [].
Proof. unfold exec_fund_account, fund_leg. destruct (0 <? id); [apply books_sub|apply books_nil]. Qed.

Definition fx_rows (recs : list (Z * float64)) : list transakcija :=
  recs ≫= fun rec => if rec.1 =? 0 then [] else ledger [(rec.1, MENJACNICA, arg rec.2)].

Lemma books_fx recs : books (fx_ledger recs) [] (fx_rows recs).
Proof.
  unfold fx_ledger. induction recs as [|rec recs IH]; [apply books_nil|]. cbn [for_each].
  change (fx_rows (rec :: recs)) with ((if rec.1 =? 0 then [] else ledger [(rec.1, MENJACNICA, arg rec.2)]) ++ fx_rows recs)%list.
  apply (books_bind _ _ [] []); [|exact IH].
  destruct (rec.1 =? 0); [apply books_nil|apply books_ledger].
Qed.

Definition invest_legs (accountID fundAccountID : Z) (amountRSD : float64) (quote : fxQuote) : list (Z * Q) :=
  match fq_treasuries quote with
  | Some (treasuryFromID, treasuryRSDID) =>
      [(accountID, (- arg (fq_amount quote))%Q); (treasuryFromID, arg (fq_amount quote));
       (treasuryRSDID, (- arg amountRSD)%Q)] ++ fund_leg fundAccountID (arg amountRSD)
  | None => [(accountID, (- arg amountRSD)%Q)] ++ fund_leg fundAccountID (arg amountRSD)
  end%list.

Definition invest_rows (accountID fundAccountID : Z) (amountRSD : float64) (quote : fxQuote) : list transakcija :=
  match fq_treasuries quote with
  | Some (treasuryFromID, treasuryRSDID) =>
      fx_rows [(accountID, fq_amount quote); (treasuryFromID, fq_amount quote); (treasuryRSDID, amountRSD);
               (fundAccountID, amountRSD)]
  | None => ledger [(accountID, ISPLATA, arg amountRSD)] ++
            (if 0 <? fundAccountID then ledger [(fundAccountID, UPLATA, arg amountRSD)] else [])
  end%list.

Lemma books_invest accountID fundAccountID amountRSD quote :
  books (invest_money accountID fundAccountID amountRSD quote) (invest_legs accountID fundAccountID amountRSD quote)
    (invest_rows accountID fundAccountID amountRSD quote).
Proof.
  unfold invest_money, invest_legs, invest_rows. destruct (fq_treasuries quote) as [[tf tr]|].
  - apply books_now; [apply time_now_ok|].
    apply (books_bind _ _ [_] _ [] _ (books_sub _ _)), (books_bind _ _ [_] _ [] _ (books_add _ _)),
      (books_bind _ _ [_] _ [] _ (books_sub _ _)).
    rewrite <- (app_nil_r (fund_leg _ _)).
    apply (books_bind _ _ _ _ [] _ (books_fund_add _ _)), books_fx.
  - apply (books_bind _ _ [_] _ [] _ (books_sub _ _)). rewrite <- (app_nil_r (fund_leg _ _)).
    apply (books_bind _ _ _ _ [] _ (books_fund_add _ _)).
    refine (books_bind _ _ [] [] (ledger [_]) _ (books_ledger _) _).
    destruct (0 <? fundAccountID); [apply books_ledger|apply books_nil].
Qed.

(** ** An investment *)

Definition invested_db (fundID userID accountID fundAccountID : Z) (amountRSD : float64) (quote : fxQuote) (d d' : DB) : Prop :=
  exists id p now, grown fundID userID accountID (arg amountRSD) d id p /\
    d' = fund_record fundID userID (arg amountRSD) now true
           (set_positions (<[id := p]> (fund_positions d))
              (set_cash fundID (cash_in (arg amountRSD))
                 (booked (invest_legs accountID fundAccountID amountRSD quote)
                         (invest_rows accountID fundAccountID amountRSD quote) d))).

Lemma invest_tx_ok fundID userID accountID fundAccountID amountRSD quote e w w' :
  invest_tx fundID userID accountID fundAccountID amountRSD quote e w = (Ok tt, w') ->
  invested_db fundID userID accountID fundAccountID amountRSD quote (w_db w) (w_db w').
Proof.
  unfold invest_tx. intros (w5 & H & -> & _)%Transaction_ok.
  apply bind_ok in H as ([] & w1 & E1%books_invest & H).
  apply bind_ok in H as ([] & w2 & E2%AddLiquidAssets_ok & H).
  apply bind_ok in H as ([] & w3 & H3 & H). apply sql_insert_ok in H3 as (d & H3 & E3).
  apply upsert_position_ok in H3 as (id & p & Hg & ->).
  apply record_fund_transaction_ok in H as (now & ->). rewrite E3. exists id, p, now.
  rewrite E2, E1 in *. change (w_db (begin_tx w)) with (w_db w) in *. done.
Qed.

(** ** Queries *)

Context (spreadRate : float64).

Lemma fetchTreasuryID_reads c : reads (fetchTreasuryID c).
Proof. unfold fetchTreasuryID. solve_reads. Qed.
Lemma account_oznaka_reads id : reads (account_oznaka id).
Proof. unfold account_oznaka. solve_reads. Qed.
Lemma available_reads id : reads (available id).
Proof. unfold available. solve_reads. Qed.
#[local] Hint Resolve fetchTreasuryID_reads account_oznaka_reads available_reads : reads.

Lemma invest_quote_reads c x : reads (invest_quote spreadRate c x).
Proof. unfold invest_quote. solve_reads. Qed.
Lemma withdraw_quote_reads s c x : reads (withdraw_quote spreadRate s c x).
Proof. unfold withdraw_quote. solve_reads. Qed.

Lemma security_details_reads u secs t : reads (security_details u secs t).
Proof. revert t. induction secs as [|s secs IH]; intros t; cbn [security_details]; solve_reads. Qed.
#[local] Hint Resolve security_details_reads : reads.
Lemma GetFundDetails_reads id : reads (GetFundDetails spreadRate id).
Proof. unfold GetFundDetails, fundRepo_GetByID, GetSecurities, usdToRSDRate, GetTotalInvested. solve_reads. Qed.
#[local] Hint Resolve invest_quote_reads withdraw_quote_reads GetFundDetails_reads : reads.

(** A treasury account, the one the server picked at some statement. *)
Definition picked (e : Env) (id : Z) (c : string) (d : DB) : Prop :=
  is_treasury id c d /\ exists n, id = pick (env_row_choice e n) (racun_ids trezor_owner c d).

Lemma fetchTreasuryID_ok c e w id w' : fetchTreasuryID c e w = (Ok id, w') -> w_db w' = w_db w /\ picked e id c (w_db w).
Proof.
  intros H. split; [symmetry; by eapply fetchTreasuryID_reads|]. unfold fetchTreasuryID in H.
  apply bind_ok in H as (ids & w1 & [-> E1]%sql_read_ok & H). apply bind_ok in H as (k & w2 & [= <- <-] & H). cbv zeta in H.
  destruct (Z.eqb_spec (pick (env_row_choice e (w_step w1)) (racun_ids trezor_owner c (w_db w))) 0) as [|Hn]; [discriminate|].
  injection H as <- _. split; [by apply racun_ids_active, pick_in|by eexists].
Qed.

(** ** An investment, answered *)

(** No conversion: the account is in dinars, or is missing, or its currency is the empty
    text; or a query was lost, which the code reads as the empty text too. *)
Definition unconverted (lost : Prop) (accountID : Z) (d : DB) : Prop :=
  lost \/ forall acc, d_racun d !! accountID = Some acc -> r_oznaka acc = "RSD" \/ r_oznaka acc = EmptyString.

(** What the account of an investor is debited: in a foreign currency the worth of the
    amount at the bank's buying rate with the fee of half a percent, through two treasury
    accounts; otherwise the amount itself. *)
Definition invest_price (e : Env) (lost : Prop) (accountID : Z) (amountRSD : float64) (quote : fxQuote) (d : DB) : Prop :=
  match fq_treasuries quote with
  | None => fq_amount quote = amountRSD /\ unconverted lost accountID d
  | Some (treasuryFromID, treasuryRSDID) =>
      exists acc n mid, d_racun d !! accountID = Some acc /\ r_oznaka acc <> "RSD" /\ r_oznaka acc <> EmptyString /\
        picked e treasuryFromID (r_oznaka acc) d /\ picked e treasuryRSDID "RSD" d /\
        quoted e n (r_oznaka acc) = Some mid /\ f64_leb (buying spreadRate mid) f64_zero = false /\
        fq_amount quote = let base := f64_div amountRSD (buying spreadRate mid) in f64_add base (f64_mul base (f64_lit 5 3))
  end.

(** The currency an account is taken to have. *)
Definition currency_of (lost : Prop) (id : Z) (d : DB) (o : string) : Prop :=
  (exists acc, d_racun d !! id = Some acc /\ r_oznaka acc = o) \/
  (o = EmptyString /\ (lost \/ d_racun d !! id = None)).

Lemma currency_unconverted lost id d o : currency_of lost id d o -> is_fx o = false -> unconverted lost id d.
Proof.
  unfold is_fx. intros [(acc & Ha & <-)|(_ & [Hl|Hn])] Ho; [right|by left|right; congruence].
  intros acc' Ha'. rewrite Ha in Ha'. injection Ha' as <-.
  destruct (String.eqb_spec (r_oznaka acc) EmptyString); [by right|]. destruct (String.eqb_spec (r_oznaka acc) "RSD"); [by left|done].
Qed.

Lemma currency_fx lost id d o : currency_of lost id d o -> is_fx o = true ->
  exists acc, d_racun d !! id = Some acc /\ r_oznaka acc = o /\ r_oznaka acc <> "RSD" /\ r_oznaka acc <> EmptyString.
Proof.
  unfold is_fx. intros [(acc & Ha & <-)|(-> & _)] Ho; [|done]. exists acc.
  destruct (String.eqb_spec (r_oznaka acc) EmptyString); [done|]. by destruct (String.eqb_spec (r_oznaka acc) "RSD").
Qed.

Lemma currency_of_mono (lost lost' : Prop) id d o : (lost -> lost') -> currency_of lost id d o -> currency_of lost' id d o.
Proof. unfold currency_of. tauto. Qed.

Lemma account_oznaka_ok id e w o w' : account_oznaka id e w = (Ok o, w') ->
  w_db w' = w_db w /\ currency_of (failing e w) id (w_db w) o.
Proof.
  intros H. split; [symmetry; by eapply account_oznaka_reads|]. unfold account_oznaka in H.
  apply try_bind in H as (r & w1 & H1 & [= <- <-]). destruct r as [r|er].
  - apply sql_read_ok in H1 as [E _]. destruct (d_racun (w_db w) !! id) as [acc|] eqn:Ha; cbn in E; subst r.
    + left. by exists acc.
    + right. split; [done|]. by right.
  - apply sql_read_failing in H1. right. split; [done|]. by left.
Qed.

Lemma invest_quote_ok lost id amount oznaka e w quote w' :
  currency_of lost id (w_db w) oznaka ->
  invest_quote spreadRate oznaka amount e w = (Ok (inr quote), w') -> invest_price e lost id amount quote (w_db w).
Proof.
  unfold invest_quote, invest_price. intros Ho H. destruct (is_fx oznaka) eqn:Efx.
  2: { injection H as <- <-. split; [done|]. by eapply currency_unconverted. }
  destruct (currency_fx _ _ _ _ Ho Efx) as (acc & Ha & <- & N1 & N2).
  apply try_bind in H as (rates & w1 & H1 & H). apply GetRates_quoted in H1 as (E1 & l & -> & Hq). cbv zeta in H.
  rewrite Hq in H. destruct (quoted e (w_step w) (r_oznaka acc)) as [mid|] eqn:Em; cbn [fmap option_fmap option_map] in H; [|discriminate].
  change (er_Kupovni (buildRate spreadRate (r_oznaka acc) mid)) with (buying spreadRate mid) in H.
  destruct (f64_leb _ _) eqn:Ek; [discriminate|].
  apply try_bind in H as (t1 & w2 & H2 & H). destruct t1 as [t1|]; [|discriminate].
  apply try_bind in H as (t2 & w3 & H3 & H). destruct t2 as [t2|]; [|discriminate]. injection H as <- <-.
  apply fetchTreasuryID_ok in H2 as [E2 T2]. apply fetchTreasuryID_ok in H3 as [E3 T3].
  rewrite E2 in T3. rewrite E1 in *. cbn [fq_treasuries fq_amount]. exists acc, (w_step w), mid. by split_and!.
Qed.

Lemma available_ok id e w x w' : available id e w = (Ok x, w') -> w_db w' = w_db w /\
  (x = f64_zero \/ exists acc, d_racun (w_db w) !! id = Some acc /\ x = scan_cents (free_cents acc)).
Proof.
  intros H. split; [symmetry; by eapply available_reads|]. unfold available in H.
  apply try_bind in H as (r & w1 & H1 & [= <- <-]). destruct r as [[acc|]|er]; try by left.
  apply sql_read_ok in H1 as [E _]. right. eauto.
Qed.

(** Every request is answered: with the investment booked, or with a refusal and
    nothing changed. *)
Definition invest_accepted (e : Env) (lost : Prop) (fundID userID accountID : Z) (amountRSD : float64) (d d' : DB) : Prop :=
  exists fund quote, investment_funds d !! fundID = Some fund /\ below_minimum fund amountRSD = false /\
    invest_price e lost accountID amountRSD quote d /\
    (f64_ltb f64_zero (fq_amount quote) = true ->
     exists acc, d_racun d !! accountID = Some acc /\ f64_ltb (scan_cents (free_cents acc)) (fq_amount quote) = false) /\
    invested_db fundID userID accountID (default 0 (if_AccountID fund)) amountRSD quote d d'.

(** The answer to a request and what it did when it was accepted. *)
Definition answered (r : result (Z * FundReply)) (d d' : DB) (reply : FundReply) (accepted : Prop) : Prop :=
  (r = Ok (200, reply) /\ accepted) \/ (exists code, r = Ok (refused code) /\ code <> 200 /\ d' = d).

Lemma answered_refused code d reply P : code <> 200 -> answered (Ok (refused code)) d d reply P.
Proof. intros H. right. eauto. Qed.

Lemma invest_quote_code oznaka x e w code w' : invest_quote spreadRate oznaka x e w = (Ok (inl code), w') -> code <> 200.
Proof.
  unfold invest_quote. destruct (is_fx oznaka); [|discriminate]. intros H.
  apply try_bind in H as (rates & w1 & H1 & H). destruct rates as [rates|]; [|by injection H as <- _]. cbv zeta in H.
  destruct (f64_leb _ _); [by injection H as <- _|].
  apply try_bind in H as (t1 & w2 & H2 & H). destruct t1 as [t1|]; [|by injection H as <- _].
  apply try_bind in H as (t2 & w3 & H3 & H). destruct t2 as [t2|]; [discriminate|by injection H as <- _].
Qed.

Lemma account_oznaka_total id e w : exists o w', account_oznaka id e w = (Ok o, w').
Proof. unfold account_oznaka, try, mbind, M_bind. destruct (sql_read _ e w) as [r w1]. cbn. eauto. Qed.
Lemma available_total id e w : exists x w', available id e w = (Ok x, w').
Proof. unfold available, try, mbind, M_bind. destruct (sql_read _ e w) as [r w1]. cbn. eauto. Qed.
Lemma invest_quote_total c x e w : exists q w', invest_quote spreadRate c x e w = (Ok q, w').
Proof.
  unfold invest_quote. destruct (is_fx c); [|eauto]. unfold try, mbind, M_bind at 1.
  destruct (GetRates spreadRate e w) as [[rates|] w1]; [|cbn; eauto]. cbv zeta. destruct (f64_leb _ _); [cbn; eauto|].
  unfold M_bind at 1. destruct (fetchTreasuryID c e w1) as [[t|] w2]; [|cbn; eauto].
  unfold M_bind at 1. destruct (fetchTreasuryID "RSD" e w2) as [[t2|] w3]; cbn; eauto.
Qed.

Lemma invest_from_ok fundID userID accountID amountRSD e w r w' :
  invest_from spreadRate fundID userID accountID amountRSD e w = (r, w') ->
  answered r (w_db w) (w_db w') (Invested amountRSD fundID)
    (invest_accepted e (failing e w) fundID userID accountID amountRSD (w_db w) (w_db w')).
Proof.
  unfold invest_from. intros H. apply try_bind in H as (fund & w1 & H1 & H).
  assert (E1 : w_db w1 = w_db w) by (destruct fund; [by apply sql_read_ok in H1 as [_ ->]|by apply sql_err_db in H1]).
  pose proof (calm_sql_read _ _ _ _ _ H1) as Hcalm.
  destruct fund as [[fund|]|]; [|injection H as <- <-; rewrite E1; by apply answered_refused..].
  apply sql_read_ok in H1 as [Hfund _]. symmetry in Hfund.
  destruct (account_oznaka_total accountID e w1) as (o & w2 & H2). rewrite (bind_run _ _ _ _ _ _ H2) in H.
  apply account_oznaka_ok in H2 as [E2 Ho].
  destruct (invest_quote_total o amountRSD e w2) as (q & w3 & H3). rewrite (bind_run _ _ _ _ _ _ H3) in H.
  pose proof (invest_quote_reads o amountRSD _ _ _ _ H3) as E3. destruct q as [code|quote].
  { injection H as <- <-. rewrite <- E3, E2, E1. eapply answered_refused, invest_quote_code, H3. }
  assert (Hp : invest_price e (failing e w) accountID amountRSD quote (w_db w2)).
  { eapply invest_quote_ok; [|done]. rewrite E2. eapply currency_of_mono; [exact Hcalm|done]. }
  destruct (below_minimum fund amountRSD) eqn:Eb.
  { injection H as <- <-. rewrite <- E3, E2, E1. by apply answered_refused. }
  destruct (available_total accountID e w3) as (x & w4 & H4). rewrite (bind_run _ _ _ _ _ _ H4) in H.
  apply available_ok in H4 as [E4 Hx]. destruct (f64_ltb x (fq_amount quote)) eqn:Ex.
  { injection H as <- <-. rewrite E4, <- E3, E2, E1. by apply answered_refused. }
  assert (E : w_db w4 = w_db w) by congruence.
  apply try_bind in H as (rt & w5 & H5 & H). destruct rt as [[]|er]; injection H as <- <-.
  - left. split; [done|]. apply invest_tx_ok in H5. rewrite E in H5. exists fund, quote. split_and!; try done.
    + by rewrite <- E1, <- E2.
    + intros Hpos. rewrite <- E3, E2, E1 in Hx. destruct Hx as [->|(acc & Ha & ->)]; [congruence|]. eauto.
  - apply Transaction_err in H5. rewrite H5, E. by apply answered_refused.
Qed.

(** ** Raising cash *)

Definition order_added (fundID : Z) (d d' : DB) : Prop :=
  d' = d \/ exists i m, d_orders d !! i = None /\ om_FundID m = Some fundID /\ om_Direction m = OrderDirectionSell /\
    om_Status m = OrderStatusDone /\ d' = set_orders (<[i := m]> (d_orders d)) d.

Lemma sql_depth {A} (f : DB -> result (A * DB)) e w r w' : sql f e w = (r, w') -> w_depth w' = w_depth w.
Proof.
  unfold sql. destruct (w_aborted w); [by intros [= _ <-]|]. destruct (env_fault _ _); [by intros [= _ <-]|].
  destruct (f (w_db w)) as [[a d]|er]; by intros [= _ <-].
Qed.

Lemma synthetic_sell_ok m a l q f now i d d' :
  synthetic_sell m a l q f now i d = Ok (tt, d') -> order_added f d d'.
Proof.
  unfold synthetic_sell. destruct (_ && _) eqn:E; [|discriminate]. intros [= <-].
  apply andb_true_iff in E as [_ E%bool_decide_eq_true]. right. eexists i, _. split_and!; [done| | | |reflexivity]; reflexivity.
Qed.

Lemma book_sale_ok managerID accountID listingID fundID q e w w' :
  book_sale managerID accountID listingID fundID q e w = (Ok tt, w') ->
  order_added fundID (w_db w) (w_db w') /\ w_depth w' = w_depth w.
Proof.
  unfold book_sale. destruct (_ && _); [|intros [= <-]; split; [by left|done]]. cbv zeta.
  destruct (0 <? _); [|intros [= <-]; split; [by left|done]].
  intros (now & w1 & [= <- <-] & H)%bind_ok. apply try_bind in H as (r & w2 & H & [= <-]).
  unfold sql_insert in H. pose proof (sql_depth _ _ _ _ _ H) as Hd. split; [|done]. destruct r as [[]|er].
  - apply sql_ok in H as (d & H & -> & _). by apply synthetic_sell_ok in H.
  - apply sql_err_db in H. left. by rewrite H.
Qed.

(** *** A sale, exactly *)

(** The row of a sale that the order book did not see; it is missing when the fund has
    no manager or account, less than one share was sold, or the INSERT was refused. *)
Definition sale_booked (fundID managerID accountID listingID : Z) (quantity : float64) (d d' : DB) : Prop :=
  let n := int64_of_f64 (math.Round quantity) in
  d' = d \/ exists i now, 0 < managerID /\ 0 < accountID /\ 0 < n /\ d_orders d !! i = None /\
    d' = set_orders (<[i := mkOrderModel managerID accountID listingID OrderTypeMarket OrderDirectionSell n 1 None None
                              OrderStatusDone None true 0 false false false false (Some fundID) now]> (d_orders d)) d.

Lemma sale_booked_order fundID managerID accountID listingID quantity d d' :
  sale_booked fundID managerID accountID listingID quantity d d' -> order_added fundID d d'.
Proof. intros [->|(i & now & _ & _ & _ & Hn & ->)]; [by left|right]. eexists i, _. split_and!; [exact Hn|..|reflexivity]; reflexivity. Qed.

Lemma book_sale_booked managerID accountID listingID fundID q e w w' :
  book_sale managerID accountID listingID fundID q e w = (Ok tt, w') ->
  sale_booked fundID managerID accountID listingID q (w_db w) (w_db w').
Proof.
  unfold book_sale. destruct (_ && _) eqn:E0; [|intros [= <-]; by left]. apply andb_prop in E0 as [M0 A0]. cbv zeta.
  destruct (Z.ltb_spec 0 (int64_of_f64 (math.Round q))) as [Hq|]; [|intros [= <-]; by left].
  intros (now & w1 & [= <- <-] & H)%bind_ok. apply try_bind in H as (r & w2 & H & [= <-]). unfold sql_insert in H. destruct r as [[]|er].
  - apply sql_ok in H as (d & H & -> & _). unfold synthetic_sell in H. destruct (_ && _) eqn:E; [|discriminate]. injection H as <-.
    apply andb_true_iff in E as [_ E%bool_decide_eq_true]. right. eexists _, _. split_and!; [lia|lia|done|exact E|reflexivity].
  - apply sql_err_db in H. left. by rewrite H.
Qed.

(** The row of a security after the sale of [q]: what is left, or no row. *)
Definition after_sale (fundID listingID : Z) (q : Q) (m : gmap (Z * Z) fundSecurity) : gmap (Z * Z) fundSecurity :=
  match m !! (fundID, listingID) with
  | None => m
  | Some s =>
      let left := round_half_away ((micros (fs_quantity s) - q) * inject_Z 1000000) in
      if left <=? 0 then delete (fundID, listingID) m
      else <[(fundID, listingID) := mkFundSecurity left (fs_initial_cost_rsd s)]> m
  end.

Definition security_sold (fundID fundAccountID listingID : Z) (quantity proceeds : float64) (d : DB) : DB :=
  booked (fund_leg fundAccountID (arg proceeds)) []
    (set_cash fundID (cash_in (arg proceeds))
       (set_fund_securities (after_sale fundID listingID (arg quantity) (d_fund_securities d)) d)).

(** How much of a security worth [worth] at [price] is sold for a share of what is
    needed: all of it, or the share. *)
Inductive to_sell (worth share quantity price : float64) : float64 -> Prop :=
  | sell_all : f64_ltb worth share = true -> f64_leb worth worth = true -> to_sell worth share quantity price quantity
  | sell_exactly : f64_ltb worth share = false -> f64_leb worth share = true -> to_sell worth share quantity price quantity
  | sell_share : f64_ltb worth share = false -> f64_leb worth share = false -> to_sell worth share quantity price (f64_div share price)
  | sell_nan : f64_ltb worth share = true -> f64_leb worth worth = false -> to_sell worth share quantity price (f64_div worth price).

Lemma sale_of_spec sec total needed : let '(q, proceeds) := sale_of sec total needed in
  let price := effectiveUnitPrice sec in
  let worth := f64_mul (fu_Quantity (fx_Security sec)) price in
  to_sell worth (f64_mul needed (f64_div worth total)) (fu_Quantity (fx_Security sec)) price q /\ proceeds = f64_mul q price.
Proof.
  unfold sale_of. cbv zeta. set (worth := f64_mul _ _). set (share := f64_mul needed _). split; [|done].
  destruct (f64_ltb worth share) eqn:E; [destruct (f64_leb worth worth) eqn:E2; by constructor|].
  destruct (f64_leb worth share) eqn:E2; by constructor.
Qed.

(** The loop over the securities of a fund: from the cash [c] and the need [n] to what
    they are after it. A security without a price is not sold. *)
Inductive sales (fundID fundAccountID managerID : Z) (total needed : float64) :
    list FundSecurityDetail -> float64 * float64 -> float64 * float64 -> DB -> DB -> Prop :=
  | sales_end cn d : sales fundID fundAccountID managerID total needed [] cn cn d d
  | sales_skip sec secs cn cn' d d' :
      f64_leb (effectiveUnitPrice sec) f64_zero = true \/ f64_leb total f64_zero = true ->
      sales fundID fundAccountID managerID total needed secs cn cn' d d' ->
      sales fundID fundAccountID managerID total needed (sec :: secs) cn cn' d d'
  | sales_sell sec secs c n q cn' d d1 d' :
      let price := effectiveUnitPrice sec in
      let worth := f64_mul (fu_Quantity (fx_Security sec)) price in
      f64_leb price f64_zero = false -> f64_leb total f64_zero = false ->
      to_sell worth (f64_mul needed (f64_div worth total)) (fu_Quantity (fx_Security sec)) price q ->
      let proceeds := f64_mul q price in
      sale_booked fundID managerID fundAccountID (fu_ListingID (fx_Security sec)) q
        (security_sold fundID fundAccountID (fu_ListingID (fx_Security sec)) q proceeds d) d1 ->
      sales fundID fundAccountID managerID total needed secs (f64_add c proceeds, f64_sub n proceeds) cn' d1 d' ->
      sales fundID fundAccountID managerID total needed (sec :: secs) (c, n) cn' d d'.

(** The sale of securities for the amounts [qs]: the fund's cash and its account grow
    by them, and what remains of a security is positive. *)
Record raised (fundID fundAccountID : Z) (qs : list Q) (d d' : DB) : Prop := {
  raised_racun : d_racun d' = post_legs (qs ≫= fund_leg fundAccountID) (d_racun d);
  raised_cash : d_liquid_assets d' = foldl (fun m q => alter (cash_in q) fundID m) (d_liquid_assets d) qs;
  raised_same : d_transakcija d' = d_transakcija d /\ d_bank d' = d_bank d;
  raised_left : forall k s, d_fund_securities d' !! k = Some s ->
    d_fund_securities d !! k = Some s \/ k.1 = fundID /\ 0 < fs_quantity s
}.

Lemma raised_nil f a d : raised f a [] d d.
Proof. split; [done..|]. auto. Qed.

Lemma raised_trans f a q1 q2 d1 d2 d3 : raised f a q1 d1 d2 -> raised f a q2 d2 d3 -> raised f a (q1 ++ q2)%list d1 d3.
Proof.
  intros [R1 C1 [T1 B1] S1] [R2 C2 [T2 B2] S2]. split.
  - unfold post_legs in *. by rewrite bind_app, foldl_app, R2, R1.
  - by rewrite foldl_app, C2, C1.
  - split; congruence.
  - intros k s [Hs|Hs]%S2; [by apply S1|by right].
Qed.

Lemma raised_order f a d d' : order_added f d d' -> raised f a [] d d'.
Proof. intros [->|(i & m & _ & _ & _ & _ & ->)]; split; cbn; auto. Qed.

(** One security: sold, its empty row dropped, the proceeds booked. *)
Lemma sold_one fundID fundAccountID listingID canSell proceeds e w w1 w2 w3 w4 r0 :
  sql (sell_quantity fundID listingID canSell) e w = (Ok tt, w1) -> w_depth w1 <> O ->
  try (sql (drop_security fundID listingID (fun s => fs_quantity s <=? 0))) e w1 = (Ok r0, w2) ->
  AddLiquidAssets fundID proceeds e w2 = (Ok tt, w3) ->
  exec_fund_account fundAccountID (add_stanje (arg proceeds)) e w3 = (Ok tt, w4) ->
  w_db w4 = security_sold fundID fundAccountID listingID canSell proceeds (w_db w).
Proof.
  intros H1 Hd H2 H3 H4.
  assert (H2' : (x ← try (sql (drop_security fundID listingID (fun s => fs_quantity s <=? 0))); mret x) e w1 = (Ok r0, w2))
    by (unfold mbind, M_bind; by rewrite H2).
  destruct (dropped_sql _ _ _ _ _ _ H2' Hd) as (r1 & w2' & [= <- <-] & _ & Hok).
  assert (Ha : w_aborted w2' = false) by (by apply sql_ok in H3 as (? & _ & _ & ?)).
  destruct (Hok Ha) as (_ & [] & Hdrop). apply AddLiquidAssets_ok in H3. apply books_fund_add in H4.
  apply sql_ok in H1 as (d1 & H1 & -> & _). cbn [w_db next_step set_db] in *.
  assert (E : w_db w2' = set_fund_securities (after_sale fundID listingID (arg canSell) (d_fund_securities (w_db w))) (w_db w)).
  { unfold sell_quantity in H1. unfold drop_security in Hdrop. unfold after_sale.
    destruct (d_fund_securities (w_db w) !! (fundID, listingID)) as [s0|] eqn:E0.
    - destruct (store_quantity _) as [q|] eqn:Eq; [|discriminate]. injection H1 as <-. cbn in Hdrop.
      rewrite lookup_insert_eq in Hdrop. cbn [fs_quantity] in Hdrop. unfold store_quantity, numeric_store in Eq.
      case_decide; [|discriminate]. injection Eq as Eq. cbv zeta. change (inject_Z (Z.pos 1000000)) with (inject_Z 1000000) in Eq.
      rewrite Eq. destruct (q <=? 0); injection Hdrop as <-; [|done]. by rewrite delete_insert_eq.
    - injection H1 as <-. rewrite E0 in Hdrop. injection Hdrop as <-. by destruct (w_db w). }
  rewrite H4, H3, E. reflexivity.
Qed.

Lemma security_sold_raised fundID fundAccountID listingID q x d :
  raised fundID fundAccountID [arg x] d (security_sold fundID fundAccountID listingID q x d).
Proof.
  split; cbn; [by rewrite app_nil_r|done|by rewrite app_nil_r|]. intros k s. unfold after_sale.
  destruct (d_fund_securities d !! (fundID, listingID)) as [s0|]; [|by left].
  set (rest := round_half_away _). destruct (Z.leb_spec rest 0).
  - intros [_ Hs]%lookup_delete_Some. by left.
  - intros [[<- <-]|[_ Hs]]%lookup_insert_Some; [right; by split|by left].
Qed.

Lemma sales_raised fundID fundAccountID managerID total needed secs cn cn' d d' :
  sales fundID fundAccountID managerID total needed secs cn cn' d d' -> exists qs, raised fundID fundAccountID qs d d'.
Proof.
  induction 1 as [cn d|sec secs cn cn' d d' _ _ [qs IH]|sec secs c n q cn' d d1 d' price worth _ _ _ proceeds Hb _ [qs IH]].
  - exists []. apply raised_nil.
  - by exists qs.
  - exists ([arg proceeds] ++ [] ++ qs)%list. eapply raised_trans; [apply security_sold_raised|].
    eapply raised_trans; [|exact IH]. by eapply raised_order, sale_booked_order.
Qed.

Lemma liquidate_ok fundID fundAccountID managerID total original secs cash needed e w cn w' :
  w_depth w <> O ->
  liquidate fundID fundAccountID managerID total original secs cash needed e w = (Ok cn, w') ->
  sales fundID fundAccountID managerID total original secs (cash, needed) cn (w_db w) (w_db w').
Proof.
  revert cash needed w. induction secs as [|sec secs IH]; intros cash needed w Hd H.
  { injection H as <- <-. constructor. }
  cbn [liquidate] in H. destruct (_ || _) eqn:Esk; [apply orb_prop in Esk; apply sales_skip; [done|by eapply IH]|].
  apply orb_false_elim in Esk as [K1 K2]. pose proof (sale_of_spec sec total original) as Hsale.
  destruct (sale_of sec total original) as [canSell proceeds]. destruct Hsale as [Hsell ->]. cbv zeta in H.
  apply bind_ok in H as ([] & w1 & H1 & H). pose proof (sql_depth _ _ _ _ _ H1) as D1.
  apply bind_ok in H as (r0 & w2 & H2 & H).
  assert (D2 : w_depth w2 = w_depth w1) by (apply try_run in H2 as (? & _ & H2); by apply sql_depth in H2).
  apply bind_ok in H as ([] & w3 & H3 & H). pose proof (sql_depth _ _ _ _ _ H3) as D3.
  apply bind_ok in H as ([] & w4 & H4 & H).
  assert (D4 : w_depth w4 = w_depth w3).
  { unfold exec_fund_account in H4. destruct (0 <? fundAccountID); [|by injection H4 as <-].
    unfold exec_racun in H4. apply bind_ok in H4 as (? & ? & H4 & [= <-]). by apply sql_depth in H4. }
  apply bind_ok in H as ([] & w5 & H5 & H). pose proof (book_sale_ok _ _ _ _ _ _ _ _ H5) as [_ D5].
  apply book_sale_booked in H5. eapply sold_one in H4; [|exact H1|congruence|done..]. rewrite H4 in H5.
  eapply sales_sell; [done..|exact H5|]. eapply IH; [|exact H]. congruence.
Qed.

(** The cash a withdrawal finds: enough, or with what the sales raised for the shortage,
    all but a cent of it unless everything is withdrawn. *)
Definition cash_found (fundID fundAccountID managerID : Z) (details : option FundDetails) (withdrawAll : bool)
    (netRSD cash found : float64) (d d' : DB) : Prop :=
  if f64_ltb cash netRSD then
    exists det rest, details = Some det /\ fe_Securities det <> [] /\
      let shortage := f64_sub netRSD cash in
      let total := foldl (fun t sec => f64_add t (f64_mul (fu_Quantity (fx_Security sec)) (effectiveUnitPrice sec))) f64_zero
                     (fe_Securities det) in
      sales fundID fundAccountID managerID total shortage (fe_Securities det) (cash, shortage) (found, rest) d d' /\
      (withdrawAll = true \/ f64_ltb (f64_lit 1 2) rest = false)
  else found = cash /\ d' = d.

Lemma raise_cash_ok fundID fundAccountID managerID details withdrawAll netRSD cash e w c w' :
  w_depth w <> O ->
  raise_cash fundID fundAccountID managerID details withdrawAll netRSD cash e w = (Ok c, w') ->
  cash_found fundID fundAccountID managerID details withdrawAll netRSD cash c (w_db w) (w_db w').
Proof.
  unfold raise_cash, cash_found. intros Hd H. destruct (f64_ltb cash netRSD); [|by injection H as <- <-].
  destruct details as [[f v p [|s secs]]|]; [discriminate| |discriminate]. cbv zeta in H. cbn [fe_Securities] in H.
  apply bind_ok in H as ([c1 n1] & w1 & H1 & H). cbn [snd fst] in H. destruct (_ && _) eqn:Er; [discriminate|]. injection H as <- <-.
  eexists _, n1. split; [done|]. split; [done|]. cbv zeta. split; [by eapply liquidate_ok in H1|].
  apply andb_false_iff in Er as [Er|Er%negb_false_iff]; [by right|by left].
Qed.

(** ** A withdrawal *)

Definition withdraw_legs (accountID fundAccountID : Z) (netRSD credit : float64) (treasuries : option (Z * Z)) : list (Z * Q) :=
  match treasuries with
  | Some (treasuryRSDID, treasuryFXID) =>
      fund_leg fundAccountID (- arg netRSD) ++
        [(treasuryRSDID, arg netRSD); (treasuryFXID, (- arg credit)%Q); (accountID, arg credit)]
  | None => fund_leg fundAccountID (- arg netRSD) ++ [(accountID, arg credit)]
  end%list.

Definition withdraw_rows (accountID fundAccountID : Z) (netRSD credit : float64) (treasuries : option (Z * Z)) : list transakcija :=
  match treasuries with
  | Some (treasuryRSDID, treasuryFXID) =>
      fx_rows [(fundAccountID, netRSD); (treasuryRSDID, netRSD); (treasuryFXID, credit); (accountID, credit)]
  | None => (if 0 <? fundAccountID then ledger [(fundAccountID, ISPLATA, arg netRSD)] else []) ++
            ledger [(accountID, UPLATA, arg credit)]
  end%list.

Lemma books_withdraw accountID fundAccountID netRSD credit t :
  books (withdraw_money accountID fundAccountID netRSD credit t) (withdraw_legs accountID fundAccountID netRSD credit t)
    (withdraw_rows accountID fundAccountID netRSD credit t).
Proof.
  unfold withdraw_money, withdraw_legs, withdraw_rows. destruct t as [[tr tf]|].
  - apply books_now; [apply time_now_ok|]. apply (books_bind _ _ _ _ [] _ (books_fund_sub _ _)).
    apply (books_bind _ _ [_] _ [] _ (books_add _ _)), (books_bind _ _ [_] _ [] _ (books_sub _ _)),
      (books_bind _ _ [_] [] [] _ (books_add _ _)), books_fx.
  - apply (books_bind _ _ _ _ [] _ (books_fund_sub _ _)), (books_bind _ _ [_] [] [] _ (books_add _ _)).
    refine (books_bind _ _ [] [] _ _ _ (books_ledger [_])). destruct (0 <? fundAccountID); [apply books_ledger|apply books_nil].
Qed.

(** The position after a withdrawal: gone, or what is left of it. *)
Definition shrunk (posID : Z) (remaining : float64) (d : DB) : DB :=
  if f64_leb remaining (f64_lit 1 3) then set_positions (delete posID (fund_positions d)) d
  else set_positions (alter (with_invested (to_units (arg remaining))) posID (fund_positions d)) d.

Lemma set_positions_same d : set_positions (fund_positions d) d = d.
Proof. unfold set_positions, fund_positions, fund_db, set_fund_db, set_bank. destruct d as [????????????? [????????? []] ?]. done. Qed.

Lemma shrink_position_ok posID remaining e w w' :
  shrink_position posID remaining e w = (Ok tt, w') -> w_db w' = shrunk posID remaining (w_db w).
Proof.
  unfold shrink_position, shrunk. destruct (f64_leb _ _); intros (d & H & -> & _)%sql_ok; cbn [w_db next_step set_db].
  - by injection H as <-.
  - unfold update_position in H. destruct (fund_positions (w_db w) !! posID) as [p|] eqn:Ep.
    + destruct (store_invested _) as [v|] eqn:Ev; [|discriminate]. injection H as <-. apply store_invested_Some in Ev as ->.
      f_equal. apply map_eq. intros i. destruct (decide (i = posID)) as [->|].
      * by rewrite lookup_insert_eq, lookup_alter_eq, Ep.
      * by rewrite lookup_insert_ne, lookup_alter_ne.
    + injection H as <-. rewrite alter_id'; [by rewrite set_positions_same|]. congruence.
Qed.

(** What the withdrawal of [withdrawRSD] did: securities sold if the cash was short,
    [paidRSD], what is owed or all that was found, taken from the cash and the account of
    the fund, the account paid, the position shrunk and the record written. *)
Definition paid_out (fundID userID accountID posID fundAccountID : Z) (invested withdrawRSD netRSD paidRSD : float64) (p : payout)
    (now : Z) (d : DB) : DB :=
  fund_record fundID userID (arg withdrawRSD) now false
    (shrunk posID (f64_sub invested withdrawRSD)
       (booked (withdraw_legs accountID fundAccountID paidRSD (actual_credit netRSD paidRSD p) (py_treasuries p))
               (withdraw_rows accountID fundAccountID paidRSD (actual_credit netRSD paidRSD p) (py_treasuries p))
          (set_cash fundID (cash_out (arg paidRSD)) d))).

Definition withdrawn_db (fundID userID accountID posID : Z) (invested withdrawRSD netRSD : float64) (withdrawAll : bool)
    (p : payout) (details : option FundDetails) (d d' : DB) : Prop :=
  let '(fundAccountID, managerID, cash) := locked_fund fundID d in
  exists d1 found now,
    cash_found fundID fundAccountID managerID details withdrawAll netRSD cash found d d1 /\
    d' = paid_out fundID userID accountID posID fundAccountID invested withdrawRSD netRSD
           (if f64_ltb found netRSD then found else netRSD) p now d1.

(** The same, without what was sold. *)
Lemma withdrawn_raised fundID userID accountID posID invested withdrawRSD netRSD all p details d d' :
  withdrawn_db fundID userID accountID posID invested withdrawRSD netRSD all p details d d' ->
  let '(fundAccountID, _, cash) := locked_fund fundID d in
  exists qs d1 paidRSD now, raised fundID fundAccountID qs d d1 /\
    (f64_ltb cash netRSD = false -> qs = [] /\ d1 = d /\ paidRSD = netRSD) /\
    d' = paid_out fundID userID accountID posID fundAccountID invested withdrawRSD netRSD paidRSD p now d1.
Proof.
  unfold withdrawn_db, cash_found. destruct (locked_fund fundID d) as [[a m] cash]. intros (d1 & found & now & Hc & ->).
  destruct (f64_ltb cash netRSD) eqn:E.
  - destruct Hc as (det & rest & _ & _ & Hs & _). apply sales_raised in Hs as [qs Hs].
    by exists qs, d1, (if f64_ltb found netRSD then found else netRSD), now.
  - destruct Hc as [-> ->]. rewrite E. exists [], d, netRSD, now. split_and!; [apply raised_nil|done|done].
Qed.

Lemma withdraw_tx_ok fundID userID accountID posID invested withdrawRSD netRSD all p details e w w' :
  withdraw_tx fundID userID accountID posID invested withdrawRSD netRSD all p details e w = (Ok tt, w') ->
  withdrawn_db fundID userID accountID posID invested withdrawRSD netRSD all p details (w_db w) (w_db w').
Proof.
  unfold withdraw_tx, withdrawn_db. intros (w8 & H & -> & _)%Transaction_ok.
  apply bind_ok in H as (fund & w1 & H1 & H). pose proof (sql_depth _ _ _ _ _ H1) as D1.
  apply sql_read_ok in H1 as [-> E1]. change (w_db (begin_tx w)) with (w_db w) in *.
  destruct (locked_fund fundID (w_db w)) as [[fundAccountID managerID] liquidAssets].
  apply bind_ok in H as (cash & w2 & H2 & H). cbv zeta in H.
  apply raise_cash_ok in H2; [|by rewrite D1]. rewrite E1 in H2. set (paidRSD := if f64_ltb cash netRSD then cash else netRSD) in *.
  apply bind_ok in H as ([] & w3 & E3%DeductLiquidAssets_ok & H).
  apply bind_ok in H as ([] & w4 & E4%books_withdraw & H).
  apply bind_ok in H as ([] & w5 & E5%shrink_position_ok & H).
  apply record_fund_transaction_ok in H as (now & ->). rewrite E5, E4, E3. by exists (w_db w2), cash, now.
Qed.

(** What a withdrawal of [netRSD] pays an account: in a foreign currency its worth at
    the selling rate of the bank, at the middle rate for a supervisor, through two
    treasury accounts; otherwise the amount itself. *)
Definition payout_price (e : Env) (lost : Prop) (supervisor : bool) (accountID : Z) (netRSD : float64) (p : payout) (d : DB) : Prop :=
  match py_treasuries p with
  | None => py_credit p = netRSD /\ unconverted lost accountID d
  | Some (treasuryRSDID, treasuryFXID) =>
      exists acc n mid, d_racun d !! accountID = Some acc /\ r_oznaka acc <> "RSD" /\ r_oznaka acc <> EmptyString /\
        picked e treasuryRSDID "RSD" d /\ picked e treasuryFXID (r_oznaka acc) d /\
        quoted e n (r_oznaka acc) = Some mid /\ py_rate p = (if supervisor then mid else selling spreadRate mid) /\
        f64_leb (py_rate p) f64_zero = false /\ py_credit p = f64_div netRSD (py_rate p)
  end.

Lemma withdraw_quote_ok lost supervisor id netRSD oznaka e w p w' :
  currency_of lost id (w_db w) oznaka ->
  withdraw_quote spreadRate supervisor oznaka netRSD e w = (Ok (inr p), w') ->
  payout_price e lost supervisor id netRSD p (w_db w).
Proof.
  unfold withdraw_quote, payout_price. intros Ho H. destruct (is_fx oznaka) eqn:Efx.
  2: { injection H as <- <-. split; [done|]. by eapply currency_unconverted. }
  destruct (currency_fx _ _ _ _ Ho Efx) as (acc & Ha & <- & N1 & N2).
  apply try_bind in H as (rates & w1 & H1 & H). apply GetRates_quoted in H1 as (E1 & l & -> & Hq). cbv zeta in H.
  rewrite Hq in H. destruct (quoted e (w_step w) (r_oznaka acc)) as [mid|] eqn:Em; cbn [fmap option_fmap option_map] in H; [|discriminate].
  change (er_Srednji (buildRate spreadRate (r_oznaka acc) mid)) with mid in H.
  change (er_Prodajni (buildRate spreadRate (r_oznaka acc) mid)) with (selling spreadRate mid) in H.
  destruct (f64_leb _ _) eqn:Ek; [discriminate|].
  apply try_bind in H as (t1 & w2 & H2 & H). destruct t1 as [t1|]; [|discriminate].
  apply try_bind in H as (t2 & w3 & H3 & H). destruct t2 as [t2|]; [|discriminate]. injection H as <- <-.
  apply fetchTreasuryID_ok in H2 as [E2 T2]. apply fetchTreasuryID_ok in H3 as [E3 T3].
  rewrite E2 in T3. rewrite E1 in *. cbn [py_treasuries py_rate py_credit]. exists acc, (w_step w), mid. by split_and!.
Qed.

Lemma withdraw_quote_code s c x e w code w' : withdraw_quote spreadRate s c x e w = (Ok (inl code), w') -> code <> 200.
Proof.
  unfold withdraw_quote. destruct (is_fx c); [|discriminate]. intros H.
  apply try_bind in H as (rates & w1 & H1 & H). destruct rates as [rates|]; [|by injection H as <- _]. cbv zeta in H.
  destruct (f64_leb _ _); [by injection H as <- _|].
  apply try_bind in H as (t1 & w2 & H2 & H). destruct t1 as [t1|]; [|by injection H as <- _].
  apply try_bind in H as (t2 & w3 & H3 & H). destruct t2 as [t2|]; [discriminate|by injection H as <- _].
Qed.

Lemma withdraw_quote_total s c x e w : exists q w', withdraw_quote spreadRate s c x e w = (Ok q, w').
Proof.
  unfold withdraw_quote. destruct (is_fx c); [|eauto]. unfold try, mbind, M_bind at 1.
  destruct (GetRates spreadRate e w) as [[rates|] w1]; [|cbn; eauto]. cbv zeta. destruct (f64_leb _ _); [cbn; eauto|].
  unfold M_bind at 1. destruct (fetchTreasuryID "RSD" e w1) as [[t|] w2]; [|cbn; eauto].
  unfold M_bind at 1. destruct (fetchTreasuryID c e w2) as [[t2|] w3]; cbn; eauto.
Qed.

(** ** What a fund holds *)

(** The details that a request works on: every security has its row, and its price in
    dinars is the price of its listing in dollars at the middle rate. *)
Definition detailed (e : Env) (fundID : Z) (det : FundDetails) (d : DB) : Prop :=
  forall sec, sec ∈ fe_Securities det -> exists s n l m,
    d_fund_securities d !! (fundID, fu_ListingID (fx_Security sec)) = Some s /\
    fu_Quantity (fx_Security sec) = scan_quantity (fs_quantity s) /\
    fu_InitialCostRSD (fx_Security sec) = scan_cents (fs_initial_cost_rsd s) /\
    env_listing e n (fu_ListingID (fx_Security sec)) = Ok l /\ fx_CurrentPriceRSD sec = f64_mul (l_Price l) (dollar e m).

Lemma usdToRSDRate_ok e w r w' : usdToRSDRate spreadRate e w = (r, w') -> r = Ok (dollar e (w_step w)).
Proof.
  set (mids := match env_mid_rates e (w_step w) with None | Some [] => fallbackMidRates | Some rates => rates end).
  assert (E : usdToRSDRate spreadRate e w = (Ok (default (f64_of_Z 1) (mid_rate "USD" (rates_of spreadRate SupportedExchangeCodes mids))), next_step w))
    by reflexivity.
  assert (K : default (f64_of_Z 1) (mid_rate "USD" (rates_of spreadRate SupportedExchangeCodes mids)) = dollar e (w_step w)).
  2: { rewrite E, K. by intros [= <- _]. }
  rewrite mid_rate_of. unfold dollar, quoted. fold mids. case_bool_decide; [|done].
  destruct (map_get "USD" mids) as [m|]; [|done]. cbn. by destruct (f64_ltb f64_zero m).
Qed.

Lemma GetListingByID_price id e w lc w' : GetListingByID id e w = (Ok lc, w') -> env_listing e (w_step w) id = Ok (lc_Listing lc).
Proof.
  unfold GetListingByID. intros (l & w1 & H1 & H)%bind_ok. injection H1 as H1 _. rewrite H1.
  apply bind_ok in H as (c & w2 & _ & H). apply bind_ok in H as (js & w3 & _ & [= <- _]).
  unfold calculate. by destruct (contractSizeAndMargin js l).
Qed.

Lemma security_details_ok u secs t e w l w' :
  security_details u secs t e w = (Ok l, w') -> forall det, det ∈ l.1 -> fx_Security det ∈ secs /\
    exists n lst, env_listing e n (fu_ListingID (fx_Security det)) = Ok lst /\ fx_CurrentPriceRSD det = f64_mul (l_Price lst) u.
Proof.
  revert t w l. induction secs as [|s secs IH]; intros t w l; cbn [security_details].
  { intros [= <- <-] det []%not_elem_of_nil. }
  intros H. apply try_bind in H as (r & w1 & H1 & H).
  destruct r as [lc|er]; [|intros det Hd; destruct (IH _ _ _ H det Hd) as [? ?]; split; [by right|done]].
  apply bind_ok in H as (tk & w2 & _ & H). cbv zeta in H. apply bind_ok in H as (rest & w3 & H3 & [= <- <-]).
  cbn [fst]. intros det [->|Hd]%elem_of_cons; [|destruct (IH _ _ _ H3 det Hd) as [? ?]; split; [by right|done]].
  split; [by left|]. apply GetListingByID_price in H1. eauto.
Qed.

Lemma GetFundDetails_ok id e w det w' :
  GetFundDetails spreadRate id e w = (Ok det, w') ->
  is_Some (investment_funds (w_db w) !! id) /\ detailed e id det (w_db w).
Proof.
  unfold GetFundDetails. intros (fund & w1 & H1 & H)%bind_ok.
  unfold fundRepo_GetByID in H1. apply bind_ok in H1 as (row & w0 & [-> E0]%sql_read_ok & H1).
  destruct (investment_funds (w_db w) !! id) as [f|] eqn:Ef; [|discriminate]. cbn in H1. injection H1 as _ <-.
  apply bind_ok in H as (secs & w2 & [-> E2]%sql_read_ok & H).
  apply bind_ok in H as (u & w3 & H3%usdToRSDRate_ok & H). injection H3 as ->. apply bind_ok in H as (l & w4 & H4 & H). cbv zeta in H.
  apply try_bind in H as (inv & w5 & _ & [= <- <-]). split; [by eexists|]. cbn [fe_Securities].
  intros sec Hs. destruct (security_details_ok _ _ _ _ _ _ _ H4 sec Hs) as [Hin (n & lst & Hl & Hp)].
  apply list_elem_of_fmap in Hin as ([[f0 l0] s0] & E & Hin). apply list_elem_of_filter in Hin as [Hf Hin].
  apply elem_of_map_to_list in Hin. cbn in Hf, E. subst f0. rewrite E in Hl |- *. cbn in *. rewrite E0 in Hin.
  by exists s0, n, lst, (w_step w2).
Qed.

(** An accepted withdrawal: what was asked is not more than the position. *)
Definition withdraw_accepted (e : Env) (lost : Prop) (supervisor : bool) (fundID userID accountID : Z) (req : withdrawRequest)
    (reply : FundReply) (d d' : DB) : Prop :=
  exists posID pos p oznaka details,
    let invested := scan_invested (fp_InvestedRSD pos) in
    let amount := if wr_WithdrawAll req || f64_leb (wr_AmountRSD req) f64_zero then invested else wr_AmountRSD req in
    let fee := f64_mul amount (if supervisor then f64_zero else f64_lit 1 2) in
    let netRSD := f64_sub amount fee in
    position_of fundID userID d = Some (posID, pos) /\ f64_ltb invested amount = false /\
    currency_of lost accountID d oznaka /\ payout_price e lost supervisor accountID netRSD p d /\
    reply = Withdrawn amount netRSD fee (py_credit p) oznaka /\
    (forall det, details = Some det -> detailed e fundID det d) /\
    withdrawn_db fundID userID accountID posID invested amount netRSD (wr_WithdrawAll req) p details d d'.

Lemma withdraw_from_ok supervisor fundID userID accountID req e w r w' :
  withdraw_from spreadRate supervisor fundID userID accountID req e w = (r, w') ->
  (exists code, r = Ok (refused code) /\ code <> 200 /\ w_db w' = w_db w) \/
  (exists reply, r = Ok (200, reply) /\
     withdraw_accepted e (failing e w) supervisor fundID userID accountID req reply (w_db w) (w_db w')).
Proof.
  unfold withdraw_from. intros H. apply try_bind in H as (pos & w1 & H1 & H).
  assert (E1 : w_db w1 = w_db w) by (destruct pos; [by apply sql_read_ok in H1 as [_ ->]|by apply sql_err_db in H1]).
  pose proof (calm_sql_read _ _ _ _ _ H1) as Hcalm.
  destruct pos as [[[posID pos]|]|]; [|injection H as <- <-; rewrite E1; left; by eexists..].
  apply sql_read_ok in H1 as [Hpos _]. symmetry in Hpos. cbv zeta in H.
  set (invested := scan_invested (fp_InvestedRSD pos)) in *. set (amount := withdraw_amount req invested) in *.
  destruct (f64_ltb invested amount) eqn:El; [injection H as <- <-; rewrite E1; left; by eexists|].
  set (netRSD := f64_sub amount (withdraw_fee supervisor amount)) in *.
  destruct (account_oznaka_total accountID e w1) as (o & w2 & H2). rewrite (bind_run _ _ _ _ _ _ H2) in H.
  apply account_oznaka_ok in H2 as [E2 Ho]. apply (currency_of_mono _ _ _ _ _ Hcalm) in Ho. rewrite E1 in Ho.
  destruct (withdraw_quote_total supervisor o netRSD e w2) as (q & w3 & H3). rewrite (bind_run _ _ _ _ _ _ H3) in H.
  pose proof (withdraw_quote_reads supervisor o netRSD _ _ _ _ H3) as E3. destruct q as [code|p].
  { injection H as <- <-. rewrite <- E3, E2, E1. left. exists code. split_and!; [done| |done]. eapply withdraw_quote_code, H3. }
  apply (withdraw_quote_ok (failing e w) supervisor accountID) in H3; [|by rewrite E2, E1]. rewrite E2, E1 in H3.
  apply try_bind in H as (det & w4 & H4 & H). pose proof (GetFundDetails_reads _ _ _ _ _ H4) as E4.
  assert (Hd : forall x, (match det with Ok det => Some det | Err _ => None end) = Some x -> detailed e fundID x (w_db w)).
  { destruct det as [det|]; [|done]. intros x [= <-]. apply GetFundDetails_ok in H4 as [_ H4]. by rewrite <- E3, E2, E1 in H4. }
  assert (E : w_db w4 = w_db w) by congruence.
  apply try_bind in H as (rt & w5 & H5 & H). destruct rt as [[]|er]; injection H as <- <-.
  - right. eexists. split; [done|]. apply withdraw_tx_ok in H5. rewrite E in H5. eexists posID, pos, p, o, _. cbv zeta. by split_and!.
  - left. apply Transaction_err in H5. rewrite H5, E. by eexists.
Qed.

(** ** A sale *)

Definition sold_db (fundID listingID : Z) (proceeds : float64) (d d' : DB) : Prop :=
  let '(fundAccountID, _, _) := locked_fund fundID d in
  order_added fundID
    (booked (fund_leg fundAccountID (arg proceeds)) []
       (set_cash fundID (cash_in (arg proceeds))
          (set_fund_securities (delete (fundID, listingID) (d_fund_securities d)) d))) d'.

Lemma Transaction_healthy {A} (m : M A) e w a w' :
  Transaction m e w = (Ok a, w') -> w_depth w = O ->
  exists w1, m e (begin_tx w) = (Ok a, w1) /\ w_db w' = w_db w1 /\ w_aborted w1 = false.
Proof.
  unfold Transaction. intros H Hd. rewrite Hd in H. destruct (_ || _); [discriminate|].
  destruct (m e (begin_tx w)) as [[a'|er] w1]; [|discriminate].
  destruct (w_aborted w1) eqn:Ea; [discriminate|]. cbn [orb] in H. destruct (env_fault e (w_step w1)); [discriminate|].
  injection H as <- <-. by exists w1.
Qed.

Lemma drop_security_all fundID listingID d d' :
  drop_security fundID listingID (fun _ => true) d = Ok (tt, d') ->
  d' = set_fund_securities (delete (fundID, listingID) (d_fund_securities d)) d.
Proof.
  unfold drop_security. destruct (d_fund_securities d !! _) eqn:E; intros [= <-]; [done|].
  rewrite delete_id by done. by destruct d.
Qed.

Lemma exec_fund_account_state id f e w w' : exec_fund_account id f e w = (Ok tt, w') -> w_aborted w' = w_aborted w /\ w_depth w' = w_depth w.
Proof.
  unfold exec_fund_account. destruct (0 <? id); [|by intros [= <-]].
  unfold exec_racun. intros (n & w1 & (d & _ & -> & _)%sql_ok & [= <-])%bind_ok. done.
Qed.

Lemma book_sale_state m a l f q e w w' : book_sale m a l f q e w = (Ok tt, w') -> w_aborted w = true -> w_aborted w' = true.
Proof.
  unfold book_sale. destruct (_ && _); [|by intros [= <-]]. cbv zeta. destruct (0 <? _); [|by intros [= <-]].
  intros (now & w1 & [= <- <-] & H)%bind_ok Ha. apply try_bind in H as (r & w2 & H & [= <-]).
  unfold sql_insert, sql in H. cbn [w_aborted next_seq next_step] in H. rewrite Ha in H. by injection H as _ <-.
Qed.

Lemma sell_tx_ok fundID sec proceeds e w w' :
  sell_tx fundID sec proceeds e w = (Ok tt, w') -> w_depth w = O ->
  sold_db fundID (fu_ListingID sec) proceeds (w_db w) (w_db w').
Proof.
  unfold sell_tx, sold_db. intros H Hd. apply Transaction_healthy in H as (w5 & H & -> & Ha); [|done].
  apply bind_ok in H as ([] & w1 & H1 & H). pose proof (sql_depth _ _ _ _ _ H1) as D1.
  apply sql_ok in H1 as (d1 & H1 & E1 & _). apply drop_security_all in H1 as ->.
  apply bind_ok in H as ([] & w2 & H2 & H). pose proof (sql_depth _ _ _ _ _ H2) as D2. apply AddLiquidAssets_ok in H2.
  apply try_bind in H as (meta & w3 & H3 & H). destruct meta as [meta|er].
  - apply sql_read_ok in H3 as [-> E3].
    assert (El : fst (locked_fund fundID (w_db w2)) = fst (locked_fund fundID (w_db w))).
    { assert (Ei : investment_funds (w_db w2) = investment_funds (w_db w)) by (rewrite H2, E1; done).
      unfold locked_fund. rewrite Ei. by destruct (investment_funds (w_db w) !! fundID). }
    destruct (locked_fund fundID (w_db w2)) as [[a m] c], (locked_fund fundID (w_db w)) as [[a' m'] c'].
    cbn [fst] in El. injection El as -> ->.
    apply bind_ok in H as ([] & w4 & H4 & H). apply books_fund_add in H4. apply book_sale_ok in H as [H _].
    rewrite H4, E3, H2, E1 in H. exact H.
  - exfalso. assert (A3 : w_aborted w3 = true).
    { assert (D : w_depth w2 <> O) by (rewrite D2, D1; cbn; done). revert H3. unfold sql_read, sql.
      destruct (w_aborted w2) eqn:A2; [by intros [= _ <-]|]. destruct (env_fault _ _); [|discriminate].
      intros [= _ <-]. cbn. by destruct (w_depth w2). }
    apply bind_ok in H as ([] & w4 & H4 & H). apply exec_fund_account_state in H4 as [A4 _].
    apply book_sale_state in H; congruence.
Qed.

(** *** Outside every transaction, before and after *)

Definition level {A} (m : M A) : Prop := forall e w r w', m e w = (r, w') -> w_depth w' = w_depth w.

Lemma level_ret {A} (a : A) : level (mret a).
Proof. by intros e w r w' [= _ <-]. Qed.
Lemma level_throw {A} er : level (@throw A er).
Proof. by intros e w r w' [= _ <-]. Qed.
Lemma level_io {A} (f : Env -> nat -> result A) : level (io f).
Proof. by intros e w r w' [= _ <-]. Qed.
Lemma level_json : level the_json.
Proof. by intros e w r w' [= _ <-]. Qed.
Lemma level_sql {A} (f : DB -> result (A * DB)) : level (sql f).
Proof. intros e w r w'. apply sql_depth. Qed.
Lemma level_try {A} (m : M A) : level m -> level (try m).
Proof. intros H e w r w' (r0 & _ & H1)%try_run. by eapply H. Qed.
Lemma level_bind {A B} (m : M A) (k : A -> M B) : level m -> (forall a, level (k a)) -> level (x ← m; k x).
Proof.
  intros H1 H2 e w r w' [(a & w1 & E1%H1 & E2%H2)|(er & _ & E%H1)]%bind_cases; congruence.
Qed.

Lemma level_GetRates : level (GetRates spreadRate).
Proof. apply level_bind; [apply level_io|intros; apply level_ret]. Qed.
Lemma level_GetListingByID id : level (GetListingByID id).
Proof.
  unfold GetListingByID, listing_GetByID, GetLatestDailyChange.
  repeat first [apply level_bind; [first [apply level_io|apply level_json]|intros ?]|apply level_ret].
Qed.

Lemma level_security_details u secs t : level (security_details u secs t).
Proof.
  revert t. induction secs as [|s secs IH]; intros t; cbn [security_details]; [apply level_ret|].
  apply level_bind; [apply level_try, level_GetListingByID|intros [lc|]; [|done]].
  apply level_bind; [apply level_io|intros tk]. apply level_bind; [done|intros; apply level_ret].
Qed.

Lemma level_GetFundDetails id : level (GetFundDetails spreadRate id).
Proof.
  unfold GetFundDetails, fundRepo_GetByID, usdToRSDRate.
  apply level_bind; [apply level_bind; [apply level_sql|intros [[]|]; [apply level_ret|apply level_throw]]|intros fund].
  apply level_bind; [apply level_sql|intros secs].
  apply level_bind; [apply level_bind; [apply level_try, level_GetRates|intros; apply level_ret]|intros u].
  apply level_bind; [apply level_security_details|intros l].
  apply level_bind; [apply level_try, level_sql|intros; apply level_ret].
Qed.

(** An accepted sale: a supervisor sells all the fund holds of a security. *)
Definition sale_accepted (claims : AccessClaims) (fundID : Z) (ticker : string) (reply : FundReply) (d d' : DB) : Prop :=
  isSupervisor claims = true /\
  exists sec s, let quantity := fu_Quantity (fx_Security sec) in
    EqualFold (fx_Ticker sec) ticker = true /\ quantity = scan_quantity (fs_quantity s) /\
    d_fund_securities d !! (fundID, fu_ListingID (fx_Security sec)) = Some s /\
    f64_leb quantity f64_zero = false /\ f64_leb (fx_CurrentPriceRSD sec) f64_zero = false /\
    reply = SecuritySold ticker quantity (f64_mul quantity (fx_CurrentPriceRSD sec)) (fx_CurrentPriceRSD sec) /\
    sold_db fundID (fu_ListingID (fx_Security sec)) (f64_mul quantity (fx_CurrentPriceRSD sec)) d d'.

Lemma sellSecurity_ok claims fundID ticker e w r w' :
  sellSecurity spreadRate claims fundID ticker e w = (r, w') -> w_depth w = O ->
  (exists code, r = Ok (refused code) /\ code <> 200 /\ w_db w' = w_db w) \/
  (exists reply, r = Ok (200, reply) /\ sale_accepted claims fundID ticker reply (w_db w) (w_db w')).
Proof.
  unfold sellSecurity. intros H Hd. destruct (_ || _); [injection H as <- <-; left; by eexists|].
  destruct (isSupervisor claims) eqn:Es; cbn [negb] in H; [|injection H as <- <-; left; by eexists].
  apply try_bind in H as (det & w1 & H1 & H). pose proof (GetFundDetails_reads fundID _ _ _ _ H1) as E1.
  pose proof (level_GetFundDetails fundID _ _ _ _ H1) as D1.
  destruct det as [det|]; [|injection H as <- <-; left; rewrite <- E1; by eexists].
  destruct (find_security ticker det) as [sec|] eqn:Ef; [|injection H as <- <-; left; rewrite <- E1; by eexists].
  cbv zeta in H. destruct (_ || _) eqn:Eg; [injection H as <- <-; left; rewrite <- E1; by eexists|].
  apply orb_false_elim in Eg as [Gp Gq]. apply try_bind in H as (rt & w2 & H2 & H).
  destruct rt as [[]|er]; injection H as <- <-.
  - right. eexists. split; [done|]. split; [done|].
    unfold find_security in Ef. apply find_some in Ef as [Hin Ht].
    apply GetFundDetails_ok in H1 as [_ H1]. destruct (H1 sec) as (s & n_ & l_ & m_ & Hs & Hq & _); [by apply list_elem_of_In|].
    exists sec, s. cbv zeta. split_and!; try done. rewrite E1. apply sell_tx_ok in H2; [done|congruence].
  - left. apply Transaction_err in H2. rewrite H2, <- E1. by eexists.
Qed.

End facts.
