(* ===== verification/FundBooks.v ===== *)
(** * What investors can rely on

    An investment or a withdrawal is refused and changes nothing, or is booked as the
    statements say, at the rate of its case; one that fits is not refused on a database
    that works.  Over any number of requests the account of a fund that has one holds
    what the fund's record says it has, as long as no request names it, and whatever
    accounts are named positions stay unique and nobody owes a fund.  At the end of the
    file a concrete fund, to which the theorems are applied. *)

From S2P Require Import Prelude Numeric DecimalModel Domain Tables Store StoreFacts OrderRepo OrderRepoFacts Market FundsManager FundsFacts.
From S2P Require Import FundsSafety FundsTransfers Scenario Actuaries Engine InterbankExecutor GoMath AccountRepo PaymentRepo PaymentFacts OtcRepo Cards CardHandlers.
From S2P Require Import Tax TaxFacts InvestmentFunds FundFacts.
From stdpp Require Import list relations pretty.
From Stdlib Require Import Lqa SpecFloat.
#[local] Open Scope string_scope.
#[local] Open Scope Z_scope.

(** ** Postings on one account *)

Lemma post_legs_app l1 l2 t : post_legs (l1 ++ l2)%list t = post_legs l2 (post_legs l1 t).
Proof. unfold post_legs. by rewrite foldl_app. Qed.

Lemma post_legs_other legs t a : a ∉ (legs.*1) -> post_legs legs t !! a = t !! a.
Proof.
  revert t. induction legs as [|[b q] legs IH]; intros t; [done|]. cbn [fmap list_fmap fst].
  intros [Hn Hl]%not_elem_of_cons. change (post_legs ((b, q) :: legs) t) with (post_legs legs (alter (FundsTransfers.moved q) b t)).
  rewrite IH by done. by rewrite lookup_alter_ne.
Qed.

Lemma post_legs_one a q t : post_legs [(a, q)] t !! a = FundsTransfers.moved q <$> t !! a.
Proof. cbn. by rewrite lookup_alter_eq. Qed.

Lemma post_legs_mem legs t a : is_Some (post_legs legs t !! a) <-> is_Some (t !! a).
Proof.
  revert t. induction legs as [|[b q] legs IH]; intros t; [done|].
  change (post_legs ((b, q) :: legs) t) with (post_legs legs (alter (FundsTransfers.moved q) b t)).
  rewrite IH. rewrite lookup_alter_is_Some. done.
Qed.

Section books.
Context `{DL : decimal.Lib} `{PT : pg.Text}.
Context (spreadRate : float64).

(** ** Requests that are served

    On a database that works a request whose amounts fit their columns is not refused.
    Rows are numbered by sequences that only grow. *)

Definition counts_up {A} (m : M A) : Prop := forall e w r w', m e w = (r, w') -> w_seq w <= w_seq w'.

Lemma counts_ret {A} (a : A) : counts_up (mret a).
Proof. by intros e w r w' [= _ <-]. Qed.
Lemma counts_throw {A} er : counts_up (@throw A er).
Proof. by intros e w r w' [= _ <-]. Qed.
Lemma counts_io {A} (f : Env -> nat -> result A) : counts_up (io f).
Proof. by intros e w r w' [= _ <-]. Qed.
Lemma counts_sql {A} (f : DB -> result (A * DB)) : counts_up (sql f).
Proof.
  intros e w r w'. unfold sql. destruct (w_aborted w); [by intros [= _ <-]|]. destruct (env_fault _ _); [by intros [= _ <-]|].
  by destruct (f (w_db w)) as [[a d]|er]; intros [= _ <-].
Qed.
Lemma counts_insert {A} (f : Z -> DB -> result (A * DB)) : counts_up (sql_insert f).
Proof. intros e w r w' H. apply counts_sql in H. cbn in H. lia. Qed.
Lemma counts_bind {A B} (m : M A) (k : A -> M B) : counts_up m -> (forall a, counts_up (k a)) -> counts_up (x ← m; k x).
Proof.
  intros Hm Hk e w r w' H. apply bind_cases in H as [(a & w1 & H1%Hm & H%Hk)|(er & _ & H%Hm)]; lia.
Qed.

#[local] Hint Resolve counts_ret counts_throw counts_io counts_sql counts_insert : reads.

Ltac solve_counts :=
  repeat first
    [ progress cbv beta zeta
    | solve [eauto 2 with reads]
    | apply counts_bind; [|intros]
    | match goal with |- counts_up (match ?x with _ => _ end) => destruct x end ].

(** Every leg leaves a balance that its column holds. *)
Fixpoint legs_fit (legs : list (Z * Q)) (t : gmap Z racun) : Prop :=
  match legs with
  | [] => True
  | (id, q) :: legs' =>
      (forall r, t !! id = Some r -> Z.abs (to_cents (cents (r_stanje_racuna r) + q)) < 10 ^ 15) /\
      legs_fit legs' (post_legs [(id, q)] t)
  end.

Lemma legs_fit_app l1 l2 t : legs_fit (l1 ++ l2)%list t <-> legs_fit l1 t /\ legs_fit l2 (post_legs l1 t).
Proof.
  revert t. induction l1 as [|[id q] l1 IH]; intros t; cbn [legs_fit app].
  - split; [done|by intros [_ H]].
  - rewrite IH. change (post_legs ((id, q) :: l1) t) with (post_legs l1 (post_legs [(id, q)] t)). tauto.
Qed.

(** The accounts of the ledger rows exist, and the amounts fit. *)
Definition postable (rows : list (Z * Q)) (d : DB) : Prop :=
  Forall (fun x => is_Some (d_racun d !! x.1) /\ Z.abs (to_cents x.2) < 10 ^ 15) rows.

Section served.
Context (e : Env) (He : no_faults e).

(** [m] books its legs and rows when they fit. *)
Definition serves (m : M unit) (legs rows : list (Z * Q)) : Prop := forall w,
  w_aborted w = false -> legs_fit legs (d_racun (w_db w)) -> postable rows (w_db w) -> succeeds e m w.

Lemma serves_nil : serves (mret tt) [] [].
Proof. intros w Ha _ _. by apply succeeds_ret. Qed.

Lemma serves_bind m k l1 l2 r1 p1 p2 :
  books m l1 r1 -> serves m l1 p1 -> serves k l2 p2 -> serves (m ;; k) (l1 ++ l2)%list (p1 ++ p2)%list.
Proof.
  intros Hb Hm Hk w Ha [L1 L2]%legs_fit_app [P1 P2]%Forall_app. apply succeeds_bind; [by apply Hm|].
  intros [] w1 E1%Hb A1. apply Hk; [done|by rewrite E1|]. rewrite E1. eapply Forall_impl; [exact P2|].
  intros x [Hx Hf]. split; [|done]. by apply post_legs_mem.
Qed.

Lemma serves_exec id f q :
  (forall r, f r = (v ← store_cents (cents (r_stanje_racuna r) + q); Some (with_stanje v r))) ->
  serves (exec_racun id f) [(id, q)] [].
Proof using He.
  intros Hf w Ha [Hl _] _. unfold exec_racun. apply succeeds_bind; [|intros; by apply succeeds_ret].
  apply succeeds_sql; [done..|]. unfold update_racun. destruct (d_racun (w_db w) !! id) as [r|] eqn:Er; [|eauto].
  rewrite Hf, store_cents_fits by by apply Hl. cbn. eauto.
Qed.

Lemma serves_add id q : serves (exec_racun id (add_stanje q)) [(id, q)] [].
Proof using He. by apply serves_exec. Qed.
Lemma serves_sub id q : serves (exec_racun id (sub_stanje q)) [(id, (- q)%Q)] [].
Proof using He. by apply serves_exec. Qed.

Lemma serves_fund_add id q : serves (exec_fund_account id (add_stanje q)) (fund_leg id q) [].
Proof using He. unfold exec_fund_account, fund_leg. destruct (0 <? id); [apply serves_add|apply serves_nil]. Qed.
Lemma serves_fund_sub id q : serves (exec_fund_account id (sub_stanje q)) (fund_leg id (- q)) [].
Proof using He. unfold exec_fund_account, fund_leg. destruct (0 <? id); [apply serves_sub|apply serves_nil]. Qed.

Lemma serves_ledger id tip q : serves (sql (insert_transakcija [(id, tip, q)])) [] [(id, q)].
Proof using He.
  intros w Ha _ [[[r Hr] Hq] _]%Forall_cons_1. cbn in Hr, Hq. apply succeeds_sql; [done..|].
  unfold insert_transakcija, transakcija_rows. rewrite Hr, store_cents_fits by done. eauto.
Qed.

(** Account 0 gets no row. *)
Definition fx_posts (recs : list (Z * float64)) : list (Z * Q) :=
  recs ≫= fun rec => if rec.1 =? 0 then [] else [(rec.1, arg rec.2)].

Lemma serves_fx recs : serves (fx_ledger recs) [] (fx_posts recs).
Proof using He.
  unfold fx_ledger. induction recs as [|rec recs IH]; [apply serves_nil|]. cbn [for_each].
  change (fx_posts (rec :: recs)) with ((if rec.1 =? 0 then [] else [(rec.1, arg rec.2)]) ++ fx_posts recs)%list.
  destruct (rec.1 =? 0).
  - apply (serves_bind _ _ [] [] [] [] _ books_nil serves_nil IH).
  - apply (serves_bind _ _ [] [] _ [_] _ (books_ledger _) (serves_ledger _ _ _) IH).
Qed.

Lemma serves_now k l p : serves k l p -> serves (_ ← time_now; k) l p.
Proof using He.
  intros Hk w Ha Hl Hp. apply succeeds_bind; [by apply succeeds_now|]. intros t w1 E1%time_now_ok A1.
  apply Hk; [done|by rewrite E1..].
Qed.

(** ** An investment that is served *)

Definition invest_posts (accountID fundAccountID : Z) (amountRSD : float64) (quote : fxQuote) : list (Z * Q) :=
  match fq_treasuries quote with
  | Some (treasuryFromID, treasuryRSDID) =>
      fx_posts [(accountID, fq_amount quote); (treasuryFromID, fq_amount quote); (treasuryRSDID, amountRSD);
                (fundAccountID, amountRSD)]
  | None => (accountID, arg amountRSD) :: fund_leg fundAccountID (arg amountRSD)
  end.

Lemma serves_invest accountID fundAccountID amountRSD quote :
  serves (invest_money accountID fundAccountID amountRSD quote) (invest_legs accountID fundAccountID amountRSD quote)
    (invest_posts accountID fundAccountID amountRSD quote).
Proof using He.
  unfold invest_money, invest_legs, invest_posts. destruct (fq_treasuries quote) as [[tf tr]|].
  - apply serves_now. apply (serves_bind _ _ [_] _ [] [] _ (books_sub _ _) (serves_sub _ _)),
      (serves_bind _ _ [_] _ [] [] _ (books_add _ _) (serves_add _ _)),
      (serves_bind _ _ [_] _ [] [] _ (books_sub _ _) (serves_sub _ _)).
    rewrite <- (app_nil_r (fund_leg _ _)).
    apply (serves_bind _ _ _ _ [] [] _ (books_fund_add _ _) (serves_fund_add _ _)), serves_fx.
  - apply (serves_bind _ _ [_] _ [] [] _ (books_sub _ _) (serves_sub _ _)). rewrite <- (app_nil_r (fund_leg _ _)).
    apply (serves_bind _ _ _ _ [] [] _ (books_fund_add _ _) (serves_fund_add _ _)).
    refine (serves_bind _ _ [] [] _ [_] _ (books_ledger _) (serves_ledger _ _ _) _).
    unfold fund_leg. destruct (0 <? fundAccountID); [apply serves_ledger|apply serves_nil].
Qed.

Lemma AddLiquidAssets_succeeds fundID x w :
  w_aborted w = false ->
  (forall v, d_liquid_assets (w_db w) !! fundID = Some v -> Z.abs (cash_in (arg x) v) < 10 ^ 15) ->
  succeeds e (AddLiquidAssets fundID x) w.
Proof using He.
  intros Ha Hf. apply succeeds_sql; [done..|]. destruct (d_liquid_assets (w_db w) !! fundID) as [v|]; [|eauto].
  rewrite store_cents_fits by by apply Hf. eauto.
Qed.

Lemma record_succeeds fundID userID x inflow w :
  w_aborted w = false -> Z.abs (to_cents (arg x)) < 10 ^ 15 -> succeeds e (record_fund_transaction fundID userID x inflow) w.
Proof using He.
  intros Ha Hx. apply succeeds_bind; [by apply succeeds_now|]. intros now w1 E1%time_now_ok A1.
  apply succeeds_sql; [done..|]. unfold insert_fund_transaction. rewrite store_cents_fits by done. eauto.
Qed.

(** The tables have room for the investment. *)
Record room_to_invest (fundID userID accountID fundAccountID : Z) (amountRSD : float64) (quote : fxQuote) (seq : Z) (d : DB) : Prop := {
  ri_legs : legs_fit (invest_legs accountID fundAccountID amountRSD quote) (d_racun d);
  ri_rows : postable (invest_posts accountID fundAccountID amountRSD quote) d;
  ri_cash : forall v, d_liquid_assets d !! fundID = Some v -> Z.abs (cash_in (arg amountRSD) v) < 10 ^ 15;
  ri_amount : is_Some (store_invested (arg amountRSD)) /\ Z.abs (to_cents (arg amountRSD)) < 10 ^ 15;
  ri_position : match position_of fundID userID d with
                | Some (_, p) => is_Some (store_invested (units (fp_InvestedRSD p + to_units (arg amountRSD))))
                | None => is_Some (investment_funds d !! fundID) /\ is_Some (d_racun d !! accountID) /\
                    forall i, seq <= i -> fund_positions d !! i = None
                end
}.

Lemma invest_tx_succeeds fundID userID accountID fundAccountID amountRSD quote w :
  w_aborted w = false -> w_depth w = O ->
  room_to_invest fundID userID accountID fundAccountID amountRSD quote (w_seq w) (w_db w) ->
  succeeds e (invest_tx fundID userID accountID fundAccountID amountRSD quote) w.
Proof using He.
  intros Ha Hd [Rl Rr Rc [[v Rv] Ra] Rp]. apply succeeds_Transaction; [done..|].
  assert (C : forall w1, invest_money accountID fundAccountID amountRSD quote e (begin_tx w) = (Ok tt, w1) -> w_seq w <= w_seq w1).
  { assert (K : counts_up (invest_money accountID fundAccountID amountRSD quote));
      [|intros w1 H1%K; exact H1].
    unfold invest_money, exec_racun, exec_fund_account, fx_ledger. cbn [for_each fst snd]. unfold exec_racun. solve_counts. }
  apply succeeds_bind; [by apply serves_invest|]. intros [] w1 H1 A1. specialize (C _ H1). apply books_invest in H1.
  apply succeeds_bind; [apply AddLiquidAssets_succeeds; [done|by rewrite H1]|]. intros [] w2 H2 A2.
  assert (C2 : w_seq w <= w_seq w2). { etransitivity; [exact C|]. eapply counts_sql, H2. }
  apply AddLiquidAssets_ok in H2. apply succeeds_bind; [|intros [] w3 _ A3; by apply record_succeeds].
  apply succeeds_insert; [done..|]. unfold upsert_position. rewrite Rv. apply store_invested_Some in Rv as ->.
  rewrite H2, H1. change (position_of fundID userID (set_cash _ _ _)) with (position_of fundID userID (w_db w)).
  destruct (position_of fundID userID (w_db w)) as [[i p]|].
  - destruct Rp as [v' ->]. eauto.
  - destruct Rp as ([f Hf] & Hacc & Hnew).
    change (investment_funds (set_cash _ _ _)) with (investment_funds (w_db w)). rewrite Hf.
    change (d_racun (set_cash _ _ _)) with (post_legs (invest_legs accountID fundAccountID amountRSD quote) (d_racun (w_db w))).
    apply (post_legs_mem (invest_legs accountID fundAccountID amountRSD quote)) in Hacc as [acc ->].
    change (fund_positions (set_cash _ _ _)) with (fund_positions (w_db w)). unfold insert_row. rewrite Hnew by done. eauto.
Qed.

(** A query that changes nothing of the world but its clock. *)
Record steady (w w' : World) : Prop := {
  sy_db : w_db w' = w_db w; sy_aborted : w_aborted w' = false; sy_depth : w_depth w' = w_depth w; sy_seq : w_seq w' = w_seq w
}.

Lemma steady_trans w1 w2 w3 : steady w1 w2 -> steady w2 w3 -> steady w1 w3.
Proof. intros [] []. split; congruence. Qed.

Lemma sql_read_steady {A} (f : DB -> A) w : w_aborted w = false ->
  exists w', sql_read f e w = (Ok (f (w_db w)), w') /\ steady w w'.
Proof using He. intros Ha. unfold sql_read. rewrite (sql_run _ _ _ He Ha). eexists. by split. Qed.

Lemma account_oznaka_runs id w acc : w_aborted w = false -> d_racun (w_db w) !! id = Some acc ->
  exists w', account_oznaka id e w = (Ok (r_oznaka acc), w') /\ steady w w'.
Proof using He.
  intros Ha Hacc. destruct (sql_read_steady (fun d => r_oznaka <$> d_racun d !! id) w Ha) as (w1 & H1 & S1).
  exists w1. split; [|done]. unfold account_oznaka. rewrite (bind_run _ _ _ _ _ _ (try_eq _ _ _ _ _ H1)), Hacc. done.
Qed.

Lemma available_runs id w acc : w_aborted w = false -> d_racun (w_db w) !! id = Some acc ->
  exists w', available id e w = (Ok (scan_cents (free_cents acc)), w') /\ steady w w'.
Proof using He.
  intros Ha Hacc. destruct (sql_read_steady (fun d => d_racun d !! id) w Ha) as (w1 & H1 & S1).
  exists w1. split; [|done]. unfold available. rewrite (bind_run _ _ _ _ _ _ (try_eq _ _ _ _ _ H1)), Hacc. done.
Qed.

(** Whichever treasury account the server picks, there is one. *)
Definition in_treasury (c : string) (d : DB) : Prop := forall n, pick n (racun_ids trezor_owner c d) <> 0.

Lemma fetchTreasuryID_runs c w : w_aborted w = false -> in_treasury c (w_db w) ->
  exists id w', fetchTreasuryID c e w = (Ok id, w') /\ steady w w'.
Proof using He.
  intros Ha Hn. destruct (sql_read_steady (racun_ids trezor_owner c) w Ha) as (w1 & H1 & [S1 S2 S3 S4]).
  unfold fetchTreasuryID. rewrite (bind_run _ _ _ _ _ _ H1). eexists _, (next_step w1).
  erewrite bind_run by done. cbv zeta. destruct (Z.eqb_spec (pick (env_row_choice e (w_step w1)) (racun_ids trezor_owner c (w_db w))) 0) as [E|_];
    [by apply Hn in E|]. split; [done|]. by split.
Qed.

(** An account in dinars, or in a currency that the bank has a rate and treasury
    accounts for. *)
Definition convertible (rate : float64 -> float64) (c : string) (d : DB) : Prop :=
  is_fx c = false \/
  (in_treasury c d /\ in_treasury "RSD" d /\ forall n, exists mid, quoted e n c = Some mid /\ f64_leb (rate mid) f64_zero = false).

Lemma invest_quote_runs c x w : w_aborted w = false -> convertible (buying spreadRate) c (w_db w) ->
  exists quote w', invest_quote spreadRate c x e w = (Ok (inr quote), w') /\ steady w w'.
Proof using He.
  intros Ha Hc. unfold invest_quote. destruct (is_fx c) eqn:Ef; [|by eexists _, w].
  destruct Hc as [Hc|(Tc & Tr & Hq)]; [congruence|].
  destruct (GetRates spreadRate e w) as [r w1] eqn:H1. pose proof (GetRates_quoted _ _ _ _ _ H1) as (E1 & l & -> & Hl).
  assert (S1 : steady w w1) by (by injection H1 as _ <-).
  rewrite (bind_run _ _ _ _ _ _ (try_eq _ _ _ _ _ H1)). cbv zeta. rewrite Hl. destruct (Hq (w_step w)) as (mid & -> & Hm).
  cbn [fmap option_fmap option_map]. change (er_Kupovni (buildRate spreadRate c mid)) with (buying spreadRate mid). rewrite Hm.
  destruct (fetchTreasuryID_runs c w1) as (t1 & w2 & H2 & S2); [apply S1|by rewrite E1|].
  rewrite (bind_run _ _ _ _ _ _ (try_eq _ _ _ _ _ H2)).
  destruct (fetchTreasuryID_runs "RSD" w2) as (t2 & w3 & H3 & S3); [apply S2|by rewrite (sy_db _ _ S2), E1|].
  rewrite (bind_run _ _ _ _ _ _ (try_eq _ _ _ _ _ H3)). eexists _, w3. split; [done|]. eauto using steady_trans.
Qed.

(** What a request needs to be served: the fund, an account that can be converted and
    holds the price, and room. *)
Definition investable (fundID userID accountID : Z) (amountRSD : float64) (seq : Z) (d : DB) : Prop :=
  exists fund acc, investment_funds d !! fundID = Some fund /\ below_minimum fund amountRSD = false /\
    d_racun d !! accountID = Some acc /\ convertible (buying spreadRate) (r_oznaka acc) d /\
    forall quote, invest_price spreadRate e False accountID amountRSD quote d ->
      f64_ltb (scan_cents (free_cents acc)) (fq_amount quote) = false /\
      room_to_invest fundID userID accountID (default 0 (if_AccountID fund)) amountRSD quote seq d.

Lemma invest_from_served fundID userID accountID amountRSD w :
  w_aborted w = false -> w_depth w = O -> investable fundID userID accountID amountRSD (w_seq w) (w_db w) ->
  (invest_from spreadRate fundID userID accountID amountRSD e w).1 = Ok (200, Invested amountRSD fundID).
Proof using He.
  intros Ha Hd (fund & acc & Hfund & Hmin & Hacc & Hc & Hq). unfold invest_from.
  destruct (sql_read_steady (fun d => investment_funds d !! fundID) w Ha) as (w1 & H1 & S1).
  rewrite (bind_run _ _ _ _ _ _ (try_eq _ _ _ _ _ H1)), Hfund.
  destruct (account_oznaka_runs accountID w1 acc) as (w2 & H2 & S2); [apply S1|by rewrite (sy_db _ _ S1)|].
  rewrite (bind_run _ _ _ _ _ _ H2). pose proof (steady_trans _ _ _ S1 S2) as S12.
  destruct (invest_quote_runs (r_oznaka acc) amountRSD w2) as (quote & w3 & H3 & S3); [apply S2|by rewrite (sy_db _ _ S12)|].
  rewrite (bind_run _ _ _ _ _ _ H3), Hmin. pose proof (steady_trans _ _ _ S12 S3) as S13.
  apply (invest_quote_ok spreadRate False accountID) in H3; [|left; exists acc; by rewrite (sy_db _ _ S12)].
  rewrite (sy_db _ _ S12) in H3. destruct (Hq quote H3) as [Hfree Hroom].
  destruct (available_runs accountID w3 acc) as (w4 & H4 & S4); [apply S3|by rewrite (sy_db _ _ S13)|].
  rewrite (bind_run _ _ _ _ _ _ H4), Hfree. pose proof (steady_trans _ _ _ S13 S4) as [Sd Sa Sp Ss].
  destruct (invest_tx_succeeds fundID userID accountID (default 0 (if_AccountID fund)) amountRSD quote w4)
    as ([] & w5 & H5 & _); [done|congruence|by rewrite Sd, Ss|].
  by rewrite (bind_run _ _ _ _ _ _ (try_eq _ _ _ _ _ H5)).
Qed.

(** ** A withdrawal that is served out of the cash *)

Lemma f64_ltb_irrefl x : f64_ltb x x = false.
Proof using Type.
  unfold f64_ltb, SFltb. destruct x as [[] | [] | | [] m k]; try done; cbn [SFcompare]; rewrite Z.compare_refl;
    change (Pos.compare_cont Eq m m) with (Pos.compare m m); by rewrite Pos.compare_refl.
Qed.

Definition withdraw_posts (accountID fundAccountID : Z) (netRSD credit : float64) (treasuries : option (Z * Z)) : list (Z * Q) :=
  match treasuries with
  | Some (treasuryRSDID, treasuryFXID) =>
      fx_posts [(fundAccountID, netRSD); (treasuryRSDID, netRSD); (treasuryFXID, credit); (accountID, credit)]
  | None => fund_leg fundAccountID (arg netRSD) ++ [(accountID, arg credit)]
  end%list.

Lemma serves_withdraw accountID fundAccountID netRSD credit t :
  serves (withdraw_money accountID fundAccountID netRSD credit t) (withdraw_legs accountID fundAccountID netRSD credit t)
    (withdraw_posts accountID fundAccountID netRSD credit t).
Proof using He.
  unfold withdraw_money, withdraw_legs, withdraw_posts. destruct t as [[tr tf]|].
  - apply serves_now. apply (serves_bind _ _ _ _ [] [] _ (books_fund_sub _ _) (serves_fund_sub _ _)).
    apply (serves_bind _ _ [_] _ [] [] _ (books_add _ _) (serves_add _ _)),
      (serves_bind _ _ [_] _ [] [] _ (books_sub _ _) (serves_sub _ _)),
      (serves_bind _ _ [_] [] [] [] _ (books_add _ _) (serves_add _ _)), serves_fx.
  - apply (serves_bind _ _ _ _ [] [] _ (books_fund_sub _ _) (serves_fund_sub _ _)),
      (serves_bind _ _ [_] [] [] [] _ (books_add _ _) (serves_add _ _)).
    unfold fund_leg. destruct (0 <? fundAccountID).
    + exact (serves_bind _ _ [] [] _ [_] [_] (books_ledger _) (serves_ledger _ _ _) (serves_ledger _ _ _)).
    + exact (serves_bind _ _ [] [] _ [] [_] books_nil serves_nil (serves_ledger _ _ _)).
Qed.

Lemma DeductLiquidAssets_succeeds fundID x w :
  w_aborted w = false ->
  (forall v, d_liquid_assets (w_db w) !! fundID = Some v -> Z.abs (cash_out (arg x) v) < 10 ^ 15) ->
  succeeds e (DeductLiquidAssets fundID x) w.
Proof using He.
  intros Ha Hf. apply succeeds_sql; [done..|]. destruct (d_liquid_assets (w_db w) !! fundID) as [v|]; [|eauto]. cbv zeta.
  specialize (Hf v eq_refl). unfold cash_out, FundsManager.greatest0 in Hf.
  rewrite store_cents_fits by exact Hf. eauto.
Qed.

Lemma shrink_succeeds posID remaining w :
  w_aborted w = false -> (f64_leb remaining (f64_lit 1 3) = false -> is_Some (store_invested (arg remaining))) ->
  succeeds e (shrink_position posID remaining) w.
Proof using He.
  intros Ha Hs. unfold shrink_position. destruct (f64_leb _ _).
  - apply succeeds_sql; [done..|]. unfold delete_position. eauto.
  - apply succeeds_sql; [done..|]. unfold update_position. destruct (fund_positions (w_db w) !! posID); [|eauto].
    destruct (Hs eq_refl) as [v ->]. eauto.
Qed.

(** The tables have room for the withdrawal. *)
Record room_to_withdraw (fundID accountID fundAccountID : Z) (invested amount netRSD : float64) (p : payout) (d : DB) : Prop := {
  rw_legs : legs_fit (withdraw_legs accountID fundAccountID netRSD (py_credit p) (py_treasuries p)) (d_racun d);
  rw_rows : postable (withdraw_posts accountID fundAccountID netRSD (py_credit p) (py_treasuries p)) d;
  rw_cash : forall v, d_liquid_assets d !! fundID = Some v -> Z.abs (cash_out (arg netRSD) v) < 10 ^ 15;
  rw_amount : Z.abs (to_cents (arg amount)) < 10 ^ 15;
  rw_position : f64_leb (f64_sub invested amount) (f64_lit 1 3) = false -> is_Some (store_invested (arg (f64_sub invested amount)))
}.

Lemma withdraw_tx_succeeds fundID userID accountID posID invested amount netRSD all p details w :
  w_aborted w = false -> w_depth w = O -> f64_ltb (locked_fund fundID (w_db w)).2 netRSD = false ->
  room_to_withdraw fundID accountID (locked_fund fundID (w_db w)).1.1 invested amount netRSD p (w_db w) ->
  succeeds e (withdraw_tx fundID userID accountID posID invested amount netRSD all p details) w.
Proof using He.
  intros Ha Hd Hc [Rl Rr Rc Ra Rp]. apply succeeds_Transaction; [done..|].
  apply succeeds_bind; [by apply succeeds_read|]. intros x w1 H1 A1. apply sql_read_ok in H1 as [-> E1].
  change (w_db (begin_tx w)) with (w_db w) in *. destruct (locked_fund fundID (w_db w)) as [[a m] cash]. cbn [fst snd] in *.
  apply succeeds_bind; [unfold raise_cash; rewrite Hc; by apply succeeds_ret|]. intros c w2 H2 A2.
  unfold raise_cash in H2. rewrite Hc in H2. injection H2 as <- <-. cbv zeta. rewrite Hc.
  unfold actual_credit. rewrite f64_ltb_irrefl.
  apply succeeds_bind; [apply DeductLiquidAssets_succeeds; [done|by rewrite E1]|]. intros [] w3 E3%DeductLiquidAssets_ok A3.
  apply succeeds_bind; [apply serves_withdraw; [done|by rewrite E3, E1..]|]. intros [] w4 _ A4.
  apply succeeds_bind; [by apply shrink_succeeds|]. intros [] w5 _ A5. by apply record_succeeds.
Qed.

(** A client buys the currency at the selling rate, a supervisor at the middle rate. *)
Definition paying_rate (supervisor : bool) (mid : float64) : float64 := if supervisor then mid else selling spreadRate mid.

Lemma withdraw_quote_runs supervisor c x w : w_aborted w = false ->
  convertible (paying_rate supervisor) c (w_db w) ->
  exists p w', withdraw_quote spreadRate supervisor c x e w = (Ok (inr p), w') /\ steady w w'.
Proof using He.
  intros Ha Hc. unfold withdraw_quote. destruct (is_fx c) eqn:Ef; [|by eexists _, w].
  destruct Hc as [Hc|(Tc & Tr & Hq)]; [congruence|].
  destruct (GetRates spreadRate e w) as [r w1] eqn:H1. pose proof (GetRates_quoted _ _ _ _ _ H1) as (E1 & l & -> & Hl).
  assert (S1 : steady w w1) by (by injection H1 as _ <-).
  rewrite (bind_run _ _ _ _ _ _ (try_eq _ _ _ _ _ H1)). cbv zeta. rewrite Hl. destruct (Hq (w_step w)) as (mid & -> & Hm).
  cbn [fmap option_fmap option_map]. change (er_Srednji (buildRate spreadRate c mid)) with mid.
  change (er_Prodajni (buildRate spreadRate c mid)) with (selling spreadRate mid).
  replace (if supervisor then mid else selling spreadRate mid) with (paying_rate supervisor mid)
    by by destruct supervisor. rewrite Hm.
  destruct (fetchTreasuryID_runs "RSD" w1) as (t1 & w2 & H2 & S2); [apply S1|by rewrite E1|].
  rewrite (bind_run _ _ _ _ _ _ (try_eq _ _ _ _ _ H2)).
  destruct (fetchTreasuryID_runs c w2) as (t2 & w3 & H3 & S3); [apply S2|by rewrite (sy_db _ _ S2), E1|].
  rewrite (bind_run _ _ _ _ _ _ (try_eq _ _ _ _ _ H3)). eexists _, w3. split; [done|]. eauto using steady_trans.
Qed.

(** The details of a fund are read: nothing is lost, whatever the provider answers. *)
Lemma GetFundDetails_calm id : calm (GetFundDetails spreadRate id).
Proof using Type.
  unfold GetFundDetails, fundRepo_GetByID, usdToRSDRate, GetRates, GetTotalInvested.
  assert (K : forall u secs t, calm (security_details u secs t)).
  { intros u secs. induction secs as [|s secs IH]; intros t; cbn [security_details]; [apply calm_ret|].
    unfold GetListingByID, listing_GetByID, GetLatestDailyChange. solve_calm; first [apply IH|by intros ? ? ? ? [= _ <-]]. }
  solve_calm; first [apply K|by intros ? ? ? ? [= _ <-]].
Qed.

Lemma details_steady id w : w_aborted w = false ->
  exists r w', try (GetFundDetails spreadRate id) e w = (Ok r, w') /\
    w_db w' = w_db w /\ w_aborted w' = false /\ w_depth w' = w_depth w.
Proof using He.
  intros Ha. destruct (GetFundDetails spreadRate id e w) as [r w1] eqn:H. exists r, w1.
  split; [by apply try_eq|]. split; [by apply GetFundDetails_reads in H|]. split; [|by apply level_GetFundDetails in H].
  destruct (w_aborted w1) eqn:A1; [|done]. exfalso. apply (works_not_failing e w He Ha). eapply GetFundDetails_calm; [exact H|by left].
Qed.

(** What a withdrawal needs to be served: a position of the amount, cash for it, an
    account that can be converted, and room. *)
Definition withdrawable (supervisor : bool) (fundID userID accountID : Z) (req : withdrawRequest) (d : DB) : Prop :=
  exists posID pos acc,
    let invested := scan_invested (fp_InvestedRSD pos) in
    let amount := if wr_WithdrawAll req || f64_leb (wr_AmountRSD req) f64_zero then invested else wr_AmountRSD req in
    let netRSD := f64_sub amount (f64_mul amount (if supervisor then f64_zero else f64_lit 1 2)) in
    position_of fundID userID d = Some (posID, pos) /\ f64_ltb invested amount = false /\
    f64_ltb (locked_fund fundID d).2 netRSD = false /\
    d_racun d !! accountID = Some acc /\
    convertible (paying_rate supervisor) (r_oznaka acc) d /\
    forall p, payout_price spreadRate e False supervisor accountID netRSD p d ->
      room_to_withdraw fundID accountID (locked_fund fundID d).1.1 invested amount netRSD p d.

Lemma withdraw_from_served supervisor fundID userID accountID req w :
  w_aborted w = false -> w_depth w = O -> withdrawable supervisor fundID userID accountID req (w_db w) ->
  exists reply, (withdraw_from spreadRate supervisor fundID userID accountID req e w).1 = Ok (200, reply).
Proof using He.
  intros Ha Hd (posID & pos & acc & H). cbv zeta in H. destruct H as (Hpos & Hamt & Hcash & Hacc & Hc & Hp). unfold withdraw_from.
  destruct (sql_read_steady (position_of fundID userID) w Ha) as (w1 & H1 & S1).
  rewrite (bind_run _ _ _ _ _ _ (try_eq _ _ _ _ _ H1)), Hpos. cbv zeta.
  change (withdraw_fee supervisor) with (fun x => f64_mul x (if supervisor then f64_zero else f64_lit 1 2)). cbv beta. unfold withdraw_amount.
  rewrite Hamt. set (amount := if wr_WithdrawAll req || _ then _ else _) in *.
  set (netRSD := f64_sub amount _) in *.
  destruct (account_oznaka_runs accountID w1 acc) as (w2 & H2 & S2); [apply S1|by rewrite (sy_db _ _ S1)|].
  rewrite (bind_run _ _ _ _ _ _ H2). pose proof (steady_trans _ _ _ S1 S2) as S12.
  destruct (withdraw_quote_runs supervisor (r_oznaka acc) netRSD w2) as (p & w3 & H3 & S3); [apply S2|by rewrite (sy_db _ _ S12)|].
  rewrite (bind_run _ _ _ _ _ _ H3). pose proof (steady_trans _ _ _ S12 S3) as [Sd Sa Sp _].
  apply (withdraw_quote_ok spreadRate False supervisor accountID) in H3; [|left; exists acc; by rewrite (sy_db _ _ S12)].
  rewrite (sy_db _ _ S12) in H3. destruct (details_steady fundID w3 Sa) as (det & w4 & H4 & D4 & A4 & P4).
  rewrite (bind_run _ _ _ _ _ _ H4).
  destruct (withdraw_tx_succeeds fundID userID accountID posID (scan_invested (fp_InvestedRSD pos)) amount netRSD (wr_WithdrawAll req) p
              (match det with Ok det => Some det | Err _ => None end) w4) as ([] & w5 & H5 & _);
    [done|congruence|by rewrite D4, Sd|rewrite D4, Sd; by apply Hp|].
  rewrite (bind_run _ _ _ _ _ _ (try_eq _ _ _ _ _ H5)). by eexists.
Qed.

End served.

(** ** The requests *)

Lemma invest_ok claims fundID body e w r w' :
  invest spreadRate claims fundID body e w = (r, w') ->
  (exists code, r = Ok (refused code) /\ code <> 200 /\ w_db w' = w_db w) \/
  (exists callerID req accountID,
     0 < fundID /\ ParseInt (cl_Subject claims) = (callerID, true) /\ body = Some req /\
     f64_leb (nr_Amount req) f64_zero = false /\ parse_account (nr_AccountID req) = Some accountID /\
     r = Ok (200, Invested (nr_Amount req) fundID) /\
     invest_accepted spreadRate e (failing e w) fundID (investor claims callerID) accountID (nr_Amount req) (w_db w) (w_db w')).
Proof.
  unfold invest. intros H. destruct (Z.leb_spec fundID 0); [injection H as <- <-; left; by eexists|].
  destruct (ParseInt (cl_Subject claims)) as [callerID []]; [|injection H as <- <-; left; by eexists].
  destruct body as [req|]; [|injection H as <- <-; left; by eexists].
  destruct (f64_leb (nr_Amount req) f64_zero) eqn:Ea; [injection H as <- <-; left; by eexists|].
  destruct (parse_account (nr_AccountID req)) as [accountID|] eqn:Ep; [|injection H as <- <-; left; by eexists].
  apply invest_from_ok in H as [[-> H]|H]; [right|by left]. by exists callerID, req, accountID.
Qed.

(** C35: A request to invest is refused, with an HTTP status that is not 200 and the
    database as it was, or it is answered with the amount: then the fund was named by
    a positive number, the caller is known, the amount is positive (or no number) and
    reaches the minimum of the fund.  An account in a foreign currency is debited the
    amount at the bank's buying rate for that currency (the quoted middle rate less the
    spread) with the fee of half a percent, through two treasury accounts; the amount
    itself is debited only when the account is in dinars, or has no row or no currency,
    or a query was lost.  The account's free balance covered the debit, and the legs, the
    ledger, the cash of the fund, the position of the investor (the bank for a
    supervisor) and the record are booked together.  And on a database that works a
    well formed request is not refused: if the fund exists and the amount reaches its
    minimum, the account can be converted and covers the price, and the amounts fit their
    columns ([investable]), it is answered with the amount. *)
Theorem invest_spec claims fundID body e w r w' :
  invest spreadRate claims fundID body e w = (r, w') ->
  ((exists code, r = Ok (refused code) /\ code <> 200 /\ w_db w' = w_db w) \/
   (exists callerID req accountID,
      0 < fundID /\ ParseInt (cl_Subject claims) = (callerID, true) /\ body = Some req /\
      f64_leb (nr_Amount req) f64_zero = false /\ parse_account (nr_AccountID req) = Some accountID /\
      r = Ok (200, Invested (nr_Amount req) fundID) /\
      invest_accepted spreadRate e (failing e w) fundID (investor claims callerID) accountID (nr_Amount req) (w_db w) (w_db w'))) /\
  (no_faults e -> w_aborted w = false -> w_depth w = O -> forall callerID req accountID,
     0 < fundID -> ParseInt (cl_Subject claims) = (callerID, true) -> body = Some req ->
     f64_leb (nr_Amount req) f64_zero = false -> parse_account (nr_AccountID req) = Some accountID ->
     investable e fundID (investor claims callerID) accountID (nr_Amount req) (w_seq w) (w_db w) ->
     r = Ok (200, Invested (nr_Amount req) fundID)).
Proof.
  intros H. split; [by apply invest_ok|]. intros He Ha Hd callerID req accountID Hf Hc -> Hn Hp Hi.
  apply (invest_from_served e He _ _ _ _ _ Ha Hd) in Hi. revert H. unfold invest.
  destruct (Z.leb_spec fundID 0) as [?|_]; [lia|]. rewrite Hc, Hn, Hp. intros H. by rewrite H in Hi.
Qed.

Lemma withdraw_ok claims fundID body e w r w' :
  withdraw spreadRate claims fundID body e w = (r, w') ->
  (exists code, r = Ok (refused code) /\ code <> 200 /\ w_db w' = w_db w) \/
  (exists callerID req accountID reply,
     0 < fundID /\ ParseInt (cl_Subject claims) = (callerID, true) /\ body = Some req /\
     parse_account (wr_AccountID req) = Some accountID /\ r = Ok (200, reply) /\
     withdraw_accepted spreadRate e (failing e w) (isSupervisor claims) fundID (investor claims callerID) accountID req reply
       (w_db w) (w_db w')).
Proof.
  unfold withdraw. intros H. destruct (Z.leb_spec fundID 0); [injection H as <- <-; left; by eexists|].
  destruct (ParseInt (cl_Subject claims)) as [callerID []]; [|injection H as <- <-; left; by eexists].
  destruct body as [req|]; [|injection H as <- <-; left; by eexists].
  destruct (parse_account (wr_AccountID req)) as [accountID|] eqn:Ep; [|injection H as <- <-; left; by eexists].
  apply withdraw_from_ok in H as [H|(reply & H)]; [by left|right]. by exists callerID, req, accountID, reply.
Qed.

(** C36: A request to withdraw is refused and changes nothing, or it is answered with
    what was taken: all of the investor's position or the amount asked for, not more than
    the position, the fee of one percent deducted unless a supervisor asks.  If the cash
    was short, securities were sold at the price of their listings, each for its share of
    the shortage, the quantity sold times its price being added to the cash and the
    account of the fund; if more than a cent was still missing, everything had been asked
    for.  The fund paid the rest, or all it then had, out of its cash and its account; the
    account was credited in its own currency at the bank's selling rate (the middle rate
    for a supervisor), the amount itself only if it is in dinars, or has no row or no
    currency, or a query was lost; the position shrank by the whole amount, or is gone,
    and the record is written.  And on a database that works a well formed request is not
    refused if the cash covers it: an investor who has the amount in his position is
    answered, so long as the account can be converted and the amounts fit their columns
    ([withdrawable]). *)
Theorem withdraw_spec claims fundID body e w r w' :
  withdraw spreadRate claims fundID body e w = (r, w') ->
  ((exists code, r = Ok (refused code) /\ code <> 200 /\ w_db w' = w_db w) \/
   (exists callerID req accountID reply,
      0 < fundID /\ ParseInt (cl_Subject claims) = (callerID, true) /\ body = Some req /\
      parse_account (wr_AccountID req) = Some accountID /\ r = Ok (200, reply) /\
      withdraw_accepted spreadRate e (failing e w) (isSupervisor claims) fundID (investor claims callerID) accountID req reply
        (w_db w) (w_db w'))) /\
  (no_faults e -> w_aborted w = false -> w_depth w = O -> forall callerID req accountID,
     0 < fundID -> ParseInt (cl_Subject claims) = (callerID, true) -> body = Some req ->
     parse_account (wr_AccountID req) = Some accountID ->
     withdrawable e (isSupervisor claims) fundID (investor claims callerID) accountID req (w_db w) ->
     exists reply, r = Ok (200, reply)).
Proof.
  intros H. split; [by apply withdraw_ok|]. intros He Ha Hd callerID req accountID Hf Hc -> Hp Hi.
  apply (withdraw_from_served e He _ _ _ _ _ _ Ha Hd) in Hi as [reply Hi]. exists reply. revert H. unfold withdraw.
  destruct (Z.leb_spec fundID 0) as [?|_]; [lia|]. rewrite Hc, Hp. intros H. by rewrite H in Hi.
Qed.

(** ** The account of a fund *)

(** Every fund with an account has one of its own, which holds an amount related to
    the recorded cash. *)
Definition kept (R : Z -> Z -> Prop) (d : DB) : Prop :=
  forall id f a, investment_funds d !! id = Some f -> if_AccountID f = Some a -> 0 < a ->
  exists acc v, d_racun d !! a = Some acc /\ d_liquid_assets d !! id = Some v /\ R (r_stanje_racuna acc) v.

Definition own_accounts (d : DB) : Prop :=
  forall i j f g a, investment_funds d !! i = Some f -> investment_funds d !! j = Some g ->
  if_AccountID f = Some a -> if_AccountID g = Some a -> 0 < a -> i = j.

Definition fund_account (a : Z) (d : DB) : Prop :=
  exists id f, investment_funds d !! id = Some f /\ if_AccountID f = Some a.

Definition fund_account_of (fundID : Z) (d : DB) : Z :=
  match investment_funds d !! fundID with Some f => default 0 (if_AccountID f) | None => 0 end.

(** One fund's cash and account change, by [h] and [g]. *)
Record cash_step (fundID : Z) (g : racun -> racun) (h : Z -> Z) (d d' : DB) : Prop := {
  cs_funds : investment_funds d' = investment_funds d;
  cs_liquid : d_liquid_assets d' = alter h fundID (d_liquid_assets d);
  cs_account : 0 < fund_account_of fundID d ->
    d_racun d' !! fund_account_of fundID d = g <$> d_racun d !! fund_account_of fundID d;
  cs_other : forall a, fund_account a d -> a <> fund_account_of fundID d -> d_racun d' !! a = d_racun d !! a
}.

Lemma cash_step_kept (R : Z -> Z -> Prop) fundID g h d d' :
  cash_step fundID g h d d' ->
  (forall acc v, is_Some (investment_funds d !! fundID) -> d_racun d !! fund_account_of fundID d = Some acc -> d_liquid_assets d !! fundID = Some v ->
     R (r_stanje_racuna acc) v -> R (r_stanje_racuna (g acc)) (h v)) ->
  own_accounts d -> kept R d -> kept R d'.
Proof.
  intros [Cf Cl Ca Co] HR Hown K id f a Hf Ha Hpos. rewrite Cf in Hf. destruct (K id f a Hf Ha Hpos) as (acc & v & Hacc & Hv & Hr).
  destruct (decide (id = fundID)) as [->|Hne].
  - assert (E : fund_account_of fundID d = a) by (unfold fund_account_of; by rewrite Hf, Ha).
    rewrite E in *. exists (g acc), (h v). rewrite Ca, Hacc, Cl, lookup_alter_eq, Hv by done. split_and!; [done..|]. apply HR; [by eexists|done..].
  - exists acc, v. rewrite Cl, lookup_alter_ne by done. split_and!; [|done..]. rewrite Co; [done|by exists id, f|].
    unfold fund_account_of. destruct (investment_funds d !! fundID) as [g0|] eqn:Eg; [|lia]. intros ->.
    destruct (if_AccountID g0) as [b|] eqn:Eb; cbn in *; [|lia]. by apply Hne, (Hown id fundID f g0 b).
Qed.

Lemma cash_step_own fundID g h d d' : cash_step fundID g h d d' -> own_accounts d -> own_accounts d'.
Proof. intros [Cf _ _ _]. unfold own_accounts. by rewrite Cf. Qed.

(** Legs on no account of a fund. *)
Definition spared (d : DB) (l : list (Z * Q)) : Prop := forall a, fund_account a d -> a ∉ l.*1.

(** The legs on the account of one fund: nothing else of a fund moves. *)
Lemma cash_step_booked fundID q h legs d d' :
  investment_funds d' = investment_funds d ->
  d_liquid_assets d' = alter h fundID (d_liquid_assets d) ->
  (exists l1 l2, legs = (l1 ++ fund_leg (fund_account_of fundID d) q ++ l2)%list /\ spared d l1 /\ spared d l2) ->
  d_racun d' = post_legs legs (d_racun d) ->
  cash_step fundID (FundsTransfers.moved q) h d d'.
Proof.
  intros Hf Hl (l1 & l2 & -> & Hout1 & Hout2) Hr. split; [done|done| |].
  - intros Hpos. rewrite Hr. rewrite !post_legs_app. unfold fund_leg. rewrite (proj2 (Z.ltb_lt _ _) Hpos).
    assert (Ha : fund_account (fund_account_of fundID d) d).
    { unfold fund_account_of in *. destruct (investment_funds d !! fundID) as [f|] eqn:Ef; [|lia].
      destruct (if_AccountID f) as [b|] eqn:Eb; cbn in *; [|lia]. by exists fundID, f. }
    pose proof (Hout1 _ Ha) as H1. pose proof (Hout2 _ Ha) as H2. rewrite post_legs_other by done. rewrite post_legs_one. by rewrite post_legs_other.
  - intros a Ha Hne. pose proof (Hout1 a Ha) as H1. pose proof (Hout2 a Ha) as H2. rewrite Hr, !post_legs_app, post_legs_other by done.
    rewrite post_legs_other; [by apply post_legs_other|].
    unfold fund_leg. destruct (0 <? _); [|by apply not_elem_of_nil]. cbn. by rewrite list_elem_of_singleton.
Qed.

(** The accounts a request moves besides the fund's: none is a fund's. *)
Definition apart (e : Env) (accountID : Z) (d : DB) : Prop :=
  ~ fund_account accountID d /\ forall n c, ~ fund_account (pick (env_row_choice e n) (racun_ids trezor_owner c d)) d.

Lemma apart_picked e accountID id c d : apart e accountID d -> picked e id c d -> ~ fund_account id d.
Proof. intros [_ Ha] [_ [n ->]]. apply Ha. Qed.

Lemma spared_intro d l : Forall (fun leg => ~ fund_account leg.1 d) l -> spared d l.
Proof.
  intros H a Ha (leg & -> & Hl)%list_elem_of_fmap. rewrite Forall_forall in H. by apply (H leg).
Qed.

Lemma invested_cash fundID userID accountID amountRSD quote fund e lost d d' :
  investment_funds d !! fundID = Some fund -> apart e accountID d -> invest_price spreadRate e lost accountID amountRSD quote d ->
  invested_db fundID userID accountID (default 0 (if_AccountID fund)) amountRSD quote d d' ->
  cash_step fundID (FundsTransfers.moved (arg amountRSD)) (cash_in (arg amountRSD)) d d'.
Proof.
  intros Hf Hap Hp (id & p & now & _ & ->).
  assert (E : fund_account_of fundID d = default 0 (if_AccountID fund)) by (unfold fund_account_of; by rewrite Hf).
  eapply (cash_step_booked _ _ _ (invest_legs accountID (default 0 (if_AccountID fund)) amountRSD quote)); [done|done| |done].
  rewrite E. unfold invest_price, invest_legs in *. destruct (fq_treasuries quote) as [[tf tr]|].
  - destruct Hp as (acc & k & mid & _ & _ & _ & P1 & P2 & _).
    exists [(accountID, (- arg (fq_amount quote))%Q); (tf, arg (fq_amount quote)); (tr, (- arg amountRSD)%Q)], [].
    rewrite app_nil_r. split_and!; [done| |by intros ? _ ?%elem_of_nil].
    apply spared_intro. repeat constructor; cbn; [apply Hap|by eapply apart_picked..].
  - exists [(accountID, (- arg amountRSD)%Q)], []. rewrite app_nil_r. split_and!; [done| |by intros ? _ ?%elem_of_nil].
    apply spared_intro. repeat constructor; cbn. apply Hap.
Qed.

Lemma sold_cash fundID listingID proceeds d d' :
  sold_db fundID listingID proceeds d d' ->
  cash_step fundID (FundsTransfers.moved (arg proceeds)) (cash_in (arg proceeds)) d d'.
Proof.
  unfold sold_db. assert (E : fst (fst (locked_fund fundID d)) = fund_account_of fundID d).
  { unfold locked_fund, fund_account_of. by destruct (investment_funds d !! fundID). }
  destruct (locked_fund fundID d) as [[a m] c]. cbn in E. subst a. intros Ho.
  assert (Hd' : investment_funds d' = investment_funds d /\
    d_liquid_assets d' = alter (cash_in (arg proceeds)) fundID (d_liquid_assets d) /\
    d_racun d' = post_legs (fund_leg (fund_account_of fundID d) (arg proceeds)) (d_racun d)).
  { destruct Ho as [->|(i & o & _ & _ & _ & _ & ->)]; done. }
  destruct Hd' as (H1 & H2 & H3).
  eapply (cash_step_booked _ _ _ (fund_leg (fund_account_of fundID d) (arg proceeds))); [done|done| |by rewrite H3].
  exists [], []. rewrite app_nil_r. split_and!; [done|by intros ? _ ?%elem_of_nil..].
Qed.

(** Securities sold: the cash and the account grow by the same amounts. *)
Lemma post_legs_raised a qs t : 0 < a ->
  post_legs (qs ≫= fund_leg a) t !! a = (fun acc => foldl (fun acc q => FundsTransfers.moved q acc) acc qs) <$> t !! a.
Proof.
  intros Ha. revert t. induction qs as [|q qs IH]; intros t; [cbn; by destruct (t !! a)|].
  change ((q :: qs) ≫= fund_leg a) with (fund_leg a q ++ (qs ≫= fund_leg a))%list. rewrite post_legs_app, IH.
  unfold fund_leg. rewrite (proj2 (Z.ltb_lt _ _) Ha), post_legs_one. by destruct (t !! a).
Qed.

Lemma alter_foldl {B} (f : B -> Z -> Z) (k : Z) (l : list B) (m : gmap Z Z) :
  foldl (fun m b => alter (f b) k m) m l = alter (fun v => foldl (fun v b => f b v) v l) k m.
Proof.
  revert m. induction l as [|b l IH]; intros m; cbn; [by rewrite alter_id|]. rewrite IH. apply map_eq. intros i.
  destruct (decide (i = k)) as [->|]; [|by rewrite !lookup_alter_ne]. rewrite !lookup_alter_eq. by destruct (m !! k).
Qed.

Lemma raised_other a b qs t : a <> b -> post_legs (qs ≫= fund_leg b) t !! a = t !! a.
Proof.
  intros H. apply post_legs_other. intros ([c q] & -> & (q0 & Hq & _)%list_elem_of_bind)%list_elem_of_fmap. revert Hq.
  unfold fund_leg. destruct (0 <? b); [|by intros ?%elem_of_nil]. by intros [= <- _]%list_elem_of_singleton.
Qed.

Lemma raised_cash_step fundID qs d d' :
  raised fundID (fund_account_of fundID d) qs d d' ->
  cash_step fundID (fun acc => foldl (fun acc q => FundsTransfers.moved q acc) acc qs)
    (fun v => foldl (fun v q => cash_in q v) v qs) d d'.
Proof.
  intros [Hr Hc [_ Hb] _]. split.
  - unfold investment_funds, fund_db. by rewrite Hb.
  - rewrite Hc. apply alter_foldl.
  - intros Hpos. rewrite Hr. by apply post_legs_raised.
  - intros a _ Hne. rewrite Hr. by apply raised_other.
Qed.

Lemma spared_withdraw e lost supervisor accountID netRSD p d d1 A paid credit :
  apart e accountID d -> payout_price spreadRate e lost supervisor accountID netRSD p d -> investment_funds d1 = investment_funds d ->
  exists l, withdraw_legs accountID A paid credit (py_treasuries p) = (fund_leg A (- arg paid) ++ l)%list /\ spared d1 l.
Proof.
  intros Hap Hp Hf. assert (Hs : forall l, spared d l -> spared d1 l).
  { intros l H a (id & f & H1 & H2). apply H. exists id, f. by rewrite <- Hf. }
  unfold payout_price, withdraw_legs in *. destruct (py_treasuries p) as [[tr tf]|].
  - destruct Hp as (acc & k & mid & _ & _ & _ & P1 & P2 & _). eexists. split; [done|]. apply Hs, spared_intro.
    repeat constructor; cbn; [by eapply apart_picked..|apply Hap].
  - eexists. split; [done|]. apply Hs, spared_intro. repeat constructor. apply Hap.
Qed.

(** A withdrawal is a sale and a payment. *)
Lemma withdrawn_cash e lost supervisor fundID userID accountID posID invested amount netRSD all p details d d' :
  apart e accountID d -> payout_price spreadRate e lost supervisor accountID netRSD p d ->
  withdrawn_db fundID userID accountID posID invested amount netRSD all p details d d' ->
  exists qs d1 paid,
    (f64_ltb (scan_cents (liquid fundID d)) netRSD = false -> is_Some (investment_funds d !! fundID) -> d1 = d /\ paid = netRSD) /\
    cash_step fundID (fun acc => foldl (fun acc q => FundsTransfers.moved q acc) acc qs)
      (fun v => foldl (fun v q => cash_in q v) v qs) d d1 /\
    cash_step fundID (FundsTransfers.moved (- arg paid)) (cash_out (arg paid)) d1 d'.
Proof.
  intros Hap Hp Hw%withdrawn_raised. revert Hw.
  assert (E : fst (fst (locked_fund fundID d)) = fund_account_of fundID d /\
    (is_Some (investment_funds d !! fundID) -> (locked_fund fundID d).2 = scan_cents (liquid fundID d))).
  { unfold locked_fund, fund_account_of. destruct (investment_funds d !! fundID); [done|]. split; [done|]. by intros []. }
  destruct (locked_fund fundID d) as [[A m] cash]. cbn [fst snd] in E. destruct E as [-> Ec].
  intros (qs & d1 & paid & now & Hr & Hno & ->). unfold paid_out. exists qs, d1, paid.
  pose proof (raised_cash_step _ _ _ _ Hr) as Hs. split_and!; [|done|].
  - intros Hc Hf. rewrite <- (Ec Hf) in Hc. by destruct (Hno Hc) as (_ & -> & ->).
  - destruct (spared_withdraw e lost supervisor accountID netRSD p d d1 (fund_account_of fundID d) paid
                (actual_credit netRSD paid p) Hap Hp (cs_funds _ _ _ _ _ Hs)) as (l & El & Hl).
    assert (Ea : fund_account_of fundID d1 = fund_account_of fundID d)
      by (unfold fund_account_of; by rewrite (cs_funds _ _ _ _ _ Hs)).
    eapply cash_step_booked; [| |exists [], l; split_and!; [rewrite Ea; exact El|by intros ? _ ?%elem_of_nil|exact Hl]|].
    + unfold shrunk. by destruct (f64_leb _ _).
    + unfold shrunk. by destruct (f64_leb _ _).
    + unfold shrunk. by destruct (f64_leb _ _).
Qed.

(** *** Two relations every payment keeps *)

Lemma moved_stanje q acc : r_stanje_racuna (FundsTransfers.moved q acc) = cash_in q (r_stanje_racuna acc).
Proof. done. Qed.

Lemma cash_in_mono q b v : b <= v -> cash_in q b <= cash_in q v.
Proof. intros H. apply to_cents_mono. pose proof (proj2 (cents_le b v) H). lra. Qed.

Lemma folded_le qs acc v : r_stanje_racuna acc <= v ->
  r_stanje_racuna (foldl (fun acc q => FundsTransfers.moved q acc) acc qs) <= foldl (fun v q => cash_in q v) v qs.
Proof. revert acc v. induction qs as [|q qs IH]; intros acc v H; [done|]. cbn. apply IH. by apply cash_in_mono. Qed.

Lemma cash_out_le q b v : b <= v -> cash_in (- q) b <= cash_out q v.
Proof.
  intros H. apply to_cents_mono. pose proof (proj2 (cents_le b v) H). unfold FundsManager.greatest0.
  destruct (Qle_bool 0 (cents v - q)) eqn:E; [lra|].
  assert (cents v - q < 0)%Q by (apply Qnot_le_lt; intros Hle; apply Qle_bool_iff in Hle; by rewrite Hle in E). lra.
Qed.

Lemma cash_out_covered q v : (q <= cents v)%Q -> cash_in (- q) v = cash_out q v.
Proof.
  intros H. unfold cash_in, cash_out, FundsManager.greatest0. destruct (Qle_bool 0 (cents v - q)) eqn:E; [done|].
  assert (0 <= cents v - q)%Q as Hle by lra. apply Qle_bool_iff in Hle. congruence.
Qed.

(** The account holds at most the recorded cash; or exactly that. *)
Definition agrees (exact : bool) (b v : Z) : Prop := if exact then b = v else b <= v.

Lemma agrees_in exact qs acc v : agrees exact (r_stanje_racuna acc) v ->
  agrees exact (r_stanje_racuna (foldl (fun acc q => FundsTransfers.moved q acc) acc qs)) (foldl (fun v q => cash_in q v) v qs).
Proof.
  destruct exact; [|apply folded_le]. cbn. revert acc v. induction qs as [|q qs IH]; intros acc v H; [done|]. cbn. apply IH.
  rewrite moved_stanje. by f_equal.
Qed.

Lemma agrees_out exact q acc v : (exact = true -> (q <= cents v)%Q) -> agrees exact (r_stanje_racuna acc) v ->
  agrees exact (r_stanje_racuna (FundsTransfers.moved (- q) acc)) (cash_out q v).
Proof.
  rewrite moved_stanje. destruct exact; cbn; intros Hc H; [|by apply cash_out_le]. rewrite H. apply cash_out_covered. by apply Hc.
Qed.

(** ** Creating a fund *)

Lemma generateAccountNumber_reads n prefix : reads (generateAccountNumber n prefix).
Proof. revert prefix. induction n as [|n IH]; intros prefix; cbn [generateAccountNumber]; solve_reads. Qed.

Lemma create_firma_db inp e w o w' : create_firma inp e w = (Ok o, w') ->
  d_racun (w_db w') = d_racun (w_db w) /\ fund_db (w_db w') = fund_db (w_db w) /\
  d_liquid_assets (w_db w') = d_liquid_assets (w_db w).
Proof.
  unfold create_firma. destruct (ca_Firma inp) as [f|]; [|by intros [= _ <-]].
  destruct (String.eqb _ _); [|by intros [= _ <-]]. intros (i & w1 & H & [= _ <-])%bind_ok.
  apply sql_insert_ok in H as (d & H & ->). unfold insert_firma in H.
  destruct (_ && _); [|discriminate]. destruct (bd_delatnost _ !! _); [|discriminate].
  destruct (insert_row _ _ _); [|discriminate]. by injection H as _ <-.
Qed.

(** A new account: its row, and nothing of a fund. *)
Definition account_added (balance : Z) (i : Z) (d d' : DB) : Prop :=
  exists row, d_racun d !! i = None /\ d_racun d' = <[i := row]> (d_racun d) /\ r_stanje_racuna row = balance /\
    fund_db d' = fund_db d /\ d_liquid_assets d' = d_liquid_assets d.

Lemma CreateAccountRow_ok inp broj e w i w' :
  CreateAccountRow inp broj e w = (Ok i, w') -> account_added (to_cents (arg (ca_StanjeRacuna inp))) i (w_db w) (w_db w').
Proof.
  unfold CreateAccountRow. intros (w3 & H & -> & _)%Transaction_ok.
  apply bind_ok in H as (o & w1 & (E1 & E2 & E3)%create_firma_db & H). apply bind_ok in H as (now & w2 & [= <- <-] & H).
  apply sql_insert_ok in H as (d & H & ->). unfold insert_racun, racun_row in H.
  change (w_db (begin_tx w)) with (w_db w) in *.
  destruct (bd_valuta _ !! _) as [v|]; [|discriminate]. cbn in H. destruct (parse_vrsta _) as [t|]; [|discriminate]. cbn in H.
  destruct (store_cents _) as [c|] eqn:Ec; [|discriminate]. cbn in H. apply store_cents_Some in Ec as ->.
  destruct (_ && _); [|discriminate]. destruct (racun_by_number _ _); [discriminate|].
  destruct (insert_row _ _ _) eqn:Ei; [|discriminate]. injection H as <- <-. apply insert_row_ok in Ei as [Hn ->].
  eexists. rewrite E1 in *. split_and!; [done|reflexivity|done|done|done].
Qed.

Lemma validateCurrency_reads id k : reads (validateCurrency id k).
Proof. unfold validateCurrency, GetCurrencyByID. solve_reads. Qed.

Lemma CreateAccount_ok fuel inp e w r w' :
  CreateAccount fuel inp e w = (r, w') ->
  (w_db w' = w_db w /\ forall i, r <> Ok (Some i)) \/
  (exists i, r = Ok (Some i) /\ account_added (to_cents (arg (ca_StanjeRacuna inp))) i (w_db w) (w_db w')).
Proof.
  unfold CreateAccount. intros H.
  apply bind_cases in H as [(u & w1 & H1 & H)|(er & -> & H1)]; pose proof (validateCurrency_reads _ _ _ _ _ _ H1) as E1.
  2: { by left. }
  destruct (accountTypePrefix _ _ _) as [prefix|]; [|injection H as <- <-; by left].
  apply bind_cases in H as [(b & w2 & H2 & H)|(er & -> & H2)]; pose proof (generateAccountNumber_reads _ _ _ _ _ _ H2) as E2.
  2: { left. split; [by rewrite E1, E2|done]. }
  destruct b as [broj|]; [|injection H as <- <-; left; split; [congruence|done]].
  apply bind_cases in H as [(i & w3 & H3 & [= <- <-])|(er & -> & H3)].
  - right. exists i. split; [done|]. apply CreateAccountRow_ok in H3. by rewrite <- E2, <- E1 in H3.
  - left. split; [|done]. unfold CreateAccountRow in H3. apply Transaction_err in H3. congruence.
Qed.

Lemma insert_fund_ok name description minimum a managerID now i d kv d' :
  insert_fund name description minimum a managerID now i d = Ok (kv, d') ->
  exists row, investment_funds d !! i = None /\ investment_funds d' = <[i := row]> (investment_funds d) /\ if_AccountID row = a /\
    d_liquid_assets d' = <[i := 0]> (d_liquid_assets d) /\ d_racun d' = d_racun d /\ fund_positions d' = fund_positions d /\
    d_fund_securities d' = d_fund_securities d.
Proof.
  unfold insert_fund. destruct (store_cents _) as [c|]; [|discriminate]. destruct (varchar _ _); [|discriminate].
  destruct (insert_row _ _ _) eqn:Ei; [|discriminate]. intros [= <- <-]. apply insert_row_ok in Ei as [Hn ->]. by eexists.
Qed.

(** No two funds share an account, and the account of a fund agrees with the recorded
    cash. *)
Definition books_agree (exact : bool) (d : DB) : Prop := own_accounts d /\ kept (agrees exact) d.

Lemma agree_cash_step exact fundID g h d d' :
  cash_step fundID g h d d' ->
  (forall acc v, is_Some (investment_funds d !! fundID) -> d_racun d !! fund_account_of fundID d = Some acc -> d_liquid_assets d !! fundID = Some v ->
     agrees exact (r_stanje_racuna acc) v -> agrees exact (r_stanje_racuna (g acc)) (h v)) ->
  books_agree exact d -> books_agree exact d'.
Proof. intros Hs HR [Ho Hk]. split; [by eapply cash_step_own|by eapply cash_step_kept]. Qed.

Lemma agree_in exact fundID q d d' :
  cash_step fundID (FundsTransfers.moved q) (cash_in q) d d' -> books_agree exact d -> books_agree exact d'.
Proof. intros Hs. eapply agree_cash_step; [done|]. intros acc v _ _ _. apply (agrees_in exact [q]). Qed.

Context {LW : decimal.Laws DL}.

Lemma arg_zero : to_cents (arg f64_zero) = 0.
Proof.
  change f64_zero with (f64_lit 0 0). unfold arg. rewrite (decimal.numeric_of_float64_lit 0 0) by lia.
  by vm_compute.
Qed.

Lemma agree_account i exact d d' : account_added 0 i d d' -> books_agree exact d -> books_agree exact d'.
Proof.
  intros (row & Hn & Hr & _ & Hf & Hl) [Ho Hk]. assert (E : investment_funds d' = investment_funds d) by (unfold investment_funds; by rewrite Hf).
  split; [unfold own_accounts; by rewrite E|]. intros id f a H1 H2 H3. rewrite E in H1.
  destruct (Hk id f a H1 H2 H3) as (acc & v & Ha & Hv & HR). exists acc, v. rewrite Hr, Hl. split_and!; [|done..].
  rewrite lookup_insert_ne; [done|]. intros ->. congruence.
Qed.

(** A new fund over a new account, both empty. *)
Lemma agree_fund exact i j row d d1 d2 :
  account_added 0 i d d1 -> investment_funds d1 !! j = None ->
  investment_funds d2 = <[j := row]> (investment_funds d1) -> if_AccountID row = (if i =? 0 then None else Some i) ->
  d_liquid_assets d2 = <[j := 0]> (d_liquid_assets d1) -> d_racun d2 = d_racun d1 ->
  books_agree exact d -> books_agree exact d2.
Proof.
  intros Hadd Hj Hf Ha Hl Hr Hd. pose proof (agree_account _ _ _ _ Hadd Hd) as [Ho1 Hk1].
  destruct Hadd as (acc & Hn & Hacc & Hz & Hfd & _), Hd as [_ Hk].
  assert (Ef : investment_funds d1 = investment_funds d) by (unfold investment_funds; by rewrite Hfd).
  assert (Hnew : forall id f, investment_funds d1 !! id = Some f -> 0 < i -> if_AccountID f <> Some i).
  { intros id f H1 Hi H2. rewrite Ef in H1. destruct (Hk id f i H1 H2 Hi) as (acc0 & _ & H3 & _). congruence. }
  assert (Hi : forall a, if_AccountID row = Some a -> a = i) by (rewrite Ha; intros a; destruct (i =? 0); congruence).
  split.
  - intros id1 id2 f1 f2 a. rewrite Hf. intros [[<- <-]|[N1 L1]]%lookup_insert_Some [[<- <-]|[N2 L2]]%lookup_insert_Some A1 A2 Hp.
    + done.
    + apply Hi in A1 as ->. by destruct (Hnew id2 f2).
    + apply Hi in A2 as ->. by destruct (Hnew id1 f1).
    + by eapply Ho1.
  - intros id f a. rewrite Hf, Hl, Hr. intros [[<- <-]|[N1 L1]]%lookup_insert_Some A1 Hp.
    + apply Hi in A1 as ->. exists acc, 0. rewrite Hacc, !lookup_insert_eq, Hz. split_and!; [done..|]. by destruct exact.
    + rewrite lookup_insert_ne by done. by apply (Hk1 id f a).
Qed.

Lemma rsdCurrencyID_reads : reads rsdCurrencyID.
Proof. unfold rsdCurrencyID, GetCurrencies. solve_reads. Qed.

Lemma CreateFund_agree exact fuel input e w r w' :
  CreateFund fuel input e w = (r, w') -> books_agree exact (w_db w) -> books_agree exact (w_db w').
Proof.
  unfold CreateFund. intros H Hb.
  apply bind_cases in H as [(rsd & w1 & E1%rsdCurrencyID_reads & H)|(er & _ & E1%rsdCurrencyID_reads)]; [|by rewrite <- E1].
  rewrite E1 in Hb. clear E1.
  apply bind_cases in H as [(o & w2 & H2%CreateAccount_ok & H)|(er & _ & [[-> _]|(? & [=] & _)]%CreateAccount_ok)]; [|done].
  cbn [ca_StanjeRacuna] in H2. rewrite arg_zero in H2.
  destruct o as [i|]; [|injection H as _ <-; by destruct H2 as [[-> _]|(? & [=] & _)]].
  destruct H2 as [[_ H2]|(? & [= <-] & Hadd)]; [by destruct (H2 i)|]. pose proof (agree_account _ _ _ _ Hadd Hb) as Hb2.
  apply bind_cases in H as [(now & w3 & [= <- <-] & H)|(er & _ & [=])].
  apply bind_cases in H as [(fund & w4 & H & [= _ <-])|(er & _ & H)]; unfold fundRepo_Create in H.
  - apply bind_ok in H as (now & w5 & [= <- <-] & H). apply bind_ok in H as (kv & w6 & H6 & [= _ <-]).
    apply sql_insert_ok in H6 as (d & H6 & ->). apply insert_fund_ok in H6 as (row & N1 & N2 & N3 & N4 & N5 & _).
    by eapply agree_fund.
  - apply bind_cases in H as [(now & w5 & [= <- <-] & H)|(er' & _ & [=])].
    apply bind_cases in H as [(kv & w6 & H6 & [=])|(er' & _ & H6)]. unfold sql_insert in H6.
    apply sql_err_db in H6. by rewrite H6.
Qed.

(** *** The account of a new fund

    [founded]: the funds there were are as they were, and every new one has an account. *)

Lemma generateAccountNumber_counts n prefix : counts_up (generateAccountNumber n prefix).
Proof.
  revert prefix. induction n as [|n IH]; intros prefix; cbn [generateAccountNumber]; [apply counts_ret|].
  unfold rand_Intn. solve_counts.
Qed.
Hint Resolve generateAccountNumber_counts : reads.

Lemma CreateAccount_id fuel inp e w i w' : CreateAccount fuel inp e w = (Ok (Some i), w') -> w_seq w <= i.
Proof.
  unfold CreateAccount. intros (u & w1 & H1 & H)%bind_ok.
  assert (C1 : counts_up (validateCurrency (ca_ValutaID inp) (ca_KategorijaRacuna inp)))
    by (unfold validateCurrency, GetCurrencyByID, sql_read; solve_counts). apply C1 in H1.
  destruct (accountTypePrefix _ _ _) as [prefix|]; [|discriminate].
  apply bind_ok in H as (b & w2 & H2%generateAccountNumber_counts & H). destruct b as [broj|]; [|discriminate].
  apply bind_ok in H as (j & w3 & H3 & [= -> _]). unfold CreateAccountRow in H3. apply Transaction_ok in H3 as (w4 & H3 & _).
  apply bind_ok in H3 as (o & w5 & H5 & H3).
  assert (C5 : counts_up (create_firma inp)) by (unfold create_firma; solve_counts). apply C5 in H5. cbn in H5.
  apply bind_ok in H3 as (now & w6 & [= _ <-] & H3). apply sql_insert_ok in H3 as (d & H3 & _). cbn in H3.
  unfold insert_racun in H3. destruct (racun_row _ _ _ _) as [r|] eqn:Er; [|discriminate].
  repeat (case_match; try discriminate). injection H3 as <- _. cbn. lia.
Qed.

Definition founded (d d' : DB) : Prop := forall id,
  match investment_funds d !! id with
  | Some f => investment_funds d' !! id = Some f
  | None => forall f, investment_funds d' !! id = Some f -> exists a, if_AccountID f = Some a /\ 0 < a
  end.

Lemma founded_same d d' : investment_funds d' = investment_funds d -> founded d d'.
Proof. intros E id. rewrite E. destruct (investment_funds d !! id); [done|]. by intros f. Qed.

Lemma founded_trans d1 d2 d3 : founded d1 d2 -> founded d2 d3 -> founded d1 d3.
Proof.
  intros H1 H2 id. specialize (H1 id). specialize (H2 id). destruct (investment_funds d1 !! id) as [f|].
  - by rewrite H1 in H2.
  - intros f Hf. destruct (investment_funds d2 !! id) as [f2|]; [|by apply H2]. apply H1. congruence.
Qed.

Lemma CreateFund_founded fuel input e w r w' :
  CreateFund fuel input e w = (r, w') -> 0 < w_seq w -> founded (w_db w) (w_db w').
Proof.
  unfold CreateFund. intros H Hs. assert (C : counts_up rsdCurrencyID) by (unfold rsdCurrencyID, GetCurrencies, sql_read; solve_counts).
  apply bind_cases in H as [(rsd & w1 & H1 & H)|(er & _ & E1%rsdCurrencyID_reads)]; [|by apply founded_same; rewrite <- E1].
  pose proof (C _ _ _ _ H1) as S1. apply rsdCurrencyID_reads in H1 as ->.
  apply bind_cases in H as [(o & w2 & H2 & H)|(er & _ & [[-> _]|(? & [=] & _)]%CreateAccount_ok)]; [|by apply founded_same].
  assert (E2 : investment_funds (w_db w2) = investment_funds (w_db w1)).
  { apply CreateAccount_ok in H2 as [[-> _]|(i & _ & (row & _ & _ & _ & Hf & _))]; [done|]. unfold investment_funds. by rewrite Hf. }
  destruct o as [i|]; [|injection H as _ <-; by apply founded_same]. apply CreateAccount_id in H2.
  apply bind_cases in H as [(now & w3 & [= <- <-] & H)|(er & _ & [=])].
  apply bind_cases in H as [(fund & w4 & H & [= _ <-])|(er & _ & H)]; unfold fundRepo_Create in H.
  - apply bind_ok in H as (now & w5 & [= <- <-] & H). apply bind_ok in H as (kv & w6 & H6 & [= _ <-]).
    apply sql_insert_ok in H6 as (d & H6 & ->). apply insert_fund_ok in H6 as (row & N1 & N2 & N3 & _). intros id. rewrite N2.
    cbn [w_db w_seq next_step] in *. rewrite E2 in *. destruct (investment_funds (w_db w1) !! id) as [f|] eqn:Ef.
    + rewrite lookup_insert_ne by congruence. done.
    + intros f [[<- <-]|[_ Hf]]%lookup_insert_Some; [|congruence]. exists i. rewrite N3. split; [|lia].
      cbn [iv_AccountID]. destruct (Z.eqb_spec i 0); [lia|done].
  - apply bind_cases in H as [(now & w5 & [= <- <-] & H)|(er' & _ & [=])].
    apply bind_cases in H as [(kv & w6 & H6 & [=])|(er' & _ & H6)]. unfold sql_insert in H6.
    apply sql_err_db in H6. rewrite H6. by apply founded_same.
Qed.

Lemma account_number_reads (i : Z) :
  reads (if i =? 0 then mret EmptyString
         else n ← try (fundRepo_GetAccountNumber i); mret (match n with Ok s => s | Err _ => EmptyString end)).
Proof. unfold fundRepo_GetAccountNumber. solve_reads. Qed.

Lemma createFund_agree exact fuel claims body e w r w' :
  createFund fuel claims body e w = (r, w') -> books_agree exact (w_db w) -> books_agree exact (w_db w').
Proof.
  unfold createFund. intros H Hb. destruct (negb _); [by injection H as _ <-|].
  destruct (ParseInt _) as [m []]; [|by injection H as _ <-]. destruct body as [req|]; [|by injection H as _ <-].
  destruct (_ || _); [by injection H as _ <-|]. apply try_bind in H as (f & w1 & H1 & H).
  pose proof (CreateFund_agree exact _ _ _ _ _ _ H1 Hb) as Hb1.
  destruct f as [[fund|]|]; try by injection H as _ <-.
  apply bind_cases in H as [(num & w2 & H2%account_number_reads & [= _ <-])|(er & _ & H2%account_number_reads)]; by rewrite <- H2.
Qed.

Lemma createFund_founded fuel claims body e w r w' :
  createFund fuel claims body e w = (r, w') -> 0 < w_seq w -> founded (w_db w) (w_db w').
Proof.
  unfold createFund. intros H Hs. destruct (negb _); [injection H as _ <-; by apply founded_same|].
  destruct (ParseInt _) as [m []]; [|injection H as _ <-; by apply founded_same].
  destruct body as [req|]; [|injection H as _ <-; by apply founded_same].
  destruct (_ || _); [injection H as _ <-; by apply founded_same|]. apply try_bind in H as (f & w1 & H1%CreateFund_founded & H); [|done].
  destruct f as [[fund|]|]; try by injection H as _ <-.
  apply bind_cases in H as [(num & w2 & H2%account_number_reads & [= _ <-])|(er & _ & H2%account_number_reads)]; by rewrite <- H2.
Qed.

(** ** Over time *)

(** The withdrawal asked for fits in the recorded cash: nothing has to be sold. *)
Definition covered (claims : AccessClaims) (fundID : Z) (body : option withdrawRequest) (d : DB) : Prop :=
  forall callerID req posID pos,
    ParseInt (cl_Subject claims) = (callerID, true) -> body = Some req ->
    position_of fundID (investor claims callerID) d = Some (posID, pos) ->
    let amount := withdraw_amount req (scan_invested (fp_InvestedRSD pos)) in
    let netRSD := f64_sub amount (withdraw_fee (isSupervisor claims) amount) in
    f64_ltb (scan_cents (liquid fundID d)) netRSD = false /\ (arg netRSD <= cents (liquid fundID d))%Q.

(** The account a request names, and the treasury accounts, are no fund's. *)
Definition names_apart (e : Env) (account : option string) (d : DB) : Prop :=
  forall s accountID, account = Some s -> parse_account s = Some accountID -> apart e accountID d.

(** Whatever else the server does with other rows. *)
Definition spares_funds (d d' : DB) : Prop :=
  investment_funds d' = investment_funds d /\ d_liquid_assets d' = d_liquid_assets d /\ fund_positions d' = fund_positions d /\
  forall a, fund_account a d -> r_stanje_racuna <$> d_racun d' !! a = r_stanje_racuna <$> d_racun d !! a.

(** A step of the bank.  A request to invest or to withdraw names an account, and is
    given treasury accounts, that are no fund's; ids count from 1; with [exact] every
    withdrawal is covered by the recorded cash. *)
Inductive fund_step (exact : bool) : World -> World -> Prop :=
  | step_create fuel claims body e w r w' :
      createFund fuel claims body e w = (r, w') -> 0 < w_seq w -> fund_step exact w w'
  | step_invest claims fundID body e w r w' :
      invest spreadRate claims fundID body e w = (r, w') ->
      names_apart e (nr_AccountID <$> body) (w_db w) -> fund_step exact w w'
  | step_withdraw claims fundID body e w r w' :
      withdraw spreadRate claims fundID body e w = (r, w') ->
      names_apart e (wr_AccountID <$> body) (w_db w) -> (exact = true -> covered claims fundID body (w_db w)) ->
      fund_step exact w w'
  | step_sell claims fundID ticker e w r w' :
      sellSecurity spreadRate claims fundID ticker e w = (r, w') -> w_depth w = O -> fund_step exact w w'
  | step_other w w' : spares_funds (w_db w) (w_db w') -> fund_step exact w w'.

Lemma agree_withdraw exact claims fundID body e w r w' :
  withdraw spreadRate claims fundID body e w = (r, w') ->
  names_apart e (wr_AccountID <$> body) (w_db w) -> (exact = true -> covered claims fundID body (w_db w)) ->
  books_agree exact (w_db w) -> books_agree exact (w_db w').
Proof.
  intros H Hn Hc Hb. unfold withdraw in H. destruct (fundID <=? 0); [by injection H as _ <-|].
  destruct (ParseInt (cl_Subject claims)) as [callerID []] eqn:Ec; [|by injection H as _ <-].
  destruct body as [req|]; [|by injection H as _ <-].
  destruct (parse_account (wr_AccountID req)) as [accountID|] eqn:Ep; [|by injection H as _ <-].
  apply withdraw_from_ok in H as [(code & _ & _ & ->)|(reply & _ & H)]; [done|].
  destruct H as (posID & pos & p & o & details & Hpos & _ & _ & Hp & _ & _ & Hw). specialize (Hn _ _ eq_refl Ep).
  destruct (withdrawn_cash _ _ _ _ _ _ _ _ _ _ _ _ _ _ _ Hn Hp Hw) as (qs & d1 & paid & Hno & S1 & S2).
  eapply agree_cash_step; [exact S2| |eapply agree_cash_step; [exact S1| |exact Hb]].
  - intros acc v Hf _ Hv. apply agrees_out. intros ->. rewrite (cs_funds _ _ _ _ _ S1) in Hf.
    destruct (Hc eq_refl callerID req posID pos Ec eq_refl Hpos) as [C1 C2]. destruct (Hno C1 Hf) as [-> ->].
    unfold liquid in C2. by rewrite Hv in C2.
  - intros acc v _ _ _. apply agrees_in.
Qed.

Lemma fund_step_founded exact w w' : fund_step exact w w' -> founded (w_db w) (w_db w').
Proof.
  intros [fuel claims body e w0 r w0' H Hs|claims fundID body e w0 r w0' H Hn|claims fundID body e w0 r w0' H Hn Hc
         |claims fundID ticker e w0 r w0' H Hd|w0 w0' H].
  - by eapply createFund_founded.
  - apply founded_same. apply invest_ok in H as [(code & _ & _ & ->)|H]; [done|].
    destruct H as (callerID & req & accountID & _ & _ & -> & _ & Ep & _ & fund & quote & Hf & _ & Hp & _ & Hi).
    refine (cs_funds _ _ _ _ _ (invested_cash _ _ _ _ _ _ _ _ _ _ Hf _ Hp Hi)). by eapply Hn.
  - apply founded_same. apply withdraw_ok in H as [(code & _ & _ & ->)|H]; [done|].
    destruct H as (callerID & req & accountID & reply & _ & _ & -> & Ep & _ & posID & pos & p & o & det & _ & _ & _ & Hp & _ & _ & Hw).
    destruct (withdrawn_cash _ _ _ _ _ _ _ _ _ _ _ _ _ _ _ (Hn _ _ eq_refl Ep) Hp Hw) as (qs & d1 & paid & _ & S1 & S2).
    by rewrite (cs_funds _ _ _ _ _ S2), (cs_funds _ _ _ _ _ S1).
  - apply founded_same. apply sellSecurity_ok in H as [(code & _ & _ & ->)|(reply & _ & H)]; [done| |done].
    destruct H as (_ & sec & s & _ & _ & _ & _ & _ & _ & H). exact (cs_funds _ _ _ _ _ (sold_cash _ _ _ _ _ H)).
  - apply founded_same, H.
Qed.

Lemma fund_step_agree exact w w' : fund_step exact w w' -> books_agree exact (w_db w) -> books_agree exact (w_db w').
Proof.
  intros [fuel claims body e w0 r w0' H Hs|claims fundID body e w0 r w0' H Hn|claims fundID body e w0 r w0' H Hn Hc
         |claims fundID ticker e w0 r w0' H Hd|w0 w0' H] Hb.
  - by eapply createFund_agree.
  - unfold invest in H. destruct (fundID <=? 0); [by injection H as _ <-|].
    destruct (ParseInt (cl_Subject claims)) as [callerID []]; [|by injection H as _ <-].
    destruct body as [req|]; [|by injection H as _ <-]. destruct (f64_leb _ _); [by injection H as _ <-|].
    destruct (parse_account (nr_AccountID req)) as [accountID|] eqn:Ep; [|by injection H as _ <-].
    apply invest_from_ok in H as [[_ H]|(code & _ & _ & ->)]; [|done]. destruct H as (fund & quote & Hf & _ & Hp & _ & Hi).
    eapply agree_in; [|done]. eapply invested_cash; [done| |done..]. by eapply Hn.
  - by eapply agree_withdraw.
  - apply sellSecurity_ok in H as [(code & _ & _ & ->)|(reply & _ & H)]; [done| |done].
    destruct H as (_ & sec & s & _ & _ & _ & _ & _ & _ & H). eapply agree_in; [|done]. by eapply sold_cash.
  - destruct H as (H1 & H2 & _ & H3), Hb as [Ho Hk]. split; [unfold own_accounts; by rewrite H1|].
    intros id f a Hf Ha Hp. rewrite H1 in Hf. destruct (Hk id f a Hf Ha Hp) as (acc & v & Hr & Hv & HR).
    specialize (H3 a ltac:(by exists id, f)). rewrite Hr in H3. apply fmap_Some in H3 as (acc' & Hr' & E).
    exists acc', v. rewrite H2, <- E. done.
Qed.

(** C14: However many funds are created, invested in, withdrawn from and made to sell
    their securities, in any order and with whatever fails, and whatever else the
    server does to other rows: every fund that is created has an account, no two funds
    share one, and the account of every fund that has one holds no more than the cash the
    fund's record says; it holds exactly that as long as every withdrawal is covered by
    the recorded cash.  The accounts that requests name and the treasury accounts the
    server picks for them must be no fund's ([names_apart]), and ids count from 1; a fund
    that was there without an account stays without one, and nothing is said of its
    cash. *)
Theorem fund_books_agree exact w w' :
  rtc (fund_step exact) w w' -> books_agree exact (w_db w) ->
  founded (w_db w) (w_db w') /\ books_agree exact (w_db w').
Proof.
  induction 1 as [|w w1 w' Hs _ IH]; [split; [by apply founded_same|done]|]. intros Hb.
  destruct (IH (fund_step_agree _ _ _ Hs Hb)) as [Hf Hb']. split; [|done].
  eapply founded_trans; [by eapply fund_step_founded|done].
Qed.

(** ** Positions *)

Lemma ltb_leb_zero x : f64_leb x f64_zero = false -> f64_ltb x f64_zero = false.
Proof. unfold f64_leb, f64_ltb, SFleb, SFltb. by destruct (SFcompare x f64_zero) as [[]|]. Qed.

Lemma above_thousandth x : f64_leb x (f64_lit 1 3) = false -> f64_ltb x f64_zero = false.
Proof.
  assert (E : exists m e, f64_lit 1 3 = S754_finite false m e) by (eexists _, _; by vm_compute).
  destruct E as (m & e & ->). by destruct x as [[]|[]| |[] mx ex].
Qed.

Lemma to_units_nonneg q : (0 <= q)%Q -> 0 <= to_units q.
Proof.
  intros H. apply round_nonneg. apply Qmult_le_0_compat; [done|]. by vm_compute.
Qed.

(** One position per fund and user, in a fund that exists, and never negative. *)
Record positions_ok (d : DB) : Prop := {
  po_unique : forall i j p q, fund_positions d !! i = Some p -> fund_positions d !! j = Some q ->
    fp_FundID p = fp_FundID q -> fp_UserID p = fp_UserID q -> i = j;
  po_nonneg : forall i p, fund_positions d !! i = Some p -> 0 <= fp_InvestedRSD p;
  po_fund : forall i p, fund_positions d !! i = Some p -> is_Some (investment_funds d !! fp_FundID p)
}.

Lemma positions_same d d' :
  fund_positions d' = fund_positions d -> (forall id, is_Some (investment_funds d !! id) -> is_Some (investment_funds d' !! id)) ->
  positions_ok d -> positions_ok d'.
Proof. intros Hp Hf [U N F]. split; rewrite Hp; [done..|]. intros i p H. by eapply Hf, F. Qed.

Lemma position_of_Some f u d i p : position_of f u d = Some (i, p) ->
  fund_positions d !! i = Some p /\ fp_FundID p = f /\ fp_UserID p = u.
Proof.
  unfold position_of. intros H%head_Some_elem_of. apply list_elem_of_filter in H as [[H1 H2] H].
  by apply elem_of_map_to_list in H.
Qed.

Lemma position_of_None f u d i p : position_of f u d = None -> fund_positions d !! i = Some p ->
  fp_FundID p = f -> fp_UserID p = u -> False.
Proof.
  unfold position_of. intros H Hp H1 H2. apply head_None in H.
  assert (Hin : (i, p) ∈ filter (fun kv => fp_FundID kv.2 = f /\ fp_UserID kv.2 = u) (map_to_list (fund_positions d)))
    by (apply list_elem_of_filter; split; [done|by apply elem_of_map_to_list]).
  rewrite H in Hin. by apply elem_of_nil in Hin.
Qed.

Lemma positions_invested fundID userID accountID a amount quote d d' :
  f64_ltb amount f64_zero = false -> invested_db fundID userID accountID a amount quote d d' ->
  positions_ok d -> positions_ok d'.
Proof.
  intros Ha (id & p & now & Hg & ->) [U N F].
  assert (Hq : 0 <= to_units (arg amount)) by (by apply to_units_nonneg, decimal.numeric_of_float64_nonneg).
  unfold grown in Hg. destruct (position_of fundID userID d) as [[i p0]|] eqn:Ep.
  - destruct Hg as [-> ->]. apply position_of_Some in Ep as (Hi & <- & <-).
    assert (K : forall j p, <[i := with_invested (fp_InvestedRSD p0 + to_units (arg amount)) p0]> (fund_positions d) !! j = Some p ->
      exists p1, fund_positions d !! j = Some p1 /\ fp_FundID p = fp_FundID p1 /\ fp_UserID p = fp_UserID p1 /\
        (fp_InvestedRSD p1 <= fp_InvestedRSD p)).
    { intros j p [[<- <-]|[_ Hj]]%lookup_insert_Some; [exists p0|by exists p]. split_and!; [done..|]. cbn. lia. }
    split; cbn.
    + intros j k p q (p1 & Hj & E1 & E2 & _)%K (q1 & Hk & E3 & E4 & _)%K E5 E6. apply (U j k p1 q1); congruence.
    + intros j p (p1 & Hj & _ & _ & Hle)%K. pose proof (N j p1 Hj). lia.
    + intros j p (p1 & Hj & E1 & _)%K. rewrite E1. by eapply F.
  - destruct Hg as (Hn & Hf & ->).
    assert (Hnone : forall j q, fund_positions d !! j = Some q -> fundID = fp_FundID q -> userID = fp_UserID q -> False)
      by (intros j q Hj E1 E2; by eapply position_of_None).
    split; cbn.
    + intros j k p q [[<- <-]|[_ Hj]]%lookup_insert_Some [[<- <-]|[_ Hk]]%lookup_insert_Some; cbn; intros E1 E2; [done|..].
      * by destruct (Hnone k q).
      * by destruct (Hnone j p).
      * by apply (U j k p q).
    + intros j p [[<- <-]|[_ Hj]]%lookup_insert_Some; [done|by apply (N j)].
    + intros j p [[<- <-]|[_ Hj]]%lookup_insert_Some; [done|by apply (F j)].
Qed.

Lemma positions_shrunk posID remaining d : positions_ok d -> positions_ok (shrunk posID remaining d).
Proof.
  intros [U N F]. unfold shrunk. destruct (f64_leb remaining (f64_lit 1 3)) eqn:E.
  - split; cbn.
    + intros j k p q [_ Hj]%lookup_delete_Some [_ Hk]%lookup_delete_Some. by apply (U j k p q).
    + intros j p [_ Hj]%lookup_delete_Some. by apply (N j).
    + intros j p [_ Hj]%lookup_delete_Some. by apply (F j).
  - assert (Hq : 0 <= to_units (arg remaining)) by (by apply to_units_nonneg, decimal.numeric_of_float64_nonneg, above_thousandth).
    assert (K : forall j p, alter (with_invested (to_units (arg remaining))) posID (fund_positions d) !! j = Some p ->
      exists p1, fund_positions d !! j = Some p1 /\ fp_FundID p = fp_FundID p1 /\ fp_UserID p = fp_UserID p1 /\ 0 <= fp_InvestedRSD p).
    { intros j p [(<- & p1 & Hj & ->)|[_ Hj]]%lookup_alter_Some; eexists; (split_and!; [done..|]); [done|by eapply N]. }
    split; cbn.
    + intros j k p q (p1 & Hj & E1 & E2 & _)%K (q1 & Hk & E3 & E4 & _)%K E5 E6. apply (U j k p1 q1); congruence.
    + by intros j p (p1 & _ & _ & _ & Hle)%K.
    + intros j p (p1 & Hj & E1 & _)%K. rewrite E1. by eapply F.
Qed.

Lemma raised_positions fundID a qs d d' : raised fundID a qs d d' -> positions_ok d -> positions_ok d'.
Proof.
  intros [_ _ [_ Hb] _]. apply positions_same; unfold fund_positions, investment_funds, fund_db; by rewrite Hb.
Qed.

Lemma positions_withdrawn fundID userID accountID posID invested amount netRSD all p details d d' :
  withdrawn_db fundID userID accountID posID invested amount netRSD all p details d d' -> positions_ok d -> positions_ok d'.
Proof.
  intros Hw%withdrawn_raised. revert Hw. destruct (locked_fund fundID d) as [[a m] c].
  intros (qs & d1 & paid & now & Hr & _ & ->) H. apply (raised_positions _ _ _ _ _ Hr) in H.
  eapply (positions_same (shrunk posID (f64_sub invested amount) (booked _ _ (set_cash fundID (cash_out (arg paid)) d1)))); [done|done|].
  apply positions_shrunk. refine (positions_same d1 _ _ _ H); [done|by intros].
Qed.

Lemma CreateFund_positions fuel input e w r w' :
  CreateFund fuel input e w = (r, w') -> positions_ok (w_db w) -> positions_ok (w_db w').
Proof.
  unfold CreateFund. intros H Hb.
  apply bind_cases in H as [(rsd & w1 & E1%rsdCurrencyID_reads & H)|(er & _ & E1%rsdCurrencyID_reads)]; [|by rewrite <- E1].
  rewrite E1 in Hb. clear E1.
  assert (K : forall i d d', account_added (to_cents (arg f64_zero)) i d d' -> positions_ok d -> positions_ok d').
  { intros i d d' (row & _ & _ & _ & Hf & _). apply positions_same; unfold fund_positions, investment_funds; by rewrite Hf. }
  apply bind_cases in H as [(o & w2 & H2%CreateAccount_ok & H)|(er & _ & [[-> _]|(? & [=] & _)]%CreateAccount_ok)]; [|done].
  assert (Hb2 : positions_ok (w_db w2)) by (destruct H2 as [[-> _]|(i & _ & Ha)]; [done|by eapply K]).
  destruct o as [i|]; [|by injection H as _ <-].
  apply bind_cases in H as [(now & w3 & [= <- <-] & H)|(er & _ & [=])].
  apply bind_cases in H as [(fund & w4 & H & [= _ <-])|(er & _ & H)]; unfold fundRepo_Create in H.
  - apply bind_ok in H as (now & w5 & [= <- <-] & H). apply bind_ok in H as (kv & w6 & H6 & [= _ <-]).
    apply sql_insert_ok in H6 as (d & H6 & ->). apply insert_fund_ok in H6 as (row & N1 & N2 & _ & _ & _ & N6 & _).
    eapply positions_same; [exact N6| |exact Hb2]. intros id Hid. rewrite N2. destruct (decide (id = w_seq w2)) as [->|Hne].
    + rewrite lookup_insert_is_Some. by left.
    + by apply lookup_insert_is_Some'; right.
  - apply bind_cases in H as [(now & w5 & [= <- <-] & H)|(er' & _ & [=])].
    apply bind_cases in H as [(kv & w6 & H6 & [=])|(er' & _ & H6)]. unfold sql_insert in H6.
    apply sql_err_db in H6. by rewrite H6.
Qed.

(** A request of any kind, naming any accounts, or whatever leaves the positions alone
    and the funds in place. *)
Inductive request_step : World -> World -> Prop :=
  | request_create fuel claims body e w r w' : createFund fuel claims body e w = (r, w') -> request_step w w'
  | request_invest claims fundID body e w r w' : invest spreadRate claims fundID body e w = (r, w') -> request_step w w'
  | request_withdraw claims fundID body e w r w' : withdraw spreadRate claims fundID body e w = (r, w') -> request_step w w'
  | request_sell claims fundID ticker e w r w' :
      sellSecurity spreadRate claims fundID ticker e w = (r, w') -> w_depth w = O -> request_step w w'
  | request_other w w' :
      fund_positions (w_db w') = fund_positions (w_db w) ->
      (forall id, is_Some (investment_funds (w_db w) !! id) -> is_Some (investment_funds (w_db w') !! id)) -> request_step w w'.

Lemma request_step_positions w w' : request_step w w' -> positions_ok (w_db w) -> positions_ok (w_db w').
Proof.
  intros [fuel claims body e w0 r w0' H|claims fundID body e w0 r w0' H|claims fundID body e w0 r w0' H
         |claims fundID ticker e w0 r w0' H Hd|w0 w0' H1 H2] Hb.
  - unfold createFund in H. destruct (negb _); [by injection H as _ <-|].
    destruct (ParseInt _) as [m []]; [|by injection H as _ <-]. destruct body as [req|]; [|by injection H as _ <-].
    destruct (_ || _); [by injection H as _ <-|]. apply try_bind in H as (f & w1 & H1%CreateFund_positions & H); [|done].
    destruct f as [[fund|]|]; try by injection H as _ <-.
    apply bind_cases in H as [(num & w2 & H2%account_number_reads & [= _ <-])|(er & _ & H2%account_number_reads)]; by rewrite <- H2.
  - apply invest_ok in H as [(code & _ & _ & ->)|H]; [done|].
    destruct H as (callerID & req & accountID & _ & _ & _ & Ha & _ & _ & fund & quote & _ & _ & _ & _ & Hi).
    eapply positions_invested; [|done..]. by apply ltb_leb_zero.
  - apply withdraw_ok in H as [(code & _ & _ & ->)|H]; [done|].
    destruct H as (callerID & req & accountID & reply & _ & _ & _ & _ & _ & posID & pos & p & o & det & _ & _ & _ & _ & _ & _ & Hw).
    by eapply positions_withdrawn.
  - apply sellSecurity_ok in H as [(code & _ & _ & ->)|(reply & _ & H)]; [done| |done].
    destruct H as (_ & sec & s & _ & _ & _ & _ & _ & _ & H). unfold sold_db in H.
    destruct (locked_fund fundID (w_db w0)) as [[a m] c]. eapply positions_same; [..|exact Hb].
    + destruct H as [->|(i & o & _ & _ & _ & _ & ->)]; done.
    + intros id. destruct H as [->|(i & o & _ & _ & _ & _ & ->)]; done.
  - by eapply positions_same.
Qed.

(** C37: Over any sequence of requests to create funds, to invest, to withdraw and to
    sell, whatever accounts they name and whatever fails, and of other work that leaves
    the positions alone and deletes no fund: an investor has one position in a fund, in a
    fund that exists, and what it says was invested is never negative. *)
Theorem fund_positions_hold w w' :
  rtc request_step w w' -> positions_ok (w_db w) -> positions_ok (w_db w').
Proof. induction 1 as [|w w1 w' Hs _ IH]; [done|]. intros Hp. by eapply IH, request_step_positions. Qed.

End books.

(** ** A fund with one security

    Client 7 has a dinar and a euro account; client 8 invested 5000 dinars earlier, of
    which the fund has 300 left and ten shares.  The fund's account 20 is an active
    dinar account of the bank's user, as are the treasury's. *)

Module fund_bank.
#[local] Existing Instance decimal_model.lib.
#[local] Existing Instance decimal_model.laws.

#[local] Instance texts : pg.Text := {|
  pg.uuid_in s := if String.eqb s EmptyString then None else Some (Npos (encode s));
  pg.uuid_out n := pretty n;
  pg.ilike _ _ := true |}.

Definition racuni : gmap Z racun :=
list_to_map
  [(10, mkRacun "100" 7 "RSD" LICNI AKTIVAN 5000000 0 scenario.no_info);
   (11, mkRacun "110" 7 "EUR" LICNI AKTIVAN 100000 0 scenario.no_info);
   (12, mkRacun "120" 8 "RSD" LICNI AKTIVAN 0 0 scenario.no_info);
   (18, mkRacun "666000122200000007" 2 "RSD" POSLOVNI AKTIVAN 100000000 0 scenario.no_info);
   (19, mkRacun "666000122200000009" 2 "EUR" POSLOVNI AKTIVAN 100000000 0 scenario.no_info);
   (20, mkRacun "666000122200000012" 2 "RSD" POSLOVNI AKTIVAN 30000 0 scenario.no_info)].

Definition fond : investmentFundModel := mkFundModel "Fond" "" 100000 (Some 20) 6 0.

Definition db1 : DB :=
  mkDB racuni [] ∅ [] [] [] ∅ [] {[1 := 30000]} {[(1, 1) := mkFundSecurity 10000000 2000000]} ∅ ∅ ∅
    (mkBankDB {[3 := mkValuta "dinar" "RSD" true]} ∅ ∅ ∅ ∅ ∅ ∅ ∅ ∅
       (mkFundDB {[1 := fond]} {[1 := mkFundPosition 1 8 12 50000000]} [] []))
    otc_empty.
Definition w1 : World := scenario.at_db db1.
Definition e1 : Env := scenario.quiet.

Definition client (subject : string) : AccessClaims := mkClaims "pera@raf.rs" "CLIENT" [] subject.
Definition boss : AccessClaims := mkClaims "sava@raf.rs" "EMPLOYEE" ["SUPERVISOR"] "6".

Definition paying (account : string) (amount : Z) : option investRequest := Some (mkInvestRequest account (f64_of_Z amount)).
Definition taking (account : string) (amount : Z) (all : bool) : option withdrawRequest :=
  Some (mkWithdrawRequest account (f64_of_Z amount) all).

Definition invested := invest scenario.rate (client "7") 1 (paying "10" 10000) e1 w1.
Definition part := withdraw scenario.rate (client "7") 1 (taking "10" 4000 false) e1 invested.2.
Definition rest := withdraw scenario.rate (client "8") 1 (taking "12" 0 true) e1 w1.
Definition sold := sellSecurity scenario.rate boss 1 "aapl" e1 w1.
Definition created := createFund 3 boss (Some (mkCreateFundRequest " Novi " "" (f64_of_Z 10))) e1 w1.

Definition code {A} (r : result (Z * A)) : option Z := match r with Ok x => Some x.1 | Err _ => None end.
Definition balance (id : Z) (w : World) : option Z := r_stanje_racuna <$> d_racun (w_db w) !! id.
Definition positions (w : World) : list (Z * Z * Z) :=
  (fun p => (fp_FundID p, fp_UserID p, fp_InvestedRSD p)) <$> (map_to_list (fund_positions (w_db w))).*2.
Definition cash (w : World) : Z := liquid 1 (w_db w).

(** In euros: 10000 dinars at the buying rate and half a percent. *)
Definition in_euros := invest scenario.rate (client "7") 1 (paying "11" 10000) e1 w1.

Example requests_run :
  (code invested.1, balance 10 invested.2, balance 20 invested.2, cash invested.2, positions invested.2) =
    (Some 200, Some 4000000, Some 1030000, 1030000, [(1, 7, 100000000); (1, 8, 50000000)]) /\
  (code part.1, balance 10 part.2, balance 20 part.2, cash part.2, positions part.2) =
    (Some 200, Some 4396000, Some 634000, 634000, [(1, 7, 60000000); (1, 8, 50000000)]) /\
  (code in_euros.1, balance 20 in_euros.2, cash in_euros.2) = (Some 200, Some 1030000, 1030000) /\
  code (invest scenario.rate (client "7") 1 (paying "10" 999) e1 w1).1 = Some 400 /\
  code (withdraw scenario.rate (client "7") 1 (taking "10" 1 false) e1 w1).1 = Some 404.
Proof. vm_compute. done. Qed.

(** The cash is short of 4650 dinars: a part of the shares is sold. *)
Example shares_are_sold :
  (code rest.1, balance 12 rest.2, balance 20 rest.2, cash rest.2, positions rest.2) =
    (Some 200, Some 495000, Some 0, 0, []) /\
  (fs_quantity <$> d_fund_securities (w_db rest.2) !! (1, 1)) = Some 7842227 /\
  (code sold.1, balance 20 sold.2, cash sold.2) = (Some 200, Some 2185000, 2185000) /\
  d_fund_securities (w_db sold.2) !! (1, 1) = None.
Proof. vm_compute. done. Qed.

(** A third of a cent is refused by no guard: the position grows, no money moves. *)
Definition dust := invest scenario.rate boss 2 (Some (mkInvestRequest "10" (f64_lit 3 3))) e1
  (scenario.at_db (set_liquid_assets {[2 := 0]} (set_funds {[2 := mkFundModel "Novi" "" 0 None 6 0]} db1))).
Example dust_is_free :
  (code dust.1, balance 10 dust.2, liquid 2 (w_db dust.2), positions dust.2) =
    (Some 200, Some 5000000, 0, [(2, 2, 30); (1, 8, 50000000)]).
Proof. vm_compute. done. Qed.

(** ** The theorems, applied *)

Lemma pick_of n l : l <> [] -> Forall (fun id => id <> 0) l -> pick n l <> 0.
Proof.
  intros Hl Ha. destruct l as [|a l]; [done|]. unfold pick. rewrite Forall_forall in Ha. apply Ha, list_elem_of_In, nth_In.
  apply Nat.mod_upper_bound. done.
Qed.

Lemma fresh_position i : 1 < i -> fund_positions db1 !! i = None.
Proof. intros Hi. change (({[1 := mkFundPosition 1 8 12 50000000]} : gmap Z fundPositionModel) !! i = None). by rewrite lookup_singleton_ne by lia. Qed.

Ltac treasury := intros n; apply pick_of; vm_compute; [done|repeat constructor; done].
Ltac legs := cbn [legs_fit]; repeat split; intros ? Hr; vm_compute in Hr; try discriminate Hr; injection Hr as <-; vm_compute; done.
Ltac rows := repeat (apply Forall_cons_2; [split; [by vm_compute; eexists|by vm_compute]|]); apply Forall_nil_2.

Lemma euros_investable : investable scenario.rate e1 1 7 11 (f64_of_Z 10000) (w_seq w1) (w_db w1).
Proof.
  exists fond, (mkRacun "110" 7 "EUR" LICNI AKTIVAN 100000 0 scenario.no_info). split; [done|]. split; [by vm_compute|]. split; [done|]. split.
  - right. split; [treasury|]. split; [treasury|].
    intros n. eexists. split; [vm_compute; reflexivity|vm_compute; reflexivity].
  - intros [q [[a b]|]] H; unfold invest_price, picked in H; cbn [fq_treasuries fq_amount] in H.
    + destruct H as (acc & n & mid & Hacc & _ & _ & [_ [n1 E1]] & [_ [n2 E2]] & Hq & _ & Eq).
      vm_compute in Hacc. injection Hacc as <-. change (env_row_choice e1 n1) with O in E1. change (env_row_choice e1 n2) with O in E2.
      vm_compute in E1, E2, Hq. injection Hq as <-. subst a b. cbv zeta in Eq. vm_compute in Eq. subst q.
      split; [by vm_compute|]. split.
      * legs.
      * rows.
      * intros v Hv. vm_compute in Hv. injection Hv as <-. by vm_compute.
      * split; [by eexists; vm_compute|by vm_compute].
      * change (is_Some (investment_funds db1 !! 1) /\ is_Some (d_racun db1 !! 11) /\ forall i, 100 <= i -> fund_positions db1 !! i = None).
        split; [by eexists|]. split; [by eexists|]. intros i Hi. apply fresh_position. lia.
    + destruct H as [_ [[]|H]]. destruct (H _ eq_refl); discriminate.
Qed.

Lemma rest_withdrawable : withdrawable scenario.rate e1 false 1 8 12 (mkWithdrawRequest "12" (f64_of_Z 100) false) (w_db w1).
Proof.
  exists 1, (mkFundPosition 1 8 12 50000000), (mkRacun "120" 8 "RSD" LICNI AKTIVAN 0 0 scenario.no_info). cbv zeta.
  split; [by vm_compute|]. split; [by vm_compute|]. split; [by vm_compute|]. split; [done|]. split; [by left|].
  intros [c q [[a b]|]] H; unfold payout_price in H; cbn [py_treasuries py_credit] in H.
  - destruct H as (acc & n & mid & Hacc & Hr & _). vm_compute in Hacc. injection Hacc as <-. done.
  - destruct H as [Eq _]. vm_compute in Eq. subst c. split.
    + legs.
    + rows.
    + intros v Hv. vm_compute in Hv. injection Hv as <-. by vm_compute.
    + by vm_compute.
    + intros _. by eexists; vm_compute.
Qed.

Lemma invest_spec_witness :
  in_euros.1 = Ok (200, Invested (f64_of_Z 10000) 1) /\
  invest_accepted scenario.rate e1 (failing e1 w1) 1 7 11 (f64_of_Z 10000) (w_db w1) (w_db in_euros.2).
Proof.
  destruct (invest_spec scenario.rate (client "7") 1 (paying "11" 10000) e1 w1 in_euros.1 in_euros.2 (surjective_pairing _))
    as [Hspec Hserved].
  assert (E : in_euros.1 = Ok (200, Invested (f64_of_Z 10000) 1)).
  { refine (Hserved _ eq_refl eq_refl 7 (mkInvestRequest "11" (f64_of_Z 10000)) 11 _ _ eq_refl _ _ euros_investable);
      [by intros n|lia|by vm_compute..]. }
  split; [exact E|].
  destruct Hspec as [(c & Ec & Hc & _)|(callerID & req & accountID & _ & H1 & H2 & _ & H3 & _ & H4)].
  - exfalso. rewrite E in Ec. injection Ec as <- _. by apply Hc.
  - vm_compute in H1. injection H1 as <-. injection H2 as <-. vm_compute in H3. injection H3 as <-. exact H4.
Defined.

(** All of a position, for which shares are sold; and a hundred dinars out of the cash. *)
Lemma withdraw_spec_witness :
  (code rest.1 = Some 200 /\
   exists reply, withdraw_accepted scenario.rate e1 (failing e1 w1) false 1 8 12 (mkWithdrawRequest "12" (f64_of_Z 0) true) reply (w_db w1) (w_db rest.2)) /\
  exists reply, (withdraw scenario.rate (client "8") 1 (taking "12" 100 false) e1 w1).1 = Ok (200, reply).
Proof.
  split.
  - split; [by vm_compute|].
    destruct (withdraw_spec scenario.rate (client "8") 1 (taking "12" 0 true) e1 w1 rest.1 rest.2 (surjective_pairing _))
      as [[(c & E & Hc & _)|(callerID & req & accountID & reply & _ & H1 & H2 & H3 & _ & H4)] _].
    + exfalso. apply Hc. assert (Ec : code rest.1 = Some 200) by (by vm_compute). rewrite E in Ec. by injection Ec.
    + vm_compute in H1. injection H1 as <-. injection H2 as <-. vm_compute in H3. injection H3 as <-. by exists reply.
  - refine (proj2 (withdraw_spec scenario.rate (client "8") 1 (taking "12" 100 false) e1 w1 _ _ (surjective_pairing _)) _ eq_refl eq_refl
      8 (mkWithdrawRequest "12" (f64_of_Z 100) false) 12 _ _ eq_refl _ rest_withdrawable); [by intros n|lia|by vm_compute..].
Defined.

(** The server always takes the first row: no fund's account. *)
Definition apart_check (a : Z) (d : DB) : bool :=
  let fa := fund_account_ids d in
  negb (bool_decide (a ∈ fa)) && negb (bool_decide (0 ∈ fa)) &&
  forallb (fun kv => negb (bool_decide (pick 0 (racun_ids trezor_owner (r_oznaka kv.2) d) ∈ fa))) (map_to_list (d_racun d)).

Lemma fund_account_in a d : fund_account a d -> a ∈ fund_account_ids d.
Proof.
  intros (id & f & Hf & Ha). apply list_elem_of_omap. exists (id, f). split; [by apply elem_of_map_to_list|done].
Qed.

Lemma apart_quiet a d : apart_check a d = true -> apart e1 a d.
Proof.
  unfold apart_check. cbv zeta. rewrite !andb_true_iff, !negb_true_iff, !bool_decide_eq_false. intros [[Ha H0] Hall].
  split; [by intros ?%fund_account_in|]. intros n c Hf%fund_account_in. change (env_row_choice e1 n) with O in Hf.
  assert (Hn : pick 0 (racun_ids trezor_owner c d) <> 0) by (intros E; by rewrite E in Hf).
  destruct (racun_ids_active _ _ _ _ (pick_in _ _ Hn)) as (r & Hr & _ & _ & <-).
  rewrite forallb_forall in Hall. specialize (Hall (_, r) (proj1 (list_elem_of_In _ _) (proj2 (elem_of_map_to_list _ _ _) Hr))).
  cbn in Hall. apply negb_true_iff, bool_decide_eq_false in Hall. done.
Qed.

Lemma names_quiet s a d : parse_account s = Some a -> apart_check a d = true -> names_apart e1 (Some s) d.
Proof. intros Hs Ha s' a' [= <-] E. rewrite Hs in E. injection E as <-. by apply apart_quiet. Qed.

(** An investment and a withdrawal. *)
Lemma two_requests : rtc (fund_step scenario.rate true) w1 part.2.
Proof.
  eapply rtc_l.
  { eapply (step_invest _ _ (client "7") 1 (paying "10" 10000) e1 w1); [apply surjective_pairing|].
    apply (names_quiet "10" 10); by vm_compute. }
  apply rtc_once. eapply (step_withdraw _ _ (client "7") 1 (taking "10" 4000 false) e1 invested.2); [apply surjective_pairing| |].
  - apply (names_quiet "10" 10); by vm_compute.
  - intros _ callerID req posID pos H1 H2 H3. vm_compute in H1. injection H1 as <-. injection H2 as <-.
    vm_compute in H3. injection H3 as <- <-. vm_compute. by split.
Defined.

Lemma only_fund i f : investment_funds db1 !! i = Some f -> 1 = i /\ fond = f.
Proof. change (investment_funds db1) with ({[1 := fond]} : gmap Z investmentFundModel). apply lookup_singleton_Some. Defined.

Lemma only_position i p : fund_positions db1 !! i = Some p -> 1 = i /\ mkFundPosition 1 8 12 50000000 = p.
Proof.
  change (fund_positions db1) with ({[1 := mkFundPosition 1 8 12 50000000]} : gmap Z fundPositionModel). apply lookup_singleton_Some.
Defined.

Lemma start_agrees : books_agree true (w_db w1).
Proof.
  change (w_db w1) with db1. split.
  - intros i j f g a Hi Hj _ _ _. apply only_fund in Hi as [<- _]. by apply only_fund in Hj as [<- _].
  - intros i f a Hi Ha _. apply only_fund in Hi as [<- <-]. injection Ha as <-.
    exists (mkRacun "666000122200000012" 2 "RSD" POSLOVNI AKTIVAN 30000 0 scenario.no_info), 30000. by vm_compute.
Defined.

Lemma start_positions : positions_ok (w_db w1).
Proof.
  change (w_db w1) with db1. split.
  - intros i j p q Hi Hj _ _. apply only_position in Hi as [<- _]. by apply only_position in Hj as [<- _].
  - intros i p Hi. apply only_position in Hi as [<- <-]. by vm_compute.
  - intros i p Hi. apply only_position in Hi as [<- <-]. by eexists.
Defined.

(** And a new fund. *)
Definition founded_too := createFund 3 boss (Some (mkCreateFundRequest " Novi " "" (f64_of_Z 10))) e1 part.2.

Lemma three_requests : rtc (fund_step scenario.rate true) w1 founded_too.2.
Proof.
  eapply rtc_r; [exact two_requests|]. eapply step_create; [apply surjective_pairing|]. by vm_compute.
Defined.

Lemma fund_books_agree_witness :
  size (investment_funds (w_db founded_too.2)) = 2%nat /\
  founded (w_db w1) (w_db founded_too.2) /\ books_agree true (w_db founded_too.2).
Proof. split; [by vm_compute|]. exact (fund_books_agree scenario.rate true w1 founded_too.2 three_requests start_agrees). Defined.

(** A request may even name the account of the fund. *)
Definition from_the_fund := invest scenario.rate (client "7") 1 (paying "20" 1000) e1
  (scenario.at_db (set_racun (<[20 := mkRacun "666000122200000012" 2 "RSD" POSLOVNI AKTIVAN 300000 0 scenario.no_info]> racuni) db1)).

Lemma fund_positions_hold_witness :
  (code from_the_fund.1, balance 20 from_the_fund.2, cash from_the_fund.2) = (Some 200, Some 300000, 130000) /\
  positions_ok (w_db from_the_fund.2).
Proof.
  split; [by vm_compute|]. eapply (fund_positions_hold scenario.rate).
  - apply rtc_once. eapply request_invest. unfold from_the_fund. apply surjective_pairing.
  - refine (positions_same (w_db w1) _ _ _ start_positions); [done|by intros].
Defined.

End fund_bank.
