(* ===== verification/Dividends.v ===== *)
(** * Dividends ([worker/dividend_worker.go], [repository/dividend_payout_repository.go],
    [domain/dividend_payout.go])

    The worker looks twice a day whether it is the last business day of a quarter and
    then pays the holders of every stock with a dividend.  It uses no transaction and
    only logs errors, so every statement is under [try].  Days are those of UTC.  The
    ids and times of writing of [dividend_payouts], and [ListForUser], which shows the
    rows of a user, are left out.  At the end of the file: the calendar of the worker,
    what a payment does, that no listing is paid twice on a day, and a concrete bank. *)

From S2P Require Import Prelude Numeric DecimalModel Domain Tables Store StoreFacts OrderRepo OrderRepoFacts Market FundsManager FundsFacts.
From S2P Require Import FundsSafety FundsTransfers Scenario Engine InterbankExecutor GoMath AccountRepo PaymentRepo PaymentFacts OtcRepo Tax InvestmentFunds FundFacts.
From stdpp Require Import list relations sorting.
From Stdlib Require Import SpecFloat.
#[local] Open Scope string_scope.
#[local] Open Scope Z_scope.

(** ** The day *)

(** [t.Weekday()], from Sunday; 1 January 1970 was a Thursday. *)
Definition Weekday (day : Z) : Z := (day + 4) mod 7.
Definition is_weekend (day : Z) : bool := (Weekday day =? 6) || (Weekday day =? 0).

(** The loop that looks for the next business day: two steps at most. *)
Fixpoint skip_weekend (fuel : nat) (day : Z) : Z :=
  match fuel with
  | O => day
  | S fuel' => if is_weekend day then skip_weekend fuel' (day + 1) else day
  end.

Definition month_of_day (day : Z) : Z := (Date day).1.2.

(** March, June, September and December. *)
Definition quarter_end (m : Z) : bool := (m =? 2) || (m =? 5) || (m =? 8) || (m =? 11).

Definition isLastBusinessDayOfQuarterEnd (t : Z) : bool :=
  let day := truncate_day t in
  let m := month_of_day day in
  if negb (quarter_end m) then false
  else if is_weekend day then false
  else negb (month_of_day (skip_weekend 2 (day + 1)) =? m).

(** ** Data *)

(** A STOCK listing with a dividend, as the query joins it with its exchange and
    currency; the details are held as what [json.Unmarshal] makes of them, the
    [currency_id], which nothing reads, is left out. *)
Record dividendListingRow : Type := mkDividendListing {
  dv_ID : Z;
  dv_Ticker : string;
  dv_Price : float64;
  dv_Ask : float64;
  dv_DividendYield : option float64;
  dv_Currency : string
}.

Record dividendHolderRow : Type := mkDividendHolder {
  dh_UserID : Z;
  dh_AccountID : Z;
  dh_IsClient : bool;
  dh_NetShares : Z
}.

Record DividendPayout : Type := mkDividendPayout {
  pt_UserID : Z;
  pt_ListingID : Z;
  pt_Ticker : string;
  pt_Quantity : Z;
  pt_PriceOnDate : float64;
  pt_GrossAmount : float64;
  pt_TaxAmountRSD : float64;
  pt_NetAmount : float64;
  pt_Currency : string;
  pt_AccountID : option Z;
  pt_IsActuary : bool;
  pt_PaymentDate : Z
}.

(** The tables of listings belong to the refresher: what the query finds there. *)
Class DividendListings : Type := dividend_listings : nat -> list dividendListingRow.

Definition payouts (d : DB) : list dividendPayoutModel := fd_payouts (fund_db d).
Definition set_payouts (l : list dividendPayoutModel) (d : DB) : DB :=
  set_fund_db (mkFundDB (fd_funds (fund_db d)) (fd_positions (fund_db d)) (fd_transactions (fund_db d)) l) d.

(** NUMERIC(20, 6) *)
Definition store_payout (q : Q) : option Z := numeric_store 20 1000000 q.

(** ** The query for the holders *)

(** The shares of an order that count: all of it, or what was filled. *)
Definition shares_of (m : orderModel) : Z :=
  if bool_decide (om_Status m = OrderStatusDone) then om_Quantity m else om_Quantity m - om_RemainingPortions m.

Definition counts_for (listingID : Z) (dir : OrderDirection) (m : orderModel) : bool :=
  (om_ListingID m =? listingID) && bool_decide (om_Direction m = dir) &&
  ((bool_decide (om_Status m = OrderStatusDone) && om_IsDone m) ||
   (bool_decide (om_Status m = OrderStatusCanceled) && (0 <? om_Quantity m - om_RemainingPortions m))).

Definition orders_of (listingID : Z) (dir : OrderDirection) (d : DB) : list orderModel :=
  filter (fun m => counts_for listingID dir m = true) (snd <$> map_to_list (d_orders d)).

(** One row per user, account and kind of user; the sales of a user outside funds are
    subtracted from each of his rows. *)
Definition holders (listingID : Z) (d : DB) : list dividendHolderRow :=
  omap (fun '((user, account, isClient), rows) =>
      let sold := zsum shares_of
                    (filter (fun m => om_UserID m = user /\ om_FundID m = None) (orders_of listingID OrderDirectionSell d)) in
      let net := zsum shares_of rows - sold in
      if 0 <? net then Some (mkDividendHolder user account isClient net) else None)
    (group_by (fun m => (om_UserID m, om_AccountID m, om_IsClient m)) (orders_of listingID OrderDirectionBuy d)).

Section worker.
Context `{DL : decimal.Lib} `{SL : DividendListings}.
Context (spreadRate : float64).

(** ** The repository *)

Definition payout_row (p : DividendPayout) : option dividendPayoutModel :=
  price ← store_payout (arg (pt_PriceOnDate p));
  gross ← store_payout (arg (pt_GrossAmount p));
  tax ← store_payout (arg (pt_TaxAmountRSD p));
  net ← store_payout (arg (pt_NetAmount p));
  if varchar 20 (pt_Ticker p) && varchar 10 (pt_Currency p)
  then Some (mkPayoutModel (pt_UserID p) (pt_ListingID p) (pt_Ticker p) (pt_Quantity p) price gross tax net (pt_Currency p)
               (pt_AccountID p) (pt_IsActuary p) (pt_PaymentDate p))
  else None.

Definition payoutRepo_Create (p : DividendPayout) : M unit :=
  sql (fun d => match payout_row p with
                | Some row => Ok (tt, set_payouts (payouts d ++ [row])%list d)
                | None => Err ErrDB
                end).

Definition of_period (listingID day : Z) (p : dividendPayoutModel) : bool :=
  (dp_ListingID p =? listingID) && (dp_PaymentDate p =? day).

Definition ExistsForPeriod (listingID day : Z) : M bool :=
  sql_read (fun d => existsb (of_period listingID day) (payouts d)).

(** ** Payments *)

(** The other half, [1 - fundReinvestRatio], goes to the clients of the fund. *)
Definition fundReinvestRatio : float64 := f64_lit 5 1.

(** 0 when there is no rate. *)
Definition toRSD (amount : float64) (currency : string) : M float64 :=
  if String.eqb currency "RSD" then mret amount
  else
    rates ← try (GetRates spreadRate);
    mret (match rates with
          | Ok rates => match find_rate currency rates with
                        | Some r => f64_mul amount (er_Srednji r)
                        | None => f64_zero
                        end
          | Err _ => f64_zero
          end).

(** [SELECT ... LIMIT 1] of the active accounts of a user in a currency; 0 when there
    is none or the query fails. *)
Definition some_account (userID : Z) (oznaka : string) : M Z :=
  ids ← try (sql_read (racun_ids userID oznaka));
  k ← io (fun e n => Ok (env_row_choice e n));
  mret (match ids with Ok ids => pick k ids | Err _ => 0 end).

(** The account of the order, an account in the currency of the listing, or one in
    dinars: its id, the currency recorded and the amount. *)
Definition findCreditAccount (h : dividendHolderRow) (listing : dividendListingRow) (netAmount : float64)
    : M (Z * string * float64) :=
  cnt ← (if dh_AccountID h =? 0 then mret false
         else r ← try (sql_read (fun d => match d_racun d !! dh_AccountID h with Some r => active r | None => false end));
              mret (match r with Ok b => b | Err _ => false end));
  if (cnt : bool) then mret (dh_AccountID h, dv_Currency listing, netAmount)
  else
    same ← some_account (dh_UserID h) (dv_Currency listing);
    if negb (same =? 0) then mret (same, dv_Currency listing, netAmount)
    else
      rsd ← some_account (dh_UserID h) "RSD";
      if negb (rsd =? 0) then
        netInRSD ← toRSD netAmount (dv_Currency listing);
        mret (rsd, "RSD", netInRSD)
      else mret (0, EmptyString, f64_zero).

Definition listing_price (listing : dividendListingRow) : float64 :=
  if f64_leb (dv_Ask listing) f64_zero then dv_Price listing else dv_Ask listing.

(** A quarter of the yearly dividend. *)
Definition gross_of (quantity price dividendYield : float64) : float64 :=
  f64_mul (f64_mul quantity price) (f64_div dividendYield (f64_of_Z 4)).

Definition payHolder (listing : dividendListingRow) (h : dividendHolderRow) (dividendYield : float64) (today : Z) : M unit :=
  let price := listing_price listing in
  let grossAmount := gross_of (f64_of_Z (dh_NetShares h)) price dividendYield in
  let taxAmountNative := if dh_IsClient h then f64_mul grossAmount (f64_lit 15 2) else f64_zero in
  let netAmount := if dh_IsClient h then f64_mul grossAmount (f64_lit 85 2) else grossAmount in
  taxAmountRSD ← toRSD taxAmountNative (dv_Currency listing);
  credit ← findCreditAccount h listing netAmount;
  let '(accountID, currency, creditNet) := credit in
  if accountID =? 0 then mret tt
  else
    r ← try (exec_racun accountID (add_stanje (arg creditNet)));
    match r with
    | Err _ => mret tt
    | Ok _ =>
        try (payoutRepo_Create (mkDividendPayout (dh_UserID h) (dv_ID listing) (dv_Ticker listing) (dh_NetShares h) price
               grossAmount taxAmountRSD creditNet currency (Some accountID) (negb (dh_IsClient h)) today)) ;;
        mret tt
    end.

(** *** Funds *)

(** The loop over the clients of a fund; it threads what was paid. *)
Fixpoint pay_positions (listing : dividendListingRow) (holding : FundHolding) (distributeRSD price totalInvested : float64)
    (today : Z) (positions : list ClientFundPosition) (totalDistributed : float64) : M float64 :=
  match positions with
  | [] => mret totalDistributed
  | pos :: positions' =>
      let next := pay_positions listing holding distributeRSD price totalInvested today positions' in
      if f64_leb (cp_TotalInvestedRSD pos) f64_zero then next totalDistributed
      else
        let share := f64_div (cp_TotalInvestedRSD pos) totalInvested in
        let clientRSD := f64_mul distributeRSD share in
        rsdAccountID ← some_account (cp_UserID pos) "RSD";
        if rsdAccountID =? 0 then next totalDistributed
        else
          let taxRSD := f64_mul clientRSD (f64_lit 15 2) in
          let netRSD := f64_mul clientRSD (f64_lit 85 2) in
          r ← try (exec_racun rsdAccountID (add_stanje (arg netRSD)));
          match r with
          | Err _ => next totalDistributed
          | Ok _ =>
              let effectiveShares := int64_of_f64 (math.Round (f64_mul (fh_Quantity holding) share)) in
              try (payoutRepo_Create (mkDividendPayout (cp_UserID pos) (dv_ID listing) (dv_Ticker listing) effectiveShares
                     price clientRSD taxRSD netRSD "RSD" (Some rsdAccountID) false today)) ;;
              next (f64_add totalDistributed netRSD)
          end
  end.

Definition distributeFundDividend (listing : dividendListingRow) (holding : FundHolding) (distributeRSD price : float64)
    (today : Z) : M unit :=
  positions ← try (GetPositions (fh_FundID holding));
  match positions with
  | Err _ | Ok [] => mret tt
  | Ok positions =>
      total ← try (GetTotalInvested (fh_FundID holding));
      match total with
      | Err _ => mret tt
      | Ok totalInvested =>
          if f64_leb totalInvested f64_zero then mret tt
          else
            totalDistributed ← pay_positions listing holding distributeRSD price totalInvested today positions f64_zero;
            if f64_ltb f64_zero totalDistributed then
              try (exec_racun (fh_AccountID holding) (sub_stanje (arg totalDistributed))) ;;
              try (DeductLiquidAssets (fh_FundID holding) totalDistributed) ;;
              mret tt
            else mret tt
      end
  end.

Definition payOneFund (listing : dividendListingRow) (dividendYield price priceRSD : float64) (today : Z) (holding : FundHolding)
    : M unit :=
  if fh_AccountID holding =? 0 then mret tt
  else
    grossRSD ← toRSD (gross_of (fh_Quantity holding) price dividendYield) (dv_Currency listing);
    if f64_leb grossRSD f64_zero then mret tt
    else
      credited ← try (exec_racun (fh_AccountID holding) (add_stanje (arg grossRSD)));
      match credited with
      | Err _ => mret tt
      | Ok _ =>
          try (AddLiquidAssets (fh_FundID holding) grossRSD) ;;
          let reinvestRSD := f64_mul grossRSD fundReinvestRatio in
          let distributeRSD := f64_mul grossRSD (f64_lit 5 1) in
          (if f64_ltb f64_zero priceRSD then
             bought ← try (AddSecurityQuantity (fh_FundID holding) (dv_ID listing) (f64_div reinvestRSD priceRSD) reinvestRSD);
             match bought with
             | Err _ => mret tt
             | Ok _ =>
                 try (exec_racun (fh_AccountID holding) (sub_stanje (arg reinvestRSD))) ;;
                 try (DeductLiquidAssets (fh_FundID holding) reinvestRSD) ;;
                 mret tt
             end
           else mret tt) ;;
          distributeFundDividend listing holding distributeRSD price today
      end.

Definition payFundDividends (listing : dividendListingRow) (dividendYield : float64) (today : Z) : M unit :=
  holdings ← try (ListFundsByListingID (dv_ID listing));
  match holdings with
  | Err _ => mret tt
  | Ok holdings =>
      let price := listing_price listing in
      priceRSD ← toRSD price (dv_Currency listing);
      for_each holdings (payOneFund listing dividendYield price priceRSD today)
  end.

(** ** The run *)

Definition loadFundAccountIDs : M (list Z) :=
  r ← try (sql_read fund_account_ids);
  mret (match r with Ok ids => ids | Err _ => [] end).

(** The body of the loop over the listings. *)
Definition distribute_one (fundAccountIDs : list Z) (today : Z) (listing : dividendListingRow) : M unit :=
  exists_ ← try (ExistsForPeriod (dv_ID listing) today);
  match exists_ with
  | Err _ | Ok true => mret tt
  | Ok false =>
      match dv_DividendYield listing with
      | None => mret tt
      | Some dividendYield =>
          if f64_leb dividendYield f64_zero then mret tt
          else
            hs ← try (sql_read (holders (dv_ID listing)));
            match hs with
            | Err _ => mret tt
            | Ok hs =>
                for_each hs (fun h => if bool_decide (dh_AccountID h ∈ fundAccountIDs) then mret tt
                                      else payHolder listing h dividendYield today) ;;
                payFundDividends listing dividendYield today
            end
      end
  end.

Definition distribute (now : Z) : M unit :=
  let today := truncate_day now in
  fundAccountIDs ← loadFundAccountIDs;
  ok ← try (sql_read (fun _ => tt));
  match ok with
  | Err _ => mret tt
  | Ok _ =>
      listings ← io (fun _ n => Ok (dividend_listings n));
      for_each listings (distribute_one fundAccountIDs today)
  end.

Definition runIfDue (now : Z) : M unit :=
  if isLastBusinessDayOfQuarterEnd now then distribute now else mret tt.

(** The ticker: [fuel] ticks at most, while the others work in between. *)
Fixpoint DividendWorker_Start (fuel : nat) : M unit :=
  match fuel with
  | O => mret tt
  | S fuel' =>
      sleep ;;
      stop ← ctx_done;
      if (stop : bool) then mret tt
      else now ← time_now; runIfDue now ;; DividendWorker_Start fuel'
  end.

End worker.

(** ** The calendar of the worker *)

Lemma Weekday_next day : Weekday (day + 1) = if Weekday day =? 6 then 0 else Weekday day + 1.
Proof.
  unfold Weekday. pose proof (Z.div_mod (day + 4) 7 ltac:(lia)) as E. pose proof (Z.mod_pos_bound (day + 4) 7 ltac:(lia)) as B.
  destruct (Z.eqb_spec ((day + 4) mod 7) 6); symmetry.
  - apply (Z.mod_unique _ 7 ((day + 4) / 7 + 1)); lia.
  - apply (Z.mod_unique _ 7 ((day + 4) / 7)); lia.
Qed.

(** A Saturday and a Sunday, and no other day. *)
Lemma is_weekend_next day : is_weekend day = true ->
  Weekday day = 6 /\ is_weekend (day + 1) = true /\ is_weekend (day + 1 + 1) = false \/
  Weekday day = 0 /\ is_weekend (day + 1) = false.
Proof.
  unfold is_weekend. rewrite !Weekday_next. destruct (Z.eqb_spec (Weekday day) 6) as [->|]; [by left|]. cbn [orb].
  intros ->%Z.eqb_eq. by right.
Qed.

Lemma skip_weekend_spec day :
  let n := skip_weekend 2 day in
  day <= n <= day + 2 /\ is_weekend n = false /\ forall k, day <= k < n -> is_weekend k = true.
Proof.
  cbv zeta. cbn [skip_weekend]. destruct (is_weekend day) eqn:E; [|split_and!; [lia..|done|lia]].
  destruct (is_weekend_next day E) as [(_ & E1 & E2)|[_ E1]]; rewrite E1; split_and!; try lia; try done.
  - intros k Hk. by assert (k = day \/ k = day + 1) as [->| ->] by lia.
  - intros k Hk. by assert (k = day) as -> by lia.
Qed.

Lemma month_of_day_in day y m : 0 <= m <= 11 -> nth_month y m <= day < nth_month y (m + 1) -> month_of_day day = m.
Proof. intros Hm H. unfold month_of_day. by destruct (Date_unique day y m Hm H) as [d ->]. Qed.

(** A day of the next four weeks has another month. *)
Lemma month_of_day_next day y m : 0 <= m <= 11 -> nth_month y (m + 1) <= day < nth_month y (m + 1) + 28 -> month_of_day day <> m.
Proof.
  intros Hm H. pose proof (nth_month_next y (m + 1)) as Hn. destruct (decide (m = 11)) as [->|].
  - rewrite (month_of_day_in day (y + 1) 0); [lia..|].
    rewrite !(nth_month_index (y + 1)), !(nth_month_index y) in *.
    replace (12 * (y + 1) + 0) with (12 * y + (11 + 1)) by lia. replace (12 * (y + 1) + (0 + 1)) with (12 * y + (11 + 1 + 1)) by lia. lia.
  - rewrite (month_of_day_in day y (m + 1)); lia.
Qed.

(** The test of the worker, in words. *)
Lemma last_business_day_spec y m t :
  0 <= m <= 11 -> nth_month y m <= truncate_day t < nth_month y (m + 1) ->
  isLastBusinessDayOfQuarterEnd t = true <->
  quarter_end m = true /\ is_weekend (truncate_day t) = false /\
  forall k, truncate_day t < k < nth_month y (m + 1) -> is_weekend k = true.
Proof.
  intros Hm Hd. unfold isLastBusinessDayOfQuarterEnd. rewrite (month_of_day_in _ y m Hm Hd).
  destruct (quarter_end m); cbn [negb]; [|split; [done|by intros (? & _)]].
  destruct (is_weekend (truncate_day t)); [split; [done|by intros (_ & ? & _)]|].
  destruct (skip_weekend_spec (truncate_day t + 1)) as (Hn & Hb & Hw).
  set (next := skip_weekend 2 (truncate_day t + 1)) in *. clearbody next. rewrite negb_true_iff, Z.eqb_neq. split.
  - intros Hne. split_and!; [done..|]. intros k Hk. apply Hw. split; [lia|].
    destruct (Z.lt_ge_cases next (nth_month y (m + 1))) as [Hl|]; [|lia].
    destruct Hne. apply (month_of_day_in next y m Hm). lia.
  - intros (_ & _ & Hall). destruct (Z.lt_ge_cases next (nth_month y (m + 1))) as [Hl|Hg].
    + rewrite Hall in Hb; [done|lia].
    + apply (month_of_day_next next y m Hm). lia.
Qed.

(** The last weekday before a day. *)
Lemma weekday_before e : exists day, e - 3 <= day < e /\ is_weekend day = false /\ forall k, day < k < e -> is_weekend k = true.
Proof.
  destruct (is_weekend (e - 1)) eqn:E1; [|exists (e - 1); split_and!; [lia..|done|lia]].
  destruct (is_weekend (e - 2)) eqn:E2.
  - exists (e - 3). split_and!; [lia..| |intros k Hk; by assert (k = e - 1 \/ k = e - 2) as [->| ->] by lia].
    destruct (is_weekend (e - 3)) eqn:E3; [|done].
    destruct (is_weekend_next _ E3) as [(_ & _ & N)|(_ & N)];
      [replace (e - 3 + 1 + 1) with (e - 1) in N by lia|replace (e - 3 + 1) with (e - 2) in N by lia]; congruence.
  - exists (e - 2). split_and!; [lia..|done|intros k Hk; by assert (k = e - 1) as -> by lia].
Qed.

(** C38: In March, June, September and December of every year there is exactly one day on
    which the worker pays, one of the last three: the last that is neither a Saturday
    nor a Sunday; in the other months there is none.  Whatever the time of the day. *)
Theorem one_dividend_day_per_quarter y m :
  0 <= m <= 11 ->
  if quarter_end m then
    exists day, nth_month y (m + 1) - 3 <= day < nth_month y (m + 1) /\ is_weekend day = false /\
      (forall k, day < k < nth_month y (m + 1) -> is_weekend k = true) /\
      forall t, nth_month y m <= truncate_day t < nth_month y (m + 1) ->
        isLastBusinessDayOfQuarterEnd t = true <-> truncate_day t = day
  else forall t, nth_month y m <= truncate_day t < nth_month y (m + 1) -> isLastBusinessDayOfQuarterEnd t = false.
Proof.
  intros Hm. destruct (quarter_end m) eqn:Eq.
  - destruct (weekday_before (nth_month y (m + 1))) as (day & Hd & Hb & Hw). exists day. split_and!; [lia..|done|done|].
    intros t Ht. rewrite (last_business_day_spec y m t Hm Ht). split.
    + intros (_ & Hb' & Hw'). destruct (Z.lt_trichotomy (truncate_day t) day) as [L|[L|L]]; [|done|].
      * rewrite Hw' in Hb by lia. done.
      * rewrite Hw in Hb' by lia. done.
    + intros ->. done.
  - intros t Ht. apply not_true_is_false. rewrite (last_business_day_spec y m t Hm Ht). intros (H & _). congruence.
Qed.

(** ** What a run records *)

(** Rows of one listing and day are added to [dividend_payouts]. *)
Definition records (listingID today : Z) (d d' : DB) : Prop :=
  exists rows, payouts d' = (payouts d ++ rows)%list /\ Forall (fun p => of_period listingID today p = true) rows.

#[export] Instance records_preorder listingID today : PreOrder (records listingID today).
Proof.
  split.
  - intros d. exists []. by rewrite app_nil_r.
  - intros d1 d2 d3 (r1 & E1 & F1) (r2 & E2 & F2). exists (r1 ++ r2)%list. rewrite E2, E1, app_assoc. split; [done|]. by apply Forall_app.
Qed.

Section records.
Context `{DL : decimal.Lib} `{SL : DividendListings}.
Context (spreadRate : float64) (listingID today : Z).

Lemma records_same d d' : payouts d' = payouts d -> records listingID today d d'.
Proof. intros E. exists []. by rewrite E, app_nil_r. Qed.

Lemma exec_racun_records id f : preserves (records listingID today) (exec_racun id f).
Proof.
  unfold exec_racun. apply preserves_bind; [apply _| |intros; apply preserves_ret; apply _]. apply preserves_sql; [apply _|].
  intros d n d' H. apply records_same. revert H. unfold update_racun. destruct (d_racun d !! id); [|by intros [= _ <-]].
  destruct (f _); [|discriminate]. by intros [= _ <-].
Qed.

Lemma AddLiquidAssets_records id x : preserves (records listingID today) (AddLiquidAssets id x).
Proof.
  unfold AddLiquidAssets. apply preserves_sql; [apply _|]. intros d u d' H. apply records_same.
  destruct (d_liquid_assets d !! id); [|by injection H as _ <-]. destruct (store_cents _); [|discriminate]. by injection H as _ <-.
Qed.

Lemma DeductLiquidAssets_records id x : preserves (records listingID today) (DeductLiquidAssets id x).
Proof.
  unfold DeductLiquidAssets. apply preserves_sql; [apply _|]. intros d u d' H. apply records_same. cbv zeta in H.
  destruct (d_liquid_assets d !! id); [|by injection H as _ <-]. destruct (store_cents _); [|discriminate]. by injection H as _ <-.
Qed.

Lemma AddSecurityQuantity_records f l q c : preserves (records listingID today) (AddSecurityQuantity f l q c).
Proof.
  unfold AddSecurityQuantity. apply preserves_sql; [apply _|]. intros d u d' H. apply records_same. cbv zeta in H.
  destruct (numeric_store _ _ _); [|discriminate]. destruct (store_cents _); [|discriminate].
  destruct (numeric_store _ _ _); [|discriminate]. destruct (store_cents _); [|discriminate]. by injection H as _ <-.
Qed.

Lemma payout_row_period p row : payout_row p = Some row -> dp_ListingID row = pt_ListingID p /\ dp_PaymentDate row = pt_PaymentDate p.
Proof.
  unfold payout_row. intros H. simplify_option_eq. destruct (_ && _); [|discriminate]. by injection H as <-.
Qed.

Lemma Create_records p : pt_ListingID p = listingID -> pt_PaymentDate p = today ->
  preserves (records listingID today) (payoutRepo_Create p).
Proof.
  intros E1 E2. apply preserves_sql; [apply _|]. intros d u d' H. destruct (payout_row p) as [row|] eqn:Er; [|discriminate].
  injection H as _ <-. apply payout_row_period in Er as [F1 F2]. exists [row]. split; [done|]. constructor; [|done].
  unfold of_period. by rewrite F1, F2, E1, E2, !Z.eqb_refl.
Qed.

Lemma toRSD_reads x c : reads (toRSD spreadRate x c).
Proof. unfold toRSD. solve_reads. Qed.
Lemma some_account_reads u c : reads (some_account u c).
Proof. unfold some_account. solve_reads. Qed.
#[local] Hint Resolve toRSD_reads some_account_reads : reads.
Lemma findCreditAccount_reads h l x : reads (findCreditAccount spreadRate h l x).
Proof. unfold findCreditAccount. solve_reads. Qed.
#[local] Hint Resolve findCreditAccount_reads : reads.
#[local] Hint Resolve exec_racun_records AddLiquidAssets_records DeductLiquidAssets_records AddSecurityQuantity_records : preserves.
#[local] Hint Extern 2 (preserves _ (payoutRepo_Create _)) => (apply Create_records; reflexivity) : preserves.

End records.

Section runs.
Context `{DL : decimal.Lib} `{SL : DividendListings}.
Context (spreadRate : float64).
#[local] Hint Resolve toRSD_reads some_account_reads findCreditAccount_reads : reads.
#[local] Hint Resolve exec_racun_records AddLiquidAssets_records DeductLiquidAssets_records AddSecurityQuantity_records : preserves.
#[local] Hint Extern 2 (preserves _ (payoutRepo_Create _)) => (apply Create_records; reflexivity) : preserves.

Lemma payHolder_records listing h y today : preserves (records (dv_ID listing) today) (payHolder spreadRate listing h y today).
Proof. unfold payHolder. solve_preserves. Qed.

Lemma pay_positions_records listing holding x price t today ps acc :
  preserves (records (dv_ID listing) today) (pay_positions listing holding x price t today ps acc).
Proof.
  revert acc. induction ps as [|pos ps IH]; intros acc; cbn [pay_positions]; cbv zeta; [apply preserves_ret; apply _|].
  solve_preserves; apply IH.
Qed.
#[local] Hint Resolve pay_positions_records : preserves.

Lemma payOneFund_records listing y price p today holding :
  preserves (records (dv_ID listing) today) (payOneFund spreadRate listing y price p today holding).
Proof. unfold payOneFund, distributeFundDividend, GetPositions, GetTotalInvested. solve_preserves. Qed.
End runs.

Section once.
Context `{DL : decimal.Lib} `{SL : DividendListings}.
Context (spreadRate : float64).
#[local] Hint Resolve toRSD_reads payHolder_records payOneFund_records : preserves reads.

(** One listing: nothing at all when it was paid that day. *)
Lemma distribute_one_paid ids today listing e w r w' :
  distribute_one spreadRate ids today listing e w = (r, w') ->
  existsb (of_period (dv_ID listing) today) (payouts (w_db w)) = true -> w_db w' = w_db w.
Proof.
  unfold distribute_one, ExistsForPeriod. intros H Hp. apply try_bind in H as (b & w1 & H1 & H). destruct b as [b|er].
  - apply sql_read_ok in H1 as [-> E1]. rewrite Hp in H. by injection H as _ <-.
  - apply sql_err_db in H1. by injection H as _ <-.
Qed.

Lemma distribute_one_records ids today listing :
  preserves (records (dv_ID listing) today) (distribute_one spreadRate ids today listing).
Proof.
  unfold distribute_one, ExistsForPeriod, payFundDividends, ListFundsByListingID. solve_preserves.
Qed.

(** The rows of a day and a listing, once there are some, are final. *)
Definition settled_on (listingID today : Z) (d : DB) : list dividendPayoutModel :=
  filter (fun p => of_period listingID today p = true) (payouts d).

Definition no_more (d d' : DB) : Prop :=
  (exists rows, payouts d' = (payouts d ++ rows)%list) /\
  forall listingID today, settled_on listingID today d <> [] -> settled_on listingID today d' = settled_on listingID today d.

#[export] Instance no_more_preorder : PreOrder no_more.
Proof.
  split.
  - intros d. split; [exists []; by rewrite app_nil_r|done].
  - intros d1 d2 d3 [(r1 & E1) H1] [(r2 & E2) H2]. split; [exists (r1 ++ r2)%list; by rewrite E2, E1, app_assoc|].
    intros l t Hn. rewrite H2, H1; [done..|]. by rewrite H1.
Qed.

Lemma no_more_eq d d' : payouts d' = payouts d -> no_more d d'.
Proof. intros E. split; [exists []; by rewrite E, app_nil_r|]. intros l t _. unfold settled_on. by rewrite E. Qed.

Lemma settled_exists l t d : existsb (of_period l t) (payouts d) = false -> settled_on l t d = [].
Proof.
  unfold settled_on. induction (payouts d) as [|p ps IH]; [done|]. cbn [existsb]. intros [Hp H]%orb_false_iff.
  rewrite filter_cons_False; [by apply IH|]. by rewrite Hp.
Qed.

Lemma distribute_one_no_more ids today listing : preserves no_more (distribute_one spreadRate ids today listing).
Proof.
  intros e w r w' H. destruct (existsb (of_period (dv_ID listing) today) (payouts (w_db w))) eqn:Ex.
  - apply no_more_eq. by rewrite (distribute_one_paid _ _ _ _ _ _ _ H Ex).
  - destruct (distribute_one_records _ _ _ _ _ _ _ H) as (rows & E & Hr). split; [by exists rows|]. intros l t Hn.
    unfold settled_on. rewrite E, filter_app. destruct (decide (l = dv_ID listing /\ t = today)) as [[-> ->]|Hne].
    + destruct Hn. by apply settled_exists.
    + rewrite <- (app_nil_r (filter _ (payouts (w_db w)))) at 2. f_equal. clear E.
      induction Hr as [|p rows Hp Hr IH]; [done|]. rewrite filter_cons_False; [done|].
      intros Hq. apply Hne. unfold of_period in Hp, Hq. lia.
Qed.
#[local] Hint Resolve distribute_one_no_more : preserves.

Lemma runIfDue_no_more now : preserves no_more (runIfDue spreadRate now).
Proof. unfold runIfDue, distribute, loadFundAccountIDs. solve_preserves. Qed.

Lemma loadFundAccountIDs_reads : reads loadFundAccountIDs.
Proof. unfold loadFundAccountIDs. solve_reads. Qed.

Lemma for_each_paid ids today listings e w r w' :
  for_each listings (distribute_one spreadRate ids today) e w = (r, w') ->
  (forall l, l ∈ listings -> existsb (of_period (dv_ID l) today) (payouts (w_db w)) = true) -> w_db w' = w_db w.
Proof.
  revert w. induction listings as [|l ls IH]; intros w H Hp; cbn [for_each] in H; [by injection H as _ <-|].
  apply bind_cases in H as [(u & w1 & H1 & H)|(er & _ & H1)]; apply distribute_one_paid in H1; try (apply Hp; set_solver); [|done].
  rewrite <- H1. eapply IH; [done|]. intros l' Hl. rewrite H1. apply Hp. set_solver.
Qed.

(** A tick of the worker, at any time, or whatever leaves the table of payouts alone. *)
Inductive dividend_step : World -> World -> Prop :=
  | step_tick now e w r w' : runIfDue spreadRate now e w = (r, w') -> dividend_step w w'
  | step_rest w w' : payouts (w_db w') = payouts (w_db w) -> dividend_step w w'.

Lemma dividend_steps_no_more w w' : rtc dividend_step w w' -> no_more (w_db w) (w_db w').
Proof.
  induction 1 as [|w w1 w' [now e w0 r w0' H|w0 w0' H] _ IH]; [reflexivity|..].
  - etransitivity; [|exact IH]. by eapply runIfDue_no_more.
  - etransitivity; [by apply no_more_eq|exact IH].
Qed.

(** C39: Whatever fails, and however often the worker looks: once a payout of a listing
    is recorded for a day, no other is ever added for that listing and day; and a run
    on a day for which every listing has a payout changes nothing at all. *)
Theorem dividends_paid_once w w' now e r w2 :
  rtc dividend_step w w' -> runIfDue spreadRate now e w' = (r, w2) ->
  (forall listingID today, settled_on listingID today (w_db w) <> [] ->
     settled_on listingID today (w_db w2) = settled_on listingID today (w_db w)) /\
  ((forall n l, l ∈ dividend_listings n -> settled_on (dv_ID l) (truncate_day now) (w_db w') <> []) -> w_db w2 = w_db w').
Proof.
  intros Hs H. split.
  - assert (K : no_more (w_db w) (w_db w2)) by (etransitivity; [by apply dividend_steps_no_more|by eapply runIfDue_no_more]).
    apply K.
  - intros Hall. unfold runIfDue in H. destruct (isLastBusinessDayOfQuarterEnd now); [|by injection H as _ <-].
    unfold distribute in H. apply bind_cases in H as [(ids & w3 & H3%loadFundAccountIDs_reads & H)|(er & _ & H3%loadFundAccountIDs_reads)]; [|done].
    apply try_bind in H as (ok & w4 & H4 & H). assert (E4 : w_db w4 = w_db w3).
    { destruct ok; [by apply sql_read_ok in H4 as [_ ->]|by apply sql_err_db in H4]. }
    rewrite H3, <- E4. destruct ok; [|by injection H as _ <-]. apply bind_cases in H as [(ls & w5 & [= <- <-] & H)|(er & _ & [=])].
    apply for_each_paid in H; [done|]. intros l Hl. cbn [next_step w_db]. rewrite E4, <- H3.
    specialize (Hall _ _ Hl). destruct (existsb _ _) eqn:Ex; [done|]. by apply settled_exists in Ex.
Qed.
End once.

(** ** What a holder is paid *)

Section payment.
Context `{DL : decimal.Lib} `{SL : DividendListings}.
Context (spreadRate : float64).

(** An amount in dinars at a moment: itself, or its worth at the middle rate that is
    quoted; nothing when the currency has no rate. *)
Definition in_dinars (e : Env) (n : nat) (currency : string) (x : float64) : float64 :=
  if String.eqb currency "RSD" then x
  else match quoted e n currency with Some mid => f64_mul x mid | None => f64_zero end.

Definition converted (e : Env) (currency : string) (x y : float64) : Prop := exists n, y = in_dinars e n currency x.

Lemma toRSD_ok x c e w r w' : toRSD spreadRate x c e w = (r, w') -> w_db w' = w_db w /\ exists y, r = Ok y /\ converted e c x y.
Proof.
  intros H. split; [symmetry; by eapply toRSD_reads|]. unfold toRSD, converted, in_dinars in *.
  destruct (String.eqb c "RSD"); [injection H as <- _; eexists; split; [done|]; by exists O|].
  apply try_bind in H as (rates & w1 & H1 & [= <- _]). apply GetRates_quoted in H1 as (_ & l & -> & Hq).
  eexists. split; [done|]. exists (w_step w). rewrite Hq. by destruct (quoted e (w_step w) c).
Qed.

(** An active account of a user in a currency. *)
Definition own_account (u : Z) (c : string) (d : DB) (id : Z) : Prop :=
  exists acc, d_racun d !! id = Some acc /\ r_id_vlasnika acc = u /\ r_status acc = AKTIVAN /\ r_oznaka acc = c.

Lemma own_account_ids u c d id : own_account u c d id <-> id ∈ racun_ids u c d.
Proof.
  split; [|apply racun_ids_active]. intros (acc & Ha & Hu & Hs & Hc). unfold racun_ids. rewrite merge_sort_Permutation.
  apply list_elem_of_fmap. exists (id, acc). split; [done|]. apply list_elem_of_filter. split; [done|]. by apply elem_of_map_to_list.
Qed.

Lemma pick_nonempty k x l : pick k (x :: l) ∈ x :: l.
Proof. unfold pick. apply list_elem_of_In, nth_In, Nat.mod_upper_bound. done. Qed.

(** The answer of a search: an account, or 0; 0 only if there is none, as long as no
    query is lost and no account has the number 0. *)
Definition searched (lost : Prop) (u : Z) (c : string) (d : DB) (id : Z) : Prop :=
  (id <> 0 /\ own_account u c d id) \/
  (id = 0 /\ (lost \/ is_Some (d_racun d !! 0) \/ forall i, ~ own_account u c d i)).

Lemma some_account_ok u c e w r w' : some_account u c e w = (r, w') ->
  w_db w' = w_db w /\ (failing e w' -> failing e w) /\ exists id, r = Ok id /\ searched (failing e w) u c (w_db w) id.
Proof.
  intros H. split; [symmetry; by eapply some_account_reads|].
  split; [assert (C : calm (some_account u c)) by (unfold some_account; solve_calm); by apply (C _ _ _ _ H)|].
  unfold some_account in H. apply try_bind in H as (ids & w1 & H1 & H).
  apply bind_cases in H as [(k & w2 & [= <- <-] & [= <- _])|(er & _ & [=])]. eexists. split; [done|].
  destruct ids as [ids|er]; [|right; split; [done|left; by eapply sql_read_failing]]. apply sql_read_ok in H1 as [-> _].
  set (id := pick _ _). destruct (decide (id = 0)) as [E|Hn].
  - right. split; [done|right]. destruct (racun_ids u c (w_db w)) as [|i0 l] eqn:El.
    + right. intros i Hi%own_account_ids. rewrite El in Hi. by apply elem_of_nil in Hi.
    + left. pose proof (pick_nonempty (env_row_choice e (w_step w1)) i0 l) as Hin. fold id in Hin. rewrite E, <- El in Hin.
      apply racun_ids_active in Hin as (acc & Ha & _). by exists acc.
  - left. split; [done|]. by apply racun_ids_active, (pick_in (env_row_choice e (w_step w1))).
Qed.

Definition order_account (h : dividendHolderRow) (d : DB) : Prop :=
  dh_AccountID h <> 0 /\ exists acc, d_racun d !! dh_AccountID h = Some acc /\ r_status acc = AKTIVAN.

(** Who is credited how much of [net], in which currency: the account of the order;
    only if that is none, an account in the listing's currency; only if there is none,
    one in dinars.  A lost query counts as none. *)
Inductive payee (e : Env) (lost : Prop) (h : dividendHolderRow) (listing : dividendListingRow) (net : float64) (d : DB) :
    option (Z * string * float64) -> Prop :=
  | payee_order :
      order_account h d -> payee e lost h listing net d (Some (dh_AccountID h, dv_Currency listing, net))
  | payee_currency id :
      (lost \/ ~ order_account h d) -> id <> 0 -> own_account (dh_UserID h) (dv_Currency listing) d id ->
      payee e lost h listing net d (Some (id, dv_Currency listing, net))
  | payee_dinars id x :
      (lost \/ ~ order_account h d) -> searched lost (dh_UserID h) (dv_Currency listing) d 0 ->
      id <> 0 -> own_account (dh_UserID h) "RSD" d id -> converted e (dv_Currency listing) net x ->
      payee e lost h listing net d (Some (id, "RSD", x))
  | payee_none :
      (lost \/ ~ order_account h d) -> searched lost (dh_UserID h) (dv_Currency listing) d 0 ->
      searched lost (dh_UserID h) "RSD" d 0 -> payee e lost h listing net d None.

Lemma searched_zero lost u c d : searched lost u c d 0 -> lost \/ is_Some (d_racun d !! 0) \/ forall i, ~ own_account u c d i.
Proof. by intros [[? _]|[_ H]]. Qed.

Lemma searched_mono (lost lost' : Prop) u c d id : (lost -> lost') -> searched lost u c d id -> searched lost' u c d id.
Proof. unfold searched. tauto. Qed.

Lemma findCreditAccount_ok h listing x e w r w' :
  findCreditAccount spreadRate h listing x e w = (r, w') ->
  w_db w' = w_db w /\ exists accountID currency creditNet, r = Ok (accountID, currency, creditNet) /\
    payee e (failing e w) h listing x (w_db w) (if accountID =? 0 then None else Some (accountID, currency, creditNet)).
Proof.
  intros H. split; [symmetry; by eapply findCreditAccount_reads|]. unfold findCreditAccount in H.
  apply bind_cases in H as [(cnt & w1 & H1 & H)|(er & -> & H1)].
  2: { exfalso. destruct (dh_AccountID h =? 0); [discriminate|]. by apply try_bind in H1 as (b & w2 & _ & [=]). }
  assert (E1 : w_db w1 = w_db w /\ (failing e w1 -> failing e w) /\
    (if cnt then order_account h (w_db w) else failing e w \/ ~ order_account h (w_db w))).
  { unfold order_account. destruct (Z.eqb_spec (dh_AccountID h) 0) as [E|Hn]; [injection H1 as <- <-; by split_and!; [..|right; intros [? _]]|].
    apply try_bind in H1 as (b & w2 & H1 & [= <- <-]). pose proof (calm_sql_read _ _ _ _ _ H1) as Hc.
    destruct b as [b|]; [|pose proof (sql_read_failing _ _ _ _ _ H1); split_and!; [by apply sql_err_db in H1|done|by left]].
    apply sql_read_ok in H1 as [-> ->]. split_and!; [done..|].
    destruct (d_racun (w_db w) !! dh_AccountID h) as [acc|]; [|right; by intros (_ & acc & ? & _)].
    unfold active. case_bool_decide as Hs; [split; [done|by exists acc]|right; intros (_ & acc' & [= <-] & ?); done]. }
  destruct E1 as (E1 & F1 & Hc). destruct cnt.
  { injection H as <- _. eexists _, _, _. split; [done|]. destruct (Z.eqb_spec (dh_AccountID h) 0) as [E|_]; [by destruct Hc|].
    by constructor. }
  apply bind_cases in H as [(id & w2 & H2 & H)|(er & -> & H2)]; apply some_account_ok in H2 as (E2 & F2 & id0 & [= <-] & Hid).
  apply (searched_mono _ _ _ _ _ _ F1) in Hid. rewrite E1 in Hid. destruct (Z.eqb_spec id 0) as [->|Hn]; cbn [negb] in H.
  2: { injection H as <- _. eexists _, _, _. split; [done|]. destruct (Z.eqb_spec id 0); [done|]. destruct Hid as [[_ Hid]|[? _]]; [|done].
       by apply payee_currency. }
  apply bind_cases in H as [(id & w3 & H3 & H)|(er & -> & H3)]; apply some_account_ok in H3 as (E3 & F3 & id1 & [= <-] & Hid1).
  apply (searched_mono _ (failing e w)) in Hid1; [|by auto]. rewrite E2, E1 in Hid1. destruct (Z.eqb_spec id 0) as [->|Hn]; cbn [negb] in H.
  { injection H as <- _. eexists _, _, _. split; [done|]. by apply payee_none. }
  apply bind_cases in H as [(y & w4 & H4 & [= <- _])|(er & -> & H4)]; apply toRSD_ok in H4 as (_ & y0 & [= <-] & Hy).
  eexists _, _, _. split; [done|]. destruct (Z.eqb_spec id 0); [done|]. destruct Hid1 as [[_ Hid1]|[? _]]; [|done].
  by apply payee_dinars.
Qed.

Lemma payee_first e lost h listing x d a c n :
  payee e lost h listing x d (Some (a, c, n)) -> ~ lost -> order_account h d -> a = dh_AccountID h.
Proof. intros Hp Hl Ho. inversion Hp; subst; tauto. Qed.

(** The credit and the record of it. *)
Definition payout_of (listing : dividendListingRow) (h : dividendHolderRow) (gross taxRSD : float64) (accountID : Z)
    (currency : string) (creditNet : float64) (today : Z) : option dividendPayoutModel :=
  payout_row (mkDividendPayout (dh_UserID h) (dv_ID listing) (dv_Ticker listing) (dh_NetShares h) (listing_price listing) gross
                taxRSD creditNet currency (Some accountID) (negb (dh_IsClient h)) today).

(** A credit that the account's column refuses. *)
Definition too_much (accountID : Z) (x : float64) (d : DB) : Prop :=
  exists acc, d_racun d !! accountID = Some acc /\ add_stanje (arg x) acc = None.

Lemma toRSD_calm x c : calm (toRSD spreadRate x c).
Proof. unfold toRSD, GetRates, getMidRates. solve_calm. Qed.

Lemma findCreditAccount_calm h listing x : calm (findCreditAccount spreadRate h listing x).
Proof. pose proof toRSD_calm. unfold findCreditAccount, some_account. solve_calm; auto. Qed.

Lemma payee_mono (lost lost' : Prop) e h listing x d a : (lost -> lost') -> payee e lost h listing x d a -> payee e lost' h listing x d a.
Proof.
  intros Hl [Ho|id Ho Hn Hi|id y Ho Hs Hn Hi Hc|Ho Hs Hs'].
  - by apply payee_order.
  - apply payee_currency; [tauto|done..].
  - apply payee_dinars; [tauto|by eapply searched_mono|done..].
  - apply payee_none; [tauto|by eapply searched_mono..].
Qed.

Lemma exec_racun_calm_ok id f e w w' : exec_racun id f e w = (Ok tt, w') -> failing e w' -> failing e w.
Proof.
  unfold exec_racun. intros (n & w1 & (d & _ & -> & _)%sql_ok & [= <-])%bind_ok [H|H]; [by left|by right].
Qed.

Lemma exec_racun_refused id f e w er w' : exec_racun id f e w = (Err er, w') ->
  w_db w' = w_db w /\ (failing e w \/ exists acc, d_racun (w_db w) !! id = Some acc /\ f acc = None).
Proof.
  unfold exec_racun. intros H. apply bind_cases in H as [(n & w4 & _ & [=])|(er' & _ & H3)]. split; [by apply sql_err_db in H3|].
  revert H3. unfold sql. destruct (w_aborted w) eqn:Ea; [by left; left|]. destruct (env_fault e (w_step w)) eqn:Ef; [left; right; eauto|].
  unfold update_racun. destruct (d_racun (w_db w) !! id) as [acc|]; [|discriminate]. cbn. destruct (f acc) eqn:Ef'; [discriminate|]. eauto.
Qed.

(** C40: A holder's dividend is a quarter of the yearly one on his shares at the ask
    price (the last price where there is none): all of it is paid to an employee, 85
    percent to a client, the other 15 being the tax that is recorded in dinars.  It goes
    to the account of his order if that is active; only otherwise to an active account
    of his in the currency of the listing; and only if he has none, converted at the
    quoted middle rate (to 0 if there is no rate), to one in dinars.  Nothing is paid only if he has none of these,
    the account cannot hold the credit, or a statement was lost; and a payment goes
    unrecorded only if the row does not fit its columns or a statement was lost. *)
Theorem pay_holder_spec listing h dividendYield today e w r w' :
  payHolder spreadRate listing h dividendYield today e w = (r, w') ->
  let price := if f64_leb (dv_Ask listing) f64_zero then dv_Price listing else dv_Ask listing in
  let gross := f64_mul (f64_mul (f64_of_Z (dh_NetShares h)) price) (f64_div dividendYield (f64_of_Z 4)) in
  let net := if dh_IsClient h then f64_mul gross (f64_lit 85 2) else gross in
  let tax := if dh_IsClient h then f64_mul gross (f64_lit 15 2) else f64_zero in
  let lost := w_aborted w = true \/ exists n, env_fault e n = true in
  r = Ok tt /\
  ((payee e lost h listing net (w_db w) None /\ w_db w' = w_db w) \/
   exists accountID currency creditNet taxRSD,
     payee e lost h listing net (w_db w) (Some (accountID, currency, creditNet)) /\ converted e (dv_Currency listing) tax taxRSD /\
     let paid := booked [(accountID, arg creditNet)] [] (w_db w) in
     ((lost \/ too_much accountID creditNet (w_db w)) /\ w_db w' = w_db w \/
      (lost \/ payout_of listing h gross taxRSD accountID currency creditNet today = None) /\ w_db w' = paid \/
      exists row, payout_of listing h gross taxRSD accountID currency creditNet today = Some row /\
        w_db w' = set_payouts (payouts paid ++ [row])%list paid)).
Proof.
  unfold payHolder. cbv zeta. fold (listing_price listing). fold (failing e w). intros H.
  apply bind_cases in H as [(taxRSD & w1 & H1 & H)|(er & -> & H1)]; pose proof (toRSD_calm _ _ _ _ _ _ H1) as F1;
    apply toRSD_ok in H1 as (E1 & y & [= <-] & Htax).
  apply bind_cases in H as [([[accountID currency] creditNet] & w2 & H2 & H)|(er & -> & H2)];
    pose proof (findCreditAccount_calm _ _ _ _ _ _ _ H2) as F2;
    apply findCreditAccount_ok in H2 as (E2 & a & c & n & [= <- <- <-] & Hp).
  apply (payee_mono _ _ _ _ _ _ _ _ F1) in Hp. rewrite E1 in Hp, E2. destruct (Z.eqb_spec accountID 0) as [->|Hn];
    [injection H as <- <-; split; [done|left]; by split|].
  apply try_bind in H as (ru & w3 & H3 & H). destruct ru as [[]|er].
  2: { injection H as <- <-. split; [done|]. right. exists accountID, currency, creditNet, taxRSD. split_and!; [done..|left].
       apply exec_racun_refused in H3 as [E3 Hr]. rewrite E2 in *. split; [|done]. destruct Hr as [Hf|Hr]; [left; auto|by right]. }
  pose proof (exec_racun_calm_ok _ _ _ _ _ H3) as F3.
  apply books_add in H3. apply try_bind in H as (rc & w4 & H4 & [= <- <-]). split; [done|]. right.
  exists accountID, currency, creditNet, taxRSD. split_and!; [done..|right]. rewrite E2 in H3. unfold payoutRepo_Create, sql in H4.
  fold (payout_of listing h (gross_of (f64_of_Z (dh_NetShares h)) (listing_price listing) dividendYield) taxRSD accountID currency creditNet today) in H4.
  unfold gross_of in H4.
  destruct (w_aborted w3) eqn:A3; [injection H4 as _ <-; left; split; [left; apply F1, F2, F3; by left|done]|].
  destruct (env_fault e (w_step w3)) eqn:Ef; [injection H4 as _ <-; left; split; [left; right; by eexists|done]|].
  destruct (payout_of _ _ _ _ _ _ _ _) as [row|] eqn:Er; injection H4 as _ <-.
  - right. exists row. split; [done|]. cbn. by rewrite H3.
  - left. by split; [right|].
Qed.
End payment.

(** ** A quarter of a bank

    Client 7 bought ten shares, employee 5 twenty; fund 1 has ten shares, and client 8
    is its only investor.  31 March 1970 was a Tuesday. *)

Module dividend_bank.
#[local] Existing Instance decimal_model.lib.

Definition stock : dividendListingRow :=
  mkDividendListing 1 "AAPL" (f64_of_Z 21) (f64_of_Z 20) (Some (f64_lit 4 2)) "USD".
#[local] Instance listings : DividendListings := fun _ => [stock].

Definition racuni : gmap Z racun :=
list_to_map
  [(10, mkRacun "100" 7 "USD" LICNI AKTIVAN 100000 0 scenario.no_info);
   (12, mkRacun "120" 8 "RSD" LICNI AKTIVAN 0 0 scenario.no_info);
   (15, mkRacun "150" 5 "RSD" LICNI AKTIVAN 0 0 scenario.no_info);
   (20, mkRacun "666000122200000012" 2 "RSD" POSLOVNI AKTIVAN 30000 0 scenario.no_info)].

Definition order (user account quantity : Z) (client : bool) (dir : OrderDirection) : orderModel :=
  mkOrderModel user account 1 OrderTypeMarket dir quantity 1 None None OrderStatusDone None true 0 false false false client None 10.

Definition nalozi : gmap Z orderModel :=
list_to_map
  [(1, order 7 10 15 true OrderDirectionBuy); (2, order 7 10 5 true OrderDirectionSell);
   (3, order 5 99 20 false OrderDirectionBuy)].

Definition db1 : DB :=
  mkDB racuni [] nalozi [] [] [] ∅ [] {[1 := 30000]} {[(1, 1) := mkFundSecurity 10000000 2000000]} ∅ ∅ ∅
    (mkBankDB ∅ ∅ ∅ ∅ ∅ ∅ ∅ ∅ ∅
       (mkFundDB {[1 := mkFundModel "Fond" "" 0 (Some 20) 6 0]} {[1 := mkFundPosition 1 8 12 50000000]} [] []))
    otc_empty.
Definition w1 : World := scenario.at_db db1.
Definition e1 : Env := scenario.quiet.

Definition noon (y m d : Z) : Z := 86400 * of_date y m d + 43200.
Definition first := runIfDue scenario.rate (noon 1970 2 31) e1 w1.
Definition again := runIfDue scenario.rate (noon 1970 2 31) e1 first.2.
Definition early := runIfDue scenario.rate (noon 1970 2 30) e1 w1.

Definition balance (id : Z) (w : World) : option Z := r_stanje_racuna <$> d_racun (w_db w) !! id.
Definition paid (w : World) : list (Z * Z * Z * string) :=
  (fun p => (dp_UserID p, dp_Quantity p, dp_NetAmount p, dp_Currency p)) <$> payouts (w_db w).

(** The investor of the fund gets 85 percent of half its dividend; the withheld tax
    stays with the fund. *)
Example the_quarter_is_paid :
  paid first.2 = [(5, 20, 431000000, "RSD"); (7, 10, 1700000, "USD"); (8, 10, 91587500, "RSD")] /\
  (balance 10 first.2, balance 15 first.2, balance 12 first.2, balance 20 first.2) =
    (Some 100170, Some 43100, Some 9159, Some 31616) /\
  d_liquid_assets (w_db first.2) !! 1 = Some 31616 /\
  (paid again.2, balance 20 again.2) = (paid first.2, Some 31616) /\ paid early.2 = [].
Proof. vm_compute. done. Qed.

(** Two orders of one user from two accounts, and a sale: subtracted from each. *)
Definition split_orders : gmap Z orderModel :=
list_to_map
  [(1, order 7 10 10 true OrderDirectionBuy); (2, order 7 11 10 true OrderDirectionBuy); (3, order 7 10 10 true OrderDirectionSell)].
Example sold_twice : holders 1 (set_orders split_orders db1) = [].
Proof. vm_compute. done. Qed.

(** The record of the payments fails: the next tick of the day pays again. *)
Definition forgetful (k : nat) : Env :=
  {| env_fault i := bool_decide (i = k); env_listing := env_listing e1; env_daily_change := env_daily_change e1;
     env_mid_rates := env_mid_rates e1; env_market_status := env_market_status e1; env_rand := env_rand e1;
     env_rand_float := env_rand_float e1; env_now := env_now e1; env_ctx_done := env_ctx_done e1;
     env_row_choice := env_row_choice e1; env_price_tick := env_price_tick e1; env_interference := env_interference e1;
     env_json := env_json e1; env_ticker := env_ticker e1; env_uuid := env_uuid e1; env_peer := env_peer e1;
     env_listing_row := env_listing_row e1 |}.
Definition only_client : World := scenario.at_db (set_fund_securities ∅ (set_orders {[1 := order 7 10 15 true OrderDirectionBuy]} db1)).
Definition unrecorded := runIfDue scenario.rate (noon 1970 2 31) (forgetful 8) only_client.
Definition repeated := runIfDue scenario.rate (noon 1970 2 31 + 43199) e1 unrecorded.2.
Example paid_again :
  (paid unrecorded.2, balance 10 unrecorded.2) = ([], Some 100255) /\ balance 10 repeated.2 = Some 100510.
Proof. vm_compute. done. Qed.

(** ** The theorems, applied *)

Lemma one_dividend_day_per_quarter_witness :
  0 <= 11 <= 11 /\ isLastBusinessDayOfQuarterEnd (noon 2023 11 29) = true /\
  exists day, forall t, nth_month 2023 11 <= truncate_day t < nth_month 2023 12 ->
    isLastBusinessDayOfQuarterEnd t = true <-> truncate_day t = day.
Proof.
  split; [lia|]. split; [by vm_compute|].
  destruct (one_dividend_day_per_quarter 2023 11 ltac:(lia)) as (day & _ & _ & _ & H). by exists day.
Defined.

Lemma dividends_paid_once_witness :
  length (settled_on 1 (of_date 1970 2 31) (w_db first.2)) = 3%nat /\ w_db again.2 = w_db first.2.
Proof.
  split; [by vm_compute|].
  destruct (dividends_paid_once scenario.rate first.2 first.2 (noon 1970 2 31) e1 again.1 again.2 (rtc_refl _ _) (surjective_pairing _)) as [_ K].
  apply K. clear K.
  intros n l ->%list_elem_of_singleton.
  assert (E : length (settled_on (dv_ID stock) (truncate_day (noon 1970 2 31)) (w_db first.2)) = 3%nat) by (by vm_compute).
  intros H. apply (f_equal length) in H. rewrite E in H. discriminate H.
Defined.

Definition seven : dividendHolderRow := mkDividendHolder 7 10 true 10.
Definition paid_seven := payHolder scenario.rate stock seven (f64_lit 4 2) 89 e1 w1.
Lemma pay_holder_spec_witness :
  balance 10 paid_seven.2 = Some 100170 /\
  exists row, payouts (w_db paid_seven.2) = [row] /\ dp_UserID row = 7 /\ dp_AccountID row = Some 10.
Proof.
  assert (E : balance 10 paid_seven.2 = Some 100170) by (vm_compute; reflexivity). split; [exact E|].
  assert (L : ~ (w_aborted w1 = true \/ exists n, env_fault e1 n = true)) by (intros [H|[n H]]; discriminate H).
  destruct (pay_holder_spec scenario.rate stock seven (f64_lit 4 2) 89 e1 w1 paid_seven.1 paid_seven.2 (surjective_pairing _))
    as [_ [[_ K]|(a & c & x & t & Hp & _ & K)]].
  { exfalso. unfold balance in E. rewrite K in E. vm_compute in E. discriminate E. }
  assert (Ea : a = 10).
  { apply (payee_first _ _ _ _ _ _ _ _ _ Hp L). split; [discriminate|]. eexists. vm_compute. split; reflexivity. }
  subst a. destruct K as [[_ K]|[[_ K]|(row & Hr & K)]].
  - exfalso. unfold balance in E. rewrite K in E. vm_compute in E. discriminate E.
  - exfalso. assert (N : length (payouts (w_db paid_seven.2)) = 1%nat) by (vm_compute; reflexivity). rewrite K in N. discriminate N.
  - exists row. split; [rewrite K; reflexivity|]. unfold payout_of, payout_row in Hr.
    repeat (match type of Hr with mbind _ ?m = _ => destruct m; [|discriminate Hr]; cbn in Hr end).
    destruct (_ && _); [|discriminate Hr]. injection Hr as <-. split; reflexivity.
Defined.

End dividend_bank.
